(* ===== verification/_CoqProject ===== *)
-Q . S2P
Prelude.v
Mem.v
Asm.v
StringH.v
StringSpec.v
Libc.v
SortedArray.v
Monitor.v
Printf.v
KState.v
Paging.v
Heap.v
HeapSpec.v
Isr.v
Kmalloc.v
DescTables.v
Tar.v
Vfs.v
Initrd.v
Boot.v
Mktime.v
Vsprintf.v
Build.v
Mm.v
Cow.v
CowFork.v
Ctype.v
Proc.v
Sched.v
WaitQ.v
TimeInit.v
Fork.v
Exit.v
SysCall.v
Signals.v
ForkSpec.v
Sys.v
Console.v
Tty.v
TtyIo.v
TtyOut.v
Printk.v
TtyIn.v
FsState.v
Buffer.v
BufferInv.v
Getblk.v
BufferInit.v
Contents.v
CacheWrite.v
Bitmap.v
Inode.v
Zones.v
InodeDisk.v
Iget.v
FileDev.v
FileWrite.v
Files.v
Pipe.v
Super.v
Namei.v
Lookup.v
Dirs.v
Open.v
Exec.v
ArgStack.v
TtyIoctl.v
Traps.v
Head.v
Descriptors.v
Hd.v
HdQueue.v
HdIntr.v
SmallVolume.v
SmallInodes.v
