(* ===== verification/Prelude.v ===== *)
(** * Two small kernels: a verification library

    The repository holds two i386 kernels in C. src/src/ is a tutorial kernel
    (text console, descriptor tables, interrupts, paging, a kernel heap, a
    ramdisk read through a virtual file system); src/linux-0.01/ is Linux 0.01
    (memory management, processes, terminals, a buffer cache, the minix file
    system, a hard disk driver). This library models both, function by
    function, and proves what they promise. Files come in dependency order.

    ** How the code is modelled

    - Integers are [Z], cut to their C width where C cuts them ([u8] ... [s32],
      this file); memory is a finite map from addresses to bytes ([Mem]).
    - A function that changes state is a computation of the monad [M S]: it
      ends with a value and a state, or with a [stop]: a panic (the message of
      the code's own), a fault (an access C leaves undefined), or no fuel.
    - A loop that a counter of the code bounds recurses on that counter. A loop
      the code does not bound (sleeping until a lock is free, strings of any
      length, starting over) takes [fuel]; theorems say how much is enough, most
      often one unit, and never conclude from a run that stopped for lack of it.
    - What is not C is a parameter with a class that says what is relied on:
      [KernelSvc] (Proc: the other half of the kernel, seen from the processes),
      [Exit] (Mm), [VfsCalls] (Vfs: the file system behind the callbacks),
      [Linker] (Initrd: addresses of functions), [FsWorld] (FsState: addresses
      of the tables, sleeping, transfers of blocks), [TtyOps] (Files: the
      terminals behind character devices), [TtyWorld] (TtyIo: sleeping and the
      serial lines' output), [Controller] (Hd: the disk controller behind its
      ports), [Processor] (Traps: entry points and registers), [Cmos] (TimeInit:
      the clock chip), [SysTable] (SysCall: the functions behind the numbers of
      the system calls). Laws are classes of their own: [DiskOk] and [GoodDisk]
      (Getblk), [SteadyWorld] and [SteadySvc] (Descriptors), [QuietWorld] (TtyOut),
      [Writable] (Signals: the user's stack can be written), [ForkAnswers]
      (ForkSpec: what the other half of the kernel answers to a fork);
      BufferInit, TtyIo, Exit and ForkSpec have concrete instances.
    - The inline assembly of string.h is run on a machine with the registers,
      the flags and the string instructions it uses ([Asm]).
    - A task that gives the processor away stops a definition there; what it
      does when it runs again is a definition of its own ([sleep_on_begin] and
      [sleep_on_end], ...), and WaitQ interleaves them as steps.

    ** The tutorial kernel (src/src)

    Libc (common.c), SortedArray (sorted_array.c), Monitor (monitor.c), Printf
    (freebsd/printf.c), KState (the globals), Paging (paging.c), Heap and
    HeapSpec (heap.c and its contract), Isr (isr.c, timer.c), Kmalloc
    (kmalloc.c), DescTables (descriptor_tables.c), Tar (tar.c, the tail queues
    of freebsd/sys/queue.h), Vfs (vfs.c), Initrd (initrd.c), Boot (main.c and
    init_paging). Theorems: the sorted array stays sorted and is a permutation
    of what was inserted; a character on the console does what a terminal does;
    frames and page tables are handed out once; the heap refines a list of
    blocks with best fit and keeps it tiled; sizes in archives are parsed as
    they were printed; the ramdisk reads the bytes of its files, and its two
    ways of naming a file agree.

    ** Processes and memory (src/linux-0.01/kernel, mm)

    - Mm (mm/memory.c: pages and their counts, page tables, copy on write). Cow:
      the invariant [cow] relates the counts, the page tables and what programs
      see through them; a write to a shared page is seen by its writer alone.
      CowFork: [copy_page_tables] gives the child tables of its own through which
      it sees what the parent sees, and keeps [cow].
    - Proc (the task structure), Sched (sched.c: [schedule] picks the runnable
      task with most time left and recharges when nobody has any), WaitQ (its
      wait queues: no sleeper of a queue is lost, and a schedule in which the
      interruptible ones lose one).
    - Fork, Exit, Sys (fork.c, exit.c, sys.c: a free process number is always
      found, signals and waiting, identities). ForkSpec: the child of a fork,
      field by field, and [sys_fork] on every branch.
    - SysCall (system_call.s, sys.h, unistd.h, lib/: a call from the stub in the
      program through the table and back; a number that is none is refused).
      Signals: the way out of the kernel delivers one signal at most, the lowest
      that is not ignored, on a frame from which the program can go on.
    - Traps (the gates, the exception handlers, the [..._init] functions that
      install gates: which gates are open to user mode), Head (boot/head.s: page
      tables that map the first 8 MB to themselves, the default interrupt table;
      mm/page.s).
    - Mktime (mktime.c, against the calendar), TimeInit (the moment the clock
      chip shows at boot), Vsprintf (vsprintf.c), Build (tools/build.c, on the
      host: the boot image is the boot sector and the system).

    ** Terminals

    Console and Tty (console.c and the queues and the line discipline of
    tty_io.c), TtyIo ([tty_read], [tty_write] and the table of terminals),
    TtyIoctl (fs/tty_ioctl.c), Ctype (ctype.h). Theorems: queues are first in
    first out; scrolling moves lines; TtyOut: what [tty_write] shows, however it
    is cut into pieces; TtyIn: [tty_read] delivers a line in canonical mode;
    the modes read are the modes set. Printk (printk.c, panic.c): the message
    of a panic reaches the console. Files reaches terminals through [TtyOps],
    whose operations TtyIo defines on the state of its own; code of the other
    parts keeps what it prints as a log.

    ** The string library (src/linux-0.01/include/string.h)

    Asm (the machine), StringH (every function, as its assembly), StringSpec
    (against the C library's functions on lists; where [strncat] and [memcmp]
    differ from them).

    ** The file system (src/linux-0.01/fs)

    FsState: buffer heads, inodes, files and super blocks are objects at
    addresses, kept as one store of fields; blocks are bytes of kernel memory.
    (One store goes astray in the code and is a store into memory in the model:
    [insert_into_queues] writes the field of an object at address 0.)
    - Buffer (buffer.c); BufferInv: its hash chains and its ring as lists;
      Getblk: [getblk] finds a cached block again and recycles only unused
      buffers; BufferInit: [buffer_init] establishes the invariant; Contents:
      the cache stands for a function from blocks to bytes ([holds]), which
      [bread] reads whatever is cached or still to be written; CacheWrite: what
      a store into a buffer makes of that function.
    - Bitmap (bitmap.c: [new_block] hands out a free zone, [free_block] gives
      it back), Inode (inode.c, truncate.c), Zones ([bmap] is the map of a
      minix volume), Super (super.c). InodeDisk: where the inodes are on the
      volume; Iget: [iget] answers the inode that is in the table or reads it in,
      and writes out the one it replaces.
    - FileDev (file_dev.c, block_dev.c: reading a file is reading its zones),
      FileWrite (writing it, and reading back what was written), Files
      (read_write.c, pipe.c, char_dev.c, fcntl.c, ioctl.c, part of open.c and
      stat.c), Pipe (a pipe is a first-in first-out list), Namei (namei.c),
      Lookup ([find_entry] finds the first entry of that name), Dirs (the calls
      on directories), Open (open.c, stat.c).
    - Exec (exec.c): [do_execve] and what it calls, on the page tables of [Mm];
      ArgStack: the stack a program starts with.
    - Descriptors: whatever system calls are made, the count of every open file
      is the number of descriptors that hold it, in all tasks.
      SmallVolume: a mounted volume of two buffers, and SmallInodes: a
      table of inodes on it, at which the theorems of this part are applied.
    - Hd (kernel/hd.c); HdQueue: [add_request] keeps the queue in two sweeps of
      the arm; HdIntr: where a block is on the disk, what two interrupts make of
      a request for reading, and why a retry reads the wrong sector.

    ** Not modelled

    The 16-bit loader (boot/boot.s) and the tutorial kernel's boot assembly; the
    entry stubs of asm.s, the keyboard (keyboard.s) and the serial lines'
    interrupts (rs_io.s): their addresses and effects are parameters; in head.s
    the tests of the A20 line and of the coprocessor; the sequence of calls in
    [main] and the first user program, [init]; the macros of queue.h without a
    user. Preemption inside the kernel does not exist in this code; interrupts
    are separate definitions ([do_timer], [hd_interrupt], [do_tty_interrupt]),
    composed in theorems and not interleaved everywhere. *)

From stdpp Require Export base numbers list gmap option strings.
From Stdlib Require Export ZArith Lia.

Global Open Scope Z_scope.

(** ** Machine integers

    A C object of an unsigned [w]-bit type is a [Z] in [[0, 2^w)]; every
    arithmetic result is reduced with the matching wrap below, and a signed
    reading goes through [s8]/[s16]/[s32] (two's complement, i386). *)

Definition u8 (x : Z) : Z := x mod 256.
Definition u16 (x : Z) : Z := x mod 65536.
Definition u32 (x : Z) : Z := x mod 4294967296.
Definition s8 (x : Z) : Z := (x + 128) mod 256 - 128.
Definition s16 (x : Z) : Z := (x + 32768) mod 65536 - 32768.
Definition s32 (x : Z) : Z := (x + 2147483648) mod 4294967296 - 2147483648.

Definition in_u32 (x : Z) : Prop := 0 <= x < 4294967296.

(** C truth values. *)
Definition b2z (b : bool) : Z := if b then 1 else 0.

(** ** Automation for wrapped arithmetic *)

Ltac wrap_unfold := unfold u8, u16, u32, s8, s16, s32, in_u32, b2z in *.
Ltac wrap_lia := wrap_unfold; Z.div_mod_to_equations; lia.

Lemma u32_small x : in_u32 x -> u32 x = x.
Proof. intros H; apply Z.mod_small; exact H. Qed.
Lemma u32_range x : in_u32 (u32 x).
Proof. unfold in_u32, u32; apply Z.mod_pos_bound; lia. Qed.
Lemma u8_small x : 0 <= x < 256 -> u8 x = x.
Proof. intros H; apply Z.mod_small; exact H. Qed.
Lemma u8_range x : 0 <= u8 x < 256.
Proof. apply Z.mod_pos_bound; lia. Qed.
Lemma u16_small x : 0 <= x < 65536 -> u16 x = x.
Proof. intros H; apply Z.mod_small; exact H. Qed.
Lemma u16_range x : 0 <= u16 x < 65536.
Proof. apply Z.mod_pos_bound; lia. Qed.
Lemma s32_small x : -2147483648 <= x < 2147483648 -> s32 x = x.
Proof. intros H; wrap_lia. Qed.
Lemma s32_range x : -2147483648 <= s32 x < 2147483648.
Proof. wrap_lia. Qed.
Lemma s8_small x : -128 <= x < 128 -> s8 x = x.
Proof. intros H; wrap_lia. Qed.
Lemma u32_idem x : u32 (u32 x) = u32 x.
Proof. apply u32_small, u32_range. Qed.
Lemma u8_idem x : u8 (u8 x) = u8 x.
Proof. apply u8_small, u8_range. Qed.
Lemma u32_add_idem_l x y : u32 (u32 x + y) = u32 (x + y).
Proof. apply Zplus_mod_idemp_l. Qed.
Lemma u32_add_idem_r x y : u32 (x + u32 y) = u32 (x + y).
Proof. apply Zplus_mod_idemp_r. Qed.
Lemma s32_u32 x : s32 (u32 x) = s32 x.
Proof. wrap_lia. Qed.
Lemma u32_s32 x : u32 (s32 x) = u32 x.
Proof. wrap_lia. Qed.

Create HintDb wrap.
Create Rewrite HintDb wrap_rw.
#[export] Hint Resolve u32_range u8_range u16_range s32_range : wrap.
#[export] Hint Rewrite u32_idem u8_idem u32_add_idem_l u32_add_idem_r
  s32_u32 u32_s32 : wrap_rw.

(** Drop the signed wraps of in-range values, innermost first. *)
Ltac s32_in_range :=
  repeat match goal with
  | |- context [s32 ?x] =>
      lazymatch x with context [s32 _] => fail | _ => rewrite (s32_small x) by lia end
  end.

(** Closed comparisons, by evaluation. *)
Ltac vm_bounds := repeat split; vm_compute; (reflexivity || discriminate).

(** ** Bit masks *)

Lemma land_ones_mod x n : 0 <= n -> Z.land x (Z.ones n) = x mod 2 ^ n.
Proof. intros; by apply Z.land_ones. Qed.

Lemma land_0xFFF x : Z.land x 0xFFF = x mod 4096.
Proof. change 0xFFF with (Z.ones 12); by rewrite Z.land_ones by lia. Qed.
Lemma land_0xFF x : Z.land x 0xFF = x mod 256.
Proof. change 0xFF with (Z.ones 8); by rewrite Z.land_ones by lia. Qed.
Lemma land_0xFFFF x : Z.land x 0xFFFF = x mod 65536.
Proof. change 0xFFFF with (Z.ones 16); by rewrite Z.land_ones by lia. Qed.

(** [x & mask], the mask keeping bits [k .. w-1] of a [w]-bit [x]. *)
Lemma land_high_mask x k w :
  0 <= k <= w -> 0 <= x < 2 ^ w ->
  Z.land x (Z.shiftl (Z.ones (w - k)) k) = x - x mod 2 ^ k.
Proof.
  intros Hk Hx.
  transitivity (Z.shiftl (Z.shiftr x k) k).
  - apply Z.bits_inj'; intros n Hn. rewrite Z.land_spec.
    destruct (Z.lt_ge_cases n k) as [L | L].
    + rewrite !Z.shiftl_spec_low by lia. apply andb_false_r.
    + rewrite !Z.shiftl_spec, Z.shiftr_spec by lia.
      replace (n - k + k) with n by lia.
      destruct (Z.lt_ge_cases n w) as [L' | L'].
      * rewrite Z.ones_spec_low by lia. apply andb_true_r.
      * rewrite Z.ones_spec_high by lia. rewrite andb_false_r.
        rewrite <- (Z.mod_small x (2 ^ w)) by lia.
        by rewrite Z.mod_pow2_bits_high by lia.
  - rewrite Z.shiftl_mul_pow2, Z.shiftr_div_pow2 by lia.
    pose proof (Z.div_mod x (2 ^ k) ltac:(apply Z.pow_nonzero; lia)). lia.
Qed.

(** [x & 0xFFFFF000] rounds a 32-bit [x] down to a page boundary. *)
Lemma land_page_mask x : in_u32 x -> Z.land x 0xFFFFF000 = x - x mod 4096.
Proof. intros H; apply (land_high_mask x 12 32); [lia | exact H]. Qed.

Lemma land_page_mask_u32 x :
  Z.land (u32 x) 0xFFFFF000 = u32 x - x mod 4096.
Proof. rewrite land_page_mask by apply u32_range. wrap_lia. Qed.

(** Testing one bit: [x & (1 << i)]. *)
Lemma land_pow2_testbit x i :
  0 <= i -> Z.land x (2 ^ i) = if Z.testbit x i then 2 ^ i else 0.
Proof.
  intros Hi. apply Z.bits_inj'; intros n Hn.
  rewrite Z.land_spec, Z.pow2_bits_eqb by lia.
  destruct (Z.eqb_spec i n) as [<- | Hne].
  - rewrite andb_true_r. destruct (Z.testbit x i).
    + by rewrite Z.pow2_bits_true by lia.
    + by rewrite Z.bits_0.
  - rewrite andb_false_r. destruct (Z.testbit x i).
    + by rewrite Z.pow2_bits_false by lia.
    + by rewrite Z.bits_0.
Qed.

Lemma shiftl_1_pow2 i : 0 <= i -> Z.shiftl 1 i = 2 ^ i.
Proof. intros; rewrite Z.shiftl_mul_pow2 by lia; lia. Qed.

Lemma lor_pow2_range w i : in_u32 w -> 0 <= i < 32 -> in_u32 (Z.lor w (2 ^ i)).
Proof.
  intros Hw Hi. rewrite <- (Z.mod_small w (2 ^ 32)) by exact Hw.
  rewrite <- (Z.mod_small (2 ^ i) (2 ^ 32))
    by (split; [lia | apply Z.pow_lt_mono_r; lia]).
  rewrite <- !Z.land_ones, <- Z.land_lor_distr_l, Z.land_ones by lia.
  unfold in_u32. apply Z.mod_pos_bound. lia.
Qed.

Lemma land_lnot_pow2_range w i : in_u32 w -> 0 <= i -> in_u32 (Z.land w (Z.lnot (2 ^ i))).
Proof.
  intros Hw Hi. rewrite <- (Z.mod_small w (2 ^ 32)) by exact Hw.
  rewrite <- Z.land_ones by lia. rewrite (Z.land_comm w), <- Z.land_assoc, Z.land_comm.
  rewrite Z.land_ones by lia. unfold in_u32. apply Z.mod_pos_bound. lia.
Qed.

(** ** Effects

    Code that may panic, fault or loop is a state-passing computation. [Halt]
    carries why control does not come back: [Panic] for the kernels' own
    panic routines (which never return), [Fault] for C undefined behaviour or
    a CPU exception the code does not guard against, [NoFuel] when a
    fuelled loop of the model was not given enough iterations. *)

Inductive stop : Type :=
| Panic (msg : string)
| Fault (why : string)
| NoFuel.

Inductive outcome (S A : Type) : Type :=
| Done (a : A) (s : S)
| Halt (r : stop).
Arguments Done {S A} a s.
Arguments Halt {S A} r.

Definition M (S A : Type) : Type := S -> outcome S A.

#[global] Instance M_ret S : MRet (M S) := fun A a s => Done a s.
#[global] Instance M_bind S : MBind (M S) := fun A B f m s =>
  match m s with Done a s' => f a s' | Halt r => Halt r end.

Definition gets {S A} (f : S -> A) : M S A := fun s => Done (f s) s.
Definition modify {S} (f : S -> S) : M S unit := fun s => Done tt (f s).
Definition halt {S A} (r : stop) : M S A := fun _ => Halt r.
Definition panic {S A} (msg : string) : M S A := halt (Panic msg).
Definition fault {S A} (why : string) : M S A := halt (Fault why).
(** [KASSERT(msg, cond)]. *)
Definition kassert {S} (msg : string) (c : bool) : M S unit :=
  if c then mret tt else panic msg.
Definition when {S} (c : bool) (m : M S unit) : M S unit :=
  if c then m else mret tt.
(** Lift a fallible read of the state. *)
Definition get_opt {S A} (why : string) (f : S -> option A) : M S A :=
  fun s => match f s with Some a => Done a s | None => Halt (Fault why) end.

(** Iterate [body] until it produces [inr]; [fuel] bounds the iterations. *)
Fixpoint iter_fuel {S A B} (fuel : nat) (body : A -> M S (A + B)) (a : A)
    : M S B :=
  match fuel with
  | O => halt NoFuel
  | S fuel' =>
      r ← body a;
      match r with
      | inl a' => iter_fuel fuel' body a'
      | inr b => mret b
      end
  end.

(** Run [f] on [i], [i+1], ..., [i+n-1]: a counted [for] loop. *)
Fixpoint for_loop {S} (n : nat) (i : Z) (f : Z -> M S unit) : M S unit :=
  match n with
  | O => mret tt
  | S n' => _ ← f i; for_loop n' (i + 1) f
  end.

(** ** Total-correctness postconditions

    [post m s Q]: from [s], [m] comes back and its result and final state
    satisfy [Q]. *)

Definition post {S A} (m : M S A) (s : S) (Q : A -> S -> Prop) : Prop :=
  match m s with Done a s' => Q a s' | Halt _ => False end.

Section post_rules.
Context {S : Type}.
Implicit Types s : S.

Lemma post_ret {A} (a : A) s (Q : A -> S -> Prop) : Q a s -> post (mret a) s Q.
Proof. done. Qed.

Lemma post_bind {A B} (m : M S A) (k : A -> M S B) s Q :
  post m s (fun a s' => post (k a) s' Q) -> post (m ≫= k) s Q.
Proof.
  unfold post, mbind, M_bind. destruct (m s); [done | tauto].
Qed.

Lemma post_mono {A} (m : M S A) s (Q Q' : A -> S -> Prop) :
  post m s Q -> (forall a s', Q a s' -> Q' a s') -> post m s Q'.
Proof. unfold post. destruct (m s); auto. Qed.

Lemma post_gets {A} (f : S -> A) s (Q : A -> S -> Prop) :
  Q (f s) s -> post (gets f) s Q.
Proof. done. Qed.

Lemma post_modify (f : S -> S) s (Q : unit -> S -> Prop) :
  Q tt (f s) -> post (modify f) s Q.
Proof. done. Qed.

Lemma post_kassert msg c s (Q : unit -> S -> Prop) :
  c = true -> Q tt s -> post (kassert msg c) s Q.
Proof. by intros ->. Qed.

Lemma post_Done {A} (m : M S A) s a s' (Q : A -> S -> Prop) :
  m s = Done a s' -> Q a s' -> post m s Q.
Proof. unfold post. by intros ->. Qed.

Lemma post_inv {A} (m : M S A) s (Q : A -> S -> Prop) :
  post m s Q -> exists a s', m s = Done a s' /\ Q a s'.
Proof. unfold post. destruct (m s); [eauto | tauto]. Qed.

(** A counted loop keeps an invariant indexed by the counter. *)
Lemma post_for_loop n i (f : Z -> M S unit) (I : Z -> S -> Prop) s :
  I i s ->
  (forall j s', i <= j < i + Z.of_nat n -> I j s' ->
     post (f j) s' (fun _ s'' => I (j + 1) s'')) ->
  post (for_loop n i f) s (fun _ s' => I (i + Z.of_nat n) s').
Proof.
  revert i s. induction n as [| n IH]; intros i s HI Hstep; cbn [for_loop].
  - apply post_ret. by rewrite Z.add_0_r.
  - apply post_bind. eapply post_mono; [apply Hstep; [lia | done] |].
    intros ? s' HI'. eapply post_mono.
    + apply IH; [exact HI' |]. intros j s'' Hj. apply Hstep. lia.
    + intros ? s''. by replace (i + 1 + Z.of_nat n)
        with (i + Z.of_nat (Datatypes.S n)) by lia.
Qed.
End post_rules.

Lemma bind_Done {S A B} (m : M S A) (k : A -> M S B) s a s' :
  m s = Done a s' -> (m ≫= k) s = k a s'.
Proof. unfold mbind, M_bind. by intros ->. Qed.

Lemma bind_Halt {S A B} (m : M S A) (k : A -> M S B) s r :
  m s = Halt r -> (m ≫= k) s = Halt r.
Proof. unfold mbind, M_bind. by intros ->. Qed.

Lemma bind_cong {S A B} (m : M S A) (f g : A -> M S B) s :
  (forall a s', m s = Done a s' -> f a s' = g a s') -> (m ≫= f) s = (m ≫= g) s.
Proof. unfold mbind, M_bind. intros H. destruct (m s); auto. Qed.

Lemma bind_assoc {S A B C} (m : M S A) (f : A -> M S B) (g : B -> M S C) s :
  ((m ≫= f) ≫= g) s = (m ≫= (fun a => f a ≫= g)) s.
Proof. unfold mbind, M_bind. by destruct (m s). Qed.

(** Run the monadic plumbing of a goal or hypothesis by computation, leaving
    the program's own functions folded. *)
Ltac mred :=
  cbv beta iota delta [mbind mret M_bind M_ret gets modify halt panic fault
    kassert when get_opt].
Ltac mred_in H :=
  cbv beta iota delta [mbind mret M_bind M_ret gets modify halt panic fault
    kassert when get_opt] in H.

(** ** Lists *)

Section lists.
Context {A : Type}.
Implicit Types l : list A.

(** Overwrite the element at index [i], an index the caller has checked. *)
Lemma list_insert_lookup_total `{Inhabited A} l i j (x : A) :
  (i < length l)%nat ->
  <[i := x]> l !!! j = if decide (i = j) then x else l !!! j.
Proof.
  intros Hi. rewrite !list_lookup_total_alt. case_decide as E.
  - subst. by rewrite list_lookup_insert_eq.
  - by rewrite list_lookup_insert_ne.
Qed.
End lists.
