(* ===== verification/Mem.v ===== *)
(** * Mem: byte-addressed 32-bit memory

    The address space of the kernel as a finite map from addresses to bytes
    (an address that was never written reads as 0), with the little-endian
    8-, 16- and 32-bit accesses an i386 performs.  Addresses wrap at 2^32. *)

From S2P Require Import Prelude.

Abbreviation memory := (gmap Z Z).

Definition load8 (m : memory) (a : Z) : Z := u8 (default 0 (m !! u32 a)).
Definition store8 (m : memory) (a v : Z) : memory := <[u32 a := u8 v]> m.

Definition load16 (m : memory) (a : Z) : Z := load8 m a + 256 * load8 m (a + 1).
Definition store16 (m : memory) (a v : Z) : memory :=
  store8 (store8 m a v) (a + 1) (v / 256).

Definition load32 (m : memory) (a : Z) : Z :=
  load16 m a + 65536 * load16 m (a + 2).
Definition store32 (m : memory) (a v : Z) : memory :=
  store16 (store16 m a v) (a + 2) (v / 65536).

(** The [n] bytes at [a], and writing a list of bytes. *)
Fixpoint load_bytes (m : memory) (a : Z) (n : nat) : list Z :=
  match n with
  | O => []
  | S n' => load8 m a :: load_bytes m (a + 1) n'
  end.
Fixpoint store_bytes (m : memory) (a : Z) (l : list Z) : memory :=
  match l with
  | [] => m
  | b :: l' => store_bytes (store8 m a b) (a + 1) l'
  end.

(** [disjoint a n b k]: the byte ranges [[a, a+n)] and [[b, b+k)] do not
    wrap and do not meet. *)
Definition disjoint (a n b k : Z) : Prop :=
  0 <= a /\ 0 <= b /\ a + n <= 4294967296 /\ b + k <= 4294967296 /\
  (a + n <= b \/ b + k <= a).

(** Two memories agree on the byte range [[a, a+n)]. *)
Definition agree (m m' : memory) (a n : Z) : Prop :=
  forall x, a <= x < a + n -> load8 m' x = load8 m x.

(** Two memories agree outside the byte range [[a, a+n)]. *)
Definition only_changed (m m' : memory) (a n : Z) : Prop :=
  forall x, in_u32 x -> ~ (a <= x < a + n) -> load8 m' x = load8 m x.

(** ** Bytes *)

Lemma load8_range m a : 0 <= load8 m a < 256.
Proof. apply u8_range. Qed.

Lemma load8_store8 m a b v :
  load8 (store8 m a v) b = if decide (u32 a = u32 b) then u8 v else load8 m b.
Proof.
  unfold load8, store8. rewrite lookup_insert. case_decide; [| done].
  cbn. apply u8_idem.
Qed.

Lemma load8_store8_eq m a v : load8 (store8 m a v) a = u8 v.
Proof. rewrite load8_store8. by rewrite decide_True. Qed.

Lemma load8_store8_ne m a b v : u32 a <> u32 b -> load8 (store8 m a v) b = load8 m b.
Proof. intros. rewrite load8_store8. by rewrite decide_False. Qed.

(** ** Words *)

Lemma load16_range m a : 0 <= load16 m a < 65536.
Proof.
  unfold load16. pose proof (load8_range m a). pose proof (load8_range m (a + 1)). lia.
Qed.

Lemma load32_range m a : in_u32 (load32 m a).
Proof.
  unfold load32, in_u32. pose proof (load16_range m a).
  pose proof (load16_range m (a + 2)). lia.
Qed.

Lemma load8_store16 m a b v :
  load8 (store16 m a v) b =
    if decide (u32 (a + 1) = u32 b) then u8 (v / 256)
    else if decide (u32 a = u32 b) then u8 v else load8 m b.
Proof. unfold store16. by rewrite !load8_store8. Qed.

Lemma load8_store32 m a b v :
  load8 (store32 m a v) b =
    if decide (u32 (a + 3) = u32 b) then u8 (v / 65536 / 256)
    else if decide (u32 (a + 2) = u32 b) then u8 (v / 65536)
    else if decide (u32 (a + 1) = u32 b) then u8 (v / 256)
    else if decide (u32 a = u32 b) then u8 v else load8 m b.
Proof.
  unfold store32. rewrite !load8_store16. by replace (a + 2 + 1) with (a + 3) by lia.
Qed.

(** Decide every address comparison of a load through a store by arithmetic. *)
Ltac decide_addr :=
  repeat (case_decide; try (exfalso; wrap_lia)).

Lemma load16_store16_eq m a v : load16 (store16 m a v) a = u16 v.
Proof. unfold load16. rewrite !load8_store16. decide_addr. wrap_lia. Qed.

Lemma load32_store32_eq m a v : load32 (store32 m a v) a = u32 v.
Proof.
  unfold load32, load16. rewrite !load8_store32. decide_addr. wrap_lia.
Qed.

Lemma load8_store32_ne m a b v :
  disjoint a 4 b 1 -> load8 (store32 m a v) b = load8 m b.
Proof.
  intros D. rewrite load8_store32. unfold disjoint in D. decide_addr. done.
Qed.

Lemma load32_ext m m' a :
  0 <= a -> a + 4 <= 4294967296 -> agree m m' a 4 -> load32 m' a = load32 m a.
Proof.
  intros H0 H1 Ha. unfold load32, load16.
  rewrite !Ha by lia. done.
Qed.

Lemma load32_store32_ne m a b v :
  disjoint a 4 b 4 -> load32 (store32 m a v) b = load32 m b.
Proof.
  intros D. unfold disjoint in D. apply load32_ext; [lia.. |].
  intros x Hx. apply load8_store32_ne. unfold disjoint. lia.
Qed.

Lemma only_changed_store32 m a v :
  0 <= a -> a + 4 <= 4294967296 -> only_changed m (store32 m a v) a 4.
Proof.
  intros H0 H1 x Hx Hout. apply load8_store32_ne. unfold disjoint, in_u32 in *. lia.
Qed.

Lemma only_changed_refl m a n : only_changed m m a n.
Proof. by intros x ??. Qed.

Lemma only_changed_trans m1 m2 m3 a n :
  only_changed m1 m2 a n -> only_changed m2 m3 a n -> only_changed m1 m3 a n.
Proof. intros H1 H2 x Hx Hout. rewrite H2, H1; done. Qed.

Lemma only_changed_weaken m m' a n a' n' :
  only_changed m m' a n -> a' <= a -> a + n <= a' + n' -> only_changed m m' a' n'.
Proof. intros H H1 H2 x Hx Hout. apply H; [done | lia]. Qed.

Lemma load32_only_changed m m' a n b :
  only_changed m m' a n -> disjoint a n b 4 -> load32 m' b = load32 m b.
Proof.
  intros H D. unfold disjoint in D. apply load32_ext; [lia.. |].
  intros x Hx. apply H; unfold in_u32; lia.
Qed.

Create HintDb mem.
#[export] Hint Resolve only_changed_refl : mem.
#[export] Hint Resolve load8_range load16_range load32_range : mem.

(** ** Byte lists *)

Lemma length_load_bytes m a n : length (load_bytes m a n) = n.
Proof. revert a; induction n; intros a; cbn; [done | by rewrite IHn]. Qed.

Lemma lookup_load_bytes m a n i :
  (i < n)%nat -> load_bytes m a n !! i = Some (load8 m (a + Z.of_nat i)).
Proof.
  revert a i; induction n as [| n IH]; intros a i Hi; [lia |]. cbn.
  destruct i as [| i]; cbn; [by rewrite Z.add_0_r |].
  rewrite IH by lia. do 2 f_equal. lia.
Qed.

Lemma load_bytes_ext m m' a n :
  (forall i, (i < n)%nat -> load8 m' (a + Z.of_nat i) = load8 m (a + Z.of_nat i)) ->
  load_bytes m' a n = load_bytes m a n.
Proof.
  revert a; induction n as [| n IH]; intros a H; cbn; [done |]. f_equal.
  - specialize (H 0%nat ltac:(lia)). by rewrite Z.add_0_r in H.
  - apply IH. intros i Hi. specialize (H (S i) ltac:(lia)).
    by replace (a + 1 + Z.of_nat i) with (a + Z.of_nat (S i)) by lia.
Qed.

Lemma load_bytes_app m a n k :
  load_bytes m a (n + k) = load_bytes m a n ++ load_bytes m (a + Z.of_nat n) k.
Proof.
  revert a; induction n as [| n IH]; intros a; cbn; [by rewrite Z.add_0_r |].
  f_equal. rewrite IH. do 2 f_equal. lia.
Qed.

Lemma load8_store_bytes m a l b :
  0 <= a -> a + Z.of_nat (length l) <= 4294967296 -> in_u32 b ->
  load8 (store_bytes m a l) b =
    if decide (a <= b < a + Z.of_nat (length l))
    then u8 (l !!! Z.to_nat (b - a)) else load8 m b.
Proof.
  revert m a; induction l as [| x l IH]; intros m a H0 H1 Hb; cbn in *.
  - by rewrite decide_False by lia.
  - rewrite IH by (done || lia). unfold in_u32 in Hb. case_decide as D.
    + rewrite decide_True by lia.
      replace (Z.to_nat (b - a)) with (S (Z.to_nat (b - (a + 1)))) by lia. done.
    + rewrite load8_store8, !u32_small by (unfold in_u32; lia).
      case_decide as E.
      * subst b. rewrite decide_True by lia. by rewrite Z.sub_diag.
      * by rewrite decide_False by lia.
Qed.

Lemma load_bytes_store_bytes_eq m a l :
  0 <= a -> a + Z.of_nat (length l) <= 4294967296 ->
  Forall (fun b => 0 <= b < 256) l ->
  load_bytes (store_bytes m a l) a (length l) = l.
Proof.
  intros H0 H1 Hl. apply list_eq. intros i.
  destruct (decide (i < length l)%nat) as [Hi | Hi].
  - rewrite lookup_load_bytes by done.
    rewrite load8_store_bytes by (unfold in_u32; lia).
    rewrite decide_True by lia.
    replace (Z.to_nat (a + Z.of_nat i - a)) with i by lia.
    destruct (lookup_lt_is_Some_2 l i Hi) as [x Hx].
    rewrite (list_lookup_total_correct _ _ _ Hx), Hx. f_equal.
    apply u8_small. exact (Forall_lookup_1 _ _ _ _ Hl Hx).
  - rewrite !lookup_ge_None_2; [done | lia | rewrite length_load_bytes; lia].
Qed.

(** ** Words, one behind the other *)

(** The 32-bit words [l] lie at [a]. *)
Definition words_at (m : memory) (a : Z) (l : list Z) : Prop :=
  forall i w, l !! i = Some w -> load32 m (a + 4 * Z.of_nat i) = w.

Lemma words_at_frame m m' b l a n :
  words_at m b l -> only_changed m m' a n -> 0 <= a -> a + n <= 2 ^ 32 -> 0 <= b ->
  b + 4 * Z.of_nat (length l) <= 2 ^ 32 ->
  a + n <= b \/ b + 4 * Z.of_nat (length l) <= a -> words_at m' b l.
Proof.
  intros H Hm ? ? ? ? Hd i w Hi. pose proof (lookup_lt_Some _ _ _ Hi).
  rewrite (load32_only_changed m m' a n); [by apply H | done |]. unfold disjoint. lia.
Qed.

Lemma words_at_cons m a w l : load32 m a = w -> words_at m (a + 4) l -> words_at m a (w :: l).
Proof.
  intros H1 H2 [| i] x E; cbn in E.
  - injection E as <-. by rewrite Z.add_0_r.
  - rewrite <- (H2 i x E). f_equal. lia.
Qed.
Lemma words_at_app m a l l' :
  words_at m a l -> words_at m (a + 4 * Z.of_nat (length l)) l' -> words_at m a (l ++ l').
Proof.
  intros H1 H2 i w E. apply lookup_app_Some in E as [E | [Hi E]]; [by apply H1 |].
  rewrite <- (H2 _ _ E). f_equal. lia.
Qed.

Fixpoint store_words (m : memory) (a : Z) (l : list Z) : memory :=
  match l with
  | [] => m
  | w :: l' => store_words (store32 m a w) (a + 4) l'
  end.

Lemma store_words_at l : forall m a,
  0 <= a -> a + 4 * Z.of_nat (length l) <= 2 ^ 32 ->
  words_at (store_words m a l) a (u32 <$> l) /\ only_changed m (store_words m a l) a (4 * Z.of_nat (length l)).
Proof.
  induction l as [| w l IH]; intros m a H0 H1; cbn [store_words length fmap list_fmap] in *.
  { split; [by intros [] ? | apply only_changed_refl]. }
  destruct (IH (store32 m a w) (a + 4)) as [Hw Hc]; [lia | lia |]. split.
  - apply words_at_cons; [| exact Hw].
    rewrite (load32_only_changed _ _ _ _ a Hc) by (unfold disjoint; lia). apply load32_store32_eq.
  - apply (only_changed_trans _ (store32 m a w)).
    + apply (only_changed_weaken _ _ a 4); [apply only_changed_store32; lia | lia | lia].
    + apply (only_changed_weaken _ _ _ _ _ _ Hc); lia.
Qed.
