(* ===== verification/Asm.v ===== *)
(** * Asm: the instructions of the inline assembly of linux-0.01

    The registers, the flags and the string instructions of an i386, as far as
    src/linux-0.01/include/string.h uses them. A fragment of assembly is a list
    of instructions with local labels; a repeated string instruction takes a
    step for each repetition, as it does in the processor. *)

From S2P Require Import Prelude Mem.

Inductive reg : Type := EAX | EBX | ECX | EDX | ESI | EDI.
Inductive string_op : Type := Lodsb | Stosb | Scasb | Cmpsb | Movsb.
Inductive cond : Type := E | NE | L | S_.

(** Operands in the order of the source: what is read first. *)
Inductive instr : Type :=
| Label (n : nat)
| Cld | Std
| Str (o : string_op) | Rep (o : string_op) | Repe (o : string_op) | Repne (o : string_op)
| Movl (s d : reg) | MovlI (v : Z) (d : reg)
| MovbAlAh                       (** movb %al,%ah *)
| MovbI (v : Z) (d : reg)        (** movb $v,(d) *)
| CmpbAhAl                       (** cmpb %ah,%al *)
| CmpbI (v off : Z) (r : reg)    (** cmpb $v,off(r) *)
| TestbAl                        (** testb %al,%al *)
| Testl (r : reg) | Xorl (r : reg)   (** of a register with itself *)
| Incl (r : reg) | Decl (r : reg) | Notl (r : reg) | Negl (r : reg)
| Xchgl (a b : reg)
| Jmp (n : nat) | J (c : cond) (n : nat).

Record cpu : Type := {
  pc : nat;
  eax : Z; ebx : Z; ecx : Z; edx : Z; esi : Z; edi : Z;
  zf : bool; sf : bool; ovf : bool; df : bool;
  ram : memory
}.

Definition get (r : reg) (c : cpu) : Z :=
  match r with EAX => eax c | EBX => ebx c | ECX => ecx c | EDX => edx c | ESI => esi c | EDI => edi c end.
Definition put (r : reg) (v : Z) (c : cpu) : cpu :=
  let v := u32 v in
  {| pc := pc c;
     eax := match r with EAX => v | _ => eax c end; ebx := match r with EBX => v | _ => ebx c end;
     ecx := match r with ECX => v | _ => ecx c end; edx := match r with EDX => v | _ => edx c end;
     esi := match r with ESI => v | _ => esi c end; edi := match r with EDI => v | _ => edi c end;
     zf := zf c; sf := sf c; ovf := ovf c; df := df c; ram := ram c |}.
Definition set_flags (z s o : bool) (c : cpu) : cpu :=
  {| pc := pc c; eax := eax c; ebx := ebx c; ecx := ecx c; edx := edx c; esi := esi c; edi := edi c;
     zf := z; sf := s; ovf := o; df := df c; ram := ram c |}.
Definition set_df (d : bool) (c : cpu) : cpu :=
  {| pc := pc c; eax := eax c; ebx := ebx c; ecx := ecx c; edx := edx c; esi := esi c; edi := edi c;
     zf := zf c; sf := sf c; ovf := ovf c; df := d; ram := ram c |}.
Definition set_pc (n : nat) (c : cpu) : cpu :=
  {| pc := n; eax := eax c; ebx := ebx c; ecx := ecx c; edx := edx c; esi := esi c; edi := edi c;
     zf := zf c; sf := sf c; ovf := ovf c; df := df c; ram := ram c |}.
Definition set_ram (m : memory) (c : cpu) : cpu :=
  {| pc := pc c; eax := eax c; ebx := ebx c; ecx := ecx c; edx := edx c; esi := esi c; edi := edi c;
     zf := zf c; sf := sf c; ovf := ovf c; df := df c; ram := m |}.

Definition al (c : cpu) : Z := eax c mod 256.
Definition ah (c : cpu) : Z := eax c / 256 mod 256.
Definition put_al (b : Z) (c : cpu) : cpu := put EAX (eax c - al c + u8 b) c.
Definition put_ah (b : Z) (c : cpu) : cpu := put EAX (eax c + 256 * (u8 b - ah c)) c.

(** The flags of [a - b] on bytes, and of a 32-bit result. *)
Definition sub_zf (a b : Z) : bool := u8 (a - b) =? 0.
Definition sub_sf (a b : Z) : bool := 128 <=? u8 (a - b).
Definition sub_of (a b : Z) : bool := negb (s8 (u8 (a - b)) =? s8 a - s8 b).
Definition cmpb (a b : Z) (c : cpu) : cpu := set_flags (sub_zf a b) (sub_sf a b) (sub_of a b) c.
Definition flags32 (r : Z) (o : bool) (c : cpu) : cpu := set_flags (r =? 0) (2147483648 <=? r) o c.

(** ** One instruction *)

Definition forth (c : cpu) (r : reg) : cpu := put r (get r c + (if df c then -1 else 1)) c.
Definition string_step (o : string_op) (c : cpu) : cpu :=
  match o with
  | Lodsb => forth (put_al (load8 (ram c) (esi c)) c) ESI
  | Stosb => forth (set_ram (store8 (ram c) (edi c) (al c)) c) EDI
  | Scasb => forth (cmpb (al c) (load8 (ram c) (edi c)) c) EDI
  | Cmpsb => forth (forth (cmpb (load8 (ram c) (esi c)) (load8 (ram c) (edi c)) c) ESI) EDI
  | Movsb => forth (forth (set_ram (store8 (ram c) (edi c) (load8 (ram c) (esi c))) c) ESI) EDI
  end.

Definition holds (k : cond) (c : cpu) : bool :=
  match k with E => zf c | NE => negb (zf c) | L => xorb (sf c) (ovf c) | S_ => sf c end.

Definition is_label (n : nat) (i : instr) : bool := match i with Label k => (k =? n)%nat | _ => false end.
Fixpoint find_label (n : nat) (p : list instr) : nat :=
  match p with
  | [] => 0
  | i :: p' => if is_label n i then 0%nat else S (find_label n p')
  end.

(** A repeated operation with the test that ends it early. *)
Definition repeat_step (o : string_op) (stop : cpu -> bool) (c : cpu) : cpu :=
  if ecx c =? 0 then set_pc (S (pc c)) c
  else
    let c := string_step o c in
    let c := put ECX (ecx c - 1) c in
    if stop c then set_pc (S (pc c)) c else c.

Definition execute (p : list instr) (i : instr) (c : cpu) : cpu :=
  let next := set_pc (S (pc c)) in
  match i with
  | Label _ => next c
  | Cld => next (set_df false c)
  | Std => next (set_df true c)
  | Str o => next (string_step o c)
  | Rep o => repeat_step o (fun _ => false) c
  | Repe o => repeat_step o (fun c => negb (zf c)) c
  | Repne o => repeat_step o zf c
  | Movl s d => next (put d (get s c) c)
  | MovlI v d => next (put d v c)
  | MovbAlAh => next (put_ah (al c) c)
  | MovbI v d => next (set_ram (store8 (ram c) (get d c) v) c)
  | CmpbAhAl => next (cmpb (al c) (ah c) c)
  | CmpbI v off r => next (cmpb (load8 (ram c) (get r c + off)) v c)
  | TestbAl => next (set_flags (al c =? 0) (128 <=? al c) false c)
  | Testl r => next (flags32 (get r c) false c)
  | Xorl r => next (flags32 0 false (put r 0 c))
  | Incl r => let v := u32 (get r c + 1) in next (flags32 v (v =? 2147483648) (put r v c))
  | Decl r => let v := u32 (get r c - 1) in next (flags32 v (v =? 2147483647) (put r v c))
  | Notl r => next (put r (-1 - get r c) c)
  | Negl r => let v := u32 (- get r c) in next (flags32 v (v =? 2147483648) (put r v c))
  | Xchgl a b => next (put b (get a c) (put a (get b c) c))
  | Jmp n => set_pc (find_label n p) c
  | J k n => if holds k c then set_pc (find_label n p) c else next c
  end.

(** ** Running a fragment: to its end *)

Definition next (p : list instr) (c : cpu) : option cpu :=
  match p !! pc c with Some i => Some (execute p i c) | None => None end.

Fixpoint run (fuel : nat) (p : list instr) (c : cpu) : option cpu :=
  match next p c with
  | None => Some c
  | Some c' => match fuel with O => None | S fuel' => run fuel' p c' end
  end.

(** With fuel enough the fragment ends in [c']. *)
Definition runs (p : list instr) (c c' : cpu) : Prop := exists n, forall fuel, (n <= fuel)%nat -> run fuel p c = Some c'.

Lemma runs_done p c : next p c = None -> runs p c c.
Proof. intros H. exists 0%nat. intros [| fuel] _; cbn; by rewrite H. Qed.

Lemma runs_step p c c1 c' : next p c = Some c1 -> runs p c1 c' -> runs p c c'.
Proof.
  intros H [n Hn]. exists (S n). intros [| fuel] Hf; [lia |]. cbn. rewrite H. apply Hn. lia.
Qed.

Lemma runs_run p c c' : runs p c c' -> exists fuel, run fuel p c = Some c'.
Proof. intros [n Hn]. exists n. by apply Hn. Qed.

Lemma runs_det p c c1 c2 : runs p c c1 -> runs p c c2 -> c1 = c2.
Proof.
  intros [n Hn] [k Hk]. pose proof (Hn (n + k)%nat ltac:(lia)). pose proof (Hk (n + k)%nat ltac:(lia)). congruence.
Qed.

(** ** Addresses in registers *)

Lemma load8_u32 m a : load8 m (u32 a) = load8 m a.
Proof. unfold load8. by rewrite u32_idem. Qed.
Lemma store8_u32 m a v : store8 m (u32 a) v = store8 m a v.
Proof. unfold store8. by rewrite u32_idem. Qed.
Lemma store8_u8 m a v : store8 m a (u8 v) = store8 m a v.
Proof. unfold store8. by rewrite u8_idem. Qed.

(** What the flags of a comparison say. *)
Lemma sub_zf_eq a b : 0 <= a < 256 -> 0 <= b < 256 -> sub_zf a b = (a =? b).
Proof. intros Ha Hb. unfold sub_zf. destruct (Z.eqb_spec a b); [apply Z.eqb_eq | apply Z.eqb_neq]; wrap_lia. Qed.

Lemma sub_less a b : 0 <= a < 256 -> 0 <= b < 256 -> xorb (sub_sf a b) (sub_of a b) = (s8 a <? s8 b).
Proof.
  intros Ha Hb. unfold sub_sf, sub_of.
  destruct (Z.leb_spec 128 (u8 (a - b))), (Z.eqb_spec (s8 (u8 (a - b))) (s8 a - s8 b)), (Z.ltb_spec (s8 a) (s8 b));
    cbn; try done; exfalso; wrap_lia.
Qed.

Lemma sub_same a : sub_zf a a = true /\ sub_sf a a = false /\ sub_of a a = false.
Proof. unfold sub_zf, sub_sf, sub_of. by rewrite !Z.sub_diag. Qed.
