(* ===== verification/StringH.v ===== *)
(** * StringH: src/linux-0.01/include/string.h

    The string functions as the file has them: fragments of assembly with the
    registers their constraints name, run on the machine of [Asm]. A call leaves
    the machine as the fragment does, the direction flag included. *)

From S2P Require Import Prelude Mem Asm.

(** [__asm__(p : ... : ins)]. *)
Definition asm (fuel : nat) (p : list instr) (ins : list (reg * Z)) (c : cpu) : option cpu :=
  run fuel p (set_pc 0 (foldr (fun i c => put i.1 i.2 c) c ins)).
(** The result in a register, or a value of the C code. *)
Definition result (f : cpu -> Z) (o : option cpu) : option (Z * cpu) :=
  match o with Some c => Some (f c, c) | None => None end.

Definition strcpy_asm : list instr :=
  [Cld; Label 1; Str Lodsb; Str Stosb; TestbAl; J NE 1].
Definition strcpy (fuel : nat) (dest src : Z) (c : cpu) : option (Z * cpu) :=
  result (fun _ => dest) (asm fuel strcpy_asm [(ESI, src); (EDI, dest)] c).

Definition strncpy_asm : list instr :=
  [Cld; Label 1; Decl ECX; J S_ 2; Str Lodsb; Str Stosb; TestbAl; J NE 1; Rep Stosb; Label 2].
Definition strncpy (fuel : nat) (dest src count : Z) (c : cpu) : option (Z * cpu) :=
  result (fun _ => dest) (asm fuel strncpy_asm [(ESI, src); (EDI, dest); (ECX, count)] c).

Definition strcat_asm : list instr :=
  [Cld; Repne Scasb; Decl EDI; Label 1; Str Lodsb; Str Stosb; TestbAl; J NE 1].
Definition strcat (fuel : nat) (dest src : Z) (c : cpu) : option (Z * cpu) :=
  result (fun _ => dest) (asm fuel strcat_asm [(ESI, src); (EDI, dest); (EAX, 0); (ECX, 0xffffffff)] c).

Definition strncat_asm (count : Z) : list instr :=
  [Cld; Repne Scasb; Decl EDI; MovlI count ECX; Label 1; Decl ECX; J S_ 2; Str Lodsb; Str Stosb; TestbAl; J NE 1;
   Label 2; Xorl EAX; Str Stosb].
Definition strncat (fuel : nat) (dest src count : Z) (c : cpu) : option (Z * cpu) :=
  result (fun _ => dest) (asm fuel (strncat_asm count) [(ESI, src); (EDI, dest); (EAX, 0); (ECX, 0xffffffff)] c).

Definition strcmp_asm : list instr :=
  [Cld; Label 1; Str Lodsb; Str Scasb; J NE 2; TestbAl; J NE 1; Xorl EAX; Jmp 3;
   Label 2; MovlI 1 EAX; J L 3; Negl EAX; Label 3].
Definition strcmp (fuel : nat) (cs ct : Z) (c : cpu) : option (Z * cpu) :=
  result (fun c => s32 (eax c)) (asm fuel strcmp_asm [(EDI, cs); (ESI, ct)] c).

Definition strncmp_asm : list instr :=
  [Cld; Label 1; Decl ECX; J S_ 2; Str Lodsb; Str Scasb; J NE 3; TestbAl; J NE 1; Label 2; Xorl EAX; Jmp 4;
   Label 3; MovlI 1 EAX; J L 4; Negl EAX; Label 4].
Definition strncmp (fuel : nat) (cs ct count : Z) (c : cpu) : option (Z * cpu) :=
  result (fun c => s32 (eax c)) (asm fuel strncmp_asm [(EDI, cs); (ESI, ct); (ECX, count)] c).

(** A [char] argument arrives in the whole of %eax. *)
Definition strchr_asm : list instr :=
  [Cld; MovbAlAh; Label 1; Str Lodsb; CmpbAhAl; J E 2; TestbAl; J NE 1; MovlI 1 ESI; Label 2; Movl ESI EAX; Decl EAX].
Definition strchr (fuel : nat) (s ch : Z) (c : cpu) : option (Z * cpu) :=
  result eax (asm fuel strchr_asm [(ESI, s); (EAX, ch)] c).

Definition strrchr_asm : list instr :=
  [Cld; MovbAlAh; Label 1; Str Lodsb; CmpbAhAl; J NE 2; Movl ESI EDX; Decl EDX; Label 2; TestbAl; J NE 1].
Definition strrchr (fuel : nat) (s ch : Z) (c : cpu) : option (Z * cpu) :=
  result edx (asm fuel strrchr_asm [(EDX, 0); (ESI, s); (EAX, ch)] c).

(** The common head of the functions that look for characters of a set: the
    length of [ct], in %edx. *)
Definition set_length (ct : Z) : list instr :=
  [MovlI ct EDI; Repne Scasb; Notl ECX; Decl ECX; Movl ECX EDX].
Definition strspn_asm (ct : Z) : list instr :=
  [Cld] ++ set_length ct ++
  [Label 1; Str Lodsb; TestbAl; J E 2; MovlI ct EDI; Movl EDX ECX; Repne Scasb; J E 1; Label 2; Decl ESI].
Definition strspn (fuel : nat) (cs ct : Z) (c : cpu) : option (Z * cpu) :=
  result (fun c => s32 (esi c - cs)) (asm fuel (strspn_asm ct) [(EAX, 0); (ECX, 0xffffffff); (ESI, cs)] c).

Definition strcspn_asm (ct : Z) : list instr :=
  [Cld] ++ set_length ct ++
  [Label 1; Str Lodsb; TestbAl; J E 2; MovlI ct EDI; Movl EDX ECX; Repne Scasb; J NE 1; Label 2; Decl ESI].
Definition strcspn (fuel : nat) (cs ct : Z) (c : cpu) : option (Z * cpu) :=
  result (fun c => s32 (esi c - cs)) (asm fuel (strcspn_asm ct) [(EAX, 0); (ECX, 0xffffffff); (ESI, cs)] c).

Definition strpbrk_asm (ct : Z) : list instr :=
  [Cld] ++ set_length ct ++
  [Label 1; Str Lodsb; TestbAl; J E 2; MovlI ct EDI; Movl EDX ECX; Repne Scasb; J NE 1; Decl ESI; Jmp 3;
   Label 2; Xorl ESI; Label 3].
Definition strpbrk (fuel : nat) (cs ct : Z) (c : cpu) : option (Z * cpu) :=
  result esi (asm fuel (strpbrk_asm ct) [(EAX, 0); (ECX, 0xffffffff); (ESI, cs)] c).

Definition strstr_asm (ct : Z) : list instr :=
  [Cld] ++ set_length ct ++
  [Label 1; MovlI ct EDI; Movl ESI EAX; Movl EDX ECX; Repe Cmpsb; J E 2; Xchgl EAX ESI; Incl ESI; CmpbI 0 (-1) EAX;
   J NE 1; Xorl EAX; Label 2].
Definition strstr (fuel : nat) (cs ct : Z) (c : cpu) : option (Z * cpu) :=
  result eax (asm fuel (strstr_asm ct) [(EAX, 0); (ECX, 0xffffffff); (ESI, cs)] c).

Definition strlen_asm : list instr := [Cld; Repne Scasb; Notl ECX; Decl ECX].
Definition strlen (fuel : nat) (s : Z) (c : cpu) : option (Z * cpu) :=
  result (fun c => s32 (ecx c)) (asm fuel strlen_asm [(EDI, s); (EAX, 0); (ECX, 0xffffffff)] c).

(** %ebx holds [___strtok], %esi the string; both come back. *)
Definition strtok_asm (ct : Z) : list instr :=
  [Testl ESI; J NE 1; Testl EBX; J E 8; Movl EBX ESI; Label 1; Xorl EBX; MovlI (-1) ECX; Xorl EAX; Cld;
   MovlI ct EDI; Repne Scasb; Notl ECX; Decl ECX; J E 7; Movl ECX EDX;
   Label 2; Str Lodsb; TestbAl; J E 7; MovlI ct EDI; Movl EDX ECX; Repne Scasb; J E 2;
   Decl ESI; CmpbI 0 0 ESI; J E 7; Movl ESI EBX;
   Label 3; Str Lodsb; TestbAl; J E 5; MovlI ct EDI; Movl EDX ECX; Repne Scasb; J NE 3;
   Decl ESI; CmpbI 0 0 ESI; J E 5; MovbI 0 ESI; Incl ESI; Jmp 6;
   Label 5; Xorl ESI; Label 6; CmpbI 0 0 EBX; J NE 7; Xorl EBX; Label 7; Testl EBX; J NE 8; Movl EBX ESI; Label 8].
(** The token, the new [___strtok] and the machine. *)
Definition strtok (fuel : nat) (s ct ___strtok : Z) (c : cpu) : option (Z * Z * cpu) :=
  match asm fuel (strtok_asm ct) [(EBX, ___strtok); (ESI, s)] c with
  | Some c => Some (ebx c, esi c, c)
  | None => None
  end.

Definition memcpy_asm : list instr := [Cld; Rep Movsb].
Definition memcpy (fuel : nat) (dest src n : Z) (c : cpu) : option (Z * cpu) :=
  result (fun _ => dest) (asm fuel memcpy_asm [(ECX, n); (ESI, src); (EDI, dest)] c).

Definition memmove_up_asm : list instr := [Std; Rep Movsb].
Definition memmove (fuel : nat) (dest src n : Z) (c : cpu) : option (Z * cpu) :=
  result (fun _ => dest)
    (if dest <? src then asm fuel memcpy_asm [(ECX, n); (ESI, src); (EDI, dest)] c
     else asm fuel memmove_up_asm [(ECX, n); (ESI, src + n - 1); (EDI, dest + n - 1)] c).

Definition memcmp_asm : list instr := [Cld; Repe Cmpsb; J E 1; MovlI 1 EAX; J L 1; Negl EAX; Label 1].
Definition memcmp (fuel : nat) (cs ct count : Z) (c : cpu) : option (Z * cpu) :=
  result (fun c => s32 (eax c)) (asm fuel memcmp_asm [(EAX, 0); (EDI, cs); (ESI, ct); (ECX, count)] c).

Definition memchr_asm : list instr := [Cld; Repne Scasb; J E 1; MovlI 1 EDI; Label 1; Decl EDI].
Definition memchr (fuel : nat) (cs ch count : Z) (c : cpu) : option (Z * cpu) :=
  if count =? 0 then Some (0, c)
  else result edi (asm fuel memchr_asm [(EAX, ch); (EDI, cs); (ECX, count)] c).

Definition memset_asm : list instr := [Cld; Rep Stosb].
Definition memset (fuel : nat) (s ch count : Z) (c : cpu) : option (Z * cpu) :=
  result (fun _ => s) (asm fuel memset_asm [(EAX, ch); (EDI, s); (ECX, count)] c).
