(* ===== verification/StringSpec.v ===== *)
(** * StringSpec: what the functions of string.h compute

    The assembly of src/linux-0.01/include/string.h, run on [Asm]'s machine,
    against the C library's functions on lists of characters. *)

From S2P Require Import Prelude Mem Asm StringH.

#[local] Arguments u32 : simpl never.
#[local] Arguments u8 : simpl never.
#[local] Arguments load8 : simpl never.
#[local] Arguments store8 : simpl never.

(** One instruction of the fragment at hand. *)
Ltac asm_cbn :=
  cbv beta iota zeta delta [execute string_step repeat_step forth cmpb put get set_flags set_pc set_df set_ram put_al put_ah
    al ah flags32 holds pc eax ebx ecx edx esi edi zf sf ovf df ram negb fst snd foldr];
  repeat match goal with |- context [find_label ?n ?p] =>
    let k := eval vm_compute in (find_label n p) in change (find_label n p) with k end.
Ltac asm_step := eapply runs_step; [reflexivity |]; asm_cbn.

(** The machine, in the order of its fields. *)
Abbreviation St := Build_cpu.

Lemma load8_u32_add m a k : load8 m (u32 a + k) = load8 m (a + k).
Proof. rewrite <- load8_u32, u32_add_idem_l. apply load8_u32. Qed.
Lemma load_bytes_u32 m a n : load_bytes m (u32 a) n = load_bytes m a n.
Proof.
  revert a; induction n as [| n IH]; intros a; [done |]. cbn. rewrite load8_u32. f_equal.
  rewrite <- IH, u32_add_idem_l. apply IH.
Qed.

Lemma store_bytes_u32 m a l : store_bytes m (u32 a) l = store_bytes m a l.
Proof.
  revert m a; induction l as [| b l IH]; intros m a; [done |]. cbn. rewrite store8_u32.
  rewrite <- IH, u32_add_idem_l. apply IH.
Qed.

(** The characters [w] lie at [a], all different from [b], and then [b]. *)
Definition until (b : Z) (m : memory) (a : Z) (w : list Z) : Prop :=
  load_bytes m a (length w) = w /\ (b ∉ w) /\ load8 m (a + Z.of_nat (length w)) = b.
(** A string. *)
Abbreviation cstring := (until 0).

Lemma until_cons b m a c w : until b m a (c :: w) <-> load8 m a = c /\ c <> b /\ until b m (a + 1) w.
Proof.
  unfold until. cbn [length load_bytes]. rewrite not_elem_of_cons, Nat2Z.inj_succ.
  replace (a + 1 + Z.of_nat (length w)) with (a + Z.succ (Z.of_nat (length w))) by lia.
  split; [intros (H & [H1 H2] & H3); injection H as -> H; by rewrite H |].
  intros (-> & H1 & H2 & H3 & H4). by rewrite H2.
Qed.
Lemma until_nil b m a : until b m a [] <-> load8 m a = b.
Proof. unfold until. cbn. rewrite Z.add_0_r. split; [tauto |]. intros H. split; [done |]. split; [apply not_elem_of_nil | done]. Qed.
Lemma until_u32 b m a w : until b m (u32 a) w <-> until b m a w.
Proof. unfold until. by rewrite load_bytes_u32, load8_u32_add. Qed.
Lemma until_ext b m m' a w :
  until b m a w -> (forall i, 0 <= i <= Z.of_nat (length w) -> load8 m' (a + i) = load8 m (a + i)) -> until b m' a w.
Proof.
  intros (H1 & H2 & H3) H. split; [| split; [done |]].
  - rewrite <- H1 at 2. apply load_bytes_ext. intros i Hi. apply H. lia.
  - rewrite H; [done | lia].
Qed.

(** [repne scasb] finds the first byte equal to %al. *)
Lemma repne_scasb_run p n c' w : forall a b k d si di z s o m,
  p !! n = Some (Repne Scasb) -> until (a mod 256) m di w -> Z.of_nat (length w) < k < 2 ^ 32 ->
  runs p (St (S n) a b (k - Z.of_nat (length w) - 1) d si (u32 (di + Z.of_nat (length w) + 1)) true false false false m) c' ->
  runs p (St n a b k d si di z s o false m) c'.
Proof.
  induction w as [| c w IH]; intros a b k d si di z s o m Hp Hu Hk Hr.
  - apply until_nil in Hu. eapply runs_step; [unfold next; cbn [pc]; by rewrite Hp |].
    cbn [execute]. unfold repeat_step. cbn [ecx]. rewrite (proj2 (Z.eqb_neq k 0)) by lia.
    cbn [string_step]. unfold al. cbn [eax ram edi]. rewrite Hu. asm_cbn. destruct (sub_same (a mod 256)) as (-> & -> & ->).
    cbn [length] in *. rewrite (u32_small (k - 1)) by (unfold in_u32; lia).
    replace (k - Z.of_nat 0 - 1) with (k - 1) in Hr by lia. replace (di + Z.of_nat 0 + 1) with (di + 1) in Hr by lia.
    exact Hr.
  - apply until_cons in Hu as (Hc & Hne & Hu). pose proof (load8_range m di).
    pose proof (Z.mod_pos_bound a 256 ltac:(lia)).
    eapply runs_step; [unfold next; cbn [pc]; by rewrite Hp |].
    cbn [execute]. unfold repeat_step. cbn [ecx]. rewrite (proj2 (Z.eqb_neq k 0)) by lia.
    cbn [string_step]. unfold al. cbn [eax ram edi]. rewrite Hc. asm_cbn.
    rewrite (sub_zf_eq (a mod 256) c), (proj2 (Z.eqb_neq (a mod 256) c)) by (lia || congruence).
    cbn [length] in *. rewrite (u32_small (k - 1)) by (unfold in_u32; lia).
    apply IH; [done | by apply until_u32 | lia |].
    rewrite <- Z.add_assoc, u32_add_idem_l.
    replace (k - 1 - Z.of_nat (length w) - 1) with (k - Z.of_nat (S (length w)) - 1) by lia.
    by replace (di + 1 + (Z.of_nat (length w) + 1)) with (di + Z.of_nat (S (length w)) + 1) by lia.
Qed.

(** ** strlen *)

Lemma strlen_run s w c :
  cstring (ram c) s w -> Z.of_nat (length w) < 2 ^ 31 ->
  exists c', runs strlen_asm (set_pc 0 (put EDI s (put EAX 0 (put ECX 0xffffffff c)))) c' /\
    s32 (ecx c') = Z.of_nat (length w) /\ ram c' = ram c.
Proof.
  intros Hs Hl. destruct c as [n a b k d si di z sg o dir m]. cbn in Hs. eexists. split.
  - asm_cbn. asm_step. eapply repne_scasb_run; [done | by apply until_u32 | change (u32 4294967295) with 4294967295; lia |].
    asm_step. asm_step. apply runs_done. reflexivity.
  - cbn. split; [| done]. change (u32 4294967295) with 4294967295. wrap_lia.
Qed.

(** ** Copying *)

(** The [n] bytes at [s] and the [n] bytes at [d] do not meet. *)
Definition apart (s d n : Z) : Prop := forall i j, 0 <= i < n -> 0 <= j < n -> u32 (s + i) <> u32 (d + j).

Lemma apart_next s d n : apart s d n -> apart (u32 (s + 1)) (u32 (d + 1)) (n - 1).
Proof.
  intros H i j Hi Hj. rewrite !u32_add_idem_l, <- !Z.add_assoc. apply H; lia.
Qed.

Lemma until_store8 b m s d v w :
  until b m (s + 1) w -> apart s d (Z.of_nat (length w) + 2) -> until b (store8 m d v) (u32 (s + 1)) w.
Proof.
  intros Hu Ha. apply until_u32. eapply until_ext; [exact Hu |]. intros i Hi. apply load8_store8_ne.
  rewrite <- Z.add_assoc. intros E. symmetry in E. revert E. rewrite <- (Z.add_0_r d). apply Ha; lia.
Qed.

Lemma al_put a b : 0 <= b < 256 -> u32 (a - a mod 256 + u8 b) mod 256 = b.
Proof. wrap_lia. Qed.

Lemma store8_mod m a b v : 0 <= b < 256 -> v mod 256 = b -> store8 m a (v mod 256) = store8 m a b.
Proof. by intros ? ->. Qed.

Lemma strcpy_loop w : forall a b k d si di z s o m,
  cstring m si w -> apart si di (Z.of_nat (length w) + 1) ->
  exists c', runs strcpy_asm (St 1 a b k d si di z s o false m) c' /\ ram c' = store_bytes m di (w ++ [0]) /\ df c' = false.
Proof.
  induction w as [| c w IH]; intros a b k d si di z s o m Hs Ha.
  - apply until_nil in Hs. eexists. split.
    + do 5 asm_step. rewrite Hs, al_put by done. change (0 =? 0) with true. cbv iota. apply runs_done. reflexivity.
    + done.
  - apply until_cons in Hs as (Hc & Hne & Hs). cbn [length] in Ha. rewrite Nat2Z.inj_succ in Ha.
    pose proof (load8_range m si) as Hr. rewrite Hc in Hr.
    set (a1 := u32 (a - a mod 256 + u8 c)). assert (Ea : a1 mod 256 = c) by by apply al_put.
    destruct (IH a1 b k d (u32 (si + 1)) (u32 (di + 1)) false (128 <=? c) false (store8 m di c)) as (c' & H1 & H2 & H3).
    + apply until_store8; [done |]. intros i j Hi Hj. apply Ha; lia.
    + apply apart_next in Ha. intros i j Hi Hj. apply Ha; lia.
    + exists c'. split; [| split; [| done]].
      * do 5 asm_step. rewrite Hc. fold a1. rewrite Ea, (proj2 (Z.eqb_neq c 0) Hne). exact H1.
      * rewrite H2. cbn [app store_bytes]. by rewrite store_bytes_u32.
Qed.

(** ** Comparing *)

(** The order of C strings, on signed characters; a string ends in a zero. *)
Fixpoint compare (a b : list Z) : Z :=
  match a, b with
  | [], [] => 0
  | [], y :: _ => Z.sgn (0 - s8 y)
  | x :: _, [] => Z.sgn (s8 x)
  | x :: a', y :: b' => if x =? y then compare a' b' else Z.sgn (s8 x - s8 y)
  end.

Lemma compare_refl a : compare a a = 0.
Proof. induction a as [| x a IH]; [done |]. cbn. by rewrite Z.eqb_refl. Qed.

(** What follows a mismatch of [x] in the first string with [y] in the second,
    [lt] for "y is less". *)
Lemma strcmp_mismatch x y a b k d si di z s o m :
  x <> y -> 0 <= x < 256 -> 0 <= y < 256 -> xorb s o = (s8 y <? s8 x) ->
  exists c', runs strcmp_asm (St 9 a b k d si di z s o false m) c' /\ s32 (eax c') = Z.sgn (s8 x - s8 y) /\ ram c' = m.
Proof.
  intros Hne Hx Hy Hl. assert (s8 x <> s8 y) by wrap_lia. destruct (Z.ltb_spec (s8 y) (s8 x)).
  - eexists. split; [do 3 asm_step; rewrite Hl; asm_step; apply runs_done; reflexivity |].
    cbn. split; [| done]. rewrite Z.sgn_pos by lia. done.
  - eexists. split; [do 3 asm_step; rewrite Hl; do 2 asm_step; apply runs_done; reflexivity |].
    cbn. split; [| done]. rewrite Z.sgn_neg by lia. done.
Qed.

Lemma strcmp_turn x y a b k d si di z s o m c' :
  load8 m di = x -> load8 m si = y ->
  let a1 := u32 (a - a mod 256 + u8 y) in
  (if x =? y
   then runs strcmp_asm (if y =? 0 then St 7 a1 b k d (u32 (si + 1)) (u32 (di + 1)) true false false false m
                         else St 1 a1 b k d (u32 (si + 1)) (u32 (di + 1)) false (128 <=? y) false false m) c'
   else runs strcmp_asm
          (St 9 a1 b k d (u32 (si + 1)) (u32 (di + 1)) false (sub_sf y x) (sub_of y x) false m) c') ->
  runs strcmp_asm (St 1 a b k d si di z s o false m) c'.
Proof.
  intros Hx Hy a1 H. pose proof (load8_range m di). pose proof (load8_range m si).
  do 4 asm_step. rewrite Hx, Hy, al_put by lia. rewrite sub_zf_eq by lia. fold a1.
  destruct (Z.eqb_spec x y) as [-> | Hne].
  - rewrite Z.eqb_refl. cbv iota. do 2 asm_step.
    replace (a1 mod 256) with y by (symmetry; apply al_put; lia). destruct (Z.eqb_spec y 0) as [-> |]; exact H.
  - rewrite (proj2 (Z.eqb_neq y x)) by congruence. exact H.
Qed.

Lemma strcmp_loop wa : forall wb a b k d si di z s o m,
  cstring m di wa -> cstring m si wb ->
  exists c', runs strcmp_asm (St 1 a b k d si di z s o false m) c' /\ s32 (eax c') = compare wa wb /\ ram c' = m.
Proof.
  assert (Hone : forall x y a b k d si di z s o m, load8 m di = x -> load8 m si = y -> x <> y ->
    exists c', runs strcmp_asm (St 1 a b k d si di z s o false m) c' /\ s32 (eax c') = Z.sgn (s8 x - s8 y) /\ ram c' = m).
  { intros x y a b k d si di z s o m Hx Hy Hne. pose proof (load8_range m di). pose proof (load8_range m si).
    destruct (strcmp_mismatch x y (u32 (a - a mod 256 + u8 y)) b k d (u32 (si + 1)) (u32 (di + 1)) false
      (sub_sf y x) (sub_of y x) m) as (c' & H1 & H2); [done | lia | lia | apply sub_less; lia |].
    exists c'. split; [| exact H2]. apply (strcmp_turn x y); [done | done |].
    by rewrite (proj2 (Z.eqb_neq x y) Hne). }
  induction wa as [| x wa IH]; intros [| y wb] a b k d si di z s o m Ha Hb; cbn [compare];
    rewrite ?until_nil, ?until_cons in Ha; rewrite ?until_nil, ?until_cons in Hb.
  - eexists. split; [apply (strcmp_turn 0 0); [done | done |]; rewrite !Z.eqb_refl; cbv iota;
      do 3 asm_step; apply runs_done; reflexivity | done].
  - destruct Hb as (Hy & Hne & _). apply (Hone 0 y); (done || congruence).
  - destruct Ha as (Hx & Hne & _). rewrite <- (Z.sub_0_r (s8 x)). apply (Hone x 0); (done || congruence).
  - destruct Ha as (Hx & Hx0 & Ha), Hb as (Hy & Hy0 & Hb). destruct (Z.eqb_spec x y) as [-> | Hne]; [| by apply Hone].
    destruct (IH wb (u32 (a - a mod 256 + u8 y)) b k d (u32 (si + 1)) (u32 (di + 1)) false (128 <=? y) false m)
      as (c' & H1 & H2); [by apply until_u32 | by apply until_u32 |].
    exists c'. split; [| exact H2]. apply (strcmp_turn y y); [done | done |].
    by rewrite Z.eqb_refl, (proj2 (Z.eqb_neq y 0) Hy0).
Qed.

(** ** Moving *)

(** [n] bytes at [s] of [m] are at [d] in [m'], and nothing else has changed. *)
Definition moved (m m' : memory) (s d n : Z) : Prop :=
  forall x, in_u32 x -> load8 m' x = if decide (d <= x < d + n) then load8 m (s + (x - d)) else load8 m x.

Lemma moved_0 m s d : moved m m s d 0.
Proof. intros x _. by rewrite decide_False by lia. Qed.

Lemma load8_store8_dec m a v x :
  in_u32 a -> in_u32 x -> load8 (store8 m a v) x = if decide (a = x) then u8 v else load8 m x.
Proof. intros Ha Hx. rewrite load8_store8, !u32_small by done. done. Qed.

(** The lowest byte first, to a lower address; the highest first, to a higher one. *)
Lemma moved_low m m' s d n :
  0 <= n -> 0 <= d <= s -> s + n + 1 <= 2 ^ 32 ->
  moved (store8 m d (load8 m s)) m' (s + 1) (d + 1) n -> moved m m' s d (n + 1).
Proof.
  intros Hn Hd Hs H x Hx. rewrite H by done. unfold in_u32 in Hx.
  destruct (decide (d + 1 <= x < d + 1 + n)).
  - rewrite decide_True by lia. rewrite load8_store8_dec by (unfold in_u32; lia).
    rewrite decide_False by lia. f_equal. lia.
  - rewrite load8_store8_dec by (unfold in_u32; lia). destruct (decide (d = x)) as [-> | Hne].
    + rewrite decide_True by lia. rewrite u8_small by apply load8_range. f_equal. lia.
    + by rewrite decide_False by lia.
Qed.

Lemma moved_high m m' s d n :
  0 <= n -> 0 <= s <= d -> d + n + 1 <= 2 ^ 32 ->
  moved (store8 m (d + n) (load8 m (s + n))) m' s d n -> moved m m' s d (n + 1).
Proof.
  intros Hn Hd Hs H x Hx. rewrite H by done. unfold in_u32 in Hx.
  destruct (decide (d <= x < d + n)).
  - rewrite decide_True by lia. rewrite load8_store8_dec by (unfold in_u32; lia).
    by rewrite decide_False by lia.
  - rewrite load8_store8_dec by (unfold in_u32; lia). destruct (decide (d + n = x)) as [<- | Hne].
    + rewrite decide_True by lia. rewrite u8_small by apply load8_range. f_equal. lia.
    + by rewrite decide_False by lia.
Qed.

(** One repetition of [rep movsb], in either direction. *)
Lemma rep_movsb_turn (p : list instr) n c' a b k d si di z s o (dir : bool) m :
  p !! n = Some (Rep Movsb) -> 0 < k < 2 ^ 32 ->
  let e := if dir then -1 else 1 in
  runs p (St n a b (k - 1) d (u32 (si + e)) (u32 (di + e)) z s o dir (store8 m di (load8 m si))) c' ->
  runs p (St n a b k d si di z s o dir m) c'.
Proof.
  intros Hp Hk e H. eapply runs_step; [unfold next; cbn [pc]; by rewrite Hp |].
  cbn [execute]. unfold repeat_step. cbn [ecx]. rewrite (proj2 (Z.eqb_neq k 0)) by lia.
  asm_cbn. rewrite (u32_small (k - 1)) by (unfold in_u32; lia). exact H.
Qed.

Lemma rep_end (p : list instr) n o a b d si di z s v dir m :
  p !! n = Some (Rep o) -> p !! S n = None ->
  runs p (St n a b 0 d si di z s v dir m) (St (S n) a b 0 d si di z s v dir m).
Proof.
  intros Hp He. eapply runs_step; [unfold next; cbn [pc]; by rewrite Hp |]. apply runs_done. unfold next. asm_cbn. by rewrite He.
Qed.

Lemma rep_movsb_up (p : list instr) n j : forall a b d si di z s o m,
  p !! n = Some (Rep Movsb) -> p !! S n = None -> Z.of_nat j < 2 ^ 32 ->
  ((0 < j)%nat -> 0 <= di <= si /\ si + Z.of_nat j <= 2 ^ 32) ->
  exists c', runs p (St n a b (Z.of_nat j) d si di z s o false m) c' /\ moved m (ram c') si di (Z.of_nat j) /\ df c' = false.
Proof.
  induction j as [| j IH]; intros a b d si di z s o m Hp He Hj Hr.
  - eexists. split; [by apply (rep_end p n Movsb) | split; [apply moved_0 | done]].
  - specialize (Hr ltac:(lia)). rewrite Nat2Z.inj_succ in *. unfold Z.succ in *.
    destruct (IH a b d (u32 (si + 1)) (u32 (di + 1)) z s o (store8 m di (load8 m si))) as (c' & H1 & H2 & H3);
      [done | done | lia | intros Hj'; rewrite !u32_small by (unfold in_u32; lia); lia |].
    exists c'. split; [| split; [| done]].
    + apply rep_movsb_turn; [done | lia |]. by replace (Z.of_nat j + 1 - 1) with (Z.of_nat j) by lia.
    + apply moved_low; [lia | lia | lia |]. destruct j as [| j].
      * intros x Hx. rewrite (H2 x Hx). by rewrite !decide_False by lia.
      * by rewrite !u32_small in H2 by (unfold in_u32; lia).
Qed.

Lemma rep_movsb_down (p : list instr) n j : forall a b d si di z s o m,
  p !! n = Some (Rep Movsb) -> p !! S n = None -> 0 <= si <= di -> di + Z.of_nat j <= 2 ^ 32 -> Z.of_nat j < 2 ^ 32 ->
  exists c', runs p (St n a b (Z.of_nat j) d (u32 (si + Z.of_nat j - 1)) (u32 (di + Z.of_nat j - 1)) z s o true m) c' /\
    moved m (ram c') si di (Z.of_nat j) /\ df c' = true.
Proof.
  induction j as [| j IH]; intros a b d si di z s o m Hp He Hr Hd Hj.
  - eexists. split; [by apply (rep_end p n Movsb) | split; [apply moved_0 | done]].
  - rewrite Nat2Z.inj_succ in *. unfold Z.succ in *.
    destruct (IH a b d si di z s o (store8 m (di + Z.of_nat j) (load8 m (si + Z.of_nat j)))) as (c' & H1 & H2 & H3);
      [done | done | lia | lia | lia |].
    exists c'. split; [| split; [| done]].
    + apply rep_movsb_turn; [done | lia |].
      replace (Z.of_nat j + 1 - 1) with (Z.of_nat j) by lia.
      assert (E : forall x, u32 (u32 (x + (Z.of_nat j + 1) - 1) + -1) = u32 (x + Z.of_nat j - 1))
        by (intros x; rewrite u32_add_idem_l; f_equal; lia).
      cbv zeta. rewrite !E, load8_u32, store8_u32.
      replace (si + (Z.of_nat j + 1) - 1) with (si + Z.of_nat j) by lia.
      by replace (di + (Z.of_nat j + 1) - 1) with (di + Z.of_nat j) by lia.
    + apply moved_high; [lia | lia | lia |]. exact H2.
Qed.

(** ** Appending *)

(** The bytes [strncat] writes: a string shorter than [count] gets a second
    zero. *)
Definition appended (count : Z) (w : list Z) : list Z :=
  take (Z.to_nat count) w ++ (if Z.of_nat (length w) <? count then [0; 0] else [0]).

Lemma appended_cons k c w : 0 < k -> appended k (c :: w) = c :: appended (k - 1) w.
Proof.
  intros Hk. unfold appended. replace (Z.to_nat k) with (S (Z.to_nat (k - 1))) by lia. cbn [take length app].
  f_equal. f_equal. rewrite Nat2Z.inj_succ. destruct (Z.ltb_spec (Z.of_nat (length w)) (k - 1)), (Z.ltb_spec (Z.succ (Z.of_nat (length w))) k);
    (done || lia).
Qed.

(** From the last label on. *)
Lemma strncat_tail count a b k d si di z s o m :
  exists c', runs (strncat_asm count) (St 11 a b k d si di z s o false m) c' /\ ram c' = store8 m di 0 /\ df c' = false.
Proof. eexists. split; [do 3 asm_step; apply runs_done; reflexivity | done]. Qed.

Lemma strncat_loop count w : forall a b k d si di z s o m,
  cstring m si w -> apart si di (Z.of_nat (length w) + 1) -> 0 <= k < 2 ^ 31 ->
  exists c', runs (strncat_asm count) (St 4 a b k d si di z s o false m) c' /\
    ram c' = store_bytes m di (appended k w) /\ df c' = false.
Proof.
  induction w as [| c w IH]; intros a b k d si di z s o m Hs Ha Hk;
    (destruct (Z.eq_dec k 0) as [-> | Hk0];
     [edestruct (strncat_tail count a b) as (c' & H1 & H2 & H3); exists c';
      split; [do 3 asm_step; cbn; exact H1 | split; [by rewrite H2 | done]] |]).
  all: assert (Ek : (2147483648 <=? u32 (k - 1)) = false) by (apply Z.leb_gt; rewrite u32_small; unfold in_u32; lia).
  - apply until_nil in Hs.
    edestruct (strncat_tail count (u32 (a - a mod 256 + u8 0)) b (u32 (k - 1)) d (u32 (si + 1)) (u32 (di + 1)))
      as (c' & H1 & H2 & H3).
    exists c'. split; [| split; [| done]].
    + do 3 asm_step. rewrite Ek, u32_idem. do 4 asm_step. rewrite Hs, al_put by done. change (0 =? 0) with true.
      cbv iota. exact H1.
    + rewrite H2. unfold appended. rewrite take_nil, (proj2 (Z.ltb_lt _ k)) by (cbn; lia). cbn [app store_bytes].
      by rewrite store8_u32.
  - apply until_cons in Hs as (Hc & Hne & Hs). cbn [length] in Ha. rewrite Nat2Z.inj_succ in Ha.
    pose proof (load8_range m si) as Hr. rewrite Hc in Hr.
    set (a1 := u32 (a - a mod 256 + u8 c)). assert (Ea : a1 mod 256 = c) by by apply al_put.
    destruct (IH a1 b (u32 (k - 1)) d (u32 (si + 1)) (u32 (di + 1)) false (128 <=? c) false (store8 m di c)) as (c' & H1 & H2 & H3).
    + apply until_store8; [done |]. intros i j Hi Hj. apply Ha; lia.
    + apply apart_next in Ha. intros i j Hi Hj. apply Ha; lia.
    + rewrite u32_small; unfold in_u32; lia.
    + exists c'. split; [| split; [| done]].
      * do 3 asm_step. rewrite Ek, u32_idem. do 4 asm_step. rewrite Hc. fold a1. rewrite Ea, (proj2 (Z.eqb_neq c 0) Hne). exact H1.
      * rewrite H2, appended_cons by lia. cbn [store_bytes]. rewrite store_bytes_u32.
        by rewrite (u32_small (k - 1)) by (unfold in_u32; lia).
Qed.

(** ** The functions *)

(** With fuel enough the call gives [a]. *)
Definition returns {A} (f : nat -> option A) (a : A) : Prop := exists n, forall fuel, (n <= fuel)%nat -> f fuel = Some a.

Lemma asm_returns p ins c c' f :
  runs p (set_pc 0 (foldr (fun i c => put i.1 i.2 c) c ins)) c' ->
  returns (fun fuel => result f (asm fuel p ins c)) (f c', c').
Proof. intros [n Hn]. exists n. intros fuel Hf. unfold asm. by rewrite Hn. Qed.

Lemma asm_put_u32 r v c : put r (u32 v) c = put r v c.
Proof. unfold put. by rewrite u32_idem. Qed.

Lemma strlen_correct s w c :
  cstring (ram c) s w -> Z.of_nat (length w) < 2 ^ 31 ->
  exists c', returns (fun fuel => strlen fuel s c) (Z.of_nat (length w), c') /\ ram c' = ram c.
Proof.
  intros Hs Hl. destruct (strlen_run s w c Hs Hl) as (c' & H1 & H2 & H3). exists c'. split; [| done].
  rewrite <- H2. by apply (asm_returns strlen_asm [(EDI, s); (EAX, 0); (ECX, 0xffffffff)] c c' (fun c => s32 (ecx c))).
Qed.

Lemma strcpy_correct dest src w c :
  cstring (ram c) src w -> apart src dest (Z.of_nat (length w) + 1) ->
  exists c', returns (fun fuel => strcpy fuel dest src c) (dest, c') /\ ram c' = store_bytes (ram c) dest (w ++ [0]).
Proof.
  intros Hs Ha. destruct c as [n a b k d si di z s o dir m]. cbn [ram] in *.
  destruct (strcpy_loop w a b k d (u32 src) (u32 dest) z s o m) as (c' & H1 & H2 & _).
  - by apply until_u32.
  - intros i j Hi Hj. rewrite !u32_add_idem_l. by apply Ha.
  - exists c'. split; [| by rewrite H2, store_bytes_u32].
    apply (asm_returns strcpy_asm [(ESI, src); (EDI, dest)] _ c' (fun _ => dest)). asm_cbn. asm_step. exact H1.
Qed.

(** The characters of a string are bytes, not zero. *)
Lemma cstring_chars m a w : cstring m a w -> Forall (fun x => 0 < x < 256) w.
Proof.
  revert a; induction w as [| x w IH]; intros a H; constructor; apply until_cons in H as (Hx & Hne & H).
  - pose proof (load8_range m a). lia.
  - by apply (IH (a + 1)).
Qed.

Lemma compare_0 a b :
  Forall (fun x => 0 < x < 256) a -> Forall (fun x => 0 < x < 256) b -> compare a b = 0 -> a = b.
Proof.
  intros Ha. revert b; induction Ha as [| x a Hx Ha IH]; intros b Hb; destruct Hb as [| y b Hy Hb]; cbn; intros H.
  - done.
  - exfalso. assert (s8 y <> 0) by wrap_lia. lia.
  - exfalso. assert (s8 x <> 0) by wrap_lia. lia.
  - destruct (Z.eqb_spec x y) as [-> | Hne]; [f_equal; by apply IH |].
    exfalso. assert (s8 x <> s8 y) by wrap_lia. lia.
Qed.

(** C24: [strcmp] decides the order of two strings: it returns, with -1, 0 or 1
    as the first string is less than, equal to or greater than the second in
    dictionary order; 0 exactly for equal strings, and without a store to memory.
    Characters compare as signed, so that those above 127 come before all others
    and even before the end of a string. *)
Theorem strcmp_correct cs ct a b c :
  cstring (ram c) cs a -> cstring (ram c) ct b ->
  (exists c', returns (fun fuel => strcmp fuel cs ct c) (compare a b, c') /\ ram c' = ram c) /\
  (compare a b = 0 <-> a = b).
Proof.
  intros Ha Hb. split.
  2: { split; [apply compare_0; by eapply cstring_chars | intros ->; apply compare_refl]. }
  destruct c as [n ra rb k d si di z s o dir m]. cbn [ram] in *.
  destruct (strcmp_loop a b ra rb k d (u32 ct) (u32 cs) z s o m) as (c' & H1 & H2 & H3);
    [by apply until_u32 | by apply until_u32 |].
  exists c'. split; [| done]. rewrite <- H2.
  apply (asm_returns strcmp_asm [(EDI, cs); (ESI, ct)] _ c' (fun c => s32 (eax c))). asm_cbn. asm_step. exact H1.
Qed.

(** C25: [memmove] moves [n] bytes whatever the overlap of source and
    destination: afterwards the destination holds what the source held, and no
    other byte has changed. For a destination not below the source it returns
    with the direction flag set. *)
Theorem memmove_correct dest src n c :
  0 <= n < 2 ^ 31 -> 0 <= dest -> 0 <= src -> dest + n <= 2 ^ 32 -> src + n <= 2 ^ 32 ->
  exists c', returns (fun fuel => memmove fuel dest src n c) (dest, c') /\
    moved (ram c) (ram c') src dest n /\ df c' = negb (dest <? src).
Proof.
  intros Hn Hd Hs Hd' Hs'. destruct c as [p a b k d si di z s o dir m]. cbn [ram].
  unfold memmove. destruct (Z.ltb_spec dest src) as [Hlt | Hge]; cbn [negb].
  - destruct (rep_movsb_up memcpy_asm 1 (Z.to_nat n) a b d (u32 src) (u32 dest) z s o m) as (c' & H1 & H2 & H3);
      [done | done | lia | intros Hj; rewrite !u32_small by (unfold in_u32; lia); lia |].
    rewrite Z2Nat.id in * by lia. exists c'. split; [| split; [| done]].
    + apply (asm_returns memcpy_asm [(ECX, n); (ESI, src); (EDI, dest)] _ c' (fun _ => dest)). asm_cbn.
      rewrite (u32_small n) by (unfold in_u32; lia). asm_step. exact H1.
    + destruct (Z.eq_dec n 0) as [-> | Hn0].
      * intros x Hx. rewrite (H2 x Hx). by rewrite !decide_False by lia.
      * by rewrite !u32_small in H2 by (unfold in_u32; lia).
  - destruct (rep_movsb_down memmove_up_asm 1 (Z.to_nat n) a b d src dest z s o m) as (c' & H1 & H2 & H3);
      [done | done | lia | lia | lia |].
    rewrite Z2Nat.id in * by lia. exists c'. split; [| split; done].
    apply (asm_returns memmove_up_asm [(ECX, n); (ESI, src + n - 1); (EDI, dest + n - 1)] _ c' (fun _ => dest)).
    asm_cbn. rewrite (u32_small n) by (unfold in_u32; lia). asm_step. exact H1.
Qed.

(** [strncat] appends the first [count] characters of the source, or all of
    it, and a zero, and changes no other byte, with one exception: when the
    source is shorter than [count] it writes a second zero, one byte behind the
    end of the new string. *)
Theorem strncat_correct dest src count w1 w2 c :
  0 <= count < 2 ^ 31 -> cstring (ram c) dest w1 -> cstring (ram c) src w2 -> Z.of_nat (length w1) < 2 ^ 31 ->
  apart src (dest + Z.of_nat (length w1)) (Z.of_nat (length w2) + 1) ->
  exists c', returns (fun fuel => strncat fuel dest src count c) (dest, c') /\
    ram c' = store_bytes (ram c) (dest + Z.of_nat (length w1)) (appended count w2).
Proof.
  intros Hk H1 H2 Hl Ha. destruct c as [n a b k d si di z s o dir m]. cbn [ram] in *.
  set (v := u32 (u32 (u32 dest + Z.of_nat (length w1) + 1) - 1)).
  assert (Ev : v = u32 (dest + Z.of_nat (length w1)))
    by (unfold v; rewrite <- !Z.add_assoc, u32_add_idem_l, <- Z.add_opp_r, u32_add_idem_l; f_equal; lia).
  destruct (strncat_loop count w2 (u32 0) b (u32 count) d (u32 src) v (v =? 0) (2147483648 <=? v) (v =? 2147483647) m)
    as (c' & G1 & G2 & _).
  - by apply until_u32.
  - intros i j Hi Hj. rewrite Ev, !u32_add_idem_l. by apply Ha.
  - rewrite u32_small; unfold in_u32; lia.
  - exists c'. split.
    + apply (asm_returns (strncat_asm count) [(ESI, src); (EDI, dest); (EAX, 0); (ECX, 0xffffffff)] _ c' (fun _ => dest)).
      asm_cbn. asm_step. eapply repne_scasb_run; [done | apply until_u32; exact H1 | change (u32 4294967295) with 4294967295; lia |].
      do 2 asm_step. rewrite u32_idem. exact G1.
    + rewrite G2, Ev, store_bytes_u32. by rewrite (u32_small count) by (unfold in_u32; lia).
Qed.

(** [memcmp]: the first difference of two lists of the same length. *)
Fixpoint differ (a b : list Z) : Z :=
  match a, b with
  | x :: a', y :: b' => if x =? y then differ a' b' else Z.sgn (s8 x - s8 y)
  | _, _ => 0
  end.

(** From the jump on, with the flags of the last comparison, of [y] with [x]. *)
Lemma memcmp_tail x y b k d si di m :
  0 <= x < 256 -> 0 <= y < 256 ->
  exists c', runs memcmp_asm (St 2 0 b k d si di (sub_zf y x) (sub_sf y x) (sub_of y x) false m) c' /\
    s32 (eax c') = (if x =? y then 0 else Z.sgn (s8 x - s8 y)) /\ ram c' = m.
Proof.
  intros Hx Hy. pose proof (sub_zf_eq y x Hy Hx) as Hz. pose proof (sub_less y x Hy Hx) as Hl.
  rewrite Z.eqb_sym in Hz. destruct (Z.eqb_spec x y) as [-> | Hne].
  - eexists. split; [asm_step; rewrite Hz; asm_step; apply runs_done; reflexivity | done].
  - assert (s8 x <> s8 y) by wrap_lia. destruct (Z.ltb_spec (s8 y) (s8 x)).
    + eexists. split; [asm_step; rewrite Hz; do 2 asm_step; rewrite Hl; asm_step; apply runs_done; reflexivity |].
      cbn. split; [| done]. rewrite Z.sgn_pos by lia. done.
    + eexists. split; [asm_step; rewrite Hz; do 2 asm_step; rewrite Hl; do 2 asm_step; apply runs_done; reflexivity |].
      cbn. split; [| done]. rewrite Z.sgn_neg by lia. done.
Qed.

Lemma memcmp_turn b k d si di z s o m c' :
  0 < k < 2 ^ 32 ->
  let x := load8 m di in
  let y := load8 m si in
  runs memcmp_asm (St (if x =? y then 1 else 2) 0 b (k - 1) d (u32 (si + 1)) (u32 (di + 1))
                      (sub_zf y x) (sub_sf y x) (sub_of y x) false m) c' ->
  runs memcmp_asm (St 1 0 b k d si di z s o false m) c'.
Proof.
  intros Hk x y H. eapply runs_step; [reflexivity |]. cbn [execute]. unfold repeat_step. cbn [ecx].
  rewrite (proj2 (Z.eqb_neq k 0)) by lia. asm_cbn. fold x y. rewrite (u32_small (k - 1)) by (unfold in_u32; lia).
  revert H. rewrite (sub_zf_eq y x) by apply load8_range. rewrite (Z.eqb_sym y x).
  by destruct (x =? y).
Qed.

Lemma memcmp_loop n : forall b d si di z s o m,
  Z.of_nat (S n) < 2 ^ 32 ->
  exists c', runs memcmp_asm (St 1 0 b (Z.of_nat (S n)) d si di z s o false m) c' /\
    s32 (eax c') = differ (load_bytes m di (S n)) (load_bytes m si (S n)) /\ ram c' = m.
Proof.
  induction n as [| n IH]; intros b d si di z s o m Hn; pose proof (load8_range m di) as Hx; pose proof (load8_range m si) as Hy.
  - destruct (memcmp_tail (load8 m di) (load8 m si) b 0 d (u32 (si + 1)) (u32 (di + 1)) m Hx Hy) as (c' & H1 & H2 & H3).
    exists c'. split; [| split; [| done]].
    + apply memcmp_turn; [lia |]. cbv zeta. change (Z.of_nat 1 - 1) with 0.
      destruct (load8 m di =? load8 m si); [asm_step; exact H1 | exact H1].
    + rewrite H2. cbn. by destruct (load8 m di =? load8 m si).
  - destruct (Z.eq_dec (load8 m di) (load8 m si)) as [E | E].
    + destruct (IH b d (u32 (si + 1)) (u32 (di + 1)) (sub_zf (load8 m si) (load8 m di)) (sub_sf (load8 m si) (load8 m di))
        (sub_of (load8 m si) (load8 m di)) m) as (c' & H1 & H2 & H3); [lia |].
      exists c'. split; [| split; [| done]].
      * apply memcmp_turn; [lia |]. cbv zeta. rewrite (proj2 (Z.eqb_eq _ _) E).
        replace (Z.of_nat (S (S n)) - 1) with (Z.of_nat (S n)) by lia. exact H1.
      * rewrite H2, !load_bytes_u32. change (load_bytes m ?x (S (S n))) with (load8 m x :: load_bytes m (x + 1) (S n)).
        cbn [differ]. by rewrite (proj2 (Z.eqb_eq _ _) E).
    + destruct (memcmp_tail (load8 m di) (load8 m si) b (Z.of_nat (S (S n)) - 1) d (u32 (si + 1)) (u32 (di + 1)) m Hx Hy)
        as (c' & H1 & H2 & H3).
      exists c'. split; [| split; [| done]].
      * apply memcmp_turn; [lia |]. cbv zeta. by rewrite (proj2 (Z.eqb_neq _ _) E).
      * rewrite H2. cbn [load_bytes differ]. by rewrite (proj2 (Z.eqb_neq _ _) E).
Qed.

(** [memcmp] compares [count] bytes, as signed characters, when there is one:
    -1, 0 or 1 for the first difference. With a [count] of 0 it compares nothing
    and answers what the flags of the caller's last instruction say: 0 for a
    "zero", 1 for a "less", -1 otherwise. *)
Theorem memcmp_correct cs ct count c :
  0 <= count < 2 ^ 32 ->
  exists v c', returns (fun fuel => memcmp fuel cs ct count c) (v, c') /\ ram c' = ram c /\
    v = (if count =? 0 then if zf c then 0 else if xorb (sf c) (ovf c) then 1 else -1
         else differ (load_bytes (ram c) cs (Z.to_nat count)) (load_bytes (ram c) ct (Z.to_nat count))).
Proof.
  intros Hk. destruct c as [n a b k d si di z s o dir m]. cbn [ram].
  assert (Hr : forall c' v, runs memcmp_asm (St 1 0 b count d (u32 ct) (u32 cs) z s o false m) c' -> s32 (eax c') = v ->
    returns (fun fuel => memcmp fuel cs ct count (St n a b k d si di z s o dir m)) (v, c')).
  { intros c' v H <-. apply (asm_returns memcmp_asm [(EAX, 0); (EDI, cs); (ESI, ct); (ECX, count)] _ c' (fun c => s32 (eax c))).
    asm_cbn. rewrite (u32_small count) by (unfold in_u32; lia). asm_step. exact H. }
  destruct (Z.eqb_spec count 0) as [-> | Hne].
  - assert (H : exists c', runs memcmp_asm (St 1 0 b 0 d (u32 ct) (u32 cs) z s o false m) c' /\
      s32 (eax c') = (if z then 0 else if xorb s o then 1 else -1) /\ ram c' = m).
    { destruct z; [| destruct (xorb s o) eqn:E]; eexists.
      - split; [do 3 asm_step; apply runs_done; reflexivity | done].
      - split; [asm_step; change (0 =? 0) with true; cbv iota; do 3 asm_step; rewrite E; asm_step; apply runs_done; reflexivity | done].
      - split; [asm_step; change (0 =? 0) with true; cbv iota; do 3 asm_step; rewrite E; do 2 asm_step; apply runs_done; reflexivity | done]. }
    destruct H as (c' & H1 & H2 & H3). do 2 eexists. split; [exact (Hr c' _ H1 H2) | done].
  - destruct (memcmp_loop (Z.to_nat (count - 1)) b d (u32 ct) (u32 cs) z s o m) as (c' & H1 & H2 & H3); [lia |].
    replace (Z.of_nat (S (Z.to_nat (count - 1)))) with count in H1 by lia.
    replace (S (Z.to_nat (count - 1))) with (Z.to_nat count) in H2 by lia.
    rewrite !load_bytes_u32 in H2. do 2 eexists. split; [exact (Hr c' _ H1 H2) | done].
Qed.

(** ** Examples *)

Definition string_demo : cpu :=
  St 0 0 0 0 0 0 0 false true false false
    (store_bytes (store_bytes (store_bytes ∅ 100 [97; 98; 99; 0; 77]) 200 [97; 200; 0]) 300 [120; 0; 1; 2; 3; 4]).

(** Decide what a closed memory holds. *)
Ltac string_at :=
  split; [vm_compute; reflexivity | split; [apply (bool_decide_eq_true_1 (_ ∉ _)); vm_compute; reflexivity | vm_compute; reflexivity]].

(** "abc" and "a" with a character above 127. *)
Lemma strcmp_witness :
  (exists c', returns (fun fuel => strcmp fuel 100 200 string_demo) (1, c') /\ ram c' = ram string_demo) /\
  (compare [97; 98; 99] [97; 200] = 0 <-> [97; 98; 99] = [97; 200]).
Proof.
  apply (strcmp_correct 100 200 [97; 98; 99] [97; 200] string_demo); string_at.
Defined.

(** "bc" two bytes up, over itself. *)
Lemma memmove_witness :
  exists c', returns (fun fuel => memmove fuel 102 101 2 string_demo) (102, c') /\
    load8 (ram c') 102 = 98 /\ load8 (ram c') 103 = 99 /\ df c' = true.
Proof.
  destruct (memmove_correct 102 101 2 string_demo) as (c' & H1 & H2 & H3); [lia.. |].
  exists c'. split; [exact H1 |]. split; [| split; [| exact H3]].
  - rewrite (H2 102) by (unfold in_u32; lia). vm_compute. reflexivity.
  - rewrite (H2 103) by (unfold in_u32; lia). vm_compute. reflexivity.
Defined.

(** "abc", with room for five, to "x": the byte behind the end is lost. *)
Lemma strncat_witness :
  exists c', returns (fun fuel => strncat fuel 300 100 5 string_demo) (300, c') /\
    ram c' = store_bytes (ram string_demo) 301 [97; 98; 99; 0; 0].
Proof.
  apply (strncat_correct 300 100 5 [120] [97; 98; 99] string_demo); [lia | string_at | string_at | cbn; lia |].
  intros i j Hi Hj. cbn in Hi, Hj. rewrite !u32_small; unfold in_u32; cbn; lia.
Defined.

(** No bytes at all, after a comparison that found "less" without overflow. *)
Lemma memcmp_witness : exists v c', returns (fun fuel => memcmp fuel 100 200 0 string_demo) (v, c') /\ v = 1.
Proof.
  destruct (memcmp_correct 100 200 0 string_demo) as (v & c' & H1 & _ & H2); [lia |].
  exists v, c'. split; [exact H1 | exact H2].
Defined.
