(* ===== verification/Libc.v ===== *)
(** * Libc: the global functions of src/src/common.c

    [memset], [bzero], [memcpy], [strlen] and [strcmp] over byte memory, and
    [outb] as an append-only trace of port writes.  The unbounded string loops
    take fuel; a string that fits the fuel gives the result. *)

From S2P Require Import Prelude Mem.

(** ** Port output *)

Definition io_trace : Type := list (Z * Z).

(** [outb(port, value)]: the arguments are narrowed to 16 and 8 bits. *)
Definition outb (port value : Z) (tr : io_trace) : io_trace :=
  tr ++ [(u16 port, u8 value)].

(** ** Memory blocks *)

(** [for (bb = b; len > 0; len--) *bb++ = c;] *)
Fixpoint memset_loop (m : memory) (bb c : Z) (len : nat) : memory :=
  match len with
  | O => m
  | S len' => memset_loop (store8 m bb c) (bb + 1) c len'
  end.

Definition memset (m : memory) (b c len : Z) : memory :=
  memset_loop m b c (Z.to_nat len).

Definition bzero (m : memory) (b len : Z) : memory := memset m b 0 len.

(** [while (count--) *dst8++ = *src8++;] *)
Fixpoint memcpy_loop (m : memory) (dst8 src8 : Z) (count : nat) : memory :=
  match count with
  | O => m
  | S count' =>
      memcpy_loop (store8 m dst8 (load8 m src8)) (dst8 + 1) (src8 + 1) count'
  end.

Definition memcpy (m : memory) (dest src count : Z) : memory :=
  memcpy_loop m dest src (Z.to_nat count).

(** ** Strings *)

(** [for (l = 0; s[l] != '\0'; l++) ;] *)
Fixpoint strlen_loop (fuel : nat) (m : memory) (s l : Z) : option Z :=
  match fuel with
  | O => None
  | S fuel' =>
      if load8 m (s + l) =? 0 then Some l
      else strlen_loop fuel' m s (u32 (l + 1))
  end.

Definition strlen (fuel : nat) (m : memory) (s : Z) : option Z :=
  strlen_loop fuel m s 0.

(** [while ( *s1 == *s2++ ) if ( *s1++ == '\0' ) return 0;
    return *(unsigned char * )s1 - *(unsigned char * )(s2 - 1);] *)
Fixpoint strcmp (fuel : nat) (m : memory) (s1 s2 : Z) : option Z :=
  match fuel with
  | O => None
  | S fuel' =>
      if load8 m s1 =? load8 m s2 then
        if load8 m s1 =? 0 then Some 0
        else strcmp fuel' m (s1 + 1) (s2 + 1)
      else Some (load8 m s1 - load8 m s2)
  end.

(** ** Facts about the block operations *)

Lemma load8_memset_loop m b c len x :
  0 <= b -> b + Z.of_nat len <= 4294967296 -> in_u32 x ->
  load8 (memset_loop m b c len) x =
    if decide (b <= x < b + Z.of_nat len) then u8 c else load8 m x.
Proof.
  revert m b; induction len as [| n IH]; intros m b H0 H1 Hx; cbn.
  - by rewrite decide_False by lia.
  - rewrite IH by (done || lia). rewrite load8_store8.
    rewrite !u32_small by (done || unfold in_u32; lia).
    repeat case_decide; done || lia.
Qed.

Lemma load8_memset m b c len x :
  0 <= b -> 0 <= len -> b + len <= 4294967296 -> in_u32 x ->
  load8 (memset m b c len) x =
    if decide (b <= x < b + len) then u8 c else load8 m x.
Proof.
  intros. unfold memset. rewrite load8_memset_loop by (done || lia).
  by rewrite Z2Nat.id by lia.
Qed.

Lemma only_changed_memset m b c len :
  0 <= b -> 0 <= len -> b + len <= 4294967296 ->
  only_changed m (memset m b c len) b len.
Proof.
  intros H0 H1 H2 x Hx Hout. rewrite load8_memset by done.
  by rewrite decide_False.
Qed.

Lemma load8_memcpy_loop m d s n x :
  0 <= d -> d + Z.of_nat n <= 4294967296 -> disjoint d (Z.of_nat n) s (Z.of_nat n) ->
  in_u32 x ->
  load8 (memcpy_loop m d s n) x =
    if decide (d <= x < d + Z.of_nat n) then load8 m (s + (x - d)) else load8 m x.
Proof.
  revert m d s; induction n as [| n IH]; intros m d s H0 H1 D Hx; cbn.
  - by rewrite decide_False by lia.
  - unfold disjoint in D. unfold in_u32 in Hx.
    rewrite IH by (unfold disjoint, in_u32; lia).
    case_decide as E.
    + rewrite decide_True by lia. rewrite load8_store8_ne by wrap_lia.
      f_equal. lia.
    + rewrite load8_store8, !u32_small by (unfold in_u32; lia).
      case_decide as E2.
      * subst x. rewrite decide_True by lia. rewrite u8_small by apply load8_range.
        f_equal. lia.
      * by rewrite decide_False by lia.
Qed.

Lemma load8_memcpy m d s n x :
  0 <= n -> disjoint d n s n -> in_u32 x ->
  load8 (memcpy m d s n) x =
    if decide (d <= x < d + n) then load8 m (s + (x - d)) else load8 m x.
Proof.
  intros Hn D Hx. unfold memcpy.
  rewrite load8_memcpy_loop; rewrite ?Z2Nat.id; unfold disjoint in *; try lia; done.
Qed.

Lemma load_bytes_memcpy m d s n :
  disjoint d (Z.of_nat n) s (Z.of_nat n) ->
  load_bytes (memcpy m d s (Z.of_nat n)) d n = load_bytes m s n.
Proof.
  intros D. apply list_eq. intros i.
  destruct (decide (i < n)%nat) as [Hi | Hi].
  - rewrite !lookup_load_bytes by done. f_equal.
    unfold disjoint in D.
    rewrite load8_memcpy by (unfold disjoint, in_u32; lia).
    rewrite decide_True by lia. f_equal. lia.
  - rewrite !lookup_ge_None_2; [done | rewrite length_load_bytes; lia ..].
Qed.

(** ** C strings

    [cstr m a l]: the NUL-terminated string at [a] is [l]. *)

Definition cstr (m : memory) (a : Z) (l : list Z) : Prop :=
  load_bytes m a (length l) = l /\ Forall (fun b => 0 < b < 256) l /\
  load8 m (a + Z.of_nat (length l)) = 0.

Lemma cstr_nil m a : cstr m a [] <-> load8 m a = 0.
Proof.
  unfold cstr; cbn. rewrite Z.add_0_r. split; [tauto |]. repeat split; auto.
Qed.

Lemma cstr_cons m a b l :
  cstr m a (b :: l) <-> load8 m a = b /\ 0 < b < 256 /\ cstr m (a + 1) l.
Proof.
  unfold cstr; cbn. rewrite Forall_cons.
  replace (a + Z.of_nat (S (length l))) with (a + 1 + Z.of_nat (length l)) by lia.
  split.
  - intros (E & [Hb Hl] & Hz). injection E as E1 E2. by rewrite E1.
  - intros (-> & Hb & E & Hl & Hz). rewrite E. done.
Qed.

Lemma strlen_loop_cstr fuel m s l k :
  0 <= k -> k + Z.of_nat (length l) < 4294967296 ->
  cstr m (s + k) l -> (length l < fuel)%nat ->
  strlen_loop fuel m s k = Some (k + Z.of_nat (length l)).
Proof.
  revert l k; induction fuel as [| fuel IH]; intros l k Hk Hb Hs Hf; [lia |].
  cbn [strlen_loop]. destruct l as [| b l].
  - apply cstr_nil in Hs. rewrite Hs. cbn. by rewrite Z.add_0_r.
  - apply cstr_cons in Hs as (E & Hr & Hs). cbn [length] in *.
    rewrite E, (proj2 (Z.eqb_neq b 0)) by lia.
    rewrite u32_small by (unfold in_u32; lia).
    rewrite (IH l) by (try lia; by replace (s + (k + 1)) with (s + k + 1) by lia).
    f_equal. lia.
Qed.

Lemma strlen_cstr fuel m s l :
  cstr m s l -> Z.of_nat (length l) < 4294967296 -> (length l < fuel)%nat ->
  strlen fuel m s = Some (Z.of_nat (length l)).
Proof.
  intros Hs Hb Hf. unfold strlen.
  rewrite (strlen_loop_cstr fuel m s l 0); try done; try lia.
  by rewrite Z.add_0_r.
Qed.

(** The reference order on strings: byte-wise, shorter first. *)
Fixpoint lex_cmp (l1 l2 : list Z) : Z :=
  match l1, l2 with
  | [], [] => 0
  | [], b :: _ => - b
  | a :: _, [] => a
  | a :: l1', b :: l2' => if a =? b then lex_cmp l1' l2' else a - b
  end.

Lemma strcmp_lex fuel m s1 s2 l1 l2 :
  cstr m s1 l1 -> cstr m s2 l2 ->
  (length l1 < fuel)%nat ->
  strcmp fuel m s1 s2 = Some (lex_cmp l1 l2).
Proof.
  revert s1 s2 l1 l2; induction fuel as [| fuel IH]; intros s1 s2 l1 l2 H1 H2 Hf; [lia |].
  cbn [strcmp]. destruct l1 as [| a l1], l2 as [| b l2];
    rewrite ?cstr_nil, ?cstr_cons in *; cbn [lex_cmp length] in *.
  - by rewrite H1, H2.
  - destruct H2 as (E2 & Hr & H2). rewrite H1, E2.
    by rewrite (proj2 (Z.eqb_neq 0 b)) by lia.
  - destruct H1 as (E1 & Hr & H1). rewrite H2, E1.
    rewrite (proj2 (Z.eqb_neq a 0)) by lia. f_equal. lia.
  - destruct H1 as (E1 & Hr1 & H1), H2 as (E2 & Hr2 & H2). rewrite E1, E2.
    destruct (Z.eqb_spec a b) as [-> |]; [| done].
    rewrite (proj2 (Z.eqb_neq b 0)) by lia. apply IH; auto with lia.
Qed.

Lemma lex_cmp_0 l1 l2 :
  Forall (fun b => 0 < b < 256) l1 -> Forall (fun b => 0 < b < 256) l2 ->
  lex_cmp l1 l2 = 0 <-> l1 = l2.
Proof.
  intros H1 H2; revert l2 H2; induction H1 as [| a l1 Ha H1 IH]; intros l2 H2;
    destruct H2 as [| b l2 Hb H2]; cbn.
  - done.
  - split; [lia | done].
  - split; [lia | done].
  - destruct (Z.eqb_spec a b) as [-> |].
    + rewrite IH by done. split; [by intros -> | by intros [=]].
    + split; [lia | by intros [=]].
Qed.

(** ** Properties *)

(** [memcpy] between disjoint ranges makes the destination equal to the
    source and changes no other byte, and [memset] fills exactly its range. *)
Theorem block_ops_correct m d s c n :
  disjoint d (Z.of_nat n) s (Z.of_nat n) ->
  load_bytes (memcpy m d s (Z.of_nat n)) d n = load_bytes m s n /\
  only_changed m (memcpy m d s (Z.of_nat n)) d (Z.of_nat n) /\
  (forall x, in_u32 x -> load8 (memset m d c (Z.of_nat n)) x =
     if decide (d <= x < d + Z.of_nat n) then u8 c else load8 m x).
Proof.
  intros D. split; [by apply load_bytes_memcpy |]. split.
  - intros x Hx Hout. rewrite load8_memcpy by (done || lia). by rewrite decide_False.
  - intros x Hx. unfold disjoint in D. by rewrite load8_memset by (done || lia).
Qed.

Lemma block_ops_witness :
  load_bytes (memcpy (store32 ∅ 0x2000 0x04030201) 0x1000 0x2000 (Z.of_nat 4)) 0x1000 4 =
    [1; 2; 3; 4].
Proof.
  rewrite (proj1 (block_ops_correct (store32 ∅ 0x2000 0x04030201) 0x1000 0x2000 0 4
    ltac:(unfold disjoint; lia))). vm_compute. reflexivity.
Defined.

(** on two C strings [strcmp] returns the difference of the first bytes
    that differ, hence zero exactly for equal strings, and [strlen] their
    length, each within one loop round per character plus one. *)
Theorem string_ops_correct m s1 s2 l1 l2 :
  cstr m s1 l1 -> cstr m s2 l2 -> Z.of_nat (length l1) < 4294967296 ->
  strlen (S (length l1)) m s1 = Some (Z.of_nat (length l1)) /\
  strcmp (S (length l1)) m s1 s2 = Some (lex_cmp l1 l2) /\
  (strcmp (S (length l1)) m s1 s2 = Some 0 <-> l1 = l2).
Proof.
  intros H1 H2 Hl. rewrite (strcmp_lex (S (length l1)) m s1 s2 l1 l2 H1 H2) by lia.
  split; [apply strlen_cstr; [done | done | lia] |]. split; [done |].
  destruct H1 as (_ & F1 & _), H2 as (_ & F2 & _). rewrite <- (lex_cmp_0 l1 l2 F1 F2).
  split; [by intros [= ->] | by intros ->].
Qed.

Lemma string_ops_witness :
  let m := store32 (store32 ∅ 0x1000 0x00636261) 0x2000 0x00646261 in
  strcmp 4 m 0x1000 0x2000 = Some (-1) /\
  (strcmp 4 m 0x1000 0x2000 = Some 0 <-> [97; 98; 99] = [97; 98; 100]).
Proof.
  cbv zeta.
  pose proof (string_ops_correct (store32 (store32 ∅ 0x1000 0x00636261) 0x2000 0x00646261)
    0x1000 0x2000 [97; 98; 99] [97; 98; 100]) as H.
  destruct H as (_ & H2 & H3).
  - split; [vm_compute; reflexivity |]. split; [repeat constructor; lia | vm_compute; reflexivity].
  - split; [vm_compute; reflexivity |]. split; [repeat constructor; lia | vm_compute; reflexivity].
  - cbn; lia.
  - split; [exact H2 | exact H3].
Defined.
