(* ===== verification/SortedArray.v ===== *)
(** * SortedArray: src/src/sorted_array.c

    A sorted array of 32-bit pointers kept in kernel memory.  The struct is a
    record; its elements are the words at [sa_array].  [sa_list] is the
    abstract content; every operation is related to a list operation on it. *)

From S2P Require Import Prelude Mem Libc.
From Stdlib Require Import Sorted.

(** [cmp_func_t]: a comparison may read memory through its arguments. *)
Definition cmp_func_t : Type := memory -> Z -> Z -> Z.

Record sorted_array : Type := {
  sa_array : Z;
  sa_size : Z;
  sa_maxsize : Z;
  sa_cmp : option cmp_func_t  (** [None] is the NULL function pointer *)
}.

Definition set_sa_size (a : sorted_array) (n : Z) : sorted_array :=
  {| sa_array := sa_array a; sa_size := n; sa_maxsize := sa_maxsize a;
     sa_cmp := sa_cmp a |}.

(** [return (a - b);] on [void *], read back as [int]. *)
Definition default_cmp_func : cmp_func_t := fun _ a b => s32 (a - b).

(** The address of [sa_array[i]]. *)
Definition sa_slot (a : sorted_array) (i : Z) : Z := u32 (sa_array a + 4 * i).

Definition place_sorted_array (addr maxsize : Z) (cmp : option cmp_func_t)
    : M memory sorted_array :=
  _ ← modify (fun m => bzero m addr (u32 (maxsize * 4)));
  mret {| sa_array := addr; sa_size := 0; sa_maxsize := maxsize; sa_cmp := cmp |}.

(** [while (iterator < sa_size && sa_cmp(sa_array[iterator], el) < 0)
      iterator++;], [n] elements being left. *)
Fixpoint insert_scan (n : nat) (cmp : cmp_func_t) (m : memory)
    (a : sorted_array) (el iterator : Z) : Z :=
  match n with
  | O => iterator
  | S n' =>
      if cmp m (load32 m (sa_slot a iterator)) el <? 0
      then insert_scan n' cmp m a el (iterator + 1)
      else iterator
  end.

(** [while (iterator < sa_size) {
       void *tmp2 = sa_array[++iterator];
       sa_array[iterator] = tmp;
       tmp = tmp2;
     }] *)
Fixpoint insert_shift (n : nat) (m : memory) (a : sorted_array)
    (iterator tmp : Z) : memory :=
  match n with
  | O => m
  | S n' =>
      let iterator := iterator + 1 in
      let tmp2 := load32 m (sa_slot a iterator) in
      insert_shift n' (store32 m (sa_slot a iterator) tmp) a iterator tmp2
  end.

Definition insert_sorted_array (a : sorted_array) (el : Z)
    : M memory sorted_array :=
  _ ← kassert "has a cmp function" (match sa_cmp a with Some _ => true | None => false end);
  _ ← kassert "has enough room" (sa_size a <? sa_maxsize a);
  cmp ← get_opt "sa_cmp" (fun _ => sa_cmp a);
  m ← gets id;
  let iterator := insert_scan (Z.to_nat (sa_size a)) cmp m a el 0 in
  if iterator =? sa_size a then
    _ ← modify (fun m => store32 m (sa_slot a (sa_size a)) el);
    mret (set_sa_size a (sa_size a + 1))
  else
    let tmp := load32 m (sa_slot a iterator) in
    _ ← modify (fun m =>
          insert_shift (Z.to_nat (sa_size a - iterator))
            (store32 m (sa_slot a iterator) el) a iterator tmp);
    mret (set_sa_size a (sa_size a + 1)).

Definition lookup_sorted_array (a : sorted_array) (i : Z) : M memory Z :=
  _ ← kassert "index in range" (i <? sa_size a);
  gets (fun m => load32 m (sa_slot a i)).

(** [while (i < sa_size) { sa_array[i] = sa_array[i + 1]; i++; }] *)
Fixpoint remove_shift (n : nat) (m : memory) (a : sorted_array) (i : Z) : memory :=
  match n with
  | O => m
  | S n' =>
      remove_shift n' (store32 m (sa_slot a i) (load32 m (sa_slot a (i + 1))))
        a (i + 1)
  end.

Definition remove_sorted_array (a : sorted_array) (i : Z) : M memory sorted_array :=
  _ ← kassert "index in range" (i <? sa_size a);
  _ ← modify (fun m => remove_shift (Z.to_nat (sa_size a - i)) m a i);
  mret (set_sa_size a (sa_size a - 1)).

(** ** Abstract content and well-formedness *)

Definition sa_list (m : memory) (a : sorted_array) : list Z :=
  (fun i : nat => load32 m (sa_slot a (Z.of_nat i))) <$> seq 0 (Z.to_nat (sa_size a)).

Record sa_wf (a : sorted_array) : Prop := {
  sa_wf_base : 0 <= sa_array a;
  sa_wf_top : sa_array a + 4 * sa_maxsize a <= 4294967296;
  sa_wf_size : 0 <= sa_size a <= sa_maxsize a
}.

(** Reference insertion: before the first element that is not smaller. *)
Fixpoint insert_by (lt : Z -> bool) (el : Z) (l : list Z) : list Z :=
  match l with
  | [] => [el]
  | x :: l' => if lt x then x :: insert_by lt el l' else el :: l
  end.

(** ** Lemmas *)

Lemma sa_slot_small a i :
  sa_wf a -> 0 <= i < sa_maxsize a -> sa_slot a i = sa_array a + 4 * i.
Proof. intros [] Hi. apply u32_small. unfold in_u32. lia. Qed.

Lemma sa_list_length m a : length (sa_list m a) = Z.to_nat (sa_size a).
Proof. unfold sa_list. by rewrite length_fmap, length_seq. Qed.

Lemma sa_list_lookup m a i :
  (i < Z.to_nat (sa_size a))%nat ->
  sa_list m a !! i = Some (load32 m (sa_slot a (Z.of_nat i))).
Proof.
  intros Hi. unfold sa_list. rewrite list_lookup_fmap, lookup_seq_lt by done. done.
Qed.

Lemma sa_list_ext m m' a :
  (forall i, 0 <= i < sa_size a ->
     load32 m' (sa_slot a i) = load32 m (sa_slot a i)) ->
  sa_list m' a = sa_list m a.
Proof.
  intros H. apply list_eq. intros i.
  destruct (decide (i < Z.to_nat (sa_size a))%nat).
  - rewrite !sa_list_lookup by done. f_equal. apply H. lia.
  - rewrite !lookup_ge_None_2; [done | rewrite sa_list_length; lia ..].
Qed.

(** Storing into a slot and reading slots back. *)
Lemma load32_store_slot m a i j v :
  sa_wf a -> 0 <= i < sa_maxsize a -> 0 <= j < sa_maxsize a ->
  load32 (store32 m (sa_slot a i) v) (sa_slot a j) =
    if decide (i = j) then u32 v else load32 m (sa_slot a j).
Proof.
  intros Hwf Hi Hj. case_decide as E; [subst; apply load32_store32_eq |].
  rewrite !sa_slot_small by done. destruct Hwf.
  apply load32_store32_ne. unfold disjoint. lia.
Qed.

Lemma only_changed_slot m a i v n :
  sa_wf a -> 0 <= i < sa_maxsize a -> i < n ->
  only_changed m (store32 m (sa_slot a i) v) (sa_array a) (4 * n).
Proof.
  intros Hwf Hi Hn. rewrite sa_slot_small by done. destruct Hwf.
  eapply only_changed_weaken; [apply only_changed_store32; lia | lia | lia].
Qed.

(** *** The shifts *)

Lemma insert_shift_slot n m a it tmp j :
  sa_wf a -> 0 <= it -> it + Z.of_nat n < sa_maxsize a ->
  0 <= j < sa_maxsize a -> in_u32 tmp ->
  load32 (insert_shift n m a it tmp) (sa_slot a j) =
    if decide (it < j <= it + Z.of_nat n) then
      if decide (j = it + 1) then tmp else load32 m (sa_slot a (j - 1))
    else load32 m (sa_slot a j).
Proof.
  intros Hwf. revert m it tmp.
  induction n as [| n IH]; intros m it tmp Hit Hn Hj Ht; cbn [insert_shift].
  - by rewrite decide_False by lia.
  - rewrite IH by (auto using load32_range || lia).
    repeat case_decide; try lia; subst; rewrite ?load32_store_slot by (done || lia);
      rewrite ?u32_small by done; repeat case_decide; try lia; try done;
      repeat f_equal; lia.
Qed.

Lemma insert_shift_changed n m a it tmp :
  sa_wf a -> 0 <= it -> it + Z.of_nat n < sa_maxsize a ->
  only_changed m (insert_shift n m a it tmp) (sa_array a)
    (4 * (it + Z.of_nat n + 1)).
Proof.
  intros Hwf. revert m it tmp.
  induction n as [| n IH]; intros m it tmp Hit Hn; cbn [insert_shift]; auto with mem.
  eapply only_changed_trans.
  - apply (only_changed_slot m a (it + 1) tmp (it + Z.of_nat (S n) + 1));
      [done | lia | ].
    lia.
  - eapply only_changed_weaken; [apply IH; lia | lia | lia].
Qed.

Lemma remove_shift_slot n m a i j :
  sa_wf a -> 0 <= i -> i + Z.of_nat n <= sa_maxsize a ->
  0 <= j < sa_maxsize a - 1 ->
  load32 (remove_shift n m a i) (sa_slot a j) =
    if decide (i <= j < i + Z.of_nat n) then load32 m (sa_slot a (j + 1))
    else load32 m (sa_slot a j).
Proof.
  intros Hwf. revert m i. induction n as [| n IH]; intros m i Hi Hn Hj; cbn [remove_shift].
  - by rewrite decide_False by lia.
  - rewrite IH by (done || lia).
    repeat case_decide; try lia; rewrite load32_store_slot by (done || lia).
    + by rewrite decide_False by lia.
    + rewrite decide_True by lia. rewrite u32_small by apply load32_range.
      f_equal. f_equal. lia.
    + by rewrite decide_False by lia.
Qed.

Lemma remove_shift_changed n m a i :
  sa_wf a -> 0 <= i -> i + Z.of_nat n <= sa_maxsize a ->
  only_changed m (remove_shift n m a i) (sa_array a) (4 * (i + Z.of_nat n)).
Proof.
  intros Hwf. revert m i.
  induction n as [| n IH]; intros m i Hi Hn; cbn [remove_shift]; auto with mem.
  eapply only_changed_trans.
  - eapply (only_changed_slot m a i _ (i + Z.of_nat (S n))); [done | lia | lia].
  - eapply only_changed_weaken; [apply IH; lia | lia | lia].
Qed.

(** *** The scan *)

Definition scan_pos (lt : Z -> bool) : list Z -> nat :=
  fix go l := match l with [] => O | x :: l' => if lt x then S (go l') else O end.

Lemma insert_by_pos lt el l :
  insert_by lt el l = take (scan_pos lt l) l ++ el :: drop (scan_pos lt l) l.
Proof.
  induction l as [| x l IH]; cbn; [done |]. destruct (lt x); cbn; [| done].
  by rewrite IH.
Qed.

Lemma scan_pos_le lt l : (scan_pos lt l <= length l)%nat.
Proof. induction l as [| x l IH]; cbn; [lia |]. destruct (lt x); lia. Qed.

Lemma insert_scan_pos n cmp m a el k :
  insert_scan n cmp m a el (Z.of_nat k) =
    Z.of_nat (k + scan_pos (fun x => cmp m x el <? 0)
          ((fun i : nat => load32 m (sa_slot a (Z.of_nat i))) <$> seq k n)).
Proof.
  revert k; induction n as [| n IH]; intros k; cbn; [by rewrite Nat.add_0_r |].
  destruct (cmp m (load32 m (sa_slot a (Z.of_nat k))) el <? 0); [| lia].
  replace (Z.of_nat k + 1) with (Z.of_nat (S k)) by lia.
  rewrite IH. lia.
Qed.

Lemma insert_scan_list cmp m a el :
  insert_scan (Z.to_nat (sa_size a)) cmp m a el 0 =
    Z.of_nat (scan_pos (fun x => cmp m x el <? 0) (sa_list m a)).
Proof. exact (insert_scan_pos _ cmp m a el 0). Qed.

(** ** Operations refine list operations *)

Lemma insert_by_lookup lt el l i :
  insert_by lt el l !! i =
    if decide (i < scan_pos lt l)%nat then l !! i
    else if decide (i = scan_pos lt l) then Some el
    else l !! (i - 1)%nat.
Proof.
  rewrite insert_by_pos. pose proof (scan_pos_le lt l) as Hle.
  assert (Hl : length (take (scan_pos lt l) l) = scan_pos lt l)
    by (rewrite length_take; lia).
  repeat case_decide.
  - rewrite lookup_app_l by lia. by apply lookup_take_lt.
  - subst i. by rewrite list_lookup_middle.
  - rewrite lookup_app_r by lia. rewrite Hl.
    rewrite lookup_cons_ne_0 by lia. rewrite lookup_drop. f_equal. lia.
Qed.

Lemma insert_by_length lt el l : length (insert_by lt el l) = S (length l).
Proof. induction l as [| x l IH]; cbn; [done |]. destruct (lt x); cbn; lia. Qed.

Lemma insert_by_perm lt el l : insert_by lt el l ≡ₚ el :: l.
Proof.
  induction l as [| x l IH]; cbn; [done |]. destruct (lt x); [| done].
  rewrite IH. apply Permutation_swap.
Qed.

(** What [insert_sorted_array] does: it comes back, the list gains [el] at the
    first position the comparison stops at, and only the first
    [sa_size + 1] words of the array are written. *)
Lemma insert_sorted_array_post a el cmp m :
  sa_wf a -> sa_cmp a = Some cmp -> sa_size a < sa_maxsize a -> in_u32 el ->
  exists m',
    insert_sorted_array a el m = Done (set_sa_size a (sa_size a + 1)) m' /\
    sa_list m' (set_sa_size a (sa_size a + 1)) =
      insert_by (fun x => cmp m x el <? 0) el (sa_list m a) /\
    only_changed m m' (sa_array a) (4 * (sa_size a + 1)).
Proof.
  intros Hwf Hcmp Hroom Hel. pose proof (sa_wf_size a Hwf) as Hsz.
  unfold insert_sorted_array. rewrite Hcmp, (proj2 (Z.ltb_lt _ _) Hroom).
  mred. cbv zeta. unfold id. rewrite insert_scan_list.
  set (lt := fun x => cmp m x el <? 0). set (p := scan_pos lt (sa_list m a)).
  assert (Hp : (p <= Z.to_nat (sa_size a))%nat)
    by (unfold p; etransitivity; [apply scan_pos_le | by rewrite sa_list_length]).
  destruct (Z.eqb_spec (Z.of_nat p) (sa_size a)) as [E | E].
  - eexists; split; [done |]. split; [| apply only_changed_slot; [done | lia | lia]].
    apply list_eq. intros i. rewrite insert_by_lookup. fold p.
    destruct (decide (i < Z.to_nat (sa_size a + 1))%nat) as [Hi | Hi].
    + rewrite sa_list_lookup by (cbn; lia).
      change (sa_slot (set_sa_size a (sa_size a + 1)) (Z.of_nat i))
        with (sa_slot a (Z.of_nat i)).
      rewrite load32_store_slot by (done || lia).
      repeat case_decide; try lia;
        rewrite ?sa_list_lookup by lia; rewrite ?u32_small by done; done.
    + rewrite !lookup_ge_None_2; try (rewrite sa_list_length; cbn; lia).
      by rewrite !decide_False by lia.
  - eexists; split; [done |]. split.
    + apply list_eq. intros i. rewrite insert_by_lookup. fold p.
      destruct (decide (i < Z.to_nat (sa_size a + 1))%nat) as [Hi | Hi].
      * rewrite sa_list_lookup by (cbn; lia).
        change (sa_slot (set_sa_size a (sa_size a + 1)) (Z.of_nat i))
          with (sa_slot a (Z.of_nat i)).
        rewrite insert_shift_slot by (auto using load32_range || lia).
        repeat case_decide; try lia;
          rewrite ?load32_store_slot by (done || lia); repeat case_decide; try lia;
          rewrite ?sa_list_lookup by lia; rewrite ?u32_small by done;
          repeat f_equal; lia.
      * rewrite !lookup_ge_None_2; try (rewrite sa_list_length; cbn; lia).
        by rewrite !decide_False by lia.
    + eapply only_changed_trans;
        [apply (only_changed_slot m a (Z.of_nat p) el); [done | lia | lia] |].
      eapply only_changed_weaken;
        [apply insert_shift_changed; [done | lia | lia] | lia | lia].
Qed.

(** What [remove_sorted_array] does: element [i] leaves the list. *)
Lemma remove_sorted_array_post a i m :
  sa_wf a -> 0 <= i < sa_size a ->
  exists m',
    remove_sorted_array a i m = Done (set_sa_size a (sa_size a - 1)) m' /\
    sa_list m' (set_sa_size a (sa_size a - 1)) = delete (Z.to_nat i) (sa_list m a) /\
    only_changed m m' (sa_array a) (4 * sa_size a).
Proof.
  intros Hwf Hi. pose proof (sa_wf_size a Hwf) as Hsz.
  unfold remove_sorted_array. rewrite (proj2 (Z.ltb_lt _ _) (proj2 Hi)). mred.
  eexists; split; [done |]. split.
  - apply list_eq. intros j. rewrite list_lookup_delete.
    destruct (decide (j < Z.to_nat (sa_size a - 1))%nat) as [Hj | Hj].
    + rewrite sa_list_lookup by (cbn; lia).
      change (sa_slot (set_sa_size a (sa_size a - 1)) (Z.of_nat j))
        with (sa_slot a (Z.of_nat j)).
      rewrite remove_shift_slot by (done || lia).
      repeat case_decide; try lia; rewrite sa_list_lookup by lia;
        repeat f_equal; lia.
    + rewrite lookup_ge_None_2 by (rewrite sa_list_length; cbn; lia).
      case_decide; rewrite lookup_ge_None_2; rewrite ?sa_list_length; lia || done.
  - eapply only_changed_weaken;
      [apply remove_shift_changed; [done | lia | lia] | lia | lia].
Qed.

Lemma lookup_sorted_array_post a i m x :
  0 <= i -> sa_list m a !! Z.to_nat i = Some x ->
  lookup_sorted_array a i m = Done x m.
Proof.
  intros H0 Hl. pose proof (lookup_lt_Some _ _ _ Hl) as Hlt.
  rewrite sa_list_length in Hlt.
  rewrite sa_list_lookup, Z2Nat.id in Hl by lia.
  unfold lookup_sorted_array. rewrite (proj2 (Z.ltb_lt i (sa_size a))) by lia.
  mred. unfold gets. congruence.
Qed.

(** ** Sortedness *)

Section sorted.
(** The comparison orders the elements by [key]. *)
Context (key : Z -> Z) (lt : Z -> bool) (el : Z).

Let R (x y : Z) : Prop := key x <= key y.

Lemma insert_by_sorted l :
  Forall (fun x => lt x = (key x <? key el)) l ->
  StronglySorted R l -> StronglySorted R (insert_by lt el l).
Proof.
  intros Hlt Hs. induction Hs as [| x l Hs IH Hx]; cbn; [repeat constructor |].
  apply Forall_cons in Hlt as [Hx0 Hlt]. rewrite Hx0.
  destruct (Z.ltb_spec (key x) (key el)).
  - constructor; [by apply IH |]. rewrite insert_by_perm. constructor; [| done].
    unfold R; lia.
  - constructor; [by constructor |]. constructor; [unfold R; lia |].
    eapply Forall_impl; [exact Hx |]. cbv beta; unfold R. intros y Hy. lia.
Qed.
End sorted.

Lemma StronglySorted_delete {A} (R : A -> A -> Prop) l i :
  StronglySorted R l -> StronglySorted R (delete i l).
Proof.
  intros H; revert i; induction H as [| x l Hs IH Hx]; intros [| i]; cbn;
    [constructor .. | done |].
  constructor; [apply IH |]. apply Forall_delete, Hx.
Qed.

(** ** Properties *)

(** The comparison orders the elements of [l] and [el] by [key]. *)
Definition cmp_by_key (cmp : cmp_func_t) (m : memory) (key : Z -> Z) (el : Z) (l : list Z) : Prop :=
  Forall (fun x => (cmp m x el <? 0) = (key x <? key el)) l.

(** inserting into a sorted array of pointers succeeds, keeps the array
    sorted by the comparison's key, adds exactly the new element, and writes
    nothing outside the first [sa_size + 1] slots. *)
Theorem insert_sorted_array_correct a el cmp key m :
  sa_wf a -> sa_cmp a = Some cmp -> sa_size a < sa_maxsize a -> in_u32 el ->
  cmp_by_key cmp m key el (sa_list m a) ->
  StronglySorted (fun x y => key x <= key y) (sa_list m a) ->
  exists m',
    let a' := set_sa_size a (sa_size a + 1) in
    insert_sorted_array a el m = Done a' m' /\
    sa_wf a' /\
    StronglySorted (fun x y => key x <= key y) (sa_list m' a') /\
    sa_list m' a' ≡ₚ el :: sa_list m a /\
    only_changed m m' (sa_array a) (4 * (sa_size a + 1)).
Proof.
  intros Hwf Hcmp Hroom Hel Hk Hs.
  destruct (insert_sorted_array_post a el cmp m Hwf Hcmp Hroom Hel) as (m' & Hrun & Hl & Hc).
  exists m'. cbn zeta. rewrite Hl. split; [done |]. split.
  - destruct Hwf as [H1 H2 H3]. constructor; cbn; lia.
  - split; [by apply insert_by_sorted |]. split; [apply insert_by_perm | done].
Qed.

(** A two-element array at 0x1000 holding 5 and 9. *)
Definition sample_array : sorted_array :=
  {| sa_array := 0x1000; sa_size := 2; sa_maxsize := 4; sa_cmp := Some default_cmp_func |}.
Definition sample_memory : memory := store32 (store32 ∅ 0x1000 5) 0x1004 9.

Lemma insert_sorted_array_witness :
  sa_list sample_memory sample_array = [5; 9] /\
  exists m',
    let a' := set_sa_size sample_array 3 in
    insert_sorted_array sample_array 7 sample_memory = Done a' m' /\ sa_wf a' /\
    StronglySorted (fun x y => id x <= id y) (sa_list m' a') /\
    sa_list m' a' ≡ₚ 7 :: sa_list sample_memory sample_array /\
    only_changed sample_memory m' 0x1000 (4 * (2 + 1)).
Proof.
  split; [vm_compute; reflexivity |].
  assert (E : sa_list sample_memory sample_array = [5; 9]) by (vm_compute; reflexivity).
  apply (insert_sorted_array_correct sample_array 7 default_cmp_func id sample_memory).
  - constructor; cbn; lia.
  - reflexivity.
  - cbn; lia.
  - unfold in_u32; lia.
  - unfold cmp_by_key. rewrite E. repeat constructor.
  - rewrite E. unfold id. repeat constructor; lia.
Defined.

(** removing index [i] deletes exactly that element and keeps the order;
    any other index is refused with a panic that leaves no state behind. *)
Theorem remove_sorted_array_correct a i key m :
  sa_wf a -> 0 <= i ->
  StronglySorted (fun x y => key x <= key y) (sa_list m a) ->
  if i <? sa_size a then
    exists m',
      let a' := set_sa_size a (sa_size a - 1) in
      remove_sorted_array a i m = Done a' m' /\ sa_wf a' /\
      sa_list m' a' = delete (Z.to_nat i) (sa_list m a) /\
      StronglySorted (fun x y => key x <= key y) (sa_list m' a') /\
      only_changed m m' (sa_array a) (4 * sa_size a)
  else remove_sorted_array a i m = Halt (Panic "index in range") /\
       lookup_sorted_array a i m = Halt (Panic "index in range").
Proof.
  intros Hwf Hi Hs. destruct (Z.ltb_spec i (sa_size a)) as [L | L].
  - destruct (remove_sorted_array_post a i m Hwf (conj Hi L)) as (m' & Hrun & Hl & Hc).
    exists m'. cbn zeta. rewrite Hl. split; [done |]. split.
    + destruct Hwf as [H1 H2 H3]. constructor; cbn; lia.
    + split; [done |]. split; [by apply StronglySorted_delete | done].
  - unfold remove_sorted_array, lookup_sorted_array.
    by rewrite (proj2 (Z.ltb_ge _ _) L).
Qed.

Lemma remove_sorted_array_witness :
  exists m',
    let a' := set_sa_size sample_array 1 in
    remove_sorted_array sample_array 0 sample_memory = Done a' m' /\ sa_wf a' /\
    sa_list m' a' = delete 0%nat (sa_list sample_memory sample_array) /\
    StronglySorted (fun x y => id x <= id y) (sa_list m' a') /\
    only_changed sample_memory m' 0x1000 (4 * 2).
Proof.
  apply (remove_sorted_array_correct sample_array 0 id sample_memory).
  - constructor; cbn; lia.
  - lia.
  - assert (E : sa_list sample_memory sample_array = [5; 9]) by (vm_compute; reflexivity).
    rewrite E. unfold id. repeat constructor; lia.
Defined.
