(* ===== verification/Monitor.v ===== *)
(** * Monitor: the VGA text console, src/src/monitor.c

    The framebuffer is the list of its 80*25 16-bit cells; a write outside it
    is a [Fault].  The cursor is two bytes, and the hardware cursor is driven
    through the port trace. *)

From S2P Require Import Prelude Mem Libc.

Definition MON_WIDTH : Z := 80.
Definition MON_HEIGHT : Z := 25.
Definition MON_DEFAULT_ATTR_BYTE : Z := Z.lor (Z.shiftl 0 4) (Z.land 15 0x0F).
Definition MON_BLANK_CHAR : Z := Z.lor 0x20 (Z.shiftl MON_DEFAULT_ATTR_BYTE 8).

Record monitor : Type := {
  video_memory : list Z;
  cursor_x : Z;
  cursor_y : Z;
  mon_ports : io_trace
}.

Definition set_video (v : list Z) (s : monitor) : monitor :=
  {| video_memory := v; cursor_x := cursor_x s; cursor_y := cursor_y s;
     mon_ports := mon_ports s |}.
Definition set_cursor (x y : Z) (s : monitor) : monitor :=
  {| video_memory := video_memory s; cursor_x := x; cursor_y := y;
     mon_ports := mon_ports s |}.
Definition set_mon_ports (p : io_trace) (s : monitor) : monitor :=
  {| video_memory := video_memory s; cursor_x := cursor_x s;
     cursor_y := cursor_y s; mon_ports := p |}.

(** [video_memory[i] = v], [v] narrowed to [uint16_t]. *)
Definition video_write (i v : Z) : M monitor unit := fun s =>
  if (0 <=? i) && (i <? Z.of_nat (length (video_memory s)))
  then Done tt (set_video (<[Z.to_nat i := u16 v]> (video_memory s)) s)
  else Halt (Fault "video_memory").
Definition video_read (i : Z) : M monitor Z :=
  get_opt "video_memory" (fun s => video_memory s !! Z.to_nat i).

Definition move_cursor : M monitor unit :=
  modify (fun s =>
    let cl := u16 (cursor_y s * MON_WIDTH + cursor_x s) in
    set_mon_ports
      (outb 0x3D5 cl (outb 0x3D4 15
         (outb 0x3D5 (Z.shiftr cl 8) (outb 0x3D4 14 (mon_ports s))))) s).

Definition scroll : M monitor unit :=
  let w := MON_WIDTH in
  let h := MON_HEIGHT in
  y ← gets cursor_y;
  when (h <=? y)
    (_ ← for_loop (Z.to_nat (w * (h - 1))) 0
           (fun i => c ← video_read (i + w); video_write i c);
     _ ← for_loop (Z.to_nat w) (w * (h - 1))
           (fun i => video_write i MON_BLANK_CHAR);
     modify (fun s => set_cursor (cursor_x s) (h - 1) s)).

(** [mon_putchar(char c)]: the argument is a signed char. *)
Definition mon_putchar (c : Z) : M monitor unit :=
  let c := s8 c in
  let bc := 0 in
  let fc := 2 in
  let attr_byte := u8 (Z.lor (Z.shiftl bc 4) (Z.land fc 0x0F)) in
  let attr := u16 (Z.shiftl attr_byte 8) in
  x ← gets cursor_x;
  y ← gets cursor_y;
  _ ← (if (c =? 0x08) && (0 <? x) then modify (set_cursor (u8 (x - 1)) y)
       else if c =? 0x09 then
         modify (set_cursor (u8 (Z.land (x + 8) (Z.lnot (8 - 1)))) y)
       else if c =? 13 then modify (set_cursor 0 y)
       else if c =? 10 then modify (set_cursor 0 (u8 (y + 1)))
       else if 32 <=? c then
         _ ← modify (set_cursor (u8 (x + 1)) y);
         video_write (x + MON_WIDTH * y) (Z.lor c attr)
       else mret tt);
  x ← gets cursor_x;
  y ← gets cursor_y;
  _ ← when (MON_WIDTH <=? x) (modify (set_cursor 0 (u8 (y + 1))));
  _ ← scroll;
  move_cursor.

Definition mon_clear : M monitor unit :=
  _ ← for_loop (Z.to_nat (MON_WIDTH * MON_HEIGHT)) 0
        (fun i => video_write i MON_BLANK_CHAR);
  _ ← modify (set_cursor 0 0);
  move_cursor.

(** ** Invariant: the cursor is on the screen *)

Record mon_wf (s : monitor) : Prop := {
  mon_wf_video : length (video_memory s) = 2000%nat;
  mon_wf_x : 0 <= cursor_x s < MON_WIDTH;
  mon_wf_y : 0 <= cursor_y s < MON_HEIGHT
}.

(** ** Reference screen operations *)

(** Scrolling drops the first row and appends a blank one. *)
Definition scrolled (v : list Z) : list Z :=
  drop (Z.to_nat MON_WIDTH) v ++ replicate (Z.to_nat MON_WIDTH) MON_BLANK_CHAR.

(** The port writes that put the hardware cursor at cell [cl]. *)
Definition cursor_ports (cl : Z) : io_trace :=
  [(0x3D4, 14); (0x3D5, cl / 256); (0x3D4, 15); (0x3D5, cl mod 256)].

(** ** Lemmas *)

Lemma video_write_run i v s :
  0 <= i < Z.of_nat (length (video_memory s)) ->
  video_write i v s = Done tt (set_video (<[Z.to_nat i := u16 v]> (video_memory s)) s).
Proof.
  intros H. unfold video_write.
  by rewrite (proj2 (Z.leb_le _ _)), (proj2 (Z.ltb_lt _ _)) by lia.
Qed.

(** The row-copy loop, from cell [i] on, for [n] cells. *)
Lemma scroll_copy_run n i s w :
  0 <= i -> 0 < w -> i + Z.of_nat n + w <= Z.of_nat (length (video_memory s)) ->
  Forall (fun c => 0 <= c < 65536) (video_memory s) ->
  exists v,
    for_loop n i (fun i => c ← video_read (i + w); video_write i c) s =
      Done tt (set_video v s) /\
    length v = length (video_memory s) /\
    forall j : nat, v !! j =
      if decide (i <= Z.of_nat j < i + Z.of_nat n)
      then video_memory s !! (j + Z.to_nat w)%nat else video_memory s !! j.
Proof.
  revert i s; induction n as [| n IH]; intros i s Hi Hw Hlen Hc; cbn [for_loop].
  - exists (video_memory s). split; [by destruct s |]. split; [done |].
    intros j. by rewrite decide_False by lia.
  - destruct (lookup_lt_is_Some_2 (video_memory s) (Z.to_nat (i + w))) as [c Ec]; [lia |].
    assert (Hcr : 0 <= c < 65536) by exact (Forall_lookup_1 _ _ _ _ Hc Ec).
    mred. unfold video_read. mred. rewrite Ec, video_write_run by lia.
    rewrite (u16_small c) by done.
    edestruct (IH (i + 1)) as (v & Hrun & Hl & Hv); [| done | | | ].
    4: { mred_in Hrun. rewrite Hrun. exists v. split; [done |].
      cbn [video_memory set_video] in Hl, Hv. rewrite length_insert in Hl.
      split; [done |]. intros j. rewrite Hv.
      repeat case_decide; try lia.
      - by rewrite list_lookup_insert_ne by lia.
      - replace j with (Z.to_nat i) by lia.
        rewrite list_lookup_insert_eq by lia. rewrite <- Ec. f_equal. lia.
      - by rewrite list_lookup_insert_ne by lia. }
    all: cbn [video_memory set_video]; rewrite ?length_insert; try lia.
    by apply Forall_insert.
Qed.

(** Filling [n] cells from [i] on. *)
Lemma video_fill_run n i s c :
  0 <= i -> i + Z.of_nat n <= Z.of_nat (length (video_memory s)) ->
  exists v,
    for_loop n i (fun i => video_write i c) s = Done tt (set_video v s) /\
    length v = length (video_memory s) /\
    forall j : nat, v !! j =
      if decide (i <= Z.of_nat j < i + Z.of_nat n)
      then Some (u16 c) else video_memory s !! j.
Proof.
  revert i s; induction n as [| n IH]; intros i s Hi Hlen; cbn [for_loop].
  - exists (video_memory s). split; [by destruct s |]. split; [done |].
    intros j. by rewrite decide_False by lia.
  - mred. rewrite video_write_run by lia.
    edestruct (IH (i + 1)) as (v & Hrun & Hl & Hv);
      [| | mred_in Hrun; rewrite Hrun; exists v].
    1-2: cbn [video_memory set_video]; rewrite ?length_insert; lia.
    cbn [video_memory set_video] in Hl, Hv. rewrite length_insert in Hl.
    split; [done |]. split; [done |]. intros j. rewrite Hv.
    repeat case_decide; try lia; try done.
    + replace j with (Z.to_nat i) by lia. by rewrite list_lookup_insert_eq by lia.
    + by rewrite list_lookup_insert_ne by lia.
Qed.

(** A screen whose cells are 16-bit words, as the hardware's are. *)
Definition cells_ok (v : list Z) : Prop :=
  length v = 2000%nat /\ Forall (fun c => 0 <= c < 65536) v.

Lemma scrolled_ok v : cells_ok v -> cells_ok (scrolled v).
Proof.
  intros [Hl Hf]. unfold scrolled. split.
  - rewrite length_app, length_drop, length_replicate. unfold MON_WIDTH. lia.
  - apply Forall_app; split; [by apply Forall_drop |].
    apply Forall_replicate. by vm_compute.
Qed.

Lemma scroll_run s :
  cells_ok (video_memory s) ->
  scroll s = Done tt
    (if MON_HEIGHT <=? cursor_y s
     then set_cursor (cursor_x s) (MON_HEIGHT - 1) (set_video (scrolled (video_memory s)) s)
     else s).
Proof.
  intros [Hl Hf]. unfold scroll. mred. cbv zeta.
  destruct (MON_HEIGHT <=? cursor_y s); [| done].
  edestruct (scroll_copy_run (Z.to_nat (MON_WIDTH * (MON_HEIGHT - 1))) 0 s MON_WIDTH)
    as (v & Hrun & Hlv & Hv); [done | done | rewrite Hl; done | done |].
  mred_in Hrun. rewrite Hrun.
  edestruct (video_fill_run (Z.to_nat MON_WIDTH) (MON_WIDTH * (MON_HEIGHT - 1))
    (set_video v s) MON_BLANK_CHAR) as (v' & Hrun' & Hlv' & Hv');
    [done | cbn [set_video video_memory]; rewrite Hlv, Hl; done |].
  rewrite Hrun'. f_equal. unfold set_cursor, set_video; cbn. f_equal.
  cbn in Hlv', Hv'. apply list_eq. intros j. rewrite Hv', Hv. unfold scrolled.
  unfold MON_WIDTH, MON_HEIGHT in *.
  change (80 * (25 - 1)) with 1920. change (Z.to_nat 80) with 80%nat.
  change (Z.of_nat (Z.to_nat 1920)) with 1920.
  change (Z.of_nat 80) with 80.
  destruct (decide (j < 1920)%nat) as [J | J].
  - rewrite decide_False by lia. rewrite decide_True by lia.
    rewrite lookup_app_l by (rewrite length_drop; lia).
    rewrite lookup_drop. f_equal. lia.
  - rewrite lookup_app_r by (rewrite length_drop; lia). rewrite length_drop, Hl.
    case_decide as C.
    + rewrite lookup_replicate_2 by lia. done.
    + rewrite decide_False by lia. rewrite !lookup_ge_None_2; [done | |].
      * rewrite length_replicate. lia.
      * lia.
Qed.

Lemma land_lnot_7 x : Z.land x (Z.lnot 7) = 8 * (x / 8).
Proof.
  rewrite <- Z.ldiff_land. change 7 with (Z.ones 3).
  rewrite Z.ldiff_ones_r, Z.shiftl_mul_pow2, Z.shiftr_div_pow2 by lia.
  change (2 ^ 3) with 8. lia.
Qed.

(** ** The reference terminal

    What one character does to (cells, column, row): move, write, wrap at the
    right edge, scroll at the bottom. *)

Definition screen : Type := (list Z * Z * Z)%type.

Definition put_char (c : Z) (sc : screen) : screen :=
  let '(v, x, y) := sc in
  if (c =? 8) && (0 <? x) then (v, x - 1, y)
  else if c =? 9 then (v, 8 * (x / 8 + 1), y)
  else if c =? 13 then (v, 0, y)
  else if c =? 10 then (v, 0, y + 1)
  else if 32 <=? c then (<[Z.to_nat (80 * y + x) := c + 512]> v, x + 1, y)
  else (v, x, y).

Definition wrap_line (sc : screen) : screen :=
  let '(v, x, y) := sc in if 80 <=? x then (v, 0, y + 1) else (v, x, y).

Definition wrap_screen (sc : screen) : screen :=
  let '(v, x, y) := sc in if 25 <=? y then (scrolled v, x, 24) else (v, x, y).

Definition terminal_put (c : Z) (sc : screen) : screen :=
  wrap_screen (wrap_line (put_char c sc)).

Definition screen_of (s : monitor) : screen :=
  (video_memory s, cursor_x s, cursor_y s).

(** The monitor showing screen [sc], after the given port writes. *)
Definition monitor_of (sc : screen) (p : io_trace) : monitor :=
  let '(v, x, y) := sc in
  {| video_memory := v; cursor_x := x; cursor_y := y; mon_ports := p |}.

(** The port writes the cursor update of screen [sc] makes. *)
Definition screen_ports (sc : screen) : io_trace :=
  let '(_, x, y) := sc in cursor_ports (80 * y + x).

Definition screen_wf (sc : screen) : Prop :=
  let '(v, x, y) := sc in cells_ok v /\ 0 <= x < 80 /\ 0 <= y < 25.

(** A printable char is the glyph with the green-on-black attribute. *)
Lemma glyph_lor c : 32 <= c < 128 -> Z.lor c 512 = c + 512.
Proof.
  intros Hc.
  assert (E : Z.land c 512 = 0).
  { change 512 with (2 ^ 9). rewrite land_pow2_testbit by lia.
    rewrite <- (Z.mod_small c (2 ^ 9)) by (change (2 ^ 9) with 512; lia).
    by rewrite Z.mod_pow2_bits_high by lia. }
  pose proof (Z.add_lor_land c 512). lia.
Qed.

(** Scroll and hardware cursor. *)
Lemma scroll_move_run v x y p :
  cells_ok v -> 0 <= x < 80 -> 0 <= y <= 25 ->
  (_ ← scroll; move_cursor) (monitor_of (v, x, y) p) =
    let sc := wrap_screen (v, x, y) in
    Done tt (monitor_of sc (p ++ screen_ports sc)).
Proof.
  intros Hv Hx Hy. cbv zeta. mred.
  rewrite scroll_run by done. cbn [monitor_of cursor_y video_memory cursor_x].
  unfold MON_HEIGHT, wrap_screen, move_cursor, MON_WIDTH. mred. cbv zeta.
  assert (Hsh : forall cl, 0 <= cl < 2000 -> u8 (Z.shiftr (u16 cl) 8) = cl / 256
                           /\ u8 (u16 cl) = cl mod 256).
  { intros cl Hcl. rewrite u16_small, Z.shiftr_div_pow2 by lia.
    change (2 ^ 8) with 256. split; [apply u8_small |]; wrap_lia. }
  destruct (Z.leb_spec 25 y);
    cbn [set_cursor set_video set_mon_ports monitor_of cursor_x cursor_y mon_ports
         video_memory screen_ports]; unfold outb, cursor_ports.
  - destruct (Hsh ((25 - 1) * 80 + x)) as [-> ->]; [lia |].
    unfold set_mon_ports; cbn. rewrite <- !app_assoc. cbn.
    replace (1920 + x) with (24 * 80 + x) by lia. done.
  - destruct (Hsh (y * 80 + x)) as [-> ->]; [lia |].
    unfold set_mon_ports; cbn. rewrite <- !app_assoc. cbn.
    by replace (y * 80 + x) with (80 * y + x) by lia.
Qed.

(** After the character: line wrap, scroll and hardware cursor. *)
Lemma putchar_tail v x y p :
  cells_ok v -> 0 <= x <= 88 -> 0 <= y <= 25 -> (80 <= x -> y <= 24) ->
  (x ← gets cursor_x; y ← gets cursor_y;
   _ ← when (MON_WIDTH <=? x) (modify (set_cursor 0 (u8 (y + 1))));
   _ ← scroll; move_cursor) (monitor_of (v, x, y) p) =
  let sc := wrap_screen (wrap_line (v, x, y)) in
  Done tt (monitor_of sc (p ++ screen_ports sc)).
Proof.
  intros Hv Hx Hy Hxy. cbv zeta. unfold wrap_line, MON_WIDTH.
  rewrite (bind_Done (gets cursor_x) _ _ x _) by done.
  rewrite (bind_Done (gets cursor_y) _ _ y _) by done.
  destruct (Z.leb_spec 80 x); cbn [when].
  - rewrite (bind_Done _ _ _ tt (monitor_of (v, 0, y + 1) p)).
    + rewrite scroll_move_run by (done || lia). done.
    + unfold modify, set_cursor, monitor_of; cbn. by rewrite u8_small by lia.
  - rewrite (bind_Done _ _ _ tt (monitor_of (v, x, y) p)) by done.
    rewrite scroll_move_run by (done || lia). done.
Qed.

Lemma put_char_ok c v x y v1 x1 y1 :
  c < 128 -> cells_ok v -> 0 <= x < 80 -> 0 <= y < 25 ->
  put_char c (v, x, y) = (v1, x1, y1) ->
  cells_ok v1 /\ 0 <= x1 <= 88 /\ 0 <= y1 <= 25 /\ (80 <= x1 -> y1 <= 24).
Proof.
  intros Hc Hv Hx Hy Ep. unfold put_char in Ep.
  destruct ((c =? 8) && (0 <? x)) eqn:E1;
    [apply andb_true_iff in E1 as [_ E1%Z.ltb_lt] |].
  { simplify_eq. split; [done | lia]. }
  destruct (c =? 9); [simplify_eq; split; [done | Z.div_mod_to_equations; lia] |].
  destruct (c =? 13); [simplify_eq; split; [done | lia] |].
  destruct (c =? 10); [simplify_eq; split; [done | lia] |].
  destruct (Z.leb_spec 32 c); simplify_eq; (split; [| lia]); [| done].
  destruct Hv as [Hl Hf]. split; [by rewrite length_insert |].
  apply Forall_insert; [done | lia].
Qed.

Lemma mon_putchar_run c s :
  screen_wf (screen_of s) ->
  mon_putchar c s =
    let sc := terminal_put (s8 c) (screen_of s) in
    Done tt (monitor_of sc (mon_ports s ++ screen_ports sc)).
Proof.
  destruct s as [v x y p]. cbn [screen_of video_memory cursor_x cursor_y screen_wf].
  intros (Hv & Hx & Hy). cbv zeta. unfold mon_putchar, terminal_put. cbv zeta.
  assert (Hc : -128 <= s8 c < 128) by wrap_lia. set (c8 := s8 c) in *.
  rewrite (bind_Done (gets cursor_x) _ _ x _) by done.
  rewrite (bind_Done (gets cursor_y) _ _ y _) by done.
  assert (E : exists s1,
    (if (c8 =? 0x08) && (0 <? x) then modify (set_cursor (u8 (x - 1)) y)
     else if c8 =? 0x09 then
       modify (set_cursor (u8 (Z.land (x + 8) (Z.lnot (8 - 1)))) y)
     else if c8 =? 13 then modify (set_cursor 0 y)
     else if c8 =? 10 then modify (set_cursor 0 (u8 (y + 1)))
     else if 32 <=? c8 then
       _ ← modify (set_cursor (u8 (x + 1)) y);
       video_write (x + MON_WIDTH * y)
         (Z.lor c8 (u16 (Z.shiftl (u8 (Z.lor (Z.shiftl 0 4) (Z.land 2 0x0F))) 8)))
     else mret tt) {| video_memory := v; cursor_x := x; cursor_y := y; mon_ports := p |}
      = Done tt s1 /\ s1 = monitor_of (put_char c8 (v, x, y)) p).
  { eexists; split; [| reflexivity]. unfold put_char.
    destruct ((c8 =? 8) && (0 <? x)) eqn:E1;
      [apply andb_true_iff in E1 as [_ E1%Z.ltb_lt] |].
    { cbn. unfold modify, set_cursor; cbn. by rewrite u8_small by lia. }
    destruct (c8 =? 9).
    { unfold modify, set_cursor; cbn. change (Z.lnot (8 - 1)) with (Z.lnot 7).
      rewrite land_lnot_7. rewrite u8_small by (Z.div_mod_to_equations; lia).
      do 2 f_equal. Z.div_mod_to_equations; lia. }
    destruct (c8 =? 13); [done |]. destruct (c8 =? 10).
    { unfold modify, set_cursor; cbn. by rewrite u8_small by lia. }
    destruct (Z.leb_spec 32 c8); [| done].
    change (u16 (Z.shiftl (u8 (Z.lor (Z.shiftl 0 4) (Z.land 2 0x0F))) 8)) with 512.
    rewrite glyph_lor by lia. unfold MON_WIDTH. destruct Hv as [Hl _].
    mred. unfold set_cursor. cbn [cursor_x cursor_y video_memory mon_ports].
    rewrite video_write_run by (cbn [video_memory]; rewrite Hl; lia).
    unfold set_video; cbn. rewrite u8_small, u16_small by lia.
    replace (x + 80 * y) with (80 * y + x) by lia. done. }
  destruct E as (s1 & Hrun & ->). rewrite (bind_Done _ _ _ _ _ Hrun).
  unfold screen_of; cbn [video_memory cursor_x cursor_y mon_ports].
  destruct (put_char c8 (v, x, y)) as [[v1 x1] y1] eqn:Ep.
  apply put_char_ok in Ep as (Hv1 & Hx1 & Hy1 & Hxy); [| lia | done ..].
  exact (putchar_tail v1 x1 y1 p Hv1 Hx1 Hy1 Hxy).
Qed.

Lemma terminal_put_wf c sc : c < 128 -> screen_wf sc -> screen_wf (terminal_put c sc).
Proof.
  destruct sc as [[v x] y]. intros Hc (Hv & Hx & Hy). unfold terminal_put.
  destruct (put_char c (v, x, y)) as [[v1 x1] y1] eqn:Ep.
  apply put_char_ok in Ep as (Hv1 & Hx1 & Hy1 & Hxy); [| done ..].
  unfold wrap_line. destruct (Z.leb_spec 80 x1); unfold wrap_screen;
    match goal with |- context [25 <=? ?y] => destruct (Z.leb_spec 25 y) end;
    (split; [auto using scrolled_ok | lia]).
Qed.

(** ** Properties *)

(** C26: [mon_putchar] behaves as the reference terminal: on a well-formed
    screen it comes back, the screen becomes [terminal_put] of it (cursor
    motion, glyph, line wrap, scrolling), the hardware cursor is moved to the
    new position, and the screen stays well formed. *)
Theorem mon_putchar_correct c s :
  screen_wf (screen_of s) ->
  let sc := terminal_put (s8 c) (screen_of s) in
  mon_putchar c s = Done tt (monitor_of sc (mon_ports s ++ screen_ports sc)) /\
  screen_wf sc.
Proof.
  intros H sc. split; [by apply mon_putchar_run |].
  apply terminal_put_wf; [wrap_lia | done].
Qed.

Lemma mon_putchar_witness :
  let s := {| video_memory := replicate 2000 0; cursor_x := 79; cursor_y := 3;
              mon_ports := [] |} in
  let sc := terminal_put (s8 65) (screen_of s) in
  mon_putchar 65 s = Done tt (monitor_of sc (mon_ports s ++ screen_ports sc)) /\
  screen_wf sc.
Proof.
  cbv zeta. apply mon_putchar_correct. split; [| cbn; lia]. split; [reflexivity |].
  apply Forall_replicate. lia.
Defined.
