(* ===== verification/Printf.v ===== *)
(** * Printf: src/src/freebsd/printf.c

    [vprintf] over an arbitrary character sink, instantiated with the VGA
    console, and [_panic]'s output (src/src/common.c).  The format is the
    bytes of the C string without its terminator. *)

From S2P Require Import Prelude Mem Libc Monitor.

(** A variadic argument: an [int]/[unsigned] word, or a [char *] to a
    NUL-terminated string (its bytes). *)
Inductive varg : Type :=
| VInt (z : Z)
| VStr (s : list Z).

(** The digit characters of [hex]. *)
Definition hex : list Z :=
  [48; 49; 50; 51; 52; 53; 54; 55; 56; 57; 97; 98; 99; 100; 101; 102].

(** [do { *s++ = '0' + u % 10U; } while (u /= 10U);] — [buf] is filled from
    the least significant digit on.  A 32-bit [u] takes at most 10 rounds. *)
Fixpoint dec_digits (fuel : nat) (u : Z) : list Z :=
  match fuel with
  | O => []
  | S fuel' =>
      (48 + u mod 10) ::
      (let u := u / 10 in if u =? 0 then [] else dec_digits fuel' u)
  end.

(** [do { *s++ = hex[u & 0xfu]; } while (u >>= 4);] *)
Fixpoint hex_digits (fuel : nat) (u : Z) : list Z :=
  match fuel with
  | O => []
  | S fuel' =>
      (hex !!! Z.to_nat (Z.land u 0xf)) ::
      (let u := Z.shiftr u 4 in if u =? 0 then [] else hex_digits fuel' u)
  end.

Definition digit_fuel : nat := 32.

(** The content of [buf] when [dumpbuf] is reached. *)
Definition buf_d (arg : Z) : list Z :=
  let i := s32 arg in
  let u := if i <? 0 then u32 (- i) else u32 i in
  dec_digits digit_fuel u ++ (if i <? 0 then [45] else []).
Definition buf_u (arg : Z) : list Z := dec_digits digit_fuel (u32 arg).
Definition buf_x (arg : Z) : list Z := hex_digits digit_fuel (u32 arg).

Section vprintf.
Context {S : Type} (mon_putchar : Z -> M S unit).

(** [for (s = ...; *s; s++) { mon_putchar( *s ); ret++; }] *)
Fixpoint put_string (s : list Z) (ret : Z) : M S Z :=
  match s with
  | [] => mret ret
  | c :: s' => _ ← mon_putchar c; put_string s' (ret + 1)
  end.

(** [dumpbuf: while (--s >= buf) { mon_putchar( *s ); ret++; }] *)
Definition dumpbuf (buf : list Z) (ret : Z) : M S Z := put_string (rev buf) ret.

(** The [while ((c = *fmt++))] loop.  [%] as the last character makes the
    loop read past the terminator. *)
Fixpoint vprintf_loop (fmt : list Z) (ap : list varg) (ret : Z) : M S Z :=
  match fmt with
  | [] => mret ret
  | c :: fmt' =>
      if c =? 37 (* '%' *) then
        match fmt' with
        | [] => fault "format string overrun"
        | c2 :: fmt'' =>
            if c2 =? 99 (* 'c' *) then
              match ap with
              | VInt z :: ap' =>
                  _ ← mon_putchar z; vprintf_loop fmt'' ap' (ret + 1)
              | _ => fault "va_arg"
              end
            else if c2 =? 115 (* 's' *) then
              match ap with
              | VStr s :: ap' => r ← put_string s ret; vprintf_loop fmt'' ap' r
              | _ => fault "va_arg"
              end
            else if c2 =? 100 (* 'd' *) then
              match ap with
              | VInt z :: ap' => r ← dumpbuf (buf_d z) ret; vprintf_loop fmt'' ap' r
              | _ => fault "va_arg"
              end
            else if c2 =? 117 (* 'u' *) then
              match ap with
              | VInt z :: ap' => r ← dumpbuf (buf_u z) ret; vprintf_loop fmt'' ap' r
              | _ => fault "va_arg"
              end
            else if c2 =? 120 (* 'x' *) then
              match ap with
              | VInt z :: ap' => r ← dumpbuf (buf_x z) ret; vprintf_loop fmt'' ap' r
              | _ => fault "va_arg"
              end
            else _ ← mon_putchar c2; vprintf_loop fmt'' ap (ret + 1)
        end
      else _ ← mon_putchar c; vprintf_loop fmt' ap (ret + 1)
  end.

Definition vprintf (fmt : list Z) (ap : list varg) : M S Z := vprintf_loop fmt ap 0.

(** [printf] only packs its arguments into a [va_list]. *)
Definition printf (fmt : list Z) (args : list varg) : M S Z := vprintf fmt args.

(** [_panic] up to its endless loop: banner, message, rule. *)
Definition panic_output (banner : list Z) (fmt : list Z) (args : list varg)
    (rule : list Z) : M S unit :=
  _ ← printf banner [];
  _ ← vprintf fmt args;
  _ ← printf rule [];
  mret tt.
End vprintf.

(** A Rocq string as a C string's bytes. *)
Definition bytes (s : string) : list Z :=
  (fun a => Z.of_N (Ascii.N_of_ascii a)) <$> String.list_ascii_of_string s.

(** [_panic(fmt, ...)]: prints, then [for (;;) ;]. *)
Definition _panic (fmt : string) (args : list varg) : M monitor unit :=
  _ ← panic_output mon_putchar
        ([10] ++ bytes "***** Kernel panic! *****" ++ [10]) (bytes fmt) args
        ([10] ++ bytes "*************************" ++ [10]);
  panic fmt.

(** ** What is printed, as a list *)

(** Collect the characters instead of showing them. *)
Definition collect (c : Z) : M (list Z) unit := modify (fun l => l ++ [c]).

(** The reference rendering of a format with its arguments. *)
Fixpoint render (fmt : list Z) (ap : list varg) : option (list Z) :=
  match fmt with
  | [] => Some []
  | c :: fmt' =>
      if c =? 37 then
        match fmt' with
        | [] => None
        | c2 :: fmt'' =>
            if c2 =? 99 then
              match ap with
              | VInt z :: ap' => cons z <$> render fmt'' ap'
              | _ => None
              end
            else if c2 =? 115 then
              match ap with
              | VStr s :: ap' => app s <$> render fmt'' ap'
              | _ => None
              end
            else if c2 =? 100 then
              match ap with
              | VInt z :: ap' => app (rev (buf_d z)) <$> render fmt'' ap'
              | _ => None
              end
            else if c2 =? 117 then
              match ap with
              | VInt z :: ap' => app (rev (buf_u z)) <$> render fmt'' ap'
              | _ => None
              end
            else if c2 =? 120 then
              match ap with
              | VInt z :: ap' => app (rev (buf_x z)) <$> render fmt'' ap'
              | _ => None
              end
            else cons c2 <$> render fmt'' ap
        end
      else cons c <$> render fmt' ap
  end.

(** Feeding a list of characters to a sink. *)
Fixpoint put_all {S} (putc : Z -> M S unit) (l : list Z) : M S unit :=
  match l with
  | [] => mret tt
  | c :: l' => _ ← putc c; put_all putc l'
  end.

(** Reading digits back: least significant first. *)
Fixpoint value_lsb (base : Z) (l : list Z) : Z :=
  match l with [] => 0 | d :: l' => d + base * value_lsb base l' end.
Definition dec_val (c : Z) : Z := c - 48.
Definition hex_val (c : Z) : Z := if c <? 58 then c - 48 else c - 87.

(** ** Lemmas *)

Section render.
Context {S : Type} (putc : Z -> M S unit).

Lemma put_all_app l1 l2 s :
  put_all putc (l1 ++ l2) s = (_ ← put_all putc l1; put_all putc l2) s.
Proof.
  revert s; induction l1 as [| c l1 IH]; intros s; cbn [put_all app]; [done |].
  rewrite bind_assoc. by apply bind_cong.
Qed.

Lemma put_string_run l ret s :
  put_string putc l ret s =
    (_ ← put_all putc l; mret (ret + Z.of_nat (length l))) s.
Proof.
  revert ret s; induction l as [| c l IH]; intros ret s; cbn [put_string put_all].
  - mred. f_equal. cbn; lia.
  - rewrite bind_assoc. apply bind_cong. intros ? s' _. rewrite IH. cbn [length].
    by replace (ret + Z.of_nat (Datatypes.S (length l)))
      with (ret + 1 + Z.of_nat (length l)) by lia.
Qed.

(** [vprintf] shows exactly the rendering, and returns its length. *)
Lemma vprintf_loop_render fmt ap out ret s :
  render fmt ap = Some out ->
  vprintf_loop putc fmt ap ret s =
    (_ ← put_all putc out; mret (ret + Z.of_nat (length out))) s.
Proof.
  (* One character of output followed by the rest. *)
  assert (Hone : forall c out' fmt' ap' ret s,
    (forall ret s, vprintf_loop putc fmt' ap' ret s =
      (_ ← put_all putc out'; mret (ret + Z.of_nat (length out'))) s) ->
    (_ ← putc c; vprintf_loop putc fmt' ap' (ret + 1)) s =
    (_ ← put_all putc (c :: out'); mret (ret + Z.of_nat (length (c :: out')))) s).
  { intros c out' fmt' ap' ret' s' H. cbn [put_all length]. rewrite bind_assoc.
    apply bind_cong. intros ? s'' _. rewrite H.
    by replace (ret' + Z.of_nat (Datatypes.S (length out')))
      with (ret' + 1 + Z.of_nat (length out')) by lia. }
  (* A string of output followed by the rest. *)
  assert (Hstr : forall l out' fmt' ap' ret s,
    (forall ret s, vprintf_loop putc fmt' ap' ret s =
      (_ ← put_all putc out'; mret (ret + Z.of_nat (length out'))) s) ->
    (r ← put_string putc l ret; vprintf_loop putc fmt' ap' r) s =
    (_ ← put_all putc (l ++ out'); mret (ret + Z.of_nat (length (l ++ out')))) s).
  { intros l out' fmt' ap' ret' s' H.
    destruct (put_all putc l s') as [[] s1 | r] eqn:E.
    - rewrite (bind_Done _ _ _ (ret' + Z.of_nat (length l)) s1)
        by (by rewrite put_string_run, (bind_Done _ _ _ _ _ E)).
      rewrite H. unfold mbind at 1 2, M_bind at 1 2.
      rewrite put_all_app, (bind_Done _ _ _ _ _ E), length_app, Nat2Z.inj_add.
      by rewrite Z.add_assoc.
    - rewrite (bind_Halt _ _ _ r) by (by rewrite put_string_run, (bind_Halt _ _ _ _ E)).
      by rewrite (bind_Halt _ _ _ r) by (by rewrite put_all_app, (bind_Halt _ _ _ _ E)). }
  revert fmt ap out ret s. fix IH 1. intros fmt ap out ret s Hr.
  destruct fmt as [| c fmt]; [cbn in Hr; simplify_eq; cbn; mred; f_equal; lia |].
  cbn [render vprintf_loop] in *.
  destruct (c =? 37); [| apply fmap_Some in Hr as (o & E & ->); apply Hone; auto].
  destruct fmt as [| c2 fmt]; [done |].
  destruct (c2 =? 99);
    [destruct ap as [| [z | str] ap]; try done;
     apply fmap_Some in Hr as (o & E & ->); apply Hone; auto |].
  destruct (c2 =? 115);
    [destruct ap as [| [z | str] ap]; try done;
     apply fmap_Some in Hr as (o & E & ->); apply Hstr; auto |].
  do 3 (match goal with |- context [if ?b then _ else _] => destruct b end;
    [destruct ap as [| [z | str] ap]; try done;
     apply fmap_Some in Hr as (o & E & ->); apply Hstr; auto |]).
  apply fmap_Some in Hr as (o & E & ->); apply Hone; auto.
Qed.
End render.

Lemma put_all_collect l acc : put_all collect l acc = Done tt (acc ++ l).
Proof.
  revert acc; induction l as [| c l IH]; intros acc; cbn; [by rewrite app_nil_r |].
  rewrite (bind_Done _ _ _ tt (acc ++ [c])) by done.
  by rewrite IH, <- app_assoc.
Qed.

(** *** Digits *)

Lemma dec_digits_value fuel u :
  0 <= u < 10 ^ Z.of_nat fuel -> (0 < fuel)%nat ->
  value_lsb 10 (dec_val <$> dec_digits fuel u) = u.
Proof.
  revert u; induction fuel as [| fuel IH]; intros u Hu Hf; [lia |].
  cbn [dec_digits fmap list_fmap value_lsb].
  assert (Hd : dec_val (48 + u mod 10) = u mod 10) by (unfold dec_val; lia).
  rewrite Hd. cbv zeta. destruct (Z.eqb_spec (u / 10) 0) as [E | E]; cbn [fmap list_fmap value_lsb].
  - Z.div_mod_to_equations; lia.
  - rewrite Nat2Z.inj_succ, Z.pow_succ_r in Hu by lia.
    destruct fuel as [| fuel]; [cbn in Hu; Z.div_mod_to_equations; lia |].
    rewrite IH by (try lia; Z.div_mod_to_equations; lia).
    Z.div_mod_to_equations; lia.
Qed.

Lemma dec_digits_length fuel n u :
  0 <= u < 10 ^ Z.of_nat n -> (0 < n)%nat -> (length (dec_digits fuel u) <= n)%nat.
Proof.
  revert n u; induction fuel as [| fuel IH]; intros n u Hu Hn; cbn; [lia |].
  destruct (Z.eqb_spec (u / 10) 0) as [E | E]; cbn; [lia |].
  destruct n as [| n]; [lia |]. rewrite Nat2Z.inj_succ, Z.pow_succ_r in Hu by lia.
  destruct n as [| n]; [cbn in Hu; Z.div_mod_to_equations; lia |].
  specialize (IH (S n) (u / 10)). cut (length (dec_digits fuel (u / 10)) <= S n)%nat; [lia |].
  apply IH; [| lia]. Z.div_mod_to_equations; lia.
Qed.

Lemma dec_digits_chars fuel u :
  0 <= u -> Forall (fun c => 48 <= c < 58) (dec_digits fuel u).
Proof.
  revert u; induction fuel as [| fuel IH]; intros u Hu; cbn; [constructor |].
  constructor; [Z.div_mod_to_equations; lia |].
  destruct (u / 10 =? 0); [constructor |]. apply IH. Z.div_mod_to_equations; lia.
Qed.

Lemma hex_digit_val k : 0 <= k < 16 -> hex_val (hex !!! Z.to_nat k) = k.
Proof.
  intros Hk. assert (H : Forall (fun k => hex_val (hex !!! Z.to_nat k) = k) (seqZ 0 16))
    by (vm_compute; repeat constructor).
  rewrite Forall_forall in H. apply H. apply elem_of_seqZ. lia.
Qed.

Lemma hex_digits_value fuel u :
  0 <= u < 16 ^ Z.of_nat fuel -> (0 < fuel)%nat ->
  value_lsb 16 (hex_val <$> hex_digits fuel u) = u.
Proof.
  revert u; induction fuel as [| fuel IH]; intros u Hu Hf; [lia |].
  cbn [hex_digits fmap list_fmap value_lsb].
  change 0xf with (Z.ones 4). rewrite Z.land_ones, Z.shiftr_div_pow2 by lia.
  change (2 ^ 4) with 16. rewrite hex_digit_val by (Z.div_mod_to_equations; lia).
  cbv zeta. destruct (Z.eqb_spec (u / 16) 0) as [E | E]; cbn [fmap list_fmap value_lsb].
  - Z.div_mod_to_equations; lia.
  - rewrite Nat2Z.inj_succ, Z.pow_succ_r in Hu by lia.
    destruct fuel as [| fuel]; [cbn in Hu; Z.div_mod_to_equations; lia |].
    rewrite IH by (try lia; Z.div_mod_to_equations; lia).
    Z.div_mod_to_equations; lia.
Qed.

Lemma hex_digits_length fuel n u :
  0 <= u < 16 ^ Z.of_nat n -> (0 < n)%nat -> (length (hex_digits fuel u) <= n)%nat.
Proof.
  revert n u; induction fuel as [| fuel IH]; intros n u Hu Hn; cbn -[Z.shiftr]; [lia |].
  rewrite Z.shiftr_div_pow2 by lia. change (2 ^ 4) with 16.
  destruct (Z.eqb_spec (u / 16) 0) as [E | E]; cbn; [lia |].
  destruct n as [| n]; [lia |]. rewrite Nat2Z.inj_succ, Z.pow_succ_r in Hu by lia.
  destruct n as [| n]; [cbn in Hu; Z.div_mod_to_equations; lia |].
  cut (length (hex_digits fuel (u / 16)) <= S n)%nat; [lia |].
  apply IH; [| lia]. Z.div_mod_to_equations; lia.
Qed.

(** ** Properties *)

(** [vprintf] into any character sink writes exactly the rendering of
    its format and returns the number of characters written. *)
Theorem vprintf_correct {S} (putc : Z -> M S unit) fmt ap out s :
  render fmt ap = Some out ->
  vprintf putc fmt ap s = (_ ← put_all putc out; mret (Z.of_nat (length out))) s /\
  (forall acc, vprintf collect fmt ap acc = Done (Z.of_nat (length out)) (acc ++ out)).
Proof.
  intros H. split; [exact (vprintf_loop_render putc fmt ap out 0 s H) |].
  intros acc. unfold vprintf. rewrite (vprintf_loop_render collect fmt ap out 0 acc H).
  by rewrite (bind_Done _ _ _ _ _ (put_all_collect out acc)).
Qed.

Lemma vprintf_witness :
  vprintf collect (bytes "%d:%x") [VInt 4294967254; VInt 255] [] =
    Done 6 (bytes "-42:ff").
Proof.
  exact (proj2 (vprintf_correct collect (bytes "%d:%x") [VInt 4294967254; VInt 255]
    (bytes "-42:ff") [] eq_refl) []).
Defined.

(** The signed value a string of digits with an optional minus denotes. *)
Definition parse_d (l : list Z) : Z :=
  match l with
  | 45 :: l' => - value_lsb 10 (dec_val <$> rev l')
  | _ => value_lsb 10 (dec_val <$> rev l)
  end.

Lemma dec_digits_nonnil fuel u : fuel <> O -> dec_digits fuel u <> [].
Proof. by destruct fuel. Qed.

Lemma parse_d_digits l : Forall (fun c => 48 <= c < 58) l -> l <> [] ->
  parse_d (rev l) = value_lsb 10 (dec_val <$> l).
Proof.
  intros Hl Hn. destruct (rev l) as [| c r] eqn:E.
  - apply (f_equal (@rev Z)) in E. rewrite rev_involutive in E. done.
  - assert (48 <= c < 58).
    { rewrite Forall_forall in Hl. apply Hl. apply list_elem_of_In, in_rev.
      rewrite E. by left. }
    assert (Er : rev (c :: r) = l) by (by rewrite <- E, rev_involutive).
    assert (parse_d (c :: r) = value_lsb 10 (dec_val <$> rev (c :: r))) as ->; [| by rewrite Er].
    unfold parse_d. destruct c as [| p |]; try lia.
    do 6 (destruct p as [p | p |]; try done; try lia).
Qed.

(** for every 32-bit argument the digit buffers of %d, %u and %x hold the
    value (they read back to it), fit the 11-byte [buf] of
    [vprintf]. *)
Theorem digit_buffers_correct arg :
  parse_d (rev (buf_d arg)) = s32 arg /\
  value_lsb 10 (dec_val <$> buf_u arg) = u32 arg /\
  value_lsb 16 (hex_val <$> buf_x arg) = u32 arg /\
  (length (buf_d arg) <= 11)%nat /\ (length (buf_u arg) <= 10)%nat /\
  (length (buf_x arg) <= 8)%nat.
Proof.
  pose proof (u32_range arg) as Hu. pose proof (s32_range arg) as Hs. unfold in_u32 in Hu.
  assert (Hv : forall u, 0 <= u < 4294967296 ->
    value_lsb 10 (dec_val <$> dec_digits digit_fuel u) = u).
  { intros u Hur. apply dec_digits_value; [| unfold digit_fuel; lia].
    change (10 ^ Z.of_nat digit_fuel) with 100000000000000000000000000000000. lia. }
  assert (Hlen : forall u, 0 <= u < 4294967296 -> (length (dec_digits digit_fuel u) <= 10)%nat).
  { intros u Hur. apply dec_digits_length; [| lia].
    change (10 ^ Z.of_nat 10) with 10000000000. lia. }
  split_and!.
  - unfold buf_d. destruct (Z.ltb_spec (s32 arg) 0) as [L | L].
    + rewrite rev_app_distr. cbn [rev app].
      unfold parse_d. rewrite rev_involutive, u32_small by (unfold in_u32; lia).
      rewrite Hv by lia. lia.
    + rewrite app_nil_r, u32_small by (unfold in_u32; lia).
      rewrite parse_d_digits; [apply Hv; lia | apply dec_digits_chars; lia |].
      by apply dec_digits_nonnil.
  - unfold buf_u. apply Hv. lia.
  - unfold buf_x. apply hex_digits_value; [| unfold digit_fuel; lia].
    change (16 ^ Z.of_nat digit_fuel) with (2 ^ 128). lia.
  - unfold buf_d. rewrite length_app. destruct (Z.ltb_spec (s32 arg) 0); cbn [length];
      specialize (Hlen (u32 (if s32 arg <? 0 then - s32 arg else s32 arg)) (u32_range _)).
    + rewrite (proj2 (Z.ltb_lt _ _)) in Hlen by done. lia.
    + rewrite (proj2 (Z.ltb_ge _ _)) in Hlen by done. lia.
  - by apply Hlen.
  - unfold buf_x. apply hex_digits_length; [| lia].
    change (16 ^ Z.of_nat 8) with 4294967296. lia.
Qed.
