(* ===== verification/KState.v ===== *)
(** * KState: the state of the JamesM kernel

    Raw memory (page tables, page directory, frame bitset, heap blocks and the
    heap index, the archive and the file nodes live there as bytes), the
    [struct vm_heap] objects by address, the console, the descriptor tables,
    and the C globals of kmalloc.c, heap.c, paging.c, isr.c, timer.c, vfs.c and
    initrd.c. *)

From S2P Require Import Prelude Mem Libc SortedArray Monitor Printf.

(** [struct vm_heap] (src/src/include/heap.h). *)
Record vm_heap : Type := {
  h_index : sorted_array;
  h_addr_start : Z;
  h_addr_end : Z;
  h_addr_max : Z;
  h_su : Z;
  h_ro : Z
}.

Definition set_h_index (x : sorted_array) (h : vm_heap) : vm_heap :=
  {| h_index := x; h_addr_start := h_addr_start h; h_addr_end := h_addr_end h;
     h_addr_max := h_addr_max h; h_su := h_su h; h_ro := h_ro h |}.
Definition set_h_addr_end (e : Z) (h : vm_heap) : vm_heap :=
  {| h_index := h_index h; h_addr_start := h_addr_start h; h_addr_end := e;
     h_addr_max := h_addr_max h; h_su := h_su h; h_ro := h_ro h |}.

(** Addresses of C functions [interrupt_handlers] can hold. *)
Inductive isrhdl_t : Type := page_fault_handler_p | timer_callback_p.

(** [struct cpu_regs] (src/src/include/isr.h). *)
Record cpu_regs : Type := {
  r_ds : Z; r_edi : Z; r_esi : Z; r_ebp : Z; r_esp : Z; r_ebx : Z; r_edx : Z;
  r_ecx : Z; r_eax : Z; int_no : Z; err_code : Z; r_eip : Z; r_cs : Z;
  r_eflags : Z; r_useresp : Z; r_ss : Z
}.

(** [struct gdt_entry] and [struct idt_entry]
    (src/src/include/descriptor_tables.h). *)
Record gdt_entry : Type := {
  ge_limit_lo : Z; ge_base_lo : Z; ge_base_mi : Z; ge_access : Z;
  ge_granularity : Z; ge_base_hi : Z
}.
Record idt_entry : Type := {
  ie_base_lo : Z; ie_sel : Z; ie_always0 : Z; ie_flags : Z; ie_base_hi : Z
}.

(** [struct gdt_ptr] and [struct idt_ptr]: limit and base. *)
Record table_ptr : Type := { tp_limit : Z; tp_base : Z }.

(** The static tables of descriptor_tables.c, the addresses the linker gave
    them, and the table registers [lgdt]/[lidt] load. *)
Record dtables : Type := {
  gdt_entries : list gdt_entry;
  idt_entries : list idt_entry;
  gdt_ptr : table_ptr;
  idt_ptr : table_ptr;
  gdt_entries_addr : Z;
  idt_entries_addr : Z;
  gdtr : table_ptr;
  idtr : table_ptr
}.

(** The static variables of initrd.c; [dirent_p] is the address of its static
    [struct dirent]. *)
Record initrd_vars : Type := {
  tar_files : Z;
  initrd_root : Z;
  initrd_dev : Z;
  root_nodes : Z;
  nroot_nodes : Z;
  dirent_p : Z
}.

Record kstate : Type := {
  ks_mem : memory;
  heaps : gmap Z vm_heap;
  placement_address : Z;
  kernel_heap : Z;
  frames : Z;
  nframes : Z;
  kernel_directory : Z;
  current_directory : Z;
  cr0 : Z;
  cr2 : Z;
  cr3 : Z;
  interrupt_handlers : gmap Z isrhdl_t;
  console : monitor;
  tick : Z;
  dt : dtables;
  ird : initrd_vars;
  vfs_root : Z
}.

Definition set_ks_mem (m : memory) (s : kstate) : kstate :=
  {| ks_mem := m; heaps := heaps s; placement_address := placement_address s;
     kernel_heap := kernel_heap s; frames := frames s; nframes := nframes s;
     kernel_directory := kernel_directory s;
     current_directory := current_directory s; cr0 := cr0 s; cr2 := cr2 s;
     cr3 := cr3 s; interrupt_handlers := interrupt_handlers s;
     console := console s; tick := tick s; dt := dt s; ird := ird s;
     vfs_root := vfs_root s |}.
Definition set_heaps (h : gmap Z vm_heap) (s : kstate) : kstate :=
  {| ks_mem := ks_mem s; heaps := h; placement_address := placement_address s;
     kernel_heap := kernel_heap s; frames := frames s; nframes := nframes s;
     kernel_directory := kernel_directory s;
     current_directory := current_directory s; cr0 := cr0 s; cr2 := cr2 s;
     cr3 := cr3 s; interrupt_handlers := interrupt_handlers s;
     console := console s; tick := tick s; dt := dt s; ird := ird s;
     vfs_root := vfs_root s |}.
Definition set_placement_address (p : Z) (s : kstate) : kstate :=
  {| ks_mem := ks_mem s; heaps := heaps s; placement_address := p;
     kernel_heap := kernel_heap s; frames := frames s; nframes := nframes s;
     kernel_directory := kernel_directory s;
     current_directory := current_directory s; cr0 := cr0 s; cr2 := cr2 s;
     cr3 := cr3 s; interrupt_handlers := interrupt_handlers s;
     console := console s; tick := tick s; dt := dt s; ird := ird s;
     vfs_root := vfs_root s |}.
Definition set_kernel_heap (p : Z) (s : kstate) : kstate :=
  {| ks_mem := ks_mem s; heaps := heaps s;
     placement_address := placement_address s; kernel_heap := p;
     frames := frames s; nframes := nframes s;
     kernel_directory := kernel_directory s;
     current_directory := current_directory s; cr0 := cr0 s; cr2 := cr2 s;
     cr3 := cr3 s; interrupt_handlers := interrupt_handlers s;
     console := console s; tick := tick s; dt := dt s; ird := ird s;
     vfs_root := vfs_root s |}.
Definition set_kernel_directory (d : Z) (s : kstate) : kstate :=
  {| ks_mem := ks_mem s; heaps := heaps s;
     placement_address := placement_address s; kernel_heap := kernel_heap s;
     frames := frames s; nframes := nframes s; kernel_directory := d;
     current_directory := current_directory s; cr0 := cr0 s; cr2 := cr2 s;
     cr3 := cr3 s; interrupt_handlers := interrupt_handlers s;
     console := console s; tick := tick s; dt := dt s; ird := ird s;
     vfs_root := vfs_root s |}.
Definition set_interrupt_handlers (t : gmap Z isrhdl_t) (s : kstate) : kstate :=
  {| ks_mem := ks_mem s; heaps := heaps s;
     placement_address := placement_address s; kernel_heap := kernel_heap s;
     frames := frames s; nframes := nframes s;
     kernel_directory := kernel_directory s;
     current_directory := current_directory s; cr0 := cr0 s; cr2 := cr2 s;
     cr3 := cr3 s; interrupt_handlers := t; console := console s;
     tick := tick s; dt := dt s; ird := ird s; vfs_root := vfs_root s |}.
Definition set_console (c : monitor) (s : kstate) : kstate :=
  {| ks_mem := ks_mem s; heaps := heaps s;
     placement_address := placement_address s; kernel_heap := kernel_heap s;
     frames := frames s; nframes := nframes s;
     kernel_directory := kernel_directory s;
     current_directory := current_directory s; cr0 := cr0 s; cr2 := cr2 s;
     cr3 := cr3 s; interrupt_handlers := interrupt_handlers s; console := c;
     tick := tick s; dt := dt s; ird := ird s; vfs_root := vfs_root s |}.
Definition set_tick (t : Z) (s : kstate) : kstate :=
  {| ks_mem := ks_mem s; heaps := heaps s;
     placement_address := placement_address s; kernel_heap := kernel_heap s;
     frames := frames s; nframes := nframes s;
     kernel_directory := kernel_directory s;
     current_directory := current_directory s; cr0 := cr0 s; cr2 := cr2 s;
     cr3 := cr3 s; interrupt_handlers := interrupt_handlers s;
     console := console s; tick := t; dt := dt s; ird := ird s;
     vfs_root := vfs_root s |}.
Definition set_dt (d : dtables) (s : kstate) : kstate :=
  {| ks_mem := ks_mem s; heaps := heaps s;
     placement_address := placement_address s; kernel_heap := kernel_heap s;
     frames := frames s; nframes := nframes s;
     kernel_directory := kernel_directory s;
     current_directory := current_directory s; cr0 := cr0 s; cr2 := cr2 s;
     cr3 := cr3 s; interrupt_handlers := interrupt_handlers s;
     console := console s; tick := tick s; dt := d; ird := ird s;
     vfs_root := vfs_root s |}.
Definition set_ird (v : initrd_vars) (s : kstate) : kstate :=
  {| ks_mem := ks_mem s; heaps := heaps s;
     placement_address := placement_address s; kernel_heap := kernel_heap s;
     frames := frames s; nframes := nframes s;
     kernel_directory := kernel_directory s;
     current_directory := current_directory s; cr0 := cr0 s; cr2 := cr2 s;
     cr3 := cr3 s; interrupt_handlers := interrupt_handlers s;
     console := console s; tick := tick s; dt := dt s; ird := v;
     vfs_root := vfs_root s |}.
Definition set_vfs_root (r : Z) (s : kstate) : kstate :=
  {| ks_mem := ks_mem s; heaps := heaps s;
     placement_address := placement_address s; kernel_heap := kernel_heap s;
     frames := frames s; nframes := nframes s;
     kernel_directory := kernel_directory s;
     current_directory := current_directory s; cr0 := cr0 s; cr2 := cr2 s;
     cr3 := cr3 s; interrupt_handlers := interrupt_handlers s;
     console := console s; tick := tick s; dt := dt s; ird := ird s;
     vfs_root := r |}.
Definition set_frames (f n : Z) (s : kstate) : kstate :=
  {| ks_mem := ks_mem s; heaps := heaps s;
     placement_address := placement_address s; kernel_heap := kernel_heap s;
     frames := f; nframes := n; kernel_directory := kernel_directory s;
     current_directory := current_directory s; cr0 := cr0 s; cr2 := cr2 s;
     cr3 := cr3 s; interrupt_handlers := interrupt_handlers s;
     console := console s; tick := tick s; dt := dt s; ird := ird s;
     vfs_root := vfs_root s |}.
Definition set_cpu (cur c0 c3 : Z) (s : kstate) : kstate :=
  {| ks_mem := ks_mem s; heaps := heaps s;
     placement_address := placement_address s; kernel_heap := kernel_heap s;
     frames := frames s; nframes := nframes s;
     kernel_directory := kernel_directory s; current_directory := cur;
     cr0 := c0; cr2 := cr2 s; cr3 := c3;
     interrupt_handlers := interrupt_handlers s; console := console s;
     tick := tick s; dt := dt s; ird := ird s; vfs_root := vfs_root s |}.

(** ** Accesses *)

Definition ldw (a : Z) : M kstate Z := gets (fun s => load32 (ks_mem s) a).
Definition stw (a v : Z) : M kstate unit :=
  modify (fun s => set_ks_mem (store32 (ks_mem s) a v) s).

(** Run a memory-only operation. *)
Definition lift_mem {A} (c : M memory A) : M kstate A := fun s =>
  match c (ks_mem s) with
  | Done a m => Done a (set_ks_mem m s)
  | Halt r => Halt r
  end.

(** Run a console operation. *)
Definition lift_con {A} (c : M monitor A) : M kstate A := fun s =>
  match c (console s) with
  | Done a m => Done a (set_console m s)
  | Halt r => Halt r
  end.

(** [outb] from kernel code: one port trace for the whole machine. *)
Definition kout (port value : Z) : M kstate unit :=
  modify (fun s =>
    set_console (set_mon_ports (outb port value (mon_ports (console s))) (console s)) s).

(** [printf] on the kernel console. *)
Definition kprintf (fmt : list Z) (args : list varg) : M kstate Z :=
  printf (fun c => lift_con (mon_putchar c)) fmt args.

(** Read and write the [struct vm_heap] at address [hp]. *)
Definition get_heap (hp : Z) : M kstate vm_heap :=
  get_opt "struct vm_heap" (fun s => heaps s !! hp).
Definition put_heap (hp : Z) (h : vm_heap) : M kstate unit :=
  modify (fun s => set_heaps (<[hp := h]> (heaps s)) s).

(** ** The allocator interface

    [get_page] asks the kernel allocator for zeroed, page-aligned page tables
    and their physical address; the heap in turn maps its pages through
    [get_page].  Both are written against this interface, which Kmalloc
    implements. *)

Class Kmalloc : Type := kmalloc0_ap : Z -> M kstate (Z * Z).

Lemma set_ks_mem_id s : set_ks_mem (ks_mem s) s = s.
Proof. by destruct s. Qed.
Lemma set_ks_mem_twice m m' s : set_ks_mem m (set_ks_mem m' s) = set_ks_mem m s.
Proof. done. Qed.
Lemma ks_mem_set_ks_mem m s : ks_mem (set_ks_mem m s) = m.
Proof. done. Qed.

(** Port writes appended to the machine's trace. *)
Definition with_ports (p : io_trace) (s : kstate) : kstate :=
  set_console (set_mon_ports (mon_ports (console s) ++ p) (console s)) s.

Lemma kout_bind {A} port value (k : unit -> M kstate A) s :
  (kout port value ≫= k) s = k tt (with_ports [(u16 port, u8 value)] s).
Proof. done. Qed.
Lemma with_ports_twice p q s : with_ports q (with_ports p s) = with_ports (p ++ q) s.
Proof. unfold with_ports, set_console, set_mon_ports; cbn. by rewrite <- app_assoc. Qed.

(** A machine at rest: memory all zero, a blank screen, nothing set up.  The
    concrete instances of the theorems start from it. *)
Definition blank_monitor : monitor :=
  {| video_memory := replicate 2000 0; cursor_x := 0; cursor_y := 0; mon_ports := [] |}.
Definition blank_gdt_entry : gdt_entry :=
  {| ge_limit_lo := 0; ge_base_lo := 0; ge_base_mi := 0; ge_access := 0;
     ge_granularity := 0; ge_base_hi := 0 |}.
Definition blank_idt_entry : idt_entry :=
  {| ie_base_lo := 0; ie_sel := 0; ie_always0 := 0; ie_flags := 0; ie_base_hi := 0 |}.
Definition blank_ptr : table_ptr := {| tp_limit := 0; tp_base := 0 |}.
Definition blank_dtables : dtables :=
  {| gdt_entries := replicate 5 blank_gdt_entry;
     idt_entries := replicate 256 blank_idt_entry;
     gdt_ptr := blank_ptr; idt_ptr := blank_ptr; gdt_entries_addr := 0x2000;
     idt_entries_addr := 0x3000; gdtr := blank_ptr; idtr := blank_ptr |}.
Definition blank_kstate : kstate :=
  {| ks_mem := ∅; heaps := ∅; placement_address := 0x100000; kernel_heap := 0;
     frames := 0; nframes := 0; kernel_directory := 0; current_directory := 0;
     cr0 := 0; cr2 := 0; cr3 := 0; interrupt_handlers := ∅;
     console := blank_monitor; tick := 0; dt := blank_dtables;
     ird := {| tar_files := 0; initrd_root := 0; initrd_dev := 0; root_nodes := 0;
               nroot_nodes := 0; dirent_p := 0 |};
     vfs_root := 0 |}.
