(* ===== verification/Paging.v ===== *)
(** * Paging: src/src/paging.c

    The frame bitset, page-table entries as bit-field words, and the two-level
    page table walk. *)

From S2P Require Import Prelude Mem Libc SortedArray Printf KState.

(** ** [struct vm_page]: one 32-bit page-table entry *)

Record vm_page : Type := {
  p_present : Z;
  p_rw : Z;
  p_user : Z;
  p_accessed : Z;
  p_dirty : Z;
  p_unused : Z;
  p_frame : Z
}.

Definition vm_page_of_word (w : Z) : vm_page :=
  {| p_present := w mod 2; p_rw := w / 2 mod 2; p_user := w / 4 mod 2;
     p_accessed := w / 8 mod 2; p_dirty := w / 16 mod 2;
     p_unused := w / 32 mod 128; p_frame := w / 4096 mod 1048576 |}.

(** Every field keeps the low bits of what is assigned to it. *)
Definition word_of_vm_page (p : vm_page) : Z :=
  p_present p mod 2 + 2 * (p_rw p mod 2) + 4 * (p_user p mod 2) +
  8 * (p_accessed p mod 2) + 16 * (p_dirty p mod 2) +
  32 * (p_unused p mod 128) + 4096 * (p_frame p mod 1048576).

Definition load_page (a : Z) : M kstate vm_page :=
  gets (fun s => vm_page_of_word (load32 (ks_mem s) a)).
Definition store_page (a : Z) (p : vm_page) : M kstate unit :=
  stw a (word_of_vm_page p).

(** ** The frame bitset *)

Definition INDEX_FROM_BIT (a : Z) : Z := a / (8 * 4).
Definition OFFSET_FROM_BIT (a : Z) : Z := a mod (8 * 4).

(** The address of [frames[i]]. *)
Definition frames_slot (s : kstate) (i : Z) : Z := u32 (frames s + 4 * i).

Definition set_frame (frame_addr : Z) : M kstate unit :=
  let frame := frame_addr / 0x1000 in
  let idx := INDEX_FROM_BIT frame in
  let off := OFFSET_FROM_BIT frame in
  modify (fun s =>
    let m := ks_mem s in
    let a := frames_slot s idx in
    set_ks_mem (store32 m a (Z.lor (load32 m a) (Z.shiftl 1 off))) s).

Definition clear_frame (frame_addr : Z) : M kstate unit :=
  let frame := frame_addr / 0x1000 in
  let idx := INDEX_FROM_BIT frame in
  let off := OFFSET_FROM_BIT frame in
  modify (fun s =>
    let m := ks_mem s in
    let a := frames_slot s idx in
    set_ks_mem (store32 m a (Z.land (load32 m a) (Z.lnot (Z.shiftl 1 off)))) s).

Definition test_frame (frame_addr : Z) : M kstate Z :=
  let frame := frame_addr / 0x1000 in
  let idx := INDEX_FROM_BIT frame in
  let off := OFFSET_FROM_BIT frame in
  gets (fun s => Z.land (load32 (ks_mem s) (frames_slot s idx)) (Z.shiftl 1 off)).

(** [for (j = 0; j < 32; j++) if ((w & (0x1 << j)) == 0) return j], [n] left. *)
Fixpoint first_clear_bit (n : nat) (w j : Z) : option Z :=
  match n with
  | O => None
  | S n' =>
      if Z.land w (Z.shiftl 1 j) =? 0 then Some j else first_clear_bit n' w (j + 1)
  end.

(** The scan over the words [i], [i+1], ..., [n] of them. *)
Fixpoint first_frame_loop (n : nat) (s : kstate) (i : Z) : Z :=
  match n with
  | O => u32 (-1)
  | S n' =>
      let w := load32 (ks_mem s) (frames_slot s i) in
      if w =? 0xFFFFFFFF then first_frame_loop n' s (i + 1)
      else match first_clear_bit 32 w 0 with
           | Some j => u32 (i * 4 * 8 + j)
           | None => first_frame_loop n' s (i + 1)
           end
  end.

Definition first_frame : M kstate Z :=
  gets (fun s => first_frame_loop (Z.to_nat (INDEX_FROM_BIT (nframes s))) s 0).

Definition alloc_frame (p is_kernel is_writeable : Z) : M kstate unit :=
  pg ← load_page p;
  if negb (p_frame pg =? 0) then mret tt
  else
    idx ← first_frame;
    if idx =? u32 (-1) then panic "No free frame."
    else
      _ ← set_frame (u32 (idx * 0x1000));
      pg ← load_page p;
      store_page p
        {| p_present := 1;
           p_rw := if negb (is_writeable =? 0) then 1 else 0;
           p_user := if negb (is_kernel =? 0) then 0 else 1;
           p_accessed := p_accessed pg; p_dirty := p_dirty pg;
           p_unused := p_unused pg; p_frame := idx |}.

Definition free_frame (p : Z) : M kstate unit :=
  pg ← load_page p;
  if p_frame pg =? 0 then mret tt
  else
    _ ← clear_frame (p_frame pg);
    pg ← load_page p;
    store_page p
      {| p_present := p_present pg; p_rw := p_rw pg; p_user := p_user pg;
         p_accessed := p_accessed pg; p_dirty := p_dirty pg;
         p_unused := p_unused pg; p_frame := 0 |}.

(** ** The page-table walk *)

Definition pd_tables_slot (dir i : Z) : Z := u32 (dir + 4 * i).
Definition pd_tblphys_slot (dir i : Z) : Z := u32 (dir + 4096 + 4 * i).
Definition sizeof_vm_page_table : Z := 4096.
Definition sizeof_vm_page_directory : Z := 8196.

Definition get_page `{Kmalloc} (address create dir : Z) : M kstate Z :=
  let address := address / 0x1000 in
  let table_idx := address / 1024 in
  tbl ← ldw (pd_tables_slot dir table_idx);
  if negb (tbl =? 0) then mret (u32 (tbl + 4 * (address mod 1024)))
  else if negb (create =? 0) then
    '(t, tmp) ← kmalloc0_ap sizeof_vm_page_table;
    _ ← stw (pd_tables_slot dir table_idx) t;
    _ ← stw (pd_tblphys_slot dir table_idx) (Z.lor tmp 0x7);
    tbl ← ldw (pd_tables_slot dir table_idx);
    mret (u32 (tbl + 4 * (address mod 1024)))
  else mret 0.

(** The two moves to control registers; [cr3] gets the address of
    [dir->pd_tblphys]. *)
Definition switch_page_directory (dir : Z) : M kstate unit :=
  modify (fun s => set_cpu dir (Z.lor (cr0 s) 0x80000000) (u32 (dir + 4096)) s).

(** ** The page-fault handler *)

Definition page_fault_handler (regs : cpu_regs) : M kstate unit :=
  faulting_address ← gets cr2;
  let present := Z.land (err_code regs) 0x1 =? 0 in
  let rw := Z.land (err_code regs) 0x2 in
  let us := Z.land (err_code regs) 0x4 in
  let reserved := Z.land (err_code regs) 0x8 in
  _ ← kprintf (bytes "Page fault (") [];
  _ ← when present (_ ← kprintf (bytes "present ") []; mret tt);
  _ ← when (negb (rw =? 0)) (_ ← kprintf (bytes "read-only ") []; mret tt);
  _ ← when (negb (us =? 0)) (_ ← kprintf (bytes "user-mode ") []; mret tt);
  _ ← when (negb (reserved =? 0)) (_ ← kprintf (bytes "reserved ") []; mret tt);
  _ ← kprintf (bytes ") at %x" ++ [10]) [VInt faulting_address];
  panic "Page fault".

(** ** The bitset as a set of frames *)

(** Is the bit of frame [f] set? *)
Definition frame_used (s : kstate) (f : Z) : bool :=
  Z.testbit (load32 (ks_mem s) (frames_slot s (f / 32))) (f mod 32).

(** The number of frames the bitset words cover. *)
Definition frame_limit (s : kstate) : Z := 32 * (nframes s / 32).

(** The bitset lies in memory without wrapping. *)
Definition frames_wf (s : kstate) : Prop :=
  0 <= frames s /\ 0 <= nframes s < 2 ^ 31 /\
  frames s + 4 * (nframes s / 32) <= 4294967296.

(** Memory outside the bitset words, and everything but memory, is kept. *)
Definition same_but_frames (s s' : kstate) : Prop :=
  s' = set_ks_mem (ks_mem s') s /\
  only_changed (ks_mem s) (ks_mem s') (frames s) (4 * (nframes s / 32)).

(** ** Lemmas *)

Lemma vm_page_roundtrip w : in_u32 w -> word_of_vm_page (vm_page_of_word w) = w.
Proof.
  intros Hw. unfold word_of_vm_page, vm_page_of_word; cbn [p_present p_rw p_user
    p_accessed p_dirty p_unused p_frame].
  unfold in_u32 in Hw. Z.div_mod_to_equations. lia.
Qed.

Lemma word_of_vm_page_range p : in_u32 (word_of_vm_page p).
Proof. unfold word_of_vm_page, in_u32. Z.div_mod_to_equations. lia. Qed.

Lemma vm_page_of_word_of_vm_page p :
  vm_page_of_word (word_of_vm_page p) =
    {| p_present := p_present p mod 2; p_rw := p_rw p mod 2;
       p_user := p_user p mod 2; p_accessed := p_accessed p mod 2;
       p_dirty := p_dirty p mod 2; p_unused := p_unused p mod 128;
       p_frame := p_frame p mod 1048576 |}.
Proof.
  unfold vm_page_of_word, word_of_vm_page.
  f_equal; Z.div_mod_to_equations; lia.
Qed.

Lemma frames_slot_set_mem m s i : frames_slot (set_ks_mem m s) i = frames_slot s i.
Proof. done. Qed.

Lemma frames_slot_small s i :
  frames_wf s -> 0 <= i < nframes s / 32 -> frames_slot s i = frames s + 4 * i.
Proof. intros (? & ? & ?) Hi. apply u32_small. unfold in_u32. lia. Qed.

Lemma frame_index_range s f :
  frames_wf s -> 0 <= f < frame_limit s -> 0 <= f / 32 < nframes s / 32.
Proof. unfold frame_limit. intros _ Hf. Z.div_mod_to_equations. lia. Qed.

(** Rewriting one bitset word: what every frame's bit becomes. *)
Lemma frame_used_store s f w g :
  frames_wf s -> 0 <= f < frame_limit s -> 0 <= g < frame_limit s -> in_u32 w ->
  frame_used (set_ks_mem (store32 (ks_mem s) (frames_slot s (f / 32)) w) s) g =
    if g / 32 =? f / 32 then Z.testbit w (g mod 32) else frame_used s g.
Proof.
  intros Hwf Hf Hg Hw. unfold frame_used. rewrite frames_slot_set_mem.
  cbn [ks_mem set_ks_mem].
  pose proof (frame_index_range s f Hwf Hf). pose proof (frame_index_range s g Hwf Hg).
  destruct (Z.eqb_spec (g / 32) (f / 32)) as [-> | Hne].
  - by rewrite load32_store32_eq, u32_small.
  - rewrite !frames_slot_small by done. destruct Hwf as (? & ? & ?).
    rewrite load32_store32_ne by (unfold disjoint; lia). done.
Qed.

Lemma same_but_frames_store s f w :
  frames_wf s -> 0 <= f < frame_limit s ->
  same_but_frames s (set_ks_mem (store32 (ks_mem s) (frames_slot s (f / 32)) w) s).
Proof.
  intros Hwf Hf. split; [done |]. cbn [ks_mem set_ks_mem].
  pose proof (frame_index_range s f Hwf Hf).
  rewrite frames_slot_small by done. destruct Hwf as (? & ? & ?).
  eapply only_changed_weaken; [apply only_changed_store32; lia | lia | lia].
Qed.

(** [frame_addr] is the address of frame [f]. *)
Lemma set_frame_run s f :
  frames_wf s -> 0 <= f < frame_limit s ->
  exists s', set_frame (f * 4096) s = Done tt s' /\ same_but_frames s s' /\
    forall g, 0 <= g < frame_limit s ->
      frame_used s' g = (g =? f) || frame_used s g.
Proof.
  intros Hwf Hf. unfold set_frame. rewrite Z.div_mul by lia.
  unfold INDEX_FROM_BIT, OFFSET_FROM_BIT. change (8 * 4) with 32.
  eexists; split; [done |]. rewrite shiftl_1_pow2 by (apply Z.mod_pos_bound; lia).
  split; [by apply same_but_frames_store |]. intros g Hg.
  assert (0 <= f mod 32 < 32) by (apply Z.mod_pos_bound; lia).
  rewrite frame_used_store by (done || (apply lor_pow2_range; [apply load32_range | done])).
  destruct (Z.eqb_spec (g / 32) (f / 32)) as [E | E].
  - rewrite Z.lor_spec, Z.pow2_bits_eqb by lia. rewrite orb_comm. f_equal.
    + destruct (Z.eqb_spec g f), (Z.eqb_spec (f mod 32) (g mod 32)); try done;
        exfalso; Z.div_mod_to_equations; lia.
    + unfold frame_used. by rewrite E.
  - destruct (Z.eqb_spec g f); [subst; done | done].
Qed.

(** [clear_frame] on the address of frame [f]. *)
Lemma clear_frame_run s a :
  frames_wf s -> 0 <= a / 4096 < frame_limit s ->
  exists s', clear_frame a s = Done tt s' /\ same_but_frames s s' /\
    forall g, 0 <= g < frame_limit s ->
      frame_used s' g = negb (g =? a / 4096) && frame_used s g.
Proof.
  intros Hwf Hf. unfold clear_frame. set (f := a / 4096) in *.
  unfold INDEX_FROM_BIT, OFFSET_FROM_BIT. change (8 * 4) with 32.
  eexists; split; [done |]. rewrite shiftl_1_pow2 by (apply Z.mod_pos_bound; lia).
  split; [by apply same_but_frames_store |]. intros g Hg.
  assert (0 <= f mod 32 < 32) by (apply Z.mod_pos_bound; lia).
  rewrite frame_used_store
    by (done || (apply land_lnot_pow2_range; [apply load32_range | lia])).
  destruct (Z.eqb_spec (g / 32) (f / 32)) as [E | E].
  - rewrite Z.land_spec, Z.lnot_spec, Z.pow2_bits_eqb by (try apply Z.mod_pos_bound; lia).
    rewrite andb_comm. f_equal.
    + destruct (Z.eqb_spec g f), (Z.eqb_spec (f mod 32) (g mod 32)); try done;
        exfalso; Z.div_mod_to_equations; lia.
    + unfold frame_used. by rewrite E.
  - destruct (Z.eqb_spec g f); [subst; done | done].
Qed.

Lemma test_frame_run s f :
  0 <= f -> exists r, test_frame (f * 4096) s = Done r s /\
    (r = 0 <-> frame_used s f = false).
Proof.
  intros Hf. unfold test_frame. rewrite Z.div_mul by lia.
  unfold INDEX_FROM_BIT, OFFSET_FROM_BIT. change (8 * 4) with 32.
  eexists; split; [done |].
  assert (0 <= f mod 32 < 32) by (apply Z.mod_pos_bound; lia).
  rewrite shiftl_1_pow2, land_pow2_testbit by lia. unfold frame_used.
  assert (0 < 2 ^ (f mod 32)) by (apply Z.pow_pos_nonneg; lia).
  destruct (Z.testbit _ _); split; done || lia.
Qed.

(** *** The search *)

Lemma first_clear_bit_spec n w j :
  0 <= j ->
  match first_clear_bit n w j with
  | Some k => j <= k < j + Z.of_nat n /\ Z.testbit w k = false /\
              forall i, j <= i < k -> Z.testbit w i = true
  | None => forall i, j <= i < j + Z.of_nat n -> Z.testbit w i = true
  end.
Proof.
  revert j; induction n as [| n IH]; intros j Hj; cbn [first_clear_bit]; [intros i Hi; lia |].
  rewrite shiftl_1_pow2, land_pow2_testbit by lia.
  assert (0 < 2 ^ j) by (apply Z.pow_pos_nonneg; lia).
  destruct (Z.testbit w j) eqn:E; destruct (Z.eqb_spec (2 ^ j) 0); try lia; cbn.
  - specialize (IH (j + 1) ltac:(lia)). destruct (first_clear_bit n w (j + 1)).
    + destruct IH as (H1 & H2 & H3). split; [lia |]. split; [done |].
      intros i Hi. destruct (Z.eq_dec i j) as [-> |]; [done | apply H3; lia].
    + intros i Hi. destruct (Z.eq_dec i j) as [-> |]; [done | apply IH; lia].
  - split; [lia |]. split; [done |]. intros i Hi; lia.
Qed.

Lemma all_ones w : in_u32 w -> (forall i, 0 <= i < 32 -> Z.testbit w i = true) ->
  w = 0xFFFFFFFF.
Proof.
  intros Hw H. change 0xFFFFFFFF with (Z.ones 32). apply Z.bits_inj'. intros n Hn.
  destruct (Z.lt_ge_cases n 32).
  - rewrite H, Z.ones_spec_low by lia. done.
  - rewrite Z.ones_spec_high by lia. rewrite <- (Z.mod_small w (2 ^ 32)) by exact Hw.
    apply Z.mod_pow2_bits_high. lia.
Qed.

Lemma frame_used_split s i j :
  0 <= j < 32 -> frame_used s (32 * i + j) = Z.testbit (load32 (ks_mem s) (frames_slot s i)) j.
Proof.
  intros Hj. unfold frame_used. f_equal; [do 2 f_equal |]; Z.div_mod_to_equations; lia.
Qed.

Lemma first_frame_loop_spec n s i :
  0 <= i -> 32 * (i + Z.of_nat n) < 2 ^ 31 ->
  let r := first_frame_loop n s i in
  (32 * i <= r < 32 * (i + Z.of_nat n) /\ frame_used s r = false /\
   forall g, 32 * i <= g < r -> frame_used s g = true) \/
  (r = u32 (-1) /\
   forall g, 32 * i <= g < 32 * (i + Z.of_nat n) -> frame_used s g = true).
Proof.
  revert i; induction n as [| n IH]; intros i Hi Hb; cbn [first_frame_loop].
  - right. split; [done |]. intros g Hg. lia.
  - set (w := load32 (ks_mem s) (frames_slot s i)). cbv zeta.
    assert (Hsplit : forall g, 32 * i <= g < 32 * (i + 1) ->
      frame_used s g = Z.testbit w (g - 32 * i)).
    { intros g Hg. unfold w. rewrite <- frame_used_split by lia. f_equal. lia. }
    (* When word [i] is full, continue with the next one. *)
    assert (Hfull : (forall k, 0 <= k < 32 -> Z.testbit w k = true) ->
      let r := first_frame_loop n s (i + 1) in
      (32 * i <= r < 32 * (i + Z.of_nat (S n)) /\ frame_used s r = false /\
       forall g, 32 * i <= g < r -> frame_used s g = true) \/
      (r = u32 (-1) /\
       forall g, 32 * i <= g < 32 * (i + Z.of_nat (S n)) -> frame_used s g = true)).
    { intros Hall. cbv zeta. destruct (IH (i + 1)) as [(H1 & H2 & H3) | (H1 & H2)]; [lia | lia | |].
      - left. split; [lia |]. split; [done |]. intros g Hg.
        destruct (Z.lt_ge_cases g (32 * (i + 1))); [rewrite Hsplit by lia; apply Hall; lia |].
        apply H3. lia.
      - right. split; [done |]. intros g Hg.
        destruct (Z.lt_ge_cases g (32 * (i + 1))); [rewrite Hsplit by lia; apply Hall; lia |].
        apply H2. lia. }
    destruct (Z.eqb_spec w 0xFFFFFFFF) as [E | E].
    + apply Hfull. intros k Hk. rewrite E. change 0xFFFFFFFF with (Z.ones 32).
      apply Z.ones_spec_low. lia.
    + pose proof (first_clear_bit_spec 32 w 0 ltac:(lia)) as Hc.
      destruct (first_clear_bit 32 w 0) as [k |].
      * destruct Hc as (H1 & H2 & H3). change (Z.of_nat 32) with 32 in H1. left.
        rewrite u32_small by (unfold in_u32; lia).
        split; [lia |]. rewrite Hsplit by lia.
        replace (i * 4 * 8 + k - 32 * i) with k by lia. split; [done |].
        intros g Hg. rewrite Hsplit by lia. apply H3. lia.
      * exfalso. apply E, all_ones; [apply load32_range |]. intros k Hk. apply Hc. lia.
Qed.

(** [first_frame] returns the least free frame, or [(uint32_t)-1]. *)
Lemma first_frame_spec s :
  frames_wf s ->
  exists r, first_frame s = Done r s /\
    ((0 <= r < frame_limit s /\ frame_used s r = false /\
      forall g, 0 <= g < r -> frame_used s g = true) \/
     (r = u32 (-1) /\ forall g, 0 <= g < frame_limit s -> frame_used s g = true)).
Proof.
  intros (H0 & H1 & H2). unfold first_frame, INDEX_FROM_BIT. change (8 * 4) with 32.
  eexists; split; [done |].
  pose proof (first_frame_loop_spec (Z.to_nat (nframes s / 32)) s 0 ltac:(lia)) as H.
  rewrite Z2Nat.id in H by (Z.div_mod_to_equations; lia).
  apply H. Z.div_mod_to_equations; lia.
Qed.

(** *** Frames and pages *)

Lemma same_but_frames_refl s : same_but_frames s s.
Proof. split; [by rewrite set_ks_mem_id | apply only_changed_refl]. Qed.

Lemma frames_wf_set_mem s m : frames_wf s -> frames_wf (set_ks_mem m s).
Proof. done. Qed.

(** The entry at [p] lies apart from the bitset. *)
Definition page_apart (s : kstate) (p : Z) : Prop :=
  disjoint (frames s) (4 * (nframes s / 32)) p 4.

Lemma load_page_run s p : load_page p s = Done (vm_page_of_word (load32 (ks_mem s) p)) s.
Proof. done. Qed.

Lemma load32_same_but_frames s s' p :
  same_but_frames s s' -> page_apart s p -> load32 (ks_mem s') p = load32 (ks_mem s) p.
Proof. intros [_ H] D. by eapply load32_only_changed. Qed.

(** Storing a page entry leaves the bitset alone. *)
Lemma frame_used_store_page s p w g :
  frames_wf s -> page_apart s p -> 0 <= g < frame_limit s ->
  frame_used (set_ks_mem (store32 (ks_mem s) p w) s) g = frame_used s g.
Proof.
  intros Hwf Hp Hg. unfold frame_used. rewrite frames_slot_set_mem. cbn [ks_mem set_ks_mem].
  pose proof (frame_index_range s g Hwf Hg). rewrite frames_slot_small by done.
  unfold page_apart, disjoint in Hp.
  by rewrite load32_store32_ne by (unfold disjoint; lia).
Qed.

(** The entry [alloc_frame] writes for frame [f] over entry [pg]. *)
Definition mapped_page (pg : vm_page) (is_kernel is_writeable f : Z) : vm_page :=
  {| p_present := 1;
     p_rw := if negb (is_writeable =? 0) then 1 else 0;
     p_user := if negb (is_kernel =? 0) then 0 else 1;
     p_accessed := p_accessed pg; p_dirty := p_dirty pg;
     p_unused := p_unused pg; p_frame := f |}.

Lemma mapped_page_word w k wr f :
  0 <= f < 1048576 ->
  vm_page_of_word (word_of_vm_page (mapped_page (vm_page_of_word w) k wr f)) =
    mapped_page (vm_page_of_word w) k wr f.
Proof.
  intros Hf. rewrite vm_page_of_word_of_vm_page. unfold mapped_page, vm_page_of_word.
  cbn [p_present p_rw p_user p_accessed p_dirty p_unused p_frame].
  f_equal; try (repeat case_match; done); rewrite ?Zmod_mod; try done;
    apply Z.mod_small; lia.
Qed.

Lemma alloc_frame_kept s p k wr :
  p_frame (vm_page_of_word (load32 (ks_mem s) p)) <> 0 ->
  alloc_frame p k wr s = Done tt s.
Proof.
  intros H. unfold alloc_frame, load_page. mred.
  by rewrite (proj2 (Z.eqb_neq _ _) H).
Qed.

Lemma alloc_frame_full s p k wr :
  frames_wf s -> p_frame (vm_page_of_word (load32 (ks_mem s) p)) = 0 ->
  (forall g, 0 <= g < frame_limit s -> frame_used s g = true) ->
  alloc_frame p k wr s = Halt (Panic "No free frame.").
Proof.
  intros Hwf Hz Hall. unfold alloc_frame, load_page.
  destruct (first_frame_spec s Hwf) as (r & Hr & [(H1 & H2 & _) | (-> & _)]).
  - rewrite Hall in H2 by done. done.
  - mred. rewrite Hz. cbn [Z.eqb negb]. rewrite Hr. by rewrite Z.eqb_refl.
Qed.

Lemma alloc_frame_fresh s p k wr f :
  frames_wf s -> nframes s <= 1048576 -> page_apart s p ->
  p_frame (vm_page_of_word (load32 (ks_mem s) p)) = 0 ->
  0 <= f < frame_limit s -> frame_used s f = false ->
  (forall g, 0 <= g < f -> frame_used s g = true) ->
  exists s', alloc_frame p k wr s = Done tt s' /\
    s' = set_ks_mem (ks_mem s') s /\
    vm_page_of_word (load32 (ks_mem s') p) =
      mapped_page (vm_page_of_word (load32 (ks_mem s) p)) k wr f /\
    (forall g, 0 <= g < frame_limit s -> frame_used s' g = (g =? f) || frame_used s g) /\
    (forall a n, 0 <= n -> disjoint (frames s) (4 * (nframes s / 32)) a n ->
       disjoint p 4 a n -> agree (ks_mem s) (ks_mem s') a n).
Proof.
  intros Hwf Hn Hp Hz Hf Hfree Hmin.
  assert (Hf20 : 0 <= f < 1048576)
    by (unfold frame_limit in Hf; Z.div_mod_to_equations; lia).
  destruct (first_frame_spec s Hwf) as (r & Hr & Hcase).
  assert (r = f) as ->.
  { destruct Hcase as [(H1 & H2 & H3) | (_ & H2)];
      [| rewrite H2 in Hfree by done; done].
    destruct (Z.lt_trichotomy r f) as [L | [L | L]]; [| done |].
    - rewrite Hmin in H2 by lia. done.
    - rewrite H3 in Hfree by lia. done. }
  destruct (set_frame_run s f Hwf Hf) as (s1 & Hset & Hsame & Hused).
  unfold alloc_frame, load_page, store_page, stw. mred.
  rewrite Hz. cbn [Z.eqb negb]. rewrite Hr.
  rewrite (proj2 (Z.eqb_neq f (u32 (-1)))) by (change (u32 (-1)) with 4294967295; lia).
  rewrite u32_small by (unfold in_u32; lia). mred_in Hset. rewrite Hset.
  rewrite (load32_same_but_frames s s1 p) by done.
  fold (mapped_page (vm_page_of_word (load32 (ks_mem s) p)) k wr f).
  destruct Hsame as [Hs1 Hch].
  assert (Hfr : frames s1 = frames s) by (rewrite Hs1; done).
  assert (Hnf : nframes s1 = nframes s) by (rewrite Hs1; done).
  eexists; split; [reflexivity |]. split; [by rewrite Hs1 |].
  cbn [ks_mem set_ks_mem]. split; [| split].
  - rewrite load32_store32_eq, u32_small by apply word_of_vm_page_range.
    by apply mapped_page_word.
  - intros g Hg. rewrite frame_used_store_page, Hused; try done.
    + unfold frames_wf. by rewrite Hfr, Hnf.
    + unfold page_apart. by rewrite Hfr, Hnf.
    + unfold frame_limit. by rewrite Hnf.
  - intros a n Hn0 D1 D2 x Hx. unfold disjoint in *.
    rewrite load8_store32_ne by (unfold disjoint; lia).
    apply Hch; unfold in_u32; lia.
Qed.

Lemma free_frame_run s p :
  frames_wf s -> page_apart s p ->
  let f := p_frame (vm_page_of_word (load32 (ks_mem s) p)) in
  f <> 0 -> f / 4096 < frame_limit s ->
  exists s', free_frame p s = Done tt s' /\
    s' = set_ks_mem (ks_mem s') s /\
    p_frame (vm_page_of_word (load32 (ks_mem s') p)) = 0 /\
    forall g, 0 <= g < frame_limit s ->
      frame_used s' g = negb (g =? f / 4096) && frame_used s g.
Proof.
  intros Hwf Hp f Hnz Hlim.
  assert (Hf : 0 <= f < 1048576) by (apply Z.mod_pos_bound; lia).
  destruct (clear_frame_run s f Hwf) as (s1 & Hclr & Hsame & Hused);
    [Z.div_mod_to_equations; lia |].
  unfold free_frame, load_page, store_page, stw. mred. fold f.
  rewrite (proj2 (Z.eqb_neq _ _) Hnz). mred_in Hclr. rewrite Hclr.
  rewrite (load32_same_but_frames s s1 p) by done.
  destruct Hsame as [Hs1 Hch].
  assert (Hfr : frames s1 = frames s) by (rewrite Hs1; done).
  assert (Hnf : nframes s1 = nframes s) by (rewrite Hs1; done).
  eexists; split; [reflexivity |]. split; [by rewrite Hs1 |].
  cbn [ks_mem set_ks_mem]. split.
  - rewrite load32_store32_eq, u32_small by apply word_of_vm_page_range.
    by rewrite vm_page_of_word_of_vm_page.
  - intros g Hg. rewrite frame_used_store_page, Hused; try done.
    + unfold frames_wf. by rewrite Hfr, Hnf.
    + unfold page_apart. by rewrite Hfr, Hnf.
    + unfold frame_limit. by rewrite Hnf.
Qed.

(** *** The page-table walk *)

Section get_page.
Context `{Kmalloc}.

Lemma get_page_hit s addr create dir :
  load32 (ks_mem s) (pd_tables_slot dir (addr / 4096 / 1024)) <> 0 ->
  get_page addr create dir s =
    Done (u32 (load32 (ks_mem s) (pd_tables_slot dir (addr / 4096 / 1024)) +
               4 * (addr / 4096 mod 1024))) s.
Proof.
  intros Hnz. unfold get_page, ldw. mred. cbv zeta.
  by rewrite (proj2 (Z.eqb_neq _ _) Hnz).
Qed.

Lemma get_page_miss s addr dir :
  load32 (ks_mem s) (pd_tables_slot dir (addr / 4096 / 1024)) = 0 ->
  get_page addr 0 dir s = Done 0 s.
Proof. intros Hz. unfold get_page, ldw. mred. cbv zeta. by rewrite Hz. Qed.

Lemma get_page_create s addr create dir t ph s1 :
  0 <= dir -> dir + sizeof_vm_page_directory <= 4294967296 -> in_u32 addr ->
  create <> 0 ->
  load32 (ks_mem s) (pd_tables_slot dir (addr / 4096 / 1024)) = 0 ->
  kmalloc0_ap sizeof_vm_page_table s = Done (t, ph) s1 -> in_u32 t ->
  let i := addr / 4096 / 1024 in
  let m := store32 (store32 (ks_mem s1) (pd_tables_slot dir i) t)
             (pd_tblphys_slot dir i) (Z.lor ph 7) in
  get_page addr create dir s =
    Done (u32 (t + 4 * (addr / 4096 mod 1024))) (set_ks_mem m s1) /\
  load32 m (pd_tables_slot dir i) = t.
Proof.
  intros Hd0 Hd1 Ha Hc Hz Hk Ht i m. unfold sizeof_vm_page_directory in Hd1.
  assert (Hi : 0 <= i < 1024)
    by (unfold i, in_u32 in *; Z.div_mod_to_equations; lia).
  assert (Hl : load32 m (pd_tables_slot dir i) = t).
  { unfold m, pd_tables_slot, pd_tblphys_slot.
    rewrite !u32_small by (unfold in_u32; lia).
    rewrite load32_store32_ne by (unfold disjoint; lia).
    by rewrite load32_store32_eq, u32_small. }
  split; [| done]. unfold get_page, ldw, stw. mred. cbv zeta. rewrite Hz. cbn [Z.eqb negb].
  rewrite (proj2 (Z.eqb_neq create 0) Hc). cbn [negb]. rewrite Hk.
  cbn [ks_mem set_ks_mem]. fold i. fold m. by rewrite Hl.
Qed.
End get_page.

(** ** Properties *)

(** [alloc_frame] leaves a mapped page alone; otherwise it maps the page
    present, with the requested rights, to the lowest free frame and marks
    just that frame used; it panics exactly when every frame is used. *)
Theorem alloc_frame_correct s p k wr :
  frames_wf s -> nframes s <= 1048576 -> page_apart s p ->
  let pg := vm_page_of_word (load32 (ks_mem s) p) in
  if negb (p_frame pg =? 0) then alloc_frame p k wr s = Done tt s
  else
    (exists f s', alloc_frame p k wr s = Done tt s' /\
       0 <= f < frame_limit s /\ frame_used s f = false /\
       (forall g, 0 <= g < f -> frame_used s g = true) /\
       vm_page_of_word (load32 (ks_mem s') p) = mapped_page pg k wr f /\
       (forall g, 0 <= g < frame_limit s ->
          frame_used s' g = (g =? f) || frame_used s g)) \/
    (alloc_frame p k wr s = Halt (Panic "No free frame.") /\
     forall g, 0 <= g < frame_limit s -> frame_used s g = true).
Proof.
  intros Hwf Hn Hp pg. destruct (Z.eqb_spec (p_frame pg) 0) as [E | E]; cbn [negb].
  - destruct (first_frame_spec s Hwf) as (f & _ & [(H1 & H2 & H3) | (_ & Hall)]).
    + left. destruct (alloc_frame_fresh s p k wr f Hwf Hn Hp E H1 H2 H3)
        as (s' & Hrun & _ & Hpg & Hu & _).
      exists f, s'. done.
    + right. split; [by apply alloc_frame_full | done].
  - by apply alloc_frame_kept.
Qed.

(** Sixty-four frames, the bitset at 0x5000, frames 0 to 2 in use. *)
Definition frames_sample : kstate :=
  set_ks_mem (store32 ∅ 0x5000 7) (set_frames 0x5000 64 blank_kstate).

Lemma alloc_frame_witness :
  (exists f s', alloc_frame 0x6000 1 1 frames_sample = Done tt s' /\
     0 <= f < frame_limit frames_sample /\ frame_used frames_sample f = false /\
     (forall g, 0 <= g < f -> frame_used frames_sample g = true) /\
     vm_page_of_word (load32 (ks_mem s') 0x6000) =
       mapped_page (vm_page_of_word (load32 (ks_mem frames_sample) 0x6000)) 1 1 f /\
     (forall g, 0 <= g < frame_limit frames_sample ->
        frame_used s' g = (g =? f) || frame_used frames_sample g)) \/
  (alloc_frame 0x6000 1 1 frames_sample = Halt (Panic "No free frame.") /\
   forall g, 0 <= g < frame_limit frames_sample -> frame_used frames_sample g = true).
Proof.
  apply (alloc_frame_correct frames_sample 0x6000 1 1).
  - vm_bounds.
  - cbn; lia.
  - unfold page_apart, disjoint. split_and!; try (left; vm_bounds); vm_bounds.
Defined.

(** [free_frame] hands [clear_frame] a frame number where it expects an
    address: the page is unmapped, but the bit that is cleared is that of
    frame [p_frame / 4096] (frame 0 below 16 MB), so the page's own frame stays
    marked used and can never be allocated again. *)
Theorem free_frame_leaks_the_frame s p :
  frames_wf s -> page_apart s p -> nframes s <= 4096 ->
  let f := p_frame (vm_page_of_word (load32 (ks_mem s) p)) in
  0 < f < frame_limit s -> frame_used s f = true ->
  exists s', free_frame p s = Done tt s' /\
    p_frame (vm_page_of_word (load32 (ks_mem s') p)) = 0 /\
    frame_used s' f = true /\ frame_used s' 0 = false.
Proof.
  intros Hwf Hp Hn f Hf Hu.
  assert (Hlim : f / 4096 = 0)
    by (unfold frame_limit in Hf; Z.div_mod_to_equations; lia).
  destruct (free_frame_run s p Hwf Hp) as (s' & Hrun & _ & Hpg & Hused);
    [fold f; lia | fold f; lia |].
  fold f in Hused. rewrite Hlim in Hused.
  exists s'. split; [done |]. split; [done |]. rewrite !Hused by lia.
  rewrite (proj2 (Z.eqb_neq f 0)) by lia. by rewrite Hu.
Qed.

(** The page at 0x6000 mapped to frame 2. *)
Definition mapped_sample : kstate :=
  set_ks_mem (store32 (store32 ∅ 0x5000 7) 0x6000 (4096 * 2 + 1))
    (set_frames 0x5000 64 blank_kstate).

Lemma free_frame_leaks_witness :
  exists s', free_frame 0x6000 mapped_sample = Done tt s' /\
    p_frame (vm_page_of_word (load32 (ks_mem s') 0x6000)) = 0 /\
    frame_used s' 2 = true /\ frame_used s' 0 = false.
Proof.
  apply (free_frame_leaks_the_frame mapped_sample 0x6000).
  - vm_bounds.
  - unfold page_apart, disjoint. split_and!; try (left; vm_bounds); vm_bounds.
  - cbn; lia.
  - vm_compute. split; reflexivity.
  - vm_compute. reflexivity.
Defined.

Section get_page_property.
Context `{Kmalloc}.

(** looking up an address whose page table is missing answers NULL when
    [create] is 0; otherwise one table is allocated and entered in the
    directory, present and writable, and from then on every address of the
    same 4 MB region is answered from it, without further allocation. *)
Theorem get_page_creates_once s addr addr' create dir t ph s1 :
  0 <= dir -> dir + sizeof_vm_page_directory <= 4294967296 -> in_u32 addr ->
  create <> 0 -> t <> 0 -> in_u32 t -> in_u32 ph ->
  load32 (ks_mem s) (pd_tables_slot dir (addr / 4096 / 1024)) = 0 ->
  kmalloc0_ap sizeof_vm_page_table s = Done (t, ph) s1 ->
  addr' / 4096 / 1024 = addr / 4096 / 1024 ->
  get_page addr 0 dir s = Done 0 s /\
  exists s2,
    get_page addr create dir s = Done (u32 (t + 4 * (addr / 4096 mod 1024))) s2 /\
    load32 (ks_mem s2) (pd_tblphys_slot dir (addr / 4096 / 1024)) = Z.lor ph 7 /\
    get_page addr' 0 dir s2 = Done (u32 (t + 4 * (addr' / 4096 mod 1024))) s2.
Proof.
  intros Hd0 Hd1 Ha Hc Htz Ht Hph Hz Hk Hsame. split; [by apply get_page_miss |].
  destruct (get_page_create s addr create dir t ph s1 Hd0 Hd1 Ha Hc Hz Hk Ht) as [Hrun Hl].
  eexists; split; [exact Hrun |]. cbn [ks_mem set_ks_mem]. split.
  - rewrite load32_store32_eq. apply u32_small. unfold in_u32 in *.
    split; [apply Z.lor_nonneg; lia |]. apply Z.log2_lt_cancel.
    rewrite Z.log2_lor by lia. change (Z.log2 4294967296) with 32.
    apply Z.max_lub_lt; [| cbn; lia].
    destruct (Z.eq_dec ph 0) as [-> | Hne]; [cbn; lia |].
    apply Z.log2_lt_pow2; lia.
  - rewrite get_page_hit; rewrite Hsame; cbn [ks_mem set_ks_mem]; by rewrite Hl.
Qed.
End get_page_property.

Lemma get_page_creates_once_witness :
  exists s2,
    @get_page (fun _ s => Done (0x9000, 0x9000) s) 0xC0001000 1 0x10000 blank_kstate =
      Done (0x9000 + 4) s2 /\
    load32 (ks_mem s2) (pd_tblphys_slot 0x10000 768) = 0x9007 /\
    @get_page (fun _ s => Done (0x9000, 0x9000) s) 0xC0002000 0 0x10000 s2 =
      Done (0x9000 + 8) s2.
Proof.
  pose proof (@get_page_creates_once (fun _ s => Done (0x9000, 0x9000) s)
    blank_kstate 0xC0001000 0xC0002000 1 0x10000 0x9000 0x9000 blank_kstate) as H.
  unfold in_u32, sizeof_vm_page_directory in H.
  destruct H as (_ & s2 & H1 & H2 & H3); try lia; try reflexivity.
  exists s2. split; [exact H1 |]. split; [exact H2 | exact H3].
Defined.
