(* ===== verification/Heap.v ===== *)
(** * Heap: src/src/heap.c

    The kernel heap: blocks and holes with a 12-byte header and an 8-byte
    footer in raw memory, and a sorted array of the holes.  [alloc] calls
    itself after growing the heap, so it takes fuel. *)

From S2P Require Import Prelude Mem Libc SortedArray KState Paging.
From Stdlib Require Import Sorted.

Definition VM_KERN_HEAP_START : Z := 0xC0000000.
Definition VM_KERN_HEAP_INITIAL_SIZE : Z := 0x100000.
Definition VM_HEAP_INDEX_SIZE : Z := 0x20000.
Definition VM_HEAP_HDR_MAGIC : Z := 0x123890AB.
Definition VM_HEAP_FTR_MAGIC : Z := 0xBA098321.
Definition VM_HEAP_MIN_SIZE : Z := 0x70000.

Definition sizeof_vm_heap_header : Z := 12.
Definition sizeof_vm_heap_footer : Z := 8.
Definition sizeof_vm_heap : Z := 36.

(** ** Fields of headers and footers *)

Definition hh_magic (m : memory) (h : Z) : Z := load32 m h.
Definition hh_is_hole (m : memory) (h : Z) : Z := load32 m (u32 (h + 4)).
Definition hh_size (m : memory) (h : Z) : Z := load32 m (u32 (h + 8)).
Definition hf_magic (m : memory) (f : Z) : Z := load32 m f.
Definition hf_header (m : memory) (f : Z) : Z := load32 m (u32 (f + 4)).

Definition set_hh_magic (h v : Z) : M kstate unit := stw h v.
Definition set_hh_is_hole (h v : Z) : M kstate unit := stw (u32 (h + 4)) v.
Definition set_hh_size (h v : Z) : M kstate unit := stw (u32 (h + 8)) v.
Definition set_hf_magic (f v : Z) : M kstate unit := stw f v.
Definition set_hf_header (f v : Z) : M kstate unit := stw (u32 (f + 4)) v.

Definition get_mem : M kstate memory := gets ks_mem.

(** [insert_sorted_array(&heap->h_index, el)] and its siblings. *)
Definition index_insert (hp el : Z) : M kstate unit :=
  h ← get_heap hp;
  a ← lift_mem (insert_sorted_array (h_index h) el);
  put_heap hp (set_h_index a h).
Definition index_remove (hp i : Z) : M kstate unit :=
  h ← get_heap hp;
  a ← lift_mem (remove_sorted_array (h_index h) i);
  put_heap hp (set_h_index a h).
Definition index_lookup (hp i : Z) : M kstate Z :=
  h ← get_heap hp;
  lift_mem (lookup_sorted_array (h_index h) i).

Definition vm_heap_header_cmp : cmp_func_t :=
  fun m a b => s32 (hh_size m a - hh_size m b).

(** ** Finding a hole *)

(** Does the hole [hdr] fit [size] bytes of header, data and footer? *)
Definition hole_fits (m : memory) (size page_align hdr : Z) : bool :=
  if negb (page_align =? 0) then
    let location := hdr in
    let offset :=
      if negb (Z.land (u32 (location + sizeof_vm_heap_header)) 0xFFFFF000 =? 0)
      then s32 (0x1000 - u32 (location + sizeof_vm_heap_header) mod 0x1000)
      else 0 in
    let hole_size := s32 (s32 (hh_size m hdr) - offset) in
    s32 size <=? hole_size
  else size <=? hh_size m hdr.

(** The [while (i < sa_size)] loop, [n] entries left. *)
Fixpoint find_hole_loop (n : nat) (size page_align : Z) (m : memory)
    (a : sorted_array) (i : Z) : Z :=
  match n with
  | O => i
  | S n' =>
      if hole_fits m size page_align (load32 m (sa_slot a i)) then i
      else find_hole_loop n' size page_align m a (i + 1)
  end.

Definition find_smallest_hole (size page_align hp : Z) : M kstate Z :=
  h ← get_heap hp;
  m ← get_mem;
  let a := h_index h in
  let i := find_hole_loop (Z.to_nat (sa_size a)) size page_align m a 0 in
  mret (s32 (if i =? sa_size a then u32 (-1) else i)).

(** ** Initialisation *)

Definition init_heap (hp start end_ max su ro : Z) : M kstate Z :=
  _ ← kassert "start of the heap is page aligned" (start mod 0x1000 =? 0);
  _ ← kassert "end of the heap is page aligned" (end_ mod 0x1000 =? 0);
  a ← lift_mem (place_sorted_array start VM_HEAP_INDEX_SIZE (Some vm_heap_header_cmp));
  let start := u32 (start + 4 * VM_HEAP_INDEX_SIZE) in
  let start :=
    if negb (Z.land start 0xFFFFF000 =? 0)
    then u32 (Z.land start 0xFFFFF000 + 0x1000) else start in
  _ ← put_heap hp {| h_index := a; h_addr_start := start; h_addr_end := end_;
                     h_addr_max := max; h_su := su; h_ro := ro |};
  let hole := start in
  _ ← set_hh_size hole (u32 (end_ - start));
  _ ← set_hh_magic hole VM_HEAP_HDR_MAGIC;
  _ ← set_hh_is_hole hole 1;
  _ ← index_insert hp hole;
  mret hp.

Section heap.
Context `{Kmalloc}.

(** ** Growing and shrinking *)

(** [while (i < new_size) { alloc_frame(get_page(start + i, 1, dir), su, ro);
    i += 0x1000; }], [n] pages left. *)
Fixpoint expand_loop (n : nat) (hp i : Z) : M kstate unit :=
  match n with
  | O => mret tt
  | S n' =>
      h ← get_heap hp;
      dir ← gets kernel_directory;
      p ← get_page (u32 (h_addr_start h + i)) 1 dir;
      h ← get_heap hp;
      _ ← alloc_frame p (h_su h) (h_ro h);
      expand_loop n' hp (u32 (i + 0x1000))
  end.

(** Pages from [i] up to [new_size]. *)
Definition pages_between (i new_size : Z) : nat :=
  Z.to_nat ((new_size - i + 0xFFF) / 0x1000).

Definition expand (new_size hp : Z) : M kstate unit :=
  h ← get_heap hp;
  _ ← kassert "expand to a greater size"
        (u32 (h_addr_end h - h_addr_start h) <? new_size);
  let new_size :=
    if negb (Z.land new_size 0xFFFFF000 =? 0)
    then u32 (Z.land new_size 0xFFFFF000 + 0x1000) else new_size in
  _ ← kassert "don't overflow the heap"
        (u32 (h_addr_start h + new_size) <=? h_addr_max h);
  let old_size := u32 (h_addr_end h - h_addr_start h) in
  let i := old_size in
  _ ← expand_loop (pages_between i new_size) hp i;
  h ← get_heap hp;
  put_heap hp (set_h_addr_end (u32 (h_addr_start h + new_size)) h).

(** [while (new_size < i) { free_frame(get_page(start + i, 0, dir));
    i -= 0x1000; }], [n] pages left. *)
Fixpoint contract_loop (n : nat) (hp i : Z) : M kstate unit :=
  match n with
  | O => mret tt
  | S n' =>
      h ← get_heap hp;
      dir ← gets kernel_directory;
      p ← get_page (u32 (h_addr_start h + i)) 0 dir;
      _ ← free_frame p;
      contract_loop n' hp (u32 (i - 0x1000))
  end.

(** The size [contract] settles on. *)
Definition contract_size (new_size : Z) : Z :=
  let new_size :=
    if negb (Z.land new_size 0x1000 =? 0)
    then u32 (Z.land new_size 0x1000 + 0x1000) else new_size in
  if new_size <? VM_HEAP_MIN_SIZE then VM_HEAP_MIN_SIZE else new_size.

Definition contract (new_size hp : Z) : M kstate Z :=
  h ← get_heap hp;
  _ ← kassert "expand contract a smaller size"
        (new_size <? u32 (h_addr_end h - h_addr_start h));
  let new_size := contract_size new_size in
  let old_size := u32 (h_addr_end h - h_addr_start h) in
  let i := u32 (old_size - 0x1000) in
  _ ← contract_loop (pages_between new_size i) hp i;
  h ← get_heap hp;
  _ ← put_heap hp (set_h_addr_end (u32 (h_addr_start h + new_size)) h);
  mret new_size.

(** ** Allocation *)

(** The endmost header: the [while (i < sa_size)] loop over the index. *)
Fixpoint endmost_loop (n : nat) (m : memory) (a : sorted_array)
    (i idx value : Z) : Z :=
  match n with
  | O => idx
  | S n' =>
      let tmp := load32 m (sa_slot a i) in
      if value <? tmp then endmost_loop n' m a (i + 1) i tmp
      else endmost_loop n' m a (i + 1) idx value
  end.

(** The branch of [alloc] taken when no hole fits: grow the heap, then give
    the new space to the endmost hole, or make a hole of it. *)
Definition alloc_grow (new_size hp : Z) : M kstate unit :=
  h ← get_heap hp;
  let old_length := u32 (h_addr_end h - h_addr_start h) in
  let old_end_address := h_addr_end h in
  _ ← expand (u32 (old_length + new_size)) hp;
  h ← get_heap hp;
  let new_length := u32 (h_addr_end h - h_addr_start h) in
  m ← get_mem;
  let a := h_index h in
  let idx := endmost_loop (Z.to_nat (sa_size a)) m a 0 (u32 (-1)) 0 in
  if idx =? u32 (-1) then
    let header := old_end_address in
    _ ← set_hh_magic header VM_HEAP_HDR_MAGIC;
    _ ← set_hh_size header (u32 (new_length - old_length));
    _ ← set_hh_is_hole header 1;
    m ← get_mem;
    let footer := u32 (old_end_address + hh_size m header - sizeof_vm_heap_footer) in
    _ ← set_hf_magic footer VM_HEAP_FTR_MAGIC;
    _ ← set_hf_header footer header;
    index_insert hp header
  else
    header ← index_lookup hp idx;
    m ← get_mem;
    _ ← set_hh_size header (u32 (hh_size m header + (new_length - old_length)));
    m ← get_mem;
    let footer := u32 (header + hh_size m header - sizeof_vm_heap_footer) in
    _ ← set_hf_magic footer VM_HEAP_FTR_MAGIC;
    set_hf_header footer header.

(** The rest of [alloc], hole [i] having been found. *)
Definition alloc_at (size new_size page_align i hp : Z) : M kstate Z :=
  orig_hole_header ← index_lookup hp i;
  m ← get_mem;
  let orig_hole_pos := orig_hole_header in
  let orig_hole_size := hh_size m orig_hole_header in
  (* Too little left for another hole: take it whole. *)
  let '(size, new_size) :=
    if u32 (orig_hole_size - new_size) <? sizeof_vm_heap_header + sizeof_vm_heap_footer
    then (u32 (size + u32 (orig_hole_size - new_size)), orig_hole_size)
    else (size, new_size) in
  '(orig_hole_pos, orig_hole_size) ←
    (if negb (page_align =? 0) && negb (Z.land orig_hole_pos 0xFFFFF000 =? 0) then
       let new_location :=
         u32 (orig_hole_pos + 0x1000 - Z.land orig_hole_pos 0xFFF -
              sizeof_vm_heap_header) in
       let hole_header := orig_hole_pos in
       _ ← set_hh_size hole_header
             (u32 (0x1000 - Z.land orig_hole_pos 0xFFF - sizeof_vm_heap_header));
       _ ← set_hh_magic hole_header VM_HEAP_HDR_MAGIC;
       _ ← set_hh_is_hole hole_header 1;
       let hole_footer := u32 (new_location - sizeof_vm_heap_footer) in
       _ ← set_hf_magic hole_footer VM_HEAP_FTR_MAGIC;
       _ ← set_hf_header hole_footer hole_header;
       m ← get_mem;
       mret (new_location, u32 (orig_hole_size - hh_size m hole_header))
     else
       _ ← index_remove hp i;
       mret (orig_hole_pos, orig_hole_size));
  let block_header := orig_hole_pos in
  _ ← set_hh_magic block_header VM_HEAP_HDR_MAGIC;
  _ ← set_hh_is_hole block_header 0;
  _ ← set_hh_size block_header new_size;
  let block_footer := u32 (orig_hole_pos + sizeof_vm_heap_header + size) in
  _ ← set_hf_magic block_footer VM_HEAP_FTR_MAGIC;
  _ ← set_hf_header block_footer block_header;
  _ ← when (0 <? u32 (orig_hole_size - new_size))
    (let hole_header :=
       u32 (orig_hole_pos + sizeof_vm_heap_header + size + sizeof_vm_heap_footer) in
     _ ← set_hh_magic hole_header VM_HEAP_HDR_MAGIC;
     _ ← set_hh_is_hole hole_header 1;
     _ ← set_hh_size hole_header (u32 (orig_hole_size - new_size));
     let hole_footer :=
       u32 (hole_header + orig_hole_size - new_size - sizeof_vm_heap_footer) in
     h ← get_heap hp;
     _ ← when (hole_footer <? h_addr_end h)
           (_ ← set_hf_magic hole_footer VM_HEAP_FTR_MAGIC;
            set_hf_header hole_footer hole_header);
     index_insert hp hole_header);
  mret (u32 (block_header + sizeof_vm_heap_header)).

Fixpoint alloc (fuel : nat) (size page_align hp : Z) : M kstate Z :=
  match fuel with
  | O => halt NoFuel
  | S fuel' =>
      let new_size :=
        u32 (size + sizeof_vm_heap_header + sizeof_vm_heap_footer) in
      i ← find_smallest_hole new_size page_align hp;
      if i =? -1 then
        _ ← alloc_grow new_size hp;
        alloc fuel' size page_align hp
      else alloc_at size new_size page_align i hp
  end.

(** ** Release *)

(** [while (i < sa_size && lookup(i) != x) i++;], [n] entries left. *)
Fixpoint index_search (n : nat) (m : memory) (a : sorted_array) (x i : Z) : Z :=
  match n with
  | O => i
  | S n' =>
      if load32 m (sa_slot a i) =? x then i else index_search n' m a x (i + 1)
  end.

Definition index_find (hp x : Z) : M kstate Z :=
  h ← get_heap hp;
  m ← get_mem;
  mret (index_search (Z.to_nat (sa_size (h_index h))) m (h_index h) x 0).

(** "Unify left": the header to go on with, and whether to index it. *)
Definition unify_left (header footer : Z) : M kstate (Z * bool) :=
  let test_footer := u32 (header - sizeof_vm_heap_footer) in
  m ← get_mem;
  if (hf_magic m test_footer =? VM_HEAP_FTR_MAGIC) &&
     (hh_is_hole m (hf_header m test_footer) =? 1) then
    let cache_size := hh_size m header in
    let header := hf_header m test_footer in
    _ ← set_hf_header footer header;
    m ← get_mem;
    _ ← set_hh_size header (u32 (hh_size m header + cache_size));
    mret (header, false)
  else mret (header, true).

(** "Unify right": the footer to go on with. *)
Definition unify_right (header footer hp : Z) : M kstate Z :=
  let test_header := u32 (footer + sizeof_vm_heap_footer) in
  m ← get_mem;
  if (hh_magic m test_header =? VM_HEAP_HDR_MAGIC) &&
     negb (hh_is_hole m test_header =? 0) then
    _ ← set_hh_size header (u32 (hh_size m header + hh_size m test_header));
    m ← get_mem;
    let footer := u32 (test_header + hh_size m test_header - sizeof_vm_heap_footer) in
    i ← index_find hp test_header;
    h ← get_heap hp;
    _ ← kassert "found an item while unifying right" (i <? sa_size (h_index h));
    _ ← index_remove hp i;
    mret footer
  else mret footer.

(** "If the footer location is the end address, we can contract."  The
    [else] branch looks for [test_header], the header to the right. *)
Definition free_contract (header footer test_header hp : Z) : M kstate unit :=
  h ← get_heap hp;
  when (u32 (footer + sizeof_vm_heap_footer) =? h_addr_end h)
    (let old_length := u32 (h_addr_end h - h_addr_start h) in
     new_length ← contract (u32 (header - h_addr_start h)) hp;
     m ← get_mem;
     if 0 <? u32 (hh_size m header - u32 (old_length - new_length)) then
       _ ← set_hh_size header (u32 (hh_size m header - u32 (old_length - new_length)));
       m ← get_mem;
       let footer := u32 (header + hh_size m header - sizeof_vm_heap_footer) in
       _ ← set_hf_magic footer VM_HEAP_FTR_MAGIC;
       set_hf_header footer header
     else
       i ← index_find hp test_header;
       h ← get_heap hp;
       when (i <? sa_size (h_index h)) (index_remove hp i)).

Definition free (p hp : Z) : M kstate unit :=
  if (p =? 0) || (hp =? 0) then mret tt
  else
    let header := u32 (p - sizeof_vm_heap_header) in
    m ← get_mem;
    let footer := u32 (header + hh_size m header - sizeof_vm_heap_footer) in
    _ ← kassert "header magic match" (hh_magic m header =? VM_HEAP_HDR_MAGIC);
    _ ← kassert "footer magic match" (hf_magic m footer =? VM_HEAP_FTR_MAGIC);
    _ ← set_hh_is_hole header 1;
    '(header, do_add) ← unify_left header footer;
    let test_header := u32 (footer + sizeof_vm_heap_footer) in
    footer ← unify_right header footer hp;
    _ ← free_contract header footer test_header hp;
    when do_add (index_insert hp header).
End heap.

(** ** The heap as a list of blocks *)

Record hblock : Type := { b_addr : Z; b_size : Z; b_hole : bool }.

(** The header of block [b] is in place. *)
Definition header_ok (m : memory) (b : hblock) : Prop :=
  hh_magic m (b_addr b) = VM_HEAP_HDR_MAGIC /\
  hh_is_hole m (b_addr b) = b2z (b_hole b) /\
  hh_size m (b_addr b) = b_size b.

Definition footer_addr (b : hblock) : Z :=
  b_addr b + b_size b - sizeof_vm_heap_footer.

Definition footer_ok (m : memory) (b : hblock) : Prop :=
  hf_magic m (footer_addr b) = VM_HEAP_FTR_MAGIC /\
  hf_header m (footer_addr b) = b_addr b.

(** The blocks [l] tile the memory range [[a, e)]: each starts where the
    previous one ends and carries its header and footer; only a hole at the
    very end may lack its footer ([init_heap] writes none). *)
Fixpoint tiled (m : memory) (a e : Z) (l : list hblock) : Prop :=
  match l with
  | [] => a = e
  | b :: l' =>
      b_addr b = a /\ 20 <= b_size b /\ a + b_size b <= e /\ header_ok m b /\
      (footer_ok m b \/ (l' = [] /\ b_hole b = true)) /\
      tiled m (a + b_size b) e l'
  end.

Definition holes (l : list hblock) : list Z := b_addr <$> filter (fun b => b_hole b = true) l.

(** The heap invariant: heap [h] at [hp] is made of the blocks [l]. *)
Record heap_inv (s : kstate) (hp : Z) (h : vm_heap) (l : list hblock) : Prop := {
  hi_heap : heaps s !! hp = Some h;
  hi_index : sa_wf (h_index h);
  hi_cmp : sa_cmp (h_index h) = Some vm_heap_header_cmp;
  hi_below : sa_array (h_index h) + 4 * sa_maxsize (h_index h) <= h_addr_start h;
  hi_end : h_addr_end h <= 4294967296;
  hi_span : h_addr_end h - h_addr_start h < 2147483648;
  hi_maxsize : sa_maxsize (h_index h) < 2147483648;
  hi_tiled : tiled (ks_mem s) (h_addr_start h) (h_addr_end h) l;
  hi_holes : sa_list (ks_mem s) (h_index h) ≡ₚ holes l;
  hi_sorted : StronglySorted (fun x y => hh_size (ks_mem s) x <= hh_size (ks_mem s) y)
                (sa_list (ks_mem s) (h_index h))
}.

(** ** Lemmas on memory and tilings *)

Lemma u32_id x : 0 <= x < 4294967296 -> u32 x = x.
Proof. apply u32_small. Qed.

Lemma header_ok_ext m m' b :
  0 <= b_addr b -> b_addr b + 12 <= 4294967296 ->
  agree m m' (b_addr b) 12 -> header_ok m b -> header_ok m' b.
Proof.
  intros H0 H1 Ha. unfold header_ok, hh_magic, hh_is_hole, hh_size.
  rewrite !u32_id by lia.
  rewrite !(load32_ext m m') by (try lia; intros x Hx; apply Ha; lia). done.
Qed.

Lemma footer_ok_ext m m' b :
  0 <= footer_addr b -> footer_addr b + 8 <= 4294967296 ->
  agree m m' (footer_addr b) 8 -> footer_ok m b -> footer_ok m' b.
Proof.
  intros H0 H1 Ha. unfold footer_ok, hf_magic, hf_header.
  rewrite !u32_id by lia.
  rewrite !(load32_ext m m') by (try lia; intros x Hx; apply Ha; lia). done.
Qed.

Lemma tiled_bounds m a e l : tiled m a e l -> a <= e.
Proof.
  revert a; induction l as [| b l IH]; intros a; cbn; [lia |].
  intros (H1 & H2 & H3 & H4 & H5 & H6). apply IH in H6. lia.
Qed.

(** A tiling only depends on the memory it covers. *)
Lemma tiled_ext m m' a e l :
  0 <= a -> e <= 4294967296 -> agree m m' a (e - a) ->
  tiled m a e l -> tiled m' a e l.
Proof.
  revert a; induction l as [| b l IH]; intros a H0 H1 Ha; cbn; [done |].
  intros (<- & H2 & H3 & H4 & H5 & H6). pose proof (tiled_bounds _ _ _ _ H6).
  split; [done |]. split; [done |]. split; [done |].
  split; [eapply header_ok_ext; [lia | lia | | done]; intros x Hx; apply Ha; lia |].
  split.
  - destruct H5 as [H5 | H5]; [left | by right].
    unfold footer_addr, sizeof_vm_heap_footer in *.
    eapply footer_ok_ext; [unfold footer_addr, sizeof_vm_heap_footer; lia ..| | done].
    unfold footer_addr, sizeof_vm_heap_footer. intros x Hx; apply Ha; lia.
  - apply IH; [lia | lia | | done]. intros x Hx; apply Ha; lia.
Qed.

Lemma tiled_app_inv m a e l1 b l2 :
  tiled m a e (l1 ++ b :: l2) ->
  tiled m (b_addr b) e (b :: l2) /\ a <= b_addr b /\
  (forall m' b' l2',
     0 <= a -> e <= 4294967296 -> agree m m' a (b_addr b - a) ->
     tiled m' (b_addr b) e (b' :: l2') -> tiled m' a e (l1 ++ b' :: l2')).
Proof.
  revert a; induction l1 as [| c l1 IH]; intros a; cbn [app].
  - intros H. assert (b_addr b = a) as -> by apply H.
    split; [done |]. split; [lia |]. done.
  - intros (<- & H2 & H3 & H4 & H5 & H6). destruct (IH _ H6) as (H7 & H8 & H9).
    split; [done |]. split; [lia |].
    intros m' b' l2' Ha He Hag Ht. cbn.
    split; [done |]. split; [done |]. split; [done |].
    split; [eapply header_ok_ext; [lia | | | done]; [lia | intros x Hx; apply Hag; lia] |].
    split.
    + left. destruct H5 as [H5 | [H5 _]]; [| by destruct l1].
      eapply footer_ok_ext; [unfold footer_addr, sizeof_vm_heap_footer; lia ..| | done].
      unfold footer_addr, sizeof_vm_heap_footer. intros x Hx; apply Hag; lia.
    + apply H9; [lia | done | | done]. intros x Hx; apply Hag; lia.
Qed.

Lemma tiled_member m a e l b :
  tiled m a e l -> b ∈ l ->
  a <= b_addr b /\ 20 <= b_size b /\ b_addr b + b_size b <= e /\ header_ok m b.
Proof.
  intros Ht Hb. apply list_elem_of_split in Hb as (l1 & l2 & ->).
  apply tiled_app_inv in Ht as ((_ & H2 & H3 & H4 & _ & _) & H5 & _). done.
Qed.

Lemma holes_app l1 l2 : holes (l1 ++ l2) = holes l1 ++ holes l2.
Proof. unfold holes. by rewrite filter_app, fmap_app. Qed.

Lemma holes_elem l x :
  x ∈ holes l <-> exists b, b ∈ l /\ b_hole b = true /\ b_addr b = x.
Proof.
  unfold holes. rewrite list_elem_of_fmap. split.
  - intros (b & -> & Hb). apply list_elem_of_filter in Hb as [H1 H2]. eauto.
  - intros (b & H1 & H2 & <-). exists b. split; [done |]. by apply list_elem_of_filter.
Qed.

(** ** The index operations on a kernel state *)

Definition with_index (s : kstate) (hp : Z) (h : vm_heap) (m : memory) (n : Z) : kstate :=
  set_heaps (<[hp := set_h_index (set_sa_size (h_index h) n) h]> (heaps s))
    (set_ks_mem m s).

Lemma index_lookup_run s hp h i x :
  heaps s !! hp = Some h -> 0 <= i ->
  sa_list (ks_mem s) (h_index h) !! Z.to_nat i = Some x ->
  index_lookup hp i s = Done x s.
Proof.
  intros Hh Hi Hx. unfold index_lookup, get_heap, lift_mem. mred. rewrite Hh.
  rewrite (lookup_sorted_array_post _ _ _ _ Hi Hx). by rewrite set_ks_mem_id.
Qed.

Lemma index_remove_run s hp h i :
  heaps s !! hp = Some h -> sa_wf (h_index h) -> 0 <= i < sa_size (h_index h) ->
  exists m,
    index_remove hp i s = Done tt (with_index s hp h m (sa_size (h_index h) - 1)) /\
    sa_list m (set_sa_size (h_index h) (sa_size (h_index h) - 1)) =
      delete (Z.to_nat i) (sa_list (ks_mem s) (h_index h)) /\
    only_changed (ks_mem s) m (sa_array (h_index h)) (4 * sa_maxsize (h_index h)).
Proof.
  intros Hh Hwf Hi.
  destruct (remove_sorted_array_post (h_index h) i (ks_mem s) Hwf Hi)
    as (m & Hrun & Hl & Hc).
  exists m. split; [| split; [done |]].
  - unfold index_remove, get_heap, put_heap, lift_mem. mred. rewrite Hh, Hrun. done.
  - eapply only_changed_weaken; [exact Hc | lia |]. destruct Hwf. lia.
Qed.

Lemma index_insert_run s hp h el cmp :
  heaps s !! hp = Some h -> sa_wf (h_index h) -> sa_cmp (h_index h) = Some cmp ->
  sa_size (h_index h) < sa_maxsize (h_index h) -> in_u32 el ->
  exists m,
    index_insert hp el s = Done tt (with_index s hp h m (sa_size (h_index h) + 1)) /\
    sa_list m (set_sa_size (h_index h) (sa_size (h_index h) + 1)) =
      insert_by (fun x => cmp (ks_mem s) x el <? 0) el (sa_list (ks_mem s) (h_index h)) /\
    only_changed (ks_mem s) m (sa_array (h_index h)) (4 * sa_maxsize (h_index h)).
Proof.
  intros Hh Hwf Hcmp Hroom Hel.
  destruct (insert_sorted_array_post (h_index h) el cmp (ks_mem s) Hwf Hcmp Hroom Hel)
    as (m & Hrun & Hl & Hc).
  exists m. split; [| split; [done |]].
  - unfold index_insert, get_heap, put_heap, lift_mem. mred. rewrite Hh, Hrun. done.
  - eapply only_changed_weaken; [exact Hc | lia |]. destruct Hwf. lia.
Qed.

Lemma sa_wf_size_change a n : sa_wf a -> 0 <= n <= sa_maxsize a -> sa_wf (set_sa_size a n).
Proof. intros [] Hn. by constructor. Qed.

(** ** The search *)

Lemma find_hole_loop_pos n size pa m a k :
  find_hole_loop n size pa m a (Z.of_nat k) =
    Z.of_nat (k + scan_pos (fun x => negb (hole_fits m size pa x))
          ((fun i : nat => load32 m (sa_slot a (Z.of_nat i))) <$> seq k n)).
Proof.
  revert k; induction n as [| n IH]; intros k; cbn; [by rewrite Nat.add_0_r |].
  destruct (hole_fits m size pa (load32 m (sa_slot a (Z.of_nat k)))); cbn; [lia |].
  replace (Z.of_nat k + 1) with (Z.of_nat (S k)) by lia. rewrite IH. lia.
Qed.

Lemma scan_pos_spec lt l :
  (forall i x, (i < scan_pos lt l)%nat -> l !! i = Some x -> lt x = true) /\
  (forall x, l !! scan_pos lt l = Some x -> lt x = false).
Proof.
  induction l as [| y l [IH1 IH2]]; cbn; [split; [intros; lia | done] |].
  destruct (lt y) eqn:E; split.
  - intros [| i] x Hi Hx; cbn in Hx; [by simplify_eq | apply (IH1 i); [lia | done]].
  - intros x Hx. by apply IH2.
  - intros i x Hi; lia.
  - intros x Hx. cbn in Hx. by simplify_eq.
Qed.

(** [find_smallest_hole] returns the index of the first hole that fits, or
    -1 when none does. *)
Lemma find_smallest_hole_spec s hp h size pa :
  heaps s !! hp = Some h -> sa_wf (h_index h) -> sa_maxsize (h_index h) < 2147483648 ->
  let L := sa_list (ks_mem s) (h_index h) in
  exists r, find_smallest_hole size pa hp s = Done r s /\
    ((r = -1 /\ forall x, x ∈ L -> hole_fits (ks_mem s) size pa x = false) \/
     (0 <= r /\ exists x, L !! Z.to_nat r = Some x /\
        hole_fits (ks_mem s) size pa x = true /\
        forall i y, (i < Z.to_nat r)%nat -> L !! i = Some y ->
          hole_fits (ks_mem s) size pa y = false)).
Proof.
  intros Hh Hwf Hmax L. unfold find_smallest_hole, get_heap, get_mem. mred. rewrite Hh.
  pose proof (find_hole_loop_pos (Z.to_nat (sa_size (h_index h))) size pa (ks_mem s)
    (h_index h) 0) as Hp. change (Z.of_nat 0) with 0 in Hp. cbn [Nat.add] in Hp.
  rewrite Hp. clear Hp.
  change ((fun i : nat => _) <$> seq 0 (Z.to_nat (sa_size (h_index h)))) with L.
  set (lt := fun x => negb (hole_fits (ks_mem s) size pa x)).
  destruct (scan_pos_spec lt L) as [H1 H2].
  assert (HL : length L = Z.to_nat (sa_size (h_index h))) by apply sa_list_length.
  pose proof (scan_pos_le lt L) as Hle. destruct Hwf as [_ _ Hsz].
  eexists; split; [reflexivity |].
  destruct (Z.eqb_spec (Z.of_nat (scan_pos lt L)) (sa_size (h_index h))) as [E | E].
  - left. split; [done |]. intros x Hx.
    apply list_elem_of_lookup in Hx as [i Hi].
    assert (Hlt : (i < length L)%nat) by by eapply lookup_lt_Some.
    specialize (H1 i x ltac:(lia) Hi). unfold lt in H1. by apply negb_true_iff.
  - right. rewrite s32_small by lia. split; [lia |].
    destruct (lookup_lt_is_Some_2 L (scan_pos lt L)) as [x Hx]; [lia |].
    rewrite Nat2Z.id. exists x. split; [done |]. split.
    + specialize (H2 x Hx). unfold lt in H2. by apply negb_false_iff.
    + intros i y Hi Hy. specialize (H1 i y Hi Hy). by apply negb_true_iff.
Qed.

(** ** Writing a block *)

(** The five stores that set up block [b]. *)
Definition put_block (m : memory) (b : hblock) : memory :=
  let f := footer_addr b in
  store32 (store32 (store32 (store32 (store32 m (b_addr b) VM_HEAP_HDR_MAGIC)
    (b_addr b + 4) (b2z (b_hole b))) (b_addr b + 8) (b_size b))
    f VM_HEAP_FTR_MAGIC) (f + 4) (b_addr b).

Lemma put_block_spec m b :
  0 <= b_addr b -> 20 <= b_size b < 4294967296 ->
  b_addr b + b_size b <= 4294967296 ->
  header_ok (put_block m b) b /\ footer_ok (put_block m b) b /\
  only_changed m (put_block m b) (b_addr b) (b_size b).
Proof.
  intros HA HS HE. unfold put_block, header_ok, footer_ok, footer_addr,
    hh_magic, hh_is_hole, hh_size, hf_magic, hf_header, sizeof_vm_heap_footer.
  set (A := b_addr b) in *. set (Sz := b_size b) in *.
  rewrite !u32_id by lia.
  assert (D : forall x y, (x + 4 <= y \/ y + 4 <= x) -> 0 <= x -> 0 <= y ->
    x + 4 <= 4294967296 -> y + 4 <= 4294967296 -> disjoint x 4 y 4)
    by (unfold disjoint; lia).
  split; [| split].
  - split; [| split]; repeat first
      [rewrite load32_store32_eq | rewrite load32_store32_ne by (apply D; lia)];
      apply u32_small; unfold in_u32; [done | destruct (b_hole b); cbn; lia | lia].
  - split; repeat first
      [rewrite load32_store32_eq | rewrite load32_store32_ne by (apply D; lia)];
      apply u32_small; unfold in_u32; [done | lia].
  - intros x Hx Hout. unfold in_u32 in Hx.
    rewrite !load8_store32_ne by (unfold disjoint; lia). done.
Qed.

Lemma StronglySorted_ext {A} (R R' : A -> A -> Prop) l :
  (forall x y, x ∈ l -> y ∈ l -> R x y -> R' x y) ->
  StronglySorted R l -> StronglySorted R' l.
Proof.
  intros H Hs. induction Hs as [| x l Hs IH Hx]; constructor.
  - apply IH. intros. apply H; [by right | by right | done].
  - rewrite Forall_forall in Hx |- *. intros y Hy.
    apply H; [left | by right | by apply Hx].
Qed.

(** The stores that set up a header and a footer, as single steps. *)
Definition store_header (m : memory) (h hole size : Z) : memory :=
  store32 (store32 (store32 m h VM_HEAP_HDR_MAGIC) (u32 (h + 4)) hole) (u32 (h + 8)) size.
Definition store_footer (m : memory) (f h : Z) : memory :=
  store32 (store32 m f VM_HEAP_FTR_MAGIC) (u32 (f + 4)) h.

Lemma put_header_run {A} h v sz (k : unit -> M kstate A) s :
  (_ ← set_hh_magic h VM_HEAP_HDR_MAGIC; _ ← set_hh_is_hole h v; set_hh_size h sz ≫= k) s =
    k tt (set_ks_mem (store_header (ks_mem s) h v sz) s).
Proof. done. Qed.

Lemma put_footer_run {A} f h (k : unit -> M kstate A) s :
  (_ ← set_hf_magic f VM_HEAP_FTR_MAGIC; set_hf_header f h ≫= k) s =
    k tt (set_ks_mem (store_footer (ks_mem s) f h) s).
Proof. done. Qed.

Lemma put_block_eq m b :
  0 <= b_addr b -> 20 <= b_size b -> b_addr b + b_size b <= 4294967296 ->
  store_footer (store_header m (b_addr b) (b2z (b_hole b)) (b_size b))
    (footer_addr b) (b_addr b) = put_block m b.
Proof.
  intros. unfold store_footer, store_header, put_block, footer_addr, sizeof_vm_heap_footer.
  rewrite !u32_id by lia. done.
Qed.

(** What allocating from the hole [b] leaves in its place. *)
Definition split_block (size : Z) (b : hblock) : list hblock :=
  let new_size := size + sizeof_vm_heap_header + sizeof_vm_heap_footer in
  if b_size b - new_size <? sizeof_vm_heap_header + sizeof_vm_heap_footer then
    [{| b_addr := b_addr b; b_size := b_size b; b_hole := false |}]
  else
    [{| b_addr := b_addr b; b_size := new_size; b_hole := false |};
     {| b_addr := b_addr b + new_size; b_size := b_size b - new_size; b_hole := true |}].
