(* ===== verification/HeapSpec.v ===== *)
(** * HeapSpec: what the heap of src/src/heap.c promises

    [alloc] refines an operation on the list of blocks: the smallest hole that
    fits is replaced by a block of the requested size and, when at least a
    header and a footer are left over, by a smaller hole; [heap_inv] is kept. *)

From S2P Require Import Prelude Mem Libc SortedArray KState Paging Heap.
From Stdlib Require Import Sorted.

Section alloc_runs.
Context `{Kmalloc}.

(** [alloc_at] on an unaligned request, the hole having been looked up. *)
Lemma alloc_at_eq size new_size i hp s x :
  index_lookup hp i s = Done x s ->
  let osize := hh_size (ks_mem s) x in
  let '(sz, nsz) :=
    if u32 (osize - new_size) <? 20 then (u32 (size + u32 (osize - new_size)), osize)
    else (size, new_size) in
  alloc_at size new_size 0 i hp s =
    (_ ← index_remove hp i;
     _ ← set_hh_magic x VM_HEAP_HDR_MAGIC;
     _ ← set_hh_is_hole x 0;
     _ ← set_hh_size x nsz;
     _ ← set_hf_magic (u32 (x + 12 + sz)) VM_HEAP_FTR_MAGIC;
     _ ← set_hf_header (u32 (x + 12 + sz)) x;
     _ ← when (0 <? u32 (osize - nsz))
       (let hh := u32 (x + 12 + sz + 8) in
        _ ← set_hh_magic hh VM_HEAP_HDR_MAGIC;
        _ ← set_hh_is_hole hh 1;
        _ ← set_hh_size hh (u32 (osize - nsz));
        h ← get_heap hp;
        let hf := u32 (hh + osize - nsz - 8) in
        _ ← when (hf <? h_addr_end h)
              (_ ← set_hf_magic hf VM_HEAP_FTR_MAGIC; set_hf_header hf hh);
        index_insert hp hh);
     mret (u32 (x + 12))) s.
Proof.
  intros Hx. unfold alloc_at. rewrite (bind_Done _ _ _ _ _ Hx).
  change (12 + 8) with 20.
  change (sizeof_vm_heap_header + sizeof_vm_heap_footer) with 20.
  cbn zeta. unfold get_mem.
  rewrite (bind_Done (gets ks_mem) _ s (ks_mem s) s eq_refl). cbn beta.
  destruct (u32 (hh_size (ks_mem s) x - new_size) <? 20); cbn [negb Z.eqb andb];
    rewrite bind_assoc; reflexivity.
Qed.

(** [alloc_at] on an unaligned request that takes the whole hole. *)
Lemma alloc_at_whole s hp h l1 b l2 size i :
  heap_inv s hp h (l1 ++ b :: l2) -> 0 <= h_addr_start h -> b_hole b = true ->
  0 <= size -> size + 20 <= b_size b -> b_size b - (size + 20) < 20 ->
  0 <= i -> sa_list (ks_mem s) (h_index h) !! Z.to_nat i = Some (b_addr b) ->
  exists m1,
    index_remove hp i s =
      Done tt (with_index s hp h m1 (sa_size (h_index h) - 1)) /\
    sa_list m1 (set_sa_size (h_index h) (sa_size (h_index h) - 1)) =
      delete (Z.to_nat i) (sa_list (ks_mem s) (h_index h)) /\
    only_changed (ks_mem s) m1 (sa_array (h_index h)) (4 * sa_maxsize (h_index h)) /\
    alloc_at size (size + 20) 0 i hp s =
      Done (b_addr b + 12)
        (with_index s hp h
          (put_block m1 {| b_addr := b_addr b; b_size := b_size b; b_hole := false |})
          (sa_size (h_index h) - 1)).
Proof.
  intros Hinv H0 Hb Hs1 Hs2 Hs3 Hi Hx. destruct Hinv as [hi_heap0 hi_index0 hi_cmp0 hi_below0 hi_end0 hi_span0 hi_maxsize0 hi_tiled0 hi_holes0 hi_sorted0].
  destruct (tiled_member _ _ _ _ b hi_tiled0) as (HA & HS & HE & (_ & _ & Hsz));
    [apply elem_of_app; right; left |].
  pose proof (lookup_lt_Some _ _ _ Hx) as Hlt. rewrite sa_list_length in Hlt.
  destruct (index_remove_run s hp h i) as (m1 & Hrm & Hl & Hc); [done | done | lia |].
  exists m1. split; [done |]. split; [done |]. split; [done |].
  unfold alloc_at. rewrite (bind_Done _ _ _ _ _ (index_lookup_run _ _ _ _ _ hi_heap0 Hi Hx)).
  unfold get_mem. mred. rewrite Hsz.
  unfold sizeof_vm_heap_header, sizeof_vm_heap_footer.
  rewrite (u32_id (b_size b - (size + 20))) by lia.
  rewrite (proj2 (Z.ltb_lt (b_size b - (size + 20)) (12 + 8))) by lia.
  cbn [negb Z.eqb andb]. rewrite Hrm.
  unfold set_hh_magic, set_hh_is_hole, set_hh_size, set_hf_magic, set_hf_header, stw.
  mred. rewrite Z.sub_diag. change (0 <? u32 0) with false. cbn iota.
  replace (u32 (size + (b_size b - (size + 20)))) with (b_size b - 20)
    by (rewrite u32_id; lia).
  replace (b_addr b + 12 + (b_size b - 20)) with (b_addr b + b_size b - 8) by lia.
  rewrite !u32_id by lia. done.
Qed.

(** [alloc_at] on an unaligned request that splits the hole. *)
Lemma alloc_at_split s hp h l1 b l2 size i :
  heap_inv s hp h (l1 ++ b :: l2) -> 0 <= h_addr_start h -> b_hole b = true ->
  0 <= size -> 20 <= b_size b - (size + 20) ->
  0 <= i -> sa_list (ks_mem s) (h_index h) !! Z.to_nat i = Some (b_addr b) ->
  let b1 := {| b_addr := b_addr b; b_size := size + 20; b_hole := false |} in
  let b2 := {| b_addr := b_addr b + (size + 20); b_size := b_size b - (size + 20);
               b_hole := true |} in
  exists m1 m4,
    sa_list m1 (set_sa_size (h_index h) (sa_size (h_index h) - 1)) =
      delete (Z.to_nat i) (sa_list (ks_mem s) (h_index h)) /\
    only_changed (ks_mem s) m1 (sa_array (h_index h)) (4 * sa_maxsize (h_index h)) /\
    let m3 := put_block (put_block m1 b1) b2 in
    sa_list m4 (h_index h) =
      insert_by (fun x => vm_heap_header_cmp m3 x (b_addr b2) <? 0) (b_addr b2)
        (sa_list m3 (set_sa_size (h_index h) (sa_size (h_index h) - 1))) /\
    only_changed m3 m4 (sa_array (h_index h)) (4 * sa_maxsize (h_index h)) /\
    alloc_at size (size + 20) 0 i hp s =
      Done (b_addr b + 12) (set_heaps (<[hp := h]> (heaps s)) (set_ks_mem m4 s)).
Proof.
  intros Hinv H0 Hb Hs1 Hs3 Hi Hx b1 b2. destruct Hinv as [hi_heap0 hi_index0 hi_cmp0 hi_below0 hi_end0 hi_span0 hi_maxsize0 hi_tiled0 hi_holes0 hi_sorted0].
  destruct (tiled_member _ _ _ _ b hi_tiled0) as (HA & HS & HE & (_ & _ & Hsz));
    [apply elem_of_app; right; left |].
  pose proof (lookup_lt_Some _ _ _ Hx) as Hlt. rewrite sa_list_length in Hlt.
  pose proof (sa_wf_size _ hi_index0) as Hwfs.
  destruct (index_remove_run s hp h i) as (m1 & Hrm & Hl & Hc); [done | done | lia |].
  set (n := sa_size (h_index h) - 1) in *.
  set (h1 := set_h_index (set_sa_size (h_index h) n) h).
  set (m3 := put_block (put_block m1 b1) b2).
  set (s3 := set_ks_mem m3 (with_index s hp h m1 n)).
  destruct (index_insert_run s3 hp h1 (b_addr b2) vm_heap_header_cmp)
    as (m4 & Hins & Hl4 & Hc4).
  { unfold s3; cbn. by rewrite lookup_insert_eq. }
  { apply sa_wf_size_change; [done | lia]. }
  { done. }
  { unfold h1, n; cbn. lia. }
  { unfold b2, in_u32; cbn. lia. }
  exists m1, m4. split; [done |]. split; [done |]. cbv zeta.
  assert (Hh : set_sa_size (h_index h1) (sa_size (h_index h1) + 1) = h_index h).
  { unfold h1, n, set_h_index, set_sa_size; cbn. rewrite Z.sub_add. by destruct (h_index h). }
  rewrite Hh in Hl4. split; [done |]. split; [done |].
  pose proof (alloc_at_eq size (size + 20) i hp s _
    (index_lookup_run _ _ _ _ _ hi_heap0 Hi Hx)) as Heq. cbn zeta in Heq.
  rewrite Hsz, (u32_id (b_size b - (size + 20))) in Heq by lia.
  rewrite (proj2 (Z.ltb_ge (b_size b - (size + 20)) 20)) in Heq by lia.
  rewrite Heq. clear Heq.
  rewrite (bind_Done _ _ _ _ _ Hrm), put_header_run, put_footer_run.
  rewrite (u32_id (b_size b - (size + 20))) by lia.
  rewrite (proj2 (Z.ltb_lt 0 (b_size b - (size + 20)))) by lia.
  cbn [when].
  assert (Hm2 : forall st, ks_mem st = m1 ->
    store_footer (store_header (ks_mem st) (b_addr b) 0 (size + 20))
      (u32 (b_addr b + 12 + size)) (b_addr b) = put_block m1 b1).
  { intros st <-. rewrite u32_id by lia. rewrite <- (put_block_eq (ks_mem st) b1)
      by (unfold b1; cbn [b_addr b_size]; lia).
    unfold b1, footer_addr, sizeof_vm_heap_footer; cbn [b_addr b_size b_hole b2z].
    repeat f_equal; lia. }
  assert (Hhh : u32 (b_addr b + 12 + size + 8) = b_addr b2)
    by (unfold b2; cbn [b_addr]; rewrite u32_id; lia).
  rewrite Hhh. rewrite (bind_Done _ _ _ tt (set_heaps (<[hp := h]> (heaps s)) (set_ks_mem m4 s))).
  { unfold mret, M_ret. by rewrite u32_id by lia. }
  rewrite put_header_run. unfold get_heap.
  erewrite bind_Done. 
  2: { unfold get_opt. cbn [heaps set_heaps set_ks_mem with_index]. rewrite lookup_insert_eq. done. }
  cbn beta zeta. cbn [h_addr_end set_h_index].
  assert (Hhf : u32 (b_addr b2 + b_size b - (size + 20) - 8) = footer_addr b2).
  { unfold b2, footer_addr, sizeof_vm_heap_footer; cbn [b_addr b_size]. rewrite u32_id; lia. }
  rewrite Hhf.
  rewrite (proj2 (Z.ltb_lt (footer_addr b2) (h_addr_end h)))
    by (unfold b2, footer_addr, sizeof_vm_heap_footer; cbn [b_addr b_size]; lia).
  cbn [when]. rewrite bind_assoc, put_footer_run.
  rewrite !ks_mem_set_ks_mem, !set_ks_mem_twice, Hm2 by done.
  change 1 with (b2z (b_hole b2)). change (b_size b - (size + 20)) with (b_size b2).
  rewrite put_block_eq by (unfold b2; cbn [b_addr b_size]; lia).
  fold m3. fold s3. rewrite Hins. f_equal. unfold with_index. rewrite Hh.
  unfold s3, h1, set_heaps, set_ks_mem; cbn. f_equal.
  rewrite insert_insert_eq. f_equal. by destruct h.
Qed.
End alloc_runs.

(** ** Splicing blocks into a tiling *)

Lemma tiled_right m a e l1 b l2 :
  tiled m a e (l1 ++ b :: l2) -> tiled m (b_addr b + b_size b) e l2.
Proof. intros H. apply tiled_app_inv in H as ((_ & _ & _ & _ & _ & H) & _). done. Qed.

Lemma tiled_splice m m' a e l1 b l2 n nl :
  0 <= a -> e <= 4294967296 -> tiled m a e (l1 ++ b :: l2) ->
  agree m m' a (b_addr b - a) ->
  agree m m' (b_addr b + b_size b) (e - (b_addr b + b_size b)) ->
  (tiled m' (b_addr b + b_size b) e l2 -> tiled m' (b_addr b) e (n :: nl ++ l2)) ->
  tiled m' a e (l1 ++ (n :: nl) ++ l2).
Proof.
  intros Ha He Ht Hl Hr Hn. pose proof (tiled_right _ _ _ _ _ _ Ht) as Ht2.
  pose proof (tiled_app_inv _ _ _ _ _ _ Ht) as ((_ & Hb & _) & H1 & H2).
  apply H2; [done | done | done |]. apply Hn.
  eapply tiled_ext; [lia | done | exact Hr | done].
Qed.

(** ** [alloc_at] keeps the invariant *)

(** The index and the block the operation may write. *)
Definition writes_only (m m' : memory) (h : vm_heap) (b : hblock) : Prop :=
  forall x, in_u32 x ->
    ~ (sa_array (h_index h) <= x < sa_array (h_index h) + 4 * sa_maxsize (h_index h)) ->
    ~ (b_addr b <= x < b_addr b + b_size b) ->
    load8 m' x = load8 m x.

Lemma delete_hole L l1 b l2 i :
  b_hole b = true -> L !! i = Some (b_addr b) -> L ≡ₚ holes (l1 ++ b :: l2) ->
  delete i L ≡ₚ holes (l1 ++ l2).
Proof.
  intros Hb Hi HL. apply (Permutation_cons_inv (a := b_addr b)).
  rewrite <- (delete_Permutation _ _ _ Hi), HL.
  change (b :: l2) with ([b] ++ l2). rewrite !holes_app.
  unfold holes at 2. rewrite filter_cons_True by done. cbn.
  by rewrite <- Permutation_middle.
Qed.

(** The blocks on both sides of a splice keep their sizes. *)
Lemma outer_hh_size_eq m a e l1 mid l2 c :
  tiled m a e (l1 ++ mid ++ l2) -> c ∈ l1 ++ l2 -> hh_size m (b_addr c) = b_size c.
Proof.
  intros Ht Hc. destruct (tiled_member _ _ _ _ c Ht) as (_ & _ & _ & _ & _ & E); [| done].
  rewrite !elem_of_app in *. tauto.
Qed.

Lemma outer_hh_size m a e l1 mid l2 x :
  tiled m a e (l1 ++ mid ++ l2) -> x ∈ holes (l1 ++ l2) ->
  exists c, c ∈ l1 ++ l2 /\ b_addr c = x /\ hh_size m x = b_size c /\ 0 <= b_size c <= e - a.
Proof.
  intros Ht Hx. apply holes_elem in Hx as (c & Hc & _ & <-).
  destruct (tiled_member _ _ _ _ c Ht) as (H1 & H2 & H3 & _ & _ & E);
    [rewrite !elem_of_app in *; tauto |].
  exists c. repeat split; try done; lia.
Qed.

Lemma put_two_blocks m b1 b2 :
  0 <= b_addr b1 -> 20 <= b_size b1 < 4294967296 -> 20 <= b_size b2 < 4294967296 ->
  b_addr b2 = b_addr b1 + b_size b1 -> b_addr b2 + b_size b2 <= 4294967296 ->
  let m' := put_block (put_block m b1) b2 in
  (forall e l, b_addr b2 + b_size b2 <= e -> tiled m' (b_addr b2 + b_size b2) e l ->
     tiled m' (b_addr b1) e (b1 :: b2 :: l)) /\
  only_changed m m' (b_addr b1) (b_size b1 + b_size b2).
Proof.
  intros H1 H2 H3 H4 H5 m'.
  destruct (put_block_spec m b1) as (Hh1 & Hf1 & Hc1); [lia .. |].
  destruct (put_block_spec (put_block m b1) b2) as (Hh2 & Hf2 & Hc2); [lia .. |].
  fold m' in Hh2, Hf2, Hc2. split.
  - intros e l He Ht. cbn. rewrite <- H4.
    split; [done |]. split; [lia |]. split; [lia |].
    split; [eapply header_ok_ext; [lia | lia | | exact Hh1];
            intros x Hx; apply Hc2; unfold in_u32; lia |].
    split; [left; eapply footer_ok_ext; [| | | exact Hf1];
            unfold footer_addr, sizeof_vm_heap_footer; try lia;
            intros x Hx; apply Hc2; unfold in_u32; lia |].
    split; [done |]. split; [lia |]. split; [lia |]. split; [done |]. split; [by left | done].
  - intros x Hx Hout. rewrite (Hc2 x), (Hc1 x) by (done || lia). done.
Qed.

Section alloc_inv.
Context `{Kmalloc}.

Lemma alloc_at_whole_inv s hp h l1 b l2 size i :
  heap_inv s hp h (l1 ++ b :: l2) -> 0 <= h_addr_start h -> b_hole b = true ->
  0 <= size -> size + 20 <= b_size b -> b_size b - (size + 20) < 20 ->
  0 <= i -> sa_list (ks_mem s) (h_index h) !! Z.to_nat i = Some (b_addr b) ->
  exists h' m',
    let s' := set_heaps (<[hp := h']> (heaps s)) (set_ks_mem m' s) in
    alloc_at size (size + 20) 0 i hp s = Done (b_addr b + 12) s' /\
    heap_inv s' hp h' (l1 ++ [{| b_addr := b_addr b; b_size := b_size b; b_hole := false |}]
                          ++ l2) /\
    writes_only (ks_mem s) m' h b.
Proof.
  intros Hinv H0 Hb Hs1 Hs2 Hs3 Hi Hx.
  destruct (alloc_at_whole s hp h l1 b l2 size i Hinv H0 Hb Hs1 Hs2 Hs3 Hi Hx)
    as (m1 & _ & Hl & Hc & Hrun).
  destruct Hinv as [Hheap Hidx Hcmp Hbelow Hend Hspan Hmax Ht Hholes Hsort].
  set (b1 := {| b_addr := b_addr b; b_size := b_size b; b_hole := false |}) in *.
  set (n := sa_size (h_index h) - 1) in *.
  set (h' := set_h_index (set_sa_size (h_index h) n) h).
  set (m' := put_block m1 b1) in *.
  destruct (tiled_member _ _ _ _ b Ht) as (HA & HS & HE & _);
    [apply elem_of_app; right; left |].
  destruct (put_block_spec m1 b1) as (Hh1 & Hf1 & Hc1); [cbn; lia .. |].
  cbn [b_addr b_size b1] in Hc1. fold m' in Hh1, Hf1, Hc1.
  pose proof Hidx as [Hi1 Hi2 Hi3].
  assert (Hw : writes_only (ks_mem s) m' h b).
  { intros x Hxu Hx1 Hx2. rewrite (Hc1 x), (Hc x) by (done || lia). done. }
  pose proof (lookup_lt_Some _ _ _ Hx) as Hlt. rewrite sa_list_length in Hlt.
  exists h', m'. cbn zeta. split; [exact Hrun |]. split; [| done].
  assert (Ht' : tiled m' (h_addr_start h) (h_addr_end h) (l1 ++ [b1] ++ l2)).
  { apply (tiled_splice (ks_mem s) m' _ _ l1 b l2 b1 []); try done.
    - intros x Hxr. apply Hw; unfold in_u32; lia.
    - intros x Hxr. apply Hw; unfold in_u32; lia.
    - intros Htr. cbn. split; [done |]. split; [done |]. split; [lia |].
      split; [done |]. split; [by left | done]. }
  assert (Hperm : delete (Z.to_nat i) (sa_list (ks_mem s) (h_index h)) ≡ₚ holes (l1 ++ l2)).
  { eapply delete_hole; eauto. }
  assert (Hlist : sa_list m' (h_index h') = delete (Z.to_nat i) (sa_list (ks_mem s) (h_index h))).
  { rewrite <- Hl. apply sa_list_ext. cbn [sa_size set_sa_size h_index h' set_h_index].
    intros j Hj. eapply load32_only_changed; [exact Hc1 |].
    rewrite sa_slot_small by (first [apply sa_wf_size_change; [done | lia] | cbn; lia]).
    unfold disjoint; cbn. lia. }
  constructor; try done.
  - cbn. by rewrite lookup_insert_eq.
  - apply sa_wf_size_change; [done | lia].
  - change (ks_mem _) with m'. rewrite Hlist, Hperm, !holes_app. done.
  - change (ks_mem _) with m'. rewrite Hlist.
    eapply StronglySorted_ext; [| apply StronglySorted_delete, Hsort].
    intros x y Hxin Hyin. rewrite Hperm in Hxin, Hyin.
    destruct (outer_hh_size _ _ _ _ [b] _ _ Ht Hxin) as (c & Hcx & <- & -> & _).
    destruct (outer_hh_size _ _ _ _ [b] _ _ Ht Hyin) as (d & Hcy & <- & -> & _).
    rewrite !(outer_hh_size_eq m' _ _ _ [b1] _ _ Ht') by done. done.
Qed.

Lemma alloc_at_split_inv s hp h l1 b l2 size i :
  heap_inv s hp h (l1 ++ b :: l2) -> 0 <= h_addr_start h -> b_hole b = true ->
  0 <= size -> 20 <= b_size b - (size + 20) ->
  0 <= i -> sa_list (ks_mem s) (h_index h) !! Z.to_nat i = Some (b_addr b) ->
  let b1 := {| b_addr := b_addr b; b_size := size + 20; b_hole := false |} in
  let b2 := {| b_addr := b_addr b + (size + 20); b_size := b_size b - (size + 20);
               b_hole := true |} in
  exists h' m',
    let s' := set_heaps (<[hp := h']> (heaps s)) (set_ks_mem m' s) in
    alloc_at size (size + 20) 0 i hp s = Done (b_addr b + 12) s' /\
    heap_inv s' hp h' (l1 ++ [b1; b2] ++ l2) /\
    writes_only (ks_mem s) m' h b.
Proof.
  intros Hinv H0 Hb Hs1 Hs3 Hi Hx b1 b2.
  destruct (alloc_at_split s hp h l1 b l2 size i Hinv H0 Hb Hs1 Hs3 Hi Hx)
    as (m1 & m4 & Hl & Hc & Hl4 & Hc4 & Hrun). fold b1 b2 in Hl4, Hc4.
  destruct Hinv as [Hheap Hidx Hcmp Hbelow Hend Hspan Hmax Ht Hholes Hsort].
  set (n := sa_size (h_index h) - 1) in *.
  set (m3 := put_block (put_block m1 b1) b2) in *.
  destruct (tiled_member _ _ _ _ b Ht) as (HA & HS & HE & _);
    [apply elem_of_app; right; left |].
  pose proof Hidx as [Hi1 Hi2 Hi3].
  pose proof (lookup_lt_Some _ _ _ Hx) as Hlt. rewrite sa_list_length in Hlt.
  destruct (put_two_blocks m1 b1 b2) as (Hok & Hc3); [cbn; lia .. |].
  fold m3 in Hok, Hc3.
  replace (b_size b1 + b_size b2) with (b_size b) in Hc3 by (cbn; lia).
  change (b_addr b1) with (b_addr b) in Hc3.
  assert (Hw3 : writes_only (ks_mem s) m3 h b).
  { intros x Hxu Hx1 Hx2. rewrite (Hc3 x), (Hc x) by (done || lia). done. }
  assert (Ht3 : tiled m3 (h_addr_start h) (h_addr_end h) (l1 ++ [b1; b2] ++ l2)).
  { apply (tiled_splice (ks_mem s) m3 _ _ l1 b l2 b1 [b2]); try done.
    - intros x Hxr. apply Hw3; unfold in_u32; lia.
    - intros x Hxr. apply Hw3; unfold in_u32; lia.
    - intros Htr. apply Hok; cbn; [lia |]. replace (b_addr b + (size + 20) + (b_size b - (size + 20)))
        with (b_addr b + b_size b) by lia. done. }
  assert (Ht4 : tiled m4 (h_addr_start h) (h_addr_end h) (l1 ++ [b1; b2] ++ l2)).
  { eapply tiled_ext; [lia | done | | exact Ht3].
    intros x Hxr. apply Hc4; unfold in_u32; lia. }
  assert (Hperm : delete (Z.to_nat i) (sa_list (ks_mem s) (h_index h)) ≡ₚ holes (l1 ++ l2)).
  { eapply delete_hole; eauto. }
  assert (Hl3 : sa_list m3 (set_sa_size (h_index h) n) =
                delete (Z.to_nat i) (sa_list (ks_mem s) (h_index h))).
  { rewrite <- Hl. apply sa_list_ext. cbn [sa_size set_sa_size].
    intros j Hj. eapply load32_only_changed; [exact Hc3 |].
    rewrite sa_slot_small by (first [apply sa_wf_size_change; [done | lia] | cbn; lia]).
    unfold disjoint; cbn. lia. }
  rewrite Hl3 in Hl4.
  exists h, m4. cbn zeta. split; [exact Hrun |]. split.
  2: { intros x Hxu Hx1 Hx2. rewrite (Hc4 x), (Hw3 x) by done. done. }
  constructor; try done.
  - cbn. by rewrite lookup_insert_eq.
  - change (ks_mem _) with m4. rewrite Hl4, insert_by_perm, Hperm, !holes_app.
    change (holes [b1; b2]) with [b_addr b2]. by rewrite Permutation_middle.
  - change (ks_mem _) with m4. rewrite Hl4.
    assert (Hsz : forall x, x ∈ delete (Z.to_nat i) (sa_list (ks_mem s) (h_index h)) ->
              exists z, 0 <= z < 2147483648 /\ hh_size (ks_mem s) x = z /\
                hh_size m3 x = z /\ hh_size m4 x = z).
    { intros x Hxin. rewrite Hperm in Hxin.
      destruct (outer_hh_size _ _ _ _ [b] _ _ Ht Hxin) as (c & Hc' & Hca & Hs & Hr).
      exists (b_size c). subst x. split; [lia |]. split; [done |].
      split; [by eapply (outer_hh_size_eq m3 _ _ _ [b1; b2]) |].
      by eapply (outer_hh_size_eq m4 _ _ _ [b1; b2]). }
    assert (Hsz2 : hh_size m3 (b_addr b2) = b_size b2 /\ hh_size m4 (b_addr b2) = b_size b2).
    { split; [destruct (tiled_member _ _ _ _ b2 Ht3) as (_ & _ & _ & _ & _ & E)
             | destruct (tiled_member _ _ _ _ b2 Ht4) as (_ & _ & _ & _ & _ & E)];
        try done; rewrite !elem_of_app; right; left; right; left. }
    destruct Hsz2 as [Hs23 Hs24].
    apply (insert_by_sorted (hh_size m4)).
    + rewrite Forall_forall. intros x Hxin. destruct (Hsz x Hxin) as (z & Hz & _ & E3 & E4).
      unfold vm_heap_header_cmp. rewrite E3, E4, Hs23, Hs24. cbn [b_size b2].
      rewrite s32_small by lia.
      destruct (Z.ltb_spec z (b_size b - (size + 20))), (Z.ltb_spec (z - (b_size b - (size + 20))) 0); (done || lia).
    + eapply StronglySorted_ext; [| apply StronglySorted_delete, Hsort].
      intros x y Hxin Hyin. destruct (Hsz x Hxin) as (zx & _ & -> & _ & ->).
      destruct (Hsz y Hyin) as (zy & _ & -> & _ & ->). done.
Qed.
End alloc_inv.

Lemma StronglySorted_lookup {A} (R : A -> A -> Prop) l i j x y :
  StronglySorted R l -> (i < j)%nat -> l !! i = Some x -> l !! j = Some y -> R x y.
Proof.
  intros Hs. revert i j; induction Hs as [| z l Hs IH Hz]; intros i j Hij Hi Hj; [done |].
  destruct j as [| j]; [lia |]. cbn in Hj. destruct i as [| i]; cbn in Hi; [| apply (IH i j); [lia | done | done]].
  simplify_eq. rewrite Forall_forall in Hz. apply Hz. by eapply list_elem_of_lookup_2.
Qed.

(** ** [alloc] when a hole fits *)

Section alloc_top.
Context `{Kmalloc}.

Lemma alloc_post s hp h l size fuel :
  heap_inv s hp h l -> 0 <= h_addr_start h -> 0 <= size -> size + 20 < 4294967296 ->
  (exists c, c ∈ l /\ b_hole c = true /\ size + 20 <= b_size c) ->
  exists l1 b l2 h' m',
    let s' := set_heaps (<[hp := h']> (heaps s)) (set_ks_mem m' s) in
    l = l1 ++ b :: l2 /\ b_hole b = true /\ size + 20 <= b_size b /\
    (forall c, c ∈ l -> b_hole c = true -> size + 20 <= b_size c -> b_size b <= b_size c) /\
    alloc (S fuel) size 0 hp s = Done (b_addr b + 12) s' /\
    heap_inv s' hp h' (l1 ++ split_block size b ++ l2) /\
    writes_only (ks_mem s) m' h b.
Proof.
  intros Hinv H0 Hs0 Hs1 (c0 & Hc0 & Hc0h & Hc0s).
  pose proof Hinv as [Hheap Hidx Hcmp Hbelow Hend Hspan Hmax Ht Hholes Hsort].
  assert (Hfit : forall c, c ∈ l -> hole_fits (ks_mem s) (size + 20) 0 (b_addr c) = (size + 20 <=? b_size c)).
  { intros c Hc. destruct (tiled_member _ _ _ _ _ Ht Hc) as (_ & _ & _ & _ & _ & E).
    unfold hole_fits. cbn [negb Z.eqb]. by rewrite E. }
  destruct (find_smallest_hole_spec s hp h (size + 20) 0 Hheap Hidx Hmax)
    as (r & Hrun & [[-> Hnone] | (Hr0 & x & Hx & Hxf & Hbefore)]).
  { specialize (Hnone (b_addr c0)). rewrite Hfit in Hnone by done.
    rewrite Hholes, holes_elem in Hnone.
    assert (E : (size + 20 <=? b_size c0) = false) by (apply Hnone; eauto).
    apply Z.leb_gt in E. lia. }
  assert (Hxl : x ∈ holes l) by (rewrite <- Hholes; by eapply list_elem_of_lookup_2).
  apply holes_elem in Hxl as (b & Hb & Hbh & <-).
  rewrite Hfit in Hxf by done. apply Z.leb_le in Hxf.
  assert (Hbest : forall c, c ∈ l -> b_hole c = true -> size + 20 <= b_size c ->
            b_size b <= b_size c).
  { intros c Hc Hch Hcs.
    assert (Hcin : b_addr c ∈ sa_list (ks_mem s) (h_index h))
      by (rewrite Hholes, holes_elem; eauto).
    apply list_elem_of_lookup in Hcin as [j Hj].
    destruct (tiled_member _ _ _ _ _ Ht Hc) as (_ & _ & _ & _ & _ & Ec).
    destruct (tiled_member _ _ _ _ _ Ht Hb) as (_ & _ & _ & _ & _ & Eb).
    destruct (Nat.lt_trichotomy j (Z.to_nat r)) as [L | [-> | L]].
    - specialize (Hbefore j _ L Hj). rewrite Hfit in Hbefore by done.
      apply Z.leb_gt in Hbefore. lia.
    - assert (b_addr b = b_addr c) as E by congruence.
      rewrite <- Eb, <- Ec, E. lia.
    - rewrite <- Eb, <- Ec. exact (StronglySorted_lookup _ _ _ _ _ _ Hsort L Hx Hj). }
  apply list_elem_of_split in Hb as (l1 & l2 & ->).
  exists l1, b, l2.
  assert (Halloc : alloc (S fuel) size 0 hp s = alloc_at size (size + 20) 0 r hp s).
  { cbn [alloc]. unfold sizeof_vm_heap_header, sizeof_vm_heap_footer.
    replace (u32 (size + 12 + 8)) with (size + 20) by (rewrite u32_id; lia).
    rewrite (bind_Done _ _ _ _ _ Hrun), (proj2 (Z.eqb_neq r (-1))) by lia. done. }
  rewrite Halloc.
  unfold split_block. change (sizeof_vm_heap_header + sizeof_vm_heap_footer) with 20.
  replace (size + sizeof_vm_heap_header + sizeof_vm_heap_footer) with (size + 20)
    by (unfold sizeof_vm_heap_header, sizeof_vm_heap_footer; lia).
  destruct (Z.ltb_spec (b_size b - (size + 20)) 20) as [L | L].
  - destruct (alloc_at_whole_inv s hp h l1 b l2 size r Hinv H0 Hbh Hs0 Hxf L Hr0 Hx)
      as (h' & m' & R1 & R2 & R3).
    exists h', m'. cbn zeta. by repeat split_and!.
  - destruct (alloc_at_split_inv s hp h l1 b l2 size r Hinv H0 Hbh Hs0 L Hr0 Hx)
      as (h' & m' & R1 & R2 & R3).
    exists h', m'. cbn zeta. by repeat split_and!.
Qed.
End alloc_top.

(** ** Writing inside an allocated block *)

(** Two memories that agree on the index, headers and footers hold the same
    heap; a write confined to the data of one used block is such a change. *)
Lemma heap_inv_agree s s' hp h l :
  heap_inv s hp h l -> 0 <= h_addr_start h -> heaps s' !! hp = Some h ->
  agree (ks_mem s) (ks_mem s') (sa_array (h_index h)) (4 * sa_maxsize (h_index h)) ->
  (forall c, c ∈ l -> agree (ks_mem s) (ks_mem s') (b_addr c) 12 /\
                      agree (ks_mem s) (ks_mem s') (footer_addr c) 8) ->
  heap_inv s' hp h l.
Proof.
  intros [Hheap Hidx Hcmp Hbelow Hend Hspan Hmax Ht Hholes Hsort] H0 Hh' Hai Hab.
  assert (Hlist : sa_list (ks_mem s') (h_index h) = sa_list (ks_mem s) (h_index h)).
  { apply sa_list_ext. intros i Hi. pose proof Hidx as [I1 I2 I3].
    rewrite sa_slot_small by (done || lia). apply load32_ext; [lia | lia |].
    intros x Hx. apply Hai. lia. }
  assert (Hmem := fun c Hc => tiled_member _ _ _ _ c Ht Hc).
  assert (Ht' : tiled (ks_mem s') (h_addr_start h) (h_addr_end h) l).
  { clear Hholes Hmem. revert Ht H0. generalize (h_addr_start h) as a.
    induction l as [| c l IH]; intros a Ht Ha; cbn in *; [done |].
    destruct Ht as (<- & E2 & E3 & E4 & E5 & E6).
    pose proof (tiled_bounds _ _ _ _ E6).
    destruct (Hab c (list_elem_of_here _ _)) as [A1 A2].
    assert (Hf : footer_addr c = b_addr c + b_size c - 8) by done.
    split; [done |]. split; [done |]. split; [done |].
    split; [eapply header_ok_ext; [lia | lia | exact A1 | done] |].
    split; [destruct E5 as [E5 | E5]; [left | by right];
            eapply footer_ok_ext; [lia | lia | exact A2 | done] |].
    apply IH; [| done | lia]. intros d Hd. apply Hab. by right. }
  assert (Hsz : forall x, x ∈ holes l -> hh_size (ks_mem s') x = hh_size (ks_mem s) x).
  { intros x Hx. apply holes_elem in Hx as (c & Hc & _ & <-).
    destruct (Hmem c Hc) as (_ & _ & _ & _ & _ & ->).
    by destruct (tiled_member _ _ _ _ c Ht' Hc) as (_ & _ & _ & _ & _ & ->). }
  constructor; try done; rewrite ?Hlist; [done |].
  eapply StronglySorted_ext; [| exact Hsort]. intros x y Hx Hy.
  rewrite Hholes in Hx, Hy. by rewrite !Hsz.
Qed.

(** Distinct blocks of a tiling do not overlap. *)
Lemma tiled_disjoint m a e l b c :
  tiled m a e l -> b ∈ l -> c ∈ l ->
  b = c \/ b_addr b + b_size b <= b_addr c \/ b_addr c + b_size c <= b_addr b.
Proof.
  revert a; induction l as [| d l IH]; intros a Ht Hb Hc; [by apply not_elem_of_nil in Hb |].
  pose proof Ht as (E1 & E2 & _ & _ & _ & E6).
  apply elem_of_cons in Hb as [-> | Hb], Hc as [-> | Hc]; [by left | | |].
  - destruct (tiled_member _ _ _ _ c E6 Hc) as (F1 & _). lia.
  - destruct (tiled_member _ _ _ _ b E6 Hb) as (F1 & _). lia.
  - by apply (IH _ E6).
Qed.

Lemma heap_inv_data_write s hp h l b m len :
  heap_inv s hp h l -> b ∈ l -> 0 <= h_addr_start h ->
  len + 20 <= b_size b -> only_changed (ks_mem s) m (b_addr b + 12) len ->
  heap_inv (set_ks_mem m s) hp h l.
Proof.
  intros Hinv Hb H0 Hlen Hc. pose proof Hinv as [Hheap Hidx _ Hbelow Hend _ _ Ht _ _].
  destruct (tiled_member _ _ _ _ b Ht Hb) as (A1 & A2 & A3 & _).
  pose proof Hidx as [I1 I2 I3].
  eapply heap_inv_agree; [exact Hinv | done | done | |]; cbn [ks_mem set_ks_mem].
  - intros x Hx. apply Hc; unfold in_u32; lia.
  - intros c Hcl. destruct (tiled_member _ _ _ _ c Ht Hcl) as (B1 & B2 & B3 & _).
    unfold footer_addr, sizeof_vm_heap_footer.
    destruct (tiled_disjoint _ _ _ _ _ _ Ht Hb Hcl) as [-> | D]; split;
      intros x Hx; apply Hc; unfold in_u32; lia.
Qed.

(** ** [contract] *)

Section contract.
Context `{Kmalloc}.

Lemma free_frame_total p s : exists m, free_frame p s = Done tt (set_ks_mem m s).
Proof.
  unfold free_frame, load_page, store_page, clear_frame, stw. mred.
  destruct (p_frame _ =? 0); eexists; [by rewrite set_ks_mem_id | reflexivity].
Qed.

Lemma get_page_no_create addr dir s : exists p, get_page addr 0 dir s = Done p s.
Proof.
  destruct (Z.eq_dec (load32 (ks_mem s) (pd_tables_slot dir (addr / 4096 / 1024))) 0)
    as [E | E]; eexists; [by apply get_page_miss | by apply get_page_hit].
Qed.

(** The unmapping loop always ends, and only writes memory. *)
Lemma contract_loop_total n hp i s h :
  heaps s !! hp = Some h ->
  exists m, contract_loop n hp i s = Done tt (set_ks_mem m s).
Proof.
  revert i s; induction n as [| n IH]; intros i s Hh; cbn [contract_loop].
  - exists (ks_mem s). by rewrite set_ks_mem_id.
  - rewrite (bind_Done (get_heap hp) _ s h s) by (unfold get_heap, get_opt; by rewrite Hh).
    rewrite (bind_Done (gets kernel_directory) _ s (kernel_directory s) s) by done.
    destruct (get_page_no_create (u32 (h_addr_start h + i)) (kernel_directory s) s) as [p Hp].
    rewrite (bind_Done _ _ _ _ _ Hp).
    destruct (free_frame_total p s) as [m Hm]. rewrite (bind_Done _ _ _ _ _ Hm).
    destruct (IH (u32 (i - 0x1000)) (set_ks_mem m s) Hh) as [m' Hm'].
    exists m'. by rewrite Hm', set_ks_mem_twice.
Qed.

Lemma contract_run new_size hp s h :
  heaps s !! hp = Some h -> new_size < u32 (h_addr_end h - h_addr_start h) ->
  exists m, contract new_size hp s = Done (contract_size new_size)
    (set_heaps (<[hp := set_h_addr_end (u32 (h_addr_start h + contract_size new_size)) h]>
                  (heaps s)) (set_ks_mem m s)).
Proof.
  intros Hh Hlt. unfold contract.
  assert (Hg : forall st, heaps st = heaps s -> get_heap hp st = Done h st)
    by (intros st E; unfold get_heap, get_opt; by rewrite E, Hh).
  rewrite (bind_Done _ _ _ _ _ (Hg s eq_refl)), (proj2 (Z.ltb_lt _ _) Hlt).
  rewrite (bind_Done (kassert _ true) _ s tt s) by done.
  destruct (contract_loop_total (pages_between (contract_size new_size)
    (u32 (u32 (h_addr_end h - h_addr_start h) - 0x1000))) hp
    (u32 (u32 (h_addr_end h - h_addr_start h) - 0x1000)) s h Hh) as [m Hm].
  rewrite (bind_Done _ _ _ _ _ Hm), (bind_Done _ _ _ _ _ (Hg (set_ks_mem m s) eq_refl)).
  exists m. done.
Qed.
End contract.

Lemma contract_size_bit12 n :
  0 <= n -> Z.testbit n 12 = true -> contract_size n = VM_HEAP_MIN_SIZE.
Proof.
  intros Hn Hb. unfold contract_size. change 0x1000 with (2 ^ 12).
  rewrite land_pow2_testbit, Hb by lia. done.
Qed.

(** ** Properties *)

(** C3: when some hole fits, [alloc] of [size] bytes (unaligned) returns the
    data address of the smallest such hole; the heap is again well formed, the
    hole replaced by a used block and, when at least a header and a footer
    remain, a smaller hole; only the index and that hole are written. *)
Theorem alloc_best_fit `{Kmalloc} s hp h l size fuel :
  heap_inv s hp h l -> 0 <= h_addr_start h -> 0 <= size -> size + 20 < 4294967296 ->
  (exists c, c ∈ l /\ b_hole c = true /\ size + 20 <= b_size c) ->
  exists l1 b l2 h' m',
    let s' := set_heaps (<[hp := h']> (heaps s)) (set_ks_mem m' s) in
    l = l1 ++ b :: l2 /\ b_hole b = true /\ size + 20 <= b_size b /\
    (forall c, c ∈ l -> b_hole c = true -> size + 20 <= b_size c -> b_size b <= b_size c) /\
    alloc (S fuel) size 0 hp s = Done (b_addr b + 12) s' /\
    heap_inv s' hp h' (l1 ++ split_block size b ++ l2) /\
    writes_only (ks_mem s) m' h b.
Proof. apply alloc_post. Qed.

(** A 4 KB heap at 0x20000: a 256-byte hole, a used block, a larger hole. *)
Definition sample_blocks : list hblock :=
  [{| b_addr := 0x20000; b_size := 0x100; b_hole := true |};
   {| b_addr := 0x20100; b_size := 0x40; b_hole := false |};
   {| b_addr := 0x20140; b_size := 0xEC0; b_hole := true |}].
Definition sample_heap : vm_heap :=
  {| h_index := {| sa_array := 0x10000; sa_size := 2; sa_maxsize := 16;
                   sa_cmp := Some vm_heap_header_cmp |};
     h_addr_start := 0x20000; h_addr_end := 0x21000; h_addr_max := 0x30000;
     h_su := 0; h_ro := 0 |}.
Definition sample_heap_memory : memory :=
  store32 (store32 (foldl put_block ∅ sample_blocks) 0x10000 0x20000) 0x10004 0x20140.
Definition sample_heap_state : kstate :=
  set_kernel_heap 0x8000
    (set_heaps {[0x8000 := sample_heap]} (set_ks_mem sample_heap_memory blank_kstate)).

Lemma sample_heap_inv : heap_inv sample_heap_state 0x8000 sample_heap sample_blocks.
Proof.
  assert (E : sa_list (ks_mem sample_heap_state) (h_index sample_heap) = [0x20000; 0x20140])
    by (vm_compute; reflexivity).
  constructor.
  - apply lookup_singleton_eq.
  - constructor; vm_bounds.
  - reflexivity.
  - vm_bounds.
  - vm_bounds.
  - vm_bounds.
  - vm_bounds.
  - cbn [tiled sample_blocks b_addr b_size b_hole].
    split_and!; try (left; vm_bounds); vm_bounds.
  - rewrite E. reflexivity.
  - rewrite E. repeat constructor; vm_compute; discriminate.
Qed.

Lemma alloc_best_fit_witness :
  exists l1 b l2 h' m',
    let s' := set_heaps (<[0x8000 := h']> (heaps sample_heap_state))
                (set_ks_mem m' sample_heap_state) in
    sample_blocks = l1 ++ b :: l2 /\ b_hole b = true /\ 80 + 20 <= b_size b /\
    (forall c, c ∈ sample_blocks -> b_hole c = true -> 80 + 20 <= b_size c ->
       b_size b <= b_size c) /\
    @alloc (fun _ _ => Halt NoFuel) 1 80 0 0x8000 sample_heap_state = Done (b_addr b + 12) s' /\
    heap_inv s' 0x8000 h' (l1 ++ split_block 80 b ++ l2) /\
    writes_only (ks_mem sample_heap_state) m' sample_heap b.
Proof.
  apply (@alloc_best_fit (fun _ _ => Halt NoFuel) sample_heap_state 0x8000 sample_heap
    sample_blocks 80 0).
  - exact sample_heap_inv.
  - vm_bounds.
  - lia.
  - lia.
  - exists {| b_addr := 0x20000; b_size := 0x100; b_hole := true |}.
    split; [left | vm_bounds].
Defined.

(** [contract] masks the size with 0x1000 instead of 0xFFFFF000: any
    request whose bit 12 is set shrinks the heap to its 0x70000-byte minimum,
    below the very size that was asked for. *)
Theorem contract_cuts_below_request `{Kmalloc} new_size hp s h :
  heaps s !! hp = Some h ->
  new_size < u32 (h_addr_end h - h_addr_start h) ->
  Z.testbit new_size 12 = true -> VM_HEAP_MIN_SIZE < new_size ->
  0 <= h_addr_start h -> h_addr_start h + new_size < 4294967296 ->
  exists s' h',
    contract new_size hp s = Done VM_HEAP_MIN_SIZE s' /\
    heaps s' !! hp = Some h' /\
    h_addr_end h' = h_addr_start h + VM_HEAP_MIN_SIZE /\
    h_addr_end h' < h_addr_start h + new_size.
Proof.
  intros Hh Hlt Hb Hmin H0 H1.
  destruct (contract_run new_size hp s h Hh Hlt) as [m Hrun].
  rewrite contract_size_bit12 in Hrun by (unfold VM_HEAP_MIN_SIZE in *; done || lia).
  eexists _, _. split; [exact Hrun |]. cbn [heaps set_heaps].
  rewrite lookup_insert_eq. split; [reflexivity |]. cbn [h_addr_end set_h_addr_end].
  unfold VM_HEAP_MIN_SIZE in *. rewrite u32_id by lia. lia.
Qed.

(** A heap of 1 MB at 0xC0080000 asked to shrink to 0x91000 bytes. *)
Definition big_heap_state : kstate :=
  set_heaps {[0x8000 := {| h_index := h_index sample_heap; h_addr_start := 0xC0080000;
    h_addr_end := 0xC0180000; h_addr_max := 0xCFFFF000; h_su := 0; h_ro := 0 |}]} blank_kstate.

Lemma contract_cuts_witness :
  exists s' h',
    @contract (fun _ _ => Halt NoFuel) 0x91000 0x8000 big_heap_state =
      Done VM_HEAP_MIN_SIZE s' /\
    heaps s' !! 0x8000 = Some h' /\
    h_addr_end h' = 0xC0080000 + VM_HEAP_MIN_SIZE /\
    h_addr_end h' < 0xC0080000 + 0x91000.
Proof.
  apply (@contract_cuts_below_request (fun _ _ => Halt NoFuel) 0x91000 0x8000 big_heap_state
    {| h_index := h_index sample_heap; h_addr_start := 0xC0080000;
       h_addr_end := 0xC0180000; h_addr_max := 0xCFFFF000; h_su := 0; h_ro := 0 |}).
  - apply lookup_singleton_eq.
  - vm_bounds.
  - vm_bounds.
  - vm_bounds.
  - vm_bounds.
  - vm_bounds.
Defined.
