(* ===== verification/Isr.v ===== *)
(** * Isr: src/src/isr.c and src/src/timer.c

    The table of interrupt handlers, the two dispatchers the assembly stubs
    call, and the programmable interval timer. *)

From S2P Require Import Prelude Mem Libc Monitor Printf KState Paging.

Definition IRQ0 : Z := 32.

(** ** The handler table *)

Definition register_interrupt_handler (n : Z) (handler : isrhdl_t) : M kstate unit :=
  if 256 <=? n then panic "Bad interrupt handler index."
  else modify (fun s => set_interrupt_handlers (<[n := handler]> (interrupt_handlers s)) s).

(** [interrupt_handlers[n]]; a read past the table is a [Fault]. *)
Definition handler_at (n : Z) : M kstate (option isrhdl_t) :=
  if 256 <=? n then fault "interrupt_handlers"
  else gets (fun s => interrupt_handlers s !! n).

(** ** The timer *)

Definition timer_callback (regs : cpu_regs) : M kstate unit :=
  _ ← modify (fun s => set_tick (u32 (tick s + 1)) s);
  t ← gets tick;
  _ ← kprintf (bytes "Tick: %d" ++ [10]) [VInt t];
  mret tt.

Definition init_timer (freq : Z) : M kstate unit :=
  _ ← register_interrupt_handler IRQ0 timer_callback_p;
  if freq =? 0 then fault "division by zero"
  else
    let div := 1193180 / freq in
    _ ← kout 0x43 0x36;
    let lo := u8 (Z.land div 0xFF) in
    let hi := u8 (Z.land (Z.shiftr div 8) 0xFF) in
    _ ← kout 0x40 lo;
    kout 0x40 hi.

(** ** Dispatch *)

(** The call through a function pointer of the table. *)
Definition call_handler (h : isrhdl_t) (regs : cpu_regs) : M kstate unit :=
  match h with
  | page_fault_handler_p => page_fault_handler regs
  | timer_callback_p => timer_callback regs
  end.

Definition isr_handler (regs : cpu_regs) : M kstate unit :=
  h ← handler_at (int_no regs);
  match h with
  | Some handler => call_handler handler regs
  | None =>
      _ ← kprintf (bytes "unhandled interrupt: %d" ++ [10]) [VInt (int_no regs)];
      mret tt
  end.

Definition irq_handler (regs : cpu_regs) : M kstate unit :=
  _ ← when (40 <=? int_no regs) (kout 0xA0 0x20);
  _ ← kout 0x20 0x20;
  h ← handler_at (int_no regs);
  match h with
  | Some handler => call_handler handler regs
  | None => mret tt
  end.

(** ** Lemmas: the console as a component of the kernel *)

Lemma set_console_id s : set_console (console s) s = s.
Proof. by destruct s. Qed.

Lemma put_all_lift_con l s :
  put_all (fun c => lift_con (mon_putchar c)) l s =
    lift_con (put_all mon_putchar l) s.
Proof.
  revert s; induction l as [| c l IH]; intros s; cbn [put_all].
  - unfold lift_con; cbn. by rewrite set_console_id.
  - destruct (mon_putchar c (console s)) as [[] m | r] eqn:E.
    + rewrite (bind_Done _ _ _ tt (set_console m s)) by (unfold lift_con; by rewrite E).
      rewrite IH. unfold lift_con. rewrite (bind_Done _ _ _ _ _ E). done.
    + rewrite (bind_Halt _ _ _ r) by (unfold lift_con; by rewrite E).
      unfold lift_con. by rewrite (bind_Halt _ _ _ _ E).
Qed.

(** The screen after writing [l]: fold [terminal_put]. *)
Fixpoint terminal_puts (l : list Z) (sc : screen) : screen :=
  match l with [] => sc | c :: l' => terminal_puts l' (terminal_put (s8 c) sc) end.

Lemma terminal_puts_wf l sc : screen_wf sc -> screen_wf (terminal_puts l sc).
Proof.
  revert sc; induction l as [| c l IH]; intros sc H; cbn; [done |].
  apply IH, terminal_put_wf; [wrap_lia | done].
Qed.

Lemma screen_of_monitor_of sc p : screen_of (monitor_of sc p) = sc.
Proof. by destruct sc as [[v x] y]. Qed.
Lemma mon_ports_monitor_of sc p : mon_ports (monitor_of sc p) = p.
Proof. by destruct sc as [[v x] y]. Qed.

Lemma put_all_mon_putchar l m :
  screen_wf (screen_of m) ->
  exists p, put_all mon_putchar l m =
    Done tt (monitor_of (terminal_puts l (screen_of m)) (mon_ports m ++ p)).
Proof.
  revert m; induction l as [| c l IH]; intros m Hwf; cbn [put_all terminal_puts].
  - exists []. rewrite app_nil_r. by destruct m.
  - rewrite (bind_Done _ _ _ _ _ (mon_putchar_run c m Hwf)).
    destruct (IH (monitor_of (terminal_put (s8 c) (screen_of m))
      (mon_ports m ++ screen_ports (terminal_put (s8 c) (screen_of m))))) as [p Hp].
    { rewrite screen_of_monitor_of. apply terminal_put_wf; [wrap_lia | done]. }
    rewrite Hp, screen_of_monitor_of, mon_ports_monitor_of, <- app_assoc. eauto.
Qed.

(** [kprintf] shows the rendering of its format and touches nothing else. *)
Lemma kprintf_run fmt args out s :
  render fmt args = Some out -> screen_wf (screen_of (console s)) ->
  exists m, kprintf fmt args s = Done (Z.of_nat (length out)) (set_console m s) /\
    screen_of m = terminal_puts out (screen_of (console s)) /\
    exists p, mon_ports m = mon_ports (console s) ++ p.
Proof.
  intros Hr Hwf. unfold kprintf, printf, vprintf.
  rewrite (vprintf_loop_render _ _ _ _ 0 _ Hr).
  destruct (put_all_mon_putchar out (console s) Hwf) as [p Hp].
  eexists. rewrite (bind_Done _ _ _ tt (set_console
    (monitor_of (terminal_puts out (screen_of (console s))) (mon_ports (console s) ++ p)) s)).
  - split; [reflexivity |]. rewrite screen_of_monitor_of, mon_ports_monitor_of. eauto.
  - rewrite put_all_lift_con. unfold lift_con. by rewrite Hp.
Qed.

(** ** What the dispatchers do *)

Definition valid_int (regs : cpu_regs) : Prop := 0 <= int_no regs < 256.

Lemma handler_at_run n s :
  n < 256 -> handler_at n s = Done (interrupt_handlers s !! n) s.
Proof. intros H. unfold handler_at. by rewrite (proj2 (Z.leb_gt 256 n)) by lia. Qed.

(** The end-of-interrupt writes of an IRQ: the slave only for lines 8..15. *)
Definition eoi_ports (n : Z) : io_trace :=
  (if 40 <=? n then [(0xA0, 0x20)] else []) ++ [(0x20, 0x20)].

Lemma irq_handler_run regs s :
  valid_int regs ->
  irq_handler regs s =
    let s' := with_ports (eoi_ports (int_no regs)) s in
    match interrupt_handlers s !! int_no regs with
    | Some h => call_handler h regs s'
    | None => Done tt s'
    end.
Proof.
  intros H. unfold irq_handler, valid_int, eoi_ports in *.
  assert (Hk : forall st, (_ ← kout 0x20 0x20; h ← handler_at (int_no regs);
      match h with Some handler => call_handler handler regs | None => mret tt end) st =
    match interrupt_handlers st !! int_no regs with
    | Some h => call_handler h regs (with_ports [(0x20, 0x20)] st)
    | None => Done tt (with_ports [(0x20, 0x20)] st)
    end).
  { intros st. rewrite (bind_Done _ _ _ tt (with_ports [(0x20, 0x20)] st)) by done.
    rewrite (bind_Done _ _ _ _ _ (handler_at_run _ _ (proj2 H))). cbn.
    by destruct (interrupt_handlers st !! int_no regs). }
  destruct (40 <=? int_no regs); cbn [when].
  - rewrite (bind_Done _ _ _ tt (with_ports [(0xA0, 0x20)] s)) by done. rewrite Hk.
    unfold with_ports, set_console, set_mon_ports; cbn. by rewrite <- app_assoc.
  - rewrite (bind_Done _ _ _ tt s) by done. rewrite Hk. done.
Qed.

(** One timer tick: the counter advances and "Tick: n" appears. *)
Lemma timer_callback_run regs s :
  screen_wf (screen_of (console s)) ->
  exists m,
    timer_callback regs s = Done tt (set_console m (set_tick (u32 (tick s + 1)) s)) /\
    screen_of m =
      terminal_puts (bytes "Tick: " ++ rev (buf_d (u32 (tick s + 1))) ++ [10])
        (screen_of (console s)) /\
    exists p, mon_ports m = mon_ports (console s) ++ p.
Proof.
  intros Hwf. unfold timer_callback.
  set (s1 := set_tick (u32 (tick s + 1)) s).
  rewrite (bind_Done _ _ _ tt s1) by done.
  rewrite (bind_Done (gets tick) _ s1 (u32 (tick s + 1)) s1) by done.
  destruct (kprintf_run (bytes "Tick: %d" ++ [10]) [VInt (u32 (tick s + 1))]
    (bytes "Tick: " ++ rev (buf_d (u32 (tick s + 1))) ++ [10]) s1) as (m & Hrun & Hm & Hp).
  { cbn -[rev buf_d]. done. }
  { done. }
  exists m. rewrite (bind_Done _ _ _ _ _ Hrun). done.
Qed.

(** [init_timer] programs channel 0 with the low 16 bits of the divisor. *)
Lemma init_timer_run freq s :
  0 < freq ->
  exists lo hi,
    init_timer freq s =
      Done tt (with_ports [(0x43, 0x36); (0x40, lo); (0x40, hi)]
        (set_interrupt_handlers (<[IRQ0 := timer_callback_p]> (interrupt_handlers s)) s)) /\
    lo + 256 * hi = u16 (1193180 / freq).
Proof.
  intros Hf. exists (u8 (Z.land (1193180 / freq) 0xFF)).
  exists (u8 (Z.land (Z.shiftr (1193180 / freq) 8) 0xFF)).
  unfold init_timer. rewrite (proj2 (Z.eqb_neq freq 0)) by lia. split.
  - unfold with_ports, register_interrupt_handler, kout. cbn -[u8 Z.land Z.shiftr Z.div].
    mred. cbn -[u8 Z.land Z.shiftr Z.div]. unfold outb, set_console, set_mon_ports; cbn -[u8 Z.land Z.shiftr Z.div].
    rewrite <- !app_assoc, !u8_idem. done.
  - rewrite !land_0xFF, Z.shiftr_div_pow2 by lia. change (2 ^ 8) with 256.
    assert (0 <= 1193180 / freq) by (apply Z.div_pos; lia).
    set (d := 1193180 / freq) in *. wrap_lia.
Qed.

(** ** Properties *)

(** an IRQ whose handler is the timer callback acknowledges the interrupt
    controllers first (the slave only for lines 8 to 15, then the master),
    then counts the tick and prints it; an IRQ without a handler only
    acknowledges. *)
Theorem irq_handler_correct regs s :
  valid_int regs -> screen_wf (screen_of (console s)) ->
  match interrupt_handlers s !! int_no regs with
  | Some timer_callback_p =>
      exists m p,
        irq_handler regs s = Done tt (set_console m (set_tick (u32 (tick s + 1)) s)) /\
        mon_ports m = mon_ports (console s) ++ eoi_ports (int_no regs) ++ p /\
        screen_of m =
          terminal_puts (bytes "Tick: " ++ rev (buf_d (u32 (tick s + 1))) ++ [10])
            (screen_of (console s))
  | Some page_fault_handler_p =>
      irq_handler regs s = page_fault_handler regs (with_ports (eoi_ports (int_no regs)) s)
  | None => irq_handler regs s = Done tt (with_ports (eoi_ports (int_no regs)) s)
  end.
Proof.
  intros Hv Hwf. pose proof (irq_handler_run regs s Hv) as Hrun. cbv zeta in Hrun.
  destruct (interrupt_handlers s !! int_no regs) as [[] |]; [exact Hrun | | exact Hrun].
  destruct (timer_callback_run regs (with_ports (eoi_ports (int_no regs)) s) Hwf)
    as (m & Ht & Hm & p & Hp).
  exists m, p. cbn [call_handler] in Hrun. rewrite Hrun, Ht.
  split; [done |]. split; [| exact Hm]. rewrite Hp. unfold with_ports; cbn.
  by rewrite <- app_assoc.
Qed.

(** Registers of an interrupt [n]; the timer bound to line 0. *)
Definition regs_of (n : Z) : cpu_regs :=
  {| r_ds := 0; r_edi := 0; r_esi := 0; r_ebp := 0; r_esp := 0; r_ebx := 0; r_edx := 0;
     r_ecx := 0; r_eax := 0; int_no := n; err_code := 0; r_eip := 0; r_cs := 0;
     r_eflags := 0; r_useresp := 0; r_ss := 0 |}.
Definition timer_state : kstate :=
  set_interrupt_handlers {[32 := timer_callback_p]} blank_kstate.

Lemma blank_screen_wf : screen_wf (screen_of blank_monitor).
Proof.
  split; [| cbn; lia]. split; [reflexivity |]. apply Forall_replicate. lia.
Qed.

Lemma irq_handler_witness :
  exists m p,
    irq_handler (regs_of 32) timer_state = Done tt (set_console m (set_tick 1 timer_state)) /\
    mon_ports m = [] ++ [(0x20, 0x20)] ++ p /\
    screen_of m = terminal_puts (bytes "Tick: " ++ rev (buf_d 1) ++ [10])
                    (screen_of blank_monitor).
Proof.
  apply (irq_handler_correct (regs_of 32) timer_state).
  - unfold valid_int; cbn; lia.
  - exact blank_screen_wf.
Defined.

(** [init_timer] binds the timer to IRQ 0 and programs the PIT: command
    byte first, then the low and high bytes of 1193180/freq, of which the
    hardware therefore gets the low 16 bits — the exact divisor from 19 Hz on,
    a truncated one below; a zero frequency divides by zero. *)
Theorem init_timer_correct freq s :
  0 <= freq ->
  if freq =? 0 then init_timer freq s = Halt (Fault "division by zero")
  else
    exists lo hi,
      init_timer freq s =
        Done tt (with_ports [(0x43, 0x36); (0x40, lo); (0x40, hi)]
          (set_interrupt_handlers (<[IRQ0 := timer_callback_p]> (interrupt_handlers s)) s)) /\
      lo + 256 * hi = u16 (1193180 / freq) /\
      (lo + 256 * hi = 1193180 / freq <-> 19 <= freq).
Proof.
  intros Hf. destruct (Z.eqb_spec freq 0) as [-> | Hne]; [done |].
  destruct (init_timer_run freq s) as (lo & hi & Hrun & Hv); [lia |].
  exists lo, hi. split; [done |]. split; [done |]. rewrite Hv.
  assert (0 <= 1193180 / freq) by (apply Z.div_pos; lia).
  destruct (Z.le_gt_cases 19 freq) as [L | L].
  - assert (1193180 / freq < 65536) by (apply Z.div_lt_upper_bound; lia).
    rewrite u16_small by lia. done.
  - assert (66000 <= 1193180 / freq) by (apply Z.div_le_lower_bound; lia).
    pose proof (u16_range (1193180 / freq)). split; lia.
Qed.

Lemma init_timer_witness :
  exists lo hi,
    init_timer 50 blank_kstate =
      Done tt (with_ports [(0x43, 0x36); (0x40, lo); (0x40, hi)]
        (set_interrupt_handlers (<[IRQ0 := timer_callback_p]> ∅) blank_kstate)) /\
    lo + 256 * hi = u16 (1193180 / 50) /\
    (lo + 256 * hi = 1193180 / 50 <-> 19 <= 50).
Proof. apply (init_timer_correct 50 blank_kstate). lia. Defined.
