(* ===== verification/Kmalloc.v ===== *)
(** * Kmalloc: src/src/kmalloc.c

    [_kmalloc]: a bump allocator until the kernel heap exists, the heap
    afterwards.  The heap maps its pages with page tables that come from
    [_kmalloc] again, hence the fuel; with one unit the page-table allocation
    inside is already out of fuel, so two units serve every request whose
    page tables need no further table. *)

From S2P Require Import Prelude Mem Libc SortedArray KState Paging Heap HeapSpec.

Definition M_ALIGNED : Z := 0x1.
Definition M_ZERO : Z := 0x2.

(** [phys] says whether the caller passed a non-NULL pointer; the pair holds
    the block and the value stored through it (0 when NULL). *)
Fixpoint _kmalloc (fuel : nat) (len : Z) (phys : bool) (flags : Z) : M kstate (Z * Z) :=
  match fuel with
  | O => halt NoFuel
  | S fuel' =>
      let K : Kmalloc := fun len => _kmalloc fuel' len true (Z.lor M_ALIGNED M_ZERO) in
      hp ← gets kernel_heap;
      '(addr, ph) ←
        (if hp =? 0 then
           pa ← gets placement_address;
           _ ← when (negb (Z.land flags M_ALIGNED =? 0) &&
                     negb (Z.land pa 0xFFFFF000 =? 0))
                 (modify (set_placement_address (u32 (Z.land pa 0xFFFFF000 + 0x1000))));
           pa ← gets placement_address;
           let ph := if phys then pa else 0 in
           _ ← modify (set_placement_address (u32 (pa + len)));
           pa ← gets placement_address;
           mret (u32 (pa - len), ph)
         else
           addr ← @alloc K fuel len (Z.land flags M_ALIGNED) hp;
           if phys then
             dir ← gets kernel_directory;
             page ← @get_page K addr 0 dir;
             pg ← load_page page;
             mret (addr, u32 (p_frame pg * 0x1000 + Z.land addr 0xFFF))
           else mret (addr, 0));
      _ ← when (negb (Z.land flags M_ZERO =? 0))
            (modify (fun s => set_ks_mem (bzero (ks_mem s) addr len) s));
      mret (addr, ph)
  end.

Section kmalloc.
Context (fuel : nat).

Definition kmalloc (len : Z) : M kstate Z :=
  '(a, _) ← _kmalloc fuel len false 0; mret a.
Definition kmalloc0 (len : Z) : M kstate Z :=
  '(a, _) ← _kmalloc fuel len false M_ZERO; mret a.
Definition kmalloc_a (len : Z) : M kstate Z :=
  '(a, _) ← _kmalloc fuel len false M_ALIGNED; mret a.
Definition kmalloc0_a (len : Z) : M kstate Z :=
  '(a, _) ← _kmalloc fuel len false (Z.lor M_ALIGNED M_ZERO); mret a.
Definition kmalloc_p (len : Z) : M kstate (Z * Z) := _kmalloc fuel len true 0.
Definition kmalloc0_p (len : Z) : M kstate (Z * Z) := _kmalloc fuel len true M_ZERO.
Definition kmalloc_ap (len : Z) : M kstate (Z * Z) := _kmalloc fuel len true M_ALIGNED.
(** The allocator paging.c and heap.c rely on. *)
#[export] Instance kmalloc0_ap_impl : Kmalloc :=
  fun len => _kmalloc fuel len true (Z.lor M_ALIGNED M_ZERO).

Definition kfree (ptr : Z) : M kstate unit :=
  hp ← gets kernel_heap; free ptr hp.

(** sorted_array.c's allocating constructor and destructor. *)
Definition new_sorted_array (maxsize : Z) (cmp : option cmp_func_t)
    : M kstate sorted_array :=
  a ← kmalloc0 (u32 (maxsize * 4));
  if a =? 0 then panic "kmalloc"
  else mret {| sa_array := a; sa_size := 0; sa_maxsize := maxsize; sa_cmp := cmp |}.
Definition delete_sorted_array (a : sorted_array) : M kstate unit := kfree (sa_array a).

(** heap.c's allocating constructor. *)
Definition new_heap (start end_ max su ro : Z) : M kstate Z :=
  heap ← kmalloc0 sizeof_vm_heap;
  if heap =? 0 then panic "kmalloc" else init_heap heap start end_ max su ro.
End kmalloc.

(** ** Before the heap exists: placement allocation *)

(** Where the next block goes. *)
Definition placement_block (flags pa : Z) : Z :=
  if negb (Z.land flags M_ALIGNED =? 0) && (0x1000 <=? pa)
  then pa - pa mod 4096 + 4096 else pa.

Lemma land_page_mask_zero pa :
  in_u32 pa -> (Z.land pa 0xFFFFF000 =? 0) = (pa <? 0x1000).
Proof.
  intros H. rewrite land_page_mask by done. unfold in_u32 in H.
  destruct (Z.eqb_spec (pa - pa mod 4096) 0), (Z.ltb_spec pa 0x1000); try done;
    Z.div_mod_to_equations; lia.
Qed.

Lemma kmalloc_placement_run fuel len phys flags s :
  kernel_heap s = 0 -> in_u32 (placement_address s) -> 0 <= len ->
  placement_block flags (placement_address s) + len < 4294967296 ->
  let b := placement_block flags (placement_address s) in
  _kmalloc (S fuel) len phys flags s =
    Done (b, if phys then b else 0)
      (set_ks_mem
         (if negb (Z.land flags M_ZERO =? 0) then bzero (ks_mem s) b len else ks_mem s)
         (set_placement_address (b + len) s)).
Proof.
  intros Hk Hpa Hlen Hb b. cbn [_kmalloc].
  rewrite (bind_Done (gets kernel_heap) _ s 0 s) by (unfold gets; by rewrite Hk).
  change (0 =? 0) with true. cbn iota.
  rewrite (bind_Done _ _ s (b, if phys then b else 0) (set_placement_address (b + len) s)).
  { destruct (negb (Z.land flags M_ZERO =? 0)); [done |].
    cbn [when]. rewrite (bind_Done _ _ _ tt (set_placement_address (b + len) s)) by done.
    unfold mret, M_ret. by destruct s. }
  rewrite (bind_Done (gets placement_address) _ s (placement_address s) s) by done.
  rewrite land_page_mask_zero by done.
  rewrite (bind_Done _ _ _ tt (set_placement_address b s)).
  { rewrite (bind_Done (gets placement_address) _ _ b (set_placement_address b s)) by done.
    unfold modify, gets. mred. cbn [placement_address set_placement_address].
    assert (0 <= b).
    { unfold b, placement_block, in_u32 in *. destruct (_ && _); [| lia].
      Z.div_mod_to_equations; lia. }
    rewrite !u32_id by (fold b in Hb; try rewrite u32_id; lia).
    replace (b + len - len) with b by lia. done. }
  unfold b, placement_block in *.
  rewrite <- Z.leb_antisym. destruct (_ && (0x1000 <=? _)) eqn:E; cbn [when].
  - rewrite land_page_mask by done. unfold modify. do 2 f_equal.
    apply u32_id. unfold in_u32 in Hpa. Z.div_mod_to_equations; lia.
  - unfold mret, M_ret. by destruct s.
Qed.

(** An aligned block starts on a page boundary, unless it lies in page 0. *)
Lemma placement_block_aligned flags pa :
  negb (Z.land flags M_ALIGNED =? 0) = true -> 0x1000 <= pa ->
  placement_block flags pa mod 4096 = 0 /\
  pa < placement_block flags pa <= pa + 4096.
Proof.
  intros Hf Hpa. unfold placement_block. rewrite Hf, (proj2 (Z.leb_le _ _) Hpa). cbn.
  split; Z.div_mod_to_equations; lia.
Qed.

(** ** Once the heap exists *)

(** An unaligned [kmalloc0] comes from the smallest hole that fits, zeroed. *)
Lemma kmalloc0_heap_run fuel s h l size :
  kernel_heap s <> 0 -> heap_inv s (kernel_heap s) h l -> 0 <= h_addr_start h ->
  0 <= size -> size + 20 < 4294967296 ->
  (exists c, c ∈ l /\ b_hole c = true /\ size + 20 <= b_size c) ->
  exists l1 b l2 h' m',
    let s' := set_heaps (<[kernel_heap s := h']> (heaps s)) (set_ks_mem m' s) in
    l = l1 ++ b :: l2 /\ b_hole b = true /\ size + 20 <= b_size b /\
    kmalloc0 (S fuel) size s = Done (b_addr b + 12)
      (set_ks_mem (bzero m' (b_addr b + 12) size) s') /\
    heap_inv s' (kernel_heap s) h' (l1 ++ split_block size b ++ l2) /\
    writes_only (ks_mem s) m' h b.
Proof.
  intros Hk Hinv H0 Hs Hs' Hc.
  destruct (@alloc_post (fun len => _kmalloc fuel len true (Z.lor M_ALIGNED M_ZERO))
    s (kernel_heap s) h l size fuel Hinv H0 Hs Hs' Hc)
    as (l1 & b & l2 & h' & m' & Hl & Hb & Hsz & _ & Hrun & Hinv' & Hw).
  exists l1, b, l2, h', m'. cbn zeta. repeat split_and!; try done.
  unfold kmalloc0. cbn [_kmalloc].
  rewrite bind_assoc, (bind_Done (gets kernel_heap) _ s (kernel_heap s) s) by done.
  rewrite (proj2 (Z.eqb_neq _ _) Hk). change (Z.land M_ZERO M_ALIGNED) with 0.
  rewrite bind_assoc, bind_assoc, (bind_Done _ _ _ _ _ Hrun). done.
Qed.

(** ** Properties *)

(** before the heap exists [_kmalloc] is a bump allocator: the block
    starts at or above the old placement address (on a page boundary when
    alignment is asked for and the address is past page 0), the placement
    address moves to its end, the physical address is the block's, with
    [M_ZERO] the block reads zero, and nothing outside the block is written. *)
Theorem kmalloc_placement_correct fuel len phys flags s :
  kernel_heap s = 0 -> in_u32 (placement_address s) -> 0 <= len ->
  placement_address s + 4096 + len < 4294967296 ->
  exists b m,
    _kmalloc (S fuel) len phys flags s =
      Done (b, if phys then b else 0) (set_ks_mem m (set_placement_address (b + len) s)) /\
    placement_address s <= b <= placement_address s + 4096 /\
    (Z.land flags M_ALIGNED <> 0 -> 0x1000 <= placement_address s -> b mod 4096 = 0) /\
    (Z.land flags M_ZERO <> 0 -> forall x, b <= x < b + len -> load8 m x = 0) /\
    only_changed (ks_mem s) m b len.
Proof.
  intros Hk Hpa Hlen Hb. unfold in_u32 in Hpa.
  assert (Hbl : placement_address s <= placement_block flags (placement_address s)
                <= placement_address s + 4096).
  { unfold placement_block. destruct (_ && _); Z.div_mod_to_equations; lia. }
  eexists _, _. split; [apply kmalloc_placement_run; (done || lia) |].
  set (b := placement_block flags (placement_address s)) in *.
  split; [done |]. split.
  { intros Hf Hp. apply placement_block_aligned; [| done].
    by apply negb_true_iff, Z.eqb_neq. }
  split.
  - intros Hf x Hx. rewrite (proj2 (Z.eqb_neq _ _) Hf). cbn [negb]. unfold bzero.
    rewrite load8_memset by (unfold in_u32; lia). by rewrite decide_True.
  - destruct (negb _); [apply only_changed_memset; lia | apply only_changed_refl].
Qed.

Lemma kmalloc_placement_witness :
  exists b m,
    _kmalloc 1 64 true (Z.lor M_ALIGNED M_ZERO) blank_kstate =
      Done (b, b) (set_ks_mem m (set_placement_address (b + 64) blank_kstate)) /\
    0x100000 <= b <= 0x100000 + 4096 /\
    (Z.land (Z.lor M_ALIGNED M_ZERO) M_ALIGNED <> 0 -> 0x1000 <= 0x100000 -> b mod 4096 = 0) /\
    (Z.land (Z.lor M_ALIGNED M_ZERO) M_ZERO <> 0 ->
       forall x, b <= x < b + 64 -> load8 m x = 0) /\
    only_changed ∅ m b 64.
Proof.
  apply (kmalloc_placement_correct 0 64 true (Z.lor M_ALIGNED M_ZERO) blank_kstate).
  - reflexivity.
  - unfold in_u32; cbn; lia.
  - lia.
  - cbn; lia.
Defined.

(** once the heap exists, an unaligned [kmalloc0] that some hole fits
    returns zeroed memory cut out of that hole, inside the block's own data
    area, with the heap well formed at hand-over. *)
Theorem kmalloc0_from_heap fuel s h l size :
  kernel_heap s <> 0 -> heap_inv s (kernel_heap s) h l -> 0 <= h_addr_start h ->
  0 <= size -> size + 20 < 4294967296 ->
  (exists c, c ∈ l /\ b_hole c = true /\ size + 20 <= b_size c) ->
  exists a s' h' l',
    kmalloc0 (S fuel) size s = Done a s' /\
    heap_inv s' (kernel_heap s) h' l' /\
    (exists b, b ∈ l' /\ b_hole b = false /\ a = b_addr b + 12 /\ size + 20 <= b_size b) /\
    (forall x, a <= x < a + size -> load8 (ks_mem s') x = 0).
Proof.
  intros Hk Hinv H0 Hs Hs' Hc.
  destruct (kmalloc0_heap_run fuel s h l size Hk Hinv H0 Hs Hs' Hc)
    as (l1 & b & l2 & h' & m' & -> & Hb & Hsz & Hrun & Hinv' & _).
  set (s1 := set_heaps (<[kernel_heap s := h']> (heaps s)) (set_ks_mem m' s)) in *.
  assert (Hin : exists b', b' ∈ split_block size b /\ b_hole b' = false /\
                  b_addr b' = b_addr b /\ size + 20 <= b_size b').
  { unfold split_block. unfold sizeof_vm_heap_header, sizeof_vm_heap_footer.
    destruct (_ <? _); eexists; (split; [left |]); cbn; split_and!; (done || lia). }
  destruct Hin as (b' & Hb' & Hu & Ha & Hl).
  assert (Hb2 : b' ∈ l1 ++ split_block size b ++ l2) by (rewrite !elem_of_app; tauto).
  eexists _, _, h', (l1 ++ split_block size b ++ l2). split; [exact Hrun |].
  destruct (tiled_member _ _ _ _ _ (hi_tiled _ _ _ _ Hinv') Hb2) as (A1 & A2 & A3 & _).
  assert (Hst : 0 <= h_addr_start h').
  { destruct (hi_index _ _ _ _ Hinv') as [I1 _ I3]. pose proof (hi_below _ _ _ _ Hinv'). lia. }
  pose proof (hi_end _ _ _ _ Hinv'). rewrite <- Ha in *.
  split.
  { apply (heap_inv_data_write _ _ _ _ b' _ size Hinv' Hb2 Hst Hl).
    apply only_changed_memset; lia. }
  split; [exists b'; done |].
  intros x Hx. unfold bzero. cbn [ks_mem set_ks_mem].
  rewrite load8_memset by (unfold in_u32; lia). by rewrite decide_True.
Qed.

Lemma kmalloc0_from_heap_witness :
  exists a s' h' l',
    kmalloc0 1 80 sample_heap_state = Done a s' /\
    heap_inv s' 0x8000 h' l' /\
    (exists b, b ∈ l' /\ b_hole b = false /\ a = b_addr b + 12 /\ 80 + 20 <= b_size b) /\
    (forall x, a <= x < a + 80 -> load8 (ks_mem s') x = 0).
Proof.
  apply (kmalloc0_from_heap 0 sample_heap_state sample_heap sample_blocks 80).
  - discriminate.
  - exact sample_heap_inv.
  - vm_bounds.
  - lia.
  - lia.
  - exists {| b_addr := 0x20000; b_size := 0x100; b_hole := true |}.
    split; [left | vm_bounds].
Defined.
