(* ===== verification/DescTables.v ===== *)
(** * DescTables: src/src/descriptor_tables.c

    The global descriptor table, the interrupt descriptor table and the
    reprogramming of the interrupt controllers.  The assembly stubs' addresses
    are a parameter; [lgdt]/[lidt] copy the pointer structure to the table
    register. *)

From S2P Require Import Prelude Mem Libc Monitor KState.

Definition set_gdt_entries (g : list gdt_entry) (d : dtables) : dtables :=
  {| gdt_entries := g; idt_entries := idt_entries d; gdt_ptr := gdt_ptr d;
     idt_ptr := idt_ptr d; gdt_entries_addr := gdt_entries_addr d;
     idt_entries_addr := idt_entries_addr d; gdtr := gdtr d; idtr := idtr d |}.
Definition set_idt_entries (i : list idt_entry) (d : dtables) : dtables :=
  {| gdt_entries := gdt_entries d; idt_entries := i; gdt_ptr := gdt_ptr d;
     idt_ptr := idt_ptr d; gdt_entries_addr := gdt_entries_addr d;
     idt_entries_addr := idt_entries_addr d; gdtr := gdtr d; idtr := idtr d |}.
Definition set_gdt_ptr (p : table_ptr) (d : dtables) : dtables :=
  {| gdt_entries := gdt_entries d; idt_entries := idt_entries d; gdt_ptr := p;
     idt_ptr := idt_ptr d; gdt_entries_addr := gdt_entries_addr d;
     idt_entries_addr := idt_entries_addr d; gdtr := gdtr d; idtr := idtr d |}.
Definition set_idt_ptr (p : table_ptr) (d : dtables) : dtables :=
  {| gdt_entries := gdt_entries d; idt_entries := idt_entries d; gdt_ptr := gdt_ptr d;
     idt_ptr := p; gdt_entries_addr := gdt_entries_addr d;
     idt_entries_addr := idt_entries_addr d; gdtr := gdtr d; idtr := idtr d |}.
Definition gdt_flush (d : dtables) : dtables :=
  {| gdt_entries := gdt_entries d; idt_entries := idt_entries d; gdt_ptr := gdt_ptr d;
     idt_ptr := idt_ptr d; gdt_entries_addr := gdt_entries_addr d;
     idt_entries_addr := idt_entries_addr d; gdtr := gdt_ptr d; idtr := idtr d |}.
Definition idt_flush (d : dtables) : dtables :=
  {| gdt_entries := gdt_entries d; idt_entries := idt_entries d; gdt_ptr := gdt_ptr d;
     idt_ptr := idt_ptr d; gdt_entries_addr := gdt_entries_addr d;
     idt_entries_addr := idt_entries_addr d; gdtr := gdtr d; idtr := idt_ptr d |}.

Definition on_dt (f : dtables -> dtables) : M kstate unit :=
  modify (fun s => set_dt (f (dt s)) s).

(** ** The GDT *)

Definition make_gdt_entry (base limit access gran : Z) : gdt_entry :=
  {| ge_limit_lo := u16 (Z.land limit 0xFFFF);
     ge_base_lo := u16 (Z.land base 0xFFFF);
     ge_base_mi := u8 (Z.land (Z.shiftr base 16) 0xFF);
     ge_access := u8 access;
     ge_granularity :=
       u8 (Z.lor (u8 (Z.land (Z.shiftr limit 16) 0x0F)) (Z.land gran 0xF0));
     ge_base_hi := u8 (Z.land (Z.shiftr base 24) 0xFF) |}.

Definition gdt_set_gate (n base limit access gran : Z) : M kstate unit :=
  d ← gets dt;
  if Z.of_nat (length (gdt_entries d)) <=? n then panic "bad gdt_entries index"
  else on_dt (fun d => set_gdt_entries
         (<[Z.to_nat n := make_gdt_entry base limit access gran]> (gdt_entries d)) d).

Definition init_gdt : M kstate unit :=
  _ ← on_dt (fun d => set_gdt_ptr
        {| tp_limit := u16 (8 * Z.of_nat (length (gdt_entries d)) - 1);
           tp_base := gdt_entries_addr d |} d);
  _ ← gdt_set_gate 0 0 0 0 0;
  _ ← gdt_set_gate 1 0 0xFFFFFFFF 0x9A 0xCF;
  _ ← gdt_set_gate 2 0 0xFFFFFFFF 0x92 0xCF;
  _ ← gdt_set_gate 3 0 0xFFFFFFFF 0xFA 0xCF;
  _ ← gdt_set_gate 4 0 0xFFFFFFFF 0xF2 0xCF;
  on_dt gdt_flush.

(** ** The IDT *)

Definition make_idt_entry (base sel flags : Z) : idt_entry :=
  {| ie_base_lo := u16 (Z.land base 0xFFFF); ie_sel := u16 sel; ie_always0 := 0;
     ie_flags := u8 flags; ie_base_hi := u16 (Z.land (Z.shiftr base 16) 0xFFFF) |}.

Definition idt_set_gate (n base sel flags : Z) : M kstate unit :=
  d ← gets dt;
  if Z.of_nat (length (idt_entries d)) <=? n then panic "Bad idt_entries index"
  else on_dt (fun d => set_idt_entries
         (<[Z.to_nat n := make_idt_entry base sel flags]> (idt_entries d)) d).

(** What [memset] to zero leaves in an entry. *)
Definition zero_idt_entry : idt_entry :=
  {| ie_base_lo := 0; ie_sel := 0; ie_always0 := 0; ie_flags := 0; ie_base_hi := 0 |}.

Section stubs.
(** [stub n]: the address of [isr<n>] for n < 32, of [irq<n-32>] from there on. *)
Context (stub : Z -> Z).

(** The 48 calls of [idt_set_gate], one per stub, are a counted loop here. *)
Definition init_idt : M kstate unit :=
  _ ← on_dt (fun d => set_idt_ptr
        {| tp_limit := u16 (8 * Z.of_nat (length (idt_entries d)) - 1);
           tp_base := idt_entries_addr d |} d);
  _ ← on_dt (fun d => set_idt_entries
        (replicate (length (idt_entries d)) zero_idt_entry) d);
  _ ← kout 0x20 0x11;
  _ ← kout 0xA0 0x11;
  _ ← kout 0x21 0x20;
  _ ← kout 0xA1 0x28;
  _ ← kout 0x21 0x04;
  _ ← kout 0xA1 0x02;
  _ ← kout 0x21 0x01;
  _ ← kout 0xA1 0x01;
  _ ← kout 0x21 0x0;
  _ ← kout 0xA1 0x0;
  _ ← for_loop 48 0 (fun n => idt_set_gate n (stub n) 0x08 0x8E);
  on_dt idt_flush.

Definition init_descriptor_tables : M kstate unit :=
  _ ← init_gdt; init_idt.
End stubs.

(** ** How the CPU reads an entry *)

Definition seg_base (e : gdt_entry) : Z :=
  ge_base_lo e + 65536 * ge_base_mi e + 16777216 * ge_base_hi e.
Definition seg_limit (e : gdt_entry) : Z :=
  ge_limit_lo e + 65536 * (ge_granularity e mod 16).
(** With the granularity flag the limit counts 4 KB pages. *)
Definition seg_last (e : gdt_entry) : Z :=
  if Z.testbit (ge_granularity e) 7 then 4096 * seg_limit e + 4095 else seg_limit e.
(** The descriptor privilege level. *)
Definition seg_dpl (e : gdt_entry) : Z := Z.shiftr (ge_access e) 5 mod 4.
Definition gate_offset (e : idt_entry) : Z := ie_base_lo e + 65536 * ie_base_hi e.

(** ** Lemmas *)

Lemma seg_base_make base limit access gran :
  in_u32 base -> seg_base (make_gdt_entry base limit access gran) = base.
Proof.
  intros H. unfold seg_base, make_gdt_entry; cbn [ge_base_lo ge_base_mi ge_base_hi].
  rewrite land_0xFFFF, !land_0xFF, !Z.shiftr_div_pow2 by lia.
  change (2 ^ 16) with 65536. change (2 ^ 24) with 16777216. wrap_lia.
Qed.

Lemma lor_nibbles a b : 0 <= a < 16 -> Z.lor a (16 * b) = a + 16 * b.
Proof.
  intros Ha. pose proof (Z.add_lor_land a (16 * b)) as E.
  enough (Z.land a (16 * b) = 0) by lia.
  replace (16 * b) with (Z.shiftl b 4) by (rewrite Z.shiftl_mul_pow2 by lia; lia).
  apply Z.bits_inj'. intros n Hn. rewrite Z.land_spec, Z.bits_0.
  destruct (Z.lt_ge_cases n 4).
  - rewrite Z.shiftl_spec_low by lia. apply andb_false_r.
  - rewrite <- (Z.mod_small a (2 ^ 4)) by (change (2 ^ 4) with 16; lia).
    by rewrite Z.mod_pow2_bits_high by lia.
Qed.

Lemma land_0xF0 x : Z.land x 0xF0 = 16 * (x / 16 mod 16).
Proof.
  change 0xF0 with (Z.shiftl (Z.ones 4) 4).
  apply Z.bits_inj'. intros n Hn. rewrite Z.land_spec.
  replace (16 * (x / 16 mod 16)) with (Z.shiftl (x / 16 mod 16) 4)
    by (rewrite Z.shiftl_mul_pow2 by lia; lia).
  destruct (Z.lt_ge_cases n 4).
  - rewrite !Z.shiftl_spec_low by lia. apply andb_false_r.
  - rewrite !Z.shiftl_spec by lia.
    change (x / 16) with (x / 2 ^ 4). change 16 with (2 ^ 4).
    rewrite <- Z.shiftr_div_pow2, <- Z.land_ones, Z.land_spec, Z.shiftr_spec by lia.
    by replace (n - 4 + 4) with n by lia.
Qed.

Lemma granularity_make base limit access gran :
  in_u32 limit -> 0 <= gran < 256 ->
  ge_granularity (make_gdt_entry base limit access gran) =
    limit / 65536 mod 16 + 16 * (gran / 16).
Proof.
  intros Hl Hg. cbn [make_gdt_entry ge_granularity].
  rewrite Z.shiftr_div_pow2, land_0xF0 by lia. change (2 ^ 16) with 65536.
  change 0x0F with (Z.ones 4). rewrite Z.land_ones by lia. change (2 ^ 4) with 16.
  rewrite (u8_small (_ mod 16)) by (Z.div_mod_to_equations; lia).
  rewrite lor_nibbles by (apply Z.mod_pos_bound; lia). wrap_lia.
Qed.

Lemma seg_limit_make base limit access gran :
  in_u32 limit -> 0 <= gran < 256 ->
  seg_limit (make_gdt_entry base limit access gran) = limit mod 1048576.
Proof.
  intros Hl Hg. unfold seg_limit. rewrite granularity_make by done.
  cbn [make_gdt_entry ge_limit_lo]. rewrite land_0xFFFF. wrap_lia.
Qed.

Lemma gate_offset_make base sel flags :
  in_u32 base -> gate_offset (make_idt_entry base sel flags) = base.
Proof.
  intros H. unfold gate_offset; cbn [make_idt_entry ie_base_lo ie_base_hi].
  rewrite !land_0xFFFF, Z.shiftr_div_pow2 by lia. change (2 ^ 16) with 65536. wrap_lia.
Qed.

Lemma gdt_set_gate_run n base limit access gran s :
  0 <= n < Z.of_nat (length (gdt_entries (dt s))) ->
  gdt_set_gate n base limit access gran s =
    Done tt (set_dt (set_gdt_entries
      (<[Z.to_nat n := make_gdt_entry base limit access gran]> (gdt_entries (dt s))) (dt s)) s).
Proof. intros H. unfold gdt_set_gate. mred. by rewrite (proj2 (Z.leb_gt _ _)) by lia. Qed.

Lemma idt_set_gate_run n base sel flags s :
  0 <= n < Z.of_nat (length (idt_entries (dt s))) ->
  idt_set_gate n base sel flags s =
    Done tt (set_dt (set_idt_entries
      (<[Z.to_nat n := make_idt_entry base sel flags]> (idt_entries (dt s))) (dt s)) s).
Proof. intros H. unfold idt_set_gate. mred. by rewrite (proj2 (Z.leb_gt _ _)) by lia. Qed.

Lemma set_idt_entries_id s : set_dt (set_idt_entries (idt_entries (dt s)) (dt s)) s = s.
Proof. destruct s as [m h p k f nf kd cd c0 c2 c3 ih co t d i v]. by destruct d. Qed.

(** Entries [i .. i+n-1] filled from the stubs. *)
Lemma idt_fill_run stub n i s :
  0 <= i -> i + Z.of_nat n <= Z.of_nat (length (idt_entries (dt s))) ->
  exists t,
    for_loop n i (fun n => idt_set_gate n (stub n) 0x08 0x8E) s =
      Done tt (set_dt (set_idt_entries t (dt s)) s) /\
    length t = length (idt_entries (dt s)) /\
    forall j : nat, t !! j =
      if decide (i <= Z.of_nat j < i + Z.of_nat n)
      then Some (make_idt_entry (stub (Z.of_nat j)) 0x08 0x8E)
      else idt_entries (dt s) !! j.
Proof.
  revert i s; induction n as [| n IH]; intros i s Hi Hlen; cbn [for_loop].
  - exists (idt_entries (dt s)). rewrite set_idt_entries_id. split; [done |].
    split; [done |]. intros j. by rewrite decide_False by lia.
  - rewrite (bind_Done _ _ _ _ _ (idt_set_gate_run i (stub i) 0x08 0x8E s ltac:(lia))).
    edestruct (IH (i + 1)) as (t & Hrun & Hl & Ht); [| | rewrite Hrun; exists t].
    1-2: cbn [dt set_dt idt_entries set_idt_entries]; rewrite ?length_insert; lia.
    cbn [dt set_dt idt_entries set_idt_entries] in *. rewrite length_insert in Hl.
    split; [done |]. split; [done |]. intros j. rewrite Ht.
    repeat case_decide; try lia; try done.
    + replace (Z.of_nat j) with i by lia. replace j with (Z.to_nat i) by lia.
      by rewrite list_lookup_insert_eq by lia.
    + by rewrite list_lookup_insert_ne by lia.
Qed.

(** The writes that remap IRQ 0..15 to vectors 0x20..0x2F and unmask them. *)
Definition pic_remap_ports : io_trace :=
  [(0x20, 0x11); (0xA0, 0x11); (0x21, 0x20); (0xA1, 0x28); (0x21, 0x04);
   (0xA1, 0x02); (0x21, 0x01); (0xA1, 0x01); (0x21, 0x0); (0xA1, 0x0)].

Lemma init_idt_run stub s :
  length (idt_entries (dt s)) = 256%nat ->
  exists d,
    init_idt stub s =
      Done tt (set_dt d (set_console
        (set_mon_ports (mon_ports (console s) ++ pic_remap_ports) (console s)) s)) /\
    idtr d = {| tp_limit := 2047; tp_base := idt_entries_addr (dt s) |} /\
    gdt_entries d = gdt_entries (dt s) /\ gdtr d = gdtr (dt s) /\
    length (idt_entries d) = 256%nat /\
    forall j : nat, (j < 256)%nat -> idt_entries d !! j =
      Some (if decide (j < 48)%nat then make_idt_entry (stub (Z.of_nat j)) 0x08 0x8E
            else zero_idt_entry).
Proof.
  intros Hlen.
  set (p := {| tp_limit := 2047; tp_base := idt_entries_addr (dt s) |}).
  set (s0 := set_dt (set_idt_entries (replicate 256 zero_idt_entry)
    (set_idt_ptr p (dt s))) s).
  set (s1 := with_ports pic_remap_ports s0).
  destruct (idt_fill_run stub 48 0 s1) as (t & Hrun & Hl & Ht).
  { done. }
  { change (dt s1) with (dt s0). cbn [dt s0 set_dt idt_entries set_idt_entries].
    rewrite length_replicate. lia. }
  exists (idt_flush (set_idt_entries t (dt s1))). split.
  - unfold init_idt.
    rewrite (bind_Done _ _ s tt (set_dt (set_idt_ptr p (dt s)) s))
      by (unfold on_dt, modify; by rewrite Hlen).
    rewrite (bind_Done _ _ _ tt s0) by (unfold on_dt, modify; cbn [dt set_dt idt_entries set_idt_ptr]; by rewrite Hlen).
    rewrite !kout_bind, !with_ports_twice.
    match goal with |- context [with_ports ?l s0] =>
      change (with_ports l s0) with s1 end.
    rewrite (bind_Done _ _ _ _ _ Hrun). done.
  - change (dt s1) with (dt s0) in *. cbn [dt s0 set_dt idt_entries set_idt_entries] in Hl, Ht.
    cbn [idt_flush idtr gdt_entries gdtr idt_entries set_idt_entries dt set_dt s0
      idt_ptr set_idt_ptr]. rewrite Hl, length_replicate. do 4 (split; [done |]).
    intros j Hj. rewrite Ht. change (Z.of_nat 48) with 48.
    repeat case_decide; try lia; [done |]. by rewrite lookup_replicate_2.
Qed.

(** The flat-model table [init_gdt] builds. *)
Definition flat_gdt : list gdt_entry :=
  [make_gdt_entry 0 0 0 0; make_gdt_entry 0 0xFFFFFFFF 0x9A 0xCF;
   make_gdt_entry 0 0xFFFFFFFF 0x92 0xCF; make_gdt_entry 0 0xFFFFFFFF 0xFA 0xCF;
   make_gdt_entry 0 0xFFFFFFFF 0xF2 0xCF].

Lemma init_gdt_run s :
  length (gdt_entries (dt s)) = 5%nat ->
  let p := {| tp_limit := 39; tp_base := gdt_entries_addr (dt s) |} in
  init_gdt s = Done tt
    (set_dt (gdt_flush (set_gdt_entries flat_gdt (set_gdt_ptr p (dt s)))) s).
Proof.
  intros Hlen p.
  destruct (gdt_entries (dt s)) as [| e0 [| e1 [| e2 [| e3 [| e4 [|]]]]]] eqn:E; try done.
  set (st := fun l => set_dt (set_gdt_entries l (set_gdt_ptr p (dt s))) s).
  assert (Hst : forall n l base limit access gran, (n < length l)%nat ->
    gdt_set_gate (Z.of_nat n) base limit access gran (st l) =
      Done tt (st (<[n := make_gdt_entry base limit access gran]> l))).
  { intros n l base limit access gran Hn. rewrite gdt_set_gate_run.
    - by rewrite Nat2Z.id.
    - unfold st; cbn [dt set_dt gdt_entries set_gdt_entries]. lia. }
  unfold init_gdt.
  rewrite (bind_Done _ _ s tt (st [e0; e1; e2; e3; e4])).
  2: { unfold on_dt, modify, st. rewrite E. do 2 f_equal.
       unfold set_gdt_ptr, set_gdt_entries; cbn. by rewrite E. }
  erewrite bind_Done by (apply (Hst 0%nat); cbn; lia).
  erewrite bind_Done by (apply (Hst 1%nat); cbn; lia).
  erewrite bind_Done by (apply (Hst 2%nat); cbn; lia).
  erewrite bind_Done by (apply (Hst 3%nat); cbn; lia).
  erewrite bind_Done by (apply (Hst 4%nat); cbn; lia).
  done.
Qed.

(** ** Properties *)

(** [init_descriptor_tables] loads both table registers, builds the flat
    segments (kernel and user code and data spanning the whole 4 GB at the
    right privilege level), points the first 48 gates at their stubs, leaves
    the other 208 absent, and sends the controllers exactly the sequence that
    moves IRQ 0..15 to vectors 32..47. *)
Theorem init_descriptor_tables_correct stub s :
  length (gdt_entries (dt s)) = 5%nat -> length (idt_entries (dt s)) = 256%nat ->
  (forall n, in_u32 (stub n)) ->
  exists d,
    init_descriptor_tables stub s = Done tt (set_dt d (with_ports pic_remap_ports s)) /\
    gdtr d = {| tp_limit := 39; tp_base := gdt_entries_addr (dt s) |} /\
    idtr d = {| tp_limit := 2047; tp_base := idt_entries_addr (dt s) |} /\
    (forall n e, 1 <= n <= 4 -> gdt_entries d !! Z.to_nat n = Some e ->
       seg_base e = 0 /\ seg_last e = 0xFFFFFFFF /\
       seg_dpl e = (if n <=? 2 then 0 else 3)) /\
    (forall n, 0 <= n < 256 -> exists e, idt_entries d !! Z.to_nat n = Some e /\
       if n <? 48 then gate_offset e = stub n /\ ie_sel e = 0x08 /\ ie_flags e = 0x8E
       else e = zero_idt_entry).
Proof.
  intros Hg Hi Hst.
  pose proof (init_gdt_run s Hg) as Hrun. cbv zeta in Hrun.
  set (s1 := set_dt _ s) in Hrun.
  destruct (init_idt_run stub s1 Hi) as (d & Hrun2 & Hidtr & Hgd & Hgr & _ & Hent).
  exists d. split.
  { unfold init_descriptor_tables. rewrite (bind_Done _ _ _ _ _ Hrun), Hrun2. done. }
  split; [by rewrite Hgr |]. split; [by rewrite Hidtr |]. split.
  - intros n e Hn He. rewrite Hgd in He. change (gdt_entries (dt s1)) with flat_gdt in He.
    assert (n = 1 \/ n = 2 \/ n = 3 \/ n = 4) as Hcase by lia.
    destruct Hcase as [-> | [-> | [-> | ->]]]; injection He as <-; vm_compute; done.
  - intros n Hn. eexists. split; [apply Hent; lia |].
    rewrite Z2Nat.id by lia. destruct (Z.ltb_spec n 48).
    + rewrite decide_True by lia. split; [apply gate_offset_make, Hst | done].
    + by rewrite decide_False by lia.
Qed.

Lemma init_descriptor_tables_witness :
  exists d,
    init_descriptor_tables (fun n => 0x100000 + 16 * u8 n) blank_kstate =
      Done tt (set_dt d (with_ports pic_remap_ports blank_kstate)) /\
    gdtr d = {| tp_limit := 39; tp_base := 0x2000 |} /\
    idtr d = {| tp_limit := 2047; tp_base := 0x3000 |} /\
    (forall n e, 1 <= n <= 4 -> gdt_entries d !! Z.to_nat n = Some e ->
       seg_base e = 0 /\ seg_last e = 0xFFFFFFFF /\
       seg_dpl e = (if n <=? 2 then 0 else 3)) /\
    (forall n, 0 <= n < 256 -> exists e, idt_entries d !! Z.to_nat n = Some e /\
       if n <? 48 then gate_offset e = 0x100000 + 16 * u8 n /\ ie_sel e = 0x08 /\
                       ie_flags e = 0x8E
       else e = zero_idt_entry).
Proof.
  apply (init_descriptor_tables_correct (fun n => 0x100000 + 16 * u8 n) blank_kstate).
  - reflexivity.
  - reflexivity.
  - intros n. pose proof (u8_range n). unfold in_u32. lia.
Defined.

(** a descriptor encoded by [gdt_set_gate] reads back as the base it was
    given and the low 20 bits of the limit, and one by [idt_set_gate] as its
    handler's address; an index past the table panics. *)
Theorem descriptors_roundtrip n base limit access gran s :
  in_u32 base -> in_u32 limit -> 0 <= gran < 256 -> 0 <= n ->
  seg_base (make_gdt_entry base limit access gran) = base /\
  seg_limit (make_gdt_entry base limit access gran) = limit mod 1048576 /\
  gate_offset (make_idt_entry base 8 0x8E) = base /\
  (if Z.of_nat (length (gdt_entries (dt s))) <=? n
   then gdt_set_gate n base limit access gran s = Halt (Panic "bad gdt_entries index")
   else exists s', gdt_set_gate n base limit access gran s = Done tt s' /\
     gdt_entries (dt s') !! Z.to_nat n = Some (make_gdt_entry base limit access gran)).
Proof.
  intros Hb Hl Hg Hn. split; [by apply seg_base_make |].
  split; [by apply seg_limit_make |]. split; [by apply gate_offset_make |].
  destruct (Z.leb_spec (Z.of_nat (length (gdt_entries (dt s)))) n) as [L | L].
  - unfold gdt_set_gate. mred. by rewrite (proj2 (Z.leb_le _ _) L).
  - eexists. split; [apply gdt_set_gate_run; lia |]. cbn.
    apply list_lookup_insert_eq. lia.
Qed.

Lemma descriptors_roundtrip_witness :
  seg_base (make_gdt_entry 0x12345678 0xABCDE 0x9A 0xCF) = 0x12345678 /\
  seg_limit (make_gdt_entry 0x12345678 0xABCDE 0x9A 0xCF) = 0xABCDE mod 1048576.
Proof.
  destruct (descriptors_roundtrip 2 0x12345678 0xABCDE 0x9A 0xCF blank_kstate) as (H1 & H2 & _).
  - unfold in_u32; lia.
  - unfold in_u32; lia.
  - lia.
  - lia.
  - split; [exact H1 | exact H2].
Defined.
