(* ===== verification/Tar.v ===== *)
(** * Tar: src/src/tar.c

    The archive parser: octal sizes, and the tail queue of files built in
    kernel memory.  A [struct tar_file] is 120 bytes: [tf_filename] at 0,
    [tf_datasiz] at 104, [tf_data] at 108, the queue links at 112 and 116; a
    [struct tar_fileQ] is [tqh_first] at 0 and [tqh_last] at 4. *)

From S2P Require Import Prelude Mem Libc SortedArray KState Paging Heap HeapSpec Kmalloc.

(** [for (j = 11; j > 0; j--, count *= 8) size += (in[j-1] - '0') * count;] *)
Fixpoint getsize_loop (j : nat) (m : memory) (inp size count : Z) : Z :=
  match j with
  | O => size
  | S j' =>
      let size := u32 (size + u32 ((s8 (load8 m (inp + Z.of_nat j')) - 48) * count)) in
      getsize_loop j' m inp size (u32 (count * 8))
  end.

Definition getsize (m : memory) (inp : Z) : Z := getsize_loop 11 m inp 0 1.

(** ** The queue macros of src/src/freebsd/sys/queue.h *)

Definition tf_datasiz_at (tf : Z) : Z := u32 (tf + 104).
Definition tf_data_at (tf : Z) : Z := u32 (tf + 108).
Definition tqe_next_at (tf : Z) : Z := u32 (tf + 112).
Definition tqe_prev_at (tf : Z) : Z := u32 (tf + 116).
Definition tqh_last_at (q : Z) : Z := u32 (q + 4).

Definition TAILQ_INIT (head : Z) : M kstate unit :=
  _ ← stw head 0; stw (tqh_last_at head) head.

Definition TAILQ_INSERT_TAIL (head elm : Z) : M kstate unit :=
  _ ← stw (tqe_next_at elm) 0;
  last ← ldw (tqh_last_at head);
  _ ← stw (tqe_prev_at elm) last;
  last ← ldw (tqh_last_at head);
  _ ← stw last elm;
  stw (tqh_last_at head) (tqe_next_at elm).

(** ** The parser *)

Definition sizeof_tar_file : Z := 120.
Definition sizeof_tar_fileQ : Z := 8.
Definition size_offset : Z := 124.

(** [p += ((siz / 512) + 1) * 512; if (siz % 512) p += 512;] *)
Definition next_header (p siz : Z) : Z :=
  let p := u32 (p + u32 ((siz / 512 + 1) * 512)) in
  if negb (siz mod 512 =? 0) then u32 (p + 512) else p.

Section tar.
Context (kfuel : nat).

(** The [for (i = 0; ; i++)] loop; [None] is the allocation failure. *)
Fixpoint tar_loop (fuel : nat) (q p i : Z) : M kstate (option Z) :=
  match fuel with
  | O => halt NoFuel
  | S fuel' =>
      m ← get_mem;
      if load8 m p =? 0 then mret (Some i)
      else
        let siz := getsize m (u32 (p + size_offset)) in
        tf ← kmalloc0 kfuel sizeof_tar_file;
        if tf =? 0 then mret None
        else
          _ ← modify (fun s => set_ks_mem (memcpy (ks_mem s) tf p 100) s);
          _ ← stw (tf_datasiz_at tf) siz;
          _ ← stw (tf_data_at tf) (u32 (p + 512));
          _ ← TAILQ_INSERT_TAIL q tf;
          tar_loop fuel' q (next_header p siz) (s32 (i + 1))
  end.

(** Returns the count (-1 on failure) and, when it is set, the queue. *)
Definition tar_parse_mem (fuel : nat) (addr : Z) : M kstate (Z * option Z) :=
  q ← kmalloc0 kfuel sizeof_tar_fileQ;
  if q =? 0 then mret (-1, None)
  else
    _ ← TAILQ_INIT q;
    r ← tar_loop fuel q addr 0;
    match r with
    | Some i => mret (i, Some q)
    | None => mret (-1, None)
    end.
End tar.

(** ** Octal fields *)

(** The value of octal digit characters, most significant first. *)
Fixpoint oct_value (l : list Z) (acc : Z) : Z :=
  match l with [] => acc | c :: l' => oct_value l' (8 * acc + (c - 48)) end.

(** The [n]-digit octal field that holds [v]. *)
Fixpoint oct_field (n : nat) (v : Z) : list Z :=
  match n with
  | O => []
  | S n' => oct_field n' (v / 8) ++ [48 + v mod 8]
  end.

Definition oct_digit (c : Z) : Prop := 48 <= c < 56.

(** ** Lemmas *)

Lemma oct_value_app l1 l2 acc : oct_value (l1 ++ l2) acc = oct_value l2 (oct_value l1 acc).
Proof. revert acc; induction l1 as [| c l1 IH]; intros acc; cbn; auto. Qed.

Lemma oct_value_acc l acc :
  oct_value l acc = oct_value l 0 + 8 ^ Z.of_nat (length l) * acc.
Proof.
  revert acc; induction l as [| c l IH]; intros acc; cbn [oct_value length]; [cbn; lia |].
  rewrite IH, (IH (8 * 0 + (c - 48))), Nat2Z.inj_succ, Z.pow_succ_r by lia. lia.
Qed.

Lemma oct_value_field n v : 0 <= v < 8 ^ Z.of_nat n -> oct_value (oct_field n v) 0 = v.
Proof.
  revert v; induction n as [| n IH]; intros v Hv; cbn [oct_field]; [cbn in *; lia |].
  rewrite Nat2Z.inj_succ, Z.pow_succ_r in Hv by lia.
  rewrite oct_value_app, IH by (Z.div_mod_to_equations; lia). cbn [oct_value].
  Z.div_mod_to_equations; lia.
Qed.

Lemma oct_field_length n v : length (oct_field n v) = n.
Proof. revert v; induction n; intros v; cbn; [done |]. rewrite length_app, IHn. cbn; lia. Qed.

Lemma oct_field_digits n v : Forall oct_digit (oct_field n v).
Proof.
  revert v; induction n as [| n IH]; intros v; cbn; [constructor |].
  apply Forall_app; split; [done |]. constructor; [| constructor].
  unfold oct_digit. Z.div_mod_to_equations; lia.
Qed.

(** The loop adds the value of the digits still to read. *)
Lemma getsize_loop_value j m inp size count :
  0 <= count ->
  Forall oct_digit (load_bytes m inp j) ->
  getsize_loop j m inp (u32 size) (u32 count) =
    u32 (size + count * oct_value (load_bytes m inp j) 0).
Proof.
  revert size count; induction j as [| j IH]; intros size count Hc Hd; cbn [getsize_loop].
  - cbn. f_equal; lia.
  - replace (S j) with (j + 1)%nat in Hd |- * by lia. rewrite load_bytes_app in Hd |- *.
    apply Forall_app in Hd as [Hd Hx]. cbn [load_bytes] in Hx |- *.
    apply Forall_cons in Hx as [Hx _]. unfold oct_digit in Hx.
    set (c := load8 m (inp + Z.of_nat j)) in *. rewrite s8_small by lia.
    assert (E1 : u32 (u32 size + u32 ((c - 48) * u32 count)) =
                 u32 (size + (c - 48) * count)).
    { rewrite u32_add_idem_l, u32_add_idem_r. unfold u32.
      rewrite Z.add_mod, Zmult_mod_idemp_r, <- Z.add_mod by lia. done. }
    assert (E2 : u32 (u32 count * 8) = u32 (count * 8)) by apply Zmult_mod_idemp_l.
    rewrite E1, E2, IH by (done || lia). rewrite oct_value_app. cbn [oct_value].
    f_equal. lia.
Qed.

Lemma getsize_run m inp :
  Forall oct_digit (load_bytes m inp 11) ->
  getsize m inp = u32 (oct_value (load_bytes m inp 11) 0).
Proof.
  intros H. unfold getsize. change 0 with (u32 0) at 1. change 1 with (u32 1) at 1.
  rewrite getsize_loop_value by done. f_equal. lia.
Qed.

(** The parser steps to the first 512-byte boundary after the file's data. *)
Lemma next_header_value p siz :
  0 <= siz -> p + siz + 1535 < 4294967296 -> 0 <= p ->
  next_header p siz = p + 512 + 512 * ((siz + 511) / 512).
Proof.
  intros Hs Hp H0. unfold next_header. cbv zeta.
  rewrite (u32_id ((siz / 512 + 1) * 512)) by (Z.div_mod_to_equations; lia).
  rewrite (u32_id (p + _)) by (Z.div_mod_to_equations; lia).
  destruct (Z.eqb_spec (siz mod 512) 0); cbn;
    rewrite ?u32_id by (Z.div_mod_to_equations; lia); Z.div_mod_to_equations; lia.
Qed.

(** ** Properties *)

(** [getsize] inverts the tar encoding: reading back the 11-digit octal
    field of a size below 4 GB gives the size, and from there the parser's step
    lands on the first 512-byte block after the header and the data. *)
Theorem getsize_roundtrip m inp p siz :
  0 <= siz < 4294967296 -> load_bytes m inp 11 = oct_field 11 siz ->
  getsize m inp = siz /\
  (0 <= p -> p + siz + 1535 < 4294967296 -> p mod 512 = 0 ->
   let q := next_header p (getsize m inp) in
   q mod 512 = 0 /\ p + 512 + siz <= q < p + 512 + siz + 512).
Proof.
  intros Hs Hf.
  assert (E : getsize m inp = siz).
  { rewrite getsize_run by (rewrite Hf; apply oct_field_digits).
    rewrite Hf, oct_value_field; [by apply u32_id |].
    change (8 ^ Z.of_nat 11) with 8589934592. lia. }
  split; [done |]. intros H0 Hp Hm. cbv zeta. rewrite E, next_header_value by lia.
  split; Z.div_mod_to_equations; lia.
Qed.

(** The size field "00000001750" (1000) of a header at 0x4000. *)
Lemma getsize_roundtrip_witness :
  let m := store_bytes ∅ (0x4000 + 124) (oct_field 11 1000) in
  getsize m (0x4000 + 124) = 1000 /\
  (0 <= 0x4000 -> 0x4000 + 1000 + 1535 < 4294967296 -> 0x4000 mod 512 = 0 ->
   let q := next_header 0x4000 (getsize m (0x4000 + 124)) in
   q mod 512 = 0 /\ 0x4000 + 512 + 1000 <= q < 0x4000 + 512 + 1000 + 512).
Proof.
  cbv zeta. apply getsize_roundtrip; [lia | vm_compute; reflexivity].
Defined.
