(* ===== verification/Vfs.v ===== *)
(** * Vfs: src/src/vfs.c

    The virtual file system switch.  A [struct vfs_node] is 312 bytes of
    memory; its callbacks are code addresses, and calling one goes through the
    [VfsCalls] interface, which the file systems implement. *)

From S2P Require Import Prelude Mem Libc KState Paging.

Definition VFS_FILE : Z := 0x01.
Definition VFS_DIRECTORY : Z := 0x02.
Definition sizeof_vfs_node : Z := 312.
Definition sizeof_dirent : Z := 132.

(** Field offsets of [struct vfs_node]; [name] is at 0, and the [inode] of a
    [struct dirent] at 128. *)
Definition o_mask : Z := 256.
Definition o_uid : Z := 260.
Definition o_gid : Z := 264.
Definition o_flags : Z := 268.
Definition o_inode : Z := 272.
Definition o_length : Z := 276.
Definition o_impl : Z := 280.
Definition o_read : Z := 284.
Definition o_write : Z := 288.
Definition o_open : Z := 292.
Definition o_close : Z := 296.
Definition o_readdir : Z := 300.
Definition o_finddir : Z := 304.
Definition o_ptr : Z := 308.
Definition o_dirent_inode : Z := 128.

Definition ldf (node off : Z) : M kstate Z := ldw (u32 (node + off)).
Definition stf (node off v : Z) : M kstate unit := stw (u32 (node + off)) v.

(** Calls through the six kinds of callback; the first argument is the
    function's address. *)
Class VfsCalls : Type := {
  call_read : Z -> Z -> Z -> Z -> Z -> M kstate Z;
  call_write : Z -> Z -> Z -> Z -> Z -> M kstate Z;
  call_open : Z -> Z -> Z -> M kstate Z;
  call_close : Z -> Z -> M kstate unit;
  call_readdir : Z -> Z -> Z -> M kstate Z;
  call_finddir : Z -> Z -> Z -> M kstate Z
}.

Definition VFS_ISDIR (node : Z) : M kstate bool :=
  flags ← ldf node o_flags; mret (Z.land flags 0x7 =? VFS_DIRECTORY).

Section vfs.
Context `{VfsCalls}.

Definition vfs_read (node offset size buf : Z) : M kstate Z :=
  f ← ldf node o_read;
  if negb (f =? 0) then call_read f node offset size buf else mret 0.

Definition vfs_write (node offset size buf : Z) : M kstate Z :=
  f ← ldf node o_write;
  if negb (f =? 0) then call_write f node offset size buf else mret 0.

Definition vfs_open (node mode : Z) : M kstate Z :=
  f ← ldf node o_open;
  if negb (f =? 0) then call_open f node mode else mret 0.

Definition vfs_close (node : Z) : M kstate unit :=
  f ← ldf node o_close;
  when (negb (f =? 0)) (call_close f node).

Definition vfs_readdir (node index : Z) : M kstate Z :=
  d ← VFS_ISDIR node;
  f ← ldf node o_readdir;
  if d && negb (f =? 0) then call_readdir f node index else mret 0.

Definition vfs_finddir (node name : Z) : M kstate Z :=
  d ← VFS_ISDIR node;
  f ← ldf node o_finddir;
  if d && negb (f =? 0) then call_finddir f node name else mret 0.

(** ** Lemmas *)

Definition is_dir (s : kstate) (node : Z) : bool :=
  Z.land (load32 (ks_mem s) (u32 (node + o_flags))) 0x7 =? VFS_DIRECTORY.
Definition callback (s : kstate) (node off : Z) : Z :=
  load32 (ks_mem s) (u32 (node + off)).

(** A directory operation reaches the file system exactly for a directory
    with that callback, and otherwise answers NULL without any effect. *)
Lemma vfs_readdir_run node index s :
  vfs_readdir node index s =
    if is_dir s node && negb (callback s node o_readdir =? 0)
    then call_readdir (callback s node o_readdir) node index s else Done 0 s.
Proof.
  unfold vfs_readdir, VFS_ISDIR, ldf, ldw, is_dir, callback. mred.
  by destruct (_ && _).
Qed.

Lemma vfs_finddir_run node name s :
  vfs_finddir node name s =
    if is_dir s node && negb (callback s node o_finddir =? 0)
    then call_finddir (callback s node o_finddir) node name s else Done 0 s.
Proof.
  unfold vfs_finddir, VFS_ISDIR, ldf, ldw, is_dir, callback. mred.
  by destruct (_ && _).
Qed.

Lemma vfs_read_run node offset size buf s :
  vfs_read node offset size buf s =
    if negb (callback s node o_read =? 0)
    then call_read (callback s node o_read) node offset size buf s else Done 0 s.
Proof. unfold vfs_read, ldf, ldw, callback. mred. by destruct (negb _). Qed.
End vfs.
