(* ===== verification/Initrd.v ===== *)
(** * Initrd: src/src/initrd.c

    The initial ramdisk: file nodes built from the archive, and the read,
    readdir and finddir callbacks behind the VFS.  String loops run on
    [sfuel], which bounds the longest name. *)

From S2P Require Import Prelude Mem Libc SortedArray Monitor Printf KState Paging Heap HeapSpec Isr Kmalloc Tar Vfs.

(** The addresses the linker gives the callbacks. *)
Class Linker : Type := {
  initrd_read_a : Z;
  initrd_readdir_a : Z;
  initrd_finddir_a : Z;
  initrd_read_a_nz : 0 < initrd_read_a < 4294967296;
  initrd_readdir_a_nz : 0 < initrd_readdir_a < 4294967296;
  initrd_finddir_a_nz : 0 < initrd_finddir_a < 4294967296
}.

Definition set_tar_files (q : Z) (v : initrd_vars) : initrd_vars :=
  {| tar_files := q; initrd_root := initrd_root v; initrd_dev := initrd_dev v;
     root_nodes := root_nodes v; nroot_nodes := nroot_nodes v; dirent_p := dirent_p v |}.
Definition set_initrd_dirs (r d : Z) (v : initrd_vars) : initrd_vars :=
  {| tar_files := tar_files v; initrd_root := r; initrd_dev := d;
     root_nodes := root_nodes v; nroot_nodes := nroot_nodes v; dirent_p := dirent_p v |}.
Definition set_root_nodes (a n : Z) (v : initrd_vars) : initrd_vars :=
  {| tar_files := tar_files v; initrd_root := initrd_root v; initrd_dev := initrd_dev v;
     root_nodes := a; nroot_nodes := n; dirent_p := dirent_p v |}.

Definition on_ird (f : initrd_vars -> initrd_vars) : M kstate unit :=
  modify (fun s => set_ird (f (ird s)) s).

(** Run a bounded string function of memory. *)
Definition str_op (f : memory -> option Z) : M kstate Z := fun s =>
  match f (ks_mem s) with Some r => Done r s | None => Halt NoFuel end.

Definition kmemcpy (dest src count : Z) : M kstate unit :=
  modify (fun s => set_ks_mem (memcpy (ks_mem s) dest src count) s).
(** [memcpy] from a string literal. *)
Definition copy_literal (dest : Z) (l : list Z) : M kstate unit :=
  modify (fun s => set_ks_mem (store_bytes (ks_mem s) dest l) s).

(** The address of [root_nodes[i]]. *)
Definition root_node (v : initrd_vars) (i : Z) : Z :=
  u32 (root_nodes v + sizeof_vfs_node * i).

Section initrd.
Context (sfuel : nat).

(** [do { if (strcmp(...) == 0) break; } while (tf = TAILQ_NEXT(tf));]:
    the matching file, or NULL. *)
Fixpoint read_loop (fuel : nat) (tf name : Z) : M kstate Z :=
  match fuel with
  | O => halt NoFuel
  | S fuel' =>
      c ← str_op (fun m => strcmp sfuel m tf name);
      if c =? 0 then mret tf
      else
        tf ← ldw (tqe_next_at tf);
        if tf =? 0 then mret 0 else read_loop fuel' tf name
  end.

Definition initrd_read (fuel : nat) (node offset size buffer : Z) : M kstate Z :=
  q ← gets (fun s => tar_files (ird s));
  tf ← ldw q;
  tf ← read_loop fuel tf node;
  datasiz ← ldw (tf_datasiz_at tf);
  if (tf =? 0) || (datasiz <? offset) then mret 0
  else
    let size := if datasiz <? u32 (offset + size) then u32 (datasiz - offset) else size in
    data ← ldw (tf_data_at tf);
    _ ← kmemcpy buffer (u32 (data + offset)) size;
    mret size.

Definition initrd_readdir (node index : Z) : M kstate Z :=
  v ← gets ird;
  if (node =? initrd_root v) && (index =? 0) then
    _ ← copy_literal (dirent_p v) (bytes "dev" ++ [0]);
    _ ← modify (fun s => set_ks_mem (store8 (ks_mem s) (u32 (dirent_p v + 3)) 0) s);
    _ ← stf (dirent_p v) o_dirent_inode 0;
    mret (dirent_p v)
  else if nroot_nodes v <=? u32 (index - 1) then mret 0
  else
    let nd := root_node v (u32 (index - 1)) in
    l ← str_op (fun m => strlen sfuel m nd);
    nm ← gets (fun s => load_bytes (ks_mem s) nd (Z.to_nat l));
    _ ← kprintf (bytes "found %s for index=%d" ++ [10]) [VStr nm; VInt index];
    l ← str_op (fun m => strlen sfuel m nd);
    _ ← kmemcpy (dirent_p v) nd (u32 (l + 1));
    l ← str_op (fun m => strlen sfuel m nd);
    _ ← modify (fun s => set_ks_mem (store8 (ks_mem s) (u32 (dirent_p v + l)) 0) s);
    i ← ldf nd o_inode;
    _ ← stf (dirent_p v) o_dirent_inode i;
    mret (dirent_p v).

(** The [for (i = 0; i < nroot_nodes; i++)] search, [n] nodes left. *)
Fixpoint finddir_loop (n : nat) (v : initrd_vars) (name i : Z) : M kstate Z :=
  match n with
  | O => mret 0
  | S n' =>
      c ← str_op (fun m => strcmp sfuel m name (root_node v i));
      if c =? 0 then mret (root_node v i) else finddir_loop n' v name (i + 1)
  end.

(** [dev_lit] is the address of the literal "dev". *)
Definition initrd_finddir (dev_lit node name : Z) : M kstate Z :=
  v ← gets ird;
  dev ← (if node =? initrd_root v
         then c ← str_op (fun m => strcmp sfuel m name dev_lit); mret (c =? 0)
         else mret false);
  if (dev : bool) then mret (initrd_dev v)
  else finddir_loop (Z.to_nat (nroot_nodes v)) v name 0.

(** ** Building the tree *)

Context `{Linker}.
Context (kfuel : nat).

(** A fresh directory node named by the literal [name]. *)
Definition init_dir_node (nd : Z) (name : list Z) : M kstate unit :=
  _ ← copy_literal nd name;
  _ ← stf nd o_length 0;
  _ ← stf nd o_inode 0;
  _ ← stf nd o_gid 0;
  _ ← stf nd o_uid 0;
  _ ← stf nd o_mask 0;
  _ ← stf nd o_flags VFS_DIRECTORY;
  _ ← stf nd o_read 0;
  _ ← stf nd o_write 0;
  _ ← stf nd o_open 0;
  _ ← stf nd o_close 0;
  _ ← stf nd o_readdir initrd_readdir_a;
  _ ← stf nd o_finddir initrd_finddir_a;
  _ ← stf nd o_ptr 0;
  stf nd o_impl 0.

(** The body of the [TAILQ_FOREACH]: node [i] from file [tf]. *)
Definition init_file_node (i tf : Z) : M kstate unit :=
  v ← gets ird;
  let nd := root_node v i in
  l ← str_op (fun m => strlen sfuel m tf);
  _ ← kmemcpy nd tf (u32 (l + 1));
  _ ← stf nd o_gid 0;
  _ ← stf nd o_uid 0;
  _ ← stf nd o_mask 0;
  sz ← ldw (tf_datasiz_at tf);
  _ ← stf nd o_length sz;
  _ ← stf nd o_inode i;
  _ ← stf nd o_flags VFS_FILE;
  _ ← stf nd o_read initrd_read_a;
  _ ← stf nd o_write 0;
  _ ← stf nd o_readdir 0;
  _ ← stf nd o_finddir 0;
  _ ← stf nd o_open 0;
  _ ← stf nd o_close 0;
  stf nd o_impl 0.

(** [TAILQ_FOREACH(tf, tar_files, entries)]. *)
Fixpoint nodes_loop (fuel : nat) (tf i : Z) : M kstate unit :=
  match fuel with
  | O => halt NoFuel
  | S fuel' =>
      if tf =? 0 then mret tt
      else
        _ ← init_file_node i tf;
        tf ← ldw (tqe_next_at tf);
        nodes_loop fuel' tf (s32 (i + 1))
  end.

Definition init_initrd (fuel : nat) (addr : Z) : M kstate Z :=
  root ← kmalloc kfuel sizeof_vfs_node;
  _ ← on_ird (fun v => set_initrd_dirs root (initrd_dev v) v);
  _ ← init_dir_node root (bytes "initrd" ++ [0]);
  dev ← kmalloc kfuel sizeof_vfs_node;
  _ ← on_ird (fun v => set_initrd_dirs (initrd_root v) dev v);
  _ ← init_dir_node dev (bytes "dev" ++ [0]);
  '(x, q) ← tar_parse_mem kfuel fuel addr;
  _ ← (match q with Some q => on_ird (set_tar_files q) | None => mret tt end);
  if x =? -1 then panic "tar_parse_mem"
  else
    nodes ← kmalloc kfuel (u32 (sizeof_vfs_node * x));
    _ ← on_ird (set_root_nodes nodes (u32 x));
    q ← gets (fun s => tar_files (ird s));
    tf ← ldw q;
    _ ← nodes_loop fuel tf 0;
    gets (fun s => initrd_root (ird s)).
End initrd.

(** The VFS reaches the ramdisk through its callbacks' addresses. *)
#[export] Instance initrd_calls `{Linker} (sfuel fuel : nat) (dev_lit : Z) : VfsCalls := {|
  call_read f node offset size buf :=
    if f =? initrd_read_a then initrd_read sfuel fuel node offset size buf
    else fault "call_read";
  call_write f node offset size buf := fault "call_write";
  call_open f node mode := fault "call_open";
  call_close f node := fault "call_close";
  call_readdir f node index :=
    if f =? initrd_readdir_a then initrd_readdir sfuel node index else fault "call_readdir";
  call_finddir f node name :=
    if f =? initrd_finddir_a then initrd_finddir sfuel dev_lit node name
    else fault "call_finddir"
|}.

(** ** What the queue and the node array hold *)

Record afile : Type := { f_name : list Z; f_data : Z; f_size : Z }.

(** The files linked from [tf] on. *)
Fixpoint file_chain (m : memory) (tf : Z) (fs : list afile) : Prop :=
  match fs with
  | [] => tf = 0
  | f :: fs' =>
      tf <> 0 /\ cstr m tf (f_name f) /\ load32 m (tf_datasiz_at tf) = f_size f /\
      load32 m (tf_data_at tf) = f_data f /\
      file_chain m (load32 m (tqe_next_at tf)) fs'
  end.

Fixpoint find_file (nm : list Z) (fs : list afile) : option afile :=
  match fs with
  | [] => None
  | f :: fs' => if decide (f_name f = nm) then Some f else find_file nm fs'
  end.

(** The nodes [root_nodes[i]], [root_nodes[i+1]], ... carry these names. *)
Definition nodes_named (m : memory) (v : initrd_vars) (names : list (list Z)) : Prop :=
  nroot_nodes v = Z.of_nat (length names) /\
  forall i nm, names !! i = Some nm -> cstr m (root_node v (Z.of_nat i)) nm.

(** The index of the first name equal to [nm], counting from [i]. *)
Fixpoint find_name (nm : list Z) (names : list (list Z)) (i : nat) : option nat :=
  match names with
  | [] => None
  | x :: names' => if decide (nm = x) then Some i else find_name nm names' (S i)
  end.

(** ** Lemmas *)

Lemma strcmp_eq sfuel m a b l1 l2 :
  cstr m a l1 -> cstr m b l2 -> (length l1 < sfuel)%nat ->
  exists c, strcmp sfuel m a b = Some c /\ (c =? 0) = bool_decide (l1 = l2).
Proof.
  intros H1 H2 Hf. exists (lex_cmp l1 l2). split; [by apply strcmp_lex |].
  destruct H1 as (_ & F1 & _), H2 as (_ & F2 & _).
  pose proof (lex_cmp_0 l1 l2 F1 F2).
  case_bool_decide; [apply Z.eqb_eq | apply Z.eqb_neq]; tauto.
Qed.

Lemma str_op_run f r s : f (ks_mem s) = Some r -> str_op f s = Done r s.
Proof. unfold str_op. by intros ->. Qed.

Lemma read_loop_run sfuel fuel tf name nm fs s :
  file_chain (ks_mem s) tf fs -> fs <> [] -> cstr (ks_mem s) name nm ->
  Forall (fun f => (length (f_name f) < sfuel)%nat) fs -> (length fs <= fuel)%nat ->
  exists tf', read_loop sfuel fuel tf name s = Done tf' s /\
    match find_file nm fs with
    | Some f => tf' <> 0 /\ load32 (ks_mem s) (tf_datasiz_at tf') = f_size f /\
                load32 (ks_mem s) (tf_data_at tf') = f_data f
    | None => tf' = 0
    end.
Proof.
  revert fuel tf. induction fs as [| f fs IH]; intros fuel tf Hch Hne Hnm Hl Hf; [done |].
  destruct fuel as [| fuel]; [cbn in Hf; lia |]. cbn [read_loop].
  destruct Hch as (Htf & Hn & Hsz & Hd & Hch). apply Forall_cons in Hl as [Hl1 Hl].
  destruct (strcmp_eq sfuel _ _ _ _ _ Hn Hnm Hl1) as (c & Hc & Hb).
  rewrite (bind_Done _ _ _ _ _ (str_op_run _ _ _ Hc)), Hb. cbn [find_file].
  destruct (decide (f_name f = nm)) as [E | E].
  - rewrite bool_decide_eq_true_2 by done. exists tf. done.
  - rewrite bool_decide_eq_false_2 by done.
    rewrite (bind_Done _ _ s (load32 (ks_mem s) (tqe_next_at tf)) s) by done.
    destruct fs as [| f2 fs].
    + cbn in Hch. rewrite Hch. cbn. eauto.
    + assert (load32 (ks_mem s) (tqe_next_at tf) <> 0) as Hnz by apply Hch.
      rewrite (proj2 (Z.eqb_neq _ _) Hnz). apply IH; try done. cbn in Hf |- *. lia.
Qed.

(** The bytes a read of [size] at [offset] may deliver. *)
Definition read_size (f : afile) (offset size : Z) : Z :=
  if f_size f <? offset then 0 else Z.min size (f_size f - offset).

(** [initrd_read] copies the requested slice, clipped to the file. *)
Lemma initrd_read_run sfuel fuel node nm offset size buffer fs s :
  file_chain (ks_mem s) (load32 (ks_mem s) (tar_files (ird s))) fs -> fs <> [] ->
  cstr (ks_mem s) node nm ->
  Forall (fun f => (length (f_name f) < sfuel)%nat) fs -> (length fs <= fuel)%nat ->
  0 <= offset -> 0 <= size -> offset + size < 4294967296 ->
  initrd_read sfuel fuel node offset size buffer s =
    match find_file nm fs with
    | None => Done 0 s
    | Some f =>
        if f_size f <? offset then Done 0 s
        else Done (read_size f offset size)
               (set_ks_mem (memcpy (ks_mem s) buffer (u32 (f_data f + offset))
                              (read_size f offset size)) s)
    end.
Proof.
  intros Hch Hne Hnm Hl Hf Ho Hs Hos. unfold initrd_read.
  rewrite (bind_Done _ _ s (tar_files (ird s)) s) by done.
  rewrite (bind_Done _ _ s (load32 (ks_mem s) (tar_files (ird s))) s) by done.
  destruct (read_loop_run sfuel fuel _ _ _ _ _ Hch Hne Hnm Hl Hf) as (tf & Hrun & Htf).
  rewrite (bind_Done _ _ _ _ _ Hrun).
  rewrite (bind_Done _ _ s (load32 (ks_mem s) (tf_datasiz_at tf)) s) by done.
  destruct (find_file nm fs) as [f |]; [| by rewrite Htf].
  destruct Htf as (Htf & Hsz & Hd). rewrite (proj2 (Z.eqb_neq tf 0) Htf), Hsz. cbn [orb].
  destruct (Z.ltb_spec (f_size f) offset) as [L | L]; [done |].
  rewrite (bind_Done _ _ s (load32 (ks_mem s) (tf_data_at tf)) s) by done. rewrite Hd.
  assert (in_u32 (f_size f)) as Hr by (rewrite <- Hsz; apply load32_range).
  unfold in_u32 in Hr. rewrite !u32_id by lia.
  assert (E : (if f_size f <? offset + size then f_size f - offset else size) =
              read_size f offset size).
  { unfold read_size. rewrite (proj2 (Z.ltb_ge _ _) L).
    destruct (Z.ltb_spec (f_size f) (offset + size)); lia. }
  rewrite E. done.
Qed.

Lemma finddir_loop_run sfuel n v name nm names i s :
  (forall j x, names !! j = Some x -> cstr (ks_mem s) (root_node v (Z.of_nat (i + j))) x) ->
  cstr (ks_mem s) name nm -> (length nm < sfuel)%nat -> n = length names ->
  finddir_loop sfuel n v name (Z.of_nat i) s =
    Done (match find_name nm names i with
          | Some k => root_node v (Z.of_nat k) | None => 0 end) s.
Proof.
  revert names i. induction n as [| n IH]; intros names i Hns Hnm Hl Hn.
  - by destruct names.
  - destruct names as [| x names]; [done |]. cbn [finddir_loop find_name].
    pose proof (Hns 0%nat x eq_refl) as Hx. rewrite Nat.add_0_r in Hx.
    destruct (strcmp_eq sfuel _ _ _ _ _ Hnm Hx Hl) as (c & Hc & Hb).
    rewrite (bind_Done _ _ _ _ _ (str_op_run _ _ _ Hc)), Hb.
    destruct (decide (nm = x)).
    + by rewrite bool_decide_eq_true_2.
    + rewrite bool_decide_eq_false_2 by done.
      replace (Z.of_nat i + 1) with (Z.of_nat (S i)) by lia. apply IH; try done; [| by injection Hn].
      intros j y Hj. replace (S i + j)%nat with (i + S j)%nat by lia. by apply Hns.
Qed.

(** [initrd_finddir]: "dev" under the root, else the first node so named. *)
Lemma initrd_finddir_run sfuel dev_lit node name nm names s :
  nodes_named (ks_mem s) (ird s) names -> cstr (ks_mem s) dev_lit (bytes "dev") ->
  cstr (ks_mem s) name nm -> (length nm < sfuel)%nat ->
  initrd_finddir sfuel dev_lit node name s =
    Done (if (node =? initrd_root (ird s)) && bool_decide (nm = bytes "dev")
          then initrd_dev (ird s)
          else match find_name nm names 0 with
               | Some k => root_node (ird s) (Z.of_nat k) | None => 0 end) s.
Proof.
  intros [Hn Hns] Hdev Hnm Hl. unfold initrd_finddir.
  rewrite (bind_Done (gets ird) _ s (ird s) s) by done.
  assert (Hloop : finddir_loop sfuel (Z.to_nat (nroot_nodes (ird s))) (ird s) name 0 s =
    Done (match find_name nm names 0 with
          | Some k => root_node (ird s) (Z.of_nat k) | None => 0 end) s).
  { rewrite Hn, Nat2Z.id. exact (finddir_loop_run sfuel _ _ _ _ names 0 s Hns Hnm Hl eq_refl). }
  destruct (node =? initrd_root (ird s)); cbn [andb].
  - destruct (strcmp_eq sfuel _ _ _ _ _ Hnm Hdev Hl) as (c & Hc & Hb).
    rewrite (bind_Done _ _ s (c =? 0) s) by (by rewrite (bind_Done _ _ _ _ _ (str_op_run _ _ _ Hc))).
    rewrite Hb. case_bool_decide; [done |]. exact Hloop.
  - rewrite (bind_Done _ _ s false s) by done. exact Hloop.
Qed.

Lemma find_name_NoDup names i k nm :
  NoDup names -> names !! k = Some nm -> find_name nm names i = Some (i + k)%nat.
Proof.
  revert i k; induction names as [| x names IH]; intros i k Hnd Hk; [done |]. cbn.
  apply NoDup_cons in Hnd as [Hx Hnd]. destruct k as [| k]; cbn in Hk.
  - simplify_eq. rewrite decide_True by done. f_equal; lia.
  - rewrite decide_False.
    + rewrite (IH (S i) k) by done. f_equal; lia.
    + intros ->. apply Hx. by eapply list_elem_of_lookup_2.
Qed.

(** ** Reading directories *)

(** The node array lies in memory apart from the static [struct dirent]. *)
Definition nodes_apart (v : initrd_vars) : Prop :=
  disjoint (dirent_p v) sizeof_dirent (root_nodes v) (sizeof_vfs_node * nroot_nodes v).

Lemma root_node_small v i :
  nodes_apart v -> 0 <= i < nroot_nodes v -> root_node v i = root_nodes v + 312 * i.
Proof.
  unfold nodes_apart, disjoint, sizeof_vfs_node, sizeof_dirent. intros H Hi.
  unfold root_node, sizeof_vfs_node. apply u32_id. lia.
Qed.

Lemma cstr_ext m m' a l :
  0 <= a -> a + Z.of_nat (length l) < 4294967296 ->
  agree m m' a (Z.of_nat (length l) + 1) -> cstr m a l -> cstr m' a l.
Proof.
  intros H0 H1 Ha (Hb & Hf & Hz). split; [| split; [done |]].
  - rewrite <- Hb at 2. apply load_bytes_ext. intros i Hi. apply Ha. lia.
  - rewrite <- Hz. apply Ha. lia.
Qed.

(** [dirent.name] after the copy and the explicit terminator. *)
Lemma dirent_name m d nd nm :
  cstr m nd nm -> disjoint d 132 nd 312 -> Z.of_nat (length nm) < 128 ->
  let m' := store8 (memcpy m d nd (Z.of_nat (length nm) + 1)) (d + Z.of_nat (length nm)) 0 in
  cstr m' d nm /\ only_changed m m' d 128.
Proof.
  intros Hc D Hl m'. pose proof Hc as (Hb & Hf & Hz). unfold disjoint in D.
  assert (Hat : forall x, in_u32 x -> load8 m' x =
    if decide (x = d + Z.of_nat (length nm)) then 0
    else if decide (d <= x < d + Z.of_nat (length nm)) then load8 m (nd + (x - d))
    else load8 m x).
  { intros x Hx. unfold m'. rewrite load8_store8, load8_memcpy by (unfold disjoint; (done || lia)).
    rewrite !u32_id by (unfold in_u32 in Hx; lia). repeat case_decide; try lia; done. }
  split; [split; [| split; [done |]] |].
  - rewrite <- Hb at 2. apply list_eq. intros i.
    destruct (decide (i < length nm)%nat).
    + rewrite !lookup_load_bytes by done. rewrite Hat by (unfold in_u32; lia).
      rewrite decide_False, decide_True by lia. do 2 f_equal. lia.
    + rewrite !lookup_ge_None_2; [done | rewrite length_load_bytes; lia ..].
  - rewrite Hat by (unfold in_u32; lia). by rewrite decide_True.
  - intros x Hx Hout. rewrite Hat by done. by rewrite !decide_False by lia.
Qed.

Lemma initrd_readdir_run sfuel node i nm names s :
  nodes_named (ks_mem s) (ird s) names -> nodes_apart (ird s) ->
  names !! i = Some nm -> (length nm < sfuel)%nat -> Z.of_nat (length nm) < 128 ->
  screen_wf (screen_of (console s)) ->
  exists m c,
    initrd_readdir sfuel node (Z.of_nat i + 1) s =
      Done (dirent_p (ird s)) (set_ks_mem m (set_console c s)) /\
    cstr m (dirent_p (ird s)) nm /\
    load32 m (u32 (dirent_p (ird s) + o_dirent_inode)) =
      callback s (root_node (ird s) (Z.of_nat i)) o_inode /\
    only_changed (ks_mem s) m (dirent_p (ird s)) sizeof_dirent /\
    screen_of c = terminal_puts
      (bytes "found " ++ nm ++ bytes " for index=" ++ rev (buf_d (Z.of_nat i + 1)) ++ [10])
      (screen_of (console s)).
Proof.
  intros [Hn Hns] Hap Hi Hsf Hl Hwf. pose proof (lookup_lt_Some _ _ _ Hi) as Hlt.
  pose proof (Hns i nm Hi) as Hnd. set (v := ird s) in *.
  pose proof (root_node_small v (Z.of_nat i) Hap ltac:(lia)) as Hrn.
  set (nd := root_node v (Z.of_nat i)) in *. set (d := dirent_p v) in *.
  assert (D : disjoint d 132 nd 312).
  { unfold nodes_apart, disjoint, sizeof_vfs_node, sizeof_dirent in *. fold d in Hap. lia. }
  assert (Hlen : forall st, cstr (ks_mem st) nd nm ->
    str_op (fun m => strlen sfuel m nd) st = Done (Z.of_nat (length nm)) st).
  { intros st E. apply str_op_run. apply strlen_cstr; [done | lia | done]. }
  unfold initrd_readdir. rewrite (bind_Done (gets ird) _ s v s) by done.
  rewrite (proj2 (Z.eqb_neq (Z.of_nat i + 1) 0)), andb_false_r by lia.
  unfold nodes_apart, sizeof_vfs_node, sizeof_dirent, disjoint in *.
  replace (u32 (Z.of_nat i + 1 - 1)) with (Z.of_nat i) by (rewrite u32_id; lia).
  rewrite (proj2 (Z.leb_gt (nroot_nodes v) (Z.of_nat i))) by lia. fold nd.
  rewrite (bind_Done _ _ _ _ _ (Hlen s Hnd)).
  rewrite (bind_Done _ _ s nm s).
  2: { unfold gets. rewrite Nat2Z.id. by destruct Hnd as (-> & _). }
  destruct (kprintf_run (bytes "found %s for index=%d" ++ [10]) [VStr nm; VInt (Z.of_nat i + 1)]
    (bytes "found " ++ nm ++ bytes " for index=" ++ rev (buf_d (Z.of_nat i + 1)) ++ [10])
    s) as (c & Hrun & Hc & _); [done | done |].
  rewrite (bind_Done _ _ _ _ _ Hrun), (bind_Done _ _ _ _ _ (Hlen (set_console c s) Hnd)).
  rewrite (u32_id (Z.of_nat (length nm) + 1)) by lia. fold d.
  destruct (dirent_name (ks_mem s) d nd nm Hnd D Hl) as [Hname Hch].
  set (m1 := memcpy (ks_mem s) d nd (Z.of_nat (length nm) + 1)) in *.
  set (m2 := store8 m1 (d + Z.of_nat (length nm)) 0) in *.
  assert (Hnd1 : cstr m1 nd nm).
  { eapply cstr_ext; [| | | exact Hnd]; try lia. intros x Hx. unfold m1.
    rewrite load8_memcpy by (unfold disjoint, in_u32; lia). by rewrite decide_False by lia. }
  rewrite (bind_Done _ _ _ tt (set_ks_mem m1 (set_console c s))) by done.
  rewrite (bind_Done _ _ _ _ _ (Hlen (set_ks_mem m1 (set_console c s)) Hnd1)).
  rewrite (u32_id (d + Z.of_nat (length nm))) by lia.
  rewrite (bind_Done _ _ _ tt (set_ks_mem m2 (set_console c s))) by done.
  set (ino := callback s nd o_inode).
  assert (Hino : load32 m2 (u32 (nd + o_inode)) = ino).
  { unfold ino, callback. eapply load32_only_changed; [exact Hch |].
    unfold disjoint, o_inode. rewrite u32_id; lia. }
  rewrite (bind_Done _ _ _ ino (set_ks_mem m2 (set_console c s)))
    by (unfold ldf, ldw, gets; cbn [ks_mem set_ks_mem]; by rewrite Hino).
  set (m3 := store32 m2 (u32 (d + o_dirent_inode)) ino).
  exists m3, c. split; [done |].
  assert (Hd : u32 (d + o_dirent_inode) = d + 128) by (apply u32_id; lia).
  assert (Hch3 : only_changed m2 m3 (d + 128) 4)
    by (unfold m3; rewrite Hd; apply only_changed_store32; lia).
  split; [eapply cstr_ext; [| | | exact Hname]; try lia;
          intros x Hx; apply Hch3; unfold in_u32; lia |].
  split; [unfold m3; rewrite load32_store32_eq; apply u32_small, load32_range |].
  split; [| done].
  eapply (only_changed_trans _ m2); eapply only_changed_weaken; try done; lia.
Qed.

(** ** Properties *)

(** C40: reading a file of a ramdisk that holds some, into a buffer that does
    not overlap the data of any, with [offset + size] not overflowing, returns as many bytes as lie between [offset] and the end of the file, at
    most [size]; exactly those bytes of the file are copied to the buffer, and
    nothing else is written; an unknown file or an offset past the end reads
    nothing. *)
Theorem initrd_read_correct sfuel fuel node nm offset size buffer fs s :
  file_chain (ks_mem s) (load32 (ks_mem s) (tar_files (ird s))) fs -> fs <> [] ->
  cstr (ks_mem s) node nm ->
  Forall (fun f => (length (f_name f) < sfuel)%nat) fs -> (length fs <= fuel)%nat ->
  0 <= offset -> 0 <= size -> offset + size < 4294967296 ->
  Forall (fun f => 0 <= f_data f /\ disjoint buffer size (f_data f) (f_size f)) fs ->
  match find_file nm fs with
  | None => initrd_read sfuel fuel node offset size buffer s = Done 0 s
  | Some f =>
      exists n m,
        initrd_read sfuel fuel node offset size buffer s =
          Done (Z.of_nat n) (set_ks_mem m s) /\
        Z.of_nat n = Z.max 0 (Z.min size (f_size f - offset)) /\
        load_bytes m buffer n = load_bytes (ks_mem s) (f_data f + offset) n /\
        only_changed (ks_mem s) m buffer (Z.of_nat n)
  end.
Proof.
  intros Hch Hne Hnm Hl Hf Ho Hs Hos Hd.
  rewrite (initrd_read_run sfuel fuel node nm offset size buffer fs s Hch Hne Hnm Hl Hf Ho Hs Hos).
  destruct (find_file nm fs) as [f |] eqn:Ef; [| done].
  assert (Hfd : 0 <= f_data f /\ disjoint buffer size (f_data f) (f_size f)).
  { clear -Ef Hd. induction Hd as [| g fs Hg Hd IH]; cbn in Ef; [done |].
    destruct (decide (f_name g = nm)); [by simplify_eq | by apply IH]. }
  destruct Hfd as [H0 D]. unfold disjoint in D.
  destruct (Z.ltb_spec (f_size f) offset) as [L | L].
  - exists 0%nat, (ks_mem s). rewrite set_ks_mem_id. split; [done |].
    split; [lia |]. split; [done |]. apply only_changed_refl.
  - assert (Hrs : read_size f offset size = Z.min size (f_size f - offset))
      by (unfold read_size; by rewrite (proj2 (Z.ltb_ge _ _) L)).
    set (n := Z.to_nat (read_size f offset size)).
    assert (En : Z.of_nat n = read_size f offset size) by (unfold n; lia).
    rewrite <- En in *. eexists n, _. split; [reflexivity |]. split; [lia |].
    destruct (Z.eq_dec (Z.of_nat n) 0) as [Ez | Ez].
    { assert (n = 0%nat) as -> by lia. split; [done |]. apply only_changed_refl. }
    rewrite u32_id by lia. split.
    + apply load_bytes_memcpy. unfold disjoint. lia.
    + intros x Hx Hout. rewrite load8_memcpy by (unfold disjoint; lia || done).
      by rewrite decide_False.
Qed.

(** A queue at 0x1000 with one 5-byte file "a" (record at 0x2000, data
    "hello" at 0x3000), and a node named "a" at 0x4000. *)
Definition one_file_memory : memory :=
  store_bytes (store_bytes (store32 (store32 (store32 (store_bytes ∅ 0x2000 [97; 0])
    0x1000 0x2000) (0x2000 + 104) 5) (0x2000 + 108) 0x3000)
    0x3000 (bytes "hello")) 0x4000 [97; 0].
Definition one_file_state : kstate :=
  set_ird {| tar_files := 0x1000; initrd_root := 0; initrd_dev := 0; root_nodes := 0;
             nroot_nodes := 0; dirent_p := 0 |} (set_ks_mem one_file_memory blank_kstate).
Definition file_a : afile := {| f_name := [97]; f_data := 0x3000; f_size := 5 |}.

Lemma initrd_read_witness :
  exists n m,
    initrd_read 8 1 0x4000 1 100 0x5000 one_file_state =
      Done (Z.of_nat n) (set_ks_mem m one_file_state) /\
    Z.of_nat n = Z.max 0 (Z.min 100 (5 - 1)) /\
    load_bytes m 0x5000 n = load_bytes one_file_memory (0x3000 + 1) n /\
    only_changed one_file_memory m 0x5000 (Z.of_nat n).
Proof.
  apply (initrd_read_correct 8 1 0x4000 [97] 1 100 0x5000 [file_a] one_file_state).
  - cbn [file_chain]. split; [vm_compute; discriminate |].
    split; [split; [vm_compute; reflexivity | split; [repeat constructor; vm_compute; reflexivity | vm_compute; reflexivity]] |].
    split; [vm_compute; reflexivity |]. split; [vm_compute; reflexivity |].
    vm_compute. reflexivity.
  - discriminate.
  - split; [vm_compute; reflexivity | split; [repeat constructor; vm_compute; reflexivity | vm_compute; reflexivity]].
  - repeat constructor.
  - cbn; lia.
  - lia.
  - lia.
  - lia.
  - repeat constructor; unfold disjoint; cbn; lia.
Defined.

(** directory listing and lookup agree: entry [i + 1] of the ramdisk's
    listing is the [i]-th file's name and inode, and looking that name up (when
    names are distinct and none is "dev") gives back the [i]-th node. *)
Theorem readdir_finddir_agree sfuel dev_lit node i nm names s :
  nodes_named (ks_mem s) (ird s) names -> nodes_apart (ird s) -> NoDup names ->
  names !! i = Some nm -> (length nm < sfuel)%nat -> Z.of_nat (length nm) < 128 ->
  nm <> bytes "dev" -> screen_wf (screen_of (console s)) ->
  cstr (ks_mem s) dev_lit (bytes "dev") -> disjoint (dirent_p (ird s)) 132 dev_lit 4 ->
  (forall j x, names !! j = Some x -> Z.of_nat (length x) < 312) ->
  exists s',
    initrd_readdir sfuel node (Z.of_nat i + 1) s = Done (dirent_p (ird s)) s' /\
    cstr (ks_mem s') (dirent_p (ird s)) nm /\
    load32 (ks_mem s') (u32 (dirent_p (ird s) + o_dirent_inode)) =
      callback s (root_node (ird s) (Z.of_nat i)) o_inode /\
    initrd_finddir sfuel dev_lit node (dirent_p (ird s)) s' =
      Done (root_node (ird s) (Z.of_nat i)) s'.
Proof.
  intros Hns Hap Hnd Hi Hsf Hl Hdev Hwf Hlit Dlit Hlens.
  destruct (initrd_readdir_run sfuel node i nm names s Hns Hap Hi Hsf Hl Hwf)
    as (m & c & Hrun & Hname & Hino & Hch & _).
  eexists. split; [exact Hrun |]. cbn [ks_mem set_ks_mem].
  split; [done |]. split; [done |].
  assert (Hns' : nodes_named m (ird s) names).
  { destruct Hns as [Hn Hns]. split; [done |]. intros j x Hj.
    pose proof (lookup_lt_Some _ _ _ Hj). pose proof (Hlens j x Hj).
    assert (Hj' : 0 <= Z.of_nat j < nroot_nodes (ird s)) by lia.
    pose proof (Hns j x Hj) as Hc. rewrite root_node_small in * by done.
    unfold nodes_apart, sizeof_vfs_node, sizeof_dirent, disjoint in *.
    eapply cstr_ext; [| | | exact Hc]; try lia.
    intros y Hy. apply Hch; unfold in_u32; lia. }
  rewrite (initrd_finddir_run sfuel dev_lit node _ nm names
    (set_ks_mem m (set_console c s)) Hns'); try done.
  - rewrite bool_decide_eq_false_2, andb_false_r by done.
    rewrite (find_name_NoDup names 0 i nm Hnd Hi). done.
  - unfold disjoint in Dlit. eapply cstr_ext; [| | | exact Hlit]; try lia;
      change (length (bytes "dev")) with 3%nat; try lia.
    intros y Hy. apply Hch; unfold in_u32, sizeof_dirent; lia.
Qed.

(** Two nodes "a" and "b" at 0x8000, the [dirent] at 0x7000, the literal
    "dev" at 0x6000. *)
Definition two_nodes_state : kstate :=
  set_ird {| tar_files := 0; initrd_root := 0x5000; initrd_dev := 0x5200;
             root_nodes := 0x8000; nroot_nodes := 2; dirent_p := 0x7000 |}
    (set_ks_mem (store_bytes (store_bytes (store_bytes ∅ 0x6000 (bytes "dev" ++ [0]))
       0x8000 [97; 0]) (0x8000 + 312) [98; 0]) blank_kstate).

Lemma readdir_finddir_witness :
  exists s',
    initrd_readdir 8 0x5000 (Z.of_nat 1 + 1) two_nodes_state = Done 0x7000 s' /\
    cstr (ks_mem s') 0x7000 [98] /\
    load32 (ks_mem s') (u32 (0x7000 + o_dirent_inode)) =
      callback two_nodes_state (root_node (ird two_nodes_state) (Z.of_nat 1)) o_inode /\
    initrd_finddir 8 0x6000 0x5000 0x7000 s' =
      Done (root_node (ird two_nodes_state) (Z.of_nat 1)) s'.
Proof.
  apply (readdir_finddir_agree 8 0x6000 0x5000 1 [98] [[97]; [98]] two_nodes_state).
  - split; [reflexivity |]. intros [| [| j]] nm Hj; try discriminate; injection Hj as <-;
      (split; [vm_compute; reflexivity
              | split; [repeat constructor; vm_compute; reflexivity | vm_compute; reflexivity]]).
  - unfold nodes_apart, disjoint. cbn. unfold sizeof_dirent, sizeof_vfs_node. lia.
  - apply NoDup_cons. split; [by rewrite list_elem_of_singleton |]. apply NoDup_singleton.
  - reflexivity.
  - cbn; lia.
  - cbn; lia.
  - discriminate.
  - exact blank_screen_wf.
  - split; [vm_compute; reflexivity
            | split; [repeat constructor; vm_compute; reflexivity | vm_compute; reflexivity]].
  - unfold disjoint. cbn. lia.
  - intros [| [| j]] x Hj; try discriminate; injection Hj as <-; cbn; lia.
Defined.
