(* ===== verification/Boot.v ===== *)
(** * Boot: [init_paging] (src/src/paging.c) and src/src/main.c

    Turning paging and the kernel heap on, listing the root directory, and
    the boot sequence.  [stub] gives the interrupt stubs' addresses, [buf_a]
    the address of [vfs_print_content]'s stack buffer, [dev_lit] that of the
    literal "dev". *)

From S2P Require Import Prelude Mem Libc SortedArray Monitor Printf KState Paging Heap HeapSpec Isr Kmalloc DescTables Tar Vfs Initrd.

Section boot.
Context (kfuel : nat).

(** [for (i = START; i < START + SIZE; i += 0x1000)]: the heap's pages. *)
Definition heap_pages (f : Z -> M kstate unit) : M kstate unit :=
  for_loop (Z.to_nat (VM_KERN_HEAP_INITIAL_SIZE / 0x1000)) 0
    (fun k => f (u32 (VM_KERN_HEAP_START + 0x1000 * k))).

(** [while (i < placement_address)], whose bound the body moves. *)
Fixpoint identity_map (fuel : nat) (i : Z) : M kstate unit :=
  match fuel with
  | O => halt NoFuel
  | S fuel' =>
      pa ← gets placement_address;
      if i <? pa then
        dir ← gets kernel_directory;
        p ← @get_page (kmalloc0_ap_impl kfuel) i 1 dir;
        _ ← alloc_frame p 0 0;
        identity_map fuel' (u32 (i + 0x1000))
      else mret tt
  end.

Definition init_paging (fuel : nat) : M kstate unit :=
  let mem_end_page := 0x1000000 in
  let nf := mem_end_page / 0x1000 in
  f ← gets frames;
  _ ← modify (set_frames f nf);
  f ← kmalloc0 kfuel (INDEX_FROM_BIT nf);
  _ ← modify (set_frames f nf);
  dir ← kmalloc0_a kfuel sizeof_vm_page_directory;
  _ ← modify (set_kernel_directory dir);
  _ ← heap_pages (fun i =>
        dir ← gets kernel_directory;
        _ ← @get_page (kmalloc0_ap_impl kfuel) i 1 dir; mret tt);
  heap ← kmalloc0 kfuel sizeof_vm_heap;
  _ ← identity_map fuel 0;
  _ ← heap_pages (fun i =>
        dir ← gets kernel_directory;
        p ← @get_page (kmalloc0_ap_impl kfuel) i 0 dir;
        alloc_frame p 0 0);
  _ ← register_interrupt_handler 14 page_fault_handler_p;
  dir ← gets kernel_directory;
  _ ← switch_page_directory dir;
  h ← init_heap heap VM_KERN_HEAP_START
        (VM_KERN_HEAP_START + VM_KERN_HEAP_INITIAL_SIZE) 0xCFFFF000 0 0;
  modify (set_kernel_heap h).

Context `{Linker} (sfuel : nat) (dev_lit buf_a : Z) (stub : Z -> Z).

(** The bytes of the string at [a], for printing with %s. *)
Definition string_at (a : Z) : M kstate (list Z) :=
  l ← str_op (fun m => strlen sfuel m a);
  gets (fun s => load_bytes (ks_mem s) a (Z.to_nat l)).

Definition show (fmt : list Z) (args : list varg) : M kstate unit :=
  _ ← kprintf fmt args; mret tt.

Fixpoint print_loop (fuel : nat) (i : Z) : M kstate unit :=
  match fuel with
  | O => halt NoFuel
  | S fuel' =>
      let V := initrd_calls sfuel fuel dev_lit in
      root ← gets vfs_root;
      node ← @vfs_readdir V root (u32 i);
      if node =? 0 then mret tt
      else
        nm ← string_at node;
        _ ← show (bytes "Found file %s") [VStr nm];
        root ← gets vfs_root;
        fsnode ← @vfs_finddir V root node;
        d ← VFS_ISDIR fsnode;
        _ ← (if d : bool then show ([10; 9] ++ bytes "(directory)" ++ [10]) []
             else
               _ ← show ([10; 9] ++ bytes " contents:" ++ [10]) [];
               sz ← @vfs_read V fsnode 0 1024 buf_a;
               _ ← modify (fun s => set_ks_mem (store8 (ks_mem s) (u32 (buf_a + sz)) 0) s);
               txt ← string_at buf_a;
               show (bytes "%s" ++ [10]) [VStr txt]);
        print_loop fuel' (s32 (i + 1))
  end.

Definition vfs_print_content (fuel : nat) : M kstate unit := print_loop fuel 0.

Definition kern_main (fuel : nat) (mboot_ptr : Z) : M kstate Z :=
  _ ← lift_con mon_clear;
  _ ← show (bytes "+ booting." ++ [10]) [];
  _ ← show (bytes "+ descriptor tables init...") [];
  _ ← init_descriptor_tables stub;
  _ ← show (bytes "OK" ++ [10]) [];
  _ ← show (bytes "+ multiboot...") [];
  mods_count ← ldw (u32 (mboot_ptr + 20));
  _ ← kassert "multiboot modules" (0 <? mods_count);
  mods_addr ← ldw (u32 (mboot_ptr + 24));
  initrd_start ← ldw mods_addr;
  mods_addr ← ldw (u32 (mboot_ptr + 24));
  initrd_end ← ldw (u32 (mods_addr + 4));
  _ ← modify (set_placement_address initrd_end);
  _ ← show (bytes "OK" ++ [10]) [];
  _ ← show (bytes "+ switching to paged mode...") [];
  _ ← init_paging fuel;
  _ ← show (bytes "OK" ++ [10]) [];
  _ ← show (bytes "+ VFS...") [];
  root ← init_initrd sfuel kfuel fuel initrd_start;
  _ ← modify (set_vfs_root root);
  _ ← show (bytes "OK" ++ [10]) [];
  _ ← vfs_print_content fuel;
  panic "end of kern_main()".
End boot.
