(* ===== verification/Mktime.v ===== *)
(** * Mktime: src/linux-0.01/kernel/mktime.c

    Broken-down time to seconds since 1970, in 32-bit arithmetic, against the
    calendar. *)

From S2P Require Import Prelude.

Record tm : Type := {
  tm_sec : Z; tm_min : Z; tm_hour : Z; tm_mday : Z; tm_mon : Z; tm_year : Z
}.

Definition MINUTE : Z := 60.
Definition HOUR : Z := 60 * MINUTE.
Definition DAY : Z := 24 * HOUR.
Definition YEAR : Z := 365 * DAY.

(** Seconds before each month of a leap year. *)
Definition month : list Z :=
  [0;
   DAY * (31);
   DAY * (31 + 29);
   DAY * (31 + 29 + 31);
   DAY * (31 + 29 + 31 + 30);
   DAY * (31 + 29 + 31 + 30 + 31);
   DAY * (31 + 29 + 31 + 30 + 31 + 30);
   DAY * (31 + 29 + 31 + 30 + 31 + 30 + 31);
   DAY * (31 + 29 + 31 + 30 + 31 + 30 + 31 + 31);
   DAY * (31 + 29 + 31 + 30 + 31 + 30 + 31 + 31 + 30);
   DAY * (31 + 29 + 31 + 30 + 31 + 30 + 31 + 31 + 30 + 31);
   DAY * (31 + 29 + 31 + 30 + 31 + 30 + 31 + 31 + 30 + 31 + 30)].

(** The function, for an arithmetic in which [int z] is what an [int] or a
    [long] holds of the value [z] of an expression. [month[tm_mon]] past the
    table is undefined behaviour: [None]. *)
Definition mktime_in (int : Z -> option Z) (t : tm) : option Z :=
  year ← int (tm_year t - 70);
  years ← int (YEAR * year);
  next ← int (year + 1);
  leaps ← int (DAY * Z.quot next 4);
  res ← int (years + leaps);
  if tm_mon t <? 0 then None
  else
    m ← month !! Z.to_nat (tm_mon t);
    res ← int (res + m);
    after ← int (year + 2);
    res ← (if (1 <? tm_mon t) && negb (Z.rem after 4 =? 0) then int (res - DAY) else Some res);
    day ← int (tm_mday t - 1);
    days ← int (DAY * day);
    res ← int (res + days);
    hours ← int (HOUR * tm_hour t);
    res ← int (res + hours);
    minutes ← int (MINUTE * tm_min t);
    res ← int (res + minutes);
    int (res + tm_sec t).

(** As the processor does it: 32 bits, with wrap-around. *)
Definition kernel_mktime : tm -> option Z := mktime_in (fun z => Some (s32 z)).
(** As C defines it: a value out of range is undefined. *)
Definition strict (z : Z) : option Z := if (-2147483648 <=? z) && (z <? 2147483648) then Some z else None.

(** ** The calendar *)

(** The Gregorian rule. *)
Definition leap (y : Z) : bool :=
  (y mod 4 =? 0) && (negb (y mod 100 =? 0) || (y mod 400 =? 0)).
Definition month_len (y m : Z) : Z :=
  if m =? 1 then (if leap y then 29 else 28)
  else if (m =? 3) || (m =? 5) || (m =? 8) || (m =? 10) then 30 else 31.
(** Days of the years 1970, ..., 1970 + n - 1. *)
Fixpoint days_of_years (n : nat) : Z :=
  match n with
  | O => 0
  | S n' => days_of_years n' + (if leap (1970 + Z.of_nat n') then 366 else 365)
  end.
(** Days of the first [n] months of year [y]. *)
Fixpoint days_of_months (n : nat) (y : Z) : Z :=
  match n with
  | O => 0
  | S n' => days_of_months n' y + month_len y (Z.of_nat n')
  end.

Definition epoch_seconds (t : tm) : Z :=
  let y := 1900 + tm_year t in
  86400 * (days_of_years (Z.to_nat (tm_year t - 70)) +
           days_of_months (Z.to_nat (tm_mon t)) y + (tm_mday t - 1)) +
  3600 * tm_hour t + 60 * tm_min t + tm_sec t.

Definition valid_tm (t : tm) : Prop :=
  0 <= tm_sec t <= 60 /\ 0 <= tm_min t < 60 /\ 0 <= tm_hour t < 24 /\
  0 <= tm_mon t < 12 /\ 1 <= tm_mday t <= month_len (1900 + tm_year t) (tm_mon t).

(** ** Lemmas *)

(** The day count of the code against the calendar, month by month. *)
Definition code_days (n mon : Z) : Z :=
  365 * n + (n + 1) / 4 +
  nth (Z.to_nat mon) [0; 31; 60; 91; 121; 152; 182; 213; 244; 274; 305; 335] 0 -
  (if (1 <? mon) && negb ((n + 2) mod 4 =? 0) then 1 else 0).

Definition day_check (n mon : Z) : bool :=
  code_days n mon =?
    days_of_years (Z.to_nat n) + days_of_months (Z.to_nat mon) (1970 + n).

Lemma day_check_all :
  forallb (fun n => forallb (day_check n) (seqZ 0 12)) (seqZ 0 130) = true.
Proof. vm_compute. reflexivity. Qed.

Lemma code_days_calendar n mon :
  0 <= n < 130 -> 0 <= mon < 12 ->
  code_days n mon = days_of_years (Z.to_nat n) + days_of_months (Z.to_nat mon) (1970 + n).
Proof.
  intros Hn Hm. pose proof day_check_all as H. rewrite forallb_forall in H.
  specialize (H n). rewrite <- list_elem_of_In, elem_of_seqZ in H.
  specialize (H ltac:(lia)). rewrite forallb_forall in H. specialize (H mon).
  rewrite <- list_elem_of_In, elem_of_seqZ in H. by apply Z.eqb_eq, H; lia.
Qed.

Lemma month_table mon :
  0 <= mon < 12 ->
  month !! Z.to_nat mon =
    Some (86400 * nth (Z.to_nat mon) [0; 31; 60; 91; 121; 152; 182; 213; 244; 274; 305; 335] 0).
Proof.
  intros Hm. assert (H : Forall (fun mon => month !! Z.to_nat mon =
    Some (86400 * nth (Z.to_nat mon)
      [0; 31; 60; 91; 121; 152; 182; 213; 244; 274; 305; 335] 0)) (seqZ 0 12))
    by (vm_compute; repeat constructor).
  rewrite Forall_forall in H. apply H, elem_of_seqZ. lia.
Qed.

Lemma month_table_range mon :
  0 <= nth mon [0; 31; 60; 91; 121; 152; 182; 213; 244; 274; 305; 335] 0 <= 335.
Proof. do 12 (destruct mon as [| mon]; [cbn; lia |]). destruct mon; cbn; lia. Qed.

(** ** The calendar and the code *)

(** An arithmetic that is right where 32 bits are enough. *)
Lemma mktime_calendar int t :
  (forall z, -2147483648 <= z < 2147483648 -> int z = Some z) ->
  valid_tm t -> 70 <= tm_year t <= 137 -> mktime_in int t = Some (epoch_seconds t).
Proof.
  intros Hint (Hs & Hmi & Hh & Hm & Hd) Hy.
  assert (Hml : month_len (1900 + tm_year t) (tm_mon t) <= 31)
    by (unfold month_len; repeat case_match; lia).
  unfold mktime_in, epoch_seconds. rewrite (Hint (tm_year t - 70)) by lia. cbn [mbind option_bind].
  set (n := tm_year t - 70). assert (0 <= n <= 67) by (unfold n; lia).
  replace (1900 + tm_year t) with (1970 + n) by (unfold n; lia).
  pose proof (code_days_calendar n (tm_mon t) ltac:(lia) Hm) as E. unfold code_days in E.
  unfold YEAR, DAY, HOUR, MINUTE. rewrite (Hint (_ * n)), (Hint (n + 1)) by lia. cbn [mbind option_bind].
  rewrite Z.quot_div_nonneg by lia. assert (0 <= (n + 1) / 4 <= 17) by (Z.div_mod_to_equations; lia).
  set (q := (n + 1) / 4) in *. rewrite (Hint (_ * q)) by lia. cbn [mbind option_bind].
  rewrite Hint by lia. cbn [mbind option_bind]. rewrite (proj2 (Z.ltb_ge _ _)) by lia.
  rewrite month_table by done. cbn [mbind option_bind].
  pose proof (month_table_range (Z.to_nat (tm_mon t))) as Hr. set (mo := nth _ _ 0) in *.
  rewrite Hint by lia. cbn [mbind option_bind]. rewrite (Hint (n + 2)) by lia. cbn [mbind option_bind].
  rewrite Z.rem_mod_nonneg by lia.
  rewrite <- (Z.add_assoc (days_of_years _)). rewrite Z.add_assoc, <- E.
  destruct ((1 <? tm_mon t) && _); repeat (rewrite Hint by lia; cbn [mbind option_bind]); f_equal; lia.
Qed.

Lemma kernel_mktime_calendar t :
  valid_tm t -> 70 <= tm_year t <= 137 -> kernel_mktime t = Some (epoch_seconds t).
Proof. apply mktime_calendar. intros z Hz. by rewrite s32_small. Qed.

(** C39: for every valid date from 1970 to 2037 [kernel_mktime] is the number
    of seconds the Gregorian calendar counts since 1970-01-01; and no value of
    an expression on the way, intermediate ones included, leaves the 32-bit
    range: with an arithmetic that stops at the first one that does, the result
    is the same. *)
Theorem kernel_mktime_correct t :
  valid_tm t -> 70 <= tm_year t <= 137 ->
  kernel_mktime t = Some (epoch_seconds t) /\ mktime_in strict t = Some (epoch_seconds t).
Proof.
  intros Hv Hy. split; [by apply kernel_mktime_calendar |]. apply mktime_calendar; [| done | done].
  intros z Hz. unfold strict. by rewrite (proj2 (Z.leb_le _ _)), (proj2 (Z.ltb_lt _ _)) by lia.
Qed.

(** 2000-03-01 12:00:00. *)
Lemma kernel_mktime_witness :
  kernel_mktime {| tm_sec := 0; tm_min := 0; tm_hour := 12; tm_mday := 1; tm_mon := 2;
                   tm_year := 100 |} = Some 951912000.
Proof.
  rewrite (proj1 (kernel_mktime_correct {| tm_sec := 0; tm_min := 0; tm_hour := 12; tm_mday := 1; tm_mon := 2;
    tm_year := 100 |} ltac:(unfold valid_tm; vm_bounds) ltac:(cbn; lia))).
  vm_compute. reflexivity.
Defined.
