(* ===== verification/Vsprintf.v ===== *)
(** * Vsprintf: src/linux-0.01/kernel/vsprintf.c

    The kernel's formatted output. A format is a C string: bytes with a
    terminator; nothing is known of what lies behind, and a read there is an
    error of its own, [VPast]. The result is the list of bytes written from
    [buf] on (without the final NUL) and the stores made through %n pointers. *)

From S2P Require Import Prelude Printf.

Inductive larg : Type :=
| LInt (z : Z)          (** an [int], [long] or pointer word *)
| LStr (s : list Z)     (** a string *)
| LPtr (p : Z).         (** the [int *] of %n *)

(** Done with output and %n stores; or undefined behaviour: [va_arg] without an
    argument of its type, a store through the NULL that [number] returned, a
    read behind the format; or out of fuel. *)
Inductive vres : Type :=
| VDone (out : list Z) (stores : list (Z * Z))
| VArg
| VNull
| VPast
| VFuel.

(** Parsers of a piece of the format. *)
Definition vp (A : Type) : Type := A + vres.
#[global] Instance vp_ret : MRet vp := fun A a => inl a.
#[global] Instance vp_bind : MBind vp := fun A B k m => match m with inl a => k a | inr e => inr e end.

(** [ *fmt ]. *)
Definition peek (fmt : list Z) : vp Z := match fmt with [] => inr VPast | c :: _ => inl c end.

Definition is_digit (c : Z) : bool := (48 <=? c) && (c <=? 57).

(** [while (is_digit( **s )) i = i*10 + *(( *s )++) - '0';] *)
Fixpoint skip_atoi (s : list Z) (i : Z) : vp (Z * list Z) :=
  match s with
  | c :: s' => if is_digit c then skip_atoi s' (s32 (i * 10 + c - 48)) else inl (i, s)
  | [] => inr VPast
  end.

Definition ZEROPAD : Z := 1.
Definition SIGN : Z := 2.
Definition PLUS : Z := 4.
Definition SPACE : Z := 8.
Definition LEFT : Z := 16.
Definition SPECIAL : Z := 32.
Definition SMALL : Z := 64.

Definition has (type flag : Z) : bool := negb (Z.land type flag =? 0).

Definition upper_digits : list Z := bytes "0123456789ABCDEFGHIJKLMNOPQRSTUVWXYZ".
Definition lower_digits : list Z := bytes "0123456789abcdefghijklmnopqrstuvwxyz".

(** [while (num != 0) tmp[i++] = digits[do_div(num,base)];] — [divl] divides
    the unsigned word; with a base of at least 2 at most 32 rounds run. *)
Fixpoint num_digits (fuel : nat) (digits : list Z) (num base : Z) : list Z :=
  match fuel with
  | O => []
  | S fuel' =>
      if num =? 0 then []
      else (digits !!! Z.to_nat (num mod base)) ::
           num_digits fuel' digits (num / base) base
  end.

(** [while (size-- > 0) *str++ = c;]: what is written, and [size] after. *)
Definition pad (size c : Z) : list Z := replicate (Z.to_nat size) c.
Definition after_pad (size : Z) : Z := Z.min size 0 - 1.

(** [number]: the characters written, or [None] for the NULL answer. *)
Definition number (num base size precision type : Z) : option (list Z) :=
  let digits := if has type SMALL then lower_digits else upper_digits in
  let type := if has type LEFT then Z.land type (Z.lnot ZEROPAD) else type in
  if (base <? 2) || (36 <? base) then None
  else
    let c := if has type ZEROPAD then 48 else 32 in
    let '(sign, num) :=
      if has type SIGN && (num <? 0) then (45, s32 (- num))
      else ((if has type PLUS then 43 else if has type SPACE then 32 else 0), num) in
    let size := if negb (sign =? 0) then size - 1 else size in
    let size :=
      if has type SPECIAL then
        if base =? 16 then size - 2 else if base =? 8 then size - 1 else size
      else size in
    let tmp := if num =? 0 then [48] else num_digits 32 digits (u32 num) base in
    let i := Z.of_nat (length tmp) in
    let precision := if precision <? i then i else precision in
    let size := size - precision in
    let '(pad1, size) :=
      if negb (has type (ZEROPAD + LEFT)) then (pad size 32, after_pad size)
      else ([], size) in
    let sgn := if negb (sign =? 0) then [sign] else [] in
    let prefix :=
      if has type SPECIAL then
        if base =? 8 then [48]
        else if base =? 16 then [48; digits !!! 33%nat] else []
      else [] in
    let '(pad2, size) :=
      if negb (has type LEFT) then (pad size c, after_pad size) else ([], size) in
    Some (pad1 ++ sgn ++ prefix ++ pad2 ++ pad (precision - i) 48 ++ rev tmp ++
          pad size 32).

(** ** The format interpreter *)

(** [repeat: ++fmt; switch ( *fmt ) ...]: [fmt] is what follows the '%'. *)
Fixpoint parse_flags (fmt : list Z) (flags : Z) : vp (list Z * Z) :=
  match fmt with
  | c :: fmt' =>
      if c =? 45 then parse_flags fmt' (Z.lor flags LEFT)
      else if c =? 43 then parse_flags fmt' (Z.lor flags PLUS)
      else if c =? 32 then parse_flags fmt' (Z.lor flags SPACE)
      else if c =? 35 then parse_flags fmt' (Z.lor flags SPECIAL)
      else if c =? 48 then parse_flags fmt' (Z.lor flags ZEROPAD)
      else inl (fmt, flags)
  | [] => inr VPast
  end.

(** The field width: digits, or '*' (which is not stepped over). *)
Definition parse_width (fmt : list Z) (args : list larg) (flags : Z) : vp (list Z * list larg * Z * Z) :=
  c ← peek fmt;
  if is_digit c then
    '(w, fmt) ← skip_atoi fmt 0;
    mret (fmt, args, w, flags)
  else if c =? 42 then
    match args with
    | LInt z :: args' =>
        let w := s32 z in
        if w <? 0 then mret (fmt, args', s32 (- w), Z.lor flags LEFT)
        else mret (fmt, args', w, flags)
    | _ => inr VArg
    end
  else mret (fmt, args, -1, flags).

Definition parse_precision (fmt : list Z) (args : list larg) : vp (list Z * list larg * Z) :=
  c ← peek fmt;
  if c =? 46 then
    let fmt := tail fmt in
    c ← peek fmt;
    if is_digit c then
      '(p, fmt) ← skip_atoi fmt 0;
      mret (fmt, args, if p <? 0 then 0 else p)
    else if c =? 42 then
      match args with
      | LInt z :: args' => let p := s32 z in mret (fmt, args', if p <? 0 then 0 else p)
      | _ => inr VArg
      end
    else mret (fmt, args, 0)
  else mret (fmt, args, -1).

Definition parse_qualifier (fmt : list Z) : vp (list Z) :=
  c ← peek fmt;
  mret (if (c =? 104) || (c =? 108) || (c =? 76) then tail fmt else fmt).

(** All of it, and the conversion character. *)
Definition parse_spec (fmt : list Z) (args : list larg) : vp (list Z * list larg * Z * Z * Z * Z) :=
  '(fmt, flags) ← parse_flags fmt 0;
  '(fmt, args, width, flags) ← parse_width fmt args flags;
  '(fmt, args, precision) ← parse_precision fmt args;
  fmt ← parse_qualifier fmt;
  c ← peek fmt;
  mret (fmt, args, flags, width, precision, c).

(** %c and %s with their padding. *)
Definition conv_c (z width flags : Z) : list Z :=
  if negb (has flags LEFT) then pad (width - 1) 32 ++ [u8 z]
  else [u8 z] ++ pad (width - 1) 32.
Definition conv_s (s : list Z) (width precision flags : Z) : list Z :=
  let len := Z.of_nat (length s) in
  let len := if precision <? 0 then len else if precision <? len then precision else len in
  let txt := take (Z.to_nat len) s in
  if negb (has flags LEFT) then pad (width - len) 32 ++ txt else txt ++ pad (width - len) 32.

(** The default case: the characters it prints, and where [++fmt] then leads,
    behind [--fmt] at the end of the format. *)
Definition conv_default (c : Z) : list Z :=
  (if negb (c =? 37) then [37] else []) ++ (if negb (c =? 0) then [c] else []).
Definition after_default (c : Z) (fmt : list Z) : list Z := if negb (c =? 0) then tail fmt else fmt.

(** Prepend output and stores to what the rest of the format gives. *)
Definition emit (o : option (list Z)) (r : vres) : vres :=
  match o with
  | None => VNull
  | Some l => match r with VDone out st => VDone (l ++ out) st | r => r end
  end.

Fixpoint vsprintf_loop (fuel : nat) (fmt : list Z) (args : list larg) (len : Z) : vres :=
  match fuel with
  | O => VFuel
  | S fuel' =>
      match fmt with
      | [] => VPast
      | c :: rest =>
          if c =? 0 then VDone [] []
          else if negb (c =? 37) then emit (Some [c]) (vsprintf_loop fuel' rest args (len + 1))
          else
            match parse_spec rest args with
            | inr e => e
            | inl (fmt, args, flags, width, precision, c) =>
                let out (l : option (list Z)) (args : list larg) (next : list Z) :=
                  emit l (vsprintf_loop fuel' next args
                            (len + match l with Some l => Z.of_nat (length l) | None => 0 end)) in
                let num base width flags :=
                  match args with
                  | LInt z :: args' =>
                      out (number (s32 z) base width precision flags) args' (tail fmt)
                  | _ => VArg
                  end in
                if c =? 99 (* c *) then
                  match args with
                  | LInt z :: args' => out (Some (conv_c z width flags)) args' (tail fmt)
                  | _ => VArg
                  end
                else if c =? 115 (* s *) then
                  match args with
                  | LStr s :: args' => out (Some (conv_s s width precision flags)) args' (tail fmt)
                  | _ => VArg
                  end
                else if c =? 111 (* o *) then num 8 width flags
                else if c =? 112 (* p *) then
                  if width =? -1 then num 16 8 (Z.lor flags ZEROPAD)
                  else num 16 width flags
                else if c =? 120 (* x *) then num 16 width (Z.lor flags SMALL)
                else if c =? 88 (* X *) then num 16 width flags
                else if (c =? 100) || (c =? 105) (* d i *) then
                  num 10 width (Z.lor flags SIGN)
                else if c =? 117 (* u *) then num 10 width flags
                else if c =? 110 (* n *) then
                  match args with
                  | LPtr p :: args' =>
                      match vsprintf_loop fuel' (tail fmt) args' len with
                      | VDone o st => VDone o ((p, len) :: st)
                      | r => r
                      end
                  | _ => VArg
                  end
                else out (Some (conv_default c)) args (after_default c fmt)
            end
      end
  end.

(** A format is given without its terminator. One unit of fuel per character
    and one for the terminator. *)
Definition vsprintf (fmt : list Z) (args : list larg) : vres :=
  vsprintf_loop (S (length fmt)) (fmt ++ [0]) args 0.

Example vsprintf_width :
  vsprintf (bytes "%5d|%-4x|%#o|%s!") [LInt 42; LInt 255; LInt 8; LStr (bytes "ok")] =
    VDone (bytes "   42|ff  |010|ok!") [].
Proof. vm_compute. reflexivity. Qed.

(** The '*' of a width is used but not skipped, so it ends the conversion. *)
Example vsprintf_star :
  vsprintf (bytes "%*d") [LInt 5; LInt 7] = VDone (bytes "%*d") [].
Proof. vm_compute. reflexivity. Qed.

(** ** Lemmas *)

(** Once a padding loop has run, the remaining width is spent. *)
Lemma pad_after x c : pad (after_pad x) c = [].
Proof. unfold pad, after_pad. by replace (Z.to_nat (Z.min x 0 - 1)) with 0%nat by lia. Qed.

(** The value of a digit character of either alphabet. *)
Definition digit_of (c : Z) : Z :=
  if c <? 58 then c - 48 else if c <? 91 then c - 55 else c - 87.

Lemma digit_of_digits digits k :
  digits = upper_digits \/ digits = lower_digits -> 0 <= k < 36 ->
  digit_of (digits !!! Z.to_nat k) = k.
Proof.
  intros Hd Hk.
  assert (H : Forall (fun k => digit_of (digits !!! Z.to_nat k) = k) (seqZ 0 36))
    by (destruct Hd as [-> | ->]; vm_compute; repeat constructor).
  rewrite Forall_forall in H. apply H, elem_of_seqZ. lia.
Qed.

Lemma num_digits_value fuel digits num base :
  digits = upper_digits \/ digits = lower_digits ->
  2 <= base <= 36 -> 0 <= num < 2 ^ Z.of_nat fuel ->
  value_lsb base (digit_of <$> num_digits fuel digits num base) = num.
Proof.
  intros Hd Hb. revert num; induction fuel as [| fuel IH]; intros num Hn; cbn [num_digits].
  - cbn in *. lia.
  - destruct (Z.eqb_spec num 0) as [-> | Hnz]; [done |].
    cbn [fmap list_fmap value_lsb].
    assert (0 <= num mod base < base) by (apply Z.mod_pos_bound; lia).
    rewrite digit_of_digits by (done || lia).
    rewrite Nat2Z.inj_succ, Z.pow_succ_r in Hn by lia.
    assert (0 <= num / base < 2 ^ Z.of_nat fuel).
    { split; [apply Z.div_pos; lia |]. apply Z.div_lt_upper_bound; [lia |].
      eapply Z.lt_le_trans; [apply Hn |]. apply Z.mul_le_mono_nonneg_r; lia. }
    rewrite IH by done. pose proof (Z.div_mod num base ltac:(lia)). lia.
Qed.

Lemma length_pad size c : Z.of_nat (length (pad size c)) = Z.max 0 size.
Proof. unfold pad. rewrite length_replicate. lia. Qed.

Lemma has_bit type k : 0 <= k -> has type (2 ^ k) = Z.testbit type k.
Proof.
  intros Hk. unfold has. rewrite land_pow2_testbit by done.
  assert (0 < 2 ^ k) by (apply Z.pow_pos_nonneg; lia).
  destruct (Z.testbit type k); [| done]. by rewrite (proj2 (Z.eqb_neq _ _)) by lia.
Qed.

Lemma has_lor type a b : has type (Z.lor a b) = has type a || has type b.
Proof.
  unfold has. rewrite Z.land_lor_distr_r. rewrite <- negb_andb. f_equal.
  destruct (Z.eqb_spec (Z.land type a) 0) as [E | E], (Z.eqb_spec (Z.land type b) 0) as [F | F];
    cbn [andb]; try (by rewrite E, F);
    apply Z.eqb_neq; intros H; apply Z.lor_eq_0_iff in H; tauto.
Qed.

(** Clearing ZEROPAD leaves every other flag. *)
Lemma has_clear_zeropad type k :
  0 < k -> has (Z.land type (Z.lnot ZEROPAD)) (2 ^ k) = has type (2 ^ k).
Proof.
  intros Hk. rewrite !has_bit by lia. rewrite Z.land_spec, Z.lnot_spec by lia.
  unfold ZEROPAD. change 1 with (2 ^ 0). rewrite Z.pow2_bits_false by lia. apply andb_true_r.
Qed.

Lemma has_clear_zeropad_0 type : has (Z.land type (Z.lnot ZEROPAD)) ZEROPAD = false.
Proof.
  unfold ZEROPAD. change 1 with (2 ^ 0) at 2. rewrite has_bit by lia.
  rewrite Z.land_spec, Z.lnot_spec by lia. by rewrite andb_false_r.
Qed.

(** [type] as [number] sees it after dropping ZEROPAD for LEFT. *)
Definition effective_type (type : Z) : Z :=
  if has type LEFT then Z.land type (Z.lnot ZEROPAD) else type.

Lemma effective_type_flags type :
  let ty := effective_type type in
  has ty SIGN = has type SIGN /\ has ty PLUS = has type PLUS /\
  has ty SPACE = has type SPACE /\ has ty SPECIAL = has type SPECIAL /\
  has ty LEFT = has type LEFT /\
  has ty (ZEROPAD + LEFT) = has ty ZEROPAD || has type LEFT /\
  (has type LEFT = true -> has ty ZEROPAD = false).
Proof.
  cbv zeta. unfold effective_type. change (ZEROPAD + LEFT) with (Z.lor ZEROPAD LEFT).
  rewrite has_lor. destruct (has type LEFT) eqn:E.
  - pose proof (has_clear_zeropad type) as F.
    pose proof (F 1 ltac:(lia)). pose proof (F 2 ltac:(lia)). pose proof (F 3 ltac:(lia)).
    pose proof (F 4 ltac:(lia)) as F4. pose proof (F 5 ltac:(lia)).
    change (2 ^ 4) with LEFT in F4. rewrite E in F4.
    split_and!; try done; [by rewrite F4 |].
    intros _. apply has_clear_zeropad_0.
  - rewrite E. done.
Qed.

(** ** Properties *)

(** The characters before the digits that come from sign and base flags. *)
Definition sign_width (num type : Z) : Z :=
  if (has type SIGN && (num <? 0)) || has type PLUS || has type SPACE then 1 else 0.
Definition prefix_width (base type : Z) : Z :=
  if has type SPECIAL then if base =? 16 then 2 else if base =? 8 then 1 else 0 else 0.

(** [number] writes a field whose digits denote the argument's magnitude
    in the base asked for and whose length is exactly the larger of the field
    width and what sign, prefix, precision and digits need; with LEFT the
    padding is on the right, without it nothing follows the digits. *)
Theorem number_correct num base size precision type :
  2 <= base <= 36 -> -2147483648 <= num < 2147483648 ->
  exists pre tmp post,
    number num base size precision type = Some (pre ++ rev tmp ++ post) /\
    value_lsb base (digit_of <$> tmp) =
      (if has type SIGN && (num <? 0) then - num else u32 num) /\
    Z.of_nat (length (pre ++ rev tmp ++ post)) =
      Z.max size (sign_width num type + prefix_width base type +
                  Z.max precision (Z.of_nat (length tmp))) /\
    (has type LEFT = false -> post = []) /\
    Forall (fun c => c = 32) post.
Proof.
  intros Hb Hn. unfold number, sign_width, prefix_width.
  set (digits := if has type SMALL then lower_digits else upper_digits).
  assert (Hd : digits = upper_digits \/ digits = lower_digits)
    by (unfold digits; destruct (has type SMALL); auto).
  rewrite (proj2 (Z.ltb_ge base 2)), (proj2 (Z.ltb_ge 36 base)) by lia. cbn [orb].
  fold (effective_type type). set (ty := effective_type type).
  destruct (effective_type_flags type) as (E1 & E2 & E3 & E4 & E5 & E6 & E7).
  fold ty in E1, E2, E3, E4, E5, E6, E7. rewrite E1, E2, E3, E4, E5, E6.
  set (neg := has type SIGN && (num <? 0)).
  set (sg := if neg then 45 else if has type PLUS then 43 else if has type SPACE then 32 else 0).
  set (mag := if neg then s32 (- num) else num).
  assert (Hsm : (if neg then (45, s32 (- num))
                 else ((if has type PLUS then 43 else if has type SPACE then 32 else 0), num)) =
                (sg, mag)) by (unfold sg, mag; by destruct neg).
  rewrite Hsm.
  assert (Hmag : u32 mag = if neg then - num else u32 num).
  { unfold mag. destruct neg eqn:E; [| done].
    apply andb_true_iff in E as [_ E%Z.ltb_lt]. rewrite u32_s32. apply u32_small.
    unfold in_u32. lia. }
  assert (Hsg : (if negb (sg =? 0) then 1 else 0) =
                (if neg || has type PLUS || has type SPACE then 1 else 0))
    by (unfold sg; destruct neg, (has type PLUS), (has type SPACE); done).
  set (tmp := if mag =? 0 then [48] else num_digits 32 digits (u32 mag) base).
  assert (Hv : value_lsb base (digit_of <$> tmp) = if neg then - num else u32 num).
  { rewrite <- Hmag. unfold tmp. destruct (Z.eqb_spec mag 0) as [-> | Hnz]; [change (0 + base * 0 = 0); lia |].
    apply num_digits_value; [done | done |]. change (2 ^ Z.of_nat 32) with 4294967296.
    apply u32_range. }
  set (i := Z.of_nat (length tmp)).
  assert (Hp : (if precision <? i then i else precision) = Z.max precision i)
    by (destruct (Z.ltb_spec precision i); lia).
  rewrite Hp. clear Hp.
  set (sgn := if negb (sg =? 0) then [sg] else []).
  assert (Hsl : Z.of_nat (length sgn) = if neg || has type PLUS || has type SPACE then 1 else 0)
    by (rewrite <- Hsg; unfold sgn; by destruct (negb (sg =? 0))).
  set (prefix := if has type SPECIAL then _ else _ : list Z).
  assert (Hpl : Z.of_nat (length prefix) =
    if has type SPECIAL then if base =? 16 then 2 else if base =? 8 then 1 else 0 else 0).
  { unfold prefix. destruct (has type SPECIAL); [| done].
    destruct (Z.eqb_spec base 8) as [-> |]; [done |]. by destruct (base =? 16). }
  set (rem := (if has type SPECIAL then _ else _) - Z.max precision i).
  assert (Hrem : rem = size - (if neg || has type PLUS || has type SPACE then 1 else 0) -
    (if has type SPECIAL then if base =? 16 then 2 else if base =? 8 then 1 else 0 else 0) -
    Z.max precision i).
  { unfold rem. rewrite <- Hsg.
    destruct (negb (sg =? 0)), (has type SPECIAL); try lia;
      destruct (base =? 16), (base =? 8); lia. }
  clearbody rem prefix sgn.
  exists ((if negb (has ty ZEROPAD || has type LEFT) then pad rem 32 else []) ++ sgn ++ prefix ++
     (if has ty ZEROPAD && negb (has type LEFT) then pad rem 48 else []) ++
     pad (Z.max precision i - i) 48), tmp,
    (if has type LEFT then pad rem 32 else []).
  split.
  - destruct (has type LEFT) eqn:EL; [rewrite E7 by done | destruct (has ty ZEROPAD)];
      cbn [negb orb andb]; rewrite ?pad_after, ?app_nil_r, <- ?app_assoc; done.
  - split; [done |]. split; [| split].
    + rewrite !length_app, length_rev, !Nat2Z.inj_add, Hsl, Hpl, length_pad. fold i.
      destruct (has type LEFT) eqn:EL; [rewrite E7 by done | destruct (has ty ZEROPAD)];
        cbn [negb orb andb]; rewrite ?length_pad; cbn [length]; lia.
    + by intros ->.
    + destruct (has type LEFT); [| constructor]. unfold pad. by apply Forall_replicate.
Qed.

Lemma number_witness :
  exists pre tmp post,
    number (-42) 10 6 (-1) (Z.lor SIGN ZEROPAD) = Some (pre ++ rev tmp ++ post) /\
    value_lsb 10 (digit_of <$> tmp) = 42 /\
    Z.of_nat (length (pre ++ rev tmp ++ post)) = Z.max 6 (1 + 0 + Z.max (-1) (Z.of_nat (length tmp))) /\
    (has (Z.lor SIGN ZEROPAD) LEFT = false -> post = []) /\
    Forall (fun c => c = 32) post.
Proof. apply (number_correct (-42) 10 6 (-1) (Z.lor SIGN ZEROPAD)); lia. Defined.

(** ** Reading the format *)

(** A parser that begins in front of the terminator stays there, with at most
    [n] characters to go, or wants an argument that is not there. *)
Definition inside {A} (n : nat) (f : A -> list Z) (r : vp A) : Prop :=
  match r with inl a => 0 ∈ f a /\ (length (f a) <= n)%nat | inr e => e = VArg end.

Lemma inside_bind {A B} n n' (f : A -> list Z) (g : B -> list Z) (m : vp A) (k : A -> vp B) :
  inside n f m -> (forall a, 0 ∈ f a -> (length (f a) <= n)%nat -> inside n' g (k a)) -> inside n' g (m ≫= k).
Proof. intros Hm Hk. destruct m as [a | e]; [by apply Hk; apply Hm | exact Hm]. Qed.

Lemma step_over c s : 0 ∈ c :: s -> c <> 0 -> 0 ∈ s.
Proof. intros H Hc. by apply elem_of_cons in H as [|]. Qed.

Lemma peek_inside {A} n (f : A -> list Z) s (k : Z -> vp A) :
  0 ∈ s -> (forall c t, s = c :: t -> inside n f (k c)) -> inside n f (peek s ≫= k).
Proof. intros Hs Hk. destruct s as [| c t]; [by apply elem_of_nil in Hs | by apply (Hk c t)]. Qed.

Lemma skip_atoi_inside s i : 0 ∈ s -> inside (length s) snd (skip_atoi s i).
Proof.
  revert i; induction s as [| c s IH]; intros i H; [by apply elem_of_nil in H |]. cbn [skip_atoi].
  destruct (is_digit c) eqn:E; [| by split].
  assert (Hs : 0 ∈ s) by (apply (step_over c); [done | intros ->; done]).
  specialize (IH (s32 (i * 10 + c - 48)) Hs). revert IH. unfold inside. destruct (skip_atoi _ _) as [[j t] | e]; [| done].
  cbn. intros []. split; [done | lia].
Qed.

Lemma parse_flags_inside s f : 0 ∈ s -> inside (length s) fst (parse_flags s f).
Proof.
  revert f; induction s as [| c s IH]; intros f H; [by apply elem_of_nil in H |]. cbn [parse_flags].
  assert (Hn : c <> 0 -> forall g, inside (length (c :: s)) fst (parse_flags s g)).
  { intros Hc g. specialize (IH g (step_over c s H Hc)). revert IH. unfold inside.
    destruct (parse_flags s g) as [[t h] |]; [| done]. cbn. intros []. split; [done | lia]. }
  do 5 (match goal with |- context [c =? ?k] => destruct (Z.eqb_spec c k) as [Ec | _]; [apply Hn; lia |] end). by split.
Qed.

Lemma parse_width_inside s args fl : 0 ∈ s -> inside (length s) (fun r => r.1.1.1) (parse_width s args fl).
Proof.
  intros H. apply peek_inside; [done |]. intros c t _. destruct (is_digit c).
  - apply (inside_bind (length s) _ snd); [by apply skip_atoi_inside |]. intros [w u] H1 H2. by split.
  - destruct (c =? 42); [| by split]. destruct args as [| [z | |] args]; try done. cbv zeta. by destruct (s32 z <? 0); split.
Qed.

Lemma parse_precision_inside s args : 0 ∈ s -> inside (length s) (fun r => r.1.1) (parse_precision s args).
Proof.
  intros H. apply peek_inside; [done |]. intros c t ->. destruct (Z.eqb_spec c 46) as [-> | _]; [| by split].
  assert (Ht : 0 ∈ t) by by apply (step_over 46). cbn [tail].
  apply peek_inside; [done |]. intros c u _. destruct (is_digit c).
  - apply (inside_bind (length t) _ snd); [by apply skip_atoi_inside |]. intros [w v] H1 H2. split; [done | cbn in *; lia].
  - destruct (c =? 42); [destruct args as [| [z | |] args]; try done |]; (split; [done | cbn; lia]).
Qed.

Lemma parse_qualifier_inside s : 0 ∈ s -> inside (length s) id (parse_qualifier s).
Proof.
  intros H. apply peek_inside; [done |]. intros c t ->.
  destruct ((c =? 104) || (c =? 108) || (c =? 76)) eqn:E; [| by split]. split; [| cbn; lia].
  apply (step_over c); [done |]. intros ->. done.
Qed.

(** What is left of the format begins with the conversion character. *)
Lemma parse_spec_inside s args : 0 ∈ s ->
  match parse_spec s args with
  | inl (fmt, _, _, _, _, c) => exists t, fmt = c :: t /\ 0 ∈ c :: t /\ (length (c :: t) <= length s)%nat
  | inr e => e = VArg
  end.
Proof.
  intros H. unfold parse_spec. pose proof (parse_flags_inside s 0 H) as H1.
  destruct (parse_flags s 0) as [[s1 fl] |]; [destruct H1 as [H1 L1] | exact H1]. cbn in H1, L1 |- *.
  pose proof (parse_width_inside s1 args fl H1) as H2.
  destruct (parse_width s1 args fl) as [[[[s2 a2] w] fl2] |]; [destruct H2 as [H2 L2] | exact H2]. cbn in H2, L2 |- *.
  pose proof (parse_precision_inside s2 a2 H2) as H3.
  destruct (parse_precision s2 a2) as [[[s3 a3] p] |]; [destruct H3 as [H3 L3] | exact H3]. cbn in H3, L3 |- *.
  pose proof (parse_qualifier_inside s3 H3) as H4.
  destruct (parse_qualifier s3) as [s4 |]; [destruct H4 as [H4 L4] | exact H4]. cbn in H4, L4 |- *.
  destruct s4 as [| c t]; [by apply elem_of_nil in H4 |]. cbn in L4 |- *. exists t. split; [done |]. split; [done | lia].
Qed.

(** Ended, or stuck for want of an argument. *)
Definition ended (r : vres) : Prop := match r with VDone _ _ | VArg => True | _ => False end.

Lemma emit_ended l r : ended r -> ended (emit (Some l) r).
Proof. by destruct r. Qed.

Lemma number_some num base size precision type : 2 <= base <= 36 -> exists l, number num base size precision type = Some l.
Proof.
  intros Hb. unfold number. rewrite (proj2 (Z.ltb_ge base 2)), (proj2 (Z.ltb_ge 36 base)) by lia. cbn [orb].
  repeat match goal with |- context [let '(_, _) := ?x in _] => destruct x end. by eexists.
Qed.

Lemma vsprintf_loop_ended fuel fmt args len : 0 ∈ fmt -> (length fmt <= fuel)%nat -> ended (vsprintf_loop fuel fmt args len).
Proof.
  revert fmt args len; induction fuel as [| fuel IH]; intros fmt args len H Hf;
    (destruct fmt as [| c rest]; [by apply elem_of_nil in H |]); [cbn in Hf; lia |].
  cbn [vsprintf_loop]. destruct (Z.eqb_spec c 0) as [| Hc]; [done |]. apply (step_over c) in H; [| done]. cbn in Hf.
  destruct (negb (c =? 37)); [apply emit_ended, IH; [done | lia] |].
  pose proof (parse_spec_inside rest args H) as Hp.
  destruct (parse_spec rest args) as [[[[[[fmt a] fl] w] p] d] | e]; [| by rewrite Hp].
  destruct Hp as (t & -> & Hin & Hl). cbn [tail]. cbn in Hl. clear Hc c.
  assert (HR : d <> 0 -> forall l a n, ended (emit (Some l) (vsprintf_loop fuel t a n))).
  { intros Hd l a' n. apply emit_ended, IH; [by apply (step_over d) | lia]. }
  assert (HN : d <> 0 -> forall base w fl, 2 <= base <= 36 -> ended (match a with
      | LInt z :: args' => emit (number (s32 z) base w p fl) (vsprintf_loop fuel t args'
          (len + match number (s32 z) base w p fl with Some l => Z.of_nat (length l) | None => 0 end))
      | _ => VArg end)).
  { intros Hd base w' fl' Hb. destruct a as [| [z | |] a']; try exact I.
    destruct (number_some (s32 z) base w' p fl' Hb) as [l ->]. by apply HR. }
  destruct (Z.eqb_spec d 99) as [-> |]; [destruct a as [| [] ?]; try exact I; by apply HR |].
  destruct (Z.eqb_spec d 115) as [-> |]; [destruct a as [| [] ?]; try exact I; by apply HR |].
  destruct (Z.eqb_spec d 111) as [-> |]; [by apply HN |].
  destruct (Z.eqb_spec d 112) as [-> |]; [by destruct (w =? -1); apply HN |].
  destruct (Z.eqb_spec d 120) as [-> |]; [by apply HN |].
  destruct (Z.eqb_spec d 88) as [-> |]; [by apply HN |].
  destruct ((d =? 100) || (d =? 105)) eqn:Ed; [apply HN; [intros ->; done | done] |].
  destruct (Z.eqb_spec d 117) as [-> |]; [by apply HN |].
  destruct (Z.eqb_spec d 110) as [-> |].
  { destruct a as [| [] a']; try exact I.
    assert (Hr : ended (vsprintf_loop fuel t a' len)) by (apply IH; [by apply (step_over 110) | lia]).
    by destruct (vsprintf_loop fuel t a' len). }
  unfold after_default. destruct (Z.eqb_spec d 0) as [-> | Hd]; cbn [negb].
  - apply emit_ended, IH; [done | cbn; lia].
  - by apply HR.
Qed.

(** Text without conversions. *)
Lemma vsprintf_loop_plain fuel pre fmt args len :
  Forall (fun c => c <> 37 /\ c <> 0) pre ->
  vsprintf_loop (length pre + fuel) (pre ++ fmt) args len =
    emit (Some pre) (vsprintf_loop fuel fmt args (len + Z.of_nat (length pre))).
Proof.
  revert len; induction pre as [| c pre IH]; intros len Hp.
  - cbn [length app Nat.add]. rewrite Z.add_0_r. by destruct (vsprintf_loop _ _ _ _).
  - apply Forall_cons in Hp as [[H1 H2] Hp]. cbn [length app Nat.add vsprintf_loop].
    rewrite (proj2 (Z.eqb_neq c 0)), (proj2 (Z.eqb_neq c 37)) by done. cbn [negb]. rewrite IH by done.
    replace (len + 1 + Z.of_nat (length pre)) with (len + Z.of_nat (S (length pre))) by lia.
    by destruct (vsprintf_loop _ _ _ _).
Qed.

(** ** Conversions of integers *)

Definition flag_bit (c : Z) : option Z :=
  if c =? 45 then Some LEFT else if c =? 43 then Some PLUS else if c =? 32 then Some SPACE
  else if c =? 35 then Some SPECIAL else if c =? 48 then Some ZEROPAD else None.
(** The base of d, i, u, o, x and X, and the flag it brings. *)
Definition conversion (c : Z) : option (Z * Z) :=
  if (c =? 100) || (c =? 105) then Some (10, SIGN) else if c =? 117 then Some (10, 0)
  else if c =? 111 then Some (8, 0) else if c =? 120 then Some (16, SMALL) else if c =? 88 then Some (16, 0) else None.
Definition decimal (ds : list Z) : Z := fold_left (fun i c => i * 10 + c - 48) ds 0.

Record directive : Type := {
  d_flags : list Z;
  d_width : list Z;              (** digits, or none *)
  d_precision : option (list Z); (** behind a '.', or none *)
  d_qualifier : list Z;
  d_conv : Z
}.
Definition numeral (ds : list Z) : Prop := Forall (fun c => is_digit c = true) ds /\ decimal ds < 2147483648.
Record directive_ok (d : directive) : Prop := {
  dk_flags : Forall (fun c => is_Some (flag_bit c)) (d_flags d);
  dk_width : numeral (d_width d) /\ head (d_width d) <> Some 48;
  dk_precision : forall p, d_precision d = Some p -> numeral p;
  dk_qualifier : d_qualifier d ∈ [[]; bytes "h"; bytes "l"; bytes "L"];
  dk_conv : is_Some (conversion (d_conv d))
}.
Definition spelled (d : directive) : list Z :=
  37 :: d_flags d ++ d_width d ++ match d_precision d with Some p => 46 :: p | None => [] end ++ d_qualifier d ++ [d_conv d].

(** What they mean: the arguments of [number]. *)
Definition meant_flags (d : directive) : Z :=
  fold_left (fun f c => Z.lor f (default 0 (flag_bit c))) (d_flags d) 0.
Definition meant_width (d : directive) : Z := match d_width d with [] => -1 | ds => decimal ds end.
Definition meant_precision (d : directive) : Z := match d_precision d with Some p => decimal p | None => -1 end.
Definition meant_base (d : directive) : Z := (default (0, 0) (conversion (d_conv d))).1.
Definition meant_type (d : directive) : Z :=
  let e := (default (0, 0) (conversion (d_conv d))).2 in if e =? 0 then meant_flags d else Z.lor (meant_flags d) e.

Lemma parse_flags_run fl s f :
  Forall (fun c => is_Some (flag_bit c)) fl -> (exists c t, s = c :: t /\ flag_bit c = None) ->
  parse_flags (fl ++ s) f = inl (s, fold_left (fun f c => Z.lor f (default 0 (flag_bit c))) fl f).
Proof.
  intros Hfl (c & t & -> & Hc). revert f; induction Hfl as [| x fl [b Hx] Hfl IH]; intros f; cbn [app fold_left parse_flags].
  - unfold flag_bit in Hc. by repeat (destruct (_ =? _); [done |]).
  - rewrite Hx. unfold flag_bit in Hx. repeat (destruct (_ =? _); [injection Hx as <-; apply IH |]). done.
Qed.

Lemma decimal_grows ds i : Forall (fun c => is_digit c = true) ds -> 0 <= i -> i <= fold_left (fun i c => i * 10 + c - 48) ds i.
Proof.
  intros H. revert i; induction H as [| c ds Hc _ IH]; intros i Hi; cbn [fold_left]; [lia |].
  unfold is_digit in Hc. apply andb_prop in Hc as [Hc1%Z.leb_le Hc2%Z.leb_le]. specialize (IH (i * 10 + c - 48)). lia.
Qed.
Lemma skip_atoi_run ds s i :
  Forall (fun c => is_digit c = true) ds -> (exists c t, s = c :: t /\ is_digit c = false) -> 0 <= i ->
  fold_left (fun i c => i * 10 + c - 48) ds i < 2147483648 ->
  skip_atoi (ds ++ s) i = inl (fold_left (fun i c => i * 10 + c - 48) ds i, s).
Proof.
  intros H (c & t & -> & Hc). revert i; induction H as [| x ds Hx Hds IH]; intros i Hi Hlt; cbn [app fold_left skip_atoi] in *.
  - by rewrite Hc.
  - rewrite Hx. unfold is_digit in Hx. apply andb_prop in Hx as [H1%Z.leb_le H2%Z.leb_le].
    pose proof (decimal_grows ds (i * 10 + x - 48) Hds ltac:(lia)). rewrite s32_small by lia. apply IH; [lia | done].
Qed.

Lemma conversion_in c : is_Some (conversion c) -> In c [100; 105; 117; 111; 120; 88].
Proof.
  intros H. unfold conversion in H. cbn [In].
  destruct (Z.eqb_spec c 100), (Z.eqb_spec c 105), (Z.eqb_spec c 117), (Z.eqb_spec c 111), (Z.eqb_spec c 120), (Z.eqb_spec c 88);
    lia || by destruct H.
Qed.
Lemma conversion_plain c : is_Some (conversion c) ->
  is_digit c = false /\ flag_bit c = None /\ c <> 42 /\ c <> 46 /\ (c =? 104) || (c =? 108) || (c =? 76) = false.
Proof. intros Hin%conversion_in. cbn [In] in Hin. by repeat destruct Hin as [<- | Hin]. Qed.

(** What follows the flags, the width and the precision of a directive. *)
Lemma after_qualifier q c : is_Some (conversion c) -> q ∈ [[]; bytes "h"; bytes "l"; bytes "L"] ->
  forall s, exists x t, q ++ c :: s = x :: t /\ is_digit x = false /\ flag_bit x = None /\ x <> 42 /\ x <> 46 /\
    parse_qualifier (q ++ c :: s) = inl (c :: s).
Proof.
  intros Hc Hq s. destruct (conversion_plain c Hc) as (H1 & H2 & H3 & H4 & H5).
  repeat (apply elem_of_cons in Hq as [-> | Hq]); [| by do 2 eexists .. | by apply elem_of_nil in Hq].
  exists c, s. split; [done |]. split_and!; [done .. |]. unfold parse_qualifier. cbn. by rewrite H5.
Qed.

Lemma parse_precision_run p q c s args :
  is_Some (conversion c) -> q ∈ [[]; bytes "h"; bytes "l"; bytes "L"] -> (forall ds, p = Some ds -> numeral ds) ->
  parse_precision (match p with Some ds => 46 :: ds | None => [] end ++ q ++ c :: s) args =
    inl (q ++ c :: s, args, match p with Some ds => decimal ds | None => -1 end).
Proof.
  intros Hc Hq Hp. destruct (after_qualifier q c Hc Hq s) as (x & t & E & H1 & H2 & H3 & H4 & _). unfold parse_precision.
  destruct p as [ds |]; cbn [app]; [| rewrite E; cbn; by rewrite (proj2 (Z.eqb_neq x 46))].
  destruct (Hp ds eq_refl) as [Hds Hlt]. cbn [peek mbind vp_bind Z.eqb Pos.eqb tail].
  destruct Hds as [| d ds Hd Hds].
  - cbn [app decimal fold_left]. rewrite E. cbn [peek mbind vp_bind]. rewrite H1, (proj2 (Z.eqb_neq x 42)) by done. done.
  - assert (Ep : peek ((d :: ds) ++ q ++ c :: s) = inl d) by done. rewrite Ep. cbn [mbind vp_bind]. rewrite Hd.
    rewrite skip_atoi_run; [| by constructor | by exists x, t | done | done].
    cbn [mbind vp_bind]. fold (decimal (d :: ds)).
    pose proof (decimal_grows (d :: ds) 0 ltac:(by constructor) ltac:(done)) as Hge. fold (decimal (d :: ds)) in Hge.
    by rewrite (proj2 (Z.ltb_ge _ _)).
Qed.

Lemma parse_spec_run d s args : directive_ok d ->
  parse_spec (tail (spelled d) ++ s) args =
    inl (d_conv d :: s, args, meant_flags d, meant_width d, meant_precision d, d_conv d).
Proof.
  intros [Hfl [[Hw Hlt] Hh] Hp Hq Hc]. unfold spelled. cbn [tail]. rewrite <- !app_assoc. cbn [app].
  set (r := match d_precision d with Some p => 46 :: p | None => [] end ++ d_qualifier d ++ d_conv d :: s).
  destruct (after_qualifier _ _ Hc Hq s) as (x & t & E & H1 & H2 & H3 & H4 & H5).
  assert (Hr : exists y u, r = y :: u /\ is_digit y = false /\ flag_bit y = None /\ y <> 42).
  { unfold r. destruct (d_precision d) as [ps |]; cbn [app]; [by do 2 eexists | by rewrite E; do 2 eexists]. }
  destruct Hr as (y & u & Er & R1 & R2 & R3).
  assert (Hpr : parse_precision r args = inl (d_qualifier d ++ d_conv d :: s, args, meant_precision d)) by by apply parse_precision_run.
  unfold parse_spec. rewrite parse_flags_run; [| done |].
  2: { destruct Hw as [| w ws Hw Hws]; [by exists y, u |]. exists w, (ws ++ r). split; [done |].
       unfold flag_bit. unfold is_digit in Hw. apply andb_prop in Hw as [G1%Z.leb_le G2%Z.leb_le].
       assert (w <> 48) by (intros ->; by apply Hh).
       repeat match goal with |- context [w =? ?k] => rewrite (proj2 (Z.eqb_neq w k)) by lia end. done. }
  cbn [mbind vp_bind]. fold (meant_flags d).
  assert (Hwd : parse_width (d_width d ++ r) args (meant_flags d) = inl (r, args, meant_width d, meant_flags d)).
  { unfold parse_width, meant_width. destruct Hw as [| w ws Hw Hws].
    - cbn [app]. rewrite Er. cbn [peek mbind vp_bind]. by rewrite R1, (proj2 (Z.eqb_neq y 42)).
    - assert (Ep : peek ((w :: ws) ++ r) = inl w) by done. rewrite Ep. cbn [mbind vp_bind]. rewrite Hw.
      by rewrite skip_atoi_run; [| constructor | exists y, u | |]. }
  rewrite Hwd. cbn [mbind vp_bind]. rewrite Hpr. cbn [mbind vp_bind]. by rewrite H5.
Qed.

Lemma meant_base_range d : directive_ok d -> 2 <= meant_base d <= 36.
Proof.
  intros Hd. pose proof (dk_conv d Hd) as Hc. unfold meant_base. apply conversion_in in Hc. cbn [In] in Hc.
  by repeat destruct Hc as [<- | Hc].
Qed.

(** A directive in the middle of a format. *)
Lemma vsprintf_loop_directive fuel d s z args len : directive_ok d ->
  exists l, number (s32 z) (meant_base d) (meant_width d) (meant_precision d) (meant_type d) = Some l /\
    vsprintf_loop (S fuel) (spelled d ++ s) (LInt z :: args) len = emit (Some l) (vsprintf_loop fuel s args (len + Z.of_nat (length l))).
Proof.
  intros Hd. pose proof (dk_conv d Hd) as Hc. pose proof (meant_base_range d Hd) as Hb.
  destruct (number_some (s32 z) (meant_base d) (meant_width d) (meant_precision d) (meant_type d) Hb) as [l Hl].
  exists l. split; [done |]. change (spelled d ++ s) with (37 :: (tail (spelled d) ++ s)). cbn [vsprintf_loop Z.eqb Pos.eqb negb].
  rewrite parse_spec_run by done. unfold meant_base, meant_type in Hl. apply conversion_in in Hc. cbn [In] in Hc.
  assert (Hr : forall c, d_conv d = c -> conversion c = conversion (d_conv d)) by (intros c ->; done).
  repeat destruct Hc as [E | Hc]; [symmetry in E; specialize (Hr _ E); rewrite <- Hr in Hl; rewrite E .. | done];
    cbn [conversion Z.eqb Pos.eqb orb default fst snd tail] in Hl |- *.
  all: match goal with |- emit ?n _ = _ => assert (En : n = Some l) by exact Hl; by rewrite En end.
Qed.


(** [%-08.3lx]. *)
Definition demo_directive : directive :=
  {| d_flags := bytes "-0"; d_width := bytes "8"; d_precision := Some (bytes "3"); d_qualifier := bytes "l"; d_conv := 120 |}.

