(* ===== verification/Build.v ===== *)
(** * Build: src/linux-0.01/tools/build.c

    The program that puts the boot image together: a sector with the boot
    program, then the system. It runs on the host: [open] and [read] are those
    of files that can be read as far as they go, [write] that of a device with
    room for some bytes, and a message goes to the standard error. *)

From S2P Require Import Prelude Mem Printf.

Definition MINIX_HEADER : Z := 32.
Definition GCC_HEADER : Z := 1024.

(** [char buf[1024]], the standard output and what it still takes, and the
    standard error. *)
Record bstate : Type := {
  buf : list Z;
  out : list Z;
  room : Z;
  err : list (string * list Z)
}.

(** A file that is open: what there is still to read. *)
Abbreviation file := (list Z).

(** The program ends with [die], or goes on. *)
Definition B (A : Type) : Type := bstate -> bstate * option A.
Instance B_ret : MRet B := fun A a s => (s, Some a).
Instance B_bind : MBind B := fun A C f m s => match m s with (s', Some a) => f a s' | (s', None) => (s', None) end.

Definition fprintf (msg : string) (args : list Z) : B unit := fun s =>
  ({| buf := buf s; out := out s; room := room s; err := err s ++ [(msg, args)] |}, Some tt).
Definition exit_ {A} : B A := fun s => (s, None).
Definition die {A} (str : string) : B A := _ ← fprintf str []; exit_.
Definition usage {A} : B A := die "Usage: build boot system [> image]".
Definition unless (c : bool) (str : string) : B unit := if c then mret tt else die str.

Definition set_buf (b : list Z) : B unit := fun s =>
  ({| buf := b; out := out s; room := room s; err := err s |}, Some tt).

(** [read(id,buf,n)]: the bytes go to the start of [buf]. *)
Definition read (f : file) (n : Z) : B (Z * file) := fun s =>
  let l := take (Z.to_nat n) f in
  ({| buf := l ++ drop (length l) (buf s); out := out s; room := room s; err := err s |},
   Some (Z.of_nat (length l), drop (Z.to_nat n) f)).

(** [write(1,buf,n)]. *)
Definition write (n : Z) : B Z := fun s =>
  let c := Z.min n (room s) in
  ({| buf := buf s; out := out s ++ take (Z.to_nat c) (buf s); room := room s - c; err := err s |}, Some c).

(** [((long * ) buf)[i]]. *)
Definition word (i : nat) : B Z := fun s =>
  let b k := default 0 (buf s !! (4 * i + k)%nat) in
  (s, Some (s32 (b 0%nat + 256 * b 1%nat + 65536 * b 2%nat + 16777216 * b 3%nat))).

Definition is_word (i : nat) (v : Z) (str : string) : B unit := w ← word i; unless (w =? v) str.

(** [for (i=0 ; (c=read(id,buf,sizeof buf))>0 ; i+=c )]: a round takes 1024 bytes
    at least, or all there are. *)
Fixpoint copy_system (fuel : nat) (id : file) (i : Z) : B Z :=
  match fuel with
  | O => mret i
  | S fuel' =>
      r ← read id 1024;
      if 0 <? r.1 then
        w ← write r.1;
        _ ← unless (w =? r.1) "Write call failed";
        copy_system fuel' r.2 (i + r.1)
      else mret i
  end.

Definition build_boot (boot : option file) : B unit :=
  _ ← set_buf (replicate 1024 0);
  match boot with
  | None => die "Unable to open 'boot'"
  | Some id =>
      r ← read id MINIX_HEADER;
      let id := r.2 in
      _ ← unless (r.1 =? MINIX_HEADER) "Unable to read header of 'boot'";
      _ ← is_word 0 0x04100301 "Non-Minix header of 'boot'";
      _ ← is_word 1 MINIX_HEADER "Non-Minix header of 'boot'";
      _ ← is_word 3 0 "Illegal data segment in 'boot'";
      _ ← is_word 4 0 "Illegal bss in 'boot'";
      _ ← is_word 5 0 "Non-Minix header of 'boot'";
      _ ← is_word 7 0 "Illegal symbol table in 'boot'";
      r ← read id 1024;
      _ ← fprintf "Boot sector %d bytes." [r.1];
      _ ← unless (r.1 <=? 510) "Boot block may not exceed 510 bytes";
      b ← (fun s => (s, Some (buf s)));
      _ ← set_buf (<[511%nat := 0xAA]> (<[510%nat := 0x55]> b));
      i ← write 512;
      unless (i =? 512) "Write call failed"
  end.

Definition build_system (system : option file) : B Z :=
  match system with
  | None => die "Unable to open 'system'"
  | Some id =>
      r ← read id GCC_HEADER;
      let id := r.2 in
      _ ← unless (r.1 =? GCC_HEADER) "Unable to read header of 'system'";
      _ ← is_word 5 0 "Non-GCC header of 'system'";
      i ← copy_system (S (length id)) id 0;
      _ ← fprintf "System %d bytes." [i];
      mret 0
  end.

(** [argv] by what the names stand for. *)
Definition main (argc : Z) (boot system : option file) : B Z :=
  if negb (argc =? 3) then usage
  else _ ← build_boot boot; build_system system.

(** ** Lemmas *)

Lemma B_bind_run {A C} (m : B A) (k : A -> B C) s a s' : m s = (s', Some a) -> (m ≫= k) s = k a s'.
Proof. intros H. unfold mbind, B_bind. by rewrite H. Qed.

(** The loop copies what there is, as far as there is room. *)
Lemma copy_system_run fuel : forall id i s, (length id < fuel)%nat -> 0 <= room s -> length (buf s) = 1024%nat ->
  let n := Z.of_nat (length id) in
  exists s', out s' = out s ++ take (Z.to_nat (room s)) id /\ length (buf s') = 1024%nat /\
    if n <=? room s then copy_system fuel id i s = (s', Some (i + n)) /\ room s' = room s - n /\ err s' = err s
    else copy_system fuel id i s = (s', None) /\ err s' = err s ++ [("Write call failed"%string, [])].
Proof.
  induction fuel as [| fuel IH]; intros id i s Hf Hr Hb n; [lia |]. cbn [copy_system].
  set (l := take 1024 id). set (s1 := {| buf := l ++ drop (length l) (buf s); out := out s; room := room s; err := err s |}).
  assert (Hl : length l = (1024 `min` length id)%nat) by apply length_take.
  assert (Hrd : read id 1024 s = (s1, Some (Z.of_nat (length l), drop 1024 id))) by reflexivity.
  rewrite (B_bind_run _ _ _ _ _ Hrd). cbn [fst snd].
  assert (Hb1 : length (buf s1) = 1024%nat) by (cbn [buf s1]; rewrite length_app, length_drop; lia).
  destruct (Z.ltb_spec 0 (Z.of_nat (length l))) as [Hpos | Hzero].
  2: { assert (id = []) as -> by (apply length_zero_iff_nil; lia). exists s1. cbn [out s1]. rewrite take_nil, app_nil_r.
       split; [done |]. split; [done |]. unfold n. cbn [length]. rewrite (proj2 (Z.leb_le (Z.of_nat 0) _)) by lia.
       split; [by rewrite Z.add_0_r | split; [cbn; lia | done]]. }
  set (c := Z.min (Z.of_nat (length l)) (room s)).
  set (s2 := {| buf := buf s1; out := out s ++ take (Z.to_nat c) (buf s1); room := room s - c; err := err s |}).
  assert (Hw : write (Z.of_nat (length l)) s1 = (s2, Some c)) by reflexivity. rewrite (B_bind_run _ _ _ _ _ Hw).
  assert (Htake : take (Z.to_nat c) (buf s1) = take (Z.to_nat c) id).
  { cbn [buf s1]. rewrite take_app_le by (unfold c; lia). unfold l. rewrite take_take. f_equal. unfold c. lia. }
  unfold unless. destruct (Z.eqb_spec c (Z.of_nat (length l))) as [Hc | Hc].
  - rewrite (B_bind_run (mret tt) _ s2 tt s2) by done.
    assert (Hdrop : length (drop 1024 id) = (length id - length l)%nat) by (rewrite length_drop; lia).
    destruct (IH (drop 1024 id) (i + Z.of_nat (length l)) s2) as (s' & H1 & H2 & H3); [lia | cbn; lia | done |].
    exists s'. split; [| split; [done |]].
    + rewrite H1. cbn [out s2 room]. rewrite Htake, <- app_assoc. f_equal. rewrite Hc, Nat2Z.id.
      destruct (decide (1024 <= length id)%nat).
      * replace (length l) with 1024%nat by lia. rewrite <- (firstn_skipn 1024 (take (Z.to_nat (room s)) id)).
        rewrite take_take, skipn_firstn_comm. f_equal; f_equal; lia.
      * rewrite (drop_ge id) by lia. rewrite take_nil, app_nil_r. rewrite !take_ge by lia. done.
    + rewrite Hdrop in H3. cbn [room s2 err] in H3. unfold n.
      destruct (Z.leb_spec (Z.of_nat (length id)) (room s)), (Z.leb_spec (Z.of_nat (length id - length l)) (room s - c)); try lia; [| done].
      destruct H3 as (-> & -> & ->). split; [f_equal; f_equal; lia | split; [lia | done]].
  - set (s3 := {| buf := buf s2; out := out s2; room := room s2; err := err s2 ++ [("Write call failed"%string, [])] |}).
    assert (Hlt : c = room s) by (unfold c in *; lia).
    exists s3. split; [cbn [out s3 s2]; by rewrite Htake, Hlt |]. split; [done |].
    unfold n. rewrite (proj2 (Z.leb_gt _ _)) by (unfold c in *; lia). done.
Qed.

(** ** What the image is *)

Ltac lengths := repeat first [rewrite length_app | rewrite length_take | rewrite length_drop | rewrite length_replicate].

(** A little-endian [long] of a file. *)
Definition long_at (l : list Z) (i : nat) : Z :=
  let b k := default 0 (l !! (4 * i + k)%nat) in
  s32 (b 0%nat + 256 * b 1%nat + 65536 * b 2%nat + 16777216 * b 3%nat).

(** A boot program: a MINIX header for 32 bytes of it, text only, and no more
    than 510 bytes of text. *)
Definition boot_ok (boot : file) : Prop :=
  (32 <= length boot <= 542)%nat /\ long_at boot 0 = 0x04100301 /\ long_at boot 1 = 32 /\
  long_at boot 3 = 0 /\ long_at boot 4 = 0 /\ long_at boot 5 = 0 /\ long_at boot 7 = 0.
Definition system_ok (system : file) : Prop := (1024 <= length system)%nat /\ long_at system 5 = 0.

(** The boot sector. The text lies over the header it was read with: of a text
    that is shorter than the header, the rest of the header follows. *)
Definition sector (boot : file) : list Z :=
  let text := drop 32 boot in
  take 510 (text ++ drop (length text) (take 32 boot ++ replicate 992 0)) ++ [0x55; 0xAA].

Definition with_err (s : bstate) (e : string * list Z) : bstate :=
  {| buf := buf s; out := out s; room := room s; err := err s ++ [e] |}.

(** Given up, the last line on the standard error being a message that says why:
    one without a number, which the two that report progress have. *)
Definition died {A} (s : bstate) (r : bstate * option A) : Prop :=
  r.2 = None /\ exists e str, err r.1 = err s ++ e ++ [(str, [])].

Lemma unless_bind {A} c str (k : unit -> B A) s :
  (unless c str ≫= k) s = if c then k tt s else (with_err s (str, []), None).
Proof. by destruct c. Qed.
Lemma is_word_bind {A} i v str (k : unit -> B A) s :
  (is_word i v str ≫= k) s = if long_at (buf s) i =? v then k tt s else (with_err s (str, []), None).
Proof. unfold is_word. by destruct (long_at (buf s) i =? v) eqn:E; unfold mbind, B_bind, word; unfold long_at in E; rewrite E. Qed.

Lemma died_at {A} s s' str : err s' = err s -> died s (with_err s' (str, []), None : option A).
Proof. intros E. split; [done |]. exists [], str. cbn. by rewrite E. Qed.

Lemma long_at_app l l' i : (4 * i + 4 <= length l)%nat -> long_at (l ++ l') i = long_at l i.
Proof. intros H. unfold long_at. by rewrite !lookup_app_l by lia. Qed.
Lemma long_at_take l n i : (4 * i + 4 <= n)%nat -> long_at (take n l) i = long_at l i.
Proof. intros H. unfold long_at. by rewrite !lookup_take_lt by lia. Qed.

Lemma died_in {A} s s' e str : err s' = err s ++ e -> died s (with_err s' (str, []), None : option A).
Proof. intros E. split; [done |]. exists e, str. cbn. by rewrite E, app_assoc. Qed.
Lemma unless_end c str s : unless c str s = if c then (s, Some tt) else (with_err s (str, []), None).
Proof. by destruct c. Qed.

Lemma mark_sector (l : list Z) : (512 <= length l)%nat ->
  take 512 (<[511%nat := 0xAA]> (<[510%nat := 0x55]> l)) = take 510 l ++ [0x55; 0xAA].
Proof.
  intros Hl. rewrite <- (take_drop 510 l) at 1. destruct (drop 510 l) as [| x [| y r]] eqn:E;
    [apply (f_equal length) in E; rewrite length_drop in E; cbn in E; lia .. |].
  assert (Ht : length (take 510 l) = 510%nat) by (rewrite length_take; lia).
  rewrite insert_app_r_alt by lia. rewrite Ht. cbn [Nat.sub insert list_insert].
  rewrite insert_app_r_alt by lia. rewrite Ht. cbn [Nat.sub insert list_insert].
  rewrite take_app_ge by lia. by rewrite Ht.
Qed.

Lemma build_boot_run boot s : 0 <= room s ->
  (boot_ok boot /\ 512 <= room s /\ exists s', build_boot (Some boot) s = (s', Some tt) /\
     out s' = out s ++ sector boot /\ room s' = room s - 512 /\ length (buf s') = 1024%nat /\ exists e, err s' = err s ++ e) \/
  (~ (boot_ok boot /\ 512 <= room s) /\ died s (build_boot (Some boot) s)).
Proof.
  intros Hr. unfold build_boot. set (s0 := {| buf := replicate 1024 0; out := out s; room := room s; err := err s |}).
  rewrite (B_bind_run (set_buf _) _ s tt s0) by done. set (h := take 32 boot).
  set (s1 := {| buf := h ++ drop (length h) (buf s0); out := out s; room := room s; err := err s |}).
  assert (Hrd : read boot MINIX_HEADER s0 = (s1, Some (Z.of_nat (length h), drop 32 boot))) by reflexivity.
  rewrite (B_bind_run _ _ _ _ _ Hrd). cbn [fst snd]. rewrite unless_bind. assert (Hl : length h = (32 `min` length boot)%nat) by apply length_take.
  destruct (Z.eqb_spec (Z.of_nat (length h)) MINIX_HEADER) as [E | E]; unfold MINIX_HEADER in E.
  2: { right. split; [intros [[? _] _]; lia | by apply died_at]. }
  assert (Hlong : forall i, (i < 8)%nat -> long_at (buf s1) i = long_at boot i).
  { intros i Hi. cbn [buf s1]. rewrite long_at_app by lia. apply long_at_take. lia. }
  do 6 (rewrite is_word_bind, Hlong by lia;
    match goal with |- context [long_at boot ?i =? ?v] => destruct (Z.eqb_spec (long_at boot i) v) as [?|?] end;
    [| right; split; [intros [(? & ? & ? & ? & ? & ? & ?) _]; done | by apply died_at]]).
  set (text := drop 32 boot). set (l := take 1024 text).
  set (s2 := {| buf := l ++ drop (length l) (buf s1); out := out s; room := room s; err := err s |}).
  assert (Hrd2 : read text 1024 s1 = (s2, Some (Z.of_nat (length l), drop 1024 text))) by reflexivity.
  rewrite (B_bind_run _ _ _ _ _ Hrd2). cbn [fst snd].
  rewrite (B_bind_run (fprintf _ _) _ s2 tt (with_err s2 ("Boot sector %d bytes."%string, [Z.of_nat (length l)]))) by done.
  rewrite unless_bind. assert (Hll : length l = (1024 `min` (length boot - 32))%nat) by (unfold l, text; by rewrite length_take, length_drop).
  destruct (Z.leb_spec (Z.of_nat (length l)) 510) as [Hle | Hle].
  2: { right. split; [intros [[? _] _]; lia | by eapply died_in]. }
  set (s3 := with_err _ _). rewrite (B_bind_run (fun s => (s, Some (buf s))) _ s3 (buf s3) s3) by done.
  set (b := <[511%nat := 0xAA]> (<[510%nat := 0x55]> (buf s3))).
  set (s4 := {| buf := b; out := out s; room := room s; err := err s3 |}). rewrite (B_bind_run (set_buf _) _ s3 tt s4) by done.
  set (s5 := {| buf := b; out := out s ++ take (Z.to_nat (Z.min 512 (room s))) b; room := room s - Z.min 512 (room s); err := err s3 |}).
  rewrite (B_bind_run (write 512) _ s4 (Z.min 512 (room s)) s5) by done.
  rewrite unless_end. destruct (Z.eqb_spec (Z.min 512 (room s)) 512) as [Hm | Hm].
  2: { right. split; [lia | by eapply died_in]. }
  assert (Hbuf : buf s3 = text ++ drop (length text) (h ++ replicate 992 0)).
  { cbn [buf s3 with_err s2]. unfold l. rewrite take_ge by (unfold text; rewrite length_drop; lia). do 2 f_equal. cbn [buf s1].
    cbn [buf s0]. replace (length h) with 32%nat by lia. by rewrite drop_replicate. }
  assert (Hlen : length (buf s3) = 1024%nat).
  { rewrite Hbuf, length_app, length_drop, length_app, length_replicate. unfold text. rewrite length_drop. lia. }
  left. split; [by repeat split; try lia |]. split; [lia |]. exists s5. split; [done |]. split; [| split; [cbn; lia | split; [| by eexists]]].
  - cbn [out s5]. f_equal. rewrite Hm. unfold sector, b. change (Z.to_nat 512) with 512%nat. fold text h. rewrite <- Hbuf.
    apply mark_sector. lia.
  - cbn [buf s5]. unfold b. by rewrite !length_insert.
Qed.

Lemma build_system_run system s : 0 <= room s -> length (buf s) = 1024%nat ->
  (system_ok system /\ Z.of_nat (length system) - 1024 <= room s /\ exists s', build_system (Some system) s = (s', Some 0) /\
     out s' = out s ++ drop 1024 system) \/
  (~ (system_ok system /\ Z.of_nat (length system) - 1024 <= room s) /\ died s (build_system (Some system) s)).
Proof.
  intros Hr Hb. unfold build_system. set (h := take 1024 system).
  set (s1 := {| buf := h ++ drop (length h) (buf s); out := out s; room := room s; err := err s |}).
  assert (Hrd : read system GCC_HEADER s = (s1, Some (Z.of_nat (length h), drop 1024 system))) by reflexivity.
  rewrite (B_bind_run _ _ _ _ _ Hrd). cbn [fst snd]. rewrite unless_bind. assert (Hl : length h = (1024 `min` length system)%nat) by apply length_take.
  destruct (Z.eqb_spec (Z.of_nat (length h)) GCC_HEADER) as [E | E]; unfold GCC_HEADER in E.
  2: { right. split; [intros [[? _] _]; lia | by apply died_at]. }
  rewrite is_word_bind. assert (long_at (buf s1) 5 = long_at system 5) as ->
    by (cbn [buf s1]; rewrite long_at_app by lia; apply long_at_take; lia).
  destruct (Z.eqb_spec (long_at system 5) 0) as [E5 | E5]; [| right; split; [by intros [[_ ?] _] | by apply died_at]].
  set (id := drop 1024 system). assert (Hid : length id = (length system - 1024)%nat) by (unfold id; by rewrite length_drop).
  assert (Hb1 : length (buf s1) = 1024%nat) by (cbn [buf s1]; rewrite length_app, length_drop; lia).
  destruct (copy_system_run (S (length id)) id 0 s1 ltac:(lia) Hr Hb1) as (s' & H1 & _ & H3). cbn [room s1 out err] in H1, H3.
  destruct (Z.leb_spec (Z.of_nat (length id)) (room s)) as [Hle | Hgt].
  - destruct H3 as (H3 & _ & _). left. split; [split; [lia | done] |]. split; [lia |].
    exists (with_err s' ("System %d bytes."%string, [0 + Z.of_nat (length id)])). rewrite (B_bind_run _ _ _ _ _ H3). split; [done |].
    cbn [out with_err]. rewrite H1. by rewrite take_ge by lia.
  - destruct H3 as [H3 H4]. right. split; [lia |]. unfold mbind, B_bind. rewrite H3. split; [done |]. by exists [], "Write call failed"%string.
Qed.

(** C37: the image is what it means to be. The program ends well exactly when it
    is given a boot program of at most 510 bytes behind a MINIX header, a system
    with a header of its compiler, and an output with room for both; then it has
    written a boot sector of 512 bytes - the boot program, then what fills it
    up, and 0x55 0xAA - and behind it, byte for byte, the system without its
    header. Otherwise it gives up, and the last line on the standard error is
    the message that says why. *)
Theorem build_correct boot system s :
  0 <= room s ->
  let r := main 3 (Some boot) (Some system) s in
  let good := boot_ok boot /\ system_ok system /\ 512 + (Z.of_nat (length system) - 1024) <= room s in
  (good -> r.2 = Some 0 /\ out r.1 = out s ++ sector boot ++ drop 1024 system /\
     length (sector boot) = 512%nat /\ take (length boot - 32) (sector boot) = drop 32 boot) /\
  (~ good -> died s r).
Proof.
  intros Hr r good. unfold r, main. cbn [Z.eqb Pos.eqb negb].
  destruct (build_boot_run boot s Hr) as [(Hok & Hroom & s1 & Hrun & Hout & Hr1 & Hb1 & e & He) | [Hbad Hdied]].
  - rewrite (B_bind_run _ _ _ _ _ Hrun).
    destruct (build_system_run system s1 ltac:(lia) Hb1) as [(Hsys & Hroom2 & s2 & -> & Hout2) | [Hbad [Hd1 (e2 & str & Hd2)]]].
    + split; [intros _ | intros Hn; destruct Hn; unfold good; split; [done | split; [done | lia]]]. cbn [fst snd].
      split; [done |]. split; [by rewrite Hout2, Hout, app_assoc |]. destruct Hok as [Hlen _]. unfold sector. split.
      * lengths. change (length [0x55; 0xAA]) with 2%nat. lia.
      * rewrite take_app_le by (lengths; lia).
        rewrite take_take, Nat.min_l by lia. apply take_app_length'. by rewrite length_drop.
    + split; [intros (_ & ? & ?); destruct Hbad; split; [done | lia] | intros _]. split; [done |].
      exists (e ++ e2), str. by rewrite Hd2, He, <- !app_assoc.
  - split; [intros (? & [? _] & ?); destruct Hbad; split; [done | lia] | intros _]. destruct Hdied as [Hd1 (e & str & Hd2)].
    unfold mbind, B_bind. destruct (build_boot (Some boot) s) as [s1 o]. cbn [fst snd] in *. subst o. split; [done |]. by exists e, str.
Qed.

(** A boot program of two bytes, and a system of three. *)
Definition demo_boot : file :=
  [1; 3; 16; 4; 32; 0; 0; 0; 2; 0; 0; 0] ++ replicate 12 0 ++ [0; 0; 1; 0] ++ replicate 4 0 ++ [0xEB; 0xFE].
Definition demo_system : file := replicate 1024 0 ++ [7; 8; 9].
Definition demo_out : bstate := {| buf := []; out := []; room := 1474560; err := [] |}.

Lemma build_witness :
  let r := main 3 (Some demo_boot) (Some demo_system) demo_out in
  r.2 = Some 0 /\ out r.1 = sector demo_boot ++ [7; 8; 9].
Proof.
  destruct (build_correct demo_boot demo_system demo_out) as [H _]; [by vm_compute |]. destruct H as (H1 & H2 & _).
  - split; [split; [by vm_compute; lia | by vm_compute] |]. split; [split; [by vm_compute; lia | by vm_compute] | by vm_compute].
  - split; [exact H1 | exact H2].
Defined.
