(* ===== verification/Mm.v ===== *)
(** * Mm: src/linux-0.01/mm/memory.c

    Physical pages with reference counts in [mem_map], and the page tables in
    physical memory from address 0 ([pg_dir]).  Addresses are physical; the
    page directory sits at 0.  What [printk] is asked to print is logged. *)

From S2P Require Import Prelude Mem Libc Vsprintf.

Definition HIGH_MEMORY : Z := 0x800000.
Definition BUFFER_END : Z := 0x200000.
Definition LOW_MEM : Z := if BUFFER_END <? 0x100000 then 0x100000 else BUFFER_END.
Definition PAGING_MEMORY : Z := HIGH_MEMORY - LOW_MEM.
Definition PAGING_PAGES : Z := PAGING_MEMORY / 4096.
Definition MAP_NR (addr : Z) : Z := Z.shiftr (addr - LOW_MEM) 12.
Definition SIGSEGV : Z := 11.

Record mstate : Type := {
  pm : memory;
  mem_map : list Z;
  klog : list (string * list larg)
}.

Definition set_pm (m : memory) (s : mstate) : mstate :=
  {| pm := m; mem_map := mem_map s; klog := klog s |}.
Definition set_mem_map (l : list Z) (s : mstate) : mstate :=
  {| pm := pm s; mem_map := l; klog := klog s |}.

Definition printk (fmt : string) (args : list larg) : M mstate unit :=
  modify (fun s => {| pm := pm s; mem_map := mem_map s; klog := klog s ++ [(fmt, args)] |}).

Definition ldm (a : Z) : M mstate Z := gets (fun s => load32 (pm s) a).
Definition stm (a v : Z) : M mstate unit := modify (fun s => set_pm (store32 (pm s) a v) s).

(** [mem_map[i]]; an index outside the array is undefined behaviour. *)
Definition map_get (i : Z) : M mstate Z := fun s =>
  if i <? 0 then Halt (Fault "mem_map")
  else match mem_map s !! Z.to_nat i with
       | Some c => Done c s | None => Halt (Fault "mem_map") end.
Definition map_set (i v : Z) : M mstate unit := fun s =>
  if (0 <=? i) && (i <? Z.of_nat (length (mem_map s)))
  then Done tt (set_mem_map (<[Z.to_nat i := u16 v]> (mem_map s)) s)
  else Halt (Fault "mem_map").

(** ** Pages *)

(** [std; repne; scasw]: the last zero among the first [n] entries. *)
Fixpoint scan_free (l : list Z) (n : nat) : option nat :=
  match n with
  | O => None
  | S n' => if default 1 (l !! n') =? 0 then Some n' else scan_free l n'
  end.

Definition get_free_page : M mstate Z :=
  s ← gets id;
  match scan_free (mem_map s) (Z.to_nat PAGING_PAGES) with
  | None => mret 0
  | Some i =>
      _ ← map_set (Z.of_nat i) 1;
      let page := u32 (Z.shiftl (Z.of_nat i) 12 + LOW_MEM) in
      _ ← modify (fun s => set_pm (bzero (pm s) page 4096) s);
      mret page
  end.

Definition free_page (addr : Z) : M mstate unit :=
  if addr <? LOW_MEM then mret tt
  else
    _ ← when (HIGH_MEMORY <? addr) (panic "trying to free nonexistent page");
    let i := Z.shiftr (u32 (addr - LOW_MEM)) 12 in
    c ← map_get i;
    _ ← map_set i (c - 1);
    if negb (c =? 0) then mret tt
    else
      _ ← map_set i 0;
      panic "trying to free free page".

(** ** Page tables *)

(** One table of [free_page_tables]: the [for (nr=0 ; nr<1024 ; nr++)] loop. *)
Definition free_table (table : Z) : M mstate unit :=
  for_loop 1024 0 (fun nr =>
    let e := u32 (table + 4 * nr) in
    v ← ldm e;
    _ ← when (negb (Z.land 1 v =? 0)) (free_page (Z.land 0xfffff000 v));
    stm e 0).

(** [for ( ; size-->0 ; dir++)]. *)
Fixpoint free_dirs (size : nat) (dir : Z) : M mstate unit :=
  match size with
  | O => mret tt
  | S size' =>
      d ← ldm dir;
      _ ← (if Z.land 1 d =? 0 then mret tt
           else
             _ ← free_table (Z.land 0xfffff000 d);
             d ← ldm dir;
             _ ← free_page (Z.land 0xfffff000 d);
             stm dir 0);
      free_dirs size' (u32 (dir + 4))
  end.

Definition dir_entry_of (addr : Z) : Z := Z.land (Z.shiftr addr 20) 0xffc.

Definition free_page_tables (from size : Z) : M mstate Z :=
  _ ← when (negb (Z.land from 0x3fffff =? 0))
        (panic "free_page_tables called with wrong alignment");
  _ ← when (from =? 0) (panic "Trying to free up swapper memory space");
  let size := Z.shiftr (u32 (size + 0x3fffff)) 22 in
  _ ← free_dirs (Z.to_nat size) (dir_entry_of from);
  mret 0.

(** One entry of [copy_page_tables]. *)
Definition copy_entry (from_pte to_pte : Z) : M mstate unit :=
  this_page ← ldm from_pte;
  if Z.land 1 this_page =? 0 then mret tt
  else
    let this_page := Z.land this_page (Z.lnot 2) in
    _ ← stm to_pte this_page;
    if LOW_MEM <? this_page then
      _ ← stm from_pte this_page;
      let i := Z.shiftr (this_page - LOW_MEM) 12 in
      c ← map_get i;
      map_set i (c + 1)
    else mret tt.

(** The entries of one table, [nr] of them. *)
Definition copy_table (nr : nat) (from_table to_table : Z) : M mstate unit :=
  for_loop nr 0 (fun k => copy_entry (u32 (from_table + 4 * k)) (u32 (to_table + 4 * k))).

(** [for( ; size-->0 ; from_dir++,to_dir++)]; true when memory ran out. *)
Fixpoint copy_dirs (size : nat) (from from_dir to_dir : Z) : M mstate bool :=
  match size with
  | O => mret false
  | S size' =>
      t ← ldm to_dir;
      _ ← when (negb (Z.land 1 t =? 0)) (panic "copy_page_tables: already exist");
      f ← ldm from_dir;
      if Z.land 1 f =? 0 then copy_dirs size' from (u32 (from_dir + 4)) (u32 (to_dir + 4))
      else
        let from_table := Z.land 0xfffff000 f in
        to_table ← get_free_page;
        if to_table =? 0 then mret true
        else
          _ ← stm to_dir (Z.lor to_table 7);
          let nr := if from =? 0 then 0xA0%nat else 1024%nat in
          _ ← copy_table nr from_table to_table;
          copy_dirs size' from (u32 (from_dir + 4)) (u32 (to_dir + 4))
  end.

Definition copy_page_tables (from to size : Z) : M mstate Z :=
  _ ← when (negb (Z.land from 0x3fffff =? 0) || negb (Z.land to 0x3fffff =? 0))
        (panic "copy_page_tables called with wrong alignment");
  let size := Z.shiftr (u32 (size + 0x3fffff)) 22 in
  oom ← copy_dirs (Z.to_nat size) from (dir_entry_of from) (dir_entry_of to);
  mret (if oom : bool then -1 else 0).

Definition put_page (page address : Z) : M mstate Z :=
  _ ← when ((page <? LOW_MEM) || (HIGH_MEMORY <? page))
        (printk "Trying to put page %p at %p" [LInt page; LInt address]);
  c ← map_get (Z.shiftr (u32 (page - LOW_MEM)) 12);
  _ ← when (negb (c =? 1)) (printk "mem_map disagrees with %p at %p" [LInt page; LInt address]);
  let dir := dir_entry_of address in
  d ← ldm dir;
  let slot t := u32 (t + 4 * Z.land (Z.shiftr address 12) 0x3ff) in
  if negb (Z.land d 1 =? 0) then
    _ ← stm (slot (Z.land 0xfffff000 d)) (Z.lor page 7); mret page
  else
    tmp ← get_free_page;
    if tmp =? 0 then mret 0
    else
      _ ← stm dir (Z.lor tmp 7);
      _ ← stm (slot tmp) (Z.lor page 7);
      mret page.

(** [do_exit] belongs to kernel/exit.c; it does not come back. *)
Class Exit : Type := do_exit : Z -> M mstate unit.

Section faults.
Context `{Exit}.

Definition un_wp_page (table_entry : Z) : M mstate unit :=
  e ← ldm table_entry;
  let old_page := Z.land 0xfffff000 e in
  shared ← (if LOW_MEM <=? old_page
            then c ← map_get (MAP_NR old_page); mret (negb (c =? 1)) else mret true);
  if negb shared then stm table_entry (Z.lor e 2)
  else
    new_page ← get_free_page;
    _ ← when (new_page =? 0) (do_exit SIGSEGV);
    _ ← when (LOW_MEM <=? old_page)
          (c ← map_get (MAP_NR old_page); map_set (MAP_NR old_page) (c - 1));
    _ ← stm table_entry (Z.lor new_page 7);
    modify (fun s => set_pm (memcpy (pm s) new_page old_page 4096) s).

Definition do_wp_page (error_code address : Z) : M mstate unit :=
  d ← ldm (dir_entry_of address);
  un_wp_page (u32 (Z.land (Z.shiftr address 10) 0xffc + Z.land 0xfffff000 d)).

Definition write_verify (address : Z) : M mstate unit :=
  page ← ldm (dir_entry_of address);
  if Z.land page 1 =? 0 then mret tt
  else
    let page := u32 (Z.land page 0xfffff000 + Z.land (Z.shiftr address 10) 0xffc) in
    e ← ldm page;
    when (Z.land 3 e =? 1) (un_wp_page page).

Definition do_no_page (error_code address : Z) : M mstate unit :=
  tmp ← get_free_page;
  if negb (tmp =? 0) then
    p ← put_page tmp address;
    if negb (p =? 0) then mret tt else do_exit SIGSEGV
  else do_exit SIGSEGV.

(** [if (!mem_map[i]) free++;] over the table. *)
Definition count_free (l : list Z) : Z :=
  Z.of_nat (length (filter (fun c => c = 0) l)).

Fixpoint count_present (n : nat) (m : memory) (table j k : Z) : Z :=
  match n with
  | O => k
  | S n' =>
      let k := if negb (Z.land (load32 m (u32 (table + 4 * j))) 1 =? 0) then k + 1 else k in
      count_present n' m table (j + 1) k
  end.

Definition calc_mem : M mstate unit :=
  s ← gets id;
  _ ← printk "%d pages free (of %d)"
        [LInt (count_free (take (Z.to_nat PAGING_PAGES) (mem_map s))); LInt PAGING_PAGES];
  for_loop 1022 2 (fun i =>
    d ← ldm (4 * i);
    when (negb (Z.land 1 d =? 0))
      (s ← gets id;
       let k := count_present 1024 (pm s) (Z.land 0xfffff000 d) 0 0 in
       printk "Pg-dir[%d] uses %d pages" [LInt i; LInt k])).
End faults.

(** ** Lemmas *)

(** The reference counts are there and are 16-bit. *)
Definition mm_wf (s : mstate) : Prop :=
  length (mem_map s) = 1536%nat /\ Forall (fun c => 0 <= c < 65536) (mem_map s).

(** The address of page [i] of the paged memory. *)
Definition page_addr (i : nat) : Z := LOW_MEM + 4096 * Z.of_nat i.

Lemma scan_free_spec l n :
  (n <= length l)%nat ->
  match scan_free l n with
  | Some i => (i < n)%nat /\ l !! i = Some 0 /\
              forall j, (i < j < n)%nat -> l !! j <> Some 0
  | None => forall j, (j < n)%nat -> l !! j <> Some 0
  end.
Proof.
  induction n as [| n IH]; intros Hn; cbn [scan_free]; [intros j Hj; lia |].
  destruct (lookup_lt_is_Some_2 l n) as [c Hc]; [lia |]. rewrite Hc. cbn.
  destruct (Z.eqb_spec c 0) as [-> | Hne].
  - split; [lia |]. split; [done |]. intros j Hj; lia.
  - specialize (IH ltac:(lia)). destruct (scan_free l n) as [i |].
    + destruct IH as (H1 & H2 & H3). split; [lia |]. split; [done |].
      intros j Hj. destruct (Nat.eq_dec j n) as [-> |]; [congruence | apply H3; lia].
    + intros j Hj. destruct (Nat.eq_dec j n) as [-> |]; [congruence | apply IH; lia].
Qed.

Lemma map_get_run i c s :
  mem_map s !! Z.to_nat i = Some c -> 0 <= i -> map_get i s = Done c s.
Proof. intros H Hi. unfold map_get. by rewrite (proj2 (Z.ltb_ge _ _) Hi), H. Qed.

Lemma map_set_run i v s :
  0 <= i < Z.of_nat (length (mem_map s)) ->
  map_set i v s = Done tt (set_mem_map (<[Z.to_nat i := u16 v]> (mem_map s)) s).
Proof.
  intros H. unfold map_set. by rewrite (proj2 (Z.leb_le _ _)), (proj2 (Z.ltb_lt _ _)) by lia.
Qed.

Lemma get_free_page_run s i :
  mm_wf s -> scan_free (mem_map s) 1536 = Some i -> (i < 1536)%nat ->
  get_free_page s = Done (page_addr i)
    (set_pm (bzero (pm s) (page_addr i) 4096) (set_mem_map (<[i := 1]> (mem_map s)) s)).
Proof.
  intros [Hl _] Hs Hi. unfold get_free_page.
  rewrite (bind_Done (gets id) _ s s s) by done.
  change (Z.to_nat PAGING_PAGES) with 1536%nat. rewrite Hs.
  rewrite (bind_Done _ _ _ _ _ (map_set_run (Z.of_nat i) 1 s ltac:(lia))), Nat2Z.id.
  rewrite Z.shiftl_mul_pow2 by lia. change (2 ^ 12) with 4096.
  unfold page_addr. rewrite (Z.add_comm LOW_MEM), (Z.mul_comm 4096).
  change LOW_MEM with 0x200000 in *. rewrite u32_small by (unfold in_u32; lia). done.
Qed.

Lemma page_addr_range i : (i < 1536)%nat -> 0x200000 <= page_addr i < 0x800000.
Proof. unfold page_addr. change LOW_MEM with 0x200000. lia. Qed.

Lemma page_addr_index i :
  (i < 1536)%nat -> Z.shiftr (u32 (page_addr i - LOW_MEM)) 12 = Z.of_nat i.
Proof.
  intros Hi. unfold page_addr. change LOW_MEM with 0x200000.
  rewrite u32_small by (unfold in_u32; lia). rewrite Z.shiftr_div_pow2 by lia.
  change (2 ^ 12) with 4096. Z.div_mod_to_equations; lia.
Qed.

Lemma free_page_run i c s :
  mm_wf s -> mem_map s !! i = Some c ->
  free_page (page_addr i) s =
    if c =? 0 then Halt (Panic "trying to free free page")
    else Done tt (set_mem_map (<[i := c - 1]> (mem_map s)) s).
Proof.
  intros [Hl Hf] Hc. pose proof (lookup_lt_Some _ _ _ Hc).
  pose proof (page_addr_range i ltac:(lia)) as Hr. unfold free_page.
  change LOW_MEM with 0x200000 in *. change HIGH_MEMORY with 0x800000.
  rewrite (proj2 (Z.ltb_ge _ 0x200000)), (proj2 (Z.ltb_ge 0x800000 _)) by lia. cbn [when].
  rewrite (bind_Done _ _ s tt s) by done.
  change 0x200000 with LOW_MEM at 1 2 3. rewrite page_addr_index by lia.
  rewrite (bind_Done _ _ _ _ _ (map_get_run (Z.of_nat i) c s ltac:(by rewrite Nat2Z.id) ltac:(lia))).
  rewrite (bind_Done _ _ _ _ _ (map_set_run (Z.of_nat i) (c - 1) s ltac:(lia))), Nat2Z.id.
  assert (0 <= c < 65536) by exact (Forall_lookup_1 _ _ _ _ Hf Hc).
  destruct (Z.eqb_spec c 0) as [-> | Hne]; cbn [negb].
  - set (s1 := set_mem_map _ s).
    assert (H1 : 0 <= Z.of_nat i < Z.of_nat (length (mem_map s1)))
      by (unfold s1; cbn [mem_map set_mem_map]; rewrite length_insert; lia).
    by rewrite (bind_Done _ _ _ _ _ (map_set_run (Z.of_nat i) 0 s1 H1)).
  - by rewrite u16_small by lia.
Qed.

Lemma get_free_page_some s :
  mm_wf s -> forall j, mem_map s !! j = Some 0 ->
  exists i, (i < 1536)%nat /\ mem_map s !! i = Some 0 /\
    get_free_page s = Done (page_addr i)
      (set_pm (bzero (pm s) (page_addr i) 4096) (set_mem_map (<[i := 1]> (mem_map s)) s)).
Proof.
  intros Hwf j Hj. pose proof Hwf as [Hl Hf]. pose proof (lookup_lt_Some _ _ _ Hj).
  pose proof (scan_free_spec (mem_map s) 1536 ltac:(lia)) as Hs.
  destruct (scan_free (mem_map s) 1536) as [i |] eqn:E.
  - destruct Hs as (Hi & Hz & _). exists i. split; [done |]. split; [done |].
    by apply get_free_page_run.
  - exfalso. by apply (Hs j); [lia |].
Qed.

(** ** Properties *)

(** [get_free_page] takes the highest free page: its count becomes 1, its
    4096 bytes are zero, nothing else changes; it answers 0 exactly when every
    page is in use. *)
Theorem get_free_page_correct s :
  mm_wf s ->
  (exists i s', get_free_page s = Done (page_addr i) s' /\ (i < 1536)%nat /\
     mem_map s !! i = Some 0 /\
     (forall j, (i < j < 1536)%nat -> mem_map s !! j <> Some 0) /\
     mem_map s' = <[i := 1]> (mem_map s) /\ mm_wf s' /\
     (forall x, page_addr i <= x < page_addr i + 4096 -> load8 (pm s') x = 0) /\
     only_changed (pm s) (pm s') (page_addr i) 4096) \/
  (get_free_page s = Done 0 s /\ forall j, (j < 1536)%nat -> mem_map s !! j <> Some 0).
Proof.
  intros Hwf. pose proof Hwf as [Hl Hf].
  pose proof (scan_free_spec (mem_map s) 1536 ltac:(lia)) as Hs.
  destruct (scan_free (mem_map s) 1536) as [i |] eqn:E.
  - left. destruct Hs as (Hi & Hz & Hlast). pose proof (page_addr_range i Hi).
    exists i. eexists. split; [exact (get_free_page_run s i Hwf E Hi) |].
    split; [done |]. split; [done |]. split; [done |]. split; [done |]. split.
    { split; cbn; [by rewrite length_insert |]. apply Forall_insert; [done | lia]. }
    cbn [pm set_pm]. split.
    + intros x Hx. unfold bzero. rewrite load8_memset by (unfold in_u32; lia).
      by rewrite decide_True.
    + apply only_changed_memset; lia.
  - right. split; [| done]. unfold get_free_page.
    rewrite (bind_Done (gets id) _ s s s) by done.
    change (Z.to_nat PAGING_PAGES) with 1536%nat. by rewrite E.
Qed.

(** All pages in use but pages 3 and 7. *)
Definition two_free : mstate :=
  {| pm := ∅; mem_map := <[3%nat := 0]> (<[7%nat := 0]> (replicate 1536 1)); klog := [] |}.

Lemma two_free_wf : mm_wf two_free.
Proof.
  split; [reflexivity |]. repeat apply Forall_insert; try lia. apply Forall_replicate. lia.
Qed.

Lemma get_free_page_witness :
  (exists i s', get_free_page two_free = Done (page_addr i) s' /\ (i < 1536)%nat /\
     mem_map two_free !! i = Some 0 /\
     (forall j, (i < j < 1536)%nat -> mem_map two_free !! j <> Some 0) /\
     mem_map s' = <[i := 1]> (mem_map two_free) /\ mm_wf s' /\
     (forall x, page_addr i <= x < page_addr i + 4096 -> load8 (pm s') x = 0) /\
     only_changed (pm two_free) (pm s') (page_addr i) 4096) \/
  (get_free_page two_free = Done 0 two_free /\
   forall j, (j < 1536)%nat -> mem_map two_free !! j <> Some 0).
Proof. apply (get_free_page_correct two_free). exact two_free_wf. Defined.

(** a page handed out and freed once leaves all reference counts as they
    were; freeing it once more panics, and pages below [LOW_MEM] are never
    counted. *)
Theorem get_free_roundtrip s i s' :
  mm_wf s -> get_free_page s = Done (page_addr i) s' ->
  exists s'', free_page (page_addr i) s' = Done tt s'' /\ mem_map s'' = mem_map s /\
    free_page (page_addr i) s'' = Halt (Panic "trying to free free page") /\
    (forall a, a < LOW_MEM -> free_page a s'' = Done tt s'').
Proof.
  intros Hwf Hg. pose proof Hwf as [Hl Hf].
  pose proof (scan_free_spec (mem_map s) 1536 ltac:(lia)) as Hs.
  destruct (scan_free (mem_map s) 1536) as [k |] eqn:E.
  - destruct Hs as (Hk & Hz & _). rewrite (get_free_page_run s k Hwf E Hk) in Hg.
    injection Hg as Hi Hs'. assert (k = i) as -> by (unfold page_addr in Hi; lia).
    assert (Hwf' : mm_wf s').
    { subst s'. split; cbn; [by rewrite length_insert |]. apply Forall_insert; [done | lia]. }
    assert (H1 : mem_map s' !! i = Some 1)
      by (subst s'; cbn; apply list_lookup_insert_eq; lia).
    eexists. split; [exact (free_page_run i 1 s' Hwf' H1) |].
    assert (Hm : <[i := 1 - 1]> (mem_map s') = mem_map s).
    { subst s'. cbn. rewrite list_insert_insert_eq. by apply list_insert_id. }
    split; [exact Hm |]. split.
    + rewrite (free_page_run i 0); [done | | cbn; rewrite Hm; done].
      split; cbn; rewrite Hm; done.
    + intros a Ha. unfold free_page. by rewrite (proj2 (Z.ltb_lt _ _) Ha).
  - unfold get_free_page in Hg. rewrite (bind_Done (gets id) _ s s s) in Hg by done.
    change (Z.to_nat PAGING_PAGES) with 1536%nat in Hg. rewrite E in Hg.
    injection Hg as Hi _. unfold page_addr in Hi. change LOW_MEM with 0x200000 in Hi. lia.
Qed.

Lemma get_free_roundtrip_witness :
  exists s', get_free_page two_free = Done (page_addr 7) s' /\
  exists s'', free_page (page_addr 7) s' = Done tt s'' /\ mem_map s'' = mem_map two_free /\
    free_page (page_addr 7) s'' = Halt (Panic "trying to free free page") /\
    (forall a, a < LOW_MEM -> free_page a s'' = Done tt s'').
Proof.
  assert (Hs : scan_free (mem_map two_free) 1536 = Some 7%nat) by (vm_compute; reflexivity).
  pose proof (get_free_page_run two_free 7 two_free_wf Hs ltac:(lia)) as Hg.
  eexists. split; [exact Hg |].
  exact (get_free_roundtrip two_free 7 _ two_free_wf Hg).
Defined.

(** ** Copy on write *)

(** A word that no free page covers (so handing one out does not touch it). *)
Definition apart_from_free (s : mstate) (a : Z) : Prop :=
  forall i, mem_map s !! i = Some 0 -> disjoint a 4 (page_addr i) 4096.

Lemma entry_page e k : in_u32 e -> e - e mod 4096 = page_addr k -> Z.land 0xfffff000 e = page_addr k.
Proof. intros He <-. rewrite Z.land_comm. by apply land_page_mask. Qed.

Lemma MAP_NR_page_addr k : MAP_NR (page_addr k) = Z.of_nat k.
Proof.
  unfold MAP_NR, page_addr. rewrite Z.shiftr_div_pow2 by lia. change (2 ^ 12) with 4096.
  Z.div_mod_to_equations; lia.
Qed.

(** writing to a write-protected page: a page with a single user is just
    made writable again; a shared one is copied to a fresh page that the entry
    then maps writable, the old page keeps its contents and loses one user —
    so no user ever sees another's write. *)
Theorem un_wp_page_correct `{Exit} s te e k c :
  mm_wf s -> load32 (pm s) te = e -> e - e mod 4096 = page_addr k ->
  mem_map s !! k = Some c -> c <> 0 -> apart_from_free s te ->
  0 <= te -> te + 4 <= 4294967296 -> disjoint te 4 (page_addr k) 4096 ->
  if c =? 1 then
    un_wp_page te s = Done tt (set_pm (store32 (pm s) te (Z.lor e 2)) s)
  else
    (exists j, mem_map s !! j = Some 0) ->
    exists i s', un_wp_page te s = Done tt s' /\ mem_map s !! i = Some 0 /\
      mem_map s' = <[k := c - 1]> (<[i := 1]> (mem_map s)) /\
      load32 (pm s') te = Z.lor (page_addr i) 7 /\
      load_bytes (pm s') (page_addr i) 4096 = load_bytes (pm s) (page_addr k) 4096 /\
      load_bytes (pm s') (page_addr k) 4096 = load_bytes (pm s) (page_addr k) 4096 /\
      (forall x, in_u32 x -> ~ (te <= x < te + 4) -> ~ (page_addr i <= x < page_addr i + 4096) ->
         load8 (pm s') x = load8 (pm s) x).
Proof.
  intros Hwf He Hk Hc Hnz Hap Ht0 Ht1 Hdk. pose proof Hwf as [Hl Hf].
  pose proof (lookup_lt_Some _ _ _ Hc) as Hkl. pose proof (page_addr_range k ltac:(lia)) as Hkr.
  assert (0 <= c < 65536) by exact (Forall_lookup_1 _ _ _ _ Hf Hc).
  assert (Hu : in_u32 e) by (rewrite <- He; apply load32_range).
  assert (Hget : forall st, mem_map st = mem_map s -> map_get (Z.of_nat k) st = Done c st).
  { intros st E. apply map_get_run; [by rewrite E, Nat2Z.id | lia]. }
  unfold un_wp_page. rewrite (bind_Done (ldm te) _ s e s) by (unfold ldm, gets; by rewrite He).
  rewrite (entry_page e k Hu Hk). change LOW_MEM with 0x200000.
  rewrite (proj2 (Z.leb_le 0x200000 (page_addr k))) by lia. rewrite MAP_NR_page_addr.
  rewrite (bind_Done _ _ s (negb (c =? 1)) s)
    by (by rewrite (bind_Done _ _ _ _ _ (Hget s eq_refl))).
  destruct (Z.eqb_spec c 1) as [-> | Hc1]; cbn [negb]; [done |]. intros (j & Hj).
  destruct (get_free_page_some s Hwf j Hj) as (i & Hi & Hiz & Hrun).
  pose proof (page_addr_range i Hi) as Hir.
  rewrite (bind_Done _ _ _ _ _ Hrun). rewrite (proj2 (Z.eqb_neq (page_addr i) 0)) by lia.
  cbn [when]. set (s1 := set_pm _ _).
  assert (Hik : i <> k) by congruence.
  assert (Hm1 : mem_map s1 = <[i := 1]> (mem_map s)) by done.
  assert (Hck : mem_map s1 !! k = Some c) by (rewrite Hm1, list_lookup_insert_ne; done).
  rewrite (bind_Done (mret tt) _ s1 tt s1) by done.
  assert (H1 : 0 <= Z.of_nat k < Z.of_nat (length (mem_map s1)))
    by (rewrite Hm1, length_insert; lia).
  rewrite (bind_Done _ _ _ tt (set_mem_map (<[k := c - 1]> (mem_map s1)) s1)).
  2: { rewrite (bind_Done _ _ _ _ _ (map_get_run (Z.of_nat k) c s1
         ltac:(by rewrite Nat2Z.id) ltac:(lia))), (map_set_run _ _ _ H1), Nat2Z.id.
       by rewrite u16_small by lia. }
  exists i. eexists. split; [reflexivity |]. split; [done |]. split; [done |].
  cbn [pm set_pm set_mem_map]. set (m1 := store32 (pm s1) te (Z.lor (page_addr i) 7)).
  assert (Dik : disjoint (page_addr i) 4096 (page_addr k) 4096)
    by (unfold disjoint, page_addr in *; change LOW_MEM with 0x200000 in *; lia).
  pose proof (Hap i Hiz) as Dti.
  assert (Hpm1 : forall x, in_u32 x -> ~ (te <= x < te + 4) ->
            ~ (page_addr i <= x < page_addr i + 4096) -> load8 m1 x = load8 (pm s) x).
  { intros x Hx H2 H3. unfold m1. rewrite load8_store32_ne by (unfold disjoint, in_u32 in *; lia).
    unfold s1. cbn [pm set_pm]. apply only_changed_memset; (done || lia). }
  assert (Hold : load_bytes m1 (page_addr k) 4096 = load_bytes (pm s) (page_addr k) 4096).
  { apply load_bytes_ext. intros x Hx. unfold disjoint in *.
    apply Hpm1; unfold in_u32; lia. }
  assert (Hcp : only_changed m1 (memcpy m1 (page_addr i) (page_addr k) 4096) (page_addr i) 4096).
  { intros x Hx Hout. rewrite load8_memcpy by (done || lia). by rewrite decide_False. }
  split; [| split; [| split; [| intros x Hx H2 H3; rewrite Hcp by done; by apply Hpm1]]].
  - rewrite (load32_only_changed _ _ _ _ _ Hcp)
      by (unfold disjoint in *; lia).
    unfold m1. rewrite load32_store32_eq. apply u32_small. unfold in_u32.
    assert (Z.lor (page_addr i) 7 = page_addr i + 7) as ->; [| lia].
    unfold page_addr. change LOW_MEM with 0x200000.
    replace (0x200000 + 4096 * Z.of_nat i) with (8 * (0x40000 + 512 * Z.of_nat i)) by lia.
    set (y := 0x40000 + 512 * Z.of_nat i).
    pose proof (Z.add_lor_land (8 * y) 7) as E.
    assert (Z.land (8 * y) 7 = 0) as E0; [| lia].
    change 7 with (Z.ones 3). rewrite Z.land_ones by lia. change (2 ^ 3) with 8.
    rewrite Z.mul_comm. apply Z.mod_mul. lia.
  - rewrite <- Hold. apply (load_bytes_memcpy m1 (page_addr i) (page_addr k) 4096). exact Dik.
  - rewrite <- Hold. apply load_bytes_ext. intros x Hx. unfold disjoint in *.
    apply Hcp; unfold in_u32; lia.
Qed.

(** Page 5 shared by two entries, page 9 free; the entry is at 0x1000. *)
Definition cow_sample : mstate :=
  {| pm := store32 ∅ 0x1000 (page_addr 5 + 5);
     mem_map := <[9%nat := 0]> (<[5%nat := 2]> (replicate 1536 1)); klog := [] |}.

Lemma cow_sample_wf : mm_wf cow_sample.
Proof.
  split; [reflexivity |]. repeat apply Forall_insert; try lia. apply Forall_replicate. lia.
Qed.

Lemma un_wp_page_witness :
  exists i s', @un_wp_page (fun _ => mret tt) 0x1000 cow_sample = Done tt s' /\
    mem_map cow_sample !! i = Some 0 /\
    mem_map s' = <[5%nat := 2 - 1]> (<[i := 1]> (mem_map cow_sample)) /\
    load32 (pm s') 0x1000 = Z.lor (page_addr i) 7 /\
    load_bytes (pm s') (page_addr i) 4096 = load_bytes (pm cow_sample) (page_addr 5) 4096 /\
    load_bytes (pm s') (page_addr 5) 4096 = load_bytes (pm cow_sample) (page_addr 5) 4096 /\
    (forall x, in_u32 x -> ~ (0x1000 <= x < 0x1000 + 4) -> ~ (page_addr i <= x < page_addr i + 4096) ->
       load8 (pm s') x = load8 (pm cow_sample) x).
Proof.
  apply (@un_wp_page_correct (fun _ => mret tt) cow_sample 0x1000 (page_addr 5 + 5) 5 2).
  - exact cow_sample_wf.
  - vm_compute. reflexivity.
  - vm_compute. reflexivity.
  - vm_compute. reflexivity.
  - lia.
  - intros i Hi. pose proof (lookup_lt_Some _ _ _ Hi) as Hl.
    assert (length (mem_map cow_sample) = 1536%nat) as E by reflexivity. rewrite E in Hl.
    pose proof (page_addr_range i Hl). unfold disjoint. lia.
  - lia.
  - lia.
  - unfold disjoint, page_addr. change LOW_MEM with 0x200000. lia.
  - exists 9%nat. vm_compute. reflexivity.
Defined.

(** ** Sharing pages at fork *)

Definition present (e : Z) : bool := negb (Z.land 1 e =? 0).
Definition ro (e : Z) : Z := Z.land e (Z.lnot 2).
Definition counted (e : Z) : bool := present e && (LOW_MEM <? ro e).
Definition page_of (e : Z) : Z := Z.shiftr (ro e - LOW_MEM) 12.

(** Entry [k] of the table at [t]. *)
Definition pte (m : memory) (t k : Z) : Z := load32 m (t + 4 * k).

(** How many of the first [n] entries map page [i]. *)
Fixpoint refs (m : memory) (t : Z) (n : nat) (i : Z) : Z :=
  match n with
  | O => 0
  | S n' =>
      let e := pte m t (Z.of_nat n') in
      refs m t n' i + (if counted e && (page_of e =? i) then 1 else 0)
  end.

Lemma ro_range e : in_u32 e -> in_u32 (ro e).
Proof. intros H. apply (land_lnot_pow2_range e 1 H). lia. Qed.

Lemma copy_entry_run s fa ta :
  mm_wf s -> disjoint fa 4 ta 4 ->
  let e := load32 (pm s) fa in
  (present e = true -> ro e < HIGH_MEMORY) ->
  exists s', copy_entry fa ta s = Done tt s' /\ mm_wf s' /\
    load32 (pm s') ta = (if present e then ro e else load32 (pm s) ta) /\
    load32 (pm s') fa = (if counted e then ro e else e) /\
    (forall a, disjoint fa 4 a 4 -> disjoint ta 4 a 4 -> load32 (pm s') a = load32 (pm s) a) /\
    (forall x, in_u32 x -> ~ (fa <= x < fa + 4) -> ~ (ta <= x < ta + 4) -> load8 (pm s') x = load8 (pm s) x) /\
    (forall i, (i < 1536)%nat -> mem_map s' !!! i =
       u16 (mem_map s !!! i + if counted e && (page_of e =? Z.of_nat i) then 1 else 0)).
Proof.
  intros [Hl Hf] D e Hhi. unfold copy_entry.
  assert (Hid : forall i, (i < 1536)%nat -> mem_map s !!! i = u16 (mem_map s !!! i + 0)).
  { intros i Hi. destruct (lookup_lt_is_Some_2 (mem_map s) i) as [c Hc]; [lia |].
    rewrite (list_lookup_total_correct _ _ _ Hc), Z.add_0_r.
    symmetry. apply u16_small. exact (Forall_lookup_1 _ _ _ _ Hf Hc). }
  rewrite (bind_Done (ldm fa) _ s e s) by done. unfold counted, present in *.
  destruct (Z.land 1 e =? 0) eqn:Ep; cbn [negb andb] in *.
  { exists s. split; [done |]. split; [done |]. split; [done |]. split; [done |].
    split; [done |]. split; [done |]. exact Hid. }
  specialize (Hhi eq_refl). fold (ro e).
  assert (Hu : in_u32 (ro e)) by apply ro_range, load32_range. unfold in_u32 in Hu.
  set (s1 := set_pm (store32 (pm s) ta (ro e)) s).
  rewrite (bind_Done (stm ta (ro e)) _ s tt s1) by done.
  assert (H1 : load32 (pm s1) ta = ro e)
    by (unfold s1; cbn; rewrite load32_store32_eq; by apply u32_small).
  assert (H2 : load32 (pm s1) fa = e)
    by (unfold s1; cbn; apply load32_store32_ne; unfold disjoint in *; lia).
  destruct (Z.ltb_spec LOW_MEM (ro e)) as [L | L].
  - set (s2 := set_pm (store32 (pm s1) fa (ro e)) s1).
    rewrite (bind_Done (stm fa (ro e)) _ s1 tt s2) by done.
    fold (page_of e). change LOW_MEM with 0x200000 in *. change HIGH_MEMORY with 0x800000 in *.
    assert (Hpg : 0 <= page_of e < 1536).
    { unfold page_of. change LOW_MEM with 0x200000. rewrite Z.shiftr_div_pow2 by lia.
      change (2 ^ 12) with 4096. Z.div_mod_to_equations; lia. }
    destruct (lookup_lt_is_Some_2 (mem_map s) (Z.to_nat (page_of e))) as [c Hc]; [lia |].
    rewrite (bind_Done _ _ _ _ _ (map_get_run (page_of e) c s2 Hc ltac:(lia))).
    rewrite (map_set_run (page_of e) (c + 1) s2) by (cbn; lia).
    eexists. split; [reflexivity |]. cbn [pm mem_map set_pm set_mem_map s2 s1].
    split; [split; cbn; [by rewrite length_insert |];
            apply Forall_insert; [done | apply u16_range] |].
    split; [rewrite load32_store32_ne by done; by rewrite load32_store32_eq; apply u32_small |].
    split; [rewrite load32_store32_eq; by apply u32_small |].
    split; [intros a Da Db; by rewrite !load32_store32_ne |].
    split; [intros x Hx Hxf Hxt; unfold disjoint, in_u32 in *; by rewrite !load8_store32_ne by (unfold disjoint; lia) |].
    intros i Hi. rewrite list_insert_lookup_total by lia. case_decide as Ei.
    + rewrite (proj2 (Z.eqb_eq (page_of e) (Z.of_nat i))) by lia. cbn [andb].
      subst i. by rewrite (list_lookup_total_correct _ _ _ Hc).
    + rewrite (proj2 (Z.eqb_neq (page_of e) (Z.of_nat i))) by lia. cbn [andb]. by apply Hid.
  - exists s1. split; [done |]. split; [done |]. split; [done |]. split; [done |].
    split; [intros a Da Db; unfold s1; cbn; by rewrite load32_store32_ne |].
    split; [intros x Hx Hxf Hxt; unfold s1, disjoint, in_u32 in *; cbn; by rewrite load8_store32_ne by (unfold disjoint; lia) |].
    exact Hid.
Qed.

(** [copy_page_tables]' inner loop shares a table at fork: every present
    entry is copied without its write permission, the parent's entry for a
    page of the paged memory loses it too, and each page's count grows by the
    number of entries that map it (modulo its 16 bits). *)
Theorem copy_table_shares n f t s :
  mm_wf s -> disjoint f (4 * Z.of_nat n) t (4 * Z.of_nat n) ->
  (forall k, 0 <= k < Z.of_nat n -> present (pte (pm s) f k) = true ->
     ro (pte (pm s) f k) < HIGH_MEMORY) ->
  (forall k, 0 <= k < Z.of_nat n -> pte (pm s) t k = 0) ->
  exists s', copy_table n f t s = Done tt s' /\ mm_wf s' /\
    (forall k, 0 <= k < Z.of_nat n ->
       let e := pte (pm s) f k in
       pte (pm s') t k = (if present e then ro e else 0) /\
       pte (pm s') f k = (if counted e then ro e else e)) /\
    (forall x, in_u32 x -> ~ (f <= x < f + 4 * Z.of_nat n) -> ~ (t <= x < t + 4 * Z.of_nat n) ->
       load8 (pm s') x = load8 (pm s) x) /\
    (forall i, (i < 1536)%nat ->
       mem_map s' !!! i = u16 (mem_map s !!! i + refs (pm s) f n (Z.of_nat i))).
Proof.
  intros Hwf D Hhi Hz. unfold disjoint in D.
  set (I := fun (j : Z) (s' : mstate) => mm_wf s' /\
    (forall k, 0 <= k < j ->
       let e := pte (pm s) f k in
       pte (pm s') t k = (if present e then ro e else 0) /\
       pte (pm s') f k = (if counted e then ro e else e)) /\
    (forall k, j <= k < Z.of_nat n -> pte (pm s') f k = pte (pm s) f k /\ pte (pm s') t k = 0) /\
    (forall x, in_u32 x -> ~ (f <= x < f + 4 * Z.of_nat n) -> ~ (t <= x < t + 4 * Z.of_nat n) ->
       load8 (pm s') x = load8 (pm s) x) /\
    (forall i, (i < 1536)%nat ->
       mem_map s' !!! i = u16 (mem_map s !!! i + refs (pm s) f (Z.to_nat j) (Z.of_nat i)))).
  pose proof (post_for_loop n 0 (fun k => copy_entry (u32 (f + 4 * k)) (u32 (t + 4 * k))) I s)
    as Hloop.
  apply post_inv in Hloop.
  - destruct Hloop as ([] & s' & Hrun & Hw & H1 & _ & Hfr & H3). rewrite Z.add_0_l in *.
    exists s'. split; [exact Hrun |]. split; [done |]. split; [done |]. split; [done |].
    intros i Hi. by rewrite H3, Nat2Z.id.
  - split; [done |]. split; [intros k Hk; lia |]. split; [by auto |]. split; [done |].
    intros i Hi. destruct Hwf as [Hl Hf].
    destruct (lookup_lt_is_Some_2 (mem_map s) i) as [c Hc]; [lia |].
    rewrite (list_lookup_total_correct _ _ _ Hc). cbn. rewrite Z.add_0_r.
    symmetry. apply u16_small. exact (Forall_lookup_1 _ _ _ _ Hf Hc).
  - intros j s1 Hj (Hw & H1 & H2 & Hfr & H3). rewrite Z.add_0_l in Hj.
    rewrite !u32_small by (unfold in_u32; lia).
    destruct (H2 j ltac:(lia)) as [Hfj Htj]. unfold pte in Hfj, Htj.
    destruct (copy_entry_run s1 (f + 4 * j) (t + 4 * j)) as (s2 & Hrun & Hw2 & E1 & E2 & E3 & E5 & E4).
    { done. }
    { unfold disjoint; lia. }
    { rewrite Hfj. apply Hhi. lia. }
    rewrite Hfj, Htj in E1. rewrite Hfj in E2, E4. fold (pte (pm s) f j) in E1, E2, E4.
    eapply post_Done; [exact Hrun |]. split; [done |]. split; [| split; [| split]].
    + intros k Hk. destruct (Z.eq_dec k j) as [-> | Hne]; [done |].
      destruct (H1 k ltac:(lia)) as [G1 G2]. unfold pte in *.
      rewrite !E3 by (unfold disjoint; lia). done.
    + intros k Hk. destruct (H2 k ltac:(lia)) as [G1 G2]. unfold pte in *.
      rewrite !E3 by (unfold disjoint; lia). done.
    + intros x Hx Hxf Hxt. rewrite E5 by (done || lia). by apply Hfr.
    + intros i Hi. rewrite E4, H3 by done.
      replace (Z.to_nat (j + 1)) with (S (Z.to_nat j)) by lia. cbn [refs].
      rewrite Z2Nat.id by lia.
      unfold u16. rewrite Zplus_mod_idemp_l. f_equal. lia.
Qed.

(** A table at 0x1000 mapping page 5 writable and page 6 read-only. *)
Definition fork_sample : mstate :=
  {| pm := store32 (store32 ∅ 0x1000 (page_addr 5 + 7)) 0x1004 (page_addr 6 + 5);
     mem_map := replicate 1536 1; klog := [] |}.

Lemma copy_table_witness :
  exists s', copy_table 2 0x1000 0x2000 fork_sample = Done tt s' /\ mm_wf s' /\
    (forall k, 0 <= k < Z.of_nat 2 ->
       let e := pte (pm fork_sample) 0x1000 k in
       pte (pm s') 0x2000 k = (if present e then ro e else 0) /\
       pte (pm s') 0x1000 k = (if counted e then ro e else e)) /\
    (forall x, in_u32 x -> ~ (0x1000 <= x < 0x1000 + 4 * Z.of_nat 2) -> ~ (0x2000 <= x < 0x2000 + 4 * Z.of_nat 2) ->
       load8 (pm s') x = load8 (pm fork_sample) x) /\
    (forall i, (i < 1536)%nat ->
       mem_map s' !!! i =
         u16 (mem_map fork_sample !!! i + refs (pm fork_sample) 0x1000 2 (Z.of_nat i))).
Proof.
  apply (copy_table_shares 2 0x1000 0x2000 fork_sample).
  - split; [reflexivity |]. apply Forall_replicate. lia.
  - unfold disjoint; lia.
  - intros k Hk _. assert (k = 0 \/ k = 1) as [-> | ->] by lia; vm_bounds.
  - intros k Hk. assert (k = 0 \/ k = 1) as [-> | ->] by lia; vm_compute; reflexivity.
Defined.
