(* ===== verification/Cow.v ===== *)
(** * Cow: shared pages stay apart

    Copying a shared page at the first write to it
    (src/linux-0.01/mm/memory.c, [Mm]): no program sees what another one
    writes. The counts of the pages, the page tables and what the programs see
    through them are related by the invariant [cow]. *)

From S2P Require Import Prelude Mem Libc Vsprintf Mm.

(** ** Sums *)

Definition sum {A} (f : A -> Z) (l : list A) : Z := foldr (fun a z => f a + z) 0 l.

Section sum.
Context {A : Type}.
Implicit Types (f g : A -> Z) (l : list A).

Lemma sum_app f l l' : sum f (l ++ l') = sum f l + sum f l'.
Proof. induction l as [| a l IH]; [done |]. change (f a + sum f (l ++ l') = f a + sum f l + sum f l'). lia. Qed.

Lemma sum_ext f g l : (forall a, a ∈ l -> f a = g a) -> sum f l = sum g l.
Proof.
  induction l as [| a l IH]; intros H; [done |]. change (f a + sum f l = g a + sum g l).
  rewrite (H a) by apply list_elem_of_here. rewrite IH; [done |]. intros b Hb. apply H. by apply list_elem_of_further.
Qed.

Lemma sum_nonneg f l : (forall a, a ∈ l -> 0 <= f a) -> 0 <= sum f l.
Proof.
  induction l as [| a l IH]; intros H; [done |]. change (0 <= f a + sum f l).
  pose proof (H a (list_elem_of_here _ _)). assert (0 <= sum f l) by (apply IH; intros b Hb; apply H; by apply list_elem_of_further). lia.
Qed.

Lemma sum_one f l a : (forall b, 0 <= f b) -> a ∈ l -> f a <= sum f l.
Proof.
  intros Hf. induction l as [| b l IH]; [by intros ?%not_elem_of_nil |]. intros Hin. change (f a <= f b + sum f l).
  pose proof (sum_nonneg f l (fun x _ => Hf x)). pose proof (Hf b).
  apply elem_of_cons in Hin as [-> | Hin]; [lia |]. specialize (IH Hin). lia.
Qed.

Lemma sum_two f l a b : (forall c, 0 <= f c) -> a <> b -> a ∈ l -> b ∈ l -> f a + f b <= sum f l.
Proof.
  intros Hf Hab. induction l as [| c l IH]; [by intros ?%not_elem_of_nil |]. intros Ha Hb.
  change (f a + f b <= f c + sum f l). pose proof (Hf c).
  apply elem_of_cons in Ha as [-> | Ha], Hb as [-> | Hb]; try done.
  - pose proof (sum_one f l b Hf Hb). lia.
  - pose proof (sum_one f l a Hf Ha). lia.
  - specialize (IH Ha Hb). lia.
Qed.

Lemma sum_bound f l : (forall a, f a <= 1) -> sum f l <= Z.of_nat (length l).
Proof.
  intros Hf. induction l as [| a l IH]; [done |]. change (f a + sum f l <= Z.of_nat (S (length l))). specialize (Hf a). lia.
Qed.

(** One term changes. *)
Lemma sum_update f g l a :
  NoDup l -> a ∈ l -> (forall b, b ∈ l -> b <> a -> g b = f b) -> sum g l = sum f l - f a + g a.
Proof.
  induction l as [| b l IH]; [by intros _ ?%not_elem_of_nil |]. intros [Hb Hnd]%NoDup_cons Ha Hsame.
  change (g b + sum g l = f b + sum f l - f a + g a). apply elem_of_cons in Ha as [-> | Ha].
  - rewrite (sum_ext g f l); [lia |]. intros c Hc. apply Hsame; [by apply list_elem_of_further | by intros ->].
  - rewrite IH; [| done | done | intros c Hc; apply Hsame; by apply list_elem_of_further].
    rewrite (Hsame b); [lia | apply list_elem_of_here | by intros ->].
Qed.
End sum.

(** ** Address spaces

    The page tables in use, [tabs]: what the program behind entry [k] of table
    [t] finds at offset [off] of that page. *)

Definition base (e : Z) : Z := Z.land 0xfffff000 e.
Definition writable (e : Z) : bool := Z.testbit e 1.
Definition seen (m : memory) (t k off : Z) : option Z :=
  if present (pte m t k) then Some (load8 m (base (pte m t k) + off)) else None.

(** Page 0, where the page directories are: task 1 finds it in its address
    space, with the rest of the kernel's memory. *)
Definition low (e : Z) : bool := present e && (base e =? 0).

(** The entries of a table, and of them all. *)
Definition entries (t : Z) : list (Z * Z) := (fun k => (t, k)) <$> seqZ 0 1024.
Definition cells (tabs : list Z) : list (Z * Z) := tabs ≫= entries.

(** Does the entry map page [i] of the paged memory? *)
Definition maps (i : nat) (e : Z) : Z := if counted e && (page_of e =? Z.of_nat i) then 1 else 0.
Definition users (m : memory) (tabs : list Z) (i : nat) : Z := sum (fun c => maps i (pte m c.1 c.2)) (cells tabs).

(** The page tables and the counts of the pages agree: a page has as many users
    at least as its count says, and one that can be written to has one. No
    table is a page of a program, or free. *)
Record cow (tabs : list Z) (s : mstate) : Prop := {
  cow_wf : mm_wf s;
  cow_nodup : NoDup tabs;
  cow_tab : forall t, t ∈ tabs -> 4096 <= t /\ t mod 4096 = 0 /\ t + 4096 <= HIGH_MEMORY;
  cow_held : forall i, page_addr i ∈ tabs -> mem_map s !!! i <> 0;
  cow_high : forall t k, (t, k) ∈ cells tabs -> present (pte (pm s) t k) = true -> ro (pte (pm s) t k) < HIGH_MEMORY;
  cow_apart : forall t k, (t, k) ∈ cells tabs -> present (pte (pm s) t k) = true -> base (pte (pm s) t k) ∉ tabs;
  cow_count : forall i, (i < 1536)%nat -> users (pm s) tabs i <= mem_map s !!! i;
  cow_sole : forall t k, (t, k) ∈ cells tabs -> counted (pte (pm s) t k) = true -> writable (pte (pm s) t k) = true ->
    mem_map s !!! Z.to_nat (page_of (pte (pm s) t k)) = 1
}.

(** ** Entries *)

Lemma elem_of_cells tabs t k : (t, k) ∈ cells tabs <-> t ∈ tabs /\ 0 <= k < 1024.
Proof.
  unfold cells, entries. rewrite list_elem_of_bind. split.
  - intros (t' & Hk & Ht). apply list_elem_of_fmap in Hk as (k' & [= -> ->] & Hk%elem_of_seqZ). split; [done | lia].
  - intros [Ht Hk]. exists t. split; [| done]. apply list_elem_of_fmap. exists k. split; [done |]. apply elem_of_seqZ. lia.
Qed.

Lemma NoDup_cells tabs : NoDup tabs -> NoDup (cells tabs).
Proof.
  induction tabs as [| t tabs IH]; intros Hnd; [apply NoDup_nil_2 |]. apply NoDup_cons in Hnd as [Ht Hnd].
  change (cells (t :: tabs)) with (entries t ++ cells tabs). apply NoDup_app. split; [| split].
  - apply (NoDup_fmap_2 (fun k => (t, k))), NoDup_seqZ.
  - intros [t' k] Hin [Ht' _]%elem_of_cells. apply list_elem_of_fmap in Hin as (? & [= -> ->] & _). done.
  - by apply IH.
Qed.

Lemma maps_range i e : 0 <= maps i e <= 1.
Proof. unfold maps. destruct (_ && _); lia. Qed.

(** ** What an entry says *)

Lemma ro_base e : base (ro e) = base e.
Proof. unfold base, ro. by rewrite (Z.land_comm e), Z.land_assoc. Qed.
Lemma ro_present e : present (ro e) = present e.
Proof. unfold present, ro. by rewrite (Z.land_comm e), Z.land_assoc. Qed.
Lemma ro_ro e : ro (ro e) = ro e.
Proof. unfold ro. by rewrite <- Z.land_assoc. Qed.
Lemma ro_writable e : writable (ro e) = false.
Proof. unfold writable, ro. by rewrite Z.land_spec, andb_false_r. Qed.
Lemma ro_counted e : counted (ro e) = counted e.
Proof. unfold counted. by rewrite ro_present, ro_ro. Qed.
Lemma ro_page_of e : page_of (ro e) = page_of e.
Proof. unfold page_of. by rewrite ro_ro. Qed.
Lemma ro_maps i e : maps i (ro e) = maps i e.
Proof. unfold maps. by rewrite ro_counted, ro_page_of. Qed.
Lemma counted_present e : counted e = true -> present e = true.
Proof. by intros [? _]%andb_prop. Qed.

(** Making an entry writable. *)
Lemma ro_lor e : ro (Z.lor e 2) = ro e.
Proof. unfold ro. rewrite Z.land_lor_distr_l. change (Z.land 2 (Z.lnot 2)) with 0. by rewrite Z.lor_0_r. Qed.
Lemma rw_entry e : let e' := Z.lor e 2 in
  base e' = base e /\ present e' = present e /\ counted e' = counted e /\ page_of e' = page_of e /\ writable e' = true.
Proof.
  intros e'. unfold e'. assert (Hp : present (Z.lor e 2) = present e) by (rewrite <- ro_present, ro_lor; apply ro_present).
  split; [rewrite <- ro_base, ro_lor; apply ro_base |]. split; [done |].
  unfold counted, page_of. rewrite Hp, ro_lor. split; [done |]. split; [done |].
  unfold writable. by rewrite Z.lor_spec, orb_true_r.
Qed.

Lemma base_mod e : in_u32 e -> base e = ro e - ro e mod 4096.
Proof. intros He. rewrite <- ro_base. unfold base. rewrite Z.land_comm. by apply land_page_mask, ro_range. Qed.

(** A page of the paged memory, below [HIGH_MEMORY]. *)
Lemma counted_page e : in_u32 e -> counted e = true -> ro e < HIGH_MEMORY ->
  0 <= page_of e < 1536 /\ base e = page_addr (Z.to_nat (page_of e)).
Proof.
  intros He [_ Hlow%Z.ltb_lt]%andb_prop Hhi. rewrite base_mod by done. unfold page_of, page_addr.
  change LOW_MEM with 0x200000 in *. change HIGH_MEMORY with 0x800000 in *. rewrite Z.shiftr_div_pow2 by lia.
  change (2 ^ 12) with 4096. split; [Z.div_mod_to_equations; lia |]. rewrite Z2Nat.id by (Z.div_mod_to_equations; lia).
  Z.div_mod_to_equations; lia.
Qed.

(** ... and one below the paged memory. *)
Lemma uncounted_page e : in_u32 e -> present e = true -> counted e = false -> 0 <= base e /\ base e + 4096 <= LOW_MEM.
Proof.
  intros He Hp Hc. unfold counted in Hc. rewrite Hp in Hc. apply Z.ltb_ge in Hc. pose proof (ro_range e He) as Hr. unfold in_u32 in Hr.
  rewrite base_mod by done. rewrite <- ro_present in Hp. unfold present in Hp.
  assert (Hodd : ro e mod 2 = 1).
  { rewrite Z.land_comm in Hp. change 1 with (Z.ones 1) in Hp. rewrite Z.land_ones in Hp by lia.
    apply negb_true_iff, Z.eqb_neq in Hp. change (2 ^ 1) with 2 in Hp. pose proof (Z.mod_pos_bound (ro e) 2 ltac:(lia)). lia. }
  change LOW_MEM with 0x200000 in *. Z.div_mod_to_equations; lia.
Qed.

Lemma present_page e : in_u32 e -> present e = true -> ro e < HIGH_MEMORY ->
  0 <= base e /\ base e mod 4096 = 0 /\ base e + 4096 <= HIGH_MEMORY.
Proof.
  intros He Hp Hhi. pose proof (ro_range e He) as Hr. unfold in_u32 in Hr. rewrite base_mod by done.
  change HIGH_MEMORY with 0x800000 in *. Z.div_mod_to_equations; lia.
Qed.

Lemma maps_one i e : in_u32 e -> counted e = true -> ro e < HIGH_MEMORY -> (maps i e = 1 <-> base e = page_addr i).
Proof.
  intros He Hc Hhi. destruct (counted_page e He Hc Hhi) as [Hr ->]. unfold maps. rewrite Hc. unfold page_addr.
  destruct (Z.eqb_spec (page_of e) (Z.of_nat i)) as [E | E]; cbn [andb]; [rewrite E, Nat2Z.id; lia |]. lia.
Qed.

(** The entry for a new page. *)
Lemma new_entry i : (i < 1536)%nat -> let e := Z.lor (page_addr i) 7 in
  base e = page_addr i /\ present e = true /\ counted e = true /\ writable e = true /\ ro e < HIGH_MEMORY /\ page_of e = Z.of_nat i.
Proof.
  intros Hi. assert (Hall : forallb (fun i => let e := Z.lor (page_addr i) 7 in
    (base e =? page_addr i) && present e && counted e && writable e && (ro e <? HIGH_MEMORY) && (page_of e =? Z.of_nat i))
    (seq 0 1536) = true) by by vm_compute.
  rewrite forallb_forall in Hall. specialize (Hall i). rewrite <- list_elem_of_In, elem_of_seq in Hall.
  specialize (Hall ltac:(lia)). cbv zeta in *. rewrite !andb_true_iff, !Z.eqb_eq, Z.ltb_lt in Hall. tauto.
Qed.

Lemma pte_range m t k : in_u32 (pte m t k).
Proof. apply load32_range. Qed.

Lemma lor_small e i : (i < 1536)%nat -> e = page_addr i -> in_u32 (Z.lor e 7).
Proof.
  intros Hi ->. assert (Hall : forallb (fun i => (0 <=? Z.lor (page_addr i) 7) && (Z.lor (page_addr i) 7 <? 2 ^ 32)) (seq 0 1536) = true) by by vm_compute.
  rewrite forallb_forall in Hall. specialize (Hall i). rewrite <- list_elem_of_In, elem_of_seq in Hall. specialize (Hall ltac:(lia)).
  apply andb_prop in Hall as [?%Z.leb_le ?%Z.ltb_lt]. unfold in_u32. lia.
Qed.

(** ** One entry changes *)

Lemma pte_frame m m' t k : 0 <= t -> t + 4096 <= HIGH_MEMORY -> 0 <= k < 1024 ->
  (forall x, t + 4 * k <= x < t + 4 * k + 4 -> load8 m' x = load8 m x) -> pte m' t k = pte m t k.
Proof.
  intros Ht0 Ht Hk Hx. change HIGH_MEMORY with 0x800000 in Ht. unfold pte. apply load32_ext; [lia | lia |]. intros x ?. apply Hx. lia.
Qed.

Lemma users_update tabs m m' t k i :
  NoDup tabs -> (t, k) ∈ cells tabs ->
  (forall t' k', (t', k') ∈ cells tabs -> (t', k') <> (t, k) -> pte m' t' k' = pte m t' k') ->
  users m' tabs i = users m tabs i - maps i (pte m t k) + maps i (pte m' t k).
Proof.
  intros Hnd Hin Hsame. unfold users.
  rewrite (sum_update (fun c => maps i (pte m c.1 c.2)) (fun c => maps i (pte m' c.1 c.2)) _ (t, k)); [done | by apply NoDup_cells | done |].
  intros [t' k'] Hc Hne. cbn [fst snd]. by rewrite Hsame.
Qed.

(** Another entry for the same page. *)
Lemma users_two tabs m t k t' k' i :
  (t, k) ∈ cells tabs -> (t', k') ∈ cells tabs -> (t', k') <> (t, k) ->
  maps i (pte m t k) + maps i (pte m t' k') <= users m tabs i.
Proof.
  intros H1 H2 Hne. unfold users.
  apply (sum_two (fun c => maps i (pte m c.1 c.2)) (cells tabs) (t, k) (t', k')); [intros c; apply maps_range | congruence | done | done].
Qed.

Lemma page_addr_small tabs s j : cow tabs s -> page_addr j ∈ tabs -> (j < 1536)%nat.
Proof.
  intros Hcow Hj. destruct (cow_tab _ _ Hcow _ Hj) as (_ & _ & H). unfold page_addr in H.
  change HIGH_MEMORY with 0x800000 in H. change LOW_MEM with 0x200000 in H. lia.
Qed.

Section retarget.
Context (tabs : list Z) (s s' : mstate) (t k : Z) (i : nat).
Let e := pte (pm s) t k.
Let e' := pte (pm s') t k.
Context (Hcow : cow tabs s) (Hin : (t, k) ∈ cells tabs) (Hc : counted e = true) (Hi : (i < 1536)%nat).
Context (Hframe : forall x, in_u32 x -> ~ (t + 4 * k <= x < t + 4 * k + 4) -> ~ (page_addr i <= x < page_addr i + 4096) ->
  load8 (pm s') x = load8 (pm s) x).
Context (Halone : users (pm s) tabs i - maps i e <= 0) (Hdata : page_addr i ∉ tabs).

Lemma tab_range t' : t' ∈ tabs -> 4096 <= t' /\ t' mod 4096 = 0 /\ t' + 4096 <= 0x800000.
Proof. apply (cow_tab _ _ Hcow). Qed.

Lemma other_entry t' k' : (t', k') ∈ cells tabs -> (t', k') <> (t, k) -> pte (pm s') t' k' = pte (pm s) t' k'.
Proof.
  intros Hin' Hne. pose proof Hin' as [Ht' Hk']%elem_of_cells. pose proof Hin as [Ht Hk]%elem_of_cells.
  destruct (tab_range t Ht) as (? & ? & ?), (tab_range t' Ht') as (? & ? & ?). pose proof (page_addr_range i Hi) as Hr.
  assert (Hni : page_addr i <> t') by (intros E; by rewrite E in Hdata).
  apply pte_frame; [lia | done | done |]. intros x Hx. unfold page_addr in Hr, Hni.
  change LOW_MEM with 0x200000 in Hr, Hni.
  apply Hframe; [unfold in_u32; lia | | unfold page_addr; change LOW_MEM with 0x200000; Z.div_mod_to_equations; lia].
  intros Hx2. destruct (decide (t' = t)) as [-> | Htt]; [apply Hne; f_equal; lia | Z.div_mod_to_equations; lia].
Qed.

(** No other entry maps page [i]. *)
Lemma other_page t' k' : (t', k') ∈ cells tabs -> (t', k') <> (t, k) -> maps i (pte (pm s) t' k') = 0.
Proof.
  intros Hin' Hne. pose proof (users_two tabs (pm s) t k t' k' i Hin Hin' Hne) as H2. fold e in H2.
  pose proof (maps_range i (pte (pm s) t' k')). lia.
Qed.

Lemma other_base t' k' : (t', k') ∈ cells tabs -> (t', k') <> (t, k) -> present (pte (pm s) t' k') = true ->
  base (pte (pm s) t' k') <> page_addr i.
Proof.
  intros Hin' Hne Hp Hb. pose proof (other_page t' k' Hin' Hne) as H0. set (x := pte (pm s) t' k') in *.
  assert (Hx : in_u32 x) by apply pte_range. pose proof (cow_high _ _ Hcow _ _ Hin' Hp) as Hhi. fold x in Hhi.
  destruct (counted x) eqn:Ec.
  - apply (maps_one i x Hx Ec Hhi) in Hb. lia.
  - pose proof (uncounted_page x Hx Hp Ec). pose proof (page_addr_range i Hi). change LOW_MEM with 0x200000 in *. lia.
Qed.

(** The bytes of another page. *)
Lemma other_bytes t' k' off : (t', k') ∈ cells tabs -> (t', k') <> (t, k) -> present (pte (pm s) t' k') = true ->
  0 <= off < 4096 -> load8 (pm s') (base (pte (pm s) t' k') + off) = load8 (pm s) (base (pte (pm s) t' k') + off).
Proof.
  intros Hin' Hne Hp Hoff. pose proof (other_base t' k' Hin' Hne Hp) as Hbi.
  pose proof (cow_apart _ _ Hcow _ _ Hin' Hp) as Hap. pose proof (cow_high _ _ Hcow _ _ Hin' Hp) as Hhi.
  set (x := pte (pm s) t' k') in *. destruct (present_page x) as (? & ? & ?); [apply pte_range | done | done |].
  pose proof Hin as [Ht Hk]%elem_of_cells. destruct (tab_range t Ht) as (? & ? & ?).
  assert (Hbt : base x <> t) by (intros E; by rewrite E in Hap). unfold page_addr in Hbi. change LOW_MEM with 0x200000 in Hbi.
  change HIGH_MEMORY with 0x800000 in *.
  apply Hframe; [unfold in_u32; lia | Z.div_mod_to_equations; lia |].
  unfold page_addr. change LOW_MEM with 0x200000. Z.div_mod_to_equations; lia.
Qed.

Context (Hb' : base e' = page_addr i) (Hc' : counted e' = true) (Hp' : page_of e' = Z.of_nat i) (Hh' : ro e' < HIGH_MEMORY).
Context (Hcopy : forall off, 0 <= off < 4096 -> load8 (pm s') (page_addr i + off) = load8 (pm s) (base e + off)).

Lemma retarget_seen t' k' off : (t', k') ∈ cells tabs -> 0 <= off < 4096 ->
  seen (pm s') t' k' off = seen (pm s) t' k' off.
Proof.
  intros Hin' Hoff. unfold seen. destruct (decide ((t', k') = (t, k))) as [[= -> ->] | Hne].
  - fold e e'. rewrite (counted_present e Hc), (counted_present e' Hc'), Hb'. by rewrite Hcopy.
  - rewrite (other_entry t' k' Hin' Hne). destruct (present _) eqn:Ep; [| done]. by rewrite other_bytes.
Qed.

Context (Hwf' : mm_wf s') (Hone : mem_map s' !!! i = 1).
Context (Hrest : forall j, (j < 1536)%nat -> j <> i -> mem_map s' !!! j = mem_map s !!! j - maps j e).

Lemma maps_new j : (j < 1536)%nat -> maps j e' = if decide (j = i) then 1 else 0.
Proof.
  intros Hj. unfold maps. rewrite Hc', Hp'. case_decide as E; [by rewrite E, Z.eqb_refl |].
  by rewrite (proj2 (Z.eqb_neq (Z.of_nat i) (Z.of_nat j))) by lia.
Qed.

Lemma retarget_cow : cow tabs s'.
Proof.
  assert (He : in_u32 e) by apply pte_range.
  pose proof (cow_high _ _ Hcow _ _ Hin (counted_present e Hc)) as Hhe. fold e in Hhe.
  constructor; [done | by destruct Hcow | by apply (cow_tab _ _ Hcow) | | | | |].
  - intros j Hj. pose proof (page_addr_small tabs s j Hcow Hj) as Hlt.
    rewrite Hrest by (done || by intros ->). assert (maps j e = 0) as ->; [| rewrite Z.sub_0_r; by apply (cow_held _ _ Hcow)].
    pose proof (maps_range j e). destruct (decide (maps j e = 1)) as [E |]; [| lia].
    apply (maps_one j e He Hc Hhe) in E. pose proof (cow_apart _ _ Hcow _ _ Hin (counted_present e Hc)) as Hap. fold e in Hap.
    by rewrite E in Hap.
  - intros t' k' Hin' Hp. destruct (decide ((t', k') = (t, k))) as [[= -> ->] | Hne]; [done |].
    rewrite other_entry in Hp |- * by done. by apply (cow_high _ _ Hcow).
  - intros t' k' Hin' Hp. destruct (decide ((t', k') = (t, k))) as [[= -> ->] | Hne]; [by fold e'; rewrite Hb' |].
    rewrite other_entry in Hp |- * by done. by apply (cow_apart _ _ Hcow).
  - intros j Hj. rewrite (users_update tabs (pm s) (pm s') t k j (cow_nodup _ _ Hcow) Hin other_entry). fold e e'.
    rewrite maps_new by done. case_decide as E; [subst j; lia |]. rewrite Hrest by done.
    pose proof (cow_count _ _ Hcow j Hj). lia.
  - intros t' k' Hin' Hct Hw. destruct (decide ((t', k') = (t, k))) as [[= -> ->] | Hne].
    { fold e'. by rewrite Hp', Nat2Z.id. }
    rewrite other_entry in Hct, Hw |- * by done. set (x := pte (pm s) t' k') in *.
    pose proof (cow_high _ _ Hcow _ _ Hin' (counted_present _ Hct)) as Hhx. fold x in Hhx.
    destruct (counted_page x (pte_range _ _ _) Hct Hhx) as [Hrx _].
    pose proof (cow_sole _ _ Hcow _ _ Hin' Hct Hw) as H1. fold x in H1. set (j := Z.to_nat (page_of x)) in *.
    assert (Hmx : maps j x = 1) by (unfold maps; rewrite Hct; unfold j; rewrite Z2Nat.id by lia; by rewrite Z.eqb_refl).
    assert (Hji : j <> i). { intros E. pose proof (other_page t' k' Hin' Hne) as H0. fold x in H0. rewrite <- E in H0. lia. }
    rewrite Hrest by (unfold j; (done || lia)). pose proof (users_two tabs (pm s) t k t' k' j Hin Hin' Hne) as H2. fold e x in H2.
    pose proof (cow_count _ _ Hcow j ltac:(unfold j; lia)). pose proof (maps_range j e). lia.
Qed.
End retarget.

(** ** The fault *)

Lemma maps_counted e : in_u32 e -> counted e = true -> ro e < HIGH_MEMORY -> maps (Z.to_nat (page_of e)) e = 1.
Proof. intros He Hc Hhi. apply maps_one; [done | done | done | by apply counted_page]. Qed.
Lemma maps_other e j : 0 <= page_of e -> j <> Z.to_nat (page_of e) -> maps j e = 0.
Proof. intros Hr Hj. unfold maps. rewrite (proj2 (Z.eqb_neq (page_of e) (Z.of_nat j))) by lia. by rewrite andb_false_r. Qed.

Section fault.
Context `{Exit} (tabs : list Z) (s : mstate) (t k : Z).
Let e := pte (pm s) t k.
Context (Hcow : cow tabs s) (Hin : (t, k) ∈ cells tabs) (Hc : counted e = true).

(** Where the entry and its page are. *)
Lemma fault_place : let p := Z.to_nat (page_of e) in
  in_u32 e /\ (p < 1536)%nat /\ base e = page_addr p /\ (page_addr p ∉ tabs) /\ maps p e = 1 /\
  0 <= t + 4 * k /\ t + 4 * k + 4 <= 0x800000 /\ disjoint (t + 4 * k) 4 (page_addr p) 4096 /\
  apart_from_free s (t + 4 * k) /\ 1 <= mem_map s !!! p.
Proof.
  intros p. assert (He : in_u32 e) by apply pte_range.
  pose proof (cow_high _ _ Hcow _ _ Hin (counted_present e Hc)) as Hhi. fold e in Hhi.
  destruct (counted_page e He Hc Hhi) as [Hr Hb]. fold p in Hb.
  pose proof (cow_apart _ _ Hcow _ _ Hin (counted_present e Hc)) as Hap. fold e in Hap. rewrite Hb in Hap.
  pose proof (maps_counted e He Hc Hhi) as Hm. fold p in Hm. assert (Hp : (p < 1536)%nat) by (unfold p; lia).
  pose proof Hin as [Ht Hk]%elem_of_cells. destruct (cow_tab _ _ Hcow t Ht) as (H1 & H2 & H3). change HIGH_MEMORY with 0x800000 in H3.
  assert (Hfar : forall i, (i < 1536)%nat -> page_addr i <> t -> disjoint (t + 4 * k) 4 (page_addr i) 4096).
  { intros i Hi Hne. unfold disjoint, page_addr in *. change LOW_MEM with 0x200000 in *. Z.div_mod_to_equations. lia. }
  split; [done |]. split; [done |]. split; [done |]. split; [done |]. split; [done |]. split; [lia |]. split; [lia |].
  split; [apply Hfar; [done | by intros E; rewrite E in Hap] |]. split.
  - intros i Hi. pose proof (cow_wf _ _ Hcow) as [Hl _]. apply Hfar; [apply lookup_lt_Some in Hi; lia |]. intros E.
    apply (cow_held _ _ Hcow i); [by rewrite E | by apply list_lookup_total_correct].
  - pose proof (cow_count _ _ Hcow p Hp). pose proof (sum_one (fun c => maps p (pte (pm s) c.1 c.2)) (cells tabs) (t, k)
      (fun c => proj1 (maps_range p _)) Hin) as H1u. cbn [fst snd] in H1u. fold (users (pm s) tabs p) in H1u. fold e in H1u. lia.
Qed.

(** After the fault all programs see what they saw, and the entry is writable. *)
Definition faulted (s' : mstate) : Prop :=
  cow tabs s' /\ counted (pte (pm s') t k) = true /\ writable (pte (pm s') t k) = true /\
  forall t' k' off, (t', k') ∈ cells tabs -> 0 <= off < 4096 -> seen (pm s') t' k' off = seen (pm s) t' k' off.

(** The page of a single user. *)
Lemma fault_sole : mem_map s !!! Z.to_nat (page_of e) = 1 ->
  faulted (set_pm (store32 (pm s) (t + 4 * k) (Z.lor e 2)) s).
Proof.
  intros Hone. destruct fault_place as (He & Hp & Hb & Hd & Hm & H1 & H2 & Hdis & _ & _).
  set (p := Z.to_nat (page_of e)) in *. set (s' := set_pm _ s).
  pose proof (cow_high _ _ Hcow _ _ Hin (counted_present e Hc)) as Hhi. fold e in Hhi.
  destruct (counted_page e He Hc Hhi) as [Hpe _]. destruct (rw_entry e) as (Eb & Ep & Ec & Eo & Ew).
  assert (He' : pte (pm s') t k = Z.lor e 2).
  { unfold pte, s'. cbn [pm set_pm]. rewrite load32_store32_eq. apply u32_small. by apply (lor_pow2_range e 1). }
  assert (Hfr : forall x, in_u32 x -> ~ (t + 4 * k <= x < t + 4 * k + 4) -> ~ (page_addr p <= x < page_addr p + 4096) ->
    load8 (pm s') x = load8 (pm s) x).
  { intros x Hx Hx1 _. apply load8_store32_ne. unfold disjoint, in_u32 in *. lia. }
  assert (Hal : users (pm s) tabs p - maps p e <= 0) by (pose proof (cow_count _ _ Hcow p Hp); lia).
  assert (Hcp : forall off, 0 <= off < 4096 -> load8 (pm s') (page_addr p + off) = load8 (pm s) (base e + off)).
  { intros off Hoff. rewrite Hb. apply load8_store32_ne. unfold disjoint in *. lia. }
  rewrite <- He' in Eb, Ec, Eo, Ew. split; [| split; [by rewrite Ec | split; [done |]]].
  - apply (retarget_cow tabs s s' t k p); try done; [by rewrite Eb | by rewrite Ec | lia | by rewrite He', ro_lor | by apply Hcow |].
    intros j Hj Hne. fold e. rewrite (maps_other e j) by (done || lia). change (mem_map s') with (mem_map s). lia.
  - intros t' k' off Hin' Hoff. apply (retarget_seen tabs s s' t k p); try done; [by rewrite Eb | by rewrite Ec].
Qed.

(** The page of several. *)
Lemma fault_shared s' i c : let p := Z.to_nat (page_of e) in
  mem_map s !! p = Some c -> 1 <= c -> c <> 1 -> mem_map s !! i = Some 0 ->
  mem_map s' = <[p := c - 1]> (<[i := 1]> (mem_map s)) -> load32 (pm s') (t + 4 * k) = Z.lor (page_addr i) 7 ->
  load_bytes (pm s') (page_addr i) 4096 = load_bytes (pm s) (page_addr p) 4096 ->
  (forall x, in_u32 x -> ~ (t + 4 * k <= x < t + 4 * k + 4) -> ~ (page_addr i <= x < page_addr i + 4096) ->
     load8 (pm s') x = load8 (pm s) x) -> faulted s'.
Proof.
  intros p Hlk Hpos Hc1 Hi0 Hmm He' Hnew Hfr. destruct fault_place as (He & Hp & Hb & _). fold p in Hp, Hb.
  pose proof (cow_wf _ _ Hcow) as Hwf. pose proof Hwf as [Hl _].
  pose proof (cow_high _ _ Hcow _ _ Hin (counted_present e Hc)) as Hhi. fold e in Hhi.
  destruct (counted_page e He Hc Hhi) as [Hpe _]. assert (Hi : (i < 1536)%nat) by (apply lookup_lt_Some in Hi0; lia).
  destruct (new_entry i Hi) as (Eb & Ep & Ec & Ew & Eh & Eo). fold (pte (pm s') t k) in He'. rewrite <- He' in Eb, Ec, Eo, Ew, Eh.
  assert (Hip : i <> p) by (intros ->; rewrite Hi0 in Hlk; injection Hlk; lia).
  assert (Hmi : maps i e = 0) by (apply maps_other; (done || lia)).
  assert (Hal : users (pm s) tabs i - maps i e <= 0).
  { pose proof (cow_count _ _ Hcow i Hi) as Hcnt. rewrite (list_lookup_total_correct _ _ _ Hi0) in Hcnt. lia. }
  assert (Hdi : page_addr i ∉ tabs) by (intros E; apply (cow_held _ _ Hcow i E); by apply list_lookup_total_correct).
  assert (Hcp : forall off, 0 <= off < 4096 -> load8 (pm s') (page_addr i + off) = load8 (pm s) (base e + off)).
  { intros off Hoff. pose proof (f_equal (fun l => l !! Z.to_nat off) Hnew) as E. cbn beta in E.
    rewrite !lookup_load_bytes, Z2Nat.id in E by lia. rewrite Hb. by injection E. }
  assert (Hwf' : mm_wf s').
  { split; [by rewrite Hmm, !length_insert |]. rewrite Hmm. pose proof (Forall_lookup_1 _ _ _ _ (proj2 Hwf) Hlk). cbn beta in *.
    apply Forall_insert; [apply Forall_insert; [apply Hwf | lia] | lia]. }
  split; [| split; [done | split; [done |]]]; [| intros t' k' off Hin' Hoff; by apply (retarget_seen tabs s s' t k i)].
  apply (retarget_cow tabs s s' t k i); try done.
  - rewrite Hmm, list_lookup_total_insert_ne by congruence. apply list_lookup_total_insert_eq. lia.
  - intros j Hj Hne. fold e. rewrite Hmm. destruct (decide (j = p)) as [-> |].
    + rewrite list_lookup_total_insert_eq by (rewrite length_insert; lia). rewrite (list_lookup_total_correct _ _ _ Hlk).
      assert (maps p e = 1) by (by apply maps_counted). lia.
    + rewrite !list_lookup_total_insert_ne by congruence. rewrite (maps_other e j); [lia | lia | done].
Qed.

Lemma un_wp_cow :
  (mem_map s !!! Z.to_nat (page_of e) <> 1 -> exists j, mem_map s !! j = Some 0) ->
  exists s', un_wp_page (t + 4 * k) s = Done tt s' /\ faulted s'.
Proof.
  intros Hfree. destruct fault_place as (He & Hp & Hb & _ & _ & H1 & H2 & Hdis & Hapart & Hpos).
  set (p := Z.to_nat (page_of e)) in *. pose proof (cow_wf _ _ Hcow) as Hwf.
  destruct (lookup_lt_is_Some_2 (mem_map s) p) as [c Hlk]; [by rewrite (proj1 Hwf) |].
  assert (Hcp : mem_map s !!! p = c) by by apply list_lookup_total_correct. rewrite Hcp in Hfree, Hpos.
  assert (Hbm : e - e mod 4096 = page_addr p) by (rewrite <- Hb; unfold base; rewrite Z.land_comm; symmetry; by apply land_page_mask).
  pose proof (un_wp_page_correct s (t + 4 * k) e p c Hwf eq_refl Hbm Hlk ltac:(lia) Hapart H1 ltac:(lia) Hdis) as Hrun.
  destruct (Z.eqb_spec c 1) as [E |]; [eexists; split; [exact Hrun |]; apply fault_sole; by rewrite <- E |].
  destruct (Hrun (Hfree ltac:(done))) as (i & s' & Hr & Hi0 & Hmm & He' & Hnew & _ & Hfr).
  exists s'. split; [done |]. by apply (fault_shared s' i c).
Qed.
End fault.

(** ** The write *)

Section store.
Context (tabs : list Z) (s : mstate) (t k off v : Z).
Let e := pte (pm s) t k.
Let s' := set_pm (store8 (pm s) (base e + off) v) s.
Context (Hcow : cow tabs s) (Hin : (t, k) ∈ cells tabs) (Hc : counted e = true) (Hw : writable e = true) (Hoff : 0 <= off < 4096).

Lemma store_range : base e = page_addr (Z.to_nat (page_of e)) /\ 0 <= page_of e < 1536 /\ in_u32 (base e + off).
Proof.
  pose proof (cow_high _ _ Hcow _ _ Hin (counted_present e Hc)) as Hhi. fold e in Hhi.
  destruct (counted_page e (pte_range _ _ _) Hc Hhi) as [Hr Hb]. split; [done |]. split; [done |]. rewrite Hb.
  pose proof (page_addr_range (Z.to_nat (page_of e)) ltac:(lia)). unfold in_u32. lia.
Qed.

Lemma store_frame x : in_u32 x -> x <> base e + off -> load8 (pm s') x = load8 (pm s) x.
Proof. intros Hx Hne. apply load8_store8_ne. rewrite !u32_small by (done || apply store_range). congruence. Qed.

Lemma store_entry t' k' : (t', k') ∈ cells tabs -> pte (pm s') t' k' = pte (pm s) t' k'.
Proof.
  intros Hin'. pose proof Hin' as [Ht' Hk']%elem_of_cells. destruct (cow_tab _ _ Hcow t' Ht') as (H1 & H2 & H3).
  pose proof (cow_apart _ _ Hcow _ _ Hin (counted_present e Hc)) as Hap. fold e in Hap.
  apply pte_frame; [lia | done | done |]. intros x Hx. change HIGH_MEMORY with 0x800000 in *.
  apply store_frame; [unfold in_u32; lia |]. intros ->. destruct store_range as (Hb & Hr & _).
  assert (base e <> t') by (by intros E; rewrite E in Hap). rewrite Hb in *. unfold page_addr in *.
  change LOW_MEM with 0x200000 in *. Z.div_mod_to_equations. lia.
Qed.

Lemma store_cow : cow tabs s'.
Proof.
  destruct Hcow as [H1 H2 H3 H4 H5 H6 H7 H8]. constructor; [done | done | done | done | | | |].
  - intros t' k' Hin'. rewrite store_entry by done. by apply H5.
  - intros t' k' Hin'. rewrite store_entry by done. by apply H6.
  - intros i Hi. etrans; [| by apply H7]. apply Z.eq_le_incl, sum_ext. intros [t' k'] Hin'. cbn [fst snd]. by rewrite store_entry.
  - intros t' k' Hin'. rewrite store_entry by done. by apply H8.
Qed.

(** Nobody else has the page. *)
Lemma store_alone t' k' : (t', k') ∈ cells tabs -> (t', k') <> (t, k) -> present (pte (pm s) t' k') = true ->
  base (pte (pm s) t' k') <> base e.
Proof.
  intros Hin' Hne Hp Hb. destruct store_range as (Hbe & Hr & _). set (p := Z.to_nat (page_of e)) in *.
  pose proof (cow_high _ _ Hcow _ _ Hin' Hp) as Hhi. pose proof (cow_high _ _ Hcow _ _ Hin (counted_present e Hc)) as Hhe. fold e in Hhe.
  destruct (counted (pte (pm s) t' k')) eqn:Ec.
  - rewrite Hbe in Hb. apply (maps_one p _ (pte_range _ _ _) Ec Hhi) in Hb.
    pose proof (maps_counted e (pte_range _ _ _) Hc Hhe) as He. fold p in He.
    pose proof (users_two tabs (pm s) t k t' k' p Hin Hin' Hne) as H2. fold e in H2.
    pose proof (cow_count _ _ Hcow p ltac:(unfold p; lia)). pose proof (cow_sole _ _ Hcow _ _ Hin Hc Hw) as H1.
    change (mem_map s !!! p = 1) in H1. change (maps p e + maps p (pte (pm s) t' k') <= users (pm s) tabs p) in H2. lia.
  - pose proof (uncounted_page _ (pte_range _ _ _) Hp Ec) as [_ Hlow]. rewrite Hb, Hbe in Hlow.
    pose proof (page_addr_range p ltac:(unfold p; lia)). change LOW_MEM with 0x200000 in Hlow. lia.
Qed.

Lemma store_seen t' k' off' : (t', k') ∈ cells tabs -> 0 <= off' < 4096 ->
  seen (pm s') t' k' off' = if decide ((t', k', off') = (t, k, off)) then Some (u8 v) else seen (pm s) t' k' off'.
Proof.
  intros Hin' Hoff'. unfold seen. rewrite store_entry by done. case_decide as E.
  - injection E as -> -> ->. fold e. rewrite (counted_present e Hc). f_equal. apply load8_store8_eq.
  - destruct (present _) eqn:Ep; [| done]. f_equal. pose proof (cow_high _ _ Hcow _ _ Hin' Ep) as Hhi.
    destruct (present_page _ (pte_range _ _ _) Ep Hhi) as (P1 & P2 & P3). change HIGH_MEMORY with 0x800000 in P3.
    apply store_frame; [unfold in_u32; lia |]. destruct (decide ((t', k') = (t, k))) as [[= -> ->] | Hne]; [fold e; intros ?; apply E; f_equal; lia |].
    pose proof (store_alone t' k' Hin' Hne Ep) as Hal. destruct store_range as (Hb & _ & _). rewrite Hb in *. unfold page_addr in *.
    change LOW_MEM with 0x200000 in *. Z.div_mod_to_equations. lia.
Qed.
End store.

(** C29: a write is its writer's alone. While the counts of the pages are right,
    a program that writes at offset [off] to a page of the paged memory it may
    not write to gets, by [un_wp_page] — if the page has no other users or there
    is a free one — an entry it may write through, by way of which the byte
    goes to a page that no other entry of any page table maps: then the program
    finds there what it wrote, everything else that any program can reach, with
    whom it shared the page or not, is what it was before the fault, and the
    counts are right. *)
Theorem write_isolated `{Exit} tabs s t k off v :
  cow tabs s -> (t, k) ∈ cells tabs -> counted (pte (pm s) t k) = true -> 0 <= off < 4096 ->
  (mem_map s !!! Z.to_nat (page_of (pte (pm s) t k)) <> 1 -> exists j, mem_map s !! j = Some 0) ->
  exists s', un_wp_page (t + 4 * k) s = Done tt s' /\ writable (pte (pm s') t k) = true /\
    let s2 := set_pm (store8 (pm s') (base (pte (pm s') t k) + off) v) s' in
    cow tabs s2 /\
    forall t' k' off', (t', k') ∈ cells tabs -> 0 <= off' < 4096 ->
      seen (pm s2) t' k' off' = if decide ((t', k', off') = (t, k, off)) then Some (u8 v) else seen (pm s) t' k' off'.
Proof.
  intros Hcow Hin Hc Hoff Hfree. destruct (un_wp_cow tabs s t k Hcow Hin Hc Hfree) as (s' & Hrun & Hcow' & Hc' & Hw' & Hv).
  exists s'. split; [done |]. split; [done |]. split; [by apply store_cow |].
  intros t' k' off' Hin' Hoff'. rewrite (store_seen tabs) by done. case_decide; [done | by apply Hv].
Qed.

(** ** An instance *)

(** Two programs that share page 5, behind the first entries of the tables in
    pages 100 and 101. *)
Definition shared_tabs : list Z := [page_addr 100; page_addr 101].
Definition shared_demo : mstate :=
  {| pm := store32 (store32 ∅ (page_addr 100) (page_addr 5 + 5)) (page_addr 101) (page_addr 5 + 5);
     mem_map := <[5%nat := 2]> (<[100%nat := 1]> (<[101%nat := 1]> (replicate 1536 0))); klog := [] |}.

Lemma shared_entry t k : (t, k) ∈ cells shared_tabs ->
  pte (pm shared_demo) t k = if decide (k = 0) then page_addr 5 + 5 else 0.
Proof.
  intros [Ht Hk]%elem_of_cells. unfold pte, shared_demo. cbn [pm].
  assert (Hempty : forall a, load32 ∅ a = 0) by (intros a; unfold load32, load16, load8; by rewrite !lookup_empty).
  change (page_addr 100) with 0x264000 in *. change (page_addr 101) with 0x265000 in *.
  apply elem_of_cons in Ht as [-> | Ht]; [| apply list_elem_of_singleton in Ht as ->].
  - rewrite load32_store32_ne by (unfold disjoint; change (page_addr 100) with 0x264000; lia). case_decide as E.
    + subst k. change (page_addr 100 + 4 * 0) with 0x264000. by rewrite load32_store32_eq.
    + rewrite load32_store32_ne; [apply Hempty | unfold disjoint; change (page_addr 100) with 0x264000; lia].
  - case_decide as E.
    + subst k. change (page_addr 101 + 4 * 0) with 0x265000. by rewrite load32_store32_eq.
    + rewrite !load32_store32_ne; [apply Hempty | | ]; unfold disjoint; change (page_addr 101) with 0x265000; lia.
Qed.

Lemma shared_map i : (i < 1536)%nat ->
  mem_map shared_demo !!! i = if decide (i = 5%nat) then 2 else if decide (i = 100%nat \/ i = 101%nat) then 1 else 0.
Proof.
  intros Hi. unfold shared_demo. cbn [mem_map]. assert (Hl : length (replicate 1536 0) = 1536%nat) by apply length_replicate.
  repeat rewrite list_insert_lookup_total by (rewrite ?length_insert, Hl; lia).
  rewrite lookup_total_replicate_2 by done. repeat case_decide; lia.
Qed.

Lemma shared_cow : cow shared_tabs shared_demo.
Proof.
  constructor.
  - split; [reflexivity |]. repeat apply Forall_insert; try lia. apply Forall_replicate. lia.
  - by apply (bool_decide_unpack (NoDup shared_tabs)).
  - intros t [-> | ->%list_elem_of_singleton]%elem_of_cons; by vm_compute.
  - intros j Hj. assert (j = 100%nat \/ j = 101%nat) as [-> | ->]; [| by vm_compute | by vm_compute].
    apply elem_of_cons in Hj as [E | E%list_elem_of_singleton]; unfold page_addr in E; lia.
  - intros t k Hin. rewrite shared_entry by done. case_decide; by vm_compute.
  - intros t k Hin. rewrite shared_entry by done. case_decide; [| done]. intros _.
    change (base (page_addr 5 + 5)) with (page_addr 5). by apply (bool_decide_unpack (page_addr 5 ∉ shared_tabs)).
  - intros i Hi. rewrite shared_map by done. assert (Hu : users (pm shared_demo) shared_tabs i = 2 * maps i (page_addr 5 + 5)).
    { unfold users. rewrite (sum_ext _ (fun c => if decide (c.2 = 0) then maps i (page_addr 5 + 5) else 0)).
      - pose proof (maps_range i (page_addr 5 + 5)). assert (maps i (page_addr 5 + 5) = 0 \/ maps i (page_addr 5 + 5) = 1) as [-> | ->] by lia; by vm_compute.
      - intros [t k] Hin. cbn [fst snd]. rewrite shared_entry by done. case_decide; [done |]. reflexivity. }
    rewrite Hu. unfold maps. change (counted (page_addr 5 + 5)) with true. change (page_of (page_addr 5 + 5)) with 5.
    destruct (Z.eqb_spec 5 (Z.of_nat i)); cbn [andb]; repeat case_decide; lia.
  - intros t k Hin. rewrite shared_entry by done. case_decide; by vm_compute.
Qed.

Lemma write_isolated_witness :
  exists s', @un_wp_page (fun _ => mret tt) (page_addr 100 + 4 * 0) shared_demo = Done tt s' /\
    let s2 := set_pm (store8 (pm s') (base (pte (pm s') (page_addr 100) 0) + 7) 42) s' in
    seen (pm s2) (page_addr 100) 0 7 = Some 42 /\
    seen (pm s2) (page_addr 101) 0 7 = seen (pm shared_demo) (page_addr 101) 0 7.
Proof.
  destruct (@write_isolated (fun _ => mret tt) shared_tabs shared_demo (page_addr 100) 0 7 42)
    as (s' & Hrun & _ & _ & Hv).
  - exact shared_cow.
  - apply elem_of_cells. split; [apply list_elem_of_here | lia].
  - by vm_compute.
  - lia.
  - intros _. exists 9%nat. by vm_compute.
  - exists s'. split; [exact Hrun |]. split; rewrite Hv; try lia.
    + by rewrite decide_True.
    + apply elem_of_cells. split; [apply list_elem_of_here | lia].
    + rewrite decide_False by done. done.
    + apply elem_of_cells. split; [apply list_elem_of_further, list_elem_of_here | lia].
Defined.
