(* ===== verification/CowFork.v ===== *)
(** * CowFork: what [fork] does to the pages

    [copy_page_tables] of src/linux-0.01/mm/memory.c ([Mm]) as a whole: the child
    gets page tables of its own, sees what the parent sees, and the invariant
    [cow] of [Cow] holds with the new tables among the others. *)

From S2P Require Import Prelude Mem Libc Vsprintf Mm Cow.

(** ** Sharing *)

(** The body of the loop of [copy_page_tables], for the table [f] and the entry
    [d] of the directory, when there is a free page. *)
Definition share (f d : Z) : M mstate Z :=
  to_table ← get_free_page;
  _ ← stm d (Z.lor to_table 7);
  _ ← copy_table 1024 f to_table;
  mret to_table.

Lemma refs_ext m m' f n j : (forall k, 0 <= k < Z.of_nat n -> pte m' f k = pte m f k) -> refs m' f n j = refs m f n j.
Proof.
  induction n as [| n IH]; intros H; cbn [refs]; [done |]. rewrite IH by (intros; apply H; lia). by rewrite H by lia.
Qed.
Lemma refs_maps m f n j : 0 <= refs m f n (Z.of_nat j) /\
  (refs m f n (Z.of_nat j) <> 0 -> exists k, 0 <= k < Z.of_nat n /\ maps j (pte m f k) = 1).
Proof.
  induction n as [| n [IH1 IH2]]; cbn [refs]; [done |]. fold (maps j (pte m f (Z.of_nat n))).
  pose proof (maps_range j (pte m f (Z.of_nat n))). split; [lia |]. intros Hne.
  destruct (decide (maps j (pte m f (Z.of_nat n)) = 1)) as [E |]; [exists (Z.of_nat n); split; [lia | done] |].
  destruct IH2 as (k & Hk & E); [lia |]. exists k. split; [lia | done].
Qed.
Lemma refs_sum m f n j : refs m f n (Z.of_nat j) = sum (fun c => maps j (pte m c.1 c.2)) ((fun k => (f, k)) <$> seqZ 0 (Z.of_nat n)).
Proof.
  induction n as [| n IH]; [done |]. rewrite Nat2Z.inj_succ. unfold Z.succ. rewrite seqZ_app by lia. rewrite fmap_app, sum_app, <- IH.
  cbn [refs]. fold (maps j (pte m f (Z.of_nat n))). rewrite Z.add_0_l.
  assert (seqZ (Z.of_nat n) 1 = [Z.of_nat n]) as -> by (unfold seqZ; cbn; f_equal; lia).
  change (sum _ ((fun k => (f, k)) <$> [Z.of_nat n])) with (maps j (pte m f (Z.of_nat n)) + 0). lia.
Qed.

Lemma refs_bound m f j : refs m f 1024 (Z.of_nat j) <= 1024.
Proof. rewrite refs_sum. etrans; [apply sum_bound; intros; apply maps_range |]. rewrite length_fmap, length_seqZ. lia. Qed.

(** No entry maps a free page. *)
Lemma free_unmapped tabs s i t k : cow tabs s -> mem_map s !! i = Some 0 -> (t, k) ∈ cells tabs ->
  present (pte (pm s) t k) = true -> base (pte (pm s) t k) <> page_addr i.
Proof.
  intros Hcow Hi0 Hin Hp Hb. assert (Hi : (i < 1536)%nat) by (apply lookup_lt_Some in Hi0; pose proof (cow_wf _ _ Hcow) as [? _]; lia).
  pose proof (cow_high _ _ Hcow _ _ Hin Hp) as Hhi. destruct (counted (pte (pm s) t k)) eqn:Ec.
  - apply (maps_one i _ (pte_range _ _ _) Ec Hhi) in Hb. pose proof (cow_count _ _ Hcow i Hi) as Hcnt.
    rewrite (list_lookup_total_correct _ _ _ Hi0) in Hcnt.
    pose proof (sum_one (fun c => maps i (pte (pm s) c.1 c.2)) (cells tabs) (t, k) (fun c => proj1 (maps_range i _)) Hin) as H1.
    cbn [fst snd] in H1. fold (users (pm s) tabs i) in H1. lia.
  - pose proof (uncounted_page _ (pte_range _ _ _) Hp Ec). pose proof (page_addr_range i Hi). change LOW_MEM with 0x200000 in *. lia.
Qed.

Section share.
Context (tabs : list Z) (s : mstate) (f d : Z) (Hcow : cow tabs s) (Hf : f ∈ tabs) (Hd : 0 <= d /\ d + 4 <= 4096).
Context (Hroom : forall j, (j < 1536)%nat -> mem_map s !!! j + refs (pm s) f 1024 (Z.of_nat j) < 65535).

Lemma share_run j0 : mem_map s !! j0 = Some 0 ->
  exists i s', share f d s = Done (page_addr i) s' /\ mem_map s !! i = Some 0 /\ mm_wf s' /\
    (forall k, 0 <= k < 1024 -> let e := pte (pm s) f k in
       pte (pm s') (page_addr i) k = (if present e then ro e else 0) /\ pte (pm s') f k = (if counted e then ro e else e)) /\
    (forall x, 4096 <= x < 2 ^ 32 -> ~ (f <= x < f + 4096) -> ~ (page_addr i <= x < page_addr i + 4096) ->
       load8 (pm s') x = load8 (pm s) x) /\
    (forall x, 0 <= x < 4096 -> load8 (pm s') x = load8 (store32 (pm s) d (Z.lor (page_addr i) 7)) x) /\
    (forall j, (j < 1536)%nat ->
       mem_map s' !!! j = (if decide (j = i) then 1 else mem_map s !!! j) + refs (pm s) f 1024 (Z.of_nat j)).
Proof.
  intros Hj0. pose proof (cow_wf _ _ Hcow) as Hwf. pose proof Hwf as [Hl Hfa].
  destruct (get_free_page_some s Hwf j0 Hj0) as (i & Hi & Hi0 & Hget). set (s0 := set_pm _ _) in Hget.
  set (s1 := set_pm (store32 (pm s0) d (Z.lor (page_addr i) 7)) s0).
  destruct (cow_tab _ _ Hcow f Hf) as (F1 & F2 & F3). change HIGH_MEMORY with 0x800000 in F3. pose proof (page_addr_range i Hi) as Hr.
  assert (Hfi : page_addr i <> f) by (intros E; apply (cow_held _ _ Hcow i); [by rewrite E | by apply list_lookup_total_correct]).
  assert (Hdis : disjoint f 4096 (page_addr i) 4096).
  { unfold disjoint, page_addr in *. change LOW_MEM with 0x200000 in *. Z.div_mod_to_equations. lia. }
  assert (Hz : forall x, 4096 <= x < 2 ^ 32 ->
    load8 (pm s1) x = if decide (page_addr i <= x < page_addr i + 4096) then 0 else load8 (pm s) x).
  { intros x Hx. unfold s1. cbn [pm set_pm]. rewrite load8_store32_ne by (unfold disjoint; lia).
    unfold s0, bzero. cbn [pm set_pm]. rewrite load8_memset by (unfold in_u32; lia). done. }
  assert (Hpf : forall k, 0 <= k < 1024 -> pte (pm s1) f k = pte (pm s) f k).
  { intros k Hk. apply pte_frame; [lia | done | done |]. intros x Hx. unfold disjoint in Hdis.
    rewrite Hz by lia. rewrite decide_False by lia. done. }
  destruct (copy_table_shares 1024 f (page_addr i) s1) as (s' & Hrun & Hwf' & Hpte & Hfr & Hmap).
  - split; [by rewrite <- Hl; apply length_insert |]. apply Forall_insert; [done | lia].
  - exact Hdis.
  - intros k Hk Hp. rewrite Hpf in Hp |- * by lia. apply (cow_high _ _ Hcow); [by apply elem_of_cells | done].
  - intros k Hk. unfold pte, load32, load16. rewrite !Hz by lia. by rewrite !decide_True by lia.
  - exists i, s'. split; [unfold share; rewrite (bind_Done _ _ _ _ _ Hget); rewrite (bind_Done (stm d _) _ s0 tt s1) by done;
      by rewrite (bind_Done _ _ _ _ _ Hrun) |].
    split; [done |]. split; [done |]. split; [| split; [| split]].
    + intros k Hk. specialize (Hpte k Hk). by rewrite Hpf in Hpte by lia.
    + intros x Hx H1 H2. rewrite Hfr by (unfold in_u32; lia). rewrite Hz by done. by rewrite decide_False by lia.
    + intros x Hx. rewrite Hfr by (unfold in_u32; lia). unfold s1. cbn [pm set_pm]. rewrite !load8_store32.
      assert (load8 (pm s0) x = load8 (pm s) x) as ->; [| done].
      unfold s0, bzero. cbn [pm set_pm]. rewrite load8_memset by (unfold in_u32; lia). by rewrite decide_False by lia.
    + intros j Hj. rewrite Hmap by done. rewrite (refs_ext (pm s) (pm s1)) by (intros; apply Hpf; lia).
      pose proof (refs_maps (pm s) f 1024 j) as [Hr0 _]. specialize (Hroom j Hj).
      destruct (lookup_lt_is_Some_2 (mem_map s) j) as [c Hc]; [lia |].
      pose proof (Forall_lookup_1 _ _ _ _ Hfa Hc) as Hcr. cbn beta in Hcr. rewrite (list_lookup_total_correct _ _ _ Hc) in *.
      change (mem_map s1) with (<[i := 1]> (mem_map s)). case_decide as E.
      * subst j. rewrite list_lookup_total_insert_eq by lia. apply u16_small. lia.
      * rewrite list_lookup_total_insert_ne by congruence. rewrite (list_lookup_total_correct _ _ _ Hc). apply u16_small. lia.
Qed.
End share.

Section shared.
Context (tabs : list Z) (s s' : mstate) (f : Z) (i : nat) (Hcow : cow tabs s) (Hf : f ∈ tabs) (Hi0 : mem_map s !! i = Some 0).
Let t := page_addr i.
Context (Hwf' : mm_wf s').
Context (Hpte : forall k, 0 <= k < 1024 -> let e := pte (pm s) f k in
  pte (pm s') t k = (if present e then ro e else 0) /\ pte (pm s') f k = (if counted e then ro e else e)).
Context (Hfr : forall x, 4096 <= x < 2 ^ 32 -> ~ (f <= x < f + 4096) -> ~ (t <= x < t + 4096) -> load8 (pm s') x = load8 (pm s) x).
Context (Hmap : forall j, (j < 1536)%nat ->
  mem_map s' !!! j = (if decide (j = i) then 1 else mem_map s !!! j) + refs (pm s) f 1024 (Z.of_nat j)).

Lemma share_fresh : (i < 1536)%nat /\ t ∉ tabs.
Proof.
  pose proof (cow_wf _ _ Hcow) as [Hl _]. split; [apply lookup_lt_Some in Hi0; lia |].
  intros E. by apply (cow_held _ _ Hcow i E), list_lookup_total_correct.
Qed.

Lemma share_other t' k : t' ∈ tabs -> t' <> f -> 0 <= k < 1024 -> pte (pm s') t' k = pte (pm s) t' k.
Proof.
  intros Ht' Hne Hk. destruct share_fresh as [Hi Hd]. assert (Hnt : t <> t') by (by intros E; rewrite E in Hd).
  destruct (cow_tab _ _ Hcow t' Ht') as (? & ? & H3), (cow_tab _ _ Hcow f Hf) as (? & ? & ?).
  apply pte_frame; [lia | done | done |]. intros x Hx. change HIGH_MEMORY with 0x800000 in *. unfold t, page_addr in *.
  change LOW_MEM with 0x200000 in *. apply Hfr; [lia | Z.div_mod_to_equations; lia | Z.div_mod_to_equations; lia].
Qed.

(** What becomes of the entries. *)
Lemma share_old t' k : (t', k) ∈ cells tabs ->
  pte (pm s') t' k = pte (pm s) t' k \/ (t' = f /\ counted (pte (pm s) t' k) = true /\ pte (pm s') t' k = ro (pte (pm s) t' k)).
Proof.
  intros [Ht' Hk]%elem_of_cells. destruct (decide (t' = f)) as [-> |]; [| left; by apply share_other].
  destruct (Hpte k Hk) as [_ E]. destruct (counted (pte (pm s) f k)) eqn:Ec; [right | left]; by rewrite E, ?Ec.
Qed.

Lemma share_old_same t' k : (t', k) ∈ cells tabs ->
  present (pte (pm s') t' k) = present (pte (pm s) t' k) /\ base (pte (pm s') t' k) = base (pte (pm s) t' k) /\
  ro (pte (pm s') t' k) = ro (pte (pm s) t' k) /\ forall j, maps j (pte (pm s') t' k) = maps j (pte (pm s) t' k).
Proof.
  intros Hin. destruct (share_old t' k Hin) as [-> | (_ & _ & ->)]; [done |].
  rewrite ro_present, ro_base, ro_ro. do 3 (split; [done |]). intros j. apply ro_maps.
Qed.

Lemma share_bytes t' k off : (t', k) ∈ cells tabs -> present (pte (pm s) t' k) = true -> low (pte (pm s) t' k) = false -> 0 <= off < 4096 ->
  load8 (pm s') (base (pte (pm s) t' k) + off) = load8 (pm s) (base (pte (pm s) t' k) + off).
Proof.
  intros Hin Hp Hlow Hoff. assert (Hnz : base (pte (pm s) t' k) <> 0) by (unfold low in Hlow; rewrite Hp in Hlow; by apply Z.eqb_neq in Hlow).
  pose proof (free_unmapped tabs s i t' k Hcow Hi0 Hin Hp) as Hn. pose proof (cow_apart _ _ Hcow _ _ Hin Hp) as Hap.
  destruct (present_page _ (pte_range _ _ _) Hp (cow_high _ _ Hcow _ _ Hin Hp)) as (P1 & P2 & P3). change HIGH_MEMORY with 0x800000 in P3.
  set (b := base (pte (pm s) t' k)) in *. destruct (cow_tab _ _ Hcow f Hf) as (? & ? & _).
  assert (b <> f) by (by intros E; rewrite E in Hap). unfold t, page_addr in *. change LOW_MEM with 0x200000 in *.
  apply Hfr; Z.div_mod_to_equations; lia.
Qed.

Lemma share_seen t' k off : (t', k) ∈ cells tabs -> low (pte (pm s) t' k) = false -> 0 <= off < 4096 -> seen (pm s') t' k off = seen (pm s) t' k off.
Proof.
  intros Hin Hnz Hoff. destruct (share_old_same t' k Hin) as (Ep & Eb & _). unfold seen. rewrite Ep, Eb.
  destruct (present (pte (pm s) t' k)) eqn:E; [| done]. by rewrite share_bytes.
Qed.

Lemma share_child k off : 0 <= k < 1024 -> low (pte (pm s) f k) = false -> 0 <= off < 4096 -> seen (pm s') t k off = seen (pm s) f k off.
Proof.
  intros Hk Hnz Hoff. destruct (Hpte k Hk) as [E _]. unfold seen. rewrite E. destruct (present (pte (pm s) f k)) eqn:Ep; [| done].
  rewrite ro_present, Ep, ro_base. rewrite share_bytes; [done | by apply elem_of_cells | done | done | done].
Qed.

Lemma share_users j : (j < 1536)%nat ->
  users (pm s') (t :: tabs) j = refs (pm s) f 1024 (Z.of_nat j) + users (pm s) tabs j.
Proof.
  intros Hj. unfold users. change (cells (t :: tabs)) with (entries t ++ cells tabs). rewrite sum_app. f_equal.
  - rewrite refs_sum. unfold entries, sum.
    assert (Hall : forall l, (forall k, k ∈ l -> 0 <= k < 1024) ->
      foldr (fun c z => maps j (pte (pm s') c.1 c.2) + z) 0 ((fun k => (t, k)) <$> l) =
      foldr (fun c z => maps j (pte (pm s) c.1 c.2) + z) 0 ((fun k => (f, k)) <$> l)).
    { induction l as [| k l IH]; intros Hl; [done |]. rewrite !fmap_cons. cbn [foldr fst snd].
      rewrite IH by (intros; apply Hl; by apply list_elem_of_further). f_equal.
      destruct (Hpte k (Hl k (list_elem_of_here _ _))) as [-> _]. destruct (present _) eqn:Ep; [apply ro_maps |].
      unfold maps, counted at 2. by rewrite Ep. }
    apply Hall. intros k Hk%elem_of_seqZ. lia.
  - apply sum_ext. intros [t' k] Hin. cbn [fst snd]. by apply share_old_same.
Qed.

(** A page that somebody may write to is not shared. *)
Lemma share_sole t' k : (t', k) ∈ cells tabs -> counted (pte (pm s') t' k) = true -> writable (pte (pm s') t' k) = true ->
  mem_map s' !!! Z.to_nat (page_of (pte (pm s') t' k)) = 1.
Proof.
  intros Hin Hc Hw. destruct (share_old t' k Hin) as [E | (-> & _ & E)]; [| by rewrite E, ro_writable in Hw].
  rewrite E in Hc, Hw |- *. set (e := pte (pm s) t' k) in *.
  pose proof (cow_high _ _ Hcow _ _ Hin (counted_present _ Hc)) as Hhi. fold e in Hhi.
  destruct (counted_page e (pte_range _ _ _) Hc Hhi) as [Hr _]. pose proof (cow_sole _ _ Hcow _ _ Hin Hc Hw) as H1. fold e in H1.
  pose proof (maps_counted e (pte_range _ _ _) Hc Hhi) as Hm. set (j := Z.to_nat (page_of e)) in *.
  assert (Hj : (j < 1536)%nat) by (unfold j; lia). rewrite Hmap by done.
  rewrite decide_False by (intros ->; rewrite (list_lookup_total_correct _ _ _ Hi0) in H1; done). rewrite H1.
  destruct (refs_maps (pm s) f 1024 j) as [_ Hpos]. destruct (decide (refs (pm s) f 1024 (Z.of_nat j) = 0)) as [-> | Hnz]; [done |].
  destruct (Hpos Hnz) as (k' & Hk' & Hm'). assert (Hin' : (f, k') ∈ cells tabs) by by apply elem_of_cells.
  destruct (decide ((f, k') = (t', k))) as [[= -> ->] | Hne].
  - destruct (Hpte k ltac:(lia)) as [_ E2]. fold e in E2. rewrite Hc in E2. pose proof (ro_writable e) as Hrw. rewrite <- E2, E in Hrw. congruence.
  - pose proof (users_two tabs (pm s) t' k f k' j Hin Hin' Hne) as H2. fold e in H2. pose proof (cow_count _ _ Hcow j Hj). lia.
Qed.

Lemma share_cow : cow (t :: tabs) s'.
Proof.
  destruct share_fresh as [Hi Hd]. pose proof (page_addr_range i Hi) as Hr.
  assert (Hcell : forall t' k, (t', k) ∈ cells (t :: tabs) -> (t' = t /\ 0 <= k < 1024) \/ (t', k) ∈ cells tabs).
  { intros t' k [[-> | Ht]%elem_of_cons Hk]%elem_of_cells; [by left | right; by apply elem_of_cells]. }
  constructor; [done | apply NoDup_cons; by destruct Hcow | | | | | |].
  - intros t' [-> | Ht']%elem_of_cons; [| by apply (cow_tab _ _ Hcow)]. change HIGH_MEMORY with 0x800000.
    unfold t, page_addr in *. change LOW_MEM with 0x200000 in *. Z.div_mod_to_equations. lia.
  - intros j Hj. assert (Hjlt : (j < 1536)%nat).
    { apply elem_of_cons in Hj as [E | Hj]; [| by eapply page_addr_small]. unfold t, page_addr in E. lia. }
    rewrite Hmap by done. pose proof (refs_maps (pm s) f 1024 j) as [H0 _]. case_decide as E; [lia |].
    apply elem_of_cons in Hj as [E2 | Hj]; [unfold t, page_addr in E2; lia |]. pose proof (cow_held _ _ Hcow j Hj).
    destruct (cow_wf _ _ Hcow) as [Hl Hall]. destruct (lookup_lt_is_Some_2 (mem_map s) j) as [c Hc]; [lia |].
    pose proof (Forall_lookup_1 _ _ _ _ Hall Hc) as Hcr. cbn beta in Hcr. rewrite (list_lookup_total_correct _ _ _ Hc) in *. lia.
  - intros t' k [[-> Hk] | Hin]%Hcell Hp.
    + destruct (Hpte k Hk) as [E _]. rewrite E in Hp |- *. destruct (present (pte (pm s) f k)) eqn:Ep; [| done]. rewrite ro_ro.
      apply (cow_high _ _ Hcow); [by apply elem_of_cells | done].
    + destruct (share_old_same t' k Hin) as (Ep & _ & Er & _). rewrite Ep in Hp. rewrite Er. by apply (cow_high _ _ Hcow).
  - assert (Hap : forall t' k, (t', k) ∈ cells tabs -> present (pte (pm s) t' k) = true -> base (pte (pm s) t' k) ∉ t :: tabs).
    { intros t' k Hin Hp [E | E]%elem_of_cons; [by eapply free_unmapped | by eapply cow_apart]. }
    intros t' k [[-> Hk] | Hin]%Hcell Hp.
    + destruct (Hpte k Hk) as [E _]. rewrite E in Hp |- *. destruct (present (pte (pm s) f k)) eqn:Ep; [| done]. rewrite ro_base.
      apply Hap; [by apply elem_of_cells | done].
    + destruct (share_old_same t' k Hin) as (Ep & Eb & _). rewrite Ep in Hp. rewrite Eb. by apply Hap.
  - intros j Hj. rewrite share_users, Hmap by done. pose proof (cow_count _ _ Hcow j Hj) as Hcnt. case_decide as E; [| lia].
    subst j. rewrite (list_lookup_total_correct _ _ _ Hi0) in Hcnt. lia.
  - intros t' k [[-> Hk] | Hin]%Hcell Hc Hw; [| by apply share_sole].
    destruct (Hpte k Hk) as [E _]. rewrite E in Hw. destruct (present _); [by rewrite ro_writable in Hw | done].
Qed.
End shared.

Lemma share_correct tabs s f d :
  cow tabs s -> f ∈ tabs -> 0 <= d /\ d + 4 <= 4096 -> (exists j, mem_map s !! j = Some 0) ->
  (forall j, (j < 1536)%nat -> mem_map s !!! j + 1024 < 65535) ->
  exists i s', share f d s = Done (page_addr i) s' /\ (i < 1536)%nat /\ (page_addr i ∉ tabs) /\ cow (page_addr i :: tabs) s' /\
    (forall t' k, (t', k) ∈ cells tabs -> low (pte (pm s') t' k) = low (pte (pm s) t' k)) /\
    (forall k, 0 <= k < 1024 -> low (pte (pm s') (page_addr i) k) = low (pte (pm s) f k)) /\
    (forall t' k off, (t', k) ∈ cells tabs -> low (pte (pm s) t' k) = false -> 0 <= off < 4096 ->
       seen (pm s') t' k off = seen (pm s) t' k off) /\
    (forall k off, 0 <= k < 1024 -> low (pte (pm s) f k) = false -> 0 <= off < 4096 ->
       seen (pm s') (page_addr i) k off = seen (pm s) f k off) /\
    (forall x, 0 <= x < 4096 -> load8 (pm s') x = load8 (store32 (pm s) d (Z.lor (page_addr i) 7)) x) /\
    (forall j, (j < 1536)%nat -> mem_map s' !!! j <= mem_map s !!! j + 1024).
Proof.
  intros Hcow Hf Hd [j0 Hj0] Hroom.
  assert (Hroom' : forall j, (j < 1536)%nat -> mem_map s !!! j + refs (pm s) f 1024 (Z.of_nat j) < 65535).
  { intros j Hj. pose proof (refs_bound (pm s) f j). specialize (Hroom j Hj). lia. }
  destruct (share_run tabs s f d Hcow Hf Hd Hroom' j0 Hj0) as (i & s' & Hrun & Hi0 & Hwf' & Hpte & Hfr & Hlow & Hmap).
  destruct (share_fresh tabs s i Hcow Hi0) as [Hi Hfresh]. exists i, s'. split; [done |]. split; [done |]. split; [done |].
  split; [by apply (share_cow tabs s s' f i) |]. split; [| split; [| split; [| split; [| split; [done |]]]]].
  - intros t' k Hin. destruct (share_old_same tabs s s' f i Hcow Hf Hi0 Hpte Hfr t' k Hin) as (Ep & Eb & _).
    unfold low. by rewrite Ep, Eb.
  - intros k Hk. destruct (Hpte k Hk) as [E _]. unfold low. rewrite E. destruct (present (pte (pm s) f k)) eqn:Ep; [| done].
    by rewrite ro_present, Ep, ro_base.
  - intros t' k off Hin Hnz Hoff. by apply (share_seen tabs s s' f i).
  - intros k off Hk Hnz Hoff. by apply (share_child tabs s s' f i).
  - intros j Hj. rewrite Hmap by done. pose proof (refs_bound (pm s) f j) as Hb. case_decide as E; [| lia].
    subst j. rewrite (list_lookup_total_correct _ _ _ Hi0).
    assert (refs (pm s) f 1024 (Z.of_nat i) = 0); [| lia].
    destruct (decide (refs (pm s) f 1024 (Z.of_nat i) = 0)) as [| Hnz]; [done |].
    destruct (proj2 (refs_maps (pm s) f 1024 i) Hnz) as (k & Hk & Hm). assert (Hin : (f, k) ∈ cells tabs) by by apply elem_of_cells.
    pose proof (cow_count _ _ Hcow i Hi) as Hcnt. rewrite (list_lookup_total_correct _ _ _ Hi0) in Hcnt.
    pose proof (sum_one (fun c => maps i (pte (pm s) c.1 c.2)) (cells tabs) (f, k) (fun c => proj1 (maps_range i _)) Hin) as H1.
    cbn [fst snd] in H1. fold (users (pm s) tabs i) in H1. lia.
Qed.

(** ** The directory *)

Lemma share_inv f d s t s' : share f d s = Done t s' -> exists s0 s1,
  get_free_page s = Done t s0 /\ stm d (Z.lor t 7) s0 = Done tt s1 /\ copy_table 1024 f t s1 = Done tt s'.
Proof.
  unfold share, mbind, M_bind. destruct (get_free_page s) as [t0 s0 |]; [| done]. destruct (stm d (Z.lor t0 7) s0) as [[] s1 |] eqn:E; [| done].
  destruct (copy_table 1024 f t0 s1) as [[] s2 |] eqn:E2; [| done]. intros [= <- <-]. by exists s0, s1.
Qed.

Lemma no_page s : mm_wf s -> (forall j, mem_map s !! j <> Some 0) -> get_free_page s = Done 0 s.
Proof.
  intros [Hl _] Hno. unfold get_free_page. rewrite (bind_Done (gets id) _ s s s) by done. change (Z.to_nat PAGING_PAGES) with 1536%nat.
  pose proof (scan_free_spec (mem_map s) 1536 ltac:(lia)) as Hs. destruct (scan_free _ _) as [i |]; [| done]. by destruct (Hno i (proj1 (proj2 Hs))).
Qed.

(** A word of the directory. *)
Lemma dir_frame m m' a : 0 <= a -> a + 4 <= 4096 -> (forall x, a <= x < a + 4 -> load8 m' x = load8 m x) -> load32 m' a = load32 m a.
Proof. intros H1 H2 Hx. apply load32_ext; [lia | lia |]. intros x ?. apply Hx. lia. Qed.

(** The child's entry [j] at [td] for the parent's at [fd]: a table of its own,
    among [new], behind which is what the parent sees. *)
Definition shared_dir (s s' : mstate) (new : list Z) (fd td j : Z) : Prop :=
  let d := load32 (pm s) (fd + 4 * j) in
  let d' := load32 (pm s') (td + 4 * j) in
  if present d then
    present d' = true /\ base d' ∈ new /\
    forall k off, 0 <= k < 1024 -> low (pte (pm s) (base d) k) = false -> 0 <= off < 4096 ->
      seen (pm s') (base d') k off = seen (pm s) (base d) k off
  else d' = load32 (pm s) (td + 4 * j).

(** Two entries have two tables. *)
Definition own_tables (s s' : mstate) (fd td : Z) (n : nat) : Prop :=
  forall j j', 0 <= j < Z.of_nat n -> 0 <= j' < Z.of_nat n -> j <> j' ->
    present (load32 (pm s) (fd + 4 * j)) = true -> present (load32 (pm s) (fd + 4 * j')) = true ->
    base (load32 (pm s') (td + 4 * j)) <> base (load32 (pm s') (td + 4 * j')).

(** What the programs see stays. *)
Definition unnoticed (tabs : list Z) (s s' : mstate) : Prop :=
  (forall t k, (t, k) ∈ cells tabs -> low (pte (pm s') t k) = low (pte (pm s) t k)) /\
  (forall t k off, (t, k) ∈ cells tabs -> low (pte (pm s) t k) = false -> 0 <= off < 4096 ->
     seen (pm s') t k off = seen (pm s) t k off).

Record copied_dirs (n : nat) (tabs : list Z) (s : mstate) (fd td : Z) (oom : bool) (s' : mstate) (new : list Z) : Prop := {
  cd_cow : cow (new ++ tabs) s';
  cd_old : unnoticed tabs s s';
  cd_dir : forall x, 0 <= x < 4096 -> ~ (td <= x < td + 4 * Z.of_nat n) -> load8 (pm s') x = load8 (pm s) x;
  cd_new : oom = false -> (forall j, 0 <= j < Z.of_nat n -> shared_dir s s' new fd td j) /\ own_tables s s' fd td n;
  cd_oom : oom = true -> forall j, mem_map s' !! j <> Some 0
}.

(** What the loop asks for. *)
Record dirs_ready (n : nat) (tabs : list Z) (s : mstate) (fd td : Z) : Prop := {
  dr_cow : cow tabs s;
  dr_place : 0 <= fd /\ 0 <= td /\ fd + 4 * Z.of_nat n <= 4096 /\ td + 4 * Z.of_nat n <= 4096 /\
    (fd + 4 * Z.of_nat n <= td \/ td + 4 * Z.of_nat n <= fd);
  dr_from : forall j, 0 <= j < Z.of_nat n -> present (load32 (pm s) (fd + 4 * j)) = true -> base (load32 (pm s) (fd + 4 * j)) ∈ tabs;
  dr_to : forall j, 0 <= j < Z.of_nat n -> present (load32 (pm s) (td + 4 * j)) = false;
  dr_room : forall j, (j < 1536)%nat -> mem_map s !!! j + 1024 * Z.of_nat n < 65535
}.

Lemma unnoticed_trans tabs t s s1 s2 : unnoticed tabs s s1 -> unnoticed (t :: tabs) s1 s2 -> unnoticed tabs s s2.
Proof.
  intros [A1 A2] [B1 B2]. assert (Hin' : forall t' k, (t', k) ∈ cells tabs -> (t', k) ∈ cells (t :: tabs)).
  { intros t' k [Ht Hk]%elem_of_cells. apply elem_of_cells. split; [by apply list_elem_of_further | done]. }
  split; [intros t' k Hin; rewrite B1 by auto; by apply A1 |]. intros t' k off Hin Hl Hoff.
  rewrite B2; [by apply A2 | auto | by rewrite A1 | done].
Qed.

Section copy_dirs.
Context (from : Z) (Hfrom : from <> 0).

(** An entry that is not there. *)
Lemma copy_dirs_skip n tabs s fd td : dirs_ready (S n) tabs s fd td -> present (load32 (pm s) fd) = false ->
  dirs_ready n tabs s (fd + 4) (td + 4) /\ copy_dirs (S n) from fd td s = copy_dirs n from (fd + 4) (td + 4) s.
Proof.
  intros [Hcow (P1 & P2 & P3 & P4 & P5) Hfr Hto Hroom] Hp. split.
  - constructor; [done | lia | | | intros j Hj; specialize (Hroom j Hj); lia].
    + intros j Hj Hpj. replace (fd + 4 + 4 * j) with (fd + 4 * (j + 1)) in Hpj |- * by lia. apply Hfr; [lia | done].
    + intros j Hj. replace (td + 4 + 4 * j) with (td + 4 * (j + 1)) by lia. apply Hto. lia.
  - pose proof (Hto 0 ltac:(lia)) as Ht0. rewrite Z.mul_0_r, Z.add_0_r in Ht0. cbn [copy_dirs].
    rewrite (bind_Done (ldm td) _ s (load32 (pm s) td) s) by done. unfold present in Hp, Ht0. rewrite Ht0. cbn [when].
    rewrite (bind_Done (mret tt) _ s tt s) by done. rewrite (bind_Done (ldm fd) _ s (load32 (pm s) fd) s) by done.
    apply negb_false_iff in Hp. rewrite Hp. by rewrite !u32_small by (unfold in_u32; lia).
Qed.

Lemma copied_skip n tabs s fd td oom s' new :
  0 <= td -> td + 4 * Z.of_nat (S n) <= 4096 -> present (load32 (pm s) fd) = false ->
  copied_dirs n tabs s (fd + 4) (td + 4) oom s' new -> copied_dirs (S n) tabs s fd td oom s' new.
Proof.
  intros H0 H1 Hp [Hcow Hold Hdir Hnew Hoom]. constructor; [done | done | intros x Hx Hout; apply Hdir; [done | lia] | | done].
  intros E. destruct (Hnew E) as [Hsh Hown]. split.
  - intros j Hj. destruct (decide (j = 0)) as [-> |].
    + unfold shared_dir. rewrite !Z.mul_0_r, !Z.add_0_r, Hp. apply dir_frame; [lia | lia |]. intros x Hx. apply Hdir; lia.
    + specialize (Hsh (j - 1) ltac:(lia)). unfold shared_dir in *. replace (fd + 4 + 4 * (j - 1)) with (fd + 4 * j) in Hsh by lia.
      by replace (td + 4 + 4 * (j - 1)) with (td + 4 * j) in Hsh by lia.
  - intros j j' Hj Hj' Hne P P'. destruct (decide (j = 0)) as [-> |]; [by rewrite Z.mul_0_r, Z.add_0_r, Hp in P |].
    destruct (decide (j' = 0)) as [-> |]; [by rewrite Z.mul_0_r, Z.add_0_r, Hp in P' |].
    specialize (Hown (j - 1) (j' - 1) ltac:(lia) ltac:(lia) ltac:(lia)).
    replace (fd + 4 + 4 * (j - 1)) with (fd + 4 * j) in Hown by lia. replace (td + 4 + 4 * (j - 1)) with (td + 4 * j) in Hown by lia.
    replace (fd + 4 + 4 * (j' - 1)) with (fd + 4 * j') in Hown by lia. replace (td + 4 + 4 * (j' - 1)) with (td + 4 * j') in Hown by lia.
    by apply Hown.
Qed.

(** An entry that is there: after the table [f] of it is shared. *)
Definition entered (tabs : list Z) (s s1 : mstate) (f d : Z) (i : nat) : Prop :=
  (i < 1536)%nat /\ (page_addr i ∉ tabs) /\ cow (page_addr i :: tabs) s1 /\ unnoticed tabs s s1 /\
  (forall k, 0 <= k < 1024 -> low (pte (pm s1) (page_addr i) k) = low (pte (pm s) f k)) /\
  (forall k off, 0 <= k < 1024 -> low (pte (pm s) f k) = false -> 0 <= off < 4096 ->
     seen (pm s1) (page_addr i) k off = seen (pm s) f k off) /\
  (forall x, 0 <= x < 4096 -> ~ (d <= x < d + 4) -> load8 (pm s1) x = load8 (pm s) x) /\
  load32 (pm s1) d = Z.lor (page_addr i) 7 /\
  (forall j, (j < 1536)%nat -> mem_map s1 !!! j <= mem_map s !!! j + 1024).

Lemma copy_dirs_enter n tabs s fd td : dirs_ready (S n) tabs s fd td -> present (load32 (pm s) fd) = true ->
  (exists j, mem_map s !! j = Some 0) ->
  exists i s1, entered tabs s s1 (base (load32 (pm s) fd)) td i /\
    copy_dirs (S n) from fd td s = copy_dirs n from (fd + 4) (td + 4) s1.
Proof.
  intros [Hcow (P1 & P2 & P3 & P4 & P5) Hfr Hto Hroom] Hp Hfree.
  assert (Hf : base (load32 (pm s) fd) ∈ tabs) by (pose proof (Hfr 0 ltac:(lia)) as H; rewrite Z.mul_0_r, Z.add_0_r in H; by apply H).
  destruct (share_correct tabs s (base (load32 (pm s) fd)) td Hcow Hf ltac:(lia) Hfree) as (i & s1 & Hrun & Hi & Hfresh & Hcow1 & L1 & L2 & V1 & V2 & Hlow & Hmap).
  { intros j Hj. specialize (Hroom j Hj). lia. }
  destruct (new_entry i Hi) as (Eb & _). pose proof (page_addr_range i Hi) as Hr.
  exists i, s1. split.
  - split; [done |]. split; [done |]. split; [done |]. split; [done |]. split; [done |]. split; [done |]. split; [| split; [| done]].
    + intros x Hx Hout. rewrite Hlow by done. apply load8_store32_ne. unfold disjoint. lia.
    + rewrite (dir_frame (store32 (pm s) td (Z.lor (page_addr i) 7)) (pm s1) td) by (lia || intros x Hx; apply Hlow; lia).
      rewrite load32_store32_eq. apply u32_small. by apply (lor_small _ i Hi).
  - apply share_inv in Hrun as (s2 & s3 & G1 & G2 & G3).
    pose proof (Hto 0 ltac:(lia)) as Ht0. rewrite Z.mul_0_r, Z.add_0_r in Ht0. cbn [copy_dirs].
    rewrite (bind_Done (ldm td) _ s (load32 (pm s) td) s) by done. unfold present in Hp, Ht0. rewrite Ht0. cbn [when].
    rewrite (bind_Done (mret tt) _ s tt s) by done. rewrite (bind_Done (ldm fd) _ s (load32 (pm s) fd) s) by done.
    apply negb_true_iff in Hp. rewrite Hp. cbv zeta. fold (base (load32 (pm s) fd)). rewrite (bind_Done _ _ _ _ _ G1).
    rewrite (proj2 (Z.eqb_neq (page_addr i) 0)) by lia. rewrite (bind_Done _ _ _ _ _ G2). rewrite (proj2 (Z.eqb_neq from 0) Hfrom).
    rewrite (bind_Done _ _ _ _ _ G3). by rewrite !u32_small by (unfold in_u32; lia).
Qed.

Lemma ready_enter n tabs s s1 fd td i : dirs_ready (S n) tabs s fd td -> entered tabs s s1 (base (load32 (pm s) fd)) td i ->
  dirs_ready n (page_addr i :: tabs) s1 (fd + 4) (td + 4) /\
  (forall j, 1 <= j < Z.of_nat (S n) -> load32 (pm s1) (fd + 4 * j) = load32 (pm s) (fd + 4 * j)) /\
  (forall j, 1 <= j < Z.of_nat (S n) -> load32 (pm s1) (td + 4 * j) = load32 (pm s) (td + 4 * j)).
Proof.
  intros [Hcow (P1 & P2 & P3 & P4 & P5) Hfr Hto Hroom] (Hi & Hfresh & Hcow1 & _ & _ & _ & Hdir & _ & Hmap).
  assert (Hs : forall a, 0 <= a -> a + 4 <= 4096 -> a + 4 <= td \/ td + 4 <= a -> load32 (pm s1) a = load32 (pm s) a).
  { intros a H0 H1 H2. apply dir_frame; [lia | lia |]. intros x Hx. apply Hdir; lia. }
  assert (E1 : forall j, 1 <= j < Z.of_nat (S n) -> load32 (pm s1) (fd + 4 * j) = load32 (pm s) (fd + 4 * j)) by (intros j Hj; apply Hs; lia).
  assert (E2 : forall j, 1 <= j < Z.of_nat (S n) -> load32 (pm s1) (td + 4 * j) = load32 (pm s) (td + 4 * j)) by (intros j Hj; apply Hs; lia).
  split; [| done]. constructor; [done | lia | | |].
  - intros j Hj. replace (fd + 4 + 4 * j) with (fd + 4 * (j + 1)) by lia. rewrite E1 by lia. intros Hp.
    apply list_elem_of_further, Hfr; [lia | done].
  - intros j Hj. replace (td + 4 + 4 * j) with (td + 4 * (j + 1)) by lia. rewrite E2 by lia. apply Hto. lia.
  - intros j Hj. specialize (Hmap j Hj). specialize (Hroom j Hj). lia.
Qed.

(** The other entries, one further. *)
Lemma shared_later n tabs s s1 s' fd td i new j :
  dirs_ready (S n) tabs s fd td -> entered tabs s s1 (base (load32 (pm s) fd)) td i ->
  1 <= j < Z.of_nat (S n) -> shared_dir s1 s' new (fd + 4) (td + 4) (j - 1) -> shared_dir s s' (new ++ [page_addr i]) fd td j.
Proof.
  intros Hready Hent Hj Hsh. destruct (ready_enter n tabs s s1 fd td i Hready Hent) as (_ & E1 & E2).
  destruct Hready as [Hcow _ Hfr _ _]. destruct Hent as (_ & _ & _ & [U1 U2] & _).
  unfold shared_dir in *. replace (fd + 4 + 4 * (j - 1)) with (fd + 4 * j) in Hsh by lia.
  replace (td + 4 + 4 * (j - 1)) with (td + 4 * j) in Hsh by lia. rewrite E1, E2 in Hsh by done.
  destruct (present _) eqn:Ep; [| done]. destruct Hsh as (Hp' & Hin & Hv). split; [done |].
  split; [apply elem_of_app; by left |]. intros k off Hk Hlow Hoff.
  assert (Hcell : (base (load32 (pm s) (fd + 4 * j)), k) ∈ cells tabs) by (apply elem_of_cells; split; [apply Hfr; [lia | done] | done]).
  rewrite Hv; [by apply U2 | done | by rewrite U1 | done].
Qed.

Lemma copied_enter n tabs s s1 fd td i oom s' new :
  dirs_ready (S n) tabs s fd td -> present (load32 (pm s) fd) = true -> entered tabs s s1 (base (load32 (pm s) fd)) td i ->
  copied_dirs n (page_addr i :: tabs) s1 (fd + 4) (td + 4) oom s' new ->
  copied_dirs (S n) tabs s fd td oom s' (new ++ [page_addr i]).
Proof.
  intros Hready Hp Hent [Hcow Hold Hdir Hnew Hoom]. destruct (ready_enter n tabs s s1 fd td i Hready Hent) as (_ & E1 & E2).
  pose proof (dr_place _ _ _ _ _ Hready) as (P1 & P2 & P3 & P4 & P5).
  pose proof Hent as (Hi & Hfresh & Hcow1 & Hu & L2 & V2 & Hd1 & Hword & _). destruct (new_entry i Hi) as (Eb & Ep & _).
  assert (Hword' : load32 (pm s') td = Z.lor (page_addr i) 7).
  { rewrite <- Hword. apply dir_frame; [lia | lia |]. intros x Hx. apply Hdir; lia. }
  constructor; [by rewrite <- app_assoc | by eapply unnoticed_trans | | | done].
  - intros x Hx Hout. rewrite Hdir by lia. apply Hd1; lia.
  - intros E. destruct (Hnew E) as [Hsh Hown]. split.
    + intros j Hj. destruct (decide (j = 0)) as [-> |]; [| apply (shared_later n tabs s s1); try done; [lia | apply Hsh; lia]].
      unfold shared_dir. rewrite !Z.mul_0_r, !Z.add_0_r, Hp, Hword', Eb, Ep. split; [done |].
      split; [apply elem_of_app; right; apply list_elem_of_here |]. intros k off Hk Hlow Hoff. rewrite <- V2 by done.
      apply Hold; [apply elem_of_cells; split; [apply list_elem_of_here | done] | by rewrite L2 | done].
    + assert (Hfirst : forall j, 1 <= j < Z.of_nat (S n) -> present (load32 (pm s) (fd + 4 * j)) = true ->
        base (load32 (pm s') (td + 4 * j)) <> page_addr i).
      { intros j Hj Pj Eq. specialize (Hsh (j - 1) ltac:(lia)). unfold shared_dir in Hsh.
        replace (fd + 4 + 4 * (j - 1)) with (fd + 4 * j) in Hsh by lia. replace (td + 4 + 4 * (j - 1)) with (td + 4 * j) in Hsh by lia.
        rewrite E1, Pj in Hsh by done. destruct Hsh as (_ & Hin & _). rewrite Eq in Hin.
        pose proof (cow_nodup _ _ Hcow) as Hnd. apply NoDup_app in Hnd as (_ & Hnd & _). apply (Hnd _ Hin), list_elem_of_here. }
      assert (Hzero : base (load32 (pm s') (td + 4 * 0)) = page_addr i) by (rewrite Z.mul_0_r, Z.add_0_r; by rewrite Hword').
      intros j j' Hj Hj' Hne Pj Pj'. destruct (decide (j = 0)) as [-> |], (decide (j' = 0)) as [-> |]; [done | | |].
      * rewrite Hzero. intros Eq. by apply (Hfirst j'); [lia | done |].
      * rewrite Hzero. by apply Hfirst; [lia |].
      * specialize (Hown (j - 1) (j' - 1) ltac:(lia) ltac:(lia) ltac:(lia)).
        replace (fd + 4 + 4 * (j - 1)) with (fd + 4 * j) in Hown by lia. replace (td + 4 + 4 * (j - 1)) with (td + 4 * j) in Hown by lia.
        replace (fd + 4 + 4 * (j' - 1)) with (fd + 4 * j') in Hown by lia. replace (td + 4 + 4 * (j' - 1)) with (td + 4 * j') in Hown by lia.
        rewrite !E1 in Hown by lia. by apply Hown.
Qed.
Lemma copy_dirs_run n : forall tabs s fd td, dirs_ready n tabs s fd td ->
  exists oom s' new, copy_dirs n from fd td s = Done oom s' /\ copied_dirs n tabs s fd td oom s' new.
Proof.
  induction n as [| n IH]; intros tabs s fd td Hready.
  { exists false, s, []. split; [done |]. constructor; [by destruct Hready | done | done | | done].
    intros _. split; [intros j Hj; lia | intros j j' Hj; lia]. }
  pose proof (dr_place _ _ _ _ _ Hready) as (P1 & P2 & P3 & P4 & P5).
  destruct (present (load32 (pm s) fd)) eqn:Hp.
  - destruct (scan_free (mem_map s) 1536) as [i0 |] eqn:Escan.
    + pose proof (cow_wf _ _ (dr_cow _ _ _ _ _ Hready)) as [Hl _]. pose proof (scan_free_spec (mem_map s) 1536 ltac:(lia)) as Hs.
      rewrite Escan in Hs. destruct Hs as (_ & Hi0 & _).
      destruct (copy_dirs_enter n tabs s fd td Hready Hp (ex_intro _ i0 Hi0)) as (i & s1 & Hent & Hrun).
      destruct (ready_enter n tabs s s1 fd td i Hready Hent) as (Hready1 & _ & _).
      destruct (IH _ _ _ _ Hready1) as (oom & s' & new & Hr & Hcop). exists oom, s', (new ++ [page_addr i]).
      split; [by rewrite Hrun |]. by apply (copied_enter n tabs s s1).
    + pose proof (cow_wf _ _ (dr_cow _ _ _ _ _ Hready)) as Hwf. pose proof Hwf as [Hl _].
      assert (Hno : forall j, mem_map s !! j <> Some 0).
      { intros j Hj. pose proof (scan_free_spec (mem_map s) 1536 ltac:(lia)) as Hs. rewrite Escan in Hs.
        apply (Hs j); [apply lookup_lt_Some in Hj; lia | done]. }
      exists true, s, []. split; [| constructor; [by destruct Hready | done | done | done | done]].
      pose proof (dr_to _ _ _ _ _ Hready 0 ltac:(lia)) as Ht0. rewrite Z.mul_0_r, Z.add_0_r in Ht0. cbn [copy_dirs].
      rewrite (bind_Done (ldm td) _ s (load32 (pm s) td) s) by done. unfold present in Hp, Ht0. rewrite Ht0. cbn [when].
      rewrite (bind_Done (mret tt) _ s tt s) by done. rewrite (bind_Done (ldm fd) _ s (load32 (pm s) fd) s) by done.
      apply negb_true_iff in Hp. rewrite Hp. cbv zeta. by rewrite (bind_Done _ _ _ _ _ (no_page s Hwf Hno)).
  - destruct (copy_dirs_skip n tabs s fd td Hready Hp) as [Hready1 Hrun].
    destruct (IH _ _ _ _ Hready1) as (oom & s' & new & Hr & Hcop). exists oom, s', new. split; [by rewrite Hrun |].
    apply copied_skip; [lia | lia | done | done].
Qed.
End copy_dirs.

(** C28: [fork] gives the child what the parent has, and no more. For a parent
    other than the kernel, while the counts of the pages are right and small
    enough to be raised by each table to copy, [copy_page_tables] comes back. It
    answers 0 and each entry of the child's part of the directory is there if
    the parent's is, with a page table of its own, behind which the child sees,
    at every offset of every page but page 0, what the parent sees; or -1, and
    there is no free page left. Either way what the programs see, at every
    offset of every page but page 0, is as it was. Page 0 holds the directory,
    which task 1 finds in its address space: of it nothing changes but the
    child's part. The counts are right again with the new tables among the
    others: a page that parent and child now have together is written to by
    neither before it is copied ([write_isolated]). *)
Theorem copy_page_tables_correct tabs s from to size :
  let n := Z.to_nat (Z.shiftr (u32 (size + 0x3fffff)) 22) in
  from <> 0 -> Z.land from 0x3fffff = 0 -> Z.land to 0x3fffff = 0 ->
  dirs_ready n tabs s (dir_entry_of from) (dir_entry_of to) ->
  exists r s' new, copy_page_tables from to size s = Done r s' /\
    cow (new ++ tabs) s' /\ unnoticed tabs s s' /\
    (forall x, 0 <= x < 4096 -> ~ (dir_entry_of to <= x < dir_entry_of to + 4 * Z.of_nat n) -> load8 (pm s') x = load8 (pm s) x) /\
    ((r = 0 /\ own_tables s s' (dir_entry_of from) (dir_entry_of to) n /\
      forall j, 0 <= j < Z.of_nat n -> shared_dir s s' new (dir_entry_of from) (dir_entry_of to) j) \/
     (r = -1 /\ forall j, mem_map s' !! j <> Some 0)).
Proof.
  intros n Hfrom Hf Ht Hready. destruct (copy_dirs_run from Hfrom n tabs s _ _ Hready) as (oom & s' & new & Hrun & [H1 H2 H3 H4 H5]).
  exists (if oom : bool then -1 else 0), s', new. split.
  - unfold copy_page_tables. rewrite Hf, Ht. cbn [Z.eqb negb orb when]. rewrite (bind_Done (mret tt) _ s tt s) by done. cbv zeta.
    by rewrite (bind_Done _ _ _ _ _ Hrun).
  - split; [done |]. split; [done |]. split; [done |]. destruct oom; [right; by auto | left].
    destruct (H4 eq_refl) as [Hsh Hown]. done.
Qed.

(** ** An instance *)

Lemma cow_low_store tabs s a v : cow tabs s -> 0 <= a -> a + 4 <= 4096 -> cow tabs (set_pm (store32 (pm s) a v) s).
Proof.
  intros Hcow H0 H1. assert (E : forall t k, (t, k) ∈ cells tabs -> pte (store32 (pm s) a v) t k = pte (pm s) t k).
  { intros t k [Ht Hk]%elem_of_cells. destruct (cow_tab _ _ Hcow t Ht) as (? & _ & ?).
    apply pte_frame; [lia | done | done |]. intros x Hx. change HIGH_MEMORY with 0x800000 in *.
    apply load8_store32_ne. unfold disjoint. lia. }
  destruct Hcow as [C1 C2 C3 C4 C5 C6 C7 C8]. constructor; cbn [pm mem_map set_pm]; [done | done | done | done | | | |].
  - intros t k Hin. rewrite E by done. by apply C5.
  - intros t k Hin. rewrite E by done. by apply C6.
  - intros i Hi. etrans; [| by apply C7]. apply Z.eq_le_incl, sum_ext. intros [t k] Hin. cbn [fst snd]. by rewrite E.
  - intros t k Hin. rewrite E by done. by apply C8.
Qed.

(** [shared_demo], the first table being that of the program at 64 MB. *)
Definition dir_demo : mstate := set_pm (store32 (pm shared_demo) 64 (page_addr 100 + 7)) shared_demo.

Lemma dir_demo_ready : dirs_ready (Z.to_nat (Z.shiftr (u32 (0x400000 + 0x3fffff)) 22)) shared_tabs dir_demo
  (dir_entry_of 0x4000000) (dir_entry_of 0x8000000).
Proof.
  assert (Z.to_nat (Z.shiftr (u32 (0x400000 + 0x3fffff)) 22) = 1%nat) as -> by by vm_compute.
  assert (dir_entry_of 0x4000000 = 64) as -> by by vm_compute. assert (dir_entry_of 0x8000000 = 128) as -> by by vm_compute.
  constructor.
  - apply cow_low_store; [exact shared_cow | lia | lia].
  - lia.
  - intros j Hj. assert (j = 0) as -> by lia. intros _.
    assert (load32 (pm dir_demo) (64 + 4 * 0) = page_addr 100 + 7) as -> by by vm_compute.
    assert (base (page_addr 100 + 7) = page_addr 100) as -> by by vm_compute. apply list_elem_of_here.
  - intros j Hj. assert (j = 0) as -> by lia. by vm_compute.
  - intros j Hj. change (mem_map dir_demo) with (mem_map shared_demo). rewrite shared_map by done.
    repeat case_decide; lia.
Qed.

Lemma copy_page_tables_witness :
  exists r s' new, copy_page_tables 0x4000000 0x8000000 0x400000 dir_demo = Done r s' /\ cow (new ++ shared_tabs) s'.
Proof.
  destruct (copy_page_tables_correct shared_tabs dir_demo 0x4000000 0x8000000 0x400000 ltac:(lia) eq_refl eq_refl dir_demo_ready)
    as (r & s' & new & Hrun & Hcow & _).
  exists r, s', new. split; [exact Hrun | exact Hcow].
Defined.
