(* ===== verification/Ctype.v ===== *)
(** * Ctype: src/linux-0.01/include/ctype.h, src/linux-0.01/lib/ctype.c

    The table of character classes and the macros that index it, one place on
    so that -1 (end of file) has an entry. *)

From S2P Require Import Prelude.

Definition _U : Z := 0x01.
Definition _L : Z := 0x02.
Definition _D : Z := 0x04.
Definition _C : Z := 0x08.
Definition _P : Z := 0x10.
Definition _S : Z := 0x20.
Definition _X : Z := 0x40.
Definition _SP : Z := 0x80.

Definition _ctype : list Z :=
  [0x00] ++
  [_C; _C; _C; _C; _C; _C; _C; _C] ++
  [_C; Z.lor _C _S; Z.lor _C _S; Z.lor _C _S; Z.lor _C _S; Z.lor _C _S; _C; _C] ++
  [_C; _C; _C; _C; _C; _C; _C; _C] ++
  [_C; _C; _C; _C; _C; _C; _C; _C] ++
  [Z.lor _S _SP; _P; _P; _P; _P; _P; _P; _P] ++
  [_P; _P; _P; _P; _P; _P; _P; _P] ++
  [_D; _D; _D; _D; _D; _D; _D; _D] ++
  [_D; _D; _P; _P; _P; _P; _P; _P] ++
  [_P; Z.lor _U _X; Z.lor _U _X; Z.lor _U _X; Z.lor _U _X; Z.lor _U _X; Z.lor _U _X; _U] ++
  [_U; _U; _U; _U; _U; _U; _U; _U] ++
  [_U; _U; _U; _U; _U; _U; _U; _U] ++
  [_U; _U; _U; _P; _P; _P; _P; _P] ++
  [_P; Z.lor _L _X; Z.lor _L _X; Z.lor _L _X; Z.lor _L _X; Z.lor _L _X; Z.lor _L _X; _L] ++
  [_L; _L; _L; _L; _L; _L; _L; _L] ++
  [_L; _L; _L; _L; _L; _L; _L; _L] ++
  [_L; _L; _L; _P; _P; _P; _P; _C] ++
  replicate 128 0.

(** [(_ctype+1)[c]&mask]; outside the table the access is undefined. *)
Definition ctype (c mask : Z) : option Z :=
  if c <? -1 then None else v ← _ctype !! Z.to_nat (c + 1); Some (Z.land v mask).

Definition isalnum (c : Z) : option Z := ctype c (Z.lor (Z.lor _U _L) _D).
Definition isalpha (c : Z) : option Z := ctype c (Z.lor _U _L).
Definition iscntrl (c : Z) : option Z := ctype c _C.
Definition isdigit (c : Z) : option Z := ctype c _D.
Definition isgraph (c : Z) : option Z := ctype c (Z.lor (Z.lor (Z.lor _P _U) _L) _D).
Definition islower (c : Z) : option Z := ctype c _L.
Definition isprint (c : Z) : option Z := ctype c (Z.lor (Z.lor (Z.lor (Z.lor _P _U) _L) _D) _SP).
Definition ispunct (c : Z) : option Z := ctype c _P.
Definition isspace (c : Z) : option Z := ctype c _S.
Definition isupper (c : Z) : option Z := ctype c _U.
Definition isxdigit (c : Z) : option Z := ctype c (Z.lor _D _X).

Definition isascii (c : Z) : bool := u32 c <=? 0x7f.
Definition toascii (c : Z) : Z := Z.land (u32 c) 0x7f.

(** [_ctmp] is a [char]; the sum is an [int]. *)
Definition tolower (c : Z) : option Z :=
  let _ctmp := s8 c in
  v ← isupper _ctmp; Some (if negb (v =? 0) then _ctmp + (97 + 65) else _ctmp).
Definition toupper (c : Z) : option Z :=
  let _ctmp := s8 c in
  v ← islower _ctmp; Some (if negb (v =? 0) then _ctmp + (65 - 97) else _ctmp).

(** ** The classes of the C locale *)

Definition upper (c : Z) : bool := (65 <=? c) && (c <=? 90).
Definition lower (c : Z) : bool := (97 <=? c) && (c <=? 122).
Definition digit (c : Z) : bool := (48 <=? c) && (c <=? 57).
Definition graph (c : Z) : bool := (33 <=? c) && (c <=? 126).
Definition hex (c : Z) : bool := digit c || ((65 <=? c) && (c <=? 70)) || ((97 <=? c) && (c <=? 102)).

(** A macro decides a class on [c]. *)
Definition decides (macro : Z -> option Z) (class : Z -> bool) (c : Z) : Prop :=
  (fun v => negb (v =? 0)) <$> macro c = Some (class c).

(** On every [unsigned char] and on the end of file the eleven macros decide
    the classes of the C locale, and [toupper] changes the small letters to
    capitals; below -1, where the characters above 127 are as signed [char]s,
    they read before the table. [tolower] does not give the small letter: it is
    off by 130. *)
Theorem ctype_correct c :
  (-1 <= c < 256 ->
   decides isupper upper c /\ decides islower lower c /\ decides isdigit digit c /\
   decides isalpha (fun c => upper c || lower c) c /\ decides isalnum (fun c => upper c || lower c || digit c) c /\
   decides isxdigit hex c /\ decides isgraph graph c /\ decides isprint (fun c => graph c || (c =? 32)) c /\
   decides ispunct (fun c => graph c && negb (upper c || lower c || digit c)) c /\
   decides isspace (fun c => (c =? 32) || ((9 <=? c) && (c <=? 13))) c /\
   decides iscntrl (fun c => ((0 <=? c) && (c <? 32)) || (c =? 127)) c) /\
  (-1 <= c < 128 -> toupper c = Some (if lower c then c - 32 else c) /\
                    tolower c = Some (if upper c then c + 32 + 130 else c)) /\
  (c < -1 -> forall mask, ctype c mask = None).
Proof.
  assert (Hall : forall (P : Z -> Prop) `{!forall c, Decision (P c)} n,
    bool_decide (Forall P (seqZ (-1) n)) = true -> -1 <= c < n - 1 -> P c).
  { intros P ? n HF Hc. apply bool_decide_eq_true, Forall_forall with (x := c) in HF; [done |].
    apply elem_of_seqZ. lia. }
  split; [| split].
  - intros H. unfold decides. pattern c. apply (Hall _ _ 257); [by vm_compute | lia].
  - intros H. pattern c. apply (Hall _ _ 129); [by vm_compute | lia].
  - intros H mask. unfold ctype. by rewrite (proj2 (Z.ltb_lt c (-1)) H).
Qed.

Lemma ctype_witness : toupper 107 = Some 75 /\ tolower 75 = Some 237 /\ isupper (-2) = None.
Proof.
  destruct (ctype_correct 107) as (_ & H1 & _). destruct (ctype_correct 75) as (_ & H2 & _).
  destruct (ctype_correct (-2)) as (_ & _ & H3). split; [| split].
  - apply H1. lia.
  - apply H2. lia.
  - apply H3. lia.
Defined.
