(* ===== verification/Proc.v ===== *)
(** * Proc: the process table of linux-0.01

    [struct task_struct] (src/linux-0.01/include/linux/sched.h) as a store of
    its fields, each kept at its C width; tasks live at addresses (the pages
    [fork] takes for them), and [task], [current] and the wait queues hold
    addresses, 0 being NULL. *)

From S2P Require Import Prelude Mem.

Definition NR_TASKS : Z := 64.
Definition NR_OPEN : Z := 20.
Definition HZ : Z := 100.
Definition PAGE_SIZE : Z := 4096.

Definition TASK_RUNNING : Z := 0.
Definition TASK_INTERRUPTIBLE : Z := 1.
Definition TASK_UNINTERRUPTIBLE : Z := 2.
Definition TASK_ZOMBIE : Z := 3.

Definition SIGHUP : Z := 1.
Definition SIGINT : Z := 2.
Definition SIGQUIT : Z := 3.
Definition SIGILL : Z := 4.
Definition SIGTRAP : Z := 5.
Definition SIGABRT : Z := 6.
Definition SIGFPE : Z := 8.
Definition SIGUSR1 : Z := 10.
Definition SIGSEGV : Z := 11.
Definition SIGUSR2 : Z := 12.
Definition SIGPIPE : Z := 13.
Definition SIGALRM : Z := 14.
Definition SIGCHLD : Z := 17.

Definition EPERM : Z := 1.
Definition ESRCH : Z := 3.
Definition EINTR : Z := 4.
Definition ECHILD : Z := 10.
Definition EAGAIN : Z := 11.
Definition ENOMEM : Z := 12.
Definition ENOSYS : Z := 38.

(** The registers of [struct tss_struct] the kernel writes. *)
Inductive tss_field : Type :=
| TSS_back_link | TSS_esp0 | TSS_ss0 | TSS_eip | TSS_eflags | TSS_eax | TSS_ecx
| TSS_edx | TSS_ebx | TSS_esp | TSS_ebp | TSS_esi | TSS_edi | TSS_es | TSS_cs
| TSS_ss | TSS_ds | TSS_fs | TSS_gs | TSS_ldt | TSS_trace_bitmap | TSS_i387.

Inductive tfield : Type :=
| T_state | T_counter | T_priority | T_signal | T_sig_restorer | T_sig_fn (i : Z)
| T_exit_code | T_end_code | T_end_data | T_brk | T_start_stack
| T_pid | T_father | T_pgrp | T_session | T_leader
| T_uid | T_euid | T_suid | T_gid | T_egid | T_sgid
| T_alarm | T_utime | T_stime | T_cutime | T_cstime | T_start_time
| T_used_math | T_tty | T_umask | T_pwd | T_root | T_close_on_exec
| T_filp (i : Z) | T_ldt_base (i : Z) | T_tss (r : tss_field).

#[export] Instance tss_field_eq_dec : EqDecision tss_field.
Proof. solve_decision. Defined.
#[export] Instance tfield_eq_dec : EqDecision tfield.
Proof. solve_decision. Defined.

(** What a field keeps of an assigned value. *)
Definition tnorm (f : tfield) (v : Z) : Z :=
  match f with
  | T_uid | T_euid | T_suid | T_gid | T_egid | T_sgid | T_used_math | T_umask => u16 v
  | T_sig_restorer | T_sig_fn _ | T_end_code | T_end_data | T_brk | T_start_stack
  | T_pwd | T_root | T_close_on_exec | T_filp _ | T_ldt_base _ | T_tss _ => u32 v
  | _ => s32 v
  end.

Definition task_struct : Type := tfield -> Z.
Definition tset (f : tfield) (v : Z) (t : task_struct) : task_struct :=
  fun g => if decide (g = f) then tnorm f v else t g.

Record pstate : Type := {
  task : list Z;                  (** [task[NR_TASKS]] *)
  tasks : gmap Z task_struct;     (** the structures, by address *)
  current : Z;
  jiffies : Z;
  startup_time : Z;
  last_pid : Z;
  last_task_used_math : Z;
  wq : gmap Z Z;                  (** wait-queue heads, by their address *)
  umem : memory                   (** the user memory [%fs] reaches *)
}.

Definition set_task (t : list Z) (s : pstate) : pstate :=
  {| task := t; tasks := tasks s; current := current s; jiffies := jiffies s;
     startup_time := startup_time s; last_pid := last_pid s;
     last_task_used_math := last_task_used_math s; wq := wq s; umem := umem s |}.
Definition set_tasks (t : gmap Z task_struct) (s : pstate) : pstate :=
  {| task := task s; tasks := t; current := current s; jiffies := jiffies s;
     startup_time := startup_time s; last_pid := last_pid s;
     last_task_used_math := last_task_used_math s; wq := wq s; umem := umem s |}.
Definition set_current (c : Z) (s : pstate) : pstate :=
  {| task := task s; tasks := tasks s; current := c; jiffies := jiffies s;
     startup_time := startup_time s; last_pid := last_pid s;
     last_task_used_math := last_task_used_math s; wq := wq s; umem := umem s |}.
Definition set_startup_time (t : Z) (s : pstate) : pstate :=
  {| task := task s; tasks := tasks s; current := current s; jiffies := jiffies s;
     startup_time := t; last_pid := last_pid s;
     last_task_used_math := last_task_used_math s; wq := wq s; umem := umem s |}.
Definition set_last_pid (p : Z) (s : pstate) : pstate :=
  {| task := task s; tasks := tasks s; current := current s; jiffies := jiffies s;
     startup_time := startup_time s; last_pid := p;
     last_task_used_math := last_task_used_math s; wq := wq s; umem := umem s |}.
Definition set_last_math (p : Z) (s : pstate) : pstate :=
  {| task := task s; tasks := tasks s; current := current s; jiffies := jiffies s;
     startup_time := startup_time s; last_pid := last_pid s;
     last_task_used_math := p; wq := wq s; umem := umem s |}.
Definition set_wq (q : gmap Z Z) (s : pstate) : pstate :=
  {| task := task s; tasks := tasks s; current := current s; jiffies := jiffies s;
     startup_time := startup_time s; last_pid := last_pid s;
     last_task_used_math := last_task_used_math s; wq := q; umem := umem s |}.
Definition set_umem (m : memory) (s : pstate) : pstate :=
  {| task := task s; tasks := tasks s; current := current s; jiffies := jiffies s;
     startup_time := startup_time s; last_pid := last_pid s;
     last_task_used_math := last_task_used_math s; wq := wq s; umem := m |}.

(** [p->f] and [p->f = v]; following a pointer to no task is undefined. *)
Definition tget (p : Z) (f : tfield) : M pstate Z :=
  get_opt "task_struct" (fun s => t ← tasks s !! p; Some (t f)).
Definition tput (p : Z) (f : tfield) (v : Z) : M pstate unit := fun s =>
  match tasks s !! p with
  | Some t => Done tt (set_tasks (<[p := tset f v t]> (tasks s)) s)
  | None => Halt (Fault "task_struct")
  end.

Definition cur_get (f : tfield) : M pstate Z := p ← gets current; tget p f.
Definition cur_put (f : tfield) (v : Z) : M pstate unit := p ← gets current; tput p f v.

(** [task[i]]. *)
Definition task_at (i : Z) : M pstate Z :=
  get_opt "task" (fun s => if i <? 0 then None else task s !! Z.to_nat i).

(** [for (p = &LAST_TASK ; p > &FIRST_TASK ; --p)]: [f] on indices n, ..., 1. *)
Fixpoint for_down (n : nat) (f : Z -> M pstate unit) : M pstate unit :=
  match n with
  | O => mret tt
  | S n' => _ ← f (Z.of_nat n); for_down n' f
  end.

Definition put_fs_long (v addr : Z) : M pstate unit :=
  modify (fun s => set_umem (store32 (umem s) addr v) s).
Definition get_fs_long (addr : Z) : M pstate Z := gets (fun s => load32 (umem s) addr).

(** ** What the process code asks of memory management, files and ttys *)

Class KernelSvc : Type := {
  svc_write_verify : Z -> M pstate unit;
  svc_get_free_page : M pstate Z;
  svc_free_page : Z -> M pstate unit;
  svc_copy_page_tables : Z -> Z -> Z -> M pstate Z;
  svc_free_page_tables : Z -> Z -> M pstate Z;
  svc_get_limit : Z -> M pstate Z;           (** the [lsl] of a selector *)
  svc_sys_close : Z -> M pstate Z;
  svc_iput : Z -> M pstate unit;
  svc_file_ref : Z -> M pstate unit;         (** [f->f_count++] *)
  svc_inode_ref : Z -> M pstate unit;        (** [i->i_count++] *)
  svc_tty_clear_pgrp : Z -> M pstate unit;   (** [tty_table[n].pgrp = 0] *)
  svc_set_tss_desc : Z -> Z -> M pstate unit;
  svc_set_ldt_desc : Z -> Z -> M pstate unit;
  svc_fnsave : Z -> M pstate Z               (** [fnsave], the saved image *)
}.

(** ** Lemmas *)

Lemma tset_eq f v t : tset f v t f = tnorm f v.
Proof. unfold tset. by rewrite decide_True. Qed.
Lemma tset_ne f g v t : g <> f -> tset f v t g = t g.
Proof. intros H. unfold tset. by rewrite decide_False. Qed.

Lemma tget_run p f s t : tasks s !! p = Some t -> tget p f s = Done (t f) s.
Proof. intros H. unfold tget, get_opt. by rewrite H. Qed.
Lemma tput_run p f v s t :
  tasks s !! p = Some t -> tput p f v s = Done tt (set_tasks (<[p := tset f v t]> (tasks s)) s).
Proof. intros H. unfold tput. by rewrite H. Qed.
Lemma cur_get_run (c : task_struct) f s :
  tasks s !! current s = Some c -> cur_get f s = Done (c f) s.
Proof. intros H. unfold cur_get. by rewrite (bind_Done (gets current) _ s _ s eq_refl), (tget_run _ _ _ _ H). Qed.
Lemma cur_put_run (c : task_struct) f v s :
  tasks s !! current s = Some c ->
  cur_put f v s = Done tt (set_tasks (<[current s := tset f v c]> (tasks s)) s).
Proof.
  intros H. unfold cur_put. rewrite (bind_Done (gets current) _ s (current s) s eq_refl).
  by apply tput_run.
Qed.
Lemma task_at_run i p s : 0 <= i -> task s !! Z.to_nat i = Some p -> task_at i s = Done p s.
Proof. intros Hi H. unfold task_at, get_opt. by rewrite (proj2 (Z.ltb_ge _ _) Hi), H. Qed.
