(* ===== verification/Sched.v ===== *)
(** * Sched: src/linux-0.01/kernel/sched.c

    The scheduler, the wait queues and the small system calls.  [schedule]
    makes the chosen task current; a function that calls it in the middle is
    split there, its second half running when its task is current again. *)

From S2P Require Import Prelude Mem Proc.

Definition math_state_restore `{KernelSvc} : M pstate unit :=
  l ← gets last_task_used_math;
  _ ← when (negb (l =? 0)) (i ← svc_fnsave l; tput l (T_tss TSS_i387) i);
  u ← cur_get T_used_math;
  _ ← when (u =? 0) (cur_put T_used_math 1);
  c ← gets current;
  modify (set_last_math c).

(** ** schedule *)

(** The body of the alarm and signal pass, for [task[i]]. *)
Definition check_alarm (i : Z) : M pstate unit :=
  p ← task_at i;
  when (negb (p =? 0))
    (a ← tget p T_alarm;
     j ← gets jiffies;
     _ ← when (negb (a =? 0) && (a <? j))
           (sg ← tget p T_signal;
            _ ← tput p T_signal (Z.lor sg (Z.shiftl 1 (SIGALRM - 1)));
            tput p T_alarm 0);
     sg ← tget p T_signal;
     st ← tget p T_state;
     when (negb (sg =? 0) && (st =? TASK_INTERRUPTIBLE)) (tput p T_state TASK_RUNNING)).

(** [while (--i)]: the best runnable task among [task[n]], ..., [task[1]]. *)
Fixpoint pick (n : nat) (c next : Z) : M pstate (Z * Z) :=
  match n with
  | O => mret (c, next)
  | S n' =>
      p ← task_at (Z.of_nat n);
      if p =? 0 then pick n' c next
      else
        st ← tget p T_state;
        ct ← tget p T_counter;
        if (st =? TASK_RUNNING) && (c <? ct) then pick n' ct (Z.of_nat n)
        else pick n' c next
  end.

(** [p->counter = (p->counter >> 1) + p->priority]. *)
Definition recharge (i : Z) : M pstate unit :=
  p ← task_at i;
  when (negb (p =? 0))
    (c ← tget p T_counter;
     pr ← tget p T_priority;
     tput p T_counter (Z.shiftr c 1 + pr)).

(** The [while (1)] loop. *)
Fixpoint choose (fuel : nat) : M pstate Z :=
  match fuel with
  | O => halt NoFuel
  | S fuel' =>
      '(c, next) ← pick 63 (-1) 0;
      if negb (c =? 0) then mret next
      else _ ← for_down 63 recharge; choose fuel'
  end.

(** [switch_to(n)]: nothing happens when it is the current task. *)
Definition switch_to (n : Z) : M pstate unit :=
  p ← task_at n; modify (set_current p).

(** Two rounds are enough: see [choose_two_rounds]. *)
Definition schedule : M pstate unit :=
  _ ← for_down 63 check_alarm;
  next ← choose 2;
  switch_to next.

(** ** Sleeping and waking *)

Definition wq_get (q : Z) : M pstate Z := gets (fun s => default 0 (wq s !! q)).
Definition wq_put (q t : Z) : M pstate unit := modify (fun s => set_wq (<[q := t]> (wq s)) s).

(** [sys_pause] up to the switch; it returns 0 afterwards. *)
Definition sys_pause : M pstate unit :=
  _ ← cur_put T_state TASK_INTERRUPTIBLE; schedule.

Definition task0_sleeps : M pstate unit :=
  c ← gets current;
  t0 ← task_at 0;
  when (c =? t0) (panic "task[0] trying to sleep").

(** [sleep_on(p)] up to [schedule()]: the result is [tmp], none for a null [p]. *)
Definition sleep_on_begin (q : Z) : M pstate (option Z) :=
  if q =? 0 then mret None
  else
    _ ← task0_sleeps;
    tmp ← wq_get q;
    c ← gets current;
    _ ← wq_put q c;
    _ ← cur_put T_state TASK_UNINTERRUPTIBLE;
    _ ← schedule;
    mret (Some tmp).

(** ... and after it. *)
Definition sleep_on_end (tmp : Z) : M pstate unit :=
  when (negb (tmp =? 0)) (tput tmp T_state 0).

(** [interruptible_sleep_on]: the first round, ... *)
Definition interruptible_sleep_on_begin (q : Z) : M pstate (option Z) :=
  if q =? 0 then mret None
  else
    _ ← task0_sleeps;
    tmp ← wq_get q;
    c ← gets current;
    _ ← wq_put q c;
    _ ← cur_put T_state TASK_INTERRUPTIBLE;
    _ ← schedule;
    mret (Some tmp).

(** ... and what follows each [schedule()]: true when it went back to sleep. *)
Definition interruptible_sleep_on_end (q tmp : Z) : M pstate bool :=
  h ← wq_get q;
  c ← gets current;
  if negb (h =? 0) && negb (h =? c) then
    _ ← tput h T_state 0;
    _ ← cur_put T_state TASK_INTERRUPTIBLE;
    _ ← schedule;
    mret true
  else
    _ ← wq_put q 0;
    _ ← when (negb (tmp =? 0)) (tput tmp T_state 0);
    mret false.

Definition wake_up (q : Z) : M pstate unit :=
  if q =? 0 then mret tt
  else
    h ← wq_get q;
    when (negb (h =? 0)) (_ ← tput h T_state 0; wq_put q 0).

(** ** The timer interrupt *)

Definition do_timer (cpl : Z) : M pstate unit :=
  _ ← (if negb (cpl =? 0) then u ← cur_get T_utime; cur_put T_utime (u + 1)
       else t ← cur_get T_stime; cur_put T_stime (t + 1));
  c ← cur_get T_counter;
  _ ← cur_put T_counter (c - 1);
  c ← cur_get T_counter;
  if 0 <? c then mret tt
  else
    _ ← cur_put T_counter 0;
    if cpl =? 0 then mret tt else schedule.

(** ** Small system calls *)

Definition sys_alarm (seconds : Z) : M pstate Z :=
  j ← gets jiffies;
  _ ← cur_put T_alarm (if 0 <? seconds then j + HZ * seconds else 0);
  mret seconds.
Definition sys_getpid : M pstate Z := cur_get T_pid.
Definition sys_getppid : M pstate Z := cur_get T_father.
Definition sys_getuid : M pstate Z := cur_get T_uid.
Definition sys_geteuid : M pstate Z := cur_get T_euid.
Definition sys_getgid : M pstate Z := cur_get T_gid.
Definition sys_getegid : M pstate Z := cur_get T_egid.

Definition sys_nice (increment : Z) : M pstate Z :=
  p ← cur_get T_priority;
  _ ← when (0 <? s32 (p - increment)) (cur_put T_priority (p - increment));
  mret 0.

(** The signals whose handler may be set. *)
Definition catchable (sig : Z) : bool :=
  bool_decide (sig ∈ [SIGHUP; SIGINT; SIGQUIT; SIGILL; SIGTRAP; SIGABRT; SIGFPE; SIGUSR1;
                      SIGSEGV; SIGUSR2; SIGPIPE; SIGALRM; SIGCHLD]).

Definition sys_signal (signal addr restorer : Z) : M pstate Z :=
  if catchable signal then
    i ← cur_get (T_sig_fn (signal - 1));
    _ ← cur_put (T_sig_fn (signal - 1)) addr;
    _ ← cur_put T_sig_restorer restorer;
    mret (s32 i)
  else mret (-1).

(** ** Lemmas: one pass over the table *)

(** Apply [u] to [task[i]], if there is one. *)
Definition apply_at (u : task_struct -> task_struct) (i : nat) (s : pstate) : pstate :=
  match task s !! i with
  | Some p =>
      match tasks s !! p with
      | Some t => if p =? 0 then s else set_tasks (<[p := u t]> (tasks s)) s
      | None => s
      end
  | None => s
  end.

Fixpoint apply_down (u : task_struct -> task_struct) (n : nat) (s : pstate) : pstate :=
  match n with O => s | S n' => apply_down u n' (apply_at u n s) end.

(** The table is whole: 64 slots, no slot dangling, no task in two slots, and
    no task at the null address. *)
Record pwf (s : pstate) : Prop := {
  pwf_null : tasks s !! 0 = None;
  pwf_len : length (task s) = 64%nat;
  pwf_live : forall i p, task s !! i = Some p -> p <> 0 -> is_Some (tasks s !! p);
  pwf_inj : forall i j p, task s !! i = Some p -> task s !! j = Some p -> p <> 0 -> i = j
}.

Definition listed (s : pstate) (n : nat) (p : Z) : Prop :=
  p <> 0 /\ exists i, (1 <= i <= n)%nat /\ task s !! i = Some p.

Lemma apply_at_task u i s : task (apply_at u i s) = task s.
Proof. unfold apply_at. by repeat case_match. Qed.

Lemma apply_at_pwf u i s : pwf s -> pwf (apply_at u i s).
Proof.
  intros [H0 H1 H2 H3]. unfold apply_at. repeat case_match; try done.
  constructor; cbn; [by rewrite lookup_insert_ne by lia | done | | done]. intros j q Hj Hq.
  destruct (decide (q = z)) as [-> |]; [by rewrite lookup_insert_eq |].
  rewrite lookup_insert_ne by done. by eapply H2.
Qed.

Lemma apply_down_pwf u n s : pwf s -> pwf (apply_down u n s).
Proof. revert s; induction n; intros s H; cbn; [done |]. by apply IHn, apply_at_pwf. Qed.

Lemma apply_down_task u n s : task (apply_down u n s) = task s.
Proof.
  revert s; induction n; intros s; cbn; [done |]. by rewrite IHn, apply_at_task.
Qed.

Lemma apply_down_rest u n s :
  wq (apply_down u n s) = wq s /\ jiffies (apply_down u n s) = jiffies s /\
  current (apply_down u n s) = current s.
Proof.
  revert s; induction n as [| n IH]; intros s; cbn [apply_down]; [done |].
  destruct (IH (apply_at u (S n) s)) as (-> & -> & ->).
  unfold apply_at. by repeat case_match.
Qed.

(** After the pass exactly the listed tasks have been updated, once. *)
Lemma apply_down_tasks u n s p t :
  pwf s -> tasks s !! p = Some t ->
  (listed s n p -> tasks (apply_down u n s) !! p = Some (u t)) /\
  (~ listed s n p -> tasks (apply_down u n s) !! p = Some t).
Proof.
  revert s t; induction n as [| n IH]; intros s t Hwf Ht; cbn [apply_down].
  - split; [intros (_ & i & Hi & _); lia | done].
  - set (s1 := apply_at u (S n) s).
    assert (Hwf1 : pwf s1) by by apply apply_at_pwf.
    assert (Hl1 : forall q k, listed s1 k q <-> listed s k q)
      by (intros q k; unfold listed, s1; by rewrite apply_at_task).
    destruct (decide (task s !! S n = Some p /\ p <> 0)) as [[Hp Hp0] | Hp].
    + assert (Ht1 : tasks s1 !! p = Some (u t)).
      { unfold s1, apply_at. rewrite Hp, Ht, (proj2 (Z.eqb_neq p 0) Hp0). cbn.
        by rewrite lookup_insert_eq. }
      assert (Hnl : ~ listed s1 n p).
      { rewrite Hl1. intros (_ & i & Hi & Hti).
        pose proof (pwf_inj s Hwf i (S n) p Hti Hp Hp0). lia. }
      split; [intros _; by apply (IH s1 (u t) Hwf1 Ht1) |].
      intros Hn. exfalso. apply Hn. split; [done |]. exists (S n). split; [lia | done].
    + assert (Ht1 : tasks s1 !! p = Some t).
      { unfold s1, apply_at. destruct (task s !! S n) as [q |] eqn:Eq; [| done].
        destruct (tasks s !! q) as [tq |] eqn:Etq; [| done].
        destruct (Z.eqb_spec q 0); [done |]. cbn. rewrite lookup_insert_ne; [done |].
        intros ->. apply Hp. split; [done | done]. }
      destruct (IH s1 t Hwf1 Ht1) as [H1 H2]. split; intros Hl.
      * apply H1. apply Hl1. destruct Hl as (Hp0 & i & Hi & Hti). split; [done |].
        exists i. split; [| done]. destruct (decide (i = S n)) as [-> |]; [tauto | lia].
      * apply H2. rewrite Hl1. intros (Hp0 & i & Hi & Hti). apply Hl.
        split; [done |]. exists i. split; [lia | done].
Qed.

(** What the two passes do to a task. *)
Definition alarm_upd (j : Z) (t : task_struct) : task_struct :=
  let t1 := if negb (t T_alarm =? 0) && (t T_alarm <? j)
            then tset T_alarm 0 (tset T_signal (Z.lor (t T_signal) (Z.shiftl 1 (SIGALRM - 1))) t)
            else t in
  if negb (t1 T_signal =? 0) && (t1 T_state =? TASK_INTERRUPTIBLE)
  then tset T_state TASK_RUNNING t1 else t1.

Definition recharge_upd (t : task_struct) : task_struct :=
  tset T_counter (Z.shiftr (t T_counter) 1 + t T_priority) t.

Lemma set_tasks_id s : set_tasks (tasks s) s = s.
Proof. by destruct s. Qed.

Lemma slot_cases s i :
  pwf s -> (i < 64)%nat ->
  exists p, task s !! i = Some p /\
    (p = 0 \/ (p <> 0 /\ exists t, tasks s !! p = Some t)).
Proof.
  intros [_ H1 H2 _] Hi. destruct (lookup_lt_is_Some_2 (task s) i) as [p Hp]; [lia |].
  exists p. split; [done |]. destruct (decide (p = 0)); [by left | right].
  split; [done |]. destruct (H2 i p Hp n) as [t Ht]. eauto.
Qed.

Lemma check_alarm_run s i :
  pwf s -> (i < 64)%nat ->
  check_alarm (Z.of_nat i) s = Done tt (apply_at (alarm_upd (jiffies s)) i s).
Proof.
  intros Hwf Hi. destruct (slot_cases s i Hwf Hi) as (p & Hp & Hcase).
  unfold check_alarm, apply_at. rewrite Hp.
  rewrite (bind_Done _ _ _ _ _ (task_at_run (Z.of_nat i) p s ltac:(lia) ltac:(by rewrite Nat2Z.id))).
  destruct Hcase as [-> | (Hp0 & t & Ht)]; [cbn; by repeat case_match |].
  rewrite Ht, (proj2 (Z.eqb_neq p 0) Hp0). cbn [negb when].
  rewrite (bind_Done _ _ _ _ _ (tget_run p T_alarm s t Ht)).
  rewrite (bind_Done (gets jiffies) _ s (jiffies s) s) by done.
  unfold alarm_upd.
  destruct (negb (t T_alarm =? 0) && (t T_alarm <? jiffies s)).
  - set (t1 := tset T_alarm 0 _). set (s1 := set_tasks (<[p := t1]> (tasks s)) s).
    rewrite (bind_Done _ _ s tt s1).
    2: { cbn [when]. rewrite (bind_Done _ _ _ _ _ (tget_run p T_signal s t Ht)).
         rewrite (bind_Done _ _ _ _ _ (tput_run p T_signal _ s t Ht)).
         erewrite tput_run by (cbn; apply lookup_insert_eq).
         unfold s1, set_tasks; cbn. by rewrite insert_insert_eq. }
    assert (Ht1 : tasks s1 !! p = Some t1) by (unfold s1; cbn; apply lookup_insert_eq).
    rewrite (bind_Done _ _ _ _ _ (tget_run p T_signal s1 t1 Ht1)).
    rewrite (bind_Done _ _ _ _ _ (tget_run p T_state s1 t1 Ht1)).
    destruct (negb (t1 T_signal =? 0) && _); cbn [when]; [| done].
    rewrite (tput_run p T_state _ s1 t1 Ht1). unfold s1, set_tasks; cbn.
    by rewrite insert_insert_eq.
  - rewrite (bind_Done _ _ s tt s) by done.
    rewrite (bind_Done _ _ _ _ _ (tget_run p T_signal s t Ht)).
    rewrite (bind_Done _ _ _ _ _ (tget_run p T_state s t Ht)).
    destruct (negb (t T_signal =? 0) && _); cbn [when]; [by rewrite (tput_run _ _ _ _ _ Ht) |].
    by rewrite insert_id, set_tasks_id by done.
Qed.

Lemma recharge_run s i :
  pwf s -> (i < 64)%nat -> recharge (Z.of_nat i) s = Done tt (apply_at recharge_upd i s).
Proof.
  intros Hwf Hi. destruct (slot_cases s i Hwf Hi) as (p & Hp & Hcase).
  unfold recharge, apply_at. rewrite Hp.
  rewrite (bind_Done _ _ _ _ _ (task_at_run (Z.of_nat i) p s ltac:(lia) ltac:(by rewrite Nat2Z.id))).
  destruct Hcase as [-> | (Hp0 & t & Ht)]; [cbn; by repeat case_match |].
  rewrite Ht, (proj2 (Z.eqb_neq p 0) Hp0). cbn [negb when].
  rewrite (bind_Done _ _ _ _ _ (tget_run p T_counter s t Ht)).
  rewrite (bind_Done _ _ _ _ _ (tget_run p T_priority s t Ht)).
  by rewrite (tput_run _ _ _ _ _ Ht).
Qed.

Lemma for_down_run (f : Z -> M pstate unit) u n s :
  (n < 64)%nat -> pwf s ->
  (forall s' i, pwf s' -> jiffies s' = jiffies s -> (i < 64)%nat ->
     f (Z.of_nat i) s' = Done tt (apply_at u i s')) ->
  for_down n f s = Done tt (apply_down u n s).
Proof.
  intros Hn Hwf Hf. revert s Hwf Hf. induction n as [| n IH]; intros s Hwf Hf; [done |].
  cbn [for_down apply_down]. rewrite (bind_Done _ _ _ _ _ (Hf s (S n) Hwf eq_refl Hn)).
  apply IH; [lia | by apply apply_at_pwf |].
  intros s' i Hs' Hj Hi. apply Hf; [done | | done]. rewrite Hj.
  unfold apply_at. by repeat case_match.
Qed.

(** ** The choice *)

(** [task[i]] is runnable with [ct] ticks left. *)
Definition runnable (s : pstate) (i : nat) (ct : Z) : Prop :=
  exists p (t : task_struct), task s !! i = Some p /\ p <> 0 /\ tasks s !! p = Some t /\
    t T_state = TASK_RUNNING /\ t T_counter = ct.

Lemma pick_run s n c next :
  pwf s -> (n < 64)%nat ->
  exists c' next', pick n c next s = Done (c', next') s /\ c <= c' /\
    (forall i ct, (1 <= i <= n)%nat -> runnable s i ct -> ct <= c') /\
    ((c' = c /\ next' = next) \/
     (c < c' /\ exists i, next' = Z.of_nat i /\ (1 <= i <= n)%nat /\ runnable s i c')).
Proof.
  intros Hwf. revert c next; induction n as [| n IH]; intros c next Hn; cbn [pick].
  - exists c, next. split; [done |]. split; [lia |]. split; [intros; lia | by left].
  - destruct (slot_cases s (S n) Hwf Hn) as (p & Hp & Hcase).
    rewrite (bind_Done _ _ _ _ _ (task_at_run (Z.of_nat (S n)) p s ltac:(lia)
      ltac:(by rewrite Nat2Z.id))).
    (* The rest of the scan, started from (c1, next1). *)
    assert (Hrest : forall c1 next1, c <= c1 ->
      (forall ct, runnable s (S n) ct -> ct <= c1) ->
      ((c1 = c /\ next1 = next) \/
       (c < c1 /\ next1 = Z.of_nat (S n) /\ runnable s (S n) c1)) ->
      exists c' next', pick n c1 next1 s = Done (c', next') s /\ c <= c' /\
        (forall i ct, (1 <= i <= S n)%nat -> runnable s i ct -> ct <= c') /\
        ((c' = c /\ next' = next) \/
         (c < c' /\ exists i, next' = Z.of_nat i /\ (1 <= i <= S n)%nat /\ runnable s i c'))).
    { intros c1 next1 Hc1 Hmax Hfrom.
      destruct (IH c1 next1 ltac:(lia)) as (c' & next' & Hrun & Hle & Hall & Hres).
      exists c', next'. split; [done |]. split; [lia |]. split.
      - intros i ct Hi Hr. destruct (decide (i = S n)) as [-> |].
        + specialize (Hmax ct Hr). lia.
        + apply (Hall i); [lia | done].
      - destruct Hres as [[-> ->] | (Hlt & i & -> & Hi & Hr)].
        + destruct Hfrom as [[-> ->] | (Hlt & -> & Hr)]; [by left | right].
          split; [done |]. exists (S n). split; [done |]. split; [lia | done].
        + right. split; [lia |]. exists i. split; [done |]. split; [lia | done]. }
    destruct Hcase as [-> | (Hp0 & t & Ht)].
    { rewrite Z.eqb_refl. apply Hrest; [lia | | by left].
      intros ct (q & tq & Hq & Hq0 & _). rewrite Hp in Hq. by injection Hq as <-. }
    rewrite (proj2 (Z.eqb_neq p 0) Hp0).
    rewrite (bind_Done _ _ _ _ _ (tget_run p T_state s t Ht)).
    rewrite (bind_Done _ _ _ _ _ (tget_run p T_counter s t Ht)).
    assert (Huniq : forall ct, runnable s (S n) ct -> t T_state = TASK_RUNNING /\ ct = t T_counter).
    { intros ct (q & tq & Hq & _ & Htq & Hst & Hct). rewrite Hp in Hq. injection Hq as <-.
      rewrite Ht in Htq. injection Htq as <-. done. }
    destruct (Z.eqb_spec (t T_state) TASK_RUNNING) as [Est | Est];
      destruct (Z.ltb_spec c (t T_counter)) as [L | L]; cbn [andb]; apply Hrest; try lia;
      try (by left); try (intros ct Hr; apply Huniq in Hr as [? ->]; (lia || done)).
    right. split; [done |]. split; [done |]. exists p, t. done.
Qed.

(** Every live task has a non-negative count and a positive priority, as the
    kernel keeps them ([do_timer] stops at 0, [sys_nice] above 0). *)
Definition counts_ok (s : pstate) : Prop :=
  forall p t, tasks s !! p = Some t ->
    0 <= t T_counter < 2 ^ 30 /\ 1 <= t T_priority < 2 ^ 29.

Lemma alarm_upd_other j t f :
  f <> T_signal -> f <> T_alarm -> f <> T_state -> alarm_upd j t f = t f.
Proof.
  intros H1 H2 H3. unfold alarm_upd. destruct (_ && (t T_alarm <? j));
    destruct (_ && _); by rewrite ?tset_ne.
Qed.

(** The pass can only turn an interruptible sleeper runnable. *)
Lemma alarm_upd_state j t :
  t T_state <> TASK_INTERRUPTIBLE -> alarm_upd j t T_state = t T_state.
Proof.
  intros H. unfold alarm_upd. destruct (_ && (t T_alarm <? j)).
  - rewrite (tset_ne T_alarm T_state), (tset_ne T_signal T_state) by done.
    rewrite (proj2 (Z.eqb_neq _ _) H), andb_false_r. by rewrite !tset_ne.
  - by rewrite (proj2 (Z.eqb_neq _ _) H), andb_false_r.
Qed.

Lemma alarm_upd_running j t :
  t T_state = TASK_RUNNING -> alarm_upd j t T_state = TASK_RUNNING.
Proof. intros H. rewrite alarm_upd_state; [done |]. by rewrite H. Qed.

Lemma listed_dec s n p : listed s n p \/ ~ listed s n p.
Proof.
  destruct (decide (p = 0)) as [-> | Hp]; [right; intros [H _]; done |].
  induction n as [| n IH]; [right; intros (_ & i & Hi & _); lia |].
  destruct (decide (task s !! S n = Some p)) as [E | E].
  - left. split; [done |]. exists (S n). split; [lia | done].
  - destruct IH as [(_ & i & Hi & Hti) | IH].
    + left. split; [done |]. exists i. split; [lia | done].
    + right. intros (_ & i & Hi & Hti). apply IH. split; [done |]. exists i. split; [| done].
      destruct (decide (i = S n)) as [-> |]; [done | lia].
Qed.

Lemma apply_down_cases u n s p t :
  pwf s -> tasks s !! p = Some t ->
  tasks (apply_down u n s) !! p = Some t \/ tasks (apply_down u n s) !! p = Some (u t).
Proof.
  intros Hwf Ht. destruct (apply_down_tasks u n s p t Hwf Ht) as [H1 H2].
  destruct (listed_dec s n p) as [L | L]; [right; by apply H1 | left; by apply H2].
Qed.

Lemma apply_down_inv u n s p t' :
  pwf s -> tasks (apply_down u n s) !! p = Some t' ->
  exists t, tasks s !! p = Some t /\ (t' = t \/ t' = u t).
Proof.
  intros Hwf Ht'. destruct (tasks s !! p) as [t |] eqn:Ht.
  - exists t. split; [done |]. destruct (apply_down_cases u n s p t Hwf Ht); naive_solver.
  - exfalso. clear Hwf. revert s Ht Ht'. induction n as [| n IH]; intros s Ht Ht'; cbn in Ht'.
    + congruence.
    + apply (IH (apply_at u (S n) s)); [| done]. unfold apply_at.
      repeat case_match; try done. cbn. rewrite lookup_insert_ne; [done | congruence].
Qed.

Lemma counts_ok_alarm j n s : pwf s -> counts_ok s -> counts_ok (apply_down (alarm_upd j) n s).
Proof.
  intros Hwf Hc p t' Ht'. apply (apply_down_inv _ _ _ _ _ Hwf) in Ht' as (t & Ht & [-> | ->]);
    [by apply (Hc p) |]. rewrite !alarm_upd_other by done. by apply (Hc p).
Qed.

Lemma recharge_counter t :
  0 <= t T_counter < 2 ^ 30 -> 1 <= t T_priority < 2 ^ 29 ->
  recharge_upd t T_counter = t T_counter / 2 + t T_priority /\
  1 <= recharge_upd t T_counter < 2 ^ 30.
Proof.
  intros Hc Hp. unfold recharge_upd. rewrite tset_eq. cbn [tnorm].
  rewrite Z.shiftr_div_pow2 by lia. change (2 ^ 1) with 2.
  assert (0 <= t T_counter / 2 < 2 ^ 29) by (Z.div_mod_to_equations; lia).
  rewrite s32_small by lia. split; [done | lia].
Qed.

(** The choice made by the [while (1)] loop: task [i] runs next. *)
Definition best (s : pstate) (next : Z) : Prop :=
  (next = 0 /\ forall i ct, (1 <= i <= 63)%nat -> ~ runnable s i ct) \/
  (exists i c, next = Z.of_nat i /\ (1 <= i <= 63)%nat /\ 1 <= c /\ runnable s i c /\
     forall j ct, (1 <= j <= 63)%nat -> runnable s j ct -> ct <= c).

Lemma choose_S fuel :
  choose (S fuel) = ('(c, next) ← pick 63 (-1) 0;
    if negb (c =? 0) then mret next else _ ← for_down 63 recharge; choose fuel).
Proof. reflexivity. Qed.

Lemma choose_two_rounds s :
  pwf s -> counts_ok s ->
  exists next s', choose 2 s = Done next s' /\ best s' next /\
    (s' = s \/ s' = apply_down recharge_upd 63 s /\
      exists i, (1 <= i <= 63)%nat /\ runnable s i 0 /\
        forall j ct, (1 <= j <= 63)%nat -> runnable s j ct -> ct <= 0).
Proof.
  intros Hwf Hok.
  assert (Hnn : forall i ct, runnable s i ct -> 0 <= ct).
  { intros i ct (p & t & _ & _ & Ht & _ & <-). by apply (Hok p). }
  destruct (pick_run s 63 (-1) 0 Hwf ltac:(lia)) as (c & next & Hrun & Hle & Hall & Hres).
  rewrite choose_S.
  rewrite (bind_Done _ _ _ _ _ Hrun).
  destruct (Z.eqb_spec c 0) as [Ec | Ec]; cbn [negb].
  - destruct Hres as [[-> _] | (_ & i & -> & Hi & p & t & Hp & Hp0 & Ht & Hst & Hct)]; [lia |].
    rewrite (bind_Done _ _ _ _ _ (for_down_run recharge recharge_upd 63 s ltac:(lia) Hwf
      (fun s' i H _ => recharge_run s' i H))).
    set (s2 := apply_down recharge_upd 63 s).
    assert (Hwf2 : pwf s2) by by apply apply_down_pwf.
    destruct (pick_run s2 63 (-1) 0 Hwf2 ltac:(lia)) as (c2 & next2 & Hrun2 & Hle2 & Hall2 & Hres2).
    assert (Ht2 : tasks s2 !! p = Some (recharge_upd t)).
    { apply (apply_down_tasks recharge_upd 63 s p t Hwf Ht). split; [done |].
      exists i. split; [lia | done]. }
    destruct (Hok p t Ht) as [Hc Hp1].
    assert (Hr2 : runnable s2 i (recharge_upd t T_counter)).
    { exists p, (recharge_upd t). split; [by unfold s2; rewrite apply_down_task |].
      split; [done |]. split; [done |]. split; [| done].
      unfold recharge_upd. by rewrite tset_ne. }
    destruct (recharge_counter t Hc Hp1) as [_ Hge].
    pose proof (Hall2 i _ Hi Hr2) as Hc2.
    exists next2, s2. split; [| split].
    + rewrite choose_S.
      rewrite (bind_Done _ _ _ _ _ Hrun2). by rewrite (proj2 (Z.eqb_neq c2 0)) by lia.
    + right. destruct Hres2 as [[-> _] | (_ & k & -> & Hk & Hrk)]; [lia |].
      exists k, c2. split; [done |]. split; [done |]. split; [lia |]. split; [done |]. exact Hall2.
    + right. split; [done |]. exists i. split; [lia |]. rewrite Ec in Hall.
      split; [exists p, t; split_and!; (done || congruence) | exact Hall].
  - exists next, s. split; [done |]. split; [| by left].
    destruct Hres as [[-> ->] | (Hlt & i & -> & Hi & Hr)].
    + left. split; [done |]. intros i ct Hi Hr. pose proof (Hall i ct Hi Hr).
      pose proof (Hnn i ct Hr). lia.
    + right. exists i, c. pose proof (Hnn i c Hr). split; [done |]. split; [done |].
      split; [lia |]. split; [done |]. exact Hall.
Qed.

(** What [schedule] does: the two passes and the switch. *)
Lemma schedule_run s :
  pwf s -> counts_ok s ->
  exists next p s1,
    schedule s = Done tt (set_current p s1) /\
    (s1 = apply_down (alarm_upd (jiffies s)) 63 s \/
     s1 = apply_down recharge_upd 63 (apply_down (alarm_upd (jiffies s)) 63 s) /\
     exists i, (1 <= i <= 63)%nat /\
       runnable (apply_down (alarm_upd (jiffies s)) 63 s) i 0 /\
       forall j ct, (1 <= j <= 63)%nat ->
         runnable (apply_down (alarm_upd (jiffies s)) 63 s) j ct -> ct <= 0) /\
    best s1 next /\ 0 <= next < 64 /\ task s !! Z.to_nat next = Some p.
Proof.
  intros Hwf Hok. set (s0 := apply_down (alarm_upd (jiffies s)) 63 s).
  assert (Hwf0 : pwf s0) by by apply apply_down_pwf.
  assert (Hok0 : counts_ok s0) by by apply counts_ok_alarm.
  destruct (choose_two_rounds s0 Hwf0 Hok0) as (next & s1 & Hch & Hbest & Hs1).
  assert (Hnext : 0 <= next < 64).
  { destruct Hbest as [[-> _] | (i & c & -> & Hi & _)]; lia. }
  assert (Htask : task s1 = task s).
  { unfold s0 in Hs1. destruct Hs1 as [-> | [-> _]]; by rewrite ?apply_down_task. }
  destruct (lookup_lt_is_Some_2 (task s) (Z.to_nat next)) as [p Hp].
  { rewrite (pwf_len s Hwf). lia. }
  exists next, p, s1. split; [| done].
  unfold schedule.
  rewrite (bind_Done _ _ _ _ _ (for_down_run check_alarm (alarm_upd (jiffies s)) 63 s
    ltac:(lia) Hwf (fun s' i H Hj Hi => eq_trans (check_alarm_run s' i H Hi)
      (f_equal (fun j => Done tt (apply_at (alarm_upd j) i s')) Hj)))).
  fold s0. rewrite (bind_Done _ _ _ _ _ Hch). unfold switch_to.
  rewrite (bind_Done _ _ _ _ _ (task_at_run next p s1 (proj1 Hnext) ltac:(by rewrite Htask))).
  done.
Qed.

(** The effect of a switch on a task's structure. *)
Definition sched_upd (t t' : task_struct) : Prop :=
  (forall f, f <> T_state -> f <> T_counter -> f <> T_signal -> f <> T_alarm -> t' f = t f) /\
  (t' T_state = t T_state \/ t T_state = TASK_INTERRUPTIBLE /\ t' T_state = TASK_RUNNING).

Lemma sched_upd_refl t : sched_upd t t.
Proof. split; [done | by left]. Qed.

Lemma sched_upd_alarm j t : sched_upd t (alarm_upd j t).
Proof.
  split; [intros; by apply alarm_upd_other |].
  destruct (decide (t T_state = TASK_INTERRUPTIBLE)) as [E | E]; [| left; by apply alarm_upd_state].
  unfold alarm_upd. set (t1 := if _ && (t T_alarm <? j) then _ else t).
  assert (t1 T_state = t T_state) by (unfold t1; destruct (_ && _); by rewrite ?tset_ne).
  destruct (negb (t1 T_signal =? 0) && _); [right | by left].
  split; [done | by rewrite tset_eq].
Qed.

Lemma sched_upd_recharge t t' : sched_upd t t' -> sched_upd t (recharge_upd t').
Proof.
  intros [H1 H2]. unfold recharge_upd. split.
  - intros f ? ? ? ?. rewrite tset_ne by done. by apply H1.
  - by rewrite tset_ne by done.
Qed.

Lemma counts_ok_recharge n s : pwf s -> counts_ok s -> counts_ok (apply_down recharge_upd n s).
Proof.
  intros Hwf Hc p t' Ht'. apply (apply_down_inv _ _ _ _ _ Hwf) in Ht' as (t & Ht & [-> | ->]);
    [by apply (Hc p) |]. destruct (Hc p t Ht) as [H1 H2].
  destruct (recharge_counter t H1 H2) as [_ H3]. split; [lia |].
  unfold recharge_upd. by rewrite tset_ne by done.
Qed.

(** What a caller of [schedule] may rely on. *)
Lemma schedule_effect s :
  pwf s -> counts_ok s ->
  exists s', schedule s = Done tt s' /\ pwf s' /\ counts_ok s' /\
    task s' = task s /\ wq s' = wq s /\
    forall p, match tasks s !! p, tasks s' !! p with
              | Some t, Some t' => sched_upd t t'
              | None, None => True
              | _, _ => False
              end.
Proof.
  intros Hwf Hok. destruct (schedule_run s Hwf Hok) as (next & p & s1 & Hrun & Hs1 & _ & _ & _).
  exists (set_current p s1). split; [done |].
  set (s0 := apply_down (alarm_upd (jiffies s)) 63 s) in Hs1.
  assert (Hwf0 : pwf s0) by by apply apply_down_pwf.
  assert (Hok0 : counts_ok s0) by by apply counts_ok_alarm.
  assert (H1 : pwf s1 /\ counts_ok s1 /\ task s1 = task s /\ wq s1 = wq s).
  { destruct Hs1 as [-> | [-> _]].
    - split; [done |]. split; [done |]. split; [apply apply_down_task |].
      apply (apply_down_rest (alarm_upd (jiffies s)) 63 s).
    - split; [by apply apply_down_pwf |]. split; [by apply counts_ok_recharge |].
      split; [by rewrite apply_down_task; apply apply_down_task |].
      rewrite (proj1 (apply_down_rest recharge_upd 63 s0)).
      apply (apply_down_rest (alarm_upd (jiffies s)) 63 s). }
  destruct H1 as ([W0 W1 W2 W3] & C1 & T1 & Q1).
  split; [by constructor |]. split; [done |]. split; [done |]. split; [done |].
  intros q. cbn [tasks set_current].
  destruct (tasks s !! q) as [t |] eqn:Ht.
  - assert (H0 : exists t0, tasks s0 !! q = Some t0 /\ sched_upd t t0).
    { destruct (apply_down_cases (alarm_upd (jiffies s)) 63 s q t Hwf Ht) as [E | E].
      - exists t. split; [done | apply sched_upd_refl].
      - exists (alarm_upd (jiffies s) t). split; [done | apply sched_upd_alarm]. }
    destruct H0 as (t0 & Ht0 & Hu). destruct Hs1 as [-> | [-> _]]; [by rewrite Ht0 |].
    destruct (apply_down_cases recharge_upd 63 s0 q t0 Hwf0 Ht0) as [-> | ->]; [done |].
    by apply sched_upd_recharge.
  - destruct (tasks s1 !! q) as [t1 |] eqn:Ht1; [| done].
    assert (exists t0, tasks s0 !! q = Some t0) as [t0 Ht0].
    { destruct Hs1 as [-> | [-> _]]; [by exists t1 |].
      apply (apply_down_inv _ _ _ _ _ Hwf0) in Ht1 as (t0 & ? & _). by exists t0. }
    apply (apply_down_inv _ _ _ _ _ Hwf) in Ht0 as (t & Ht' & _). congruence.
Qed.

Lemma apply_down_umem u n s : umem (apply_down u n s) = umem s.
Proof.
  revert s; induction n as [| n IH]; intros s; [done |]. cbn [apply_down]. rewrite IH.
  unfold apply_at. by repeat case_match.
Qed.

Lemma set_current_umem p s : umem (set_current p s) = umem s.
Proof. by destruct s. Qed.
Lemma schedule_umem s s' :
  pwf s -> counts_ok s -> schedule s = Done tt s' -> umem s' = umem s.
Proof.
  intros Hwf Hok. destruct (schedule_run s Hwf Hok) as (nx & np & sx & -> & Hsx & _).
  intros E. injection E as <-. rewrite set_current_umem. clear - Hsx.
  destruct Hsx as [H | [H _]]; rewrite H, !apply_down_umem; reflexivity.
Qed.

(** C2: On a whole process table whose counters are not negative and whose
    priorities are positive, [schedule] returns, after at most one recharge
    of the counters. The task it makes current is the runnable one of
    [task[1..63]] with the most ticks left, at least one, or [task[0]] when
    none is runnable; the counters are recharged (halved, plus the priority)
    only when runnable tasks exist and all their ticks are spent; every task
    keeps its other fields, and its state too unless it slept interruptibly. *)
Theorem schedule_correct s :
  pwf s -> counts_ok s ->
  exists next p s1,
    schedule s = Done tt (set_current p s1) /\ 0 <= next < 64 /\
    task s !! Z.to_nat next = Some p /\ best s1 next /\
    (s1 = apply_down (alarm_upd (jiffies s)) 63 s \/
     s1 = apply_down recharge_upd 63 (apply_down (alarm_upd (jiffies s)) 63 s) /\
     exists i, (1 <= i <= 63)%nat /\
       runnable (apply_down (alarm_upd (jiffies s)) 63 s) i 0 /\
       forall j ct, (1 <= j <= 63)%nat ->
         runnable (apply_down (alarm_upd (jiffies s)) 63 s) j ct -> ct <= 0) /\
    forall q, match tasks s !! q, tasks s1 !! q with
              | Some t, Some t' => sched_upd t t'
              | None, None => True
              | _, _ => False
              end.
Proof.
  intros Hwf Hok. destruct (schedule_run s Hwf Hok) as (next & p & s1 & Hrun & Hs1 & Hb & Hn & Hp).
  exists next, p, s1. split; [done |]. split; [done |]. split; [done |]. split; [done |].
  split; [done |].
  destruct (schedule_effect s Hwf Hok) as (s' & Hrun' & _ & _ & _ & _ & Hall).
  rewrite Hrun in Hrun'. by injection Hrun' as <-.
Qed.

(** A table with task 0 at 1000 and the given tasks in the next slots. *)
Definition mk_task (st counter prio : Z) : task_struct := fun f =>
  match f with T_state => st | T_counter => counter | T_priority => prio | _ => 0 end.

Definition demo_table (l : list Z) (ts : gmap Z task_struct) (cur : Z) : pstate :=
  {| task := 1000 :: l ++ replicate (63 - length l) 0;
     tasks := <[1000 := mk_task 0 0 15]> ts; current := cur; jiffies := 0;
     startup_time := 0; last_pid := 0; last_task_used_math := 0; wq := ∅; umem := ∅ |}.

(** The invariants, as tests. *)
Definition pwfb (s : pstate) : bool :=
  bool_decide (tasks s !! 0 = None) && (length (task s) =? 64)%nat &&
  forallb (fun p => (p =? 0) || bool_decide (is_Some (tasks s !! p))) (task s) &&
  bool_decide (NoDup (filter (fun p => p <> 0) (task s))).

Definition counts_okb (s : pstate) : bool :=
  forallb (fun pt => (0 <=? pt.2 T_counter) && (pt.2 T_counter <? 2 ^ 30) &&
                     (1 <=? pt.2 T_priority) && (pt.2 T_priority <? 2 ^ 29))
          (map_to_list (tasks s)).

Lemma NoDup_filter_inj (l : list Z) i j p :
  NoDup (filter (fun q => q <> 0) l) -> p <> 0 -> l !! i = Some p -> l !! j = Some p -> i = j.
Proof.
  intros Hnd Hp. revert i j; induction l as [| x l IH]; intros i j Hi Hj; [done |].
  assert (Hx : forall k, l !! k = Some p -> x <> p).
  { intros k Hk ->. rewrite filter_cons_True in Hnd by done.
    apply NoDup_cons in Hnd as [Hn _]. apply Hn, list_elem_of_filter. split; [done |].
    by eapply list_elem_of_lookup_2. }
  assert (Hnd' : NoDup (filter (fun q => q <> 0) l)).
  { destruct (decide (x <> 0)); [rewrite filter_cons_True in Hnd by done |
      rewrite filter_cons_False in Hnd by done; done]. by apply NoDup_cons in Hnd as [_ ?]. }
  destruct i as [| i], j as [| j]; cbn in Hi, Hj; [done | | |].
  - injection Hi as <-. exfalso. by apply (Hx j).
  - injection Hj as <-. exfalso. by apply (Hx i).
  - f_equal. by apply IH.
Qed.

Lemma pwfb_pwf s : pwfb s = true -> pwf s.
Proof.
  unfold pwfb. rewrite !andb_true_iff. intros [[[H0 H1] H2] H3].
  apply bool_decide_eq_true in H0. apply Nat.eqb_eq in H1. apply bool_decide_eq_true in H3.
  rewrite forallb_forall in H2. constructor; [done | done | |].
  - intros i p Hi Hp. specialize (H2 p). rewrite <- list_elem_of_In in H2.
    specialize (H2 (list_elem_of_lookup_2 _ _ _ Hi)). apply orb_true_iff in H2 as [H2 | H2].
    + apply Z.eqb_eq in H2. done.
    + by apply bool_decide_eq_true in H2.
  - intros i j p Hi Hj Hp. by eapply NoDup_filter_inj.
Qed.

Lemma counts_okb_counts_ok s : counts_okb s = true -> counts_ok s.
Proof.
  unfold counts_okb. rewrite forallb_forall. intros H p t Ht.
  specialize (H (p, t)). rewrite <- list_elem_of_In in H.
  apply elem_of_map_to_list in Ht. specialize (H Ht). cbn [snd] in H. lia.
Qed.

(** Tasks 1, 2 and 4 run out of ticks or sleep; task 3 has some left. *)
Definition sched_demo : pstate :=
  demo_table [2000; 3000; 0; 4000]
    (<[2000 := mk_task 0 0 15]> (<[3000 := mk_task 2 9 15]> {[4000 := mk_task 0 4 15]})) 1000.

Lemma schedule_witness :
  (exists next p s1, schedule sched_demo = Done tt (set_current p s1) /\
     task sched_demo !! Z.to_nat next = Some p /\ best s1 next) /\
  (match schedule sched_demo with Done _ s => current s | _ => 0 end) = 4000.
Proof.
  split; [| by vm_compute].
  destruct (schedule_correct sched_demo) as (next & p & s1 & H1 & _ & H2 & H3 & _).
  - apply pwfb_pwf. by vm_compute.
  - apply counts_okb_counts_ok. by vm_compute.
  - by exists next, p, s1.
Defined.
