(* ===== verification/WaitQ.v ===== *)
(** * WaitQ: the wait queues of linux-0.01 as a transition system

    A wait queue of src/linux-0.01/kernel/sched.c is a single pointer: each
    sleeper keeps the previous head in its stack frame ([tmp] of [sleep_on])
    and wakes it when it runs again. The steps below interleave the parts of
    [Sched]'s [sleep_on], [wake_up] and [schedule]; the frames of the sleeping
    tasks are the second component of a configuration. *)

From S2P Require Import Prelude Mem Proc Sched.

(** For a task between the two parts of [sleep_on]: the queue and its [tmp]. *)
Abbreviation frames := (gmap Z (Z * Z)).

Definition state_of (d : pstate) {A} (o : outcome pstate A) : pstate :=
  match o with Done _ s => s | Halt _ => d end.
Definition value_of {A} (o : outcome pstate A) : option A :=
  match o with Done a _ => Some a | Halt _ => None end.

Lemma value_state d {A} (o : outcome pstate A) a :
  value_of o = Some a -> o = Done a (state_of d o).
Proof. destruct o; cbn; congruence. Qed.

Definition state_at (s : pstate) (p : Z) : option Z :=
  match tasks s !! p with Some t => Some (t T_state) | None => None end.
Definition asleep (s : pstate) (p : Z) : Prop :=
  exists st, state_at s p = Some st /\ st <> TASK_RUNNING.
Definition awake (s : pstate) (p : Z) : Prop := state_at s p = Some TASK_RUNNING.

(** ** The steps *)

Inductive wq_step : pstate * frames -> pstate * frames -> Prop :=
| step_sleep s fr q tmp s' :
    fr !! current s = None ->
    sleep_on_begin q s = Done (Some tmp) s' ->
    wq_step (s, fr) (s', <[current s := (q, tmp)]> fr)
| step_resume s fr q tmp s' :
    fr !! current s = Some (q, tmp) ->
    sleep_on_end tmp s = Done tt s' ->
    wq_step (s, fr) (s', delete (current s) fr)
| step_wake s fr q s' :
    wake_up q s = Done tt s' -> wq_step (s, fr) (s', fr)
| step_schedule s fr s' :
    schedule s = Done tt s' -> wq_step (s, fr) (s', fr)
| step_work s fr s' :
    (** the rest of the kernel: no queue and no sleeper's state is touched *)
    pwf s' -> counts_ok s' -> wq s' = wq s ->
    (forall p, is_Some (fr !! p) -> state_at s' p = state_at s p) ->
    wq_step (s, fr) (s', fr).

(** [y] is woken once [x] and everything between them has run. *)
Inductive chain (fr : frames) (q : Z) : Z -> Z -> Prop :=
| chain_here x : chain fr q x x
| chain_next x y z : fr !! x = Some (q, y) -> y <> 0 -> chain fr q y z -> chain fr q x z.

(** Where a wake-up of queue [q] starts: its head, or a sleeper of [q] that
    is runnable again and has not run yet. *)
Definition root (s : pstate) (fr : frames) (q r : Z) : Prop :=
  (r <> 0 /\ wq s !! q = Some r) \/ ((exists tmp, fr !! r = Some (q, tmp)) /\ awake s r).

Definition no_lost_sleeper (s : pstate) (fr : frames) : Prop :=
  forall p q tmp, fr !! p = Some (q, tmp) -> asleep s p ->
    exists r, root s fr q r /\ chain fr q r p.

(** ** The invariant *)

Record wq_inv (c : pstate * frames) : Prop := {
  inv_pwf : pwf c.1;
  inv_counts : counts_ok c.1;
  inv_lost : no_lost_sleeper c.1 c.2
}.

Lemma chain_insert fr q c v x y :
  fr !! c = None -> chain fr q x y -> chain (<[c := v]> fr) q x y.
Proof.
  intros Hc H; induction H as [x | x y z Hx Hy _ IH]; [constructor |].
  apply (chain_next _ _ x y z); [| done | done].
  rewrite lookup_insert_ne; [done |]. intros ->. congruence.
Qed.

(** A chain survives the departure of [c], or restarts after it. *)
Lemma chain_delete fr q c x y :
  chain fr q x y ->
  chain (delete c fr) q x y \/
  exists tmp, fr !! c = Some (q, tmp) /\ tmp <> 0 /\ chain (delete c fr) q tmp y.
Proof.
  intros H; induction H as [x | x y z Hx Hy _ IH]; [left; constructor |].
  destruct IH as [IH | IH]; [| by right].
  destruct (decide (x = c)) as [-> | Hne]; [right; by exists y |].
  left. apply (chain_next _ _ x y z); [by rewrite lookup_delete_ne | done | done].
Qed.

(** The first edge of a chain: its source sleeps on the queue. *)
Lemma chain_head fr q x y : chain fr q x y -> x = y \/ exists tmp, fr !! x = Some (q, tmp).
Proof. intros [? | ? ? ? H _ _]; [by left | right; eauto]. Qed.

(** A sleeper behind a woken task [h] is behind a root. *)
Lemma root_awake s fr q h p :
  chain fr q h p -> asleep s p -> awake s h -> root s fr q h.
Proof.
  intros Hc (st & Hst & Hne) Hw. right. split; [| done].
  apply chain_head in Hc as [-> | H]; [| done].
  unfold awake in Hw. congruence.
Qed.

Lemma bind_inv {S A B} (m : M S A) (k : A -> M S B) s b s' :
  (x ← m; k x) s = Done b s' -> exists a s1, m s = Done a s1 /\ k a s1 = Done b s'.
Proof.
  unfold mbind, M_bind. destruct (m s) as [a s1 |]; [| done]. eauto.
Qed.

(** A change of states that puts nobody to sleep. *)
Definition wakes (fr : frames) (s s' : pstate) : Prop :=
  forall p, is_Some (fr !! p) -> state_at s' p = state_at s p \/ awake s' p.

Lemma wakes_asleep fr s s' p : wakes fr s s' -> is_Some (fr !! p) -> asleep s' p -> asleep s p.
Proof.
  intros H Hp (st & Hst & Hne). destruct (H p Hp) as [E | E].
  - exists st. by rewrite <- E.
  - unfold awake in E. congruence.
Qed.

Lemma wakes_awake fr s s' p : wakes fr s s' -> is_Some (fr !! p) -> awake s p -> awake s' p.
Proof. intros H Hp Hw. destruct (H p Hp) as [E | E]; [| done]. unfold awake. by rewrite E. Qed.

Lemma lost_wakes fr s s' :
  wq s' = wq s -> wakes fr s s' -> no_lost_sleeper s fr -> no_lost_sleeper s' fr.
Proof.
  intros Hq Hw Hinv p q tmp Hp Has.
  destruct (Hinv p q tmp Hp (wakes_asleep fr s s' p Hw (mk_is_Some _ _ Hp) Has)) as (r & Hr & Hc).
  exists r. split; [| done]. destruct Hr as [[H0 H1] | [[t Ht] H1]].
  - left. by rewrite Hq.
  - right. split; [by exists t |]. by eapply wakes_awake; [done | eexists |].
Qed.

Lemma schedule_wakes s s' :
  pwf s -> counts_ok s -> schedule s = Done tt s' ->
  pwf s' /\ counts_ok s' /\ wq s' = wq s /\ forall fr, wakes fr s s'.
Proof.
  intros Hwf Hok Hrun. destruct (schedule_effect s Hwf Hok) as (s1 & E & H1 & H2 & _ & H3 & H4).
  rewrite Hrun in E. injection E as <-. do 3 (split; [done |]).
  intros fr p _. specialize (H4 p). unfold awake, state_at.
  destruct (tasks s !! p) as [t |], (tasks s' !! p) as [t' |]; try done; [| by left].
  destruct H4 as [_ [-> | [_ ->]]]; [by left | by right].
Qed.

(** Setting the state of a task. *)
Lemma tput_state_run p v s s' :
  tput p T_state v s = Done tt s' ->
  exists t : task_struct, tasks s !! p = Some t /\
    s' = set_tasks (<[p := tset T_state v t]> (tasks s)) s.
Proof.
  unfold tput. destruct (tasks s !! p) as [t |] eqn:E; [| done]. intros H. injection H as <-. eauto.
Qed.

Lemma state_at_set p v (t : task_struct) s q :
  tasks s !! p = Some t ->
  state_at (set_tasks (<[p := tset T_state v t]> (tasks s)) s) q =
  if decide (q = p) then Some (s32 v) else state_at s q.
Proof.
  intros Ht. unfold state_at. cbn [tasks set_tasks]. destruct (decide (q = p)) as [-> |].
  - by rewrite lookup_insert_eq, tset_eq.
  - by rewrite lookup_insert_ne by done.
Qed.

Lemma set_state_pwf p v (t : task_struct) s :
  tasks s !! p = Some t -> pwf s -> pwf (set_tasks (<[p := tset T_state v t]> (tasks s)) s).
Proof.
  intros Ht [H0 H1 H2 H3].
  constructor; cbn; [rewrite lookup_insert_ne; [done | congruence] | done | | done].
  intros i q Hi Hq.
  destruct (decide (q = p)) as [-> |]; [by rewrite lookup_insert_eq |].
  rewrite lookup_insert_ne by done. by eapply H2.
Qed.

Lemma set_state_counts p v (t : task_struct) s :
  tasks s !! p = Some t -> counts_ok s ->
  counts_ok (set_tasks (<[p := tset T_state v t]> (tasks s)) s).
Proof.
  intros Ht Hc q t'. cbn. destruct (decide (q = p)) as [-> |].
  - rewrite lookup_insert_eq. intros E. injection E as <-. rewrite !tset_ne by done. by apply (Hc p).
  - rewrite lookup_insert_ne by done. apply Hc.
Qed.

Lemma pwf_set_wq q s : pwf s -> pwf (set_wq q s).
Proof. by intros [? ? ? ?]. Qed.

(** ** Each step keeps the invariant *)

Lemma step_schedule_inv s fr s' :
  wq_inv (s, fr) -> schedule s = Done tt s' -> wq_inv (s', fr).
Proof.
  intros [Hwf Hok Hl] Hrun. cbn [fst snd] in *.
  destruct (schedule_wakes s s' Hwf Hok Hrun) as (H1 & H2 & H3 & H4).
  constructor; cbn [fst snd]; [done | done |]. by apply (lost_wakes fr s).
Qed.

Lemma step_wake_inv s fr q s' :
  wq_inv (s, fr) -> wake_up q s = Done tt s' -> wq_inv (s', fr).
Proof.
  intros [Hwf Hok Hl] Hrun. cbn [fst snd] in *. unfold wake_up in Hrun.
  destruct (q =? 0); [by injection Hrun as <- |].
  set (h := default 0 (wq s !! q)) in *.
  rewrite (bind_Done (wq_get q) _ s h s) in Hrun by done.
  destruct (Z.eqb_spec h 0) as [_ | Hh]; cbn [negb when] in Hrun; [by injection Hrun as <- |].
  apply bind_inv in Hrun as ([] & s1 & Hp & Hrun). injection Hrun as <-.
  apply tput_state_run in Hp as (t & Ht & ->).
  set (s1 := set_tasks _ s).
  assert (Hs1 : forall p, state_at s1 p = if decide (p = h) then Some 0 else state_at s p)
    by (intros p; by apply state_at_set).
  assert (Hw : wakes fr s s1).
  { intros p _. unfold awake. rewrite Hs1. destruct (decide (p = h)); [by right | by left]. }
  constructor; cbn [fst snd]; [by apply pwf_set_wq, set_state_pwf | by apply (set_state_counts h 0 t s) |].
  intros p q' tmp Hp Has.
  destruct (Hl p q' tmp Hp (wakes_asleep fr s s1 p Hw (mk_is_Some _ _ Hp) Has)) as (r & Hr & Hc).
  destruct Hr as [[H0 H1] | [[tr Htr] H1]].
  - destruct (decide (q' = q)) as [-> | Hne].
    + replace r with h in Hc by (unfold h; by rewrite H1). exists h. split; [| done].
      apply root_awake with (p := p); [done | done |]. unfold awake, state_at. cbn.
      by rewrite lookup_insert_eq, tset_eq.
    + exists r. split; [| done]. left. cbn. by rewrite lookup_insert_ne.
  - exists r. split; [| done]. right. split; [by exists tr |].
    by apply (wakes_awake fr s s1 r Hw); [eexists |].
Qed.

Lemma step_resume_inv s fr q tmp s' :
  wq_inv (s, fr) -> fr !! current s = Some (q, tmp) -> sleep_on_end tmp s = Done tt s' ->
  wq_inv (s', delete (current s) fr).
Proof.
  intros [Hwf Hok Hl] Hc Hrun. cbn [fst snd] in *.
  assert (H : wakes fr s s' /\ pwf s' /\ counts_ok s' /\ wq s' = wq s /\
              (tmp <> 0 -> awake s' tmp)).
  { unfold sleep_on_end in Hrun. destruct (Z.eqb_spec tmp 0) as [E | E]; cbn in Hrun.
    - injection Hrun as <-. split; [by left |]. done.
    - apply tput_state_run in Hrun as (t & Ht & ->).
      split; [| split; [by apply set_state_pwf | split; [by apply set_state_counts | split; [done |]]]].
      + intros p _. unfold awake. rewrite (state_at_set tmp 0 t s p Ht).
        destruct (decide (p = tmp)); [by right | by left].
      + intros _. unfold awake. by rewrite (state_at_set tmp 0 t s tmp Ht), decide_True. }
  destruct H as (Hw & H1 & H2 & Hq & Htmp). constructor; cbn [fst snd]; [done | done |].
  intros p q' tmp' Hp Has. apply lookup_delete_Some in Hp as [Hpc Hp].
  destruct (Hl p q' tmp' Hp (wakes_asleep fr s s' p Hw (mk_is_Some _ _ Hp) Has)) as (r & Hr & Hch).
  destruct (chain_delete fr q' (current s) r p Hch) as [Hd | (t & Ht & Ht0 & Hd)].
  - exists r. split; [| done]. destruct Hr as [[H3 H4] | [[tr Htr] H4]].
    + left. by rewrite Hq.
    + right. split; [| by apply (wakes_awake fr s s' r Hw); [eexists |]].
      exists tr. rewrite lookup_delete_ne; [done |]. intros E. subst r.
      apply chain_head in Hd as [? | [t Ht]]; [done |]. by rewrite lookup_delete_eq in Ht.
  - rewrite Hc in Ht. injection Ht as <- <-. exists tmp. split; [| done].
    by apply root_awake with (p := p); [| | apply Htmp].
Qed.

(** [sleep_on_begin] up to the switch. *)
Lemma sleep_on_begin_run q s tmp s' :
  sleep_on_begin q s = Done (Some tmp) s' ->
  tmp = default 0 (wq s !! q) /\
  exists t : task_struct, tasks s !! current s = Some t /\
    schedule (set_tasks (<[current s := tset T_state TASK_UNINTERRUPTIBLE t]> (tasks s))
                (set_wq (<[q := current s]> (wq s)) s)) = Done tt s'.
Proof.
  unfold sleep_on_begin. destruct (q =? 0); [by intros H; injection H |].
  intros H. apply bind_inv in H as ([] & s0 & H0 & H).
  assert (s0 = s) as ->.
  { unfold task0_sleeps in H0. rewrite (bind_Done (gets current) _ s (current s) s) in H0 by done.
    apply bind_inv in H0 as (t0 & s1 & E & H0). unfold task_at, get_opt in E.
    change (if 0 <? 0 then None else task s !! Z.to_nat 0) with (task s !! 0%nat) in E.
    destruct (task s !! 0%nat) as [z |]; [| done]. injection E as <- <-.
    destruct (current s =? z); cbn in H0; [done | by injection H0 as <-]. }
  rewrite (bind_Done (wq_get q) _ s (default 0 (wq s !! q)) s) in H by done.
  rewrite (bind_Done (gets current) _ s (current s) s) in H by done.
  rewrite (bind_Done (wq_put q (current s)) _ s tt (set_wq (<[q := current s]> (wq s)) s))
    in H by done.
  apply bind_inv in H as ([] & s1 & H1 & H). unfold cur_put in H1.
  apply bind_inv in H1 as (c & s2 & E & H1). injection E as <- <-.
  apply tput_state_run in H1 as (t & Ht & ->).
  apply bind_inv in H as ([] & s2 & H2 & H). injection H as -> <-.
  split; [done |]. by exists t.
Qed.

Lemma step_sleep_inv s fr q tmp s' :
  wq_inv (s, fr) -> fr !! current s = None -> sleep_on_begin q s = Done (Some tmp) s' ->
  wq_inv (s', <[current s := (q, tmp)]> fr).
Proof.
  intros [Hwf Hok Hl] Hc Hrun. cbn [fst snd] in *.
  apply sleep_on_begin_run in Hrun as (-> & t & Ht & Hrun). set (c := current s) in *.
  set (s0 := set_wq (<[q := c]> (wq s)) s) in *.
  set (s1 := set_tasks _ s0) in Hrun.
  assert (Hwf1 : pwf s1) 
    by exact (set_state_pwf c TASK_UNINTERRUPTIBLE t s0 Ht (pwf_set_wq _ s Hwf)).
  assert (Hok1 : counts_ok s1) 
    by exact (set_state_counts c TASK_UNINTERRUPTIBLE t s Ht Hok).
  assert (Hc0 : c <> 0) by (intros E; rewrite E, (pwf_null s Hwf) in Ht; done).
  destruct (schedule_wakes s1 s' Hwf1 Hok1 Hrun) as (H1 & H2 & H3 & H4).
  assert (Hst : forall p, p <> c -> state_at s1 p = state_at s p).
  { intros p Hp. unfold s1. etransitivity; [by apply (state_at_set c _ t s0 p) |].
    by rewrite decide_False. }
  constructor; cbn [fst snd]; [done | done |].
  apply (lost_wakes _ s1); [done | done |].
  assert (Hhead : wq s1 !! q = Some c) by (cbn; apply lookup_insert_eq).
  intros p q' tmp' Hp Has. destruct (decide (p = c)) as [-> | Hpc].
  - rewrite lookup_insert_eq in Hp. injection Hp as <- <-. exists c.
    split; [by left | constructor].
  - rewrite lookup_insert_ne in Hp by done.
    assert (Has' : asleep s p) by (unfold asleep; by rewrite <- Hst).
    destruct (Hl p q' tmp' Hp Has') as (r & Hr & Hch).
    apply (chain_insert fr q' c (q, default 0 (wq s !! q)) _ _ Hc) in Hch.
    destruct Hr as [[Hr0 Hr] | [[tr Htr] Hr]].
    + destruct (decide (q' = q)) as [-> | Hne].
      * exists c. split; [by left |]. apply (chain_next _ _ c r p); [| done | done].
        by rewrite lookup_insert_eq, Hr.
      * exists r. split; [| done]. left. cbn. by rewrite lookup_insert_ne.
    + assert (r <> c) by congruence. exists r. split; [| done]. right.
      split; [exists tr; by rewrite lookup_insert_ne |]. unfold awake. by rewrite Hst.
Qed.

Lemma wq_step_inv c c' : wq_inv c -> wq_step c c' -> wq_inv c'.
Proof.
  intros Hinv Hstep. destruct Hstep as [s fr q tmp s' Hc Hrun | s fr q tmp s' Hc Hrun
    | s fr q s' Hrun | s fr s' Hrun | s fr s' H1 H2 H3 H4].
  - by eapply step_sleep_inv.
  - by eapply step_resume_inv.
  - by eapply step_wake_inv.
  - by eapply step_schedule_inv.
  - destruct Hinv as [_ _ Hl]. constructor; [done | done |]. apply (lost_wakes fr s); [done | | done].
    intros p Hp. left. by apply H4.
Qed.

Lemma wq_reachable_inv c c' : wq_inv c -> rtc wq_step c c' -> wq_inv c'.
Proof. intros H Hr. induction Hr; [done |]. by eapply IHHr, wq_step_inv. Qed.

(** C1: However [sleep_on], [wake_up], [schedule] and the rest of the kernel
    interleave, no sleeper is lost: from a state without sleepers, every task
    that is still asleep in [sleep_on] of a queue is reached, through the
    saved [tmp]s, from the queue's head, which the next [wake_up] wakes, or
    from a task of that queue that was woken and has yet to run. So once the
    woken tasks of a queue have run and its head is null, nobody sleeps on it. *)
Theorem no_sleeper_lost s0 s fr q :
  pwf s0 -> counts_ok s0 -> rtc wq_step (s0, ∅) (s, fr) ->
  (forall p tmp, fr !! p = Some (q, tmp) -> asleep s p ->
     exists r, root s fr q r /\ chain fr q r p) /\
  (default 0 (wq s !! q) = 0 ->
   (forall p tmp, fr !! p = Some (q, tmp) -> ~ awake s p) ->
   forall p tmp, fr !! p = Some (q, tmp) -> ~ asleep s p).
Proof.
  intros Hwf Hok Hr.
  assert (Hinv : wq_inv (s, fr)) by (by apply (wq_reachable_inv (s0, ∅))).
  destruct Hinv as [_ _ Hl]. split; [intros p tmp; apply Hl |].
  intros Hhead Hrun p tmp Hp Has. destruct (Hl p q tmp Hp Has) as (r & Hroot & _).
  destruct Hroot as [[Hr0 Hr1] | [[tr Htr] Hr1]]; cbn in *.
  - rewrite Hr1 in Hhead. done.
  - by apply (Hrun r tr).
Qed.

(** Three tasks; 2000, then 3000, sleep on queue 8. *)
Definition wq_demo0 : pstate :=
  demo_table [2000; 3000; 4000]
    (<[2000 := mk_task 0 9 15]> (<[3000 := mk_task 0 8 15]> {[4000 := mk_task 0 7 15]})) 2000.
Definition wq_demo1 : pstate := state_of wq_demo0 (sleep_on_begin 8 wq_demo0).
Definition wq_demo2 : pstate := state_of wq_demo0 (sleep_on_begin 8 wq_demo1).

Lemma no_sleeper_lost_witness :
  current wq_demo2 = 4000 /\ asleep wq_demo2 2000 /\
  exists r, root wq_demo2 {[2000 := (8, 0); 3000 := (8, 2000)]} 8 r /\
            chain {[2000 := (8, 0); 3000 := (8, 2000)]} 8 r 2000.
Proof.
  assert (H1 : asleep wq_demo2 2000) by (exists 2; split; [by vm_compute | done]).
  split; [by vm_compute |]. split; [done |].
  refine (proj1 (no_sleeper_lost wq_demo0 wq_demo2 _ 8 _ _ _) 2000 0 _ H1).
  - apply pwfb_pwf. by vm_compute.
  - apply counts_okb_counts_ok. by vm_compute.
  - eapply rtc_l; [apply (step_sleep _ _ 8 0 wq_demo1); [done | by apply value_state; vm_compute] |].
    eapply rtc_l; [| apply rtc_refl].
    replace {[2000 := (8, 0); 3000 := (8, 2000)]}
      with (<[current wq_demo1 := (8, 2000)]> (<[current wq_demo0 := (8, 0)]> (∅ : frames)))
      by by vm_compute.
    apply (step_sleep _ _ 8 2000 wq_demo2); [by vm_compute | by apply value_state; vm_compute].
  - by vm_compute.
Defined.

(** ** The interruptible variant *)

(** One run of [interruptible_sleep_on] and [wake_up] on queue 8: 2000 sleeps,
    then 3000 behind it; 4000 wakes the queue and yields; 3000 leaves it,
    waking 2000, and pauses; before 2000 runs, 4000 sleeps on the queue; 2000
    runs, wakes 4000 and goes back to sleep; 4000 runs and leaves. *)
Definition int_run : M pstate (list (option Z) * list bool) :=
  a ← interruptible_sleep_on_begin 8;
  b ← interruptible_sleep_on_begin 8;
  _ ← wake_up 8;
  _ ← schedule;
  r1 ← interruptible_sleep_on_end 8 2000;
  _ ← sys_pause;
  c ← interruptible_sleep_on_begin 8;
  r2 ← interruptible_sleep_on_end 8 0;
  r3 ← interruptible_sleep_on_end 8 0;
  mret ([a; b; c], [r1; r2; r3]).

Definition int_demo : pstate :=
  demo_table [2000; 3000; 4000]
    (<[2000 := mk_task 0 5 15]> (<[3000 := mk_task 0 9 15]> {[4000 := mk_task 0 7 15]})) 2000.

(** ... after which 2000 sleeps although it was woken, the queue's head is
    null and nobody holds 2000 in a [tmp]: no [wake_up] reaches it. *)
Lemma interruptible_sleeper_lost :
  exists s, int_run int_demo = Done ([Some 0; Some 2000; Some 0], [false; true; false]) s /\
    current s = 4000 /\ state_at s 2000 = Some TASK_INTERRUPTIBLE /\
    wake_up 8 s = Done tt s.
Proof.
  exists (state_of int_demo (int_run int_demo)).
  split; [apply value_state; by vm_compute |]. split; [by vm_compute |].
  split; [by vm_compute |].
  unfold wake_up. change (8 =? 0) with false. cbv iota.
  set (s := state_of _ _).
  assert (H : default 0 (wq s !! 8) = 0) by by vm_compute.
  rewrite (bind_Done (wq_get 8) _ s 0 s); [done |]. unfold wq_get, gets. by rewrite H.
Qed.
