(* ===== verification/TimeInit.v ===== *)
(** * TimeInit: the clock at boot

    [time_init] of src/linux-0.01/init/main.c reads the real-time clock and sets
    [startup_time]. The clock chip behind the ports 0x70 and 0x71 is an
    interface, [Cmos]. *)

From S2P Require Import Prelude Mem Mktime Proc Sched.

(** [outb_p(reg,0x70); inb_p(0x71)]. *)
Class Cmos (rtc : Type) : Type := cmos_port : Z -> rtc -> Z * rtc.

Section time_init.
Context {rtc : Type} {CM : Cmos rtc}.

Definition on_proc {A} (m : M pstate A) : M (rtc * pstate) A := fun s =>
  match m s.2 with Done a p => Done a (s.1, p) | Halt r => Halt r end.

Definition CMOS_READ (addr : Z) : M (rtc * pstate) Z := fun s =>
  let '(v, c) := cmos_port (Z.lor 0x80 addr) s.1 in Done (u8 v) (c, s.2).

Definition BCD_TO_BIN (val : Z) : Z := Z.land val 15 + Z.shiftr val 4 * 10.

(** The [do ... while]: the fields as the chip has them. *)
Fixpoint read_clock (fuel : nat) : M (rtc * pstate) tm :=
  match fuel with
  | O => halt NoFuel
  | S fuel' =>
      sec ← CMOS_READ 0;
      min ← CMOS_READ 2;
      hour ← CMOS_READ 4;
      mday ← CMOS_READ 7;
      mon ← CMOS_READ 8;
      year ← CMOS_READ 9;
      again ← CMOS_READ 0;
      if negb (sec =? again) then read_clock fuel'
      else mret {| tm_sec := sec; tm_min := min; tm_hour := hour; tm_mday := mday; tm_mon := mon - 1; tm_year := year |}
  end.

Definition time_init (fuel : nat) : M (rtc * pstate) unit :=
  t ← read_clock fuel;
  let t := {| tm_sec := BCD_TO_BIN (tm_sec t); tm_min := BCD_TO_BIN (tm_min t); tm_hour := BCD_TO_BIN (tm_hour t);
              tm_mday := BCD_TO_BIN (tm_mday t); tm_mon := BCD_TO_BIN (tm_mon t); tm_year := BCD_TO_BIN (tm_year t) |} in
  match kernel_mktime t with
  | Some v => on_proc (modify (set_startup_time v))
  | None => halt (Fault "month")
  end.

(** ** A clock that shows a date *)

(** Two decimal digits. *)
Definition bcd (v : Z) : Z := 16 * (v / 10) + v mod 10.

(** The registers of a clock that shows [d] and does not tick while it is read. *)
Record shows (d : tm) (c : rtc) : Prop := {
  sh_sec : cmos_port 0x80 c = (bcd (tm_sec d), c);
  sh_min : cmos_port 0x82 c = (bcd (tm_min d), c);
  sh_hour : cmos_port 0x84 c = (bcd (tm_hour d), c);
  sh_mday : cmos_port 0x87 c = (bcd (tm_mday d), c);
  sh_mon : cmos_port 0x88 c = (bcd (tm_mon d + 1), c);
  sh_year : cmos_port 0x89 c = (bcd (tm_year d), c)
}.

Lemma bcd_byte v : 0 <= v < 100 -> u8 (bcd v) = bcd v.
Proof. intros H. apply u8_small. unfold bcd. Z.div_mod_to_equations. lia. Qed.

Lemma BCD_TO_BIN_bcd v : 0 <= v < 100 -> BCD_TO_BIN (bcd v) = v.
Proof.
  intros H. unfold BCD_TO_BIN, bcd. change 15 with (Z.ones 4). rewrite Z.land_ones, Z.shiftr_div_pow2 by lia.
  change (2 ^ 4) with 16. Z.div_mod_to_equations. lia.
Qed.

(** The month is made zero-based before its digits are put together: October,
    0x10, becomes 0x0f. *)
Lemma BCD_TO_BIN_month m : 0 <= m < 12 -> BCD_TO_BIN (bcd (m + 1) - 1) = if m =? 9 then 15 else m.
Proof.
  intros H. assert (Hc : Forall (fun m => BCD_TO_BIN (bcd (m + 1) - 1) = if m =? 9 then 15 else m) (seqZ 0 12))
    by (vm_compute; repeat constructor).
  rewrite Forall_forall in Hc. apply Hc, elem_of_seqZ. lia.
Qed.

Lemma CMOS_READ_run addr reg v c p :
  Z.lor 0x80 addr = reg -> cmos_port reg c = (v, c) -> CMOS_READ addr (c, p) = Done (u8 v) (c, p).
Proof. intros <- H. unfold CMOS_READ. cbn. by rewrite H. Qed.

Lemma read_clock_run fuel d c p :
  valid_tm d -> 0 <= tm_year d < 100 -> shows d c ->
  read_clock (S fuel) (c, p) =
    Done {| tm_sec := bcd (tm_sec d); tm_min := bcd (tm_min d); tm_hour := bcd (tm_hour d); tm_mday := bcd (tm_mday d);
            tm_mon := bcd (tm_mon d + 1) - 1; tm_year := bcd (tm_year d) |} (c, p).
Proof.
  intros (Hs & Hmi & Hh & Hm & Hd) Hy [].
  assert (tm_mday d <= 31) by (unfold month_len in Hd; repeat case_match; lia).
  cbn [read_clock].
  rewrite (bind_Done _ _ _ _ _ (CMOS_READ_run 0 0x80 _ c p eq_refl sh_sec0)).
  rewrite (bind_Done _ _ _ _ _ (CMOS_READ_run 2 0x82 _ c p eq_refl sh_min0)).
  rewrite (bind_Done _ _ _ _ _ (CMOS_READ_run 4 0x84 _ c p eq_refl sh_hour0)).
  rewrite (bind_Done _ _ _ _ _ (CMOS_READ_run 7 0x87 _ c p eq_refl sh_mday0)).
  rewrite (bind_Done _ _ _ _ _ (CMOS_READ_run 8 0x88 _ c p eq_refl sh_mon0)).
  rewrite (bind_Done _ _ _ _ _ (CMOS_READ_run 9 0x89 _ c p eq_refl sh_year0)).
  rewrite (bind_Done _ _ _ _ _ (CMOS_READ_run 0 0x80 _ c p eq_refl sh_sec0)).
  rewrite Z.eqb_refl. cbn [negb]. by rewrite !bcd_byte by lia.
Qed.

(** C23: At boot the kernel's time is set to the seconds the Gregorian calendar
    counts from 1970 to what the clock shows, for every date of the years 1970
    to 1999, except in October: there the code looks up month 15 of a table of
    12, and what it then adds is undefined. *)
Theorem time_init_correct fuel d c p :
  valid_tm d -> 70 <= tm_year d < 100 -> shows d c ->
  time_init (S fuel) (c, p) =
    if tm_mon d =? 9 then Halt (Fault "month") else Done tt (c, set_startup_time (epoch_seconds d) p).
Proof.
  intros Hv Hy Hc. unfold time_init. rewrite (bind_Done _ _ _ _ _ (read_clock_run fuel d c p Hv ltac:(lia) Hc)).
  cbn [tm_sec tm_min tm_hour tm_mday tm_mon tm_year]. pose proof Hv as (Hs & Hmi & Hh & Hm & Hd).
  assert (tm_mday d <= 31) by (unfold month_len in Hd; repeat case_match; lia).
  rewrite BCD_TO_BIN_month, !BCD_TO_BIN_bcd by lia. destruct (tm_mon d =? 9).
  - done.
  - replace {| tm_sec := tm_sec d; tm_min := tm_min d; tm_hour := tm_hour d; tm_mday := tm_mday d; tm_mon := tm_mon d;
               tm_year := tm_year d |} with d by by destruct d.
    by rewrite (kernel_mktime_calendar d Hv) by lia.
Qed.
End time_init.

(** The evening of 17 September 1991; the chip is its registers. *)
#[local] Instance table_clock : Cmos (list Z) := fun reg c => (default 0 (c !! Z.to_nat (reg - 0x80)), c).

Definition september : tm :=
  {| tm_sec := 30; tm_min := 59; tm_hour := 23; tm_mday := 17; tm_mon := 8; tm_year := 91 |}.
Lemma time_init_witness :
  time_init 1 ([0x30; 0; 0x59; 0; 0x23; 0; 0; 0x17; 0x09; 0x91], demo_table [] ∅ 1000) =
    Done tt ([0x30; 0; 0x59; 0; 0x23; 0; 0; 0x17; 0x09; 0x91], set_startup_time 685151970 (demo_table [] ∅ 1000)).
Proof.
  assert (E : epoch_seconds september = 685151970) by (vm_compute; reflexivity).
  rewrite (time_init_correct 0 september).
  - by rewrite E.
  - repeat split; vm_compute; discriminate.
  - by split.
  - by constructor.
Defined.
