(* ===== verification/Fork.v ===== *)
(** * Fork: src/linux-0.01/kernel/fork.c *)

From S2P Require Import Prelude Mem Proc Sched.

Section fork.
Context `{!KernelSvc}.

(** The loop of [verify_area]. *)
Fixpoint verify_pages (fuel : nat) (start size : Z) : M pstate unit :=
  if size <=? 0 then mret tt
  else
    match fuel with
    | O => halt NoFuel
    | S fuel' =>
        _ ← svc_write_verify start;
        verify_pages fuel' (u32 (start + 4096)) (s32 (size - 4096))
    end.

Definition verify_area (addr size : Z) : M pstate unit :=
  let start := u32 addr in
  let size := s32 (size + Z.land start 0xfff) in
  let start := Z.land start 0xfffff000 in
  b ← cur_get (T_ldt_base 2);
  verify_pages (Z.to_nat (size / 4096 + 1)) (u32 (start + b)) size.

Definition copy_mem (nr p : Z) : M pstate Z :=
  code_limit ← svc_get_limit 0x0f;
  data_limit ← svc_get_limit 0x17;
  old_code_base ← cur_get (T_ldt_base 1);
  old_data_base ← cur_get (T_ldt_base 2);
  if negb (old_data_base =? old_code_base) then panic "We don't support separate I&D"
  else if data_limit <? code_limit then panic "Bad data_limit"
  else
    let new_code_base := u32 (nr * 0x4000000) in
    let new_data_base := new_code_base in
    _ ← tput p (T_ldt_base 1) new_code_base;
    _ ← tput p (T_ldt_base 2) new_data_base;
    r ← svc_copy_page_tables old_data_base new_data_base data_limit;
    if negb (r =? 0) then
      _ ← svc_free_page_tables new_data_base data_limit;
      mret (- ENOMEM)
    else mret 0.

(** The registers [copy_process] is given. *)
Record regs : Type := {
  r_ebp : Z; r_edi : Z; r_esi : Z; r_gs : Z; r_ebx : Z; r_ecx : Z; r_edx : Z;
  r_fs : Z; r_es : Z; r_ds : Z; r_eip : Z; r_cs : Z; r_eflags : Z; r_esp : Z; r_ss : Z
}.

(** The assignments to [*p] before [copy_mem], in order. *)
Definition child_fields (p nr last_pid' father priority jiffies' : Z) (r : regs)
    : list (tfield * Z) :=
  [(T_state, TASK_RUNNING); (T_pid, last_pid'); (T_father, father); (T_counter, priority);
   (T_signal, 0); (T_alarm, 0); (T_leader, 0); (T_stime, 0); (T_utime, 0); (T_cstime, 0);
   (T_cutime, 0); (T_start_time, jiffies');
   (T_tss TSS_back_link, 0); (T_tss TSS_esp0, PAGE_SIZE + p); (T_tss TSS_ss0, 0x10);
   (T_tss TSS_eip, r_eip r); (T_tss TSS_eflags, r_eflags r); (T_tss TSS_eax, 0);
   (T_tss TSS_ecx, r_ecx r); (T_tss TSS_edx, r_edx r); (T_tss TSS_ebx, r_ebx r);
   (T_tss TSS_esp, r_esp r); (T_tss TSS_ebp, r_ebp r); (T_tss TSS_esi, r_esi r);
   (T_tss TSS_edi, r_edi r); (T_tss TSS_es, Z.land (r_es r) 0xffff);
   (T_tss TSS_cs, Z.land (r_cs r) 0xffff); (T_tss TSS_ss, Z.land (r_ss r) 0xffff);
   (T_tss TSS_ds, Z.land (r_ds r) 0xffff); (T_tss TSS_fs, Z.land (r_fs r) 0xffff);
   (T_tss TSS_gs, Z.land (r_gs r) 0xffff); (T_tss TSS_ldt, Z.shiftl nr 4 + Z.shiftl 5 3);
   (T_tss TSS_trace_bitmap, 0x80000000)].

Fixpoint tputs (p : Z) (l : list (tfield * Z)) : M pstate unit :=
  match l with
  | [] => mret tt
  | (f, v) :: l' => _ ← tput p f v; tputs p l'
  end.

(** [*p = *current]. *)
Definition copy_task (p : Z) : M pstate unit :=
  c ← gets current;
  t ← get_opt "task_struct" (fun s => tasks s !! c);
  modify (fun s => set_tasks (<[p := t]> (tasks s)) s).

Definition set_task_at (nr p : Z) : M pstate unit := fun s =>
  if (0 <=? nr) && (nr <? NR_TASKS)
  then Done tt (set_task (<[Z.to_nat nr := p]> (task s)) s)
  else Halt (Fault "task").

(** The open files of [p] have one more user each. *)
Definition share_file (p i : Z) : M pstate unit :=
  f ← tget p (T_filp i);
  when (negb (f =? 0)) (svc_file_ref f).

Definition copy_process (nr : Z) (r : regs) : M pstate Z :=
  p ← svc_get_free_page;
  if p =? 0 then mret (- EAGAIN)
  else
    _ ← copy_task p;
    pid ← gets last_pid;
    father ← cur_get T_pid;
    priority ← tget p T_priority;
    j ← gets jiffies;
    _ ← tputs p (child_fields p nr pid father priority j r);
    l ← gets last_task_used_math;
    c ← gets current;
    _ ← when (l =? c) (i ← svc_fnsave c; tput p (T_tss TSS_i387) i);
    e ← copy_mem nr p;
    if negb (e =? 0) then _ ← svc_free_page p; mret (- EAGAIN)
    else
      _ ← for_loop (Z.to_nat NR_OPEN) 0 (share_file p);
      pwd ← cur_get T_pwd;
      _ ← when (negb (pwd =? 0)) (svc_inode_ref pwd);
      root ← cur_get T_root;
      _ ← when (negb (root =? 0)) (svc_inode_ref root);
      _ ← svc_set_tss_desc nr p;
      _ ← svc_set_ldt_desc nr p;
      _ ← set_task_at nr p;
      gets last_pid.
End fork.

(** ** find_empty_process *)

(** [task[i] && task[i]->pid == last_pid] for some [i] among the first slots. *)
Fixpoint pid_used (n : nat) (i : Z) (pid : Z) : M pstate bool :=
  match n with
  | O => mret false
  | S n' =>
      p ← task_at i;
      if p =? 0 then pid_used n' (i + 1) pid
      else
        q ← tget p T_pid;
        if q =? pid then mret true else pid_used n' (i + 1) pid
  end.

(** [if ((++last_pid)<0) last_pid=1]. *)
Definition next_pid (l : Z) : Z := if s32 (l + 1) <? 0 then 1 else s32 (l + 1).

(** The [repeat] loop. *)
Fixpoint new_pid (fuel : nat) : M pstate unit :=
  match fuel with
  | O => halt NoFuel
  | S fuel' =>
      l ← gets last_pid;
      _ ← modify (set_last_pid (next_pid l));
      used ← pid_used 64 0 (next_pid l);
      if used : bool then new_pid fuel' else mret tt
  end.

(** The first free slot from [i] on. *)
Fixpoint free_slot (n : nat) (i : Z) : M pstate Z :=
  match n with
  | O => mret (- EAGAIN)
  | S n' =>
      p ← task_at i;
      if p =? 0 then mret i else free_slot n' (i + 1)
  end.

(** 64 tasks hold 64 pids at most: see [new_pid_run]. *)
Definition find_empty_process : M pstate Z :=
  _ ← new_pid 65;
  free_slot 63 1.

(** ** Lemmas: fresh pids and free slots *)

(** The pid of the task in a slot; an empty slot has none. *)
Definition slot_pid (s : pstate) (p : Z) : option Z :=
  if p =? 0 then None else
    match (tasks s !! p : option task_struct) with
    | Some t => Some (t T_pid) | None => None end.

Definition pids (s : pstate) : list Z := omap (slot_pid s) (task s).

Lemma slots_live s i p : pwf s -> task s !! i = Some p -> p <> 0 ->
  exists t : task_struct, tasks s !! p = Some t.
Proof. intros Hwf Hp Hp0. destruct (pwf_live s Hwf i p Hp Hp0) as [t Ht]. by exists t. Qed.

Lemma pid_used_run s pid n i :
  pwf s -> (i + n <= 64)%nat ->
  pid_used n (Z.of_nat i) pid s =
    Done (bool_decide (pid ∈ omap (slot_pid s) (take n (drop i (task s))))) s.
Proof.
  intros Hwf. revert i; induction n as [| n IH]; intros i Hi; cbn [pid_used].
  { rewrite take_0. by rewrite bool_decide_eq_false_2 by apply not_elem_of_nil. }
  destruct (lookup_lt_is_Some_2 (task s) i) as [p Hp]; [rewrite (pwf_len s Hwf); lia |].
  rewrite (bind_Done _ _ _ _ _ (task_at_run (Z.of_nat i) p s ltac:(lia) ltac:(by rewrite Nat2Z.id))).
  rewrite (drop_S _ _ _ Hp), firstn_cons. cbn [omap list_omap].
  replace (Z.of_nat i + 1) with (Z.of_nat (S i)) by lia.
  destruct (Z.eqb_spec p 0) as [-> | Hp0].
  { change (slot_pid s 0) with (@None Z). apply IH. lia. }
  destruct (slots_live s i p Hwf Hp Hp0) as [t Ht].
  replace (slot_pid s p) with (Some (t T_pid))
    by (unfold slot_pid; by rewrite (proj2 (Z.eqb_neq p 0) Hp0), Ht).
  rewrite (bind_Done _ _ _ _ _ (tget_run p T_pid s t Ht)).
  destruct (Z.eqb_spec (t T_pid) pid) as [<- | Hne].
  - rewrite bool_decide_eq_true_2; [done | apply list_elem_of_here].
  - rewrite IH by lia. f_equal. apply bool_decide_ext. rewrite elem_of_cons.
    split; [by right | intros [E | ?]; [congruence | done]].
Qed.

Lemma pids_spec s i p (t : task_struct) :
  task s !! i = Some p -> p <> 0 -> tasks s !! p = Some t -> t T_pid ∈ pids s.
Proof.
  intros Hp Hp0 Ht. unfold pids. apply list_elem_of_omap. exists p.
  split; [by eapply list_elem_of_lookup_2 |]. unfold slot_pid.
  by rewrite (proj2 (Z.eqb_neq p 0) Hp0), Ht.
Qed.

Lemma pids_length s : (length (pids s) <= length (task s))%nat.
Proof.
  unfold pids. induction (task s) as [| p l IH]; cbn; [lia |].
  destruct (slot_pid s p); cbn; lia.
Qed.

(** The candidates, from [l] on: they cycle through 1, ..., 2^31 - 1. *)
Definition candidate (l : Z) (k : nat) : Z := (l + Z.of_nat k) mod 2147483647 + 1.

Lemma next_pid_mod l : 0 <= l <= 2147483647 -> next_pid l = l mod 2147483647 + 1.
Proof. intros H. unfold next_pid. destruct (Z.ltb_spec (s32 (l + 1)) 0); wrap_lia. Qed.

Lemma candidate_range l k : 1 <= candidate l k <= 2147483647.
Proof. unfold candidate. pose proof (Z.mod_pos_bound (l + Z.of_nat k) 2147483647). lia. Qed.

Lemma candidate_S l k : candidate (candidate l 0) k = candidate l (S k).
Proof.
  unfold candidate. f_equal. rewrite Z.add_0_r, <- Z.add_assoc, Zplus_mod_idemp_l. f_equal. lia.
Qed.

Lemma candidate_inj l j k :
  (j < 65)%nat -> (k < 65)%nat -> candidate l j = candidate l k -> j = k.
Proof. unfold candidate. intros Hj Hk H. Z.div_mod_to_equations. lia. Qed.

Lemma some_candidate_free (l : Z) (used : list Z) :
  (length used <= 64)%nat -> exists k, (k < 65)%nat /\ candidate l k ∉ used.
Proof.
  intros Hlen.
  destruct (decide (Forall (fun k => candidate l k ∈ used) (seq 0 65))) as [Hall | Hn].
  - exfalso. rewrite Forall_forall in Hall.
    assert (Hle : (length (map (candidate l) (seq 0 65)) <= length used)%nat).
    { apply NoDup_incl_length.
      - apply NoDup_ListNoDup. apply (NoDup_fmap_2_strong (candidate l)); [| apply NoDup_seq].
        intros j k Hj Hk E. apply elem_of_seq in Hj, Hk. apply (candidate_inj l); [lia | lia | done].
      - intros x Hx. apply in_map_iff in Hx as (k & <- & Hk).
        apply list_elem_of_In. apply Hall. by apply list_elem_of_In. }
    rewrite length_map, length_seq in Hle. lia.
  - apply not_Forall_Exists in Hn; [| intros k; apply _].
    apply Exists_exists in Hn as (k & Hk & Hnk). apply elem_of_seq in Hk. exists k.
    split; [lia | done].
Qed.

(** The loop stops at the first candidate nobody uses. *)
Lemma new_pid_run s fuel :
  pwf s -> 0 <= last_pid s <= 2147483647 ->
  (exists k, (k < fuel)%nat /\ candidate (last_pid s) k ∉ pids s) ->
  exists k, (k < fuel)%nat /\ (candidate (last_pid s) k ∉ pids s) /\
    (forall j, (j < k)%nat -> candidate (last_pid s) j ∈ pids s) /\
    new_pid fuel s = Done tt (set_last_pid (candidate (last_pid s) k) s).
Proof.
  revert s; induction fuel as [| fuel IH]; intros s Hwf Hl (k & Hk & Hfree); [lia |].
  cbn [new_pid]. rewrite (bind_Done (gets last_pid) _ s (last_pid s) s) by done.
  replace (next_pid (last_pid s)) with (candidate (last_pid s) 0)
    by (unfold candidate; rewrite next_pid_mod by lia; by rewrite Z.add_0_r).
  set (c := candidate (last_pid s) 0). set (s1 := set_last_pid c s).
  rewrite (bind_Done (modify _) _ s tt s1) by done.
  assert (Hwf1 : pwf s1) by (destruct Hwf; by constructor).
  rewrite (bind_Done _ _ _ _ _ (pid_used_run s1 c 64 0 Hwf1 ltac:(lia))).
  rewrite drop_0, take_ge by (rewrite (pwf_len s1 Hwf1); lia). change (omap _ _) with (pids s).
  destruct (decide (c ∈ pids s)) as [Hin | Hin].
  - rewrite bool_decide_eq_true_2 by done.
    destruct k as [| k]; [done |].
    destruct (IH s1 Hwf1) as (k' & Hk' & Hfree' & Hused & Hrun).
    + pose proof (candidate_range (last_pid s) 0). cbn [last_pid s1 set_last_pid]. unfold c. lia.
    + exists k. split; [lia |]. cbn [last_pid s1 set_last_pid]. unfold c.
      by rewrite candidate_S.
    + cbn [last_pid s1 set_last_pid] in *. unfold c in *. rewrite candidate_S in Hfree', Hrun.
      exists (S k'). split; [lia |]. split; [done |]. split; [| done].
      intros [| j] Hj; [done |]. rewrite <- candidate_S. apply Hused. lia.
  - rewrite bool_decide_eq_false_2 by done. exists 0%nat. split; [lia |]. split; [done |].
    split; [lia | done].
Qed.

Lemma free_slot_run s n i :
  pwf s -> (i + n <= 64)%nat ->
  exists r, free_slot n (Z.of_nat i) s = Done r s /\
    ((r = - EAGAIN /\ forall j, (i <= j < i + n)%nat -> task s !! j <> Some 0) \/
     exists k, r = Z.of_nat k /\ (i <= k < i + n)%nat /\ task s !! k = Some 0 /\
       forall j, (i <= j < k)%nat -> task s !! j <> Some 0).
Proof.
  intros Hwf. revert i; induction n as [| n IH]; intros i Hi; cbn [free_slot].
  { exists (- EAGAIN). split; [done |]. left. split; [done | lia]. }
  destruct (lookup_lt_is_Some_2 (task s) i) as [p Hp]; [rewrite (pwf_len s Hwf); lia |].
  rewrite (bind_Done _ _ _ _ _ (task_at_run (Z.of_nat i) p s ltac:(lia) ltac:(by rewrite Nat2Z.id))).
  destruct (Z.eqb_spec p 0) as [-> | Hp0].
  { exists (Z.of_nat i). split; [done |]. right. exists i. split; [done |]. split; [lia |].
    split; [done | lia]. }
  replace (Z.of_nat i + 1) with (Z.of_nat (S i)) by lia.
  assert (Hi0 : task s !! i <> Some 0) by congruence.
  destruct (IH (S i) ltac:(lia)) as (r & Hrun & [[-> Hall] | (k & -> & Hk & Hk0 & Hall)]);
    [exists (- EAGAIN) | exists (Z.of_nat k)]; (split; [exact Hrun |]).
  - left. split; [done |]. intros j Hj. destruct (decide (j = i)) as [-> |]; [done |].
    apply Hall. lia.
  - right. exists k. split; [done |]. split; [lia |]. split; [done |]. intros j Hj.
    destruct (decide (j = i)) as [-> |]; [done |]. apply Hall. lia.
Qed.

(** [find_empty_process] always comes back, whatever the wrap-around of
    [last_pid]: 65 candidates are enough for 64 tasks. It leaves in
    [last_pid] a positive pid no task of the table has, the first such after
    the old one (going back to 1 after 2^31 - 1), changes nothing else, and
    returns the lowest free slot above 0, or [-EAGAIN] when there is none. *)
Theorem find_empty_process_correct s :
  pwf s -> 0 <= last_pid s <= 2147483647 ->
  exists r k,
    find_empty_process s = Done r (set_last_pid (candidate (last_pid s) k) s) /\
    1 <= candidate (last_pid s) k <= 2147483647 /\
    (forall i p t, task s !! i = Some p -> p <> 0 -> tasks s !! p = Some t ->
       t T_pid <> candidate (last_pid s) k) /\
    (forall j, (j < k)%nat -> candidate (last_pid s) j ∈ pids s) /\
    ((r = - EAGAIN /\ forall j, (1 <= j < 64)%nat -> task s !! j <> Some 0) \/
     exists n, r = Z.of_nat n /\ (1 <= n < 64)%nat /\ task s !! n = Some 0 /\
       forall j, (1 <= j < n)%nat -> task s !! j <> Some 0).
Proof.
  intros Hwf Hl.
  destruct (new_pid_run s 65 Hwf Hl) as (k & Hk & Hfree & Hused & Hrun).
  { apply some_candidate_free. pose proof (pids_length s). rewrite (pwf_len s Hwf) in H. lia. }
  set (s1 := set_last_pid (candidate (last_pid s) k) s) in *.
  assert (Hwf1 : pwf s1) by (destruct Hwf; by constructor).
  destruct (free_slot_run s1 63 1 Hwf1 ltac:(lia)) as (r & Hslot & Hr).
  exists r, k. split; [unfold find_empty_process; by rewrite (bind_Done _ _ _ _ _ Hrun) |].
  split; [apply candidate_range |].
  split; [| split; [done | exact Hr]].
  intros i p t Hp Hp0 Ht E. apply Hfree. rewrite <- E. by eapply pids_spec.
Qed.

(** The counter is about to wrap and pid 1 is taken. *)
Definition fork_demo : pstate :=
  set_last_pid 2147483647
    (demo_table [2000; 3000] (<[2000 := tset T_pid 1 (mk_task 0 9 15)]>
                               {[3000 := tset T_pid 2 (mk_task 0 9 15)]}) 2000).

Lemma find_empty_process_witness :
  exists k, find_empty_process fork_demo = Done 3 (set_last_pid (candidate 2147483647 k) fork_demo)
    /\ candidate 2147483647 k = 3.
Proof.
  destruct (find_empty_process_correct fork_demo) as (r & k & Hrun & _).
  - apply pwfb_pwf. by vm_compute.
  - by vm_compute.
  - assert (Hr : (match find_empty_process fork_demo with
                  | Done r s => Some (r, last_pid s) | Halt _ => None end) = Some (3, 3))
      by by vm_compute.
    rewrite Hrun in Hr. injection Hr as -> Hk. exists k. split; [exact Hrun | exact Hk].
Defined.
