(* ===== verification/Exit.v ===== *)
(** * Exit: src/linux-0.01/kernel/exit.c

    [release], [do_exit] and [sys_waitpid] give the processor away; a
    definition ends where another task goes on, and the part that runs when
    the caller is current again is a definition of its own. *)

From S2P Require Import Prelude Mem Proc Sched Fork.

Definition WNOHANG : Z := 1.

Definition send_sig (sig p priv : Z) : M pstate unit :=
  if (p =? 0) || (sig <? 1) || (32 <? sig) then mret tt
  else
    uid ← cur_get T_uid;
    euid ← cur_get T_euid;
    puid ← tget p T_uid;
    peuid ← tget p T_euid;
    when (negb (priv =? 0) || (uid =? puid) || (euid =? puid) || (uid =? peuid) || (euid =? peuid))
      (g ← tget p T_signal; tput p T_signal (Z.lor g (Z.shiftl 1 (sig - 1)))).

(** The test each branch of [do_kill] makes of a task. *)
Definition kill_target (pid p : Z) : M pstate bool :=
  if pid =? 0 then
    if p =? 0 then mret false
    else g ← tget p T_pgrp; c ← cur_get T_pid; mret (g =? c)
  else if 0 <? pid then
    if p =? 0 then mret false else q ← tget p T_pid; mret (q =? pid)
  else if pid =? -1 then mret true
  else if p =? 0 then mret false else g ← tget p T_pgrp; mret (g =? - pid).

Definition do_kill (pid sig priv : Z) : M pstate unit :=
  for_down 63 (fun i =>
    p ← task_at i;
    b ← kill_target pid p;
    when b (send_sig sig p priv)).

Definition sys_kill (pid sig : Z) : M pstate Z :=
  uid ← cur_get T_uid;
  euid ← cur_get T_euid;
  _ ← do_kill pid sig (b2z (negb (negb (uid =? 0) || negb (euid =? 0))));
  mret 0.

Section exit.
Context `{!KernelSvc}.

(** The slot of [p], from [i] on. *)
Fixpoint release_from (n : nat) (i p : Z) : M pstate unit :=
  match n with
  | O => panic "trying to release non-existent task"
  | S n' =>
      q ← task_at i;
      if q =? p then
        _ ← set_task_at i 0;
        _ ← svc_free_page p;
        schedule
      else release_from n' (i + 1) p
  end.

Definition release (p : Z) : M pstate unit :=
  if p =? 0 then mret tt else release_from 63 1 p.

Definition orphan (pid i : Z) : M pstate unit :=
  p ← task_at i;
  when (negb (p =? 0))
    (f ← tget p T_father; when (f =? pid) (tput p T_father 0)).

Definition close_file (i : Z) : M pstate unit :=
  f ← cur_get (T_filp i);
  when (negb (f =? 0)) (_ ← svc_sys_close i; mret tt).

(** [do_exit], up to the switch it does not come back from. *)
Definition do_exit (code : Z) : M pstate unit :=
  b1 ← cur_get (T_ldt_base 1);
  l1 ← svc_get_limit 0x0f;
  _ ← svc_free_page_tables b1 l1;
  b2 ← cur_get (T_ldt_base 2);
  l2 ← svc_get_limit 0x17;
  _ ← svc_free_page_tables b2 l2;
  pid ← cur_get T_pid;
  _ ← for_loop 64 0 (orphan pid);
  _ ← for_loop (Z.to_nat NR_OPEN) 0 close_file;
  pwd ← cur_get T_pwd;
  _ ← svc_iput pwd;
  _ ← cur_put T_pwd 0;
  root ← cur_get T_root;
  _ ← svc_iput root;
  _ ← cur_put T_root 0;
  leader ← cur_get T_leader;
  tty ← cur_get T_tty;
  _ ← when (negb (leader =? 0) && (0 <=? tty)) (svc_tty_clear_pgrp tty);
  l ← gets last_task_used_math;
  c ← gets current;
  _ ← when (l =? c) (modify (set_last_math 0));
  father ← cur_get T_father;
  if negb (father =? 0) then
    _ ← cur_put T_state TASK_ZOMBIE;
    father ← cur_get T_father;
    _ ← do_kill father SIGCHLD 1;
    _ ← cur_put T_exit_code code;
    schedule
  else release c.

Definition sys_exit (error_code : Z) : M pstate unit :=
  do_exit (Z.shiftl (Z.land error_code 0xff) 8).

(** [pid] of [sys_waitpid] names the task [p]. *)
Definition wait_target (pid p : Z) : M pstate bool :=
  if pid =? -1 then mret true
  else
    q ← tget p T_pid;
    if q =? pid then mret true
    else
      g ← tget p T_pgrp;
      cg ← cur_get T_pgrp;
      mret ((pid =? 0) && (g =? cg) || (pid <? 0) && (g =? - pid)).

(** What happens to a zombie. *)
Definition reap (p stat_addr : Z) : M pstate Z :=
  e ← tget p T_exit_code;
  _ ← put_fs_long e stat_addr;
  u ← tget p T_utime;
  cu ← cur_get T_cutime;
  _ ← cur_put T_cutime (cu + u);
  t ← tget p T_stime;
  ct ← cur_get T_cstime;
  _ ← cur_put T_cstime (ct + t);
  flag ← tget p T_pid;
  _ ← release p;
  mret flag.

(** One pass over [task[n]], ..., [task[1]]: the pid reaped, or [flag]. *)
Fixpoint wait_scan (n : nat) (pid stat_addr flag : Z) : M pstate (Z + Z) :=
  match n with
  | O => mret (inr flag)
  | S n' =>
      p ← task_at (Z.of_nat n);
      c ← gets current;
      if (p =? 0) || (p =? c) then wait_scan n' pid stat_addr flag
      else
        b ← wait_target pid p;
        f ← tget p T_father;
        cp ← cur_get T_pid;
        if negb (b && (f =? cp)) then wait_scan n' pid stat_addr flag
        else
          st ← tget p T_state;
          if st =? TASK_ZOMBIE then
            r ← reap p stat_addr;
            mret (inl r)
          else wait_scan n' pid stat_addr 1
  end.

(** From [repeat] on: the result, or nothing when it paused. *)
Definition wait_round (pid stat_addr options flag : Z) : M pstate (option Z) :=
  r ← wait_scan 63 pid stat_addr flag;
  match r with
  | inl r => mret (Some r)
  | inr flag =>
      if flag =? 0 then mret (Some (- ECHILD))
      else if negb (Z.land options WNOHANG =? 0) then mret (Some 0)
      else _ ← sys_pause; mret None
  end.

Definition sys_waitpid (pid stat_addr options : Z) : M pstate (option Z) :=
  _ ← verify_area stat_addr 4;
  wait_round pid stat_addr options 0.

(** ... after the pause. *)
Definition waitpid_resume (pid stat_addr options : Z) : M pstate (option Z) :=
  g ← cur_get T_signal;
  _ ← cur_put T_signal (Z.land g (Z.lnot (Z.shiftl 1 (SIGCHLD - 1))));
  g ← cur_get T_signal;
  if g =? 0 then wait_round pid stat_addr options 1 else mret (Some (- EINTR)).
End exit.

(** ** Lemmas: signals *)

(** Is [t] a target of [do_kill(pid, sig, priv)] run by [c], and allowed? *)
Definition kill_hit (c : task_struct) (pid sig priv : Z) (t : task_struct) : bool :=
  (1 <=? sig) && (sig <=? 32) &&
  (if pid =? 0 then t T_pgrp =? c T_pid
   else if 0 <? pid then t T_pid =? pid
   else if pid =? -1 then true else t T_pgrp =? - pid) &&
  (negb (priv =? 0) || (c T_uid =? t T_uid) || (c T_euid =? t T_uid) ||
   (c T_uid =? t T_euid) || (c T_euid =? t T_euid)).

Definition kill_upd (c : task_struct) (pid sig priv : Z) (t : task_struct) : task_struct :=
  if kill_hit c pid sig priv t
  then tset T_signal (Z.lor (t T_signal) (Z.shiftl 1 (sig - 1))) t else t.

(** The sender, as far as permissions go. *)
Definition sender (c : task_struct) (s : pstate) : Prop :=
  exists c' : task_struct, tasks s !! current s = Some c' /\
    c' T_uid = c T_uid /\ c' T_euid = c T_euid /\ c' T_pid = c T_pid.

Lemma kill_upd_other c pid sig priv t f : f <> T_signal -> kill_upd c pid sig priv t f = t f.
Proof. intros H. unfold kill_upd. case_match; [by rewrite tset_ne | done]. Qed.

Lemma apply_at_sender c pid sig priv i s :
  sender c s -> sender c (apply_at (kill_upd c pid sig priv) i s).
Proof.
  intros (c' & Hc & H1 & H2 & H3). unfold apply_at. repeat case_match; try by exists c'.
  unfold sender. cbn [tasks set_tasks current].
  destruct (decide (current s = z)) as [<- | Hne].
  - rewrite lookup_insert_eq. rewrite Hc in *. simplify_eq.
    eexists. split; [done |]. by rewrite !kill_upd_other.
  - rewrite lookup_insert_ne by done. by exists c'.
Qed.

Lemma kill_target_run c pid p t s :
  sender c s -> tasks s !! p = Some t -> p <> 0 ->
  kill_target pid p s =
    Done (if pid =? 0 then t T_pgrp =? c T_pid
          else if 0 <? pid then t T_pid =? pid
          else if pid =? -1 then true else t T_pgrp =? - pid) s.
Proof.
  intros (c' & Hc & _ & _ & H3) Ht Hp. unfold kill_target. rewrite (proj2 (Z.eqb_neq p 0) Hp).
  destruct (pid =? 0); [| destruct (0 <? pid); [| destruct (pid =? -1); [done |]]].
  - rewrite (bind_Done _ _ _ _ _ (tget_run p T_pgrp s t Ht)).
    by rewrite (bind_Done _ _ _ _ _ (cur_get_run c' T_pid s Hc)), H3.
  - by rewrite (bind_Done _ _ _ _ _ (tget_run p T_pid s t Ht)).
  - by rewrite (bind_Done _ _ _ _ _ (tget_run p T_pgrp s t Ht)).
Qed.

Lemma send_sig_run c sig p priv t s :
  sender c s -> tasks s !! p = Some t -> p <> 0 ->
  send_sig sig p priv s =
    Done tt (set_tasks (<[p :=
      if (1 <=? sig) && (sig <=? 32) &&
         (negb (priv =? 0) || (c T_uid =? t T_uid) || (c T_euid =? t T_uid) ||
          (c T_uid =? t T_euid) || (c T_euid =? t T_euid))
      then tset T_signal (Z.lor (t T_signal) (Z.shiftl 1 (sig - 1))) t else t]> (tasks s)) s).
Proof.
  intros (c' & Hc & H1 & H2 & _) Ht Hp. unfold send_sig. rewrite (proj2 (Z.eqb_neq p 0) Hp).
  destruct (Z.ltb_spec sig 1), (Z.ltb_spec 32 sig), (Z.leb_spec 1 sig), (Z.leb_spec sig 32);
    cbn [orb andb]; try lia; try (rewrite insert_id, set_tasks_id by done; done).
  rewrite (bind_Done _ _ _ _ _ (cur_get_run c' T_uid s Hc)).
  rewrite (bind_Done _ _ _ _ _ (cur_get_run c' T_euid s Hc)).
  rewrite (bind_Done _ _ _ _ _ (tget_run p T_uid s t Ht)).
  rewrite (bind_Done _ _ _ _ _ (tget_run p T_euid s t Ht)). rewrite H1, H2.
  destruct (_ || _); cbn [when]; [| by rewrite insert_id, set_tasks_id by done].
  rewrite (bind_Done _ _ _ _ _ (tget_run p T_signal s t Ht)).
  by rewrite (tput_run p T_signal _ s t Ht).
Qed.

(** The body of [do_kill]'s loops. *)
Lemma kill_body_run c pid sig priv s i :
  pwf s -> sender c s -> (i < 64)%nat ->
  (p ← task_at (Z.of_nat i); b ← kill_target pid p; when b (send_sig sig p priv)) s =
    Done tt (apply_at (kill_upd c pid sig priv) i s).
Proof.
  intros Hwf Hs Hi. destruct (slot_cases s i Hwf Hi) as (p & Hp & Hcase).
  rewrite (bind_Done _ _ _ _ _ (task_at_run (Z.of_nat i) p s ltac:(lia) ltac:(by rewrite Nat2Z.id))).
  unfold apply_at. rewrite Hp. destruct Hcase as [-> | (Hp0 & t & Ht)].
  - rewrite (pwf_null s Hwf). unfold kill_target, send_sig. cbn [Z.eqb orb].
    destruct (pid =? 0); [done |]. destruct (0 <? pid); [done |]. by destruct (pid =? -1).
  - rewrite (bind_Done _ _ _ _ _ (kill_target_run c pid p t s Hs Ht Hp0)).
    rewrite Ht, (proj2 (Z.eqb_neq p 0) Hp0). unfold kill_upd, kill_hit.
    destruct (if pid =? 0 then _ else _); cbn [when].
    + rewrite (send_sig_run c sig p priv t s Hs Ht Hp0). by rewrite andb_true_r.
    + rewrite andb_false_r. cbn [andb]. by rewrite insert_id, set_tasks_id by done.
Qed.

Lemma do_kill_run c pid sig priv n s :
  pwf s -> sender c s -> (n < 64)%nat ->
  for_down n (fun i => p ← task_at i; b ← kill_target pid p; when b (send_sig sig p priv)) s =
    Done tt (apply_down (kill_upd c pid sig priv) n s).
Proof.
  intros Hwf Hs Hn. revert s Hwf Hs; induction n as [| n IH]; intros s Hwf Hs; [done |].
  cbn [for_down apply_down].
  rewrite (bind_Done _ _ _ _ _ (kill_body_run c pid sig priv s (S n) Hwf Hs Hn)).
  apply IH; [lia | by apply apply_at_pwf | by apply apply_at_sender].
Qed.

(** C31: [do_kill] returns, and sets the bit of a signal from 1 to 32 in
    exactly the tasks of [task[1..63]] that it is meant for and may reach:
    those of pid [pid], or for a [pid] of -1 all, or for a smaller one those
    of the process group [-pid], or for 0 those whose group is the sender's
    pid; and, unless it is privileged, whose real or effective user is the
    sender's real or effective user. Nothing else changes. *)
Theorem do_kill_correct c pid sig priv s :
  pwf s -> tasks s !! current s = Some c ->
  exists s', do_kill pid sig priv s = Done tt s' /\ task s' = task s /\ wq s' = wq s /\
    current s' = current s /\
    forall p t, tasks s !! p = Some t ->
      (listed s 63 p /\ kill_hit c pid sig priv t = true ->
         tasks s' !! p = Some (tset T_signal (Z.lor (t T_signal) (Z.shiftl 1 (sig - 1))) t)) /\
      (~ listed s 63 p \/ kill_hit c pid sig priv t = false -> tasks s' !! p = Some t).
Proof.
  intros Hwf Hc. exists (apply_down (kill_upd c pid sig priv) 63 s).
  split; [unfold do_kill; apply do_kill_run; [done | by exists c | lia] |].
  split; [apply apply_down_task |].
  destruct (apply_down_rest (kill_upd c pid sig priv) 63 s) as (H1 & _ & H2).
  split; [done |]. split; [done |].
  intros p t Ht. destruct (apply_down_tasks (kill_upd c pid sig priv) 63 s p t Hwf Ht) as [H3 H4].
  split.
  - intros [Hl Hh]. rewrite (H3 Hl). unfold kill_upd. by rewrite Hh.
  - intros [Hl | Hh]; [by apply H4 |].
    destruct (listed_dec s 63 p) as [Hl | Hl]; [| by apply H4].
    rewrite (H3 Hl). unfold kill_upd. by rewrite Hh.
Qed.

(** User 5 signals its own process and somebody else's. *)
Definition kill_demo : pstate :=
  demo_table [2000; 3000]
    (<[2000 := tset T_uid 5 (tset T_euid 5 (tset T_pid 7 (mk_task 0 9 15)))]>
       {[3000 := tset T_uid 6 (tset T_euid 6 (tset T_pid 8 (mk_task 0 9 15)))]}) 2000.

Lemma do_kill_witness :
  exists s', do_kill (-1) SIGALRM 0 kill_demo = Done tt s' /\
    tasks s' !! 3000 = Some (tset T_uid 6 (tset T_euid 6 (tset T_pid 8 (mk_task 0 9 15)))).
Proof.
  destruct (do_kill_correct (tset T_uid 5 (tset T_euid 5 (tset T_pid 7 (mk_task 0 9 15))))
              (-1) SIGALRM 0 kill_demo) as (s' & H1 & _ & _ & _ & H2).
  - apply pwfb_pwf. by vm_compute.
  - done.
  - exists s'. split; [done |].
    apply (H2 3000 (tset T_uid 6 (tset T_euid 6 (tset T_pid 8 (mk_task 0 9 15)))) eq_refl).
    right. by vm_compute.
Defined.

(** ** Lemmas: waiting *)

Section waiting.
Context `{!KernelSvc}.

(** [t] is a child of [c] that [waitpid(pid)] asks for. *)
Definition awaited (c : task_struct) (pid : Z) (t : task_struct) : bool :=
  ((pid =? -1) || (t T_pid =? pid) || ((pid =? 0) && (t T_pgrp =? c T_pgrp)) ||
   ((pid <? 0) && (t T_pgrp =? - pid))) && (t T_father =? c T_pid).

(** The awaited child in slot [i], other than the caller. *)
Definition child_at (s : pstate) (c : task_struct) (pid : Z) (i : nat) (p : Z)
    (t : task_struct) : Prop :=
  task s !! i = Some p /\ p <> 0 /\ p <> current s /\ tasks s !! p = Some t /\
  awaited c pid t = true.

Definition zombie_at (s : pstate) (c : task_struct) (pid : Z) (i : nat) (p : Z)
    (t : task_struct) : Prop :=
  child_at s c pid i p t /\ t T_state = TASK_ZOMBIE.

Lemma wait_target_run s c pid p t :
  tasks s !! current s = Some c -> tasks s !! p = Some t ->
  (b ← wait_target pid p; f ← tget p T_father; cp ← cur_get T_pid;
   mret (b && (f =? cp))) s = Done (awaited c pid t) s.
Proof.
  intros Hc Ht.
  assert (Hw : wait_target pid p s = Done ((pid =? -1) || (t T_pid =? pid) ||
    ((pid =? 0) && (t T_pgrp =? c T_pgrp)) || ((pid <? 0) && (t T_pgrp =? - pid))) s).
  { unfold wait_target. destruct (pid =? -1); [done |].
    rewrite (bind_Done _ _ _ _ _ (tget_run p T_pid s t Ht)).
    destruct (t T_pid =? pid); [done |].
    rewrite (bind_Done _ _ _ _ _ (tget_run p T_pgrp s t Ht)).
    by rewrite (bind_Done _ _ _ _ _ (cur_get_run c T_pgrp s Hc)). }
  rewrite (bind_Done _ _ _ _ _ Hw), (bind_Done _ _ _ _ _ (tget_run p T_father s t Ht)).
  by rewrite (bind_Done _ _ _ _ _ (cur_get_run c T_pid s Hc)).
Qed.

(** One step of the scan. *)
Lemma wait_scan_step s c pid sa flag n :
  pwf s -> tasks s !! current s = Some c -> (S n < 64)%nat ->
  (exists p t, zombie_at s c pid (S n) p t /\
     wait_scan (S n) pid sa flag s = (r ← reap p sa; mret (inl r)) s) \/
  (exists p t, child_at s c pid (S n) p t /\ t T_state <> TASK_ZOMBIE /\
     wait_scan (S n) pid sa flag s = wait_scan n pid sa 1 s) \/
  ((forall p t, ~ child_at s c pid (S n) p t) /\
     wait_scan (S n) pid sa flag s = wait_scan n pid sa flag s).
Proof.
  intros Hwf Hc Hn. destruct (slot_cases s (S n) Hwf Hn) as (p & Hp & Hcase).
  cbn [wait_scan].
  rewrite (bind_Done _ _ _ _ _ (task_at_run (Z.of_nat (S n)) p s ltac:(lia)
    ltac:(by rewrite Nat2Z.id))).
  rewrite (bind_Done (gets current) _ s (current s) s) by done.
  destruct (Z.eqb_spec p 0) as [E | E]; cbn [orb].
  { right. right. split; [| done]. intros q t (Hq & Hq0 & _). rewrite Hp in Hq. congruence. }
  destruct (Z.eqb_spec p (current s)) as [E' | E'].
  { right. right. split; [| done]. intros q t (Hq & _ & Hqc & _). rewrite Hp in Hq. congruence. }
  destruct Hcase as [| (_ & t & Ht)]; [done |].
  pose proof (wait_target_run s c pid p t Hc Ht) as Hw.
  unfold mbind, M_bind, mret, M_ret in Hw |- *.
  destruct (wait_target pid p s) as [b s1 |]; [| done].
  destruct (tget p T_father s1) as [f s2 |]; [| done].
  destruct (cur_get T_pid s2) as [cp s3 |]; [| done]. injection Hw as Hb ->. rewrite Hb.
  destruct (awaited c pid t) eqn:Ea; cbn [negb].
  - assert (Hch : child_at s c pid (S n) p t) by done.
    rewrite (tget_run p T_state s t Ht). destruct (Z.eqb_spec (t T_state) TASK_ZOMBIE) as [Ez | Ez].
    + left. by exists p, t.
    + right. left. by exists p, t.
  - right. right. split; [| done]. intros q t' (Hq & _ & _ & Ht' & Ha).
    rewrite Hp in Hq. simplify_eq; congruence.
Qed.

(** The whole scan: the zombie of the highest slot, if there is one. *)
Lemma wait_scan_run s c pid sa n flag :
  pwf s -> tasks s !! current s = Some c -> (n < 64)%nat ->
  (exists i p t, (1 <= i <= n)%nat /\ zombie_at s c pid i p t /\
     (forall j q u, (i < j <= n)%nat -> ~ zombie_at s c pid j q u) /\
     wait_scan n pid sa flag s = (r ← reap p sa; mret (inl r)) s) \/
  ((forall j q u, (1 <= j <= n)%nat -> ~ zombie_at s c pid j q u) /\
   exists flag', wait_scan n pid sa flag s = Done (inr flag') s /\
     (flag' = 0 <-> flag = 0 /\ forall j q u, (1 <= j <= n)%nat -> ~ child_at s c pid j q u)).
Proof.
  intros Hwf Hc. revert flag; induction n as [| n IH]; intros flag Hn.
  - right. split; [lia |]. exists flag. split; [done |]. split; [split; [done | lia] | by intros [? _]].
  - assert (Hlast : forall j, (1 <= j <= S n)%nat -> j = S n \/ (1 <= j <= n)%nat) by lia.
    destruct (wait_scan_step s c pid sa flag n Hwf Hc Hn)
      as [(p & t & Hz & Hrun) | [(p & t & Hch & Hnz & Hrun) | (Hno & Hrun)]].
    + left. exists (S n), p, t. split; [lia |]. split; [done |]. split; [lia | done].
    + assert (Hnz' : forall q u, ~ zombie_at s c pid (S n) q u).
      { intros q u [(Hq & _ & _ & Hu & _) Huz]. destruct Hch as (Hp & _ & _ & Ht & _).
        rewrite Hp in Hq. simplify_eq; congruence. }
      rewrite Hrun. destruct (IH 1 ltac:(lia)) as [(i & q & u & Hi & H1 & H2 & H3) | (H1 & f & H2 & H3)].
      * left. exists i, q, u. split; [lia |]. split; [done |]. split; [| done].
        intros j q' u' Hj. destruct (Hlast j ltac:(lia)) as [-> |]; [done | apply H2; lia].
      * right. split.
        { intros j q u Hj. destruct (Hlast j Hj) as [-> |]; [done | by apply H1]. }
        exists f. split; [done |]. split; [by intros [? _]%H3 |].
        intros [_ Hall]. exfalso. by apply (Hall (S n) p t); [lia |].
    + rewrite Hrun. destruct (IH flag ltac:(lia)) as [(i & q & u & Hi & H1 & H2 & H3) | (H1 & f & H2 & H3)].
      * left. exists i, q, u. split; [lia |]. split; [done |]. split; [| done].
        intros j q' u' Hj. destruct (Hlast j ltac:(lia)) as [-> |]; [| apply H2; lia].
        intros [Hx _]. by apply (Hno q' u').
      * right. split.
        { intros j q u Hj. destruct (Hlast j Hj) as [-> |]; [| by apply H1].
          intros [Hx _]. by apply (Hno q u). }
        exists f. split; [done |]. rewrite H3. split.
        { intros [-> Hall]. split; [done |]. intros j q u Hj.
          destruct (Hlast j Hj) as [-> |]; [apply Hno | by apply Hall]. }
        { intros [-> Hall]. split; [done |]. intros j q u Hj. apply Hall. lia. }
Qed.
End waiting.

(** Storing a task's structure back, its counts untouched. *)
Lemma pwf_insert p (t t' : task_struct) s :
  tasks s !! p = Some t -> pwf s -> pwf (set_tasks (<[p := t']> (tasks s)) s).
Proof.
  intros Ht [H0 H1 H2 H3].
  constructor; cbn; [rewrite lookup_insert_ne; [done | congruence] | done | | done].
  intros i q Hi Hq. destruct (decide (q = p)) as [-> |]; [by rewrite lookup_insert_eq |].
  rewrite lookup_insert_ne by done. by eapply H2.
Qed.

Lemma counts_ok_insert p (t t' : task_struct) s :
  tasks s !! p = Some t -> t' T_counter = t T_counter -> t' T_priority = t T_priority ->
  counts_ok s -> counts_ok (set_tasks (<[p := t']> (tasks s)) s).
Proof.
  intros Ht E1 E2 Hc q u. cbn. destruct (decide (q = p)) as [-> |].
  - rewrite lookup_insert_eq. intros E. injection E as <-. rewrite E1, E2. by apply (Hc p).
  - rewrite lookup_insert_ne by done. apply Hc.
Qed.

Lemma pwf_clear_slot i s : pwf s -> pwf (set_task (<[i := 0]> (task s)) s).
Proof.
  intros [H0 H1 H2 H3].
  assert (Hl : forall j q, <[i := 0]> (task s) !! j = Some q -> q <> 0 -> task s !! j = Some q).
  { intros j q Hj Hq. destruct (decide (j = i)) as [-> | Hne].
    - apply list_lookup_insert_Some in Hj as [(_ & E & _) | [? _]]; congruence.
    - by rewrite list_lookup_insert_ne in Hj. }
  constructor; cbn; [done | by rewrite length_insert | |].
  - intros j q Hj Hq. by apply (H2 j q (Hl j q Hj Hq)).
  - intros j k q Hj Hk Hq. apply (H3 j k q); auto.
Qed.

Section reaping.
Context {KS : KernelSvc}.
(** [free_page] gives the page back and touches no task. *)
Hypothesis free_page_quiet : forall p s, svc_free_page p s = Done tt s.

Lemma release_from_run s i p n j jz :
  jz = Z.of_nat j -> pwf s -> counts_ok s -> task s !! i = Some p -> p <> 0 -> (j <= i < j + n)%nat -> (i < 64)%nat ->
  release_from n jz p s = schedule (set_task (<[i := 0]> (task s)) s).
Proof.
  intros Hjz Hwf Hok Hi Hp0. revert j jz Hjz; induction n as [| n IH]; intros j jz -> Hj Hi64; [lia |].
  cbn [release_from].
  destruct (lookup_lt_is_Some_2 (task s) j) as [q Hq]; [rewrite (pwf_len s Hwf); lia |].
  rewrite (bind_Done _ _ _ _ _ (task_at_run (Z.of_nat j) q s ltac:(lia) ltac:(by rewrite Nat2Z.id))).
  destruct (Z.eqb_spec q p) as [-> | Hne].
  - assert (j = i) as -> by (by apply (pwf_inj s Hwf j i p)).
    rewrite (bind_Done (set_task_at (Z.of_nat i) 0) _ s tt (set_task (<[i := 0]> (task s)) s)).
    2: { unfold set_task_at, NR_TASKS.
         rewrite (proj2 (Z.leb_le 0 (Z.of_nat i))), (proj2 (Z.ltb_lt (Z.of_nat i) 64)) by lia.
         by rewrite Nat2Z.id. }
    by rewrite (bind_Done _ _ _ _ _ (free_page_quiet p _)).
  - destruct (decide (j = i)) as [-> | Hji]; [congruence |].
    apply (IH (S j)); lia.
Qed.

(** The caller after the zombie's times have been added. *)
Definition add_times (t c : task_struct) : task_struct :=
  tset T_cstime (c T_cstime + t T_stime) (tset T_cutime (c T_cutime + t T_utime) c).

(** [reap] up to [release]. *)
Definition reaped (s : pstate) (c t : task_struct) (sa : Z) : pstate :=
  set_tasks (<[current s := add_times t c]> (tasks s))
    (set_umem (store32 (umem s) sa (t T_exit_code)) s).

Lemma reap_steps s c sa p t :
  tasks s !! current s = Some c -> tasks s !! p = Some t -> p <> current s ->
  reap p sa s = (_ ← release p; mret (t T_pid)) (reaped s c t sa).
Proof.
  intros Hc Ht Hpc. unfold reap.
  set (s1 := set_umem (store32 (umem s) sa (t T_exit_code)) s).
  set (s2 := set_tasks (<[current s := tset T_cutime (c T_cutime + t T_utime) c]> (tasks s)) s1).
  assert (Hc2 : tasks s2 !! current s2 = Some (tset T_cutime (c T_cutime + t T_utime) c))
    by apply lookup_insert_eq.
  assert (Ht2 : tasks s2 !! p = Some t)
    by (unfold s2; cbn [tasks set_tasks]; by rewrite lookup_insert_ne by congruence).
  assert (Ht3 : tasks (reaped s c t sa) !! p = Some t)
    by (unfold reaped; cbn [tasks set_tasks set_umem]; by rewrite lookup_insert_ne by congruence).
  rewrite (bind_Done _ _ _ _ _ (tget_run p T_exit_code s t Ht)).
  rewrite (bind_Done (put_fs_long _ _) _ s tt s1) by done.
  rewrite (bind_Done _ _ _ _ _ (tget_run p T_utime s1 t Ht)).
  rewrite (bind_Done _ _ _ _ _ (cur_get_run c T_cutime s1 Hc)).
  rewrite (bind_Done _ _ _ tt s2 (cur_put_run c T_cutime _ s1 Hc)).
  rewrite (bind_Done _ _ _ _ _ (tget_run p T_stime s2 t Ht2)).
  rewrite (bind_Done _ _ _ _ _ (cur_get_run _ T_cstime s2 Hc2)).
  rewrite (bind_Done (cur_put _ _) _ s2 tt (reaped s c t sa)).
  2: { rewrite (cur_put_run _ T_cstime _ s2 Hc2). unfold reaped, s2, set_tasks. cbn [tasks current].
       by rewrite insert_insert_eq. }
  by rewrite (bind_Done _ _ _ _ _ (tget_run p T_pid _ t Ht3)).
Qed.

Lemma release_schedules s i p n :
  pwf s -> counts_ok s -> task s !! i = Some p -> p <> 0 -> (1 <= i < 1 + n)%nat -> (n <= 63)%nat ->
  release_from n 1 p s = schedule (set_task (<[i := 0]> (task s)) s).
Proof. intros. apply (release_from_run s i p n 1 1); [done .. | lia | lia]. Qed.

(** [release] of the task in slot [i]. *)
Lemma release_run s i p :
  pwf s -> counts_ok s -> task s !! i = Some p -> p <> 0 -> (1 <= i < 64)%nat ->
  exists s', release p s = Done tt s' /\ task s' = <[i := 0]> (task s) /\ umem s' = umem s /\
    forall q, match tasks s !! q, tasks s' !! q with
              | Some t, Some t' => sched_upd t t'
              | None, None => True
              | _, _ => False
              end.
Proof.
  intros Hwf Hok Hi Hp0 Hi64. unfold release. rewrite (proj2 (Z.eqb_neq p 0) Hp0).
  rewrite (release_schedules s i p 63 Hwf Hok Hi Hp0 Hi64 (Nat.le_refl 63)).
  assert (Hwf4 : pwf (set_task (<[i := 0]> (task s)) s)) by by apply pwf_clear_slot.
  assert (Hok4 : counts_ok (set_task (<[i := 0]> (task s)) s)) by exact Hok.
  destruct (schedule_effect _ Hwf4 Hok4) as (s5 & Hsched & _ & _ & Htask & _ & Hupd).
  exists s5. split; [exact Hsched |]. split; [exact Htask |].
  split; [exact (schedule_umem _ _ Hwf4 Hok4 Hsched) | exact Hupd].
Qed.

Lemma reap_run s c pid sa i p t :
  pwf s -> counts_ok s -> tasks s !! current s = Some c -> (1 <= i <= 63)%nat ->
  zombie_at s c pid i p t ->
  exists s', reap p sa s = Done (t T_pid) s' /\ task s' = <[i := 0]> (task s) /\
    umem s' = store32 (umem s) sa (t T_exit_code) /\
    exists c', tasks s' !! current s = Some c' /\ sched_upd (add_times t c) c'.
Proof.
  intros Hwf Hok Hc Hi [(Hp & Hp0 & Hpc & Ht & _) _].
  set (s1 := set_umem (store32 (umem s) sa (t T_exit_code)) s).
  assert (Hwf1 : pwf s1) by by destruct Hwf.
  assert (Hwf3 : pwf (reaped s c t sa)) by exact (pwf_insert _ c _ s1 Hc Hwf1).
  assert (Hok3 : counts_ok (reaped s c t sa))
    by exact (counts_ok_insert _ c (add_times t c) s1 Hc eq_refl eq_refl Hok).
  assert (Htask : task (reaped s c t sa) = task s) by done.
  assert (Humem : umem (reaped s c t sa) = store32 (umem s) sa (t T_exit_code)) by done.
  assert (Hcur : tasks (reaped s c t sa) !! current s = Some (add_times t c))
    by apply lookup_insert_eq.
  rewrite (reap_steps s c sa p t Hc Ht Hpc).
  generalize dependent (reaped s c t sa). intros s3 Hwf3 Hok3 Htask Humem Hcur.
  rewrite <- Htask in Hp.
  destruct (release_run s3 i p Hwf3 Hok3 Hp Hp0 ltac:(lia)) as (s' & Hrel & H1 & H2 & H3).
  exists s'. split; [by rewrite (bind_Done _ _ _ _ _ Hrel) |].
  split; [congruence |]. split; [congruence |].
  specialize (H3 (current s)). rewrite Hcur in H3.
  destruct (tasks s' !! current s) as [c' |]; [by exists c' | done].
Qed.

(** C32: A round of [sys_waitpid] comes back with [-ECHILD] when the caller
    has no child that it asks for, leaving everything as it was; with the
    pid of the zombie in the highest slot when one of these children has
    died, its exit code stored for the caller, its times added to the
    caller's and its slot freed; and otherwise with 0 if the caller does not
    want to wait, or else with the caller asleep, interruptibly. *)
Theorem wait_round_correct c pid stat_addr options s :
  pwf s -> counts_ok s -> tasks s !! current s = Some c ->
  ((forall i p t, (1 <= i <= 63)%nat -> ~ child_at s c pid i p t) ->
     wait_round pid stat_addr options 0 s = Done (Some (- ECHILD)) s) /\
  (forall i p t, (1 <= i <= 63)%nat -> zombie_at s c pid i p t ->
     (forall j q u, (i < j <= 63)%nat -> ~ zombie_at s c pid j q u) ->
     exists s', wait_round pid stat_addr options 0 s = Done (Some (t T_pid)) s' /\
       task s' = <[i := 0]> (task s) /\
       umem s' = store32 (umem s) stat_addr (t T_exit_code) /\
       exists c', tasks s' !! current s = Some c' /\ sched_upd (add_times t c) c') /\
  ((exists i p t, (1 <= i <= 63)%nat /\ child_at s c pid i p t) ->
   (forall i p t, (1 <= i <= 63)%nat -> ~ zombie_at s c pid i p t) ->
     (Z.land options WNOHANG <> 0 -> wait_round pid stat_addr options 0 s = Done (Some 0) s) /\
     (Z.land options WNOHANG = 0 ->
        exists s', wait_round pid stat_addr options 0 s = Done None s' /\
          schedule (set_tasks (<[current s := tset T_state TASK_INTERRUPTIBLE c]> (tasks s)) s)
            = Done tt s')).
Proof.
  intros Hwf Hok Hc.
  destruct (wait_scan_run s c pid stat_addr 63 0 Hwf Hc ltac:(lia))
    as [(i & p & t & Hi & Hz & Hhigh & Hrun) | (Hno & f & Hrun & Hf)]; unfold wait_round.
  - destruct (reap_run s c pid stat_addr i p t Hwf Hok Hc Hi Hz) as (s1 & Hreap & Hs1).
    rewrite (bind_Done (wait_scan _ _ _ _) _ s (inl (t T_pid)) s1)
      by (rewrite Hrun; by rewrite (bind_Done _ _ _ _ _ Hreap)).
    split; [intros H; exfalso; destruct Hz as [Hz _]; by apply (H i p t) |].
    split; [| intros _ H; exfalso; by apply (H i p t)].
    intros j q u Hj Hzj Hhj.
    assert (j = i) as ->.
    { destruct (Nat.lt_trichotomy i j) as [L | [-> | L]]; [| done |].
      - exfalso. apply (Hhigh j q u); [lia | done].
      - exfalso. apply (Hhj i p t); [lia | done]. }
    assert (u = t) as ->.
    { destruct Hz as [(Hp & _ & _ & Ht & _) _], Hzj as [(Hq & _ & _ & Hu & _) _].
      rewrite Hp in Hq. simplify_eq. congruence. }
    by exists s1.
  - rewrite (bind_Done _ _ _ _ _ Hrun). split; [| split].
    + intros H. rewrite (proj2 (Z.eqb_eq f 0)); [done |]. apply Hf. by split.
    + intros i p t Hi Hz. exfalso. by apply (Hno i p t).
    + intros (i & p & t & Hi & Hch) _.
      rewrite (proj2 (Z.eqb_neq f 0)) by (intros [_ Hall]%Hf; by apply (Hall i p t)).
      split; intros Hw.
      * by rewrite (proj2 (Z.eqb_neq _ 0) Hw).
      * rewrite (proj2 (Z.eqb_eq _ 0) Hw). cbn [negb]. unfold sys_pause.
        set (s1 := set_tasks _ s).
        destruct (schedule_effect s1 (pwf_insert _ _ _ _ Hc Hwf)
          (counts_ok_insert _ _ (tset T_state TASK_INTERRUPTIBLE c) _ Hc eq_refl eq_refl Hok)) as (s' & Hs & _).
        exists s'. split; [| done].
        rewrite (bind_Done (_ ← cur_put T_state TASK_INTERRUPTIBLE; schedule) _ s tt s'); [done |].
        by rewrite (bind_Done _ _ _ _ _ (cur_put_run c T_state _ s Hc)).
Qed.
End reaping.

(** Services that leave the process table alone. *)
Definition quiet_svc : KernelSvc := {|
  svc_write_verify := fun _ => mret tt; svc_get_free_page := mret 0;
  svc_free_page := fun _ => mret tt; svc_copy_page_tables := fun _ _ _ => mret 0;
  svc_free_page_tables := fun _ _ => mret 0; svc_get_limit := fun _ => mret 0xa0000;
  svc_sys_close := fun _ => mret 0; svc_iput := fun _ => mret tt;
  svc_file_ref := fun _ => mret tt; svc_inode_ref := fun _ => mret tt;
  svc_tty_clear_pgrp := fun _ => mret tt; svc_set_tss_desc := fun _ _ => mret tt;
  svc_set_ldt_desc := fun _ _ => mret tt; svc_fnsave := fun _ => mret 0 |}.

(** Process 7 waits for process 8, which has died with exit code 3. *)
Definition zombie8 : task_struct :=
  tset T_father 7 (tset T_pid 8 (tset T_exit_code 768 (mk_task TASK_ZOMBIE 0 15))).
Definition wait_demo : pstate :=
  demo_table [2000; 3000]
    (<[2000 := tset T_pid 7 (mk_task 0 9 15)]> {[3000 := zombie8]}) 2000.

Lemma wait_round_witness :
  exists s', @wait_round quiet_svc (-1) 500 0 0 wait_demo = Done (Some 8) s' /\
    task s' = <[2%nat := 0]> (task wait_demo).
Proof.
  destruct (@wait_round_correct quiet_svc (fun p s => eq_refl) (tset T_pid 7 (mk_task 0 9 15))
              (-1) 500 0 wait_demo) as (_ & H & _).
  - apply pwfb_pwf. by vm_compute.
  - apply counts_okb_counts_ok. by vm_compute.
  - done.
  - destruct (H 2%nat 3000 zombie8) as (s' & H1 & H2 & _).
    + lia.
    + done.
    + intros j q u Hj [(Hq & Hq0 & _) _].
      assert (Hall : forallb (fun q => q =? 0) (drop 3 (task wait_demo)) = true) by by vm_compute.
      rewrite forallb_forall in Hall. specialize (Hall q). rewrite <- list_elem_of_In in Hall.
      rewrite Z.eqb_eq in Hall. apply Hq0, Hall, list_elem_of_lookup. exists (j - 3)%nat.
      rewrite lookup_drop. rewrite <- Hq. f_equal. lia.
    + by exists s'.
Defined.
