(* ===== verification/SysCall.v ===== *)
(** * SysCall: the way into the kernel and back

    The entry for system calls and the delivery of signals on the way back of
    src/linux-0.01/kernel/system_call.s, the table of
    src/linux-0.01/include/linux/sys.h, and the calls as a program makes them:
    the macros of src/linux-0.01/include/unistd.h and src/linux-0.01/lib. The
    functions in the table are an interface, [SysTable]: most of them are
    definitions of [Sys], [Exit], [Open] and others, each on the state it needs. *)

From S2P Require Import Prelude Mem Proc Sched Fork Exit.

(** ** The numbers of the calls *)

Definition __NR : list (string * Z) :=
  [("setup", 0); ("exit", 1); ("fork", 2); ("read", 3); ("write", 4); ("open", 5); ("close", 6); ("waitpid", 7);
   ("creat", 8); ("link", 9); ("unlink", 10); ("execve", 11); ("chdir", 12); ("time", 13); ("mknod", 14);
   ("chmod", 15); ("chown", 16); ("break", 17); ("stat", 18); ("lseek", 19); ("getpid", 20); ("mount", 21);
   ("umount", 22); ("setuid", 23); ("getuid", 24); ("stime", 25); ("ptrace", 26); ("alarm", 27); ("fstat", 28);
   ("pause", 29); ("utime", 30); ("stty", 31); ("gtty", 32); ("access", 33); ("nice", 34); ("ftime", 35);
   ("sync", 36); ("kill", 37); ("rename", 38); ("mkdir", 39); ("rmdir", 40); ("dup", 41); ("pipe", 42);
   ("times", 43); ("prof", 44); ("brk", 45); ("setgid", 46); ("getgid", 47); ("signal", 48); ("geteuid", 49);
   ("getegid", 50); ("acct", 51); ("phys", 52); ("lock", 53); ("ioctl", 54); ("fcntl", 55); ("mpx", 56);
   ("setpgid", 57); ("ulimit", 58); ("uname", 59); ("umask", 60); ("chroot", 61); ("ustat", 62); ("dup2", 63);
   ("getppid", 64); ("getpgrp", 65); ("setsid", 66)]%string.

Definition sys_call_table : list string :=
  ["sys_setup"; "sys_exit"; "sys_fork"; "sys_read";
   "sys_write"; "sys_open"; "sys_close"; "sys_waitpid"; "sys_creat"; "sys_link";
   "sys_unlink"; "sys_execve"; "sys_chdir"; "sys_time"; "sys_mknod"; "sys_chmod";
   "sys_chown"; "sys_break"; "sys_stat"; "sys_lseek"; "sys_getpid"; "sys_mount";
   "sys_umount"; "sys_setuid"; "sys_getuid"; "sys_stime"; "sys_ptrace"; "sys_alarm";
   "sys_fstat"; "sys_pause"; "sys_utime"; "sys_stty"; "sys_gtty"; "sys_access";
   "sys_nice"; "sys_ftime"; "sys_sync"; "sys_kill"; "sys_rename"; "sys_mkdir";
   "sys_rmdir"; "sys_dup"; "sys_pipe"; "sys_times"; "sys_prof"; "sys_brk"; "sys_setgid";
   "sys_getgid"; "sys_signal"; "sys_geteuid"; "sys_getegid"; "sys_acct"; "sys_phys";
   "sys_lock"; "sys_ioctl"; "sys_fcntl"; "sys_mpx"; "sys_setpgid"; "sys_ulimit";
   "sys_uname"; "sys_umask"; "sys_chroot"; "sys_ustat"; "sys_dup2"; "sys_getppid";
   "sys_getpgrp"; "sys_setsid"]%string.

Definition nr_system_calls : Z := 67.
Definition SIG_CHLD : Z := 17.

(** ** The entry *)

(** What the entry and the interrupt leave on the kernel's stack, from
    [EAX(%esp)] to [OLDSS(%esp)]; %ds, %es and %fs are put back as they were. *)
Record frame : Type := {
  fr_eax : Z; fr_ebx : Z; fr_ecx : Z; fr_edx : Z;
  fr_eip : Z; fr_cs : Z; fr_eflags : Z; fr_oldesp : Z; fr_oldss : Z
}.
Definition set_fr_eax (v : Z) (f : frame) : frame :=
  {| fr_eax := u32 v; fr_ebx := fr_ebx f; fr_ecx := fr_ecx f; fr_edx := fr_edx f; fr_eip := fr_eip f;
     fr_cs := fr_cs f; fr_eflags := fr_eflags f; fr_oldesp := fr_oldesp f; fr_oldss := fr_oldss f |}.
Definition set_fr_handler (eip esp : Z) (f : frame) : frame :=
  {| fr_eax := fr_eax f; fr_ebx := fr_ebx f; fr_ecx := fr_ecx f; fr_edx := fr_edx f; fr_eip := eip;
     fr_cs := fr_cs f; fr_eflags := fr_eflags f; fr_oldesp := esp; fr_oldss := fr_oldss f |}.

(** [call _sys_call_table(,%eax,4)] with %ebx, %ecx and %edx pushed. *)
Class SysTable : Type := sys_fn : string -> Z -> Z -> Z -> M pstate Z.

(** [bsfl]: the lowest bit that is set. *)
Fixpoint bsfl_from (n : nat) (k v : Z) : option Z :=
  match n with
  | O => None
  | S n' => if Z.testbit v k then Some k else bsfl_from n' (k + 1) v
  end.
Definition bsfl (v : Z) : option Z := bsfl_from 32 0 v.

Section system_call.
Context `{!KernelSvc, !SysTable}.

(** The frame the handler [fn] of signal [nr + 1] starts with, and the words it
    finds on its stack. *)
Definition call_handler (nr fn : Z) (f : frame) : M pstate frame :=
  _ ← cur_put (T_sig_fn nr) 0;
  let old_eip := fr_eip f in
  let edx := u32 (fr_oldesp f - 28) in
  let f := set_fr_handler fn edx f in
  _ ← verify_area edx 28;
  restorer ← cur_get T_sig_restorer;
  _ ← put_fs_long restorer edx;
  _ ← put_fs_long (nr + 1) (edx + 4);
  _ ← put_fs_long (fr_eax f) (edx + 8);
  _ ← put_fs_long (fr_ecx f) (edx + 12);
  _ ← put_fs_long (fr_edx f) (edx + 16);
  _ ← put_fs_long (fr_eflags f) (edx + 20);
  _ ← put_fs_long old_eip (edx + 24);
  mret f.

(** From the second label 2 on. A round takes a signal from the bitmap, so that
    32 of them are enough. [do_exit] does not come back. *)
Fixpoint signal_loop (fuel : nat) (f : frame) : M pstate frame :=
  match fuel with
  | O => halt NoFuel
  | S fuel' =>
      signal ← cur_get T_signal;
      match bsfl (u32 signal) with
      | None => mret f
      | Some nr =>
          _ ← cur_put T_signal (Z.clearbit (u32 signal) nr);
          fn ← cur_get (T_sig_fn nr);
          if fn =? 0 then
            if nr + 1 =? SIG_CHLD then signal_loop fuel' f
            else _ ← do_exit (nr + 1); mret f
          else if fn =? 1 then signal_loop fuel' f
          else call_handler nr fn f
      end
  end.

Definition ret_from_sys_call (f : frame) : M pstate frame :=
  c ← gets current;
  t0 ← task_at 0;
  if c =? t0 then mret f
  else if Z.land (fr_cs f) 3 =? 0 then mret f
  else if negb (u16 (fr_oldss f) =? 0x17) then mret f
  else signal_loop 33 f.

(** [inl]: back in the program; [inr]: the processor was given away, and the
    task goes on with [ret_from_sys_call] when it is current again. *)
Definition system_call (f : frame) : M pstate (frame + frame) :=
  if nr_system_calls - 1 <? u32 (fr_eax f) then mret (inl (set_fr_eax (-1) f))
  else
    name ← get_opt "sys_call_table" (fun _ => sys_call_table !! Z.to_nat (u32 (fr_eax f)));
    r ← sys_fn name (fr_ebx f) (fr_ecx f) (fr_edx f);
    let f := set_fr_eax r f in
    state ← cur_get T_state;
    counter ← cur_get T_counter;
    if negb (state =? 0) || (counter =? 0) then _ ← schedule; mret (inr f)
    else f ← ret_from_sys_call f; mret (inl f).

Definition set_jiffies (j : Z) (s : pstate) : pstate :=
  {| task := task s; tasks := tasks s; current := current s; jiffies := j; startup_time := startup_time s;
     last_pid := last_pid s; last_task_used_math := last_task_used_math s; wq := wq s; umem := umem s |}.

(** [_timer_interrupt], up to its [jmp ret_from_sys_call]. *)
Definition timer_interrupt (cs : Z) : M pstate unit :=
  _ ← modify (fun s => set_jiffies (s32 (jiffies s + 1)) s);
  do_timer (Z.land cs 3).

(** [_sys_fork]. *)
Definition sys_fork (r : regs) : M pstate Z :=
  nr ← find_empty_process;
  if nr <? 0 then mret nr else copy_process nr r.
End system_call.

(** ** A program's side *)

(** The end of every stub: [errno] and what the stub returns. *)
Definition syscall_result (res errno : Z) : Z * Z :=
  if 0 <=? res then (res, errno) else (-1, s32 (- res)).

(** The registers a stub loads, over what they held. *)
Definition stub_frame (nr a b c : Z) (f : frame) : frame :=
  {| fr_eax := nr; fr_ebx := a; fr_ecx := b; fr_edx := c; fr_eip := fr_eip f;
     fr_cs := fr_cs f; fr_eflags := fr_eflags f; fr_oldesp := fr_oldesp f; fr_oldss := fr_oldss f |}.

Definition _syscall0 (nr : Z) (f : frame) : frame := stub_frame nr (fr_ebx f) (fr_ecx f) (fr_edx f) f.
Definition _syscall1 (nr a : Z) (f : frame) : frame := stub_frame nr a (fr_ecx f) (fr_edx f) f.
Definition _syscall2 (nr a b : Z) (f : frame) : frame := stub_frame nr a b (fr_edx f) f.
Definition _syscall3 (nr a b c : Z) (f : frame) : frame := stub_frame nr a b c f.

(** The functions of src/linux-0.01/lib, up to their [int $0x80]. *)
Definition _exit (exit_code : Z) : frame -> frame := _syscall1 1 exit_code.
Definition close (fd : Z) : frame -> frame := _syscall1 6 fd.
Definition dup (fd : Z) : frame -> frame := _syscall1 41 fd.
Definition execve (file argv envp : Z) : frame -> frame := _syscall3 11 file argv envp.
Definition open (filename flag mode : Z) : frame -> frame := _syscall3 5 filename flag mode.
Definition setsid : frame -> frame := _syscall0 66.
Definition waitpid (pid wait_stat options : Z) : frame -> frame := _syscall3 7 pid wait_stat options.
Definition wait (wait_stat : Z) : frame -> frame := waitpid (-1) wait_stat 0.
Definition write (fd buf count : Z) : frame -> frame := _syscall3 4 fd buf count.

(** ** Lemmas: from a stub to the function of the table *)

Lemma NR_table : Forall (fun '(name, n) =>
  sys_call_table !! Z.to_nat n = Some ("sys_" +:+ name)%string /\ 0 <= n < nr_system_calls) __NR.
Proof.
  apply Forall_forall. intros [name n] Hin.
  assert (Hall : forallb (fun '(name, n) => bool_decide (sys_call_table !! Z.to_nat n = Some ("sys_" +:+ name)%string) &&
    (0 <=? n) && (n <? nr_system_calls)) __NR = true) by by vm_compute.
  rewrite forallb_forall in Hall. specialize (Hall (name, n) ltac:(by apply list_elem_of_In)).
  apply andb_prop in Hall as [[H1%bool_decide_eq_true H2%Z.leb_le]%andb_prop H3%Z.ltb_lt]. done.
Qed.

Section entry.
Context `{!KernelSvc, !SysTable}.

(** C35: a stub with the number that unistd.h gives to a name runs [sys_] with
    that name of the table, on the arguments of the stub in their order. If the
    task is to go on after it, the program gets its result in %eax, by way of
    [ret_from_sys_call]; if it is asleep or its time is over, another task is
    chosen first. A number that is not below [nr_system_calls] changes nothing,
    and the stub returns -1 with [errno] 1. *)
Theorem system_call_correct name n a b c f s :
  ((name, n) ∈ __NR -> forall r s' t,
     sys_fn ("sys_" +:+ name) a b c s = Done r s' -> tasks s' !! current s' = Some t ->
     let f' := set_fr_eax r (stub_frame n a b c f) in
     (t T_state = 0 -> t T_counter <> 0 ->
        system_call (stub_frame n a b c f) s = (f'' ← ret_from_sys_call f'; mret (inl f'')) s') /\
     (t T_state <> 0 \/ t T_counter = 0 ->
        system_call (stub_frame n a b c f) s = (_ ← schedule; mret (inr f')) s')) /\
  (nr_system_calls <= u32 n ->
     exists f', system_call (stub_frame n a b c f) s = Done (inl f') s /\
       forall errno, syscall_result (s32 (fr_eax f')) errno = (-1, 1)).
Proof.
  unfold system_call. cbn [fr_eax fr_ebx fr_ecx fr_edx stub_frame]. split.
  - intros Hin r s' t Hr Ht. pose proof NR_table as Hall. rewrite Forall_forall in Hall.
    destruct (Hall _ Hin) as [Htab Hn]. unfold nr_system_calls in *.
    assert (u32 n = n) as Hu by (apply u32_small; unfold in_u32; lia). rewrite !Hu.
    rewrite (proj2 (Z.ltb_ge (67 - 1) n)) by lia. cbv zeta.
    rewrite (bind_Done (get_opt _ _) _ s ("sys_" +:+ name)%string s) by (unfold get_opt; by rewrite Htab).
    rewrite (bind_Done _ _ _ _ _ Hr), (bind_Done _ _ _ _ _ (cur_get_run t T_state _ Ht)).
    rewrite (bind_Done _ _ _ _ _ (cur_get_run t T_counter _ Ht)). split.
    + intros -> Hc. by rewrite (proj2 (Z.eqb_neq _ _) Hc).
    + intros Hor. replace (negb (t T_state =? 0) || (t T_counter =? 0)) with true; [done |].
      symmetry. destruct (Z.eqb_spec (t T_state) 0), (Z.eqb_spec (t T_counter) 0); cbn; tauto || lia.
  - intros Hn. rewrite (proj2 (Z.ltb_lt _ _)) by lia. eexists. split; [reflexivity |]. done.
Qed.
End entry.

(** Process 7 asks for its process id. *)
Definition demo_calls : SysTable := fun name _ _ _ =>
  if String.eqb name "sys_getpid" then cur_get T_pid else mret (-1).
Definition caller : task_struct := tset T_pid 7 (mk_task 0 9 15).
Definition call_demo : pstate := demo_table [2000] {[2000 := caller]} 2000.
Definition call_frame : frame :=
  {| fr_eax := 0; fr_ebx := 1; fr_ecx := 2; fr_edx := 3; fr_eip := 0x123; fr_cs := 0xF; fr_eflags := 0x202;
     fr_oldesp := 0x10000; fr_oldss := 0x17 |}.

Lemma system_call_witness :
  exists f, @system_call quiet_svc demo_calls (_syscall0 20 call_frame) call_demo = Done (inl f) call_demo /\ fr_eax f = 7.
Proof.
  destruct (@system_call_correct quiet_svc demo_calls "getpid" 20 1 2 3 call_frame call_demo) as [H _].
  destruct (H ltac:(apply list_elem_of_In; vm_compute; tauto) 7 call_demo caller eq_refl eq_refl) as [H1 _].
  assert (Hd : @system_call quiet_svc demo_calls (_syscall0 20 call_frame) call_demo =
    (f'' ← @ret_from_sys_call quiet_svc (set_fr_eax 7 (stub_frame 20 1 2 3 call_frame)); mret (inl f'')) call_demo)
    by (apply H1; by vm_compute).
  rewrite Hd. eexists. split; by vm_compute.
Defined.
