(* ===== verification/Signals.v ===== *)
(** * Signals: what a program sees of its signals

    The way out of the kernel (src/linux-0.01/kernel/system_call.s, from
    [ret_from_sys_call] on) delivers one signal at most. *)

From S2P Require Import Prelude Mem Proc Sched Fork Exit SysCall.

(** ** [bsfl] *)

Lemma bsfl_from_spec n : forall k v, 0 <= k ->
  match bsfl_from n k v with
  | Some b => k <= b < k + Z.of_nat n /\ Z.testbit v b = true /\ forall j, k <= j < b -> Z.testbit v j = false
  | None => forall j, k <= j < k + Z.of_nat n -> Z.testbit v j = false
  end.
Proof.
  induction n as [| n IH]; intros k v Hk; cbn [bsfl_from]; [lia |].
  destruct (Z.testbit v k) eqn:E; [split; [lia |]; split; [done | lia] |].
  specialize (IH (k + 1) v ltac:(lia)). destruct (bsfl_from n (k + 1) v) as [b |].
  - destruct IH as (H1 & H2 & H3). split; [lia |]. split; [done |]. intros j Hj.
    destruct (decide (j = k)) as [-> |]; [done | apply H3; lia].
  - intros j Hj. destruct (decide (j = k)) as [-> |]; [done | apply IH; lia].
Qed.

Lemma testbit_u32 x k : 0 <= k < 32 -> Z.testbit (u32 x) k = Z.testbit x k.
Proof. intros Hk. apply (Z.mod_pow2_bits_low x 32). lia. Qed.

(** ** The rounds *)

(** Signal [k + 1] leaves the program alone. *)
Definition forgotten (t : task_struct) (k : Z) : bool :=
  (t (T_sig_fn k) =? 1) || ((t (T_sig_fn k) =? 0) && (k =? 16)).

(** [t'] is [t] with its signals below [m + 1] taken away. *)
Definition taken (t : task_struct) (m : Z) (t' : task_struct) : Prop :=
  (forall g, g <> T_signal -> t' g = t g) /\
  (forall j, 0 <= j < 32 -> Z.testbit (u32 (t' T_signal)) j = Z.testbit (u32 (t T_signal)) j && (m <=? j)).
Definition with_task (t : task_struct) (s : pstate) : pstate := set_tasks (<[current s := t]> (tasks s)) s.

Lemma taken_none t : taken t 0 t.
Proof. split; [done |]. intros j Hj. by rewrite (proj2 (Z.leb_le 0 j)), andb_true_r by lia. Qed.

Lemma taken_next t m t' b :
  taken t m t' -> 0 <= m <= b -> b < 32 -> (forall j, m <= j < b -> Z.testbit (u32 (t' T_signal)) j = false) ->
  taken t (b + 1) (tset T_signal (Z.clearbit (u32 (t' T_signal)) b) t').
Proof.
  intros [H1 H2] Hm Hb Hlow. split; [intros g Hg; rewrite tset_ne by done; auto |].
  intros j Hj. rewrite tset_eq. cbn [tnorm]. rewrite u32_s32, testbit_u32, Z.clearbit_eqb by lia.
  destruct (Z.leb_spec (b + 1) j).
  - rewrite H2 by done. rewrite (proj2 (Z.leb_le m j)), (proj2 (Z.eqb_neq b j)) by lia. by rewrite !andb_true_r.
  - rewrite andb_false_r. destruct (decide (j = b)) as [-> |]; [by rewrite Z.eqb_refl, andb_false_r |].
    destruct (decide (m <= j)) as [Hmj | Hmj].
    + by rewrite Hlow by lia.
    + rewrite H2 by done. rewrite (proj2 (Z.leb_gt m j)) by lia. by rewrite andb_false_r.
Qed.

Section signals.
Context `{!KernelSvc}.

Lemma with_task_twice t t' s : with_task t (with_task t' s) = with_task t s.
Proof. unfold with_task. cbn [current set_tasks tasks]. by rewrite insert_insert_eq. Qed.
Lemma with_task_lookup t s : tasks (with_task t s) !! current (with_task t s) = Some t.
Proof. apply lookup_insert_eq. Qed.

(** A round that finds signal [b + 1]. *)
Lemma signal_round fuel f t m t' b s :
  taken t m t' -> 0 <= m -> bsfl (u32 (t' T_signal)) = Some b ->
  m <= b < 32 /\ Z.testbit (u32 (t T_signal)) b = true /\
  (forall j, m <= j < b -> Z.testbit (u32 (t T_signal)) j = false) /\
  exists t2, taken t (b + 1) t2 /\
    signal_loop (S fuel) f (with_task t' s) =
      (if forgotten t b then signal_loop fuel f
       else if t (T_sig_fn b) =? 0 then _ ← do_exit (b + 1); mret f
       else call_handler b (t (T_sig_fn b)) f) (with_task t2 s).
Proof.
  intros Htk Hm Hbs. pose proof Htk as [H1 H2].
  pose proof (bsfl_from_spec 32 0 (u32 (t' T_signal)) ltac:(lia)) as Hb. fold (bsfl (u32 (t' T_signal))) in Hb.
  rewrite Hbs in Hb. destruct Hb as (Hb & Hbit & Hlow).
  pose proof (H2 b ltac:(lia)) as Hb2. rewrite Hbit in Hb2. symmetry in Hb2. apply andb_prop in Hb2 as [Hbt Hmb%Z.leb_le].
  split; [lia |]. split; [done |]. split.
  { intros j Hj. specialize (H2 j ltac:(lia)). rewrite Hlow, (proj2 (Z.leb_le m j)), andb_true_r in H2 by lia. done. }
  set (t2 := tset T_signal (Z.clearbit (u32 (t' T_signal)) b) t').
  assert (Htk2 : taken t (b + 1) t2) by (apply (taken_next t m); [done | lia | lia | intros; apply Hlow; lia]).
  exists t2. split; [done |]. cbn [signal_loop].
  rewrite (bind_Done _ _ _ _ _ (cur_get_run t' T_signal _ (with_task_lookup t' s))). rewrite Hbs.
  rewrite (bind_Done _ _ _ _ _ (cur_put_run t' T_signal _ _ (with_task_lookup t' s))). fold t2.
  replace (set_tasks (<[current (with_task t' s) := t2]> (tasks (with_task t' s))) (with_task t' s)) with (with_task t2 s)
    by (symmetry; apply (with_task_twice t2 t' s)).
  rewrite (bind_Done _ _ _ _ _ (cur_get_run t2 (T_sig_fn b) _ (with_task_lookup t2 s))).
  rewrite (proj1 Htk2) by done. unfold forgotten, SIG_CHLD. replace (b + 1 =? 17) with (b =? 16) by (destruct (Z.eqb_spec b 16), (Z.eqb_spec (b + 1) 17); lia || done).
  destruct (Z.eqb_spec (t (T_sig_fn b)) 0) as [-> | E0]; [by destruct (b =? 16) |].
  by destruct (t (T_sig_fn b) =? 1).
Qed.

(** Where the search for a signal to deliver ends. *)
Lemma signal_loop_run fuel f t s : forall m t',
  0 <= m <= 32 -> (32 - Z.to_nat m < fuel)%nat -> taken t m t' ->
  (exists t'', taken t 32 t'' /\ (forall j, m <= j < 32 -> Z.testbit (u32 (t T_signal)) j = true -> forgotten t j = true) /\
     signal_loop fuel f (with_task t' s) = Done f (with_task t'' s)) \/
  (exists k t'', m <= k < 32 /\ Z.testbit (u32 (t T_signal)) k = true /\ forgotten t k = false /\
     (forall j, m <= j < k -> Z.testbit (u32 (t T_signal)) j = true -> forgotten t j = true) /\ taken t (k + 1) t'' /\
     signal_loop fuel f (with_task t' s) =
       (if t (T_sig_fn k) =? 0 then _ ← do_exit (k + 1); mret f else call_handler k (t (T_sig_fn k)) f) (with_task t'' s)).
Proof.
  induction fuel as [| fuel IH]; intros m t' Hm Hfuel Htk; [lia |].
  destruct (bsfl (u32 (t' T_signal))) as [b |] eqn:Eb.
  2: { left. exists t'. pose proof Htk as [H1 H2].
       pose proof (bsfl_from_spec 32 0 (u32 (t' T_signal)) ltac:(lia)) as Hb. fold (bsfl (u32 (t' T_signal))) in Hb. rewrite Eb in Hb.
       split; [split; [done |] | split].
       - intros j Hj. rewrite Hb by lia. rewrite (proj2 (Z.leb_gt 32 j)) by lia. by rewrite andb_false_r.
       - intros j Hj Hbit. specialize (H2 j ltac:(lia)). rewrite Hb, Hbit, (proj2 (Z.leb_le m j)) in H2 by lia. done.
       - cbn [signal_loop]. rewrite (bind_Done _ _ _ _ _ (cur_get_run t' T_signal _ (with_task_lookup t' s))). by rewrite Eb. }
  destruct (signal_round fuel f t m t' b s Htk ltac:(lia) Eb) as (Hb & Hbit & Hgap & t2 & Htk2 & Hrun). rewrite Hrun.
  destruct (forgotten t b) eqn:Ef.
  2: { right. exists b, t2. split; [lia |]. split; [done |]. split; [done |]. split; [| done]. intros j Hj. by rewrite Hgap. }
  assert (Hnext : forall (P : Z -> Prop) j, (forall i, b + 1 <= i -> P i -> Z.testbit (u32 (t T_signal)) i = true -> forgotten t i = true) ->
    m <= j -> P j -> Z.testbit (u32 (t T_signal)) j = true -> forgotten t j = true).
  { intros P j Hall Hj HP Hbj. destruct (decide (j < b)); [by rewrite Hgap in Hbj by lia |].
    destruct (decide (j = b)) as [-> |]; [done | apply Hall; (done || lia)]. }
  destruct (IH (b + 1) t2) as [(t3 & Ht3 & Hall & Hr) | (k & t3 & Hk & Hbk & Hfk & Hall & Ht3 & Hr)]; [lia | lia | done | left | right].
  - exists t3. split; [done |]. split; [| done]. intros j Hj. apply (Hnext (fun i => i < 32)); [intros; by apply Hall | lia | lia].
  - exists k, t3. split; [lia |]. split; [done |]. split; [done |]. split; [| done].
    intros j Hj. apply (Hnext (fun i => i < k)); [intros; by apply Hall | lia | lia].
Qed.

(** ** The handler's stack *)

(** The pages of the program are there to write on. *)
Class Writable : Prop := writable a s : svc_write_verify a s = Done tt s.

Context `{!Writable}.

Lemma verify_pages_run fuel : forall start size s,
  size <= 4096 * Z.of_nat fuel -> size < 2 ^ 31 -> verify_pages fuel start size s = Done tt s.
Proof.
  induction fuel as [| fuel IH]; intros start size s H1 H2; cbn [verify_pages].
  { by rewrite (proj2 (Z.leb_le size 0)) by lia. }
  destruct (Z.leb_spec size 0); [done |].
  rewrite (bind_Done _ _ _ _ _ (writable start s)). rewrite s32_small by lia. apply IH; lia.
Qed.

Lemma verify_area_run a n t s :
  tasks s !! current s = Some t -> 0 <= n < 2 ^ 31 - 4096 -> verify_area a n s = Done tt s.
Proof.
  intros Ht Hn. unfold verify_area. rewrite (bind_Done _ _ _ _ _ (cur_get_run t _ _ Ht)).
  rewrite land_0xFFF. pose proof (Z.mod_pos_bound (u32 a) 4096 ltac:(lia)). rewrite s32_small by lia.
  apply verify_pages_run; [| lia]. pose proof (Z.div_pos (n + u32 a mod 4096) 4096).
  pose proof (Z.mul_div_le (n + u32 a mod 4096) 4096). pose proof (Z.mul_succ_div_gt (n + u32 a mod 4096) 4096). lia.
Qed.

(** What [call_handler] leaves for the handler of signal [k + 1]. *)
Definition handler_words (t : task_struct) (k : Z) (f : frame) : list Z :=
  [t T_sig_restorer; k + 1; fr_eax f; fr_ecx f; fr_edx f; fr_eflags f; fr_eip f].

Lemma call_handler_run k fn f t s :
  tasks s !! current s = Some t -> 28 <= fr_oldesp f < 2 ^ 32 ->
  call_handler k fn f s =
    Done (set_fr_handler fn (fr_oldesp f - 28) f)
      (set_umem (store_words (umem s) (fr_oldesp f - 28) (handler_words t k f)) (with_task (tset (T_sig_fn k) 0 t) s)).
Proof.
  intros Ht He. unfold call_handler. rewrite (bind_Done _ _ _ _ _ (cur_put_run t _ _ _ Ht)).
  fold (with_task (tset (T_sig_fn k) 0 t) s). set (t1 := tset (T_sig_fn k) 0 t). set (s1 := with_task t1 s).
  assert (Ht1 : tasks s1 !! current s1 = Some t1) by apply with_task_lookup.
  cbv zeta. rewrite u32_small by (unfold in_u32; lia).
  rewrite (bind_Done _ _ _ _ _ (verify_area_run _ 28 _ _ Ht1 ltac:(lia))).
  rewrite (bind_Done _ _ _ _ _ (cur_get_run t1 _ _ Ht1)).
  replace (t1 T_sig_restorer) with (t T_sig_restorer) by (symmetry; by apply tset_ne).
  unfold handler_words. cbn [store_words]. rewrite <- !Z.add_assoc. reflexivity.
Qed.
End signals.

(** ** The way out *)

(** Signal [k + 1] is the one that the way out acts on. *)
Definition due (t : task_struct) (k : Z) : Prop :=
  0 <= k < 32 /\ Z.testbit (u32 (t T_signal)) k = true /\ forgotten t k = false /\
  forall j, 0 <= j < k -> Z.testbit (u32 (t T_signal)) j = true -> forgotten t j = true.

Lemma due_unique t k k' : due t k -> due t k' -> k = k'.
Proof.
  intros (H1 & H2 & H3 & H4) (G1 & G2 & G3 & G4). destruct (Z.lt_trichotomy k k') as [Hl | [-> | Hl]]; [| done |].
  - rewrite G4 in H3; [done | lia | done].
  - rewrite H4 in G3; [done | lia | done].
Qed.

(** A frame of a program, and not of task 0. *)
Definition user_frame (f : frame) (s : pstate) : Prop :=
  task s !! 0%nat <> Some (current s) /\ Z.land (fr_cs f) 3 <> 0 /\ u16 (fr_oldss f) = 0x17.

Section delivery.
Context `{!KernelSvc, !Writable}.

Lemma ret_from_sys_call_user f t s p0 :
  tasks s !! current s = Some t -> task s !! 0%nat = Some p0 -> user_frame f s ->
  ret_from_sys_call f s = signal_loop 33 f (with_task t s).
Proof.
  intros Ht Hz (Hu1 & Hu2 & Hu3). unfold ret_from_sys_call.
  rewrite (bind_Done (gets current) _ s (current s) s eq_refl).
  rewrite (bind_Done _ _ _ _ _ (task_at_run 0 p0 s ltac:(lia) Hz)).
  destruct (Z.eqb_spec (current s) p0) as [E |]; [by rewrite E in Hu1 |].
  rewrite (proj2 (Z.eqb_neq _ _) Hu2), Hu3. cbn [negb Z.eqb Pos.eqb]. f_equal.
  unfold with_task. rewrite insert_id by done. by destruct s.
Qed.

(** C34: on the way back to a program at most one signal is acted on, the one
    with the lowest number of those that are pending and neither ignored nor a
    SIGCHLD left to its default; every signal below it is taken from the
    bitmap, and the ones above stay. If there is none, the program goes on as
    it was, with nothing pending. If its handler is 0, [do_exit] is called with
    its number. Otherwise, if the program's stack can be written and has room for
    28 bytes above address 0, the handler runs once: it is reset to 0, the program
    continues there with its stack 28 bytes lower, and on that stack are the
    restorer, the number of the signal, %eax, %ecx, %edx, the flags and the
    address to come back to; no other byte of the program and no other field of
    the task changes. Frames of the kernel and of task 0 are left alone. *)
Theorem ret_from_sys_call_correct f t s p0 :
  tasks s !! current s = Some t -> task s !! 0%nat = Some p0 ->
  (~ user_frame f s -> ret_from_sys_call f s = Done f s) /\
  (user_frame f s -> (forall k, ~ due t k) ->
     exists t', taken t 32 t' /\ ret_from_sys_call f s = Done f (with_task t' s)) /\
  (forall k, user_frame f s -> due t k -> exists t', taken t (k + 1) t' /\
     (t (T_sig_fn k) = 0 -> ret_from_sys_call f s = (_ ← do_exit (k + 1); mret f) (with_task t' s)) /\
     (t (T_sig_fn k) <> 0 -> 28 <= fr_oldesp f < 2 ^ 32 -> exists m,
        words_at m (fr_oldesp f - 28) (u32 <$> handler_words t k f) /\ only_changed (umem s) m (fr_oldesp f - 28) 28 /\
        ret_from_sys_call f s =
          Done (set_fr_handler (t (T_sig_fn k)) (fr_oldesp f - 28) f) (set_umem m (with_task (tset (T_sig_fn k) 0 t') s)))).
Proof.
  intros Ht Hz. split; [| split].
  - intros Hu. unfold ret_from_sys_call. rewrite (bind_Done (gets current) _ s (current s) s eq_refl).
    rewrite (bind_Done _ _ _ _ _ (task_at_run 0 p0 s ltac:(lia) Hz)).
    destruct (Z.eqb_spec (current s) p0) as [| E]; [done |].
    destruct (Z.eqb_spec (Z.land (fr_cs f) 3) 0) as [| E2]; [done |].
    destruct (Z.eqb_spec (u16 (fr_oldss f)) 0x17) as [E3 |]; [| done].
    destruct Hu. split; [congruence | done].
  - intros Hu Hnone. rewrite (ret_from_sys_call_user f t s p0) by done.
    destruct (signal_loop_run 33 f t s 0 t) as [(t' & Ht' & _ & Hr) | (k & ? & Hk & Hb & Hf & Hl & _)];
      [lia | lia | apply taken_none | by exists t' | by destruct (Hnone k)].
  - intros k Hu Hd. rewrite (ret_from_sys_call_user f t s p0) by done.
    destruct (signal_loop_run 33 f t s 0 t) as [(t' & _ & Hall & _) | (k' & t' & Hk & Hb & Hf & Hl & Ht' & Hr)];
      [lia | lia | apply taken_none | |].
    { destruct Hd as (? & Hb & Hf & _). rewrite Hall in Hf by done. done. }
    assert (k' = k) as -> by (apply (due_unique t); done). exists t'. split; [done |]. rewrite Hr. split.
    + by intros ->.
    + intros Hfn He. rewrite (proj2 (Z.eqb_neq _ _) Hfn). cbn [fr_oldesp] in He.
      rewrite (call_handler_run k _ f t' (with_task t' s)) by (apply with_task_lookup || done).
      assert (Hrest : handler_words t' k f = handler_words t k f)
        by (unfold handler_words; by rewrite (proj1 Ht')).
      rewrite Hrest, with_task_twice.
      destruct (store_words_at (handler_words t k f) (umem s) (fr_oldesp f - 28)) as [H1 H2]; [lia | cbn; lia |].
      by eexists.
Qed.
End delivery.

(** ** An instance *)

(** Task 2 ignores signal 1, has a handler at 0x4000 for signal 2, and nothing
    for signals 3 and 17; signals 1, 2, 3 and 17 are pending. *)
Definition signalled : task_struct :=
  tset (T_sig_fn 0) 1 (tset (T_sig_fn 1) 0x4000 (tset T_sig_restorer 0x5000 (tset T_signal 0x10007 (mk_task 0 9 15)))).
Definition signal_demo : pstate := demo_table [2000] {[2000 := signalled]} 2000.

Lemma ret_from_sys_call_witness :
  exists t' m, words_at m 0xFFE4 [0x5000; 2; 0; 2; 3; 0x202; 0x123] /\
    @ret_from_sys_call quiet_svc call_frame signal_demo =
      Done (set_fr_handler 0x4000 0xFFE4 call_frame)
        (set_umem m (with_task (tset (T_sig_fn 1) 0 t') signal_demo)) /\
    u32 (t' T_signal) = 0x10004.
Proof.
  destruct (@ret_from_sys_call_correct quiet_svc (fun a s => eq_refl) call_frame signalled signal_demo 1000 eq_refl eq_refl)
    as (_ & _ & H).
  destruct (H 1) as (t' & [Ht1 Ht2] & _ & Hh).
  - split; [by vm_compute | by vm_compute].
  - split; [lia |]. split; [by vm_compute |]. split; [by vm_compute |]. intros j Hj Hb.
    assert (j = 0) as -> by lia. by vm_compute.
  - destruct Hh as (m & Hm & _ & Hr); [by vm_compute | by vm_compute |].
    exists t', m. split; [exact Hm |]. split; [exact Hr |].
    apply Z.bits_inj'. intros n Hn. destruct (decide (n < 32)) as [Hlt |].
    + rewrite Ht2 by lia.
      assert (Hall : forallb (fun n => Bool.eqb (Z.testbit (u32 (signalled T_signal)) n && (1 + 1 <=? n)) (Z.testbit 0x10004 n))
        (seqZ 0 32) = true) by by vm_compute.
      rewrite forallb_forall in Hall. apply eqb_prop, Hall, list_elem_of_In, elem_of_seqZ. lia.
    + unfold u32. rewrite (Z.mod_pow2_bits_high _ 32) by lia. symmetry.
      apply (Z.bits_above_log2 0x10004); [lia |]. change (Z.log2 0x10004) with 16. lia.
Defined.
