(* ===== verification/ForkSpec.v ===== *)
(** * ForkSpec: what [fork] makes

    The child of [copy_process] (src/linux-0.01/kernel/fork.c), field by field,
    and the system call as a whole. *)

From S2P Require Import Prelude Mem Proc Sched Fork Exit SysCall.

(** What the child [p] of the task [t], in slot [nr], has in each field: the
    registers [r] of the call with 0 in %eax, times and signals that start
    anew, segments of its own, and all else from [t]. [img] is the state of the
    coprocessor. *)
Definition forked (t : task_struct) (p nr pid j img : Z) (r : regs) : task_struct := fun f =>
  match f with
  | T_state => TASK_RUNNING
  | T_pid => s32 pid
  | T_father => s32 (t T_pid)
  | T_counter => s32 (t T_priority)
  | T_signal | T_alarm | T_leader | T_utime | T_stime | T_cutime | T_cstime => 0
  | T_start_time => s32 j
  | T_ldt_base i => if (i =? 1) || (i =? 2) then u32 (nr * 0x4000000) else t f
  | T_tss x =>
      match x with
      | TSS_back_link | TSS_eax => 0
      | TSS_esp0 => u32 (p + 4096) | TSS_ss0 => 0x10
      | TSS_eip => u32 (r_eip r) | TSS_eflags => u32 (r_eflags r) | TSS_ecx => u32 (r_ecx r) | TSS_edx => u32 (r_edx r)
      | TSS_ebx => u32 (r_ebx r) | TSS_esp => u32 (r_esp r) | TSS_ebp => u32 (r_ebp r) | TSS_esi => u32 (r_esi r)
      | TSS_edi => u32 (r_edi r) | TSS_es => u16 (r_es r) | TSS_cs => u16 (r_cs r) | TSS_ss => u16 (r_ss r)
      | TSS_ds => u16 (r_ds r) | TSS_fs => u16 (r_fs r) | TSS_gs => u16 (r_gs r)
      | TSS_ldt => nr * 16 + 40 | TSS_trace_bitmap => 0x80000000 | TSS_i387 => img
      end
  | _ => t f
  end.

(** The lowest free slot above 0. *)
Definition lowest_free (s : pstate) (n : nat) : Prop :=
  (1 <= n < 64)%nat /\ task s !! n = Some 0 /\ forall j, (1 <= j < n)%nat -> task s !! j <> Some 0.

(** What the other parts of the kernel answer while a task forks; they leave
    the process table as it is. *)
Class ForkAnswers {KS : KernelSvc} : Type := {
  page : Z;                (** the free page, 0 if there is none *)
  limit : Z -> Z;          (** the limits of the caller's segments *)
  image : Z;               (** the coprocessor *)
  copied : Z;              (** 0 if the page tables could be copied *)
  page_run s : svc_get_free_page s = Done page s;
  limit_run sel s : svc_get_limit sel s = Done (limit sel) s;
  image_run c s : svc_fnsave c s = Done image s;
  copied_run a b n s : svc_copy_page_tables a b n s = Done copied s;
  unshare_run a n s : exists z, svc_free_page_tables a n s = Done z s;
  release_run p s : svc_free_page p s = Done tt s;
  file_run f s : svc_file_ref f s = Done tt s;
  inode_run i s : svc_inode_ref i s = Done tt s;
  tss_run n p s : svc_set_tss_desc n p s = Done tt s;
  ldt_run n p s : svc_set_ldt_desc n p s = Done tt s
}.

(** ** The assignments *)

(** [t] with the assignments [l]. *)
Definition assign (l : list (tfield * Z)) (t : task_struct) : task_struct :=
  fold_left (fun t '(f, v) => tset f v t) l t.

Definition with_at (p : Z) (t : task_struct) (s : pstate) : pstate := set_tasks (<[p := t]> (tasks s)) s.

Lemma with_at_twice p t t' s : with_at p t (with_at p t' s) = with_at p t s.
Proof. unfold with_at. cbn [tasks set_tasks]. by rewrite insert_insert_eq. Qed.
Lemma with_at_lookup p t s : tasks (with_at p t s) !! p = Some t.
Proof. apply lookup_insert_eq. Qed.
Lemma with_at_current p t s c : p <> current s -> tasks s !! current s = Some c -> tasks (with_at p t s) !! current s = Some c.
Proof. intros Hne Hc. cbn [with_at tasks set_tasks]. by rewrite lookup_insert_ne by done. Qed.

Lemma tput_at p f v t s : tput p f v (with_at p t s) = Done tt (with_at p (tset f v t) s).
Proof. rewrite (tput_run p f v _ t) by apply with_at_lookup. exact (f_equal (Done tt) (with_at_twice p _ t s)). Qed.

Lemma tputs_run p l : forall t s, tputs p l (with_at p t s) = Done tt (with_at p (assign l t) s).
Proof.
  induction l as [| [f v] l IH]; intros t s; cbn [tputs]; [done |].
  rewrite (bind_Done _ _ _ _ _ (tput_at p f v t s)). apply IH.
Qed.

Lemma for_loop_same {S} n (f : Z -> M S unit) s : (forall i, f i s = Done tt s) -> forall i, for_loop n i f s = Done tt s.
Proof.
  intros Hf. induction n as [| n IH]; intros i; cbn [for_loop]; [done |]. by rewrite (bind_Done _ _ _ _ _ (Hf i)).
Qed.

(** The fields after the assignments of [copy_process], the coprocessor's and
    those of [copy_mem]. *)
Definition child_of (t : task_struct) (p nr pid j : Z) (fp : option Z) (r : regs) : task_struct :=
  let base := u32 (nr * 0x4000000) in
  tset (T_ldt_base 2) base (tset (T_ldt_base 1) base
    (assign (match fp with Some i => [(T_tss TSS_i387, i)] | None => [] end)
      (assign (child_fields p nr pid (t T_pid) (t T_priority) j r) t))).

Lemma child_of_fields t p nr pid j fp r f : 0 <= nr < 64 ->
  child_of t p nr pid j fp r f =
    forked t p nr pid j (match fp with Some i => u32 i | None => t (T_tss TSS_i387) end) r f.
Proof.
  intros Hnr. assert (Hldt : u32 (Z.shiftl nr 4 + Z.shiftl 5 3) = nr * 16 + 40)
    by (rewrite Z.shiftl_mul_pow2 by lia; change (Z.shiftl 5 3) with 40; change (2 ^ 4) with 16; apply u32_small; unfold in_u32; lia).
  assert (Hb : u32 (u32 (nr * 0x4000000)) = u32 (nr * 0x4000000)) by apply u32_idem.
  assert (H16 : forall x, u32 (Z.land x 0xffff) = u16 x).
  { intros x. rewrite land_0xFFFF. fold (u16 x). apply u32_small. unfold in_u32. pose proof (u16_range x). lia. }
  assert (He : u32 (PAGE_SIZE + p) = u32 (p + 4096)) by (f_equal; unfold PAGE_SIZE; lia).
  destruct f as [| | | | | i | | | | | | | | | | | | | | | | | | | | | | | | | | | | | i | i | x];
    try (destruct fp; reflexivity).
  - unfold child_of, tset, forked. cbn [tnorm]. destruct (Z.eqb_spec i 1) as [-> |].
    + rewrite decide_False by congruence. by rewrite decide_True, Hb.
    + destruct (Z.eqb_spec i 2) as [-> |]; [by rewrite decide_True, Hb |]. rewrite !decide_False by congruence.
      by destruct fp.
  - destruct x, fp; first [reflexivity | exact Hldt | exact He | apply H16].
Qed.

Section fork.
Context `{!KernelSvc, !ForkAnswers}.

Lemma copy_mem_run nr p (t u : task_struct) s :
  tasks s !! current s = Some t -> p <> current s -> t (T_ldt_base 1) = t (T_ldt_base 2) -> limit 0x0f <= limit 0x17 ->
  copy_mem nr p (with_at p u s) =
    Done (if copied =? 0 then 0 else - ENOMEM)
      (with_at p (tset (T_ldt_base 2) (u32 (nr * 0x4000000)) (tset (T_ldt_base 1) (u32 (nr * 0x4000000)) u)) s).
Proof.
  intros Ht Hp Hb Hl. pose proof (with_at_current p u s t Hp Ht) as Hc. unfold copy_mem.
  rewrite (bind_Done _ _ _ _ _ (limit_run 0x0f _)), (bind_Done _ _ _ _ _ (limit_run 0x17 _)).
  rewrite (bind_Done _ _ _ _ _ (cur_get_run t _ (with_at p u s) Hc)), (bind_Done _ _ _ _ _ (cur_get_run t _ (with_at p u s) Hc)).
  rewrite Hb, Z.eqb_refl, (proj2 (Z.ltb_ge _ _) Hl). cbn [negb]. cbv zeta.
  rewrite (bind_Done _ _ _ _ _ (tput_at p _ _ _ s)), (bind_Done _ _ _ _ _ (tput_at p _ _ _ s)).
  rewrite (bind_Done _ _ _ _ _ (copied_run _ _ _ _)). destruct (copied =? 0); cbn [negb]; [done |].
  destruct (unshare_run (u32 (nr * 0x4000000)) (limit 0x17)
    (with_at p (tset (T_ldt_base 2) (u32 (nr * 0x4000000)) (tset (T_ldt_base 1) (u32 (nr * 0x4000000)) u)) s)) as [z Hz].
  by rewrite (bind_Done _ _ _ _ _ Hz).
Qed.

(** What the coprocessor's owner hands on. *)
Definition owned_image (s : pstate) : option Z := if last_task_used_math s =? current s then Some image else None.

Lemma fpu_run p u s :
  (l ← gets last_task_used_math; c ← gets current;
   when (l =? c) (i ← svc_fnsave c; tput p (T_tss TSS_i387) i)) (with_at p u s) =
  Done tt (with_at p (assign (match owned_image s with Some i => [(T_tss TSS_i387, i)] | None => [] end) u) s).
Proof.
  rewrite (bind_Done (gets last_task_used_math) _ (with_at p u s) (last_task_used_math s) (with_at p u s) eq_refl).
  rewrite (bind_Done (gets current) _ (with_at p u s) (current s) (with_at p u s) eq_refl). unfold owned_image, when.
  destruct (_ =? _); [| done]. by rewrite (bind_Done _ _ _ _ _ (image_run _ _)), tput_at.
Qed.

Lemma when_same (b : bool) (m : M pstate unit) s : m s = Done tt s -> when b m s = Done tt s.
Proof. by destruct b. Qed.

(** The users of files and directories, and the descriptors. *)
Lemma sharing_run {A} nr p t u s (k : M pstate A) :
  tasks s !! current s = Some t -> p <> current s ->
  (_ ← for_loop (Z.to_nat NR_OPEN) 0 (share_file p);
   pwd ← cur_get T_pwd;
   _ ← when (negb (pwd =? 0)) (svc_inode_ref pwd);
   root ← cur_get T_root;
   _ ← when (negb (root =? 0)) (svc_inode_ref root);
   _ ← svc_set_tss_desc nr p;
   _ ← svc_set_ldt_desc nr p; k) (with_at p u s) = k (with_at p u s).
Proof.
  intros Ht Hp. pose proof (with_at_current p u s t Hp Ht) as Hc.
  assert (Hshare : forall i, share_file p i (with_at p u s) = Done tt (with_at p u s)).
  { intros i. unfold share_file. rewrite (bind_Done _ _ _ _ _ (tget_run p _ _ _ (with_at_lookup p u s))).
    apply when_same, file_run. }
  rewrite (bind_Done _ _ _ _ _ (for_loop_same _ _ _ Hshare 0)).
  rewrite (bind_Done _ _ _ _ _ (cur_get_run t _ (with_at p u s) Hc)).
  rewrite (bind_Done _ _ _ _ _ (when_same _ _ _ (inode_run _ _))).
  rewrite (bind_Done _ _ _ _ _ (cur_get_run t _ (with_at p u s) Hc)).
  rewrite (bind_Done _ _ _ _ _ (when_same _ _ _ (inode_run _ _))).
  by rewrite (bind_Done _ _ _ _ _ (tss_run _ _ _)), (bind_Done _ _ _ _ _ (ldt_run _ _ _)).
Qed.

Lemma copy_process_run nr r (t : task_struct) s :
  tasks s !! current s = Some t -> page <> current s -> 0 <= nr < 64 ->
  t (T_ldt_base 1) = t (T_ldt_base 2) -> limit 0x0f <= limit 0x17 ->
  copy_process nr r s =
    if page =? 0 then Done (- EAGAIN) s
    else let s' := with_at page (child_of t page nr (last_pid s) (jiffies s) (owned_image s) r) s in
      if copied =? 0 then Done (last_pid s) (set_task (<[Z.to_nat nr := page]> (task s)) s') else Done (- EAGAIN) s'.
Proof.
  intros Ht Hp Hnr Hb Hl. unfold copy_process. rewrite (bind_Done _ _ _ _ _ (page_run s)).
  destruct (Z.eqb_spec page 0); [done |]. set (p := page) in *.
  assert (Hcopy : copy_task p s = Done tt (with_at p t s)).
  { unfold copy_task. rewrite (bind_Done (gets current) _ s (current s) s eq_refl).
    by rewrite (bind_Done (get_opt _ _) _ s t s) by (unfold get_opt; by rewrite Ht). }
  rewrite (bind_Done _ _ _ _ _ Hcopy).
  rewrite (bind_Done (gets last_pid) _ (with_at p t s) (last_pid s) (with_at p t s) eq_refl).
  rewrite (bind_Done _ _ _ _ _ (cur_get_run t T_pid (with_at p t s) (with_at_current p t s t Hp Ht))).
  rewrite (bind_Done _ _ _ _ _ (tget_run p T_priority _ _ (with_at_lookup p t s))).
  rewrite (bind_Done (gets jiffies) _ (with_at p t s) (jiffies s) (with_at p t s) eq_refl).
  rewrite (bind_Done _ _ _ _ _ (tputs_run p _ t s)).
  set (u0 := assign (child_fields p nr (last_pid s) (t T_pid) (t T_priority) (jiffies s) r) t).
  pose proof (fpu_run p u0 s) as Hfpu.
  rewrite (bind_Done (gets last_task_used_math) _ (with_at p u0 s) (last_task_used_math s) (with_at p u0 s) eq_refl).
  rewrite (bind_Done (gets last_task_used_math) _ (with_at p u0 s) (last_task_used_math s) (with_at p u0 s) eq_refl) in Hfpu.
  rewrite (bind_Done (gets current) _ (with_at p u0 s) (current s) (with_at p u0 s) eq_refl).
  rewrite (bind_Done (gets current) _ (with_at p u0 s) (current s) (with_at p u0 s) eq_refl) in Hfpu.
  rewrite (bind_Done _ _ _ _ _ Hfpu), (bind_Done _ _ _ _ _ (copy_mem_run nr p t _ s Ht Hp Hb Hl)).
  set (u := child_of t p nr (last_pid s) (jiffies s) (owned_image s) r).
  match goal with |- context [with_at p (tset (T_ldt_base 2) ?b ?v) s] => change (tset (T_ldt_base 2) b v) with u end.
  destruct (copied =? 0); cbv beta iota; [change (negb (0 =? 0)) with false | change (negb (- ENOMEM =? 0)) with true]; cbv iota.
  - rewrite (sharing_run nr p t u s) by done.
    assert (Hset : set_task_at nr p (with_at p u s) = Done tt (set_task (<[Z.to_nat nr := p]> (task s)) (with_at p u s)))
      by (unfold set_task_at, NR_TASKS; by rewrite (proj2 (Z.leb_le 0 nr)), (proj2 (Z.ltb_lt nr 64)) by lia).
    by rewrite (bind_Done _ _ _ _ _ Hset).
  - by rewrite (bind_Done _ _ _ _ _ (release_run _ _)).
Qed.
End fork.

(** ** The table *)

(** The task [u] at [p], in the empty slot [n]. *)
Lemma pwf_enter s n p u :
  pwf s -> p <> 0 -> p ∉ task s -> pwf (set_task (<[n := p]> (task s)) (with_at p u s)).
Proof.
  intros [Hnull Hlen Hlive Hinj] Hp Hin. constructor; cbn [task tasks set_task set_tasks with_at].
  - by rewrite lookup_insert_ne.
  - by rewrite length_insert.
  - intros i q Hi Hq. destruct (decide (p = q)) as [-> | Hne]; [rewrite lookup_insert_eq; by eexists |].
    rewrite lookup_insert_ne by done. apply list_lookup_insert_Some in Hi as [(_ & E & _) | [_ Hi]]; [done | by eapply Hlive].
  - intros i j q Hi Hj Hq.
    assert (Hold : forall k, task s !! k = Some p -> False) by (intros k Hk; by apply Hin, (list_elem_of_lookup_2 _ k)).
    apply list_lookup_insert_Some in Hi as [(-> & -> & _) | [Hni Hi]], Hj as [(Hj & E & _) | [Hnj Hj]];
      try done; [by destruct (Hold j) | subst q; by destruct (Hold i) | by eapply Hinj].
Qed.

Lemma pwf_set_last_pid k s : pwf s -> pwf (set_last_pid k s).
Proof. intros []. by constructor. Qed.

(** [pid] is for a new task. *)
Definition unused_pid (pid : Z) (s : pstate) : Prop :=
  1 <= pid <= 2147483647 /\ forall i p t, task s !! i = Some p -> p <> 0 -> tasks s !! p = Some t -> t T_pid <> pid.

Section sys_fork.
Context `{!KernelSvc, !ForkAnswers}.

(** C33: [fork] takes a pid that no task has. Without a free slot, without a
    free page or when the page tables cannot be copied it answers [-EAGAIN],
    and no task is in the table that was not there, nor has any changed.
    Otherwise it answers the pid, and the table has in its lowest free slot
    above 0 the page with the child: a task that is ready to run, with the pid
    and the caller as its father, with the registers of the call but 0 in %eax,
    so that the same call answers 0 there, with a segment of 64 MB of its own
    for its slot, with no time used, no alarm and no signal pending, and with
    the caller's ids, files, directories and handlers. No other task changes,
    and the table is whole again. *)
Theorem sys_fork_correct r (t : task_struct) s :
  pwf s -> 0 <= last_pid s <= 2147483647 -> tasks s !! current s = Some t -> current s ∈ task s ->
  t (T_ldt_base 1) = t (T_ldt_base 2) -> limit 0x0f <= limit 0x17 -> (page <> 0 -> page ∉ task s) ->
  exists pid, unused_pid pid s /\ let s1 := set_last_pid pid s in
    ((forall n, ~ lowest_free s n) -> sys_fork r s = Done (- EAGAIN) s1) /\
    (forall n, lowest_free s n ->
       (page = 0 -> sys_fork r s = Done (- EAGAIN) s1) /\
       (page <> 0 -> exists u : task_struct,
          (forall f, u f = forked t page (Z.of_nat n) pid (jiffies s)
             (if last_task_used_math s =? current s then u32 image else t (T_tss TSS_i387)) r f) /\
          (copied <> 0 -> sys_fork r s = Done (- EAGAIN) (set_tasks (<[page := u]> (tasks s)) s1)) /\
          (copied = 0 -> let s' := set_task (<[n := page]> (task s)) (set_tasks (<[page := u]> (tasks s)) s1) in
             sys_fork r s = Done pid s' /\ pwf s'))).
Proof.
  intros Hwf Hl Ht Hcur Hb Hlim Hpage.
  destruct (find_empty_process_correct s Hwf Hl) as (z & k & Hrun & Hpid & Hfresh & _ & Hz).
  set (pid := candidate (last_pid s) k) in *. exists pid. split; [done |]. cbv zeta.
  set (s1 := set_last_pid pid s) in *. unfold sys_fork. rewrite (bind_Done _ _ _ _ _ Hrun). split.
  - intros Hnone. destruct Hz as [[-> _] | (n & -> & Hn & Hn0 & Hlow)]; [done | by destruct (Hnone n)].
  - intros n (Hn & Hn0 & Hlow). destruct Hz as [[-> Hall] | (m & -> & Hm & Hm0 & Hlow2)]; [by destruct (Hall n ltac:(lia)) |].
    assert (m = n) as -> by (destruct (Nat.lt_trichotomy m n) as [? | [? | ?]]; [by destruct (Hlow m ltac:(lia)) | done | by destruct (Hlow2 n ltac:(lia))]).
    rewrite (proj2 (Z.ltb_ge (Z.of_nat n) 0)) by lia.
    assert (Hne : page <> current s).
    { intros E. destruct (decide (page = 0)) as [E0 | En]; [| apply (Hpage En); by rewrite E].
      pose proof (pwf_null s Hwf) as Hnull. rewrite <- E, E0 in Ht. congruence. }
    rewrite (copy_process_run (Z.of_nat n) r t s1) by (done || lia). split; [by intros -> |]. intros Hp.
    rewrite (proj2 (Z.eqb_neq page 0) Hp). cbv zeta. rewrite Nat2Z.id.
    exists (child_of t page (Z.of_nat n) pid (jiffies s) (owned_image s1) r). split; [| split].
    + intros f. rewrite child_of_fields by lia. unfold owned_image. change (last_task_used_math s1) with (last_task_used_math s).
      change (current s1) with (current s). by destruct (_ =? _).
    + intros Hc. by rewrite (proj2 (Z.eqb_neq copied 0) Hc).
    + intros ->. split; [done |]. apply (pwf_enter s1); [by apply pwf_set_last_pid | done | by apply Hpage].
Qed.
End sys_fork.

(** ** An instance *)

(** The kernel's services for one fork: a page at 0x9000. *)
Definition fork_svc : KernelSvc := {|
  svc_write_verify := fun _ => mret tt; svc_get_free_page := mret 0x9000;
  svc_free_page := fun _ => mret tt; svc_copy_page_tables := fun _ _ _ => mret 0;
  svc_free_page_tables := fun _ _ => mret 0; svc_get_limit := fun _ => mret 0xa0000;
  svc_sys_close := fun _ => mret 0; svc_iput := fun _ => mret tt;
  svc_file_ref := fun _ => mret tt; svc_inode_ref := fun _ => mret tt;
  svc_tty_clear_pgrp := fun _ => mret tt; svc_set_tss_desc := fun _ _ => mret tt;
  svc_set_ldt_desc := fun _ _ => mret tt; svc_fnsave := fun _ => mret 0 |}.

#[refine] Instance fork_answers : @ForkAnswers fork_svc :=
  {| page := 0x9000; limit := fun _ => 0xa0000; image := 0; copied := 0 |}.
Proof. all: intros; try reflexivity. by exists 0. Defined.

Definition demo_regs : regs := {|
  r_ebp := 0; r_edi := 0; r_esi := 0; r_gs := 0x17; r_ebx := 1; r_ecx := 2; r_edx := 3; r_fs := 0x17; r_es := 0x17;
  r_ds := 0x17; r_eip := 0x1234; r_cs := 0xF; r_eflags := 0x202; r_esp := 0x3FFFF00; r_ss := 0x17 |}.

(** Process 1 forks: the child is process 3, in slot 3. *)
Lemma sys_fork_witness :
  exists pid (u : task_struct), let s' := set_task (<[3%nat := 0x9000]> (task fork_demo))
      (set_tasks (<[0x9000 := u]> (tasks fork_demo)) (set_last_pid pid fork_demo)) in
    @sys_fork fork_svc demo_regs fork_demo = Done pid s' /\
    u T_father = 1 /\ u (T_tss TSS_eax) = 0 /\ u (T_tss TSS_eip) = 0x1234 /\ u (T_ldt_base 1) = 3 * 0x4000000.
Proof.
  destruct (@sys_fork_correct fork_svc fork_answers demo_regs (tset T_pid 1 (mk_task 0 9 15)) fork_demo)
    as (pid & _ & _ & H); try done.
  - apply pwfb_pwf. by vm_compute.
  - by apply (list_elem_of_lookup_2 _ 1%nat).
  - intros _ [i Hi]%list_elem_of_lookup.
    assert (Hall : forallb (fun q => negb (q =? 0x9000)) (task fork_demo) = true) by by vm_compute.
    rewrite forallb_forall in Hall. specialize (Hall 0x9000). rewrite <- list_elem_of_In in Hall.
    by specialize (Hall (list_elem_of_lookup_2 _ i _ Hi)).
  - destruct (H 3%nat) as [_ H2].
    + split; [lia |]. split; [done |]. intros j Hj. assert (j = 1%nat \/ j = 2%nat) as [-> | ->] by lia; by vm_compute.
    + destruct H2 as (u & Hu & _ & Hr); [done |]. destruct (Hr eq_refl) as [Hrun _].
      exists pid, u. split; [exact Hrun |].
      split; [rewrite Hu; by vm_compute |]. split; [rewrite Hu; by vm_compute |].
      split; rewrite Hu; by vm_compute.
Defined.
