(* ===== verification/Sys.v ===== *)
(** * Sys: src/linux-0.01/kernel/sys.c *)

From S2P Require Import Prelude Mem Proc Sched Fork.

(** The calls that are not there yet. *)
Definition sys_ftime : M pstate Z := mret (- ENOSYS).
Definition sys_mknod : M pstate Z := mret (- ENOSYS).
Definition sys_break : M pstate Z := mret (- ENOSYS).
Definition sys_mount : M pstate Z := mret (- ENOSYS).
Definition sys_umount : M pstate Z := mret (- ENOSYS).
Definition sys_ptrace : M pstate Z := mret (- ENOSYS).
Definition sys_stty : M pstate Z := mret (- ENOSYS).
Definition sys_gtty : M pstate Z := mret (- ENOSYS).
Definition sys_rename : M pstate Z := mret (- ENOSYS).
Definition sys_prof : M pstate Z := mret (- ENOSYS).
Definition sys_acct : M pstate Z := mret (- ENOSYS).
Definition sys_phys : M pstate Z := mret (- ENOSYS).
Definition sys_lock : M pstate Z := mret (- ENOSYS).
Definition sys_mpx : M pstate Z := mret (- ENOSYS).
Definition sys_ulimit : M pstate Z := mret (- ENOSYS).
Definition sys_ustat (dev ubuf : Z) : M pstate Z := mret (-1).

(** [current->euid && current->uid]. *)
Definition unprivileged : M pstate bool :=
  euid ← cur_get T_euid;
  uid ← cur_get T_uid;
  mret (negb (euid =? 0) && negb (uid =? 0)).

Definition sys_setgid (gid : Z) : M pstate Z :=
  b ← unprivileged;
  if b : bool then
    g ← cur_get T_gid;
    sg ← cur_get T_sgid;
    if (g =? gid) || (sg =? gid) then _ ← cur_put T_egid gid; mret 0
    else mret (- EPERM)
  else
    _ ← cur_put T_egid gid;
    eg ← cur_get T_egid;
    _ ← cur_put T_gid eg;
    mret 0.

(** [CURRENT_TIME]. *)
Definition current_time : M pstate Z :=
  st ← gets startup_time;
  j ← gets jiffies;
  mret (s32 (st + Z.quot j HZ)).

Definition sys_setuid (uid : Z) : M pstate Z :=
  b ← unprivileged;
  if b : bool then
    cu ← cur_get T_uid;
    su ← cur_get T_suid;
    if (uid =? cu) || (su =? cu) then _ ← cur_put T_euid uid; mret 0
    else mret (- EPERM)
  else
    _ ← cur_put T_uid uid;
    u ← cur_get T_uid;
    _ ← cur_put T_euid u;
    mret 0.

Definition sys_stime (tptr : Z) : M pstate Z :=
  b ← unprivileged;
  if b : bool then mret (-1)
  else
    t ← get_fs_long tptr;
    j ← gets jiffies;
    _ ← modify (set_startup_time (s32 (t - Z.quot j HZ)));
    mret 0.

Definition sys_brk (end_data_seg : Z) : M pstate Z :=
  ec ← cur_get T_end_code;
  ss ← cur_get T_start_stack;
  _ ← when ((ec <=? end_data_seg) && (end_data_seg <? u32 (ss - 16384)))
        (cur_put T_brk end_data_seg);
  b ← cur_get T_brk;
  mret (s32 b).

(** The slot of [pid], from [i] on, and what happens to it. *)
Fixpoint setpgid_from (n : nat) (i pid pgid : Z) : M pstate Z :=
  match n with
  | O => mret (- ESRCH)
  | S n' =>
      p ← task_at i;
      if p =? 0 then setpgid_from n' (i + 1) pid pgid
      else
        q ← tget p T_pid;
        if q =? pid then
          l ← tget p T_leader;
          if negb (l =? 0) then mret (- EPERM)
          else
            se ← tget p T_session;
            cs ← cur_get T_session;
            if negb (se =? cs) then mret (- EPERM)
            else _ ← tput p T_pgrp pgid; mret 0
        else setpgid_from n' (i + 1) pid pgid
  end.

Definition sys_setpgid (pid pgid : Z) : M pstate Z :=
  pid ← (if pid =? 0 then cur_get T_pid else mret pid);
  let pgid := if pgid =? 0 then pid else pgid in
  setpgid_from 64 0 pid pgid.

Definition sys_getpgrp : M pstate Z := cur_get T_pgrp.

Definition sys_setsid : M pstate Z :=
  uid ← cur_get T_uid;
  euid ← cur_get T_euid;
  if negb (uid =? 0) && negb (euid =? 0) then mret (- EPERM)
  else
    l ← cur_get T_leader;
    if negb (l =? 0) then mret (- EPERM)
    else
      _ ← cur_put T_leader 1;
      pid ← cur_get T_pid;
      _ ← cur_put T_pgrp pid;
      g ← cur_get T_pgrp;
      _ ← cur_put T_session g;
      _ ← cur_put T_tty (-1);
      cur_get T_pgrp.

Definition sys_umask (mask : Z) : M pstate Z :=
  old ← cur_get T_umask;
  _ ← cur_put T_umask (Z.land mask 511);
  mret old.

(** [struct utsname]: five fields of nine bytes. *)
Definition thisname : list Z :=
  flat_map (fun f => f ++ replicate (9 - length f) 0)
    [[108; 105; 110; 117; 120; 32; 46; 48];          (* "linux .0" *)
     [110; 111; 100; 101; 110; 97; 109; 101];        (* "nodename" *)
     [114; 101; 108; 101; 97; 115; 101; 32];         (* "release " *)
     [118; 101; 114; 115; 105; 111; 110; 32];        (* "version " *)
     [109; 97; 99; 104; 105; 110; 101; 32]].         (* "machine " *)

Definition put_fs_byte (v addr : Z) : M pstate unit :=
  modify (fun s => set_umem (store8 (umem s) addr v) s).

Section sys.
Context `{!KernelSvc}.

Definition sys_time (tloc : Z) : M pstate Z :=
  i ← current_time;
  _ ← when (negb (tloc =? 0)) (_ ← verify_area tloc 4; put_fs_long i tloc);
  mret i.

Definition sys_times (tbuf : Z) : M pstate Z :=
  if tbuf =? 0 then gets jiffies
  else
    _ ← verify_area tbuf 16;
    u ← cur_get T_utime;
    _ ← put_fs_long u tbuf;
    t ← cur_get T_stime;
    _ ← put_fs_long t (tbuf + 4);
    cu ← cur_get T_cutime;
    _ ← put_fs_long cu (tbuf + 8);
    ct ← cur_get T_cstime;
    _ ← put_fs_long ct (tbuf + 12);
    gets jiffies.

Definition sys_uname (name : Z) : M pstate Z :=
  if name =? 0 then mret (-1)
  else
    _ ← verify_area name 45;
    _ ← for_loop 45 0 (fun i =>
          b ← get_opt "thisname" (fun _ => thisname !! Z.to_nat i);
          put_fs_byte b (i + name));
    mret 0.
End sys.

(** ** Lemmas: user and group ids *)

(** [current->euid && current->uid]. *)
Definition ordinary (c : task_struct) : bool := negb (c T_euid =? 0) && negb (c T_uid =? 0).

(** The state after the caller has become [c]. *)
Definition with_current (c : task_struct) (s : pstate) : pstate :=
  set_tasks (<[current s := c]> (tasks s)) s.

Lemma unprivileged_run c s :
  tasks s !! current s = Some c -> unprivileged s = Done (ordinary c) s.
Proof.
  intros H. unfold unprivileged.
  rewrite (bind_Done _ _ _ _ _ (cur_get_run c T_euid s H)).
  by rewrite (bind_Done _ _ _ _ _ (cur_get_run c T_uid s H)).
Qed.

Lemma with_current_lookup c s : tasks (with_current c s) !! current (with_current c s) = Some c.
Proof. apply lookup_insert_eq. Qed.

(** Setting the effective and then, or before, the real id of the caller. *)
Lemma set_two_run c f g v s :
  tasks s !! current s = Some c -> tnorm f v = v -> f <> g ->
  (_ ← cur_put f v; e ← cur_get f; _ ← cur_put g e; mret 0) s =
    Done 0 (with_current (tset g v (tset f v c)) s).
Proof.
  intros H Hv Hfg. rewrite (bind_Done _ _ _ _ _ (cur_put_run c f v s H)).
  pose proof (with_current_lookup (tset f v c) s) as H1.
  rewrite (bind_Done _ _ _ _ _ (cur_get_run _ f _ H1)), tset_eq, Hv.
  rewrite (bind_Done _ _ _ _ _ (cur_put_run _ g v _ H1)).
  unfold with_current, set_tasks. cbn [tasks current]. by rewrite insert_insert_eq.
Qed.

(** A caller that is the superuser, really or effectively, gets both its
    ids set. Any other keeps its real id: [setgid] gives it, as effective
    group, its real or its saved group and refuses every other one with
    [-EPERM], nothing changed; [setuid] does so for the real user, but in
    place of comparing the saved user with the one asked for it compares it
    with the real one, so that a caller whose saved and real user are the
    same may become any user, the superuser too. *)
Theorem set_ids_correct c id s :
  tasks s !! current s = Some c -> 0 <= id < 65536 ->
  (ordinary c = false ->
     sys_setgid id s = Done 0 (with_current (tset T_gid id (tset T_egid id c)) s) /\
     sys_setuid id s = Done 0 (with_current (tset T_euid id (tset T_uid id c)) s)) /\
  (ordinary c = true ->
     sys_setgid id s =
       (if decide (id = c T_gid \/ id = c T_sgid)
        then Done 0 (with_current (tset T_egid id c) s) else Done (- EPERM) s) /\
     sys_setuid id s =
       (if decide (id = c T_uid \/ c T_suid = c T_uid)
        then Done 0 (with_current (tset T_euid id c) s) else Done (- EPERM) s)).
Proof.
  intros Hc Hid. unfold sys_setgid, sys_setuid.
  rewrite !(bind_Done _ _ _ _ _ (unprivileged_run c s Hc)).
  assert (Hn : u16 id = id) by (by apply u16_small).
  split; intros ->; (split; [| ]).
  - by apply set_two_run.
  - by apply set_two_run.
  - rewrite (bind_Done _ _ _ _ _ (cur_get_run c T_gid s Hc)).
    rewrite (bind_Done _ _ _ _ _ (cur_get_run c T_sgid s Hc)).
    destruct (Z.eqb_spec (c T_gid) id), (Z.eqb_spec (c T_sgid) id), (decide _) as [D | D];
      cbn [orb]; first [by rewrite (bind_Done _ _ _ _ _ (cur_put_run c T_egid id s Hc)) | done | exfalso; naive_solver].
  - rewrite (bind_Done _ _ _ _ _ (cur_get_run c T_uid s Hc)).
    rewrite (bind_Done _ _ _ _ _ (cur_get_run c T_suid s Hc)).
    destruct (Z.eqb_spec id (c T_uid)), (Z.eqb_spec (c T_suid) (c T_uid)), (decide _) as [D | D];
      cbn [orb]; first [by rewrite (bind_Done _ _ _ _ _ (cur_put_run c T_euid id s Hc)) | done | exfalso; naive_solver].
Qed.

(** User 5, saved user 5, becomes the superuser. *)
Definition login_demo : task_struct :=
  tset T_suid 5 (tset T_euid 5 (tset T_uid 5 (mk_task 0 9 15))).

Lemma set_ids_witness :
  sys_setuid 0 (demo_table [2000] {[2000 := login_demo]} 2000) =
    Done 0 (with_current (tset T_euid 0 login_demo) (demo_table [2000] {[2000 := login_demo]} 2000)).
Proof.
  destruct (set_ids_correct login_demo 0 (demo_table [2000] {[2000 := login_demo]} 2000))
    as [_ H]; [done | lia |].
  destruct (H eq_refl) as [_ ->]. rewrite decide_True; [done | by right].
Defined.
