(* ===== verification/Console.v ===== *)
(** * Console: src/linux-0.01/kernel/console.c

    The VT102 console: the static variables as a record, one function of the
    record per C function.  The string instructions ([rep movsl], [rep stosw],
    [rep stosl], in both directions) act on byte memory like the processor.
    [con_char] is one turn of [con_write]'s loop; [respond], its only call
    that leaves the console, is reported to the caller ([Tty]). *)

From S2P Require Import Prelude Mem.

Definition SCREEN_START : Z := 0xb8000.
Definition SCREEN_END : Z := 0xc0000.
Definition LINES : Z := 25.
Definition COLUMNS : Z := 80.
Definition NPAR : Z := 16.
Definition lines : Z := LINES.
Definition columns : Z := COLUMNS.

Record console : Type := {
  origin : Z;
  scr_end : Z;
  pos : Z;
  x : Z;
  y : Z;
  top : Z;
  bottom : Z;
  cstate : Z;
  npar : Z;
  par : list Z;
  ques : Z;
  attr : Z;
  saved_x : Z;
  saved_y : Z;
  vram : memory;
  ports : list (Z * Z)
}.

Definition set_origin (v : Z) (k : console) : console :=
  {| origin := v; scr_end := scr_end k; pos := pos k; x := x k; y := y k;
     top := top k; bottom := bottom k; cstate := cstate k; npar := npar k;
     par := par k; ques := ques k; attr := attr k; saved_x := saved_x k;
     saved_y := saved_y k; vram := vram k; ports := ports k |}.
Definition set_scr_end (v : Z) (k : console) : console :=
  {| origin := origin k; scr_end := v; pos := pos k; x := x k; y := y k;
     top := top k; bottom := bottom k; cstate := cstate k; npar := npar k;
     par := par k; ques := ques k; attr := attr k; saved_x := saved_x k;
     saved_y := saved_y k; vram := vram k; ports := ports k |}.
Definition set_pos (v : Z) (k : console) : console :=
  {| origin := origin k; scr_end := scr_end k; pos := v; x := x k; y := y k;
     top := top k; bottom := bottom k; cstate := cstate k; npar := npar k;
     par := par k; ques := ques k; attr := attr k; saved_x := saved_x k;
     saved_y := saved_y k; vram := vram k; ports := ports k |}.
Definition set_x (v : Z) (k : console) : console :=
  {| origin := origin k; scr_end := scr_end k; pos := pos k; x := v; y := y k;
     top := top k; bottom := bottom k; cstate := cstate k; npar := npar k;
     par := par k; ques := ques k; attr := attr k; saved_x := saved_x k;
     saved_y := saved_y k; vram := vram k; ports := ports k |}.
Definition set_y (v : Z) (k : console) : console :=
  {| origin := origin k; scr_end := scr_end k; pos := pos k; x := x k; y := v;
     top := top k; bottom := bottom k; cstate := cstate k; npar := npar k;
     par := par k; ques := ques k; attr := attr k; saved_x := saved_x k;
     saved_y := saved_y k; vram := vram k; ports := ports k |}.
Definition set_top (v : Z) (k : console) : console :=
  {| origin := origin k; scr_end := scr_end k; pos := pos k; x := x k; y := y k;
     top := v; bottom := bottom k; cstate := cstate k; npar := npar k;
     par := par k; ques := ques k; attr := attr k; saved_x := saved_x k;
     saved_y := saved_y k; vram := vram k; ports := ports k |}.
Definition set_bottom (v : Z) (k : console) : console :=
  {| origin := origin k; scr_end := scr_end k; pos := pos k; x := x k; y := y k;
     top := top k; bottom := v; cstate := cstate k; npar := npar k; par := par k;
     ques := ques k; attr := attr k; saved_x := saved_x k; saved_y := saved_y k;
     vram := vram k; ports := ports k |}.
Definition set_cstate (v : Z) (k : console) : console :=
  {| origin := origin k; scr_end := scr_end k; pos := pos k; x := x k; y := y k;
     top := top k; bottom := bottom k; cstate := v; npar := npar k; par := par k;
     ques := ques k; attr := attr k; saved_x := saved_x k; saved_y := saved_y k;
     vram := vram k; ports := ports k |}.
Definition set_npar (v : Z) (k : console) : console :=
  {| origin := origin k; scr_end := scr_end k; pos := pos k; x := x k; y := y k;
     top := top k; bottom := bottom k; cstate := cstate k; npar := v;
     par := par k; ques := ques k; attr := attr k; saved_x := saved_x k;
     saved_y := saved_y k; vram := vram k; ports := ports k |}.
Definition set_par (v : list Z) (k : console) : console :=
  {| origin := origin k; scr_end := scr_end k; pos := pos k; x := x k; y := y k;
     top := top k; bottom := bottom k; cstate := cstate k; npar := npar k;
     par := v; ques := ques k; attr := attr k; saved_x := saved_x k;
     saved_y := saved_y k; vram := vram k; ports := ports k |}.
Definition set_ques (v : Z) (k : console) : console :=
  {| origin := origin k; scr_end := scr_end k; pos := pos k; x := x k; y := y k;
     top := top k; bottom := bottom k; cstate := cstate k; npar := npar k;
     par := par k; ques := v; attr := attr k; saved_x := saved_x k;
     saved_y := saved_y k; vram := vram k; ports := ports k |}.
Definition set_attr (v : Z) (k : console) : console :=
  {| origin := origin k; scr_end := scr_end k; pos := pos k; x := x k; y := y k;
     top := top k; bottom := bottom k; cstate := cstate k; npar := npar k;
     par := par k; ques := ques k; attr := v; saved_x := saved_x k;
     saved_y := saved_y k; vram := vram k; ports := ports k |}.
Definition set_saved_x (v : Z) (k : console) : console :=
  {| origin := origin k; scr_end := scr_end k; pos := pos k; x := x k; y := y k;
     top := top k; bottom := bottom k; cstate := cstate k; npar := npar k;
     par := par k; ques := ques k; attr := attr k; saved_x := v;
     saved_y := saved_y k; vram := vram k; ports := ports k |}.
Definition set_saved_y (v : Z) (k : console) : console :=
  {| origin := origin k; scr_end := scr_end k; pos := pos k; x := x k; y := y k;
     top := top k; bottom := bottom k; cstate := cstate k; npar := npar k;
     par := par k; ques := ques k; attr := attr k; saved_x := saved_x k;
     saved_y := v; vram := vram k; ports := ports k |}.
Definition set_vram (v : memory) (k : console) : console :=
  {| origin := origin k; scr_end := scr_end k; pos := pos k; x := x k; y := y k;
     top := top k; bottom := bottom k; cstate := cstate k; npar := npar k;
     par := par k; ques := ques k; attr := attr k; saved_x := saved_x k;
     saved_y := saved_y k; vram := v; ports := ports k |}.
Definition set_ports (v : list (Z * Z)) (k : console) : console :=
  {| origin := origin k; scr_end := scr_end k; pos := pos k; x := x k; y := y k;
     top := top k; bottom := bottom k; cstate := cstate k; npar := npar k;
     par := par k; ques := ques k; attr := attr k; saved_x := saved_x k;
     saved_y := saved_y k; vram := vram k; ports := v |}.

(** ** String instructions *)

Fixpoint movsl_up (n : nat) (d s : Z) (m : memory) : memory :=
  match n with
  | O => m
  | S n' => movsl_up n' (d + 4) (s + 4) (store32 m d (load32 m s))
  end.
Fixpoint movsl_down (n : nat) (d s : Z) (m : memory) : memory :=
  match n with
  | O => m
  | S n' => movsl_down n' (d - 4) (s - 4) (store32 m d (load32 m s))
  end.
Fixpoint stosw_up (n : nat) (d v : Z) (m : memory) : memory :=
  match n with
  | O => m
  | S n' => stosw_up n' (d + 2) v (store16 m d v)
  end.
Fixpoint stosw_down (n : nat) (d v : Z) (m : memory) : memory :=
  match n with
  | O => m
  | S n' => stosw_down n' (d - 2) v (store16 m d v)
  end.
Fixpoint stosl_up (n : nat) (d v : Z) (m : memory) : memory :=
  match n with
  | O => m
  | S n' => stosl_up n' (d + 4) v (store32 m d v)
  end.

(** [%ecx]. *)
Definition count (n : Z) : nat := Z.to_nat (u32 n).

Definition on_vram (f : memory -> memory) (k : console) : console := set_vram (f (vram k)) k.
Definition outb_p (value port : Z) (k : console) : console :=
  set_ports (ports k ++ [(u16 port, u8 value)]) k.

(** [columns<<1]. *)
Definition row : Z := Z.shiftl columns 1.

(** ** The operations *)

Definition gotoxy (new_x new_y : Z) (k : console) : console :=
  if (columns <=? new_x) || (lines <=? new_y) then k
  else
    set_pos (u32 (origin k + Z.shiftl (u32 (new_y * columns + new_x)) 1))
      (set_y new_y (set_x new_x k)).

Definition set_origin_ports (k : console) : console :=
  let o := u32 (origin k - SCREEN_START) in
  outb_p (Z.land 0xff (Z.shiftr o 1)) 0x3d5
    (outb_p 13 0x3d4
      (outb_p (Z.land 0xff (Z.shiftr o 9)) 0x3d5
        (outb_p 12 0x3d4 k))).

(** The whole screen scrolls by one line: the window on video memory moves on,
    [scrup_advance], and the new last line is blanked, [scrup_next]; past the
    end of video memory the screen is copied back to its start, [scrup_wrap]. *)
Definition scrup_advance (k : console) : console :=
  let k := set_origin (u32 (origin k + row)) k in
  let k := set_pos (u32 (pos k + row)) k in
  set_scr_end (u32 (scr_end k + row)) k.

Definition wrap_lines (from : Z) (m : memory) : memory :=
  let n := count (Z.shiftr ((lines - 1) * columns) 1) in
  stosw_up (count columns) (SCREEN_START + 4 * Z.of_nat n) 0x0720 (movsl_up n SCREEN_START from m).

Definition scrup_wrap (k : console) : console :=
  let k := on_vram (wrap_lines (origin k)) k in
  let k := set_scr_end (u32 (scr_end k - (origin k - SCREEN_START))) k in
  let k := set_pos (u32 (pos k - (origin k - SCREEN_START))) k in
  set_origin SCREEN_START k.

Definition blank_line (at_ : Z) (m : memory) : memory :=
  stosl_up (count (Z.shiftr columns 1)) at_ 0x07200720 m.

Definition scrup_next (k : console) : console := on_vram (blank_line (u32 (scr_end k - row))) k.

Definition scrup_origin (k : console) : console :=
  let k := scrup_advance k in
  set_origin_ports (if SCREEN_END <? scr_end k then scrup_wrap k else scrup_next k).

(** The scrolling region scrolls by copying. *)
Definition move_lines_up (n : nat) (d from : Z) (m : memory) : memory :=
  stosw_up (count columns) (d + 4 * Z.of_nat n) 0x0720 (movsl_up n d from m).

Definition scrup_region (k : console) : console :=
  on_vram (move_lines_up
    (count (Z.shiftr (u32 ((bottom k - top k - 1) * columns)) 1))
    (u32 (origin k + row * top k)) (u32 (origin k + row * (top k + 1)))) k.

Definition scrup (k : console) : console :=
  if (top k =? 0) && (bottom k =? lines) then scrup_origin k else scrup_region k.

Definition move_lines_down (n : nat) (d from : Z) (m : memory) : memory :=
  stosw_down (count columns) (d - 4 * Z.of_nat n + 2) 0x0720 (movsl_down n d from m).

Definition scrdown (k : console) : console :=
  on_vram (move_lines_down
    (count (Z.shiftr (u32 ((bottom k - top k - 1) * columns)) 1))
    (u32 (origin k + row * bottom k - 4)) (u32 (origin k + row * (bottom k - 1) - 4))) k.

Definition lf (k : console) : console :=
  if u32 (y k + 1) <? bottom k
  then set_pos (u32 (pos k + row)) (set_y (u32 (y k + 1)) k)
  else scrup k.

Definition ri (k : console) : console :=
  if top k <? y k
  then set_pos (u32 (pos k - row)) (set_y (u32 (y k - 1)) k)
  else scrdown k.

Definition cr (k : console) : console :=
  set_x 0 (set_pos (u32 (pos k - Z.shiftl (x k) 1)) k).

Definition del (k : console) : console :=
  if x k =? 0 then k
  else
    let k := set_x (u32 (x k - 1)) (set_pos (u32 (pos k - 2)) k) in
    on_vram (fun m => store16 m (pos k) 0x0720) k.

(** [rep stosw] of blanks. *)
Definition erase (n start : Z) (k : console) : console :=
  on_vram (stosw_up (count n) start 0x0720) k.

Definition csi_J (p : Z) (k : console) : console :=
  if p =? 0 then erase (Z.shiftr (u32 (scr_end k - pos k)) 1) (pos k) k
  else if p =? 1 then erase (Z.shiftr (u32 (pos k - origin k)) 1) (origin k) k
  else if p =? 2 then erase (columns * lines) (origin k) k
  else k.

Definition csi_K (p : Z) (k : console) : console :=
  if p =? 0 then
    if columns <=? x k then k else erase (columns - x k) (pos k) k
  else if p =? 1 then
    erase (if x k <? columns then x k else columns) (u32 (pos k - Z.shiftl (x k) 1)) k
  else if p =? 2 then erase columns (u32 (pos k - Z.shiftl (x k) 1)) k
  else k.

(** The [switch (par[i])] of [csi_m], and its loop. *)
Definition new_attr (p a : Z) : Z :=
  if p =? 0 then 0x07 else if p =? 1 then 0x0f else if p =? 4 then 0x0f
  else if p =? 7 then 0x70 else if p =? 27 then 0x07 else a.
Definition csi_m (k : console) : console :=
  set_attr (fold_left (fun a p => new_attr p a) (take (Z.to_nat (npar k + 1)) (par k)) (attr k)) k.

Definition set_cursor (k : console) : console :=
  let p := u32 (pos k - SCREEN_START) in
  outb_p (Z.land 0xff (Z.shiftr p 1)) 0x3d5
    (outb_p 15 0x3d4
      (outb_p (Z.land 0xff (Z.shiftr p 9)) 0x3d5
        (outb_p 14 0x3d4 k))).

(** [while (i++<columns)]: the cells from [p] on move right, [old] comes in. *)
Fixpoint insert_cells (n : nat) (p old : Z) (m : memory) : memory :=
  match n with
  | O => m
  | S n' => insert_cells n' (p + 2) (load16 m p) (store16 m p old)
  end.
Definition insert_char (k : console) : console :=
  on_vram (insert_cells (Z.to_nat (columns - x k)) (pos k) 0x0720) k.

(** [while (++i < columns)]: the cells after [p] move left. *)
Fixpoint delete_cells (n : nat) (p : Z) (m : memory) : memory :=
  match n with
  | O => store16 m p 0x0720
  | S n' => delete_cells n' (p + 2) (store16 m p (load16 m (p + 2)))
  end.
Definition delete_char (k : console) : console :=
  if columns <=? x k then k
  else on_vram (delete_cells (Z.to_nat (columns - x k - 1)) (pos k)) k.

Definition insert_line (k : console) : console :=
  let k' := scrdown (set_bottom lines (set_top (y k) k)) in
  set_bottom (bottom k) (set_top (top k) k').
Definition delete_line (k : console) : console :=
  let k' := scrup (set_bottom lines (set_top (y k) k)) in
  set_bottom (bottom k) (set_top (top k) k').

(** The repetition count of the [csi_] functions: [nr] compared as unsigned. *)
Definition csi_count (nr limit : Z) : Z :=
  if limit <? nr then limit else if nr =? 0 then 1 else nr.

Definition csi_at (nr : Z) (k : console) : console :=
  Nat.iter (Z.to_nat (csi_count nr columns)) insert_char k.
Definition csi_L (nr : Z) (k : console) : console :=
  Nat.iter (Z.to_nat (csi_count nr lines)) insert_line k.
Definition csi_P (nr : Z) (k : console) : console :=
  Nat.iter (Z.to_nat (csi_count nr columns)) delete_char k.
Definition csi_M (nr : Z) (k : console) : console :=
  Nat.iter (Z.to_nat (csi_count nr lines)) delete_line k.

Definition save_cur (k : console) : console := set_saved_y (y k) (set_saved_x (x k) k).
Definition restore_cur (k : console) : console :=
  let k := set_y (saved_y k) (set_x (saved_x k) k) in
  set_pos (u32 (origin k + Z.shiftl (u32 (y k * columns + x k)) 1)) k.

(** ** One character *)

Definition par_at (k : console) (i : nat) : Z := default 0 (par k !! i).
Definition put_par (i : nat) (v : Z) (k : console) : console := set_par (<[i := u32 v]> (par k)) k.

(** [if (par[i]) par[i]--] and [if (!par[i]) par[i]++]. *)
Definition par_dec (i : nat) (k : console) : console :=
  if par_at k i =? 0 then k else put_par i (par_at k i - 1) k.
Definition par_inc (i : nat) (k : console) : console :=
  if par_at k i =? 0 then put_par i (par_at k i + 1) k else k.

(** [state] 0: plain text; [erase_char] is the terminal's. *)
Definition con_text (erase_char c : Z) (k : console) : console :=
  if (31 <? c) && (c <? 127) then
    let k :=
      if columns <=? x k then
        lf (set_pos (u32 (pos k - row)) (set_x (u32 (x k - columns)) k))
      else k in
    let k := on_vram (fun m => store16 m (pos k) (Z.lor (Z.shiftl (attr k) 8) c)) k in
    set_x (u32 (x k + 1)) (set_pos (u32 (pos k + 2)) k)
  else if c =? 27 then set_cstate 1 k
  else if (c =? 10) || (c =? 11) || (c =? 12) then lf k
  else if c =? 13 then cr k
  else if c =? erase_char then del k
  else if c =? 8 then
    if x k =? 0 then k else set_pos (u32 (pos k - 2)) (set_x (u32 (x k - 1)) k)
  else if c =? 9 then
    let c := 8 - Z.land (x k) 7 in
    let k := set_pos (u32 (pos k + Z.shiftl c 1)) (set_x (u32 (x k + c)) k) in
    if columns <? x k then
      lf (set_pos (u32 (pos k - row)) (set_x (u32 (x k - columns)) k))
    else k
  else k.

(** [state] 1: after an escape.  The tests for 7 and 8 are of [x]. *)
Definition con_esc (c : Z) (k : console) : console * bool :=
  let k := set_cstate 0 k in
  if c =? 91 then (set_cstate 2 k, false)                     (* '[' *)
  else if c =? 69 then (gotoxy 0 (u32 (y k + 1)) k, false)     (* 'E' *)
  else if c =? 77 then (ri k, false)                           (* 'M' *)
  else if c =? 68 then (lf k, false)                           (* 'D' *)
  else if c =? 90 then (k, true)                               (* 'Z' *)
  else if x k =? 55 then (save_cur k, false)
  else if x k =? 56 then (restore_cur k, false)
  else (k, false).

(** The case of 'r': the scrolling region. *)
Definition set_margins (k : console) : console :=
  let k := par_dec 0 k in
  let k := if par_at k 1 =? 0 then put_par 1 lines k else k in
  if (par_at k 0 <? par_at k 1) && (par_at k 1 <=? lines)
  then set_bottom (par_at k 1) (set_top (par_at k 0) k) else k.

(** [state] 4: the final character of a control sequence. *)
Definition con_final (c : Z) (k : console) : console :=
  let k := set_cstate 0 k in
  if (c =? 71) || (c =? 96) then                                (* 'G' '`' *)
    let k := par_dec 0 k in gotoxy (par_at k 0) (y k) k
  else if c =? 65 then                                          (* 'A' *)
    let k := par_inc 0 k in gotoxy (x k) (u32 (y k - par_at k 0)) k
  else if (c =? 66) || (c =? 101) then                          (* 'B' 'e' *)
    let k := par_inc 0 k in gotoxy (x k) (u32 (y k + par_at k 0)) k
  else if (c =? 67) || (c =? 97) then                           (* 'C' 'a' *)
    let k := par_inc 0 k in gotoxy (u32 (x k + par_at k 0)) (y k) k
  else if c =? 68 then                                          (* 'D' *)
    let k := par_inc 0 k in gotoxy (u32 (x k - par_at k 0)) (y k) k
  else if c =? 69 then                                          (* 'E' *)
    let k := par_inc 0 k in gotoxy 0 (u32 (y k + par_at k 0)) k
  else if c =? 70 then                                          (* 'F' *)
    let k := par_inc 0 k in gotoxy 0 (u32 (y k - par_at k 0)) k
  else if c =? 100 then                                         (* 'd' *)
    let k := par_dec 0 k in gotoxy (x k) (par_at k 0) k
  else if (c =? 72) || (c =? 102) then                          (* 'H' 'f' *)
    let k := par_dec 1 (par_dec 0 k) in gotoxy (par_at k 1) (par_at k 0) k
  else if c =? 74 then csi_J (par_at k 0) k                     (* 'J' *)
  else if c =? 75 then csi_K (par_at k 0) k                     (* 'K' *)
  else if c =? 76 then csi_L (par_at k 0) k                     (* 'L' *)
  else if c =? 77 then csi_M (par_at k 0) k                     (* 'M' *)
  else if c =? 80 then csi_P (par_at k 0) k                     (* 'P' *)
  else if c =? 64 then csi_at (par_at k 0) k                    (* '@' *)
  else if c =? 109 then csi_m k                                 (* 'm' *)
  else if c =? 114 then set_margins k                           (* 'r' *)
  else if c =? 115 then save_cur k                              (* 's' *)
  else if c =? 117 then restore_cur k                           (* 'u' *)
  else k.

(** [state] 3: the parameters. *)
Definition con_params (c : Z) (k : console) : console :=
  if (c =? 59) && (npar k <? NPAR - 1) then set_npar (u32 (npar k + 1)) k
  else if (48 <=? c) && (c <=? 57) then
    put_par (Z.to_nat (npar k)) (10 * par_at k (Z.to_nat (npar k)) + c - 48) k
  else con_final c (set_cstate 4 k).

(** [state] 2: after ESC and a bracket. *)
Definition con_csi (c : Z) (k : console) : console :=
  let k := set_npar 0 (set_par (replicate (Z.to_nat NPAR) 0) k) in
  let k := set_cstate 3 k in
  let k := set_ques (b2z (c =? 63)) k in
  if c =? 63 then k else con_params c k.

(** One turn of the loop; true when [respond(tty)] is to be called. *)
Definition con_char (erase_char c : Z) (k : console) : console * bool :=
  if cstate k =? 0 then (con_text erase_char c k, false)
  else if cstate k =? 1 then con_esc c k
  else if cstate k =? 2 then (con_csi c k, false)
  else if cstate k =? 3 then (con_params c k, false)
  else if cstate k =? 4 then (con_final c k, false)
  else (k, false).

(** ** What the string instructions do to memory *)

Lemma load8_copied m d s i :
  0 <= d -> d + 4 <= 4294967296 -> 0 <= s -> s + 4 <= 4294967296 -> 0 <= i < 4 ->
  load8 (store32 m d (load32 m s)) (d + i) = load8 m (s + i).
Proof.
  intros Hd Hd' Hs Hs' Hi. rewrite load8_store32. unfold load32, load16.
  replace (s + 2 + 1) with (s + 3) by lia.
  pose proof (load8_range m s). pose proof (load8_range m (s + 1)).
  pose proof (load8_range m (s + 2)). pose proof (load8_range m (s + 3)).
  assert (i = 0 \/ i = 1 \/ i = 2 \/ i = 3) as [-> | [-> | [-> | ->]]] by lia;
    rewrite ?Z.add_0_r; decide_addr; wrap_lia.
Qed.

(** A copy to a lower address, upwards, moves the block as it was. *)
Lemma load8_movsl_up n d s m b :
  0 <= d <= s -> s + 4 * Z.of_nat n <= 4294967296 -> in_u32 b ->
  load8 (movsl_up n d s m) b =
    if decide (d <= b < d + 4 * Z.of_nat n) then load8 m (b - d + s) else load8 m b.
Proof.
  unfold in_u32. revert d s m; induction n as [| n IH]; intros d s m Hd Hs Hb; cbn [movsl_up].
  - by rewrite decide_False by lia.
  - rewrite IH by lia.
    destruct (decide (d + 4 <= b < d + 4 + 4 * Z.of_nat n)) as [H | H].
    + rewrite decide_True by lia. rewrite load8_store32_ne by (unfold disjoint; lia).
      f_equal. lia.
    + destruct (decide (d <= b < d + 4)) as [H' | H'].
      * rewrite decide_True by lia. replace b with (d + (b - d)) at 1 by lia.
        rewrite load8_copied by lia. f_equal. lia.
      * rewrite decide_False by lia. apply load8_store32_ne. unfold disjoint. lia.
Qed.

(** ... and to a higher address, downwards. *)
Lemma load8_movsl_down n d s m b :
  s <= d -> d + 4 <= 4294967296 -> 0 <= s + 4 - 4 * Z.of_nat n -> in_u32 b ->
  load8 (movsl_down n d s m) b =
    if decide (d + 4 - 4 * Z.of_nat n <= b < d + 4) then load8 m (b - d + s) else load8 m b.
Proof.
  unfold in_u32. revert d s m; induction n as [| n IH]; intros d s m Hd Hs Hn Hb;
    cbn [movsl_down].
  - by rewrite decide_False by lia.
  - rewrite IH by lia.
    destruct (decide (d - 4 + 4 - 4 * Z.of_nat n <= b < d - 4 + 4)) as [H | H].
    + rewrite decide_True by lia. rewrite load8_store32_ne by (unfold disjoint; lia).
      f_equal. lia.
    + destruct (decide (d <= b < d + 4)) as [H' | H'].
      * rewrite decide_True by lia. replace b with (d + (b - d)) at 1 by lia.
        rewrite load8_copied by lia. f_equal. lia.
      * rewrite decide_False by lia. apply load8_store32_ne. unfold disjoint. lia.
Qed.

Lemma load8_store16_ne m a b v : disjoint a 2 b 1 -> load8 (store16 m a v) b = load8 m b.
Proof. intros D. rewrite load8_store16. unfold disjoint in D. decide_addr. done. Qed.

Lemma load8_store16_at m a v b :
  0 <= a -> a + 2 <= 4294967296 -> a <= b < a + 2 ->
  load8 (store16 m a v) b = if decide (b = a) then u8 v else u8 (v / 256).
Proof.
  intros H0 H1 Hb. rewrite load8_store16.
  destruct (decide (b = a)) as [-> |]; decide_addr; done.
Qed.

Lemma load8_stosw_up n d v m b :
  0 <= d -> d + 2 * Z.of_nat n <= 4294967296 -> in_u32 b ->
  load8 (stosw_up n d v m) b =
    if decide (d <= b < d + 2 * Z.of_nat n)
    then (if Z.even (b - d) then u8 v else u8 (v / 256)) else load8 m b.
Proof.
  unfold in_u32. revert d m; induction n as [| n IH]; intros d m Hd Hn Hb; cbn [stosw_up].
  - by rewrite decide_False by lia.
  - rewrite IH by lia.
    destruct (decide (d + 2 <= b < d + 2 + 2 * Z.of_nat n)) as [H | H].
    + rewrite decide_True by lia. replace (b - d) with (b - (d + 2) + 2 * 1) by lia.
      by rewrite Z.even_add_mul_2.
    + destruct (decide (d <= b < d + 2)) as [H' | H'].
      * rewrite decide_True by lia. rewrite load8_store16_at by lia.
        destruct (decide (b = d)) as [-> | ?]; [by rewrite Z.sub_diag |].
        by replace (b - d) with 1 by lia.
      * rewrite decide_False by lia. apply load8_store16_ne. unfold disjoint. lia.
Qed.

Lemma load8_stosw_down n d v m b :
  d + 2 <= 4294967296 -> 0 <= d + 2 - 2 * Z.of_nat n -> in_u32 b ->
  load8 (stosw_down n d v m) b =
    if decide (d + 2 - 2 * Z.of_nat n <= b < d + 2)
    then (if Z.even (b - d) then u8 v else u8 (v / 256)) else load8 m b.
Proof.
  unfold in_u32. revert d m; induction n as [| n IH]; intros d m Hd Hn Hb; cbn [stosw_down].
  - by rewrite decide_False by lia.
  - rewrite IH by lia.
    destruct (decide (d - 2 + 2 - 2 * Z.of_nat n <= b < d - 2 + 2)) as [H | H].
    + rewrite decide_True by lia. replace (b - (d - 2)) with (b - d + 2 * 1) by lia.
      by rewrite Z.even_add_mul_2.
    + destruct (decide (d <= b < d + 2)) as [H' | H'].
      * rewrite decide_True by lia. rewrite load8_store16_at by lia.
        destruct (decide (b = d)) as [-> | ?]; [by rewrite Z.sub_diag |].
        by replace (b - d) with 1 by lia.
      * rewrite decide_False by lia. apply load8_store16_ne. unfold disjoint. lia.
Qed.

(** Blanks stored by double words are blanks stored by words. *)
Lemma stosl_up_blank n d m : stosl_up n d 0x07200720 m = stosw_up (2 * n) d 0x0720 m.
Proof.
  revert d m; induction n as [| n IH]; intros d m; [done |].
  replace (2 * S n)%nat with (S (S (2 * n))) by lia. cbn [stosl_up stosw_up].
  rewrite IH. replace (d + 2 + 2) with (d + 4) by lia. f_equal.
Qed.

(** ** Cells *)

(** Character and attribute of a cell, given its bytes. *)
Lemma load16_bytes m a m' a' :
  load8 m a = load8 m' a' -> load8 m (a + 1) = load8 m' (a' + 1) -> load16 m a = load16 m' a'.
Proof. unfold load16. congruence. Qed.

Lemma load16_blank m a :
  load8 m a = 0x20 -> load8 m (a + 1) = 0x07 -> load16 m a = 0x0720.
Proof. unfold load16. by intros -> ->. Qed.

(** ** The invariant *)

Definition VRAM_SIZE : Z := SCREEN_END - SCREEN_START.

Record con_wf (k : console) : Prop := {
  wf_origin : SCREEN_START <= origin k <= SCREEN_END - 4000;
  wf_end : scr_end k = origin k + 4000;
  wf_pos : pos k = origin k + 2 * (80 * y k + x k);
  wf_x : 0 <= x k <= 80;
  wf_y : 0 <= y k < 25;
  wf_region : 0 <= top k < bottom k /\ bottom k <= 25;
  wf_npar : 0 <= npar k < 16;
  wf_par : length (par k) = 16%nat /\ Forall in_u32 (par k);
  wf_saved : 0 <= saved_x k <= 80 /\ 0 <= saved_y k < 25
}.

(** [k'] is a good state and differs from [k] only inside video memory. *)
Definition con_ok (k k' : console) : Prop :=
  con_wf k' /\ only_changed (vram k) (vram k') SCREEN_START VRAM_SIZE.

Lemma con_ok_refl k : con_wf k -> con_ok k k.
Proof. intros H. split; [done | apply only_changed_refl]. Qed.

Lemma con_ok_trans k1 k2 k3 : con_ok k1 k2 -> con_ok k2 k3 -> con_ok k1 k3.
Proof. intros [_ H1] [H2 H3]. split; [done | by eapply only_changed_trans]. Qed.

Lemma shiftl_1 a : Z.shiftl a 1 = 2 * a.
Proof. rewrite Z.shiftl_mul_pow2 by lia. lia. Qed.

Ltac con_unfold := unfold VRAM_SIZE, SCREEN_START, SCREEN_END, lines, columns, LINES, COLUMNS, NPAR in *;
  change row with 160 in *; rewrite ?shiftl_1 in *.
(** Drop the wraps of in-range values. *)
Ltac u32_in_range :=
  repeat match goal with
  | |- context [u32 ?x] =>
      lazymatch x with context [u32 _] => fail | _ => rewrite (u32_small x) by (unfold in_u32; lia) end
  end.
Ltac con_start H := destruct H as [? ? ? ? ? [? ?] ? ? [? ?]]; con_unfold.
(** The state changed, memory did not. *)
Ltac con_state := split; [constructor; cbn; u32_in_range; lia || done | apply only_changed_refl].

(** Memory changed inside the screen, the state did not. *)
Lemma on_vram_ok f k :
  con_wf k -> (forall b, in_u32 b -> ~ (origin k <= b < origin k + 4000) ->
                 load8 (f (vram k)) b = load8 (vram k) b) ->
  con_ok k (on_vram f k).
Proof.
  intros H Hf. split; [by destruct H |]. intros b Hb Hout. apply Hf; [done |].
  con_start H. lia.
Qed.

Lemma wf_set_ports p k : con_wf k -> con_wf (set_ports p k).
Proof. by intros []. Qed.

Lemma gotoxy_ok new_x new_y k :
  con_wf k -> 0 <= new_x -> 0 <= new_y -> con_ok k (gotoxy new_x new_y k).
Proof.
  intros H Hx Hy. unfold gotoxy. con_unfold.
  destruct (Z.leb_spec 80 new_x), (Z.leb_spec 25 new_y); cbn [orb]; try by apply con_ok_refl.
  con_start H. con_state.
Qed.

Lemma count_small n : 0 <= n < 4294967296 -> Z.of_nat (count n) = n.
Proof. intros H. unfold count. rewrite u32_small by done. lia. Qed.

Lemma scr_origin_bound k :
  con_wf k -> 0 <= origin k /\ origin k + 4000 <= 4294967296.
Proof. intros H. con_start H. lia. Qed.

(** *** Erasing *)

Lemma erase_ok n start k :
  con_wf k -> 0 <= n <= 2000 -> origin k <= start -> start + 2 * n <= origin k + 4000 ->
  con_ok k (erase n start k).
Proof.
  intros H Hn Hs He. apply on_vram_ok; [done |]. intros b Hb Hout.
  pose proof (scr_origin_bound k H).
  rewrite load8_stosw_up by (rewrite ?count_small; (done || lia)).
  rewrite count_small by lia. by rewrite decide_False by lia.
Qed.

Lemma csi_J_ok p k : con_wf k -> con_ok k (csi_J p k).
Proof.
  intros H. pose proof H as W. unfold csi_J. con_start H.
  destruct (p =? 0); [| destruct (p =? 1); [| destruct (p =? 2); [| by apply con_ok_refl]]].
  - rewrite u32_small by (unfold in_u32; lia). rewrite Z.shiftr_div_pow2 by lia.
    change (2 ^ 1) with 2. apply erase_ok; [done | | lia |]; Z.div_mod_to_equations; lia.
  - rewrite u32_small by (unfold in_u32; lia). rewrite Z.shiftr_div_pow2 by lia.
    change (2 ^ 1) with 2. apply erase_ok; [done | | lia |]; Z.div_mod_to_equations; lia.
  - apply erase_ok; [done | lia..].
Qed.

Lemma csi_K_ok p k : con_wf k -> con_ok k (csi_K p k).
Proof.
  intros H. pose proof H as W. unfold csi_K. con_start H.
  destruct (p =? 0); [| destruct (p =? 1); [| destruct (p =? 2); [| by apply con_ok_refl]]].
  - destruct (Z.leb_spec 80 (x k)); [by apply con_ok_refl |]. apply erase_ok; [done | lia..].
  - u32_in_range. destruct (Z.ltb_spec (x k) 80); apply erase_ok; (done || lia).
  - u32_in_range. apply erase_ok; (done || lia).
Qed.

(** *** Characters *)

Lemma load8_insert_cells n p old m b :
  0 <= p -> p + 2 * Z.of_nat n <= 4294967296 -> in_u32 b -> ~ (p <= b < p + 2 * Z.of_nat n) ->
  load8 (insert_cells n p old m) b = load8 m b.
Proof.
  unfold in_u32. revert p old m; induction n as [| n IH]; intros p old m Hp Hn Hb Hout;
    cbn [insert_cells]; [done |].
  rewrite IH by lia. apply load8_store16_ne. unfold disjoint. lia.
Qed.

Lemma load8_delete_cells n p m b :
  0 <= p -> p + 2 * Z.of_nat n + 2 <= 4294967296 -> in_u32 b ->
  ~ (p <= b < p + 2 * Z.of_nat n + 2) -> load8 (delete_cells n p m) b = load8 m b.
Proof.
  unfold in_u32. revert p m; induction n as [| n IH]; intros p m Hp Hn Hb Hout;
    cbn [delete_cells].
  - apply load8_store16_ne. unfold disjoint. lia.
  - rewrite IH by lia. apply load8_store16_ne. unfold disjoint. lia.
Qed.

Lemma insert_char_ok k : con_wf k -> con_ok k (insert_char k).
Proof.
  intros H. apply on_vram_ok; [done |]. intros b Hb Hout. con_start H.
  apply load8_insert_cells; (done || lia).
Qed.

Lemma delete_char_ok k : con_wf k -> con_ok k (delete_char k).
Proof.
  intros H. unfold delete_char. destruct (Z.leb_spec columns (x k)); [by apply con_ok_refl |].
  apply on_vram_ok; [done |]. intros b Hb Hout. con_start H.
  apply load8_delete_cells; (done || lia).
Qed.

Lemma store16_ok a v k :
  con_wf k -> origin k <= a -> a + 2 <= origin k + 4000 ->
  con_ok k (on_vram (fun m => store16 m a v) k).
Proof.
  intros H Ha Hb. apply on_vram_ok; [done |]. intros b Hb' Hout. con_start H.
  unfold in_u32 in *. apply load8_store16_ne. unfold disjoint. lia.
Qed.

Lemma cr_ok k : con_wf k -> con_ok k (cr k).
Proof. intros H. unfold cr. con_start H. con_state. Qed.

Lemma del_ok k : con_wf k -> con_ok k (del k).
Proof.
  intros H. unfold del. destruct (Z.eqb_spec (x k) 0); [by apply con_ok_refl |].
  set (k1 := set_x _ _). assert (H1 : con_ok k k1).
  { unfold k1. pose proof H as W. con_start H. con_state. }
  eapply con_ok_trans; [exact H1 |]. destruct H1 as [H1 _].
  assert (Hp : pos k1 = pos k - 2) by (unfold k1; cbn; con_start H; apply u32_small; unfold in_u32; lia).
  assert (Ho : origin k1 = origin k) by done.
  apply (store16_ok (pos k1)); [done | |]; con_start H; lia.
Qed.

(** *** Scrolling *)

Definition screen_byte (k : console) (t : Z) : Z := load8 (vram k) (origin k + t).
Definition blank_byte (t : Z) : Z := if Z.even t then 0x20 else 0x07.

(** [k'] shows [k] with the lines from [top] to [bottom] moved up by one. *)
Definition scrolled_up (k k' : console) : Prop :=
  forall t, 0 <= t < 4000 ->
    screen_byte k' t =
      if decide (160 * top k <= t < 160 * (bottom k - 1)) then screen_byte k (t + 160)
      else if decide (160 * (bottom k - 1) <= t < 160 * bottom k) then blank_byte t
      else screen_byte k t.
Definition scrolled_down (k k' : console) : Prop :=
  forall t, 0 <= t < 4000 ->
    screen_byte k' t =
      if decide (160 * (top k + 1) <= t < 160 * bottom k) then screen_byte k (t - 160)
      else if decide (160 * top k <= t < 160 * (top k + 1)) then blank_byte t
      else screen_byte k t.

Lemma blank_byte_even a t :
  Z.even a = true -> (if Z.even (a + t) then u8 0x0720 else u8 (0x0720 / 256)) = blank_byte t.
Proof.
  intros H. rewrite Z.even_add, H. unfold blank_byte. by destruct (Z.even t).
Qed.

Lemma blank_byte_shift a t : blank_byte (2 * a + t) = blank_byte t.
Proof. unfold blank_byte. rewrite Z.even_add, Z.even_mul. by destruct (Z.even t). Qed.

Lemma copy_rows_up k0 (d n : Z) (m : memory) (b : Z) :
  0 <= d -> 0 <= n -> d + 4 * n + 320 <= 4294967296 -> in_u32 b -> k0 = d + 160 ->
  load8 (move_lines_up (count n) d k0 m) b =
    if decide (d <= b < d + 4 * n) then load8 m (b + 160)
    else if decide (d + 4 * n <= b < d + 4 * n + 160) then blank_byte (b - d)
    else load8 m b.
Proof.
  intros Hd Hn Hb Hb32 ->. unfold move_lines_up. con_unfold.
  rewrite !count_small by lia.
  rewrite load8_stosw_up by (rewrite ?count_small; (done || lia)).
  rewrite !count_small by lia. change (2 * 80) with 160.
  rewrite load8_movsl_up by (rewrite ?count_small; (done || lia)). rewrite count_small by lia.
  destruct (decide (d + 4 * n <= b < d + 4 * n + 160)) as [H1 | H1].
  - rewrite decide_False by lia. replace (b - (d + 4 * n)) with (2 * (-2 * n) + (b - d)) by lia.
    apply blank_byte_even. by rewrite Z.even_mul.
  - destruct (decide (d <= b < d + 4 * n)); [f_equal; lia | done].
Qed.

Lemma scrup_region_spec k :
  con_wf k -> con_ok k (scrup_region k) /\ scrolled_up k (scrup_region k).
Proof.
  intros H.
  assert (Hn : Z.shiftr (u32 ((bottom k - top k - 1) * columns)) 1 = 40 * (bottom k - top k - 1)).
  { con_start H. u32_in_range. rewrite Z.shiftr_div_pow2 by lia. change (2 ^ 1) with 2.
    Z.div_mod_to_equations. lia. }
  assert (Hm : forall b, in_u32 b -> load8 (vram (scrup_region k)) b =
    if decide (origin k + 160 * top k <= b < origin k + 160 * (bottom k - 1))
    then load8 (vram k) (b + 160)
    else if decide (origin k + 160 * (bottom k - 1) <= b < origin k + 160 * bottom k)
    then blank_byte (b - (origin k + 160 * top k)) else load8 (vram k) b).
  { intros b Hb. unfold scrup_region, on_vram. cbn [vram set_vram]. rewrite Hn.
    change row with 160. con_start H. u32_in_range.
    rewrite copy_rows_up by (done || lia). repeat case_decide; done || lia. }
  split.
  - apply on_vram_ok; [done |]. intros b Hb Hout. etransitivity; [exact (Hm b Hb) |].
    con_start H. by rewrite !decide_False by lia.
  - intros t Ht. unfold screen_byte. change (origin (scrup_region k)) with (origin k).
    rewrite Hm by (con_start H; unfold in_u32; lia).
    replace (blank_byte (origin k + t - (origin k + 160 * top k))) with (blank_byte t).
    2: { replace (origin k + t - (origin k + 160 * top k)) with (2 * (-80 * top k) + t) by lia.
         by rewrite blank_byte_shift. }
    replace (origin k + t + 160) with (origin k + (t + 160)) by lia.
    repeat case_decide; done || lia.
Qed.

(** The screen copied back to the start of video memory, one line up. *)
Lemma load8_wrapped o m b :
  SCREEN_START <= o <= SCREEN_END - 4000 -> in_u32 b ->
  load8 (wrap_lines (o + 160) m) b =
    if decide (SCREEN_START <= b < SCREEN_START + 3840) then load8 m (b - SCREEN_START + (o + 160))
    else if decide (SCREEN_START + 3840 <= b < SCREEN_START + 4000)
    then blank_byte (b - SCREEN_START) else load8 m b.
Proof.
  intros Ho Hb. unfold wrap_lines. con_unfold. change (Z.shiftr ((25 - 1) * 80) 1) with 960.
  rewrite !count_small by lia.
  rewrite load8_stosw_up by (rewrite ?count_small by lia; (done || lia)).
  rewrite !count_small by lia.
  rewrite load8_movsl_up by (rewrite ?count_small by lia; (done || lia)).
  rewrite !count_small by lia.
  destruct (decide (753664 + 4 * 960 <= b < 753664 + 4 * 960 + 2 * 80)) as [D | D].
  - rewrite decide_False, decide_True by lia.
    replace (b - (753664 + 4 * 960)) with (- 3840 + (b - 753664)) by lia.
    by apply blank_byte_even.
  - destruct (decide (753664 <= b < 753664 + 4 * 960)) as [D' | D'].
    + by rewrite decide_True by lia.
    + by rewrite !decide_False by lia.
Qed.

(** One more blank line after the screen. *)
Lemma load8_next_line e m b :
  0 <= e -> e + 160 <= 4294967296 -> in_u32 b ->
  load8 (blank_line e m) b =
    if decide (e <= b < e + 160) then blank_byte (b - e) else load8 m b.
Proof.
  intros H0 H1 Hb. unfold blank_line. rewrite stosl_up_blank.
  replace (2 * count (Z.shiftr columns 1))%nat with (count 80) by done.
  rewrite load8_stosw_up by (rewrite ?count_small by lia; (done || lia)).
  rewrite count_small by lia. change (2 * 80) with 160.
  destruct (decide (e <= b < e + 160)); [| done]. by apply (blank_byte_even 0).
Qed.

(** Only the place and the contents of the screen change. *)
Record moved (k k' : console) : Prop := {
  mv_x : x k' = x k; mv_y : y k' = y k; mv_top : top k' = top k; mv_bottom : bottom k' = bottom k;
  mv_state : cstate k' = cstate k; mv_npar : npar k' = npar k; mv_par : par k' = par k;
  mv_attr : attr k' = attr k; mv_sx : saved_x k' = saved_x k; mv_sy : saved_y k' = saved_y k
}.

Lemma moved_wf k k' :
  con_wf k -> moved k k' -> SCREEN_START <= origin k' <= SCREEN_END - 4000 ->
  scr_end k' = origin k' + 4000 -> pos k' - origin k' = pos k - origin k -> con_wf k'.
Proof.
  intros [? ? ? ? ? ? ? ? ?] [] ? ? ?. constructor; repeat match goal with
  | H : ?f k' = _ |- context [?f k'] => rewrite H end; done || lia.
Qed.

Lemma scrup_origin_wrap k :
  con_wf k -> SCREEN_END < scr_end k + 160 ->
  let k' := scrup_origin k in
  moved k k' /\ origin k' = SCREEN_START /\ scr_end k' = SCREEN_START + 4000 /\
  pos k' = SCREEN_START + (pos k - origin k) /\ vram k' = wrap_lines (origin k + 160) (vram k).
Proof.
  intros H L. unfold scrup_origin.
  assert (Ho : origin (scrup_advance k) = origin k + 160)
    by (cbn; con_start H; apply u32_small; unfold in_u32; lia).
  assert (Hp : pos (scrup_advance k) = pos k + 160)
    by (cbn; con_start H; apply u32_small; unfold in_u32; lia).
  assert (He : scr_end (scrup_advance k) = scr_end k + 160)
    by (cbn; con_start H; apply u32_small; unfold in_u32; lia).
  rewrite He, (proj2 (Z.ltb_lt _ _) L). split; [by constructor |]. split; [done |].
  split; [| split].
  - change (scr_end _) with (u32 (scr_end (scrup_advance k) - (origin (scrup_advance k) - SCREEN_START))).
    rewrite He, Ho. con_start H. u32_in_range. lia.
  - change (pos _) with (u32 (pos (scrup_advance k) - (origin (scrup_advance k) - SCREEN_START))) at 1.
    rewrite Hp, Ho. con_start H. u32_in_range. lia.
  - change (vram _) with (wrap_lines (origin (scrup_advance k)) (vram k)) at 1. by rewrite Ho.
Qed.

Lemma scrup_origin_next k :
  con_wf k -> scr_end k + 160 <= SCREEN_END ->
  let k' := scrup_origin k in
  moved k k' /\ origin k' = origin k + 160 /\ scr_end k' = origin k + 4160 /\
  pos k' = pos k + 160 /\ vram k' = blank_line (scr_end k) (vram k).
Proof.
  intros H L. unfold scrup_origin.
  assert (Ho : origin (scrup_advance k) = origin k + 160)
    by (cbn; con_start H; apply u32_small; unfold in_u32; lia).
  assert (Hp : pos (scrup_advance k) = pos k + 160)
    by (cbn; con_start H; apply u32_small; unfold in_u32; lia).
  assert (He : scr_end (scrup_advance k) = scr_end k + 160)
    by (cbn; con_start H; apply u32_small; unfold in_u32; lia).
  rewrite He, (proj2 (Z.ltb_ge _ _) L). split; [by constructor |]. split; [exact Ho |].
  split; [| split; [exact Hp |]].
  - etransitivity; [exact He |]. con_start H. lia.
  - change (vram _) with (blank_line (u32 (scr_end (scrup_advance k) - row)) (vram k)) at 1.
    rewrite He. con_start H. u32_in_range. f_equal. lia.
Qed.

Lemma scrup_origin_spec k :
  con_wf k -> top k = 0 -> bottom k = lines ->
  con_ok k (scrup_origin k) /\ scrolled_up k (scrup_origin k) /\ moved k (scrup_origin k).
Proof.
  intros H Ht Hb. destruct (Z.lt_ge_cases SCREEN_END (scr_end k + 160)) as [L | L].
  - destruct (scrup_origin_wrap k H L) as (Hm & Ho & He & Hp & Hv).
    split; [split | split; [| done]].
    + apply (moved_wf k); [done | done | rewrite Ho; con_unfold; lia | clear Hv; lia..].
    + intros b Hb' Hout. rewrite Hv. clear Hv. rewrite load8_wrapped by (apply H || done).
      con_unfold. by rewrite !decide_False by lia.
    + intros t Htt. unfold screen_byte. rewrite Ht, Hb, Ho, Hv. clear Hv.
      rewrite load8_wrapped by (apply H || (con_unfold; unfold in_u32; lia)).
      con_unfold. replace (753664 + t - 753664) with t by lia.
      replace (t + (origin k + 160)) with (origin k + (t + 160)) by lia.
      repeat case_decide; done || lia.
  - destruct (scrup_origin_next k H L) as (Hm & Ho & He & Hp & Hv).
    split; [split | split; [| done]].
    + apply (moved_wf k); [done | done | rewrite Ho; con_start H; clear Hv; lia | clear Hv; lia..].
    + intros b Hb' Hout. rewrite Hv. clear Hv. con_start H.
      rewrite load8_next_line by (lia || done). by rewrite decide_False by lia.
    + intros t Htt. unfold screen_byte. rewrite Ht, Hb, Ho, Hv. clear Hv. con_start H.
      rewrite load8_next_line by (lia || (unfold in_u32; lia)).
      replace (blank_byte (origin k + 160 + t - scr_end k)) with (blank_byte t).
      2: { replace (origin k + 160 + t - scr_end k) with (2 * -1920 + t) by lia.
           by rewrite blank_byte_shift. }
      replace (origin k + (t + 160)) with (origin k + 160 + t) by lia.
      repeat case_decide; done || lia.
Qed.

Lemma copy_rows_down (o bot r : Z) (m : memory) (b : Z) :
  0 <= o -> 0 <= r <= bot - 1 -> o + 160 * bot <= 4294967296 -> in_u32 b ->
  load8 (move_lines_down (count (40 * r)) (o + 160 * bot - 4) (o + 160 * (bot - 1) - 4) m) b =
    if decide (o + 160 * (bot - r) <= b < o + 160 * bot) then load8 m (b - 160)
    else if decide (o + 160 * (bot - r - 1) <= b < o + 160 * (bot - r))
    then blank_byte (b - o) else load8 m b.
Proof.
  intros Ho Hr Hend Hb. unfold move_lines_down. con_unfold.
  rewrite !count_small by lia.
  rewrite load8_stosw_down by (rewrite ?count_small by lia; (done || lia)).
  rewrite count_small by lia. change (2 * 80) with 160.
  rewrite load8_movsl_down by (rewrite ?count_small by lia; (done || lia)).
  rewrite count_small by lia.
  destruct (decide (o + 160 * (bot - r - 1) <= b < o + 160 * (bot - r))) as [D | D].
  - rewrite decide_True by lia. rewrite decide_False by lia.
    replace (b - (o + 160 * bot - 4 - 4 * (40 * r) + 2))
      with (2 * (80 * r - 80 * bot + 1) + (b - o)) by lia.
    apply blank_byte_even. by rewrite Z.even_mul.
  - rewrite decide_False by lia.
    destruct (decide (o + 160 * (bot - r) <= b < o + 160 * bot)).
    + rewrite decide_True by lia. f_equal. lia.
    + by rewrite decide_False by lia.
Qed.

Lemma scrdown_spec k :
  con_wf k -> con_ok k (scrdown k) /\ scrolled_down k (scrdown k) /\ moved k (scrdown k).
Proof.
  intros H.
  assert (Hn : Z.shiftr (u32 ((bottom k - top k - 1) * columns)) 1 = 40 * (bottom k - top k - 1)).
  { con_start H. u32_in_range. rewrite Z.shiftr_div_pow2 by lia. change (2 ^ 1) with 2.
    Z.div_mod_to_equations. lia. }
  assert (Hm : forall b, in_u32 b -> load8 (vram (scrdown k)) b =
    if decide (origin k + 160 * (top k + 1) <= b < origin k + 160 * bottom k)
    then load8 (vram k) (b - 160)
    else if decide (origin k + 160 * top k <= b < origin k + 160 * (top k + 1))
    then blank_byte (b - origin k) else load8 (vram k) b).
  { intros b Hb. unfold scrdown, on_vram. cbn [vram set_vram]. rewrite Hn.
    change row with 160. con_start H. u32_in_range.
    rewrite copy_rows_down by (done || lia).
    repeat case_decide; done || lia. }
  split; [| split; [| by constructor]].
  - apply on_vram_ok; [done |]. intros b Hb Hout. etransitivity; [exact (Hm b Hb) |].
    con_start H. by rewrite !decide_False by lia.
  - intros t Ht. unfold screen_byte. change (origin (scrdown k)) with (origin k).
    rewrite Hm by (con_start H; unfold in_u32; lia).
    replace (origin k + t - origin k) with t by lia.
    replace (origin k + t - 160) with (origin k + (t - 160)) by lia.
    repeat case_decide; done || lia.
Qed.

Lemma scrup_spec k :
  con_wf k -> con_ok k (scrup k) /\ scrolled_up k (scrup k) /\ moved k (scrup k).
Proof.
  intros H. unfold scrup. destruct (Z.eqb_spec (top k) 0), (Z.eqb_spec (bottom k) lines);
    cbn [andb]; [by apply scrup_origin_spec | ..];
    (split; [| split; [| by constructor]]; by apply scrup_region_spec).
Qed.

(** *** The cursor *)

Lemma lf_ok k : con_wf k -> con_ok k (lf k).
Proof.
  intros H. unfold lf. pose proof H as W. con_start W.
  rewrite u32_small by (unfold in_u32; lia).
  destruct (Z.ltb_spec (y k + 1) (bottom k)); [con_state | by apply scrup_spec].
Qed.

Lemma ri_ok k : con_wf k -> con_ok k (ri k).
Proof.
  intros H. unfold ri. pose proof H as W. con_start W.
  destruct (Z.ltb_spec (top k) (y k)); [con_state | by apply scrdown_spec].
Qed.

(** The region of the line operations, and back. *)
Lemma line_region_wf k : con_wf k -> con_wf (set_bottom lines (set_top (y k) k)).
Proof. intros H. con_start H. constructor; cbn; con_unfold; done || lia. Qed.

Lemma restore_region k k1 :
  con_wf k -> con_ok (set_bottom lines (set_top (y k) k)) k1 ->
  con_ok k (set_bottom (bottom k) (set_top (top k) k1)).
Proof.
  intros H [H1 H2]. split; [| exact H2]. con_start H. con_start H1.
  constructor; cbn; con_unfold; done || lia.
Qed.

Lemma insert_line_ok k : con_wf k -> con_ok k (insert_line k).
Proof. intros H. apply restore_region; [done |]. by apply scrdown_spec, line_region_wf. Qed.

Lemma delete_line_ok k : con_wf k -> con_ok k (delete_line k).
Proof. intros H. apply restore_region; [done |]. by apply scrup_spec, line_region_wf. Qed.

Lemma iter_ok n f k :
  (forall k, con_wf k -> con_ok k (f k)) -> con_wf k -> con_ok k (Nat.iter n f k).
Proof.
  intros Hf H. induction n as [| n IH]; [by apply con_ok_refl |].
  eapply con_ok_trans; [exact IH |]. apply Hf, IH.
Qed.

Lemma csi_m_ok k : con_wf k -> con_ok k (csi_m k).
Proof. intros H. con_start H. con_state. Qed.
Lemma save_cur_ok k : con_wf k -> con_ok k (save_cur k).
Proof. intros H. con_start H. con_state. Qed.
Lemma restore_cur_ok k : con_wf k -> con_ok k (restore_cur k).
Proof. intros H. unfold restore_cur. con_start H. con_state. Qed.
Lemma set_cstate_ok v k : con_wf k -> con_ok k (set_cstate v k).
Proof. intros H. con_start H. con_state. Qed.

Create HintDb console.
#[export] Hint Resolve con_ok_refl gotoxy_ok csi_J_ok csi_K_ok insert_char_ok delete_char_ok
  cr_ok del_ok lf_ok ri_ok insert_line_ok delete_line_ok iter_ok csi_m_ok save_cur_ok
  restore_cur_ok set_cstate_ok : console.

(** *** Parameters *)

Lemma put_par_ok i v k : con_wf k -> con_ok k (put_par i v k).
Proof.
  intros H. con_start H. destruct wf_par0 as [Hl Hf].
  split; [| apply only_changed_refl].
  constructor; cbn; con_unfold; try (done || lia). split; [by rewrite length_insert |].
  apply Forall_insert; [done | apply u32_range].
Qed.

Lemma par_at_range k i : con_wf k -> in_u32 (par_at k i).
Proof.
  intros [_ _ _ _ _ _ _ [_ Hf] _]. unfold par_at. destruct (par k !! i) as [v |] eqn:E; cbn.
  - exact (Forall_lookup_1 _ _ _ _ Hf E).
  - unfold in_u32. lia.
Qed.

Lemma par_dec_ok i k : con_wf k -> con_ok k (par_dec i k).
Proof. intros H. unfold par_dec. case_match; auto using put_par_ok with console. Qed.
Lemma par_inc_ok i k : con_wf k -> con_ok k (par_inc i k).
Proof. intros H. unfold par_inc. case_match; auto using put_par_ok with console. Qed.

#[export] Hint Resolve put_par_ok par_dec_ok par_inc_ok : console.

Lemma con_ok_then k k1 k2 : con_ok k k1 -> (con_wf k1 -> con_ok k1 k2) -> con_ok k k2.
Proof. intros H H2. eapply con_ok_trans; [exact H | apply H2, H]. Qed.

(** ** One character *)

Lemma print_ok v k :
  con_wf k -> x k < 80 ->
  con_ok k (let k := on_vram (fun m => store16 m (pos k) v) k in
            set_x (u32 (x k + 1)) (set_pos (u32 (pos k + 2)) k)).
Proof.
  intros H Hx. cbv zeta. set (k1 := on_vram _ k).
  assert (H1 : con_ok k k1) by (apply store16_ok; [done | con_start H; lia..]).
  apply (con_ok_then k k1); [done |]. clear H1. intros H1.
  assert (x k1 < 80) by done. clearbody k1. clear H Hx. con_start H1. con_state.
Qed.

Lemma wrap_ok k :
  con_wf k -> x k = 80 ->
  con_ok k (lf (set_pos (u32 (pos k - row)) (set_x (u32 (x k - columns)) k))).
Proof.
  intros H Hx. set (k1 := set_pos _ _).
  apply (con_ok_then k k1); [unfold k1; con_start H; con_state |]. intros H1. by apply lf_ok.
Qed.

Lemma lf_x k : con_wf k -> x (lf k) = x k.
Proof. intros H. unfold lf. case_match; [done |]. by apply scrup_spec. Qed.

Lemma tab_ok k :
  con_wf k ->
  con_ok k
    (let c := 8 - Z.land (x k) 7 in
     let k := set_pos (u32 (pos k + Z.shiftl c 1)) (set_x (u32 (x k + c)) k) in
     if columns <? x k then
       lf (set_pos (u32 (pos k - row)) (set_x (u32 (x k - columns)) k))
     else k).
Proof.
  intros H. cbv zeta. replace (Z.land (x k) 7) with (x k mod 8)
    by (change 7 with (Z.ones 3); by rewrite Z.land_ones by lia).
  set (c := 8 - x k mod 8). assert (Hc : 1 <= c <= 8) by (unfold c; Z.div_mod_to_equations; lia).
  clearbody c.
  replace (x (set_pos _ _)) with (u32 (x k + c)) by done.
  destruct (Z.ltb_spec columns (u32 (x k + c))) as [L | L].
  - match goal with |- con_ok k (lf ?k1) => apply (con_ok_then k k1); [| by intros; apply lf_ok] end.
    con_start H. rewrite u32_small in L by (unfold in_u32; lia).
    cbn [x pos set_x set_pos]. u32_in_range. con_state.
  - con_start H. rewrite u32_small in L by (unfold in_u32; lia). con_state.
Qed.

Lemma con_text_ok erase_char c k : con_wf k -> con_ok k (con_text erase_char c k).
Proof.
  intros H. unfold con_text. destruct (_ && _).
  - set (k1 := if columns <=? x k then _ else k).
    assert (Hk1 : con_ok k k1 /\ x k1 < 80).
    { unfold k1. destruct (Z.leb_spec columns (x k)) as [L | L].
      - assert (x k = 80) by (con_start H; lia). split; [by apply wrap_ok |].
        match goal with |- x (lf ?k2) < 80 => assert (Hw : con_wf k2); [| rewrite lf_x by done] end.
        + con_start H. constructor; cbn; u32_in_range; done || lia.
        + cbn. con_start H. u32_in_range. lia.
      - split; [by apply con_ok_refl | done]. }
    destruct Hk1 as [H1 H2]. apply (con_ok_then k k1); [done |]. intros H3. by apply print_ok.
  - destruct (c =? 27); [auto with console |].
    destruct (_ || _); [auto with console |].
    destruct (c =? 13); [auto with console |].
    destruct (c =? erase_char); [auto with console |].
    destruct (c =? 8).
    + destruct (Z.eqb_spec (x k) 0); [auto with console |]. con_start H. con_state.
    + destruct (c =? 9); [by apply tab_ok | auto with console].
Qed.

Lemma con_esc_ok c k : con_wf k -> con_ok k (con_esc c k).1.
Proof.
  intros H. unfold con_esc. apply (con_ok_then k (set_cstate 0 k)); [auto with console |].
  intros H1. repeat (case_match; cbn [fst]; auto with console).
  apply gotoxy_ok; [done | lia | apply u32_range].
Qed.

Lemma set_margins_ok k : con_wf k -> con_ok k (set_margins k).
Proof.
  intros H. unfold set_margins. cbv zeta. set (k1 := par_dec 0 k).
  assert (H1 : con_ok k k1) by (unfold k1; auto with console).
  set (k2 := if par_at k1 1 =? 0 then _ else k1).
  assert (H2 : con_ok k k2).
  { apply (con_ok_then k k1); [done |]. intros H2. unfold k2. case_match; auto with console. }
  apply (con_ok_then k k2); [done |]. clearbody k2. clear H H1 H2 k1. intros H.
  pose proof (par_at_range k2 0 H). pose proof (par_at_range k2 1 H).
  destruct (Z.ltb_spec (par_at k2 0) (par_at k2 1)), (Z.leb_spec (par_at k2 1) lines); cbn [andb];
    auto with console.
  unfold in_u32 in *. con_start H. con_state.
Qed.

Lemma csi_at_ok p k : con_wf k -> con_ok k (csi_at p k).
Proof. intros H. apply iter_ok; auto with console. Qed.
Lemma csi_P_ok p k : con_wf k -> con_ok k (csi_P p k).
Proof. intros H. apply iter_ok; auto with console. Qed.
Lemma csi_L_ok p k : con_wf k -> con_ok k (csi_L p k).
Proof. intros H. apply iter_ok; auto with console. Qed.
Lemma csi_M_ok p k : con_wf k -> con_ok k (csi_M p k).
Proof. intros H. apply iter_ok; auto with console. Qed.
Lemma par_dec2_ok k : con_wf k -> con_ok k (par_dec 1 (par_dec 0 k)).
Proof.
  intros H. apply (con_ok_then k (par_dec 0 k)); auto with console.
Qed.
#[export] Hint Resolve set_margins_ok csi_at_ok csi_P_ok csi_L_ok csi_M_ok par_dec2_ok : console.

(** The moves: a change of the parameters, then [gotoxy]. *)
Lemma goto_after k k1 a b :
  con_ok k k1 -> (con_wf k1 -> 0 <= a /\ 0 <= b) -> con_ok k (gotoxy a b k1).
Proof. intros H Hab. apply (con_ok_then k k1); [done |]. intros H1. apply gotoxy_ok; tauto. Qed.

Lemma u32_nonneg v : 0 <= u32 v.
Proof. apply u32_range. Qed.
Lemma par_nonneg k i : con_wf k -> 0 <= par_at k i.
Proof. intros H. apply (par_at_range k i H). Qed.
Lemma x_nonneg k : con_wf k -> 0 <= x k.
Proof. intros H. apply (wf_x k H). Qed.
Lemma y_nonneg k : con_wf k -> 0 <= y k.
Proof. intros H. apply (wf_y k H). Qed.
#[export] Hint Resolve u32_nonneg par_nonneg x_nonneg y_nonneg : console.
#[export] Hint Resolve Z.le_refl : console.

Lemma con_final_ok c k : con_wf k -> con_ok k (con_final c k).
Proof.
  intros H. unfold con_final. apply (con_ok_then k (set_cstate 0 k)); [auto with console |].
  generalize (set_cstate 0 k). clear H k. intros k H. cbv zeta.
  repeat (match goal with |- con_ok _ (if ?b then _ else _) => destruct b end;
          [first [ by auto with console
                 | by apply goto_after; [auto with console |]; intros; split; auto with console
                 | idtac] |]); auto with console.
Qed.

Lemma con_params_ok c k : con_wf k -> con_ok k (con_params c k).
Proof.
  intros H. unfold con_params.
  destruct (c =? 59), (Z.ltb_spec (npar k) (NPAR - 1)); cbn [andb];
    try (destruct (_ && _); [by auto with console |];
         apply (con_ok_then k (set_cstate 4 k)); [by auto with console | by apply con_final_ok]).
  con_start H. con_state.
Qed.

Lemma con_csi_ok c k : con_wf k -> con_ok k (con_csi c k).
Proof.
  intros H. unfold con_csi. cbv zeta.
  assert (H1 : con_ok k (set_ques (b2z (c =? 63))
    (set_cstate 3 (set_npar 0 (set_par (replicate (Z.to_nat NPAR) 0) k))))).
  { con_start H. con_unfold. split; [constructor; cbn; con_unfold; try (done || lia) |
      apply only_changed_refl].
    split; [done |]. repeat constructor; unfold in_u32; lia. }
  destruct (c =? 63); [exact H1 |]. eapply con_ok_then; [exact H1 |]. apply con_params_ok.
Qed.

Lemma con_char_ok erase_char c k : con_wf k -> con_ok k (con_char erase_char c k).1.
Proof.
  intros H. unfold con_char.
  repeat (case_match; cbn [fst];
          auto using con_text_ok, con_esc_ok, con_csi_ok, con_params_ok, con_final_ok with console).
Qed.

(** ** The screen as a list of lines *)

(** Line [i]: the bytes of its 80 cells. *)
Definition line (k : console) (i : nat) : list Z :=
  load_bytes (vram k) (origin k + 160 * Z.of_nat i) 160.
Definition screen (k : console) : list (list Z) := map (line k) (seq 0 25).
Definition blank : list Z := concat (replicate 80 [0x20; 0x07]).

(** Line [t] goes away and a blank line comes in before line [b], or a blank
    line comes in at [t] and the line before [b] goes away. *)
Definition scroll_up (t b : nat) (l : list (list Z)) : list (list Z) :=
  let l' := delete t l in take (b - 1) l' ++ blank :: drop (b - 1) l'.
Definition scroll_down (t b : nat) (l : list (list Z)) : list (list Z) :=
  let l' := delete (b - 1)%nat l in take t l' ++ blank :: drop t l'.

Lemma length_screen k : length (screen k) = 25%nat.
Proof. unfold screen. by rewrite length_map, length_seq. Qed.

Lemma lookup_screen k i : (i < 25)%nat -> screen k !! i = Some (line k i).
Proof.
  intros Hi. unfold screen. rewrite list_lookup_fmap, lookup_seq_lt by done. done.
Qed.

Lemma lookup_delete_alt {A} (l : list A) t i :
  delete t l !! i = if decide (i < t)%nat then l !! i else l !! S i.
Proof.
  case_decide; [by apply list_lookup_delete_lt | apply list_lookup_delete_ge; lia].
Qed.

(** Deleting at [t], then inserting at [n]. *)
Lemma lookup_delete_insert {A} (l : list A) (a : A) t n i :
  (n < length l)%nat -> (t < length l)%nat ->
  (take n (delete t l) ++ a :: drop n (delete t l)) !! i =
    if decide (i < n)%nat then (if decide (i < t)%nat then l !! i else l !! S i)
    else if decide (i = n) then Some a
    else if decide (i <= t)%nat then l !! (i - 1)%nat else l !! i.
Proof.
  intros Hn Ht. assert (Hl : length (delete t l) = (length l - 1)%nat).
  { apply length_delete. by apply lookup_lt_is_Some. }
  assert (Hln : length (take n (delete t l)) = n) by (rewrite length_take; lia).
  destruct (decide (i < n)%nat) as [H | H].
  - rewrite lookup_app_l by lia. rewrite lookup_take_lt by lia. apply lookup_delete_alt.
  - rewrite lookup_app_r by lia. rewrite Hln.
    destruct (decide (i = n)) as [-> | Hne]; [by rewrite Nat.sub_diag |].
    replace (i - n)%nat with (S (i - n - 1)) by lia.
    etransitivity; [exact (lookup_drop (delete t l) n (i - n - 1)%nat) |].
    replace (n + (i - n - 1))%nat with (i - 1)%nat by lia.
    rewrite lookup_delete_alt. repeat case_decide; try lia; f_equal; lia.
Qed.

(** Two lines with the same bytes. *)
Lemma line_ext k k' i j :
  (forall c, 0 <= c < 160 -> screen_byte k' (160 * Z.of_nat i + c) = screen_byte k (160 * Z.of_nat j + c)) ->
  line k' i = line k j.
Proof.
  intros H. unfold line. apply list_eq. intros c. destruct (decide (c < 160)%nat) as [Hc | Hc].
  - rewrite !lookup_load_bytes by done. f_equal. specialize (H (Z.of_nat c) ltac:(lia)).
    unfold screen_byte in H. rewrite !Z.add_assoc in H. exact H.
  - rewrite !lookup_ge_None_2; [done | rewrite length_load_bytes; lia..].
Qed.

Lemma lookup_pairs n c :
  (c < 2 * n)%nat -> concat (replicate n [0x20; 0x07]) !! c = Some (blank_byte (Z.of_nat c)).
Proof.
  revert c; induction n as [| n IH]; intros c Hc; [lia |]. cbn [replicate concat].
  destruct c as [| [| c]]; [done | done |].
  etransitivity; [exact (IH c ltac:(lia)) |]. f_equal.
  replace (Z.of_nat (S (S c))) with (2 * 1 + Z.of_nat c) by lia. by rewrite blank_byte_shift.
Qed.

Lemma line_blank k i :
  (forall c, 0 <= c < 160 -> screen_byte k (160 * Z.of_nat i + c) = blank_byte c) ->
  line k i = blank.
Proof.
  intros H. unfold line. apply list_eq. intros c. destruct (decide (c < 160)%nat) as [Hc | Hc].
  - rewrite lookup_load_bytes by done. unfold blank. rewrite lookup_pairs by lia. f_equal.
    specialize (H (Z.of_nat c) ltac:(lia)). unfold screen_byte in H.
    rewrite Z.add_assoc in H. exact H.
  - rewrite !lookup_ge_None_2; [done | | rewrite length_load_bytes; lia].
    change (length blank) with 160%nat. lia.
Qed.

Lemma scrolled_up_lines k k' :
  con_wf k -> scrolled_up k k' ->
  screen k' = scroll_up (Z.to_nat (top k)) (Z.to_nat (bottom k)) (screen k).
Proof.
  intros H Hs. pose proof (wf_region k H). apply list_eq. intros i. unfold scroll_up.
  rewrite lookup_delete_insert by (rewrite length_screen; lia).
  destruct (decide (i < 25)%nat) as [Hi | Hi].
  2: { rewrite !decide_False by lia. by rewrite !lookup_ge_None_2 by (rewrite length_screen; lia). }
  rewrite (lookup_screen k' i Hi).
  assert (Hsame : ~ (top k <= Z.of_nat i < bottom k) -> line k' i = line k i).
  { intros Hout. apply line_ext. intros c Hc. rewrite Hs by lia. by rewrite !decide_False by lia. }
  repeat case_decide; try lia.
  - rewrite lookup_screen by done. f_equal. apply Hsame. lia.
  - rewrite lookup_screen by lia. f_equal. apply line_ext. intros c Hc. rewrite Hs by lia.
    rewrite decide_True by lia. f_equal. lia.
  - f_equal. apply line_blank. intros c Hc. rewrite Hs by lia.
    rewrite decide_False, decide_True by lia.
    replace (160 * Z.of_nat i + c) with (2 * (80 * Z.of_nat i) + c) by lia. apply blank_byte_shift.
  - rewrite lookup_screen by done. f_equal. apply Hsame. lia.
Qed.

Lemma scrolled_down_lines k k' :
  con_wf k -> scrolled_down k k' ->
  screen k' = scroll_down (Z.to_nat (top k)) (Z.to_nat (bottom k)) (screen k).
Proof.
  intros H Hs. pose proof (wf_region k H). apply list_eq. intros i. unfold scroll_down.
  rewrite lookup_delete_insert by (rewrite length_screen; lia).
  destruct (decide (i < 25)%nat) as [Hi | Hi].
  2: { rewrite !decide_False by lia. by rewrite !lookup_ge_None_2 by (rewrite length_screen; lia). }
  rewrite (lookup_screen k' i Hi).
  assert (Hsame : ~ (top k <= Z.of_nat i < bottom k) -> line k' i = line k i).
  { intros Hout. apply line_ext. intros c Hc. rewrite Hs by lia. by rewrite !decide_False by lia. }
  repeat case_decide; try lia.
  - rewrite lookup_screen by done. f_equal. apply Hsame. lia.
  - f_equal. apply line_blank. intros c Hc. rewrite Hs by lia.
    rewrite decide_False, decide_True by lia.
    replace (160 * Z.of_nat i + c) with (2 * (80 * Z.of_nat i) + c) by lia. apply blank_byte_shift.
  - rewrite lookup_screen by lia. f_equal. apply line_ext. intros c Hc. rewrite Hs by lia.
    rewrite decide_True by lia. f_equal. lia.
  - rewrite lookup_screen by done. f_equal. apply Hsame. lia.
Qed.

(** A line feed or reverse line feed inside the region only moves the cursor. *)
Lemma screen_ext k k' : vram k' = vram k -> origin k' = origin k -> screen k' = screen k.
Proof. intros H1 H2. unfold screen, line. by rewrite H1, H2. Qed.

Lemma line_region_moved k k1 :
  moved (set_bottom lines (set_top (y k) k)) k1 ->
  moved k (set_bottom (bottom k) (set_top (top k) k1)).
Proof. intros []. by constructor. Qed.

(** C27: Scrolling does to the 25 lines of the screen what it means to, by
    whichever means: moving the window on video memory, copying the screen
    back to its start, or copying the lines of the region up or down. A line
    feed at the bottom of the region deletes its first line and inserts a
    blank one at its end; a reverse line feed at its top does the opposite;
    above or below they only move the cursor; deleting (inserting) a line
    does this to the part of the screen from the cursor's line on. *)
Theorem scrolling_correct k :
  con_wf k ->
  (y k + 1 < bottom k ->
     y (lf k) = y k + 1 /\ screen (lf k) = screen k) /\
  (bottom k <= y k + 1 ->
     moved k (lf k) /\
     screen (lf k) = scroll_up (Z.to_nat (top k)) (Z.to_nat (bottom k)) (screen k)) /\
  (top k < y k -> y (ri k) = y k - 1 /\ screen (ri k) = screen k) /\
  (y k <= top k ->
     moved k (ri k) /\
     screen (ri k) = scroll_down (Z.to_nat (top k)) (Z.to_nat (bottom k)) (screen k)) /\
  moved k (delete_line k) /\ screen (delete_line k) = scroll_up (Z.to_nat (y k)) 25 (screen k) /\
  moved k (insert_line k) /\ screen (insert_line k) = scroll_down (Z.to_nat (y k)) 25 (screen k).
Proof.
  intros H. pose proof (line_region_wf k H) as Hr.
  assert (Hy : u32 (y k + 1) = y k + 1 /\ (top k < y k -> u32 (y k - 1) = y k - 1))
    by (con_start H; split; intros; apply u32_small; unfold in_u32; lia).
  destruct Hy as [Hy1 Hy2]. unfold lf, ri. rewrite Hy1.
  split; [intros L | split; [intros L | split; [intros L | split; [intros L | split]]]].
  - rewrite (proj2 (Z.ltb_lt _ _) L). split; [done | by apply screen_ext].
  - rewrite (proj2 (Z.ltb_ge _ _) L). destruct (scrup_spec k H) as (_ & Hs & Hm).
    split; [done | by apply scrolled_up_lines].
  - rewrite (proj2 (Z.ltb_lt _ _) L). split; [by apply Hy2 | by apply screen_ext].
  - rewrite (proj2 (Z.ltb_ge _ _) L). destruct (scrdown_spec k H) as (_ & Hs & Hm).
    split; [done | by apply scrolled_down_lines].
  - apply line_region_moved. by apply scrup_spec.
  - split; [| split].
    + etransitivity; [apply (screen_ext (scrup (set_bottom lines (set_top (y k) k)))); reflexivity |].
      exact (scrolled_up_lines _ _ Hr (proj1 (proj2 (scrup_spec _ Hr)))).
    + apply line_region_moved. by apply scrdown_spec.
    + etransitivity; [apply (screen_ext (scrdown (set_bottom lines (set_top (y k) k)))); reflexivity |].
      exact (scrolled_down_lines _ _ Hr (proj1 (proj2 (scrdown_spec _ Hr)))).
Qed.

(** The console as it starts, the cursor on the last line. *)
Definition con_demo : console :=
  {| origin := SCREEN_START; scr_end := SCREEN_START + 4000; pos := SCREEN_START + 3840;
     x := 0; y := 24; top := 0; bottom := 25; cstate := 0; npar := 0; par := replicate 16 0;
     ques := 0; attr := 7; saved_x := 0; saved_y := 0; vram := ∅; ports := [] |}.

Lemma con_demo_wf : con_wf con_demo.
Proof.
  assert (Hp : Forall in_u32 (replicate 16 0)) by (apply Forall_replicate; unfold in_u32; lia).
  constructor; cbn [origin scr_end pos x y top bottom npar par saved_x saved_y con_demo];
    [vm_bounds.. | by split | vm_bounds].
Qed.

Lemma scrolling_witness :
  y con_demo = 24 /\ moved con_demo (lf con_demo) /\
  screen (lf con_demo) = scroll_up 0 25 (screen con_demo).
Proof.
  split; [done |]. apply (proj1 (proj2 (scrolling_correct con_demo con_demo_wf))). by vm_compute.
Defined.
