(* ===== verification/Tty.v ===== *)
(** * Tty: the terminal of linux-0.01

    The character queues (src/linux-0.01/include/linux/tty.h), the line
    discipline of src/linux-0.01/kernel/tty_io.c and [con_write] of
    src/linux-0.01/kernel/console.c, over the console, the terminal and the
    process table.  [con_write] answers a terminal query through
    [copy_to_cooked], which calls [con_write] again: both take fuel. *)

From S2P Require Import Prelude Mem Ctype Proc Sched Console.

(** ** Queues *)

Definition TTY_BUF_SIZE : Z := 1024.

Record tty_queue : Type := {
  q_data : Z;          (** complete lines *)
  head : Z;
  tail : Z;
  proc_list : Z;       (** the wait queue of [proc_list], by its address *)
  buf : list Z         (** signed characters *)
}.

Definition INC (a : Z) : Z := Z.land (a + 1) (TTY_BUF_SIZE - 1).
Definition DEC (a : Z) : Z := Z.land (a - 1) (TTY_BUF_SIZE - 1).
Definition EMPTY (a : tty_queue) : bool := head a =? tail a.
Definition LEFT (a : tty_queue) : Z := Z.land (tail a - head a - 1) (TTY_BUF_SIZE - 1).
Definition q_at (a : tty_queue) (i : Z) : Z := default 0 (buf a !! Z.to_nat i).
Definition LAST (a : tty_queue) : Z := q_at a (Z.land (TTY_BUF_SIZE - 1) (head a - 1)).
Definition FULL (a : tty_queue) : bool := LEFT a =? 0.
Definition CHARS (a : tty_queue) : Z := Z.land (head a - tail a) (TTY_BUF_SIZE - 1).

Definition GETCH (q : tty_queue) : Z * tty_queue :=
  (q_at q (tail q),
   {| q_data := q_data q; head := head q; tail := INC (tail q);
      proc_list := proc_list q; buf := buf q |}).
Definition PUTCH (c : Z) (q : tty_queue) : tty_queue :=
  {| q_data := q_data q; head := INC (head q); tail := tail q;
     proc_list := proc_list q; buf := <[Z.to_nat (head q) := s8 c]> (buf q) |}.
Definition set_q_data (d : Z) (q : tty_queue) : tty_queue :=
  {| q_data := u32 d; head := head q; tail := tail q; proc_list := proc_list q; buf := buf q |}.
(** [DEC(q.head)]. *)
Definition unput (q : tty_queue) : tty_queue :=
  {| q_data := q_data q; head := DEC (head q); tail := tail q;
     proc_list := proc_list q; buf := buf q |}.

(** ** Terminals *)

Record tty_struct : Type := {
  c_iflag : Z; c_oflag : Z; c_cflag : Z; c_lflag : Z; c_line : Z; c_cc : list Z;
  c_pad : list Z;      (** the two bytes that round [struct termios] up to 36 *)
  pgrp : Z; stopped : Z;
  read_q : tty_queue; write_q : tty_queue; secondary : tty_queue
}.

Definition set_stopped (v : Z) (t : tty_struct) : tty_struct :=
  {| c_iflag := c_iflag t; c_oflag := c_oflag t; c_cflag := c_cflag t; c_lflag := c_lflag t;
     c_line := c_line t; c_cc := c_cc t; c_pad := c_pad t;
     pgrp := pgrp t; stopped := v; read_q := read_q t; write_q := write_q t;
     secondary := secondary t |}.
Definition set_read_q (v : tty_queue) (t : tty_struct) : tty_struct :=
  {| c_iflag := c_iflag t; c_oflag := c_oflag t; c_cflag := c_cflag t; c_lflag := c_lflag t;
     c_line := c_line t; c_cc := c_cc t; c_pad := c_pad t;
     pgrp := pgrp t; stopped := stopped t; read_q := v; write_q := write_q t;
     secondary := secondary t |}.
Definition set_write_q (v : tty_queue) (t : tty_struct) : tty_struct :=
  {| c_iflag := c_iflag t; c_oflag := c_oflag t; c_cflag := c_cflag t; c_lflag := c_lflag t;
     c_line := c_line t; c_cc := c_cc t; c_pad := c_pad t;
     pgrp := pgrp t; stopped := stopped t; read_q := read_q t; write_q := v;
     secondary := secondary t |}.
Definition set_secondary (v : tty_queue) (t : tty_struct) : tty_struct :=
  {| c_iflag := c_iflag t; c_oflag := c_oflag t; c_cflag := c_cflag t; c_lflag := c_lflag t;
     c_line := c_line t; c_cc := c_cc t; c_pad := c_pad t;
     pgrp := pgrp t; stopped := stopped t; read_q := read_q t; write_q := write_q t;
     secondary := v |}.

(** The control characters a terminal starts with. *)
Definition INIT_C_CC : list Z := [3; 28; 127; 21; 4; 0; 1; 0; 17; 19; 25; 0; 18; 15; 23; 22; 0].

(** Mode bits (octal in termios.h) and control characters. *)
Definition INLCR : Z := 64.
Definition IGNCR : Z := 128.
Definition ICRNL : Z := 256.
Definition IUCLC : Z := 512.
Definition OPOST : Z := 1.
Definition OLCUC : Z := 2.
Definition ONLCR : Z := 4.
Definition OCRNL : Z := 8.
Definition ONLRET : Z := 32.
Definition ISIG : Z := 1.
Definition ICANON : Z := 2.
Definition ECHO : Z := 8.
Definition ECHOCTL : Z := 512.

Definition I_FLAG (t : tty_struct) (f : Z) : bool := negb (Z.land (c_iflag t) f =? 0).
Definition O_FLAG (t : tty_struct) (f : Z) : bool := negb (Z.land (c_oflag t) f =? 0).
Definition L_FLAG (t : tty_struct) (f : Z) : bool := negb (Z.land (c_lflag t) f =? 0).
Definition cc (t : tty_struct) (i : nat) : Z := default 0 (c_cc t !! i).
Definition INTR_CHAR (t : tty_struct) : Z := cc t 0.
Definition ERASE_CHAR (t : tty_struct) : Z := cc t 2.
Definition EOF_CHAR (t : tty_struct) : Z := cc t 4.
Definition START_CHAR (t : tty_struct) : Z := cc t 8.
Definition STOP_CHAR (t : tty_struct) : Z := cc t 9.

(** ** The state *)

Record tstate : Type := {
  t_con : console;
  t_tty : tty_struct;
  t_ps : pstate;
  t_cr_flag : Z           (** the static [cr_flag] of [tty_write] *)
}.
Definition set_t_con (k : console) (s : tstate) : tstate :=
  {| t_con := k; t_tty := t_tty s; t_ps := t_ps s; t_cr_flag := t_cr_flag s |}.
Definition set_t_tty (t : tty_struct) (s : tstate) : tstate :=
  {| t_con := t_con s; t_tty := t; t_ps := t_ps s; t_cr_flag := t_cr_flag s |}.
Definition set_t_ps (p : pstate) (s : tstate) : tstate :=
  {| t_con := t_con s; t_tty := t_tty s; t_ps := p; t_cr_flag := t_cr_flag s |}.
Definition set_t_cr_flag (v : Z) (s : tstate) : tstate :=
  {| t_con := t_con s; t_tty := t_tty s; t_ps := t_ps s; t_cr_flag := v |}.

Definition on_tty (f : tty_struct -> tty_struct) : M tstate unit :=
  modify (fun s => set_t_tty (f (t_tty s)) s).
Definition on_con (f : console -> console) : M tstate unit :=
  modify (fun s => set_t_con (f (t_con s)) s).
Definition lift_ps {A} (m : M pstate A) : M tstate A := fun s =>
  match m (t_ps s) with
  | Done a p => Done a (set_t_ps p s)
  | Halt r => Halt r
  end.

Definition put_read (c : Z) : M tstate unit :=
  on_tty (fun t => set_read_q (PUTCH c (read_q t)) t).
Definition put_write (c : Z) : M tstate unit :=
  on_tty (fun t => set_write_q (PUTCH c (write_q t)) t).
Definition put_secondary (c : Z) : M tstate unit :=
  on_tty (fun t => set_secondary (PUTCH c (secondary t)) t).

Definition get_read : M tstate Z := fun s =>
  let '(c, q) := GETCH (read_q (t_tty s)) in Done c (set_t_tty (set_read_q q (t_tty s)) s).
Definition get_write : M tstate Z := fun s =>
  let '(c, q) := GETCH (write_q (t_tty s)) in Done c (set_t_tty (set_write_q q (t_tty s)) s).
Definition get_secondary : M tstate Z := fun s =>
  let '(c, q) := GETCH (secondary (t_tty s)) in Done c (set_t_tty (set_secondary q (t_tty s)) s).

(** The [char] a macro of ctype.h gives, if it reads its table. *)
Definition as_char (o : option Z) : M tstate Z :=
  match o with Some v => mret (s8 v) | None => fault "ctype" end.

(** ** The line discipline *)

Definition tty_intr_task (g sg : Z) (i : Z) : M pstate unit :=
  p ← task_at i;
  when (negb (p =? 0))
    (pg ← tget p T_pgrp;
     when (pg =? g) (v ← tget p T_signal; tput p T_signal (Z.lor v (Z.shiftl 1 (sg - 1))))).

Definition tty_intr (sg : Z) : M tstate unit :=
  t ← gets t_tty;
  if pgrp t <=? 0 then mret tt
  else lift_ps (for_loop 64 0 (tty_intr_task (pgrp t) sg)).

Section cooked.
Variable write : M tstate unit.        (** [tty->write(tty)] *)

(** The characters a carriage return or a newline becomes; none: ignored. *)
Definition input_map (t : tty_struct) (c : Z) : option Z :=
  if c =? 13 then
    if I_FLAG t ICRNL then Some 10 else if I_FLAG t IGNCR then None else Some c
  else if (c =? 10) && I_FLAG t INLCR then Some 13
  else Some c.

(** The erase character in canonical mode. *)
Definition erase_last : M tstate unit :=
  t ← gets t_tty;
  if EMPTY (secondary t) then mret tt
  else
    let c := LAST (secondary t) in
    if (c =? 10) || (c =? EOF_CHAR t) then mret tt
    else
      _ ← when (L_FLAG t ECHO)
            (_ ← when (c <? 32) (put_write 127);
             _ ← put_write 127;
             write);
      on_tty (fun t => set_secondary (unput (secondary t)) t).

Definition echo (c : Z) : M tstate unit :=
  t ← gets t_tty;
  when (L_FLAG t ECHO)
    (_ ← (if c =? 10 then _ ← put_write 10; put_write 13
          else if c <? 32 then
            when (L_FLAG t ECHOCTL) (_ ← put_write 94; put_write (c + 64))
          else put_write c);
     write).

(** What follows the canonical-mode special characters. *)
Definition cook_rest (c : Z) : M tstate unit :=
  t ← gets t_tty;
  if negb (L_FLAG t ISIG) && (c =? INTR_CHAR t) then tty_intr SIGINT
  else
    _ ← when ((c =? 10) || (c =? EOF_CHAR t))
          (on_tty (fun t => set_secondary (set_q_data (q_data (secondary t) + 1) (secondary t)) t));
    _ ← echo c;
    put_secondary c.

(** One turn of the loop. *)
Definition cook_char : M tstate unit :=
  c ← get_read;
  t ← gets t_tty;
  match input_map t c with
  | None => mret tt
  | Some c =>
      c ← (if I_FLAG t IUCLC then as_char (tolower c) else mret c);
      if L_FLAG t ICANON && (c =? ERASE_CHAR t) then erase_last
      else if L_FLAG t ICANON && (c =? STOP_CHAR t) then on_tty (set_stopped 1)
      else if L_FLAG t ICANON && (c =? START_CHAR t) then on_tty (set_stopped 0)
      else cook_rest c
  end.

Fixpoint cook_loop (fuel : nat) : M tstate unit :=
  t ← gets t_tty;
  if EMPTY (read_q t) || FULL (secondary t) then mret tt
  else
    match fuel with
    | O => halt NoFuel
    | S fuel' => _ ← cook_char; cook_loop fuel'
    end.

Definition copy_to_cooked (fuel : nat) : M tstate unit :=
  _ ← cook_loop fuel;
  t ← gets t_tty;
  lift_ps (wake_up (proc_list (secondary t))).
End cooked.

(** ** con_write *)

(** ESC, [, ?, 1, ;, 2, c. *)
Definition RESPONSE : list Z := [27; 91; 63; 49; 59; 50; 99].

Fixpoint put_all_read (l : list Z) : M tstate unit :=
  match l with
  | [] => mret tt
  | c :: l' => _ ← put_read c; put_all_read l'
  end.

Section respond.
Variable write : M tstate unit.

Definition respond (fuel : nat) : M tstate unit :=
  _ ← put_all_read RESPONSE;
  copy_to_cooked write fuel.

(** [while (nr--)]. *)
Fixpoint con_loop (fuel : nat) (nr : nat) : M tstate unit :=
  match nr with
  | O => mret tt
  | S nr' =>
      c ← get_write;
      t ← gets t_tty;
      k ← gets t_con;
      let '(k', r) := con_char (ERASE_CHAR t) c k in
      _ ← modify (set_t_con k');
      _ ← when r (respond fuel);
      con_loop fuel nr'
  end.
End respond.

Fixpoint con_write (fuel : nat) : M tstate unit :=
  match fuel with
  | O => halt NoFuel
  | S fuel' =>
      t ← gets t_tty;
      _ ← con_loop (con_write fuel') 1024 (Z.to_nat (CHARS (write_q t)));
      on_con set_cursor
  end.

(** ** Reading and writing *)

(** The [do ... while] of [tty_read], into user memory at [b], [nr] bytes
    left: the number put there and whether an end of file stopped it. *)
Fixpoint tty_read_pass (fuel : nat) (b nr : Z) : M tstate (Z * bool) :=
  match fuel with
  | O => halt NoFuel
  | S fuel' =>
      c ← get_secondary;
      t ← gets t_tty;
      _ ← when ((c =? EOF_CHAR t) || (c =? 10))
            (on_tty (fun t => set_secondary (set_q_data (q_data (secondary t) - 1) (secondary t)) t));
      if (c =? EOF_CHAR t) && L_FLAG t ICANON then mret (0, true)
      else
        _ ← lift_ps (modify (fun p => set_umem (store8 (umem p) b c) p));
        t ← gets t_tty;
        if (0 <? nr - 1) && negb (EMPTY (secondary t)) then
          '(n, e) ← tty_read_pass fuel' (b + 1) (nr - 1);
          mret (n + 1, e)
        else mret (1, false)
  end.

(** The inner [while] of [tty_write]: from user memory at [b], [nr] bytes
    left; the number taken. *)
Fixpoint tty_write_pass (fuel : nat) (b nr : Z) : M tstate Z :=
  t ← gets t_tty;
  if (nr <=? 0) || FULL (write_q t) then mret 0
  else
    match fuel with
    | O => halt NoFuel
    | S fuel' =>
        p ← gets t_ps;
        let c := s8 (load8 (umem p) b) in
        f ← gets t_cr_flag;
        let c := if O_FLAG t OPOST then
                   if (c =? 13) && O_FLAG t OCRNL then 10
                   else if (c =? 10) && O_FLAG t ONLRET then 13 else c
                 else c in
        if O_FLAG t OPOST && (c =? 10) && (f =? 0) && O_FLAG t ONLCR then
          _ ← modify (set_t_cr_flag 1);
          _ ← put_write 13;
          tty_write_pass fuel' b nr
        else
          c ← (if O_FLAG t OPOST && O_FLAG t OLCUC then as_char (toupper c) else mret c);
          _ ← modify (set_t_cr_flag 0);
          _ ← put_write c;
          n ← tty_write_pass fuel' (b + 1) (nr - 1);
          mret (n + 1)
    end.

(** ** Queues are first-in first-out lists of at most 1023 characters *)

Record queue_wf (q : tty_queue) : Prop := {
  qw_head : 0 <= head q < 1024;
  qw_tail : 0 <= tail q < 1024;
  qw_buf : length (buf q) = 1024%nat
}.

Definition slot (q : tty_queue) (i : nat) : Z := q_at q ((tail q + Z.of_nat i) mod 1024).
Definition contents (q : tty_queue) : list Z := map (slot q) (seq 0 (Z.to_nat (CHARS q))).

Lemma land_1023 a : Z.land a (TTY_BUF_SIZE - 1) = a mod 1024.
Proof. change (TTY_BUF_SIZE - 1) with (Z.ones 10). by rewrite Z.land_ones by lia. Qed.

Lemma CHARS_mod q : CHARS q = (head q - tail q) mod 1024.
Proof. apply land_1023. Qed.
Lemma LEFT_mod q : LEFT q = (tail q - head q - 1) mod 1024.
Proof. apply land_1023. Qed.

Lemma CHARS_range q : 0 <= CHARS q < 1024.
Proof. rewrite CHARS_mod. apply Z.mod_pos_bound. lia. Qed.

Lemma LEFT_CHARS q : queue_wf q -> LEFT q = 1023 - CHARS q.
Proof. intros [? ? ?]. rewrite LEFT_mod, CHARS_mod. Z.div_mod_to_equations. lia. Qed.

Lemma length_contents q : Z.of_nat (length (contents q)) = CHARS q.
Proof. unfold contents. rewrite length_map, length_seq. pose proof (CHARS_range q). lia. Qed.

Lemma EMPTY_contents q : queue_wf q -> EMPTY q = bool_decide (contents q = []).
Proof.
  intros [? ? ?]. pose proof (length_contents q) as Hl. pose proof (CHARS_mod q) as Hc.
  unfold EMPTY. destruct (Z.eqb_spec (head q) (tail q)) as [E | E].
  - rewrite bool_decide_eq_true_2; [done |]. apply length_zero_iff_nil.
    rewrite E, Z.sub_diag, Z.mod_0_l in Hc by lia. lia.
  - rewrite bool_decide_eq_false_2; [done |]. intros E'. rewrite E' in Hl. cbn in Hl.
    rewrite <- Hl in Hc. revert Hc E. clear Hl E'. intros. Z.div_mod_to_equations. lia.
Qed.

Lemma FULL_contents q : queue_wf q -> FULL q = (length (contents q) =? 1023)%nat.
Proof.
  intros H. unfold FULL. rewrite LEFT_CHARS by done. pose proof (length_contents q).
  destruct (Z.eqb_spec (1023 - CHARS q) 0), (Nat.eqb_spec (length (contents q)) 1023); lia.
Qed.

Lemma map_seq_ext {A} (f g : nat -> A) s n :
  (forall i, (s <= i < s + n)%nat -> f i = g i) -> map f (seq s n) = map g (seq s n).
Proof.
  intros H. apply map_ext_in. intros i Hi. apply H. by apply in_seq in Hi.
Qed.

Lemma PUTCH_wf c q : queue_wf q -> queue_wf (PUTCH c q).
Proof.
  intros [? ? ?]. constructor; cbn; [| done | by rewrite length_insert].
  unfold INC. rewrite land_1023. apply Z.mod_pos_bound. lia.
Qed.

Lemma PUTCH_contents c q :
  queue_wf q -> FULL q = false -> contents (PUTCH c q) = contents q ++ [s8 c].
Proof.
  intros H Hf. pose proof H as [Hh Ht Hb].
  assert (HC : CHARS q < 1023).
  { unfold FULL in Hf. rewrite LEFT_CHARS in Hf by done. apply Z.eqb_neq in Hf.
    pose proof (CHARS_range q). lia. }
  assert (HC' : CHARS (PUTCH c q) = CHARS q + 1).
  { rewrite !CHARS_mod in *. cbn. unfold INC. rewrite land_1023. Z.div_mod_to_equations. lia. }
  pose proof (CHARS_range q). unfold contents. rewrite HC'.
  replace (Z.to_nat (CHARS q + 1)) with (S (Z.to_nat (CHARS q))) by lia.
  rewrite seq_S, map_app. cbn [map Nat.add]. f_equal; [| f_equal].
  - apply map_seq_ext. intros i Hi. unfold slot, q_at. cbn [tail buf PUTCH].
    rewrite list_lookup_insert_ne; [done |]. rewrite CHARS_mod in *.
    intros E. apply Z2Nat.inj in E; Z.div_mod_to_equations; lia.
  - unfold slot, q_at. cbn [tail buf PUTCH].
    replace ((tail q + Z.of_nat (Z.to_nat (CHARS q))) mod 1024) with (head q).
    + rewrite list_lookup_insert_eq by lia. done.
    + rewrite Z2Nat.id by lia. rewrite CHARS_mod. Z.div_mod_to_equations. lia.
Qed.

Lemma GETCH_wf q : queue_wf q -> queue_wf (GETCH q).2.
Proof.
  intros [? ? ?]. constructor; cbn; [done | | done].
  unfold INC. rewrite land_1023. apply Z.mod_pos_bound. lia.
Qed.

Lemma GETCH_contents q :
  queue_wf q -> contents q <> [] -> contents q = (GETCH q).1 :: contents (GETCH q).2.
Proof.
  intros H Hne. pose proof H as [Hh Ht Hb].
  assert (HC : 0 < CHARS q).
  { pose proof (length_contents q). destruct (contents q); [done |]. cbn in *. lia. }
  pose proof (CHARS_range q).
  assert (HC' : CHARS (GETCH q).2 = CHARS q - 1).
  { rewrite !CHARS_mod in *. cbn. unfold INC. rewrite land_1023. Z.div_mod_to_equations. lia. }
  unfold contents. rewrite HC'.
  replace (Z.to_nat (CHARS q)) with (S (Z.to_nat (CHARS q - 1))) by lia. cbn [seq map]. f_equal.
  - unfold slot. cbn [fst GETCH]. f_equal. rewrite Z.add_0_r. by apply Z.mod_small.
  - rewrite <- seq_shift, map_map. apply map_seq_ext. intros i Hi.
    unfold slot, q_at. cbn [snd GETCH tail buf]. unfold INC. rewrite land_1023.
    do 2 f_equal. rewrite Zplus_mod_idemp_l. f_equal. f_equal. lia.
Qed.

Lemma unput_contents q :
  queue_wf q -> contents q <> [] -> contents q = contents (unput q) ++ [LAST q].
Proof.
  intros H Hne. pose proof H as [Hh Ht Hb].
  assert (HC : 0 < CHARS q).
  { pose proof (length_contents q). destruct (contents q); [done |]. cbn in *. lia. }
  pose proof (CHARS_range q).
  assert (HC' : CHARS (unput q) = CHARS q - 1).
  { rewrite !CHARS_mod in *. cbn. unfold DEC. rewrite land_1023. Z.div_mod_to_equations. lia. }
  unfold contents. rewrite HC'.
  replace (Z.to_nat (CHARS q)) with (S (Z.to_nat (CHARS q - 1))) by lia.
  rewrite seq_S, map_app. cbn [map Nat.add]. f_equal.
  unfold slot, LAST. do 2 f_equal. rewrite Z.land_comm, land_1023, Z2Nat.id by lia.
  rewrite CHARS_mod. Z.div_mod_to_equations. lia.
Qed.

(** A terminal queue is a first-in first-out list of at most 1023
    characters, whatever the positions of its two ends in the circular
    buffer. [CHARS], [LEFT], [EMPTY] and [FULL] measure that list; [PUTCH]
    to a queue that is not full appends a character, [GETCH] takes the first
    one, [LAST] and the decrement of [head] are the last character and its
    removal; every operation keeps the queue well formed. *)
Theorem queue_fifo q c :
  queue_wf q ->
  CHARS q = Z.of_nat (length (contents q)) /\ LEFT q = 1023 - CHARS q /\
  (EMPTY q = true <-> contents q = []) /\ (FULL q = true <-> length (contents q) = 1023%nat) /\
  queue_wf (PUTCH c q) /\ queue_wf (GETCH q).2 /\ queue_wf (unput q) /\
  (FULL q = false -> contents (PUTCH c q) = contents q ++ [s8 c]) /\
  (EMPTY q = false -> contents q = (GETCH q).1 :: contents (GETCH q).2) /\
  (EMPTY q = false -> contents q = contents (unput q) ++ [LAST q]).
Proof.
  intros H. pose proof (EMPTY_contents q H) as He. pose proof (FULL_contents q H) as Hf.
  split; [by rewrite length_contents |]. split; [by apply LEFT_CHARS |].
  split; [by rewrite He, bool_decide_eq_true |]. split; [by rewrite Hf, Nat.eqb_eq |].
  split; [by apply PUTCH_wf |]. split; [by apply GETCH_wf |].
  split.
  { destruct H as [? ? ?]. constructor; cbn; [| done | done].
    unfold DEC. rewrite land_1023. apply Z.mod_pos_bound. lia. }
  split; [by apply PUTCH_contents |].
  rewrite He, bool_decide_eq_false.
  split; [by apply GETCH_contents | by apply unput_contents].
Qed.

(** Three characters across the end of the buffer. *)
Definition queue_demo : tty_queue :=
  {| q_data := 0; head := 1; tail := 1022; proc_list := 12; buf := replicate 1024 65 |}.

Lemma queue_demo_wf : queue_wf queue_demo.
Proof. constructor; cbn [head tail buf queue_demo]; [lia | lia | by rewrite length_replicate]. Qed.

Lemma queue_fifo_witness :
  contents queue_demo = [65; 65; 65] /\
  contents (PUTCH 66 queue_demo) = contents queue_demo ++ [s8 66].
Proof.
  split; [by vm_compute |].
  destruct (queue_fifo queue_demo 66 queue_demo_wf) as (_ & _ & _ & _ & _ & _ & _ & H & _).
  apply H. by vm_compute.
Defined.

(** ** Writing to the console *)

Lemma con_char_quiet e c k : c <> 90 -> (con_char e c k).2 = false.
Proof.
  intros H. unfold con_char. repeat (case_match; try done). unfold con_esc.
  rewrite (proj2 (Z.eqb_neq c 90) H). by repeat case_match.
Qed.

(** The console after a run of characters. *)
Definition con_feed (e : Z) (l : list Z) (k : console) : console :=
  fold_left (fun k c => (con_char e c k).1) l k.

Lemma con_feed_ok e l k : con_wf k -> con_ok k (con_feed e l k).
Proof.
  revert k; induction l as [| c l IH]; intros k H; [by apply con_ok_refl |].
  apply (con_ok_then k (con_char e c k).1); [by apply con_char_ok | apply IH].
Qed.

Lemma set_cursor_ok k : con_wf k -> con_ok k (set_cursor k).
Proof.
  intros H. split; [| apply only_changed_refl]. unfold set_cursor, outb_p. cbv zeta.
  by do 4 apply wf_set_ports.
Qed.

Lemma con_loop_run write fuel s n :
  queue_wf (write_q (t_tty s)) -> length (contents (write_q (t_tty s))) = n ->
  90 ∉ contents (write_q (t_tty s)) ->
  exists q, queue_wf q /\ contents q = [] /\
    con_loop write fuel n s =
      Done tt (set_t_con (con_feed (ERASE_CHAR (t_tty s)) (contents (write_q (t_tty s))) (t_con s))
                 (set_t_tty (set_write_q q (t_tty s)) s)).
Proof.
  revert s; induction n as [| n IH]; intros s Hq Hl Hz.
  - exists (write_q (t_tty s)). apply length_zero_iff_nil in Hl. rewrite Hl.
    split; [done |]. split; [done |]. cbn. by destruct s as [? [] ? ?].
  - cbn [con_loop].
    assert (Hne : contents (write_q (t_tty s)) <> []) by (intros E; by rewrite E in Hl).
    pose proof (GETCH_contents _ Hq Hne) as Hc.
    set (q := write_q (t_tty s)) in *. set (c := (GETCH q).1) in *. set (q1 := (GETCH q).2) in *.
    set (s1 := set_t_tty (set_write_q q1 (t_tty s)) s).
    rewrite (bind_Done get_write _ s c s1) by done.
    rewrite (bind_Done (gets t_tty) _ s1 (t_tty s1) s1) by done.
    rewrite (bind_Done (gets t_con) _ s1 (t_con s1) s1) by done.
    change (ERASE_CHAR (t_tty s1)) with (ERASE_CHAR (t_tty s)).
    change (t_con s1) with (t_con s).
    rewrite Hc in Hz. apply not_elem_of_cons in Hz as [Hc90 Hz].
    pose proof (con_char_quiet (ERASE_CHAR (t_tty s)) c (t_con s) ltac:(congruence)) as Hr.
    rewrite Hc. cbn [con_feed fold_left].
    destruct (con_char (ERASE_CHAR (t_tty s)) c (t_con s)) as [k' r] eqn:Ek. cbn [snd fst] in *.
    subst r. set (s2 := set_t_con k' s1).
    rewrite (bind_Done (modify _) _ s1 tt s2) by done.
    rewrite (bind_Done (when false _) _ s2 tt s2) by done.
    destruct (IH s2) as (q2 & H1 & H2 & H3).
    + by apply GETCH_wf.
    + rewrite Hc in Hl. cbn in Hl. injection Hl as Hl. exact Hl.
    + exact Hz.
    + exists q2. split; [done |]. split; [done |]. exact H3.
Qed.

Lemma con_write_run fuel s :
  queue_wf (write_q (t_tty s)) -> 90 ∉ contents (write_q (t_tty s)) ->
  exists q, queue_wf q /\ contents q = [] /\
    con_write (S fuel) s =
      Done tt (set_t_con (set_cursor (con_feed (ERASE_CHAR (t_tty s)) (contents (write_q (t_tty s))) (t_con s)))
                 (set_t_tty (set_write_q q (t_tty s)) s)).
Proof.
  intros Hq Hz. pose proof (length_contents (write_q (t_tty s))) as Hl.
  destruct (con_loop_run (con_write fuel) 1024 s (Z.to_nat (CHARS (write_q (t_tty s)))) Hq
              ltac:(lia) Hz) as (q & H1 & H2 & H3).
  exists q. split; [done |]. split; [done |].
  cbn [con_write]. rewrite (bind_Done (gets t_tty) _ s (t_tty s) s) by done.
  by rewrite (bind_Done _ _ _ _ _ H3).
Qed.

Lemma con_shown_ok e l k : con_wf k -> con_ok k (set_cursor (con_feed e l k)).
Proof. intros H. apply (con_ok_then k (con_feed e l k)); [by apply con_feed_ok | apply set_cursor_ok]. Qed.

(** [con_write] returns, whatever bytes its queue holds (short of the Z
    of a terminal query, which it answers): it empties the queue, runs every
    character through the escape automaton, shows the cursor, and changes
    nothing else. From a good state the console stays good (the cursor on
    the screen, the screen within video memory, the scrolling region not
    empty), and no byte outside the 32K of video memory is written. *)
Theorem con_write_correct fuel s :
  queue_wf (write_q (t_tty s)) -> con_wf (t_con s) -> 90 ∉ contents (write_q (t_tty s)) ->
  exists q, queue_wf q /\ contents q = [] /\
    let k := set_cursor (con_feed (ERASE_CHAR (t_tty s)) (contents (write_q (t_tty s))) (t_con s)) in
    con_write (S fuel) s = Done tt (set_t_con k (set_t_tty (set_write_q q (t_tty s)) s)) /\
    con_wf k /\ only_changed (vram (t_con s)) (vram k) SCREEN_START VRAM_SIZE.
Proof.
  intros Hq Hk Hz. destruct (con_write_run fuel s Hq Hz) as (q & H1 & H2 & H3).
  exists q. split; [done |]. split; [done |]. cbv zeta. split; [exact H3 | by apply con_shown_ok].
Qed.

Definition empty_queue (w : Z) : tty_queue :=
  {| q_data := 0; head := 0; tail := 0; proc_list := w; buf := replicate 1024 0 |}.
Definition fill_queue (l : list Z) (q : tty_queue) : tty_queue := fold_left (fun q c => PUTCH c q) l q.

(** The console terminal, with [l] to write. *)
Definition tty_demo (l : list Z) : tstate :=
  {| t_con := con_demo;
     t_tty := {| c_iflag := 0; c_oflag := OPOST + ONLCR; c_cflag := 0; c_lflag := ICANON + ECHO + ECHOCTL; c_line := 0;
                 c_cc := INIT_C_CC; c_pad := [0; 0];
                 pgrp := 0; stopped := 0; read_q := empty_queue 4;
                 write_q := fill_queue l (empty_queue 8); secondary := empty_queue 12 |};
     t_ps := demo_table [] ∅ 1000; t_cr_flag := 0 |}.

Lemma fill_queue_wf l q : queue_wf q -> queue_wf (fill_queue l q).
Proof. revert q; induction l as [| c l IH]; intros q H; [done |]. by apply IH, PUTCH_wf. Qed.
Lemma empty_queue_wf w : queue_wf (empty_queue w).
Proof.
  constructor; cbn [head tail buf empty_queue]; [lia | lia | by rewrite length_replicate].
Qed.

(** "A", a newline, ESC [ 2 J. *)
Lemma con_write_witness :
  exists q, queue_wf q /\ contents q = [] /\
    con_wf (set_cursor (con_feed 127 [65; 10; 27; 91; 50; 74] con_demo)).
Proof.
  assert (Hc : contents (write_q (t_tty (tty_demo [65; 10; 27; 91; 50; 74])))
               = [65; 10; 27; 91; 50; 74]) by by vm_compute.
  destruct (con_write_correct 0 (tty_demo [65; 10; 27; 91; 50; 74])) as (q & H1 & H2 & _ & H3 & _).
  - apply fill_queue_wf, empty_queue_wf.
  - exact con_demo_wf.
  - rewrite Hc. apply (bool_decide_eq_true_1 (90 ∉ _)). by vm_compute.
  - rewrite Hc in H3. by exists q.
Defined.

(** A query in the middle of a text: the echoed answer makes [con_write] call
    itself, the inner call empties the queue, and the outer one goes on with
    the two characters it had counted: [tail] passes [head]. *)
Lemma con_write_overruns :
  match con_write 3 (tty_demo [27; 90; 65; 66]) with
  | Done _ s => CHARS (write_q (t_tty s)) = 1022
  | Halt _ => False
  end.
Proof. by vm_compute. Qed.

(** ** Writing to the terminal *)

(** [n] characters of user memory at [b]. *)
Definition user_text (m : memory) (b : Z) (n : nat) : list Z :=
  map (fun i => s8 (load8 m (b + Z.of_nat i))) (seq 0 n).

(** A newline goes out as a carriage return and a newline. *)
Definition nlcr (l : list Z) : list Z := flat_map (fun c => if c =? 10 then [13; 10] else [c]) l.

Lemma user_text_S m b n :
  user_text m b (S n) = s8 (load8 m b) :: user_text m (b + 1) n.
Proof.
  unfold user_text. cbn [seq map]. rewrite Z.add_0_r. f_equal.
  rewrite <- seq_shift, map_map. apply map_ext. intros i. do 2 f_equal. lia.
Qed.

Lemma s8_idem x : s8 (s8 x) = s8 x.
Proof. wrap_lia. Qed.

Lemma put_write_room c q k :
  queue_wf q -> Z.of_nat (S k) <= LEFT q ->
  FULL q = false /\ queue_wf (PUTCH c q) /\ Z.of_nat k <= LEFT (PUTCH c q) /\
  contents (PUTCH c q) = contents q ++ [s8 c].
Proof.
  intros H Hk. assert (Hf : FULL q = false) by (apply Z.eqb_neq; lia).
  pose proof (PUTCH_contents c q H Hf) as Hc. pose proof (PUTCH_wf c q H) as Hw.
  split; [done |]. split; [done |]. split; [| done].
  rewrite LEFT_CHARS in * by done. rewrite <- !length_contents in *. rewrite Hc, length_app.
  cbn [length]. lia.
Qed.

(** The terminal's output modes: newlines only. *)
Definition onlcr_only (t : tty_struct) : Prop :=
  O_FLAG t OPOST = true /\ O_FLAG t ONLCR = true /\ O_FLAG t OCRNL = false /\
  O_FLAG t ONLRET = false /\ O_FLAG t OLCUC = false.

(** One turn on a character that is not to be preceded by anything. *)
Lemma pass_plain fuel b nr s c :
  onlcr_only (t_tty s) -> 0 < nr -> FULL (write_q (t_tty s)) = false ->
  s8 (load8 (umem (t_ps s)) b) = c -> (c <> 10 \/ t_cr_flag s <> 0) ->
  tty_write_pass (S fuel) b nr s =
  (n ← tty_write_pass fuel (b + 1) (nr - 1); mret (n + 1))
    (set_t_tty (set_write_q (PUTCH c (write_q (t_tty s))) (t_tty s)) (set_t_cr_flag 0 s)).
Proof.
  intros (H1 & H2 & H3 & H4 & H5) Hnr Hf Hc Hd. cbn [tty_write_pass].
  rewrite (bind_Done (gets t_tty) _ s (t_tty s) s) by done.
  rewrite (proj2 (Z.leb_gt nr 0) Hnr), Hf. cbn [orb].
  rewrite (bind_Done (gets t_ps) _ s (t_ps s) s) by done. cbv zeta.
  rewrite (bind_Done (gets t_cr_flag) _ s (t_cr_flag s) s) by done.
  rewrite Hc, H1, H2, H3, H4, H5. rewrite !andb_false_r. cbv iota. rewrite !andb_true_r, !andb_true_l.
  replace ((c =? 10) && (t_cr_flag s =? 0)) with false.
  2: { symmetry. apply andb_false_iff. rewrite !Z.eqb_neq. tauto. }
  rewrite (bind_Done (mret c) _ s c s) by done.
  rewrite (bind_Done (modify _) _ s tt (set_t_cr_flag 0 s)) by done.
  by rewrite (bind_Done (put_write c) _ (set_t_cr_flag 0 s) tt
    (set_t_tty (set_write_q (PUTCH c (write_q (t_tty s))) (t_tty s)) (set_t_cr_flag 0 s))) by done.
Qed.

(** ... and on a newline, first time round. *)
Lemma pass_newline fuel b nr s :
  onlcr_only (t_tty s) -> 0 < nr -> FULL (write_q (t_tty s)) = false ->
  s8 (load8 (umem (t_ps s)) b) = 10 -> t_cr_flag s = 0 ->
  tty_write_pass (S fuel) b nr s =
  tty_write_pass fuel b nr
    (set_t_tty (set_write_q (PUTCH 13 (write_q (t_tty s))) (t_tty s)) (set_t_cr_flag 1 s)).
Proof.
  intros (H1 & H2 & H3 & H4 & H5) Hnr Hf Hc Hd. cbn [tty_write_pass].
  rewrite (bind_Done (gets t_tty) _ s (t_tty s) s) by done.
  rewrite (proj2 (Z.leb_gt nr 0) Hnr), Hf. cbn [orb].
  rewrite (bind_Done (gets t_ps) _ s (t_ps s) s) by done. cbv zeta.
  rewrite (bind_Done (gets t_cr_flag) _ s (t_cr_flag s) s) by done.
  rewrite Hc, H1, H2, H3, H4, H5, Hd. cbn [Z.eqb Pos.eqb andb].
  rewrite (bind_Done (modify _) _ s tt (set_t_cr_flag 1 s)) by done.
  by rewrite (bind_Done (put_write 13) _ (set_t_cr_flag 1 s) tt
    (set_t_tty (set_write_q (PUTCH 13 (write_q (t_tty s))) (t_tty s)) (set_t_cr_flag 1 s))) by done.
Qed.

Lemma onlcr_only_write_q q s v :
  onlcr_only (t_tty s) ->
  onlcr_only (t_tty (set_t_tty (set_write_q q (t_tty s)) (set_t_cr_flag v s))).
Proof. done. Qed.

Lemma tty_write_pass_run n fuel b s :
  onlcr_only (t_tty s) -> queue_wf (write_q (t_tty s)) -> t_cr_flag s = 0 ->
  Z.of_nat (length (nlcr (user_text (umem (t_ps s)) b n))) <= LEFT (write_q (t_tty s)) ->
  (length (nlcr (user_text (umem (t_ps s)) b n)) <= fuel)%nat ->
  exists q, queue_wf q /\
    contents q = contents (write_q (t_tty s)) ++ nlcr (user_text (umem (t_ps s)) b n) /\
    tty_write_pass fuel b (Z.of_nat n) s =
      Done (Z.of_nat n) (set_t_tty (set_write_q q (t_tty s)) s).
Proof.
  revert fuel b s; induction n as [| n IH]; intros fuel b s Hm Hq Hcr Hroom Hfuel.
  - exists (write_q (t_tty s)). split; [done |]. split; [by rewrite app_nil_r |].
    destruct fuel; cbn; by destruct s as [? [] ? ?].
  - rewrite user_text_S in *. set (c := s8 (load8 (umem (t_ps s)) b)) in *.
    set (rest := user_text (umem (t_ps s)) (b + 1) n) in *.
    (* The plain turn, from a state s1 that differs in the flag and the queue. *)
    assert (Hplain : forall fuel q v, queue_wf q -> (c <> 10 \/ v <> 0) ->
      Z.of_nat (S (length (nlcr rest))) <= LEFT q -> (S (length (nlcr rest)) <= fuel)%nat ->
      exists q', queue_wf q' /\ contents q' = contents q ++ c :: nlcr rest /\
        tty_write_pass fuel b (Z.of_nat (S n)) (set_t_tty (set_write_q q (t_tty s)) (set_t_cr_flag v s))
        = Done (Z.of_nat (S n)) (set_t_tty (set_write_q q' (t_tty s)) s)).
    { intros fuel' q v Hq' Hv Hr Hfu. destruct fuel' as [| fuel']; [lia |].
      destruct (put_write_room c q _ Hq' Hr) as (Hfull & Hq1 & Hr1 & Hc1).
      rewrite (pass_plain fuel' b (Z.of_nat (S n)) _ c) by (done || lia).
      destruct (IH fuel' (b + 1) (set_t_tty (set_write_q (PUTCH c q) (t_tty s)) (set_t_cr_flag 0 s)))
        as (q' & Hw & Hcont & Hrun); [done | done | done | exact Hr1 | cbn; fold rest; lia |].
      exists q'. split; [done |]. split.
      { rewrite Hcont. cbn [t_tty set_t_tty write_q set_write_q]. rewrite Hc1, <- app_assoc.
        unfold c. by rewrite s8_idem. }
      replace (Z.of_nat (S n) - 1) with (Z.of_nat n) by lia.
      etransitivity; [exact (bind_Done _ _ _ _ _ Hrun) |]. cbv beta. unfold mret, M_ret.
      f_equal; [lia |]. destruct s as [k t p f]. cbn in Hcr |- *. by subst f. }
    cbn [nlcr flat_map] in *. fold (nlcr rest) in *.
    destruct (Z.eqb_spec c 10) as [Ec | Ec]; cbn [app length] in *.
    + destruct fuel as [| fuel]; [lia |].
      destruct (put_write_room 13 (write_q (t_tty s)) (S (length (nlcr rest))) Hq ltac:(lia))
        as (Hfull & Hq1 & Hr1 & Hc1).
      rewrite pass_newline by (done || lia).
      destruct (Hplain fuel (PUTCH 13 (write_q (t_tty s))) 1) as (q' & Hw & Hcont & Hrun);
        [done | by right | done | lia |].
      exists q'. split; [done |]. split; [| exact Hrun].
      rewrite Hcont, Hc1, <- app_assoc. rewrite Ec. done.
    + destruct (Hplain fuel (write_q (t_tty s)) 0) as (q' & Hw & Hcont & Hrun);
        [done | by left | lia | lia |].
      exists q'. split; [done |]. split; [exact Hcont |].
      etransitivity; [| exact Hrun]. f_equal. destruct s as [k [] p f]. cbn in Hcr |- *. by subst f.
Qed.

(** On a terminal that maps newlines only (the console's modes), the
    copying loop of [tty_write] puts the [n] bytes at [b] of user memory in
    the write queue, in order, each newline preceded by one carriage return,
    and reports [n], when the queue has room for them; it leaves the queue
    well formed, the flag that remembers a carriage return clear, and the
    rest of the state alone. *)
Theorem tty_write_pass_correct n b s :
  onlcr_only (t_tty s) -> queue_wf (write_q (t_tty s)) -> t_cr_flag s = 0 ->
  Z.of_nat (length (nlcr (user_text (umem (t_ps s)) b n))) <= LEFT (write_q (t_tty s)) ->
  exists q, queue_wf q /\
    contents q = contents (write_q (t_tty s)) ++ nlcr (user_text (umem (t_ps s)) b n) /\
    tty_write_pass 1023 b (Z.of_nat n) s = Done (Z.of_nat n) (set_t_tty (set_write_q q (t_tty s)) s).
Proof.
  intros Hm Hq Hcr Hroom. apply tty_write_pass_run; try done.
  rewrite LEFT_CHARS in Hroom by done. pose proof (CHARS_range (write_q (t_tty s))). lia.
Qed.

Definition text_demo : tstate :=
  let s := tty_demo [] in
  set_t_ps (set_umem (store_bytes ∅ 100 [72; 105; 10; 10]) (t_ps s)) s.

Lemma tty_write_pass_witness :
  exists q, contents q = [72; 105; 13; 10; 13; 10] /\
    tty_write_pass 1023 100 4 text_demo = Done 4 (set_t_tty (set_write_q q (t_tty text_demo)) text_demo).
Proof.
  assert (Ht : nlcr (user_text (umem (t_ps text_demo)) 100 4) = [72; 105; 13; 10; 13; 10])
    by by vm_compute.
  destruct (tty_write_pass_correct 4 100 text_demo) as (q & _ & H1 & H2).
  - by vm_compute.
  - apply empty_queue_wf.
  - done.
  - rewrite Ht. vm_bounds.
  - rewrite Ht in H1. by exists q.
Defined.
