(* ===== verification/TtyIo.v ===== *)
(** * TtyIo: reading and writing a terminal

    The table of terminals, [tty_read] and [tty_write] of
    src/linux-0.01/kernel/tty_io.c, around the copying loops and the line
    discipline of [Tty]. Sleeping, giving the processor away and the serial
    lines' output routine (rs_io.s) are an interface, [TtyWorld]. *)

From S2P Require Import Prelude Mem Proc Sched Sys Console Tty.

Definition ALRMMASK : Z := Z.shiftl 1 (SIGALRM - 1).
Definition ECHOKE : Z := 2048.
Definition B2400 : Z := 11.
Definition CS8 : Z := 48.
Definition VTIME : nat := 5.
Definition VMIN : nat := 6.

(** ** The table *)

(** [&tty_table[ch].read_q.proc_list] and its two neighbours. *)
Definition queue_wait (table ch k : Z) : Z := table + 3168 * ch + 48 + 1040 * k + 12.

Definition init_queue (port wait : Z) : tty_queue :=
  {| q_data := port; head := 0; tail := 0; proc_list := wait; buf := replicate 1024 0 |}.

(** The initial value of [tty_table], loaded at address [table]. *)
Definition init_tty (table ch oflag cflag lflag port : Z) : tty_struct :=
  {| c_iflag := 0; c_oflag := oflag; c_cflag := cflag; c_lflag := lflag; c_line := 0;
     c_cc := INIT_C_CC; c_pad := [0; 0]; pgrp := 0; stopped := 0;
     read_q := init_queue port (queue_wait table ch 0);
     write_q := init_queue port (queue_wait table ch 1);
     secondary := init_queue 0 (queue_wait table ch 2) |}.
Definition tty_table (table : Z) : list tty_struct :=
  [ init_tty table 0 (Z.lor OPOST ONLCR) 0 (Z.lor (Z.lor (Z.lor ICANON ECHO) ECHOCTL) ECHOKE) 0;
    init_tty table 1 (Z.lor OPOST ONLRET) (Z.lor B2400 CS8) 0 0x3f8;
    init_tty table 2 (Z.lor OPOST ONLRET) (Z.lor B2400 CS8) 0 0x2f8 ].

(** ** The state: that of [Tty] with every terminal *)

Record ttys : Type := {
  y_con : console;
  y_tab : list tty_struct;
  y_ps : pstate;
  y_cr_flag : Z
}.
Definition set_y_ps (p : pstate) (s : ttys) : ttys :=
  {| y_con := y_con s; y_tab := y_tab s; y_ps := p; y_cr_flag := y_cr_flag s |}.
Definition set_y_tab (l : list tty_struct) (s : ttys) : ttys :=
  {| y_con := y_con s; y_tab := l; y_ps := y_ps s; y_cr_flag := y_cr_flag s |}.

(** The view of the code that handles terminal [ch]. *)
Definition view (t : tty_struct) (s : ttys) : tstate :=
  {| t_con := y_con s; t_tty := t; t_ps := y_ps s; t_cr_flag := y_cr_flag s |}.
Definition unview (ch : nat) (v : tstate) (s : ttys) : ttys :=
  {| y_con := t_con v; y_tab := <[ch := t_tty v]> (y_tab s); y_ps := t_ps v; y_cr_flag := t_cr_flag v |}.

Definition terminal (ch : Z) : M ttys tty_struct :=
  if ch <? 0 then halt (Fault "tty_table") else get_opt "tty_table" (fun s => y_tab s !! Z.to_nat ch).
Definition on_channel {A} (ch : Z) (m : M tstate A) : M ttys A := fun s =>
  match terminal ch s with
  | Done t _ =>
      match m (view t s) with
      | Done a v => Done a (unview (Z.to_nat ch) v s)
      | Halt r => Halt r
      end
  | Halt r => Halt r
  end.
Definition put_terminal (ch : Z) (t : tty_struct) : M ttys unit :=
  modify (fun s => set_y_tab (<[Z.to_nat ch := t]> (y_tab s)) s).
Definition y_proc {A} (m : M pstate A) : M ttys A := fun s =>
  match m (y_ps s) with Done a p => Done a (set_y_ps p s) | Halt r => Halt r end.

(** What the terminals need of the rest: [interruptible_sleep_on] from call to
    return and [schedule], during which other tasks and interrupts run, and
    [rs_write]. *)
Class TtyWorld : Type := {
  tty_sleep_on : Z -> M ttys unit;
  tty_schedule : M ttys unit;
  rs_write : M tstate unit
}.

Section tty_io.
Context {TW : TtyWorld}.

(** [tty->write(tty)]. *)
Definition channel_write (fuel : nat) (ch : Z) : M tstate unit :=
  if ch =? 0 then con_write fuel else rs_write.

Definition do_tty_interrupt (fuel : nat) (tty : Z) : M ttys unit :=
  on_channel tty (copy_to_cooked (channel_write fuel tty) fuel).

(** [while (!current->signal && EMPTY( *queue)) interruptible_sleep_on(...)]. *)
Fixpoint sleep_if_empty (fuel : nat) (ch : Z) : M ttys unit :=
  sg ← y_proc (cur_get T_signal);
  t ← terminal ch;
  if negb (sg =? 0) || negb (EMPTY (secondary t)) then mret tt
  else
    match fuel with
    | O => halt NoFuel
    | S fuel' => _ ← tty_sleep_on (proc_list (secondary t)); sleep_if_empty fuel' ch
    end.

Fixpoint sleep_while_full (fuel : nat) (ch : Z) : M ttys unit :=
  sg ← y_proc (cur_get T_signal);
  t ← terminal ch;
  if negb (sg =? 0) || negb (LEFT (write_q t) <? 128) then mret tt
  else
    match fuel with
    | O => halt NoFuel
    | S fuel' => _ ← tty_sleep_on (proc_list (write_q t)); sleep_while_full fuel' ch
    end.
Definition sleep_if_full (fuel : nat) (ch : Z) : M ttys unit :=
  t ← terminal ch;
  if negb (FULL (write_q t)) then mret tt else sleep_while_full fuel ch.

(** ** tty_read *)

(** [flag=(!oldalarm || time+jiffies<oldalarm)]. *)
Definition sooner (time oldalarm : Z) : M ttys (bool * Z) :=
  j ← y_proc (gets jiffies);
  mret ((oldalarm =? 0) || (s32 (time + j) <? oldalarm), s32 (time + j)).

(** After characters of a terminal that is not in canonical mode. *)
Definition rearm (time oldalarm : Z) : M ttys bool :=
  r ← sooner time oldalarm;
  let '(f, w) := r in
  _ ← y_proc (cur_put T_alarm (if f : bool then w else oldalarm));
  mret f.

(** [while (nr>0)]: what [return] gives, or [b] when the loop is left. *)
Fixpoint tty_read_loop (fuel : nat) (ch buf time minimum oldalarm : Z) (flag : bool) (b nr : Z) : M ttys (Z + Z) :=
  if nr <=? 0 then mret (inr b)
  else
    match fuel with
    | O => halt NoFuel
    | S fuel' =>
        sg ← y_proc (cur_get T_signal);
        if flag && negb (Z.land sg ALRMMASK =? 0) then
          _ ← y_proc (cur_put T_signal (Z.land sg (Z.lnot ALRMMASK)));
          mret (inr b)
        else if negb (sg =? 0) then mret (inr b)
        else
          t ← terminal ch;
          if EMPTY (secondary t) ||
             (L_FLAG t ICANON && (q_data (secondary t) =? 0) && (20 <? LEFT (secondary t))) then
            _ ← sleep_if_empty fuel' ch;
            tty_read_loop fuel' ch buf time minimum oldalarm flag b nr
          else
            r ← on_channel ch (tty_read_pass 1024 b nr);
            let '(n, eof) := r in
            if eof : bool then mret (inl (b + n - buf))
            else
              flag ← (if negb (time =? 0) && negb (L_FLAG t ICANON) then rearm time oldalarm else mret flag);
              let done_ := if L_FLAG t ICANON then negb (b + n - buf =? 0) else minimum <=? b + n - buf in
              if done_ : bool then mret (inr (b + n))
              else tty_read_loop fuel' ch buf time minimum oldalarm flag (b + n) (nr - n)
    end.

Definition tty_read (fuel : nat) (channel buf nr : Z) : M ttys Z :=
  if (2 <? u32 channel) || (nr <? 0) then mret (-1)
  else
    t ← terminal (u32 channel);
    oldalarm ← y_proc (cur_get T_alarm);
    let time := 10 * cc t VTIME in
    let minimum := cc t VMIN in
    r ← (if negb (time =? 0) && (minimum =? 0) then
           r ← sooner time oldalarm;
           let '(f, w) := r in
           _ ← when f (y_proc (cur_put T_alarm w));
           mret (1, f)
         else mret (minimum, false));
    let '(minimum, flag) := r in
    let minimum := if nr <? minimum then nr else minimum in
    r ← tty_read_loop fuel (u32 channel) buf time minimum oldalarm flag buf nr;
    match r with
    | inl n => mret n
    | inr b =>
        _ ← y_proc (cur_put T_alarm oldalarm);
        sg ← y_proc (cur_get T_signal);
        mret (if negb (sg =? 0) && (b - buf =? 0) then - EINTR else b - buf)
    end.

(** ** tty_write *)

(** [while (nr>0)]: the number taken. *)
Fixpoint tty_write_loop (fuel : nat) (ch b nr : Z) : M ttys Z :=
  if nr <=? 0 then mret 0
  else
    match fuel with
    | O => halt NoFuel
    | S fuel' =>
        _ ← sleep_if_full fuel' ch;
        sg ← y_proc (cur_get T_signal);
        if negb (sg =? 0) then mret 0
        else
          n ← on_channel ch (tty_write_pass 1023 b nr);
          _ ← on_channel ch (channel_write fuel' ch);
          _ ← when (0 <? nr - n) tty_schedule;
          k ← tty_write_loop fuel' ch (b + n) (nr - n);
          mret (n + k)
    end.

Definition tty_write (fuel : nat) (channel buf nr : Z) : M ttys Z :=
  if (2 <? u32 channel) || (nr <? 0) then mret (-1)
  else tty_write_loop fuel (u32 channel) buf nr.
End tty_io.

(** A world in which nothing else happens. *)
Definition calm_world : TtyWorld :=
  {| tty_sleep_on := fun _ => mret tt; tty_schedule := mret tt; rs_write := mret tt |}.
