(* ===== verification/TtyOut.v ===== *)
(** * TtyOut: what [tty_write] shows

    [tty_write] of src/linux-0.01/kernel/tty_io.c cuts a text into pieces that
    fit the write queue, and a newline's carriage return may be the last
    character of a piece. What reaches the screen is the text all the same. *)

From S2P Require Import Prelude Mem Proc Sched Sys Console Tty TtyIo.

(** What is still to come out, when [f] says that the carriage return of the
    newline at the head is out already. *)
Definition to_come (f : Z) (l : list Z) : list Z :=
  match l with
  | [] => []
  | c :: l' => (if (c =? 10) && (f =? 0) then [13; 10] else [c]) ++ nlcr l'
  end.

Lemma to_come_0 l : to_come 0 l = nlcr l.
Proof. destruct l as [| c l]; [done |]. cbn. unfold nlcr. cbn. by rewrite andb_true_r. Qed.

Lemma length_nlcr l : (length (nlcr l) <= 2 * length l)%nat.
Proof.
  induction l as [| c l IH]; [done |]. unfold nlcr in *. cbn [flat_map]. rewrite length_app.
  destruct (c =? 10); cbn [length]; lia.
Qed.

Section pass.
Variables (s : tstate).

(** One pass takes [k] of the [n] characters, and stops at the last one or when
    the queue is full. *)
Record pass_result (f0 : Z) (q0 : tty_queue) (b : Z) (n k : nat) (f : Z) (q : tty_queue) (o : list Z) : Prop := {
  pr_le : (k <= n)%nat;
  pr_wf : queue_wf q;
  pr_put : contents q = contents q0 ++ o;
  pr_out : to_come f0 (user_text (umem (t_ps s)) b n) =
           o ++ to_come f (user_text (umem (t_ps s)) (b + Z.of_nat k) (n - k));
  pr_stop : k = n \/ FULL q = true;
  pr_flag : k = n -> (0 < n)%nat \/ f0 = 0 -> f = 0
}.

Definition in_pass (f : Z) (q : tty_queue) : tstate := set_t_tty (set_write_q q (t_tty s)) (set_t_cr_flag f s).

Lemma in_pass_wf k n f0 f1 f q0 q1 q o c b b' n' :
  pass_result f1 q1 b' n' k f q o -> contents q1 = contents q0 ++ [c] ->
  (forall t, to_come f1 (user_text (umem (t_ps s)) b' n') = t ->
             to_come f0 (user_text (umem (t_ps s)) b n) = c :: t) ->
  contents q = contents q0 ++ c :: o /\
  to_come f0 (user_text (umem (t_ps s)) b n) =
    (c :: o) ++ to_come f (user_text (umem (t_ps s)) (b' + Z.of_nat k) (n' - k)).
Proof.
  intros [] Hc Ht. split; [by rewrite pr_put0, Hc, <- app_assoc |]. by apply Ht.
Qed.

Lemma pass_idle fuel f q b n :
  n = 0%nat \/ FULL q = true -> tty_write_pass fuel b (Z.of_nat n) (in_pass f q) = Done 0 (in_pass f q).
Proof.
  intros H. destruct fuel as [| fuel]; cbn [tty_write_pass];
    rewrite (bind_Done (gets t_tty) _ (in_pass f q) (t_tty (in_pass f q)) (in_pass f q)) by done;
    (destruct H as [-> | H]; [done | change (write_q (t_tty (in_pass f q))) with q; by rewrite H, orb_true_r]).
Qed.

Lemma pass_any fuel f0 q0 b n :
  onlcr_only (t_tty s) -> queue_wf q0 -> LEFT q0 <= Z.of_nat fuel ->
  exists k f q o, pass_result f0 q0 b n k f q o /\
    tty_write_pass fuel b (Z.of_nat n) (in_pass f0 q0) = Done (Z.of_nat k) (in_pass f q).
Proof.
  intros Hm. revert f0 q0 b n; induction fuel as [| fuel IH]; intros f0 q0 b n Hq Hf.
  all: destruct (decide (n = 0%nat \/ FULL q0 = true)) as [Hi | Hi].
  1,3: exists 0%nat, f0, q0, []; split; [| by apply pass_idle];
    constructor; rewrite ?Z.add_0_r, ?Nat.sub_0_r, ?app_nil_r; (done || lia || tauto || idtac).
  1,2: destruct Hi; [left; lia | by right].
  { exfalso. apply Hi. right. apply Z.eqb_eq. rewrite LEFT_mod in *.
    pose proof (Z.mod_pos_bound (tail q0 - head q0 - 1) 1024 ltac:(lia)). lia. }
  apply Decidable.not_or in Hi as [Hn Hfull]. apply not_true_is_false in Hfull.
  destruct n as [| n]; [done |]. pose proof (user_text_S (umem (t_ps s)) b n) as Htx.
  set (c := s8 (load8 (umem (t_ps s)) b)) in *. pose proof (PUTCH_wf) as Hpw.
  assert (Hl : forall c, LEFT (PUTCH c q0) <= Z.of_nat fuel).
  { intros d. rewrite LEFT_CHARS in * by auto. rewrite <- !length_contents in *.
    rewrite PUTCH_contents, length_app by done. cbn [length]. lia. }
  destruct (decide (c = 10 /\ f0 = 0)) as [[Ec Ef] | Hne].
  - rewrite pass_newline by (done || lia).
    destruct (IH 1 (PUTCH 13 q0) b (S n)) as (k & f & q & o & Hr & Hrun); [by apply PUTCH_wf | by apply Hl |].
    exists k, f, q, (13 :: o). split; [| exact Hrun].
    destruct (in_pass_wf k (S n) f0 1 f q0 (PUTCH 13 q0) q o 13 b b (S n) Hr) as [H1 H2].
    { by apply PUTCH_contents. }
    { intros t <-. by rewrite Htx, Ec, Ef. }
    destruct Hr. constructor; try done. intros Hk _. apply pr_flag0; [done | left; lia].
  - rewrite (pass_plain fuel b (Z.of_nat (S n)) _ c); [| done | lia | done | done |].
    2: { cbn. destruct (decide (c = 10)); [right; tauto | by left]. }
    replace (Z.of_nat (S n) - 1) with (Z.of_nat n) by lia.
    destruct (IH 0 (PUTCH c q0) (b + 1) n) as (k & f & q & o & Hr & Hrun); [by apply PUTCH_wf | by apply Hl |].
    exists (S k), f, q, (c :: o). split.
    + destruct (in_pass_wf k (S n) f0 0 f q0 (PUTCH c q0) q o c b (b + 1) n Hr) as [H1 H2].
      { rewrite PUTCH_contents by done. unfold c. by rewrite s8_idem. }
      { intros t <-. rewrite Htx, to_come_0. cbn [to_come].
        replace ((c =? 10) && (f0 =? 0)) with false; [done |].
        symmetry. apply andb_false_iff. rewrite !Z.eqb_neq. lia. }
      destruct Hr. constructor; try done.
      * lia.
      * rewrite H2. do 3 f_equal. lia.
      * destruct pr_stop0; [left; lia | by right].
      * intros Hk _. apply pr_flag0; [lia | by right].
    + etransitivity; [exact (bind_Done _ _ _ _ _ Hrun) |]. unfold mret, M_ret. f_equal. lia.
Qed.
End pass.

(** ** The whole text *)

Definition no_signal (p : pstate) : Prop := cur_get T_signal p = Done 0 p.

(** Other tasks run: they leave this terminal, the console and the user's
    memory alone, and send no signal. *)
Record same_terminal (s s' : ttys) : Prop := {
  st_con : y_con s' = y_con s;
  st_tab : y_tab s' !! 0%nat = y_tab s !! 0%nat;
  st_flag : y_cr_flag s' = y_cr_flag s;
  st_umem : umem (y_ps s') = umem (y_ps s);
  st_signal : no_signal (y_ps s) -> no_signal (y_ps s')
}.
Class QuietWorld (TW : TtyWorld) : Prop :=
  schedule_quiet s : exists s', tty_schedule s = Done tt s' /\ same_terminal s s'.

(** The console after a piece, and after some pieces. *)
Definition show (e : Z) (k : console) (l : list Z) : console := set_cursor (con_feed e l k).
Definition show_all (e : Z) (ls : list (list Z)) (k : console) : console := fold_left (show e) ls k.

Lemma show_all_ok e ls k : con_wf k -> con_ok k (show_all e ls k).
Proof.
  revert k; induction ls as [| l ls IH]; intros k H; [by apply con_ok_refl |].
  apply (con_ok_then k (show e k l)); [by apply con_shown_ok | apply IH].
Qed.

Section write.
Context {TW : TtyWorld} {QW : QuietWorld TW}.

Lemma on_channel_run {A} (m : M tstate A) s t a v :
  y_tab s !! 0%nat = Some t -> m (view t s) = Done a v -> on_channel 0 m s = Done a (unview 0 v s).
Proof. intros Ht Hm. unfold on_channel, terminal, get_opt. cbn [Z.ltb Z.compare]. change (Z.to_nat 0) with 0%nat. by rewrite Ht, Hm. Qed.

(** A state in which terminal 0 is [t] with the write queue [q], ... *)
Definition with_queue (t : tty_struct) (f : Z) (q : tty_queue) (k : console) (s : ttys) : ttys :=
  {| y_con := k; y_tab := <[0%nat := set_write_q q t]> (y_tab s); y_ps := y_ps s; y_cr_flag := f |}.

Lemma with_queue_lookup t f q k s :
  is_Some (y_tab s !! 0%nat) -> y_tab (with_queue t f q k s) !! 0%nat = Some (set_write_q q t).
Proof. intros [t0 H]. apply list_lookup_insert_eq. by apply lookup_lt_Some in H. Qed.

(** One round: a piece of the text reaches the screen. *)
Lemma write_round fuel s t b n :
  y_tab s !! 0%nat = Some t -> onlcr_only t -> queue_wf (write_q t) ->
  90 ∉ contents (write_q t) ++ to_come (y_cr_flag s) (user_text (umem (y_ps s)) b n) ->
  exists k f q q' o s1, pass_result (view t s) (y_cr_flag s) (write_q t) b n k f q o /\
    queue_wf q' /\ contents q' = [] /\
    on_channel 0 (tty_write_pass 1023 b (Z.of_nat n)) s = Done (Z.of_nat k) s1 /\
    on_channel 0 (channel_write (S fuel) 0) s1 =
      Done tt (with_queue t f q' (show (ERASE_CHAR t) (y_con s) (contents (write_q t) ++ o)) s).
Proof.
  intros Ht Hm Hq Hz.
  destruct (pass_any (view t s) 1023 (y_cr_flag s) (write_q t) b n) as (k & f & q & o & Hr & Hrun);
    [done | done | rewrite LEFT_CHARS by done; pose proof (CHARS_range (write_q t)); lia |].
  replace (in_pass (view t s) (y_cr_flag s) (write_q t)) with (view t s) in Hrun by by destruct t.
  set (s1 := unview 0 (in_pass (view t s) f q) s).
  assert (Ht1 : y_tab s1 !! 0%nat = Some (set_write_q q t)).
  { cbn. apply list_lookup_insert_eq. by apply lookup_lt_Some in Ht. }
  pose proof (pr_put _ _ _ _ _ _ _ _ _ Hr) as Hput. pose proof (pr_out _ _ _ _ _ _ _ _ _ Hr) as Hout.
  destruct (con_write_run fuel (view (set_write_q q t) s1)) as (q' & Hq' & He & Hw).
  { apply (pr_wf _ _ _ _ _ _ _ _ _ Hr). }
  { change (90 ∉ contents q). rewrite Hput. change (t_ps (view t s)) with (y_ps s) in Hout.
    rewrite Hout in Hz. rewrite !not_elem_of_app in *. tauto. }
  exists k, f, q, q', o, s1. split; [done |]. split; [done |]. split; [done |].
  split; [by rewrite (on_channel_run _ s t _ _ Ht Hrun) |].
  etransitivity; [exact (on_channel_run _ s1 _ _ _ Ht1 Hw) |].
  unfold with_queue, unview, show. cbn. rewrite Hput. f_equal. f_equal. by rewrite list_insert_insert_eq.
Qed.

(** [tty_write] goes to sleep on a full queue only. *)
Lemma sleep_if_full_run fuel s t :
  y_tab s !! 0%nat = Some t -> FULL (write_q t) = false -> sleep_if_full fuel 0 s = Done tt s.
Proof.
  intros Ht Hf. unfold sleep_if_full.
  rewrite (bind_Done (terminal 0) _ s t s).
  - by rewrite Hf.
  - unfold terminal, get_opt. cbn [Z.ltb Z.compare]. change (Z.to_nat 0) with 0%nat. by rewrite Ht.
Qed.

Lemma no_signal_run s : no_signal (y_ps s) -> y_proc (cur_get T_signal) s = Done 0 s.
Proof. intros H. unfold y_proc. rewrite H. by destruct s. Qed.

(** [text] has been shown, in pieces, and nothing is left of it. *)
Record written (t : tty_struct) (text : list Z) (s s' : ttys) : Prop := {
  wr_con : exists ls, concat ls = text /\ y_con s' = show_all (ERASE_CHAR t) ls (y_con s);
  wr_flag : y_cr_flag s' = 0;
  wr_tab : exists q, y_tab s' !! 0%nat = Some (set_write_q q t) /\ queue_wf q /\ contents q = [];
  wr_umem : umem (y_ps s') = umem (y_ps s)
}.

Lemma written_last t f q s text :
  is_Some (y_tab s !! 0%nat) -> queue_wf q -> contents q = [] -> f = 0 ->
  written t text s (with_queue t f q (show (ERASE_CHAR t) (y_con s) text) s).
Proof.
  intros Ht Hq Hc Hf. constructor; [| done | | done].
  - exists [text]. split; [apply app_nil_r | done].
  - exists q. split; [by apply with_queue_lookup | done].
Qed.

Lemma written_more t f q s s1 s2 text1 text2 :
  same_terminal (with_queue t f q (show (ERASE_CHAR t) (y_con s) text1) s) s1 ->
  written (set_write_q q t) text2 s1 s2 -> written t (text1 ++ text2) s s2.
Proof.
  intros [] [(ls & <- & Hc) Hf (q2 & Ht & Hq) Hm]. constructor; [| done | | by rewrite Hm, st_umem0].
  - exists (text1 :: ls). split; [done |]. rewrite Hc, st_con0. done.
  - exists q2. split; [exact Ht | exact Hq].
Qed.

(** A piece that does not end the text is not empty. *)
Lemma piece_length ts f0 q0 b n k f q o :
  pass_result ts f0 q0 b n k f q o -> queue_wf q0 -> FULL q0 = false -> k <> n -> (0 < length o)%nat.
Proof.
  intros [] Hq Hf Hk. destruct pr_stop0 as [-> | Hfull]; [done |].
  rewrite FULL_contents in Hf, Hfull by done. apply Nat.eqb_eq in Hfull. apply Nat.eqb_neq in Hf.
  rewrite pr_put0, length_app in Hfull. lia.
Qed.

Lemma tty_write_run fuel s t b n :
  y_tab s !! 0%nat = Some t -> onlcr_only t -> queue_wf (write_q t) -> FULL (write_q t) = false ->
  no_signal (y_ps s) -> (0 < n)%nat ->
  90 ∉ contents (write_q t) ++ to_come (y_cr_flag s) (user_text (umem (y_ps s)) b n) ->
  (length (to_come (y_cr_flag s) (user_text (umem (y_ps s)) b n)) + 2 <= fuel)%nat ->
  exists s', tty_write_loop fuel 0 b (Z.of_nat n) s = Done (Z.of_nat n) s' /\
    written t (contents (write_q t) ++ to_come (y_cr_flag s) (user_text (umem (y_ps s)) b n)) s s'.
Proof.
  revert s t b n; induction fuel as [| fuel IH]; intros s t b n Ht Hm Hq Hf Hs Hn Hz Hfu; [lia |].
  destruct fuel as [| fuel]; [lia |]. cbn [tty_write_loop].
  rewrite (proj2 (Z.leb_gt (Z.of_nat n) 0)) by lia.
  rewrite (bind_Done _ _ _ _ _ (sleep_if_full_run (S fuel) s t Ht Hf)).
  rewrite (bind_Done _ _ _ _ _ (no_signal_run s Hs)). change (negb (0 =? 0)) with false. cbv iota.
  destruct (write_round fuel s t b n Ht Hm Hq Hz) as (k & f & q & q' & o & s1 & Hr & Hq' & He & H1 & H2).
  rewrite (bind_Done _ _ _ _ _ H1), (bind_Done _ _ _ _ _ H2).
  set (s2 := with_queue _ _ _ _ _). pose proof (mk_is_Some _ _ Ht) as Hi.
  pose proof (pr_out _ _ _ _ _ _ _ _ _ Hr) as Hout. change (t_ps (view t s)) with (y_ps s) in Hout.
  destruct (decide (k = n)) as [-> | Hk].
  - rewrite Z.sub_diag. change (when (0 <? 0) tty_schedule) with (mret tt : M ttys unit).
    rewrite (bind_Done (mret tt) _ s2 tt s2) by done. exists s2.
    split; [rewrite (bind_Done _ _ s2 0 s2) by done; unfold mret, M_ret; by rewrite Z.add_0_r |].
    rewrite Nat.sub_diag in Hout. cbn [user_text seq map to_come] in Hout. rewrite app_nil_r in Hout. rewrite Hout.
    apply written_last; try done. apply (pr_flag _ _ _ _ _ _ _ _ _ Hr); [done | by left].
  - pose proof (pr_le _ _ _ _ _ _ _ _ _ Hr) as Hle. pose proof (piece_length _ _ _ _ _ _ _ _ _ Hr Hq Hf Hk) as Ho.
    rewrite (proj2 (Z.ltb_lt 0 (Z.of_nat n - Z.of_nat k))) by lia.
    destruct (schedule_quiet s2) as (s3 & H3 & Hsame). unfold when. rewrite (bind_Done _ _ _ _ _ H3).
    pose proof Hsame as [Hc3 Ht3 Hf3 Hu3 Hs3].
    change (y_cr_flag s2) with f in Hf3. change (umem (y_ps s2)) with (umem (y_ps s)) in Hu3.
    destruct (IH s3 (set_write_q q' t) (b + Z.of_nat k) (n - k)%nat) as (s4 & H4 & Hw);
      rewrite ?Hf3, ?Hu3; change (write_q (set_write_q q' t)) with q'; rewrite ?He; try done; try lia.
    + rewrite Ht3. by apply with_queue_lookup.
    + rewrite FULL_contents, He by done. done.
    + apply Hs3. exact Hs.
    + rewrite Hout in Hz. rewrite !not_elem_of_app in *. split; [apply not_elem_of_nil | tauto].
    + rewrite Hout, length_app in Hfu. lia.
    + rewrite Hf3, Hu3 in Hw. change (write_q (set_write_q q' t)) with q' in Hw. rewrite He in Hw.
      exists s4. rewrite Nat2Z.inj_sub in H4 by lia. split.
      * rewrite (bind_Done _ _ _ _ _ H4). unfold mret, M_ret. f_equal. lia.
      * rewrite Hout, app_assoc. by eapply written_more.
Qed.

Lemma not_in_nlcr l : 90 ∉ l -> 90 ∉ nlcr l.
Proof.
  induction l as [| c l IH]; intros H; [done |]. apply not_elem_of_cons in H as [Hc H]. unfold nlcr in *.
  cbn [flat_map]. apply not_elem_of_app. split; [| by apply IH].
  destruct (c =? 10); rewrite ?not_elem_of_cons; repeat split; try done; apply not_elem_of_nil.
Qed.

(** A task with a signal pending writes nothing. *)
Lemma tty_write_signal fuel s t b n g :
  y_tab s !! 0%nat = Some t -> FULL (write_q t) = false -> cur_get T_signal (y_ps s) = Done g (y_ps s) -> g <> 0 ->
  (0 < n)%nat -> (0 < fuel)%nat -> tty_write fuel 0 b (Z.of_nat n) s = Done 0 s.
Proof.
  intros Ht Hf Hg Hne Hn Hfu. destruct fuel as [| fuel]; [lia |]. unfold tty_write. change (2 <? u32 0) with false.
  rewrite (proj2 (Z.ltb_ge (Z.of_nat n) 0)) by lia. cbn [orb tty_write_loop]. rewrite (proj2 (Z.leb_gt (Z.of_nat n) 0)) by lia.
  rewrite (bind_Done _ _ _ _ _ (sleep_if_full_run fuel s t Ht Hf)).
  rewrite (bind_Done (y_proc (cur_get T_signal)) _ s g s) by (unfold y_proc; rewrite Hg; by destruct s).
  by rewrite (proj2 (Z.eqb_neq g 0) Hne).
Qed.

(** C19: Writing [n] bytes, [n > 0], to a console in its usual output mode (a
    carriage return before each newline and nothing else), whose write queue is
    not full. With a signal pending the answer is 0 and nothing happens.
    Without one, when no carriage return is remembered and there is no letter Z
    in the text or in the queue (ESC Z makes the console answer), and as long as
    the tasks that run while the text is written leave this terminal, the
    console and the text alone and send no signal: [tty_write] returns [n],
    however long the text; the characters that waited in the write queue and
    then the text, a carriage return before each newline, have gone through the
    escape automaton, in order and in pieces, the queue is empty, and the flag
    that remembers a carriage return is clear. The console stays well formed and
    no byte outside video memory is written. [2n + 2] rounds are enough. *)
Theorem tty_write_correct fuel s t b n :
  y_tab s !! 0%nat = Some t -> onlcr_only t -> queue_wf (write_q t) -> FULL (write_q t) = false ->
  con_wf (y_con s) -> (0 < n)%nat -> (2 * n + 2 <= fuel)%nat ->
  (forall g, cur_get T_signal (y_ps s) = Done g (y_ps s) -> g <> 0 -> tty_write fuel 0 b (Z.of_nat n) s = Done 0 s) /\
  (no_signal (y_ps s) -> y_cr_flag s = 0 -> 90 ∉ contents (write_q t) -> 90 ∉ user_text (umem (y_ps s)) b n ->
   exists s', tty_write fuel 0 b (Z.of_nat n) s = Done (Z.of_nat n) s' /\
     written t (contents (write_q t) ++ nlcr (user_text (umem (y_ps s)) b n)) s s' /\
     con_ok (y_con s) (y_con s')).
Proof.
  intros Ht Hm Hq Hf Hk Hn Hfu. split; [intros g Hg Hne; by apply (tty_write_signal fuel s t b n g); (done || lia) |].
  intros Hs Hcr Hz Hz'. pose proof (length_nlcr (user_text (umem (y_ps s)) b n)) as Hl.
  replace (length (user_text (umem (y_ps s)) b n)) with n in Hl by (unfold user_text; by rewrite length_map, length_seq).
  destruct (tty_write_run fuel s t b n) as (s' & Hr & Hw); try done; rewrite ?Hcr, ?to_come_0.
  - rewrite not_elem_of_app. split; [done | by apply not_in_nlcr].
  - lia.
  - rewrite Hcr, to_come_0 in Hw. exists s'. split; [| split; [done |]].
    + unfold tty_write. change (2 <? u32 0) with false. rewrite (proj2 (Z.ltb_ge (Z.of_nat n) 0)) by lia. exact Hr.
    + destruct (wr_con _ _ _ _ Hw) as (ls & _ & Hc). rewrite Hc. by apply show_all_ok.
Qed.
End write.

(** "Hi" and two newlines, to the console as the kernel boots it. *)
Lemma calm_world_quiet : QuietWorld calm_world.
Proof. intros s. by exists s. Qed.

Definition write_demo : ttys :=
  {| y_con := con_demo; y_tab := tty_table 0x20000;
     y_ps := set_umem (store_bytes ∅ 100 [72; 105; 10; 10]) (demo_table [2000] {[2000 := mk_task 2 9 15]} 2000);
     y_cr_flag := 0 |}.

Lemma tty_write_witness :
  exists s' ls, @tty_write calm_world 10 0 100 4 write_demo = Done 4 s' /\
    concat ls = [72; 105; 13; 10; 13; 10] /\ y_con s' = show_all 127 ls con_demo.
Proof.
  destruct (@tty_write_correct calm_world calm_world_quiet 10 write_demo
    (init_tty 0x20000 0 (Z.lor OPOST ONLCR) 0 (Z.lor (Z.lor (Z.lor ICANON ECHO) ECHOCTL) ECHOKE) 0) 100 4)
    as [_ H].
  - done.
  - by vm_compute.
  - constructor; cbn [head tail buf write_q init_tty init_queue]; [lia | lia | by rewrite length_replicate].
  - by vm_compute.
  - exact con_demo_wf.
  - lia.
  - lia.
  - destruct H as (s' & Hr & [(ls & Hl & Hc) _ _ _] & _).
    + by vm_compute.
    + done.
    + apply not_elem_of_nil.
    + apply (bool_decide_eq_true_1 (90 ∉ _)). by vm_compute.
    + exists s', ls. split; [exact Hr |]. split; [| exact Hc]. rewrite Hl. by vm_compute.
Defined.
