(* ===== verification/Printk.v ===== *)
(** * Printk: src/linux-0.01/kernel/printk.c and panic.c

    [printk] formats into a buffer of the kernel and hands it to [tty_write]
    with %fs on the kernel's data: what the terminal code reads as user memory
    is the kernel's while it runs, and the user's is back afterwards. *)

From S2P Require Import Prelude Mem Printf Vsprintf Proc Sched Console Tty TtyIo TtyOut.

(** [static char buf[1024]], at the address [kbuf]; a longer text is undefined
    behaviour, and so is a %n, which nothing in the kernel uses. *)
Definition sizeof_buf : nat := 1024.

Section printk.
Context {TW : TtyWorld} (kbuf : Z).

(** [push %fs; push %ds; pop %fs] and [pop %fs] around [m]. *)
Definition with_kernel_fs {A} (kernel : memory) (m : M ttys A) : M ttys A := fun s =>
  match m (set_y_ps (set_umem kernel (y_ps s)) s) with
  | Done a s' => Done a (set_y_ps (set_umem (umem (y_ps s)) (y_ps s')) s')
  | Halt r => Halt r
  end.

Definition printk (fuel : nat) (fmt : list Z) (args : list larg) : M ttys Z :=
  match vsprintf fmt args with
  | VDone text [] =>
      if (length text <? sizeof_buf)%nat then
        let i := Z.of_nat (length text) in
        _ ← with_kernel_fs (store_bytes ∅ kbuf (text ++ [0])) (tty_write fuel 0 kbuf i);
        mret i
      else fault "buf"
  | VDone _ (_ :: _) => fault "%n"
  | VArg | VNull | VPast => fault "vsprintf"
  | VFuel => halt NoFuel
  end.

(** Up to the [for(;;)] that it ends in. *)
Definition panic_message : list Z := bytes "Kernel panic: %s" ++ [10; 13].
Definition panic (fuel : nat) (s : list Z) : M ttys unit := _ ← printk fuel panic_message [LStr s]; mret tt.

Lemma user_text_stored m a l : 0 <= a -> a + Z.of_nat (length l) < 2 ^ 32 -> Forall (fun c => 0 <= c < 128) l ->
  user_text (store_bytes m a (l ++ [0])) a (length l) = l.
Proof.
  intros H0 H1 Hl. apply list_eq. intros i. unfold user_text. rewrite list_lookup_fmap.
  destruct (decide (i < length l)%nat) as [Hi | Hi].
  - rewrite lookup_seq_lt by done. cbn [fmap option_fmap option_map]. destruct (lookup_lt_is_Some_2 l i Hi) as [c Hc].
    pose proof (Forall_lookup_1 _ _ _ _ Hl Hc) as Hr. cbn beta in Hr. rewrite Hc. f_equal.
    rewrite load8_store_bytes by (rewrite ?length_app; cbn [length]; unfold in_u32; lia).
    rewrite decide_True by (rewrite length_app; cbn [length]; lia).
    replace (Z.to_nat (a + Z.of_nat (0 + i) - a)) with i by lia.
    rewrite lookup_total_app_l by lia. rewrite (list_lookup_total_correct _ _ _ Hc). wrap_lia.
  - rewrite !lookup_ge_None_2 by (rewrite ?length_seq; lia). done.
Qed.

Lemma cur_get_fs m p f g : cur_get f p = Done g p -> cur_get f (set_umem m p) = Done g (set_umem m p).
Proof.
  destruct (tasks p !! current p : option task_struct) as [u |] eqn:Eu.
  - rewrite (cur_get_run u _ p Eu), (cur_get_run u _ (set_umem m p) Eu). intros [= E]. by rewrite E.
  - unfold cur_get, tget, get_opt, mbind, M_bind, gets. cbv beta iota. by rewrite (Eu : @lookup Z (tfield -> Z) (gmap Z task_struct) _ (current p) (tasks p) = None).
Qed.

Lemma no_signal_fs m p : no_signal p -> no_signal (set_umem m p).
Proof. apply cur_get_fs. Qed.

(** The text of a panic. *)
Lemma panic_text s : vsprintf panic_message [LStr s] = VDone (bytes "Kernel panic: " ++ s ++ [10; 13]) [].
Proof.
  assert (E : vsprintf panic_message [LStr s] = VDone (bytes "Kernel panic: " ++ conv_s s (-1) (-1) 0 ++ [10; 13]) []) by reflexivity.
  rewrite E. unfold conv_s. change (-1 <? 0) with true. change (has 0 Vsprintf.LEFT) with false. cbn [negb]. cbv zeta.
  unfold pad. rewrite Nat2Z.id, firstn_all. replace (Z.to_nat (-1 - Z.of_nat (length s))) with 0%nat by lia. done.
Qed.
Context {QW : QuietWorld TW}.

Lemma printk_run fuel fmt args text s t :
  vsprintf fmt args = VDone text [] -> (0 < length text < 1024)%nat -> Forall (fun c => 0 <= c < 128) text ->
  90 ∉ text -> 90 ∉ contents (write_q t) -> 0 <= kbuf -> kbuf + 1024 <= 2 ^ 32 ->
  y_tab s !! 0%nat = Some t -> onlcr_only t -> queue_wf (write_q t) -> FULL (write_q t) = false ->
  y_cr_flag s = 0 -> no_signal (y_ps s) -> con_wf (y_con s) -> (2 * length text + 2 <= fuel)%nat ->
  exists s', printk fuel fmt args s = Done (Z.of_nat (length text)) s' /\
    written t (contents (write_q t) ++ nlcr text) s s' /\ con_ok (y_con s) (y_con s').
Proof.
  intros Hv Hlen Hasc Hz Hz' H0 H1 Ht Hm Hq Hf Hcr Hs Hk Hfu. set (kern := store_bytes ∅ kbuf (text ++ [0])).
  set (s1 := set_y_ps (set_umem kern (y_ps s)) s).
  assert (Hut : user_text kern kbuf (length text) = text) by (apply user_text_stored; (done || lia)).
  assert (Hs1 : no_signal (y_ps s1)) by by apply no_signal_fs.
  pose proof (length_nlcr text) as Hl.
  destruct (tty_write_run fuel s1 t kbuf (length text)) as (s2 & Hr & Hw); try done; try lia.
  - change (y_cr_flag s1) with (y_cr_flag s). change (umem (y_ps s1)) with kern. rewrite Hcr, to_come_0, Hut, not_elem_of_app.
    split; [done | by apply not_in_nlcr].
  - change (y_cr_flag s1) with (y_cr_flag s). change (umem (y_ps s1)) with kern. rewrite Hcr, to_come_0, Hut. lia.
  - change (y_cr_flag s1) with (y_cr_flag s) in Hw. change (umem (y_ps s1)) with kern in Hw. rewrite Hcr, to_come_0, Hut in Hw.
    assert (Hwr : tty_write fuel 0 kbuf (Z.of_nat (length text)) s1 = Done (Z.of_nat (length text)) s2).
    { unfold tty_write. change (2 <? u32 0) with false. rewrite (proj2 (Z.ltb_ge (Z.of_nat (length text)) 0)) by lia. exact Hr. }
    set (s3 := set_y_ps (set_umem (umem (y_ps s)) (y_ps s2)) s2). exists s3. split; [| split].
    + unfold printk. rewrite Hv. unfold sizeof_buf. rewrite (proj2 (Nat.ltb_lt _ _)) by lia. cbv zeta.
      erewrite bind_Done; [reflexivity |]. unfold with_kernel_fs. fold kern s1. by rewrite Hwr.
    + by destruct Hw.
    + destruct (wr_con _ _ _ _ Hw) as (ls & _ & Hc). change (y_con s3) with (y_con s2). rewrite Hc. by apply show_all_ok.
Qed.

(** [panic] when a signal is pending for the task that panics. *)
Lemma panic_signal fuel msg s t g :
  (length msg < 1000)%nat -> y_tab s !! 0%nat = Some t -> FULL (write_q t) = false ->
  cur_get T_signal (y_ps s) = Done g (y_ps s) -> g <> 0 -> (0 < fuel)%nat -> panic fuel msg s = Done tt s.
Proof.
  intros Hlen Ht Hf Hg Hne Hfu. unfold panic, printk. rewrite panic_text. set (text := _ ++ _).
  assert (Hlt : length text = (16 + length msg)%nat) by (unfold text; rewrite !length_app; change (length (bytes "Kernel panic: ")) with 14%nat; cbn; lia).
  unfold sizeof_buf. rewrite (proj2 (Nat.ltb_lt _ _)) by lia. cbv zeta. set (kern := store_bytes _ _ _).
  assert (Hw : with_kernel_fs kern (tty_write fuel 0 kbuf (Z.of_nat (length text))) s = Done 0 s).
  { unfold with_kernel_fs. rewrite (tty_write_signal fuel _ t _ _ g); try done; [by destruct s as [? ? [] ?] | by apply cur_get_fs | lia]. }
  rewrite (bind_Done _ _ s (Z.of_nat (length text)) s); [done |]. by rewrite (bind_Done _ _ _ _ _ Hw).
Qed.

(** C36: [panic] of a text of fewer than 1000 characters, on a console in its
    usual output mode whose write queue is not full. If the task that panics has
    a signal pending, nothing is shown: [tty_write] returns at once. If not, and
    the text is ASCII without newlines, no letter Z is in it or waits in the
    queue, no carriage return is remembered and the other tasks leave the
    terminal alone while the text is written, then "Kernel panic: ", the text
    and a new line are on the console, behind what waited for it in the write
    queue. Either way, whatever %fs was, the memory of the program that runs is
    what it was. *)
Theorem panic_correct fuel msg s t :
  (length msg < 1000)%nat -> 0 <= kbuf -> kbuf + 1024 <= 2 ^ 32 ->
  y_tab s !! 0%nat = Some t -> onlcr_only t -> queue_wf (write_q t) -> FULL (write_q t) = false ->
  con_wf (y_con s) -> (2 * length msg + 34 <= fuel)%nat ->
  (forall g, cur_get T_signal (y_ps s) = Done g (y_ps s) -> g <> 0 -> panic fuel msg s = Done tt s) /\
  (no_signal (y_ps s) -> y_cr_flag s = 0 ->
   Forall (fun c => 0 <= c < 128 /\ c <> 90) msg -> 10 ∉ msg -> 90 ∉ contents (write_q t) ->
   exists s', panic fuel msg s = Done tt s' /\
     written t (contents (write_q t) ++ bytes "Kernel panic: " ++ msg ++ [13; 10; 13]) s s' /\ con_ok (y_con s) (y_con s')).
Proof.
  intros Hlen H0 H1 Ht Hm Hq Hf Hk Hfu.
  split; [intros g Hg Hne; apply (panic_signal fuel msg s t g); (done || lia) |].
  intros Hs Hcr Hmsg Hnl Hz'. set (text := bytes "Kernel panic: " ++ msg ++ [10; 13]).
  assert (Hlt : length text = (16 + length msg)%nat) by (unfold text; rewrite !length_app; change (length (bytes "Kernel panic: ")) with 14%nat; cbn; lia).
  destruct (printk_run fuel panic_message [LStr msg] text s t (panic_text msg)) as (s' & Hr & Hw & Hc); try done; try lia.
  - unfold text. apply Forall_app. split; [by apply (bool_decide_unpack (Forall (fun c => 0 <= c < 128) (bytes "Kernel panic: "))) |].
    apply Forall_app. split; [eapply Forall_impl; [exact Hmsg | by intros c [? _]] | repeat constructor; lia].
  - unfold text. rewrite !not_elem_of_app. split; [by apply (bool_decide_unpack (90 ∉ bytes "Kernel panic: ")) |]. split.
    + intros Hin. rewrite Forall_forall in Hmsg. by destruct (Hmsg 90 Hin).
    + by apply (bool_decide_unpack (90 ∉ [10; 13])).
  - exists s'. split; [unfold panic; by rewrite (bind_Done _ _ _ _ _ Hr) |]. split; [| done].
    assert (nlcr text = bytes "Kernel panic: " ++ msg ++ [13; 10; 13]) as <-; [| done].
    unfold text, nlcr. rewrite !flat_map_app. f_equal. f_equal.
    clear -Hnl. induction msg as [| c msg IH]; [done |]. apply not_elem_of_cons in Hnl as [Hc Hnl]. cbn [flat_map].
    rewrite (proj2 (Z.eqb_neq c 10)) by congruence. by rewrite IH.
Qed.
End printk.

(** The kernel panics on the console as it boots. *)
Lemma panic_witness :
  exists s' ls, @panic calm_world 0x5000 60 (bytes "no memory") write_demo = Done tt s' /\
    concat ls = bytes "Kernel panic: no memory" ++ [13; 10; 13] /\ y_con s' = show_all 127 ls con_demo /\
    umem (y_ps s') = umem (y_ps write_demo).
Proof.
  destruct (@panic_correct calm_world 0x5000 calm_world_quiet 60 (bytes "no memory") write_demo
    (init_tty 0x20000 0 (Z.lor OPOST ONLCR) 0 (Z.lor (Z.lor (Z.lor ICANON ECHO) ECHOCTL) ECHOKE) 0))
    as [_ H].
  - by vm_compute; lia.
  - lia.
  - lia.
  - done.
  - by vm_compute.
  - constructor; cbn [head tail buf write_q init_tty init_queue]; [lia | lia | by rewrite length_replicate].
  - by vm_compute.
  - exact con_demo_wf.
  - vm_compute; lia.
  - destruct H as (s' & Hr & [(ls & Hl & Hc) _ _ Hu] & _).
    + by vm_compute.
    + done.
    + repeat constructor; by vm_compute.
    + apply (bool_decide_eq_true_1 (10 ∉ _)). by vm_compute.
    + apply not_elem_of_nil.
    + exists s', ls. split; [exact Hr |]. split; [rewrite Hl; by vm_compute |]. split; [exact Hc | exact Hu].
Defined.
