(* ===== verification/TtyIn.v ===== *)
(** * TtyIn: what [tty_read] delivers

    A read from a terminal in canonical mode, src/linux-0.01/kernel/tty_io.c,
    when there is something to read. *)

From S2P Require Import Prelude Mem Proc Sched Sys Console Tty TtyIo.

(** A character that ends a line, for the count of lines in a queue. *)
Definition line_end (t : tty_struct) (c : Z) : bool := (c =? EOF_CHAR t) || (c =? 10).
Definition lines (t : tty_struct) (l : list Z) : Z := Z.of_nat (length (List.filter (line_end t) l)).

Lemma lines_cons t c l : lines t (c :: l) = Z.b2z (line_end t c) + lines t l.
Proof. unfold lines. cbn. destruct (line_end t c); cbn [length Z.b2z]; lia. Qed.

Section read.
Variables (s : tstate).
Abbreviation t := (t_tty s).

(** The state in which the characters are at [m] and the queue is [q]. *)
Definition reading (m : memory) (q : tty_queue) : tstate :=
  set_t_ps (set_umem m (t_ps s)) (set_t_tty (set_secondary q t) s).

(** The queue after [c] was taken from it. *)
Definition take_char (c : Z) (q : tty_queue) : tty_queue :=
  if line_end t c then set_q_data (q_data q - 1) (GETCH q).2 else (GETCH q).2.

Lemma take_char_spec c l q :
  queue_wf q -> contents q = c :: l -> in_u32 (q_data q) ->
  queue_wf (take_char c q) /\ contents (take_char c q) = l /\
  q_data (take_char c q) = u32 (q_data q - Z.b2z (line_end t c)) /\ in_u32 (q_data (take_char c q)).
Proof.
  intros Hq Hc Hd. assert (Hne : contents q <> []) by (by rewrite Hc).
  pose proof (GETCH_contents q Hq Hne) as Hg. rewrite Hc in Hg. injection Hg as _ Hl.
  pose proof (GETCH_wf q Hq) as [H1 H2 H3]. unfold take_char. destruct (line_end t c); cbn [Z.b2z].
  - split; [by constructor |]. split; [symmetry; exact Hl |]. split; [done | apply u32_range].
  - split; [by constructor |]. split; [symmetry; exact Hl |].
    change (q_data (GETCH q).2) with (q_data q). rewrite Z.sub_0_r. by rewrite u32_small.
Qed.

Lemma GETCH_head q c l : queue_wf q -> contents q = c :: l -> (GETCH q).1 = c.
Proof.
  intros Hq Hc. assert (Hne : contents q <> []) by (by rewrite Hc).
  pose proof (GETCH_contents q Hq Hne) as Hg. rewrite Hc in Hg. by injection Hg.
Qed.

(** The part of a turn up to the test for the end of file. *)
Lemma read_step {A} (K : Z -> tty_struct -> M tstate A) m q c l :
  queue_wf q -> contents q = c :: l ->
  (c ← get_secondary;
   t ← gets t_tty;
   _ ← when ((c =? EOF_CHAR t) || (c =? 10))
         (on_tty (fun t => set_secondary (set_q_data (q_data (secondary t) - 1) (secondary t)) t));
   K c t) (reading m q) = K c (set_secondary (GETCH q).2 t) (reading m (take_char c q)).
Proof.
  intros Hq Hc. pose proof (GETCH_head q c l Hq Hc) as Hh.
  rewrite (bind_Done get_secondary _ (reading m q) c (reading m (GETCH q).2)).
  2: { unfold get_secondary. cbn [t_tty reading set_t_ps set_t_tty secondary set_secondary].
       rewrite (surjective_pairing (GETCH q)), Hh. done. }
  rewrite (bind_Done (gets t_tty) _ _ (set_secondary (GETCH q).2 t) (reading m (GETCH q).2)) by done.
  unfold take_char, line_end. change (EOF_CHAR (set_secondary (GETCH q).2 t)) with (EOF_CHAR t).
  by destruct ((c =? EOF_CHAR t) || (c =? 10)).
Qed.

Lemma read_char fuel b nr m q c l :
  queue_wf q -> contents q = c :: l -> c <> EOF_CHAR t ->
  tty_read_pass (S fuel) b nr (reading m q) =
  (if (0 <? nr - 1) && negb (EMPTY (take_char c q)) then
     '(n, e) ← tty_read_pass fuel (b + 1) (nr - 1);
     mret (n + 1, e)
   else mret (1, false)) (reading (store8 m b c) (take_char c q)).
Proof.
  intros Hq Hc He. cbn [tty_read_pass]. rewrite (read_step _ m q c l Hq Hc).
  change (EOF_CHAR (set_secondary (GETCH q).2 t)) with (EOF_CHAR t).
  rewrite (proj2 (Z.eqb_neq c (EOF_CHAR t)) He). cbn [andb].
  rewrite (bind_Done (lift_ps _) _ _ tt (reading (store8 m b c) (take_char c q))) by done.
  by rewrite (bind_Done (gets t_tty) _ _ (set_secondary (take_char c q) t)
    (reading (store8 m b c) (take_char c q))) by done.
Qed.

Lemma read_eof fuel b nr m q l :
  queue_wf q -> contents q = EOF_CHAR t :: l -> L_FLAG t ICANON = true ->
  tty_read_pass (S fuel) b nr (reading m q) = Done (0, true) (reading m (take_char (EOF_CHAR t) q)).
Proof.
  intros Hq Hc Hf. cbn [tty_read_pass]. rewrite (read_step _ m q _ l Hq Hc).
  change (EOF_CHAR (set_secondary (GETCH q).2 t)) with (EOF_CHAR t). rewrite Z.eqb_refl.
  change (L_FLAG (set_secondary (GETCH q).2 t) ICANON) with (L_FLAG t ICANON). by rewrite Hf.
Qed.

(** Where a pass stops: [pre] is delivered, the characters [used] behind it (an
    end of file) are consumed, [rest] stays. *)
Definition stops (nr : Z) (pre used rest : list Z) : Prop :=
  (used = [] /\ 0 < Z.of_nat (length pre) <= nr /\ (Z.of_nat (length pre) = nr \/ rest = [])) \/
  (used = [EOF_CHAR t] /\ Z.of_nat (length pre) < nr).

Lemma stops_cons nr c pre used rest :
  stops nr (c :: pre) used rest -> pre ++ used <> [] -> stops (nr - 1) pre used rest.
Proof.
  intros [(-> & H1 & H2) | (-> & H)] Hne; cbn [length] in *.
  - left. split; [done |]. rewrite app_nil_r in Hne. destruct pre; [done |]. cbn [length] in *.
    split; [lia |]. destruct H2 as [H2 | H2]; [left; lia | by right].
  - right. split; [done |]. lia.
Qed.

Lemma read_pass_run pre : forall fuel b nr m q used rest,
  queue_wf q -> contents q = pre ++ used ++ rest -> in_u32 (q_data q) -> L_FLAG t ICANON = true ->
  EOF_CHAR t ∉ pre -> stops nr pre used rest -> (length pre < fuel)%nat ->
  exists q', queue_wf q' /\ contents q' = rest /\
    q_data q' = u32 (q_data q - lines t (pre ++ used)) /\
    tty_read_pass fuel b nr (reading m q) =
      Done (Z.of_nat (length pre), negb (bool_decide (used = []))) (reading (store_bytes m b pre) q').
Proof.
  induction pre as [| c pre IH]; intros fuel b nr m q used rest Hq Hc Hd Hf He Hs Hfu;
    (destruct fuel as [| fuel]; [cbn in Hfu; lia |]).
  - destruct Hs as [(-> & H & _) | (-> & H)]; [cbn in H; lia |].
    rewrite (read_eof fuel b nr m q rest) by done.
    destruct (take_char_spec _ rest q Hq Hc Hd) as (H1 & H2 & H3 & _).
    exists (take_char (EOF_CHAR t) q). split; [done |]. split; [done |]. split; [| done].
    cbn [app]. rewrite lines_cons, H3. f_equal. unfold lines. cbn. lia.
  - cbn [app] in Hc. apply not_elem_of_cons in He as [Hce He].
    rewrite (read_char fuel b nr m q c (pre ++ used ++ rest)) by done.
    destruct (take_char_spec _ _ q Hq Hc Hd) as (H1 & H2 & H3 & H4).
    rewrite EMPTY_contents, H2 by done. cbn [app length] in *. rewrite lines_cons.
    destruct (decide (pre ++ used = [])) as [E | E].
    + apply app_eq_nil in E as [-> ->]. destruct Hs as [(_ & Hn & Hs) | (Hs & _)]; [| done].
      replace ((0 <? nr - 1) && negb (bool_decide ([] ++ [] ++ rest = []))) with false.
      2: { symmetry. apply andb_false_iff. cbn in *. destruct Hs as [Hs | ->]; [left; apply Z.ltb_ge; lia | by right]. }
      exists (take_char c q). split; [done |]. split; [exact H2 |]. split; [| done].
      rewrite H3. f_equal. unfold lines. cbn. lia.
    + pose proof (stops_cons _ _ _ _ _ Hs E) as Hs'.
      destruct (IH fuel (b + 1) (nr - 1) (store8 m b c) (take_char c q) used rest) as (q' & G1 & G2 & G3 & G4);
        try done; [lia |].
      replace ((0 <? nr - 1) && negb (bool_decide (pre ++ used ++ rest = []))) with true.
      2: { symmetry. apply andb_true_iff. split.
           - apply Z.ltb_lt. destruct Hs' as [(_ & H & _) | (_ & H)]; lia.
           - rewrite bool_decide_eq_false_2; [done |]. rewrite app_assoc. intros H. apply app_eq_nil in H. tauto. }
      exists q'. split; [done |]. split; [done |]. split.
      * rewrite G3, H3. rewrite <- Z.add_opp_r, u32_add_idem_l. f_equal. lia.
      * etransitivity; [exact (bind_Done _ _ _ _ _ G4) |]. cbn [store_bytes]. unfold mret, M_ret. do 2 f_equal. lia.
Qed.
End read.

(** ** The whole call *)

Lemma y_cur_get s c f : tasks (y_ps s) !! current (y_ps s) = Some c -> y_proc (cur_get f) s = Done (c f) s.
Proof. intros H. unfold y_proc. rewrite (cur_get_run c) by done. by destruct s. Qed.

Lemma terminal_run s ch t : 0 <= ch -> y_tab s !! Z.to_nat ch = Some t -> terminal ch s = Done t s.
Proof. intros H Ht. unfold terminal, get_opt. rewrite (proj2 (Z.ltb_ge ch 0)) by done. by rewrite Ht. Qed.

Lemma on_channel_done {A} (m : M tstate A) s ch t a v :
  0 <= ch -> y_tab s !! Z.to_nat ch = Some t -> m (view t s) = Done a v ->
  on_channel ch m s = Done a (unview (Z.to_nat ch) v s).
Proof. intros H Ht Hm. unfold on_channel. by rewrite (terminal_run _ _ _ H Ht), Hm. Qed.

Section whole.
Context {TW : TtyWorld}.

(** A read that finds something, from the test of the loop on. *)
Lemma tty_read_loop_run fuel s c ch t buf minimum oldalarm nr pre used rest :
  0 <= ch -> y_tab s !! Z.to_nat ch = Some t -> tasks (y_ps s) !! current (y_ps s) = Some c -> c T_signal = 0 ->
  L_FLAG t ICANON = true -> queue_wf (secondary t) -> in_u32 (q_data (secondary t)) ->
  contents (secondary t) = pre ++ used ++ rest -> EOF_CHAR t ∉ pre -> 0 < nr ->
  stops (view t s) nr pre used rest -> q_data (secondary t) <> 0 \/ LEFT (secondary t) <= 20 ->
  exists q, queue_wf q /\ contents q = rest /\ q_data q = u32 (q_data (secondary t) - lines t (pre ++ used)) /\
    tty_read_loop (S fuel) ch buf 0 minimum oldalarm false buf nr s =
      Done (if bool_decide (used = []) then inr (buf + Z.of_nat (length pre)) else inl (Z.of_nat (length pre)))
           (unview (Z.to_nat ch) (reading (view t s) (store_bytes (umem (y_ps s)) buf pre) q) s).
Proof.
  intros Hch Ht Hc Hsg Hcan Hq Hd Hcont He Hnr Hst Hav. cbn [tty_read_loop].
  rewrite (proj2 (Z.leb_gt nr 0)) by lia.
  rewrite (bind_Done _ _ _ _ _ (y_cur_get s c T_signal Hc)), Hsg. cbn [andb].
  change (negb (0 =? 0)) with false. cbv iota.
  rewrite (bind_Done _ _ _ _ _ (terminal_run _ _ _ Hch Ht)).
  assert (Hne : contents (secondary t) <> []).
  { rewrite Hcont. destruct Hst as [(_ & H & _) | (-> & _)]; destruct pre; done || (cbn in H; lia). }
  replace (EMPTY (secondary t) || _) with false.
  2: { symmetry. apply orb_false_iff. rewrite EMPTY_contents, bool_decide_eq_false_2 by done. split; [done |].
       rewrite Hcan. cbn [andb]. apply andb_false_iff. rewrite Z.eqb_neq, Z.ltb_ge. lia. }
  pose proof (length_contents (secondary t)) as Hl. pose proof (CHARS_range (secondary t)) as Hr.
  rewrite Hcont, length_app in Hl.
  destruct (read_pass_run (view t s) pre 1024 buf nr (umem (y_ps s)) (secondary t) used rest)
    as (q & H1 & H2 & H3 & H4); try done; [lia |].
  replace (reading (view t s) (umem (y_ps s)) (secondary t)) with (view t s) in H4
    by (destruct s as [? ? [] ?], t; done).
  exists q. split; [done |]. split; [done |]. split; [exact H3 |].
  rewrite (bind_Done _ _ _ _ _ (on_channel_done _ _ _ _ _ _ Hch Ht H4)).
  destruct Hst as [(-> & Hp & _) | (-> & _)].
  - rewrite bool_decide_eq_true_2 by done. cbn [negb]. rewrite Hcan.
    cbn [Z.eqb negb andb]. cbv iota.
    rewrite (bind_Done (mret false) _ _ false (unview (Z.to_nat ch) (reading (view t s) (store_bytes (umem (y_ps s)) buf pre) q) s)) by done.
    cbv zeta. rewrite (proj2 (Z.eqb_neq (buf + Z.of_nat (length pre) - buf) 0)) by lia. done.
  - rewrite bool_decide_eq_false_2 by done. cbn [negb]. cbv iota. unfold mret, M_ret. do 2 f_equal. lia.
Qed.

(** C20: A read of [nr] bytes, [nr > 0], from a terminal in canonical mode
    without a timeout. With a signal pending the answer is -EINTR, whatever
    waits, and the terminals, the console and the user's memory are as they
    were. Without one, when a complete line waits (or so many characters that it
    may not grow): it delivers the characters up to the first end of file, or
    all of them, but at most [nr], to the user's buffer, and returns their
    number; it takes them, and an end of file it met, from the queue, and their
    line ends from the queue's count of lines. The other terminals and the
    console are not touched, and nobody has slept. *)
Theorem tty_read_correct fuel s c ch t buf nr :
  0 <= ch <= 2 -> y_tab s !! Z.to_nat ch = Some t -> tasks (y_ps s) !! current (y_ps s) = Some c ->
  L_FLAG t ICANON = true -> cc t VTIME = 0 -> 0 < nr ->
  (c T_signal <> 0 ->
   exists s', tty_read (S fuel) ch buf nr s = Done (- EINTR) s' /\
     umem (y_ps s') = umem (y_ps s) /\ y_tab s' = y_tab s /\ y_con s' = y_con s /\ y_cr_flag s' = y_cr_flag s) /\
  (forall pre used rest, c T_signal = 0 -> queue_wf (secondary t) -> in_u32 (q_data (secondary t)) ->
   contents (secondary t) = pre ++ used ++ rest -> EOF_CHAR t ∉ pre ->
   stops (view t s) nr pre used rest -> q_data (secondary t) <> 0 \/ LEFT (secondary t) <= 20 ->
   exists s' q,
     tty_read (S fuel) ch buf nr s = Done (Z.of_nat (length pre)) s' /\
     umem (y_ps s') = store_bytes (umem (y_ps s)) buf pre /\
     y_tab s' = <[Z.to_nat ch := set_secondary q t]> (y_tab s) /\ y_con s' = y_con s /\
     queue_wf q /\ contents q = rest /\ q_data q = u32 (q_data (secondary t) - lines t (pre ++ used))).
Proof.
  intros Hch Ht Hc Hcan Hvt Hnr. unfold tty_read.
  rewrite (u32_small ch) by (unfold in_u32; lia).
  rewrite (proj2 (Z.ltb_ge 2 ch)), (proj2 (Z.ltb_ge nr 0)) by lia. cbn [orb].
  rewrite (bind_Done _ _ _ _ _ (terminal_run _ ch t ltac:(lia) Ht)).
  rewrite (bind_Done _ _ _ _ _ (y_cur_get s c T_alarm Hc)). cbv zeta. rewrite Hvt. change (10 * 0) with 0.
  cbn [Z.eqb negb andb].
  rewrite (bind_Done (mret (cc t VMIN, false)) _ s (cc t VMIN, false) s) by done.
  split.
  { intros Hsg. rewrite (bind_Done (tty_read_loop _ _ _ _ _ _ _ _ _) _ s (inr buf) s).
    2: { cbn [tty_read_loop]. rewrite (proj2 (Z.leb_gt nr 0)) by lia.
         rewrite (bind_Done _ _ _ _ _ (y_cur_get s c T_signal Hc)). cbn [andb]. by rewrite (proj2 (Z.eqb_neq _ 0) Hsg). }
    set (s2 := set_y_ps (set_tasks (<[current (y_ps s) := tset T_alarm (c T_alarm) c]> (tasks (y_ps s))) (y_ps s)) s).
    rewrite (bind_Done _ _ s tt s2) by (unfold y_proc; by rewrite (cur_put_run c) by exact Hc).
    rewrite (bind_Done _ _ s2 (c T_signal) s2).
    2: { unfold y_proc. erewrite cur_get_run by (apply lookup_insert_eq). rewrite tset_ne by done. by destruct s2. }
    exists s2. split; [| done]. rewrite (proj2 (Z.eqb_neq _ 0) Hsg), Z.sub_diag. done. }
  intros pre used rest Hsg Hq Hd Hcont He Hst Hav.
  destruct (tty_read_loop_run fuel s c ch t buf (if nr <? cc t VMIN then nr else cc t VMIN) (c T_alarm) nr pre used rest)
    as (q & H1 & H2 & H3 & Hrun); try done; [lia |].
  rewrite (bind_Done _ _ _ _ _ Hrun). set (s1 := unview _ _ _).
  destruct (bool_decide (used = [])) eqn:Eu.
  - set (s2 := set_y_ps (set_tasks (<[current (y_ps s) := tset T_alarm (c T_alarm) c]> (tasks (y_ps s))) (y_ps s1)) s1).
    rewrite (bind_Done _ _ s1 tt s2).
    2: { unfold y_proc. rewrite (cur_put_run c) by exact Hc. done. }
    rewrite (bind_Done _ _ s2 0 s2).
    2: { unfold y_proc. erewrite cur_get_run by (apply lookup_insert_eq).
         rewrite tset_ne by done. rewrite Hsg. by destruct s2. }
    change (negb (0 =? 0)) with false. cbn [andb]. exists s2, q.
    split; [| done]. unfold mret, M_ret. f_equal. lia.
  - exists s1, q. by split.
Qed.
End whole.

(** With characters but no complete line to read, [sleep_if_empty] returns at
    once and [tty_read] goes round again, for as long as no interrupt brings
    another character: the reader polls where it means to sleep. *)
Lemma partial_line_polls `{TW : TtyWorld} fuel s c ch t buf time minimum oldalarm nr :
  0 <= ch -> y_tab s !! Z.to_nat ch = Some t -> tasks (y_ps s) !! current (y_ps s) = Some c -> c T_signal = 0 ->
  L_FLAG t ICANON = true -> EMPTY (secondary t) = false -> q_data (secondary t) = 0 -> 20 < LEFT (secondary t) ->
  0 < nr -> tty_read_loop fuel ch buf time minimum oldalarm false buf nr s = Halt NoFuel.
Proof.
  intros Hch Ht Hc Hsg Hcan He Hd Hl Hnr. induction fuel as [| fuel IH]; cbn [tty_read_loop];
    rewrite (proj2 (Z.leb_gt nr 0)) by lia; [done |].
  rewrite (bind_Done _ _ _ _ _ (y_cur_get s c T_signal Hc)), Hsg. cbn [andb].
  change (negb (0 =? 0)) with false. cbv iota.
  rewrite (bind_Done _ _ _ _ _ (terminal_run _ _ _ Hch Ht)), He, Hcan, Hd, (proj2 (Z.ltb_lt _ _) Hl).
  cbn [orb andb Z.eqb]. rewrite (bind_Done (sleep_if_empty fuel ch) _ s tt s); [exact IH |].
  destruct fuel; cbn [sleep_if_empty]; rewrite (bind_Done _ _ _ _ _ (y_cur_get s c T_signal Hc)), Hsg;
    by rewrite (bind_Done _ _ _ _ _ (terminal_run _ _ _ Hch Ht)), He.
Qed.

(** "ls", a newline and an x wait at the console; three characters are read. *)
Definition read_tty : tty_struct :=
  let t := init_tty 0x20000 0 (Z.lor OPOST ONLCR) 0 (Z.lor (Z.lor (Z.lor ICANON ECHO) ECHOCTL) ECHOKE) 0 in
  set_secondary (set_q_data 1 (fill_queue [108; 115; 10; 120] (secondary t))) t.
Definition read_demo : ttys :=
  {| y_con := con_demo; y_tab := [read_tty];
     y_ps := demo_table [2000] {[2000 := mk_task 2 9 15]} 2000; y_cr_flag := 0 |}.

Lemma read_tty_wf : queue_wf (secondary read_tty).
Proof.
  assert (H : queue_wf (fill_queue [108; 115; 10; 120] (init_queue 0 (queue_wait 0x20000 0 2)))).
  { apply fill_queue_wf. constructor; cbn [head tail buf init_queue]; [lia | lia | by rewrite length_replicate]. }
  destruct H. by constructor.
Qed.

Lemma tty_read_witness :
  exists s' q, @tty_read calm_world 1 0 500 3 read_demo = Done 3 s' /\
    umem (y_ps s') = store_bytes ∅ 500 [108; 115; 10] /\ contents q = [120] /\ q_data q = 0.
Proof.
  destruct (@tty_read_correct calm_world 0 read_demo (mk_task 2 9 15) 0 read_tty 500 3) as [_ H]; try done.
  destruct (H [108; 115; 10] [] [120]) as (s' & q & Hr & Hm & _ & _ & _ & Hq & Hd); try exact read_tty_wf; try done.
  - apply (bool_decide_eq_true_1 (_ ∉ _)). by vm_compute.
  - left. split; [done |]. cbn. lia.
  - by left.
  - exists s', q. split; [exact Hr |]. split; [exact Hm |]. split; [exact Hq |]. rewrite Hd. by vm_compute.
Defined.
