(* ===== verification/FsState.v ===== *)
(** * FsState: the objects of linux-0.01's file system

    [struct buffer_head], [struct m_inode], [struct file] and
    [struct super_block] (src/linux-0.01/include/linux/fs.h) in one store of
    fields, keyed by the object's address and the field, each kept at its C
    width. Reading or writing a field no object has is a [Fault] (the one write
    through NULL the code does make is a store into memory: Buffer,
    [insert_into_queues]). The bytes of the blocks are kernel memory. A wait queue is known by its address, the
    object's plus the offset of its [*_wait] field. *)

From S2P Require Import Prelude Mem Mm Proc Sched.

Inductive fld : Type :=
(* struct buffer_head *)
| b_data | b_dev | b_blocknr | b_uptodate | b_dirt | b_count | b_lock
| b_prev | b_next | b_prev_free | b_next_free
(* struct m_inode *)
| i_mode | i_uid | i_size | i_mtime | i_gid | i_nlinks | i_zone (n : Z)
| i_atime | i_ctime | i_dev | i_num | i_count | i_lock | i_dirt | i_pipe | i_mount
| i_seek | i_update
(* struct file *)
| f_mode | f_flags | f_count | f_inode | f_pos
(* struct super_block *)
| s_ninodes | s_nzones | s_imap_blocks | s_zmap_blocks | s_firstdatazone
| s_log_zone_size | s_max_size | s_magic | s_imap (n : Z) | s_zmap (n : Z)
| s_dev | s_isup | s_imount | s_time | s_rd_only | s_dirt.

#[global] Instance fld_eq_dec : EqDecision fld.
Proof. solve_decision. Defined.

Definition fld_code (f : fld) : Z * Z :=
  match f with
  | b_data => (0, 0) | b_dev => (1, 0) | b_blocknr => (2, 0) | b_uptodate => (3, 0)
  | b_dirt => (4, 0) | b_count => (5, 0) | b_lock => (6, 0) | b_prev => (7, 0)
  | b_next => (8, 0) | b_prev_free => (9, 0) | b_next_free => (10, 0)
  | i_mode => (11, 0) | i_uid => (12, 0) | i_size => (13, 0) | i_mtime => (14, 0)
  | i_gid => (15, 0) | i_nlinks => (16, 0) | i_zone n => (17, n) | i_atime => (18, 0)
  | i_ctime => (19, 0) | i_dev => (20, 0) | i_num => (21, 0) | i_count => (22, 0)
  | i_lock => (23, 0) | i_dirt => (24, 0) | i_pipe => (25, 0) | i_mount => (26, 0)
  | i_seek => (27, 0) | i_update => (28, 0)
  | f_mode => (29, 0) | f_flags => (30, 0) | f_count => (31, 0) | f_inode => (32, 0)
  | f_pos => (33, 0)
  | s_ninodes => (34, 0) | s_nzones => (35, 0) | s_imap_blocks => (36, 0)
  | s_zmap_blocks => (37, 0) | s_firstdatazone => (38, 0) | s_log_zone_size => (39, 0)
  | s_max_size => (40, 0) | s_magic => (41, 0) | s_imap n => (42, n) | s_zmap n => (43, n)
  | s_dev => (44, 0) | s_isup => (45, 0) | s_imount => (46, 0) | s_time => (47, 0)
  | s_rd_only => (48, 0) | s_dirt => (49, 0)
  end.

Definition fld_list : list fld :=
  [b_data; b_dev; b_blocknr; b_uptodate; b_dirt; b_count; b_lock; b_prev; b_next;
   b_prev_free; b_next_free; i_mode; i_uid; i_size; i_mtime; i_gid; i_nlinks; i_zone 0;
   i_atime; i_ctime; i_dev; i_num; i_count; i_lock; i_dirt; i_pipe; i_mount; i_seek;
   i_update; f_mode; f_flags; f_count; f_inode; f_pos; s_ninodes; s_nzones;
   s_imap_blocks; s_zmap_blocks; s_firstdatazone; s_log_zone_size; s_max_size; s_magic;
   s_imap 0; s_zmap 0; s_dev; s_isup; s_imount; s_time; s_rd_only; s_dirt].

Definition fld_decode (c : Z * Z) : fld :=
  match c.1 with
  | 17 => i_zone c.2 | 42 => s_imap c.2 | 43 => s_zmap c.2
  | k => default b_data (fld_list !! Z.to_nat k)
  end.

#[global] Instance fld_countable : Countable fld.
Proof. refine (inj_countable' fld_code fld_decode _). by intros []. Defined.

(** What a field keeps of an assigned value. *)
Definition fnorm (f : fld) (v : Z) : Z :=
  match f with
  | b_dev | b_blocknr | i_mode | i_uid | i_zone _ | i_dev | i_num | i_count
  | f_mode | f_flags | f_count | s_ninodes | s_nzones | s_imap_blocks | s_zmap_blocks
  | s_firstdatazone | s_log_zone_size | s_magic | s_dev => u16 v
  | b_uptodate | b_dirt | b_count | b_lock | i_gid | i_nlinks | i_lock | i_dirt | i_pipe
  | i_mount | i_seek | i_update | s_rd_only | s_dirt => u8 v
  | f_pos => s32 v
  | _ => u32 v
  end.

Record fstate : Type := {
  fps : pstate;                   (** the processes and the clock *)
  cells : gmap (Z * fld) Z;       (** the fields of all objects *)
  kmem : memory;
  hash_table : list Z;            (** [hash_table[NR_HASH]] *)
  free_list : Z;
  nr_buffers : Z;
  last_allocated_inode : Z;
  flog : list (string * list Z);  (** what [printk] was asked to print *)
  fdisk : Z -> Z -> Z -> Z;       (** byte [x] of block [b] of device [d] *)
  fpages : list Z                 (** [mem_map] of the page allocator *)
}.

Definition set_fps (v : pstate) (s : fstate) : fstate :=
  {| fps := v; cells := cells s; kmem := kmem s; hash_table := hash_table s;
     free_list := free_list s; nr_buffers := nr_buffers s;
     last_allocated_inode := last_allocated_inode s; flog := flog s; fdisk := fdisk s; fpages := fpages s |}.
Definition set_cells (v : gmap (Z * fld) Z) (s : fstate) : fstate :=
  {| fps := fps s; cells := v; kmem := kmem s; hash_table := hash_table s;
     free_list := free_list s; nr_buffers := nr_buffers s;
     last_allocated_inode := last_allocated_inode s; flog := flog s; fdisk := fdisk s; fpages := fpages s |}.
Definition set_kmem (v : memory) (s : fstate) : fstate :=
  {| fps := fps s; cells := cells s; kmem := v; hash_table := hash_table s;
     free_list := free_list s; nr_buffers := nr_buffers s;
     last_allocated_inode := last_allocated_inode s; flog := flog s; fdisk := fdisk s; fpages := fpages s |}.
Definition set_hash_table (v : list Z) (s : fstate) : fstate :=
  {| fps := fps s; cells := cells s; kmem := kmem s; hash_table := v;
     free_list := free_list s; nr_buffers := nr_buffers s;
     last_allocated_inode := last_allocated_inode s; flog := flog s; fdisk := fdisk s; fpages := fpages s |}.
Definition set_free_list (v : Z) (s : fstate) : fstate :=
  {| fps := fps s; cells := cells s; kmem := kmem s; hash_table := hash_table s;
     free_list := v; nr_buffers := nr_buffers s;
     last_allocated_inode := last_allocated_inode s; flog := flog s; fdisk := fdisk s; fpages := fpages s |}.
Definition set_nr_buffers (v : Z) (s : fstate) : fstate :=
  {| fps := fps s; cells := cells s; kmem := kmem s; hash_table := hash_table s;
     free_list := free_list s; nr_buffers := v;
     last_allocated_inode := last_allocated_inode s; flog := flog s; fdisk := fdisk s; fpages := fpages s |}.
Definition set_last_inode (v : Z) (s : fstate) : fstate :=
  {| fps := fps s; cells := cells s; kmem := kmem s; hash_table := hash_table s;
     free_list := free_list s; nr_buffers := nr_buffers s;
     last_allocated_inode := v; flog := flog s; fdisk := fdisk s; fpages := fpages s |}.
Definition set_flog (v : list (string * list Z)) (s : fstate) : fstate :=
  {| fps := fps s; cells := cells s; kmem := kmem s; hash_table := hash_table s;
     free_list := free_list s; nr_buffers := nr_buffers s;
     last_allocated_inode := last_allocated_inode s; flog := v; fdisk := fdisk s; fpages := fpages s |}.

Definition set_fdisk (v : Z -> Z -> Z -> Z) (s : fstate) : fstate :=
  {| fps := fps s; cells := cells s; kmem := kmem s; hash_table := hash_table s;
     free_list := free_list s; nr_buffers := nr_buffers s;
     last_allocated_inode := last_allocated_inode s; flog := flog s; fdisk := v; fpages := fpages s |}.

Definition set_fpages (v : list Z) (s : fstate) : fstate :=
  {| fps := fps s; cells := cells s; kmem := kmem s; hash_table := hash_table s;
     free_list := free_list s; nr_buffers := nr_buffers s;
     last_allocated_inode := last_allocated_inode s; flog := flog s; fdisk := fdisk s; fpages := v |}.

Definition disk_byte (s : fstate) (d b x : Z) : Z := u8 (fdisk s d b x).

(** [p->f] and [p->f = v]. *)
Definition fget (p : Z) (f : fld) : M fstate Z := get_opt "field" (fun s => cells s !! (p, f)).
Definition fput (p : Z) (f : fld) (v : Z) : M fstate unit := fun s =>
  match cells s !! (p, f) with
  | Some _ => Done tt (set_cells (<[(p, f) := fnorm f v]> (cells s)) s)
  | None => Halt (Fault "field")
  end.
(** [p->f++], [p->f--]. *)
Definition finc (p : Z) (f : fld) : M fstate unit := v ← fget p f; fput p f (v + 1).
Definition fdec (p : Z) (f : fld) : M fstate unit := v ← fget p f; fput p f (v - 1).

Definition fs_printk (msg : string) (args : list Z) : M fstate unit :=
  modify (fun s => set_flog (flog s ++ [(msg, args)]) s).

(** Run process code. *)
Definition on_ps {A} (m : M pstate A) : M fstate A := fun s =>
  match m (fps s) with Done a p => Done a (set_fps p s) | Halt r => Halt r end.

(** Run code of the page allocator, which shares the kernel's memory; what it
    would print goes to the console and is not kept. *)
Definition on_mm {A} (m : M mstate A) : M fstate A := fun s =>
  match m {| pm := kmem s; mem_map := fpages s; klog := [] |} with
  | Done a t => Done a (set_fpages (mem_map t) (set_kmem (pm t) s))
  | Halt r => Halt r
  end.

Definition kload8 (a : Z) : M fstate Z := gets (fun s => load8 (kmem s) a).
Definition kstore8 (a v : Z) : M fstate unit :=
  modify (fun s => set_kmem (store8 (kmem s) a v) s).
Definition kload16 (a : Z) : M fstate Z := gets (fun s => load16 (kmem s) a).
Definition kstore16 (a v : Z) : M fstate unit :=
  modify (fun s => set_kmem (store16 (kmem s) a v) s).
Definition kload32 (a : Z) : M fstate Z := gets (fun s => load32 (kmem s) a).
Definition kstore32 (a v : Z) : M fstate unit :=
  modify (fun s => set_kmem (store32 (kmem s) a v) s).

(** ** Constants of fs.h *)

Definition READ : Z := 0.
Definition WRITE : Z := 1.
Definition MAJOR (a : Z) : Z := Z.shiftr (u32 a) 8.
Definition MINOR (a : Z) : Z := Z.land a 0xff.
Definition NAME_LEN : Z := 14.
Definition I_MAP_SLOTS : Z := 8.
Definition Z_MAP_SLOTS : Z := 8.
Definition SUPER_MAGIC : Z := 0x137F.
Definition NR_INODE : Z := 32.
Definition NR_FILE : Z := 64.
Definition NR_SUPER : Z := 8.
Definition NR_HASH : Z := 307.
Definition BLOCK_SIZE : Z := 1024.
Definition sizeof_buffer_head : Z := 32.
Definition sizeof_m_inode : Z := 56.
Definition sizeof_file : Z := 16.
Definition sizeof_super_block : Z := 104.
Definition sizeof_d_inode : Z := 32.
Definition INODES_PER_BLOCK : Z := BLOCK_SIZE / sizeof_d_inode.
Definition DIR_ENTRIES_PER_BLOCK : Z := BLOCK_SIZE / 16.

(** ** The world outside

    The linker's addresses, and the two ways a task of the file system gives
    the processor away: sleeping on a queue until somebody wakes it, and a
    transfer from or to the device, which comes back when the buffer is
    unlocked (src/linux-0.01/kernel/hd.c, [rw_abs_hd]). *)
Class FsWorld : Type := {
  inode_table : Z;
  file_table : Z;
  super_block : Z;
  start_buffer : Z;
  buffer_wait : Z;
  fs_sleep_on : Z -> M fstate unit;
  ll_rw_block : Z -> Z -> M fstate unit
}.

(** [&bh->b_wait] and [&inode->i_wait]. *)
Definition b_wait (bh : Z) : Z := bh + 12.
Definition i_wait (inode : Z) : Z := inode + 32.

(** [CURRENT_TIME]. *)
Definition fs_time : M fstate Z :=
  s ← gets fps; mret (s32 (startup_time s + Z.quot (jiffies s) HZ)).

Section super.
Context `{!FsWorld}.

Fixpoint get_super_from (n : nat) (s dev : Z) : M fstate Z :=
  match n with
  | O => mret 0
  | S n' =>
      d ← fget s s_dev;
      if d =? dev then mret s else get_super_from n' (s + sizeof_super_block) dev
  end.

Definition get_super (dev : Z) : M fstate Z :=
  get_super_from (Z.to_nat NR_SUPER) super_block dev.
End super.

(** ** Lemmas *)

Lemma fget_run s p f v : cells s !! (p, f) = Some v -> fget p f s = Done v s.
Proof. intros H. unfold fget, get_opt. by rewrite H. Qed.

Lemma fput_run s p f v w :
  cells s !! (p, f) = Some w ->
  fput p f v s = Done tt (set_cells (<[(p, f) := fnorm f v]> (cells s)) s).
Proof. intros H. unfold fput. by rewrite H. Qed.

Lemma fput_None s p f v : cells s !! (p, f) = None -> fput p f v s = Halt (Fault "field").
Proof. intros H. unfold fput. by rewrite H. Qed.

(** Total reads, and the fields that are there. *)
Definition has (s : fstate) (p : Z) (f : fld) : Prop := is_Some (cells s !! (p, f)).
Definition cell (s : fstate) (p : Z) (f : fld) : Z := default 0 (cells s !! (p, f)).
Definition upd (p : Z) (f : fld) (v : Z) (s : fstate) : fstate :=
  set_cells (<[(p, f) := fnorm f v]> (cells s)) s.

Lemma fget_cell s p f : has s p f -> fget p f s = Done (cell s p f) s.
Proof. intros [v H]. rewrite (fget_run _ _ _ _ H). unfold cell. by rewrite H. Qed.
Lemma fput_upd s p f v : has s p f -> fput p f v s = Done tt (upd p f v s).
Proof. intros [w H]. by rewrite (fput_run _ _ _ _ _ H). Qed.
Lemma finc_upd s p f : has s p f -> finc p f s = Done tt (upd p f (cell s p f + 1) s).
Proof. intros H. unfold finc. rewrite (bind_Done _ _ _ _ _ (fget_cell _ _ _ H)). by apply fput_upd. Qed.
Lemma fdec_upd s p f : has s p f -> fdec p f s = Done tt (upd p f (cell s p f - 1) s).
Proof. intros H. unfold fdec. rewrite (bind_Done _ _ _ _ _ (fget_cell _ _ _ H)). by apply fput_upd. Qed.

Lemma has_upd s p f v q g : has s q g -> has (upd p f v s) q g.
Proof.
  intros H. unfold has, upd; cbn [cells set_cells]. destruct (decide ((q, g) = (p, f))) as [-> |].
  - by rewrite lookup_insert_eq.
  - by rewrite lookup_insert_ne.
Qed.
Lemma cell_upd_eq s p f v : cell (upd p f v s) p f = fnorm f v.
Proof. unfold cell, upd; cbn [cells set_cells]. by rewrite lookup_insert_eq. Qed.
Lemma cell_upd_ne s p f v q g : (q, g) <> (p, f) -> cell (upd p f v s) q g = cell s q g.
Proof. intros H. unfold cell, upd; cbn [cells set_cells]. by rewrite lookup_insert_ne. Qed.
Lemma cell_upd_fld s p f v q g : g <> f -> cell (upd p f v s) q g = cell s q g.
Proof. intros H. apply cell_upd_ne. congruence. Qed.
Lemma cell_upd_obj s p f v q g : q <> p -> cell (upd p f v s) q g = cell s q g.
Proof. intros H. apply cell_upd_ne. congruence. Qed.
Lemma cell_ext s s' : cells s' = cells s -> forall p f, cell s' p f = cell s p f.
Proof. intros H p f. unfold cell. by rewrite H. Qed.
Lemma has_ext s s' p f : cells s' = cells s -> has s p f -> has s' p f.
Proof. intros H. unfold has. by rewrite H. Qed.

(** The fields do not move with the rest of the state. *)
Lemma cell_set_fps p s q g : cell (set_fps p s) q g = cell s q g.
Proof. done. Qed.
Lemma cell_set_kmem m s q g : cell (set_kmem m s) q g = cell s q g.
Proof. done. Qed.
Lemma has_set_fps p s q g : has (set_fps p s) q g <-> has s q g.
Proof. done. Qed.
Lemma has_set_kmem m s q g : has (set_kmem m s) q g <-> has s q g.
Proof. done. Qed.

Create HintDb fs.
#[export] Hint Resolve has_upd : fs.

(** Step over a read, a write or a pure step of a computation whose fields are
    there. *)
Ltac fs_has := solve [eauto 12 with fs].
Ltac fstep :=
  lazymatch goal with
  | |- context [(fget ?p ?f ≫= _) ?s] =>
      rewrite (bind_Done (fget p f) _ s _ _ (fget_cell s p f ltac:(fs_has)))
  | |- context [(fput ?p ?f ?v ≫= _) ?s] =>
      rewrite (bind_Done (fput p f v) _ s _ _ (fput_upd s p f v ltac:(fs_has)))
  | |- context [(finc ?p ?f ≫= _) ?s] =>
      rewrite (bind_Done (finc p f) _ s _ _ (finc_upd s p f ltac:(fs_has)))
  | |- context [(gets ?g ≫= _) ?s] =>
      rewrite (bind_Done (gets g) _ s (g s) s eq_refl)
  | |- context [(modify ?g ≫= _) ?s] =>
      rewrite (bind_Done (modify g) _ s tt (g s) eq_refl)
  | |- context [(mret ?a ≫= _) ?s] =>
      rewrite (bind_Done (mret a) _ s a s eq_refl)
  end.

(** Membership in a closed list, by looking. *)
Ltac in_list := apply list_elem_of_In; cbn; tauto.
Ltac not_in_list :=
  let H := fresh in
  intros H; apply list_elem_of_In in H; cbn in H;
  repeat (destruct H as [H | H]; [discriminate H |]); destruct H.
