(* ===== verification/Buffer.v ===== *)
(** * Buffer: src/linux-0.01/fs/buffer.c

    The buffer cache: a hash table of doubly linked chains by device and
    block, and a circular list of all buffers, least recently allocated
    first. [fuel] bounds how often a task goes back to sleep or starts over;
    walks along the lists are bounded by the number of buffers. *)

From S2P Require Import Prelude Mem Mm Proc Sched FsState.

Definition hashfn (dev block : Z) : Z := u32 (Z.lxor dev block) mod NR_HASH.

(** [hash(dev,block)], read and assigned. *)
Definition hash_get (dev block : Z) : M fstate Z :=
  get_opt "hash_table" (fun s => hash_table s !! Z.to_nat (hashfn dev block)).
Definition hash_put (dev block v : Z) : M fstate unit := fun s =>
  match hash_table s !! Z.to_nat (hashfn dev block) with
  | Some _ => Done tt (set_hash_table (<[Z.to_nat (hashfn dev block) := v]> (hash_table s)) s)
  | None => Halt (Fault "hash_table")
  end.

Definition remove_from_queues (bh : Z) : M fstate unit :=
  next ← fget bh b_next;
  _ ← when (negb (next =? 0)) (prev ← fget bh b_prev; fput next b_prev prev);
  prev ← fget bh b_prev;
  _ ← when (negb (prev =? 0)) (next ← fget bh b_next; fput prev b_next next);
  dev ← fget bh b_dev;
  block ← fget bh b_blocknr;
  h ← hash_get dev block;
  _ ← when (h =? bh) (next ← fget bh b_next; hash_put dev block next);
  pf ← fget bh b_prev_free;
  nf ← fget bh b_next_free;
  _ ← when ((pf =? 0) || (nf =? 0)) (panic "Free block list corrupted");
  _ ← fput pf b_next_free nf;
  pf ← fget bh b_prev_free;
  nf ← fget bh b_next_free;
  _ ← fput nf b_prev_free pf;
  fl ← gets free_list;
  when (fl =? bh) (nf ← fget bh b_next_free; modify (set_free_list nf)).

(** Where [b_prev] is in a [struct buffer_head]. *)
Definition offset_b_prev : Z := 16.

(** The last assignment, [bh->b_next->b_prev = bh], has no test: in a chain
    that was empty [b_next] is NULL, and the address goes to memory. *)
Definition insert_into_queues (bh : Z) : M fstate unit :=
  fl ← gets free_list;
  _ ← fput bh b_next_free fl;
  p ← fget fl b_prev_free;
  _ ← fput bh b_prev_free p;
  p ← fget fl b_prev_free;
  _ ← fput p b_next_free bh;
  _ ← fput fl b_prev_free bh;
  _ ← fput bh b_prev 0;
  _ ← fput bh b_next 0;
  dev ← fget bh b_dev;
  if dev =? 0 then mret tt
  else
    block ← fget bh b_blocknr;
    h ← hash_get dev block;
    _ ← fput bh b_next h;
    _ ← hash_put dev block bh;
    next ← fget bh b_next;
    if next =? 0 then kstore32 (0 + offset_b_prev) bh else fput next b_prev bh.

Fixpoint find_from (n : nat) (tmp dev block : Z) : M fstate Z :=
  if tmp =? 0 then mret 0
  else
    match n with
    | O => halt NoFuel
    | S n' =>
        d ← fget tmp b_dev;
        b ← fget tmp b_blocknr;
        if (d =? dev) && (b =? block) then mret tmp
        else
          next ← fget tmp b_next;
          find_from n' next dev block
    end.

(** The longest walk along a list of buffers. *)
Definition walk : M fstate nat := gets (fun s => Z.to_nat (nr_buffers s)).

Definition find_buffer (dev block : Z) : M fstate Z :=
  h ← hash_get dev block;
  n ← walk;
  find_from n h dev block.

Section buffer.
Context `{!FsWorld}.

Fixpoint wait_on_buffer (fuel : nat) (bh : Z) : M fstate unit :=
  l ← fget bh b_lock;
  if l =? 0 then mret tt
  else
    match fuel with
    | O => halt NoFuel
    | S fuel' => _ ← fs_sleep_on (b_wait bh); wait_on_buffer fuel' bh
    end.

(** [for (i=0 ; i<NR_BUFFERS ; i++,bh++)] over [f]. *)
Definition for_buffers (f : Z -> M fstate unit) : M fstate unit :=
  n ← walk;
  for_loop n 0 (fun i => f (start_buffer + sizeof_buffer_head * i)).

Definition sync_dev (fuel : nat) (dev : Z) : M fstate Z :=
  _ ← for_buffers (fun bh =>
        d ← fget bh b_dev;
        if negb (d =? dev) then mret tt
        else
          _ ← wait_on_buffer fuel bh;
          dirt ← fget bh b_dirt;
          when (negb (dirt =? 0)) (ll_rw_block WRITE bh));
  mret 0.

Definition brelse (fuel : nat) (buf : Z) : M fstate unit :=
  if buf =? 0 then mret tt
  else
    _ ← wait_on_buffer fuel buf;
    c ← fget buf b_count;
    _ ← fput buf b_count (c - 1);
    _ ← when (c =? 0) (panic "Trying to free free buffer");
    on_ps (wake_up buffer_wait).

Fixpoint get_hash_table (fuel : nat) (dev block : Z) : M fstate Z :=
  match fuel with
  | O => halt NoFuel
  | S fuel' =>
      bh ← find_buffer dev block;
      if bh =? 0 then mret 0
      else
        _ ← finc bh b_count;
        _ ← wait_on_buffer fuel' bh;
        d ← fget bh b_dev;
        b ← fget bh b_blocknr;
        if negb (d =? dev) || negb (b =? block) then
          _ ← brelse fuel' bh;
          get_hash_table fuel' dev block
        else mret bh
  end.

(** The first buffer nobody uses, from [tmp] on round to [free_list]; 0 if
    there is none. *)
Fixpoint find_unused (fuel n : nat) (tmp : Z) : M fstate Z :=
  match n with
  | O => halt NoFuel
  | S n' =>
      c ← fget tmp b_count;
      free ← (if c =? 0 then
                _ ← wait_on_buffer fuel tmp;
                c ← fget tmp b_count;
                mret (c =? 0)
              else mret false);
      if free : bool then mret tmp
      else
        tmp ← fget tmp b_next_free;
        fl ← gets free_list;
        if tmp =? fl then mret 0 else find_unused fuel n' tmp
  end.

Fixpoint getblk (fuel : nat) (dev block : Z) : M fstate Z :=
  match fuel with
  | O => halt NoFuel
  | S fuel' =>
      tmp ← get_hash_table fuel dev block;
      if negb (tmp =? 0) then mret tmp
      else
        fl ← gets free_list;
        n ← walk;
        tmp ← find_unused fuel n fl;
        if tmp =? 0 then
          _ ← fs_printk "Sleeping on free buffer .." [];
          _ ← fs_sleep_on buffer_wait;
          _ ← fs_printk "ok" [];
          getblk fuel' dev block
        else
          _ ← finc tmp b_count;
          _ ← remove_from_queues tmp;
          dirt ← fget tmp b_dirt;
          _ ← when (negb (dirt =? 0)) (d ← fget tmp b_dev; _ ← sync_dev fuel d; mret tt);
          _ ← fput tmp b_dev dev;
          _ ← fput tmp b_blocknr block;
          _ ← fput tmp b_dirt 0;
          _ ← fput tmp b_uptodate 0;
          other ← find_buffer dev block;
          if negb (other =? 0) then
            _ ← fput tmp b_dev 0;
            _ ← fput tmp b_blocknr 0;
            _ ← fput tmp b_count 0;
            _ ← insert_into_queues tmp;
            getblk fuel' dev block
          else
            _ ← insert_into_queues tmp;
            mret tmp
  end.

Definition bread (fuel : nat) (dev block : Z) : M fstate Z :=
  bh ← getblk fuel dev block;
  _ ← when (bh =? 0) (panic "bread: getblk returned NULL");
  u ← fget bh b_uptodate;
  if negb (u =? 0) then mret bh
  else
    _ ← ll_rw_block READ bh;
    u ← fget bh b_uptodate;
    if negb (u =? 0) then mret bh
    else
      _ ← brelse fuel bh;
      mret 0.
End buffer.

(** ** Setting up *)

(** A field of a fresh object. *)
Definition fnew (p : Z) (f : fld) (v : Z) : M fstate unit :=
  modify (fun s => set_cells (<[(p, f) := fnorm f v]> (cells s)) s).

(** The loop of [buffer_init]: [h] the next buffer head, [b] the last block.
    There is room for 1024 blocks above 1 MB and fewer than 640 below. *)
Fixpoint init_loop (n : nat) (h b : Z) : M fstate Z :=
  match n with
  | O => halt NoFuel
  | S n' =>
      let b := b - BLOCK_SIZE in
      if h + sizeof_buffer_head <=? b then
        _ ← fnew h b_dev 0;
        _ ← fnew h b_dirt 0;
        _ ← fnew h b_count 0;
        _ ← fnew h b_lock 0;
        _ ← fnew h b_uptodate 0;
        _ ← on_ps (wq_put (b_wait h) 0);
        _ ← fnew h b_next 0;
        _ ← fnew h b_prev 0;
        _ ← fnew h b_data b;
        _ ← fnew h b_prev_free (h - sizeof_buffer_head);
        _ ← fnew h b_next_free (h + sizeof_buffer_head);
        _ ← modify (fun s => set_nr_buffers (nr_buffers s + 1) s);
        init_loop n' (h + sizeof_buffer_head) (if b =? 0x100000 then 0xA0000 else b)
      else mret h
  end.

Definition buffer_init `{!FsWorld} : M fstate unit :=
  h ← init_loop 1700 start_buffer BUFFER_END;
  let h := h - sizeof_buffer_head in
  _ ← modify (set_free_list start_buffer);
  fl ← gets free_list;
  _ ← fput fl b_prev_free h;
  fl ← gets free_list;
  _ ← fput h b_next_free fl;
  modify (set_hash_table (replicate (Z.to_nat NR_HASH) 0)).
