(* ===== verification/BufferInv.v ===== *)
(** * BufferInv: the buffer cache's data structures

    The chains of the hash table and the circular list of buffers
    (src/linux-0.01/fs/buffer.c) as lists of addresses; [remove_from_queues]
    and [insert_into_queues] are removal from and insertion into them. *)

From S2P Require Import Prelude Mem Proc Sched FsState Buffer.

(** ** Linked lists *)

(** Neighbours in [l] are related. *)
Fixpoint links (R : Z -> Z -> Prop) (l : list Z) : Prop :=
  match l with
  | x :: (y :: _) as t => R x y /\ links R t
  | _ => True
  end.

Lemma links_cons2 R x y l : links R (x :: y :: l) <-> R x y /\ links R (y :: l).
Proof. done. Qed.

Lemma links_app R l x l' : links R (l ++ x :: l') <-> links R (l ++ [x]) /\ links R (x :: l').
Proof.
  induction l as [| a l IH]; [cbn [app]; destruct l'; cbn; tauto |].
  destruct l as [| b l]; cbn [app] in IH |- *.
  - rewrite !links_cons2. cbn [links]. tauto.
  - rewrite !links_cons2, IH. tauto.
Qed.

Lemma links_impl R R' l :
  (forall x y, x ∈ l -> y ∈ tail l -> R x y -> R' x y) -> links R l -> links R' l.
Proof.
  induction l as [| a [| b l] IH]; intros H; [done .. |]. rewrite !links_cons2.
  intros [H1 H2]. split; [apply H; [set_solver .. | done] |].
  apply IH; [| done]. intros x y Hx Hy. cbn [tail] in *. apply H; set_solver.
Qed.

(** ... all the way round. *)
Definition ring (R : Z -> Z -> Prop) (l : list Z) : Prop :=
  match l with [] => False | x :: t => links R (x :: t ++ [x]) end.

Lemma ring_rotate R l l' : ring R (l ++ l') -> ring R (l' ++ l).
Proof.
  destruct l as [| a l]; [by rewrite app_nil_r |]. destruct l' as [| b l']; [by rewrite app_nil_r |].
  cbn [app ring]. rewrite <- !app_assoc. cbn [app].
  change (links R ((a :: l) ++ b :: l' ++ [a]) -> links R ((b :: l') ++ a :: l ++ [b])).
  rewrite (links_app R (a :: l) b), (links_app R (b :: l') a). cbn [app]. tauto.
Qed.

Lemma list_last_case (l : list Z) : l <> [] -> exists l' x, l = l' ++ [x].
Proof. intros H. destruct l as [| x l' _] using rev_ind; [done | by exists l', x]. Qed.

(** Taking an element out of a ring. *)
Lemma ring_remove R R' l x l' :
  l ++ l' <> [] -> x ∉ l ++ l' -> ring R (l ++ x :: l') ->
  (forall u v, u ∈ l ++ l' -> v ∈ l ++ l' -> R u v \/ (R u x /\ R x v) -> R' u v) ->
  ring R' (l ++ l').
Proof.
  intros Hne Hx Hr HR. apply (ring_rotate _ l (x :: l')) in Hr.
  change ((x :: l') ++ l) with (x :: (l' ++ l)) in Hr.
  apply (ring_rotate R' l' l). cbn [ring] in Hr.
  assert (Hin : forall u, u ∈ l' ++ l -> u ∈ l ++ l') by set_solver.
  destruct (l' ++ l) as [| c t] eqn:E; [apply app_eq_nil in E as [-> ->]; done |].
  cbn [ring].
  destruct (list_last_case (c :: t) ltac:(done)) as (t' & d & Ed).
  change (c :: t ++ [c]) with ((c :: t) ++ [c]). rewrite Ed, <- app_assoc. cbn [app].
  apply links_app. rewrite <- Ed.
  change (x :: (c :: t) ++ [x]) with ((x :: c :: t) ++ [x]) in Hr.
  assert (Hr' : links R (x :: c :: t) /\ R d x).
  { rewrite Ed in Hr. change (x :: t' ++ [d]) with ((x :: t') ++ [d]) in Hr.
    rewrite <- app_assoc in Hr. apply links_app in Hr as [H1 H2].
    rewrite Ed. split; [done | apply H2]. }
  destruct Hr' as [Hl Hdx]. rewrite links_cons2 in Hl. destruct Hl as [Hxc Hl].
  assert (Hd : d ∈ c :: t) by (rewrite Ed; set_solver).
  split.
  - revert Hl. apply links_impl. intros u v Hu Hv Huv. apply HR; [| | by left]; apply Hin; [done |].
    cbn [tail] in Hv. set_solver.
  - cbn [links]. split; [| done]. apply HR; [by apply Hin | apply Hin; set_solver | by right].
Qed.

(** Putting one in before the head. *)
Lemma ring_insert R R' f t x :
  ring R (f :: t) ->
  (forall u v, u ∈ f :: t -> v ∈ t -> R u v -> R' u v) ->
  (forall d, d ∈ f :: t -> R d f -> R' d x) -> R' x f ->
  ring R' (f :: t ++ [x]).
Proof.
  intros Hr H1 H2 H3. cbn [ring] in Hr |- *.
  destruct (list_last_case (f :: t) ltac:(done)) as (t' & d & Ed).
  change (f :: t ++ [f]) with ((f :: t) ++ [f]) in Hr.
  change (f :: (t ++ [x]) ++ [f]) with (((f :: t) ++ [x]) ++ [f]).
  rewrite <- app_assoc. cbn [app].
  assert (Hl : links R (f :: t) /\ R d f).
  { rewrite Ed in Hr |- *. rewrite <- app_assoc in Hr. cbn [app] in Hr.
    rewrite (links_app R t' d) in Hr. cbn [links] in Hr. tauto. }
  destruct Hl as [Hl Hdf]. change (f :: t ++ [x; f]) with ((f :: t) ++ [x; f]).
  rewrite Ed, <- app_assoc. cbn [app]. apply links_app. rewrite <- Ed.
  split; [revert Hl; by apply links_impl |].
  cbn [links]. split; [| done]. apply H2; [rewrite Ed; set_solver | done].
Qed.

(** Linear lists between sentinels. *)
Lemma links_remove R R' l x l' :
  links R (0 :: (l ++ x :: l') ++ [0]) -> x ∉ l ++ l' -> x <> 0 ->
  (forall u v, u <> x -> v <> x -> R u v \/ (R u x /\ R x v) -> R' u v) ->
  links R' (0 :: (l ++ l') ++ [0]).
Proof.
  intros Hl Hx Hx0 HR. rewrite <- !app_assoc in Hl |- *. cbn [app] in Hl.
  change (links R ((0 :: l) ++ x :: l' ++ [0])) in Hl.
  change (links R' ((0 :: l) ++ l' ++ [0])). apply links_app in Hl as [H1 H2].
  destruct (list_last_case (0 :: l) ltac:(done)) as (t & d & Ed).
  rewrite Ed in H1 |- *. rewrite <- app_assoc in H1 |- *. cbn [app] in H1 |- *.
  rewrite (links_app R t d) in H1. destruct H1 as [H1 H3]. cbn [links] in H3.
  assert (Hnx : forall u, u ∈ t ++ [d] -> u <> x) by (rewrite <- Ed; set_solver).
  apply links_app. split.
  - revert H1. apply links_impl. intros u v Hu Hv Huv. apply HR; [by apply Hnx | | by left].
    apply Hnx. destruct (t ++ [d]); set_solver.
  - destruct (l' ++ [0]) as [| e r] eqn:Ee; [by destruct l' |].
    assert (Hex : forall u, u ∈ e :: r -> u <> x) by (rewrite <- Ee; set_solver).
    rewrite links_cons2 in H2. destruct H2 as [H2 H4]. apply links_cons2. split.
    + apply HR; [apply Hnx; set_solver | apply Hex; set_solver |]. right. split; [apply H3 | done].
    + revert H4. apply links_impl. intros u v Hu Hv Huv. cbn [tail] in Hv.
      apply HR; [by apply Hex | apply Hex; set_solver | by left].
Qed.

Lemma links_push R R' l x :
  links R (0 :: l ++ [0]) ->
  (forall u v, u ∈ l -> v ∈ tail l ++ [0] -> R u v -> R' u v) -> R' 0 x -> R' x (hd 0 l) ->
  links R' (0 :: (x :: l) ++ [0]).
Proof.
  intros Hl H1 H2 H3. cbn [app]. apply links_cons2. split; [done |].
  destruct l as [| e l]; cbn [app hd] in *; apply links_cons2; split; try done.
  apply links_cons2 in Hl as [_ Hl]. change (e :: l ++ [0]) with ((e :: l) ++ [0]) in Hl |- *.
  destruct (list_last_case (e :: l) ltac:(done)) as (t & d & Ed). rewrite Ed in Hl, H1 |- *.
  rewrite <- app_assoc in Hl |- *. cbn [app] in Hl |- *. apply links_app in Hl as [Ha Hb].
  apply links_app. split; [revert Ha; apply links_impl; intros; apply H1; set_solver |].
  cbn [links] in Hb |- *. split; [apply H1; [set_solver | set_solver | tauto] | done].
Qed.

(** ** The invariant *)

Definition buf_fields : list fld :=
  [b_data; b_dev; b_blocknr; b_uptodate; b_dirt; b_count; b_lock; b_prev; b_next;
   b_prev_free; b_next_free].

Definition free_link (s : fstate) (x y : Z) : Prop :=
  cell s x b_next_free = y /\ cell s y b_prev_free = x.
Definition hash_link (s : fstate) (x y : Z) : Prop :=
  (x <> 0 -> cell s x b_next = y) /\ (y <> 0 -> cell s y b_prev = x).
Definition key_of (s : fstate) (p : Z) : Z := hashfn (cell s p b_dev) (cell s p b_blocknr).

(** The buffers [L], in the order of the free list, and the chains [C] of the
    hash table: every buffer of a device is in the chain of its device and
    block, and no two buffers hold the same block. *)
Record cache_ok (L : list Z) (C : Z -> list Z) (s : fstate) : Prop := {
  ck_len : length (hash_table s) = 307%nat;
  ck_num : Z.of_nat (length L) <= nr_buffers s;
  ck_ne : L <> [];
  ck_nodup : NoDup L;
  ck_addr p : p ∈ L -> 0 < p < 2 ^ 32;
  ck_buf p f : p ∈ L -> f ∈ buf_fields -> has s p f;
  ck_head : hd 0 L = free_list s;
  ck_ring : ring (free_link s) L;
  ck_bucket h : 0 <= h < 307 -> hash_table s !! Z.to_nat h = Some (hd 0 (C h));
  ck_chain h : 0 <= h < 307 -> NoDup (C h) /\ links (hash_link s) (0 :: C h ++ [0]);
  ck_in h p : 0 <= h < 307 -> (p ∈ C h <-> p ∈ L /\ cell s p b_dev <> 0 /\ key_of s p = h);
  ck_out p : p ∈ L -> cell s p b_dev = 0 -> cell s p b_next = 0 /\ cell s p b_prev = 0;
  ck_unique p q : p ∈ L -> q ∈ L -> cell s p b_dev <> 0 ->
    cell s p b_dev = cell s q b_dev -> cell s p b_blocknr = cell s q b_blocknr -> p = q
}.

Lemma hashfn_range dev block : 0 <= hashfn dev block < 307.
Proof. apply Z.mod_pos_bound. done. Qed.

(** An element and its neighbours. *)
Lemma ring_split R l x l' :
  ring R (l ++ x :: l') -> l ++ l' <> [] ->
  exists u v, u ∈ l ++ l' /\ v ∈ l ++ l' /\ R u x /\ R x v /\ v = hd 0 (l' ++ l).
Proof.
  intros Hr Hne. apply (ring_rotate _ l (x :: l')) in Hr.
  change ((x :: l') ++ l) with (x :: (l' ++ l)) in Hr. cbn [ring] in Hr.
  assert (Hne' : l' ++ l <> []) by (intros [-> ->]%app_eq_nil; done).
  assert (Hin : forall u, u ∈ l' ++ l -> u ∈ l ++ l') by set_solver.
  destruct (list_last_case _ Hne') as (t & d & Ed).
  exists d, (hd 0 (l' ++ l)). split; [apply Hin; rewrite Ed; set_solver |].
  split; [apply Hin; destruct (l' ++ l); [done | cbn; set_solver] |].
  split; [| split; [| done]].
  - rewrite Ed in Hr. change (links R ((x :: t ++ [d]) ++ [x])) in Hr.
    rewrite app_comm_cons, <- app_assoc in Hr. apply links_app in Hr as [_ Hr]. apply Hr.
  - destruct (l' ++ l); [done |]. apply Hr.
Qed.

Lemma links_split R l x l' :
  links R (0 :: (l ++ x :: l') ++ [0]) ->
  exists u v, (u = 0 /\ l = [] \/ u ∈ l) /\ v = hd 0 l' /\ R u x /\ R x v.
Proof.
  intros H. rewrite <- app_assoc in H. cbn [app] in H.
  change (links R ((0 :: l) ++ x :: l' ++ [0])) in H. apply links_app in H as [H1 H2].
  destruct (list_last_case (0 :: l) ltac:(done)) as (t & d & Ed). rewrite Ed in H1.
  rewrite <- app_assoc in H1. cbn [app] in H1. apply links_app in H1 as [_ H1].
  exists d, (hd 0 l'). split.
  - destruct l as [| a l]; [left; destruct t as [| ? [|]]; simplify_eq/=; done |]. right.
    destruct (list_last_case (a :: l) ltac:(done)) as (t' & d' & Ed'). rewrite Ed' in Ed |- *.
    rewrite app_comm_cons in Ed. apply app_inj_tail in Ed as [_ <-]. set_solver.
  - split; [done |]. split; [apply H1 |]. destruct l'; apply H2.
Qed.

(** [l] without [x]. *)
Definition del (x : Z) (l : list Z) : list Z := filter (fun y => y <> x) l.

Lemma elem_of_del x l y : y ∈ del x l <-> y ∈ l /\ y <> x.
Proof. unfold del. rewrite list_elem_of_filter. tauto. Qed.
Lemma NoDup_del x l : NoDup l -> NoDup (del x l).
Proof. apply NoDup_filter. Qed.
Lemma del_id x l : x ∉ l -> del x l = l.
Proof.
  intros H. induction l as [| a l IH]; [done |]. unfold del in *. rewrite filter_cons_True by set_solver.
  rewrite IH; [done | set_solver].
Qed.
Lemma del_split x l l' : NoDup (l ++ x :: l') -> del x (l ++ x :: l') = l ++ l'.
Proof.
  intros H. apply NoDup_app in H as (_ & H1 & H2). apply NoDup_cons in H2 as [H2 _].
  unfold del. rewrite filter_app, filter_cons_False by tauto.
  fold (del x l) (del x l'). rewrite !del_id; [done | done |]. intros Hx. apply (H1 x Hx). set_solver.
Qed.

(** ** [remove_from_queues] *)

Definition set_bucket (h v : Z) (s : fstate) : fstate :=
  set_hash_table (<[Z.to_nat h := v]> (hash_table s)) s.

Definition unless0 (x : Z) (f : fstate -> fstate) (s : fstate) : fstate :=
  if x =? 0 then s else f s.

(** The state after the removal of [bh], its neighbours [x] and [y] in the
    chain of bucket [h], [p] and [n] in the free list. *)
Definition removed (bh x y h p n : Z) (s : fstate) : fstate :=
  let s := unless0 x (upd x b_next y) (unless0 y (upd y b_prev x) s) in
  let s := if decide (hash_table s !! Z.to_nat h = Some bh) then set_bucket h y s else s in
  let s := upd n b_prev_free p (upd p b_next_free n s) in
  if decide (free_list s = bh) then set_free_list n s else s.

Lemma has_unless0 x f s q g : (forall s, has s q g -> has (f s) q g) -> has s q g -> has (unless0 x f s) q g.
Proof. intros H Hs. unfold unless0. case_match; auto. Qed.

Lemma has_set_bucket h v s q g : has s q g -> has (set_bucket h v s) q g.
Proof. done. Qed.
#[export] Hint Resolve has_unless0 has_set_bucket : fs.

Lemma hash_get_run s dev block v :
  hash_table s !! Z.to_nat (hashfn dev block) = Some v -> hash_get dev block s = Done v s.
Proof. intros H. unfold hash_get, get_opt. by rewrite H. Qed.
Lemma hash_put_run s dev block v w :
  hash_table s !! Z.to_nat (hashfn dev block) = Some w ->
  hash_put dev block v s = Done tt (set_bucket (hashfn dev block) v s).
Proof. intros H. unfold hash_put. by rewrite H. Qed.

Lemma unless0_cells x g v s p f :
  (p, f) <> (x, g) -> cell (unless0 x (upd x g v) s) p f = cell s p f.
Proof. intros H. unfold unless0. case_match; [done | by apply cell_upd_ne]. Qed.

Lemma when_unless0 y (m : M fstate unit) f s :
  (y <> 0 -> m s = Done tt (f s)) -> when (negb (y =? 0)) m s = Done tt (unless0 y f s).
Proof. intros H. unfold unless0. destruct (Z.eqb_spec y 0); [done | by apply H]. Qed.

Lemma unless0_hash x g v s : hash_table (unless0 x (upd x g v) s) = hash_table s.
Proof. unfold unless0. by case_match. Qed.
Lemma unless0_free x g v s : free_list (unless0 x (upd x g v) s) = free_list s.
Proof. unfold unless0. by case_match. Qed.

Lemma remove_run s bh x y p n w :
  (forall f, f ∈ buf_fields -> has s bh f) ->
  cell s bh b_prev = x -> cell s bh b_next = y ->
  cell s bh b_prev_free = p -> cell s bh b_next_free = n ->
  hash_table s !! Z.to_nat (key_of s bh) = Some w ->
  (x <> 0 -> has s x b_next) -> (y <> 0 -> has s y b_prev) ->
  p <> 0 -> n <> 0 -> has s p b_next_free -> has s n b_prev_free ->
  x <> bh -> y <> bh -> p <> bh -> n <> bh ->
  remove_from_queues bh s = Done tt (removed bh x y (key_of s bh) p n s).
Proof.
  intros Hbh Ex Ey Ep En Hw Hx Hy Hp0 Hn0 Hp Hn Hxb Hyb Hpb Hnb.
  assert (Hf : forall f, f ∈ buf_fields -> has s bh f) by exact Hbh.
  assert (H1 : has s bh b_next) by (apply Hf; in_list).
  assert (H2 : has s bh b_prev) by (apply Hf; in_list).
  assert (H3 : has s bh b_prev_free) by (apply Hf; in_list).
  assert (H4 : has s bh b_next_free) by (apply Hf; in_list).
  assert (H5 : has s bh b_dev) by (apply Hf; in_list).
  assert (H6 : has s bh b_blocknr) by (apply Hf; in_list). clear Hf Hbh.
  unfold remove_from_queues. fstep. rewrite Ey.
  rewrite (bind_Done (when _ _) _ s tt (unless0 y (upd y b_prev x) s)).
  2: { apply when_unless0. intros Hy0. fstep. rewrite Ex. by apply fput_upd, Hy. }
  set (s1 := unless0 y (upd y b_prev x) s).
  assert (Hs1 : forall q g, has s q g -> has s1 q g) by (intros; apply has_unless0; auto using has_upd).
  assert (Hc1 : forall g, cell s1 bh g = cell s bh g) by (intros; apply unless0_cells; congruence).
  fstep. rewrite Hc1, Ex.
  rewrite (bind_Done (when _ _) _ s1 tt (unless0 x (upd x b_next y) s1)).
  2: { apply when_unless0. intros Hx0. fstep. rewrite Hc1, Ey. by apply fput_upd, Hs1, Hx. }
  set (s2 := unless0 x (upd x b_next y) s1).
  assert (Hs2 : forall q g, has s q g -> has s2 q g).
  { intros. apply has_unless0; [intros; by apply has_upd | by apply Hs1]. }
  assert (Hc2 : forall g, cell s2 bh g = cell s bh g).
  { intros. rewrite <- Hc1. apply unless0_cells; congruence. }
  do 2 fstep. rewrite !Hc2. fold (key_of s bh).
  assert (Hh2 : hash_table s2 = hash_table s).
  { unfold s2, s1. by rewrite !unless0_hash. }
  rewrite (bind_Done (hash_get _ _) _ s2 w s2)
    by (apply hash_get_run; fold (key_of s bh); by rewrite Hh2).
  set (s3 := if decide (hash_table s2 !! Z.to_nat (key_of s bh) = Some bh)
             then set_bucket (key_of s bh) y s2 else s2).
  rewrite (bind_Done (when _ _) _ s2 tt s3).
  2: { unfold s3. destruct (Z.eqb_spec w bh) as [-> | Hne]; cbn [when].
       - rewrite decide_True by by rewrite Hh2.
         fstep. rewrite Hc2, Ey. apply (hash_put_run _ _ _ _ bh). fold (key_of s bh). by rewrite Hh2.
       - rewrite decide_False; [done |]. rewrite Hh2. congruence. }
  assert (Hs3 : forall q g, has s q g -> has s3 q g).
  { intros. unfold s3. case_decide; [apply has_set_bucket |]; by apply Hs2. }
  assert (Hc3 : forall g, cell s3 bh g = cell s bh g).
  { intros. unfold s3. case_decide; [| done]. rewrite <- Hc2. done. }
  do 2 fstep. rewrite !Hc3, Ep, En, (proj2 (Z.eqb_neq p 0) Hp0), (proj2 (Z.eqb_neq n 0) Hn0).
  cbn [orb when]. fstep. fstep. do 2 fstep.
  rewrite !cell_upd_obj by congruence. rewrite !Hc3, Ep, En. fstep. fstep.
  assert (Hfl : free_list (upd n b_prev_free p (upd p b_next_free n s3)) = free_list s).
  { cbn [upd free_list set_cells]. unfold s3. case_decide; cbn [set_bucket free_list set_hash_table];
      unfold s2, s1; by rewrite !unless0_free. }
  unfold removed. fold s1 s2. cbv zeta. fold s3. rewrite Hfl.
  destruct (Z.eqb_spec (free_list s) bh) as [E | E]; cbn [when].
  - rewrite decide_True by done. fstep. rewrite !cell_upd_obj by congruence. by rewrite Hc3, En.
  - by rewrite decide_False.
Qed.

(** What the removal leaves alone, and what it changes. *)
Lemma removed_has bh x y h p n s q g : has s q g -> has (removed bh x y h p n s) q g.
Proof.
  intros H. unfold removed. cbv zeta. repeat case_decide; repeat apply has_upd;
    repeat (apply has_unless0; [intros; by apply has_upd |]); done.
Qed.

Lemma removed_cells bh x y h p n s :
  cells (removed bh x y h p n s) =
    cells (upd n b_prev_free p (upd p b_next_free n
      (unless0 x (upd x b_next y) (unless0 y (upd y b_prev x) s)))).
Proof. unfold removed. cbv zeta. by repeat case_decide. Qed.

Lemma removed_cell bh x y h p n s q g :
  0 <= x < 2 ^ 32 -> 0 <= y < 2 ^ 32 -> 0 <= p < 2 ^ 32 -> 0 <= n < 2 ^ 32 ->
  cell (removed bh x y h p n s) q g =
    if decide (g = b_prev_free /\ q = n) then p
    else if decide (g = b_next_free /\ q = p) then n
    else if decide (g = b_next /\ q = x /\ x <> 0) then y
    else if decide (g = b_prev /\ q = y /\ y <> 0) then x
    else cell s q g.
Proof.
  intros Hx Hy Hp Hn. rewrite (cell_ext _ _ (removed_cells bh x y h p n s)).
  assert (Hu : forall v, 0 <= v < 2 ^ 32 -> u32 v = v) by (intros; by apply u32_small).
  destruct (decide (g = b_prev_free /\ q = n)) as [[-> ->] | N1].
  { rewrite cell_upd_eq. by apply Hu. }
  rewrite cell_upd_ne by (intros [= -> ->]; by apply N1).
  destruct (decide (g = b_next_free /\ q = p)) as [[-> ->] | N2].
  { rewrite cell_upd_eq. by apply Hu. }
  rewrite cell_upd_ne by (intros [= -> ->]; by apply N2).
  unfold unless0. destruct (Z.eqb_spec x 0) as [X0 | X0], (Z.eqb_spec y 0) as [Y0 | Y0];
    destruct (decide (g = b_next /\ q = x /\ x <> 0)) as [(-> & -> & ?) | N3]; try done;
    rewrite ?cell_upd_eq; rewrite ?(cell_upd_fld _ _ b_next _ _ b_prev) by done;
    try (by apply Hu).
  all: try (rewrite (cell_upd_ne _ x b_next) by (intros [= -> ->]; by apply N3)).
  all: destruct (decide (g = b_prev /\ q = y /\ y <> 0)) as [(-> & -> & ?) | N4]; try done;
    rewrite ?cell_upd_eq; try (by apply Hu).
  all: by rewrite cell_upd_ne by (intros [= -> ->]; by apply N4).
Qed.

Lemma removed_hash bh x y h p n s :
  hash_table (removed bh x y h p n s) =
    if decide (hash_table s !! Z.to_nat h = Some bh)
    then <[Z.to_nat h := y]> (hash_table s) else hash_table s.
Proof.
  unfold removed. cbv zeta. rewrite !unless0_hash. case_decide; case_decide;
    cbn [hash_table set_free_list upd set_cells set_bucket set_hash_table]; by rewrite !unless0_hash.
Qed.

Lemma removed_free bh x y h p n s :
  free_list (removed bh x y h p n s) = if decide (free_list s = bh) then n else free_list s.
Proof.
  unfold removed, unless0. cbv zeta. destruct (x =? 0), (y =? 0); repeat case_decide; done.
Qed.

Lemma removed_rest bh x y h p n s :
  nr_buffers (removed bh x y h p n s) = nr_buffers s /\ kmem (removed bh x y h p n s) = kmem s /\ fps (removed bh x y h p n s) = fps s /\ last_allocated_inode (removed bh x y h p n s) = last_allocated_inode s /\ fdisk (removed bh x y h p n s) = fdisk s.
Proof.
  unfold removed, unless0. cbv zeta. destruct (x =? 0), (y =? 0); repeat case_decide; done.
Qed.

Section removal.
Context (L : list Z) (C : Z -> list Z) (s : fstate) (bh : Z).
Hypothesis Hok : cache_ok L C s.
Hypothesis Hin : bh ∈ L.
Hypothesis Htwo : (2 <= length L)%nat.

Let x := cell s bh b_prev.
Let y := cell s bh b_next.
Let p := cell s bh b_prev_free.
Let n := cell s bh b_next_free.
Let h := key_of s bh.
Let s' := removed bh x y h p n s.

Lemma removal_split : exists l l', L = l ++ bh :: l' /\ del bh L = l ++ l' /\ l ++ l' <> [].
Proof.
  destruct (list_elem_of_split _ _ Hin) as (l & l' & HL). exists l, l'. split; [done |].
  pose proof (ck_nodup _ _ _ Hok) as Hnd. rewrite HL in Hnd |- *. split; [by apply del_split |].
  intros [-> ->]%app_eq_nil. rewrite HL in Htwo. cbn in Htwo. lia.
Qed.

Lemma removal_free : p ∈ del bh L /\ n ∈ del bh L /\
  exists l l', L = l ++ bh :: l' /\ del bh L = l ++ l' /\ l ++ l' <> [] /\
    n = hd 0 (l' ++ l) /\ free_link s p bh /\ free_link s bh n.
Proof.
  destruct removal_split as (l & l' & HL & Hd & Hne). pose proof (ck_ring _ _ _ Hok) as Hr.
  rewrite HL in Hr. destruct (ring_split _ _ _ _ Hr Hne) as (u & v & Hu & Hv & Hub & Hbv & Ev).
  assert (p = u) as -> by apply Hub. assert (n = v) as -> by apply Hbv.
  rewrite Hd. split; [done |]. split; [done |]. by exists l, l'.
Qed.

Lemma key_range : 0 <= h < 307.
Proof. apply hashfn_range. Qed.

(** The neighbours of [bh] in its chain, if it is in one. *)
Lemma removal_hash :
  (cell s bh b_dev = 0 /\ x = 0 /\ y = 0 /\ (forall h', 0 <= h' < 307 -> (bh ∉ C h'))) \/
  (cell s bh b_dev <> 0 /\ exists l l', C h = l ++ bh :: l' /\ del bh (C h) = l ++ l' /\
     (x = 0 /\ l = [] \/ x ∈ l) /\ y = hd 0 l' /\ hash_link s x bh /\ hash_link s bh y).
Proof.
  destruct (decide (cell s bh b_dev = 0)) as [Hd | Hd].
  - left. destruct (ck_out _ _ _ Hok bh Hin Hd) as [Hy Hx]. split; [done |]. split; [done |].
    split; [done |]. intros h' Hh' Hc. apply (ck_in _ _ _ Hok h' bh Hh') in Hc. tauto.
  - right. split; [done |].
    assert (Hc : bh ∈ C h) by (by apply (ck_in _ _ _ Hok h bh key_range)).
    destruct (ck_chain _ _ _ Hok h key_range) as [Hnd Hl].
    destruct (list_elem_of_split _ _ Hc) as (l & l' & HC). exists l, l'. rewrite HC in Hnd, Hl |- *.
    destruct (links_split _ _ _ _ Hl) as (u & v & Hu & Hv & Hub & Hbv).
    assert (Hb0 : bh <> 0) by (pose proof (ck_addr _ _ _ Hok bh Hin); lia).
    assert (x = u) as -> by (by apply Hub). assert (y = v) as -> by (by apply Hbv).
    split; [done |]. split; [by apply del_split | done].
Qed.

(** ... are buffers of the same bucket, or null. *)
Lemma removal_hash_in :
  (x = 0 \/ x ∈ C h /\ x <> bh) /\ (y = 0 \/ y ∈ C h /\ y <> bh) /\
  (cell s bh b_dev = 0 -> x = 0 /\ y = 0).
Proof.
  destruct removal_hash as [(_ & Hx & Hy & _) | (Hd & l & l' & HC & _ & Hx & Hy & _)]; [auto |].
  destruct (ck_chain _ _ _ Hok h key_range) as [Hnd _]. rewrite HC in Hnd |- *.
  apply NoDup_app in Hnd as (_ & H1 & H2). apply NoDup_cons in H2 as [H2 _].
  split; [| split; [| done]].
  - destruct Hx as [[-> _] | Hx]; [by left | right]. split; [set_solver |].
    intros ->. apply (H1 bh Hx). set_solver.
  - destruct l' as [| b l']; [by left | right]. cbn in Hy. rewrite Hy. split; [set_solver |].
    intros ->. set_solver.
Qed.

Lemma removal_ranges :
  0 <= x < 2 ^ 32 /\ 0 <= y < 2 ^ 32 /\ 0 < p < 2 ^ 32 /\ 0 < n < 2 ^ 32 /\ p <> bh /\ n <> bh /\
  x <> bh /\ y <> bh.
Proof.
  destruct removal_free as (Hp & Hn & _). apply elem_of_del in Hp as [Hp Hpb], Hn as [Hn Hnb].
  assert (Hc : forall q, q = 0 \/ q ∈ C h /\ q <> bh -> 0 <= q < 2 ^ 32 /\ q <> bh).
  { intros q [-> | [Hq ?]].
    - split; [lia |]. pose proof (ck_addr _ _ _ Hok bh Hin). lia.
    - split; [| done]. apply (ck_in _ _ _ Hok h q key_range) in Hq as [Hq _].
      pose proof (ck_addr _ _ _ Hok q Hq). lia. }
  destruct removal_hash_in as (Hx & Hy & _).
  pose proof (Hc _ Hx). pose proof (Hc _ Hy).
  pose proof (ck_addr _ _ _ Hok p Hp). pose proof (ck_addr _ _ _ Hok n Hn). tauto.
Qed.

Lemma removal_run : remove_from_queues bh s = Done tt s'.
Proof.
  destruct removal_ranges as (Hx & Hy & Hp & Hn & Hpb & Hnb & Hxb & Hyb).
  destruct removal_free as (HpL & HnL & _). apply elem_of_del in HpL as [HpL _], HnL as [HnL _].
  destruct removal_hash_in as (HxC & HyC & _).
  assert (Hc : forall q f, q = 0 \/ q ∈ C h /\ q <> bh -> q <> 0 -> f ∈ buf_fields -> has s q f).
  { intros q f [-> | [Hq _]] Hq0 Hf; [done |].
    apply (ck_in _ _ _ Hok h q key_range) in Hq as [Hq _]. by apply (ck_buf _ _ _ Hok). }
  apply (remove_run s bh x y p n (hd 0 (C h))); try done; try lia.
  - intros f. by apply (ck_buf _ _ _ Hok).
  - apply (ck_bucket _ _ _ Hok), key_range.
  - intros. apply (Hc x); [done .. | set_solver].
  - intros. apply (Hc y); [done .. | set_solver].
  - apply (ck_buf _ _ _ Hok); [done | in_list].
  - apply (ck_buf _ _ _ Hok); [done | in_list].
Qed.

Lemma removal_cell q g :
  cell s' q g =
    if decide (g = b_prev_free /\ q = n) then p
    else if decide (g = b_next_free /\ q = p) then n
    else if decide (g = b_next /\ q = x /\ x <> 0) then y
    else if decide (g = b_prev /\ q = y /\ y <> 0) then x
    else cell s q g.
Proof. apply removed_cell; pose proof removal_ranges; lia. Qed.

Lemma removal_other q g :
  g <> b_prev -> g <> b_next -> g <> b_prev_free -> g <> b_next_free -> cell s' q g = cell s q g.
Proof. intros. rewrite removal_cell. rewrite !decide_False; [done | tauto ..]. Qed.

Lemma removal_ring : ring (free_link s') (del bh L).
Proof.
  destruct removal_free as (_ & _ & l & l' & HL & Hd & Hne & _ & [Hp1 Hp2] & [Hn1 Hn2]).
  rewrite Hd. pose proof (ck_nodup _ _ _ Hok) as Hnd. pose proof (ck_ring _ _ _ Hok) as Hr.
  rewrite HL in Hnd, Hr.
  assert (Hb : bh ∉ l ++ l').
  { apply NoDup_app in Hnd as (_ & H1 & H2). apply NoDup_cons in H2 as [H2 _].
    intros [Hb | Hb]%elem_of_app; [| done]. apply (H1 bh Hb). set_solver. }
  apply (ring_remove _ _ _ _ _ Hne Hb Hr). intros u v Hu Hv HR.
  assert (Hub : u <> bh) by (intros ->; done). assert (Hvb : v <> bh) by (intros ->; done).
  unfold free_link. rewrite !removal_cell.
  destruct HR as [[H1 H2] | [[H1 H2] [H3 H4]]].
  - assert (u <> p) by (intros ->; congruence). assert (v <> n) by (intros ->; congruence).
    repeat (rewrite decide_False by (intros; naive_solver)). done.
  - assert (u = p) as -> by (unfold p; congruence). assert (v = n) as -> by (unfold n; congruence).
    split.
    + rewrite decide_False by naive_solver. by rewrite decide_True.
    + by rewrite decide_True.
Qed.

Lemma removal_link u v :
  (u = x -> x = 0) -> (v = y -> y = 0) -> hash_link s u v -> hash_link s' u v.
Proof.
  intros Hu Hv [H1 H2]. unfold hash_link. rewrite !removal_cell. split; intros H0.
  - rewrite decide_False by naive_solver. rewrite decide_False by naive_solver.
    rewrite decide_False by naive_solver. rewrite decide_False by naive_solver. auto.
  - rewrite decide_False by naive_solver. rewrite decide_False by naive_solver.
    rewrite decide_False by naive_solver. rewrite decide_False by naive_solver. auto.
Qed.

Lemma removal_chain_same : NoDup (del bh (C h)) /\ links (hash_link s') (0 :: del bh (C h) ++ [0]).
Proof.
  destruct (ck_chain _ _ _ Hok h key_range) as [Hnd Hl]. split; [by apply NoDup_del |].
  assert (Hb0 : bh <> 0) by (pose proof (ck_addr _ _ _ Hok bh Hin); lia).
  destruct removal_hash as [(_ & Hx & Hy & Hno) | (Hd & l & l' & HC & Hdel & Hx & Hy & Hxb & Hby)].
  - rewrite del_id by apply Hno, key_range. revert Hl. apply links_impl. intros u v _ _.
    apply removal_link; congruence.
  - rewrite Hdel. rewrite HC in Hl, Hnd.
    assert (Hb : bh ∉ l ++ l').
    { apply NoDup_app in Hnd as (_ & H1 & H2). apply NoDup_cons in H2 as [H2 _].
      intros [Hb | Hb]%elem_of_app; [| done]. apply (H1 bh Hb). set_solver. }
    apply (links_remove _ _ _ _ _ Hl Hb Hb0). intros u v Hu Hv [Huv | [Hub Hbv]].
    + apply removal_link; [| | done].
      * intros ->. destruct (decide (x = 0)); [done |]. exfalso. apply Hv.
        destruct Huv as [H1 _], Hxb as [H2 _]. rewrite <- H1, <- H2 by done. done.
      * intros ->. destruct (decide (y = 0)); [done |]. exfalso. apply Hu.
        destruct Huv as [_ H1], Hby as [_ H2]. rewrite <- H1, <- H2 by done. done.
    + assert (u = x) as -> by (destruct Hub as [_ H]; symmetry; by apply H).
      assert (v = y) as -> by (destruct Hbv as [H _]; symmetry; by apply H).
      unfold hash_link. rewrite !removal_cell. split; intros H0.
      * rewrite decide_False by naive_solver. rewrite decide_False by naive_solver.
        by rewrite decide_True.
      * do 3 rewrite decide_False by naive_solver. by rewrite decide_True.
Qed.

Lemma removal_chain_other h' :
  0 <= h' < 307 -> h' <> h ->
  NoDup (del bh (C h')) /\ links (hash_link s') (0 :: del bh (C h') ++ [0]).
Proof.
  intros Hh' Hne. destruct (ck_chain _ _ _ Hok h' Hh') as [Hnd Hl]. split; [by apply NoDup_del |].
  rewrite del_id.
  2: { intros Hb. apply (ck_in _ _ _ Hok h' bh Hh') in Hb as (_ & _ & Hb). by apply Hne. }
  assert (Hdis : forall q, q = 0 \/ q ∈ C h /\ q <> bh -> q ∈ 0 :: C h' ++ [0] -> q = 0).
  { intros q [? | [Hq _]] Hq'; [done |]. apply elem_of_cons in Hq' as [? | Hq']; [done |].
    apply elem_of_app in Hq' as [Hq' | Hq']; [| set_solver].
    apply (ck_in _ _ _ Hok h q key_range) in Hq as (_ & _ & E1).
    apply (ck_in _ _ _ Hok h' q Hh') in Hq' as (_ & _ & E2). congruence. }
  destruct removal_hash_in as (Hx & Hy & _).
  revert Hl. apply links_impl. intros u v Hu Hv. apply removal_link.
  - intros ->. by apply (Hdis x Hx).
  - intros ->. apply (Hdis y Hy). apply elem_of_cons. by right.
Qed.

Lemma removal_bucket h' :
  0 <= h' < 307 -> hash_table s' !! Z.to_nat h' = Some (hd 0 (del bh (C h'))).
Proof.
  intros Hh'. unfold s'. rewrite removed_hash. pose proof (ck_bucket _ _ _ Hok h' Hh') as Hb'.
  pose proof (ck_bucket _ _ _ Hok h key_range) as Hb. pose proof key_range as Hh.
  assert (Hlen : (Z.to_nat h < length (hash_table s))%nat) by (rewrite (ck_len _ _ _ Hok); lia).
  assert (Hb0 : bh <> 0) by (pose proof (ck_addr _ _ _ Hok bh Hin); lia).
  assert (Hnot : h' <> h \/ cell s bh b_dev = 0 -> (bh ∉ C h')).
  { intros Hn Hc. apply (ck_in _ _ _ Hok h' bh Hh') in Hc as (_ & Hc1 & Hc2).
    unfold h in *. destruct Hn; congruence. }
  destruct (decide (h' = h)) as [-> | Hne].
  - destruct removal_hash as [(Hd & _) | (Hd & l & l' & HC & Hdel & Hx & Hy & _)].
    + rewrite decide_False; [rewrite del_id by auto; done |]. rewrite Hb. intros [= E].
      apply Hnot; [by right |]. destruct (C h); cbn in E; [congruence | subst; set_solver].
    + rewrite Hdel. rewrite HC in Hb. destruct (ck_chain _ _ _ Hok h Hh) as [Hnd _]. rewrite HC in Hnd.
      destruct l as [| a l]; cbn [app hd] in *.
      * rewrite decide_True by done. rewrite list_lookup_insert_eq by done. by rewrite Hy.
      * rewrite decide_False; [done |]. rewrite Hb. intros [= ->].
        apply NoDup_cons in Hnd as [Hnd _]. set_solver.
  - rewrite del_id by auto.
    case_decide; [| done]. rewrite list_lookup_insert_ne; [done | lia].
Qed.

Lemma removal_head : hd 0 (del bh L) = free_list s'.
Proof.
  unfold s'. rewrite removed_free.
  destruct removal_free as (_ & _ & l & l' & HL & Hdel & _ & Hn & _). rewrite Hdel.
  pose proof (ck_head _ _ _ Hok) as Hh. pose proof (ck_nodup _ _ _ Hok) as Hnd. rewrite HL in Hh, Hnd.
  destruct l as [| a l]; cbn [app hd] in *.
  - rewrite decide_True by done. by rewrite Hn, app_nil_r.
  - rewrite decide_False; [done |]. apply NoDup_cons in Hnd as [Hnd _].
    intros E. apply Hnd. rewrite Hh, E. set_solver.
Qed.

Lemma removal_ok : cache_ok (del bh L) (fun h => del bh (C h)) s'.
Proof.
  assert (Hdev : forall q, cell s' q b_dev = cell s q b_dev) by (intros; by apply removal_other).
  assert (Hblk : forall q, cell s' q b_blocknr = cell s q b_blocknr) by (intros; by apply removal_other).
  assert (Hkey : forall q, key_of s' q = key_of s q) by (intros; unfold key_of; by rewrite Hdev, Hblk).
  assert (Hsub : forall q, q ∈ del bh L -> q ∈ L) by (intros q Hq; apply elem_of_del in Hq; tauto).
  destruct (removed_rest bh x y h p n s) as (Hnr & _).
  constructor.
  - unfold s'. rewrite removed_hash. case_decide; [rewrite length_insert |]; apply (ck_len _ _ _ Hok).
  - fold s' in Hnr. rewrite Hnr. pose proof (ck_num _ _ _ Hok).
    assert (length (del bh L) <= length L)%nat by apply length_filter. lia.
  - destruct removal_free as (_ & _ & l & l' & _ & Hdel & Hne & _). by rewrite Hdel.
  - apply NoDup_del, (ck_nodup _ _ _ Hok).
  - intros q Hq. by apply (ck_addr _ _ _ Hok), Hsub.
  - intros q f Hq Hf. apply removed_has, (ck_buf _ _ _ Hok); auto.
  - apply removal_head.
  - apply removal_ring.
  - apply removal_bucket.
  - intros h' Hh'. destruct (decide (h' = h)) as [-> | Hne]; [apply removal_chain_same |].
    by apply removal_chain_other.
  - intros h' q Hh'. rewrite !elem_of_del, Hdev, Hkey, (ck_in _ _ _ Hok h' q Hh'). tauto.
  - intros q Hq. rewrite Hdev. intros Hd. apply elem_of_del in Hq as [Hq Hqb].
    destruct (ck_out _ _ _ Hok q Hq Hd) as [E1 E2]. rewrite !removal_cell.
    assert (Hq0 : q <> 0) by (pose proof (ck_addr _ _ _ Hok q Hq); lia).
    assert (Hno : forall z, z = 0 \/ z ∈ C h /\ z <> bh -> q <> z).
    { intros z Hz ->. destruct Hz as [| [Hz _]]; [done |].
      apply (ck_in _ _ _ Hok h z key_range) in Hz. tauto. }
    destruct removal_hash_in as (Hx & Hy & _). pose proof (Hno _ Hx). pose proof (Hno _ Hy).
    do 8 rewrite decide_False by naive_solver. done.
  - intros q r Hq Hr. rewrite !Hdev, !Hblk. apply (ck_unique _ _ _ Hok); auto.
Qed.
End removal.

(** [remove_from_queues] takes a buffer out of the free list and out of its
    chain, and touches nothing but links. *)
Lemma remove_from_queues_ok L C s bh :
  cache_ok L C s -> bh ∈ L -> (2 <= length L)%nat ->
  exists s', remove_from_queues bh s = Done tt s' /\
    cache_ok (del bh L) (fun h => del bh (C h)) s' /\
    (forall q g, g <> b_prev -> g <> b_next -> g <> b_prev_free -> g <> b_next_free ->
       cell s' q g = cell s q g) /\
    (forall q g, has s q g -> has s' q g) /\
    nr_buffers s' = nr_buffers s /\ kmem s' = kmem s /\ fps s' = fps s /\ last_allocated_inode s' = last_allocated_inode s /\ fdisk s' = fdisk s.
Proof.
  intros Hok Hin Htwo. eexists. split; [by apply (removal_run L C) |].
  split; [by apply removal_ok |]. split; [intros; by apply (removal_other L C) |].
  split; [intros; by apply removed_has |].
  destruct (removed_rest bh (cell s bh b_prev) (cell s bh b_next) (key_of s bh)
    (cell s bh b_prev_free) (cell s bh b_next_free) s) as (? & ? & ? & ? & ?). done.
Qed.

(** ** [insert_into_queues] *)

Definition spliced (bh f p : Z) (s : fstate) : fstate :=
  upd bh b_next 0 (upd bh b_prev 0 (upd f b_prev_free bh (upd p b_next_free bh
    (upd bh b_prev_free p (upd bh b_next_free f s))))).

Definition inserted (bh f p k h : Z) (s : fstate) : fstate :=
  let s' := spliced bh f p s in
  if decide (cell s bh b_dev = 0) then s'
  else
    let s2 := set_bucket k bh (upd bh b_next h s') in
    if decide (h = 0) then set_kmem (store32 (kmem s2) offset_b_prev bh) s2 else upd h b_prev bh s2.

Lemma insert_run s bh f p h :
  (forall g, g ∈ buf_fields -> has s bh g) -> 0 <= p < 2 ^ 32 -> 0 <= h < 2 ^ 32 ->
  free_list s = f -> cell s f b_prev_free = p -> has s f b_prev_free -> has s p b_next_free ->
  hash_table s !! Z.to_nat (key_of s bh) = Some h -> (h <> 0 -> has s h b_prev) ->
  f <> bh -> p <> bh ->
  insert_into_queues bh s = Done tt (inserted bh f p (key_of s bh) h s).
Proof.
  intros Hf Hpr Hhr Ef Ep H1 H2 Hb H3 Hfb Hpb.
  assert (H4 : has s bh b_next) by (apply Hf; in_list).
  assert (H5 : has s bh b_prev) by (apply Hf; in_list).
  assert (H6 : has s bh b_prev_free) by (apply Hf; in_list).
  assert (H7 : has s bh b_next_free) by (apply Hf; in_list).
  assert (H8 : has s bh b_dev) by (apply Hf; in_list).
  assert (H9 : has s bh b_blocknr) by (apply Hf; in_list). clear Hf.
  assert (Hc : forall g, g = b_dev \/ g = b_blocknr -> cell (spliced bh f p s) bh g = cell s bh g).
  { intros g Hg. unfold spliced. rewrite !cell_upd_ne; [done | naive_solver ..]. }
  unfold insert_into_queues. do 2 fstep. rewrite Ef. fstep.
  rewrite cell_upd_obj by done. rewrite Ep. do 2 fstep.
  rewrite !cell_upd_obj by congruence. rewrite Ep. do 5 fstep.
  change (upd bh b_next 0 _) with (spliced bh f p s). rewrite (Hc b_dev) by auto.
  unfold inserted. cbv zeta. destruct (Z.eqb_spec (cell s bh b_dev) 0) as [E | E].
  { by rewrite decide_True. }
  rewrite decide_False by done.
  assert (Hs : forall q g, has s q g -> has (spliced bh f p s) q g) by (intros; unfold spliced; eauto 8 with fs).
  fstep. rewrite (Hc b_blocknr) by auto. fold (key_of s bh).
  rewrite (bind_Done (hash_get _ _) _ (spliced bh f p s) h (spliced bh f p s))
    by (by apply hash_get_run).
  fstep. rewrite (bind_Done (hash_put _ _ _) _ _ tt (set_bucket (key_of s bh) bh (upd bh b_next h (spliced bh f p s))))
    by (by apply (hash_put_run _ _ _ _ h)).
  fstep. change (cell (set_bucket _ _ ?x) bh b_next) with (cell x bh b_next).
  rewrite cell_upd_eq. cbn [fnorm]. rewrite u32_small by exact Hhr.
  destruct (Z.eqb_spec h 0) as [-> | E0]; [by rewrite decide_True |]. rewrite decide_False by done.
  apply fput_upd. specialize (H3 E0). eauto 8 with fs.
Qed.

Lemma spliced_cell bh f p s q g :
  0 <= bh < 2 ^ 32 -> 0 <= f < 2 ^ 32 -> 0 <= p < 2 ^ 32 -> f <> bh -> p <> bh ->
  cell (spliced bh f p s) q g =
    if decide (q = bh /\ (g = b_next \/ g = b_prev)) then 0
    else if decide (g = b_prev_free /\ q = f \/ g = b_next_free /\ q = p) then bh
    else if decide (g = b_prev_free /\ q = bh) then p
    else if decide (g = b_next_free /\ q = bh) then f
    else cell s q g.
Proof.
  intros Hb Hf Hp Hfb Hpb. unfold spliced.
  assert (Hu : forall v, 0 <= v < 2 ^ 32 -> u32 v = v) by (intros; by apply u32_small).
  destruct (decide (q = bh /\ (g = b_next \/ g = b_prev))) as [(-> & [-> | ->]) | N1].
  { by rewrite cell_upd_eq. }
  { by rewrite cell_upd_ne, cell_upd_eq by done. }
  do 2 rewrite cell_upd_ne by naive_solver.
  destruct (decide (g = b_prev_free /\ q = f \/ g = b_next_free /\ q = p)) as [[[-> ->] | [-> ->]] | N2].
  { rewrite cell_upd_eq. by apply Hu. }
  { rewrite cell_upd_ne by naive_solver. rewrite cell_upd_eq. by apply Hu. }
  do 2 rewrite cell_upd_ne by naive_solver.
  destruct (decide (g = b_prev_free /\ q = bh)) as [[-> ->] | N3].
  { rewrite cell_upd_eq. by apply Hu. }
  rewrite cell_upd_ne by naive_solver.
  destruct (decide (g = b_next_free /\ q = bh)) as [[-> ->] | N4].
  { rewrite cell_upd_eq. by apply Hu. }
  by rewrite cell_upd_ne by naive_solver.
Qed.

Lemma inserted_cell bh f p k h s q g :
  0 <= bh < 2 ^ 32 -> 0 <= f < 2 ^ 32 -> 0 <= p < 2 ^ 32 -> 0 <= h < 2 ^ 32 -> f <> bh -> p <> bh ->
  cell (inserted bh f p k h s) q g =
    if decide (cell s bh b_dev <> 0 /\ h <> 0 /\ g = b_prev /\ q = h) then bh
    else if decide (cell s bh b_dev <> 0 /\ g = b_next /\ q = bh) then h
    else cell (spliced bh f p s) q g.
Proof.
  intros Hb Hf Hp Hh Hfb Hpb. unfold inserted. cbv zeta.
  assert (Hu : forall v, 0 <= v < 2 ^ 32 -> u32 v = v) by (intros; by apply u32_small).
  destruct (decide (cell s bh b_dev = 0)) as [E | E].
  { by do 2 rewrite decide_False by tauto. }
  set (s2 := set_bucket k bh (upd bh b_next h (spliced bh f p s))).
  assert (Hs2 : cell (if decide (h = 0) then set_kmem (store32 (kmem s2) offset_b_prev bh) s2 else upd h b_prev bh s2) q g =
    if decide (h <> 0 /\ g = b_prev /\ q = h) then bh else cell s2 q g).
  { destruct (decide (h = 0)) as [-> | H0]; [by rewrite decide_False by tauto |].
    destruct (decide (h <> 0 /\ g = b_prev /\ q = h)) as [(_ & -> & ->) | N]; [rewrite cell_upd_eq; by apply Hu |].
    by rewrite cell_upd_ne by naive_solver. }
  rewrite Hs2. destruct (decide (h <> 0 /\ g = b_prev /\ q = h)) as [N | N1]; [by rewrite decide_True by tauto |].
  rewrite decide_False by tauto. unfold s2.
  change (cell (set_bucket k bh ?x) q g) with (cell x q g).
  destruct (decide (cell s bh b_dev <> 0 /\ g = b_next /\ q = bh)) as [(_ & -> & ->) | N2].
  { rewrite cell_upd_eq. by apply Hu. }
  by rewrite cell_upd_ne by naive_solver.
Qed.

Lemma inserted_has bh f p k h s q g : has s q g -> has (inserted bh f p k h s) q g.
Proof.
  intros H. assert (Hs : has (spliced bh f p s) q g) by (unfold spliced; eauto 8 with fs).
  unfold inserted. cbv zeta. case_decide; [done |]. case_decide; [apply has_set_kmem |]; eauto 8 with fs.
Qed.

Lemma inserted_hash bh f p k h s :
  hash_table (inserted bh f p k h s) =
    if decide (cell s bh b_dev = 0) then hash_table s else <[Z.to_nat k := bh]> (hash_table s).
Proof. unfold inserted. cbv zeta. by repeat case_decide. Qed.

Lemma inserted_rest bh f p k h s :
  free_list (inserted bh f p k h s) = free_list s /\ nr_buffers (inserted bh f p k h s) = nr_buffers s /\
  kmem (inserted bh f p k h s) =
    (if decide (cell s bh b_dev <> 0 /\ h = 0) then store32 (kmem s) offset_b_prev bh else kmem s) /\
  fps (inserted bh f p k h s) = fps s /\
  last_allocated_inode (inserted bh f p k h s) = last_allocated_inode s /\ fdisk (inserted bh f p k h s) = fdisk s.
Proof.
  unfold inserted. cbv zeta. destruct (decide (cell s bh b_dev = 0)) as [E | E]; [by rewrite decide_False by tauto |].
  destruct (decide (h = 0)) as [E0 | E0]; [by rewrite decide_True by tauto | by rewrite decide_False by tauto].
Qed.

Section insertion.
Context (L : list Z) (C : Z -> list Z) (s : fstate) (bh : Z).
Hypothesis Hok : cache_ok L C s.
Hypothesis Hout : bh ∉ L.
Hypothesis Haddr : 0 < bh < 2 ^ 32.
Hypothesis Hbuf : forall f, f ∈ buf_fields -> has s bh f.
Hypothesis Hnum : Z.of_nat (S (length L)) <= nr_buffers s.
Hypothesis Hfresh : forall q, q ∈ L -> cell s bh b_dev <> 0 ->
  cell s q b_dev = cell s bh b_dev -> cell s q b_blocknr <> cell s bh b_blocknr.

Let f := free_list s.
Let p := cell s f b_prev_free.
Let k := key_of s bh.
Let h := hd 0 (C k).
Let s' := inserted bh f p k h s.
Let C' h' := if decide (cell s bh b_dev <> 0 /\ h' = k) then bh :: C h' else C h'.

Lemma insertion_free : exists t, L = f :: t /\ f ∈ L /\ p ∈ L /\ links (free_link s) (f :: t ++ [f]).
Proof.
  pose proof (ck_ring _ _ _ Hok) as Hr. pose proof (ck_head _ _ _ Hok) as Hh.
  destruct L as [| a t]; [done |]. cbn in Hh. subst a. exists t. fold f in Hr |- *. cbn [ring] in Hr.
  split; [done |]. split; [set_solver |]. split; [| done].
  destruct (list_last_case (f :: t) ltac:(done)) as (t' & d & Ed).
  change (f :: t ++ [f]) with ((f :: t) ++ [f]) in Hr. rewrite Ed in Hr |- *.
  rewrite <- app_assoc in Hr. apply links_app in Hr as [_ [[_ Hr] _]]. fold p in Hr. subst d. set_solver.
Qed.

Lemma insertion_bucket_in : h = 0 \/ h ∈ C k /\ h ∈ L.
Proof.
  unfold h. destruct (C k) as [| a l] eqn:E; [by left | right]. cbn. split; [set_solver |].
  apply (ck_in _ _ _ Hok k a (hashfn_range _ _)). rewrite E. set_solver.
Qed.

Lemma insertion_facts :
  0 <= bh < 2 ^ 32 /\ 0 <= f < 2 ^ 32 /\ 0 <= p < 2 ^ 32 /\ 0 <= h < 2 ^ 32 /\ f <> bh /\ p <> bh /\ h <> bh.
Proof.
  destruct insertion_free as (t & _ & Hf & Hp & _).
  pose proof (ck_addr _ _ _ Hok f Hf). pose proof (ck_addr _ _ _ Hok p Hp).
  assert (f <> bh) by (intros ->; done). assert (p <> bh) by (intros ->; done).
  destruct insertion_bucket_in as [-> | [_ Hh]]; [lia |].
  pose proof (ck_addr _ _ _ Hok h Hh). assert (h <> bh) by (intros ->; done). lia.
Qed.

Lemma insertion_run : insert_into_queues bh s = Done tt s'.
Proof.
  destruct insertion_facts as (H1 & H2 & H3 & H4 & H5 & H6 & _).
  destruct insertion_free as (t & _ & Hf & Hp & _).
  apply insert_run; try done.
  - apply (ck_buf _ _ _ Hok); [done | in_list].
  - apply (ck_buf _ _ _ Hok); [done | in_list].
  - apply (ck_bucket _ _ _ Hok), hashfn_range.
  - intros H0. destruct insertion_bucket_in as [| [_ Hh]]; [done |].
    apply (ck_buf _ _ _ Hok); [done | in_list].
Qed.

Lemma insertion_cell q g :
  cell s' q g =
    if decide (cell s bh b_dev <> 0 /\ h <> 0 /\ g = b_prev /\ q = h) then bh
    else if decide (cell s bh b_dev <> 0 /\ g = b_next /\ q = bh) then h
    else if decide (q = bh /\ (g = b_next \/ g = b_prev)) then 0
    else if decide (g = b_prev_free /\ q = f \/ g = b_next_free /\ q = p) then bh
    else if decide (g = b_prev_free /\ q = bh) then p
    else if decide (g = b_next_free /\ q = bh) then f
    else cell s q g.
Proof.
  destruct insertion_facts as (H1 & H2 & H3 & H4 & H5 & H6 & _).
  unfold s'. rewrite inserted_cell by done. by rewrite spliced_cell by done.
Qed.

Lemma insertion_other q g :
  g <> b_prev -> g <> b_next -> g <> b_prev_free -> g <> b_next_free -> cell s' q g = cell s q g.
Proof. intros. rewrite insertion_cell. by do 6 rewrite decide_False by naive_solver. Qed.

Lemma insertion_ring : ring (free_link s') (L ++ [bh]).
Proof.
  destruct insertion_facts as (_ & _ & _ & _ & H5 & H6 & _).
  destruct insertion_free as (t & HL & Hf & Hp & Hr). pose proof (ck_nodup _ _ _ Hok) as Hnd.
  rewrite HL in Hnd |- *. apply NoDup_cons in Hnd as [Hft Hnd].
  assert (Hb : forall u, u ∈ f :: t -> u <> bh) by (rewrite <- HL; intros u Hu ->; done).
  cbn [app]. apply (ring_insert (free_link s)); [done | | |]; unfold free_link.
  - intros u v Hu Hv [E1 E2]. assert (Hvf : v <> f) by (intros ->; done).
    assert (Hup : u <> p).
    { intros ->. apply Hvf. rewrite <- E1.
      change (f :: t ++ [f]) with ((f :: t) ++ [f]) in Hr.
      destruct (list_last_case (f :: t) ltac:(done)) as (t' & d & Ed). rewrite Ed in Hr.
      rewrite <- app_assoc in Hr. apply links_app in Hr as [_ [[Ha Hb'] _]].
      unfold p. rewrite Hb'. exact Ha. }
    pose proof (Hb u Hu). pose proof (Hb v ltac:(set_solver)). rewrite !insertion_cell.
    by do 12 rewrite decide_False by naive_solver.
  - intros d Hd [E1 E2]. assert (d = p) as -> by done. rewrite !insertion_cell. split.
    + do 3 rewrite decide_False by naive_solver. by rewrite decide_True by auto.
    + do 4 rewrite decide_False by naive_solver. by rewrite decide_True by auto.
  - rewrite !insertion_cell. split.
    + do 5 rewrite decide_False by naive_solver. by rewrite decide_True by auto.
    + do 3 rewrite decide_False by naive_solver. by rewrite decide_True by auto.
Qed.

Lemma insertion_link u v :
  u <> bh -> v <> bh -> (v = h -> v = 0 \/ cell s bh b_dev = 0) -> hash_link s u v -> hash_link s' u v.
Proof.
  intros Hu Hv Hvh [H1 H2]. unfold hash_link. rewrite !insertion_cell. split; intros H0.
  - do 6 rewrite decide_False by naive_solver. auto.
  - do 6 rewrite decide_False by naive_solver. auto.
Qed.

Lemma insertion_notin h' : 0 <= h' < 307 -> bh ∉ C h'.
Proof. intros Hh' Hc. apply (ck_in _ _ _ Hok h' bh Hh') in Hc. tauto. Qed.

Lemma insertion_chain_new :
  cell s bh b_dev <> 0 -> links (hash_link s') (0 :: (bh :: C k) ++ [0]).
Proof.
  intros Hd. destruct (ck_chain _ _ _ Hok k (hashfn_range _ _)) as [Hnd Hl].
  pose proof (insertion_notin k (hashfn_range _ _)) as Hn.
  destruct insertion_facts as (_ & _ & _ & _ & _ & _ & Hhb).
  apply (links_push (hash_link s)); [done | | |].
  - intros u v Hu Hv Huv. apply insertion_link; [intros ->; done | | | done].
    + intros ->. apply elem_of_app in Hv as [Hv | Hv].
      * apply Hn. destruct (C k); [done | set_solver].
      * apply list_elem_of_singleton in Hv. lia.
    + intros ->. apply elem_of_app in Hv as [Hv | Hv].
      * exfalso. unfold h in Hv. destruct (C k) as [| a l]; [by apply elem_of_nil in Hv |].
        by apply NoDup_cons in Hnd as [Hnd _].
      * left. by apply list_elem_of_singleton in Hv.
  - unfold hash_link. rewrite !insertion_cell. split; [done |]. intros _.
    do 2 rewrite decide_False by naive_solver. by rewrite decide_True by auto.
  - unfold hash_link. rewrite !insertion_cell. split; intros.
    + rewrite decide_False by naive_solver. by rewrite decide_True.
    + by rewrite decide_True.
Qed.

Lemma insertion_chain_old h' :
  0 <= h' < 307 -> (h' <> k \/ cell s bh b_dev = 0) -> links (hash_link s') (0 :: C h' ++ [0]).
Proof.
  intros Hh' Hne. destruct (ck_chain _ _ _ Hok h' Hh') as [_ Hl].
  pose proof (insertion_notin h' Hh') as Hn.
  assert (Hb : forall u, u ∈ 0 :: C h' ++ [0] -> u <> bh).
  { intros u Hu ->. apply elem_of_cons in Hu as [E | Hu]; [lia |].
    apply elem_of_app in Hu as [? | Hu]; [done |]. apply list_elem_of_singleton in Hu. lia. }
  revert Hl. apply links_impl. intros u v Hu Hv.
  apply insertion_link; [by apply Hb | apply Hb; cbn [tail] in Hv; set_solver |].
  intros ->. destruct Hne as [Hne | ?]; [| by right]. left.
  destruct (decide (h = 0)) as [| H0]; [done | exfalso].
  destruct insertion_bucket_in as [? | [Hk _]]; [done |].
  apply (ck_in _ _ _ Hok k h (hashfn_range _ _)) in Hk as (_ & _ & E1).
  cbn [tail] in Hv. apply elem_of_app in Hv as [Hv | Hv].
  - apply (ck_in _ _ _ Hok h' h Hh') in Hv as (_ & _ & E2). congruence.
  - by apply list_elem_of_singleton in Hv.
Qed.

Lemma insertion_bucket h' : 0 <= h' < 307 -> hash_table s' !! Z.to_nat h' = Some (hd 0 (C' h')).
Proof.
  intros Hh'. unfold s'. rewrite inserted_hash. pose proof (ck_bucket _ _ _ Hok h' Hh') as Hb.
  unfold C'. pose proof (hashfn_range (cell s bh b_dev) (cell s bh b_blocknr)) as Hk.
  change (0 <= k < 307) in Hk.
  destruct (decide (cell s bh b_dev = 0)) as [E | E].
  { by rewrite decide_False by tauto. }
  destruct (decide (h' = k)) as [-> | Hne].
  - rewrite decide_True by done. rewrite list_lookup_insert_eq; [done |].
    pose proof (ck_len _ _ _ Hok). lia.
  - rewrite decide_False by tauto. rewrite list_lookup_insert_ne; [done | lia].
Qed.

Lemma insertion_ok : cache_ok (L ++ [bh]) C' s'.
Proof.
  assert (Hdev : forall q, cell s' q b_dev = cell s q b_dev) by (intros; by apply insertion_other).
  assert (Hblk : forall q, cell s' q b_blocknr = cell s q b_blocknr) by (intros; by apply insertion_other).
  assert (Hkey : forall q, key_of s' q = key_of s q) by (intros; unfold key_of; by rewrite Hdev, Hblk).
  assert (Hsnoc : forall q, q ∈ L ++ [bh] -> q ∈ L \/ q = bh) by set_solver.
  destruct (inserted_rest bh f p k h s) as (Hfl & Hnr & _). fold s' in Hfl, Hnr.
  constructor.
  - unfold s'. rewrite inserted_hash. case_decide; [| rewrite length_insert]; apply (ck_len _ _ _ Hok).
  - rewrite Hnr, length_app. cbn [length]. lia.
  - by destruct L.
  - apply NoDup_app. split; [apply (ck_nodup _ _ _ Hok) |]. split; [set_solver | apply NoDup_singleton].
  - intros q [Hq | ->]%Hsnoc; [by apply (ck_addr _ _ _ Hok) | done].
  - intros q g [Hq | ->]%Hsnoc Hg; apply inserted_has; [by apply (ck_buf _ _ _ Hok) | by apply Hbuf].
  - rewrite Hfl, <- (ck_head _ _ _ Hok). pose proof (ck_ne _ _ _ Hok). by destruct L.
  - apply insertion_ring.
  - apply insertion_bucket.
  - intros h' Hh'. unfold C'. destruct (ck_chain _ _ _ Hok h' Hh') as [Hnd _].
    case_decide as Hd.
    + destruct Hd as [Hd ->]. split; [| by apply insertion_chain_new].
      apply NoDup_cons. split; [by apply insertion_notin | done].
    + split; [done |]. apply insertion_chain_old; [done |].
      destruct (decide (cell s bh b_dev = 0)); [by right | left; tauto].
  - intros h' q Hh'. rewrite elem_of_app, list_elem_of_singleton, Hdev, Hkey. unfold C'.
    pose proof (ck_in _ _ _ Hok h' q Hh') as Hi.
    case_decide as Hd; [rewrite elem_of_cons |]; rewrite Hi; [destruct Hd as [Hd ->]; unfold k; naive_solver |].
    split; [tauto |]. intros ([Hq | ->] & Hq1 & Hq2); [tauto |]. exfalso. apply Hd. done.
  - intros q [Hq | ->]%Hsnoc Hd; rewrite Hdev in Hd.
    + destruct (ck_out _ _ _ Hok q Hq Hd) as [E1 E2]. assert (q <> bh) by (intros ->; done).
      rewrite !insertion_cell. split; [by do 6 rewrite decide_False by naive_solver |].
      rewrite decide_False; [by do 5 rewrite decide_False by naive_solver |].
      intros (_ & _ & _ & ->). destruct insertion_bucket_in as [E | [Hk _]].
      * pose proof (ck_addr _ _ _ Hok h Hq). lia.
      * apply (ck_in _ _ _ Hok k h (hashfn_range _ _)) in Hk. tauto.
    + rewrite !insertion_cell. split; do 2 rewrite decide_False by tauto; by rewrite decide_True by auto.
  - intros q r [Hq | ->]%Hsnoc [Hr | ->]%Hsnoc; rewrite !Hdev, !Hblk; intros H1 H2 H3.
    + by apply (ck_unique _ _ _ Hok).
    + exfalso. apply (Hfresh q Hq); congruence.
    + exfalso. apply (Hfresh r Hr); congruence.
    + done.
Qed.
End insertion.

(** [insert_into_queues] puts a buffer at the end of the free list and, if it
    has a device, at the front of its chain. *)
Lemma insert_into_queues_ok L C s bh :
  cache_ok L C s -> (bh ∉ L) -> 0 < bh < 2 ^ 32 -> (forall f, f ∈ buf_fields -> has s bh f) ->
  Z.of_nat (S (length L)) <= nr_buffers s ->
  (forall q, q ∈ L -> cell s bh b_dev <> 0 ->
     cell s q b_dev = cell s bh b_dev -> cell s q b_blocknr <> cell s bh b_blocknr) ->
  exists s', insert_into_queues bh s = Done tt s' /\
    cache_ok (L ++ [bh]) (fun h => if decide (cell s bh b_dev <> 0 /\ h = key_of s bh)
                                   then bh :: C h else C h) s' /\
    (forall q g, g <> b_prev -> g <> b_next -> g <> b_prev_free -> g <> b_next_free ->
       cell s' q g = cell s q g) /\
    (forall q g, has s q g -> has s' q g) /\
    nr_buffers s' = nr_buffers s /\
    kmem s' = (if decide (cell s bh b_dev <> 0 /\ C (key_of s bh) = []) then store32 (kmem s) offset_b_prev bh else kmem s) /\
    fps s' = fps s /\ last_allocated_inode s' = last_allocated_inode s /\ fdisk s' = fdisk s.
Proof.
  intros Hok Hout Ha Hb Hn Hf. eexists. split; [by apply (insertion_run L C) |].
  split; [by apply insertion_ok |]. split; [intros; by apply (insertion_other L C) |].
  split; [intros; by apply inserted_has |].
  destruct (inserted_rest bh (free_list s) (cell s (free_list s) b_prev_free) (key_of s bh)
    (hd 0 (C (key_of s bh))) s) as (_ & ? & Hm & ? & ? & ?). split; [done |]. split; [| done]. rewrite Hm.
  apply decide_ext. destruct (C (key_of s bh)) as [| q l] eqn:E; [by split; intros [? _] |]. cbn [hd].
  assert (Hq : q ∈ C (key_of s bh)) by (rewrite E; set_solver).
  apply (ck_in _ _ _ Hok _ _ (hashfn_range _ _)) in Hq as [Hq _]. pose proof (ck_addr _ _ _ Hok q Hq).
  split; [lia | by intros []].
Qed.

(** ** Changes that leave the structures alone *)

Definition link_fields : list fld :=
  [b_dev; b_blocknr; b_prev; b_next; b_prev_free; b_next_free].

Lemma cache_ok_frame L C s s' :
  cache_ok L C s -> hash_table s' = hash_table s -> free_list s' = free_list s ->
  nr_buffers s' = nr_buffers s -> (forall q g, has s q g -> has s' q g) ->
  (forall q g, q ∈ L -> g ∈ link_fields -> cell s' q g = cell s q g) ->
  cache_ok L C s'.
Proof.
  intros Hok Hh Hf Hn Hhas Hc.
  assert (Hkey : forall q, q ∈ L -> key_of s' q = key_of s q).
  { intros q Hq. unfold key_of. rewrite !Hc by (done || set_solver). done. }
  assert (Hmem : forall h q, 0 <= h < 307 -> q ∈ 0 :: C h ++ [0] -> q = 0 \/ q ∈ L).
  { intros h q Hh' Hq. apply elem_of_cons in Hq as [? | Hq]; [by left |].
    apply elem_of_app in Hq as [Hq | Hq]; [right | left; set_solver].
    apply (ck_in _ _ _ Hok h q Hh') in Hq. tauto. }
  constructor.
  - rewrite Hh. apply (ck_len _ _ _ Hok).
  - rewrite Hn. apply (ck_num _ _ _ Hok).
  - apply (ck_ne _ _ _ Hok).
  - apply (ck_nodup _ _ _ Hok).
  - apply (ck_addr _ _ _ Hok).
  - intros. by apply Hhas, (ck_buf _ _ _ Hok).
  - rewrite Hf. apply (ck_head _ _ _ Hok).
  - pose proof (ck_ring _ _ _ Hok) as Hr. destruct L as [| a t]; [done |]. cbn [ring] in Hr |- *.
    revert Hr. apply links_impl. intros u v Hu Hv [E1 E2].
    unfold free_link. rewrite !Hc; [done | | set_solver | | set_solver]; cbn [tail] in Hv; set_solver.
  - intros. rewrite Hh. by apply (ck_bucket _ _ _ Hok).
  - intros h Hr. destruct (ck_chain _ _ _ Hok h Hr) as [Hnd Hl]. split; [done |].
    revert Hl. apply links_impl. intros u v Hu Hv [E1 E2].
    assert (Hv' : v ∈ 0 :: C h ++ [0]) by (apply elem_of_cons; by right).
    unfold hash_link. split; intros H0.
    + rewrite Hc; [auto | by destruct (Hmem h u Hr Hu) | set_solver].
    + rewrite Hc; [auto | by destruct (Hmem h v Hr Hv') | set_solver].
  - intros h q Hr. rewrite (ck_in _ _ _ Hok h q Hr). split; intros (Hq & H1 & H2).
    + rewrite Hc, Hkey by (done || set_solver). done.
    + rewrite Hc in H1 by (done || set_solver). rewrite Hkey in H2 by done. done.
  - intros q Hq. rewrite !Hc by (done || set_solver). by apply (ck_out _ _ _ Hok).
  - intros q r Hq Hr. rewrite !Hc by (done || set_solver). by apply (ck_unique _ _ _ Hok).
Qed.

(** [cache_ok] of a state that [upd] has changed outside the links. *)
Lemma cache_ok_upd L C s p f v :
  cache_ok L C s -> (p ∉ L) \/ (f ∉ link_fields) -> cache_ok L C (upd p f v s).
Proof.
  intros Hok Hp. apply (cache_ok_frame L C s); try done; [intros; by apply has_upd |].
  intros q g Hq Hg. apply cell_upd_ne. intros [= -> ->]. tauto.
Qed.

(** ** Walks *)

Lemma chain_short L C s h : cache_ok L C s -> 0 <= h < 307 -> (length (C h) <= length L)%nat.
Proof.
  intros Hok Hh. destruct (ck_chain _ _ _ Hok h Hh) as [Hnd _]. apply submseteq_length.
  apply NoDup_submseteq; [done |]. intros q Hq. by apply (ck_in _ _ _ Hok h q Hh) in Hq as [? _].
Qed.

Lemma find_from_run L C s dev block n l :
  cache_ok L C s -> (forall q, q ∈ l -> q ∈ L) -> links (hash_link s) (l ++ [0]) ->
  (length l <= n)%nat ->
  exists r, find_from n (hd 0 l) dev block s = Done r s /\
    (r ∈ l /\ cell s r b_dev = dev /\ cell s r b_blocknr = block \/
     r = 0 /\ forall q, q ∈ l -> ~ (cell s q b_dev = dev /\ cell s q b_blocknr = block)).
Proof.
  intros Hok. revert n; induction l as [| q l IH]; intros n Hl Hlk Hn.
  { exists 0. split; [by destruct n |]. right. split; [done |]. intros q Hq. by apply elem_of_nil in Hq. }
  destruct n as [| n]; [cbn in Hn; lia |]. cbn [hd find_from].
  assert (Hq : q ∈ L) by (apply Hl; set_solver).
  pose proof (ck_addr _ _ _ Hok q Hq) as Ha. rewrite (proj2 (Z.eqb_neq q 0)) by lia.
  assert (H1 : has s q b_dev) by (apply (ck_buf _ _ _ Hok); [done | in_list]).
  assert (H2 : has s q b_blocknr) by (apply (ck_buf _ _ _ Hok); [done | in_list]).
  assert (H3 : has s q b_next) by (apply (ck_buf _ _ _ Hok); [done | in_list]).
  do 2 fstep.
  destruct (Z.eqb_spec (cell s q b_dev) dev) as [E1 | E1],
    (Z.eqb_spec (cell s q b_blocknr) block) as [E2 | E2]; cbn [andb].
  { exists q. split; [done |]. left. set_solver. }
  all: fstep; assert (Hnext : cell s q b_next = hd 0 l)
      by (destruct l as [| b l]; cbn [app] in Hlk; apply links_cons2 in Hlk as [[Hlk _] _]; apply Hlk; lia).
  all: rewrite Hnext; destruct (IH n) as (r & Hr & Hcase);
    [intros; apply Hl; set_solver | by destruct l; [| apply links_cons2 in Hlk as [_ Hlk]] |
     cbn in Hn; lia | exists r; split; [done |]].
  all: destruct Hcase as [(Hr1 & Hr2) | [Hr1 Hr2]]; [left; split; [set_solver | done] | right; split; [done |]].
  all: intros q' Hq'; apply elem_of_cons in Hq' as [-> | Hq']; [tauto | by apply Hr2].
Qed.

(** [find_buffer] finds the buffer of a block, if there is one. *)
Lemma find_buffer_run L C s dev block :
  cache_ok L C s -> dev <> 0 ->
  exists r, find_buffer dev block s = Done r s /\
    (r ∈ L /\ cell s r b_dev = dev /\ cell s r b_blocknr = block \/
     r = 0 /\ forall q, q ∈ L -> cell s q b_dev = dev -> cell s q b_blocknr <> block).
Proof.
  intros Hok Hd. pose proof (hashfn_range dev block) as Hr.
  destruct (ck_chain _ _ _ Hok _ Hr) as [_ Hl].
  pose proof (chain_short _ _ _ _ Hok Hr) as Hshort. pose proof (ck_num _ _ _ Hok) as Hnum.
  set (l := C (hashfn dev block)) in *.
  assert (HlL : forall q, q ∈ l -> q ∈ L) by (intros q Hq; by apply (ck_in _ _ _ Hok _ q Hr) in Hq as [? _]).
  assert (Hl' : links (hash_link s) (l ++ [0])) by (by destruct l; [| apply links_cons2 in Hl as [_ Hl]]).
  unfold find_buffer.
  rewrite (bind_Done (hash_get _ _) _ s (hd 0 l) s)
    by (apply hash_get_run; by apply (ck_bucket _ _ _ Hok)).
  unfold walk. fstep.
  destruct (find_from_run L C s dev block (Z.to_nat (nr_buffers s)) l) as (r & Hrun & Hcase);
    [done | done | done | lia |].
  exists r. split; [done |]. destruct Hcase as [(H1 & H2 & H3) | [-> H1]]; [left; auto | right].
  split; [done |]. intros q Hq E1 E2. apply (H1 q); [| done].
  apply (ck_in _ _ _ Hok _ q Hr). split; [done |]. split; [congruence |].
  unfold key_of. by rewrite E1, E2.
Qed.

(** The first buffer of [l] that nobody uses. *)
Definition first_unused (s : fstate) (l : list Z) : Z :=
  hd 0 (filter (fun p => cell s p b_count = 0) l).

Lemma first_unused_in s l :
  (exists p, p ∈ l /\ cell s p b_count = 0) ->
  first_unused s l ∈ l /\ cell s (first_unused s l) b_count = 0.
Proof.
  intros (p & Hp & Hc). unfold first_unused.
  destruct (filter (fun p => cell s p b_count = 0) l) as [| q r] eqn:E.
  - exfalso. apply (not_elem_of_nil p). rewrite <- E. by apply list_elem_of_filter.
  - cbn [hd]. assert (Hq : q ∈ filter (fun p => cell s p b_count = 0) l) by (rewrite E; set_solver).
    apply list_elem_of_filter in Hq. tauto.
Qed.
