(* ===== verification/Getblk.v ===== *)
(** * Getblk: what the buffer cache promises

    [getblk] and [bread] (src/linux-0.01/fs/buffer.c) against the data
    structures of [BufferInv]: a block has at most one buffer, a cached block
    is found again, and a buffer is recycled only when nobody uses it, the one
    least recently allocated first. [DiskOk] is what the cache relies on the
    driver for. *)

From S2P Require Import Prelude Mem Proc Sched FsState Buffer BufferInv.

Section getblk.
Context {FW : FsWorld}.

(** Nobody waits for a buffer, or those who do can be woken. *)
Definition wakeable (q : Z) (s : fstate) : Prop :=
  exists p', wake_up q (fps s) = Done tt p'.
Definition all_wakeable (s : fstate) : Prop := forall q, wakeable q s.

Lemma wake_up_ok q p :
  (exists p', wake_up q p = Done tt p') <->
  (q = 0 \/ default 0 (wq p !! q) = 0 \/ is_Some (tasks p !! default 0 (wq p !! q))).
Proof.
  unfold wake_up, wq_get. destruct (Z.eqb_spec q 0) as [-> | Hq].
  { split; [by left | by eexists]. }
  rewrite (bind_Done (gets _) _ p _ p eq_refl).
  destruct (Z.eqb_spec (default 0 (wq p !! q)) 0) as [E | E]; cbn [negb when].
  { split; [by right; left | by eexists]. }
  unfold tput, mbind, M_bind. destruct (tasks p !! _) as [t |].
  - split; [by right; right | by eexists].
  - split; [by intros [? ?] | by intros [? | [? | [? ?]]]].
Qed.

(** Waking the sleepers of one queue leaves the others as they are. *)
Lemma wake_up_all q p p' :
  (forall r, exists p', wake_up r p = Done tt p') -> wake_up q p = Done tt p' ->
  forall r, exists p'', wake_up r p' = Done tt p''.
Proof.
  intros Hall Hrun r. apply wake_up_ok. specialize (Hall r). rewrite wake_up_ok in Hall. revert Hrun.
  unfold wake_up, wq_get. destruct (q =? 0); [by intros [= <-] |].
  rewrite (bind_Done (gets _) _ p _ p eq_refl). destruct (negb _); cbn [when]; [| by intros [= <-]].
  unfold tput, wq_put, mbind, M_bind. destruct (tasks p !! default 0 (wq p !! q)) as [t |] eqn:Et; [| discriminate].
  intros [= <-]. cbn [wq tasks set_wq set_tasks].
  destruct (decide (q = r)) as [-> | Hne]; [right; left; by rewrite lookup_insert_eq |].
  rewrite lookup_insert_ne by done. destruct Hall as [-> | [-> | [t' Ht]]]; [by left | by right; left | right; right].
  destruct (decide (default 0 (wq p !! q) = default 0 (wq p !! r))) as [-> |].
  - rewrite lookup_insert_eq. by eexists.
  - rewrite lookup_insert_ne by done. by eexists.
Qed.

(** What lies beside the buffers: the user's memory, where the inode table is
    searched next. *)
Definition beside (s : fstate) : memory * Z := (umem (fps s), last_allocated_inode s).
Lemma beside_umem s s' : beside s' = beside s -> umem (fps s') = umem (fps s).
Proof. by intros [= -> _]. Qed.

(** What other code may have done to the buffers: new contents, new times, but
    the same structure. *)
Record quiet (s s' : fstate) : Prop := {
  q_hash : hash_table s' = hash_table s;
  q_free : free_list s' = free_list s;
  q_num : nr_buffers s' = nr_buffers s;
  q_has q g : has s q g -> has s' q g;
  q_wake : all_wakeable s -> all_wakeable s';
  q_beside : beside s' = beside s;
  q_cell q g : g <> b_uptodate -> g <> b_dirt -> cell s' q g = cell s q g
}.

Lemma quiet_refl s : quiet s s.
Proof. by constructor. Qed.
Lemma quiet_trans s1 s2 s3 : quiet s1 s2 -> quiet s2 s3 -> quiet s1 s3.
Proof.
  intros [] []. constructor; try congruence; [by auto | by auto |].
  intros q g H1 H2. by rewrite q_cell1, q_cell0.
Qed.

Lemma quiet_cache L C s s' : quiet s s' -> cache_ok L C s -> cache_ok L C s'.
Proof.
  intros [] Hok. apply (cache_ok_frame L C s); try done.
  intros q g _ Hg. apply q_cell0; set_solver.
Qed.


(** A transfer from or to the device comes back, and touches the contents and
    the two flags of its buffer only; writing leaves the contents as they
    are. *)
Class DiskOk : Prop := {
  rw_block_ok rw bh s :
    cell s bh b_lock = 0 -> cell s bh b_dev <> 0 -> (forall f, f ∈ buf_fields -> has s bh f) ->
    exists s', ll_rw_block rw bh s = Done tt s' /\ quiet s s' /\
      (forall q g, q <> bh -> cell s' q g = cell s q g) /\
      (rw = WRITE -> kmem s' = kmem s) /\
      only_changed (kmem s) (kmem s') (cell s bh b_data) 1024
}.

Definition avail (s : fstate) (p : Z) : Prop :=
  (forall f, f ∈ buf_fields -> has s p f) /\ cell s p b_lock = 0.

(** A device without errors: the block is read, or written, as a whole, and
    the flags say so. *)
Definition same_block (d b x d' b' : Z) : bool := (d =? d') && (b =? b') && (0 <=? x) && (x <? 1024).
Class GoodDisk : Prop := {
  good_disk :: DiskOk;
  rw_block_good rw bh s s' :
    avail s bh -> cell s bh b_dev <> 0 -> 0 < cell s bh b_data <= 2 ^ 32 - 1024 -> ll_rw_block rw bh s = Done tt s' ->
    cell s' bh b_uptodate = 1 /\ cell s' bh b_dirt = 0 /\
    (rw = READ -> fdisk s' = fdisk s /\ forall x, 0 <= x < 1024 ->
       load8 (kmem s') (cell s bh b_data + x) = disk_byte s (cell s bh b_dev) (cell s bh b_blocknr) x) /\
    (rw = WRITE -> forall d b x, disk_byte s' d b x =
       if same_block d b x (cell s bh b_dev) (cell s bh b_blocknr)
       then load8 (kmem s) (cell s bh b_data + x) else disk_byte s d b x)
}.

Definition unlocked (L : list Z) (s : fstate) : Prop := forall p, p ∈ L -> cell s p b_lock = 0.

Lemma wait_run fuel bh s :
  has s bh b_lock -> cell s bh b_lock = 0 -> wait_on_buffer fuel bh s = Done tt s.
Proof. intros H1 H2. destruct fuel; cbn [wait_on_buffer]; fstep; by rewrite H2. Qed.

Lemma find_unused_run L C s fuel l n :
  cache_ok L C s -> unlocked L s -> (forall q, q ∈ l -> q ∈ L) -> l <> [] ->
  links (free_link s) (l ++ [free_list s]) -> (free_list s ∉ tail l) -> (length l <= n)%nat ->
  find_unused fuel n (hd 0 l) s = Done (first_unused s l) s.
Proof.
  intros Hok Hlk. revert n; induction l as [| q l IH]; intros n Hl Hne Hr Hfl Hn; [done |].
  destruct n as [| n]; [cbn in Hn; lia |]. cbn [hd find_unused].
  assert (Hq : q ∈ L) by (apply Hl; set_solver).
  assert (H1 : has s q b_count) by (apply (ck_buf _ _ _ Hok); [done | set_solver]).
  assert (H2 : has s q b_lock) by (apply (ck_buf _ _ _ Hok); [done | set_solver]).
  assert (H3 : has s q b_next_free) by (apply (ck_buf _ _ _ Hok); [done | set_solver]).
  fstep. unfold first_unused. destruct (Z.eqb_spec (cell s q b_count) 0) as [E | E].
  - rewrite filter_cons_True by done. cbn [hd].
    rewrite (bind_Done _ _ s true s); [done |].
    rewrite (bind_Done _ _ _ _ _ (wait_run fuel q s H2 (Hlk q Hq))). fstep. by rewrite E.
  - rewrite filter_cons_False by done. fold (first_unused s l).
    fstep. cbn [app] in Hr. fstep. rewrite (bind_Done (gets free_list) _ s (free_list s) s) by done.
    destruct l as [| q' l]; cbn [app] in Hr; apply links_cons2 in Hr as [[Hr _] Hr'].
    + rewrite Hr, Z.eqb_refl. done.
    + rewrite Hr. destruct (Z.eqb_spec q' (free_list s)) as [-> | Hne']; [exfalso; apply Hfl; cbn; set_solver |].
      apply (IH n); [intros; apply Hl; set_solver | done | done | | cbn in Hn |- *; lia].
      cbn [tail] in Hfl |- *. set_solver.
Qed.

Lemma find_unused_all L C s fuel :
  cache_ok L C s -> unlocked L s ->
  find_unused fuel (Z.to_nat (nr_buffers s)) (free_list s) s = Done (first_unused s L) s.
Proof.
  intros Hok Hlk. rewrite <- (ck_head _ _ _ Hok). pose proof (ck_num _ _ _ Hok).
  apply (find_unused_run L C); [done | done | done | apply (ck_ne _ _ _ Hok) | | | lia].
  - pose proof (ck_ring _ _ _ Hok) as Hr. pose proof (ck_head _ _ _ Hok) as Hh.
    destruct L as [| a t]; [done |]. cbn in Hh. by rewrite <- Hh.
  - pose proof (ck_nodup _ _ _ Hok) as Hnd. rewrite <- (ck_head _ _ _ Hok).
    destruct L as [| a t]; [set_solver |]. by apply NoDup_cons in Hnd as [? _].
Qed.

Lemma get_hash_table_run L C s fuel dev block :
  cache_ok L C s -> unlocked L s -> dev <> 0 -> (0 < fuel)%nat ->
  (exists bh, bh ∈ L /\ cell s bh b_dev = dev /\ cell s bh b_blocknr = block /\
     get_hash_table fuel dev block s = Done bh (upd bh b_count (cell s bh b_count + 1) s)) \/
  ((forall q, q ∈ L -> cell s q b_dev = dev -> cell s q b_blocknr <> block) /\
     get_hash_table fuel dev block s = Done 0 s).
Proof.
  intros Hok Hlk Hd Hfuel. destruct fuel as [| fuel]; [lia |]. cbn [get_hash_table].
  destruct (find_buffer_run L C s dev block Hok Hd) as (r & Hr & Hcase).
  rewrite (bind_Done _ _ _ _ _ Hr). destruct Hcase as [(Hin & E1 & E2) | [-> Hno]].
  2: { right. by split. }
  left. exists r. split; [done |]. split; [done |]. split; [done |].
  pose proof (ck_addr _ _ _ Hok r Hin). rewrite (proj2 (Z.eqb_neq r 0)) by lia.
  assert (H1 : has s r b_count) by (apply (ck_buf _ _ _ Hok); [done | set_solver]).
  assert (H2 : has s r b_lock) by (apply (ck_buf _ _ _ Hok); [done | set_solver]).
  assert (H3 : has s r b_dev) by (apply (ck_buf _ _ _ Hok); [done | set_solver]).
  assert (H4 : has s r b_blocknr) by (apply (ck_buf _ _ _ Hok); [done | set_solver]).
  fstep. set (s1 := upd r b_count (cell s r b_count + 1) s).
  rewrite (bind_Done _ _ s1 tt s1).
  2: { apply wait_run; [by apply has_upd |]. unfold s1. rewrite cell_upd_fld by done. by apply Hlk. }
  do 2 fstep. unfold s1. rewrite !cell_upd_fld by done. by rewrite E1, E2, !Z.eqb_refl.
Qed.

Lemma brelse_run fuel bh s :
  bh <> 0 -> has s bh b_lock -> has s bh b_count -> cell s bh b_lock = 0 ->
  0 < cell s bh b_count -> all_wakeable s ->
  exists p', wake_up buffer_wait (fps s) = Done tt p' /\
    brelse fuel bh s = Done tt (set_fps p' (upd bh b_count (cell s bh b_count - 1) s)).
Proof.
  intros H0 H1 H2 H3 H4 Hall. destruct (Hall buffer_wait) as (p' & Hp). exists p'. split; [done |]. unfold brelse. rewrite (proj2 (Z.eqb_neq bh 0) H0).
  rewrite (bind_Done _ _ _ _ _ (wait_run fuel bh s H1 H3)). do 2 fstep.
  rewrite (proj2 (Z.eqb_neq (cell s bh b_count) 0)) by lia. cbn [when].
  rewrite (bind_Done (mret tt) _ _ tt (upd bh b_count (cell s bh b_count - 1) s)) by done.
  unfold on_ps. cbn [upd fps set_cells]. by rewrite Hp.
Qed.

Lemma quiet_avail s s' p : quiet s s' -> avail s p -> avail s' p.
Proof.
  intros [] [H1 H2]. split; [auto |]. by rewrite q_cell0.
Qed.

(** The structures as [getblk] leaves them. *)
Definition cached (dev block : Z) (s : fstate) (bh : Z) : Prop :=
  cell s bh b_dev = dev /\ cell s bh b_blocknr = block.

(** The cache stands for the blocks [c]: a valid buffer has its block's bytes,
    only valid buffers are to be written, and what is not waiting in a buffer
    to be written is on the device. *)
Record holds (L : list Z) (c : Z -> Z -> Z -> Z) (s : fstate) : Prop := {
  ho_mem p x : p ∈ L -> 0 <= x < 1024 -> cell s p b_dev <> 0 -> cell s p b_uptodate <> 0 ->
    load8 (kmem s) (cell s p b_data + x) = c (cell s p b_dev) (cell s p b_blocknr) x;
  ho_dirty p : p ∈ L -> cell s p b_dev <> 0 -> cell s p b_dirt <> 0 -> cell s p b_uptodate <> 0;
  ho_clean p x : p ∈ L -> 0 <= x < 1024 -> cell s p b_dev <> 0 -> cell s p b_dirt = 0 ->
    disk_byte s (cell s p b_dev) (cell s p b_blocknr) x = c (cell s p b_dev) (cell s p b_blocknr) x;
  ho_disk d b x : d <> 0 -> 0 <= x < 1024 -> (forall p, p ∈ L -> ~ cached d b s p) ->
    disk_byte s d b x = c d b x
}.

Lemma holds_frame L c s s' :
  holds L c s -> kmem s' = kmem s -> fdisk s' = fdisk s ->
  (forall q g, q ∈ L -> g ∈ [b_data; b_dev; b_blocknr; b_uptodate; b_dirt] -> cell s' q g = cell s q g) ->
  holds L c s'.
Proof.
  intros [] Hm Hd Hc.
  assert (Hdb : forall d b x, disk_byte s' d b x = disk_byte s d b x) by (intros; unfold disk_byte; by rewrite Hd).
  assert (Hcs : forall p, p ∈ L -> cell s' p b_data = cell s p b_data /\ cell s' p b_dev = cell s p b_dev /\
    cell s' p b_blocknr = cell s p b_blocknr /\ cell s' p b_uptodate = cell s p b_uptodate /\
    cell s' p b_dirt = cell s p b_dirt) by (intros; repeat split; apply Hc; (done || in_list)).
  constructor.
  - intros p x Hp. destruct (Hcs p Hp) as (-> & -> & -> & -> & _). rewrite Hm. auto.
  - intros p Hp. destruct (Hcs p Hp) as (_ & -> & _ & -> & ->). auto.
  - intros p x Hp. destruct (Hcs p Hp) as (_ & -> & -> & _ & ->). rewrite Hdb. auto.
  - intros d b x H0 Hx Hno. rewrite Hdb. apply ho_disk0; [done | done |]. intros p Hp [E1 E2].
    apply (Hno p Hp). destruct (Hcs p Hp) as (_ & E3 & E4 & _). split; congruence.
Qed.

(** The array of buffer heads. *)
Definition buffer_array (s : fstate) : Prop :=
  forall i, 0 <= i < nr_buffers s -> avail s (start_buffer + sizeof_buffer_head * i).

(** The array and the list have the same buffers. *)
Definition whole (L : list Z) (s : fstate) : Prop :=
  forall p, p ∈ L <-> exists i, 0 <= i < nr_buffers s /\ p = start_buffer + sizeof_buffer_head * i.

(** The data of the buffers, above what an assignment through NULL reaches. *)
Definition data_range (L : list Z) (s : fstate) : Prop :=
  forall p, p ∈ L -> 20 <= cell s p b_data <= 2 ^ 32 - 1024.

(** The memory but for the four bytes of [NULL->b_prev]. *)
Definition kept (m m' : memory) : Prop := only_changed m m' offset_b_prev 4.

#[export] Instance kept_preorder : PreOrder kept.
Proof. split; [intros m; apply only_changed_refl | intros m1 m2 m3; apply only_changed_trans]. Qed.

Lemma kept_eq m m' : m' = m -> kept m m'.
Proof. by intros ->. Qed.

Lemma kept_data L s m m' p x :
  kept m m' -> data_range L s -> p ∈ L -> 0 <= x < 1024 -> load8 m' (cell s p b_data + x) = load8 m (cell s p b_data + x).
Proof. intros Hk Hr Hp Hx. specialize (Hr p Hp). apply Hk; unfold in_u32, offset_b_prev; lia. Qed.

Lemma holds_kept L c s s' :
  holds L c s -> data_range L s -> kept (kmem s) (kmem s') -> fdisk s' = fdisk s ->
  (forall q g, q ∈ L -> g ∈ [b_data; b_dev; b_blocknr; b_uptodate; b_dirt] -> cell s' q g = cell s q g) ->
  holds L c s'.
Proof.
  intros Hh Hr Hm Hd Hc. destruct (holds_frame L c s (set_kmem (kmem s) s') Hh) as [H1 H2 H3 H4]; [done .. |].
  constructor; [| exact H2 | exact H3 | exact H4]. intros p x Hp Hx G1 G2.
  etransitivity; [| exact (H1 p x Hp Hx G1 G2)]. rewrite cell_set_kmem, (Hc p b_data) by (done || in_list).
  by apply (kept_data L).
Qed.

(** Writing a dirty buffer. *)
Lemma write_holds {GD : GoodDisk} L c s s' bh :
  holds L c s -> avail s bh -> 0 < cell s bh b_data <= 2 ^ 32 - 1024 -> cell s bh b_dev <> 0 -> cell s bh b_dirt <> 0 -> bh ∈ L ->
  ll_rw_block WRITE bh s = Done tt s' -> quiet s s' ->
  (forall q g, q <> bh -> cell s' q g = cell s q g) -> kmem s' = kmem s ->
  holds L c s'.
Proof.
  intros [] Hav Hr Hdev Hdt Hin Hrun Hq Hoth Hm.
  destruct (rw_block_good WRITE bh s s' Hav Hdev Hr Hrun) as (Hu & Hd & _ & Hw). specialize (Hw eq_refl).
  assert (Hc : forall q g, g <> b_uptodate -> g <> b_dirt -> cell s' q g = cell s q g) by apply (q_cell _ _ Hq).
  assert (Hdisk : forall d b x, 0 <= x < 1024 -> disk_byte s d b x = c d b x -> disk_byte s' d b x = c d b x).
  { intros d b x Hx E. rewrite Hw. destruct (same_block _ _ _ _ _) eqn:Es; [| done].
    unfold same_block in Es. rewrite !andb_true_iff, !Z.eqb_eq in Es. destruct Es as [[[-> ->] _] _]. auto. }
  constructor.
  - intros p x Hp Hx. rewrite Hm, (Hc p b_data), (Hc p b_dev), (Hc p b_blocknr) by done.
    intros H1 H2. apply ho_mem0; [done .. |].
    destruct (decide (p = bh)) as [-> |]; [by auto | by rewrite <- Hoth].
  - intros p Hp. rewrite Hc by done. intros H1 H2. destruct (decide (p = bh)) as [-> |]; [lia |].
    rewrite !Hoth in * by done. by auto.
  - intros p x Hp Hx. rewrite (Hc p b_dev), (Hc p b_blocknr) by done. intros H1 H2.
    destruct (decide (p = bh)) as [-> |]; [| rewrite Hoth in H2 by done; by auto].
    rewrite Hw. unfold same_block. rewrite !Z.eqb_refl, (proj2 (Z.leb_le 0 x)), (proj2 (Z.ltb_lt x 1024)) by lia.
    cbn [andb]. by auto.
  - intros d b x H0 Hx Hno. apply Hdisk; [done |]. apply ho_disk0; [done | done |].
    intros p Hp [E1 E2]. apply (Hno p Hp). split; rewrite Hc; done.
Qed.


(** [sync_dev]: an invariant of its loop. *)
Lemma sync_dev_rule {DO : DiskOk} s fuel dev (I : Z -> fstate -> Prop) :
  buffer_array s -> dev <> 0 -> I 0 s ->
  (forall i s1, 0 <= i < nr_buffers s -> quiet s s1 -> kmem s1 = kmem s -> I i s1 ->
     let bh := start_buffer + sizeof_buffer_head * i in
     if decide (cell s1 bh b_dev = dev /\ cell s1 bh b_dirt <> 0)
     then forall s2, ll_rw_block WRITE bh s1 = Done tt s2 -> avail s1 bh -> quiet s1 s2 ->
            (forall q g, q <> bh -> cell s2 q g = cell s1 q g) -> kmem s2 = kmem s1 -> I (i + 1) s2
     else I (i + 1) s1) ->
  exists s', sync_dev fuel dev s = Done 0 s' /\ quiet s s' /\ kmem s' = kmem s /\
    I (Z.of_nat (Z.to_nat (nr_buffers s))) s'.
Proof.
  intros Harr Hdev H0 Hstep. unfold sync_dev, for_buffers, walk.
  assert (Hloop : post (for_loop (Z.to_nat (nr_buffers s)) 0 (fun i =>
      d ← fget (start_buffer + sizeof_buffer_head * i) b_dev;
      if negb (d =? dev) then mret tt
      else
        _ ← wait_on_buffer fuel (start_buffer + sizeof_buffer_head * i);
        dirt ← fget (start_buffer + sizeof_buffer_head * i) b_dirt;
        when (negb (dirt =? 0)) (ll_rw_block WRITE (start_buffer + sizeof_buffer_head * i)))) s
    (fun _ s' => quiet s s' /\ kmem s' = kmem s /\ I (0 + Z.of_nat (Z.to_nat (nr_buffers s))) s')).
  { apply (post_for_loop _ _ _ (fun i s' => quiet s s' /\ kmem s' = kmem s /\ I i s')).
    { split; [apply quiet_refl | done]. }
    intros i s1 Hi (Hq & Hm & HI). set (bh := start_buffer + sizeof_buffer_head * i).
    specialize (Hstep i s1 ltac:(lia) Hq Hm HI). cbv zeta in Hstep. fold bh in Hstep.
    destruct (quiet_avail _ _ _ Hq (Harr i ltac:(lia))) as [Hf Hlk]. fold bh in Hf, Hlk.
    assert (H1 : has s1 bh b_dev) by (apply Hf; in_list).
    assert (H2 : has s1 bh b_lock) by (apply Hf; in_list).
    assert (H3 : has s1 bh b_dirt) by (apply Hf; in_list).
    eapply post_bind, post_Done; [by apply fget_cell |].
    destruct (Z.eqb_spec (cell s1 bh b_dev) dev) as [Ed | Ed]; cbn [negb].
    2: { apply post_ret. rewrite decide_False in Hstep by naive_solver. done. }
    eapply post_bind, post_Done; [by apply wait_run |].
    eapply post_bind, post_Done; [by apply fget_cell |].
    destruct (Z.eqb_spec (cell s1 bh b_dirt) 0) as [E | E]; cbn [negb when].
    { apply post_ret. rewrite decide_False in Hstep by naive_solver. done. }
    rewrite decide_True in Hstep by done.
    destruct (rw_block_ok WRITE bh s1 Hlk ltac:(congruence) Hf) as (s2 & Hrun & Hq2 & Hc2 & Hm2 & _).
    eapply post_Done; [done |]. split; [by eapply quiet_trans |].
    rewrite (Hm2 eq_refl). split; [done |]. apply Hstep; try done. by apply Hm2. }
  apply post_inv in Hloop as ([] & s' & Hrun & Hs'). exists s'. split; [| done].
  unfold mbind at 1, M_bind at 1. rewrite (bind_Done (gets _) _ s _ s eq_refl).
  match goal with |- match ?m s with _ => _ end = _ => change (m s) with (for_loop (Z.to_nat (nr_buffers s)) 0 (fun i =>
      d ← fget (start_buffer + sizeof_buffer_head * i) b_dev;
      if negb (d =? dev) then mret tt
      else
        _ ← wait_on_buffer fuel (start_buffer + sizeof_buffer_head * i);
        dirt ← fget (start_buffer + sizeof_buffer_head * i) b_dirt;
        when (negb (dirt =? 0)) (ll_rw_block WRITE (start_buffer + sizeof_buffer_head * i))) s) end.
  by rewrite Hrun.
Qed.

(** It writes dirty buffers, leaves clean ones alone, and what the cache
    stands for does not change. *)
Lemma sync_dev_run {DO : DiskOk} s fuel dev :
  buffer_array s -> dev <> 0 ->
  exists s', sync_dev fuel dev s = Done 0 s' /\ (quiet s s' /\ kmem s' = kmem s) /\
    forall q g, cell s q b_dirt = 0 -> cell s' q g = cell s q g.
Proof.
  intros Harr Hdev.
  destruct (sync_dev_rule s fuel dev (fun _ s' => forall q g, cell s q b_dirt = 0 -> cell s' q g = cell s q g) Harr Hdev)
    as (s' & Hrun & Hq & Hm & HI); [done | | by exists s'].
  intros i s1 _ Hq _ HI. cbv zeta. case_decide as Hd; [| done]. intros s2 _ _ _ Hoth _ q g Hq0.
  rewrite Hoth; [by apply HI |]. intros ->. apply (proj2 Hd). by rewrite HI.
Qed.

Lemma sync_dev_holds {GD : GoodDisk} L c s fuel dev s' :
  buffer_array s -> whole L s -> data_range L s -> dev <> 0 -> holds L c s -> sync_dev fuel dev s = Done 0 s' ->
  holds L c s' /\ forall p, p ∈ L -> cell s p b_dev = dev -> cell s' p b_dirt = 0.
Proof.
  intros Harr Hwh Hr Hdev Hh Hrun.
  destruct (sync_dev_rule s fuel dev (fun i s1 => holds L c s1 /\
      forall j, 0 <= j < i -> cell s (start_buffer + sizeof_buffer_head * j) b_dev = dev ->
        cell s1 (start_buffer + sizeof_buffer_head * j) b_dirt = 0) Harr Hdev) as (s1 & Hrun' & _ & _ & Hh1 & Hd).
  - split; [done | lia].
  - intros i s1 Hi Hq _ [Hh1 Hd]. cbv zeta.
    assert (Hin : start_buffer + sizeof_buffer_head * i ∈ L) by (apply Hwh; by exists i).
    assert (Hri := Hr _ Hin). rewrite <- (q_cell _ _ Hq) in Hri by done.
    case_decide as Hdec.
    + destruct Hdec as [E1 E2]. intros s2 Hw Hav Hq2 Hoth Hm. split.
      { apply (write_holds L c s1 s2 (start_buffer + sizeof_buffer_head * i)); try done; [lia | by rewrite E1]. }
      intros j Hj Ej. destruct (decide (j = i)) as [-> |].
      * by destruct (rw_block_good WRITE _ _ _ Hav ltac:(by rewrite E1) ltac:(lia) Hw) as (_ & ? & _).
      * rewrite Hoth by (unfold sizeof_buffer_head; lia). apply Hd; [lia | done].
    + split; [done |]. intros j Hj Ej. destruct (decide (j = i)) as [-> |]; [| apply Hd; [lia | done]].
      rewrite <- (q_cell _ _ Hq) in Ej by done.
      destruct (decide (cell s1 (start_buffer + sizeof_buffer_head * i) b_dirt = 0)); [done | tauto].
  - rewrite Hrun in Hrun'. injection Hrun' as <-. split; [done |].
    intros p Hp Ep. apply Hwh in Hp as (i & Hi & ->). apply Hd; [lia | done].
Qed.

(** Only blocks of a device wait to be written. *)
Definition dirty_dev (L : list Z) (s : fstate) : Prop :=
  forall p, p ∈ L -> cell s p b_dirt <> 0 -> cell s p b_dev <> 0.

(** The four assignments of [getblk]. *)
Definition claimed (tmp dev block : Z) (s : fstate) : fstate :=
  upd tmp b_uptodate 0 (upd tmp b_dirt 0 (upd tmp b_blocknr block (upd tmp b_dev dev s))).

Lemma claimed_other tmp dev block s q g :
  q <> tmp \/ g <> b_dev /\ g <> b_blocknr /\ g <> b_dirt /\ g <> b_uptodate ->
  cell (claimed tmp dev block s) q g = cell s q g.
Proof. intros H. unfold claimed. by rewrite !cell_upd_ne by naive_solver. Qed.

Lemma claimed_ok L C s tmp dev block :
  cache_ok L C s -> (tmp ∉ L) -> cache_ok L C (claimed tmp dev block s).
Proof. intros. unfold claimed. repeat (apply cache_ok_upd; [| by left]). done. Qed.

Lemma claimed_key tmp dev block s :
  0 < dev < 65536 -> 0 <= block < 65536 -> cached dev block (claimed tmp dev block s) tmp.
Proof.
  intros Hd Hb. unfold cached, claimed. split.
  - rewrite !cell_upd_fld by done. rewrite cell_upd_eq. apply u16_small; lia.
  - do 2 rewrite cell_upd_fld by done. rewrite cell_upd_eq. apply u16_small; lia.
Qed.

Lemma claimed_flags tmp dev block s :
  cell (claimed tmp dev block s) tmp b_uptodate = 0 /\ cell (claimed tmp dev block s) tmp b_dirt = 0.
Proof. unfold claimed. split; [by rewrite cell_upd_eq | by rewrite cell_upd_fld, cell_upd_eq by done]. Qed.

(** A clean buffer may be given to a block that has none. *)
Lemma claimed_holds L c s tmp dev block :
  holds L c s -> tmp ∈ L -> cell s tmp b_dirt = 0 -> 0 < dev < 65536 -> 0 <= block < 65536 ->
  (forall q, q ∈ L -> q <> tmp -> cell s q b_dev = dev -> cell s q b_blocknr <> block) ->
  holds L c (claimed tmp dev block s).
Proof.
  intros [] Hin Hdt Hd Hb Hno. destruct (claimed_key tmp dev block s Hd Hb) as [K1 K2].
  destruct (claimed_flags tmp dev block s) as [F1 F2].
  assert (Ho : forall q g, q <> tmp -> cell (claimed tmp dev block s) q g = cell s q g)
    by (intros; apply claimed_other; auto).
  assert (Hdat : forall q, cell (claimed tmp dev block s) q b_data = cell s q b_data)
    by (intros; apply claimed_other; auto).
  assert (Hdisk : forall d b x, d <> 0 -> 0 <= x < 1024 ->
    (forall q, q ∈ L -> q <> tmp -> ~ cached d b s q) -> disk_byte s d b x = c d b x).
  { intros d b x H0 Hx Hn. destruct (decide (cell s tmp b_dev = d /\ cell s tmp b_blocknr = b)) as [[<- <-] | Hne].
    - by apply ho_clean0.
    - apply ho_disk0; [done | done |]. intros q Hq Hcq. destruct (decide (q = tmp)) as [-> |]; [done | by apply (Hn q)]. }
  constructor.
  - intros p x Hp Hx. destruct (decide (p = tmp)) as [-> |]; [by rewrite F1 |]. rewrite !Ho by done. by apply ho_mem0.
  - intros p Hp. destruct (decide (p = tmp)) as [-> |]; [by rewrite F2 |]. rewrite !Ho by done. by apply ho_dirty0.
  - intros p x Hp Hx. destruct (decide (p = tmp)) as [-> |]; [| rewrite !Ho by done; by apply ho_clean0].
    intros _ _. rewrite K1, K2. apply Hdisk; [lia | done |]. intros q Hq Hne [E1 E2]. by apply (Hno q).
  - intros d b x H0 Hx Hn. apply Hdisk; [done | done |]. intros q Hq Hne [E1 E2].
    apply (Hn q Hq). split; by rewrite Ho.
Qed.

(** Counting, unlinking and writing out the buffer. *)
Lemma recycle_unlink {DO : DiskOk} L C s fuel tmp :
  cache_ok L C s -> unlocked L s -> buffer_array s -> dirty_dev L s -> tmp ∈ L -> (2 <= length L)%nat ->
  cell s tmp b_count = 0 ->
  exists s1 s2, remove_from_queues tmp (upd tmp b_count 1 s) = Done tt s1 /\
    (dirt ← fget tmp b_dirt;
     when (negb (dirt =? 0)) (d ← fget tmp b_dev; _ ← sync_dev fuel d; mret tt)) s1 = Done tt s2 /\
    cache_ok (del tmp L) (fun h => del tmp (C h)) s2 /\
    (forall f, f ∈ buf_fields -> has s2 tmp f) /\
    ((nr_buffers s2 = nr_buffers s /\ beside s2 = beside s) /\ kmem s2 = kmem s /\ (forall q g, has s q g -> has s2 q g) /\
     (all_wakeable s -> all_wakeable s2) /\
     (forall q g, (g ∉ buf_fields) -> cell s2 q g = cell s q g)) /\
    cell s2 tmp b_count = 1 /\
    (forall q g, q ∈ L -> g ∈ [b_dev; b_blocknr; b_count; b_lock; b_data] -> (q <> tmp \/ g <> b_count) ->
       cell s2 q g = cell s q g) /\
    (forall q, q ∈ L -> q <> tmp -> cell s q b_dirt = 0 ->
       cell s2 q b_dirt = 0 /\ cell s2 q b_uptodate = cell s q b_uptodate) /\
    (forall q, q ∈ L -> q <> tmp -> cell s2 q b_dirt <> 0 -> cell s q b_dirt <> 0) /\
    (forall (GD : GoodDisk) c, whole L s -> data_range L s -> holds L c s -> holds L c s2 /\ cell s2 tmp b_dirt = 0).
Proof.
  intros Hok Hlk Harr Hdd Hin H2 Hc.
  assert (Hok0 : cache_ok L C (upd tmp b_count 1 s)) by (apply cache_ok_upd; [done | right; set_solver]).
  destruct (remove_from_queues_ok L C _ tmp Hok0 Hin H2) as (s1 & Hrun & Hok1 & Hcell & Hhas & Hnr & Hm1 & Hps1 & Hli1 & Hd1).
  assert (Hc1 : forall q g, g ∈ [b_dev; b_blocknr; b_count; b_lock; b_data; b_dirt; b_uptodate] ->
    (q <> tmp \/ g <> b_count) -> cell s1 q g = cell s q g).
  { intros q g Hg Hne. rewrite Hcell by (intros ->; set_solver). apply cell_upd_ne. naive_solver. }
  assert (Hf1 : forall f, f ∈ buf_fields -> has s1 tmp f).
  { intros f Hf. by apply Hhas, has_upd, (ck_buf _ _ _ Hok). }
  assert (Hcnt : cell s1 tmp b_count = 1) by (by rewrite Hcell, cell_upd_eq).
  assert (Harr1 : buffer_array s1).
  { intros i Hi. rewrite Hnr in Hi. destruct (Harr i Hi) as [Ha Hb]. split.
    - intros f Hf. by apply Hhas, has_upd, Ha.
    - rewrite Hc1; [done | set_solver | by right]. }
  assert (Hq : exists s2, (dirt ← fget tmp b_dirt;
     when (negb (dirt =? 0)) (d ← fget tmp b_dev; _ ← sync_dev fuel d; mret tt)) s1 = Done tt s2 /\
     (quiet s1 s2 /\ kmem s2 = kmem s1) /\ (forall q g, cell s1 q b_dirt = 0 -> cell s2 q g = cell s1 q g) /\
     (forall (GD : GoodDisk) c, whole L s1 -> data_range L s1 -> holds L c s1 -> holds L c s2 /\ cell s2 tmp b_dirt = 0)).
  { assert (Hd : has s1 tmp b_dirt) by (apply Hf1; set_solver).
    assert (Hd' : has s1 tmp b_dev) by (apply Hf1; set_solver).
    fstep. destruct (Z.eqb_spec (cell s1 tmp b_dirt) 0); cbn [negb when].
    { exists s1. split; [done |]. split; [split; [apply quiet_refl | done] | done]. }
    assert (Hdev0 : cell s1 tmp b_dev <> 0).
    { rewrite Hc1 by (in_list || by right). apply Hdd; [done |]. rewrite <- (Hc1 tmp b_dirt) by (in_list || by right). done. }
    destruct (sync_dev_run s1 fuel (cell s1 tmp b_dev) Harr1 Hdev0) as (s2 & Hs & Hq & Hcl).
    exists s2. split; [fstep; by rewrite (bind_Done _ _ _ _ _ Hs) |]. split; [done |]. split; [done |].
    intros GD c Hw Hr Hh. destruct (sync_dev_holds L c s1 fuel _ s2 Harr1 Hw Hr Hdev0 Hh Hs) as [Hh2 Hcl2]. auto. }
  destruct Hq as (s2 & Hsync & [Hq Hm2] & Hclean & Hholds). exists s1, s2. split; [done |]. split; [done |].
  split; [by apply (quiet_cache _ _ s1) |]. split; [intros f Hf; by apply (q_has _ _ Hq), Hf1 |].
  split.
  { split; [rewrite (q_num _ _ Hq), (q_beside _ _ Hq), Hnr; unfold beside; by rewrite Hps1, Hli1 |]. split; [by rewrite Hm2, Hm1 |].
    split; [intros q g Hqg; by apply (q_has _ _ Hq), Hhas, has_upd |].
    split; [intros Hw; apply (q_wake _ _ Hq); unfold all_wakeable, wakeable; by rewrite Hps1 |].
    intros q g Hg. rewrite (q_cell _ _ Hq) by (intros ->; apply Hg, list_elem_of_In; cbn; tauto).
    rewrite Hcell by (intros ->; apply Hg, list_elem_of_In; cbn; tauto).
    apply cell_upd_fld. intros ->. apply Hg, list_elem_of_In. cbn; tauto. }
  split; [by rewrite (q_cell _ _ Hq) |]. split.
  { intros q g Hq' Hg Hne. rewrite (q_cell _ _ Hq) by (intros ->; set_solver).
    apply Hc1; [set_solver | done]. }
  split.
  { intros q Hq' Hne Hd. assert (Hd1' : cell s1 q b_dirt = 0) by (rewrite Hc1; [done | set_solver | by left]).
    rewrite !Hclean by done. split; [done |]. apply Hc1; [set_solver | by left]. }
  split.
  - intros q Hq' Hne Hd E. apply Hd. assert (Hd1' : cell s1 q b_dirt = 0) by (rewrite Hc1; [done | in_list | by left]).
      by rewrite Hclean.
  - intros GD c Hw Hr Hh. apply (Hholds GD c); [intros p; rewrite Hnr; apply Hw | |].
    { intros p Hp. rewrite Hc1 by (in_list || by right). by apply Hr. }
      apply (holds_frame L c s); [done | exact Hm1 | exact Hd1 |].
      intros q g _ Hg. apply Hc1; [set_solver | right; intros ->; revert Hg; not_in_list].
Qed.

Lemma length_del x l : NoDup l -> x ∈ l -> S (length (del x l)) = length l.
Proof.
  intros Hnd Hin. destruct (list_elem_of_split _ _ Hin) as (a & b & ->).
  rewrite del_split by done. rewrite !length_app. cbn. lia.
Qed.

Lemma del_perm x l : NoDup l -> x ∈ l -> del x l ++ [x] ≡ₚ l.
Proof.
  intros Hnd Hin. destruct (list_elem_of_split _ _ Hin) as (a & b & ->).
  rewrite del_split by done. solve_Permutation.
Qed.

(** No other buffer is in the chain of the block: [insert_into_queues] will
    write through NULL. *)
Definition alone (L : list Z) (s : fstate) (bh dev block : Z) : Prop :=
  Forall (fun q => q <> bh -> cell s q b_dev <> 0 -> key_of s q <> hashfn dev block) L.

(** [getblk] when the block has no buffer yet. *)
Lemma getblk_miss {DO : DiskOk} L C s fuel dev block :
  cache_ok L C s -> unlocked L s -> buffer_array s -> dirty_dev L s -> (2 <= length L)%nat ->
  0 < dev < 65536 -> 0 <= block < 65536 -> (0 < fuel)%nat ->
  (forall q, q ∈ L -> cell s q b_dev = dev -> cell s q b_blocknr <> block) ->
  (exists p, p ∈ L /\ cell s p b_count = 0) ->
  exists bh C' s', getblk fuel dev block s = Done bh s' /\ bh = first_unused s L /\
    cache_ok (del bh L ++ [bh]) C' s' /\ cached dev block s' bh /\ cell s' bh b_count = 1 /\
    cell s' bh b_uptodate = 0 /\ cell s' bh b_dirt = 0 /\
    (kmem s' = (if decide (alone L s bh dev block) then store32 (kmem s) offset_b_prev bh else kmem s) /\
     (forall q g, has s q g -> has s' q g) /\
     (all_wakeable s -> all_wakeable s') /\
     (forall q g, (g ∉ buf_fields) -> cell s' q g = cell s q g)) /\
    (forall q g, q ∈ L -> g ∈ [b_dev; b_blocknr; b_count; b_lock; b_data] ->
       (q <> bh \/ g ∈ [b_lock; b_data]) -> cell s' q g = cell s q g) /\
    (forall q, q ∈ L -> q <> bh -> cell s q b_dirt = 0 ->
       cell s' q b_dirt = 0 /\ cell s' q b_uptodate = cell s q b_uptodate) /\
    (nr_buffers s' = nr_buffers s /\ beside s' = beside s) /\ dirty_dev L s' /\
    (forall (GD : GoodDisk) c, whole L s -> data_range L s -> holds L c s -> holds L c s').
Proof.
  intros Hok Hlk Harr Hdd H2 Hd Hb Hfuel Hno Hun. destruct fuel as [| fuel]; [lia |].
  destruct (first_unused_in s L Hun) as [Hin Hc0]. set (tmp := first_unused s L) in *.
  pose proof (ck_addr _ _ _ Hok tmp Hin) as Ha. cbn [getblk].
  rewrite (bind_Done (get_hash_table _ _ _) _ s 0 s).
  2: { destruct (get_hash_table_run L C s (S fuel) dev block Hok Hlk ltac:(lia) ltac:(lia))
         as [(q & Hq & E1 & E2 & _) | [_ Hrun]]; [by destruct (Hno q Hq E1) | done]. }
  cbn [Z.eqb negb]. unfold walk. do 2 fstep.
  rewrite (bind_Done _ _ _ _ _ (find_unused_all L C s (S fuel) Hok Hlk)). fold tmp.
  rewrite (proj2 (Z.eqb_neq tmp 0)) by lia.
  assert (Hcnt : has s tmp b_count) by (apply (ck_buf _ _ _ Hok); [done | set_solver]).
  fstep. rewrite Hc0. change (0 + 1) with 1.
  destruct (recycle_unlink L C s (S fuel) tmp Hok Hlk Harr Hdd Hin H2 Hc0)
    as (s1 & s2 & Hrem & Hsync & Hok2 & Hf2 & ([Hnr2 Hum2] & Hm2 & Hhas2 & Hw2 & Hrest2) & Hcnt2 & Hcell2 & Hclean2 & Hdirt2 & Hholds2).
  rewrite (bind_Done _ _ _ _ _ Hrem).
  rewrite <- (bind_assoc (fget tmp b_dirt) (fun dirt => when (negb (dirt =? 0))
    (d ← fget tmp b_dev; _ ← sync_dev (S fuel) d; mret tt))).
  rewrite (bind_Done _ _ _ _ _ Hsync).
  assert (Hdev : has s2 tmp b_dev) by (apply Hf2; set_solver).
  assert (Hblk : has s2 tmp b_blocknr) by (apply Hf2; set_solver).
  assert (Hdirt : has s2 tmp b_dirt) by (apply Hf2; set_solver).
  assert (Hupd : has s2 tmp b_uptodate) by (apply Hf2; set_solver).
  do 4 fstep. fold (claimed tmp dev block s2).
  set (s3 := claimed tmp dev block s2).
  assert (Hnin : tmp ∉ del tmp L) by (intros Hx; apply elem_of_del in Hx; tauto).
  assert (Hok3 : cache_ok (del tmp L) (fun h => del tmp (C h)) s3) by (by apply claimed_ok).
  assert (Hkey : cached dev block s3 tmp) by by apply claimed_key.
  assert (Hfresh : forall q, q ∈ del tmp L -> cell s3 q b_dev = dev -> cell s3 q b_blocknr <> block).
  { intros q Hq. apply elem_of_del in Hq as [Hq Hqt]. unfold s3. rewrite !claimed_other by auto.
    rewrite !Hcell2; [by apply Hno | done | set_solver | by left | done | set_solver | by left]. }
  rewrite (bind_Done (find_buffer dev block) _ s3 0 s3).
  2: { destruct (find_buffer_run _ _ s3 dev block Hok3 ltac:(lia)) as (r & Hr & [(Hr1 & Hr2 & Hr3) | [-> _]]);
         [by destruct (Hfresh r Hr1 Hr2) | done]. }
  cbn [Z.eqb negb]. destruct Hkey as [K1 K2].
  destruct (insert_into_queues_ok _ _ s3 tmp Hok3 Hnin ltac:(lia)) as (s4 & Hins & Hok4 & Hcell4 & Hhas4 & Hnr4 & Hm4 & Hps4 & Hli4 & Hd4).
  { intros f Hf. unfold s3, claimed. eauto 8 with fs. }
  { rewrite length_del by (done || apply (ck_nodup _ _ _ Hok)). pose proof (ck_num _ _ _ Hok).
    unfold s3, claimed. cbn [upd nr_buffers set_cells]. lia. }
  { intros q Hq _. rewrite K1, K2. by apply Hfresh. }
  exists tmp. eexists. exists s4. split; [by rewrite (bind_Done _ _ _ _ _ Hins) |].
  split; [done |]. split; [exact Hok4 |]. unfold cached. rewrite !Hcell4 by done.
  split; [done |].
  split; [unfold s3; rewrite claimed_other by (right; done); done |].
  split; [by apply claimed_flags |].
  split; [by apply claimed_flags |].
  split.
  { split.
    { rewrite Hm4. change (kmem s3) with (kmem s2). rewrite Hm2. apply decide_ext. unfold alone. rewrite Forall_forall.
      assert (Hk3 : key_of s3 tmp = hashfn dev block) by (unfold key_of; by rewrite K1, K2). rewrite Hk3, K1.
      assert (Hold : forall q, q ∈ L -> q <> tmp -> cell s3 q b_dev = cell s q b_dev /\ key_of s3 q = key_of s q).
      { intros q Hq Hqt. unfold key_of, s3. rewrite !claimed_other by auto.
        by rewrite !Hcell2 by (assumption || in_list || by left). }
      assert (Hchain := fun q => ck_in _ _ _ Hok3 _ q (hashfn_range dev block)).
      cbv beta in Hchain. split.
      - intros [_ He] q Hq Hqt. destruct (Hold q Hq Hqt) as [<- <-]. intros Hd0 Hk0. apply (not_elem_of_nil q).
        rewrite <- He. apply Hchain. split; [by apply elem_of_del | done].
      - intros Hall. split; [lia |]. destruct (del tmp (C (hashfn dev block))) as [| q l] eqn:E; [done |]. exfalso.
        destruct (proj1 (Hchain q)) as (Hq & Hd0 & Hk0); [set_solver |]. apply elem_of_del in Hq as [Hq Hqt].
        destruct (Hold q Hq Hqt) as [E1 E2]. rewrite E1 in Hd0. rewrite E2 in Hk0. by apply (Hall q). }
    split.
    - intros q g Hqg. apply Hhas4. unfold s3, claimed. eauto 8 with fs.
    - split; [intros Hw; unfold all_wakeable, wakeable; rewrite Hps4; exact (Hw2 Hw) |].
      intros q g Hg. rewrite Hcell4 by (intros ->; apply Hg, list_elem_of_In; cbn; tauto).
      unfold s3. rewrite claimed_other; [by apply Hrest2 | right].
      repeat split; intros ->; apply Hg, list_elem_of_In; cbn; tauto. }
  split.
  - intros q g Hq Hg Hne. rewrite Hcell4 by (intros ->; set_solver). unfold s3.
    rewrite claimed_other by (destruct Hne; [by left | right; set_solver]).
    apply Hcell2; [done .. |]. destruct Hne; [by left | right; set_solver].
  - split; [intros q Hq Hne Hdq; rewrite !Hcell4 by done; unfold s3; rewrite !claimed_other by auto; auto |].
    split; [unfold beside; by rewrite Hnr4, Hps4, Hli4 |]. split.
    + intros q Hq. rewrite !Hcell4 by done. destruct (decide (q = tmp)) as [-> | Hne].
      * intros Hdq. by destruct (proj2 (claimed_flags tmp dev block s2)).
      * unfold s3. rewrite !claimed_other by auto. intros Hdq. rewrite Hcell2 by (assumption || in_list || by left).
        apply Hdd; [done | by apply Hdirt2].
    + intros GD c Hw Hr Hh. destruct (Hholds2 GD c Hw Hr Hh) as [Hh2 Hdt2].
      apply (holds_kept L c s3); [| | | exact Hd4 | intros q g _ Hg; apply Hcell4; intros ->; revert Hg; not_in_list].
      2: { intros q Hq. unfold s3. rewrite claimed_other by (by right). rewrite Hcell2 by (assumption || in_list || by right).
           by apply Hr. }
      2: { rewrite Hm4. case_decide; [| done]. apply only_changed_store32; unfold offset_b_prev; lia. }
      apply claimed_holds; [done .. |]. intros q Hq Hqt. rewrite !Hcell2 by (assumption || in_list || by left). by apply Hno.
Qed.

(** A cached block, whoever else uses it. *)
Lemma getblk_hit L C s fuel dev block q :
  cache_ok L C s -> unlocked L s -> dev <> 0 -> (0 < fuel)%nat -> q ∈ L -> cached dev block s q ->
  getblk fuel dev block s = Done q (upd q b_count (cell s q b_count + 1) s).
Proof.
  intros Hok Hlk Hd Hfuel Hq [K1 K2].
  destruct (get_hash_table_run L C s fuel dev block Hok Hlk Hd Hfuel) as [(bh & Hin & E1 & E2 & Hrun) | [Hno _]];
    [| by destruct (Hno q Hq K1)].
  assert (bh = q) as -> by (apply (ck_unique _ _ _ Hok); congruence).
  destruct fuel as [| fuel]; [lia |]. cbn [getblk]. rewrite (bind_Done _ _ _ _ _ Hrun).
  pose proof (ck_addr _ _ _ Hok q Hin). by rewrite (proj2 (Z.eqb_neq q 0)) by lia.
Qed.

(** What every caller of [getblk] may rely on. *)
Lemma getblk_any {DO : DiskOk} L C s fuel dev block :
  cache_ok L C s -> unlocked L s -> buffer_array s -> dirty_dev L s -> (2 <= length L)%nat ->
  0 < dev < 65536 -> 0 <= block < 65536 -> (0 < fuel)%nat ->
  (exists p, p ∈ L /\ cell s p b_count = 0) ->
  exists bh L' C' s', getblk fuel dev block s = Done bh s' /\
    cache_ok L' C' s' /\ L' ≡ₚ L /\ bh ∈ L' /\ cached dev block s' bh /\
    kept (kmem s) (kmem s') /\ (forall q g, has s q g -> has s' q g) /\
    (all_wakeable s -> all_wakeable s') /\
    (forall q g, (g ∉ buf_fields) -> cell s' q g = cell s q g) /\
    (forall q g, q ∈ L -> g ∈ [b_dev; b_blocknr; b_count; b_lock; b_data] ->
       (q <> bh \/ g ∈ [b_lock; b_data]) -> cell s' q g = cell s q g) /\
    (cached dev block s bh /\ cell s' bh b_count = u8 (cell s bh b_count + 1) \/
     cell s bh b_count = 0 /\ cell s' bh b_count = 1) /\
    (nr_buffers s' = nr_buffers s /\ beside s' = beside s) /\ dirty_dev L s' /\
    (forall (GD : GoodDisk) c, whole L s -> data_range L s -> holds L c s -> holds L c s').
Proof.
  intros Hok Hlk Harr Hdd H2 Hd Hb Hfuel Hun.
  destruct (get_hash_table_run L C s fuel dev block Hok Hlk ltac:(lia) Hfuel)
    as [(bh & Hin & E1 & E2 & Hrun) | [Hno Hrun]].
  - exists bh, L, C, (upd bh b_count (cell s bh b_count + 1) s). split.
    { destruct fuel as [| fuel]; [lia |]. cbn [getblk]. rewrite (bind_Done _ _ _ _ _ Hrun).
      pose proof (ck_addr _ _ _ Hok bh Hin). by rewrite (proj2 (Z.eqb_neq bh 0)) by lia. }
    split; [apply cache_ok_upd; [done | right; set_solver] |]. split; [done |]. split; [done |].
    split; [unfold cached; by rewrite !cell_upd_fld |]. split; [done |].
    split; [intros; by apply has_upd |]. split; [done |]. split.
    { intros q g Hg. apply cell_upd_fld. intros ->. apply Hg, list_elem_of_In. cbn; tauto. }
    split.
    + intros q g _ _ Hne. apply cell_upd_ne. intros [= -> ->]. destruct Hne as [| Hne]; [done | set_solver].
    + split; [left; split; [done |]; apply cell_upd_eq |]. split; [done |]. split.
      * intros q Hq. rewrite !cell_upd_fld by done. by apply Hdd.
      * intros GD c _ _ Hh. apply (holds_frame L c s); [done .. |].
        intros q g _ Hg. apply cell_upd_fld. intros ->. revert Hg. not_in_list.
  - destruct (getblk_miss L C s fuel dev block Hok Hlk Harr Hdd H2 Hd Hb Hfuel Hno Hun)
      as (bh & C' & s' & Hg & Hbh & Hok' & Hc' & Hcnt & Hu & Hdt & (Hm & Hhas & Hw & Hrest) & Hoth & _ & Hlast).
    assert (Hin : bh ∈ L /\ cell s bh b_count = 0) by (rewrite Hbh; by apply first_unused_in).
    destruct Hin as [Hin H0]. exists bh, (del bh L ++ [bh]), C', s'. split; [done |]. split; [done |].
    split; [apply del_perm; [apply (ck_nodup _ _ _ Hok) | done] |].
    split; [set_solver |]. split; [done |].
    split; [rewrite Hm; case_decide; [apply only_changed_store32; unfold offset_b_prev; lia | done] |].
    split; [done |]. split; [done |]. split; [done |]. split; [done |]. split; [by right | done].
Qed.

(** C4: [getblk], on a cache that is well formed, with no transfer under way,
    nothing but blocks of a device to be written and some buffer unused, comes
    back with a buffer that holds the block it was asked for, and the cache is
    well formed again: the same buffers, no two of them for one block. If the
    block had a buffer it is that one, with one more user and nothing else
    changed. If not, it is the first unused buffer of the free list, which goes
    to the end of the list, its contents no longer valid; the other buffers
    keep their blocks, their users and where their data is. Of memory nothing
    changes, but for the bug of [insert_into_queues]: when no other buffer is
    in the hash chain of the block, the address of the buffer is written
    through the NULL at the end of the chain, to address 16. *)
Theorem getblk_correct {DO : DiskOk} L C s fuel dev block :
  cache_ok L C s -> unlocked L s -> buffer_array s -> dirty_dev L s -> (2 <= length L)%nat ->
  0 < dev < 65536 -> 0 <= block < 65536 -> (0 < fuel)%nat ->
  (exists p, p ∈ L /\ cell s p b_count = 0) ->
  exists bh L' C' s', getblk fuel dev block s = Done bh s' /\
    cache_ok L' C' s' /\ L' ≡ₚ L /\ bh ∈ L' /\ cached dev block s' bh /\
    (forall q, q ∈ L' -> cached dev block s' q -> q = bh) /\
    ((exists q, q ∈ L /\ cached dev block s q) ->
       cached dev block s bh /\ L' = L /\ s' = upd bh b_count (cell s bh b_count + 1) s) /\
    ((forall q, q ∈ L -> ~ cached dev block s q) ->
       bh = first_unused s L /\ L' = del bh L ++ [bh] /\
       cell s' bh b_count = 1 /\ cell s' bh b_uptodate = 0 /\ cell s' bh b_dirt = 0 /\
       (forall q g, q ∈ L -> q <> bh -> g ∈ [b_dev; b_blocknr; b_count; b_lock; b_data] ->
         cell s' q g = cell s q g) /\
       kmem s' = if decide (alone L s bh dev block) then store32 (kmem s) 16 bh else kmem s).
Proof.
  intros Hok Hlk Harr Hdd H2 Hd Hb Hfuel Hun.
  assert (Huniq : forall L0 C0 s0 bh, cache_ok L0 C0 s0 -> bh ∈ L0 -> cached dev block s0 bh ->
    forall q, q ∈ L0 -> cached dev block s0 q -> q = bh).
  { intros L0 C0 s0 bh Hok0 Hbh [E1 E2] q Hq [E3 E4].
    apply (ck_unique _ _ _ Hok0); [done | done | lia | congruence ..]. }
  destruct (get_hash_table_run L C s fuel dev block Hok Hlk ltac:(lia) Hfuel)
    as [(bh & Hin & E1 & E2 & Hrun) | [Hno Hrun]].
  - set (s' := upd bh b_count (cell s bh b_count + 1) s) in *.
    assert (Hok' : cache_ok L C s') by (apply cache_ok_upd; [done | right; set_solver]).
    assert (Hc' : cached dev block s' bh) by (unfold cached, s'; by rewrite !cell_upd_fld).
    exists bh, L, C, s'. split.
    { destruct fuel as [| fuel]; [lia |]. cbn [getblk]. rewrite (bind_Done _ _ _ _ _ Hrun).
      pose proof (ck_addr _ _ _ Hok bh Hin). by rewrite (proj2 (Z.eqb_neq bh 0)) by lia. }
    split; [done |]. split; [done |]. split; [done |]. split; [done |].
    split; [by apply (Huniq L C) |]. split; [done |].
    intros Hn. by destruct (Hn bh Hin).
  - destruct (getblk_miss L C s fuel dev block Hok Hlk Harr Hdd H2 Hd Hb Hfuel Hno Hun)
      as (bh & C' & s' & Hg & Hbh & Hok' & Hc' & Hcnt & Hu & Hdt & [Hm _] & Hoth & _).
    assert (Hin : bh ∈ L) by (rewrite Hbh; by apply first_unused_in).
    exists bh, (del bh L ++ [bh]), C', s'. split; [done |]. split; [done |].
    split; [apply del_perm; [apply (ck_nodup _ _ _ Hok) | done] |].
    split; [set_solver |]. split; [done |].
    split; [apply (Huniq _ C'); [done | set_solver | done] |].
    split; [intros (q & Hq & E1 & E2); by destruct (Hno q Hq E1) |].
    intros _. do 5 (split; [done |]). split; [| exact Hm].
    intros q g Hq Hne Hg'. apply Hoth; [done | done | by left].
Qed.
End getblk.
