(* ===== verification/BufferInit.v ===== *)
(** * BufferInit: [buffer_init] of src/linux-0.01/fs/buffer.c *)

From S2P Require Import Prelude Mem Mm Proc Sched FsState Buffer BufferInv Getblk.

(** ** Checking a concrete cache *)

(** The chains of a cache in which no bucket holds two buffers. *)
Definition chains (s : fstate) (L : list Z) (h : Z) : list Z :=
  filter (fun p => cell s p b_dev <> 0 /\ key_of s p = h) L.

#[global] Instance links_dec R `{!RelDecision R} l : Decision (links R l).
Proof.
  induction l as [| x [| y l] IH]; [by left .. |].
  destruct (decide (R x y)), IH as [IH | IH]; [left | right | right | right]; rewrite links_cons2; tauto.
Defined.
#[global] Instance free_link_dec s : RelDecision (free_link s).
Proof. intros x y. unfold free_link. apply _. Defined.
#[global] Instance hash_link_dec s : RelDecision (hash_link s).
Proof. intros x y. unfold hash_link. apply _. Defined.
#[global] Instance has_dec s p f : Decision (has s p f).
Proof. unfold has. apply _. Defined.

Definition cache_check (s : fstate) (L : list Z) : Prop :=
  (length (hash_table s) = 307%nat /\ Z.of_nat (length L) <= nr_buffers s /\
   L <> [] /\ NoDup L /\ hd 0 L = free_list s) /\
  links (free_link s) (L ++ [hd 0 L]) /\
  Forall (fun p => 0 < p < 2 ^ 32 /\ Forall (has s p) buf_fields /\
    (cell s p b_dev = 0 -> cell s p b_next = 0 /\ cell s p b_prev = 0) /\
    Forall (fun q => cell s p b_dev <> 0 -> cell s p b_dev = cell s q b_dev ->
              cell s p b_blocknr = cell s q b_blocknr -> p = q) L) L /\
  Forall (fun h => hash_table s !! Z.to_nat h = Some (hd 0 (chains s L h)) /\
    links (hash_link s) (0 :: chains s L h ++ [0])) (map Z.of_nat (seq 0 307)).

#[global] Instance cache_check_dec s L : Decision (cache_check s L).
Proof. unfold cache_check. apply _. Defined.

Lemma cache_check_ok s L : cache_check s L -> cache_ok L (chains s L) s.
Proof.
  intros ((H1 & H3 & H4 & H5 & H6) & Hr & Hp & Hh). rewrite Forall_forall in Hp, Hh.
  assert (Hh' : forall h, 0 <= h < 307 -> hash_table s !! Z.to_nat h = Some (hd 0 (chains s L h)) /\
    links (hash_link s) (0 :: chains s L h ++ [0])).
  { intros h Hr'. apply Hh. apply list_elem_of_fmap. exists (Z.to_nat h). split; [lia |].
    apply elem_of_seq. lia. }
  constructor; try done.
  - intros p Hin. by apply Hp.
  - intros p f Hin Hf. destruct (Hp p Hin) as (_ & Hb & _). rewrite Forall_forall in Hb. by apply Hb.
  - destruct L; [done | exact Hr].
  - intros h Hr'. by apply Hh'.
  - intros h Hr'. split; [by apply NoDup_filter | by apply Hh'].
  - intros h p _. unfold chains. rewrite list_elem_of_filter. tauto.
  - intros p Hin. by apply Hp.
  - intros p q Hin Hq. destruct (Hp p Hin) as (_ & _ & _ & Hb). rewrite Forall_forall in Hb. by apply Hb.
Qed.

Section init.
Context {FW : FsWorld}.

Definition head_at (i : Z) : Z := start_buffer + sizeof_buffer_head * i.

(** The address of the [i]-th block: downwards from [BUFFER_END], leaving out
    the video memory and the BIOS between 640 KB and 1 MB. *)
Definition init_block (i : Z) : Z :=
  if i <? 1024 then 0x200000 - 1024 * (i + 1) else 0xA0000 - 1024 * (i - 1023).

(** Where the loop stands before block [i]. *)
Definition block_before (i : Z) : Z := init_block i + 1024.

Definition init_val (i : Z) (g : fld) : Z :=
  match g with
  | b_data => init_block i
  | b_prev_free => u32 (head_at (i - 1))
  | b_next_free => head_at (i + 1)
  | _ => 0
  end.

(** Buffers 0, ..., [i - 1] have been set up. *)
Record init_inv (s0 : fstate) (i : Z) (s : fstate) : Prop := {
  ii_num : nr_buffers s = nr_buffers s0 + i;
  ii_has j g : 0 <= j < i -> g ∈ buf_fields -> has s (head_at j) g;
  ii_val j g : 0 <= j < i -> g ∈ buf_fields -> g <> b_blocknr -> cell s (head_at j) g = init_val j g;
  ii_keep q g : has s0 q g -> has s q g
}.

Lemma head_at_inj i j : head_at i = head_at j -> i = j.
Proof. unfold head_at, sizeof_buffer_head. lia. Qed.

Lemma fnew_run p f v s : fnew p f v s = Done tt (upd p f v s).
Proof. done. Qed.

Lemma has_upd_eq p f v s : has (upd p f v s) p f.
Proof. unfold has, upd. cbn [cells set_cells]. by rewrite lookup_insert_eq. Qed.

(** [h->b_wait = NULL]. *)
Definition no_wait (h : Z) (s : fstate) : fstate :=
  set_fps (set_wq (<[b_wait h := 0]> (wq (fps s))) (fps s)) s.

Lemma put_wait_run h s : on_ps (wq_put (b_wait h) 0) s = Done tt (no_wait h s).
Proof. done. Qed.

(** One turn of the loop. *)
Definition init_head (h b : Z) (s : fstate) : fstate :=
  upd h b_next_free (h + sizeof_buffer_head) (upd h b_prev_free (h - sizeof_buffer_head)
    (upd h b_data b (upd h b_prev 0 (upd h b_next 0 (no_wait h
      (upd h b_uptodate 0 (upd h b_lock 0 (upd h b_count 0 (upd h b_dirt 0 (upd h b_dev 0 s)))))))))).

Lemma init_loop_step n h b s :
  h + sizeof_buffer_head <= b - 1024 ->
  init_loop (S n) h b s =
    init_loop n (h + sizeof_buffer_head) (if b - 1024 =? 0x100000 then 0xA0000 else b - 1024)
      (set_nr_buffers (nr_buffers (init_head h (b - 1024) s) + 1) (init_head h (b - 1024) s)).
Proof.
  intros H. cbn [init_loop]. change BLOCK_SIZE with 1024.
  rewrite (proj2 (Z.leb_le _ _) H).
  do 5 rewrite (bind_Done _ _ _ _ _ (fnew_run _ _ _ _)).
  rewrite (bind_Done _ _ _ _ _ (put_wait_run _ _)).
  do 5 rewrite (bind_Done _ _ _ _ _ (fnew_run _ _ _ _)).
  unfold init_head. set (s1 := upd h b_next_free _ _). clearbody s1.
  by fstep.
Qed.

Lemma init_loop_end n h b s :
  b - 1024 < h + sizeof_buffer_head -> init_loop (S n) h b s = Done h s.
Proof.
  intros H. cbn [init_loop]. change BLOCK_SIZE with 1024.
  by rewrite (proj2 (Z.leb_gt _ _) H).
Qed.

Lemma init_head_cell i s g :
  0 < start_buffer -> 0 <= i < 1664 -> head_at (i + 1) <= init_block i -> g ∈ buf_fields ->
  g <> b_blocknr ->
  cell (init_head (head_at i) (init_block i) s) (head_at i) g = init_val i g.
Proof.
  intros Hs Hi Hle Hg Hb.
  assert (Hib : 0 <= init_block i < 2 ^ 32) by (unfold init_block; case_match; lia).
  assert (Hh : 0 <= head_at (i + 1) < 2 ^ 32) by (unfold head_at, sizeof_buffer_head in *; lia).
  assert (E1 : head_at i - sizeof_buffer_head = head_at (i - 1)) by (unfold head_at, sizeof_buffer_head; lia).
  assert (E2 : head_at i + sizeof_buffer_head = head_at (i + 1)) by (unfold head_at, sizeof_buffer_head; lia).
  unfold init_head. rewrite E1, E2. clear E1 E2.
  assert (Hu : forall v, 0 <= v < 2 ^ 32 -> u32 v = v) by (intros; by apply u32_small).
  assert (Hnw : forall x q f, cell (no_wait (head_at i) x) q f = cell x q f) by done.
  unfold buf_fields in Hg. rewrite !elem_of_cons in Hg.
  destruct Hg as [-> | [-> | [-> | [-> | [-> | [-> | [-> | [-> | [-> | [-> | [-> | Hg]]]]]]]]]]];
    [.. | by apply elem_of_nil in Hg]; try (exfalso; exact (Hb eq_refl)).
  all: repeat first [rewrite cell_upd_eq | rewrite cell_upd_fld by discriminate | rewrite Hnw].
  all: cbn [fnorm init_val]; try reflexivity; by apply Hu.
Qed.

Lemma init_head_other i b s q g : q <> head_at i -> cell (init_head (head_at i) b s) q g = cell s q g.
Proof.
  intros Hq. assert (Hnw : forall x, cell (no_wait (head_at i) x) q g = cell x q g) by done.
  unfold init_head. by rewrite !cell_upd_obj, Hnw, !cell_upd_obj.
Qed.

Lemma init_head_has i b s q g : has s q g -> has (init_head (head_at i) b s) q g.
Proof.
  intros Hq. assert (Hnw : forall x, has x q g -> has (no_wait (head_at i) x) q g) by done.
  unfold init_head. do 5 apply has_upd. apply Hnw. by do 5 apply has_upd.
Qed.

Lemma init_head_new i b s g :
  g ∈ buf_fields -> g <> b_blocknr -> has (init_head (head_at i) b s) (head_at i) g.
Proof.
  intros Hg Hne. assert (Hnw : forall x, has x (head_at i) g -> has (no_wait (head_at i) x) (head_at i) g) by done.
  unfold buf_fields in Hg. rewrite !elem_of_cons in Hg. unfold init_head.
  destruct Hg as [-> | [-> | [-> | [-> | [-> | [-> | [-> | [-> | [-> | [-> | [-> | Hg]]]]]]]]]]];
    [.. | by apply elem_of_nil in Hg]; try (exfalso; exact (Hne eq_refl)).
  all: repeat first [apply has_upd_eq | apply has_upd | apply Hnw].
Qed.

Lemma init_step s0 i s :
  0 < start_buffer -> 0 <= i < 1664 -> head_at (i + 1) <= init_block i ->
  has s0 (head_at i) b_blocknr -> init_inv s0 i s ->
  init_inv s0 (i + 1) (set_nr_buffers (nr_buffers s + 1) (init_head (head_at i) (init_block i) s)).
Proof.
  intros Hs Hi Hle Hb [I1 I2 I3 I4].
  assert (Hlast : forall j, 0 <= j < i + 1 -> j = i \/ 0 <= j < i /\ head_at j <> head_at i).
  { intros j Hj. destruct (decide (j = i)) as [-> | Hne]; [by left | right]. split; [lia |].
    by intros ?%head_at_inj. }
  constructor.
  - cbn [nr_buffers set_nr_buffers]. lia.
  - intros j g Hj Hg. change (has (init_head (head_at i) (init_block i) s) (head_at j) g).
    destruct (Hlast j Hj) as [-> | [Hj' _]]; [| by apply init_head_has, I2].
    destruct (decide (g = b_blocknr)) as [-> | Hne]; [by apply init_head_has, I4 |].
    by apply init_head_new.
  - intros j g Hj Hg Hne. change (cell (init_head (head_at i) (init_block i) s) (head_at j) g = init_val j g).
    destruct (Hlast j Hj) as [-> | [Hj' Hjne]]; [by apply init_head_cell |].
    rewrite init_head_other by done. by apply I3.
  - intros q g Hq. change (has (init_head (head_at i) (init_block i) s) q g).
    by apply init_head_has, I4.
Qed.

Lemma block_before_next i :
  0 <= i < 1664 ->
  (if block_before i - 1024 =? 0x100000 then 0xA0000 else block_before i - 1024) = block_before (i + 1).
Proof.
  intros Hi. unfold block_before, init_block.
  destruct (Z.ltb_spec i 1024), (Z.ltb_spec (i + 1) 1024), (Z.eqb_spec (0x200000 - 1024 * (i + 1) + 1024 - 1024) 0x100000),
    (Z.eqb_spec (0xA0000 - 1024 * (i - 1023) + 1024 - 1024) 0x100000); lia.
Qed.

(** The loop stops at the first block that would reach into the heads. *)
Lemma init_loop_run s0 n i s :
  0 < start_buffer -> 1664 <= i + Z.of_nat n ->
  (forall j, 0 <= j < 1664 -> head_at (j + 1) <= init_block j -> has s0 (head_at j) b_blocknr) ->
  0 <= i < 1664 -> init_inv s0 i s ->
  exists k s', i <= k < 1664 /\ init_loop (S n) (head_at i) (block_before i) s = Done (head_at k) s' /\
    init_inv s0 k s' /\ (forall j, i <= j < k -> head_at (j + 1) <= init_block j) /\
    init_block k < head_at (k + 1).
Proof.
  intros Hs Hn Hb Hi Hinv. revert i s Hn Hi Hinv; induction n as [| n IH]; intros i s Hn Hi Hinv; [lia |].
  assert (Eb : block_before i - 1024 = init_block i) by (unfold block_before; lia).
  assert (Eh : head_at i + sizeof_buffer_head = head_at (i + 1)) by (unfold head_at, sizeof_buffer_head; lia).
  destruct (Z.le_gt_cases (head_at (i + 1)) (init_block i)) as [Hle | Hgt].
  - assert (Hi' : i < 1663).
    { destruct (decide (i = 1663)) as [-> |]; [| lia].
      change (init_block 1663) with 0 in Hle. unfold head_at, sizeof_buffer_head in Hle. lia. }
    rewrite init_loop_step by (rewrite Eb, Eh; exact Hle).
    rewrite Eh, block_before_next by lia. rewrite Eb.
    pose proof (init_step s0 i s Hs ltac:(lia) Hle (Hb i Hi Hle) Hinv) as Hstep.
    assert (En : nr_buffers (init_head (head_at i) (init_block i) s) = nr_buffers s) by done.
    rewrite En. destruct (IH (i + 1) _ ltac:(lia) ltac:(lia) Hstep) as (k & s' & Hk & Hrun & Hk' & Hall & Hend).
    exists k, s'. split; [lia |]. split; [done |]. split; [done |]. split; [| done].
    intros j Hj. destruct (decide (j = i)) as [-> |]; [done | apply Hall; lia].
  - exists i, s. split; [lia |]. split; [apply init_loop_end; lia |]. split; [done |].
    split; [lia | done].
Qed.

Definition heads (n : nat) : list Z := map (fun i => head_at (Z.of_nat i)) (seq 0 n).

Lemma elem_of_heads n p : p ∈ heads n <-> exists i, 0 <= i < Z.of_nat n /\ p = head_at i.
Proof.
  unfold heads. rewrite list_elem_of_fmap. split.
  - intros (i & -> & Hi). apply elem_of_seq in Hi. exists (Z.of_nat i). split; [lia | done].
  - intros (i & Hi & ->). exists (Z.to_nat i). rewrite Z2Nat.id by lia. split; [done |].
    apply elem_of_seq. lia.
Qed.

Lemma links_heads R a m x :
  (forall j, Z.of_nat a <= j < Z.of_nat (a + m) -> R (head_at j) (head_at (j + 1))) ->
  R (head_at (Z.of_nat (a + m))) x ->
  links R (map (fun i => head_at (Z.of_nat i)) (seq a (S m)) ++ [x]).
Proof.
  revert a; induction m as [| m IH]; intros a Hj Hx.
  - cbn. rewrite Nat.add_0_r in Hx. done.
  - change (links R (head_at (Z.of_nat a) :: map (fun i => head_at (Z.of_nat i)) (seq (S a) (S m)) ++ [x])).
    cbn [seq map app]. apply links_cons2. split.
    + replace (Z.of_nat (S a)) with (Z.of_nat a + 1) by lia. apply Hj. lia.
    + apply (IH (S a)); [intros j Hj'; apply Hj; lia |].
      replace (S a + m)%nat with (a + S m)%nat by lia. done.
Qed.

Lemma NoDup_heads n : NoDup (heads n).
Proof.
  unfold heads. apply NoDup_fmap_2; [| apply NoDup_seq]. intros i j E.
  apply head_at_inj in E. lia.
Qed.

(** What the end of [buffer_init] makes of the array. *)
Definition closed (n : Z) (s : fstate) : fstate :=
  set_hash_table (replicate (Z.to_nat NR_HASH) 0)
    (upd (head_at (n - 1)) b_next_free start_buffer
      (upd start_buffer b_prev_free (head_at (n - 1)) (set_free_list start_buffer s))).

Lemma closed_cell n s q g :
  0 < start_buffer < 2 ^ 32 -> 0 <= head_at (n - 1) < 2 ^ 32 ->
  cell (closed n s) q g =
    if decide (g = b_next_free /\ q = head_at (n - 1)) then start_buffer
    else if decide (g = b_prev_free /\ q = start_buffer) then head_at (n - 1)
    else cell s q g.
Proof.
  intros H1 H2. change (cell (closed n s) q g) with
    (cell (upd (head_at (n - 1)) b_next_free start_buffer
      (upd start_buffer b_prev_free (head_at (n - 1)) (set_free_list start_buffer s))) q g).
  destruct (decide (g = b_next_free /\ q = head_at (n - 1))) as [[-> ->] | N1].
  { rewrite cell_upd_eq. apply u32_small. unfold in_u32; lia. }
  rewrite cell_upd_ne by (intros [= -> ->]; tauto).
  destruct (decide (g = b_prev_free /\ q = start_buffer)) as [[-> ->] | N2].
  { rewrite cell_upd_eq. apply u32_small. unfold in_u32; lia. }
  by rewrite cell_upd_ne by (intros [= -> ->]; tauto).
Qed.

Lemma closed_has n s q g : has s q g -> has (closed n s) q g.
Proof. intros H. apply (has_upd _ _ _ _ q g). by apply has_upd. Qed.

(** The closed array is a cache that holds nothing. *)
Lemma closed_ok s0 n s :
  0 < start_buffer -> head_at (Z.of_nat n) <= 0x200000 -> (2 <= n)%nat ->
  nr_buffers s0 = 0 -> init_inv s0 (Z.of_nat n) s ->
  cache_ok (heads n) (fun _ => []) (closed (Z.of_nat n) s).
Proof.
  intros Hs Hlast Hn Hnr [I1 I2 I3 I4].
  assert (Hb : forall i, 0 <= i < Z.of_nat n -> 0 < head_at i < 2 ^ 32)
    by (intros i Hi; unfold head_at, sizeof_buffer_head in *; lia).
  assert (E0 : head_at 0 = start_buffer) by (unfold head_at; lia).
  assert (Hst : 0 < start_buffer < 2 ^ 32) by (rewrite <- E0; apply Hb; lia).
  assert (Hc := fun q g => closed_cell (Z.of_nat n) s q g Hst ltac:(pose proof (Hb (Z.of_nat n - 1)); lia)).
  assert (Hval : forall j g, 0 <= j < Z.of_nat n ->
    g ∈ [b_dev; b_uptodate; b_dirt; b_count; b_lock; b_prev; b_next] ->
    cell (closed (Z.of_nat n) s) (head_at j) g = 0).
  { intros j g Hj Hg. rewrite Hc. rewrite decide_False by (intros [-> _]; set_solver).
    rewrite decide_False by (intros [-> _]; set_solver). rewrite !elem_of_cons in Hg.
    destruct Hg as [-> | [-> | [-> | [-> | [-> | [-> | [-> | Hg]]]]]]];
      [.. | by apply elem_of_nil in Hg]; (rewrite I3; [done | lia | in_list | discriminate]). }
  constructor.
  - apply length_replicate.
  - change (nr_buffers (closed (Z.of_nat n) s)) with (nr_buffers s). unfold heads.
    rewrite length_map, length_seq. lia.
  - destruct n; [lia | done].
  - apply NoDup_heads.
  - intros p (i & Hi & ->)%elem_of_heads. by apply Hb.
  - intros p f (i & Hi & ->)%elem_of_heads Hf. by apply closed_has, I2.
  - destruct n; [lia |]. cbn [heads seq map hd]. exact E0.
  - destruct n as [| m]; [lia |]. change (ring (free_link (closed (Z.of_nat (S m)) s)) (heads (S m)))
      with (links (free_link (closed (Z.of_nat (S m)) s)) (heads (S m) ++ [head_at 0])).
    apply links_heads.
    + intros j Hj. unfold free_link. rewrite !Hc. split.
      * rewrite decide_False by (intros [_ ?%head_at_inj]; lia). rewrite decide_False by (intros []; discriminate).
        rewrite I3 by (done || lia || in_list). done.
      * rewrite decide_False by (intros []; discriminate).
        rewrite decide_False by (rewrite <- E0; intros [_ ?%head_at_inj]; lia).
        rewrite I3 by (done || lia || in_list). cbn [init_val].
        replace (j + 1 - 1) with j by lia. apply u32_small. pose proof (Hb j). unfold in_u32. lia.
    + unfold free_link. rewrite !Hc. rewrite E0. rewrite decide_True
        by (split; [done | f_equal; lia]). split; [done |].
      rewrite decide_False by (intros []; discriminate). rewrite decide_True by done. f_equal. lia.
  - intros h Hh. change (hash_table (closed (Z.of_nat n) s)) with (replicate (Z.to_nat NR_HASH) 0).
    apply lookup_replicate_2. unfold NR_HASH. lia.
  - intros h Hh. split; [apply NoDup_nil_2 |]. cbn [app]. unfold hash_link. split; [done | done].
  - intros h p Hh. split; [intros Hp; by apply elem_of_nil in Hp |].
    intros ((i & Hi & ->)%elem_of_heads & Hd & _). exfalso. apply Hd.
    apply Hval; [lia | in_list].
  - intros p (i & Hi & ->)%elem_of_heads _. split; (apply Hval; [lia | in_list]).
  - intros p q (i & Hi & ->)%elem_of_heads _ Hd. exfalso. apply Hd.
    apply Hval; [lia | in_list].
Qed.

Lemma init_block_range i : 0 <= i < 1664 -> 0 <= init_block i < 0x200000.
Proof. intros Hi. unfold init_block. case_match; lia. Qed.

Lemma buffer_init_run s :
  0 < start_buffer -> head_at 2 <= init_block 1 -> nr_buffers s = 0 ->
  (forall j, 0 <= j < 1664 -> head_at (j + 1) <= init_block j -> has s (head_at j) b_blocknr) ->
  exists k s1, buffer_init s = Done tt (closed k s1) /\ 2 <= k < 1664 /\ init_inv s k s1 /\
    head_at k <= init_block (k - 1) /\ init_block k < head_at (k + 1).
Proof.
  intros Hs H2 Hnr Hblk. assert (E0 : head_at 0 = start_buffer) by (unfold head_at; lia).
  assert (Hinv : init_inv s 0 s) by (constructor; [lia | lia | lia | done]).
  unfold buffer_init. assert (Hn : 1664 < 0 + Z.of_nat 1700) by (by vm_compute). revert Hn.
  generalize 1700%nat. intros [| n] Hn; [lia |].
  destruct (init_loop_run s n 0 s Hs ltac:(lia) Hblk ltac:(lia) Hinv) as (k & s1 & Hk & Hrun & Hinv1 & Hfit & Hend).
  assert (Hk2 : 2 <= k).
  { destruct (decide (k = 0)) as [-> |]; [exfalso | destruct (decide (k = 1)) as [-> |]; [exfalso | lia]].
    - change (init_block 0) with 0x1FFC00 in Hend. change (init_block 1) with 0x1FF800 in H2.
      unfold head_at, sizeof_buffer_head in *. lia.
    - change (1 + 1) with 2 in Hend. lia. }
  exists k, s1. split.
  - change (block_before 0) with BUFFER_END in Hrun. rewrite E0 in Hrun.
    rewrite (bind_Done _ _ _ _ _ Hrun). cbv zeta.
    replace (head_at k - sizeof_buffer_head) with (head_at (k - 1)) by (unfold head_at, sizeof_buffer_head; lia).
    assert (Hf : has (set_free_list start_buffer s1) start_buffer b_prev_free).
    { rewrite <- E0. apply (ii_has _ _ _ Hinv1); [lia |]. apply list_elem_of_In. cbn; tauto. }
    assert (Hn' : has (set_free_list start_buffer s1) (head_at (k - 1)) b_next_free).
    { apply (ii_has _ _ _ Hinv1); [lia |]. apply list_elem_of_In. cbn; tauto. }
    do 2 fstep. change (free_list (set_free_list start_buffer s1)) with start_buffer. fstep. fstep.
    change (free_list (upd _ _ _ (set_free_list start_buffer s1))) with start_buffer. by fstep.
  - split; [lia |]. split; [done |]. split; [| done].
    specialize (Hfit (k - 1) ltac:(lia)). by replace (k - 1 + 1) with k in Hfit by lia.
Qed.

(** C6: [buffer_init] leaves, if there is room for two of them, an array of
    buffer heads, as many as fit, that form a well-formed cache in which
    nothing is cached, locked or used. Each head has a block of its own: the
    1 KB blocks below 2 MB, downwards, without those from 640 KB to 1 MB, none
    of which reaches into the heads. *)
Theorem buffer_init_correct s :
  0 < start_buffer -> head_at 2 <= init_block 1 -> nr_buffers s = 0 ->
  (forall j, 0 <= j < 1664 -> head_at (j + 1) <= init_block j -> has s (head_at j) b_blocknr) ->
  exists n s', buffer_init s = Done tt s' /\ (2 <= n)%nat /\
    nr_buffers s' = Z.of_nat n /\ cache_ok (heads n) (fun _ => []) s' /\ buffer_array s' /\
    (forall i, 0 <= i < Z.of_nat n ->
       cell s' (head_at i) b_data = init_block i /\ head_at (Z.of_nat n) <= init_block i /\
       forall g, g ∈ [b_dev; b_uptodate; b_dirt; b_count; b_lock] -> cell s' (head_at i) g = 0) /\
    init_block (Z.of_nat n) < head_at (Z.of_nat n + 1).
Proof.
  intros Hs H2 Hnr Hblk. assert (E0 : head_at 0 = start_buffer) by (unfold head_at; lia).
  destruct (buffer_init_run s Hs H2 Hnr Hblk) as (k & s1 & Hrun & Hk & Hinv1 & Hlast & Hend).
  exists (Z.to_nat k), (closed k s1). rewrite Z2Nat.id by lia.
  pose proof (init_block_range (k - 1) ltac:(lia)) as Hlr.
  pose proof (closed_ok s (Z.to_nat k) s1 Hs) as Hok. rewrite Z2Nat.id in Hok by lia.
  specialize (Hok ltac:(lia) ltac:(lia) Hnr Hinv1). destruct Hinv1 as [I1 I2 I3 I4].
  assert (Hst : 0 < start_buffer < 2 ^ 32) by (unfold head_at, sizeof_buffer_head in *; lia).
  assert (Hkr : 0 <= head_at (k - 1) < 2 ^ 32) by (unfold head_at, sizeof_buffer_head in *; lia).
  assert (Hval : forall i g, 0 <= i < k -> g ∈ [b_data; b_dev; b_uptodate; b_dirt; b_count; b_lock] ->
    cell (closed k s1) (head_at i) g = init_val i g).
  { intros i g Hi Hg. rewrite closed_cell by done. rewrite decide_False by (intros [-> _]; set_solver).
    rewrite decide_False by (intros [-> _]; set_solver).
    apply I3; [lia | set_solver | intros ->; set_solver]. }
  split; [done |].
  split; [lia |]. split; [cbn; lia |]. split; [done |]. split.
  { intros i Hi. assert (Hi' : 0 <= i < k) by (cbn in Hi; lia).
    change (start_buffer + sizeof_buffer_head * i) with (head_at i). split.
    - intros f Hf. by apply closed_has, I2.
    - rewrite Hval; [done | done | set_solver]. }
  split; [| done]. intros i Hi. rewrite Hval by (done || set_solver). split; [done |]. split.
  { assert (Hm : forall j, 0 <= i <= j -> j < 1664 -> init_block j <= init_block i).
    { intros j Hj Hj'. unfold init_block. repeat case_match; lia. }
    pose proof (Hm (k - 1) ltac:(lia) ltac:(lia)). lia. }
  intros g Hg. rewrite Hval; [| done | set_solver]. rewrite !elem_of_cons in Hg.
  destruct Hg as [-> | [-> | [-> | [-> | [-> | Hg]]]]]; try done. by apply elem_of_nil in Hg.
Qed.
End init.

(** A kernel that ends 2.1 KB below 2 MB: two buffers. *)
(** A device that copies the block. *)
Definition transfer (rw bh : Z) (s : fstate) : fstate :=
  let a := cell s bh b_data in
  let d := cell s bh b_dev in
  let b := cell s bh b_blocknr in
  if (0 <=? a) && (a <=? 2 ^ 32 - 1024) then
    if rw =? READ
    then set_kmem (store_bytes (kmem s) a (map (fun x => fdisk s d b (Z.of_nat x)) (seq 0 1024))) s
    else set_fdisk (fun d' b' x =>
           if same_block d' b' x d b then load8 (kmem s) (a + x) else fdisk s d' b' x) s
  else s.

Definition small_world : FsWorld := {|
  inode_table := 0x10000; file_table := 0x11000; super_block := 0x12000;
  start_buffer := 0x1FF7A0; buffer_wait := 0x13000;
  fs_sleep_on := fun _ => mret tt;
  ll_rw_block := fun rw bh =>
    _ ← modify (transfer rw bh);
    _ ← fput bh b_uptodate 1;
    fput bh b_dirt 0 |}.
#[local] Existing Instance small_world.

Lemma transfer_cells rw bh s : cells (transfer rw bh s) = cells s.
Proof. unfold transfer. cbv zeta. by destruct (_ && _), (rw =? READ). Qed.

Lemma transfer_quiet rw bh s : quiet s (transfer rw bh s).
Proof.
  assert (H : forall s', hash_table s' = hash_table s -> free_list s' = free_list s ->
    nr_buffers s' = nr_buffers s -> cells s' = cells s -> fps s' = fps s ->
    last_allocated_inode s' = last_allocated_inode s -> quiet s s').
  { intros s' E1 E2 E3 E4 E5 E6. constructor; [done | done | done | | | unfold beside; by rewrite E5, E6 |].
    - intros q g. unfold has. by rewrite E4.
    - unfold all_wakeable, wakeable. by rewrite E5.
    - intros q g _ _. by apply cell_ext. }
  unfold transfer. cbv zeta. destruct (_ && _), (rw =? READ); by apply H.
Qed.

(** The two flags, after a transfer. *)
Definition transferred (rw bh : Z) (s : fstate) : fstate :=
  upd bh b_dirt 0 (upd bh b_uptodate 1 (transfer rw bh s)).

Lemma small_transfer rw bh s :
  (forall f, f ∈ buf_fields -> has s bh f) -> ll_rw_block rw bh s = Done tt (transferred rw bh s).
Proof.
  intros Hf. cbn [ll_rw_block small_world]. fstep.
  assert (H1 : has (transfer rw bh s) bh b_uptodate).
  { apply (has_ext s); [apply transfer_cells | apply Hf; in_list]. }
  assert (H2 : has (transfer rw bh s) bh b_dirt).
  { apply (has_ext s); [apply transfer_cells | apply Hf; in_list]. }
  fstep. apply fput_upd. by apply has_upd.
Qed.

Lemma small_disk_ok : DiskOk.
Proof.
  constructor. intros rw bh s _ _ Hf. exists (transferred rw bh s).
  split; [by apply small_transfer |]. pose proof (transfer_quiet rw bh s) as Hq. split.
  { apply (quiet_trans _ _ _ Hq). unfold transferred. constructor; [done | done | done | | done | done |].
    - intros. by do 2 apply has_upd.
    - intros. by rewrite !cell_upd_fld. }
  split; [intros q g Hne; unfold transferred; rewrite !cell_upd_obj by done; by apply cell_ext, transfer_cells |].
  unfold transferred. cbn [kmem upd set_cells]. unfold transfer. cbv zeta.
  destruct (Z.leb_spec 0 (cell s bh b_data)); [| split; [done | apply only_changed_refl]].
  destruct (Z.leb_spec (cell s bh b_data) (2 ^ 32 - 1024)); [| split; [done | apply only_changed_refl]]. cbn [andb].
  destruct (Z.eqb_spec rw READ) as [-> | Hrw]; (split; [done |]); [| apply only_changed_refl].
  intros x Hx Hout. cbn [kmem set_kmem].
  rewrite load8_store_bytes by (rewrite ?length_map, ?length_seq; (lia || done)).
  rewrite length_map, length_seq. by rewrite decide_False by lia.
Qed.

#[local] Existing Instance small_disk_ok.

Lemma small_good_disk : GoodDisk.
Proof.
  constructor; [apply small_disk_ok |]. intros rw bh s s' [Hf _] _ Hr Hrun.
  rewrite small_transfer in Hrun by done. injection Hrun as <-. unfold transferred.
  split; [by rewrite cell_upd_fld, cell_upd_eq by done |]. split; [by rewrite cell_upd_eq |].
  unfold transfer. cbv zeta. rewrite (proj2 (Z.leb_le 0 _)), (proj2 (Z.leb_le _ (2 ^ 32 - 1024))) by lia. cbn [andb].
  split; intros ->; cbn [Z.eqb Pos.eqb READ WRITE].
  - split; [done |]. intros x Hx. cbn [kmem upd set_cells set_kmem].
    rewrite load8_store_bytes by (rewrite ?length_map, ?length_seq; unfold in_u32; lia).
    rewrite length_map, length_seq. rewrite decide_True by lia. unfold disk_byte. f_equal.
    rewrite (list_lookup_total_correct _ _ (fdisk s (cell s bh b_dev) (cell s bh b_blocknr) x)); [done |].
    rewrite list_lookup_fmap, lookup_seq_lt by lia. cbn. do 2 f_equal. lia.
  - intros d b x. unfold disk_byte. cbn [fdisk upd set_cells set_fdisk].
    destruct (same_block d b x _ _); [| done]. apply u8_small. apply load8_range.
Qed.

Definition boot_state : fstate := {|
  fps := demo_table [2000] {[2000 := mk_task 0 9 15]} 2000;
  cells := list_to_map [((0x1FF7A0, b_blocknr), 7); ((0x1FF7C0, b_blocknr), 9)];
  kmem := ∅; hash_table := []; free_list := 0; nr_buffers := 0;
  last_allocated_inode := 0; flog := []; fdisk := fun _ b x => b + x; fpages := replicate 1536 0 |}.

Lemma boot_blocknr j :
  0 <= j < 1664 -> head_at (j + 1) <= init_block j -> has boot_state (head_at j) b_blocknr.
Proof.
  intros Hj Hle. assert (Hj' : j = 0 \/ j = 1).
  { unfold head_at, init_block, sizeof_buffer_head in Hle. cbn [start_buffer small_world] in Hle.
    destruct (Z.ltb_spec j 1024); lia. }
  destruct Hj' as [-> | ->]; by vm_compute; eexists.
Qed.

Lemma buffer_init_witness :
  exists n s', buffer_init boot_state = Done tt s' /\ (2 <= n)%nat /\ cache_ok (heads n) (fun _ => []) s'.
Proof.
  destruct (buffer_init_correct boot_state) as (n & s' & H1 & H2 & _ & H3 & _).
  - done.
  - by vm_compute.
  - done.
  - apply boot_blocknr.
  - by exists n, s'.
Defined.

(** The first block read after booting: the head of the free list takes it. *)
Lemma getblk_witness :
  exists n s s', (2 <= n)%nat /\ buffer_init boot_state = Done tt s /\
    getblk 1 0x306 5 s = Done (head_at 0) s' /\ cached 0x306 5 s' (head_at 0).
Proof.
  destruct (buffer_init_run boot_state) as (k & s1 & Hrun & Hk & Hinv & Hlast & _);
    [done | by vm_compute | done | apply boot_blocknr |].
  pose proof (init_block_range (k - 1) ltac:(lia)) as Hr.
  assert (Ek : Z.of_nat (Z.to_nat k) = k) by lia.
  assert (Hok : cache_ok (heads (Z.to_nat k)) (fun _ => []) (closed k s1)).
  { assert (Hinv' : init_inv boot_state (Z.of_nat (Z.to_nat k)) s1) by (by rewrite Ek).
    assert (Hle : head_at (Z.of_nat (Z.to_nat k)) <= 0x200000) by (rewrite Ek; lia).
    assert (H2 : (2 <= Z.to_nat k)%nat) by lia.
    pose proof (closed_ok boot_state (Z.to_nat k) s1 ltac:(done) Hle H2 eq_refl Hinv') as Hok.
    by rewrite Ek in Hok. }
  assert (Hc : forall i g, 0 <= i < k -> g ∈ [b_lock; b_count; b_dev] -> cell (closed k s1) (head_at i) g = 0).
  { intros i g Hi Hg. rewrite closed_cell; [| done | unfold head_at, sizeof_buffer_head in *; cbn [start_buffer small_world] in *; lia].
    rewrite !elem_of_cons in Hg. destruct Hg as [-> | [-> | [-> | Hg]]]; [.. | by apply elem_of_nil in Hg];
      do 2 rewrite decide_False by (intros []; discriminate);
      (rewrite (ii_val _ _ _ Hinv); [done | lia | apply list_elem_of_In; cbn; tauto | discriminate]). }
  assert (Hdt : forall i, 0 <= i < k -> cell (closed k s1) (head_at i) b_dirt = 0).
  { intros i Hi. rewrite closed_cell; [| done | unfold head_at, sizeof_buffer_head in *; cbn [start_buffer small_world] in *; lia].
    do 2 rewrite decide_False by (intros []; discriminate).
    rewrite (ii_val _ _ _ Hinv); [done | lia | in_list | discriminate]. }
  assert (Hin : head_at 0 ∈ heads (Z.to_nat k)) by (apply elem_of_heads; exists 0; split; [lia | done]).
  assert (Hbf : forall i f, 0 <= i < k -> f ∈ buf_fields -> has (closed k s1) (head_at i) f).
  { intros. by apply closed_has, (ii_has _ _ _ Hinv). }
  destruct (@getblk_correct small_world small_disk_ok (heads (Z.to_nat k)) (fun _ => []) (closed k s1) 1 0x306 5)
    as (bh & L' & C' & s' & H1 & _ & _ & _ & H2 & _ & _ & H3).
  - done.
  - intros p (i & Hi & ->)%elem_of_heads. apply Hc; [lia | in_list].
  - intros i Hi. change (start_buffer + sizeof_buffer_head * i) with (head_at i).
    assert (0 <= i < k) by (pose proof (ii_num _ _ _ Hinv) as E; cbn in Hi, E; lia).
    split; [intros f; by apply Hbf | apply Hc; [done | set_solver]].
  - intros p (i & Hi & ->)%elem_of_heads Hd. exfalso. apply Hd. apply Hdt. lia.
  - unfold heads. rewrite length_map, length_seq. lia.
  - done.
  - done.
  - lia.
  - exists (head_at 0). split; [done |]. apply Hc; [lia | in_list].
  - destruct H3 as (E & _).
    { intros q (i & Hi & ->)%elem_of_heads [Hd _]. rewrite Hc in Hd; [done | lia | in_list]. }
    assert (Ebh : bh = head_at 0).
    { rewrite E. unfold first_unused. destruct (Z.to_nat k) as [| n] eqn:En; [lia |].
      cbn [heads seq map]. rewrite filter_cons_True; [done |]. apply Hc; [lia | in_list]. }
    rewrite Ebh in H1, H2. exists (Z.to_nat k), (closed k s1), s'. split; [lia |]. done.
Defined.
