(* ===== verification/Contents.v ===== *)
(** * Contents: the buffer cache as a store of blocks

    The cache of src/linux-0.01/fs/buffer.c, over a device without errors,
    stands for a function from blocks to their bytes ([holds] of [Getblk]).
    [bread] gives a buffer with the bytes of the block asked for, whatever is
    cached, waits to be written or has to be thrown out on the way; what the
    cache stands for does not change. [ready] is the state the code above the
    cache finds and leaves it in. *)

From S2P Require Import Prelude Mem Proc Sched FsState Buffer BufferInv Getblk.

Section contents.
Context {FW : FsWorld} {GD : GoodDisk}.

Record ready (L : list Z) (s : fstate) : Prop := {
  rd_cache : exists L0 C, L0 ≡ₚ L /\ cache_ok L0 C s;
  rd_lock : unlocked L s;
  rd_array : buffer_array s;
  rd_dirty : dirty_dev L s;
  rd_two : (2 <= length L)%nat;
  rd_whole : whole L s;
  rd_range : data_range L s;
  rd_apart p q : p ∈ L -> q ∈ L -> p <> q -> disjoint (cell s p b_data) 1024 (cell s q b_data) 1024;
  rd_wake : all_wakeable s
}.

(** The buffers have users to spare, and one has none. *)
Definition spare (L : list Z) (s : fstate) : Prop :=
  (forall p, p ∈ L -> 0 <= cell s p b_count < 255) /\ exists p, p ∈ L /\ cell s p b_count = 0.

(** The state of the buffers: what a change elsewhere leaves alone. *)
Record same_cache (s s' : fstate) : Prop := {
  sc_hash : hash_table s' = hash_table s;
  sc_free : free_list s' = free_list s;
  sc_num : nr_buffers s' = nr_buffers s;
  sc_disk : fdisk s' = fdisk s;
  sc_has q g : has s q g -> has s' q g;
  sc_wake : all_wakeable s -> all_wakeable s';
  sc_cell q g : g ∈ buf_fields -> cell s' q g = cell s q g
}.

Lemma same_cache_refl s : same_cache s s.
Proof. by constructor. Qed.
Lemma same_cache_trans s1 s2 s3 : same_cache s1 s2 -> same_cache s2 s3 -> same_cache s1 s3.
Proof.
  intros [] []. constructor; try congruence; [by auto | by auto |].
  intros q g H. by rewrite sc_cell1, sc_cell0.
Qed.

Lemma same_cache_ready L s s' : same_cache s s' -> ready L s -> ready L s'.
Proof.
  intros [] [].
  assert (Hav : forall p, avail s p -> avail s' p).
  { intros p [H1 H2]. split; [auto | rewrite sc_cell0; [done | in_list]]. }
  destruct rd_cache0 as (L0 & C & HL & Hok). constructor.
  - exists L0, C. split; [done |]. apply (cache_ok_frame L0 C s); try done.
    intros q g _ Hg. apply sc_cell0. revert Hg. unfold link_fields, buf_fields. set_solver.
  - intros p Hp. rewrite sc_cell0; [auto | in_list].
  - intros i Hi. rewrite sc_num0 in Hi. auto.
  - intros p Hp. rewrite !sc_cell0 by in_list. auto.
  - done.
  - intros p. rewrite sc_num0. apply rd_whole0.
  - intros p Hp. rewrite !sc_cell0 by in_list. auto.
  - intros p q. rewrite !sc_cell0 by in_list. auto.
  - auto.
Qed.

Lemma same_cache_holds L c s s' : same_cache s s' -> kmem s' = kmem s -> holds L c s -> holds L c s'.
Proof.
  intros [] Hm Hh. apply (holds_frame L c s); try done. intros q g _ Hg. apply sc_cell0.
  revert Hg. unfold buf_fields. set_solver.
Qed.

Lemma ready_buf L s p f : ready L s -> p ∈ L -> f ∈ buf_fields -> has s p f.
Proof.
  intros [] Hp Hf. destruct rd_cache0 as (L0 & C & HL & Hok).
  apply (ck_buf _ _ _ Hok); [by rewrite HL | done].
Qed.

Lemma ready_addr L s p : ready L s -> p ∈ L -> 0 < p < 2 ^ 32.
Proof.
  intros [] Hp. destruct rd_cache0 as (L0 & C & HL & Hok).
  apply (ck_addr _ _ _ Hok). by rewrite HL.
Qed.
Lemma quiet_ready L s s' bh :
  quiet s s' -> (forall q g, q <> bh -> cell s' q g = cell s q g) -> cell s bh b_dev <> 0 ->
  ready L s -> ready L s'.
Proof.
  intros Hq Hoth Hdev [].
  assert (Hc : forall q g, g <> b_uptodate -> g <> b_dirt -> cell s' q g = cell s q g) by apply (q_cell _ _ Hq).
  destruct rd_cache0 as (L0 & C & HL & Hok). constructor.
  - exists L0, C. split; [done |]. by apply (quiet_cache _ _ s).
  - intros p Hp. rewrite Hc by done. auto.
  - intros i Hi. rewrite (q_num _ _ Hq) in Hi. apply (quiet_avail s); auto.
  - intros p Hp Hd. rewrite Hc by done. destruct (decide (p = bh)) as [-> |]; [done |].
    rewrite Hoth in Hd by done. auto.
  - done.
  - intros p. rewrite (q_num _ _ Hq). apply rd_whole0.
  - intros p Hp. rewrite Hc by done. auto.
  - intros p q Hp Hq' Hne. rewrite (Hc p), (Hc q) by done. auto.
  - by apply (q_wake _ _ Hq).
Qed.

(** A block read from the device is the block the cache stands for. *)
Lemma read_holds L c s s' bh :
  ready L s -> holds L c s -> bh ∈ L -> cell s bh b_dev <> 0 -> cell s bh b_uptodate = 0 ->
  ll_rw_block READ bh s = Done tt s' -> quiet s s' ->
  (forall q g, q <> bh -> cell s' q g = cell s q g) ->
  only_changed (kmem s) (kmem s') (cell s bh b_data) 1024 ->
  holds L c s' /\ cell s' bh b_uptodate = 1.
Proof.
  intros Hr Hh Hin Hdev Hu Hrun Hq Hoth Hmem.
  assert (Hav : avail s bh) by (split; [intros f; by apply (ready_buf L) | by apply (rd_lock _ _ Hr)]).
  pose proof (rd_range _ _ Hr bh Hin) as Hrg.
  destruct (rw_block_good READ bh s s' Hav Hdev ltac:(lia) Hrun) as (Hu' & Hd' & Hrd & _).
  destruct (Hrd eq_refl) as [Hfd Hbytes]. split; [| done].
  assert (Hc : forall q g, g <> b_uptodate -> g <> b_dirt -> cell s' q g = cell s q g) by apply (q_cell _ _ Hq).
  assert (Hdb : forall d b x, disk_byte s' d b x = disk_byte s d b x) by (intros; unfold disk_byte; by rewrite Hfd).
  assert (Hdt : cell s bh b_dirt = 0).
  { destruct (decide (cell s bh b_dirt = 0)); [done |]. exfalso. by apply (ho_dirty _ _ _ Hh bh). }
  constructor.
  - intros p x Hp Hx. rewrite (Hc p b_data), (Hc p b_dev), (Hc p b_blocknr) by done. intros H1 H2.
    destruct (decide (p = bh)) as [-> | Hne]; [rewrite Hbytes by done; by apply (ho_clean _ _ _ Hh) |].
    rewrite Hoth in H2 by done. rewrite <- (ho_mem _ _ _ Hh p x) by done.
    pose proof (rd_apart _ _ Hr p bh Hp Hin Hne) as Hdis. pose proof (rd_range _ _ Hr p Hp).
    unfold disjoint in Hdis. apply Hmem; [unfold in_u32; lia | lia].
  - intros p Hp. rewrite (Hc p b_dev) by done. destruct (decide (p = bh)) as [-> | Hne]; [by rewrite Hu' |].
    rewrite !Hoth by done. by apply (ho_dirty _ _ _ Hh).
  - intros p x Hp Hx. rewrite (Hc p b_dev), (Hc p b_blocknr), Hdb by done. intros H1 H2.
    apply (ho_clean _ _ _ Hh); [done .. |]. destruct (decide (p = bh)) as [-> | Hne]; [done |]. by rewrite <- Hoth.
  - intros d b x H0 Hx Hno. rewrite Hdb. apply (ho_disk _ _ _ Hh); [done .. |].
    intros p Hp [E1 E2]. apply (Hno p Hp). split; by rewrite Hc.
Qed.

(** What a reader of a block may rely on. *)
Record has_block (L : list Z) (c : Z -> Z -> Z -> Z) (dev block bh : Z) (s s' : fstate) : Prop := {
  hb_in : bh ∈ L;
  hb_key : cached dev block s' bh;
  hb_valid : cell s' bh b_uptodate <> 0;
  hb_bytes x : 0 <= x < 1024 -> load8 (kmem s') (cell s' bh b_data + x) = c dev block x;
  hb_count : cell s' bh b_count = cell s bh b_count + 1;
  hb_counts q : q ∈ L -> q <> bh -> cell s' q b_count = cell s q b_count;
  hb_data q : q ∈ L -> cell s' q b_data = cell s q b_data;
  hb_rest q g : (g ∉ buf_fields) -> cell s' q g = cell s q g;
  hb_has q g : has s q g -> has s' q g;
  hb_beside : beside s' = beside s
}.

Lemma hb_umem L c dev block bh s s' : has_block L c dev block bh s s' -> umem (fps s') = umem (fps s).
Proof. intros H. apply beside_umem, (hb_beside _ _ _ _ _ _ _ H). Qed.

Lemma holds_perm L L' c s : (forall p, p ∈ L <-> p ∈ L') -> holds L c s -> holds L' c s.
Proof.
  intros H Hh. constructor.
  - intros p x Hp%H. by apply (ho_mem _ _ _ Hh).
  - intros p Hp%H. by apply (ho_dirty _ _ _ Hh).
  - intros p x Hp%H. by apply (ho_clean _ _ _ Hh).
  - intros d b x H0 Hx Hn. apply (ho_disk _ _ _ Hh); [done | done |]. intros p Hp%H. by apply Hn.
Qed.

Lemma getblk_ready L c s fuel dev block :
  ready L s -> spare L s -> holds L c s -> 0 < dev < 65536 -> 0 <= block < 65536 -> (0 < fuel)%nat ->
  exists bh s', getblk fuel dev block s = Done bh s' /\ ready L s' /\ holds L c s' /\ bh ∈ L /\
    cached dev block s' bh /\ cell s' bh b_count = cell s bh b_count + 1 /\
    (forall q, q ∈ L -> q <> bh -> cell s' q b_count = cell s q b_count) /\
    (forall q, q ∈ L -> cell s' q b_data = cell s q b_data) /\
    (forall q g, (g ∉ buf_fields) -> cell s' q g = cell s q g) /\
    (forall q g, has s q g -> has s' q g) /\ beside s' = beside s.
Proof.
  intros Hr [Hfew Hun] Hh Hd Hb Hfuel. destruct (rd_cache _ _ Hr) as (L0 & C & HL & Hok).
  assert (HL' : forall p, p ∈ L0 <-> p ∈ L) by (intros p; by rewrite HL).
  assert (Hun0 : exists p, p ∈ L0 /\ cell s p b_count = 0).
  { destruct Hun as (p & Hp & Hc). exists p. by rewrite HL'. }
  destruct (getblk_any L0 C s fuel dev block Hok)
    as (bh & L1 & C1 & s1 & Hg & Hok1 & HL1 & Hin1 & Hc1 & Hm1 & Hhas & Hw & Hrest & Hoth & Hcase & [Hnr Hum] & Hdd & Hho);
    [intros p Hp; apply (rd_lock _ _ Hr); by apply HL' | apply (rd_array _ _ Hr)
    | intros p Hp; apply (rd_dirty _ _ Hr); by apply HL' | rewrite HL; apply (rd_two _ _ Hr) | done .. |].
  assert (Hin0 : bh ∈ L0) by by rewrite <- HL1. assert (Hin : bh ∈ L) by by apply HL'.
  assert (Hstay : forall q g, q ∈ L -> g ∈ [b_lock; b_data] -> cell s1 q g = cell s q g).
  { intros q g Hq Hg'. apply Hoth; [by apply HL' | set_solver | by right]. }
  assert (Hwh : whole L0 s) by (intros p; rewrite HL'; apply (rd_whole _ _ Hr)).
  assert (Hrg : data_range L0 s) by (intros p Hp; apply (rd_range _ _ Hr); by apply HL').
  exists bh, s1. split; [done |]. split.
  { constructor.
    - exists L1, C1. split; [by rewrite HL1 | done].
    - intros p Hp. rewrite Hstay by (done || in_list). by apply (rd_lock _ _ Hr).
    - intros i Hi. rewrite Hnr in Hi. destruct (rd_array _ _ Hr i Hi) as [Ha1 Ha2]. split; [by auto |].
      rewrite Hstay; [done | apply (rd_whole _ _ Hr); by exists i | in_list].
    - intros p Hp. apply Hdd. by apply HL'.
    - apply (rd_two _ _ Hr).
    - intros p. rewrite Hnr. apply (rd_whole _ _ Hr).
    - intros p Hp. rewrite Hstay by (done || in_list). by apply (rd_range _ _ Hr).
    - intros p q Hp Hq Hne. rewrite !Hstay by (done || in_list). by apply (rd_apart _ _ Hr).
    - apply Hw, (rd_wake _ _ Hr). }
  split.
  { apply (holds_perm L0); [done |]. apply (Hho GD c Hwh Hrg). apply (holds_perm L); [| done]. intros p. by rewrite HL'. }
  split; [done |]. split; [done |]. split.
  { destruct Hcase as [[_ ->] | [-> ->]]; [| done]. apply u8_small. specialize (Hfew bh Hin). lia. }
  split; [intros q Hq Hne; apply Hoth; [by apply HL' | in_list | by left] |].
  split; [intros q Hq; apply Hstay; [done | in_list] |]. done.
Qed.
Lemma bread_run L c s fuel dev block :
  ready L s -> spare L s -> holds L c s -> 0 < dev < 65536 -> 0 <= block < 65536 -> (0 < fuel)%nat ->
  exists bh s', bread fuel dev block s = Done bh s' /\ ready L s' /\ holds L c s' /\
    has_block L c dev block bh s s'.
Proof.
  intros Hr Hsp Hh Hd Hb Hfuel.
  destruct (getblk_ready L c s fuel dev block Hr Hsp Hh Hd Hb Hfuel)
    as (bh & s1 & Hg & Hr1 & Hh1 & Hin & [K1 K2] & Hcnt & Hcnts & Hdat & Hrest & Hhas & Hum).
  pose proof (ready_addr L s1 bh Hr1 Hin) as Ha.
  assert (Hu1 : has s1 bh b_uptodate) by (apply (ready_buf L); [done | done | in_list]).
  unfold bread. rewrite (bind_Done _ _ _ _ _ Hg). rewrite (proj2 (Z.eqb_neq bh 0)) by lia. cbn [when]. do 2 fstep.
  destruct (Z.eqb_spec (cell s1 bh b_uptodate) 0) as [Eu | Eu]; cbn [negb].
  2: { exists bh, s1. split; [done |]. split; [done |]. split; [done |]. constructor; try done.
       intros x Hx. rewrite (ho_mem _ _ _ Hh1) by (done || lia). by rewrite K1, K2. }
  assert (Hdev : cell s1 bh b_dev <> 0) by lia.
  destruct (rw_block_ok READ bh s1 (rd_lock _ _ Hr1 bh Hin) Hdev)
    as (s2 & Hrun & Hq & Hoth & _ & Hmem); [intros f; by apply (ready_buf L) |].
  destruct (read_holds L c s1 s2 bh) as [Hh2 Hu2]; [done .. |].
  assert (Hr2 : ready L s2) by by apply (quiet_ready L s1 s2 bh).
  assert (Hc : forall q g, g <> b_uptodate -> g <> b_dirt -> cell s2 q g = cell s1 q g) by apply (q_cell _ _ Hq).
  rewrite (bind_Done _ _ _ _ _ Hrun).
  assert (Hu2' : has s2 bh b_uptodate) by by apply (q_has _ _ Hq). fstep. rewrite Hu2. cbn [Z.eqb negb].
  exists bh, s2. split; [done |]. split; [done |]. split; [done |]. constructor.
  - done.
  - split; by rewrite Hc.
  - by rewrite Hu2.
  - intros x Hx. rewrite (ho_mem _ _ _ Hh2); [by rewrite !Hc, K1, K2 | done | done | by rewrite Hc | by rewrite Hu2].
  - by rewrite Hc.
  - intros q Hq' Hne. rewrite Hc by done. by apply Hcnts.
  - intros q Hq'. rewrite Hc by done. by apply Hdat.
  - intros q g Hg'. rewrite Hc; [by apply Hrest | intros ->; apply Hg'; in_list ..].
  - intros q g Hqg. by apply (q_has _ _ Hq), Hhas.
  - by rewrite (q_beside _ _ Hq).
Qed.

(** Letting a buffer go. *)
Lemma wake_up_again q s p : wake_up q s = Done tt p -> wake_up q p = Done tt p /\ umem p = umem s.
Proof.
  unfold wake_up. destruct (Z.eqb_spec q 0) as [| Hq]; [by intros [= <-] |].
  unfold wq_get. rewrite (bind_Done (gets _) _ s _ s eq_refl). cbn [gets].
  destruct (Z.eqb_spec (default 0 (wq s !! q)) 0) as [E | E]; cbn [negb when].
  - intros [= <-]. split; [| done]. rewrite (bind_Done (gets _) _ s _ s eq_refl). by rewrite E.
  - unfold tput. destruct (tasks s !! default 0 (wq s !! q)) as [t |] eqn:Et.
    2: { unfold mbind, M_bind. by rewrite Et. }
    unfold mbind at 1, M_bind at 1. rewrite Et. intros [= <-]. split; [| done].
    rewrite (bind_Done (gets _) _ _ _ _ eq_refl). cbn [wq set_wq]. by rewrite lookup_insert_eq.
Qed.

Lemma brelse_ready L c s fuel bh :
  ready L s -> holds L c s -> bh ∈ L -> 0 < cell s bh b_count < 256 ->
  exists s', brelse fuel bh s = Done tt s' /\ ready L s' /\ holds L c s' /\
    cell s' bh b_count = cell s bh b_count - 1 /\ kmem s' = kmem s /\
    (forall q g, q <> bh \/ g <> b_count -> cell s' q g = cell s q g) /\
    (forall q g, has s q g -> has s' q g) /\ beside s' = beside s.
Proof.
  intros Hr Hh Hin Hc. pose proof (ready_addr L s bh Hr Hin) as Ha.
  destruct (brelse_run fuel bh s) as (p & Hw & Hb);
    [lia | apply (ready_buf L); [done | done | in_list] | apply (ready_buf L); [done | done | in_list]
    | by apply (rd_lock _ _ Hr) | lia | apply (rd_wake _ _ Hr) |].
  destruct (wake_up_again _ _ _ Hw) as [Hw2 Hum].
  set (s1 := upd bh b_count (cell s bh b_count - 1) s) in *.
  assert (Ho : forall q g, q <> bh \/ g <> b_count -> cell (set_fps p s1) q g = cell s q g).
  { intros q g Hne. rewrite cell_set_fps. apply cell_upd_ne. naive_solver. }
  assert (Hhas : forall q g, has s q g -> has (set_fps p s1) q g).
  { intros q g Hqg. rewrite has_set_fps. by apply has_upd. }
  exists (set_fps p s1). split; [done |]. split; [| split; [| split; [| split; [done | split; [done | split; [done | unfold beside; cbn [set_fps fps last_allocated_inode]; by rewrite Hum]]]]]].
  - destruct Hr. destruct rd_cache0 as (L0 & C & HL & Hok). constructor.
    + exists L0, C. split; [done |]. apply (cache_ok_frame L0 C s); try done.
      intros q g _ Hg. apply Ho. right. intros ->. revert Hg. not_in_list.
    + intros q Hq. rewrite Ho by (by right). auto.
    + intros i Hi. destruct (rd_array0 i Hi) as [H1 H2]. split; [auto | by rewrite Ho by (by right)].
    + intros q Hq. rewrite !Ho by (by right). auto.
    + done.
    + done.
    + intros q Hq. rewrite Ho by (by right). auto.
    + intros q q' Hq Hq' Hne. rewrite !Ho by (by right). auto.
    + exact (wake_up_all _ _ _ rd_wake0 Hw).
  - apply (holds_frame L c s); [done .. |]. intros q g _ Hg. apply Ho. right. intros ->. revert Hg. not_in_list.
  - rewrite cell_set_fps. unfold s1. rewrite cell_upd_eq. apply u8_small. lia.
Qed.

(** ** Reading and letting go *)

(** What reading blocks leaves alone. *)
Record undisturbed (L : list Z) (s s' : fstate) : Prop := {
  ud_rest q g : (g ∉ buf_fields) -> cell s' q g = cell s q g;
  ud_has q g : has s q g -> has s' q g;
  ud_beside : beside s' = beside s;
  ud_count q : q ∈ L -> cell s' q b_count = cell s q b_count;
  ud_data q : q ∈ L -> cell s' q b_data = cell s q b_data
}.

Lemma ud_umem L s s' : undisturbed L s s' -> umem (fps s') = umem (fps s).
Proof. intros H. apply beside_umem, (ud_beside _ _ _ H). Qed.

Lemma undisturbed_refl L s : undisturbed L s s.
Proof. by constructor. Qed.
Lemma undisturbed_trans L s1 s2 s3 : undisturbed L s1 s2 -> undisturbed L s2 s3 -> undisturbed L s1 s3.
Proof.
  intros [] []. constructor; try congruence; [| by auto | |].
  - intros q g H. by rewrite ud_rest1, ud_rest0.
  - intros q H. by rewrite ud_count1, ud_count0.
  - intros q H. by rewrite ud_data1, ud_data0.
Qed.

Lemma spare_counts L s s' :
  (forall q, q ∈ L -> cell s' q b_count = cell s q b_count) -> spare L s -> spare L s'.
Proof.
  intros H [H1 (p & Hp & Hc)]. split; [| exists p; by rewrite H].
  intros q Hq. rewrite H by done. by apply H1.
Qed.

(** The cache is ready for the next user, and stands for [c]. *)
Definition serves (L : list Z) (c : Z -> Z -> Z -> Z) (s : fstate) : Prop :=
  ready L s /\ spare L s /\ holds L c s.

Lemma serves_same_cache L c s s' :
  same_cache s s' -> kmem s' = kmem s -> serves L c s -> serves L c s'.
Proof.
  intros Hsc Hm (Hr & Hsp & Hh). split; [by apply (same_cache_ready _ _ _ Hsc) |].
  split; [| by apply (same_cache_holds _ _ _ _ Hsc)].
  apply (spare_counts L s); [| done]. intros q _. apply (sc_cell _ _ Hsc). in_list.
Qed.

Lemma bread_then_brelse L c s fuel dev block :
  serves L c s -> 0 < dev < 65536 -> 0 <= block < 65536 -> (0 < fuel)%nat ->
  exists bh s1 s2, bread fuel dev block s = Done bh s1 /\ bh <> 0 /\ ready L s1 /\ holds L c s1 /\
    has_block L c dev block bh s s1 /\ brelse fuel bh s1 = Done tt s2 /\
    serves L c s2 /\ undisturbed L s s2.
Proof.
  intros (Hr & Hsp & Hh) Hd Hb Hfuel.
  destruct (bread_run L c s fuel dev block Hr Hsp Hh Hd Hb Hfuel) as (bh & s1 & Hrun & Hr1 & Hh1 & Hhb).
  pose proof (hb_in _ _ _ _ _ _ _ Hhb) as Hin. pose proof (proj1 Hsp bh Hin) as Hc.
  pose proof (hb_count _ _ _ _ _ _ _ Hhb) as Hcnt.
  destruct (brelse_ready L c s1 fuel bh Hr1 Hh1 Hin ltac:(lia))
    as (s2 & Hrel & Hr2 & Hh2 & Hc2 & Hm2 & Ho2 & Hhas2 & Hum2).
  assert (Hud : undisturbed L s s2).
  { constructor.
    - intros q g Hg. rewrite Ho2 by (right; intros ->; apply Hg; in_list). by apply (hb_rest _ _ _ _ _ _ _ Hhb).
    - intros q g Hqg. by apply Hhas2, (hb_has _ _ _ _ _ _ _ Hhb).
    - by rewrite Hum2, (hb_beside _ _ _ _ _ _ _ Hhb).
    - intros q Hq. destruct (decide (q = bh)) as [-> |]; [lia |].
      rewrite Ho2 by (by left). by apply (hb_counts _ _ _ _ _ _ _ Hhb).
    - intros q Hq. rewrite Ho2 by (by right). by apply (hb_data _ _ _ _ _ _ _ Hhb). }
  exists bh, s1, s2. split; [done |]. split; [pose proof (ready_addr L s1 bh Hr1 Hin); lia |].
  split; [done |]. split; [done |]. split; [done |]. split; [done |]. split; [| done].
  split; [done |]. split; [| done]. by apply (spare_counts L s), Hsp; apply Hud.
Qed.

Lemma same_cache_upd p f v s : (f ∉ buf_fields) -> same_cache s (upd p f v s).
Proof.
  intros Hf. constructor; try done.
  - intros q g H. by apply has_upd.
  - intros q g Hg. apply cell_upd_fld. congruence.
Qed.

(** Letting go of a block after some work that leaves the cache alone. *)
Lemma brelse_after L c dev block bh s s1 s2 fuel :
  spare L s -> has_block L c dev block bh s s1 -> ready L s1 -> holds L c s1 ->
  same_cache s1 s2 -> kmem s2 = kmem s1 ->
  exists s3, brelse fuel bh s2 = Done tt s3 /\ serves L c s3 /\
    (forall q g, (g ∉ buf_fields) -> cell s3 q g = cell s2 q g) /\
    (forall q g, has s2 q g -> has s3 q g) /\ beside s3 = beside s2 /\
    (forall q, q ∈ L -> cell s3 q b_count = cell s q b_count) /\
    (forall q, q ∈ L -> cell s3 q b_data = cell s q b_data).
Proof.
  intros Hsp Hhb Hr1 Hh1 Hsc Hm.
  pose proof (hb_in _ _ _ _ _ _ _ Hhb) as Hin. pose proof (proj1 Hsp bh Hin) as Hc.
  pose proof (hb_count _ _ _ _ _ _ _ Hhb) as Hcnt.
  assert (Hc2 : forall q g, g ∈ buf_fields -> cell s2 q g = cell s1 q g) by apply (sc_cell _ _ Hsc).
  destruct (brelse_ready L c s2 fuel bh (same_cache_ready _ _ _ Hsc Hr1) (same_cache_holds _ _ _ _ Hsc Hm Hh1) Hin)
    as (s3 & Hrel & Hr3 & Hh3 & Hc3 & _ & Ho3 & Hhas3 & Hum3); [rewrite Hc2 by in_list; lia |].
  assert (Hcounts : forall q, q ∈ L -> cell s3 q b_count = cell s q b_count).
  { intros q Hq. destruct (decide (q = bh)) as [-> |]; [rewrite Hc3, Hc2 by in_list; lia |].
    rewrite Ho3, Hc2 by (in_list || by left). by apply (hb_counts _ _ _ _ _ _ _ Hhb). }
  exists s3. split; [done |]. split; [split; [done | split; [| done]]; by apply (spare_counts L s) |].
  split; [intros q g Hg; apply Ho3; right; intros ->; apply Hg; in_list |].
  split; [done |]. split; [done |]. split; [done |].
  intros q Hq. rewrite Ho3, Hc2 by (in_list || by right). by apply (hb_data _ _ _ _ _ _ _ Hhb).
Qed.

(** C5: [bread], over a device without errors, comes back with a buffer that
    is valid and has the bytes of the block asked for — those last written to
    it, whether they are in a buffer, in a buffer still to be written, or on
    the device only — and nothing the cache stands for changes, even when a
    block has to be written out to make room. The buffer has one user more,
    the others keep theirs, and no buffer's block of memory moves. *)
Theorem bread_correct L c s fuel dev block :
  ready L s -> spare L s -> holds L c s -> 0 < dev < 65536 -> 0 <= block < 65536 -> (0 < fuel)%nat ->
  exists bh s', bread fuel dev block s = Done bh s' /\ ready L s' /\ holds L c s' /\
    has_block L c dev block bh s s'.
Proof. apply bread_run. Qed.
End contents.
