(* ===== verification/CacheWrite.v ===== *)
(** * CacheWrite: writing to a block through the cache

    Code that changes a block stores into its buffer and sets [b_dirt], in
    either order. Afterwards the cache stands for the changed blocks, whether
    or not the buffer has reached the device. *)

From S2P Require Import Prelude Mem Proc Sched FsState Buffer BufferInv Getblk Contents.

(** Blocks with the same bytes. *)
Definition same_blocks : relation (Z -> Z -> Z -> Z) := fun c c' => forall d b x, c d b x = c' d b x.

#[export] Instance same_blocks_equiv : Equivalence same_blocks.
Proof.
  split; [by intros c d b x | by intros c c' H d b x |].
  intros c1 c2 c3 H1 H2 d b x. by rewrite H1.
Qed.

#[export] Instance holds_proper {FW : FsWorld} L : Proper (same_blocks ==> eq ==> iff) (holds L).
Proof.
  assert (H : forall c c' s, same_blocks c c' -> holds L c s -> holds L c' s).
  { intros c c' s Hc []. constructor; intros; rewrite <- ?Hc; auto. }
  intros c c' Hc s s' <-. split; apply H; [done | by symmetry].
Qed.

#[export] Instance serves_proper {FW : FsWorld} L : Proper (same_blocks ==> eq ==> iff) (serves L).
Proof. intros c c' Hc s s' <-. unfold serves. by rewrite Hc. Qed.

(** The blocks [c], but for [n] bytes from [off] on in one block, which [g] gives. *)
Definition write_at (c : Z -> Z -> Z -> Z) (dev b off n : Z) (g : Z -> Z) : Z -> Z -> Z -> Z :=
  fun d b' x => if decide (d = dev /\ b' = b /\ off <= x < off + n) then g (x - off) else c d b' x.

Lemma write_at_in c dev b off n g x : off <= x < off + n -> write_at c dev b off n g dev b x = g (x - off).
Proof. intros H. unfold write_at. by rewrite decide_True. Qed.
Lemma write_at_out c dev b off n g d b' x :
  ~ (d = dev /\ b' = b /\ off <= x < off + n) -> write_at c dev b off n g d b' x = c d b' x.
Proof. intros H. unfold write_at. by rewrite decide_False. Qed.

Section cache_write.
Context {FW : FsWorld} {GD : GoodDisk}.

(** What the writer did to the buffer [bh]. *)
Record stored (bh off n : Z) (g : Z -> Z) (s s' : fstate) : Prop := {
  st_hash : hash_table s' = hash_table s;
  st_free : free_list s' = free_list s;
  st_num : nr_buffers s' = nr_buffers s;
  st_disk : fdisk s' = fdisk s;
  st_has q f : has s q f -> has s' q f;
  st_wake : all_wakeable s -> all_wakeable s';
  st_cell q f : f ∈ buf_fields -> (q, f) <> (bh, b_dirt) -> cell s' q f = cell s q f;
  st_dirt : cell s' bh b_dirt <> 0;
  st_bytes x : 0 <= x < n -> load8 (kmem s') (cell s bh b_data + off + x) = g x;
  st_mem : only_changed (kmem s) (kmem s') (cell s bh b_data + off) n
}.

(** Marked and stored into, whatever came first. *)
Lemma stored_intro bh off n g s s' :
  same_cache (upd bh b_dirt 1 s) s' ->
  (forall x, 0 <= x < n -> load8 (kmem s') (cell s bh b_data + off + x) = g x) ->
  only_changed (kmem s) (kmem s') (cell s bh b_data + off) n ->
  stored bh off n g s s'.
Proof.
  intros [] Hb Hm. constructor; try done.
  - intros q f H. by apply sc_has, has_upd.
  - intros q f Hf Hne. rewrite sc_cell by done. by apply cell_upd_ne.
  - rewrite sc_cell, cell_upd_eq by in_list. done.
Qed.

Lemma stored_ready L bh off n g s s' :
  stored bh off n g s s' -> cell s bh b_dev <> 0 -> ready L s -> ready L s'.
Proof.
  intros [] Hdev [].
  assert (Hc : forall q f, f ∈ buf_fields -> f <> b_dirt -> cell s' q f = cell s q f).
  { intros q f Hf Hne. apply st_cell0; [done | congruence]. }
  destruct rd_cache as (L0 & C & HL & Hok). constructor.
  - exists L0, C. split; [done |]. apply (cache_ok_frame L0 C s); try done.
    intros q f _ Hf. apply Hc; [| intros ->; revert Hf; not_in_list].
    revert Hf. unfold link_fields, buf_fields. set_solver.
  - intros p Hp. rewrite Hc by (done || in_list). auto.
  - intros i Hi. rewrite st_num0 in Hi. destruct (rd_array i Hi) as [H1 H2].
    split; [auto | by rewrite Hc by (done || in_list)].
  - intros p Hp Hd. rewrite Hc by (done || in_list).
    destruct (decide (p = bh)) as [-> |]; [done |].
    rewrite st_cell0 in Hd by (in_list || congruence). auto.
  - done.
  - intros p. rewrite st_num0. apply rd_whole.
  - intros p Hp. rewrite Hc by (done || in_list). auto.
  - intros p q. rewrite !Hc by (done || in_list). auto.
  - auto.
Qed.

(** The cache stands for the changed block. *)
Lemma stored_holds L c dev block bh off n g s s' :
  ready L s -> holds L c s -> bh ∈ L -> cached dev block s bh -> dev <> 0 -> cell s bh b_uptodate <> 0 ->
  stored bh off n g s s' -> 0 <= off -> off + n <= 1024 ->
  holds L (write_at c dev block off n g) s'.
Proof.
  intros Hr Hh Hin [K1 K2] Hdev Hv [] Hoff Hn.
  destruct (rd_cache _ _ Hr) as (L0 & C & HL & Hok).
  assert (Hc : forall q f, f ∈ buf_fields -> f <> b_dirt -> cell s' q f = cell s q f).
  { intros q f Hf Hne. apply st_cell0; [done | congruence]. }
  assert (Huniq : forall p, p ∈ L -> cell s p b_dev = dev -> cell s p b_blocknr = block -> p = bh).
  { intros p Hp E1 E2. apply (ck_unique _ _ _ Hok); [by rewrite HL | by rewrite HL | congruence ..]. }
  assert (Hother : forall p x, p ∈ L -> p <> bh -> 0 <= x < 1024 ->
    load8 (kmem s') (cell s p b_data + x) = load8 (kmem s) (cell s p b_data + x)).
  { intros p x Hp Hne Hx. pose proof (rd_apart _ _ Hr p bh Hp Hin Hne) as Hdis. unfold disjoint in Hdis.
    apply st_mem0; [unfold in_u32 |]; lia. }
  pose proof (rd_range _ _ Hr bh Hin) as Hbr.
  assert (Hdb : forall d b x, disk_byte s' d b x = disk_byte s d b x) by (intros; unfold disk_byte; by rewrite st_disk0).
  constructor.
  - intros p x Hp Hx. rewrite !Hc by (done || in_list). intros H1 H2.
    destruct (decide (p = bh)) as [-> | Hne].
    + rewrite K1, K2. unfold write_at. case_decide as D.
      * replace (cell s bh b_data + x) with (cell s bh b_data + off + (x - off)) by lia. apply st_bytes0. lia.
      * rewrite st_mem0 by (unfold in_u32; lia). rewrite <- K1, <- K2. by apply (ho_mem _ _ _ Hh).
    + rewrite Hother, write_at_out by (done || naive_solver). by apply (ho_mem _ _ _ Hh).
  - intros p Hp. rewrite (Hc p b_dev), (Hc p b_uptodate) by (done || in_list). intros H1 H2.
    destruct (decide (p = bh)) as [-> | Hne]; [done |].
    rewrite st_cell0 in H2 by (in_list || congruence). by apply (ho_dirty _ _ _ Hh).
  - intros p x Hp Hx. rewrite Hdb, (Hc p b_dev), (Hc p b_blocknr) by (done || in_list). intros H1 H2.
    destruct (decide (p = bh)) as [-> | Hne]; [done |].
    rewrite st_cell0 in H2 by (in_list || congruence).
    rewrite write_at_out by naive_solver. by apply (ho_clean _ _ _ Hh).
  - intros d b x H0 Hx Hno. rewrite Hdb.
    assert (Hno' : forall p, p ∈ L -> ~ cached d b s p).
    { intros p Hp [E1 E2]. apply (Hno p Hp). split; rewrite Hc; (done || in_list). }
    rewrite write_at_out; [by apply (ho_disk _ _ _ Hh) |].
    intros (-> & -> & _). by apply (Hno' bh Hin).
Qed.

(** Letting go of a block that has been written to. *)
Lemma brelse_stored L c dev block bh off n g s s1 s2 fuel :
  spare L s -> has_block L c dev block bh s s1 -> ready L s1 -> holds L c s1 -> dev <> 0 ->
  stored bh off n g s1 s2 -> 0 <= off -> off + n <= 1024 ->
  exists s3, brelse fuel bh s2 = Done tt s3 /\ serves L (write_at c dev block off n g) s3 /\
    (forall q f, (f ∉ buf_fields) -> cell s3 q f = cell s2 q f) /\
    (forall q f, has s2 q f -> has s3 q f) /\ beside s3 = beside s2.
Proof.
  intros Hsp Hhb Hr1 Hh1 Hdev Hst Hoff Hn.
  pose proof (hb_in _ _ _ _ _ _ _ Hhb) as Hin. pose proof (proj1 Hsp bh Hin) as Hc.
  pose proof (hb_count _ _ _ _ _ _ _ Hhb) as Hcnt. pose proof (hb_key _ _ _ _ _ _ _ Hhb) as Hk.
  assert (Hc2 : forall q, cell s2 q b_count = cell s1 q b_count).
  { intros q. apply (st_cell _ _ _ _ _ _ Hst); [in_list | congruence]. }
  destruct (brelse_ready L (write_at c dev block off n g) s2 fuel bh)
    as (s3 & Hrel & Hr3 & Hh3 & Hc3 & _ & Ho3 & Hhas3 & Hum3).
  - apply (stored_ready _ _ _ _ _ _ _ Hst); [| done]. by rewrite (proj1 Hk).
  - apply (stored_holds L c dev block bh off n g s1 s2); [done .. | apply Hhb | done | done | done].
  - done.
  - rewrite Hc2. lia.
  - exists s3. split; [done |]. split; [split; [done | split; [| done]] |].
    + apply (spare_counts L s); [| done]. intros q Hq. destruct (decide (q = bh)) as [-> |]; [rewrite Hc3, Hc2; lia |].
      rewrite Ho3, Hc2 by (by left). by apply (hb_counts _ _ _ _ _ _ _ Hhb).
    + split; [| done]. intros q f Hf. apply Ho3. right. intros ->. apply Hf. in_list.
Qed.
End cache_write.
