(* ===== verification/Bitmap.v ===== *)
(** * Bitmap: src/linux-0.01/fs/bitmap.c

    The inode and block bitmaps: one buffer of 8192 bits per slot of the super
    block. The bit instructions of the i386 act on kernel memory. [new_inode],
    which needs the inode table, is in [Inode]. *)

From S2P Require Import Prelude Mem Libc Proc Sched FsState Buffer BufferInv Getblk.

(** [clear_block]: 256 zero words. *)
Definition clear_block (addr : Z) : M fstate unit :=
  modify (fun s => set_kmem (bzero (kmem s) addr BLOCK_SIZE) s).

(** [btsl] and [btrl] with a memory operand: the word of bit [nr]. *)
Definition bit_word (nr addr : Z) : Z := addr + 4 * Z.shiftr nr 5.

(** [set_bit]: the bit before. *)
Definition set_bit (nr addr : Z) : M fstate Z :=
  w ← kload32 (bit_word nr addr);
  _ ← kstore32 (bit_word nr addr) (Z.lor w (Z.shiftl 1 (Z.land nr 31)));
  mret (b2z (Z.testbit w (Z.land nr 31))).

(** [clear_bit]: 1 if the bit was clear before. *)
Definition clear_bit (nr addr : Z) : M fstate Z :=
  w ← kload32 (bit_word nr addr);
  _ ← kstore32 (bit_word nr addr) (Z.land w (Z.lnot (Z.shiftl 1 (Z.land nr 31))));
  mret (b2z (negb (Z.testbit w (Z.land nr 31)))).

(** [bsfl] of a non-zero word: its lowest set bit. *)
Fixpoint bsf_from (n : nat) (i w : Z) : Z :=
  match n with
  | O => i
  | S n' => if Z.testbit w i then i else bsf_from n' (i + 1) w
  end.
Definition bsf (w : Z) : Z := bsf_from 31 0 w.

(** The loop of [find_first_zero], [n] words to go. *)
Fixpoint ffz_loop (n : nat) (m : memory) (addr ecx : Z) : Z :=
  match n with
  | O => ecx
  | S n' =>
      let w := u32 (Z.lnot (load32 m addr)) in
      if w =? 0 then
        if ecx + 32 <? 8192 then ffz_loop n' m (addr + 4) (ecx + 32) else ecx + 32
      else ecx + bsf w
  end.
Definition find_first_zero (m : memory) (addr : Z) : Z := ffz_loop 256 m addr 0.

(** [for (i ... 8) if (bh = map[i]) if ((j = find_first_zero(...)) < 8192) break]:
    [i], [bh] and [j] afterwards. *)
Fixpoint scan_maps (n : nat) (map : Z -> fld) (sb i bh j : Z) : M fstate (Z * Z * Z) :=
  match n with
  | O => mret (i, bh, j)
  | S n' =>
      bh ← fget sb (map i);
      if bh =? 0 then scan_maps n' map sb (i + 1) bh j
      else
        d ← fget bh b_data;
        j ← gets (fun s => find_first_zero (kmem s) d);
        if j <? 8192 then mret (i, bh, j) else scan_maps n' map sb (i + 1) bh j
  end.

(** The fields [memset(inode,0,sizeof( *inode))] clears; the queue is one of them. *)
Definition inode_fields : list fld :=
  [i_mode; i_uid; i_size; i_mtime; i_gid; i_nlinks; i_zone 0; i_zone 1; i_zone 2;
   i_zone 3; i_zone 4; i_zone 5; i_zone 6; i_zone 7; i_zone 8; i_atime; i_ctime; i_dev;
   i_num; i_count; i_lock; i_dirt; i_pipe; i_mount; i_seek; i_update].

Fixpoint put_all (p : Z) (l : list fld) : M fstate unit :=
  match l with
  | [] => mret tt
  | f :: l' => _ ← fput p f 0; put_all p l'
  end.

Definition clear_inode (inode : Z) : M fstate unit :=
  _ ← put_all inode inode_fields;
  on_ps (wq_put (i_wait inode) 0).

Section bitmap.
Context {FW : FsWorld}.

Definition free_block (fuel : nat) (dev block : Z) : M fstate unit :=
  sb ← get_super dev;
  _ ← when (sb =? 0) (panic "trying to free block on nonexistent device");
  first ← fget sb s_firstdatazone;
  nz ← fget sb s_nzones;
  _ ← when ((block <? first) || (nz <=? block)) (panic "trying to free block not in datazone");
  bh ← get_hash_table fuel dev block;
  busy ← (if bh =? 0 then mret false
          else
            c ← fget bh b_count;
            if negb (c =? 1) then
              _ ← fs_printk "trying to free block (%04x:%d), count=%d" [dev; block; c];
              mret true
            else
              _ ← fput bh b_dirt 0;
              _ ← fput bh b_uptodate 0;
              _ ← brelse fuel bh;
              mret false);
  if busy : bool then mret tt
  else
    let block := block - (first - 1) in
    zb ← fget sb (s_zmap (Z.quot block 8192));
    d ← fget zb b_data;
    r ← clear_bit (Z.land block 8191) d;
    _ ← when (negb (r =? 0))
          (_ ← fs_printk "block (%04x:%d) " [dev; block + first - 1];
           panic "free_block: bit already cleared");
    zb ← fget sb (s_zmap (Z.quot block 8192));
    fput zb b_dirt 1.

Definition new_block (fuel : nat) (dev : Z) : M fstate Z :=
  sb ← get_super dev;
  _ ← when (sb =? 0) (panic "trying to get new block from nonexistant device");
  r ← scan_maps 8 s_zmap sb 0 0 8192;
  let '(i, bh, j) := r in
  if (8 <=? i) || (bh =? 0) || (8192 <=? j) then mret 0
  else
    d ← fget bh b_data;
    b ← set_bit j d;
    _ ← when (negb (b =? 0)) (panic "new_block: bit already set");
    _ ← fput bh b_dirt 1;
    first ← fget sb s_firstdatazone;
    let j := j + (i * 8192 + first - 1) in
    nz ← fget sb s_nzones;
    if nz <=? j then mret 0
    else
      bh ← getblk fuel dev j;
      _ ← when (bh =? 0) (panic "new_block: cannot get block");
      c ← fget bh b_count;
      _ ← when (negb (c =? 1)) (panic "new block: count is != 1");
      d ← fget bh b_data;
      _ ← clear_block d;
      _ ← fput bh b_uptodate 1;
      _ ← fput bh b_dirt 1;
      _ ← brelse fuel bh;
      mret j.

Definition free_inode (inode : Z) : M fstate unit :=
  if inode =? 0 then mret tt
  else
    dev ← fget inode i_dev;
    if dev =? 0 then clear_inode inode
    else
      c ← fget inode i_count;
      _ ← when (1 <? c)
            (_ ← fs_printk "trying to free inode with count=%d" [c]; panic "free_inode");
      l ← fget inode i_nlinks;
      _ ← when (negb (l =? 0)) (panic "trying to free inode with links");
      sb ← get_super dev;
      _ ← when (sb =? 0) (panic "trying to free inode on nonexistent device");
      num ← fget inode i_num;
      ni ← fget sb s_ninodes;
      _ ← when ((num <? 1) || (ni <? num)) (panic "trying to free inode 0 or nonexistant inode");
      bh ← fget sb (s_imap (Z.shiftr num 13));
      _ ← when (bh =? 0) (panic "nonexistent imap in superblock");
      d ← fget bh b_data;
      r ← clear_bit (Z.land num 8191) d;
      _ ← when (negb (r =? 0)) (panic "free_inode: bit already cleared");
      _ ← fput bh b_dirt 1;
      clear_inode inode.
End bitmap.

(** ** Bits *)

(** Bit [k] of the map at [a]. *)
Definition mbit (m : memory) (a k : Z) : bool :=
  Z.testbit (load32 m (bit_word k a)) (Z.land k 31).

Lemma land_31 k : Z.land k 31 = k mod 32.
Proof. change 31 with (Z.ones 5). by rewrite Z.land_ones. Qed.
Lemma bit_word_div k a : bit_word k a = a + 4 * (k / 32).
Proof. unfold bit_word. by rewrite Z.shiftr_div_pow2. Qed.

Lemma mbit_word m a i j :
  0 <= j < 32 -> mbit m a (32 * i + j) = Z.testbit (load32 m (a + 4 * i)) j.
Proof.
  intros Hj. unfold mbit. rewrite land_31, bit_word_div.
  replace ((32 * i + j) / 32) with i by wrap_lia. by replace ((32 * i + j) mod 32) with j by wrap_lia.
Qed.

Lemma bsf_from_spec n i w :
  (exists k, i <= k <= i + Z.of_nat n /\ Z.testbit w k = true) ->
  i <= bsf_from n i w <= i + Z.of_nat n /\ Z.testbit w (bsf_from n i w) = true /\
  forall k, i <= k < bsf_from n i w -> Z.testbit w k = false.
Proof.
  revert i; induction n as [| n IH]; intros i (k & Hk & Hb); cbn [bsf_from].
  { replace i with k by lia. split; [lia |]. split; [done |]. lia. }
  destruct (Z.testbit w i) eqn:E; [split; [lia |]; split; [done | lia] |].
  destruct (IH (i + 1)) as (H1 & H2 & H3).
  { exists k. split; [| done]. destruct (decide (k = i)) as [-> |]; [congruence | lia]. }
  split; [lia |]. split; [done |]. intros k' Hk'.
  destruct (decide (k' = i)) as [-> |]; [done | apply H3; lia].
Qed.

Lemma testbit_high w k : in_u32 w -> 32 <= k -> Z.testbit w k = false.
Proof.
  intros Hw Hk. rewrite <- (Z.mod_small w (2 ^ 32)) by exact Hw. by apply Z.mod_pow2_bits_high.
Qed.

Lemma testbit_not_word w k :
  in_u32 w -> 0 <= k < 32 -> Z.testbit (u32 (Z.lnot w)) k = negb (Z.testbit w k).
Proof.
  intros Hw Hk. change (u32 (Z.lnot w)) with (Z.lnot w mod 2 ^ 32).
  rewrite Z.mod_pow2_bits_low by lia. apply Z.lnot_spec. lia.
Qed.

(** The word's first clear bit. *)
Lemma bsf_not w :
  in_u32 w ->
  if u32 (Z.lnot w) =? 0 then forall k, 0 <= k < 32 -> Z.testbit w k = true
  else 0 <= bsf (u32 (Z.lnot w)) < 32 /\ Z.testbit w (bsf (u32 (Z.lnot w))) = false /\
       forall k, 0 <= k < bsf (u32 (Z.lnot w)) -> Z.testbit w k = true.
Proof.
  intros Hw. destruct (Z.eqb_spec (u32 (Z.lnot w)) 0) as [E | E].
  - intros k Hk. pose proof (testbit_not_word w k Hw Hk) as Hb. rewrite E, Z.bits_0 in Hb.
    by destruct (Z.testbit w k).
  - pose proof (u32_range (Z.lnot w)) as Hr. set (v := u32 (Z.lnot w)) in *.
    assert (Hex : exists k, 0 <= k <= 0 + Z.of_nat 31 /\ Z.testbit v k = true).
    { exists (Z.log2 v). unfold in_u32 in Hr.
      assert (Z.log2 v < 32) by (apply Z.log2_lt_pow2; lia). pose proof (Z.log2_nonneg v).
      split; [lia |]. apply Z.bit_log2. lia. }
    destruct (bsf_from_spec 31 0 v Hex) as (H1 & H2 & H3). fold (bsf v) in H1, H2, H3.
    assert (Hn : forall k, 0 <= k < 32 -> Z.testbit w k = negb (Z.testbit v k)).
    { intros k Hk. unfold v. rewrite testbit_not_word by done. by rewrite negb_involutive. }
    split; [lia |]. split; [rewrite Hn by lia; by rewrite H2 |].
    intros k Hk. rewrite Hn by lia. by rewrite H3.
Qed.

Lemma ffz_loop_spec n m a i :
  0 <= i -> i + Z.of_nat n = 256 -> (0 < n)%nat ->
  (forall k, 0 <= k < 32 * i -> mbit m a k = true) ->
  let r := ffz_loop n m (a + 4 * i) (32 * i) in
  (0 <= r < 8192 /\ mbit m a r = false /\ forall k, 0 <= k < r -> mbit m a k = true) \/
  (r = 8192 /\ forall k, 0 <= k < 8192 -> mbit m a k = true).
Proof.
  revert i; induction n as [| n IH]; intros i Hi Hn Hn0 Hlow; [lia |]. cbv zeta. cbn [ffz_loop].
  pose proof (bsf_not (load32 m (a + 4 * i)) (load32_range _ _)) as Hb.
  assert (Hsplit : forall k, 0 <= k < 32 * (i + 1) -> 0 <= k < 32 * i \/
    0 <= k - 32 * i < 32 /\ mbit m a k = Z.testbit (load32 m (a + 4 * i)) (k - 32 * i)).
  { intros k Hk. destruct (Z.lt_ge_cases k (32 * i)); [left; lia | right]. split; [lia |].
    replace k with (32 * i + (k - 32 * i)) at 1 by lia. apply mbit_word. lia. }
  destruct (u32 (Z.lnot (load32 m (a + 4 * i))) =? 0).
  - assert (Hlow' : forall k, 0 <= k < 32 * (i + 1) -> mbit m a k = true).
    { intros k Hk. destruct (Hsplit k Hk) as [? | [Hk' ->]]; [by apply Hlow | by apply Hb]. }
    destruct (Z.ltb_spec (32 * i + 32) 8192).
    + replace (a + 4 * i + 4) with (a + 4 * (i + 1)) by lia.
      replace (32 * i + 32) with (32 * (i + 1)) by lia. apply (IH (i + 1)); [lia .. | done].
    + right. split; [lia |]. intros k Hk. apply Hlow'. lia.
  - destruct Hb as (H1 & H2 & H3). left. set (b := bsf _) in *. split; [lia |].
    split; [by rewrite mbit_word |]. intros k Hk.
    destruct (Hsplit k ltac:(lia)) as [? | [Hk' ->]]; [by apply Hlow | apply H3; lia].
Qed.

(** [find_first_zero]: the lowest clear bit, or 8192. *)
Lemma find_first_zero_spec m a :
  (0 <= find_first_zero m a < 8192 /\ mbit m a (find_first_zero m a) = false /\
     forall k, 0 <= k < find_first_zero m a -> mbit m a k = true) \/
  (find_first_zero m a = 8192 /\ forall k, 0 <= k < 8192 -> mbit m a k = true).
Proof.
  unfold find_first_zero. pose proof (ffz_loop_spec 256 m a 0 ltac:(lia) ltac:(lia) ltac:(lia) ltac:(lia)) as H.
  cbv zeta in H. by rewrite Z.mul_0_r, Z.add_0_r in H.
Qed.

(** The other words of a map do not change with one of them. *)
Lemma mbit_store m a k v k' :
  0 <= a -> a + 1024 <= 2 ^ 32 -> 0 <= k < 8192 -> 0 <= k' < 8192 ->
  mbit (store32 m (bit_word k a) v) a k' =
    if decide (k / 32 = k' / 32) then Z.testbit (u32 v) (k' mod 32) else mbit m a k'.
Proof.
  intros Ha Ha' Hk Hk'. unfold mbit. rewrite land_31, !bit_word_div.
  case_decide as E.
  - by rewrite <- E, load32_store32_eq.
  - rewrite load32_store32_ne; [done |]. unfold disjoint. wrap_lia.
Qed.

Lemma mbit_set m a k k' :
  0 <= a -> a + 1024 <= 2 ^ 32 -> 0 <= k < 8192 -> 0 <= k' < 8192 ->
  mbit (store32 m (bit_word k a) (Z.lor (load32 m (bit_word k a)) (Z.shiftl 1 (Z.land k 31)))) a k' =
    if decide (k = k') then true else mbit m a k'.
Proof.
  intros Ha Ha' Hk Hk'. rewrite mbit_store by done. rewrite land_31, shiftl_1_pow2 by wrap_lia.
  rewrite u32_small by (apply lor_pow2_range; [apply load32_range | wrap_lia]).
  case_decide as E.
  - rewrite Z.lor_spec, Z.pow2_bits_eqb by wrap_lia. unfold mbit. rewrite land_31, !bit_word_div, E.
    destruct (decide (k = k')) as [<- |]; [by rewrite Z.eqb_refl, orb_true_r |].
    rewrite (proj2 (Z.eqb_neq (k mod 32) (k' mod 32))) by wrap_lia. by rewrite orb_false_r.
  - rewrite decide_False; [done |]. intros ->. done.
Qed.

Lemma mbit_clear m a k k' :
  0 <= a -> a + 1024 <= 2 ^ 32 -> 0 <= k < 8192 -> 0 <= k' < 8192 ->
  mbit (store32 m (bit_word k a) (Z.land (load32 m (bit_word k a)) (Z.lnot (Z.shiftl 1 (Z.land k 31))))) a k' =
    if decide (k = k') then false else mbit m a k'.
Proof.
  intros Ha Ha' Hk Hk'. rewrite mbit_store by done. rewrite land_31, shiftl_1_pow2 by wrap_lia.
  rewrite u32_small by (apply land_lnot_pow2_range; [apply load32_range | wrap_lia]).
  case_decide as E.
  - rewrite Z.land_spec, Z.lnot_spec, Z.pow2_bits_eqb by wrap_lia. unfold mbit. rewrite land_31, !bit_word_div, E.
    destruct (decide (k = k')) as [<- |]; [by rewrite Z.eqb_refl, andb_false_r |].
    rewrite (proj2 (Z.eqb_neq (k mod 32) (k' mod 32))) by wrap_lia. by rewrite andb_true_r.
  - rewrite decide_False; [done |]. intros ->. done.
Qed.

Lemma set_bit_run k a s :
  set_bit k a s = Done (b2z (mbit (kmem s) a k))
    (set_kmem (store32 (kmem s) (bit_word k a)
       (Z.lor (load32 (kmem s) (bit_word k a)) (Z.shiftl 1 (Z.land k 31)))) s).
Proof. done. Qed.
Lemma clear_bit_run k a s :
  clear_bit k a s = Done (b2z (negb (mbit (kmem s) a k)))
    (set_kmem (store32 (kmem s) (bit_word k a)
       (Z.land (load32 (kmem s) (bit_word k a)) (Z.lnot (Z.shiftl 1 (Z.land k 31))))) s).
Proof. done. Qed.

(** ** [new_block] *)

(** Zone [k] of the volume whose super block is [sb]: the map it is in, and
    whether it is free. *)
Definition zone_map (s : fstate) (sb k : Z) : Z := cell s sb (s_zmap (k / 8192)).
Definition zone_free (s : fstate) (sb k : Z) : bool :=
  negb (zone_map s sb k =? 0) &&
  negb (mbit (kmem s) (cell s (zone_map s sb k) b_data) (k mod 8192)).

(** The maps of [sb] are blocks of memory. *)
Definition maps_ok (s : fstate) (sb : Z) : Prop :=
  forall i, 0 <= i < 8 -> has s sb (s_zmap i) /\
    (cell s sb (s_zmap i) = 0 \/
     has s (cell s sb (s_zmap i)) b_data /\ has s (cell s sb (s_zmap i)) b_dirt /\
     0 <= cell s (cell s sb (s_zmap i)) b_data <= 2 ^ 32 - 1024).

Lemma zone_free_at s sb i b :
  0 <= b < 8192 ->
  zone_free s sb (8192 * i + b) =
    negb (cell s sb (s_zmap i) =? 0) && negb (mbit (kmem s) (cell s (cell s sb (s_zmap i)) b_data) b).
Proof.
  intros Hb. unfold zone_free, zone_map. replace ((8192 * i + b) / 8192) with i by wrap_lia.
  by replace ((8192 * i + b) mod 8192) with b by wrap_lia.
Qed.

(** The scan finds the lowest free zone from map [i] on. *)
Lemma scan_maps_run s sb n i bh j :
  maps_ok s sb -> 0 <= i -> i + Z.of_nat n = 8 ->
  (exists i' b bh', i <= i' < 8 /\ 0 <= b < 8192 /\ bh' = cell s sb (s_zmap i') /\ bh' <> 0 /\
     scan_maps n s_zmap sb i bh j s = Done (i', bh', b) s /\
     zone_free s sb (8192 * i' + b) = true /\
     forall k, 8192 * i <= k < 8192 * i' + b -> zone_free s sb k = false) \/
  ((exists bh' j', scan_maps n s_zmap sb i bh j s = Done (8, bh', j') s) /\
   forall k, 8192 * i <= k < 65536 -> zone_free s sb k = false).
Proof.
  intros Hmaps. revert i bh j; induction n as [| n IH]; intros i bh j Hi Hn.
  { right. replace i with 8 by lia. split; [by exists bh, j | lia]. }
  cbn [scan_maps]. destruct (Hmaps i ltac:(lia)) as [Hhas Hmap]. fstep.
  set (zb := cell s sb (s_zmap i)) in *.
  assert (Hlift : forall j', (forall b, 0 <= b < 8192 -> zone_free s sb (8192 * i + b) = false) ->
    (exists i' b bh', i <= i' < 8 /\ 0 <= b < 8192 /\ bh' = cell s sb (s_zmap i') /\ bh' <> 0 /\
       scan_maps n s_zmap sb (i + 1) zb j' s = Done (i', bh', b) s /\
       zone_free s sb (8192 * i' + b) = true /\
       forall k, 8192 * i <= k < 8192 * i' + b -> zone_free s sb k = false) \/
    ((exists bh' j'', scan_maps n s_zmap sb (i + 1) zb j' s = Done (8, bh', j'') s) /\
     forall k, 8192 * i <= k < 65536 -> zone_free s sb k = false)).
  { intros j' Hb.
    assert (Hk : forall k, 8192 * i <= k < 8192 * (i + 1) -> zone_free s sb k = false).
    { intros k Hk. replace k with (8192 * i + (k - 8192 * i)) by lia. apply Hb. lia. }
    destruct (IH (i + 1) zb j' ltac:(lia) ltac:(lia)) as [(i' & b & bh' & H1 & H2 & H3 & H4 & H5 & H6 & H7) | [H1 H2]].
    - left. exists i', b, bh'. split; [lia |]. split; [done |]. split; [done |]. split; [done |]. split; [done |].
      split; [done |]. intros k Hk'.
      destruct (Z.lt_ge_cases k (8192 * (i + 1))); [apply Hk | apply H7]; lia.
    - right. split; [done |]. intros k Hk'.
      destruct (Z.lt_ge_cases k (8192 * (i + 1))); [apply Hk | apply H2]; lia. }
  destruct (Z.eqb_spec zb 0) as [E | E].
  { apply Hlift. intros b Hb. rewrite zone_free_at by done. fold zb. by rewrite E. }
  destruct Hmap as [| (Hd & _)]; [done |]. do 2 fstep.
  destruct (find_first_zero_spec (kmem s) (cell s zb b_data)) as [(H1 & H2 & H3) | [H1 H2]].
  - rewrite (proj2 (Z.ltb_lt _ _)) by lia. left. eexists i, _, zb.
    split; [lia |]. split; [exact H1 |]. split; [done |]. split; [done |]. split; [done |].
    rewrite zone_free_at by done. fold zb. rewrite H2, (proj2 (Z.eqb_neq zb 0) E). split; [done |].
    intros k Hk. replace k with (8192 * i + (k - 8192 * i)) by lia. rewrite zone_free_at by lia.
    fold zb. rewrite H3 by lia. apply andb_false_r.
  - rewrite H1. cbn [Z.ltb Z.compare Pos.compare Pos.compare_cont]. apply Hlift.
    intros b Hb. rewrite zone_free_at by done. fold zb. rewrite H2 by done. apply andb_false_r.
Qed.

(** A mounted volume: a well-formed cache whose buffers have blocks of memory
    of their own, and a super block whose maps are buffers in use. *)
Record volume (L : list Z) (C : Z -> list Z) (dev sb : Z) (s : fstate) `{FW : FsWorld} : Prop := {
  vo_cache : cache_ok L C s;
  vo_lock : unlocked L s;
  vo_array : buffer_array s;
  vo_dirty : dirty_dev L s;
  vo_two : (2 <= length L)%nat;
  vo_data p : p ∈ L -> 20 <= cell s p b_data <= 2 ^ 32 - 1024;
  vo_apart p q : p ∈ L -> q ∈ L -> p <> q -> disjoint (cell s p b_data) 1024 (cell s q b_data) 1024;
  vo_wake : all_wakeable s;
  vo_dev : 0 < dev < 65536;
  vo_super : get_super dev s = Done sb s;
  vo_sb : sb <> 0;
  vo_fields : has s sb s_firstdatazone /\ has s sb s_nzones;
  vo_first : 1 <= cell s sb s_firstdatazone;
  vo_nzones : cell s sb s_nzones <= 65535;
  vo_maps i : 0 <= i < 8 -> has s sb (s_zmap i);
  vo_held i : 0 <= i < 8 -> cell s sb (s_zmap i) <> 0 ->
    cell s sb (s_zmap i) ∈ L /\ 0 < cell s (cell s sb (s_zmap i)) b_count /\
    cell s (cell s sb (s_zmap i)) b_dev <> 0;
  vo_distinct i j : 0 <= i < 8 -> 0 <= j < 8 -> cell s sb (s_zmap i) <> 0 ->
    cell s sb (s_zmap i) = cell s sb (s_zmap j) -> i = j
}.

Section new_block.
Context {FW : FsWorld} {DO : DiskOk}.

Lemma volume_maps L C dev sb s : volume L C dev sb s -> maps_ok s sb.
Proof.
  intros V i Hi. split; [by apply (vo_maps _ _ _ _ _ V) |].
  destruct (decide (cell s sb (s_zmap i) = 0)) as [| H0]; [by left | right].
  destruct (vo_held _ _ _ _ _ V i Hi H0) as [Hin _].
  split; [apply (ck_buf _ _ _ (vo_cache _ _ _ _ _ V)); [done | in_list] |].
  split; [apply (ck_buf _ _ _ (vo_cache _ _ _ _ _ V)); [done | in_list] |].
  pose proof (vo_data _ _ _ _ _ V _ Hin). lia.
Qed.

Lemma mbit_ext m m' a k :
  0 <= a <= 2 ^ 32 - 1024 -> 0 <= k < 8192 -> agree m m' a 1024 -> mbit m' a k = mbit m a k.
Proof.
  intros Ha Hk Hag. unfold mbit. rewrite bit_word_div.
  rewrite (load32_ext m m'); [done | wrap_lia | wrap_lia |]. intros x Hx. apply Hag. wrap_lia.
Qed.

Lemma zone_free_ext s s' sb k :
  0 <= k < 65536 -> zone_map s' sb k = zone_map s sb k ->
  (zone_map s sb k <> 0 ->
     0 <= cell s (zone_map s sb k) b_data <= 2 ^ 32 - 1024 /\
     cell s' (zone_map s sb k) b_data = cell s (zone_map s sb k) b_data /\
     agree (kmem s) (kmem s') (cell s (zone_map s sb k) b_data) 1024) ->
  zone_free s' sb k = zone_free s sb k.
Proof.
  intros Hk Hm H. unfold zone_free. rewrite Hm.
  destruct (Z.eqb_spec (zone_map s sb k) 0) as [| E]; [done |]. destruct (H E) as (Hr & Hd & Hag).
  rewrite Hd. f_equal. f_equal. apply mbit_ext; [done | wrap_lia | done].
Qed.

(** Marking zone [8192 * i + b]. *)
Definition marked (zb b : Z) (s : fstate) : fstate :=
  upd zb b_dirt 1 (set_kmem (store32 (kmem s) (bit_word b (cell s zb b_data))
    (Z.lor (load32 (kmem s) (bit_word b (cell s zb b_data))) (Z.shiftl 1 (Z.land b 31)))) s).

Lemma marked_cell zb b s q g : g <> b_dirt -> cell (marked zb b s) q g = cell s q g.
Proof. intros Hg. unfold marked. by rewrite cell_upd_fld. Qed.
Lemma marked_has zb b s q g : has s q g -> has (marked zb b s) q g.
Proof. intros Hg. apply has_upd. done. Qed.

Lemma marked_zones L C dev sb s i b k :
  volume L C dev sb s -> 0 <= i < 8 -> 0 <= b < 8192 -> cell s sb (s_zmap i) <> 0 -> 0 <= k < 65536 ->
  zone_free (marked (cell s sb (s_zmap i)) b s) sb k =
    if decide (k = 8192 * i + b) then false else zone_free s sb k.
Proof.
  intros V Hi Hb H0 Hk. set (zb := cell s sb (s_zmap i)) in *.
  destruct (vo_held _ _ _ _ _ V i Hi H0) as [Hin _]. fold zb in Hin.
  pose proof (vo_data _ _ _ _ _ V zb Hin) as Hdat.
  assert (Hmap : zone_map (marked zb b s) sb k = zone_map s sb k) by (unfold zone_map; by apply marked_cell).
  destruct (decide (k / 8192 = i)) as [Ei | Ei].
  - assert (Ek : k = 8192 * i + k mod 8192) by wrap_lia.
    assert (Hkr : 0 <= k mod 8192 < 8192) by wrap_lia.
    unfold zone_free. rewrite Hmap. unfold zone_map. rewrite Ei. fold zb.
    rewrite marked_cell by done. unfold marked at 1. cbn [upd kmem set_cells set_kmem].
    rewrite mbit_set by lia.
    destruct (decide (b = k mod 8192)) as [Eb | Eb].
    + rewrite decide_True by lia. apply andb_false_r.
    + by rewrite decide_False by lia.
  - rewrite decide_False by wrap_lia. apply zone_free_ext; [done | done |]. intros Hm0.
    unfold zone_map in Hm0 |- *. assert (Hki : 0 <= k / 8192 < 8) by wrap_lia.
    destruct (vo_held _ _ _ _ _ V _ Hki Hm0) as [Hin' _].
    split; [pose proof (vo_data _ _ _ _ _ V _ Hin'); lia |]. split; [by apply marked_cell |].
    assert (Hne : zb <> cell s sb (s_zmap (k / 8192))).
    { intros E. apply Ei. symmetry. by apply (vo_distinct _ _ _ _ _ V i). }
    pose proof (vo_apart _ _ _ _ _ V _ _ Hin Hin' Hne) as Hdis. unfold disjoint in Hdis.
    intros x Hx. unfold marked. cbn [upd kmem set_cells set_kmem].
    apply load8_store32_ne. rewrite bit_word_div. unfold disjoint. wrap_lia.
Qed.

Lemma marked_volume L C dev sb s zb b :
  volume L C dev sb s -> cell s zb b_dev <> 0 ->
  cache_ok L C (marked zb b s) /\ unlocked L (marked zb b s) /\ buffer_array (marked zb b s) /\
  dirty_dev L (marked zb b s) /\ all_wakeable (marked zb b s).
Proof.
  intros V Hzd. split.
  { unfold marked. apply cache_ok_upd; [| right; not_in_list].
    apply (cache_ok_frame L C s); try done. apply (vo_cache _ _ _ _ _ V). }
  split; [intros p Hp; rewrite marked_cell by done; by apply (vo_lock _ _ _ _ _ V) |].
  split; [| split; [| apply (vo_wake _ _ _ _ _ V)]].
  2: { intros p Hp Hd. rewrite marked_cell by done. destruct (decide (p = zb)) as [-> |]; [done |].
       apply (vo_dirty _ _ _ _ _ V); [done |]. intros E. apply Hd. unfold marked. by rewrite cell_upd_obj. }
  intros i Hi.
  destruct (vo_array _ _ _ _ _ V i Hi) as [H1 H2].
  split; [intros f Hf; by apply marked_has, H1 | by rewrite marked_cell].
Qed.

(** The end of [new_block]: clearing the block and letting its buffer go. *)
Definition cleared (bh : Z) (s : fstate) : fstate :=
  upd bh b_dirt 1 (upd bh b_uptodate 1 (set_kmem (bzero (kmem s) (cell s bh b_data) BLOCK_SIZE) s)).

Definition finish (fuel : nat) (bh j : Z) : M fstate Z :=
  c ← fget bh b_count;
  _ ← when (negb (c =? 1)) (panic "new block: count is != 1");
  d ← fget bh b_data;
  _ ← clear_block d;
  _ ← fput bh b_uptodate 1;
  _ ← fput bh b_dirt 1;
  _ ← brelse fuel bh;
  mret j.

Lemma finish_run fuel bh j s :
  bh <> 0 -> (forall f, f ∈ buf_fields -> has s bh f) -> cell s bh b_count = 1 ->
  cell s bh b_lock = 0 -> all_wakeable s ->
  exists p, finish fuel bh j s = Done j (set_fps p (upd bh b_count 0 (cleared bh s))).
Proof.
  intros H0 Hf Hc Hl Hw. unfold finish.
  assert (H1 : has s bh b_count) by (apply Hf; in_list).
  assert (H2 : has s bh b_data) by (apply Hf; in_list).
  assert (H3 : has s bh b_uptodate) by (apply Hf; in_list).
  assert (H4 : has s bh b_dirt) by (apply Hf; in_list).
  assert (H5 : has s bh b_lock) by (apply Hf; in_list).
  fstep. rewrite Hc. cbn [Z.eqb Pos.eqb negb when]. do 2 fstep.
  set (s1 := set_kmem (bzero (kmem s) (cell s bh b_data) BLOCK_SIZE) s).
  rewrite (bind_Done (clear_block _) _ s tt s1) by done.
  assert (H3' : has s1 bh b_uptodate) by done. assert (H4' : has s1 bh b_dirt) by done.
  do 2 fstep. change (upd bh b_dirt 1 (upd bh b_uptodate 1 s1)) with (cleared bh s).
  assert (Hcc : forall g, g <> b_dirt -> g <> b_uptodate -> cell (cleared bh s) bh g = cell s bh g).
  { intros g G1 G2. unfold cleared. by rewrite !cell_upd_fld. }
  assert (Hch : forall g, has s bh g -> has (cleared bh s) bh g).
  { intros g G. unfold cleared. apply has_upd, has_upd. done. }
  destruct (brelse_run fuel bh (cleared bh s)) as (p & _ & Hb); auto.
  { by rewrite Hcc. }
  { rewrite Hcc by done. lia. }
  exists p. rewrite Hcc in Hb by done. rewrite Hc in Hb.
  by rewrite (bind_Done _ _ _ _ _ Hb).
Qed.

(** A zone whose block somebody still uses. *)
Lemma new_block_held L C s fuel dev z q :
  cache_ok L C s -> unlocked L s -> dev <> 0 -> (0 < fuel)%nat -> q ∈ L -> cached dev z s q ->
  0 < cell s q b_count < 255 ->
  (bh ← getblk fuel dev z;
   _ ← when (bh =? 0) (panic "new_block: cannot get block");
   finish fuel bh z) s = Halt (Panic "new block: count is != 1").
Proof.
  intros Hok Hlk Hd Hfuel Hq Hc Hcnt. pose proof (ck_addr _ _ _ Hok q Hq) as Ha.
  assert (Hb : has s q b_count) by (apply (ck_buf _ _ _ Hok); [done | in_list]).
  rewrite (bind_Done _ _ _ _ _ (getblk_hit L C s fuel dev z q Hok Hlk Hd Hfuel Hq Hc)).
  rewrite (proj2 (Z.eqb_neq q 0)) by lia. cbn [when]. fstep. unfold finish. fstep.
  rewrite cell_upd_eq. cbn [fnorm]. rewrite u8_small by lia. by rewrite (proj2 (Z.eqb_neq _ 1)) by lia.
Qed.

(** A block the cache gives to a zone nobody holds does not lie in a map. *)
Lemma finish_zones L C dev sb s s1 s2 bh p k :
  volume L C dev sb s -> bh ∈ L -> cell s bh b_count = 0 ->
  (forall i, 0 <= i < 8 -> cell s2 sb (s_zmap i) = cell s1 sb (s_zmap i)) ->
  (forall i, 0 <= i < 8 -> cell s1 sb (s_zmap i) = cell s sb (s_zmap i)) ->
  (forall q, q ∈ L -> cell s1 q b_data = cell s q b_data /\ cell s2 q b_data = cell s q b_data) ->
  kept (kmem s1) (kmem s2) -> 0 <= k < 65536 ->
  zone_free (set_fps p (upd bh b_count 0 (cleared bh s2))) sb k = zone_free s1 sb k.
Proof.
  intros V Hin H0 Hz2 Hz1 Hd Hm Hk. assert (Hki : 0 <= k / 8192 < 8) by wrap_lia.
  set (s3 := set_fps p (upd bh b_count 0 (cleared bh s2))).
  assert (Hc3 : forall q g, g <> b_count -> g <> b_dirt -> g <> b_uptodate -> cell s3 q g = cell s2 q g).
  { intros q g G1 G2 G3. unfold s3, cleared.
    by rewrite cell_set_fps, !cell_upd_fld by done. }
  apply zone_free_ext; [done | unfold zone_map; rewrite Hc3 by done; by apply Hz2 |].
  unfold zone_map. rewrite Hz1 by done. intros Hm0.
  destruct (vo_held _ _ _ _ _ V _ Hki Hm0) as (Hin' & Hcnt & _). set (zb := cell s sb (s_zmap (k / 8192))) in *.
  destruct (Hd zb Hin') as [E1 E2]. rewrite Hc3, E1, E2 by done.
  pose proof (vo_data _ _ _ _ _ V zb Hin') as Hr. pose proof (vo_data _ _ _ _ _ V bh Hin) as Hrb.
  split; [lia |]. split; [done |]. intros x Hx.
  assert (Hne : bh <> zb) by (intros ->; lia).
  pose proof (vo_apart _ _ _ _ _ V _ _ Hin Hin' Hne) as Hdis. unfold disjoint in Hdis.
  change (kmem s3) with (bzero (kmem s2) (cell s2 bh b_data) BLOCK_SIZE).
  destruct (Hd bh Hin) as [_ E3]. rewrite E3. unfold bzero. transitivity (load8 (kmem s2) x).
  - apply (only_changed_memset (kmem s2) (cell s bh b_data) 0 BLOCK_SIZE); unfold BLOCK_SIZE, in_u32; lia.
  - apply Hm; unfold offset_b_prev, in_u32; lia.
Qed.

(** Up to the test against [s_nzones]. *)
Lemma new_block_mark L C dev sb s fuel i b :
  volume L C dev sb s -> 0 <= i < 8 -> 0 <= b < 8192 -> cell s sb (s_zmap i) <> 0 ->
  zone_free s sb (8192 * i + b) = true ->
  scan_maps 8 s_zmap sb 0 0 8192 s = Done (i, cell s sb (s_zmap i), b) s ->
  new_block fuel dev s =
    (let j := b + (i * 8192 + cell s sb s_firstdatazone - 1) in
     if cell s sb s_nzones <=? j then mret 0
     else
       bh ← getblk fuel dev j;
       _ ← when (bh =? 0) (panic "new_block: cannot get block");
       finish fuel bh j) (marked (cell s sb (s_zmap i)) b s).
Proof.
  intros V Hi Hb H0 Hfree Hscan. set (zb := cell s sb (s_zmap i)) in *.
  destruct (vo_held _ _ _ _ _ V i Hi H0) as [Hin _]. fold zb in Hin.
  destruct (vo_fields _ _ _ _ _ V) as [Hf1 Hf2].
  assert (Hd : has s zb b_data) by (apply (ck_buf _ _ _ (vo_cache _ _ _ _ _ V)); [done | in_list]).
  assert (Hdt : has s zb b_dirt) by (apply (ck_buf _ _ _ (vo_cache _ _ _ _ _ V)); [done | in_list]).
  unfold new_block. rewrite (bind_Done _ _ _ _ _ (vo_super _ _ _ _ _ V)).
  rewrite (proj2 (Z.eqb_neq sb 0)) by apply (vo_sb _ _ _ _ _ V). cbn [when]. fstep.
  rewrite (bind_Done _ _ _ _ _ Hscan). cbv iota beta.
  rewrite (proj2 (Z.leb_gt 8 i)) by lia. rewrite (proj2 (Z.leb_gt 8192 b)) by lia.
  rewrite (proj2 (Z.eqb_neq zb 0) H0). cbn [orb]. fstep.
  rewrite (bind_Done _ _ _ _ _ (set_bit_run _ _ _)).
  rewrite zone_free_at in Hfree by done. fold zb in Hfree. apply andb_prop in Hfree as [_ Hfree].
  apply negb_true_iff in Hfree. rewrite Hfree. cbn [b2z Z.eqb negb when].
  set (s0 := set_kmem _ s).
  assert (Hdt0 : has s0 zb b_dirt) by exact Hdt. assert (Hf10 : has s0 sb s_firstdatazone) by exact Hf1.
  assert (Hf20 : has s0 sb s_nzones) by exact Hf2.
  do 4 fstep. rewrite !cell_upd_fld by done.
  change (upd zb b_dirt 1 s0) with (marked zb b s).
  change (cell s0 sb s_firstdatazone) with (cell s sb s_firstdatazone).
  change (cell s0 sb s_nzones) with (cell s sb s_nzones). cbv zeta.
  by destruct (_ <=? _).
Qed.

(** C7: [new_block] gives out the lowest free zone of a mounted volume. With
    none it answers 0 and changes nothing. Otherwise the zone's bit is set, no
    other; if the zone lies beyond the volume's end the answer is 0 all the
    same, and the bit stays set. If not, it depends on the cache. When the
    zone's block has a buffer with users already (fewer than 255), the kernel
    panics. When it has none, or one without users, and some buffer is unused,
    the answer is the zone's block, which has a buffer of zeroes, valid, to be
    written, used by nobody, and the cache stays well formed. (When every
    buffer has a user and the block has none, [getblk] waits.) *)
Theorem new_block_correct L C dev sb s fuel :
  volume L C dev sb s -> (0 < fuel)%nat ->
  ((forall k, 0 <= k < 65536 -> zone_free s sb k = false) -> new_block fuel dev s = Done 0 s) /\
  (forall k, 0 <= k < 65536 -> zone_free s sb k = true ->
     (forall k', 0 <= k' < k -> zone_free s sb k' = false) ->
     let z := k + cell s sb s_firstdatazone - 1 in
     (cell s sb s_nzones <= z ->
        exists s', new_block fuel dev s = Done 0 s' /\
          forall k', 0 <= k' < 65536 -> zone_free s' sb k' =
            if decide (k' = k) then false else zone_free s sb k') /\
     (z < cell s sb s_nzones -> forall q, q ∈ L -> cached dev z s q -> 0 < cell s q b_count < 255 ->
        new_block fuel dev s = Halt (Panic "new block: count is != 1")) /\
     (z < cell s sb s_nzones -> (forall q, q ∈ L -> cached dev z s q -> cell s q b_count = 0) ->
        (exists p, p ∈ L /\ cell s p b_count = 0) ->
        exists bh L' C' s', new_block fuel dev s = Done z s' /\ cache_ok L' C' s' /\ L' ≡ₚ L /\
          bh ∈ L /\ cached dev z s' bh /\
          cell s' bh b_uptodate = 1 /\ cell s' bh b_dirt = 1 /\ cell s' bh b_count = 0 /\
          (forall x, 0 <= x < 1024 -> load8 (kmem s') (cell s' bh b_data + x) = 0) /\
          forall k', 0 <= k' < 65536 -> zone_free s' sb k' =
            if decide (k' = k) then false else zone_free s sb k')).
Proof.
  intros V Hfuel.
  destruct (scan_maps_run s sb 8 0 0 8192 (volume_maps _ _ _ _ _ V) ltac:(lia) ltac:(lia))
    as [(i & b & zb & Hi & Hb & -> & H0 & Hscan & Hfree & Hlow) | [(bh & j & Hscan) Hnone]].
  2: { split.
       - intros _. unfold new_block. rewrite (bind_Done _ _ _ _ _ (vo_super _ _ _ _ _ V)).
         rewrite (proj2 (Z.eqb_neq sb 0)) by apply (vo_sb _ _ _ _ _ V). cbn [when]. fstep.
         by rewrite (bind_Done _ _ _ _ _ Hscan).
       - intros k Hk Hf. rewrite Hnone in Hf by lia. done. }
  split; [intros Hnone; by rewrite Hnone in Hfree by lia |].
  intros k Hk Hf Hmin. assert (k = 8192 * i + b) as ->.
  { destruct (Z.lt_trichotomy k (8192 * i + b)) as [L1 | [-> | L1]]; [| done |].
    - by rewrite Hlow in Hf by lia.
    - by rewrite Hmin in Hfree by lia. }
  set (zb := cell s sb (s_zmap i)) in *. cbv zeta.
  rewrite (new_block_mark L C dev sb s fuel i b V Hi Hb H0 Hfree Hscan). fold zb. cbv zeta.
  replace (b + (i * 8192 + cell s sb s_firstdatazone - 1))
    with (8192 * i + b + cell s sb s_firstdatazone - 1) by lia.
  set (z := 8192 * i + b + cell s sb s_firstdatazone - 1).
  assert (Hmk := fun k' H => marked_zones L C dev sb s i b k' V Hi Hb H0 H). fold zb in Hmk.
  split; [intros Hz; rewrite (proj2 (Z.leb_le _ _) Hz); by exists (marked zb b s) |].
  pose proof (vo_first _ _ _ _ _ V) as Hfirst. pose proof (vo_nzones _ _ _ _ _ V) as Hnz.
  assert (Hzd : cell s zb b_dev <> 0) by apply (vo_held _ _ _ _ _ V i Hi H0).
  destruct (marked_volume L C dev sb s zb b V Hzd) as (Hok1 & Hlk1 & Harr1 & Hdd1 & Hw1).
  split.
  { intros Hz q Hq [K1 K2] Hc. rewrite (proj2 (Z.leb_gt _ _) Hz).
    pose proof (vo_dev _ _ _ _ _ V). apply (new_block_held L C _ fuel dev z q); rewrite ?marked_cell by done; try done; [lia |].
    split; by rewrite marked_cell. }
  intros Hz Hheld Hun. rewrite (proj2 (Z.leb_gt _ _) Hz).
  assert (Hun1 : exists p, p ∈ L /\ cell (marked zb b s) p b_count = 0).
  { destruct Hun as (p & Hp & Hc). exists p. by rewrite marked_cell. }
  assert (Hzr : 0 <= z < 65536) by (unfold z in *; lia).
  destruct (getblk_any L C _ fuel dev z Hok1 Hlk1 Harr1 Hdd1 (vo_two _ _ _ _ _ V) (vo_dev _ _ _ _ _ V)
      Hzr Hfuel Hun1)
    as (bh & L' & C' & s2 & Hg & Hok2 & HL & Hin2 & Hc2 & Hm2 & Hhas2 & Hw2 & Hrest2 & Hcell2 & Hcase & _).
  rewrite (bind_Done _ _ _ _ _ Hg).
  assert (Hin : bh ∈ L) by (by rewrite <- HL).
  assert (Hcnt : cell s bh b_count = 0 /\ cell s2 bh b_count = 1).
  { rewrite !marked_cell in Hcase by done. destruct Hcase as [[Hca Hcb] | [Hca Hcb]]; [| done].
    unfold cached in Hca. rewrite !marked_cell in Hca by done.
    rewrite (Hheld bh Hin Hca) in Hcb |- *. done. }
  destruct Hcnt as [Hc0 Hc1]. pose proof (ck_addr _ _ _ Hok2 bh Hin2) as Ha.
  rewrite (proj2 (Z.eqb_neq bh 0)) by lia. cbn [when]. fstep.
  assert (Hlk2 : cell s2 bh b_lock = 0).
  { rewrite Hcell2; [| done | in_list | right; in_list]. by apply Hlk1. }
  destruct (finish_run fuel bh z s2) as (p & Hfin); [lia | intros f Hf'; by apply (ck_buf _ _ _ Hok2) | done | done | by apply Hw2 |].
  set (s3 := set_fps p (upd bh b_count 0 (cleared bh s2))) in *.
  assert (Hother : forall q g, g <> b_count -> g <> b_dirt -> g <> b_uptodate -> cell s3 q g = cell s2 q g).
  { intros q g G1 G2 G3. unfold s3, cleared.
    by rewrite cell_set_fps, !cell_upd_fld by done. }
  exists bh, L', C', s3. split; [done |]. split.
  { apply (cache_ok_frame L' C' s2); try done.
    - intros q g Hqg. unfold s3, cleared. rewrite has_set_fps. by do 3 apply has_upd.
    - intros q g _ Hg'. apply Hother; intros ->; revert Hg'; not_in_list. }
  split; [done |]. split; [done |].
  split; [unfold cached; by rewrite !Hother |].
  split; [unfold s3, cleared; rewrite cell_set_fps; do 2 rewrite cell_upd_fld by done; by rewrite cell_upd_eq |].
  split; [unfold s3, cleared; rewrite cell_set_fps; by rewrite cell_upd_fld, cell_upd_eq |].
  split; [unfold s3; by rewrite cell_set_fps, cell_upd_eq |].
  assert (Hdat : cell s2 bh b_data = cell s bh b_data).
  { rewrite Hcell2; [| done | in_list | right; in_list]. by apply marked_cell. }
  pose proof (vo_data _ _ _ _ _ V bh Hin) as Hrange. split.
  - intros x Hx. rewrite Hother by done.
    change (kmem s3) with (bzero (kmem s2) (cell s2 bh b_data) BLOCK_SIZE). unfold bzero, BLOCK_SIZE.
    rewrite load8_memset; [| lia | lia | lia | unfold in_u32; lia]. by rewrite decide_True by lia.
  - intros k' Hk'. rewrite <- Hmk by done.
    apply (finish_zones L C dev sb s (marked zb b s) s2 bh p k' V Hin Hc0); try done.
    + intros i' Hi'. apply Hrest2. not_in_list.
    + intros i' Hi'. by apply marked_cell.
    + intros q Hq. split; [by apply marked_cell |].
      rewrite Hcell2; [| done | in_list | right; in_list]. by apply marked_cell.
Qed.
End new_block.

(** ** [free_block] *)

Section free_block.
Context {FW : FsWorld}.

(** Clearing zone [k]'s bit. *)
Definition unmarked (zb b : Z) (s : fstate) : fstate :=
  upd zb b_dirt 1 (set_kmem (store32 (kmem s) (bit_word b (cell s zb b_data))
    (Z.land (load32 (kmem s) (bit_word b (cell s zb b_data))) (Z.lnot (Z.shiftl 1 (Z.land b 31))))) s).

Lemma unmarked_zones L C dev sb s i b k :
  volume L C dev sb s -> 0 <= i < 8 -> 0 <= b < 8192 -> cell s sb (s_zmap i) <> 0 -> 0 <= k < 65536 ->
  zone_free (unmarked (cell s sb (s_zmap i)) b s) sb k =
    if decide (k = 8192 * i + b) then true else zone_free s sb k.
Proof.
  intros V Hi Hb H0 Hk. set (zb := cell s sb (s_zmap i)) in *.
  destruct (vo_held _ _ _ _ _ V i Hi H0) as [Hin _]. fold zb in Hin.
  pose proof (vo_data _ _ _ _ _ V zb Hin) as Hdat.
  assert (Hc : forall q g, g <> b_dirt -> cell (unmarked zb b s) q g = cell s q g)
    by (intros q g Hg; unfold unmarked; by rewrite cell_upd_fld).
  assert (Hmap : zone_map (unmarked zb b s) sb k = zone_map s sb k) by (unfold zone_map; by apply Hc).
  destruct (decide (k / 8192 = i)) as [Ei | Ei].
  - unfold zone_free. rewrite Hmap. unfold zone_map. rewrite Ei. fold zb.
    rewrite Hc by done. unfold unmarked at 1. cbn [upd kmem set_cells set_kmem].
    rewrite mbit_clear by wrap_lia.
    destruct (decide (b = k mod 8192)) as [Eb | Eb].
    + rewrite decide_True by wrap_lia. by rewrite (proj2 (Z.eqb_neq zb 0) H0).
    + by rewrite decide_False by wrap_lia.
  - rewrite decide_False by wrap_lia. apply zone_free_ext; [done | done |]. intros Hm0.
    unfold zone_map in Hm0 |- *. assert (Hki : 0 <= k / 8192 < 8) by wrap_lia.
    destruct (vo_held _ _ _ _ _ V _ Hki Hm0) as [Hin' _].
    split; [pose proof (vo_data _ _ _ _ _ V _ Hin'); lia |]. split; [by apply Hc |].
    assert (Hne : zb <> cell s sb (s_zmap (k / 8192))).
    { intros E. apply Ei. symmetry. by apply (vo_distinct _ _ _ _ _ V i). }
    pose proof (vo_apart _ _ _ _ _ V _ _ Hin Hin' Hne) as Hdis. unfold disjoint in Hdis.
    intros x Hx. unfold unmarked. cbn [upd kmem set_cells set_kmem].
    apply load8_store32_ne. rewrite bit_word_div. unfold disjoint. wrap_lia.
Qed.

(** The last part of [free_block]. *)
Definition give_back (sb first dev block : Z) : M fstate unit :=
  let block := block - (first - 1) in
  zb ← fget sb (s_zmap (Z.quot block 8192));
  d ← fget zb b_data;
  r ← clear_bit (Z.land block 8191) d;
  _ ← when (negb (r =? 0))
        (_ ← fs_printk "block (%04x:%d) " [dev; block + first - 1];
         panic "free_block: bit already cleared");
  zb ← fget sb (s_zmap (Z.quot block 8192));
  fput zb b_dirt 1.

Lemma land_8191 k : Z.land k 8191 = k mod 8192.
Proof. change 8191 with (Z.ones 13). by rewrite Z.land_ones. Qed.

Lemma give_back_run s sb first dev k zb :
  0 <= k < 65536 -> has s sb (s_zmap (k / 8192)) -> zone_map s sb k = zb -> zb <> 0 ->
  has s zb b_data -> has s zb b_dirt ->
  give_back sb first dev (k + (first - 1)) s =
    if zone_free s sb k then Halt (Panic "free_block: bit already cleared")
    else Done tt (unmarked zb (k mod 8192) s).
Proof.
  intros Hk H1 Em H0 H2 H3. unfold give_back. cbv zeta.
  replace (k + (first - 1) - (first - 1)) with k by lia.
  rewrite Z.quot_div_nonneg, land_8191 by lia. fstep. fold (zone_map s sb k). rewrite Em. fstep.
  rewrite (bind_Done _ _ _ _ _ (clear_bit_run _ _ _)).
  unfold zone_free. rewrite Em, (proj2 (Z.eqb_neq zb 0) H0). cbn [negb andb].
  destruct (mbit (kmem s) (cell s zb b_data) (k mod 8192)); cbn [negb b2z Z.eqb when]; [| done].
  set (s1 := set_kmem _ s).
  assert (H1' : has s1 sb (s_zmap (k / 8192))) by done. assert (H3' : has s1 zb b_dirt) by done.
  do 2 fstep. change (cell s1 sb (s_zmap (k / 8192))) with (zone_map s sb k). rewrite Em.
  by apply fput_upd.
Qed.

(** The zones depend on the maps and on memory only. *)
Lemma zone_free_cells s s' sb k :
  (forall i, cell s' sb (s_zmap i) = cell s sb (s_zmap i)) ->
  (forall q, cell s' q b_data = cell s q b_data) -> kmem s' = kmem s ->
  zone_free s' sb k = zone_free s sb k.
Proof. intros H1 H2 H3. unfold zone_free, zone_map. by rewrite H1, H2, H3. Qed.

(** [give_back] in a state whose buffers differ from [s]'s in their flags and
    users only. *)
Lemma give_back_ok L C dev sb s s1 k :
  volume L C dev sb s -> 0 <= k < 65536 -> zone_map s sb k <> 0 ->
  (forall q g, g <> b_count -> g <> b_dirt -> g <> b_uptodate -> cell s1 q g = cell s q g) ->
  (forall q g, has s q g -> has s1 q g) -> kmem s1 = kmem s ->
  if zone_free s sb k
  then give_back sb (cell s sb s_firstdatazone) dev (k + (cell s sb s_firstdatazone - 1)) s1
         = Halt (Panic "free_block: bit already cleared")
  else exists s', give_back sb (cell s sb s_firstdatazone) dev (k + (cell s sb s_firstdatazone - 1)) s1
         = Done tt s' /\
         forall k', 0 <= k' < 65536 -> zone_free s' sb k' = if decide (k' = k) then true else zone_free s sb k'.
Proof.
  intros V Hk Hm0 Hc Hhas Hm. assert (Hki : 0 <= k / 8192 < 8) by wrap_lia.
  destruct (vo_held _ _ _ _ _ V _ Hki Hm0) as [HzL _]. fold (zone_map s sb k) in HzL.
  set (zb := zone_map s sb k) in *.
  assert (H1 : has s zb b_data) by (apply (ck_buf _ _ _ (vo_cache _ _ _ _ _ V)); [done | in_list]).
  assert (H2 : has s zb b_dirt) by (apply (ck_buf _ _ _ (vo_cache _ _ _ _ _ V)); [done | in_list]).
  assert (Hzm : zone_map s1 sb k = zb) by (unfold zone_map; by apply Hc).
  rewrite (give_back_run s1 sb _ dev k zb Hk); [| apply Hhas, (vo_maps _ _ _ _ _ V); lia | done | done | by apply Hhas ..].
  rewrite (zone_free_cells s s1) by (intros; (done || by apply Hc)).
  destruct (zone_free s sb k); [done |]. eexists. split; [done |]. intros k' Hk'.
  rewrite (zone_free_cells (unmarked zb (k mod 8192) s)).
  - unfold zb, zone_map. rewrite (unmarked_zones L C dev sb s (k / 8192) (k mod 8192) k' V Hki); [| wrap_lia | done | done].
    replace (8192 * (k / 8192) + k mod 8192) with k by wrap_lia. done.
  - intros i. unfold unmarked. rewrite !cell_upd_fld by done. by apply Hc.
  - intros q. unfold unmarked. rewrite !cell_upd_fld by done. by apply Hc.
  - unfold unmarked. cbn [upd kmem set_cells set_kmem]. by rewrite Hm, Hc.
Qed.

Lemma free_block_start L C dev sb s fuel block :
  volume L C dev sb s ->
  free_block fuel dev block s =
    (if (block <? cell s sb s_firstdatazone) || (cell s sb s_nzones <=? block)
     then panic "trying to free block not in datazone" else
     bh ← get_hash_table fuel dev block;
     busy ← (if bh =? 0 then mret false
             else
               c ← fget bh b_count;
               if negb (c =? 1) then
                 _ ← fs_printk "trying to free block (%04x:%d), count=%d" [dev; block; c];
                 mret true
               else
                 _ ← fput bh b_dirt 0;
                 _ ← fput bh b_uptodate 0;
                 _ ← brelse fuel bh;
                 mret false);
     if busy : bool then mret tt else give_back sb (cell s sb s_firstdatazone) dev block) s.
Proof.
  intros V. destruct (vo_fields _ _ _ _ _ V) as [H1 H2]. unfold free_block.
  rewrite (bind_Done _ _ _ _ _ (vo_super _ _ _ _ _ V)).
  rewrite (proj2 (Z.eqb_neq sb 0)) by apply (vo_sb _ _ _ _ _ V). cbn [when]. do 3 fstep.
  destruct (_ || _); [done |]. cbn [when]. by fstep.
Qed.

(** C8: [free_block] of zone [k] of a mounted volume. A block outside the
    data zones is refused with a panic; so is one whose bit is clear already,
    when nobody holds it. A block whose buffer has users stays allocated — and
    its buffer has one user more afterwards, who will never let it go. In all
    other cases exactly the zone's bit is cleared, which undoes what
    [new_block] does to the maps. *)
Theorem free_block_correct L C dev sb s fuel block :
  volume L C dev sb s -> (0 < fuel)%nat ->
  let k := block - (cell s sb s_firstdatazone - 1) in
  (~ (cell s sb s_firstdatazone <= block < cell s sb s_nzones) ->
     free_block fuel dev block s = Halt (Panic "trying to free block not in datazone")) /\
  (cell s sb s_firstdatazone <= block < cell s sb s_nzones -> zone_map s sb k <> 0 ->
     (forall q, q ∈ L -> cached dev block s q -> 0 < cell s q b_count < 255 ->
        exists s', free_block fuel dev block s = Done tt s' /\
          cell s' q b_count = cell s q b_count + 1 /\
          forall k', 0 <= k' < 65536 -> zone_free s' sb k' = zone_free s sb k') /\
     ((forall q, q ∈ L -> cached dev block s q -> cell s q b_count = 0) ->
        if zone_free s sb k
        then free_block fuel dev block s = Halt (Panic "free_block: bit already cleared")
        else exists s', free_block fuel dev block s = Done tt s' /\
               forall k', 0 <= k' < 65536 -> zone_free s' sb k' =
                 if decide (k' = k) then true else zone_free s sb k')).
Proof.
  intros V Hfuel k. pose proof (vo_first _ _ _ _ _ V) as Hfirst.
  pose proof (vo_nzones _ _ _ _ _ V) as Hnz. pose proof (vo_dev _ _ _ _ _ V) as Hdev.
  rewrite (free_block_start L C dev sb s fuel block V). split.
  { intros Hout. destruct (Z.ltb_spec block (cell s sb s_firstdatazone)); [done |].
    by rewrite (proj2 (Z.leb_le _ _)) by lia. }
  intros Hrange Hm0. rewrite (proj2 (Z.ltb_ge _ _)), (proj2 (Z.leb_gt _ _)) by lia. cbn [orb].
  assert (Hk : 0 <= k < 65536) by (unfold k; lia).
  assert (Hgb := fun s1 => give_back_ok L C dev sb s s1 k V Hk Hm0).
  replace (k + (cell s sb s_firstdatazone - 1)) with block in Hgb by (unfold k; lia).
  pose proof (vo_cache _ _ _ _ _ V) as Hok.
  destruct (get_hash_table_run L C s fuel dev block Hok (vo_lock _ _ _ _ _ V) ltac:(lia) Hfuel)
    as [(bh & Hin & E1 & E2 & Hrun) | [Hno Hrun]]; rewrite (bind_Done _ _ _ _ _ Hrun).
  2: { split; [intros q Hq [Hq1 Hq2]; by destruct (Hno q Hq Hq1) |]. intros _. cbn [Z.eqb].
       fstep. by apply Hgb. }
  pose proof (ck_addr _ _ _ Hok bh Hin) as Ha. rewrite (proj2 (Z.eqb_neq bh 0)) by lia.
  set (s1 := upd bh b_count (cell s bh b_count + 1) s).
  assert (Hbf : forall f, f ∈ buf_fields -> has s1 bh f) by (intros; by apply has_upd, (ck_buf _ _ _ Hok)).
  assert (Hb1 : has s1 bh b_count) by (apply Hbf; in_list).
  assert (Hb2 : has s1 bh b_dirt) by (apply Hbf; in_list).
  assert (Hb3 : has s1 bh b_uptodate) by (apply Hbf; in_list).
  assert (Hb4 : has s1 bh b_lock) by (apply Hbf; in_list).
  assert (Hcnt : cell s1 bh b_count = u8 (cell s bh b_count + 1)) by apply cell_upd_eq.
  split.
  - intros q Hq Hcq Hpos. assert (q = bh) as ->.
    { destruct Hcq. apply (ck_unique _ _ _ Hok); [done | done | lia | congruence | congruence]. }
    rewrite u8_small in Hcnt by lia.
    exists (set_flog (flog s1 ++ [("trying to free block (%04x:%d), count=%d", [dev; block; cell s1 bh b_count])]) s1).
    split; [| split; [exact Hcnt |]].
    + rewrite (bind_Done _ _ s1 true (set_flog (flog s1 ++
        [("trying to free block (%04x:%d), count=%d", [dev; block; cell s1 bh b_count])]) s1)); [done |].
      fstep. by rewrite (proj2 (Z.eqb_neq (cell s1 bh b_count) 1)) by lia.
    + intros k' _. apply zone_free_cells; [| | done].
      * intros i. change (cell s1 sb (s_zmap i) = cell s sb (s_zmap i)). by apply cell_upd_fld.
      * intros q. change (cell s1 q b_data = cell s q b_data). by apply cell_upd_fld.
  - intros Hheld. rewrite (Hheld bh Hin (conj E1 E2)) in Hcnt. change (u8 (0 + 1)) with 1 in Hcnt.
    set (s2 := upd bh b_uptodate 0 (upd bh b_dirt 0 s1)).
    assert (Hcs : forall q g, g <> b_count -> g <> b_dirt -> g <> b_uptodate -> cell s2 q g = cell s q g).
    { intros q g G1 G2 G3. unfold s2, s1. by rewrite !cell_upd_fld. }
    assert (Hc2 : cell s2 bh b_count = 1) by (unfold s2; by rewrite !cell_upd_fld).
    destruct (brelse_run fuel bh s2) as (p & _ & Hb); [lia | unfold s2; by do 2 apply has_upd |
      unfold s2; by do 2 apply has_upd | rewrite Hcs by done; by apply (vo_lock _ _ _ _ _ V) | lia |
      apply (vo_wake _ _ _ _ _ V) |].
    set (s3 := set_fps p (upd bh b_count (cell s2 bh b_count - 1) s2)) in *.
    rewrite (bind_Done _ _ s1 false s3).
    + apply Hgb; [| | done].
      * intros q g G1 G2 G3. change (cell (upd bh b_count (cell s2 bh b_count - 1) s2) q g = cell s q g).
        rewrite cell_upd_fld by done. by apply Hcs.
      * intros q g Hqg. change (has (upd bh b_count (cell s2 bh b_count - 1) s2) q g).
        unfold s2, s1. by do 4 apply has_upd.
    + fstep. rewrite Hcnt. cbn [Z.eqb Pos.eqb negb]. do 2 fstep. fold s2.
      by rewrite (bind_Done _ _ _ _ _ Hb).
Qed.
End free_block.
