(* ===== verification/Inode.v ===== *)
(** * Inode: src/linux-0.01/fs/inode.c, fs/truncate.c and [new_inode] of fs/bitmap.c

    Inodes in memory, the zones of a file, and giving both back. [fuel] bounds
    how often a task sleeps or starts over, and the recursion of [iput]. *)

From S2P Require Import Prelude Mem Mm Proc Sched FsState Buffer Bitmap.

(** ** File types (include/sys/stat.h) *)

Definition S_IFMT : Z := 0xF000.
Definition S_IFREG : Z := 0x8000.
Definition S_IFBLK : Z := 0x6000.
Definition S_IFDIR : Z := 0x4000.
Definition S_IFCHR : Z := 0x2000.
Definition S_ISREG (m : Z) : bool := Z.land m S_IFMT =? S_IFREG.
Definition S_ISDIR (m : Z) : bool := Z.land m S_IFMT =? S_IFDIR.
Definition S_ISCHR (m : Z) : bool := Z.land m S_IFMT =? S_IFCHR.
Definition S_ISBLK (m : Z) : bool := Z.land m S_IFMT =? S_IFBLK.

(** ** The inode on disk

    The fields of [struct d_inode], their offsets and their sizes; they are
    the first fields of [struct m_inode]. *)
Definition d_inode_layout : list (fld * Z * Z) :=
  [(i_mode, 0, 2); (i_uid, 2, 2); (i_size, 4, 4); (i_mtime, 8, 4); (i_gid, 12, 1);
   (i_nlinks, 13, 1); (i_zone 0, 14, 2); (i_zone 1, 16, 2); (i_zone 2, 18, 2);
   (i_zone 3, 20, 2); (i_zone 4, 22, 2); (i_zone 5, 24, 2); (i_zone 6, 26, 2);
   (i_zone 7, 28, 2); (i_zone 8, 30, 2)].

Definition load_size (m : memory) (a n : Z) : Z :=
  if n =? 1 then load8 m a else if n =? 2 then load16 m a else load32 m a.
Definition store_size (m : memory) (a n v : Z) : memory :=
  if n =? 1 then store8 m a v else if n =? 2 then store16 m a v else store32 m a v.

(** The structure assignments of [read_inode] and [write_inode]. *)
Fixpoint copy_in (l : list (fld * Z * Z)) (inode a : Z) : M fstate unit :=
  match l with
  | [] => mret tt
  | (f, o, n) :: l' =>
      v ← gets (fun s => load_size (kmem s) (a + o) n);
      _ ← fput inode f v;
      copy_in l' inode a
  end.
Fixpoint copy_out (l : list (fld * Z * Z)) (inode a : Z) : M fstate unit :=
  match l with
  | [] => mret tt
  | (f, o, n) :: l' =>
      v ← fget inode f;
      _ ← modify (fun s => set_kmem (store_size (kmem s) (a + o) n v) s);
      copy_out l' inode a
  end.

Section inode.
Context {FW : FsWorld}.

Definition inode_at (inr : Z) : Z := inode_table + sizeof_m_inode * inr.

Fixpoint wait_on_inode (fuel : nat) (inode : Z) : M fstate unit :=
  l ← fget inode i_lock;
  if l =? 0 then mret tt
  else
    match fuel with
    | O => halt NoFuel
    | S fuel' => _ ← fs_sleep_on (i_wait inode); wait_on_inode fuel' inode
    end.

Definition lock_inode (fuel : nat) (inode : Z) : M fstate unit :=
  _ ← wait_on_inode fuel inode;
  fput inode i_lock 1.

Definition unlock_inode (inode : Z) : M fstate unit :=
  _ ← fput inode i_lock 0;
  on_ps (wake_up (i_wait inode)).

(** [2 + sb->s_imap_blocks + sb->s_zmap_blocks + (inode->i_num-1)/INODES_PER_BLOCK],
    unsigned because [sizeof] is. *)
Definition inode_block (inode : Z) : M fstate Z :=
  dev ← fget inode i_dev;
  sb ← get_super dev;
  im ← fget sb s_imap_blocks;
  zm ← fget sb s_zmap_blocks;
  num ← fget inode i_num;
  mret (s32 (2 + im + zm + u32 (num - 1) / INODES_PER_BLOCK)).

(** The inode's place in its block. *)
Definition inode_offset (inode bh : Z) : M fstate Z :=
  d ← fget bh b_data;
  num ← fget inode i_num;
  mret (d + sizeof_d_inode * (u32 (num - 1) mod INODES_PER_BLOCK)).

Definition read_inode (fuel : nat) (inode : Z) : M fstate unit :=
  _ ← lock_inode fuel inode;
  block ← inode_block inode;
  dev ← fget inode i_dev;
  bh ← bread fuel dev block;
  _ ← when (bh =? 0) (panic "unable to read i-node block");
  a ← inode_offset inode bh;
  _ ← copy_in d_inode_layout inode a;
  _ ← brelse fuel bh;
  unlock_inode inode.

Definition write_inode (fuel : nat) (inode : Z) : M fstate unit :=
  _ ← lock_inode fuel inode;
  block ← inode_block inode;
  dev ← fget inode i_dev;
  bh ← bread fuel dev block;
  _ ← when (bh =? 0) (panic "unable to read i-node block");
  a ← inode_offset inode bh;
  _ ← copy_out d_inode_layout inode a;
  _ ← fput bh b_dirt 1;
  _ ← fput inode i_dirt 0;
  _ ← brelse fuel bh;
  unlock_inode inode.

Definition sync_inodes (fuel : nat) : M fstate unit :=
  for_loop (Z.to_nat NR_INODE) 0 (fun i =>
    _ ← wait_on_inode fuel (inode_at i);
    dirt ← fget (inode_at i) i_dirt;
    pipe ← fget (inode_at i) i_pipe;
    when (negb (dirt =? 0) && (pipe =? 0)) (write_inode fuel (inode_at i))).

(** [sys_sync] of fs/buffer.c. *)
Definition sys_sync (fuel : nat) : M fstate Z :=
  _ ← sync_inodes fuel;
  _ ← for_buffers (fun bh =>
        _ ← wait_on_buffer fuel bh;
        dirt ← fget bh b_dirt;
        when (negb (dirt =? 0)) (ll_rw_block WRITE bh));
  mret 0.

(** ** The zones of a file *)

(** [if (create && !inode->i_zone[n]) if (inode->i_zone[n]=new_block(...))]. *)
Definition make_zone (fuel : nat) (inode n : Z) (create : bool) : M fstate unit :=
  z ← fget inode (i_zone n);
  when (create && (z =? 0))
    (dev ← fget inode i_dev;
     b ← new_block fuel dev;
     _ ← fput inode (i_zone n) b;
     when (negb (u16 b =? 0))
       (t ← fs_time; _ ← fput inode i_ctime t; fput inode i_dirt 1)).

(** Entry [k] of the block of zone numbers in [bh], made if it is not there. *)
Definition zone_entry (fuel : nat) (inode bh k : Z) (create : bool) : M fstate Z :=
  d ← fget bh b_data;
  i ← kload16 (d + 2 * k);
  i ← (if create && (i =? 0) then
         dev ← fget inode i_dev;
         i ← new_block fuel dev;
         _ ← when (negb (i =? 0))
               (d ← fget bh b_data;
                _ ← kstore16 (d + 2 * k) i;
                fput bh b_dirt 1);
         mret i
       else mret i);
  _ ← brelse fuel bh;
  mret i.

Definition _bmap (fuel : nat) (inode block : Z) (create : bool) : M fstate Z :=
  _ ← when (block <? 0) (panic "_bmap: block<0");
  _ ← when (7 + 512 + 512 * 512 <=? block) (panic "_bmap: block>big");
  if block <? 7 then
    _ ← make_zone fuel inode block create;
    fget inode (i_zone block)
  else
    let block := block - 7 in
    if block <? 512 then
      _ ← make_zone fuel inode 7 create;
      z ← fget inode (i_zone 7);
      if z =? 0 then mret 0
      else
        dev ← fget inode i_dev;
        bh ← bread fuel dev z;
        if bh =? 0 then mret 0 else zone_entry fuel inode bh block create
    else
      let block := block - 512 in
      _ ← make_zone fuel inode 8 create;
      z ← fget inode (i_zone 8);
      if z =? 0 then mret 0
      else
        dev ← fget inode i_dev;
        bh ← bread fuel dev z;
        if bh =? 0 then mret 0
        else
          i ← zone_entry fuel inode bh (Z.shiftr block 9) create;
          if i =? 0 then mret 0
          else
            dev ← fget inode i_dev;
            bh ← bread fuel dev i;
            if bh =? 0 then mret 0 else zone_entry fuel inode bh (Z.land block 511) create.

Definition bmap (fuel : nat) (inode block : Z) : M fstate Z := _bmap fuel inode block false.
Definition create_block (fuel : nat) (inode block : Z) : M fstate Z := _bmap fuel inode block true.

(** ** Truncation (fs/truncate.c) *)

(** [for (i=0;i<512;i++,p++) if ( *p) f( *p)] over the block in [bh]. *)
Definition free_entries (f : Z -> M fstate unit) (bh : Z) : M fstate unit :=
  p ← fget bh b_data;
  for_loop 512 0 (fun i =>
    z ← kload16 (p + 2 * i);
    when (negb (z =? 0)) (f z)).

Definition free_ind (fuel : nat) (dev block : Z) : M fstate unit :=
  if block =? 0 then mret tt
  else
    bh ← bread fuel dev block;
    _ ← when (negb (bh =? 0))
          (_ ← free_entries (free_block fuel dev) bh; brelse fuel bh);
    free_block fuel dev block.

Definition free_dind (fuel : nat) (dev block : Z) : M fstate unit :=
  if block =? 0 then mret tt
  else
    bh ← bread fuel dev block;
    _ ← when (negb (bh =? 0))
          (_ ← free_entries (free_ind fuel dev) bh; brelse fuel bh);
    free_block fuel dev block.

Definition truncate (fuel : nat) (inode : Z) : M fstate unit :=
  mode ← fget inode i_mode;
  if negb (S_ISREG mode || S_ISDIR mode) then mret tt
  else
    _ ← for_loop 7 0 (fun i =>
          z ← fget inode (i_zone i);
          when (negb (z =? 0))
            (dev ← fget inode i_dev;
             _ ← free_block fuel dev z;
             fput inode (i_zone i) 0));
    dev ← fget inode i_dev;
    z ← fget inode (i_zone 7);
    _ ← free_ind fuel dev z;
    dev ← fget inode i_dev;
    z ← fget inode (i_zone 8);
    _ ← free_dind fuel dev z;
    _ ← fput inode (i_zone 8) 0;
    _ ← fput inode (i_zone 7) 0;
    _ ← fput inode i_size 0;
    _ ← fput inode i_dirt 1;
    t ← fs_time;
    _ ← fput inode i_ctime t;
    fput inode i_mtime t.

(** ** The inode table *)

(** From [repeat:] on. *)
Fixpoint iput_last (fuel : nat) (inode : Z) : M fstate unit :=
  match fuel with
  | O => halt NoFuel
  | S fuel' =>
      l ← fget inode i_nlinks;
      if l =? 0 then
        _ ← truncate fuel inode;
        free_inode inode
      else
        dirt ← fget inode i_dirt;
        if negb (dirt =? 0) then
          _ ← write_inode fuel inode;
          _ ← wait_on_inode fuel inode;
          iput_last fuel' inode
        else fdec inode i_count
  end.

Definition iput (fuel : nat) (inode : Z) : M fstate unit :=
  if inode =? 0 then mret tt
  else
    _ ← wait_on_inode fuel inode;
    c ← fget inode i_count;
    _ ← when (c =? 0) (panic "iput: trying to free free inode");
    pipe ← fget inode i_pipe;
    if negb (pipe =? 0) then
      _ ← on_ps (wake_up (i_wait inode));
      _ ← fdec inode i_count;
      c ← fget inode i_count;
      if negb (c =? 0) then mret tt
      else
        page ← fget inode i_size;
        _ ← on_mm (free_page page);
        _ ← fput inode i_count 0;
        _ ← fput inode i_dirt 0;
        fput inode i_pipe 0
    else
      dev ← fget inode i_dev;
      c ← fget inode i_count;
      if (dev =? 0) || (1 <? c) then fdec inode i_count
      else iput_last fuel inode.

(** The search of [get_empty_inode] from [inr] on, round to where it began:
    the inode, or 0, and [inr] afterwards. *)
Fixpoint find_free_inode (n : nat) (inr : Z) : M fstate (Z * Z) :=
  match n with
  | O => mret (0, inr)
  | S n' =>
      c ← fget (inode_at inr) i_count;
      if c =? 0 then mret (inode_at inr, inr)
      else find_free_inode n' (if NR_INODE <=? inr + 1 then 0 else inr + 1)
  end.

(** [while (inode->i_dirt) { write_inode(inode); wait_on_inode(inode); }] *)
Fixpoint clean_inode (fuel : nat) (inode : Z) : M fstate unit :=
  dirt ← fget inode i_dirt;
  if dirt =? 0 then mret tt
  else
    match fuel with
    | O => halt NoFuel
    | S fuel' =>
        _ ← write_inode fuel inode;
        _ ← wait_on_inode fuel inode;
        clean_inode fuel' inode
    end.

Fixpoint get_empty_inode (fuel : nat) : M fstate Z :=
  match fuel with
  | O => halt NoFuel
  | S fuel' =>
      last ← gets last_allocated_inode;
      r ← find_free_inode (Z.to_nat NR_INODE) last;
      let '(inode, last) := r in
      _ ← when (inode =? 0)
            (_ ← for_loop (Z.to_nat NR_INODE) 0 (fun k =>
                   d ← fget (inode_at k) i_dev;
                   n ← fget (inode_at k) i_num;
                   fs_printk "%04x: %6d\t" [d; n]);
             panic "No free inodes in mem");
      _ ← modify (set_last_inode last);
      _ ← wait_on_inode fuel inode;
      _ ← clean_inode fuel inode;
      c ← fget inode i_count;
      if negb (c =? 0) then get_empty_inode fuel'
      else
        _ ← clear_inode inode;
        _ ← fput inode i_count 1;
        mret inode
  end.

(** [PIPE_HEAD] and [PIPE_TAIL]: longs laid over [i_zone]. *)
Definition pipe_get (inode k : Z) : M fstate Z :=
  lo ← fget inode (i_zone (2 * k));
  hi ← fget inode (i_zone (2 * k + 1));
  mret (s32 (lo + 65536 * hi)).
Definition pipe_put (inode k v : Z) : M fstate unit :=
  _ ← fput inode (i_zone (2 * k)) v;
  fput inode (i_zone (2 * k + 1)) (Z.shiftr v 16).
Definition PIPE_HEAD (inode : Z) : M fstate Z := pipe_get inode 0.
Definition PIPE_TAIL (inode : Z) : M fstate Z := pipe_get inode 1.

Definition get_pipe_inode (fuel : nat) : M fstate Z :=
  inode ← get_empty_inode fuel;
  if inode =? 0 then mret 0
  else
    page ← on_mm get_free_page;
    _ ← fput inode i_size page;
    if page =? 0 then
      _ ← fput inode i_count 0;
      mret 0
    else
      _ ← fput inode i_count 2;
      _ ← pipe_put inode 1 0;
      _ ← pipe_put inode 0 0;
      _ ← fput inode i_pipe 1;
      mret inode.

(** The search of [iget] from inode [i] of the table on; [n] bounds the inodes
    looked at, starting over included. *)
Fixpoint iget_scan (fuel n : nat) (i dev nr empty : Z) : M fstate Z :=
  if NR_INODE <=? i then
    if empty =? 0 then mret 0
    else
      _ ← fput empty i_dev dev;
      _ ← fput empty i_num nr;
      _ ← read_inode fuel empty;
      mret empty
  else
    match n with
    | O => halt NoFuel
    | S n' =>
        let inode := inode_at i in
        d ← fget inode i_dev;
        k ← fget inode i_num;
        if negb (d =? dev) || negb (k =? nr) then iget_scan fuel n' (i + 1) dev nr empty
        else
          _ ← wait_on_inode fuel inode;
          d ← fget inode i_dev;
          k ← fget inode i_num;
          if negb (d =? dev) || negb (k =? nr) then iget_scan fuel n' 0 dev nr empty
          else
            _ ← finc inode i_count;
            _ ← when (negb (empty =? 0)) (iput fuel empty);
            mret inode
    end.

Definition iget (fuel : nat) (dev nr : Z) : M fstate Z :=
  _ ← when (dev =? 0) (panic "iget with dev==0");
  empty ← get_empty_inode fuel;
  iget_scan fuel (32 * S fuel) 0 dev nr empty.

Definition new_inode (fuel : nat) (dev : Z) : M fstate Z :=
  inode ← get_empty_inode fuel;
  if inode =? 0 then mret 0
  else
    sb ← get_super dev;
    _ ← when (sb =? 0) (panic "new_inode with unknown device");
    r ← scan_maps 8 s_imap sb 0 0 8192;
    let '(i, bh, j) := r in
    ni ← fget sb s_ninodes;
    if (bh =? 0) || (8192 <=? j) || (ni <? j + i * 8192) then
      _ ← iput fuel inode;
      mret 0
    else
      d ← fget bh b_data;
      b ← set_bit j d;
      _ ← when (negb (b =? 0)) (panic "new_inode: bit already set");
      _ ← fput bh b_dirt 1;
      _ ← fput inode i_count 1;
      _ ← fput inode i_nlinks 1;
      _ ← fput inode i_dev dev;
      _ ← fput inode i_dirt 1;
      _ ← fput inode i_num (j + i * 8192);
      t ← fs_time;
      _ ← fput inode i_ctime t;
      _ ← fput inode i_atime t;
      _ ← fput inode i_mtime t;
      mret inode.
End inode.
