(* ===== verification/Zones.v ===== *)
(** * Zones: where the blocks of a file are

    [bmap] of src/linux-0.01/fs/inode.c against the map a minix volume
    prescribes, read off the blocks the cache stands for. *)

From S2P Require Import Prelude Mem Mm Proc Sched FsState Buffer BufferInv Getblk Contents Bitmap Inode.

(** Entry [k] of a block of zone numbers. *)
Definition entry_of (c : Z -> Z -> Z -> Z) (dev b k : Z) : Z := c dev b (2 * k) + 256 * c dev b (2 * k + 1).

(** Block [n] of the file whose zones are [z]: seven in the inode, 512 behind
    zone 7, 512 times 512 behind zone 8; 0 stands for a hole. *)
Definition file_zone (c : Z -> Z -> Z -> Z) (dev : Z) (z : Z -> Z) (n : Z) : Z :=
  if n <? 7 then z n
  else if n <? 7 + 512 then
    if z 7 =? 0 then 0 else entry_of c dev (z 7) (n - 7)
  else
    if z 8 =? 0 then 0
    else
      let i := entry_of c dev (z 8) ((n - 519) / 512) in
      if i =? 0 then 0 else entry_of c dev i ((n - 519) mod 512).

Section zones.
Context {FW : FsWorld} {GD : GoodDisk}.
Context (L : list Z) (c : Z -> Z -> Z -> Z) (dev inode : Z).

(** An inode of the device, in memory. *)
Record in_core (s : fstate) : Prop := {
  ic_dev : cell s inode i_dev = dev;
  ic_range : 0 < dev < 65536;
  ic_has f : f ∈ inode_fields -> has s inode f;
  ic_zone i : 0 <= i < 9 -> 0 <= cell s inode (i_zone i) < 65536
}.

Lemma zone_field i : 0 <= i < 9 -> i_zone i ∈ inode_fields.
Proof.
  intros Hi. assert (H : i = 0 \/ i = 1 \/ i = 2 \/ i = 3 \/ i = 4 \/ i = 5 \/ i = 6 \/ i = 7 \/ i = 8) by lia.
  repeat destruct H as [-> | H]; [in_list .. |]. subst. in_list.
Qed.

Lemma inode_field_rest f : f ∈ inode_fields -> (f ∉ buf_fields).
Proof.
  intros Hf%list_elem_of_In Hb%list_elem_of_In. cbn in Hf, Hb.
  repeat (destruct Hf as [<- | Hf]; [repeat (destruct Hb as [Hb | Hb]; [discriminate Hb |]); destruct Hb |]). destruct Hf.
Qed.

Lemma in_core_ud s s' : undisturbed L s s' -> in_core s -> in_core s'.
Proof.
  intros U [].
  assert (Hz : forall i, 0 <= i < 9 -> cell s' inode (i_zone i) = cell s inode (i_zone i)).
  { intros i Hi. by apply (ud_rest _ _ _ U), inode_field_rest, zone_field. }
  constructor; [| done | |].
  - rewrite <- ic_dev0. apply (ud_rest _ _ _ U), inode_field_rest. in_list.
  - intros f Hf. by apply (ud_has _ _ _ U), ic_has0.
  - intros i Hi. rewrite Hz by done. auto.
Qed.

(** One entry of a block of zone numbers, through the cache; nothing is made
    where something is. *)
Lemma read_entry s fuel b k (create : bool) :
  serves L c s -> in_core s -> 0 <= b < 65536 -> 0 <= k < 512 -> (0 < fuel)%nat ->
  create = false \/ entry_of c dev b k <> 0 ->
  exists bh s1 s2, bread fuel dev b s = Done bh s1 /\ (bh =? 0) = false /\
    zone_entry fuel inode bh k create s1 = Done (entry_of c dev b k) s2 /\
    serves L c s2 /\ undisturbed L s s2 /\ 0 <= entry_of c dev b k < 65536.
Proof.
  intros Hs Hi Hb Hk Hfuel Hcr.
  destruct (bread_then_brelse L c s fuel dev b Hs (ic_range _ Hi) Hb Hfuel)
    as (bh & s1 & s2 & Hrun & H0 & Hr1 & _ & Hhb & Hrel & Hs2 & Hud).
  assert (E : load16 (kmem s1) (cell s1 bh b_data + 2 * k) = entry_of c dev b k).
  { unfold load16, entry_of. rewrite <- !(hb_bytes _ _ _ _ _ _ _ Hhb) by lia.
    do 3 f_equal. lia. }
  exists bh, s1, s2. split; [done |]. split; [by apply Z.eqb_neq |].
  split; [| split; [done |]; split; [done |]; rewrite <- E; apply load16_range]. unfold zone_entry.
  assert (Hd : has s1 bh b_data) by (apply (ready_buf L); [done | apply Hhb | in_list]).
  fstep. unfold kload16. fstep. rewrite E.
  assert (Ec : create && (entry_of c dev b k =? 0) = false).
  { destruct Hcr as [-> | Hne]; [done |]. by rewrite (proj2 (Z.eqb_neq _ 0) Hne), andb_false_r. }
  rewrite Ec. fstep. by rewrite (bind_Done _ _ _ _ _ Hrel).
Qed.

Lemma make_zone_off s fuel n (create : bool) :
  in_core s -> 0 <= n < 9 -> create = false \/ cell s inode (i_zone n) <> 0 ->
  make_zone fuel inode n create s = Done tt s.
Proof.
  intros Hi Hn Hcr. unfold make_zone.
  assert (H : has s inode (i_zone n)) by by apply (ic_has _ Hi), zone_field. fstep.
  destruct Hcr as [-> | Hne]; [done |]. by rewrite (proj2 (Z.eqb_neq _ 0) Hne), andb_false_r.
Qed.

(** Where a block is, [bmap] and [create_block] are the same. *)
Lemma _bmap_run s fuel n (create : bool) :
  serves L c s -> in_core s -> 0 <= n < 7 + 512 + 512 * 512 -> (0 < fuel)%nat ->
  create = false \/ file_zone c dev (fun i => cell s inode (i_zone i)) n <> 0 ->
  exists s', _bmap fuel inode n create s = Done (file_zone c dev (fun i => cell s inode (i_zone i)) n) s' /\
    serves L c s' /\ undisturbed L s s' /\
    0 <= file_zone c dev (fun i => cell s inode (i_zone i)) n < 65536.
Proof.
  intros Hs Hi Hn Hfuel. unfold _bmap, file_zone.
  change (cell s inode (i_zone 7)) with ((fun i => cell s inode (i_zone i)) 7).
  change (cell s inode (i_zone 8)) with ((fun i => cell s inode (i_zone i)) 8).
  set (z := fun i => cell s inode (i_zone i)).
  rewrite (proj2 (Z.ltb_ge n 0)), (proj2 (Z.leb_gt _ n)) by lia. cbn [when]. do 2 fstep.
  assert (Hz : forall i, 0 <= i < 9 -> has s inode (i_zone i)) by (intros; by apply (ic_has _ Hi), zone_field).
  assert (Hd : has s inode i_dev) by (apply (ic_has _ Hi); in_list).
  destruct (Z.ltb_spec n 7) as [H7 | H7]; intros Hcr.
  { rewrite (bind_Done _ _ _ _ _ (make_zone_off s fuel n create Hi ltac:(lia) Hcr)).
    exists s. split; [apply fget_cell, Hz; lia |]. split; [done |]. split; [apply undisturbed_refl |].
    apply (ic_zone _ Hi). lia. }
  destruct (Z.ltb_spec n (7 + 512)) as [H512 | H512].
  { rewrite (proj2 (Z.ltb_lt (n - 7) 512)) by lia.
    assert (Hmk : create = false \/ cell s inode (i_zone 7) <> 0).
    { fold (z 7). destruct Hcr as [| Hcr]; [by left | right]. by destruct (Z.eqb_spec (z 7) 0). }
    rewrite (bind_Done _ _ _ _ _ (make_zone_off s fuel 7 create Hi ltac:(lia) Hmk)).
    pose proof (Hz 7 ltac:(lia)) as H7z. fstep. fold (z 7). destruct (Z.eqb_spec (z 7) 0) as [E | E].
    { exists s. split; [done |]. split; [done |]. split; [apply undisturbed_refl | lia]. }
    fstep. rewrite (ic_dev _ Hi).
    destruct (read_entry s fuel (z 7) (n - 7) create) as (bh & s1 & s2 & Hb & Hb0 & Hz2 & Hs2);
      [done | done | apply (ic_zone _ Hi); lia | lia | done | done |].
    exists s2. split; [| done]. rewrite (bind_Done _ _ _ _ _ Hb). by rewrite Hb0. }
  rewrite (proj2 (Z.ltb_ge (n - 7) 512)) by lia.
  assert (Hmk : create = false \/ cell s inode (i_zone 8) <> 0).
  { fold (z 8). destruct Hcr as [| Hcr]; [by left | right]. by destruct (Z.eqb_spec (z 8) 0). }
  rewrite (bind_Done _ _ _ _ _ (make_zone_off s fuel 8 create Hi ltac:(lia) Hmk)).
  pose proof (Hz 8 ltac:(lia)) as H8z. fstep. fold (z 8). destruct (Z.eqb_spec (z 8) 0) as [E | E].
  { exists s. split; [done |]. split; [done |]. split; [apply undisturbed_refl | lia]. }
  fstep. rewrite (ic_dev _ Hi).
  replace (n - 7 - 512) with (n - 519) by lia. rewrite Z.shiftr_div_pow2 by lia.
  change (Z.land (n - 519) 511) with (Z.land (n - 519) (Z.ones 9)). rewrite Z.land_ones by lia.
  change (2 ^ 9) with 512. set (k := (n - 519) / 512) in *.
  destruct (read_entry s fuel (z 8) k create) as (bh & s1 & s2 & Hb & Hb0 & Hz2 & Hs2 & Hud & Hr);
    [done | done | apply (ic_zone _ Hi); lia | unfold k; wrap_lia | done
    | destruct Hcr as [| Hcr]; [by left | right; cbv zeta in Hcr; by destruct (Z.eqb_spec (entry_of c dev (z 8) k) 0)] |].
  rewrite (bind_Done _ _ _ _ _ Hb), Hb0, (bind_Done _ _ _ _ _ Hz2). cbv zeta in Hcr |- *.
  destruct (Z.eqb_spec (entry_of c dev (z 8) k) 0) as [E' | E'].
  { exists s2. split; [done |]. split; [done |]. split; [done | lia]. }
  pose proof (in_core_ud _ _ Hud Hi) as Hi2.
  assert (Hd2 : has s2 inode i_dev) by (apply (ic_has _ Hi2); in_list). fstep. rewrite (ic_dev _ Hi2).
  destruct (read_entry s2 fuel (entry_of c dev (z 8) k) ((n - 519) mod 512) create)
    as (bh' & s3 & s4 & Hb' & Hb0' & Hz4 & Hs4 & Hud4 & Hr4); [done | done | lia | wrap_lia | done | done |].
  exists s4. rewrite (bind_Done _ _ _ _ _ Hb'), Hb0'. split; [done |]. split; [done |].
  split; [| done]. by eapply undisturbed_trans.
Qed.

Lemma bmap_run s fuel n :
  serves L c s -> in_core s -> 0 <= n < 7 + 512 + 512 * 512 -> (0 < fuel)%nat ->
  exists s', bmap fuel inode n s = Done (file_zone c dev (fun i => cell s inode (i_zone i)) n) s' /\
    serves L c s' /\ undisturbed L s s' /\
    0 <= file_zone c dev (fun i => cell s inode (i_zone i)) n < 65536.
Proof. intros. apply _bmap_run; [done .. | by left]. Qed.

(** C9: [bmap] answers with the zone that holds block [n] of the file: one of
    seven in the inode, of 512 in the block of zone 7, of 512 times 512 in the
    blocks of the block of zone 8, or 0 where any of these is missing. It
    answers with what was last written to those blocks, in whatever state the
    cache has them, and changes neither the blocks, nor the inode, nor the
    users of any buffer. Outside these bounds it panics. *)
Theorem bmap_correct s fuel n :
  serves L c s -> in_core s -> (0 < fuel)%nat ->
  (0 <= n < 7 + 512 + 512 * 512 ->
     exists s', bmap fuel inode n s = Done (file_zone c dev (fun i => cell s inode (i_zone i)) n) s' /\
       serves L c s' /\ undisturbed L s s') /\
  (n < 0 -> bmap fuel inode n s = Halt (Panic "_bmap: block<0")) /\
  (7 + 512 + 512 * 512 <= n -> bmap fuel inode n s = Halt (Panic "_bmap: block>big")).
Proof.
  intros Hs Hi Hfuel. split; [| unfold bmap, _bmap; split].
  - intros Hn. destruct (bmap_run s fuel n Hs Hi Hn Hfuel) as (s' & H1 & H2 & H3 & _). by exists s'.
  - intros Hn. by rewrite (proj2 (Z.ltb_lt n 0) Hn).
  - intros Hn. by rewrite (proj2 (Z.ltb_ge n 0)), (proj2 (Z.leb_le _ n) Hn) by lia.
Qed.
End zones.
