(* ===== verification/InodeDisk.v ===== *)
(** * InodeDisk: inodes in the blocks of a volume

    [read_inode] and [write_inode] of src/linux-0.01/fs/inode.c against the
    place an inode has on its volume: 32 bytes of one of the blocks behind the
    bit maps. *)

From S2P Require Import Prelude Mem Mm Proc Sched FsState Buffer BufferInv Getblk Contents CacheWrite Bitmap Inode.

(** A little-endian number of [n] bytes. *)
Definition le_at (g : Z -> Z) (x n : Z) : Z :=
  if n =? 1 then g x
  else if n =? 2 then g x + 256 * g (x + 1)
  else g x + 256 * g (x + 1) + 65536 * g (x + 2) + 16777216 * g (x + 3).

Definition inode_blk (base nr : Z) : Z := base + (nr - 1) / 32.
Definition inode_off (nr : Z) : Z := 32 * ((nr - 1) mod 32).

(** What the volume says of inode [nr]: the number at [o], [n] bytes wide. *)
Definition disk_field (c : Z -> Z -> Z -> Z) (dev base nr o n : Z) : Z :=
  le_at (c dev (inode_blk base nr)) (inode_off nr + o) n.

Definition disk_fields : list fld := d_inode_layout.*1.*1.

(** The fields follow one another between [lo] and [hi]. *)
Fixpoint laid (lo hi : Z) (l : list (fld * Z * Z)) : Prop :=
  match l with
  | [] => lo <= hi
  | (_, o, n) :: l' => lo <= o /\ (n = 1 \/ n = 2 \/ n = 4) /\ laid (o + n) hi l'
  end.

Lemma layout_laid : laid 0 32 d_inode_layout.
Proof. cbn. lia. Qed.
Lemma layout_nodup : NoDup disk_fields.
Proof. apply (bool_decide_unpack _). by vm_compute. Qed.
Lemma disk_inode_field f : f ∈ disk_fields -> f ∈ inode_fields.
Proof. intros H%list_elem_of_In. cbn in H. repeat (destruct H as [<- | H]; [in_list |]). destruct H. Qed.
Lemma disk_field_rest f : f ∈ disk_fields -> (f ∉ buf_fields) /\ f ∉ [i_dev; i_num; i_count; i_lock; i_dirt].
Proof.
  intros H%list_elem_of_In. cbn in H.
  repeat (destruct H as [<- | H]; [split; not_in_list |]). destruct H.
Qed.
Lemma layout_elem f o n : (f, o, n) ∈ d_inode_layout -> f ∈ disk_fields.
Proof. intros H. unfold disk_fields. apply list_elem_of_fmap. exists (f, o). split; [done |]. apply list_elem_of_fmap. by exists (f, o, n). Qed.
Lemma layout_bounds lo hi l f o n : laid lo hi l -> (f, o, n) ∈ l -> lo <= o /\ 0 < n /\ o + n <= hi /\ (n = 1 \/ n = 2 \/ n = 4).
Proof.
  assert (Hle : forall l lo hi, laid lo hi l -> lo <= hi).
  { clear. induction l as [| [[f o] n] l IH]; intros lo hi; cbn; [done |]. intros (H1 & H2 & H3%IH). lia. }
  revert lo. induction l as [| [[f' o'] n'] l IH]; intros lo; cbn; [intros _ H; by apply elem_of_nil in H |].
  intros (H1 & H2 & H3) [[= -> -> ->] | H]%elem_of_cons.
  - apply Hle in H3. lia.
  - destruct (IH _ H3 H) as (H4 & H5). split; [lia | done].
Qed.

(** A field keeps what its place on the disk can hold. *)
Lemma layout_norm f o n v : (f, o, n) ∈ d_inode_layout -> fnorm f v = v mod 2 ^ (8 * n).
Proof. intros H%list_elem_of_In. cbn in H. repeat (destruct H as [[= <- <- <-] | H]; [reflexivity |]). destruct H. Qed.

Lemma load_size_le m a n : n = 1 \/ n = 2 \/ n = 4 -> load_size m a n = le_at (load8 m) a n.
Proof.
  unfold load_size, le_at, load32, load16. intros [-> | [-> | ->]]; cbn [Z.eqb Pos.eqb]; [done .. |].
  replace (a + 2 + 1) with (a + 3) by lia. lia.
Qed.
Lemma load_size_range m a n : n = 1 \/ n = 2 \/ n = 4 -> 0 <= load_size m a n < 2 ^ (8 * n).
Proof. intros [-> | [-> | ->]]; [apply load8_range | apply load16_range | apply load32_range]. Qed.
Lemma load_store_size m a n v : n = 1 \/ n = 2 \/ n = 4 -> load_size (store_size m a n v) a n = v mod 2 ^ (8 * n).
Proof. intros [-> | [-> | ->]]; [apply load8_store8_eq | apply load16_store16_eq | apply load32_store32_eq]. Qed.
Lemma store_size_only m a n v :
  n = 1 \/ n = 2 \/ n = 4 -> 0 <= a -> a + n <= 2 ^ 32 -> only_changed m (store_size m a n v) a n.
Proof.
  intros Hn Ha Han x Hx Hout. unfold store_size. unfold in_u32 in Hx.
  destruct Hn as [-> | [-> | ->]]; cbn [Z.eqb Pos.eqb].
  - apply load8_store8_ne. rewrite !u32_small by (unfold in_u32; lia). lia.
  - rewrite load8_store16. decide_addr. done.
  - rewrite load8_store32. decide_addr. done.
Qed.
Lemma le_at_ext g g' x y n :
  n = 1 \/ n = 2 \/ n = 4 -> (forall k, 0 <= k < n -> g (x + k) = g' (y + k)) -> le_at g x n = le_at g' y n.
Proof.
  intros Hn H. assert (E0 : g x = g' y) by (generalize (H 0 ltac:(lia)); by rewrite !Z.add_0_r).
  unfold le_at. destruct Hn as [-> | [-> | ->]]; cbn [Z.eqb Pos.eqb]; rewrite ?E0, ?H by lia; done.
Qed.

(** Another inode has another place. *)
Lemma disk_field_other c dev base nr g d b k f o n :
  (f, o, n) ∈ d_inode_layout -> 1 <= nr -> 1 <= k -> (d = dev -> b = base) -> (d, k) <> (dev, nr) ->
  disk_field (write_at c dev (inode_blk base nr) (inode_off nr) 32 g) d b k o n = disk_field c d b k o n.
Proof.
  intros Hf Hnr Hk Hb Hne. destruct (layout_bounds _ _ _ _ _ _ layout_laid Hf) as (H0 & Hn0 & Hhi & Hn).
  unfold disk_field. apply le_at_ext; [done |]. intros x Hx. apply write_at_out.
  intros (-> & E & Hr). rewrite (Hb eq_refl) in E. unfold inode_blk, inode_off in *.
  assert (k <> nr) by congruence. wrap_lia.
Qed.

(** ** The structure assignments *)

Lemma copy_in_run inode a l : forall s,
  (forall f o n, (f, o, n) ∈ l -> has s inode f /\ (f ∉ buf_fields)) -> NoDup (l.*1.*1) ->
  exists s', copy_in l inode a s = Done tt s' /\ same_cache s s' /\ kmem s' = kmem s /\ beside s' = beside s /\
    (forall f o n, (f, o, n) ∈ l -> cell s' inode f = fnorm f (load_size (kmem s) (a + o) n)) /\
    (forall q g, q <> inode \/ (g ∉ l.*1.*1) -> cell s' q g = cell s q g).
Proof.
  induction l as [| [[f o] n] l IH]; intros s Hf Hnd; cbn [copy_in].
  { exists s. split; [done |]. split; [apply same_cache_refl |]. split; [done |]. split; [done |].
    split; [intros f o n H; by apply elem_of_nil in H | done]. }
  destruct (Hf f o n) as [Hh Hb]; [by left |]. fstep. fstep.
  set (s1 := upd inode f (load_size (kmem s) (a + o) n) s).
  cbn [fmap list_fmap fst] in Hnd. apply NoDup_cons in Hnd as [Hfl Hnd].
  destruct (IH s1) as (s' & Hrun & Hsc & Hm & Hp & Hin & Hout); [| done |].
  { intros f' o' n' H. destruct (Hf f' o' n') as [H1 H2]; [by right |]. split; [by apply has_upd | done]. }
  exists s'. split; [done |]. split; [eapply same_cache_trans; [by apply same_cache_upd | done] |].
  split; [done |]. split; [done |]. split.
  - intros f' o' n' [[= -> -> ->] | H]%elem_of_cons; [| by apply Hin].
    rewrite Hout by by right. apply cell_upd_eq.
  - intros q g Hne. cbn [fmap list_fmap fst] in Hne.
    rewrite Hout by set_solver. apply cell_upd_ne. intros [= -> ->]. set_solver.
Qed.

Lemma copy_out_run inode a l : forall lo hi s,
  laid lo hi l -> (forall f o n, (f, o, n) ∈ l -> has s inode f) -> 0 <= a + lo -> a + hi <= 2 ^ 32 ->
  exists m, copy_out l inode a s = Done tt (set_kmem m s) /\ only_changed (kmem s) m (a + lo) (hi - lo) /\
    (forall f o n, (f, o, n) ∈ l -> load_size m (a + o) n = cell s inode f mod 2 ^ (8 * n)).
Proof.
  induction l as [| [[f o] n] l IH]; intros lo hi s; cbn [copy_out laid].
  { intros Hl _ Ha Hb. exists (kmem s). split; [by destruct s |]. split; [apply only_changed_refl |].
    intros f o n H. by apply elem_of_nil in H. }
  intros (Hlo & Hn & Hl) Hf Ha Hb. assert (Hh : has s inode f) by (apply (Hf f o n); by left). fstep. fstep.
  assert (Hhi : o + n <= hi).
  { destruct l as [| [[f' o'] n'] l]; [done |]. destruct (layout_bounds _ _ _ f' o' n' Hl) as (H1 & H2 & H3 & _); [by left | lia]. }
  set (m1 := store_size (kmem s) (a + o) n (cell s inode f)).
  destruct (IH (o + n) hi (set_kmem m1 s) Hl) as (m & Hrun & Hout & Hin);
    [intros f' o' n' H; apply (Hf f' o' n'); by right | lia | lia |].
  cbn [kmem set_kmem] in Hrun, Hout. exists m. split; [exact Hrun |]. split.
  - apply (only_changed_trans _ m1).
    + apply (only_changed_weaken _ _ (a + o) n); [apply store_size_only; [done | lia | lia] | lia | lia].
    + apply (only_changed_weaken _ _ _ _ _ _ Hout); lia.
  - intros f' o' n' [[= -> -> ->] | H]%elem_of_cons; [| by rewrite (Hin f' o' n' H)].
    rewrite <- (load_store_size (kmem s) (a + o) n) by done. fold m1.
    rewrite !load_size_le by done. apply le_at_ext; [done |]. intros k Hk. apply Hout; [unfold in_u32; lia | lia].
Qed.

(** ** A mounted volume *)

Section inode_disk.
Context {FW : FsWorld} {GD : GoodDisk}.

(** The super block says where the inodes of the device are. *)
Record mounted (dev base : Z) (s : fstate) : Prop := {
  mn_dev : 0 < dev < 65536;
  mn_base : 2 <= base;
  mn_super : exists sb, get_super dev s = Done sb s /\ has s sb s_imap_blocks /\ has s sb s_zmap_blocks /\
    base = 2 + cell s sb s_imap_blocks + cell s sb s_zmap_blocks
}.

(** Fields that are neither of buffers nor of inodes, and what their objects are. *)
Definition elsewhere (s s' : fstate) : Prop :=
  (forall q g, (g ∉ buf_fields) -> (g ∉ inode_fields) -> cell s' q g = cell s q g) /\
  (forall q g, has s q g -> has s' q g).

Lemma elsewhere_trans s1 s2 s3 : elsewhere s1 s2 -> elsewhere s2 s3 -> elsewhere s1 s3.
Proof. intros [H1 H2] [H3 H4]. split; [intros; by rewrite H3, H1 | auto]. Qed.

Lemma get_super_elsewhere s s' dev : forall n p sb,
  elsewhere s s' -> get_super_from n p dev s = Done sb s -> get_super_from n p dev s' = Done sb s'.
Proof.
  intros n. induction n as [| n IH]; intros p sb He; cbn [get_super_from]; [by intros [= ->] |].
  intros H. destruct (cells s !! (p, s_dev)) as [v |] eqn:E.
  - assert (Hh : has s p s_dev) by by eexists. assert (Hh' : has s' p s_dev) by by apply He.
    revert H. do 2 fstep. rewrite (proj1 He) by not_in_list.
    destruct (_ =? dev); [by intros [= ->] | by apply IH].
  - revert H. unfold fget, get_opt, mbind, M_bind. by rewrite E.
Qed.

Lemma mounted_elsewhere dev base s s' : elsewhere s s' -> mounted dev base s -> mounted dev base s'.
Proof.
  intros He [Hd H0 (sb & H1 & H2 & H3 & Hb)]. constructor; [done | done |]. exists sb.
  split; [by apply (get_super_elsewhere s) |]. split; [by apply He |]. split; [by apply He |].
  by rewrite !(proj1 He) by not_in_list.
Qed.

Lemma elsewhere_upd q g v s : g ∈ inode_fields -> elsewhere s (upd q g v s).
Proof. intros Hg. split; [| intros; by apply has_upd]. intros p f _ Hf. apply cell_upd_fld. congruence. Qed.

Context (L : list Z) (dev base inode : Z).

(** An inode of the device, in memory, that nobody has locked. *)
Record loose (s : fstate) : Prop := {
  lo_has f : f ∈ inode_fields -> has s inode f;
  lo_lock : cell s inode i_lock = 0;
  lo_dev : cell s inode i_dev = dev;
  lo_num : 1 <= cell s inode i_num < 65536;
  lo_blk : inode_blk base (cell s inode i_num) < 65536
}.

Lemma wait_inode_run fuel s : has s inode i_lock -> cell s inode i_lock = 0 -> wait_on_inode fuel inode s = Done tt s.
Proof. intros H1 H2. destruct fuel; cbn [wait_on_inode]; fstep; by rewrite H2. Qed.

Lemma lock_inode_run fuel s :
  has s inode i_lock -> cell s inode i_lock = 0 -> lock_inode fuel inode s = Done tt (upd inode i_lock 1 s).
Proof. intros H1 H2. unfold lock_inode. rewrite (bind_Done _ _ _ _ _ (wait_inode_run fuel s H1 H2)). by apply fput_upd. Qed.

Lemma unlock_inode_run c s :
  serves L c s -> has s inode i_lock ->
  exists s', unlock_inode inode s = Done tt s' /\ serves L c s' /\
    (forall q g, cell s' q g = cell (upd inode i_lock 0 s) q g) /\ (forall q g, has s q g -> has s' q g) /\
    beside s' = beside s.
Proof.
  intros Hs Hl. unfold unlock_inode. fstep. set (s1 := upd inode i_lock 0 s).
  pose proof (rd_wake _ _ (proj1 Hs)) as Hw. destruct (Hw (i_wait inode)) as (p & Hp).
  unfold on_ps. change (fps s1) with (fps s). rewrite Hp. exists (set_fps p s1). split; [done |].
  split; [| split; [| split; [| unfold beside; cbn [set_fps fps last_allocated_inode]; by rewrite (proj2 (wake_up_again _ _ _ Hp))]]].
  - apply (serves_same_cache _ _ s); [| done | done]. apply (same_cache_trans _ s1); [apply same_cache_upd; not_in_list |].
    constructor; try done. intros _. exact (wake_up_all _ _ _ Hw Hp).
  - intros q g. by rewrite cell_set_fps.
  - intros q g H. apply has_set_fps. by apply has_upd.
Qed.

Lemma inode_block_run s nr :
  has s inode i_dev -> has s inode i_num -> cell s inode i_dev = dev -> cell s inode i_num = nr ->
  1 <= nr < 65536 -> inode_blk base nr < 65536 -> mounted dev base s ->
  inode_block inode s = Done (inode_blk base nr) s.
Proof.
  intros Hd Hn Ed En Hnr Hk [_ H0 (sb & Hsb & H1 & H2 & Hb)]. unfold inode_block. fstep.
  rewrite Ed, (bind_Done _ _ _ _ _ Hsb). do 3 fstep. rewrite En, (u32_small (nr - 1)) by (unfold in_u32; lia).
  unfold inode_blk in Hk |- *. change INODES_PER_BLOCK with 32. rewrite <- Hb. f_equal. apply s32_small.
  clear Hb. wrap_lia.
Qed.

(** Both begin by locking the inode and getting its block. *)
Definition inode_body (fuel : nat) (k : Z -> M fstate unit) : M fstate unit :=
  block ← inode_block inode;
  dev ← fget inode i_dev;
  bh ← bread fuel dev block;
  _ ← when (bh =? 0) (panic "unable to read i-node block");
  k bh.

Lemma get_inode_block c fuel s k :
  serves L c s -> loose s -> mounted dev base s -> (0 < fuel)%nat ->
  let blk := inode_blk base (cell s inode i_num) in let s1 := upd inode i_lock 1 s in
  exists bh s2, (_ ← lock_inode fuel inode; inode_body fuel k) s = k bh s2 /\
    spare L s1 /\ ready L s2 /\ holds L c s2 /\ has_block L c dev blk bh s1 s2 /\
    inode_offset inode bh s2 = Done (cell s2 bh b_data + inode_off (cell s inode i_num)) s2.
Proof.
  intros Hs Hl Hmn Hfuel blk s1.
  assert (Hlk : has s inode i_lock) by (apply (lo_has _ Hl); in_list).
  rewrite (bind_Done _ _ _ _ _ (lock_inode_run fuel s Hlk (lo_lock _ Hl))). fold s1. unfold inode_body.
  assert (Hn1 : cell s1 inode i_num = cell s inode i_num) by (by apply cell_upd_fld).
  assert (Hd1 : cell s1 inode i_dev = dev) by (unfold s1; rewrite cell_upd_fld by done; apply (lo_dev _ Hl)).
  assert (Hmn1 : mounted dev base s1) by (apply (mounted_elsewhere _ _ s); [apply elsewhere_upd; in_list | done]).
  assert (Hbl : inode_block inode s1 = Done blk s1).
  { apply inode_block_run; [apply has_upd, (lo_has _ Hl); in_list | apply has_upd, (lo_has _ Hl); in_list | done | done
      | apply (lo_num _ Hl) | apply (lo_blk _ Hl) | done]. }
  rewrite (bind_Done _ _ _ _ _ Hbl). assert (Hd : has s1 inode i_dev) by (apply has_upd, (lo_has _ Hl); in_list).
  fstep. rewrite Hd1.
  assert (Hs1 : serves L c s1) by (apply (serves_same_cache _ _ s); [apply same_cache_upd; not_in_list | done | done]).
  destruct Hs1 as (Hr & Hsp & Hh). pose proof (mn_base _ _ _ Hmn). pose proof (lo_num _ Hl). pose proof (lo_blk _ Hl).
  destruct (bread_run L c s1 fuel dev blk Hr Hsp Hh (mn_dev _ _ _ Hmn)) as (bh & s2 & Hrun & Hr2 & Hh2 & Hhb);
    [unfold blk, inode_blk in *; wrap_lia | done |].
  rewrite (bind_Done _ _ _ _ _ Hrun). pose proof (ready_addr L s2 bh Hr2 (hb_in _ _ _ _ _ _ _ Hhb)).
  rewrite (proj2 (Z.eqb_neq bh 0)) by lia. cbn [when]. fstep.
  exists bh, s2. split; [done |]. split; [done |]. split; [done |]. split; [done |]. split; [done |].
  unfold inode_offset. assert (Hbd : has s2 bh b_data) by (apply (ready_buf L); [done | apply Hhb | in_list]).
  assert (Hn2 : has s2 inode i_num) by (apply (hb_has _ _ _ _ _ _ _ Hhb), has_upd, (lo_has _ Hl); in_list).
  do 2 fstep. rewrite (hb_rest _ _ _ _ _ _ _ Hhb inode i_num), Hn1 by not_in_list. unfold inode_off.
  rewrite u32_small by (unfold in_u32; lia). done.
Qed.

(** [read_inode]: the fields of the volume, and nothing else. *)
Lemma read_inode_run c fuel s :
  serves L c s -> loose s -> mounted dev base s -> (0 < fuel)%nat ->
  exists s', read_inode fuel inode s = Done tt s' /\ serves L c s' /\
    (forall f o n, (f, o, n) ∈ d_inode_layout -> cell s' inode f = disk_field c dev base (cell s inode i_num) o n /\
       0 <= cell s' inode f < 2 ^ (8 * n)) /\
    (forall q g, (g ∉ buf_fields) -> q <> inode \/ (g ∉ disk_fields) -> cell s' q g = cell s q g) /\
    (forall q g, has s q g -> has s' q g) /\ beside s' = beside s.
Proof.
  intros Hs Hl Hmn Hfuel.
  destruct (get_inode_block c fuel s (fun bh =>
    a ← inode_offset inode bh; _ ← copy_in d_inode_layout inode a; _ ← brelse fuel bh; unlock_inode inode) Hs Hl Hmn Hfuel)
    as (bh & s2 & Hrun & Hsp & Hr2 & Hh2 & Hhb & Hoff).
  set (s1 := upd inode i_lock 1 s) in *. set (nr := cell s inode i_num) in *.
  assert (Hhas2 : forall q g, has s q g -> has s2 q g) by (intros; by apply (hb_has _ _ _ _ _ _ _ Hhb), has_upd).
  destruct (copy_in_run inode (cell s2 bh b_data + inode_off nr) d_inode_layout s2)
    as (s3 & Hcopy & Hsc & Hm & Hp & Hin & Hout); [| apply layout_nodup |].
  { intros f o n Hf%layout_elem. split; [by apply Hhas2, (lo_has _ Hl), disk_inode_field | by apply disk_field_rest]. }
  destruct (brelse_after L c dev _ bh s1 s2 s3 fuel Hsp Hhb Hr2 Hh2 Hsc Hm)
    as (s4 & Hrel & Hs4 & Hrest & Hhas4 & Hum & _).
  assert (Hhas3 : forall q g, has s q g -> has s3 q g) by (intros; by apply (sc_has _ _ Hsc), Hhas2).
  destruct (unlock_inode_run c s4 Hs4) as (s5 & Hunl & Hs5 & Hc5 & Hhas5 & Hum5);
    [apply Hhas4, Hhas3, (lo_has _ Hl); in_list |].
  exists s5. split.
  { unfold read_inode. rewrite <- Hunl. etransitivity; [exact Hrun |]. rewrite (bind_Done _ _ _ _ _ Hoff).
    rewrite (bind_Done _ _ _ _ _ Hcopy). by rewrite (bind_Done _ _ _ _ _ Hrel). }
  split; [done |]. split; [| split; [| split]].
  - intros f o n Hf. destruct (disk_field_rest f (layout_elem _ _ _ Hf)) as [Hb Hi].
    rewrite Hc5, cell_upd_fld, Hrest, (Hin f o n Hf) by (done || (intros ->; set_solver)).
    destruct (layout_bounds _ _ _ _ _ _ layout_laid Hf) as (H0 & Hn0 & Hhi & Hn).
    rewrite (layout_norm _ _ _ _ Hf), Z.mod_small by by apply load_size_range.
    split; [| by apply load_size_range].
    rewrite load_size_le by done. unfold disk_field. apply le_at_ext; [done |]. intros k Hk.
    assert (0 <= inode_off nr <= 992) by (unfold inode_off; wrap_lia).
    rewrite <- (hb_bytes _ _ _ _ _ _ _ Hhb) by lia. f_equal. lia.
  - intros q g Hg Hne. rewrite Hc5. destruct (decide ((q, g) = (inode, i_lock))) as [[= -> ->] | Hn].
    + rewrite cell_upd_eq. by rewrite (lo_lock _ Hl).
    + rewrite cell_upd_ne, Hrest, Hout, (hb_rest _ _ _ _ _ _ _ Hhb) by done. by apply cell_upd_ne.
  - intros q g H. by apply Hhas5, Hhas4, Hhas3.
  - by rewrite Hum5, Hum, Hp, (hb_beside _ _ _ _ _ _ _ Hhb).
Qed.

(** [write_inode]: the inode's place on the volume, and no other. *)
Lemma write_inode_run c fuel s :
  serves L c s -> loose s -> mounted dev base s -> (0 < fuel)%nat ->
  exists g s', let nr := cell s inode i_num in
    let c' := write_at c dev (inode_blk base nr) (inode_off nr) 32 g in
    write_inode fuel inode s = Done tt s' /\ serves L c' s' /\
    (forall f o n, (f, o, n) ∈ d_inode_layout -> disk_field c' dev base nr o n = cell s inode f mod 2 ^ (8 * n)) /\
    cell s' inode i_dirt = 0 /\
    (forall q f, (f ∉ buf_fields) -> (q, f) <> (inode, i_dirt) -> cell s' q f = cell s q f) /\
    (forall q f, has s q f -> has s' q f) /\ beside s' = beside s.
Proof.
  intros Hs Hl Hmn Hfuel.
  destruct (get_inode_block c fuel s (fun bh =>
    a ← inode_offset inode bh; _ ← copy_out d_inode_layout inode a;
    _ ← fput bh b_dirt 1; _ ← fput inode i_dirt 0; _ ← brelse fuel bh; unlock_inode inode) Hs Hl Hmn Hfuel)
    as (bh & s2 & Hrun & Hsp & Hr2 & Hh2 & Hhb & Hoff).
  set (s1 := upd inode i_lock 1 s) in *. set (nr := cell s inode i_num) in *.
  assert (Hhas2 : forall q g, has s q g -> has s2 q g) by (intros; by apply (hb_has _ _ _ _ _ _ _ Hhb), has_upd).
  pose proof (rd_range _ _ Hr2 bh (hb_in _ _ _ _ _ _ _ Hhb)) as Hrg.
  assert (Hoffr : 0 <= inode_off nr <= 992) by (unfold inode_off; wrap_lia).
  destruct (copy_out_run inode (cell s2 bh b_data + inode_off nr) d_inode_layout 0 32 s2 layout_laid)
    as (m & Hcopy & Hout & Hin); [| lia | lia |].
  { intros f o n Hf%layout_elem. by apply Hhas2, (lo_has _ Hl), disk_inode_field. }
  rewrite Z.add_0_r, Z.sub_0_r in Hout.
  set (s3 := upd inode i_dirt 0 (upd bh b_dirt 1 (set_kmem m s2))).
  set (gb := fun x => load8 m (cell s2 bh b_data + inode_off nr + x)).
  assert (Hsc : same_cache (upd bh b_dirt 1 s2) s3).
  { apply (same_cache_trans _ (upd bh b_dirt 1 (set_kmem m s2))); [by constructor | apply same_cache_upd; not_in_list]. }
  assert (Hst : stored bh (inode_off nr) 32 gb s2 s3) by by apply stored_intro.
  pose proof (mn_dev _ _ _ Hmn) as Hdev.
  destruct (brelse_stored L c dev _ bh (inode_off nr) 32 gb s1 s2 s3 fuel Hsp Hhb Hr2 Hh2)
    as (s4 & Hrel & Hs4 & Hrest & Hhas4 & Hum); [lia | done | lia | lia |].
  assert (Hhas3 : forall q g, has s q g -> has s3 q g).
  { intros q g H. do 2 apply has_upd. by apply has_set_kmem, Hhas2. }
  destruct (unlock_inode_run _ s4 Hs4) as (s5 & Hunl & Hs5 & Hc5 & Hhas5 & Hum5);
    [apply Hhas4, Hhas3, (lo_has _ Hl); in_list |].
  exists gb, s5. cbv zeta. split.
  { unfold write_inode. rewrite <- Hunl. etransitivity; [exact Hrun |]. rewrite (bind_Done _ _ _ _ _ Hoff).
    rewrite (bind_Done _ _ _ _ _ Hcopy).
    assert (H1 : has (set_kmem m s2) bh b_dirt) by (apply has_set_kmem, (ready_buf L); [done | apply Hhb | in_list]).
    rewrite (bind_Done _ _ _ _ _ (fput_upd _ bh b_dirt 1 H1)).
    assert (H2 : has (upd bh b_dirt 1 (set_kmem m s2)) inode i_dirt)
      by (apply has_upd, has_set_kmem, Hhas2, (lo_has _ Hl); in_list).
    rewrite (bind_Done _ _ _ _ _ (fput_upd _ inode i_dirt 0 H2)). by rewrite (bind_Done _ _ _ _ _ Hrel). }
  split; [done |]. split; [| split; [| split; [| split]]].
  - intros f o n Hf. destruct (layout_bounds _ _ _ _ _ _ layout_laid Hf) as (H0 & Hn0 & Hhi & Hn).
    destruct (disk_field_rest f (layout_elem _ _ _ Hf)) as [Hb Hi].
    assert (Ec : cell s2 inode f = cell s inode f).
    { rewrite (hb_rest _ _ _ _ _ _ _ Hhb) by done. apply cell_upd_fld. intros ->. set_solver. }
    rewrite <- Ec, <- (Hin f o n Hf), load_size_le by done. unfold disk_field. apply le_at_ext; [done |].
    intros k Hk. rewrite write_at_in by lia. unfold gb. f_equal. lia.
  - rewrite Hc5, cell_upd_fld, Hrest by (done || not_in_list). apply cell_upd_eq.
  - intros q g Hg Hne. rewrite Hc5. destruct (decide ((q, g) = (inode, i_lock))) as [[= -> ->] | Hn].
    + rewrite cell_upd_eq. by rewrite (lo_lock _ Hl).
    + rewrite cell_upd_ne, Hrest by done. unfold s3. rewrite cell_upd_ne by done.
      rewrite cell_upd_fld, cell_set_kmem, (hb_rest _ _ _ _ _ _ _ Hhb) by (done || (intros ->; apply Hg; in_list)).
      by apply cell_upd_ne.
  - intros q g H. by apply Hhas5, Hhas4, Hhas3.
  - rewrite Hum5, Hum. exact (hb_beside _ _ _ _ _ _ _ Hhb).
Qed.
End inode_disk.
