(* ===== verification/Iget.v ===== *)
(** * Iget: the inode cache

    The table of inodes in memory of src/linux-0.01/fs/inode.c stands for a
    function from the numbers of inodes to their fields ([I] below), some of
    which are in the table, some on the volume, some newer in the table than on
    the volume. [iget] gives an inode of that function, whatever it has to write
    out or read in; [get_empty_inode] makes room. *)

From S2P Require Import Prelude Mem Mm Proc Sched FsState Buffer BufferInv Getblk Contents CacheWrite Bitmap Inode Zones InodeDisk.

Section iget.
Context {FW : FsWorld} {GD : GoodDisk}.
Context (L : list Z) (devs : list Z) (base : Z -> Z) (I : Z -> Z -> fld -> Z).

Definition key (s : fstate) (i : Z) : Z * Z := (cell s (inode_at i) i_dev, cell s (inode_at i) i_num).
Definition slot (i : Z) : Prop := 0 <= i < NR_INODE.

(** The inodes there are. *)
Definition valid (d nr : Z) : Prop := d ∈ devs /\ 1 <= nr < 65536 /\ inode_blk (base d) nr < 65536.

(** One inode of the table. *)
Record slot_ok (c : Z -> Z -> Z -> Z) (s : fstate) (i : Z) : Prop := {
  so_has f : f ∈ inode_fields -> has s (inode_at i) f;
  so_lock : cell s (inode_at i) i_lock = 0;
  so_count : 0 <= cell s (inode_at i) i_count < 65535;
  so_free : cell s (inode_at i) i_dev = 0 -> cell s (inode_at i) i_dirt = 0;
  so_valid : cell s (inode_at i) i_dev <> 0 -> valid (key s i).1 (key s i).2;
  so_mem f o n : cell s (inode_at i) i_dev <> 0 -> (f, o, n) ∈ d_inode_layout ->
    cell s (inode_at i) f = I (key s i).1 (key s i).2 f /\ 0 <= cell s (inode_at i) f < 2 ^ (8 * n);
  so_clean f o n : cell s (inode_at i) i_dev <> 0 -> cell s (inode_at i) i_dirt = 0 -> (f, o, n) ∈ d_inode_layout ->
    disk_field c (key s i).1 (base (key s i).1) (key s i).2 o n = I (key s i).1 (key s i).2 f
}.

(** The table and the volumes stand for [I]. *)
Record inodes (c : Z -> Z -> Z -> Z) (s : fstate) : Prop := {
  in_serves : serves L c s;
  in_addr i : slot i -> inode_at i <> 0;
  in_mounted d : d ∈ devs -> mounted d (base d) s;
  in_slot i : slot i -> slot_ok c s i;
  in_unique i j : slot i -> slot j -> cell s (inode_at i) i_dev <> 0 -> key s i = key s j -> i = j;
  in_disk d nr f o n : valid d nr -> (forall i, slot i -> key s i <> (d, nr)) -> (f, o, n) ∈ d_inode_layout ->
    disk_field c d (base d) nr o n = I d nr f;
  in_last : slot (last_allocated_inode s)
}.

Lemma inode_at_inj i j : inode_at i = inode_at j -> i = j.
Proof. unfold inode_at, sizeof_m_inode. lia. Qed.

Lemma key_same s s' i :
  (forall g, g ∈ inode_fields -> cell s' (inode_at i) g = cell s (inode_at i) g) -> key s' i = key s i.
Proof. intros H. unfold key. by rewrite !H by in_list. Qed.

Lemma slot_ok_same c c' s s' i :
  slot_ok c s i -> (forall g, g ∈ inode_fields -> cell s' (inode_at i) g = cell s (inode_at i) g) ->
  (forall q g, has s q g -> has s' q g) ->
  (forall f o n, cell s (inode_at i) i_dev <> 0 -> cell s (inode_at i) i_dirt = 0 -> (f, o, n) ∈ d_inode_layout ->
    disk_field c' (key s i).1 (base (key s i).1) (key s i).2 o n =
    disk_field c (key s i).1 (base (key s i).1) (key s i).2 o n) ->
  slot_ok c' s' i.
Proof.
  intros [] Hc Hh Hd. pose proof (key_same s s' i Hc) as Ek. constructor.
  - auto.
  - by rewrite Hc by in_list.
  - by rewrite Hc by in_list.
  - by rewrite !Hc by in_list.
  - rewrite Hc, Ek by in_list. done.
  - intros f o n. rewrite Hc, Ek by in_list. intros Hv Hf. rewrite Hc by (eapply disk_inode_field, layout_elem, Hf). by apply (so_mem0 f o n).
  - intros f o n. rewrite !Hc, Ek by in_list. intros Hv Hdt Hf. rewrite (Hd f) by done. by apply so_clean0.
Qed.

(** A change of one inode of the table. *)
Lemma inodes_slot c c' s s' k :
  inodes c s -> slot k -> serves L c' s' -> elsewhere s s' -> slot (last_allocated_inode s') ->
  (forall j g, j <> k -> g ∈ inode_fields -> cell s' (inode_at j) g = cell s (inode_at j) g) ->
  slot_ok c' s' k ->
  (cell s' (inode_at k) i_dev <> 0 -> forall j, slot j -> j <> k -> key s j <> key s' k) ->
  (forall j f o n, slot j -> j <> k -> cell s (inode_at j) i_dev <> 0 -> (f, o, n) ∈ d_inode_layout ->
    disk_field c' (key s j).1 (base (key s j).1) (key s j).2 o n =
    disk_field c (key s j).1 (base (key s j).1) (key s j).2 o n) ->
  (forall d nr f o n, valid d nr -> (forall i, slot i -> key s' i <> (d, nr)) -> (f, o, n) ∈ d_inode_layout ->
    disk_field c' d (base d) nr o n = I d nr f) ->
  inodes c' s'.
Proof.
  intros [] Hk Hs He Hlast Hc Hok Hu Hd Hdisk.
  assert (Ek : forall j, j <> k -> key s' j = key s j) by (intros j Hj; apply key_same; auto).
  constructor; [done | done | | | | done | done].
  - intros d H. apply (mounted_elsewhere _ _ s); auto.
  - intros j Hj. destruct (decide (j = k)) as [-> | Hne]; [done |].
    apply (slot_ok_same c c' s s'); [auto | auto | apply He | intros; by apply (Hd j f)].
  - intros i j Hi Hj H0 E. destruct (decide (i = k)) as [-> | Hik], (decide (j = k)) as [-> | Hjk]; [done | | |].
    + exfalso. apply (Hu H0 j Hj Hjk). by rewrite <- (Ek j).
    + exfalso. apply (Hu ltac:(injection E; congruence) i Hi Hik). by rewrite <- (Ek i).
    + apply in_unique0; [done | done | | by rewrite <- (Ek i), <- (Ek j)]. rewrite <- (Hc i) by (done || in_list). done.
Qed.

Lemma slot_loose c s k :
  inodes c s -> slot k -> cell s (inode_at k) i_dev <> 0 ->
  loose (key s k).1 (base (key s k).1) (inode_at k) s /\ mounted (key s k).1 (base (key s k).1) s.
Proof.
  intros Hi Hk Hd. pose proof (in_slot _ _ Hi k Hk) as Hs. destruct (so_valid _ _ _ Hs Hd) as (H1 & H2 & H3).
  split; [by constructor; [apply (so_has _ _ _ Hs) | apply (so_lock _ _ _ Hs) | ..] | by apply (in_mounted _ _ Hi)].
Qed.

(** What writing an inode out leaves alone. *)
Definition but_dirt (k : Z) (s s' : fstate) : Prop :=
  (forall q f, (f ∉ buf_fields) -> (q, f) <> (inode_at k, i_dirt) -> cell s' q f = cell s q f) /\
  (forall q f, has s q f -> has s' q f) /\ beside s' = beside s.

Lemma but_dirt_field k s s' j g :
  but_dirt k s s' -> g ∈ inode_fields -> (j, g) <> (k, i_dirt) -> cell s' (inode_at j) g = cell s (inode_at j) g.
Proof.
  intros [H _] Hg Hne. apply H; [by apply inode_field_rest | intros [= Hj ->]; apply Hne; by rewrite (inode_at_inj _ _ Hj)].
Qed.

Lemma but_dirt_elsewhere k s s' : but_dirt k s s' -> elsewhere s s'.
Proof. intros (H1 & H2 & _). split; [| done]. intros q g Hb Hg. apply H1; [done |]. intros [= -> ->]. apply Hg. in_list. Qed.

(** Writing an inode of the table out. *)
Lemma write_slot c fuel s k :
  inodes c s -> slot k -> cell s (inode_at k) i_dev <> 0 -> (0 < fuel)%nat ->
  exists c' s', write_inode fuel (inode_at k) s = Done tt s' /\ inodes c' s' /\
    cell s' (inode_at k) i_dirt = 0 /\ but_dirt k s s'.
Proof.
  intros Hi Hk Hd Hfuel. destruct (slot_loose c s k Hi Hk Hd) as [Hl Hm].
  pose proof (in_slot _ _ Hi k Hk) as Hok. destruct (so_valid _ _ _ Hok Hd) as (Hdv & Hnr & Hblk).
  destruct (write_inode_run L _ _ (inode_at k) c fuel s (in_serves _ _ Hi) Hl Hm Hfuel)
    as (g & s' & Hrun & Hs' & Hdisk & Hdt & Hrest & Hhas & Hbes).
  set (dev := (key s k).1) in *. set (nr := (key s k).2) in *.
  change (cell s (inode_at k) i_num) with nr in *.
  set (c' := write_at c dev (inode_blk (base dev) nr) (inode_off nr) 32 g) in *.
  assert (Hbd : but_dirt k s s') by done. exists c', s'. split; [done |]. split; [| done].
  assert (Hc : forall j f, (j, f) <> (k, i_dirt) -> f ∈ inode_fields -> cell s' (inode_at j) f = cell s (inode_at j) f)
    by (intros; by apply (but_dirt_field k s s')).
  assert (Ek : key s' k = key s k) by (unfold key; by rewrite !Hc by (done || in_list)).
  assert (Hnew : forall f o n, (f, o, n) ∈ d_inode_layout -> disk_field c' dev (base dev) nr o n = I dev nr f).
  { intros f o n Hf. rewrite (Hdisk f o n Hf). destruct (so_mem _ _ _ Hok f o n Hd Hf) as [-> Hr]. by apply Z.mod_small. }
  assert (Hold : forall d x f o n, (f, o, n) ∈ d_inode_layout -> 1 <= x -> (d, x) <> (dev, nr) ->
    disk_field c' d (base d) x o n = disk_field c d (base d) x o n).
  { intros d x f o n Hf Hx Hne. apply (disk_field_other _ _ _ _ _ _ _ _ f); [done | lia | done | by intros -> | done]. }
  apply (inodes_slot c c' s s' k); [done .. | by apply (but_dirt_elsewhere k) | | | | | |].
  - injection Hbes as _ ->. apply (in_last _ _ Hi).
  - intros j f Hj Hf. apply Hc; [congruence | done].
  - constructor.
    + intros f Hf. by apply Hhas, (so_has _ _ _ Hok).
    + rewrite Hc by (done || in_list). apply (so_lock _ _ _ Hok).
    + rewrite Hc by (done || in_list). apply (so_count _ _ _ Hok).
    + done.
    + intros _. rewrite Ek. done.
    + intros f o n _ Hf. pose proof (layout_elem _ _ _ Hf) as Hf'. rewrite Ek, Hc.
      * by apply (so_mem _ _ _ Hok f o n).
      * intros [= ->]. apply disk_field_rest in Hf' as [_ Hn]. apply Hn. in_list.
      * by apply disk_inode_field.
    + intros f o n _ _ Hf. rewrite Ek. by apply Hnew.
  - intros _ j Hj Hne. rewrite Ek. intros E. apply Hne. symmetry. by apply (in_unique _ _ Hi).
  - intros j f o n Hj Hne Hdj Hf. apply (Hold _ _ f); [done | |].
    + destruct (so_valid _ _ _ (in_slot _ _ Hi j Hj) Hdj) as (_ & ? & _). lia.
    + intros E. apply Hne. apply (in_unique _ _ Hi); [done .. | exact E].
  - intros d x f o n Hv Hno Hf. destruct (decide ((d, x) = (dev, nr))) as [[= -> ->] | Hne]; [by apply (Hnew f) |].
    rewrite (Hold d x f) by (done || (destruct Hv as (_ & ? & _); lia)). apply (in_disk _ _ Hi); [done | | done].
    intros i Hslot E. apply (Hno i Hslot). rewrite <- E. apply key_same. intros f' Hf'. destruct (decide (i = k)) as [-> |].
    + exfalso. apply Hne. by rewrite <- E.
    + apply Hc; [congruence | done].
Qed.

Lemma but_dirt_refl k s : but_dirt k s s.
Proof. done. Qed.

Lemma clean_run c fuel s k :
  inodes c s -> slot k -> (0 < fuel)%nat ->
  exists c' s', clean_inode fuel (inode_at k) s = Done tt s' /\ inodes c' s' /\
    cell s' (inode_at k) i_dirt = 0 /\ but_dirt k s s'.
Proof.
  intros Hi Hk Hfuel. pose proof (in_slot _ _ Hi k Hk) as Hok.
  assert (Hh : has s (inode_at k) i_dirt) by (apply (so_has _ _ _ Hok); in_list).
  destruct fuel as [| fuel]; [lia |]. cbn [clean_inode]. fstep.
  destruct (Z.eqb_spec (cell s (inode_at k) i_dirt) 0) as [E | E]; [by exists c, s |].
  assert (Hd : cell s (inode_at k) i_dev <> 0) by (intros H; by apply E, (so_free _ _ _ Hok)).
  destruct (write_slot c (S fuel) s k Hi Hk Hd ltac:(lia)) as (c' & s' & Hrun & Hi' & Hdt & Hbd).
  exists c', s'. split; [| done]. rewrite (bind_Done _ _ _ _ _ Hrun).
  pose proof (in_slot _ _ Hi' k Hk) as Hok'.
  rewrite (bind_Done _ _ s' tt s').
  2: { apply wait_inode_run; [apply (so_has _ _ _ Hok'); in_list | apply (so_lock _ _ _ Hok')]. }
  assert (Hh' : has s' (inode_at k) i_dirt) by (apply (so_has _ _ _ Hok'); in_list).
  destruct fuel; cbn [clean_inode]; fstep; by rewrite Hdt.
Qed.

(** The search for an unused inode goes round the table. *)
Lemma find_free_run s : (forall i, slot i -> has s (inode_at i) i_count) -> forall n inr, slot inr ->
  (exists k, slot k /\ cell s (inode_at k) i_count = 0 /\ find_free_inode n inr s = Done (inode_at k, k) s) \/
  (forall j, 0 <= j < Z.of_nat n -> cell s (inode_at ((inr + j) mod 32)) i_count <> 0).
Proof.
  intros Hh. induction n as [| n IH]; intros inr Hr; [right; lia |]. cbn [find_free_inode].
  assert (Hc : has s (inode_at inr) i_count) by auto. fstep.
  destruct (Z.eqb_spec (cell s (inode_at inr) i_count) 0) as [E | E]; [left; by exists inr |].
  unfold slot, NR_INODE in *.
  assert (En : (if 32 <=? inr + 1 then 0 else inr + 1) = (inr + 1) mod 32) by (destruct (Z.leb_spec 32 (inr + 1)); wrap_lia).
  rewrite En. destruct (IH ((inr + 1) mod 32)) as [H | H]; [wrap_lia | by left | right].
  intros j Hj. destruct (decide (j = 0)) as [-> |].
  - rewrite Z.add_0_r, Z.mod_small by lia. done.
  - replace ((inr + j) mod 32) with (((inr + 1) mod 32 + (j - 1)) mod 32) by wrap_lia. apply H. lia.
Qed.

Lemma find_free_all s f :
  (forall i, slot i -> has s (inode_at i) i_count) -> slot (last_allocated_inode s) ->
  slot f -> cell s (inode_at f) i_count = 0 ->
  exists k, slot k /\ cell s (inode_at k) i_count = 0 /\
    find_free_inode (Z.to_nat NR_INODE) (last_allocated_inode s) s = Done (inode_at k, k) s.
Proof.
  intros Hh Hl Hf H0. destruct (find_free_run s Hh (Z.to_nat NR_INODE) _ Hl) as [H | H]; [done |].
  exfalso. unfold slot, NR_INODE in *. apply (H ((f - last_allocated_inode s) mod 32)); [wrap_lia |].
  rewrite Zplus_mod_idemp_r. replace (_ + (f - _)) with f by lia. by rewrite Z.mod_small.
Qed.

Lemma fnorm_0 f : fnorm f 0 = 0.
Proof. by destruct f. Qed.

Lemma put_all_run p l : forall s,
  (forall f, f ∈ l -> has s p f /\ (f ∉ buf_fields)) ->
  exists s', put_all p l s = Done tt s' /\ same_cache s s' /\ kmem s' = kmem s /\ beside s' = beside s /\
    (forall f, f ∈ l -> cell s' p f = 0) /\
    (forall q g, q <> p \/ (g ∉ l) -> cell s' q g = cell s q g).
Proof.
  induction l as [| f l IH]; intros s Hf; cbn [put_all].
  { exists s. split; [done |]. split; [apply same_cache_refl |]. split; [done |]. split; [done |].
    split; [intros f H; by apply elem_of_nil in H | done]. }
  destruct (Hf f) as [Hh Hb]; [by left |]. fstep. set (s1 := upd p f 0 s).
  destruct (IH s1) as (s' & Hrun & Hsc & Hm & Hbes & Hin & Hout).
  { intros g Hg. destruct (Hf g) as [H1 H2]; [by right |]. split; [by apply has_upd | done]. }
  exists s'. split; [done |]. split; [eapply same_cache_trans; [by apply same_cache_upd | done] |].
  split; [done |]. split; [done |]. split.
  - intros g Hg. destruct (decide (g ∈ l)) as [| Hn]; [by apply Hin |].
    rewrite Hout by by right. apply elem_of_cons in Hg as [-> |]; [| done]. unfold s1. rewrite cell_upd_eq. apply fnorm_0.
  - intros q g Hne. rewrite Hout by set_solver. apply cell_upd_ne. intros [= -> ->]. set_solver.
Qed.

Lemma inodes_last c s k : inodes c s -> slot k -> inodes c (set_last_inode k s).
Proof.
  intros Hi Hk. destruct Hi. constructor; try done.
  - by apply (serves_same_cache L c s).
  - intros d H. apply (mounted_elsewhere _ _ s); auto. by split.
  - intros i Hi. by apply (slot_ok_same c c s); auto.
Qed.

(** An inode as [memset] leaves it, with one user. *)
Definition blank (s : fstate) (k : Z) : Prop :=
  (forall f, f ∈ inode_fields -> f <> i_count -> cell s (inode_at k) f = 0) /\ cell s (inode_at k) i_count = 1.
(** The other inodes of the table are what they were. *)
Definition others (k : Z) (s s' : fstate) : Prop :=
  forall j g, j <> k -> g ∈ inode_fields -> cell s' (inode_at j) g = cell s (inode_at j) g.

Lemma clear_run c s k :
  inodes c s -> slot k -> cell s (inode_at k) i_dirt = 0 ->
  exists s', (_ ← clear_inode (inode_at k); _ ← fput (inode_at k) i_count 1; mret (inode_at k)) s = Done (inode_at k) s' /\
    inodes c s' /\ blank s' k /\ others k s s'.
Proof.
  intros Hi Hk Hdt. pose proof (in_slot _ _ Hi k Hk) as Hok.
  destruct (put_all_run (inode_at k) inode_fields s) as (s1 & Hput & Hsc & Hm & Hbes & Hin & Hout).
  { intros f Hf. split; [by apply (so_has _ _ _ Hok) | by apply inode_field_rest]. }
  set (p := set_wq (<[i_wait (inode_at k) := 0]> (wq (fps s1))) (fps s1)).
  set (s2 := upd (inode_at k) i_count 1 (set_fps p s1)).
  assert (Hsc2 : same_cache s s2).
  { apply (same_cache_trans _ s1); [done |]. apply (same_cache_trans _ (set_fps p s1)); [| apply same_cache_upd; not_in_list].
    constructor; try done. intros Hw q. apply wake_up_ok. cbn [p fps set_fps wq tasks set_wq].
    destruct (decide (q = i_wait (inode_at k))) as [-> | Hne]; [right; left; by rewrite lookup_insert_eq |].
    rewrite lookup_insert_ne by done. apply wake_up_ok. apply Hw. }
  assert (Hhas : forall q g, has s q g -> has s2 q g) by apply (sc_has _ _ Hsc2).
  assert (Hc : forall f, f ∈ inode_fields -> f <> i_count -> cell s2 (inode_at k) f = 0).
  { intros f Hf Hne. unfold s2. rewrite cell_upd_fld, cell_set_fps by done. by apply Hin. }
  assert (Hcnt : cell s2 (inode_at k) i_count = 1) by (apply cell_upd_eq).
  assert (Hoth : forall q g, q <> inode_at k \/ (g ∉ inode_fields) -> cell s2 q g = cell s q g).
  { intros q g Hne. unfold s2. rewrite cell_upd_ne, cell_set_fps, Hout; [done | done |].
    intros [= -> ->]. destruct Hne as [? | Hn]; [done | apply Hn; in_list]. }
  assert (Hot : others k s s2).
  { intros j g Hj _. apply Hoth. left. intros E. by apply Hj, inode_at_inj. }
  exists s2. split; [| split; [| by split]].
  { unfold clear_inode. rewrite bind_assoc, (bind_Done _ _ _ _ _ Hput). unfold on_ps at 1, mbind at 1, M_bind at 1.
    cbn [wq_put modify]. fold p.
    assert (H : has (set_fps p s1) (inode_at k) i_count).
    { apply has_set_fps, (sc_has _ _ Hsc), (so_has _ _ _ Hok). in_list. }
    by rewrite (bind_Done _ _ _ _ _ (fput_upd _ _ _ 1 H)). }
  apply (inodes_slot c c s s2 k); try done.
  - apply (serves_same_cache L c s); [done | done | apply (in_serves _ _ Hi)].
  - split; [| done]. intros q g _ Hg. apply Hoth. by right.
  - injection Hbes as _ E. change (last_allocated_inode s2) with (last_allocated_inode s1). rewrite E. apply (in_last _ _ Hi).
  - constructor; rewrite ?Hcnt, ?Hc by (done || in_list); try done.
    intros f Hf. by apply Hhas, (so_has _ _ _ Hok).
  - rewrite Hc by (done || in_list). done.
  - intros d x f o n Hv Hno Hf.
    destruct (decide (key s k = (d, x) /\ cell s (inode_at k) i_dev <> 0)) as [[E Hd] | Hne].
    + generalize (so_clean _ _ _ Hok f o n Hd Hdt Hf). by rewrite E.
    + apply (in_disk _ _ Hi); [done | | done]. intros i Hs E. destruct (decide (i = k)) as [-> |].
      * apply Hne. split; [done |]. injection E as E _. rewrite E. destruct Hv as (Hdv & _).
        pose proof (mn_dev _ _ _ (in_mounted _ _ Hi d Hdv)). lia.
      * apply (Hno i Hs). rewrite <- E. apply key_same. intros g Hg. by apply Hot.
Qed.

(** [get_empty_inode] gives an unused inode, written out if need be. *)
Lemma get_empty_run c fuel s f :
  inodes c s -> slot f -> cell s (inode_at f) i_count = 0 -> (0 < fuel)%nat ->
  exists k c' s', slot k /\ cell s (inode_at k) i_count = 0 /\ get_empty_inode fuel s = Done (inode_at k) s' /\
    inodes c' s' /\ blank s' k /\ others k s s'.
Proof.
  intros Hi Hf H0 Hfuel. destruct fuel as [| fuel]; [lia |]. cbn [get_empty_inode]. fstep.
  assert (Hh : forall i, slot i -> has s (inode_at i) i_count).
  { intros i Hs. apply (so_has _ _ _ (in_slot _ _ Hi i Hs)). in_list. }
  destruct (find_free_all s f Hh (in_last _ _ Hi) Hf H0) as (k & Hk & Hc & Hfind).
  rewrite (bind_Done _ _ _ _ _ Hfind). rewrite (proj2 (Z.eqb_neq (inode_at k) 0)) by (by apply (in_addr _ _ Hi)).
  cbn [when]. do 2 fstep. set (s1 := set_last_inode k s).
  assert (Hi1 : inodes c s1) by by apply inodes_last. pose proof (in_slot _ _ Hi1 k Hk) as Hok.
  rewrite (bind_Done _ _ s1 tt s1).
  2: { apply wait_inode_run; [apply (so_has _ _ _ Hok); in_list | apply (so_lock _ _ _ Hok)]. }
  destruct (clean_run c (S fuel) s1 k Hi1 Hk ltac:(lia)) as (c' & s2 & Hclean & Hi2 & Hdt & Hbd).
  rewrite (bind_Done _ _ _ _ _ Hclean).
  assert (Hh2 : has s2 (inode_at k) i_count) by (apply (so_has _ _ _ (in_slot _ _ Hi2 k Hk)); in_list). fstep.
  assert (Hc2 : cell s2 (inode_at k) i_count = 0).
  { rewrite (but_dirt_field k s1 s2) by (done || in_list). exact Hc. }
  rewrite Hc2. cbn [Z.eqb negb].
  destruct (clear_run c' s2 k Hi2 Hk Hdt) as (s3 & Hrun & Hi3 & Hb & Ho).
  exists k, c', s3. split; [done |]. split; [done |]. split; [done |]. split; [done |]. split; [done |].
  intros j g Hj Hg. rewrite Ho by done. rewrite (but_dirt_field k s1 s2) by (done || congruence). done.
Qed.

(** ** The search of [iget] *)

Lemma slot_fields c s i : inodes c s -> slot i ->
  has s (inode_at i) i_dev /\ has s (inode_at i) i_num /\ has s (inode_at i) i_lock /\ cell s (inode_at i) i_lock = 0.
Proof.
  intros Hi Hs. pose proof (in_slot _ _ Hi i Hs) as Hok.
  repeat split; try (apply (so_has _ _ _ Hok); in_list). apply (so_lock _ _ _ Hok).
Qed.

Lemma key_test s i dev nr :
  negb (cell s (inode_at i) i_dev =? dev) || negb (cell s (inode_at i) i_num =? nr) = negb (bool_decide (key s i = (dev, nr))).
Proof.
  unfold key. case_bool_decide as E.
  - injection E as -> ->. by rewrite !Z.eqb_refl.
  - destruct (Z.eqb_spec (cell s (inode_at i) i_dev) dev), (Z.eqb_spec (cell s (inode_at i) i_num) nr); cbn; congruence.
Qed.

Lemma scan_next c s fuel n i dev nr e :
  inodes c s -> slot i -> key s i <> (dev, nr) ->
  iget_scan fuel (S n) i dev nr e s = iget_scan fuel n (i + 1) dev nr e s.
Proof.
  intros Hi Hs Hk. destruct (slot_fields c s i Hi Hs) as (H1 & H2 & _). cbn [iget_scan].
  unfold slot in Hs. rewrite (proj2 (Z.leb_gt _ i)) by lia. do 2 fstep.
  by rewrite key_test, bool_decide_eq_false_2.
Qed.

Lemma scan_hit c s fuel dev nr e j :
  inodes c s -> slot j -> key s j = (dev, nr) -> forall n i, 0 <= i <= j -> j - i < Z.of_nat n ->
  (forall k, i <= k < j -> key s k <> (dev, nr)) ->
  iget_scan fuel n i dev nr e s =
    (_ ← finc (inode_at j) i_count; _ ← when (negb (e =? 0)) (iput fuel e); mret (inode_at j)) s.
Proof.
  intros Hi Hj Hk. induction n as [| n IH]; intros i Hij Hn Hno; [lia |].
  destruct (decide (i = j)) as [-> | Hne].
  - destruct (slot_fields c s j Hi Hj) as (H1 & H2 & H3 & H4). cbn [iget_scan].
    unfold slot in Hj. rewrite (proj2 (Z.leb_gt _ j)) by lia. do 2 fstep. rewrite key_test, Hk, bool_decide_eq_true_2 by done.
    cbn [negb]. rewrite (bind_Done _ _ s tt s) by by apply wait_inode_run. do 2 fstep.
    by rewrite key_test, Hk, bool_decide_eq_true_2.
  - rewrite (scan_next c) by (done || (unfold slot in *; lia) || (apply Hno; lia)).
    apply IH; [lia | lia |]. intros k Hk'. apply Hno. lia.
Qed.

Lemma scan_miss c s fuel dev nr e :
  inodes c s -> e <> 0 -> (forall k, slot k -> key s k <> (dev, nr)) ->
  forall n i, 0 <= i <= 32 -> 32 - i <= Z.of_nat n ->
  iget_scan fuel n i dev nr e s =
    (_ ← fput e i_dev dev; _ ← fput e i_num nr; _ ← read_inode fuel e; mret e) s.
Proof.
  intros Hi He Hno n. induction n as [| n IH]; intros i Hi32 Hn.
  - assert (i = 32) as -> by lia. cbn [iget_scan]. change (NR_INODE <=? 32) with true. cbv iota.
    by rewrite (proj2 (Z.eqb_neq e 0)).
  - destruct (decide (i = 32)) as [-> |].
    + cbn [iget_scan]. change (NR_INODE <=? 32) with true. cbv iota. by rewrite (proj2 (Z.eqb_neq e 0)).
    + assert (slot i) by (unfold slot, NR_INODE; lia). rewrite (scan_next c) by auto. apply IH; lia.
Qed.

Lemma inodes_count c s k v :
  inodes c s -> slot k -> 0 <= v < 65535 -> inodes c (upd (inode_at k) i_count v s).
Proof.
  intros Hi Hk Hv. pose proof (in_slot _ _ Hi k Hk) as Hok. set (s' := upd (inode_at k) i_count v s).
  assert (Hc : forall q g, g <> i_count -> cell s' q g = cell s q g) by (intros; by apply cell_upd_fld).
  assert (Ek : forall j, key s' j = key s j) by (intros j; unfold key; by rewrite !Hc).
  apply (inodes_slot c c s s' k); try done.
  - apply (serves_same_cache L c s); [apply same_cache_upd; not_in_list | done | apply (in_serves _ _ Hi)].
  - apply elsewhere_upd. in_list.
  - apply (in_last _ _ Hi).
  - intros j g Hj _. apply cell_upd_obj. intros E. by apply Hj, inode_at_inj.
  - constructor; rewrite ?Ek, ?Hc by done; try apply Hok.
    + intros f Hf. by apply has_upd, (so_has _ _ _ Hok).
    + unfold s'. rewrite cell_upd_eq. cbn [fnorm]. rewrite u16_small by lia. lia.
    + intros f o n Hd Hf. rewrite Hc; [by apply (so_mem _ _ _ Hok f o n) |].
      intros ->. apply layout_elem, disk_field_rest in Hf as [_ Hn]. apply Hn. in_list.
  - rewrite Hc by done. intros Hd j Hj Hne. rewrite Ek. intros E. apply Hne. symmetry. by apply (in_unique _ _ Hi).
  - intros d x f o n Hval Hno Hf. apply (in_disk _ _ Hi); [done | | done]. intros i. rewrite <- Ek. apply Hno.
Qed.

(** Letting a blank inode go. *)
Lemma iput_blank c fuel s e :
  inodes c s -> slot e -> blank s e -> iput fuel (inode_at e) s = Done tt (upd (inode_at e) i_count 0 s).
Proof.
  intros Hi He [Hb Hc]. pose proof (in_slot _ _ Hi e He) as Hok.
  assert (Hh : forall f, f ∈ inode_fields -> has s (inode_at e) f) by apply (so_has _ _ _ Hok).
  assert (H1 : has s (inode_at e) i_lock) by (apply Hh; in_list). assert (H2 : has s (inode_at e) i_count) by (apply Hh; in_list).
  assert (H3 : has s (inode_at e) i_pipe) by (apply Hh; in_list). assert (H4 : has s (inode_at e) i_dev) by (apply Hh; in_list).
  unfold iput. rewrite (proj2 (Z.eqb_neq (inode_at e) 0)) by (by apply (in_addr _ _ Hi)).
  rewrite (bind_Done _ _ s tt s) by (apply wait_inode_run; [done | apply (so_lock _ _ _ Hok)]).
  fstep. rewrite Hc. cbn [Z.eqb Pos.eqb when]. do 2 fstep. rewrite (Hb i_pipe) by (done || in_list).
  cbn [Z.eqb negb]. do 2 fstep. rewrite (Hb i_dev) by (done || in_list). cbn [Z.eqb orb]. rewrite fdec_upd by done. by rewrite Hc.
Qed.

(** The inode is read into a blank one. *)
Lemma load_run c fuel s dev nr e :
  inodes c s -> slot e -> blank s e -> valid dev nr -> (forall k, slot k -> key s k <> (dev, nr)) -> (0 < fuel)%nat ->
  exists s', (_ ← fput (inode_at e) i_dev dev; _ ← fput (inode_at e) i_num nr;
              _ ← read_inode fuel (inode_at e); mret (inode_at e)) s = Done (inode_at e) s' /\
    inodes c s' /\ key s' e = (dev, nr) /\ cell s' (inode_at e) i_count = 1 /\ others e s s'.
Proof.
  intros Hi He [Hb Hcnt] Hv Hno Hfuel. pose proof (in_slot _ _ Hi e He) as Hok. destruct Hv as (Hdv & Hnr & Hblk).
  pose proof (in_mounted _ _ Hi dev Hdv) as Hm. pose proof (mn_dev _ _ _ Hm) as Hdev.
  assert (Hh : forall f, f ∈ inode_fields -> has s (inode_at e) f) by apply (so_has _ _ _ Hok).
  assert (H1 : has s (inode_at e) i_dev) by (apply Hh; in_list). assert (H2 : has s (inode_at e) i_num) by (apply Hh; in_list).
  do 2 fstep. set (s2 := upd (inode_at e) i_num nr (upd (inode_at e) i_dev dev s)).
  assert (Hc2 : forall q g, g <> i_dev -> g <> i_num -> cell s2 q g = cell s q g) by (intros; unfold s2; by rewrite !cell_upd_fld).
  assert (Hd2 : cell s2 (inode_at e) i_dev = dev).
  { unfold s2. rewrite cell_upd_fld, cell_upd_eq by done. apply u16_small. lia. }
  assert (Hn2 : cell s2 (inode_at e) i_num = nr) by (unfold s2; rewrite cell_upd_eq; apply u16_small; lia).
  assert (Hel : elsewhere s s2) by (eapply elsewhere_trans; apply elsewhere_upd; in_list).
  assert (Hl : loose dev (base dev) (inode_at e) s2).
  { constructor; rewrite ?Hn2; try done; [intros f Hf; by apply Hel, Hh |]. rewrite Hc2 by done. apply (so_lock _ _ _ Hok). }
  assert (Hs2 : serves L c s2).
  { apply (serves_same_cache L c s); [| done | apply (in_serves _ _ Hi)].
    eapply same_cache_trans; apply same_cache_upd; not_in_list. }
  destruct (read_inode_run L dev (base dev) (inode_at e) c fuel s2 Hs2 Hl (mounted_elsewhere _ _ _ _ Hel Hm) Hfuel)
    as (s' & Hrun & Hs' & Hread & Hrest & Hhas & Hbes). rewrite Hn2 in Hread.
  exists s'. split; [by rewrite (bind_Done _ _ _ _ _ Hrun) |].
  assert (Hcell : forall f, f ∈ inode_fields -> (f ∉ disk_fields) -> cell s' (inode_at e) f = cell s2 (inode_at e) f).
  { intros f Hf Hn. apply Hrest; [by apply inode_field_rest | by right]. }
  assert (Hd' : cell s' (inode_at e) i_dev = dev) by (rewrite Hcell by (in_list || not_in_list); done).
  assert (Ek : key s' e = (dev, nr)) by (unfold key; by rewrite Hd', Hcell, Hn2 by (in_list || not_in_list)).
  assert (Hc' : cell s' (inode_at e) i_count = 1) by (rewrite Hcell, Hc2 by (done || in_list || not_in_list); done).
  assert (Ho : others e s s').
  { intros j g Hj Hg. assert (inode_at j <> inode_at e) by (intros E; by apply Hj, inode_at_inj).
    rewrite Hrest by ((by apply inode_field_rest) || by left). unfold s2. by rewrite !cell_upd_obj. }
  assert (HI : forall f o n, (f, o, n) ∈ d_inode_layout -> disk_field c dev (base dev) nr o n = I dev nr f).
  { intros f o n Hf. by apply (in_disk _ _ Hi). }
  split; [| done]. apply (inodes_slot c c s s' e); try done.
  - eapply elsewhere_trans; [exact Hel |]. split; [| done]. intros q g Hg Hgi. apply Hrest; [done |]. right. intros Hn. by apply Hgi, disk_inode_field.
  - injection Hbes as _ ->. apply (in_last _ _ Hi).
  - constructor; rewrite ?Ek.
    + intros f Hf. by apply Hhas, Hel, Hh.
    + rewrite Hcell, Hc2 by (done || in_list || not_in_list). apply (so_lock _ _ _ Hok).
    + rewrite Hc'. lia.
    + rewrite Hd'. lia.
    + done.
    + intros f o n _ Hf. destruct (Hread f o n Hf) as [Er Hrange]. split; [rewrite Er; by apply (HI f) | done].
    + intros f o n _ _ Hf. by apply (HI f).
  - intros _ j Hj Hne. rewrite Ek. by apply Hno.
  - intros d x f o n Hval Hno' Hf. apply (in_disk _ _ Hi); [done | | done]. intros i Hs E.
    destruct (decide (i = e)) as [-> |].
    + apply (Hno' e He). rewrite Ek. exfalso. injection E as E _. rewrite Hb in E by (done || in_list).
      destruct Hval as (Hdx & _). pose proof (mn_dev _ _ _ (in_mounted _ _ Hi d Hdx)). lia.
    + apply (Hno' i Hs). rewrite <- E. apply key_same. intros g Hg. by apply Ho.
Qed.

(** The inode is in the table already. *)
Lemma found_run c fuel s dev nr e j :
  inodes c s -> slot e -> blank s e -> slot j -> j <> e -> key s j = (dev, nr) ->
  cell s (inode_at j) i_count < 65534 ->
  exists s', (_ ← finc (inode_at j) i_count; _ ← when (negb (inode_at e =? 0)) (iput fuel (inode_at e));
              mret (inode_at j)) s = Done (inode_at j) s' /\
    inodes c s' /\ key s' j = (dev, nr) /\
    cell s' (inode_at j) i_count = cell s (inode_at j) i_count + 1 /\
    (forall k g, k <> e -> k <> j -> cell s' (inode_at k) g = cell s (inode_at k) g).
Proof.
  intros Hi He Hb Hj Hje Ek Hmax. pose proof (in_slot _ _ Hi j Hj) as Hok.
  assert (Hc : has s (inode_at j) i_count) by (apply (so_has _ _ _ Hok); in_list).
  fstep. set (s2 := upd (inode_at j) i_count (cell s (inode_at j) i_count + 1) s).
  pose proof (so_count _ _ _ Hok).
  assert (Hi2 : inodes c s2) by (apply inodes_count; [done | done | lia]).
  assert (Hne : inode_at e <> inode_at j) by (intros E; by apply Hje, eq_sym, inode_at_inj).
  assert (Hb2 : blank s2 e) by (destruct Hb as [Hb1 Hb2]; split; intros; unfold s2; rewrite cell_upd_obj; auto).
  rewrite (proj2 (Z.eqb_neq (inode_at e) 0)) by (by apply (in_addr _ _ Hi)). cbn [negb when].
  rewrite (bind_Done _ _ _ _ _ (iput_blank c fuel s2 e Hi2 He Hb2)). set (s3 := upd (inode_at e) i_count 0 s2).
  exists s3. split; [done |]. split; [by apply inodes_count |]. split; [| split].
  - unfold key, s3, s2. by rewrite !cell_upd_fld.
  - unfold s3, s2. rewrite cell_upd_obj, cell_upd_eq by done. apply u16_small. lia.
  - intros k g Hke Hkj. unfold s3, s2. by rewrite !cell_upd_obj by (intros E; by apply inode_at_inj in E).
Qed.

(** An inode of the table has the fields of its number. *)
Lemma slot_fields_of c s k dev nr g :
  inodes c s -> slot k -> key s k = (dev, nr) -> dev <> 0 -> g ∈ disk_fields -> cell s (inode_at k) g = I dev nr g.
Proof.
  intros Hi Hk E Hd Hg. assert (Hd' : cell s (inode_at k) i_dev <> 0) by (injection E as -> _; done).
  apply list_elem_of_fmap in Hg as ([g' o] & -> & Hg). apply list_elem_of_fmap in Hg as ([[g'' o'] n] & E' & Hg).
  injection E' as -> ->. destruct (so_mem _ _ _ (in_slot _ _ Hi k Hk) _ _ _ Hd' Hg) as [Hm _]. by rewrite E in Hm.
Qed.

(** Where an inode is in the table, if it is. *)
Lemma find_key s dev nr :
  (exists j, slot j /\ key s j = (dev, nr)) \/ (forall k, slot k -> key s k <> (dev, nr)).
Proof.
  destruct (decide (Exists (fun k => key s k = (dev, nr)) (seqZ 0 32))) as [Hex | Hno].
  - left. apply Exists_exists in Hex as (j & Hj & Ej). apply elem_of_seqZ in Hj. exists j. by split; [unfold slot, NR_INODE; lia |].
  - right. intros k Hk E. apply Hno, Exists_exists. exists k. split; [apply elem_of_seqZ; unfold slot, NR_INODE in Hk; lia | done].
Qed.

(** C13: The inode cache is the inodes of the volumes. While the table and the
    blocks stand for the inodes [I] — each in the table, on its volume, or in
    both with the table's the newer — and some inode of the table is unused,
    [iget] of an inode of a mounted device comes back with an inode of the table
    that has the fields of [I], and table and blocks stand for [I] still,
    although another inode may have been written out to make room. An inode in
    use (by less than 65534 users) is found again and has one user more, one not in use has the caller for
    its only user, no inode is in the table twice, and the other inodes in use
    are what they were. *)
Theorem iget_correct c fuel s dev nr f :
  inodes c s -> valid dev nr -> slot f -> cell s (inode_at f) i_count = 0 ->
  (forall j, slot j -> key s j = (dev, nr) -> cell s (inode_at j) i_count < 65534) -> (0 < fuel)%nat ->
  exists k c' s', iget fuel dev nr s = Done (inode_at k) s' /\ slot k /\ inodes c' s' /\
    key s' k = (dev, nr) /\ (forall g, g ∈ disk_fields -> cell s' (inode_at k) g = I dev nr g) /\
    (forall j, slot j -> key s j = (dev, nr) -> 0 < cell s (inode_at j) i_count ->
       j = k /\ cell s' (inode_at k) i_count = cell s (inode_at k) i_count + 1) /\
    ((forall j, slot j -> key s j = (dev, nr) -> cell s (inode_at j) i_count = 0) -> cell s' (inode_at k) i_count = 1) /\
    (forall j g, slot j -> j <> k -> 0 < cell s (inode_at j) i_count -> g ∈ inode_fields ->
       cell s' (inode_at j) g = cell s (inode_at j) g).
Proof.
  intros Hi Hv Hf H0 Hmax Hfuel.
  pose proof (mn_dev _ _ _ (in_mounted _ _ Hi dev (proj1 Hv))) as Hdev.
  unfold iget. rewrite (proj2 (Z.eqb_neq dev 0)) by lia. cbn [when]. fstep.
  destruct (get_empty_run c fuel s f Hi Hf H0 Hfuel) as (e & c1 & s1 & He & He0 & Hrun & Hi1 & Hb & Ho).
  rewrite (bind_Done _ _ _ _ _ Hrun).
  assert (Hk1 : forall j, j <> e -> key s1 j = key s j) by (intros j Hj; apply key_same; intros g Hg; by apply Ho).
  destruct (find_key s1 dev nr) as [(j & Hj & Ej) | Hno].
  - assert (Hje : j <> e).
    { intros ->. injection Ej as Ej _. rewrite (proj1 Hb) in Ej by (done || in_list). lia. }
    assert (Ec : cell s1 (inode_at j) i_count = cell s (inode_at j) i_count) by (by apply Ho; [| in_list]).
    assert (Ekj : key s j = (dev, nr)) by (by rewrite <- Hk1).
    rewrite (scan_hit c1 s1 fuel dev nr _ j Hi1 Hj Ej) by (unfold slot, NR_INODE in *; lia || (intros k Hk E; assert (k = j); [|lia];
      apply (in_unique _ _ Hi1); [unfold slot, NR_INODE in *; lia | done | injection E as -> _; lia | by rewrite E, Ej])).
    destruct (found_run c1 fuel s1 dev nr e j Hi1 He Hb Hj Hje Ej) as (s3 & Hrun3 & Hi3 & Ek3 & Ec3 & Hc3); [by rewrite Ec; apply Hmax |].
    exists j, c1, s3. split; [done |]. split; [done |]. split; [done |]. split; [done |].
    split; [intros g; apply (slot_fields_of c1); (done || lia) |]. rewrite Ec in Ec3. split; [| split].
    + intros k Hk E Hpos. split; [| done]. apply (in_unique _ _ Hi); [done | done | injection E as -> _; lia | by rewrite E, Ekj].
    + intros Hz. by rewrite Ec3, (Hz j).
    + intros k g Hk Hkj Hpos Hg. assert (k <> e) by (intros ->; lia). rewrite Hc3 by done. by apply Ho.
  - rewrite (scan_miss c1) by (done || lia || (by apply (in_addr _ _ Hi1))).
    destruct (load_run c1 fuel s1 dev nr e Hi1 He Hb Hv Hno Hfuel) as (s2 & Hrun2 & Hi2 & Ek & Ec & Ho2).
    exists e, c1, s2. split; [done |]. split; [done |]. split; [done |]. split; [done |].
    split; [intros g; apply (slot_fields_of c1); (done || lia) |]. split; [| split; [done |]].
    + intros j Hj E Hpos. exfalso. apply (Hno j Hj). rewrite Hk1; [done | intros ->; lia].
    + intros j g Hj Hje Hpos Hg. rewrite Ho2 by done. by apply Ho.
Qed.
End iget.
