(* ===== verification/FileDev.v ===== *)
(** * FileDev: src/linux-0.01/fs/file_dev.c and fs/block_dev.c

    Reading and writing the bytes of files and of block devices. Characters go
    to and from the user's memory one by one. *)

From S2P Require Import Prelude Mem Mm Proc Sched Sys FsState Buffer BufferInv Getblk Contents Bitmap Inode Zones.

Definition EIO : Z := 5.
Definition ERROR : Z := 99.
Definition O_APPEND : Z := 0x400.
Definition get_fs_byte (addr : Z) : M pstate Z := gets (fun s => load8 (umem s) addr).

(** [while (chars-->0) put_fs_byte( *(p++),buf++)] and its counterpart. *)
Definition copy_to_user (p buf chars : Z) : M fstate unit :=
  for_loop (Z.to_nat chars) 0 (fun i =>
    b ← kload8 (p + i);
    on_ps (put_fs_byte b (buf + i))).
Definition copy_from_user (p buf chars : Z) : M fstate unit :=
  for_loop (Z.to_nat chars) 0 (fun i =>
    b ← on_ps (get_fs_byte (buf + i));
    kstore8 (p + i) b).
Definition clear_user (buf chars : Z) : M fstate unit :=
  for_loop (Z.to_nat chars) 0 (fun i => on_ps (put_fs_byte 0 (buf + i))).

Section file_dev.
Context {FW : FsWorld}.

(** The loop of [file_read]: [left] when it ends. Each round moves a character
    at least, so [count] rounds are enough. *)
Fixpoint read_blocks (fuel n : nat) (inode filp buf left : Z) : M fstate Z :=
  if left =? 0 then mret 0
  else
    match n with
    | O => halt NoFuel
    | S n' =>
        pos ← fget filp f_pos;
        nr ← bmap fuel inode (Z.quot pos BLOCK_SIZE);
        bh ← (if nr =? 0 then mret (Some 0)
              else
                dev ← fget inode i_dev;
                bh ← bread fuel dev nr;
                mret (if bh =? 0 then None else Some bh));
        match bh with
        | None => mret left
        | Some bh =>
            pos ← fget filp f_pos;
            let nr := Z.rem pos BLOCK_SIZE in
            let chars := if BLOCK_SIZE - nr <? left then BLOCK_SIZE - nr else left in
            _ ← fput filp f_pos (pos + chars);
            _ ← (if negb (bh =? 0) then
                   d ← fget bh b_data;
                   _ ← copy_to_user (nr + d) buf chars;
                   brelse fuel bh
                 else clear_user buf chars);
            read_blocks fuel n' inode filp (buf + chars) (left - chars)
        end
    end.

Definition file_read (fuel : nat) (inode filp buf count : Z) : M fstate Z :=
  if count <=? 0 then mret 0
  else
    left ← read_blocks fuel (Z.to_nat count) inode filp buf count;
    t ← fs_time;
    _ ← fput inode i_atime t;
    mret (if negb (count - left =? 0) then count - left else - ERROR).

(** The loop of [file_write]: [pos] and [i] when it ends. *)
Fixpoint write_blocks (fuel n : nat) (inode pos buf i count : Z) : M fstate (Z * Z) :=
  if count <=? i then mret (pos, i)
  else
    match n with
    | O => halt NoFuel
    | S n' =>
        block ← create_block fuel inode (Z.quot pos BLOCK_SIZE);
        if block =? 0 then mret (pos, i)
        else
          dev ← fget inode i_dev;
          bh ← bread fuel dev block;
          if bh =? 0 then mret (pos, i)
          else
            let off := Z.rem pos BLOCK_SIZE in
            d ← fget bh b_data;
            _ ← fput bh b_dirt 1;
            let c := BLOCK_SIZE - off in
            let c := if count - i <? c then count - i else c in
            let pos := s32 (pos + c) in
            size ← fget inode i_size;
            _ ← when (size <? u32 pos) (_ ← fput inode i_size pos; fput inode i_dirt 1);
            _ ← copy_from_user (off + d) buf c;
            _ ← brelse fuel bh;
            write_blocks fuel n' inode pos (buf + c) (i + c) count
    end.

Definition file_write (fuel : nat) (inode filp buf count : Z) : M fstate Z :=
  flags ← fget filp f_flags;
  pos ← (if negb (Z.land flags O_APPEND =? 0) then
           size ← fget inode i_size; mret (s32 size)
         else fget filp f_pos);
  r ← write_blocks fuel (Z.to_nat count) inode pos buf 0 count;
  let '(pos, i) := r in
  t ← fs_time;
  _ ← fput inode i_mtime t;
  flags ← fget filp f_flags;
  _ ← when (Z.land flags O_APPEND =? 0)
        (_ ← fput filp f_pos pos;
         t ← fs_time;
         fput inode i_ctime t);
  mret (if negb (i =? 0) then i else -1).

(** ** Block devices

    [pos] is the address of [file->f_pos]: the file [filp] holds it. *)

(** The loop of [block_write]; each round but the first moves a whole block,
    and the first too. *)
Fixpoint block_write_loop (fuel n : nat) (dev block offset filp buf count written : Z) : M fstate Z :=
  if count <=? 0 then mret written
  else
    match n with
    | O => halt NoFuel
    | S n' =>
        bh ← bread fuel dev block;
        if bh =? 0 then mret (if negb (written =? 0) then written else - EIO)
        else
          let chars := if count <? BLOCK_SIZE then count else BLOCK_SIZE in
          d ← fget bh b_data;
          pos ← fget filp f_pos;
          _ ← fput filp f_pos (pos + chars);
          _ ← copy_from_user (offset + d) buf chars;
          _ ← fput bh b_dirt 1;
          _ ← brelse fuel bh;
          block_write_loop fuel n' dev (block + 1) 0 filp (buf + chars) (count - chars) (written + chars)
    end.

Definition block_write (fuel : nat) (dev filp buf count : Z) : M fstate Z :=
  pos ← fget filp f_pos;
  block_write_loop fuel (Z.to_nat count) dev (Z.quot pos BLOCK_SIZE) (Z.rem pos BLOCK_SIZE) filp buf count 0.

Fixpoint block_read_loop (fuel n : nat) (dev block offset filp buf count read : Z) : M fstate Z :=
  if count <=? 0 then mret read
  else
    match n with
    | O => halt NoFuel
    | S n' =>
        bh ← bread fuel dev block;
        if bh =? 0 then mret (if negb (read =? 0) then read else - EIO)
        else
          let chars := if count <? BLOCK_SIZE then count else BLOCK_SIZE in
          d ← fget bh b_data;
          pos ← fget filp f_pos;
          _ ← fput filp f_pos (pos + chars);
          _ ← copy_to_user (offset + d) buf chars;
          _ ← fput bh b_dirt 1;
          _ ← brelse fuel bh;
          block_read_loop fuel n' dev (block + 1) 0 filp (buf + chars) (count - chars) (read + chars)
    end.

(** [block_read] takes [*pos] for an unsigned long. *)
Definition block_read (fuel : nat) (dev filp buf count : Z) : M fstate Z :=
  pos ← fget filp f_pos;
  block_read_loop fuel (Z.to_nat count) dev (u32 pos / BLOCK_SIZE) (u32 pos mod BLOCK_SIZE) filp buf count 0.
End file_dev.

(** ** User memory *)

Definition with_umem (m : memory) (s : fstate) : fstate := set_fps (set_umem m (fps s)) s.

Lemma with_umem_id s : with_umem (umem (fps s)) s = s.
Proof. destruct s as [p]; by destruct p. Qed.
Lemma with_umem_twice m m' s : with_umem m (with_umem m' s) = with_umem m s.
Proof. done. Qed.

(** A loop that stores byte [g i] at [buf + i]. *)
Lemma put_bytes_run (f : Z -> M fstate unit) g buf n s :
  (forall i m, 0 <= i < n -> f i (with_umem m s) = Done tt (with_umem (store8 m (buf + i) (g i)) s)) ->
  0 <= n -> 0 <= buf -> buf + n <= 2 ^ 32 ->
  exists m, for_loop (Z.to_nat n) 0 f s = Done tt (with_umem m s) /\
    forall x, in_u32 x -> load8 m x =
      if decide (buf <= x < buf + n) then u8 (g (x - buf)) else load8 (umem (fps s)) x.
Proof.
  intros Hf Hn Hb Hbn.
  set (I := fun i s' => exists m, s' = with_umem m s /\ forall x, in_u32 x -> load8 m x =
    if decide (buf <= x < buf + i) then u8 (g (x - buf)) else load8 (umem (fps s)) x).
  assert (H : post (for_loop (Z.to_nat n) 0 f) s (fun _ s' => I (0 + Z.of_nat (Z.to_nat n)) s')).
  { apply (post_for_loop _ _ _ I).
    - exists (umem (fps s)). split; [by rewrite with_umem_id |]. intros x _. by rewrite decide_False by lia.
    - intros i s' Hi (m & -> & Hm). eapply post_Done; [apply Hf; lia |]. eexists. split; [done |].
      intros x Hx. rewrite load8_store8, (u32_small x), (u32_small (buf + i)) by (unfold in_u32 in *; lia).
      case_decide as E.
      + subst x. rewrite decide_True by lia. do 2 f_equal. lia.
      + rewrite Hm by done. repeat case_decide; (done || lia). }
  apply post_inv in H as ([] & s' & Hrun & m & -> & Hm). exists m. split; [done |].
  by replace (buf + n) with (buf + (0 + Z.of_nat (Z.to_nat n))) by lia.
Qed.

Lemma copy_to_user_run p buf n s :
  0 <= n -> 0 <= buf -> buf + n <= 2 ^ 32 ->
  exists m, copy_to_user p buf n s = Done tt (with_umem m s) /\
    forall x, in_u32 x -> load8 m x =
      if decide (buf <= x < buf + n) then load8 (kmem s) (p + (x - buf)) else load8 (umem (fps s)) x.
Proof.
  intros Hn Hb Hbn.
  destruct (put_bytes_run (fun i => b ← kload8 (p + i); on_ps (put_fs_byte b (buf + i)))
    (fun i => load8 (kmem s) (p + i)) buf n s) as (m & Hrun & Hm); [done .. |].
  exists m. split; [done |]. intros x Hx. rewrite Hm by done. case_decide; [| done].
  apply u8_small. apply load8_range.
Qed.

Lemma clear_user_run buf n s :
  0 <= n -> 0 <= buf -> buf + n <= 2 ^ 32 ->
  exists m, clear_user buf n s = Done tt (with_umem m s) /\
    forall x, in_u32 x -> load8 m x =
      if decide (buf <= x < buf + n) then 0 else load8 (umem (fps s)) x.
Proof. intros. by apply (put_bytes_run (fun i => on_ps (put_fs_byte 0 (buf + i))) (fun _ => 0)). Qed.

Lemma wake_up_umem q p p' m : wake_up q p = Done tt p' -> wake_up q (set_umem m p) = Done tt (set_umem m p').
Proof.
  unfold wake_up. destruct (q =? 0); [by intros [= <-] |]. unfold wq_get.
  rewrite !(bind_Done (gets _) _ _ _ _ eq_refl). cbn [wq set_umem].
  destruct (negb _); cbn [when]; [| by intros [= <-]].
  unfold tput, mbind, M_bind. cbn [tasks set_umem]. destruct (tasks p !! _); [| done].
  by intros [= <-].
Qed.

Section file_read.
Context {FW : FsWorld} {GD : GoodDisk}.

Lemma same_cache_umem m s : same_cache s (with_umem m s).
Proof.
  constructor; try done. intros H q. destruct (H q) as (p' & Hp). exists (set_umem m p'). by apply wake_up_umem.
Qed.

Context (L : list Z) (c : Z -> Z -> Z -> Z) (dev inode filp : Z).

(** Byte [p] of the file whose zones are [z]; a hole reads as zeroes. *)
Definition file_byte (z : Z -> Z) (p : Z) : Z :=
  let b := file_zone c dev z (p / 1024) in
  if b =? 0 then 0 else c dev b (p mod 1024).

Definition zones_of (s : fstate) : Z -> Z := fun i => cell s inode (i_zone i).

(** What a read changes. *)
Record read_upto (pos buf n : Z) (s s' : fstate) : Prop := {
  ru_serves : serves L c s';
  ru_pos : cell s' filp f_pos = pos + n;
  ru_mem x : in_u32 x -> load8 (umem (fps s')) x =
    if decide (buf <= x < buf + n) then file_byte (zones_of s) (pos + (x - buf)) else load8 (umem (fps s)) x;
  ru_rest q g : (g ∉ buf_fields) -> (q, g) <> (filp, f_pos) -> cell s' q g = cell s q g;
  ru_has q g : has s q g -> has s' q g
}.

Lemma in_core_upto pos buf n s s' : read_upto pos buf n s s' -> in_core dev inode s -> in_core dev inode s'.
Proof.
  intros R [].
  assert (Hz : forall g, g ∈ inode_fields -> cell s' inode g = cell s inode g).
  { intros g Hg. apply (ru_rest _ _ _ _ _ R); [by apply inode_field_rest |]. intros [= _ ->]. revert Hg. not_in_list. }
  constructor; [rewrite Hz by in_list; done | done | |].
  - intros f Hf. apply (ru_has _ _ _ _ _ R). auto.
  - intros i Hi. rewrite Hz by by apply zone_field. auto.
Qed.

Lemma zones_upto pos buf n s s' i :
  read_upto pos buf n s s' -> 0 <= i < 9 -> zones_of s' i = zones_of s i.
Proof.
  intros R Hi. unfold zones_of. apply (ru_rest _ _ _ _ _ R); [by apply inode_field_rest, zone_field | by intros [=]].
Qed.

Lemma file_zone_ext z z' n :
  (forall i, 0 <= i < 9 -> z i = z' i) -> 0 <= n -> file_zone c dev z n = file_zone c dev z' n.
Proof.
  intros H Hn. unfold file_zone. rewrite (H 7), (H 8) by lia.
  destruct (Z.ltb_spec n 7); [apply H; lia | done].
Qed.
Lemma file_byte_ext z z' p :
  (forall i, 0 <= i < 9 -> z i = z' i) -> 0 <= p -> file_byte z p = file_byte z' p.
Proof.
  intros H Hp. unfold file_byte. rewrite (file_zone_ext z z') by (done || wrap_lia). done.
Qed.

Lemma file_byte_at z p n x :
  0 <= p -> 0 <= x < n -> n <= 1024 - p mod 1024 ->
  file_byte z (p + x) = if file_zone c dev z (p / 1024) =? 0 then 0
                        else c dev (file_zone c dev z (p / 1024)) (p mod 1024 + x).
Proof.
  intros Hp Hx Hn. unfold file_byte.
  replace ((p + x) / 1024) with (p / 1024) by wrap_lia.
  replace ((p + x) mod 1024) with (p mod 1024 + x) by wrap_lia. done.
Qed.

(** The body of one round, once [bmap] has answered. *)
Lemma read_round s1 z fuel pos buf left n (K : Z -> M fstate Z) :
  serves L c s1 -> in_core dev inode s1 -> has s1 filp f_pos -> cell s1 filp f_pos = pos ->
  0 <= pos -> pos + n < 2 ^ 31 -> 0 < n -> n = Z.min (1024 - pos mod 1024) left -> 0 <= buf -> buf + n <= 2 ^ 32 -> (0 < fuel)%nat ->
  0 <= z < 65536 ->
  exists s', 
    (bh ← (if z =? 0 then mret (Some 0)
           else
             dev ← fget inode i_dev;
             bh ← bread fuel dev z;
             mret (if bh =? 0 then None else Some bh));
     match bh with
     | None => mret left
     | Some bh =>
         pos ← fget filp f_pos;
         let nr := Z.rem pos BLOCK_SIZE in
         let chars := if BLOCK_SIZE - nr <? left then BLOCK_SIZE - nr else left in
         _ ← fput filp f_pos (pos + chars);
         _ ← (if negb (bh =? 0) then
                d ← fget bh b_data;
                _ ← copy_to_user (nr + d) buf chars;
                brelse fuel bh
              else clear_user buf chars);
         K chars
     end) s1 = K n s' /\
    serves L c s' /\ cell s' filp f_pos = pos + n /\
    (forall x, in_u32 x -> load8 (umem (fps s')) x =
       if decide (buf <= x < buf + n) then (if z =? 0 then 0 else c dev z (pos mod 1024 + (x - buf)))
       else load8 (umem (fps s1)) x) /\
    (forall q g, (g ∉ buf_fields) -> (q, g) <> (filp, f_pos) -> cell s' q g = cell s1 q g) /\
    (forall q g, has s1 q g -> has s' q g).
Proof.
  intros Hs Hi Hp Ep Hpos Hmax Hn0 En Hb Hbn Hfuel Hz.
  assert (Hrem : Z.rem pos BLOCK_SIZE = pos mod 1024) by (apply Z.rem_mod_nonneg; unfold BLOCK_SIZE; lia).
  assert (Hmod : 0 <= pos mod 1024 < 1024) by wrap_lia.
  assert (Ech : (if BLOCK_SIZE - Z.rem pos BLOCK_SIZE <? left then BLOCK_SIZE - Z.rem pos BLOCK_SIZE else left) = n).
  { rewrite Hrem, En. unfold BLOCK_SIZE. destruct (Z.ltb_spec (1024 - pos mod 1024) left); lia. }
  assert (Hfp : f_pos ∉ buf_fields) by not_in_list.
  destruct (Z.eqb_spec z 0) as [-> | Hz0].
  - fstep. cbn [negb Z.eqb]. fstep. rewrite Ep. cbv zeta. rewrite Ech. fstep.
    set (s2 := upd filp f_pos (pos + n) s1).
    destruct (clear_user_run buf n s2) as (m & Hrun & Hm); [lia .. |].
    rewrite (bind_Done _ _ _ _ _ Hrun).
    pose proof (same_cache_trans _ _ _ (same_cache_upd filp f_pos (pos + n) s1 Hfp) (same_cache_umem m s2)) as Hsc.
    exists (with_umem m s2). split; [done |]. split; [| split; [| split; [| split]]].
    + by apply (serves_same_cache _ _ _ _ Hsc).
    + unfold with_umem. rewrite cell_set_fps. unfold s2. rewrite cell_upd_eq. apply s32_small. lia.
    + intros x Hx. cbn [with_umem fps set_fps umem set_umem]. by rewrite Hm.
    + intros q g _ Hne. unfold with_umem. rewrite cell_set_fps. by apply cell_upd_ne.
    + intros q g Hqg. unfold with_umem. rewrite has_set_fps. by apply has_upd.
  - assert (Hd : has s1 inode i_dev) by (apply (ic_has _ _ _ Hi); in_list).
    destruct Hs as (Hr & Hsp & Hh). pose proof (ic_range _ _ _ Hi) as Hdev.
    destruct (bread_run L c s1 fuel dev z Hr Hsp Hh Hdev Hz Hfuel) as (bh & s2 & Hrun & Hr2 & Hh2 & Hhb).
    pose proof (ready_addr L s2 bh Hr2 (hb_in _ _ _ _ _ _ _ Hhb)) as Ha.
    assert (Hb0 : (bh =? 0) = false) by (apply Z.eqb_neq; lia).
    assert (Ep2 : cell s2 filp f_pos = pos) by (by rewrite (hb_rest _ _ _ _ _ _ _ Hhb)).
    assert (Hp2 : has s2 filp f_pos) by by apply (hb_has _ _ _ _ _ _ _ Hhb).
    rewrite (bind_Done _ _ _ (Some bh) s2).
    2: { fstep. rewrite (ic_dev _ _ _ Hi), (bind_Done _ _ _ _ _ Hrun). by rewrite Hb0. }
    fstep. rewrite Ep2. cbv zeta. rewrite Ech. fstep. rewrite Hb0. cbn [negb]. set (s3 := upd filp f_pos (pos + n) s2).
    assert (Hdat : has s3 bh b_data).
    { apply has_upd, (ready_buf L); [done | apply Hhb | in_list]. }
    assert (Ed : cell s3 bh b_data = cell s2 bh b_data) by (by apply cell_upd_fld).
    destruct (copy_to_user_run (Z.rem pos BLOCK_SIZE + cell s2 bh b_data) buf n s3) as (m & Hcopy & Hm); [lia .. |].
    pose proof (same_cache_trans _ _ _ (same_cache_upd filp f_pos (pos + n) s2 Hfp) (same_cache_umem m s3)) as Hsc.
    destruct (brelse_after L c dev z bh s1 s2 (with_umem m s3) fuel Hsp Hhb Hr2 Hh2 Hsc eq_refl)
      as (s4 & Hrel & Hs4 & Hrest & Hhas & Hum%beside_umem & _ & _).
    rewrite (bind_Done _ _ s3 tt s4).
    2: { fstep. rewrite Ed. by rewrite (bind_Done _ _ _ _ _ Hcopy). }
    exists s4. split; [done |]. split; [done |].
    split; [| split; [| split]].
    + rewrite Hrest by done. unfold with_umem. rewrite cell_set_fps. unfold s3. rewrite cell_upd_eq.
      apply s32_small. lia.
    + intros x Hx. rewrite Hum. cbn [with_umem fps set_fps umem set_umem]. rewrite Hm by done.
      change (fps s3) with (fps s2). rewrite (hb_umem _ _ _ _ _ _ _ Hhb). case_decide; [| done].
      change (kmem s3) with (kmem s2). rewrite <- (hb_bytes _ _ _ _ _ _ _ Hhb) by lia.
      rewrite Hrem. f_equal. lia.
    + intros q g Hg Hne. rewrite Hrest by done. unfold with_umem. rewrite cell_set_fps. unfold s3.
      rewrite cell_upd_ne by done. by apply (hb_rest _ _ _ _ _ _ _ Hhb).
    + intros q g Hqg. apply Hhas. unfold with_umem. rewrite has_set_fps.
      by apply has_upd, (hb_has _ _ _ _ _ _ _ Hhb).
Qed.

Lemma read_blocks_run fuel n : forall s buf left pos,
  serves L c s -> in_core dev inode s -> has s filp f_pos -> cell s filp f_pos = pos ->
  0 <= pos -> 0 <= left <= Z.of_nat n -> pos + left <= (7 + 512 + 512 * 512) * 1024 ->
  0 <= buf -> buf + left <= 2 ^ 32 -> (0 < fuel)%nat ->
  exists s', read_blocks fuel n inode filp buf left s = Done 0 s' /\ read_upto pos buf left s s'.
Proof.
  induction n as [| n IH]; intros s buf left pos Hs Hi Hp Ep Hpos Hleft Hmax Hb Hbn Hfuel.
  { assert (left = 0) as -> by lia. exists s. split; [done |]. constructor; try done; [by rewrite Ep, Z.add_0_r |].
    intros x _. by rewrite decide_False by lia. }
  cbn [read_blocks]. destruct (Z.eqb_spec left 0) as [-> | Hl].
  { exists s. split; [done |]. constructor; try done; [by rewrite Ep, Z.add_0_r |].
    intros x _. by rewrite decide_False by lia. }
  fstep. rewrite Ep. rewrite Z.quot_div_nonneg by (unfold BLOCK_SIZE; lia). change (pos / BLOCK_SIZE) with (pos / 1024).
  destruct (bmap_run L c dev inode s fuel (pos / 1024)) as (s1 & Hbm & Hs1 & Hud & Hzr);
    [done | done | wrap_lia | done |].
  rewrite (bind_Done _ _ _ _ _ Hbm). fold (zones_of s) in Hzr |- *.
  set (z := file_zone c dev (zones_of s) (pos / 1024)) in *.
  set (m := Z.min (1024 - pos mod 1024) left).
  assert (Hm : 0 < m <= left /\ m <= 1024 - pos mod 1024) by (unfold m; wrap_lia).
  assert (Hi1 : in_core dev inode s1) by (by eapply in_core_ud).
  assert (Hfp : f_pos ∉ buf_fields) by not_in_list.
  destruct (read_round s1 z fuel pos buf left m (fun chars => read_blocks fuel n inode filp (buf + chars) (left - chars)))
    as (s2 & Hround & Hs2 & Ep2 & Hmem2 & Hrest2 & Hhas2);
    [done | done | by apply (ud_has _ _ _ Hud) | by rewrite (ud_rest _ _ _ Hud) | lia | lia | lia | done | lia | lia | done | done |].
  assert (Hrest : forall q g, (g ∉ buf_fields) -> (q, g) <> (filp, f_pos) -> cell s2 q g = cell s q g).
  { intros q g Hg Hne. rewrite Hrest2 by done. by apply (ud_rest _ _ _ Hud). }
  assert (R1 : read_upto pos buf m s s2).
  { constructor; [done | done | | done | intros; by apply Hhas2, (ud_has _ _ _ Hud)].
    intros x Hx. rewrite Hmem2, (ud_umem _ _ _ Hud) by done. case_decide; [| done].
    rewrite (file_byte_at _ pos m) by lia. done. }
  destruct (IH s2 (buf + m) (left - m) (pos + m)) as (s3 & Hrun & R2);
    [done | by apply (in_core_upto pos buf m s) | apply R1, Hp | done | lia | lia | lia | lia | lia | done |].
  exists s3. split; [exact (eq_trans Hround Hrun) |]. constructor.
  - apply R2.
  - rewrite (ru_pos _ _ _ _ _ R2). lia.
  - intros x Hx. rewrite (ru_mem _ _ _ _ _ R2) by done.
    destruct (decide (buf + m <= x < buf + m + (left - m))).
    + rewrite decide_True by lia. replace (pos + m + (x - (buf + m))) with (pos + (x - buf)) by lia.
      apply file_byte_ext; [intros i Hi'; by apply (zones_upto pos buf m) | lia].
    + rewrite (ru_mem _ _ _ _ _ R1) by done. repeat case_decide; (done || lia).
  - intros q g Hg Hne. rewrite (ru_rest _ _ _ _ _ R2) by done. by apply Hrest.
  - intros q g Hqg. by apply (ru_has _ _ _ _ _ R2), (ru_has _ _ _ _ _ R1).
Qed.

Lemma file_read_run fuel s buf count :
  serves L c s -> in_core dev inode s -> has s filp f_pos ->
  0 <= cell s filp f_pos -> 0 < count -> cell s filp f_pos + count <= (7 + 512 + 512 * 512) * 1024 ->
  0 <= buf -> buf + count <= 2 ^ 32 -> (0 < fuel)%nat ->
  exists s', file_read fuel inode filp buf count s = Done count s' /\ serves L c s' /\
    cell s' filp f_pos = cell s filp f_pos + count /\
    (forall x, in_u32 x -> load8 (umem (fps s')) x =
      if decide (buf <= x < buf + count)
      then file_byte (zones_of s) (cell s filp f_pos + (x - buf)) else load8 (umem (fps s)) x) /\
    (forall q g, (g ∉ buf_fields) -> (q, g) <> (filp, f_pos) -> (q, g) <> (inode, i_atime) ->
       cell s' q g = cell s q g).
Proof.
  intros Hs Hi Hp Hpos Hc Hmax Hb Hbn Hfuel. unfold file_read. rewrite (proj2 (Z.leb_gt count 0) Hc).
  destruct (read_blocks_run fuel (Z.to_nat count) s buf count (cell s filp f_pos))
    as (s1 & Hrun & R); [done | done | done | done | done | lia | done | done | done | done |].
  rewrite (bind_Done _ _ _ _ _ Hrun).
  rewrite (bind_Done fs_time _ s1 (s32 (startup_time (fps s1) + Z.quot (jiffies (fps s1)) HZ)) s1) by done.
  assert (Ha : has s1 inode i_atime) by (apply (ru_has _ _ _ _ _ R), (ic_has _ _ _ Hi); in_list).
  fstep. rewrite Z.sub_0_r, (proj2 (Z.eqb_neq count 0)) by lia.
  set (t := s32 _). exists (upd inode i_atime t s1).
  assert (Hsc : same_cache s1 (upd inode i_atime t s1)) by (apply same_cache_upd; not_in_list).
  split; [done |]. split; [by apply (serves_same_cache _ _ _ _ Hsc), R |].
  split; [rewrite cell_upd_fld by done; apply R |]. split; [apply R |].
  intros q g Hg H1 H2. rewrite cell_upd_ne by done. by apply (ru_rest _ _ _ _ _ R).
Qed.

End file_read.
