(* ===== verification/FileWrite.v ===== *)
(** * FileWrite: what [file_write] leaves in a file

    [file_write] of src/linux-0.01/fs/file_dev.c over the zones a file has:
    the bytes written are the bytes of the file from then on, and reading them
    gives them back. *)

From S2P Require Import Prelude Mem Mm Proc Sched Sys FsState Buffer BufferInv Getblk Contents CacheWrite Bitmap Inode Zones FileDev.

(** The blocks of zone numbers that lead to block [n] of a file. *)
Definition tables (c : Z -> Z -> Z -> Z) (dev : Z) (z : Z -> Z) (n : Z) : list Z :=
  if n <? 7 then []
  else if n <? 7 + 512 then [z 7]
  else [z 8; entry_of c dev (z 8) ((n - 519) / 512)].

(** Blocks [lo] to [hi] of the file are zones of their own: no two are the same,
    and none is a block of zone numbers of the file. *)
Record own_zones (c : Z -> Z -> Z -> Z) (dev : Z) (z : Z -> Z) (lo hi : Z) : Prop := {
  oz_inj n n' : lo <= n <= hi -> lo <= n' <= hi -> file_zone c dev z n <> 0 ->
    file_zone c dev z n = file_zone c dev z n' -> n = n';
  oz_table n n' : lo <= n <= hi -> lo <= n' <= hi -> file_zone c dev z n <> 0 ->
    (file_zone c dev z n ∉ tables c dev z n')
}.

(** A block outside the tables can change without moving the file. *)
Lemma file_zone_outside c c' dev z n :
  (forall b x, b ∈ tables c dev z n -> c' dev b x = c dev b x) ->
  file_zone c' dev z n = file_zone c dev z n /\ tables c' dev z n = tables c dev z n.
Proof.
  unfold file_zone, tables. intros H.
  assert (He : forall b k, (forall x, c' dev b x = c dev b x) -> entry_of c' dev b k = entry_of c dev b k).
  { intros b k E. unfold entry_of. by rewrite !E. }
  destruct (n <? 7); [done |]. destruct (n <? 7 + 512).
  { rewrite He by (intros; apply H; set_solver). done. }
  assert (E1 : forall k, entry_of c' dev (z 8) k = entry_of c dev (z 8) k).
  { intros k. apply He. intros x. apply H. set_solver. }
  rewrite !E1. rewrite He by (intros x; apply H; set_solver). done.
Qed.

(** A loop that stores [g i] at [p + i]. *)
Lemma copy_from_user_run p buf n s :
  0 <= n -> 0 <= p -> p + n <= 2 ^ 32 ->
  exists m, copy_from_user p buf n s = Done tt (set_kmem m s) /\
    (forall x, 0 <= x < n -> load8 m (p + x) = load8 (umem (fps s)) (buf + x)) /\
    only_changed (kmem s) m p n.
Proof.
  intros Hn Hp Hpn. unfold copy_from_user.
  set (I := fun i s' => exists m, s' = set_kmem m s /\
    (forall x, 0 <= x < i -> load8 m (p + x) = load8 (umem (fps s)) (buf + x)) /\ only_changed (kmem s) m p n).
  assert (H : post (for_loop (Z.to_nat n) 0 (fun i => b ← on_ps (get_fs_byte (buf + i)); kstore8 (p + i) b)) s
    (fun _ s' => I (0 + Z.of_nat (Z.to_nat n)) s')).
  { apply (post_for_loop _ _ _ I).
    - exists (kmem s). split; [by destruct s |]. split; [lia | apply only_changed_refl].
    - intros i s' Hi (m & -> & Hb & Ho). eapply post_Done; [reflexivity |]. eexists. split; [reflexivity |].
      cbn [kmem set_kmem]. split.
      + intros x Hx. rewrite load8_store8, !u32_small by (unfold in_u32; lia). case_decide as E.
        * replace x with i by lia. apply u8_small, load8_range.
        * apply Hb. lia.
      + intros x Hx Hout. rewrite load8_store8_ne by (rewrite !u32_small by (unfold in_u32 in *; lia); lia). by apply Ho. }
  apply post_inv in H as ([] & s' & Hrun & m & -> & Hb & Ho). exists m. split; [done |]. split; [| done].
  intros x Hx. apply Hb. lia.
Qed.

Section file_write.
Context {FW : FsWorld} {GD : GoodDisk}.
Context (L : list Z) (dev inode : Z) (lo hi : Z).

(** What writing [n] bytes from [buf] on at [pos] of the file does: the blocks
    [c] become [c']. *)
Record wrote (c c' : Z -> Z -> Z -> Z) (pos buf n : Z) (s s' : fstate) : Prop := {
  wr_serves : serves L c' s';
  wr_file k : lo <= k <= hi ->
    file_zone c' dev (zones_of inode s) k = file_zone c dev (zones_of inode s) k /\
    tables c' dev (zones_of inode s) k = tables c dev (zones_of inode s) k;
  wr_bytes p : lo <= p / 1024 <= hi ->
    file_byte c' dev (zones_of inode s) p =
      if decide (pos <= p < pos + n) then load8 (umem (fps s)) (buf + (p - pos))
      else file_byte c dev (zones_of inode s) p;
  wr_out d b x :
    (d = dev -> forall k, pos / 1024 <= k <= (pos + n - 1) / 1024 -> b <> file_zone c dev (zones_of inode s) k) ->
    c' d b x = c d b x;
  wr_size : cell s' inode i_size = if decide (0 < n) then Z.max (cell s inode i_size) (pos + n) else cell s inode i_size;
  wr_rest q g : (g ∉ buf_fields) -> (q, g) <> (inode, i_size) -> (q, g) <> (inode, i_dirt) -> cell s' q g = cell s q g;
  wr_has q g : has s q g -> has s' q g;
  wr_umem : umem (fps s') = umem (fps s)
}.

Lemma wrote_nothing c pos buf s : serves L c s -> wrote c c pos buf 0 s s.
Proof.
  intros Hs. constructor; try done.
  intros p _. by rewrite decide_False by lia.
Qed.

Lemma zones_wrote c c' pos buf n s s' i :
  wrote c c' pos buf n s s' -> 0 <= i < 9 -> zones_of inode s' i = zones_of inode s i.
Proof.
  intros R Hi. unfold zones_of. apply (wr_rest _ _ _ _ _ _ _ R); [by apply inode_field_rest, zone_field | by intros [=] ..].
Qed.

Lemma in_core_wrote c c' pos buf n s s' :
  wrote c c' pos buf n s s' -> in_core dev inode s -> in_core dev inode s'.
Proof.
  intros R []. constructor; [| done | |].
  - rewrite <- ic_dev. apply (wr_rest _ _ _ _ _ _ _ R); [not_in_list | by intros [=] ..].
  - intros f Hf. by apply (wr_has _ _ _ _ _ _ _ R), ic_has.
  - intros i Hi. pose proof (zones_wrote _ _ _ _ _ _ _ i R Hi) as E. unfold zones_of in E. rewrite E. by apply ic_zone.
Qed.

Lemma tables_ext c z z' n : (forall i, 0 <= i < 9 -> z i = z' i) -> tables c dev z n = tables c dev z' n.
Proof. intros H. unfold tables. by rewrite (H 7), (H 8) by lia. Qed.

(** The body of one round, once [create_block] has answered. *)
Lemma file_write_round c s1 z fuel pos buf i count n (K : Z -> Z -> M fstate (Z * Z)) :
  serves L c s1 -> in_core dev inode s1 -> 0 < z < 65536 ->
  0 <= pos -> pos + n < 2 ^ 31 -> 0 < n -> n = Z.min (1024 - pos mod 1024) (count - i) -> (0 < fuel)%nat ->
  exists s',
    (dev ← fget inode i_dev;
     bh ← bread fuel dev z;
     if bh =? 0 then mret (pos, i)
     else
       let off := Z.rem pos BLOCK_SIZE in
       d ← fget bh b_data;
       _ ← fput bh b_dirt 1;
       let c := BLOCK_SIZE - off in
       let c := if count - i <? c then count - i else c in
       let pos := s32 (pos + c) in
       size ← fget inode i_size;
       _ ← when (size <? u32 pos) (_ ← fput inode i_size pos; fput inode i_dirt 1);
       _ ← copy_from_user (off + d) buf c;
       _ ← brelse fuel bh;
       K pos c) s1 = K (pos + n) n s' /\
    serves L (write_at c dev z (pos mod 1024) n (fun x => load8 (umem (fps s1)) (buf + x))) s' /\
    cell s' inode i_size = Z.max (cell s1 inode i_size) (pos + n) /\
    (forall q g, (g ∉ buf_fields) -> (q, g) <> (inode, i_size) -> (q, g) <> (inode, i_dirt) -> cell s' q g = cell s1 q g) /\
    (forall q g, has s1 q g -> has s' q g) /\ umem (fps s') = umem (fps s1).
Proof.
  intros (Hr & Hsp & Hh) Hi Hz Hpos Hmax Hn0 En Hfuel. pose proof (ic_range _ _ _ Hi) as Hdev.
  assert (Hrem : Z.rem pos BLOCK_SIZE = pos mod 1024) by (apply Z.rem_mod_nonneg; unfold BLOCK_SIZE; lia).
  assert (Hmod : 0 <= pos mod 1024 < 1024) by wrap_lia.
  assert (Hin : forall f, f ∈ inode_fields -> has s1 inode f) by apply (ic_has _ _ _ Hi).
  assert (Hd : has s1 inode i_dev) by (apply Hin; in_list). fstep. rewrite (ic_dev _ _ _ Hi).
  destruct (bread_run L c s1 fuel dev z Hr Hsp Hh Hdev ltac:(lia) Hfuel) as (bh & s2 & Hrun & Hr2 & Hh2 & Hhb).
  rewrite (bind_Done _ _ _ _ _ Hrun). pose proof (ready_addr L s2 bh Hr2 (hb_in _ _ _ _ _ _ _ Hhb)) as Ha.
  rewrite (proj2 (Z.eqb_neq bh 0)) by lia. cbv zeta.
  assert (Hbf : forall f, f ∈ buf_fields -> has s2 bh f) by (intros; apply (ready_buf L); [done | apply Hhb | done]).
  assert (Hdat : has s2 bh b_data) by (apply Hbf; in_list). assert (Hdt : has s2 bh b_dirt) by (apply Hbf; in_list).
  assert (Hin2 : forall f, f ∈ inode_fields -> has s2 inode f) by (intros f Hf; by apply (hb_has _ _ _ _ _ _ _ Hhb), Hin).
  assert (Hsz : has s2 inode i_size) by (apply Hin2; in_list).
  assert (Hdr : has s2 inode i_dirt) by (apply Hin2; in_list).
  fstep. fstep. fstep. set (s3 := upd bh b_dirt 1 s2). rewrite Hrem.
  assert (Ech : (if count - i <? BLOCK_SIZE - pos mod 1024 then count - i else BLOCK_SIZE - pos mod 1024) = n).
  { rewrite En. unfold BLOCK_SIZE. destruct (Z.ltb_spec (count - i) (1024 - pos mod 1024)); lia. }
  rewrite Ech, (s32_small (pos + n)), (u32_small (pos + n)) by (unfold in_u32; lia).
  assert (Esz : cell s3 inode i_size = cell s1 inode i_size).
  { unfold s3. rewrite cell_upd_fld by done. apply (hb_rest _ _ _ _ _ _ _ Hhb). not_in_list. }
  set (grow := cell s3 inode i_size <? pos + n).
  set (s4 := if grow then upd inode i_dirt 1 (upd inode i_size (pos + n) s3) else s3).
  rewrite (bind_Done _ _ s3 tt s4).
  2: { unfold s4. destruct grow; cbn [when]; [| reflexivity].
       rewrite (bind_Done _ _ _ _ _ (fput_upd s3 inode i_size (pos + n) ltac:(by apply has_upd))).
       apply fput_upd. by do 2 apply has_upd. }
  assert (Hsc : same_cache s3 s4).
  { unfold s4. destruct grow; [| apply same_cache_refl].
    eapply same_cache_trans; apply same_cache_upd; not_in_list. }
  pose proof (rd_range _ _ Hr2 bh (hb_in _ _ _ _ _ _ _ Hhb)) as Hrg.
  assert (Em : kmem s4 = kmem s2) by (unfold s4; by destruct grow).
  assert (Eu : fps s4 = fps s2) by (unfold s4; by destruct grow).
  destruct (copy_from_user_run (pos mod 1024 + cell s2 bh b_data) buf n s4) as (m & Hcopy & Hb & Ho); [lia .. |].
  rewrite (bind_Done _ _ _ _ _ Hcopy). rewrite Em, ?Eu, (hb_umem _ _ _ _ _ _ _ Hhb) in *.
  destruct (brelse_stored L c dev z bh (pos mod 1024) n (fun x => load8 (umem (fps s1)) (buf + x)) s1 s2 (set_kmem m s4) fuel)
    as (s5 & Hrel & Hs5 & Hrest & Hhas & Hum%beside_umem); [done | done | done | done | lia | | lia | lia |].
  { apply stored_intro.
    - eapply same_cache_trans; [exact Hsc |]. by constructor.
    - intros x Hx. cbn [kmem set_kmem]. rewrite <- Hb by done. f_equal. lia.
    - cbn [kmem set_kmem]. by rewrite Z.add_comm. }
  exists s5. split; [by rewrite (bind_Done _ _ _ _ _ Hrel) |]. split; [done |].
  assert (Hc4 : forall q g, (q, g) <> (inode, i_size) -> (q, g) <> (inode, i_dirt) -> cell s4 q g = cell s3 q g).
  { intros q g H1 H2. unfold s4. destruct grow; [| done]. by rewrite !cell_upd_ne. }
  split; [| split; [| split]].
  - rewrite Hrest, cell_set_kmem by not_in_list. unfold s4, grow. rewrite Esz.
    destruct (Z.ltb_spec (cell s1 inode i_size) (pos + n)).
    + rewrite cell_upd_fld, cell_upd_eq by done. cbn [fnorm]. rewrite u32_small by (unfold in_u32; lia). lia.
    + rewrite Esz. lia.
  - intros q g Hg H1 H2. rewrite Hrest, cell_set_kmem, Hc4 by done. unfold s3.
    rewrite cell_upd_fld by (intros ->; apply Hg; in_list). by apply (hb_rest _ _ _ _ _ _ _ Hhb).
  - intros q g H. apply Hhas, has_set_kmem. unfold s4. destruct grow; unfold s3; repeat apply has_upd; by apply (hb_has _ _ _ _ _ _ _ Hhb).
  - rewrite Hum. cbn [set_kmem fps]. by rewrite Eu, (hb_umem _ _ _ _ _ _ _ Hhb).
Qed.

(** The blocks of a file after a piece of one has changed. *)
Lemma file_after c z pos n g :
  own_zones c dev z lo hi -> lo <= pos / 1024 <= hi -> file_zone c dev z (pos / 1024) <> 0 ->
  0 < n <= 1024 - pos mod 1024 ->
  let c' := write_at c dev (file_zone c dev z (pos / 1024)) (pos mod 1024) n g in
  (forall k, lo <= k <= hi -> file_zone c' dev z k = file_zone c dev z k /\ tables c' dev z k = tables c dev z k) /\
  (forall p, lo <= p / 1024 <= hi ->
     file_byte c' dev z p = if decide (pos <= p < pos + n) then g (p - pos) else file_byte c dev z p).
Proof.
  intros Hoz Hlo Hz Hn c'.
  assert (Hf : forall k, lo <= k <= hi -> file_zone c' dev z k = file_zone c dev z k /\ tables c' dev z k = tables c dev z k).
  { intros k Hk. apply file_zone_outside. intros b x Hb. apply write_at_out. intros (_ & -> & _).
    by apply (oz_table _ _ _ _ _ Hoz (pos / 1024) k). }
  split; [done |]. intros p Hp. unfold file_byte. rewrite (proj1 (Hf _ Hp)).
  destruct (decide (p / 1024 = pos / 1024)) as [E | E].
  - rewrite E, (proj2 (Z.eqb_neq _ 0) Hz). unfold c', write_at. repeat case_decide; try wrap_lia.
    f_equal. wrap_lia.
  - rewrite (decide_False (P := pos <= p < pos + n)) by wrap_lia.
    destruct (Z.eqb_spec (file_zone c dev z (p / 1024)) 0) as [E0 | E0]; [done |]. apply write_at_out.
    intros (_ & E' & _). apply E. by apply (oz_inj _ _ _ _ _ Hoz).
Qed.

Lemma wrote_trans c c1 c2 pos buf n n' s s1 s2 :
  0 <= lo -> 0 < n -> 0 <= n' -> 0 <= pos ->
  (forall k, pos / 1024 <= k <= (pos + (n + n') - 1) / 1024 -> lo <= k <= hi) ->
  wrote c c1 pos buf n s s1 -> wrote c1 c2 (pos + n) (buf + n) n' s1 s2 -> wrote c c2 pos buf (n + n') s s2.
Proof.
  intros Hlo0 Hn Hn' Hpos Hin R1 R2.
  assert (Hz : forall i, 0 <= i < 9 -> zones_of inode s i = zones_of inode s1 i)
    by (intros; symmetry; by apply (zones_wrote _ _ _ _ _ _ _ _ R1)).
  assert (Hfz : forall k c, 0 <= k -> file_zone c dev (zones_of inode s) k = file_zone c dev (zones_of inode s1) k)
    by (intros; by apply file_zone_ext).
  pose proof (wr_umem _ _ _ _ _ _ _ R1) as Hum. constructor.
  - apply R2.
  - intros k Hk. destruct (wr_file _ _ _ _ _ _ _ R1 k Hk) as [<- <-]. destruct (wr_file _ _ _ _ _ _ _ R2 k Hk) as [E1 E2].
    rewrite !Hfz by lia. by rewrite !(tables_ext _ _ _ k Hz).
  - intros p Hp. assert (0 <= p) by wrap_lia.
    rewrite (file_byte_ext c2 dev _ (zones_of inode s1)), (wr_bytes _ _ _ _ _ _ _ R2), Hum by done.
    rewrite <- (file_byte_ext c1 dev (zones_of inode s)), (wr_bytes _ _ _ _ _ _ _ R1) by done.
    repeat case_decide; try lia. f_equal. lia.
  - intros d b x Ho. rewrite (wr_out _ _ _ _ _ _ _ R2); [apply (wr_out _ _ _ _ _ _ _ R1) |]; intros -> k Hk.
    + apply Ho; [done | wrap_lia].
    + assert (Hk' : pos / 1024 <= k <= (pos + (n + n') - 1) / 1024) by wrap_lia.
      rewrite <- Hfz by wrap_lia. rewrite (proj1 (wr_file _ _ _ _ _ _ _ R1 k (Hin k Hk'))). by apply Ho.
  - rewrite (wr_size _ _ _ _ _ _ _ R2), (wr_size _ _ _ _ _ _ _ R1), (decide_True (P := 0 < n)), (decide_True (P := 0 < n + n')) by lia.
    case_decide; lia.
  - intros q g Hg H1 H2. rewrite (wr_rest _ _ _ _ _ _ _ R2) by done. by apply (wr_rest _ _ _ _ _ _ _ R1).
  - intros q g H. by apply (wr_has _ _ _ _ _ _ _ R2), (wr_has _ _ _ _ _ _ _ R1).
  - by rewrite (wr_umem _ _ _ _ _ _ _ R2).
Qed.

(** The blocks written at are there. *)
Definition allocated (c : Z -> Z -> Z -> Z) (s : fstate) (pos n : Z) : Prop :=
  forall k, pos / 1024 <= k <= (pos + n - 1) / 1024 ->
    lo <= k <= hi /\ file_zone c dev (zones_of inode s) k <> 0.

Lemma own_zones_wrote c c' pos buf n s s' :
  0 <= lo -> wrote c c' pos buf n s s' -> own_zones c dev (zones_of inode s) lo hi -> own_zones c' dev (zones_of inode s') lo hi.
Proof.
  intros Hlo0 R [].
  assert (Hz : forall i, 0 <= i < 9 -> zones_of inode s' i = zones_of inode s i) by (intros; by apply (zones_wrote _ _ _ _ _ _ _ _ R)).
  assert (E : forall k, lo <= k <= hi -> file_zone c' dev (zones_of inode s') k = file_zone c dev (zones_of inode s) k /\
    tables c' dev (zones_of inode s') k = tables c dev (zones_of inode s) k).
  { intros k Hk. rewrite (file_zone_ext _ _ _ (zones_of inode s)), (tables_ext _ _ (zones_of inode s)) by (done || lia).
    by apply (wr_file _ _ _ _ _ _ _ R). }
  constructor; intros k k' Hk Hk'.
  - rewrite (proj1 (E k Hk)), (proj1 (E k' Hk')). by apply oz_inj0.
  - rewrite (proj1 (E k Hk)), (proj2 (E k' Hk')). by apply oz_table0.
Qed.

(** One round: as many bytes as fit into the block. *)
Lemma write_blocks_round fuel N c s pos buf i count n :
  serves L c s -> in_core dev inode s -> own_zones c dev (zones_of inode s) lo hi -> allocated c s pos n ->
  0 <= pos -> pos + n <= (7 + 512 + 512 * 512) * 1024 -> 0 < n ->
  n = Z.min (1024 - pos mod 1024) (count - i) -> (0 < fuel)%nat ->
  exists c' s', write_blocks fuel (S N) inode pos buf i count s = write_blocks fuel N inode (pos + n) (buf + n) (i + n) count s' /\
    wrote c c' pos buf n s s'.
Proof.
  intros Hs Hi Hoz Hal Hpos Hmax Hn En Hfuel. cbn [write_blocks].
  rewrite (proj2 (Z.leb_gt count i)) by lia. rewrite Z.quot_div_nonneg by (unfold BLOCK_SIZE; lia).
  change (pos / BLOCK_SIZE) with (pos / 1024). unfold create_block.
  destruct (Hal (pos / 1024)) as [Hk Hnz]; [wrap_lia |].
  destruct (_bmap_run L c dev inode s fuel (pos / 1024) true) as (s1 & Hbm & Hs1 & Hud & Hzr);
    [done | done | wrap_lia | done | by right |].
  rewrite (bind_Done _ _ _ _ _ Hbm). fold (zones_of inode s) in Hzr |- *.
  rewrite (proj2 (Z.eqb_neq _ 0) Hnz).
  destruct (file_write_round c s1 (file_zone c dev (zones_of inode s) (pos / 1024)) fuel pos buf i count n
    (fun pos c => write_blocks fuel N inode pos (buf + c) (i + c) count))
    as (s2 & Hrun & Hs2 & Hsz & Hrest & Hhas & Hum); [done | eapply in_core_ud; done | lia .. |].
  rewrite (ud_umem _ _ _ Hud) in Hs2, Hum.
  destruct (file_after c (zones_of inode s) pos n (fun x => load8 (umem (fps s)) (buf + x))) as [Hf Hb];
    [done | done | done | lia |].
  eexists _, s2. split; [exact Hrun |]. constructor; [done | done | done | | | | |].
  - intros d b x Ho. apply write_at_out. intros (-> & -> & _). apply (Ho eq_refl (pos / 1024)); [wrap_lia | done].
  - rewrite decide_True, Hsz by lia. f_equal. apply (ud_rest _ _ _ Hud). not_in_list.
  - intros q g Hg H1 H2. rewrite Hrest by done. by apply (ud_rest _ _ _ Hud).
  - intros q g H. by apply Hhas, (ud_has _ _ _ Hud).
  - done.
Qed.

Lemma write_blocks_run fuel N : forall c s pos buf i count,
  0 <= lo -> serves L c s -> in_core dev inode s -> own_zones c dev (zones_of inode s) lo hi ->
  allocated c s pos (count - i) ->
  0 <= pos -> pos + (count - i) <= (7 + 512 + 512 * 512) * 1024 -> 0 <= count - i <= Z.of_nat N -> (0 < fuel)%nat ->
  exists c' s', write_blocks fuel N inode pos buf i count s = Done (pos + (count - i), count) s' /\
    wrote c c' pos buf (count - i) s s'.
Proof.
  induction N as [| N IH]; intros c s pos buf i count Hlo Hs Hi Hoz Hal Hpos Hmax Hc Hfuel.
  { assert (Ei : i = count) by lia. exists c, s. cbn [write_blocks].
    rewrite (proj2 (Z.leb_le count i)) by lia. subst i. rewrite Z.sub_diag, Z.add_0_r.
    split; [done | by apply wrote_nothing]. }
  destruct (decide (count <= i)) as [Hle | Hlt].
  { exists c, s. cbn [write_blocks]. rewrite (proj2 (Z.leb_le count i)) by lia.
    assert (i = count) as -> by lia. rewrite Z.sub_diag, Z.add_0_r.
    split; [done | by apply wrote_nothing]. }
  set (m := Z.min (1024 - pos mod 1024) (count - i)).
  assert (Hm : 0 < m <= count - i /\ m <= 1024 - pos mod 1024) by (unfold m; wrap_lia).
  assert (Hin : forall k, pos / 1024 <= k <= (pos + m - 1) / 1024 -> pos / 1024 <= k <= (pos + (count - i) - 1) / 1024) by wrap_lia.
  destruct (write_blocks_round fuel N c s pos buf i count m) as (c1 & s1 & Hrun & R1);
    [done | done | done | intros k Hk; by apply Hal, Hin | done | lia | lia | done | done |].
  destruct (IH c1 s1 (pos + m) (buf + m) (i + m) count) as (c2 & s2 & Hrun2 & R2);
    [done | apply R1 | by eapply in_core_wrote | by eapply own_zones_wrote | | lia .. | done |].
  - intros k Hk. destruct (Hal k) as [Hlk Hz]; [wrap_lia |]. split; [done |].
    rewrite (file_zone_ext _ _ _ (zones_of inode s)); [| intros; by apply (zones_wrote _ _ _ _ _ _ _ _ R1) | lia].
    by rewrite (proj1 (wr_file _ _ _ _ _ _ _ R1 k Hlk)).
  - exists c2, s2. rewrite Hrun, Hrun2. split; [by replace (pos + m + (count - (i + m))) with (pos + (count - i)) by lia |].
    replace (count - i) with (m + (count - (i + m))) by lia. apply (wrote_trans c c1 c2 _ _ _ _ s s1 s2); try done; try lia.
    intros k Hk. apply Hal. by replace (count - i) with (m + (count - (i + m))) by lia.
Qed.

(** Where a write begins. *)
Definition write_pos (s : fstate) (filp : Z) : Z :=
  if negb (Z.land (cell s filp f_flags) O_APPEND =? 0) then s32 (cell s inode i_size) else cell s filp f_pos.

Lemma file_write_run c fuel s filp buf count :
  0 <= lo -> serves L c s -> in_core dev inode s -> has s filp f_pos -> has s filp f_flags ->
  own_zones c dev (zones_of inode s) lo hi -> allocated c s (write_pos s filp) count ->
  0 <= write_pos s filp -> 0 < count -> write_pos s filp + count <= (7 + 512 + 512 * 512) * 1024 -> (0 < fuel)%nat ->
  exists c' s1 s', file_write fuel inode filp buf count s = Done count s' /\
    wrote c c' (write_pos s filp) buf count s s1 /\ serves L c' s' /\
    cell s' filp f_pos = (if Z.land (cell s filp f_flags) O_APPEND =? 0 then write_pos s filp + count else cell s filp f_pos) /\
    (forall q g, g ∉ [f_pos; i_mtime; i_ctime] -> cell s' q g = cell s1 q g) /\
    (forall q, q <> filp -> cell s' q f_pos = cell s1 q f_pos) /\
    (forall q g, has s q g -> has s' q g) /\
    umem (fps s') = umem (fps s).
Proof.
  intros Hlo Hs Hi Hp Hf Hoz Hal Hpos Hc Hmax Hfuel. unfold file_write. fstep.
  assert (Hsz : has s inode i_size) by (apply (ic_has _ _ _ Hi); in_list).
  rewrite (bind_Done _ _ s (write_pos s filp) s).
  2: { unfold write_pos. destruct (negb _); [by fstep | by apply fget_cell]. }
  destruct (write_blocks_run fuel (Z.to_nat count) c s (write_pos s filp) buf 0 count)
    as (c' & s1 & Hrun & R); rewrite ?Z.sub_0_r in *; [done .. | lia | done |].
  rewrite (bind_Done _ _ _ _ _ Hrun). cbv zeta beta iota.
  rewrite (bind_Done fs_time _ s1 (s32 (startup_time (fps s1) + Z.quot (jiffies (fps s1)) HZ)) s1) by done.
  set (t := s32 _).
  assert (Hin : forall f, f ∈ inode_fields -> has s1 inode f) by (intros; by apply (wr_has _ _ _ _ _ _ _ R), (ic_has _ _ _ Hi)).
  assert (Hm : has s1 inode i_mtime) by (apply Hin; in_list). assert (Hct : has s1 inode i_ctime) by (apply Hin; in_list).
  assert (Hf1 : has s1 filp f_flags) by by apply (wr_has _ _ _ _ _ _ _ R).
  assert (Hp1 : has s1 filp f_pos) by by apply (wr_has _ _ _ _ _ _ _ R).
  fstep. set (s2 := upd inode i_mtime t s1). assert (Hf2 : has s2 filp f_flags) by by apply has_upd. fstep.
  assert (Ef : cell s2 filp f_flags = cell s filp f_flags).
  { unfold s2. rewrite cell_upd_fld by done. apply (wr_rest _ _ _ _ _ _ _ R); [not_in_list | by intros [=] ..]. }
  rewrite Ef. rewrite (proj2 (Z.eqb_neq count 0)) by lia. cbn [negb].
  set (s3 := if Z.land (cell s filp f_flags) O_APPEND =? 0
             then upd inode i_ctime t (upd filp f_pos (write_pos s filp + count) s2) else s2).
  assert (Hend : (when (Z.land (cell s filp f_flags) O_APPEND =? 0)
    (_ ← fput filp f_pos (write_pos s filp + count); t ← fs_time; fput inode i_ctime t)) s2 = Done tt s3).
  { unfold s3. destruct (_ =? 0); cbn [when]; [| done].
    assert (Hp2 : has s2 filp f_pos) by by apply has_upd. fstep.
    rewrite (bind_Done fs_time _ _ t (upd filp f_pos (write_pos s filp + count) s2)) by done.
    apply fput_upd. by do 2 apply has_upd. }
  rewrite (bind_Done _ _ _ _ _ Hend). exists c', s1, s3. split; [done |]. split; [done |].
  assert (Hsc : same_cache s1 s3).
  { unfold s3, s2. destruct (_ =? 0); repeat (eapply same_cache_trans; [| apply same_cache_upd; not_in_list]); apply same_cache_refl. }
  split; [apply (serves_same_cache _ _ _ _ Hsc); [by unfold s3; destruct (_ =? 0) | apply R] |].
  split; [| split; [| split; [| split]]].
  - unfold s3. destruct (_ =? 0).
    + rewrite cell_upd_fld, cell_upd_eq by done. apply s32_small. lia.
    + unfold s2. rewrite cell_upd_fld by done. apply (wr_rest _ _ _ _ _ _ _ R); [not_in_list | by intros [=] ..].
  - intros q g Hg. unfold s3, s2. destruct (_ =? 0); rewrite !cell_upd_fld; (done || (intros ->; apply Hg; in_list)).
  - intros q Hq. unfold s3, s2. destruct (_ =? 0); [rewrite cell_upd_fld, cell_upd_obj by done |]; by rewrite cell_upd_fld.
  - intros q g H. unfold s3, s2. destruct (_ =? 0); repeat apply has_upd; by apply (wr_has _ _ _ _ _ _ _ R).
  - unfold s3. destruct (_ =? 0); apply R.
Qed.

(** C11: [file_write] of [count] bytes to an inode, over blocks the file has,
    all of them zones of their own (none twice, none a block of zone numbers):
    the bytes of the file from the position on are the bytes of the caller's
    memory, all others are what they were, and so is every block of every
    device that is not one of those written to. The size grows to the end of
    what was written if that is further on. Without O_APPEND the position of
    the file moves by [count]; with it writing begins at the end of the file
    and the position stays. All of [count] is written, whether or not any of it
    has reached the device. *)
Theorem file_write_correct c fuel s filp buf count :
  0 <= lo -> serves L c s -> in_core dev inode s -> has s filp f_pos -> has s filp f_flags ->
  own_zones c dev (zones_of inode s) lo hi -> allocated c s (write_pos s filp) count ->
  0 <= write_pos s filp -> 0 < count -> write_pos s filp + count <= (7 + 512 + 512 * 512) * 1024 -> (0 < fuel)%nat ->
  let pos := write_pos s filp in
  exists c' s', file_write fuel inode filp buf count s = Done count s' /\ serves L c' s' /\
    (forall p, lo <= p / 1024 <= hi ->
       file_byte c' dev (zones_of inode s') p =
         if decide (pos <= p < pos + count) then load8 (umem (fps s)) (buf + (p - pos))
         else file_byte c dev (zones_of inode s) p) /\
    (forall d b x,
       (d = dev -> forall k, pos / 1024 <= k <= (pos + count - 1) / 1024 -> b <> file_zone c dev (zones_of inode s) k) ->
       c' d b x = c d b x) /\
    cell s' inode i_size = Z.max (cell s inode i_size) (pos + count) /\
    cell s' filp f_pos = (if Z.land (cell s filp f_flags) O_APPEND =? 0 then pos + count else cell s filp f_pos) /\
    umem (fps s') = umem (fps s).
Proof.
  intros Hlo Hs Hi Hp Hf Hoz Hal Hpos Hc Hmax Hfuel pos.
  destruct (file_write_run c fuel s filp buf count) as (c' & s1 & s' & Hrun & R & Hs' & Hpos' & Hcell & _ & _ & Hum); [done .. |].
  exists c', s'. split; [done |]. split; [done |]. split; [| split; [| split; [| done]]].
  - intros p Hp'. rewrite <- (wr_bytes _ _ _ _ _ _ _ R) by done. apply file_byte_ext; [| wrap_lia].
    intros i Hi'. unfold zones_of. rewrite Hcell by not_in_list. by apply (zones_wrote _ _ _ _ _ _ _ _ R).
  - intros d b x Ho. by apply (wr_out _ _ _ _ _ _ _ R).
  - rewrite Hcell by not_in_list. by rewrite (wr_size _ _ _ _ _ _ _ R), decide_True.
Qed.

(** C12: What is written is what is read, over blocks the file has: if every
    block from the position to its end [count] bytes on is allocated, and the
    file's blocks are zones of their own (no two the same, none a block of zone
    numbers), [file_write] at a position without O_APPEND, then [file_read] from
    there, by way of whatever the cache makes of it, gives the bytes that were
    written. (Blocks still to be created are not covered.) *)
Theorem write_read_roundtrip c fuel s filp buf buf' count :
  0 <= lo -> serves L c s -> in_core dev inode s -> has s filp f_pos -> has s filp f_flags ->
  Z.land (cell s filp f_flags) O_APPEND = 0 ->
  own_zones c dev (zones_of inode s) lo hi -> allocated c s (cell s filp f_pos) count ->
  0 <= cell s filp f_pos -> 0 < count -> cell s filp f_pos + count <= (7 + 512 + 512 * 512) * 1024 ->
  0 <= buf -> buf + count <= 2 ^ 32 -> 0 <= buf' -> buf' + count <= 2 ^ 32 -> (0 < fuel)%nat ->
  exists s',
    (w ← file_write fuel inode filp buf count;
     _ ← fput filp f_pos (cell s filp f_pos);
     r ← file_read fuel inode filp buf' count;
     mret (w, r)) s = Done (count, count) s' /\
    (forall x, 0 <= x < count -> load8 (umem (fps s')) (buf' + x) = load8 (umem (fps s)) (buf + x)).
Proof.
  intros Hlo Hs Hi Hp Hf Happ Hoz Hal Hpos Hc Hmax Hb Hbc Hb' Hbc' Hfuel.
  assert (Epos : write_pos s filp = cell s filp f_pos) by (unfold write_pos; by rewrite Happ).
  rewrite <- Epos in Hal.
  destruct (file_write_run c fuel s filp buf count)
    as (c' & s1 & s2 & Hrun & R & Hs2 & _ & Hcell & Hcp & Hhas & Hum); [done .. | lia | done | lia | done |].
  rewrite (bind_Done _ _ _ _ _ Hrun). assert (Hp2 : has s2 filp f_pos) by by apply Hhas.
  fstep. set (s3 := upd filp f_pos (cell s filp f_pos) s2).
  assert (Ep3 : cell s3 filp f_pos = cell s filp f_pos).
  { unfold s3. rewrite cell_upd_eq. apply s32_small. lia. }
  assert (Hz : forall f, f ∈ inode_fields -> f ∉ [f_pos; i_mtime; i_ctime; i_size; i_dirt] -> cell s3 inode f = cell s inode f).
  { intros f Hf' Hn. assert (Hf0 : f ∉ buf_fields) by by apply inode_field_rest.
    unfold s3. rewrite cell_upd_fld, Hcell by set_solver.
    apply (wr_rest _ _ _ _ _ _ _ R); [done | intros [= ->]; set_solver ..]. }
  assert (Hzn : forall i, 0 <= i < 9 -> cell s3 inode (i_zone i) = cell s inode (i_zone i)).
  { intros i Hi'. apply Hz; [by apply zone_field | not_in_list]. }
  assert (Hs3 : serves L c' s3) by (by apply (serves_same_cache _ _ s2), Hs2; [apply same_cache_upd; not_in_list |]).
  assert (Hi3 : in_core dev inode s3).
  { constructor; [rewrite Hz by (in_list || not_in_list) | | intros f Hf'; by apply has_upd, Hhas, (ic_has _ _ _ Hi) |]; try apply Hi.
    intros i Hi'. rewrite Hzn by done. by apply (ic_zone _ _ _ Hi). }
  destruct (file_read_run L c' dev inode filp fuel s3 buf' count)
    as (s4 & Hread & _ & _ & Hmem & _); rewrite ?Ep3; [done | done | by apply has_upd | done .. |].
  exists s4. split; [by rewrite (bind_Done _ _ _ _ _ Hread) |]. intros x Hx.
  rewrite Hmem, decide_True, Ep3 by (unfold in_u32; lia). replace (buf' + x - buf') with x by lia.
  assert (Hlx : lo <= (cell s filp f_pos + x) / 1024 <= hi).
  { apply Hal. rewrite Epos. wrap_lia. }
  rewrite (file_byte_ext c' dev _ (zones_of inode s)) by (done || lia).
  rewrite (wr_bytes _ _ _ _ _ _ _ R), Epos, decide_True by (done || lia). do 2 f_equal. lia.
Qed.
End file_write.
