(* ===== verification/Files.v ===== *)
(** * Files: src/linux-0.01/fs/read_write.c, char_dev.c, pipe.c, fcntl.c, stat.c, ioctl.c

    The system calls on open files. The terminal driver behind the character
    devices is an interface, [TtyOps]. *)

From S2P Require Import Prelude Mem Mm Proc Sched Fork Exit Sys FsState Buffer Bitmap Inode FileDev.

Definition ENOENT : Z := 2.
Definition EBADF : Z := 9.
Definition EINVAL : Z := 22.
Definition EMFILE : Z := 24.
Definition ENOTTY : Z := 25.
Definition ESPIPE : Z := 29.
Definition O_NONBLOCK : Z := 0x800.
Definition F_DUPFD : Z := 0.
Definition F_GETFD : Z := 1.
Definition F_SETFD : Z := 2.
Definition F_GETFL : Z := 3.
Definition F_SETFL : Z := 4.
Definition IS_BLOCKDEV (x : Z) : bool := (x =? 2) || (x =? 3).

(** What the files ask of the terminals (kernel/tty_io.c, fs/tty_ioctl.c):
    reading, writing and controlling terminal [minor], and giving it to a
    process group when its leader opens it. *)
Class TtyOps : Type := {
  tty_read : Z -> Z -> Z -> M fstate Z;
  tty_write : Z -> Z -> Z -> M fstate Z;
  tty_ioctl : Z -> Z -> Z -> M fstate Z;
  tty_set_pgrp : Z -> Z -> M fstate unit
}.

(** The fields of the current task. *)
Definition fcur_get (f : tfield) : M fstate Z := on_ps (cur_get f).
Definition fcur_put (f : tfield) (v : Z) : M fstate unit := on_ps (cur_put f v).

(** [current->filp[fd]]; an index outside the array is undefined behaviour. *)
Definition filp_get (fd : Z) : M fstate Z :=
  if (0 <=? fd) && (fd <? NR_OPEN) then fcur_get (T_filp fd) else halt (Fault "filp").

Section files.
Context {FW : FsWorld} {TO : TtyOps} {KS : KernelSvc}.

Definition file_at (i : Z) : Z := file_table + sizeof_file * i.

(** ** char_dev.c *)

Definition rw_ttyx (rw minor buf count : Z) : M fstate Z :=
  if rw =? READ then tty_read minor buf count else tty_write minor buf count.

Definition rw_tty (rw minor buf count : Z) : M fstate Z :=
  t ← fcur_get T_tty;
  if t <? 0 then mret (- EPERM) else rw_ttyx rw t buf count.

Definition rw_char (rw dev buf count : Z) : M fstate Z :=
  _ ← when (8 <=? MAJOR dev) (panic "rw_char: dev>NRDEV");
  if MAJOR dev =? 4 then rw_ttyx rw (MINOR dev) buf count
  else if MAJOR dev =? 5 then rw_tty rw (MINOR dev) buf count
  else
    _ ← fs_printk "dev: %04x" [dev];
    panic "Trying to r/w from/to nonexistent character device".

(** ** pipe.c *)

(** [INC_PIPE]. *)
Definition INC_PIPE (inode k : Z) : M fstate unit :=
  v ← pipe_get inode k;
  pipe_put inode k (Z.land (u32 (v + 1)) 4095).
Definition PIPE_SIZE (head tail : Z) : Z := Z.land (head - tail) (PAGE_SIZE - 1).
Definition PIPE_EMPTY (inode : Z) : M fstate bool :=
  h ← PIPE_HEAD inode; t ← PIPE_TAIL inode; mret (h =? t).
Definition PIPE_FULL (inode : Z) : M fstate bool :=
  h ← PIPE_HEAD inode; t ← PIPE_TAIL inode; mret (PIPE_SIZE h t =? PAGE_SIZE - 1).

(** [while (PIPE_EMPTY( *inode))]: false if the writers are gone. *)
Fixpoint pipe_wait_data (fuel : nat) (inode : Z) : M fstate bool :=
  e ← PIPE_EMPTY inode;
  if negb e then mret true
  else
    _ ← on_ps (wake_up (i_wait inode));
    c ← fget inode i_count;
    if negb (c =? 2) then mret false
    else
      match fuel with
      | O => halt NoFuel
      | S fuel' => _ ← fs_sleep_on (i_wait inode); pipe_wait_data fuel' inode
      end.

(** [while (count>0 && !PIPE_EMPTY( *inode))]: [b] afterwards. *)
Fixpoint pipe_take (n : nat) (inode b : Z) : M fstate Z :=
  match n with
  | O => mret b
  | S n' =>
      e ← PIPE_EMPTY inode;
      if e : bool then mret b
      else
        page ← fget inode i_size;
        t ← PIPE_TAIL inode;
        ch ← kload8 (page + t);
        _ ← on_ps (put_fs_byte ch b);
        _ ← INC_PIPE inode 1;
        pipe_take n' inode (b + 1)
  end.

Definition read_pipe (fuel : nat) (inode buf count : Z) : M fstate Z :=
  ok ← pipe_wait_data fuel inode;
  if negb ok then mret 0
  else
    b ← pipe_take (Z.to_nat count) inode buf;
    _ ← on_ps (wake_up (i_wait inode));
    mret (b - buf).

Definition sigpipe : M fstate unit :=
  s ← fcur_get T_signal;
  fcur_put T_signal (Z.lor s (Z.shiftl 1 (SIGPIPE - 1))).

(** [while (PIPE_FULL( *inode))]: false if the reader is gone. *)
Fixpoint pipe_wait_room (fuel : nat) (inode : Z) : M fstate bool :=
  f ← PIPE_FULL inode;
  if negb f then mret true
  else
    _ ← on_ps (wake_up (i_wait inode));
    c ← fget inode i_count;
    if negb (c =? 2) then
      _ ← sigpipe;
      mret false
    else
      match fuel with
      | O => halt NoFuel
      | S fuel' => _ ← fs_sleep_on (i_wait inode); pipe_wait_room fuel' inode
      end.

(** [while (count-->0)]: [b] afterwards, and whether the loop ran to its end. *)
Fixpoint pipe_give (fuel n : nat) (inode b : Z) : M fstate (Z * bool) :=
  match n with
  | O => mret (b, true)
  | S n' =>
      ok ← pipe_wait_room fuel inode;
      if negb ok then mret (b, false)
      else
        page ← fget inode i_size;
        h ← PIPE_HEAD inode;
        ch ← on_ps (get_fs_byte b);
        _ ← kstore8 (page + h) ch;
        _ ← INC_PIPE inode 0;
        _ ← on_ps (wake_up (i_wait inode));
        pipe_give fuel n' inode (b + 1)
  end.

Definition write_pipe (fuel : nat) (inode buf count : Z) : M fstate Z :=
  _ ← on_ps (wake_up (i_wait inode));
  c ← fget inode i_count;
  if negb (c =? 2) then
    _ ← sigpipe;
    mret (-1)
  else
    r ← pipe_give fuel (Z.to_nat count) inode buf;
    let '(b, whole) := r in
    _ ← (if whole : bool then on_ps (wake_up (i_wait inode)) else mret tt);
    mret (b - buf).

(** The first loop of [sys_pipe]: up to [n] more unused files, from entry [i]
    of the table on, each taken. *)
Fixpoint take_files (m n : nat) (i : Z) : M fstate (list Z) :=
  match m, n with
  | O, _ | _, O => mret []
  | S m', S n' =>
      c ← fget (file_at i) f_count;
      if c =? 0 then
        _ ← finc (file_at i) f_count;
        l ← take_files m' n' (i + 1);
        mret (file_at i :: l)
      else take_files m' n (i + 1)
  end.

(** The second: unused descriptors for the files [fs], from [i] on. *)
Fixpoint take_fds (m : nat) (fs : list Z) (i : Z) : M fstate (list Z) :=
  match m, fs with
  | O, _ | _, [] => mret []
  | S m', f :: fs' =>
      p ← fcur_get (T_filp i);
      if p =? 0 then
        _ ← fcur_put (T_filp i) f;
        l ← take_fds m' fs' (i + 1);
        mret (i :: l)
      else take_fds m' fs (i + 1)
  end.

Definition sys_pipe (fuel : nat) (fildes : Z) : M fstate Z :=
  l ← take_files (Z.to_nat NR_FILE) 2 0;
  match l with
  | [f0; f1] =>
      d ← take_fds (Z.to_nat NR_OPEN) l 0;
      match d with
      | [fd0; fd1] =>
          inode ← get_pipe_inode fuel;
          if inode =? 0 then
            _ ← fcur_put (T_filp fd1) 0;
            _ ← fcur_put (T_filp fd0) 0;
            _ ← fput f1 f_count 0;
            _ ← fput f0 f_count 0;
            mret (-1)
          else
            _ ← fput f1 f_inode inode;
            _ ← fput f0 f_inode inode;
            _ ← fput f1 f_pos 0;
            _ ← fput f0 f_pos 0;
            _ ← fput f0 f_mode 1;
            _ ← fput f1 f_mode 2;
            _ ← on_ps (put_fs_long fd0 fildes);
            _ ← on_ps (put_fs_long fd1 (fildes + 4));
            mret 0
      | _ =>
          _ ← (match d with [fd0] => fcur_put (T_filp fd0) 0 | _ => mret tt end);
          _ ← fput f1 f_count 0;
          _ ← fput f0 f_count 0;
          mret (-1)
      end
  | _ =>
      _ ← (match l with [f0] => fput f0 f_count 0 | _ => mret tt end);
      mret (-1)
  end.

(** ** read_write.c *)

Definition sys_lseek (fd offset origin : Z) : M fstate Z :=
  if NR_OPEN <=? fd then mret (- EBADF)
  else
    file ← filp_get fd;
    if file =? 0 then mret (- EBADF)
    else
      inode ← fget file f_inode;
      if inode =? 0 then mret (- EBADF)
      else
        dev ← fget inode i_dev;
        if negb (IS_BLOCKDEV (MAJOR dev)) then mret (- EBADF)
        else
          pipe ← fget inode i_pipe;
          if negb (pipe =? 0) then mret (- ESPIPE)
          else
            pos ← fget file f_pos;
            size ← fget inode i_size;
            let r :=
              if origin =? 0 then if offset <? 0 then None else Some offset
              else if origin =? 1 then
                if s32 (pos + offset) <? 0 then None else Some (s32 (pos + offset))
              else if origin =? 2 then
                if s32 (size + offset) <? 0 then None else Some (s32 (size + offset))
              else None in
            match r with
            | None => mret (- EINVAL)
            | Some p =>
                _ ← fput file f_pos p;
                fget file f_pos
            end.

Definition sys_read (fuel : nat) (fd buf count : Z) : M fstate Z :=
  if (NR_OPEN <=? fd) || (count <? 0) then mret (- EINVAL)
  else
    file ← filp_get fd;
    if file =? 0 then mret (- EINVAL)
    else if count =? 0 then mret 0
    else
      _ ← on_ps (verify_area buf count);
      inode ← fget file f_inode;
      pipe ← fget inode i_pipe;
      if negb (pipe =? 0) then
        mode ← fget file f_mode;
        if negb (Z.land mode 1 =? 0) then read_pipe fuel inode buf count else mret (-1)
      else
        mode ← fget inode i_mode;
        if S_ISCHR mode then z ← fget inode (i_zone 0); rw_char READ z buf count
        else if S_ISBLK mode then z ← fget inode (i_zone 0); block_read fuel z file buf count
        else if S_ISDIR mode || S_ISREG mode then
          pos ← fget file f_pos;
          size ← fget inode i_size;
          let count := if size <? u32 (count + pos) then s32 (size - pos) else count in
          if count <=? 0 then mret 0 else file_read fuel inode file buf count
        else
          _ ← fs_printk "(Read)inode->i_mode=%06o" [mode];
          mret (- EINVAL).

Definition sys_write (fuel : nat) (fd buf count : Z) : M fstate Z :=
  if (NR_OPEN <=? fd) || (count <? 0) then mret (- EINVAL)
  else
    file ← filp_get fd;
    if file =? 0 then mret (- EINVAL)
    else if count =? 0 then mret 0
    else
      inode ← fget file f_inode;
      pipe ← fget inode i_pipe;
      if negb (pipe =? 0) then
        mode ← fget file f_mode;
        if negb (Z.land mode 2 =? 0) then write_pipe fuel inode buf count else mret (-1)
      else
        mode ← fget inode i_mode;
        if S_ISCHR mode then z ← fget inode (i_zone 0); rw_char WRITE z buf count
        else if S_ISBLK mode then z ← fget inode (i_zone 0); block_write fuel z file buf count
        else if S_ISREG mode then file_write fuel inode file buf count
        else
          _ ← fs_printk "(Write)inode->i_mode=%06o" [mode];
          mret (- EINVAL).

(** ** [sys_close] of open.c *)

Definition close_on_exec_clear (fd : Z) : M fstate unit :=
  c ← fcur_get T_close_on_exec;
  fcur_put T_close_on_exec (Z.land c (Z.lnot (Z.shiftl 1 fd))).

Definition sys_close (fuel : nat) (fd : Z) : M fstate Z :=
  if NR_OPEN <=? fd then mret (- EINVAL)
  else
    _ ← close_on_exec_clear fd;
    filp ← filp_get fd;
    if filp =? 0 then mret (- EINVAL)
    else
      _ ← fcur_put (T_filp fd) 0;
      c ← fget filp f_count;
      _ ← when (c =? 0) (panic "Close: file count is 0");
      _ ← fdec filp f_count;
      c ← fget filp f_count;
      if negb (c =? 0) then mret 0
      else
        inode ← fget filp f_inode;
        _ ← iput fuel inode;
        mret 0.

(** ** fcntl.c *)

(** [while (arg < NR_OPEN) if (current->filp[arg]) arg++; else break;] *)
Fixpoint free_fd (n : nat) (arg : Z) : M fstate Z :=
  match n with
  | O => mret arg
  | S n' =>
      p ← fcur_get (T_filp arg);
      if p =? 0 then mret arg else free_fd n' (arg + 1)
  end.

Definition dupfd (fd arg : Z) : M fstate Z :=
  if NR_OPEN <=? fd then mret (- EBADF)
  else
    p ← filp_get fd;
    if p =? 0 then mret (- EBADF)
    else if NR_OPEN <=? arg then mret (- EINVAL)
    else
      arg ← free_fd (Z.to_nat (NR_OPEN - arg)) arg;
      if NR_OPEN <=? arg then mret (- EMFILE)
      else
        _ ← close_on_exec_clear arg;
        p ← filp_get fd;
        _ ← fcur_put (T_filp arg) p;
        _ ← finc p f_count;
        mret arg.

Definition sys_dup2 (fuel : nat) (oldfd newfd : Z) : M fstate Z :=
  _ ← sys_close fuel newfd;
  dupfd oldfd newfd.

Definition sys_dup (fildes : Z) : M fstate Z := dupfd fildes 0.

Definition sys_fcntl (fd cmd arg : Z) : M fstate Z :=
  if NR_OPEN <=? fd then mret (- EBADF)
  else
    filp ← filp_get fd;
    if filp =? 0 then mret (- EBADF)
    else if cmd =? F_DUPFD then dupfd fd arg
    else if cmd =? F_GETFD then
      c ← fcur_get T_close_on_exec;
      mret (Z.land (Z.shiftr c fd) 1)
    else if cmd =? F_SETFD then
      c ← fcur_get T_close_on_exec;
      _ ← (if negb (Z.land arg 1 =? 0)
           then fcur_put T_close_on_exec (Z.lor c (Z.shiftl 1 fd))
           else fcur_put T_close_on_exec (Z.land c (Z.lnot (Z.shiftl 1 fd))));
      mret 0
    else if cmd =? F_GETFL then fget filp f_flags
    else if cmd =? F_SETFL then
      f ← fget filp f_flags;
      _ ← fput filp f_flags (Z.land f (Z.lnot (Z.lor O_APPEND O_NONBLOCK)));
      f ← fget filp f_flags;
      _ ← fput filp f_flags (Z.lor f (Z.land arg (Z.lor O_APPEND O_NONBLOCK)));
      mret 0
    else mret (-1).

(** ** ioctl.c *)

Definition sys_ioctl (fd cmd arg : Z) : M fstate Z :=
  if NR_OPEN <=? fd then mret (- EBADF)
  else
    filp ← filp_get fd;
    if filp =? 0 then mret (- EBADF)
    else
      inode ← fget filp f_inode;
      mode ← fget inode i_mode;
      if negb (S_ISCHR mode) && negb (S_ISBLK mode) then mret (- EINVAL)
      else
        dev ← fget inode (i_zone 0);
        _ ← when (8 <=? MAJOR dev) (panic "unknown device for ioctl");
        if (MAJOR dev =? 4) || (MAJOR dev =? 5) then tty_ioctl dev cmd arg
        else mret (- ENOTTY).

(** ** stat.c *)

(** [struct stat]: the members that are set, their offsets and sizes. *)
Definition stat_layout : list (fld * Z * nat) :=
  [(i_dev, 0, 2%nat); (i_num, 2, 2%nat); (i_mode, 4, 2%nat); (i_nlinks, 6, 1%nat);
   (i_uid, 8, 2%nat); (i_gid, 10, 1%nat); (i_zone 0, 12, 2%nat); (i_size, 16, 4%nat);
   (i_atime, 20, 4%nat); (i_mtime, 24, 4%nat); (i_ctime, 28, 4%nat)].

(** The assignments to [tmp]: its bytes, by offset. *)
Fixpoint fill_stat (l : list (fld * Z * nat)) (inode : Z) : M fstate (list (Z * Z)) :=
  match l with
  | [] => mret []
  | (f, o, n) :: l' =>
      v ← fget inode f;
      r ← fill_stat l' inode;
      mret (map (fun i => (o + Z.of_nat i, u8 (Z.shiftr v (8 * Z.of_nat i)))) (seq 0 n) ++ r)
  end.

(** [junk] is what was on the stack: the padding of [tmp] is copied too. *)
Definition cp_stat (junk : Z -> Z) (inode statbuf : Z) : M fstate Z :=
  _ ← on_ps (verify_area statbuf 32);
  tmp ← fill_stat stat_layout inode;
  _ ← for_loop 32 0 (fun i =>
        let b := default (junk i) ((list_to_map tmp : gmap Z Z) !! i) in
        on_ps (put_fs_byte b (statbuf + i)));
  mret 0.

Definition sys_fstat (junk : Z -> Z) (fd statbuf : Z) : M fstate Z :=
  if NR_OPEN <=? fd then mret (- ENOENT)
  else
    f ← filp_get fd;
    if f =? 0 then mret (- ENOENT)
    else
      inode ← fget f f_inode;
      if inode =? 0 then mret (- ENOENT) else cp_stat junk inode statbuf.
End files.
