(* ===== verification/Pipe.v ===== *)
(** * Pipe: what a pipe of src/linux-0.01/fs/pipe.c promises

    A page of 4096 bytes with a head and a tail laid over the zones of an
    inode: the bytes written come out in the order they went in, at most 4095
    of them wait. *)

From S2P Require Import Prelude Mem Mm Proc Sched Sys FsState Getblk BufferInit Contents Inode FileDev Files.

Section pipe.
Context {FW : FsWorld} (inode : Z).

(** The fields of the inode a pipe uses. *)
Definition pipe_fields : list fld := [i_count; i_size; i_zone 0; i_zone 1; i_zone 2; i_zone 3].

(** The inode is a pipe: its page, its head [h] and its tail [t]; who waits for
    it can be woken. *)
Record is_pipe (page h t : Z) (s : fstate) : Prop := {
  ip_has f : f ∈ pipe_fields -> has s inode f;
  ip_page : cell s inode i_size = page;
  ip_range : 0 <= page /\ page + 4096 <= 2 ^ 32;
  ip_head : cell s inode (i_zone 0) = h /\ cell s inode (i_zone 1) = 0;
  ip_tail : cell s inode (i_zone 2) = t /\ cell s inode (i_zone 3) = 0;
  ip_ends : 0 <= h < 4096 /\ 0 <= t < 4096;
  ip_wake : wakeable (i_wait inode) s
}.

(** The bytes in the pipe, the oldest first. *)
Definition pipe_len (h t : Z) : Z := (h - t) mod 4096.
Definition pipe_bytes (page h t : Z) (m : memory) : list Z :=
  map (fun k => load8 m (page + (t + k) mod 4096)) (seqZ 0 (pipe_len h t)).

(** The bytes of the user. *)
Definition user_bytes (m : memory) (buf n : Z) : list Z := map (fun k => load8 m (buf + k)) (seqZ 0 n).

(** The processes, but for the user's memory: those who waited in the queue [q]
    may have been woken. *)
Definition same_but_state (t t' : option task_struct) : Prop :=
  match t, t' with
  | Some t, Some t' => forall f, f <> T_state -> t' f = t f
  | None, None => True
  | _, _ => False
  end.
Record woken (q : Z) (p p' : pstate) : Prop := {
  wk_rest : set_tasks (tasks p) (set_wq (wq p) (set_umem (umem p) p')) = p;
  wk_queue r : r <> q -> wq p' !! r = wq p !! r;
  wk_task a : same_but_state (tasks p !! a) (tasks p' !! a)
}.

Lemma same_but_state_refl t : same_but_state t t.
Proof. by destruct t. Qed.
Lemma woken_refl q p : woken q p p.
Proof. constructor; [by destruct p | done | intros; apply same_but_state_refl]. Qed.
Lemma woken_trans q p1 p2 p3 : woken q p1 p2 -> woken q p2 p3 -> woken q p1 p3.
Proof.
  intros [A1 A2 A3] [B1 B2 B3]. constructor.
  - destruct p1, p2, p3. unfold set_tasks, set_wq, set_umem in *. cbn in *. congruence.
  - intros r H. by rewrite B2, A2.
  - intros a. specialize (A3 a). specialize (B3 a). unfold same_but_state in *.
    destruct (tasks p1 !! a), (tasks p2 !! a), (tasks p3 !! a); try done. intros f H. by rewrite B3, A3.
Qed.
Lemma woken_umem q p m : woken q p (set_umem m p).
Proof. constructor; [by destruct p | done | intros; apply same_but_state_refl]. Qed.

Lemma wake_up_woken q p p' : wake_up q p = Done tt p' -> woken q p p'.
Proof.
  unfold wake_up, wq_get. destruct (q =? 0); [intros [= <-]; apply woken_refl |].
  rewrite (bind_Done (gets _) _ p _ p eq_refl). destruct (negb _); cbn [when]; [| intros [= <-]; apply woken_refl].
  unfold tput, wq_put, mbind, M_bind. destruct (tasks p !! default 0 (wq p !! q)) as [t |] eqn:Et; [| discriminate].
  intros [= <-]. constructor; cbn [wq tasks set_wq set_tasks].
  - by destruct p.
  - intros r H. by rewrite lookup_insert_ne.
  - intros a. destruct (decide (default 0 (wq p !! q) = a)) as [<- |].
    + rewrite lookup_insert_eq, Et. intros f H. unfold tset. by rewrite decide_False.
    + rewrite lookup_insert_ne by done. apply same_but_state_refl.
Qed.

(** What else stays as it is. *)
Record pipe_frame (s s' : fstate) : Prop := {
  pf_cell q g : q <> inode \/ g ∉ [i_zone 0; i_zone 1; i_zone 2; i_zone 3] -> cell s' q g = cell s q g;
  pf_has q g : has s q g -> has s' q g;
  pf_proc : woken (i_wait inode) (fps s) (fps s');
  pf_rest : set_fps (fps s) (set_cells (cells s) (set_kmem (kmem s) s')) = s
}.

Lemma pipe_frame_refl s : pipe_frame s s.
Proof. constructor; [done | done | apply woken_refl | by destruct s]. Qed.
Lemma pipe_frame_trans s1 s2 s3 : pipe_frame s1 s2 -> pipe_frame s2 s3 -> pipe_frame s1 s3.
Proof.
  intros [A1 A2 A3 A4] [B1 B2 B3 B4]. constructor; [| auto | by apply (woken_trans _ _ (fps s2)) |].
  - intros q g H. rewrite B1 by done. auto.
  - destruct s1, s2, s3. unfold set_fps, set_cells, set_kmem in *. cbn in *. congruence.
Qed.
Lemma pipe_frame_kmem s m : pipe_frame s (set_kmem m s).
Proof. constructor; [done | done | apply woken_refl | by destruct s]. Qed.
Lemma pipe_frame_umem s m : pipe_frame s (with_umem m s).
Proof. constructor; [done | done | apply woken_umem | by destruct s]. Qed.

Lemma pipe_len_range h t : 0 <= pipe_len h t < 4096.
Proof. apply Z.mod_pos_bound. lia. Qed.

Lemma length_pipe_bytes page h t m : length (pipe_bytes page h t m) = Z.to_nat (pipe_len h t).
Proof. unfold pipe_bytes. by rewrite length_map, length_seqZ. Qed.

Lemma PIPE_SIZE_len h t : PIPE_SIZE h t = pipe_len h t.
Proof. unfold PIPE_SIZE, pipe_len. change (PAGE_SIZE - 1) with 0xFFF. apply land_0xFFF. Qed.

(** ** The two ends *)

Lemma pipe_get_run s k lo hi :
  has s inode (i_zone (2 * k)) -> has s inode (i_zone (2 * k + 1)) ->
  cell s inode (i_zone (2 * k)) = lo -> cell s inode (i_zone (2 * k + 1)) = hi ->
  pipe_get inode k s = Done (s32 (lo + 65536 * hi)) s.
Proof. intros H1 H2 <- <-. unfold pipe_get. do 2 fstep. done. Qed.

Section state.
Context (page h t : Z) (s : fstate) (P : is_pipe page h t s).

Lemma pipe_has f : f ∈ pipe_fields -> has s inode f.
Proof. apply (ip_has _ _ _ _ P). Qed.

Lemma PIPE_HEAD_run : PIPE_HEAD inode s = Done h s.
Proof.
  destruct (ip_head _ _ _ _ P) as [H1 H2], (ip_ends _ _ _ _ P).
  unfold PIPE_HEAD. rewrite (pipe_get_run s 0 h 0) by (done || apply pipe_has; in_list).
  by rewrite Z.mul_0_r, Z.add_0_r, s32_small by lia.
Qed.
Lemma PIPE_TAIL_run : PIPE_TAIL inode s = Done t s.
Proof.
  destruct (ip_tail _ _ _ _ P) as [H1 H2], (ip_ends _ _ _ _ P).
  unfold PIPE_TAIL. rewrite (pipe_get_run s 1 t 0) by (done || apply pipe_has; in_list).
  by rewrite Z.mul_0_r, Z.add_0_r, s32_small by lia.
Qed.
Lemma PIPE_EMPTY_run : PIPE_EMPTY inode s = Done (pipe_len h t =? 0) s.
Proof.
  unfold PIPE_EMPTY. rewrite (bind_Done _ _ _ _ _ PIPE_HEAD_run), (bind_Done _ _ _ _ _ PIPE_TAIL_run).
  destruct (ip_ends _ _ _ _ P). unfold mret, M_ret. f_equal. apply eq_true_iff_eq.
  rewrite !Z.eqb_eq. unfold pipe_len. split; intros; wrap_lia.
Qed.
Lemma PIPE_FULL_run : PIPE_FULL inode s = Done (pipe_len h t =? 4095) s.
Proof.
  unfold PIPE_FULL. rewrite (bind_Done _ _ _ _ _ PIPE_HEAD_run), (bind_Done _ _ _ _ _ PIPE_TAIL_run).
  by rewrite PIPE_SIZE_len.
Qed.
End state.

(** The state in which the zones [2k] and [2k+1] hold [v], below 65536. *)
Definition with_end (k v : Z) (s : fstate) : fstate :=
  upd inode (i_zone (2 * k + 1)) 0 (upd inode (i_zone (2 * k)) v s).

Lemma INC_PIPE_run s k v :
  has s inode (i_zone (2 * k)) -> has s inode (i_zone (2 * k + 1)) ->
  pipe_get inode k s = Done v s -> 0 <= v < 4096 ->
  INC_PIPE inode k s = Done tt (with_end k ((v + 1) mod 4096) s).
Proof.
  intros H1 H2 Hv Hr. unfold INC_PIPE. rewrite (bind_Done _ _ _ _ _ Hv).
  rewrite u32_small by (unfold in_u32; lia). change 4095 with 0xFFF. rewrite land_0xFFF.
  unfold pipe_put. fstep. rewrite fput_upd by fs_has. unfold with_end.
  replace (Z.shiftr ((v + 1) mod 4096) 16) with 0; [done |].
  rewrite Z.shiftr_div_pow2 by lia. symmetry. apply Z.div_small.
  pose proof (Z.mod_pos_bound (v + 1) 4096). lia.
Qed.

Lemma with_end_frame k v s : k = 0 \/ k = 1 -> pipe_frame s (with_end k v s).
Proof.
  intros Hk. constructor.
  - intros q g H. unfold with_end.
    rewrite !cell_upd_ne; [done | |]; intros [= -> ->]; (destruct H as [H | H]; [by apply H |]);
      apply H; destruct Hk as [-> | ->]; in_list.
  - intros q g H. unfold with_end. by do 2 apply has_upd.
  - apply woken_refl.
  - by destruct s.
Qed.

Lemma with_head_pipe page h t v s :
  is_pipe page h t s -> 0 <= v < 4096 -> is_pipe page v t (with_end 0 v s).
Proof.
  intros [] Hv. pose proof (with_end_frame 0 v s (or_introl eq_refl)) as [_ Hh _ _]. constructor; try done.
  - intros f Hf. auto.
  - unfold with_end. rewrite !cell_upd_fld by done. done.
  - unfold with_end. change (2 * 0 + 1) with 1. change (2 * 0) with 0.
    rewrite cell_upd_eq, cell_upd_fld, cell_upd_eq by done. cbn [fnorm]. by rewrite u16_small by lia.
  - unfold with_end. change (2 * 0 + 1) with 1. change (2 * 0) with 0. by rewrite !cell_upd_fld by done.
  - split; [done | apply ip_ends0].
Qed.
Lemma with_tail_pipe page h t v s :
  is_pipe page h t s -> 0 <= v < 4096 -> is_pipe page h v (with_end 1 v s).
Proof.
  intros [] Hv. pose proof (with_end_frame 1 v s (or_intror eq_refl)) as [_ Hh _ _]. constructor; try done.
  - intros f Hf. auto.
  - unfold with_end. rewrite !cell_upd_fld by done. done.
  - unfold with_end. change (2 * 1 + 1) with 3. change (2 * 1) with 2. by rewrite !cell_upd_fld by done.
  - unfold with_end. change (2 * 1 + 1) with 3. change (2 * 1) with 2.
    rewrite cell_upd_eq, cell_upd_fld, cell_upd_eq by done. cbn [fnorm]. by rewrite u16_small by lia.
  - split; [apply ip_ends0 | done].
Qed.

(** Waking those who wait changes nothing a pipe is made of. *)
Lemma pipe_wake page h t s :
  is_pipe page h t s ->
  exists s', on_ps (wake_up (i_wait inode)) s = Done tt s' /\ is_pipe page h t s' /\ pipe_frame s s' /\
    kmem s' = kmem s /\ umem (fps s') = umem (fps s).
Proof.
  intros [? ? ? ? ? ? [p Hp]]. unfold on_ps. rewrite Hp. eexists. split; [done |].
  destruct (wake_up_again _ _ _ Hp) as [Hagain Hum].
  split; [constructor; try done; exists p; exact Hagain |]. split; [| done].
  constructor; [done | done | by apply wake_up_woken | by destruct s].
Qed.

(** ** One byte in, one byte out *)

Lemma pipe_give_step page h t s fuel n b :
  is_pipe page h t s -> pipe_len h t < 4095 ->
  exists s', pipe_give fuel (S n) inode b s = pipe_give fuel n inode (b + 1) s' /\
    is_pipe page ((h + 1) mod 4096) t s' /\ pipe_frame s s' /\
    kmem s' = store8 (kmem s) (page + h) (load8 (umem (fps s)) b) /\ umem (fps s') = umem (fps s).
Proof.
  intros P Hl. cbn [pipe_give].
  rewrite (bind_Done (pipe_wait_room fuel inode) _ s true s).
  2: { destruct fuel; cbn [pipe_wait_room]; rewrite (bind_Done _ _ _ _ _ (PIPE_FULL_run _ _ _ _ P)),
         (proj2 (Z.eqb_neq _ _)) by lia; done. }
  cbn [negb].
  assert (H0 : has s inode i_size) by (apply (pipe_has _ _ _ _ P); in_list).
  fstep. rewrite (bind_Done _ _ _ _ _ (PIPE_HEAD_run _ _ _ _ P)).
  rewrite (bind_Done (on_ps (get_fs_byte b)) _ s (load8 (umem (fps s)) b) s) by (destruct s; done).
  rewrite (ip_page _ _ _ _ P). set (c := load8 _ b). set (s1 := set_kmem (store8 (kmem s) (page + h) c) s).
  rewrite (bind_Done (kstore8 _ _) _ s tt s1) by done.
  assert (P1 : is_pipe page h t s1) by (destruct P; by constructor).
  pose proof (ip_ends _ _ _ _ P) as [Hh _].
  rewrite (bind_Done _ _ _ _ _ (INC_PIPE_run s1 0 h ltac:(apply (pipe_has _ _ _ _ P1); in_list)
    ltac:(apply (pipe_has _ _ _ _ P1); in_list) (PIPE_HEAD_run _ _ _ _ P1) Hh)).
  assert (Hv : 0 <= (h + 1) mod 4096 < 4096) by (apply Z.mod_pos_bound; lia).
  pose proof (with_head_pipe _ _ _ _ _ P1 Hv) as P2. set (s2 := with_end 0 _ s1) in *.
  destruct (pipe_wake _ _ _ _ P2) as (s3 & Hw & P3 & F3 & Hk & Hu).
  rewrite (bind_Done _ _ _ _ _ Hw). exists s3. split; [done |]. split; [done |].
  split; [| by rewrite Hk, Hu].
  apply (pipe_frame_trans s s2); [| done]. apply (pipe_frame_trans s s1); [apply pipe_frame_kmem |].
  apply with_end_frame. by left.
Qed.

Lemma pipe_take_step page h t s n b :
  is_pipe page h t s -> 0 < pipe_len h t ->
  exists s', pipe_take (S n) inode b s = pipe_take n inode (b + 1) s' /\
    is_pipe page h ((t + 1) mod 4096) s' /\ pipe_frame s s' /\
    kmem s' = kmem s /\ umem (fps s') = store8 (umem (fps s)) b (load8 (kmem s) (page + t)).
Proof.
  intros P Hl. cbn [pipe_take].
  rewrite (bind_Done _ _ _ _ _ (PIPE_EMPTY_run _ _ _ _ P)), (proj2 (Z.eqb_neq _ _)) by lia.
  assert (H0 : has s inode i_size) by (apply (pipe_has _ _ _ _ P); in_list).
  fstep. rewrite (bind_Done _ _ _ _ _ (PIPE_TAIL_run _ _ _ _ P)), (ip_page _ _ _ _ P).
  rewrite (bind_Done (kload8 _) _ s (load8 (kmem s) (page + t)) s) by done. set (c := load8 _ _).
  set (s1 := with_umem (store8 (umem (fps s)) b c) s).
  rewrite (bind_Done (on_ps _) _ s tt s1) by done.
  assert (P1 : is_pipe page h t s1).
  { destruct P as [? ? ? ? ? ? [p Hp]]. constructor; try done. eexists. by apply wake_up_umem. }
  pose proof (ip_ends _ _ _ _ P) as [_ Ht].
  rewrite (bind_Done _ _ _ _ _ (INC_PIPE_run s1 1 t ltac:(apply (pipe_has _ _ _ _ P1); in_list)
    ltac:(apply (pipe_has _ _ _ _ P1); in_list) (PIPE_TAIL_run _ _ _ _ P1) Ht)).
  assert (Hv : 0 <= (t + 1) mod 4096 < 4096) by (apply Z.mod_pos_bound; lia).
  pose proof (with_tail_pipe _ _ _ _ _ P1 Hv) as P2.
  eexists. split; [done |]. split; [done |]. split; [| done].
  apply (pipe_frame_trans s s1); [apply pipe_frame_umem |]. apply with_end_frame. by right.
Qed.

(** ** Runs of bytes *)

Lemma seqZ_cons_map {A} (f : Z -> A) n : 0 < n -> map f (seqZ 0 n) = f 0 :: map (fun k => f (k + 1)) (seqZ 0 (n - 1)).
Proof.
  intros Hn. rewrite seqZ_cons by lia. cbn [map]. f_equal.
  change (Z.succ 0) with (1 + 0). rewrite <- (fmap_add_seqZ 1 0 (Z.pred n)).
  change (map f (map (Z.add 1) (seqZ 0 (Z.pred n))) = map (fun k => f (k + 1)) (seqZ 0 (Z.pred n))).
  rewrite map_map.   apply map_ext. intros k. by rewrite Z.add_comm.
Qed.

Lemma pipe_bytes_push page h t m c :
  0 <= page -> page + 4096 <= 2 ^ 32 -> 0 <= h < 4096 -> 0 <= t < 4096 -> pipe_len h t < 4095 ->
  pipe_bytes page ((h + 1) mod 4096) t (store8 m (page + h) c) = pipe_bytes page h t m ++ [u8 c].
Proof.
  intros Hp0 Hp Hh Ht Hl. unfold pipe_bytes.
  replace (pipe_len ((h + 1) mod 4096) t) with (pipe_len h t + 1) by (unfold pipe_len in *; wrap_lia).
  pose proof (pipe_len_range h t). rewrite seqZ_app by lia. rewrite map_app. f_equal.
  - apply map_ext_in. intros k Hk. apply list_elem_of_In, elem_of_seqZ in Hk.
    pose proof (Z.mod_pos_bound (t + k) 4096). rewrite load8_store8_ne; [done |].
    rewrite !u32_small by (unfold in_u32; lia). unfold pipe_len in *. intros E. wrap_lia.
  - rewrite (seqZ_cons _ 1) by lia. change (Z.pred 1) with 0. cbn [map]. rewrite Z.add_0_l.
    replace ((t + pipe_len h t) mod 4096) with h by (unfold pipe_len; wrap_lia).
    by rewrite load8_store8_eq.
Qed.

Lemma pipe_bytes_pop page h t m :
  0 <= h < 4096 -> 0 <= t < 4096 -> 0 < pipe_len h t ->
  pipe_bytes page h t m = load8 m (page + t) :: pipe_bytes page h ((t + 1) mod 4096) m.
Proof.
  intros Hh Ht Hl. unfold pipe_bytes. rewrite seqZ_cons_map by done. f_equal.
  - do 2 f_equal. rewrite Z.add_0_r. apply Z.mod_small. lia.
  - replace (pipe_len h ((t + 1) mod 4096)) with (pipe_len h t - 1) by (unfold pipe_len in *; wrap_lia).
    apply map_ext. intros k. do 2 f_equal. wrap_lia.
Qed.

Lemma user_bytes_cons m buf n : 0 < n -> user_bytes m buf n = load8 m buf :: user_bytes m (buf + 1) (n - 1).
Proof.
  intros Hn. unfold user_bytes. rewrite seqZ_cons_map by done. rewrite Z.add_0_r. f_equal.
  apply map_ext. intros k. f_equal. lia.
Qed.

(** Of memory only the [n] places behind the head have changed. *)
Definition added (page h n : Z) (m m' : memory) : Prop :=
  forall x, in_u32 x -> (forall k, 0 <= k < n -> x <> page + (h + k) mod 4096) -> load8 m' x = load8 m x.

Lemma pipe_give_run n : forall page h t s fuel b,
  is_pipe page h t s -> pipe_len h t + Z.of_nat n <= 4095 ->
  exists s' h', pipe_give fuel n inode b s = Done (b + Z.of_nat n, true) s' /\
    is_pipe page h' t s' /\ pipe_frame s s' /\ umem (fps s') = umem (fps s) /\
    pipe_bytes page h' t (kmem s') = pipe_bytes page h t (kmem s) ++ user_bytes (umem (fps s)) b (Z.of_nat n) /\
    added page h (Z.of_nat n) (kmem s) (kmem s').
Proof.
  induction n as [| n IH]; intros page h t s fuel b P Hn.
  { exists s, h. rewrite Z.add_0_r. split; [done |]. split; [done |]. split; [apply pipe_frame_refl |].
    split; [done |]. split; [by rewrite app_nil_r | done]. }
  destruct (pipe_give_step page h t s fuel n b P) as (s1 & -> & P1 & F1 & Hk & Hu); [lia |].
  destruct (ip_ends _ _ _ _ P), (ip_range _ _ _ _ P).
  destruct (IH _ _ _ _ fuel (b + 1) P1) as (s2 & h2 & -> & P2 & F2 & Hu2 & Hb & Ha); [unfold pipe_len in *; wrap_lia |].
  exists s2, h2. split; [do 2 f_equal; lia |]. split; [done |].
  split; [by apply (pipe_frame_trans s s1) |]. split; [congruence |]. split.
  - rewrite Hb, Hk, pipe_bytes_push, Hu, (user_bytes_cons _ b) by lia.
    rewrite <- app_assoc. cbn [app]. rewrite u8_small by apply load8_range.
    by replace (Z.of_nat (S n) - 1) with (Z.of_nat n) by lia.
  - intros x Hx Hne. rewrite Ha, Hk; [| done |].
    + apply load8_store8_ne. rewrite !u32_small by (unfold in_u32 in *; lia).
      specialize (Hne 0 ltac:(lia)). rewrite Z.add_0_r, Z.mod_small in Hne by lia. congruence.
    + intros k Hk0. specialize (Hne (k + 1) ltac:(lia)). rewrite Zplus_mod_idemp_l.
      replace (h + 1 + k) with (h + (k + 1)) by lia. done.
Qed.

Lemma pipe_take_run n : forall page h t s b,
  is_pipe page h t s -> 0 <= b -> b + Z.of_nat n <= 2 ^ 32 ->
  exists s' t' k, pipe_take n inode b s = Done (b + k) s' /\ k = Z.min (Z.of_nat n) (pipe_len h t) /\
    is_pipe page h t' s' /\ pipe_frame s s' /\ kmem s' = kmem s /\
    user_bytes (umem (fps s')) b k ++ pipe_bytes page h t' (kmem s) = pipe_bytes page h t (kmem s) /\
    (forall x, in_u32 x -> ~ b <= x < b + k -> load8 (umem (fps s')) x = load8 (umem (fps s)) x).
Proof.
  induction n as [| n IH]; intros page h t s b P Hb Hbn; pose proof (pipe_len_range h t) as Hl.
  { exists s, t, 0. rewrite Z.add_0_r. split; [done |]. split; [lia |]. split; [done |].
    split; [apply pipe_frame_refl |]. by split. }
  destruct (Z.eq_dec (pipe_len h t) 0) as [E | E].
  { exists s, t, 0. rewrite Z.add_0_r. split.
    { cbn [pipe_take]. rewrite (bind_Done _ _ _ _ _ (PIPE_EMPTY_run _ _ _ _ P)). by rewrite E. }
    split; [lia |]. split; [done |]. split; [apply pipe_frame_refl |]. by split. }
  destruct (pipe_take_step page h t s n b P) as (s1 & -> & P1 & F1 & Hk & Hu); [lia |].
  destruct (ip_ends _ _ _ _ P).
  destruct (IH _ _ _ _ (b + 1) P1) as (s2 & t2 & k & -> & Ek & P2 & F2 & Hk2 & Hby & Ho); [lia | lia |].
  exists s2, t2, (k + 1). split; [f_equal; lia |]. split; [unfold pipe_len in *; wrap_lia |]. split; [done |].
  split; [by apply (pipe_frame_trans s s1) |]. split; [congruence |]. 
  assert (Hk0 : 0 <= k) by (unfold pipe_len in *; wrap_lia). split.
  - rewrite (user_bytes_cons _ b) by lia. replace (k + 1 - 1) with k by lia. cbn [app].
    rewrite Hk in Hby. rewrite Hby, (pipe_bytes_pop page h t) by lia. f_equal.
    rewrite Ho, Hu, load8_store8_eq by (unfold in_u32; lia). apply u8_small, load8_range.
  - intros x Hx Hne. rewrite Ho, Hu by (done || lia). apply load8_store8_ne.
    rewrite !u32_small by (unfold in_u32 in *; lia). lia.
Qed.
End pipe.

(** C15: A pipe is a first-in first-out list of at most 4095 bytes. [write_pipe]
    of bytes there is room for, to a pipe with a reader, appends the bytes of
    the caller, and no byte of memory changes but those of the page they go to,
    right behind the head; [read_pipe] from a pipe that is not empty takes as
    many bytes from the front as were asked for, or all there are, puts them
    into the caller's memory from [buf] on and touches no other byte of it nor
    of the kernel's. A reader of an empty pipe whose writers are gone is told 0,
    and no memory changes. Each call answers the number of bytes moved; none
    sleeps. Apart from the memory said, the head, the tail and the state of the
    tasks that waited for the pipe, everything is as before. *)
Theorem pipe_fifo `{FsWorld} inode page h t s fuel buf count :
  is_pipe inode page h t s -> 0 < count -> 0 <= buf -> buf + count <= 2 ^ 32 ->
  let bytes := pipe_bytes page h t (kmem s) in
  (cell s inode i_count = 2 -> Z.of_nat (length bytes) + count <= 4095 ->
   exists s' h', write_pipe fuel inode buf count s = Done count s' /\
     is_pipe inode page h' t s' /\ pipe_frame inode s s' /\ umem (fps s') = umem (fps s) /\
     pipe_bytes page h' t (kmem s') = bytes ++ user_bytes (umem (fps s)) buf count /\
     added page h count (kmem s) (kmem s')) /\
  (bytes <> [] ->
   exists s' t' n, read_pipe fuel inode buf count s = Done n s' /\
     n = Z.min count (Z.of_nat (length bytes)) /\ is_pipe inode page h t' s' /\ pipe_frame inode s s' /\
     kmem s' = kmem s /\
     user_bytes (umem (fps s')) buf n ++ pipe_bytes page h t' (kmem s') = bytes /\
     (forall x, in_u32 x -> ~ buf <= x < buf + n -> load8 (umem (fps s')) x = load8 (umem (fps s)) x)) /\
  (cell s inode i_count <> 2 -> bytes = [] ->
   exists s', read_pipe fuel inode buf count s = Done 0 s' /\ is_pipe inode page h t s' /\
     pipe_frame inode s s' /\ kmem s' = kmem s /\ umem (fps s') = umem (fps s)).
Proof.
  intros P Hc Hb Hbc bytes. pose proof (pipe_len_range h t) as Hl.
  assert (Hlen : Z.of_nat (length bytes) = pipe_len h t) by (unfold bytes; rewrite length_pipe_bytes; lia).
  assert (Hi : has s inode i_count) by (apply (ip_has _ _ _ _ _ P); in_list).
  split; [| split].
  - intros H2 Hroom. destruct (pipe_wake _ _ _ _ _ P) as (s1 & Hw & P1 & F1 & Hk & Hu).
    unfold write_pipe. rewrite (bind_Done _ _ _ _ _ Hw).
    assert (Hi1 : has s1 inode i_count) by (apply (ip_has _ _ _ _ _ P1); in_list).
    fstep. rewrite (pf_cell _ _ _ F1), H2 by (right; not_in_list). cbn [negb Z.eqb Pos.eqb].
    destruct (pipe_give_run inode (Z.to_nat count) page h t s1 fuel buf P1) as (s2 & h2 & Hg & P2 & F2 & Hu2 & Hby & Ha); [lia |].
    rewrite (bind_Done _ _ _ _ _ Hg).
    destruct (pipe_wake _ _ _ _ _ P2) as (s3 & Hw3 & P3 & F3 & Hk3 & Hu3).
    rewrite (bind_Done _ _ _ _ _ Hw3). exists s3, h2. split; [unfold mret, M_ret; f_equal; lia |].
    split; [done |]. split; [apply (pipe_frame_trans _ s s1); [done | by apply (pipe_frame_trans _ s1 s2)] |].
    rewrite Z2Nat.id in Hby, Ha by lia. split; [congruence |]. split; [by rewrite Hk3, Hby, Hk, Hu |].
    by rewrite Hk3, <- Hk.
  - intros Hne. assert (Hpos : pipe_len h t <> 0) by (intros E; apply Hne, nil_length_inv; lia).
    unfold read_pipe. rewrite (bind_Done (pipe_wait_data fuel inode) _ s true s).
    2: { destruct fuel; cbn [pipe_wait_data]; rewrite (bind_Done _ _ _ _ _ (PIPE_EMPTY_run _ _ _ _ _ P)),
           (proj2 (Z.eqb_neq _ _)) by done; done. }
    cbn [negb].
    destruct (pipe_take_run inode (Z.to_nat count) page h t s buf P Hb) as (s1 & t1 & n & Ht & En & P1 & F1 & Hk1 & Hby & Ho); [lia |].
    rewrite (bind_Done _ _ _ _ _ Ht). destruct (pipe_wake _ _ _ _ _ P1) as (s2 & Hw & P2 & F2 & Hk & Hu).
    rewrite (bind_Done _ _ _ _ _ Hw). exists s2, t1, n. split; [unfold mret, M_ret; f_equal; lia |].
    split; [rewrite Hlen, En; lia |]. split; [done |]. split; [by apply (pipe_frame_trans _ s s1) |].
    rewrite Hu, Hk, Hk1. by split.
  - intros H2 Hnil. assert (Hz : pipe_len h t = 0) by (rewrite <- Hlen, Hnil; done).
    destruct (pipe_wake _ _ _ _ _ P) as (s1 & Hw & P1 & F1 & Hk & Hu).
    exists s1. split; [| by split]. unfold read_pipe. rewrite (bind_Done (pipe_wait_data fuel inode) _ s false s1).
    2: { assert (Hi1 : has s1 inode i_count) by (apply (ip_has _ _ _ _ _ P1); in_list).
         destruct fuel; cbn [pipe_wait_data]; rewrite (bind_Done _ _ _ _ _ (PIPE_EMPTY_run _ _ _ _ _ P)), Hz;
           cbn [negb Z.eqb]; rewrite (bind_Done _ _ _ _ _ Hw); fstep;
           rewrite (pf_cell _ _ _ F1) by (right; not_in_list); by rewrite (proj2 (Z.eqb_neq _ _) H2). }
    done.
Qed.

(** Four bytes across the end of the page; a reader sleeps on the pipe. *)
Definition pipe_demo : fstate := {|
  fps := set_umem (store8 (store8 ∅ 0x700 72) 0x701 105)
    (set_wq {[0x10020 := 2000]} (demo_table [2000] {[2000 := mk_task 2 9 15]} 1000));
  cells := list_to_map [((0x10000, i_count), 2); ((0x10000, i_size), 0x9000); ((0x10000, i_zone 0), 2);
    ((0x10000, i_zone 1), 0); ((0x10000, i_zone 2), 4094); ((0x10000, i_zone 3), 0)];
  kmem := store8 (store8 (store8 (store8 ∅ 0x9FFE 65) 0x9FFF 66) 0x9000 67) 0x9001 68;
  hash_table := []; free_list := 0; nr_buffers := 0;
  last_allocated_inode := 0; flog := []; fdisk := fun _ b x => b + x; fpages := [] |}.

Lemma pipe_demo_is_pipe : is_pipe 0x10000 0x9000 2 4094 pipe_demo.
Proof.
  constructor; try done.
  - intros f Hf. unfold pipe_fields in Hf. repeat (apply elem_of_cons in Hf as [-> | Hf]); [by vm_compute; eexists .. |].
    by apply elem_of_nil in Hf.
  - vm_compute. by eexists.
Qed.

Lemma pipe_fifo_witness :
  pipe_bytes 0x9000 2 4094 (kmem pipe_demo) = [65; 66; 67; 68] /\
  (exists s' h', @write_pipe small_world 1 0x10000 0x700 2 pipe_demo = Done 2 s' /\
     pipe_bytes 0x9000 h' 4094 (kmem s') = [65; 66; 67; 68; 72; 105]) /\
  (exists s' t', @read_pipe small_world 1 0x10000 0x800 3 pipe_demo = Done 3 s' /\
     user_bytes (umem (fps s')) 0x800 3 = [65; 66; 67] /\ pipe_bytes 0x9000 2 t' (kmem s') = [68]).
Proof.
  assert (E : pipe_bytes 0x9000 2 4094 (kmem pipe_demo) = [65; 66; 67; 68]) by (vm_compute; reflexivity).
  split; [done |]. split.
  - destruct (@pipe_fifo small_world 0x10000 0x9000 2 4094 pipe_demo 1%nat 0x700 2 pipe_demo_is_pipe)
      as (H & _ & _); [lia | lia | lia |].
    destruct H as (s' & h' & Hr & _ & _ & _ & Hb & _); [vm_compute; reflexivity | rewrite E; done |].
    exists s', h'. split; [done |]. rewrite Hb, E. vm_compute. reflexivity.
  - destruct (@pipe_fifo small_world 0x10000 0x9000 2 4094 pipe_demo 1%nat 0x800 3 pipe_demo_is_pipe)
      as (_ & H & _); [lia | lia | lia |].
    destruct H as (s' & t' & n & Hr & En & _ & _ & _ & Hb & _); [by rewrite E |].
    rewrite E in En, Hb. change (n = 3) in En. subst n. exists s', t'. split; [done |].
    assert (Hlen : length (user_bytes (umem (fps s')) 0x800 3) = 3%nat) by (unfold user_bytes; by rewrite length_map, length_seqZ).
    change [65; 66; 67; 68] with ([65; 66; 67] ++ [68]) in Hb. by apply app_inj_1 in Hb.
Defined.
