(* ===== verification/Super.v ===== *)
(** * Super: src/linux-0.01/fs/super.c

    Mounting a volume: reading its super block and its bitmaps. *)

From S2P Require Import Prelude Mem Mm Proc Sched Fork FsState Buffer Bitmap Inode Files.

(** The members of [struct super_block], their offsets and sizes. *)
Definition super_layout : list (fld * Z * Z) :=
  [(s_ninodes, 0, 2); (s_nzones, 2, 2); (s_imap_blocks, 4, 2); (s_zmap_blocks, 6, 2);
   (s_firstdatazone, 8, 2); (s_log_zone_size, 10, 2); (s_max_size, 12, 4); (s_magic, 16, 2);
   (s_imap 0, 20, 4); (s_imap 1, 24, 4); (s_imap 2, 28, 4); (s_imap 3, 32, 4);
   (s_imap 4, 36, 4); (s_imap 5, 40, 4); (s_imap 6, 44, 4); (s_imap 7, 48, 4);
   (s_zmap 0, 52, 4); (s_zmap 1, 56, 4); (s_zmap 2, 60, 4); (s_zmap 3, 64, 4);
   (s_zmap 4, 68, 4); (s_zmap 5, 72, 4); (s_zmap 6, 76, 4); (s_zmap 7, 80, 4);
   (s_dev, 84, 2); (s_isup, 88, 4); (s_imount, 92, 4); (s_time, 96, 4); (s_rd_only, 100, 1);
   (s_dirt, 101, 1)].

Definition ROOT_DEV : Z := 0x306.

Section super.
Context {FW : FsWorld} {KS : KernelSvc}.

Definition super_at (i : Z) : Z := super_block + sizeof_super_block * i.

(** The first entry of the table not in use; the one past the end if all are. *)
Fixpoint free_super (n : nat) (p : Z) : M fstate Z :=
  match n with
  | O => mret p
  | S n' =>
      d ← fget p s_dev;
      if d =? 0 then mret p else free_super n' (p + sizeof_super_block)
  end.

(** [for (i=0 ; i < p->s_?map_blocks ; i++) if (p->s_?map[i]=bread(dev,block)) block++;
    else break]: [block] afterwards. *)
Fixpoint read_maps (fuel n : nat) (blocks : fld) (map : Z -> fld) (p dev i block : Z) : M fstate Z :=
  match n with
  | O => halt NoFuel
  | S n' =>
      k ← fget p blocks;
      if k <=? i then mret block
      else
        bh ← bread fuel dev block;
        _ ← fput p (map i) bh;
        if bh =? 0 then mret block else read_maps fuel n' blocks map p dev (i + 1) (block + 1)
  end.

(** [p->s_?map[0]->b_data[0] |= 1]. *)
Definition reserve_first (p : Z) (f : fld) : M fstate unit :=
  bh ← fget p f;
  d ← fget bh b_data;
  v ← kload8 d;
  kstore8 d (Z.lor v 1).

Definition release_map (fuel : nat) (p : Z) (map : Z -> fld) : M fstate unit :=
  for_loop 8 0 (fun i => bh ← fget p (map i); brelse fuel bh).

Definition do_mount (fuel : nat) (dev : Z) : M fstate Z :=
  p ← free_super (Z.to_nat NR_SUPER) super_block;
  _ ← fput p s_dev (-1);
  if super_at NR_SUPER <=? p then mret 0
  else
    bh ← bread fuel dev 1;
    if bh =? 0 then mret 0
    else
      d ← fget bh b_data;
      _ ← copy_in super_layout p d;
      _ ← brelse fuel bh;
      magic ← fget p s_magic;
      if negb (magic =? SUPER_MAGIC) then
        _ ← fput p s_dev 0;
        mret 0
      else
        _ ← for_loop (Z.to_nat I_MAP_SLOTS) 0 (fun i => fput p (s_imap i) 0);
        _ ← for_loop (Z.to_nat Z_MAP_SLOTS) 0 (fun i => fput p (s_zmap i) 0);
        block ← read_maps fuel 65536 s_imap_blocks s_imap p dev 0 2;
        block ← read_maps fuel 65536 s_zmap_blocks s_zmap p dev 0 block;
        im ← fget p s_imap_blocks;
        zm ← fget p s_zmap_blocks;
        if negb (block =? 2 + im + zm) then
          _ ← release_map fuel p s_imap;
          _ ← release_map fuel p s_zmap;
          _ ← fput p s_dev 0;
          mret 0
        else
          _ ← reserve_first p (s_imap 0);
          _ ← reserve_first p (s_zmap 0);
          _ ← fput p s_dev dev;
          _ ← fput p s_isup 0;
          _ ← fput p s_imount 0;
          _ ← fput p s_time 0;
          _ ← fput p s_rd_only 0;
          _ ← fput p s_dirt 0;
          mret p.

(** super.c's own [set_bit] only tests the bit. *)
Definition test_bit (nr addr : Z) : M fstate Z :=
  w ← kload32 (bit_word nr addr);
  mret (b2z (Z.testbit w (Z.land nr 31))).

(** [while (-- i >= 0) if (!set_bit(i&8191,p->s_?map[i>>13]->b_data)) free++]. *)
Fixpoint count_free_bits (i : nat) (p : Z) (map : Z -> fld) (free : Z) : M fstate Z :=
  match i with
  | O => mret free
  | S i' =>
      let k := Z.of_nat i' in
      bh ← fget p (map (Z.shiftr k 13));
      d ← fget bh b_data;
      b ← test_bit (Z.land k 8191) d;
      count_free_bits i' p map (if b =? 0 then free + 1 else free)
  end.

Definition mount_root (fuel : nat) : M fstate unit :=
  _ ← when (negb (32 =? sizeof_d_inode)) (panic "bad i-node size");
  _ ← for_loop (Z.to_nat NR_FILE) 0 (fun i => fput (file_at i) f_count 0);
  _ ← for_loop (Z.to_nat NR_SUPER) 0 (fun i => fput (super_at i) s_dev 0);
  p ← do_mount fuel ROOT_DEV;
  _ ← when (p =? 0) (panic "Unable to mount root");
  mi ← iget fuel ROOT_DEV 1;
  _ ← when (mi =? 0) (panic "Unable to read root i-node");
  c ← fget mi i_count;
  _ ← fput mi i_count (c + 3);
  _ ← fput p s_imount mi;
  _ ← fput p s_isup mi;
  _ ← fcur_put T_pwd mi;
  _ ← fcur_put T_root mi;
  nz ← fget p s_nzones;
  free ← count_free_bits (Z.to_nat nz) p s_zmap 0;
  nz ← fget p s_nzones;
  _ ← fs_printk "%d/%d free blocks" [free; nz];
  ni ← fget p s_ninodes;
  free ← count_free_bits (Z.to_nat (ni + 1)) p s_imap 0;
  ni ← fget p s_ninodes;
  fs_printk "%d/%d free inodes" [free; ni].
End super.
