(* ===== verification/Namei.v ===== *)
(** * Namei: src/linux-0.01/fs/namei.c

    Path names. A path is in the user's memory and is read a byte at a time; a
    directory entry [de] is an address in a buffer's block: two bytes of inode
    number, fourteen of name. [fuel] bounds sleeping, and the length of a path
    and of a directory that is still growing. *)

From S2P Require Import Prelude Mem Mm Proc Sched Fork FsState Buffer Bitmap Inode FileDev Files.

Definition EACCES : Z := 13.
Definition EEXIST : Z := 17.
Definition EXDEV : Z := 18.
Definition ENOTDIR : Z := 20.
Definition EISDIR : Z := 21.
Definition ENOSPC : Z := 28.
Definition ENOTEMPTY : Z := 39.
Definition I_DIRECTORY : Z := 0x4000.
Definition I_REGULAR : Z := 0x8000.
Definition O_ACCMODE : Z := 3.
Definition O_WRONLY : Z := 1.
Definition O_CREAT : Z := 0x40.
Definition O_EXCL : Z := 0x80.
Definition O_TRUNC : Z := 0x200.
Definition MAY_EXEC : Z := 1.
Definition MAY_WRITE : Z := 2.
Definition MAY_READ : Z := 4.
Definition sizeof_dir_entry : Z := 16.

(** The fourth character of the string, [\377], is negative. *)
Definition ACC_MODE (x : Z) : Z := default 0 ([4; 2; 6; -1] !! Z.to_nat (Z.land x O_ACCMODE)).

Definition ubyte (a : Z) : M fstate Z := on_ps (get_fs_byte a).
Definition de_inode (de : Z) : M fstate Z := kload16 de.
Definition de_set_inode (de v : Z) : M fstate unit := kstore16 de v.
Definition de_name (de : Z) : Z := de + 2.

Definition permission (inode mask : Z) : M fstate Z :=
  mode ← fget inode i_mode;
  dev ← fget inode i_dev;
  nl ← fget inode i_nlinks;
  if negb (dev =? 0) && (nl =? 0) then mret 0
  else
    uid ← fcur_get T_uid;
    euid ← fcur_get T_euid;
    iu ← fget inode i_uid;
    gid ← fcur_get T_gid;
    egid ← fcur_get T_egid;
    ig ← fget inode i_gid;
    let mode :=
      if negb (negb (uid =? 0) && negb (euid =? 0)) then 0x1FF
      else if (uid =? iu) || (euid =? iu) then Z.shiftr mode 6
      else if (gid =? ig) || (egid =? ig) then Z.shiftr mode 3
      else mode in
    mret (Z.land (Z.land mode mask) 7).

(** [repe cmpsb] over [n] bytes: whether they are the same. *)
Fixpoint same_bytes (n : nat) (um m : memory) (a b : Z) : bool :=
  match n with
  | O => true
  | S n' => (load8 um a =? load8 m b) && same_bytes n' um m (a + 1) (b + 1)
  end.

Definition match_name (len name de : Z) : M fstate bool :=
  if de =? 0 then mret false
  else
    k ← de_inode de;
    if (k =? 0) || (NAME_LEN <? len) then mret false
    else
      ch ← kload8 (de_name de + len);
      if (len <? NAME_LEN) && negb (ch =? 0) then mret false
      else gets (fun s => same_bytes (Z.to_nat len) (umem (fps s)) (kmem s) name (de_name de)).

(** [strcmp(lit, a) == 0]. *)
Fixpoint same_string (l : list Z) (m : memory) (a : Z) : bool :=
  match l with
  | [] => load8 m a =? 0
  | b :: l' => (load8 m a =? b) && same_string l' m (a + 1)
  end.

Section namei.
Context {FW : FsWorld} {TO : TtyOps} {KS : KernelSvc}.

(** The block of entry [i] of a directory, or 0. *)
Definition dir_block (fuel : nat) (dir i : Z) : M fstate Z :=
  block ← bmap fuel dir (i / DIR_ENTRIES_PER_BLOCK);
  if block =? 0 then mret 0
  else dev ← fget dir i_dev; bread fuel dev block.

(** The loop of [find_entry]; [n] bounds the entries looked at. *)
Fixpoint find_loop (fuel n : nat) (dir name namelen entries bh de i : Z) : M fstate (Z * Z) :=
  if entries <=? i then
    _ ← brelse fuel bh;
    mret (0, 0)
  else
    match n with
    | O => halt NoFuel
    | S n' =>
        d ← fget bh b_data;
        nx ← (if d + BLOCK_SIZE <=? de then
                _ ← brelse fuel bh;
                bh ← dir_block fuel dir i;
                if bh =? 0 then mret (0, de) else d ← fget bh b_data; mret (bh, d)
              else mret (bh, de));
        let '(bh, de) := nx in
        if bh =? 0 then find_loop fuel n' dir name namelen entries bh de (i + DIR_ENTRIES_PER_BLOCK)
        else
          ok ← match_name namelen name de;
          if ok : bool then mret (bh, de)
          else find_loop fuel n' dir name namelen entries bh (de + sizeof_dir_entry) (i + 1)
    end.

(** [find_entry]: the buffer and [*res_dir]. *)
Definition find_entry (fuel : nat) (dir name namelen : Z) : M fstate (Z * Z) :=
  let namelen := if NAME_LEN <? namelen then NAME_LEN else namelen in
  size ← fget dir i_size;
  let entries := size / sizeof_dir_entry in
  if namelen =? 0 then mret (0, 0)
  else
    block ← fget dir (i_zone 0);
    if block =? 0 then mret (0, 0)
    else
      dev ← fget dir i_dev;
      bh ← bread fuel dev block;
      if bh =? 0 then mret (0, 0)
      else
        d ← fget bh b_data;
        find_loop fuel (Z.to_nat entries) dir name namelen entries bh d 0.

(** [for (i=0; i < NAME_LEN ; i++) de->name[i]=(i<namelen)?get_fs_byte(name+i):0]. *)
Definition set_name (de name namelen : Z) : M fstate unit :=
  for_loop (Z.to_nat NAME_LEN) 0 (fun i =>
    b ← (if i <? namelen then ubyte (name + i) else mret 0);
    kstore8 (de_name de + i) b).

Fixpoint add_loop (fuel n : nat) (dir name namelen bh de i : Z) : M fstate (Z * Z) :=
  match n with
  | O => halt NoFuel
  | S n' =>
      d ← fget bh b_data;
      nx ← (if d + BLOCK_SIZE <=? de then
              _ ← brelse fuel bh;
              block ← create_block fuel dir (i / DIR_ENTRIES_PER_BLOCK);
              if block =? 0 then mret None
              else
                dev ← fget dir i_dev;
                bh ← bread fuel dev block;
                if bh =? 0 then mret (Some (0, de)) else d ← fget bh b_data; mret (Some (bh, d))
            else mret (Some (bh, de)));
      match nx with
      | None => mret (0, 0)
      | Some (bh, de) =>
          if bh =? 0 then add_loop fuel n' dir name namelen bh de (i + DIR_ENTRIES_PER_BLOCK)
          else
            size ← fget dir i_size;
            _ ← when (size <=? i * sizeof_dir_entry)
                  (_ ← de_set_inode de 0;
                   _ ← fput dir i_size ((i + 1) * sizeof_dir_entry);
                   _ ← fput dir i_dirt 1;
                   t ← fs_time;
                   fput dir i_ctime t);
            k ← de_inode de;
            if k =? 0 then
              t ← fs_time;
              _ ← fput dir i_mtime t;
              _ ← set_name de name namelen;
              _ ← fput bh b_dirt 1;
              mret (bh, de)
            else add_loop fuel n' dir name namelen bh (de + sizeof_dir_entry) (i + 1)
      end
  end.

Definition add_entry (fuel : nat) (dir name namelen : Z) : M fstate (Z * Z) :=
  let namelen := if NAME_LEN <? namelen then NAME_LEN else namelen in
  if namelen =? 0 then mret (0, 0)
  else
    block ← fget dir (i_zone 0);
    if block =? 0 then mret (0, 0)
    else
      dev ← fget dir i_dev;
      bh ← bread fuel dev block;
      if bh =? 0 then mret (0, 0)
      else
        d ← fget bh b_data;
        size ← fget dir i_size;
        add_loop fuel (Z.to_nat (size / sizeof_dir_entry) + fuel) dir name namelen bh d 0.

(** [for(namelen=0;(c=get_fs_byte(pathname++))&&(c!='/');namelen++)]: [namelen],
    [c] and [pathname] afterwards. *)
Fixpoint path_part (n : nat) (um : memory) (pathname namelen : Z) : option (Z * Z * Z) :=
  match n with
  | O => None
  | S n' =>
      let c := load8 um pathname in
      if (c =? 0) || (c =? 0x2F) then Some (namelen, c, pathname + 1)
      else path_part n' um (pathname + 1) (namelen + 1)
  end.

Fixpoint walk_path (fuel n : nat) (inode pathname : Z) : M fstate Z :=
  match n with
  | O => halt NoFuel
  | S n' =>
      let thisname := pathname in
      mode ← fget inode i_mode;
      ok ← (if S_ISDIR mode then p ← permission inode MAY_EXEC; mret (negb (p =? 0)) else mret false);
      if negb ok then
        _ ← iput fuel inode;
        mret 0
      else
        r ← get_opt "path" (fun s => path_part fuel (umem (fps s)) pathname 0);
        let '(namelen, c, pathname) := r in
        if c =? 0 then mret inode
        else
          e ← find_entry fuel inode thisname namelen;
          let '(bh, de) := e in
          if bh =? 0 then
            _ ← iput fuel inode;
            mret 0
          else
            inr ← de_inode de;
            idev ← fget inode i_dev;
            _ ← brelse fuel bh;
            _ ← iput fuel inode;
            inode ← iget fuel idev inr;
            if inode =? 0 then mret 0 else walk_path fuel n' inode pathname
  end.

Definition get_dir (fuel : nat) (pathname : Z) : M fstate Z :=
  root ← fcur_get T_root;
  rc ← (if root =? 0 then mret 0 else fget root i_count);
  _ ← when (rc =? 0) (panic "No root inode");
  pwd ← fcur_get T_pwd;
  pc ← (if pwd =? 0 then mret 0 else fget pwd i_count);
  _ ← when (pc =? 0) (panic "No cwd inode");
  c ← ubyte pathname;
  if c =? 0 then mret 0
  else
    let '(inode, pathname) := if c =? 0x2F then (root, pathname + 1) else (pwd, pathname) in
    _ ← finc inode i_count;
    walk_path fuel fuel inode pathname.

(** The scan of [dir_namei]: [pathname] and [basename] at its end. *)
Fixpoint base_name (n : nat) (um : memory) (pathname basename : Z) : option (Z * Z) :=
  match n with
  | O => None
  | S n' =>
      let c := load8 um pathname in
      if c =? 0 then Some (pathname + 1, basename)
      else base_name n' um (pathname + 1) (if c =? 0x2F then pathname + 1 else basename)
  end.

(** The directory, or 0, the length of the last name and where it is. *)
Definition dir_namei (fuel : nat) (pathname : Z) : M fstate (Z * Z * Z) :=
  dir ← get_dir fuel pathname;
  if dir =? 0 then mret (0, 0, 0)
  else
    r ← get_opt "path" (fun s => base_name fuel (umem (fps s)) pathname pathname);
    let '(pathname, basename) := r in
    mret (dir, pathname - basename - 1, basename).

Definition namei (fuel : nat) (pathname : Z) : M fstate Z :=
  r ← dir_namei fuel pathname;
  let '(dir, namelen, basename) := r in
  if dir =? 0 then mret 0
  else if namelen =? 0 then mret dir
  else
    e ← find_entry fuel dir basename namelen;
    let '(bh, de) := e in
    if bh =? 0 then
      _ ← iput fuel dir;
      mret 0
    else
      inr ← de_inode de;
      dev ← fget dir i_dev;
      _ ← brelse fuel bh;
      _ ← iput fuel dir;
      dir ← iget fuel dev inr;
      _ ← when (negb (dir =? 0))
            (t ← fs_time;
             _ ← fput dir i_atime t;
             fput dir i_dirt 1);
      mret dir.

(** [open_namei]: the result and [*res_inode]. *)
Definition open_namei (fuel : nat) (pathname flag mode : Z) : M fstate (Z * Z) :=
  let flag := if negb (Z.land flag O_TRUNC =? 0) && (Z.land flag O_ACCMODE =? 0)
              then Z.lor flag O_WRONLY else flag in
  um ← fcur_get T_umask;
  let mode := Z.lor (Z.land mode (Z.land 0x1FF (Z.lnot um))) I_REGULAR in
  r ← dir_namei fuel pathname;
  let '(dir, namelen, basename) := r in
  if dir =? 0 then mret (- ENOENT, 0)
  else if namelen =? 0 then
    if Z.land flag (Z.lor O_ACCMODE (Z.lor O_CREAT O_TRUNC)) =? 0 then mret (0, dir)
    else
      _ ← iput fuel dir;
      mret (- EISDIR, 0)
  else
    e ← find_entry fuel dir basename namelen;
    let '(bh, de) := e in
    if bh =? 0 then
      if Z.land flag O_CREAT =? 0 then
        _ ← iput fuel dir;
        mret (- ENOENT, 0)
      else
        p ← permission dir MAY_WRITE;
        if p =? 0 then
          _ ← iput fuel dir;
          mret (- EACCES, 0)
        else
          dev ← fget dir i_dev;
          inode ← new_inode fuel dev;
          if inode =? 0 then
            _ ← iput fuel dir;
            mret (- ENOSPC, 0)
          else
            _ ← fput inode i_mode mode;
            _ ← fput inode i_dirt 1;
            e ← add_entry fuel dir basename namelen;
            let '(bh, de) := e in
            if bh =? 0 then
              _ ← fdec inode i_nlinks;
              _ ← iput fuel inode;
              _ ← iput fuel dir;
              mret (- ENOSPC, 0)
            else
              num ← fget inode i_num;
              _ ← de_set_inode de num;
              _ ← fput bh b_dirt 1;
              _ ← brelse fuel bh;
              _ ← iput fuel dir;
              mret (0, inode)
    else
      inr ← de_inode de;
      dev ← fget dir i_dev;
      _ ← brelse fuel bh;
      _ ← iput fuel dir;
      if negb (Z.land flag O_EXCL =? 0) then mret (- EEXIST, 0)
      else
        inode ← iget fuel dev inr;
        if inode =? 0 then mret (- EACCES, 0)
        else
          imode ← fget inode i_mode;
          bad ← (if S_ISDIR imode && negb (Z.land flag O_ACCMODE =? 0) then mret true
                 else
                   p ← permission inode (ACC_MODE flag);
                   mret (negb (p =? ACC_MODE flag)));
          if bad : bool then
            _ ← iput fuel inode;
            mret (- EPERM, 0)
          else
            t ← fs_time;
            _ ← fput inode i_atime t;
            _ ← when (negb (Z.land flag O_TRUNC =? 0)) (truncate fuel inode);
            mret (0, inode).
End namei.
