(* ===== verification/Lookup.v ===== *)
(** * Lookup: finding a name in a directory

    [find_entry] of src/linux-0.01/fs/namei.c against the entries of the
    directory, read off the blocks the cache stands for. *)

From S2P Require Import Prelude Mem Mm Proc Sched Fork FsState Buffer BufferInv Getblk Contents Bitmap Inode Zones FileDev Files Namei.

Lemma same_bytes_spec n um m a b :
  same_bytes n um m a b = true <-> forall k, 0 <= k < Z.of_nat n -> load8 um (a + k) = load8 m (b + k).
Proof.
  revert a b; induction n as [| n IH]; intros a b; cbn [same_bytes].
  - split; [intros _ k Hk; lia | done].
  - rewrite andb_true_iff, Z.eqb_eq, IH. split.
    + intros [H1 H2] k Hk. destruct (Z.eq_dec k 0) as [-> | Hk0]; [by rewrite !Z.add_0_r |].
      specialize (H2 (k - 1) ltac:(lia)). by replace (a + 1 + (k - 1)) with (a + k) in H2 by lia;
        replace (b + 1 + (k - 1)) with (b + k) in H2 by lia.
    + intros H. split; [specialize (H 0 ltac:(lia)); by rewrite !Z.add_0_r in H |].
      intros k Hk. specialize (H (k + 1) ltac:(lia)). by replace (a + 1 + k) with (a + (k + 1)) by lia;
        replace (b + 1 + k) with (b + (k + 1)) by lia.
Qed.

(** ** Directories *)

Section entries.
Context (c : Z -> Z -> Z -> Z) (dev : Z) (z : Z -> Z).

(** Byte [k] and the inode number of entry [i]. *)
Definition entry_byte (i k : Z) : Z := file_byte c dev z (16 * i + k).
Definition entry_ino (i : Z) : Z := entry_byte i 0 + 256 * entry_byte i 1.

(** Entry [i] is in use and its name is the [len] bytes [nm]. *)
Definition entry_is (nm : Z -> Z) (len i : Z) : Prop :=
  entry_ino i <> 0 /\ (forall k, 0 <= k < len -> nm k = entry_byte i (2 + k)) /\
  (len < 14 -> entry_byte i (2 + len) = 0).
End entries.

Section lookup.
Context {FW : FsWorld} {GD : GoodDisk}.
Context (L : list Z) (c : Z -> Z -> Z -> Z) (dev dir : Z).

Lemma in_core_rest s s' :
  (forall q g, (g ∉ buf_fields) -> cell s' q g = cell s q g) -> (forall q g, has s q g -> has s' q g) ->
  in_core dev dir s -> in_core dev dir s'.
Proof.
  intros H1 H2 [].
  assert (Hf : forall f, f ∈ inode_fields -> cell s' dir f = cell s dir f) by (intros f Hf; by apply H1, inode_field_rest).
  constructor; [rewrite Hf; [done | in_list] | done | auto |].
  intros i Hi. rewrite Hf by by apply zone_field. auto.
Qed.

(** The state with block [b] of the device in the buffer [bh], which will be
    given back, and nothing else changed since [s]. *)
Record holding (s : fstate) (b bh : Z) (s1 : fstate) : Prop := {
  hg_base : exists sb, serves L c sb /\ undisturbed L s sb /\ has_block L c dev b bh sb s1;
  hg_ready : ready L s1;
  hg_holds : holds L c s1
}.

Lemma holding_bread s s0 fuel b :
  serves L c s0 -> undisturbed L s s0 -> in_core dev dir s0 -> 0 <= b < 65536 -> (0 < fuel)%nat ->
  exists bh s1, bread fuel dev b s0 = Done bh s1 /\ holding s b bh s1.
Proof.
  intros Hs Hud Hi Hb Hfuel. destruct Hs as (Hr & Hsp & Hh).
  destruct (bread_run L c s0 fuel dev b Hr Hsp Hh (ic_range _ _ _ Hi) Hb Hfuel) as (bh & s1 & Hrun & Hr1 & Hh1 & Hhb).
  exists bh, s1. split; [done |]. constructor; [by exists s0 | done | done].
Qed.

Lemma holding_brelse s b bh s1 fuel :
  holding s b bh s1 -> exists s2, brelse fuel bh s1 = Done tt s2 /\ serves L c s2 /\ undisturbed L s s2.
Proof.
  intros [(sb & (Hr & Hsp & Hh) & Hud & Hhb) Hr1 Hh1].
  destruct (brelse_after L c dev b bh sb s1 s1 fuel Hsp Hhb Hr1 Hh1 (same_cache_refl s1) eq_refl)
    as (s2 & Hrun & Hs2 & Hrest & Hhas & Hum & Hcnt & Hdat).
  exists s2. split; [done |]. split; [done |]. apply (undisturbed_trans L s sb); [done |]. constructor.
  - intros q g Hg. rewrite Hrest by done. by apply (hb_rest _ _ _ _ _ _ _ Hhb).
  - intros q g Hqg. by apply Hhas, (hb_has _ _ _ _ _ _ _ Hhb).
  - rewrite Hum. by apply (hb_beside _ _ _ _ _ _ _ Hhb).
  - done.
  - done.
Qed.

Section held.
Context (s : fstate) (b bh : Z) (s1 : fstate) (H : holding s b bh s1).

Lemma holding_in : bh ∈ L.
Proof. destruct (hg_base _ _ _ _ H) as (sb & _ & _ & Hb). apply Hb. Qed.
Lemma holding_nonzero : (bh =? 0) = false.
Proof. apply Z.eqb_neq. pose proof (ready_addr L s1 bh (hg_ready _ _ _ _ H) holding_in). lia. Qed.
Lemma holding_data : has s1 bh b_data.
Proof. apply (ready_buf L); [apply H | apply holding_in | in_list]. Qed.
Lemma holding_byte x : 0 <= x < 1024 -> load8 (kmem s1) (cell s1 bh b_data + x) = c dev b x.
Proof. destruct (hg_base _ _ _ _ H) as (sb & _ & _ & Hb). apply Hb. Qed.
Lemma holding_umem : umem (fps s1) = umem (fps s).
Proof. destruct (hg_base _ _ _ _ H) as (sb & _ & Hud & Hb). by rewrite (hb_umem _ _ _ _ _ _ _ Hb), (ud_umem _ _ _ Hud). Qed.
End held.

(** ** One entry *)

Lemma match_name_run s s1 b bh z i de name len :
  holding s b bh s1 -> file_zone c dev z (i / 64) = b -> b <> 0 -> 0 <= i ->
  de = cell s1 bh b_data + 16 * (i mod 64) -> 0 < len <= 14 -> (de =? 0) = false ->
  exists r, match_name len name de s1 = Done r s1 /\
    (r = true <-> entry_is c dev z (fun k => load8 (umem (fps s)) (name + k)) len i).
Proof.
  intros H Hz Hb Hi -> Hlen Hde.
  assert (Hby : forall k, 0 <= k < 16 -> load8 (kmem s1) (cell s1 bh b_data + 16 * (i mod 64) + k) = entry_byte c dev z i k).
  { intros k Hk. rewrite <- Z.add_assoc, (holding_byte _ _ _ _ H) by wrap_lia.
    unfold entry_byte, file_byte. replace ((16 * i + k) / 1024) with (i / 64) by wrap_lia.
    replace ((16 * i + k) mod 1024) with (16 * (i mod 64) + k) by wrap_lia.
    by rewrite Hz, (proj2 (Z.eqb_neq b 0) Hb). }
  set (de := cell s1 bh b_data + 16 * (i mod 64)) in *.
  assert (Hino : load16 (kmem s1) de = entry_ino c dev z i).
  { unfold load16, entry_ino. rewrite <- !Hby by lia. by rewrite Z.add_0_r. }
  unfold match_name. rewrite Hde. unfold de_inode, kload16. fstep. rewrite Hino.
  rewrite (proj2 (Z.ltb_ge NAME_LEN len)) by (unfold NAME_LEN; lia). rewrite orb_false_r.
  destruct (Z.eqb_spec (entry_ino c dev z i) 0) as [E0 | E0].
  { exists false. split; [done |]. split; [done | by intros []]. }
  unfold kload8. fstep. unfold de_name.
  assert (Hnm : forall k, 0 <= k < 14 -> load8 (kmem s1) (de + 2 + k) = entry_byte c dev z i (2 + k)).
  { intros k Hk. rewrite <- Hby by lia. f_equal. lia. }
  destruct ((len <? NAME_LEN) && negb (load8 (kmem s1) (de + 2 + len) =? 0)) eqn:E.
  - apply andb_true_iff in E as [E1%Z.ltb_lt E2%negb_true_iff%Z.eqb_neq]. unfold NAME_LEN in E1.
    exists false. split; [done |]. split; [done |]. intros (_ & _ & Hl). rewrite Hnm in E2 by lia. by rewrite Hl in E2.
  - assert (Hl : len < 14 -> entry_byte c dev z i (2 + len) = 0).
    { intros Hlt. rewrite (proj2 (Z.ltb_lt len NAME_LEN)) in E by (unfold NAME_LEN; lia). cbn [andb] in E.
      apply negb_false_iff, Z.eqb_eq in E. by rewrite Hnm in E by lia. }
    eexists. split; [done |]. rewrite same_bytes_spec, (holding_umem _ _ _ _ H), Z2Nat.id by lia. unfold entry_is. split.
    + intros Hk. split; [done |]. split; [| done]. intros k Hkl. rewrite <- Hnm by lia. auto.
    + intros (_ & Hk & _) k Hkl. rewrite Hnm by lia. auto.
Qed.

(** ** The loop *)

Section search.
Context (s : fstate) (name len : Z).
Let z := fun i => cell s dir (i_zone i).
Let entries := cell s dir i_size / 16.
Let named := entry_is c dev z (fun k => load8 (umem (fps s)) (name + k)) len.

(** The directory has no holes, and its blocks can be numbered. *)
Definition no_holes : Prop :=
  entries <= 64 * (7 + 512 + 512 * 512) /\
  forall b, 0 <= b -> 64 * b < Z.max entries 1 -> file_zone c dev z b <> 0.

(** What a search that starts at entry [i] comes to. *)
Definition search_result (i : Z) (r : outcome fstate (Z * Z)) : Prop :=
  (exists i' bh s', r = Done (bh, cell s' bh b_data + 16 * (i' mod 64)) s' /\ i <= i' < entries /\ named i' /\
     (forall j, i <= j < i' -> ~ named j) /\ holding s (file_zone c dev z (i' / 64)) bh s') \/
  (exists s', r = Done (0, 0) s' /\ (forall j, i <= j < entries -> ~ named j) /\
     serves L c s' /\ undisturbed L s s').

Lemma search_skip i r : ~ named i -> search_result (i + 1) r -> search_result i r.
Proof.
  intros Hn [(i' & bh & s' & -> & H1 & H2 & H3 & H4) | (s' & -> & H1 & H2)].
  - left. exists i', bh, s'. split; [done |]. split; [lia |]. split; [done |]. split; [| done].
    intros j Hj. destruct (Z.eq_dec j i) as [-> |]; [done | apply H3; lia].
  - right. exists s'. split; [done |]. split; [| done]. intros j Hj.
    destruct (Z.eq_dec j i) as [-> |]; [done | apply H1; lia].
Qed.

Context (fuel : nat) (Hs : serves L c s) (Hi : in_core dev dir s) (Hfuel : (0 < fuel)%nat).
Context (Hlen : 0 < len <= 14) (Hno : no_holes).

Lemma dir_block_run s0 b i :
  serves L c s0 -> undisturbed L s s0 -> 0 <= i < entries -> b = i / 64 ->
  exists bh s1, dir_block fuel dir i s0 = Done bh s1 /\ holding s (file_zone c dev z b) bh s1.
Proof.
  intros Hs0 Hud Hie ->. destruct Hno as [Hmax Hz].
  assert (Hi0 : in_core dev dir s0) by (by eapply in_core_ud). unfold dir_block. change DIR_ENTRIES_PER_BLOCK with 64.
  destruct (bmap_run L c dev dir s0 fuel (i / 64) Hs0 Hi0) as (s1 & Hrun & Hs1 & Hud1 & Hr); [wrap_lia | done |].
  assert (Ez : file_zone c dev (fun i => cell s0 dir (i_zone i)) (i / 64) = file_zone c dev z (i / 64)).
  { apply file_zone_ext; [| wrap_lia]. intros k Hk. by apply (ud_rest _ _ _ Hud), inode_field_rest, zone_field. }
  rewrite Ez in Hrun, Hr. rewrite (bind_Done _ _ _ _ _ Hrun).
  rewrite (proj2 (Z.eqb_neq _ 0)) by (apply Hz; wrap_lia).
  pose proof (undisturbed_trans _ _ _ _ Hud Hud1) as Hud2. assert (Hi1 : in_core dev dir s1) by (by eapply in_core_ud).
  assert (Hd : has s1 dir i_dev) by (apply (ic_has _ _ _ Hi1); in_list). fstep. rewrite (ic_dev _ _ _ Hi1).
  destruct (holding_bread s s1 fuel (file_zone c dev z (i / 64)) Hs1 Hud2 Hi1 Hr Hfuel) as (bh & s2 & Hb & Hg).
  by exists bh, s2.
Qed.

Lemma find_loop_run n : forall i b bh s1,
  holding s (file_zone c dev z b) bh s1 -> 0 <= i -> 0 <= b -> 64 * b <= i <= 64 * b + 64 ->
  64 * b < Z.max entries 1 -> entries - i <= Z.of_nat n ->
  search_result i (find_loop fuel n dir name len entries bh (cell s1 bh b_data + 16 * (i - 64 * b)) i s1).
Proof.
  induction n as [| n IH]; intros i b bh s1 Hg Hi0 Hb0 Hib Hbe Hn; cbn [find_loop].
  all: destruct (Z.leb_spec entries i) as [Hle | Hlt]; [| try lia].
  1, 2: destruct (holding_brelse _ _ _ _ fuel Hg) as (s2 & Hrel & Hs2 & Hud2); right; exists s2;
    rewrite (bind_Done _ _ _ _ _ Hrel); split; [done |]; split; [intros j Hj; lia | done].
  pose proof (holding_data _ _ _ _ Hg) as Hd. fstep. unfold BLOCK_SIZE.
  assert (Hstep : forall b' bh' s', holding s (file_zone c dev z b') bh' s' -> 0 <= b' -> b' = i / 64 ->
    search_result i
      ((ok ← match_name len name (cell s' bh' b_data + 16 * (i - 64 * b'));
        if ok : bool then mret (bh', cell s' bh' b_data + 16 * (i - 64 * b'))
        else find_loop fuel n dir name len entries bh' (cell s' bh' b_data + 16 * (i - 64 * b') + sizeof_dir_entry) (i + 1)) s')).
  { intros b' bh' s' Hg' Hb' Eb.
    assert (Eo : i - 64 * b' = i mod 64) by (subst b'; wrap_lia). 
    assert (Hbe' : 64 * b' < Z.max entries 1) by wrap_lia.
    pose proof (proj2 Hno b' Hb' Hbe') as Hz0.
    assert (Hde : (cell s' bh' b_data + 16 * (i mod 64) =? 0) = false).
    { apply Z.eqb_neq. pose proof (rd_range _ _ (hg_ready _ _ _ _ Hg') bh' (holding_in _ _ _ _ Hg')). wrap_lia. }
    rewrite Eo.
    destruct (match_name_run s s' (file_zone c dev z b') bh' z i (cell s' bh' b_data + 16 * (i mod 64)) name len Hg')
      as (r & Hm & Hr); [by rewrite Eb | done | done | done | done | done |].
    rewrite (bind_Done _ _ _ _ _ Hm). destruct r.
    - left. exists i, bh', s'. split; [done |]. split; [lia |]. split; [by apply Hr |]. split; [intros; lia |].
      by rewrite <- Eb.
    - apply search_skip; [intros Hnm; by apply Hr in Hnm |].
      replace (cell s' bh' b_data + 16 * (i mod 64) + sizeof_dir_entry) with (cell s' bh' b_data + 16 * (i + 1 - 64 * b'))
        by (unfold sizeof_dir_entry; lia).
      apply IH; [done | lia | done | wrap_lia | done | lia]. }
  destruct (Z.leb_spec (cell s1 bh b_data + 1024) (cell s1 bh b_data + 16 * (i - 64 * b))) as [Hend | Hin].
  - destruct (holding_brelse _ _ _ _ fuel Hg) as (s2 & Hrel & Hs2 & Hud2).
    destruct (dir_block_run s2 (b + 1) i Hs2 Hud2) as (bh' & s3 & Hdb & Hg3); [lia | wrap_lia |].
    pose proof (holding_data _ _ _ _ Hg3) as Hd3.
    rewrite (bind_Done _ _ s1 (bh', cell s3 bh' b_data) s3).
    2: { rewrite (bind_Done _ _ _ _ _ Hrel), (bind_Done _ _ _ _ _ Hdb), (holding_nonzero _ _ _ _ Hg3). by fstep. }
    rewrite (holding_nonzero _ _ _ _ Hg3). specialize (Hstep (b + 1) bh' s3 Hg3 ltac:(lia) ltac:(wrap_lia)).
    replace (cell s3 bh' b_data + 16 * (i - 64 * (b + 1))) with (cell s3 bh' b_data) in Hstep by lia. exact Hstep.
  - fstep. rewrite (holding_nonzero _ _ _ _ Hg). apply Hstep; [done | done | wrap_lia].
Qed.
End search.

(** C14: [find_entry] of a name in a directory without holes: if some entry in
    use has that name, cut to 14 characters, the first such entry is returned,
    as an address in a buffer that holds its block of the directory; if none
    has, the answer is NULL and every buffer has been given back. Either way
    the blocks, the inode and the caller's memory are as they were, whatever
    was cached. *)
Theorem find_entry_correct s fuel name namelen :
  serves L c s -> in_core dev dir s -> has s dir i_size -> (0 < fuel)%nat -> 0 < namelen -> no_holes s ->
  let z := fun i => cell s dir (i_zone i) in
  let entries := cell s dir i_size / 16 in
  let named := entry_is c dev z (fun k => load8 (umem (fps s)) (name + k)) (Z.min namelen 14) in
  (forall i, 0 <= i < entries -> named i -> (forall j, 0 <= j < i -> ~ named j) ->
   exists bh s', find_entry fuel dir name namelen s = Done (bh, cell s' bh b_data + 16 * (i mod 64)) s' /\
     holding s (file_zone c dev z (i / 64)) bh s') /\
  ((forall i, 0 <= i < entries -> ~ named i) ->
   exists s', find_entry fuel dir name namelen s = Done (0, 0) s' /\ serves L c s' /\ undisturbed L s s').
Proof.
  intros Hs Hi Hsz Hfuel Hlen Hno z entries named.
  assert (H : search_result s name (Z.min namelen 14) 0 (find_entry fuel dir name namelen s)).
  { unfold find_entry. cbv zeta. fstep.
    replace (if NAME_LEN <? namelen then NAME_LEN else namelen) with (Z.min namelen 14)
      by (unfold NAME_LEN; destruct (Z.ltb_spec 14 namelen); lia).
    rewrite (proj2 (Z.eqb_neq _ 0)) by lia.
    assert (Hz : has s dir (i_zone 0)) by (apply (ic_has _ _ _ Hi); in_list). fstep.
    assert (Hz0 : file_zone c dev z 0 <> 0) by (apply Hno; lia). change (file_zone c dev z 0) with (cell s dir (i_zone 0)) in Hz0.
    rewrite (proj2 (Z.eqb_neq _ 0) Hz0).
    assert (Hd : has s dir i_dev) by (apply (ic_has _ _ _ Hi); in_list). fstep. rewrite (ic_dev _ _ _ Hi).
    destruct (holding_bread s s fuel (cell s dir (i_zone 0)) Hs (undisturbed_refl L s) Hi)
      as (bh & s1 & Hb & Hg); [apply (ic_zone _ _ _ Hi); lia | done |].
    rewrite (bind_Done _ _ _ _ _ Hb), (holding_nonzero _ _ _ _ Hg).
    pose proof (holding_data _ _ _ _ Hg) as Hdat. fstep.
    assert (He : 0 <= sizeof_dir_entry) by done.
    pose proof (find_loop_run s name (Z.min namelen 14) fuel Hi Hfuel ltac:(lia) Hno
      (Z.to_nat (cell s dir i_size / sizeof_dir_entry)) 0 0 bh s1 Hg ltac:(lia) ltac:(lia) ltac:(lia) ltac:(lia)) as Hl.
    rewrite Z.add_0_r in Hl. apply Hl. unfold sizeof_dir_entry. lia. }
  destruct H as [(i' & bh & s' & Hrun & H1 & H2 & H3 & H4) | (s' & Hrun & H1 & H2 & H3)].
  - split.
    + intros i Hie Hnm Hfirst. assert (i = i') as <-.
      { destruct (Z.lt_trichotomy i i') as [Hlt | [-> | Hlt]]; [exfalso; apply (H3 i) | done | exfalso; apply (Hfirst i')]; (done || lia). }
      by exists bh, s'.
    + intros Hnone. exfalso. by apply (Hnone i').
  - split; [| by exists s'].
    intros i Hie Hnm. exfalso. by apply (H1 i).
Qed.
End lookup.
