(* ===== verification/Dirs.v ===== *)
(** * Dirs: the calls of src/linux-0.01/fs/namei.c that change directories *)

From S2P Require Import Prelude Mem Mm Proc Sched Fork FsState Buffer Bitmap Inode FileDev Files Namei.

Section dirs.
Context {FW : FsWorld} {TO : TtyOps} {KS : KernelSvc}.

(** [current->euid && current->uid]. *)
Definition not_super : M fstate bool :=
  euid ← fcur_get T_euid;
  uid ← fcur_get T_uid;
  mret (negb (euid =? 0) && negb (uid =? 0)).

(** [strcpy(de->name,...)] of "." and "..". *)
Fixpoint store_string (l : list Z) (a : Z) : M fstate unit :=
  match l with
  | [] => kstore8 a 0
  | b :: l' => _ ← kstore8 a b; store_string l' (a + 1)
  end.

Definition sys_mkdir (fuel : nat) (pathname mode : Z) : M fstate Z :=
  ns ← not_super;
  if ns : bool then mret (- EPERM)
  else
    r ← dir_namei fuel pathname;
    let '(dir, namelen, basename) := r in
    if dir =? 0 then mret (- ENOENT)
    else if namelen =? 0 then _ ← iput fuel dir; mret (- ENOENT)
    else
      p ← permission dir MAY_WRITE;
      if p =? 0 then _ ← iput fuel dir; mret (- EPERM)
      else
        e ← find_entry fuel dir basename namelen;
        let '(bh, de) := e in
        if negb (bh =? 0) then
          _ ← brelse fuel bh;
          _ ← iput fuel dir;
          mret (- EEXIST)
        else
          dev ← fget dir i_dev;
          inode ← new_inode fuel dev;
          if inode =? 0 then _ ← iput fuel dir; mret (- ENOSPC)
          else
            _ ← fput inode i_size 32;
            _ ← fput inode i_dirt 1;
            t ← fs_time;
            _ ← fput inode i_atime t;
            _ ← fput inode i_mtime t;
            dev ← fget inode i_dev;
            z ← new_block fuel dev;
            _ ← fput inode (i_zone 0) z;
            if u16 z =? 0 then
              _ ← iput fuel dir;
              _ ← fdec inode i_nlinks;
              _ ← iput fuel inode;
              mret (- ENOSPC)
            else
              _ ← fput inode i_dirt 1;
              dev ← fget inode i_dev;
              z ← fget inode (i_zone 0);
              dir_block ← bread fuel dev z;
              if dir_block =? 0 then
                _ ← iput fuel dir;
                dev ← fget inode i_dev;
                z ← fget inode (i_zone 0);
                _ ← free_block fuel dev z;
                _ ← fdec inode i_nlinks;
                _ ← iput fuel inode;
                mret (- ERROR)
              else
                de ← fget dir_block b_data;
                num ← fget inode i_num;
                _ ← de_set_inode de num;
                _ ← store_string [0x2E] (de_name de);
                let de := de + sizeof_dir_entry in
                num ← fget dir i_num;
                _ ← de_set_inode de num;
                _ ← store_string [0x2E; 0x2E] (de_name de);
                _ ← fput inode i_nlinks 2;
                _ ← fput dir_block b_dirt 1;
                _ ← brelse fuel dir_block;
                um ← fcur_get T_umask;
                _ ← fput inode i_mode (Z.lor I_DIRECTORY (Z.land mode (Z.land 0x1FF (Z.lnot um))));
                _ ← fput inode i_dirt 1;
                e ← add_entry fuel dir basename namelen;
                let '(bh, de) := e in
                if bh =? 0 then
                  _ ← iput fuel dir;
                  dev ← fget inode i_dev;
                  z ← fget inode (i_zone 0);
                  _ ← free_block fuel dev z;
                  _ ← fput inode i_nlinks 0;
                  _ ← iput fuel inode;
                  mret (- ENOSPC)
                else
                  num ← fget inode i_num;
                  _ ← de_set_inode de num;
                  _ ← fput bh b_dirt 1;
                  _ ← finc dir i_nlinks;
                  _ ← fput dir i_dirt 1;
                  _ ← iput fuel dir;
                  _ ← iput fuel inode;
                  _ ← brelse fuel bh;
                  mret 0.

(** The loop of [empty_dir]. When [bmap] has no block the buffer already
    released stays in [bh]. *)
Fixpoint empty_loop (fuel n : nat) (inode len bh de nr : Z) : M fstate Z :=
  if len <=? nr then
    _ ← brelse fuel bh;
    mret 1
  else
    match n with
    | O => halt NoFuel
    | S n' =>
        d ← fget bh b_data;
        let check bh de :=
          (k ← de_inode de;
           if negb (k =? 0) then _ ← brelse fuel bh; mret 0
           else empty_loop fuel n' inode len bh (de + sizeof_dir_entry) (nr + 1)) in
        if d + BLOCK_SIZE <=? de then
          _ ← brelse fuel bh;
          block ← bmap fuel inode (nr / DIR_ENTRIES_PER_BLOCK);
          if block =? 0 then empty_loop fuel n' inode len bh de (nr + DIR_ENTRIES_PER_BLOCK)
          else
            dev ← fget inode i_dev;
            bh ← bread fuel dev block;
            if bh =? 0 then mret 0
            else
              d ← fget bh b_data;
              check bh d
        else check bh de
    end.

Definition empty_dir (fuel : nat) (inode : Z) : M fstate Z :=
  size ← fget inode i_size;
  let len := size / sizeof_dir_entry in
  dev ← fget inode i_dev;
  z ← fget inode (i_zone 0);
  bh ← (if (len <? 2) || (z =? 0) then mret 0 else bread fuel dev z);
  if bh =? 0 then
    _ ← fs_printk "warning - bad directory on dev %04x" [dev];
    mret 0
  else
    de ← fget bh b_data;
    k0 ← de_inode de;
    num ← fget inode i_num;
    k1 ← de_inode (de + sizeof_dir_entry);
    m ← gets kmem;
    if negb (k0 =? num) || (k1 =? 0) || negb (same_string [0x2E] m (de_name de)) ||
       negb (same_string [0x2E; 0x2E] m (de_name (de + sizeof_dir_entry))) then
      _ ← fs_printk "warning - bad directory on dev %04x" [dev];
      mret 0
    else empty_loop fuel (Z.to_nat len) inode len bh (de + 2 * sizeof_dir_entry) 2.

Definition sys_rmdir (fuel : nat) (name : Z) : M fstate Z :=
  ns ← not_super;
  if ns : bool then mret (- EPERM)
  else
    r ← dir_namei fuel name;
    let '(dir, namelen, basename) := r in
    if dir =? 0 then mret (- ENOENT)
    else if namelen =? 0 then _ ← iput fuel dir; mret (- ENOENT)
    else
      e ← find_entry fuel dir basename namelen;
      let '(bh, de) := e in
      if bh =? 0 then _ ← iput fuel dir; mret (- ENOENT)
      else
        p ← permission dir MAY_WRITE;
        if p =? 0 then
          _ ← iput fuel dir;
          _ ← brelse fuel bh;
          mret (- EPERM)
        else
          dev ← fget dir i_dev;
          k ← de_inode de;
          inode ← iget fuel dev k;
          if inode =? 0 then
            _ ← iput fuel dir;
            _ ← brelse fuel bh;
            mret (- EPERM)
          else
            let fail_with code :=
              (_ ← iput fuel inode;
               _ ← iput fuel dir;
               _ ← brelse fuel bh;
               mret (- code)) in
            if inode =? dir then fail_with EPERM
            else
              mode ← fget inode i_mode;
              if negb (S_ISDIR mode) then fail_with ENOTDIR
              else
                ok ← empty_dir fuel inode;
                if ok =? 0 then fail_with ENOTEMPTY
                else
                  l ← fget inode i_nlinks;
                  _ ← when (negb (l =? 2)) (fs_printk "empty directory has nlink!=2 (%d)" [l]);
                  _ ← de_set_inode de 0;
                  _ ← fput bh b_dirt 1;
                  _ ← brelse fuel bh;
                  _ ← fput inode i_nlinks 0;
                  _ ← fput inode i_dirt 1;
                  _ ← fdec dir i_nlinks;
                  t ← fs_time;
                  _ ← fput dir i_mtime t;
                  _ ← fput dir i_ctime t;
                  _ ← fput dir i_dirt 1;
                  _ ← iput fuel dir;
                  _ ← iput fuel inode;
                  mret 0.

Definition sys_unlink (fuel : nat) (name : Z) : M fstate Z :=
  r ← dir_namei fuel name;
  let '(dir, namelen, basename) := r in
  if dir =? 0 then mret (- ENOENT)
  else if namelen =? 0 then _ ← iput fuel dir; mret (- ENOENT)
  else
    p ← permission dir MAY_WRITE;
    if p =? 0 then _ ← iput fuel dir; mret (- EPERM)
    else
      e ← find_entry fuel dir basename namelen;
      let '(bh, de) := e in
      if bh =? 0 then _ ← iput fuel dir; mret (- ENOENT)
      else
        dev ← fget dir i_dev;
        k ← de_inode de;
        inode ← iget fuel dev k;
        if inode =? 0 then
          dev ← fget dir i_dev;
          k ← de_inode de;
          _ ← fs_printk "iget failed in delete (%04x:%d)" [dev; k];
          _ ← iput fuel dir;
          _ ← brelse fuel bh;
          mret (- ENOENT)
        else
          mode ← fget inode i_mode;
          if negb (S_ISREG mode) then
            _ ← iput fuel inode;
            _ ← iput fuel dir;
            _ ← brelse fuel bh;
            mret (- EPERM)
          else
            l ← fget inode i_nlinks;
            _ ← when (l =? 0)
                  (dev ← fget inode i_dev;
                   num ← fget inode i_num;
                   _ ← fs_printk "Deleting nonexistent file (%04x:%d), %d" [dev; num; l];
                   fput inode i_nlinks 1);
            _ ← de_set_inode de 0;
            _ ← fput bh b_dirt 1;
            _ ← brelse fuel bh;
            _ ← fdec inode i_nlinks;
            _ ← fput inode i_dirt 1;
            t ← fs_time;
            _ ← fput inode i_ctime t;
            _ ← iput fuel inode;
            _ ← iput fuel dir;
            mret 0.

Definition sys_link (fuel : nat) (oldname newname : Z) : M fstate Z :=
  oldinode ← namei fuel oldname;
  if oldinode =? 0 then mret (- ENOENT)
  else
    mode ← fget oldinode i_mode;
    if negb (S_ISREG mode) then _ ← iput fuel oldinode; mret (- EPERM)
    else
      r ← dir_namei fuel newname;
      let '(dir, namelen, basename) := r in
      if dir =? 0 then _ ← iput fuel oldinode; mret (- EACCES)
      else if namelen =? 0 then
        _ ← iput fuel oldinode;
        _ ← iput fuel dir;
        mret (- EPERM)
      else
        let fail_with code :=
          (_ ← iput fuel dir;
           _ ← iput fuel oldinode;
           mret (- code)) in
        dd ← fget dir i_dev;
        od ← fget oldinode i_dev;
        if negb (dd =? od) then fail_with EXDEV
        else
          p ← permission dir MAY_WRITE;
          if p =? 0 then fail_with EACCES
          else
            e ← find_entry fuel dir basename namelen;
            let '(bh, de) := e in
            if negb (bh =? 0) then _ ← brelse fuel bh; fail_with EEXIST
            else
              e ← add_entry fuel dir basename namelen;
              let '(bh, de) := e in
              if bh =? 0 then fail_with ENOSPC
              else
                num ← fget oldinode i_num;
                _ ← de_set_inode de num;
                _ ← fput bh b_dirt 1;
                _ ← brelse fuel bh;
                _ ← iput fuel dir;
                _ ← finc oldinode i_nlinks;
                t ← fs_time;
                _ ← fput oldinode i_ctime t;
                _ ← fput oldinode i_dirt 1;
                _ ← iput fuel oldinode;
                mret 0.
End dirs.
