(* ===== verification/Open.v ===== *)
(** * Open: src/linux-0.01/fs/open.c and [sys_stat] of fs/stat.c *)

From S2P Require Import Prelude Mem Mm Proc Sched Fork FsState Buffer Bitmap Inode FileDev Files Namei.

Section open.
Context {FW : FsWorld} {TO : TtyOps} {KS : KernelSvc}.

Definition sys_utime (fuel : nat) (filename times : Z) : M fstate Z :=
  inode ← namei fuel filename;
  if inode =? 0 then mret (- ENOENT)
  else
    a ← (if negb (times =? 0) then on_ps (get_fs_long times) else fs_time);
    m ← (if negb (times =? 0) then on_ps (get_fs_long (times + 4)) else mret a);
    _ ← fput inode i_atime a;
    _ ← fput inode i_mtime m;
    _ ← fput inode i_dirt 1;
    _ ← iput fuel inode;
    mret 0.

(** The inode is looked at after it has been given back. *)
Definition sys_access (fuel : nat) (filename mode : Z) : M fstate Z :=
  let mode := Z.land mode 7 in
  inode ← namei fuel filename;
  if inode =? 0 then mret (- EACCES)
  else
    im ← fget inode i_mode;
    let res := Z.land im 0x1FF in
    _ ← iput fuel inode;
    euid ← fcur_get T_euid;
    uid ← fcur_get T_uid;
    let res :=
      if negb (negb (euid =? 0) && negb (uid =? 0))
      then if negb (Z.land res 0x49 =? 0) then 0x1FF else 0x1B6
      else res in
    iu ← fget inode i_uid;
    ig ← fget inode i_gid;
    egid ← fcur_get T_egid;
    let res := if euid =? iu then Z.shiftr res 6 else if egid =? ig then Z.shiftr res 6 else res in
    mret (if Z.land (Z.land res 7) mode =? mode then 0 else - EACCES).

(** [sys_chdir] and [sys_chroot] are the same code on two fields. *)
Definition change_dir (fuel : nat) (f : tfield) (filename : Z) : M fstate Z :=
  inode ← namei fuel filename;
  if inode =? 0 then mret (- ENOENT)
  else
    mode ← fget inode i_mode;
    if negb (S_ISDIR mode) then
      _ ← iput fuel inode;
      mret (- ENOTDIR)
    else
      old ← fcur_get f;
      _ ← iput fuel old;
      _ ← fcur_put f inode;
      mret 0.
Definition sys_chdir (fuel : nat) (filename : Z) : M fstate Z := change_dir fuel T_pwd filename.
Definition sys_chroot (fuel : nat) (filename : Z) : M fstate Z := change_dir fuel T_root filename.

Definition sys_chmod (fuel : nat) (filename mode : Z) : M fstate Z :=
  inode ← namei fuel filename;
  if inode =? 0 then mret (- ENOENT)
  else
    uid ← fcur_get T_uid;
    euid ← fcur_get T_euid;
    iu ← fget inode i_uid;
    im ← fget inode i_mode;
    let ordinary := negb (uid =? 0) && negb (euid =? 0) in
    if ordinary && negb (uid =? iu) && negb (euid =? iu) then
      _ ← iput fuel inode;
      mret (- EACCES)
    else
      let mode := if ordinary then Z.lor (Z.land mode 0x1FF) (Z.land im 0xE00) else mode in
      _ ← fput inode i_mode (Z.lor (Z.land mode 0xFFF) (Z.land im (Z.lnot 0xFFF)));
      _ ← fput inode i_dirt 1;
      _ ← iput fuel inode;
      mret 0.

Definition sys_chown (fuel : nat) (filename uid gid : Z) : M fstate Z :=
  inode ← namei fuel filename;
  if inode =? 0 then mret (- ENOENT)
  else
    cu ← fcur_get T_uid;
    ce ← fcur_get T_euid;
    if negb (cu =? 0) && negb (ce =? 0) then
      _ ← iput fuel inode;
      mret (- EACCES)
    else
      _ ← fput inode i_uid uid;
      _ ← fput inode i_gid gid;
      _ ← fput inode i_dirt 1;
      _ ← iput fuel inode;
      mret 0.

(** [for (i=0 ; i<NR_FILE ; i++,f++) if (!f->f_count) break;]: [i]. *)
Fixpoint free_file (n : nat) (i : Z) : M fstate Z :=
  match n with
  | O => mret i
  | S n' =>
      c ← fget (file_at i) f_count;
      if c =? 0 then mret i else free_file n' (i + 1)
  end.

Definition sys_open (fuel : nat) (filename flag mode : Z) : M fstate Z :=
  um ← fcur_get T_umask;
  let mode := Z.land mode (Z.land 0x1FF (Z.lnot um)) in
  fd ← free_fd (Z.to_nat NR_OPEN) 0;
  if NR_OPEN <=? fd then mret (- EINVAL)
  else
    _ ← close_on_exec_clear fd;
    i ← free_file (Z.to_nat NR_FILE) 0;
    if NR_FILE <=? i then mret (- EINVAL)
    else
      let f := file_at i in
      _ ← fcur_put (T_filp fd) f;
      _ ← finc f f_count;
      r ← open_namei fuel filename flag mode;
      let '(i, inode) := r in
      if i <? 0 then
        _ ← fcur_put (T_filp fd) 0;
        _ ← fput f f_count 0;
        mret i
      else
        im ← fget inode i_mode;
        z ← fget inode (i_zone 0);
        refuse ← (if S_ISCHR im then
            if MAJOR z =? 4 then
              leader ← fcur_get T_leader;
              t ← fcur_get T_tty;
              _ ← when (negb (leader =? 0) && (t <? 0))
                    (_ ← fcur_put T_tty (MINOR z);
                     t ← fcur_get T_tty;
                     pgrp ← fcur_get T_pgrp;
                     tty_set_pgrp t pgrp);
              mret false
            else if MAJOR z =? 5 then
              t ← fcur_get T_tty;
              mret (t <? 0)
            else mret false
          else mret false);
        if refuse : bool then
          _ ← iput fuel inode;
          _ ← fcur_put (T_filp fd) 0;
          _ ← fput f f_count 0;
          mret (- EPERM)
        else
          im ← fget inode i_mode;
          _ ← fput f f_mode im;
          _ ← fput f f_flags flag;
          _ ← fput f f_count 1;
          _ ← fput f f_inode inode;
          _ ← fput f f_pos 0;
          mret fd.

Definition sys_creat (fuel : nat) (pathname mode : Z) : M fstate Z :=
  sys_open fuel pathname (Z.lor O_CREAT O_TRUNC) mode.

Definition sys_stat (junk : Z -> Z) (fuel : nat) (filename statbuf : Z) : M fstate Z :=
  inode ← namei fuel filename;
  if inode =? 0 then mret (- ENOENT)
  else
    i ← cp_stat junk inode statbuf;
    _ ← iput fuel inode;
    mret i.
End open.
