(* ===== verification/Exec.v ===== *)
(** * Exec: src/linux-0.01/fs/exec.c

    Executing a program: its arguments are copied to fresh pages of the kernel,
    the old user memory goes away, the pages become the top of the new one and
    the program is read into its bottom. User memory is what the segment %fs
    shows ([umem]); the page tables are those of [Mm], in kernel memory. *)

From S2P Require Import Prelude Mem Vsprintf Mm Proc Sched Fork Exit Sys FsState Buffer Bitmap Inode FileDev Files Namei.

Definition ENOEXEC : Z := 8.
Definition MAX_ARG_PAGES : Z := 32.
Definition ZMAGIC : Z := 0x10B.
Definition SEGMENT_SIZE : Z := 1024.

(** [struct exec], from the first block of the file. *)
Record exec : Type := {
  a_magic : Z; a_text : Z; a_data : Z; a_bss : Z; a_syms : Z; a_entry : Z; a_trsize : Z; a_drsize : Z
}.
Definition load_exec (m : memory) (a : Z) : exec :=
  {| a_magic := load32 m a; a_text := load32 m (a + 4); a_data := load32 m (a + 8); a_bss := load32 m (a + 12);
     a_syms := load32 m (a + 16); a_entry := load32 m (a + 20); a_trsize := load32 m (a + 24);
     a_drsize := load32 m (a + 28) |}.
Definition N_TXTOFF (ex : exec) : Z :=
  if a_magic ex =? ZMAGIC then SEGMENT_SIZE - 32 + 32 else 32.

Section exec.
Context {FW : FsWorld} {TO : TtyOps} {KS : KernelSvc}.

(** [set_limit(current->ldt[n],limit)]; the task structure keeps the bases
    only. *)
Context (set_limit : Z -> Z -> M fstate unit).

(** ** Reading the program *)

(** [cp_block]: a block to user memory. *)
Definition cp_block (from to : Z) : M fstate unit := copy_to_user from to BLOCK_SIZE.

(** [for(count = 0 ; count<blocks ; count++)]. *)
Fixpoint head_loop (fuel n : nat) (inode count : Z) : M fstate Z :=
  match n with
  | O => mret 0
  | S n' =>
      z ← fget inode (i_zone (count + 1));
      if z =? 0 then head_loop fuel n' inode (count + 1)
      else
        dev ← fget inode i_dev;
        bh ← bread fuel dev z;
        if bh =? 0 then mret (-1)
        else
          d ← fget bh b_data;
          _ ← cp_block d (count * BLOCK_SIZE);
          _ ← brelse fuel bh;
          head_loop fuel n' inode (count + 1)
  end.
Definition read_head (fuel : nat) (inode blocks : Z) : M fstate Z :=
  head_loop fuel (Z.to_nat (if 6 <? blocks then 6 else blocks)) inode 0.

(** [while (size>0)]; at most 512 rounds. *)
Fixpoint ind_loop (fuel n : nat) (dev ih table size offset : Z) : M fstate Z :=
  if size <=? 0 then
    _ ← brelse fuel ih;
    mret 0
  else
    match n with
    | O => halt NoFuel
    | S n' =>
        block ← kload16 table;
        bh ← (if block =? 0 then mret None else bh ← bread fuel dev block; mret (Some bh));
        match bh with
        | Some bh =>
            if bh =? 0 then
              _ ← brelse fuel ih;
              mret (-1)
            else
              d ← fget bh b_data;
              _ ← cp_block d offset;
              _ ← brelse fuel bh;
              ind_loop fuel n' dev ih (table + 2) (size - BLOCK_SIZE) (offset + BLOCK_SIZE)
        | None => ind_loop fuel n' dev ih (table + 2) (size - BLOCK_SIZE) (offset + BLOCK_SIZE)
        end
    end.
Definition read_ind (fuel : nat) (dev ind size offset : Z) : M fstate Z :=
  _ ← when (size <=? 0) (panic "size<=0 in read_ind");
  let size := if 512 * BLOCK_SIZE <? size then 512 * BLOCK_SIZE else size in
  if ind =? 0 then mret 0
  else
    ih ← bread fuel dev ind;
    if ih =? 0 then mret (-1)
    else
      d ← fget ih b_data;
      ind_loop fuel 512 dev ih d size offset.

(** [for(count=0 ; count<512 ; count++)] over the doubly indirect block. *)
Fixpoint dind_loop (fuel n : nat) (inode table size count : Z) : M fstate Z :=
  match n with
  | O => panic "Impossibly long executable"
  | S n' =>
      dev ← fget inode i_dev;
      b ← kload16 table;
      i ← read_ind fuel dev b size (BLOCK_SIZE * (518 + count));
      if negb (i =? 0) then mret i
      else
        let size := size - BLOCK_SIZE * 512 in
        if size <=? 0 then mret i else dind_loop fuel n' inode (table + 2) size (count + 1)
  end.

Definition read_area (fuel : nat) (inode size : Z) : M fstate Z :=
  i ← read_head fuel inode (Z.quot (size + BLOCK_SIZE - 1) BLOCK_SIZE);
  if negb (i =? 0) then mret i
  else
    let size := size - BLOCK_SIZE * 6 in
    if size <=? 0 then mret i
    else
      dev ← fget inode i_dev;
      z ← fget inode (i_zone 7);
      i ← read_ind fuel dev z size (BLOCK_SIZE * 6);
      if negb (i =? 0) then mret i
      else
        let size := size - BLOCK_SIZE * 512 in
        if size <=? 0 then mret i
        else
          i ← fget inode (i_zone 8);
          if i =? 0 then mret 0
          else
            dev ← fget inode i_dev;
            dind ← bread fuel dev i;
            if dind =? 0 then mret (-1)
            else
              d ← fget dind b_data;
              dind_loop fuel 512 inode d size 0.

(** ** Arguments *)

(** [while (get_fs_byte(p++))]: [p] afterwards. *)
Fixpoint skip_string (n : nat) (p : Z) : M fstate Z :=
  match n with
  | O => halt NoFuel
  | S n' => c ← on_ps (get_fs_byte p); if c =? 0 then mret (p + 1) else skip_string n' (p + 1)
  end.

(** [while (n-->0) { put_fs_long(p,table++); while (get_fs_byte(p++)); }
    put_fs_long(0,table)]: [p] afterwards. *)
Fixpoint pointer_table (fuel n : nat) (p table : Z) : M fstate Z :=
  match n with
  | O => _ ← on_ps (put_fs_long 0 table); mret p
  | S n' =>
      _ ← on_ps (put_fs_long p table);
      p ← skip_string fuel p;
      pointer_table fuel n' p (table + 4)
  end.

Definition create_tables (fuel : nat) (p argc envc : Z) : M fstate Z :=
  let sp := Z.land 0xfffffffc p in
  let envp := u32 (sp - 4 * (envc + 1)) in
  let argv := u32 (envp - 4 * (argc + 1)) in
  _ ← on_ps (put_fs_long envp (u32 (argv - 4)));
  _ ← on_ps (put_fs_long argv (u32 (argv - 8)));
  _ ← on_ps (put_fs_long argc (u32 (argv - 12)));
  p ← pointer_table fuel (Z.to_nat argc) p argv;
  _ ← pointer_table fuel (Z.to_nat envc) p envp;
  mret (u32 (argv - 12)).

Fixpoint count_loop (fuel : nat) (tmp i : Z) : M fstate Z :=
  match fuel with
  | O => halt NoFuel
  | S fuel' => v ← on_ps (get_fs_long tmp); if v =? 0 then mret i else count_loop fuel' (tmp + 4) (i + 1)
  end.
Definition count (fuel : nat) (argv : Z) : M fstate Z :=
  if argv =? 0 then mret 0 else count_loop fuel argv 0.

Definition page_at (page : list Z) (i : Z) : M fstate Z :=
  if i <? 0 then halt (Fault "page") else get_opt "page" (fun _ => page !! Z.to_nat i).

(** [while (i<MAX_ARG_PAGES && !page[i]) { if (!(page[i]=get_free_page())) return 0; i++; }] *)
Fixpoint arg_pages (n : nat) (page : list Z) (i : Z) : M fstate (option (list Z)) :=
  match n with
  | O => mret (Some page)
  | S n' =>
      if MAX_ARG_PAGES <=? i then mret (Some page)
      else
        q ← page_at page i;
        if negb (q =? 0) then mret (Some page)
        else
          q ← on_mm get_free_page;
          if q =? 0 then mret None else arg_pages n' (<[Z.to_nat i := q]> page) (i + 1)
  end.

(** [do { --p; ... } while (--len)]: [p] afterwards. *)
Fixpoint copy_string (len : nat) (page : list Z) (p tmp : Z) : M fstate Z :=
  match len with
  | O => mret p
  | S len' =>
      let p := u32 (p - 1) in
      q ← page_at page (p / PAGE_SIZE);
      _ ← when (q =? 0) (panic "nonexistent page in exec.c");
      c ← on_ps (get_fs_byte (tmp - 1));
      _ ← kstore8 (q + p mod PAGE_SIZE) c;
      copy_string len' page p (tmp - 1)
  end.

(** The pages, and [p] or 0. The test [p-len < 0] is never true: both are
    unsigned. *)
Fixpoint copy_strings (fuel n : nat) (argv : Z) (page : list Z) (p : Z) : M fstate (list Z * Z) :=
  match n with
  | O => mret (page, p)
  | S argc =>
      tmp ← on_ps (get_fs_long (argv + 4 * Z.of_nat argc));
      _ ← when (tmp =? 0) (panic "argc is wrong");
      tmp' ← skip_string fuel tmp;
      let len := tmp' - tmp in
      r ← arg_pages (Z.to_nat MAX_ARG_PAGES) page (Z.shiftr (u32 (p - len)) 12);
      match r with
      | None => mret (page, 0)
      | Some page =>
          p ← copy_string (Z.to_nat len) page p tmp';
          copy_strings fuel argc argv page p
      end
  end.

(** ** The new address space *)

(** What %fs shows when the pages are in place: they end at 64 MB, and all else
    is zero until it is written. *)
Definition arg_image (page : list Z) (m : memory) : memory :=
  foldr (fun i u =>
    let q := page !!! Z.to_nat i in
    if q =? 0 then u
    else store_bytes u (0x4000000 - PAGE_SIZE * (MAX_ARG_PAGES - i)) (load_bytes m q (Z.to_nat PAGE_SIZE)))
    ∅ (seqZ 0 MAX_ARG_PAGES).

(** [for (i=MAX_ARG_PAGES-1 ; i>=0 ; i--)]. *)
Fixpoint put_pages (n : nat) (page : list Z) (data_base : Z) : M fstate unit :=
  match n with
  | O => mret tt
  | S i =>
      let data_base := u32 (data_base - PAGE_SIZE) in
      q ← page_at page (Z.of_nat i);
      _ ← when (negb (q =? 0)) (_ ← on_mm (put_page q data_base); mret tt);
      put_pages i page data_base
  end.

Definition change_ldt (text_size : Z) (page : list Z) : M fstate Z :=
  let code_limit := Z.land (u32 (text_size + PAGE_SIZE - 1)) 0xFFFFF000 in
  let data_limit := 0x4000000 in
  code_base ← fcur_get (T_ldt_base 1);
  let data_base := code_base in
  _ ← fcur_put (T_ldt_base 1) code_base;
  _ ← set_limit 1 code_limit;
  _ ← fcur_put (T_ldt_base 2) data_base;
  _ ← set_limit 2 data_limit;
  _ ← modify (fun s => set_fps (set_umem (arg_image page (kmem s)) (fps s)) s);
  _ ← put_pages (Z.to_nat MAX_ARG_PAGES) page (u32 (data_base + data_limit));
  mret data_limit.

(** [while (i&0xfff) put_fs_byte(0, i++)]; fewer than 4096 rounds. *)
Fixpoint clear_to_page (n : nat) (i : Z) : M fstate unit :=
  if Z.land i 0xfff =? 0 then mret tt
  else
    match n with
    | O => halt NoFuel
    | S n' => _ ← on_ps (put_fs_byte 0 i); clear_to_page n' (i + 1)
    end.

(** The mode's bit for execution by this caller. *)
Definition may_execute (mode inode : Z) : M fstate bool :=
  uid ← fcur_get T_uid;
  euid ← fcur_get T_euid;
  iu ← fget inode i_uid;
  egid ← fcur_get T_egid;
  ig ← fget inode i_gid;
  let i :=
    if negb (uid =? 0) && negb (euid =? 0) then
      if euid =? iu then Z.shiftr mode 6 else if egid =? ig then Z.shiftr mode 3 else mode
    else if negb (Z.land mode 0x49 =? 0) then 1 else mode in
  mret (negb (Z.land i 1 =? 0)).

(** The part of [do_execve] behind the point of no return. *)
Definition start_program (fuel : nat) (eip inode p argc envc : Z) (ex : exec) (page : list Z) : M fstate Z :=
  _ ← for_loop 32 0 (fun i => fcur_put (T_sig_fn i) 0);
  _ ← for_loop (Z.to_nat NR_OPEN) 0 (fun i =>
        c ← fcur_get T_close_on_exec;
        when (negb (Z.land (Z.shiftr c i) 1 =? 0)) (_ ← sys_close fuel i; mret tt));
  _ ← fcur_put T_close_on_exec 0;
  b1 ← fcur_get (T_ldt_base 1);
  l1 ← on_ps (svc_get_limit 0x0f);
  _ ← on_mm (free_page_tables b1 l1);
  b2 ← fcur_get (T_ldt_base 2);
  l2 ← on_ps (svc_get_limit 0x17);
  _ ← on_mm (free_page_tables b2 l2);
  _ ← modify (fun s => if last_task_used_math (fps s) =? current (fps s) then set_fps (set_last_math 0 (fps s)) s else s);
  _ ← fcur_put T_used_math 0;
  data_limit ← change_ldt (a_text ex) page;
  let p := u32 (p + (data_limit - MAX_ARG_PAGES * PAGE_SIZE)) in
  p ← create_tables fuel p argc envc;
  _ ← fcur_put T_end_code (a_text ex);
  _ ← fcur_put T_end_data (a_data ex + a_text ex);
  _ ← fcur_put T_brk (a_bss ex + (a_data ex + a_text ex));
  _ ← fcur_put T_start_stack (Z.land p 0xfffff000);
  i ← read_area fuel inode (s32 (a_text ex + a_data ex));
  _ ← iput fuel inode;
  _ ← when (i <? 0) (on_ps (sys_exit (-1)));
  _ ← clear_to_page 4096 (s32 (a_text ex + a_data ex));
  _ ← kstore32 eip (a_entry ex);
  _ ← kstore32 (eip + 12) p;
  mret 0.

(** [eip] points to the registers saved on the kernel stack. *)
Definition do_execve (fuel : nat) (eip filename argv envp : Z) : M fstate Z :=
  cs ← kload32 (eip + 4);
  _ ← when (negb (Z.land 0xffff cs =? 0x000f)) (panic "execve called from supervisor mode");
  let page := replicate (Z.to_nat MAX_ARG_PAGES) 0 in
  inode ← namei fuel filename;
  if inode =? 0 then mret (- ENOENT)
  else
    mode ← fget inode i_mode;
    if negb (S_ISREG mode) then
      _ ← iput fuel inode;
      mret (- EACCES)
    else
      ok ← may_execute mode inode;
      if negb ok then
        _ ← iput fuel inode;
        mret (- ENOEXEC)
      else
        dev ← fget inode i_dev;
        z ← fget inode (i_zone 0);
        bh ← bread fuel dev z;
        if bh =? 0 then
          _ ← iput fuel inode;
          mret (- EACCES)
        else
          d ← fget bh b_data;
          ex ← gets (fun s => load_exec (kmem s) d);
          _ ← brelse fuel bh;
          size ← fget inode i_size;
          if negb (a_magic ex =? ZMAGIC) || negb (a_trsize ex =? 0) || negb (a_drsize ex =? 0) ||
             (0x3000000 <? u32 (a_text ex + a_data ex + a_bss ex)) ||
             (size <? u32 (a_text ex + a_data ex + a_syms ex + N_TXTOFF ex)) then
            _ ← iput fuel inode;
            mret (- ENOEXEC)
          else
            _ ← when (negb (N_TXTOFF ex =? BLOCK_SIZE)) (panic "N_TXTOFF != BLOCK_SIZE. See a.out.h.");
            argc ← count fuel argv;
            envc ← count fuel envp;
            r ← copy_strings fuel (Z.to_nat envc) envp page (PAGE_SIZE * MAX_ARG_PAGES - 4);
            let '(page, p) := r in
            r ← copy_strings fuel (Z.to_nat argc) argv page p;
            let '(page, p) := r in
            if p =? 0 then
              _ ← for_loop (Z.to_nat MAX_ARG_PAGES) 0 (fun i => q ← page_at page i; on_mm (free_page q));
              _ ← iput fuel inode;
              mret (-1)
            else start_program fuel eip inode p argc envc ex page.
End exec.
