(* ===== verification/ArgStack.v ===== *)
(** * ArgStack: the stack a program starts with

    What [create_tables] of src/linux-0.01/fs/exec.c leaves below the argument
    strings: the count, the two vectors and their terminators, in the order the
    new program's [main] expects them. *)

From S2P Require Import Prelude Mem Proc Sched FsState FileDev Exec.

(** The strings [l] lie one behind the other from [p] on, each with its zero. *)
Fixpoint strings_at (m : memory) (p : Z) (l : list (list Z)) : Prop :=
  match l with
  | [] => True
  | w :: l' =>
      Forall (fun c => 0 < c) w /\ load_bytes m p (length w) = w /\
      load8 m (p + Z.of_nat (length w)) = 0 /\ strings_at m (p + Z.of_nat (length w) + 1) l'
  end.
(** Where they begin, and where the last one ends. *)
Fixpoint addresses (p : Z) (l : list (list Z)) : list Z :=
  match l with [] => [] | w :: l' => p :: addresses (p + Z.of_nat (length w) + 1) l' end.
Fixpoint strings_end (p : Z) (l : list (list Z)) : Z :=
  match l with [] => p | w :: l' => strings_end (p + Z.of_nat (length w) + 1) l' end.

Lemma length_addresses p l : length (addresses p l) = length l.
Proof. revert p; induction l as [| w l IH]; intros p; cbn; [done | by rewrite IH]. Qed.

Lemma strings_end_le p l : p + Z.of_nat (length l) <= strings_end p l.
Proof.
  revert p; induction l as [| w l IH]; intros p; cbn; [lia |].
  pose proof (IH (p + Z.of_nat (length w) + 1)). lia.
Qed.

Lemma addresses_app p l l' : addresses p (l ++ l') = addresses p l ++ addresses (strings_end p l) l'.
Proof. revert p; induction l as [| w l IH]; intros p; cbn; [done | by rewrite IH]. Qed.
Lemma strings_end_app p l l' : strings_end p (l ++ l') = strings_end (strings_end p l) l'.
Proof. revert p; induction l as [| w l IH]; intros p; cbn; [done | by rewrite IH]. Qed.
Lemma strings_at_app m p l l' :
  strings_at m p (l ++ l') <-> strings_at m p l /\ strings_at m (strings_end p l) l'.
Proof. revert p; induction l as [| w l IH]; intros p; cbn; [tauto | rewrite IH; tauto]. Qed.

(** Strings and words survive writes elsewhere. *)
Lemma strings_at_frame m m' p l a n :
  strings_at m p l -> only_changed m m' a n -> a + n <= p -> 0 <= p -> strings_end p l <= 2 ^ 32 ->
  strings_at m' p l.
Proof.
  revert p; induction l as [| w l IH]; intros p H Hm Ha H0 He; [done |]. cbn in *.
  destruct H as (H1 & H2 & H3 & H4). pose proof (strings_end_le (p + Z.of_nat (length w) + 1) l).
  split; [done |]. split; [| split].
  - rewrite <- H2 at 2. apply load_bytes_ext. intros i Hi. apply Hm; unfold in_u32; lia.
  - rewrite Hm; [done | unfold in_u32; lia | lia].
  - apply IH; try done; lia.
Qed.

Section stack.
Context {FW : FsWorld}.

Lemma get_byte_run a s : on_ps (get_fs_byte a) s = Done (load8 (umem (fps s)) a) s.
Proof. by destruct s. Qed.
Lemma put_long_run v a s :
  on_ps (put_fs_long v a) s = Done tt (with_umem (store32 (umem (fps s)) a v) s).
Proof. done. Qed.

Lemma skip_string_run w n p s :
  Forall (fun c => 0 < c) w -> load_bytes (umem (fps s)) p (length w) = w ->
  load8 (umem (fps s)) (p + Z.of_nat (length w)) = 0 -> (length w < n)%nat ->
  skip_string n p s = Done (p + Z.of_nat (length w) + 1) s.
Proof.
  revert n p; induction w as [| c w IH]; intros n p Hf Hb Hz Hn; (destruct n as [| n]; [cbn in Hn; lia |]);
    cbn [length load_bytes] in *; cbn [skip_string];
    rewrite (bind_Done _ _ _ _ _ (get_byte_run _ _)).
  - rewrite Z.add_0_r in Hz. rewrite Hz. cbn. unfold mret, M_ret. f_equal. lia.
  - injection Hb as Hc Hb. inversion Hf. rewrite Hc, (proj2 (Z.eqb_neq c 0)) by lia.
    rewrite IH; [f_equal; lia | done | done | rewrite <- Hz; f_equal; lia | lia].
Qed.

(** One vector: the addresses of its strings and a zero. *)
Lemma pointer_table_run fuel l p table s :
  strings_at (umem (fps s)) p l -> Forall (fun w => (length w < fuel)%nat) l ->
  0 <= table -> table + 4 * (Z.of_nat (length l) + 1) <= p -> strings_end p l <= 2 ^ 32 ->
  exists m, pointer_table fuel (length l) p table s = Done (strings_end p l) (with_umem m s) /\
    words_at m table (addresses p l ++ [0]) /\
    only_changed (umem (fps s)) m table (4 * (Z.of_nat (length l) + 1)).
Proof.
  revert p table s; induction l as [| w l IH]; intros p table s Hs Hf H0 Ht He; cbn [length pointer_table].
  - cbn in He, Ht. rewrite (bind_Done _ _ _ _ _ (put_long_run _ _ _)).
    exists (store32 (umem (fps s)) table 0). split; [done |]. split.
    + apply words_at_cons; [apply load32_store32_eq | by intros [] ?].
    + apply only_changed_store32; lia.
  - cbn [strings_at strings_end length addresses] in *. destruct Hs as (H1 & H2 & H3 & H4).
    apply Forall_cons in Hf as [Hw Hf]. pose proof (strings_end_le (p + Z.of_nat (length w) + 1) l).
    rewrite (bind_Done _ _ _ _ _ (put_long_run _ _ _)).
    set (m1 := store32 (umem (fps s)) table p).
    assert (Hm1 : only_changed (umem (fps s)) m1 table 4) by (apply only_changed_store32; lia).
    assert (Hs1 : strings_at m1 p (w :: l)).
    { apply (strings_at_frame (umem (fps s)) m1 p (w :: l) table 4); cbn; try done; lia. }
    destruct Hs1 as (H1' & H2' & H3' & H4').
    rewrite (bind_Done _ _ _ _ _ (skip_string_run w fuel p (with_umem m1 s) H1' H2' H3' Hw)).
    destruct (IH (p + Z.of_nat (length w) + 1) (table + 4) (with_umem m1 s)) as (m & Hr & Hwd & Hc);
      [done | done | lia | lia | done |].
    change (umem (fps (with_umem m1 s))) with m1 in Hc.
    exists m. split; [rewrite Hr; by rewrite with_umem_twice |]. split.
    + apply words_at_cons; [| exact Hwd].
      rewrite (load32_only_changed m1 m (table + 4) (4 * (Z.of_nat (length l) + 1)));
        [| done | unfold disjoint; lia].
      unfold m1. rewrite load32_store32_eq. apply u32_small. unfold in_u32. lia.
    + apply (only_changed_trans _ m1).
      * eapply only_changed_weaken; [exact Hm1 | lia | lia].
      * eapply only_changed_weaken; [exact Hc | lia | lia].
Qed.

Lemma three_words m a x y z :
  in_u32 x -> in_u32 y -> in_u32 z -> 0 <= a -> a + 12 <= 2 ^ 32 ->
  let m3 := store32 (store32 (store32 m (a + 8) z) (a + 4) y) a x in
  words_at m3 a [x; y; z] /\ only_changed m m3 a 12.
Proof.
  intros Hx Hy Hz H0 H1 m3. split.
  - unfold m3. apply words_at_cons; [by rewrite load32_store32_eq, u32_small |].
    apply words_at_cons; [rewrite load32_store32_ne by (unfold disjoint; lia);
                          by rewrite load32_store32_eq, u32_small |].
    replace (a + 4 + 4) with (a + 8) by lia.
    apply words_at_cons; [| by intros [] ?].
    do 2 rewrite load32_store32_ne by (unfold disjoint; lia). by rewrite load32_store32_eq, u32_small.
  - unfold m3. apply (only_changed_trans _ (store32 (store32 m (a + 8) z) (a + 4) y));
      [apply (only_changed_trans _ (store32 m (a + 8) z)) |];
      (eapply only_changed_weaken; [apply only_changed_store32 | |]); lia.
Qed.

(** Both vectors. *)
Lemma two_vectors_run fuel args envs p a s :
  strings_at (umem (fps s)) p (args ++ envs) ->
  Forall (fun w => (length w < fuel)%nat) (args ++ envs) ->
  0 <= a -> a + 4 * (Z.of_nat (length args) + Z.of_nat (length envs) + 2) <= p ->
  strings_end p (args ++ envs) <= 2 ^ 32 ->
  exists m,
    (p ← pointer_table fuel (length args) p a;
     pointer_table fuel (length envs) p (a + 4 * (Z.of_nat (length args) + 1))) s =
      Done (strings_end p (args ++ envs)) (with_umem m s) /\
    words_at m a (addresses p args ++ [0] ++ addresses (strings_end p args) envs ++ [0]) /\
    only_changed (umem (fps s)) m a (4 * (Z.of_nat (length args) + Z.of_nat (length envs) + 2)).
Proof.
  intros Hs Hf Ha Hp He. rewrite strings_end_app in *. apply Forall_app in Hf as [Hfa Hfe].
  pose proof Hs as Hs'. apply strings_at_app in Hs' as [Hsa Hse].
  pose proof (strings_end_le p args). pose proof (strings_end_le (strings_end p args) envs).
  set (argc := Z.of_nat (length args)) in *. set (envc := Z.of_nat (length envs)) in *.
  destruct (pointer_table_run fuel args p a s) as (m1 & Hr1 & Hw1 & Hc1); [done | done | lia.. |].
  fold argc in Hc1. rewrite (bind_Done _ _ _ _ _ Hr1).
  destruct (pointer_table_run fuel envs (strings_end p args) (a + 4 * (argc + 1)) (with_umem m1 s))
    as (m2 & Hr2 & Hw2 & Hc2); [| done | lia.. |].
  { apply (strings_at_frame (umem (fps s)) m1 _ _ a (4 * (argc + 1))); (done || lia). }
  change (umem (fps (with_umem m1 s))) with m1 in Hc2. fold envc in Hc2.
  exists m2. split; [by rewrite Hr2, with_umem_twice |]. split.
  - pose proof (length_addresses p args) as Hla. rewrite app_assoc. apply words_at_app.
    + apply (words_at_frame m1 m2 _ _ (a + 4 * (argc + 1)) (4 * (envc + 1))); try done;
        rewrite ?length_app, ?Hla; cbn [length]; lia.
    + rewrite length_app, Hla. cbn [length].
      by replace (a + 4 * Z.of_nat (length args + 1)) with (a + 4 * (argc + 1)) by lia.
  - apply (only_changed_trans _ m1); (eapply only_changed_weaken; [eassumption | |]); lia.
Qed.

(** The stack pointers of [create_tables], in 32 bits. *)
Lemma create_tables_unfold fuel p argc envc :
  0 <= argc -> 0 <= envc -> 4 * (argc + envc + 5) + 3 <= p < 2 ^ 32 ->
  let sp := p - p mod 4 - 4 * (argc + envc + 5) in
  create_tables fuel p argc envc =
    (_ ← on_ps (put_fs_long (sp + 12 + 4 * (argc + 1)) (sp + 8));
     _ ← on_ps (put_fs_long (sp + 12) (sp + 4));
     _ ← on_ps (put_fs_long argc sp);
     p ← pointer_table fuel (Z.to_nat argc) p (sp + 12);
     _ ← pointer_table fuel (Z.to_nat envc) p (sp + 12 + 4 * (argc + 1));
     mret sp).
Proof.
  intros Ha He Hp sp. pose proof (Z.mod_pos_bound p 4 ltac:(lia)) as Hm.
  assert (Hsp : Z.land 0xfffffffc p = p - p mod 4).
  { rewrite Z.land_comm. change 0xfffffffc with (Z.shiftl (Z.ones (32 - 2)) 2).
    rewrite (land_high_mask p 2 32) by lia. done. }
  unfold create_tables. cbv zeta. rewrite Hsp.
  replace (u32 (p - p mod 4 - 4 * (envc + 1))) with (sp + 12 + 4 * (argc + 1))
    by (rewrite u32_small; unfold in_u32, sp; lia).
  replace (u32 (sp + 12 + 4 * (argc + 1) - 4 * (argc + 1))) with (sp + 12)
    by (rewrite u32_small; unfold in_u32, sp; lia).
  replace (u32 (sp + 12 - 4)) with (sp + 8) by (rewrite u32_small; unfold in_u32, sp; lia).
  replace (u32 (sp + 12 - 8)) with (sp + 4) by (rewrite u32_small; unfold in_u32, sp; lia).
  by replace (u32 (sp + 12 - 12)) with sp by (rewrite u32_small; unfold in_u32, sp; lia).
Qed.

(** C22: With the strings of the arguments and of the environment one behind
    the other from [p] on, [create_tables] returns a word-aligned stack pointer
    below them, under which the new program finds the number of arguments, the
    addresses of the two vectors, and the vectors: the address of each string in
    order, and a zero after the last. The strings stay as they are and nothing
    outside the words between the stack pointer and [p] changes. *)
Theorem create_tables_correct fuel p args envs s :
  strings_at (umem (fps s)) p (args ++ envs) ->
  Forall (fun w => (length w < fuel)%nat) (args ++ envs) ->
  4 * (Z.of_nat (length args) + Z.of_nat (length envs) + 5) + 3 <= p < 2 ^ 32 ->
  strings_end p (args ++ envs) <= 2 ^ 32 ->
  let argc := Z.of_nat (length args) in
  let envc := Z.of_nat (length envs) in
  let sp := p - p mod 4 - 4 * (argc + envc + 5) in
  exists m,
    create_tables fuel p argc envc s = Done sp (with_umem m s) /\
    words_at m sp ([argc; sp + 12; sp + 12 + 4 * (argc + 1)] ++ addresses p args ++ [0] ++
                   addresses (strings_end p args) envs ++ [0]) /\
    strings_at m p (args ++ envs) /\
    only_changed (umem (fps s)) m sp (p - sp).
Proof.
  intros Hs Hf Hp He argc envc sp. set (m0 := umem (fps s)) in *.
  pose proof (strings_end_le p (args ++ envs)) as Hl. rewrite length_app in Hl.
  pose proof (Z.mod_pos_bound p 4 ltac:(lia)) as Hm.
  rewrite create_tables_unfold by lia. fold sp.
  do 3 rewrite (bind_Done _ _ _ _ _ (put_long_run _ _ _)).
  set (m3 := store32 (store32 (store32 m0 (sp + 8) (sp + 12 + 4 * (argc + 1))) (sp + 4) (sp + 12)) sp argc).
  rewrite !with_umem_twice. do 2 change (umem (fps (with_umem ?m _))) with m. fold m0. fold m3.
  destruct (three_words m0 sp argc (sp + 12) (sp + 12 + 4 * (argc + 1))) as [Hw3 Hc3];
    [unfold in_u32, sp; lia.. |]. fold m3 in Hw3, Hc3. clearbody m3.
  assert (Hs3 : strings_at m3 p (args ++ envs))
    by (apply (strings_at_frame m0 m3 p _ sp 12); try done; unfold sp; lia).
  destruct (two_vectors_run fuel args envs p (sp + 12) (with_umem m3 s)) as (m5 & Hr & Hw & Hc);
    [done | done | unfold sp; lia.. |].
  fold argc envc in Hr, Hc. change (umem (fps (with_umem m3 s))) with m3 in Hc.
  rewrite with_umem_twice in Hr.
  assert (Hc05 : only_changed m0 m5 sp (p - sp)).
  { apply (only_changed_trans _ m3);
      (eapply only_changed_weaken; [eassumption | |]); unfold sp; lia. }
  exists m5. split; [| split; [| split]].
  - pose proof (bind_Done _ (fun _ => mret sp) _ _ _ Hr) as Hr'. rewrite bind_assoc in Hr'.
    replace (Z.to_nat argc) with (length args) by lia. replace (Z.to_nat envc) with (length envs) by lia.
    by rewrite Hr'.
  - apply words_at_app; [| exact Hw].
    apply (words_at_frame m3 m5 _ _ (sp + 12) (4 * (argc + envc + 2))); try done;
      cbn [length]; unfold sp; lia.
  - apply (strings_at_frame m0 m5 p _ sp (p - sp)); (done || lia).
  - done.
Qed.
End stack.

(** sh -c, with A=1 in the environment, at an odd address below 64 MB. *)
Definition exec_demo : fstate := {|
  fps := set_umem (store_bytes ∅ 0x3FFFFF1 [115; 104; 0; 45; 99; 0; 65; 61; 49; 0]) (demo_table [2000] {[2000 := mk_task 2 9 15]} 1000);
  cells := ∅; kmem := ∅; hash_table := []; free_list := 0; nr_buffers := 0;
  last_allocated_inode := 0; flog := []; fdisk := fun _ b x => b + x; fpages := [] |}.

Lemma create_tables_witness :
  exists m, create_tables 9 0x3FFFFF1 2 1 exec_demo = Done 0x3FFFFD0 (with_umem m exec_demo) /\
    words_at m 0x3FFFFD0 [2; 0x3FFFFDC; 0x3FFFFE8; 0x3FFFFF1; 0x3FFFFF4; 0; 0x3FFFFF7; 0].
Proof.
  destruct (create_tables_correct 9 0x3FFFFF1 [[115; 104]; [45; 99]] [[65; 61; 49]] exec_demo)
    as (m & Hr & Hw & _); [| | vm_bounds | by vm_compute |].
  - repeat split; try (repeat constructor; lia); vm_compute; reflexivity.
  - repeat constructor; cbn; lia.
  - exists m. split; [exact Hr | exact Hw].
Defined.
