(* ===== verification/TtyIoctl.v ===== *)
(** * TtyIoctl: src/linux-0.01/fs/tty_ioctl.c

    The modes of a terminal, read and set as [struct termios] or as the older
    [struct termio], and the other requests of [tty_ioctl]. *)

From S2P Require Import Prelude Mem Proc Sched Fork Sys Console Tty TtyIo FsState FileDev Files.

Definition TCGETS : Z := 0x5401.
Definition TCSETS : Z := 0x5402.
Definition TCSETSW : Z := 0x5403.
Definition TCSETSF : Z := 0x5404.
Definition TCGETA : Z := 0x5405.
Definition TCSETA : Z := 0x5406.
Definition TCSETAW : Z := 0x5407.
Definition TCSETAF : Z := 0x5408.
Definition TCSBRK : Z := 0x5409.
Definition TCFLSH : Z := 0x540B.
Definition TIOCGPGRP : Z := 0x540F.
Definition TIOCSPGRP : Z := 0x5410.
Definition TIOCOUTQ : Z := 0x5411.
Definition NCC : nat := 8.
Definition NCCS : nat := 17.
Definition sizeof_termios : nat := 36.
Definition sizeof_termio : nat := 18.

(** The little-endian bytes of a number, and back. *)
Fixpoint le_bytes (n : nat) (v : Z) : list Z :=
  match n with O => [] | S n' => u8 v :: le_bytes n' (v / 256) end.
Fixpoint le_num (l : list Z) : Z := match l with [] => 0 | b :: l' => b + 256 * le_num l' end.

(** [(char * )&tty->termios]: the structure as its bytes. *)
Definition termios_bytes (t : tty_struct) : list Z :=
  le_bytes 4 (c_iflag t) ++ le_bytes 4 (c_oflag t) ++ le_bytes 4 (c_cflag t) ++ le_bytes 4 (c_lflag t) ++
  [c_line t] ++ c_cc t ++ c_pad t.
Definition set_termios_bytes (l : list Z) (t : tty_struct) : tty_struct :=
  {| c_iflag := le_num (take 4 l); c_oflag := le_num (take 4 (drop 4 l)); c_cflag := le_num (take 4 (drop 8 l));
     c_lflag := le_num (take 4 (drop 12 l)); c_line := default 0 (l !! 16%nat); c_cc := take NCCS (drop 17 l);
     c_pad := take 2 (drop 34 l);
     pgrp := pgrp t; stopped := stopped t; read_q := read_q t; write_q := write_q t; secondary := secondary t |}.

(** [struct termio]: 16-bit modes and eight control characters. *)
Definition termio_bytes (pad : Z) (t : tty_struct) : list Z :=
  le_bytes 2 (c_iflag t) ++ le_bytes 2 (c_oflag t) ++ le_bytes 2 (c_cflag t) ++ le_bytes 2 (c_lflag t) ++
  [c_line t] ++ take NCC (c_cc t) ++ [pad].
(** The store of [v] through an unsigned short pointer to [x]. *)
Definition low_half (x v : Z) : Z := x - x mod 65536 + v.
Definition set_termio_bytes (l : list Z) (t : tty_struct) : tty_struct :=
  {| c_iflag := low_half (c_iflag t) (le_num (take 2 l)); c_oflag := low_half (c_oflag t) (le_num (take 2 (drop 2 l)));
     c_cflag := low_half (c_cflag t) (le_num (take 2 (drop 4 l))); c_lflag := low_half (c_lflag t) (le_num (take 2 (drop 6 l)));
     c_line := default 0 (l !! 8%nat); c_cc := take NCC (drop 9 l) ++ drop NCC (c_cc t); c_pad := c_pad t;
     pgrp := pgrp t; stopped := stopped t; read_q := read_q t; write_q := write_q t; secondary := secondary t |}.

Definition set_pgrp (v : Z) (t : tty_struct) : tty_struct :=
  {| c_iflag := c_iflag t; c_oflag := c_oflag t; c_cflag := c_cflag t; c_lflag := c_lflag t;
     c_line := c_line t; c_cc := c_cc t; c_pad := c_pad t; pgrp := v; stopped := stopped t;
     read_q := read_q t; write_q := write_q t; secondary := secondary t |}.

Section ioctl.
Context {KS : KernelSvc}.

(** The byte of the kernel stack behind [tmp_termio]'s members. *)
Context (stack_byte : Z).

(** [for (i=0 ; i<n ; i++) put_fs_byte(p[i], i+to)] and its counterpart. *)
Definition put_fs_bytes (l : list Z) (to : Z) : M pstate unit :=
  for_loop (length l) 0 (fun i => put_fs_byte (l !!! Z.to_nat i) (i + to)).
Fixpoint get_fs_bytes (n : nat) (from : Z) : M pstate (list Z) :=
  match n with
  | O => mret []
  | S n' => b ← get_fs_byte from; l ← get_fs_bytes n' (from + 1); mret (b :: l)
  end.

Definition flush (q : tty_queue) : tty_queue :=
  {| q_data := q_data q; head := tail q; tail := tail q; proc_list := proc_list q; buf := buf q |}.
Definition wait_until_sent : M tstate unit := mret tt.
Definition send_break : M tstate unit := mret tt.

Definition get_termios (termios : Z) : M tstate Z :=
  _ ← lift_ps (verify_area termios (Z.of_nat sizeof_termios));
  t ← gets t_tty;
  _ ← lift_ps (put_fs_bytes (termios_bytes t) termios);
  mret 0.

Definition set_termios (termios : Z) : M tstate Z :=
  l ← lift_ps (get_fs_bytes sizeof_termios termios);
  _ ← on_tty (set_termios_bytes l);
  mret 0.

Definition get_termio (termio : Z) : M tstate Z :=
  _ ← lift_ps (verify_area termio (Z.of_nat sizeof_termio));
  t ← gets t_tty;
  _ ← lift_ps (put_fs_bytes (termio_bytes stack_byte t) termio);
  mret 0.

Definition set_termio (termio : Z) : M tstate Z :=
  l ← lift_ps (get_fs_bytes sizeof_termio termio);
  _ ← on_tty (set_termio_bytes l);
  mret 0.

Definition flush_read : M tstate unit := on_tty (fun t => set_read_q (flush (read_q t)) t).
Definition flush_write : M tstate unit := on_tty (fun t => set_write_q (flush (write_q t)) t).

(** The [switch (cmd)], on the terminal. *)
Definition ioctl_request (cmd arg : Z) : M tstate Z :=
  if cmd =? TCGETS then get_termios arg
  else if cmd =? TCSETSF then _ ← flush_read; _ ← wait_until_sent; set_termios arg
  else if cmd =? TCSETSW then _ ← wait_until_sent; set_termios arg
  else if cmd =? TCSETS then set_termios arg
  else if cmd =? TCGETA then get_termio arg
  else if cmd =? TCSETAF then _ ← flush_read; _ ← wait_until_sent; set_termio arg
  else if cmd =? TCSETAW then _ ← wait_until_sent; set_termio arg
  else if cmd =? TCSETA then set_termio arg
  else if cmd =? TCSBRK then
    _ ← when (arg =? 0) (_ ← wait_until_sent; send_break);
    mret 0
  else if cmd =? TCFLSH then
    if arg =? 0 then _ ← flush_read; mret 0
    else if arg =? 1 then _ ← flush_write; mret 0
    else if arg =? 2 then _ ← flush_read; _ ← flush_write; mret 0
    else mret (- EINVAL)
  else if cmd =? TIOCGPGRP then
    _ ← lift_ps (verify_area arg 4);
    t ← gets t_tty;
    _ ← lift_ps (put_fs_long (pgrp t) arg);
    mret 0
  else if cmd =? TIOCSPGRP then
    v ← lift_ps (get_fs_long arg);
    _ ← on_tty (set_pgrp (s32 v));
    mret 0
  else if cmd =? TIOCOUTQ then
    _ ← lift_ps (verify_area arg 4);
    t ← gets t_tty;
    _ ← lift_ps (put_fs_long (CHARS (write_q t)) arg);
    mret 0
  else mret (- EINVAL).

Definition tty_ioctl (dev cmd arg : Z) : M ttys Z :=
  dev ← (if MAJOR dev =? 5 then
           d ← y_proc (cur_get T_tty);
           _ ← when (d <? 0) (panic "tty_ioctl: dev<0");
           mret d
         else mret (MINOR dev));
  on_channel dev (ioctl_request cmd arg).

(** ** Lemmas *)

Definition bytes (l : list Z) : Prop := Forall (fun b => 0 <= b < 256) l.

Lemma le_bytes_num l : bytes l -> le_bytes (length l) (le_num l) = l.
Proof.
  induction 1 as [| b l Hb _ IH]; [done |]. cbn [length le_num le_bytes].
  replace (u8 (b + 256 * le_num l)) with b by wrap_lia.
  replace ((b + 256 * le_num l) / 256) with (le_num l) by (Z.div_mod_to_equations; lia). by rewrite IH.
Qed.

Lemma le_num_range l : bytes l -> 0 <= le_num l < 256 ^ Z.of_nat (length l).
Proof.
  induction 1 as [| b l Hb _ IH]; [done |]. cbn [length le_num].
  rewrite Nat2Z.inj_succ, Z.pow_succ_r by lia. lia.
Qed.

Lemma bytes_load m a n : bytes (load_bytes m a n).
Proof. revert a; induction n as [| n IH]; intros a; constructor; [apply load8_range | apply IH]. Qed.

Lemma get_fs_bytes_run n a p : get_fs_bytes n a p = Done (load_bytes (umem p) a n) p.
Proof.
  revert a; induction n as [| n IH]; intros a; [done |]. cbn [get_fs_bytes load_bytes].
  rewrite (bind_Done _ _ p (load8 (umem p) a) p) by done. by rewrite (bind_Done _ _ _ _ _ (IH (a + 1))).
Qed.

Lemma put_fs_loop l1 l2 to p :
  for_loop (length l2) (Z.of_nat (length l1)) (fun i => put_fs_byte ((l1 ++ l2) !!! Z.to_nat i) (i + to)) p =
  Done tt (set_umem (store_bytes (umem p) (Z.of_nat (length l1) + to) l2) p).
Proof.
  revert l1 p; induction l2 as [| c l2 IH]; intros l1 p; [by destruct p |]. cbn [length for_loop store_bytes].
  rewrite Nat2Z.id, lookup_total_app_r, Nat.sub_diag by lia.
  rewrite (bind_Done _ _ p tt (set_umem (store8 (umem p) (Z.of_nat (length l1) + to) c) p)) by done.
  pose proof (IH (l1 ++ [c]) (set_umem (store8 (umem p) (Z.of_nat (length l1) + to) c) p)) as H.
  rewrite <- app_assoc, length_app in H. cbn [app length] in H.
  replace (Z.of_nat (length l1 + 1)) with (Z.of_nat (length l1) + 1) in H by lia.
  rewrite H. by replace (Z.of_nat (length l1) + 1 + to) with (Z.of_nat (length l1) + to + 1) by lia.
Qed.

Lemma put_fs_bytes_run l to p :
  put_fs_bytes l to p = Done tt (set_umem (store_bytes (umem p) to l) p).
Proof. apply (put_fs_loop [] l). Qed.

Lemma termios_bytes_set l t :
  length l = sizeof_termios -> bytes l -> termios_bytes (set_termios_bytes l t) = l.
Proof.
  intros Hl Hb. unfold sizeof_termios in Hl. unfold termios_bytes, set_termios_bytes.
  cbn [c_iflag c_oflag c_cflag c_lflag c_line c_cc c_pad].
  assert (H4 : forall k, (k + 4 <= 36)%nat -> le_bytes 4 (le_num (take 4 (drop k l))) = take 4 (drop k l)).
  { intros k Hk. rewrite <- (le_bytes_num (take 4 (drop k l))) at 2 by (by apply Forall_take, Forall_drop).
    f_equal. rewrite length_take, length_drop. lia. }
  pose proof (H4 0%nat ltac:(lia)) as H0. change (drop 0 l) with l in H0. rewrite H0, !H4 by lia. clear H0 H4 Hb.
  do 36 (destruct l as [| ? l]; [done |]). by destruct l.
Qed.

Lemma termio_bytes_set pad l t :
  length l = sizeof_termio -> bytes l -> termio_bytes pad (set_termio_bytes l t) = take 17 l ++ [pad].
Proof.
  intros Hl Hb. unfold sizeof_termio in Hl. unfold termio_bytes, set_termio_bytes.
  cbn [c_iflag c_oflag c_cflag c_lflag c_line c_cc c_pad].
  assert (H2 : forall k x, (k + 2 <= 18)%nat -> le_bytes 2 (low_half x (le_num (take 2 (drop k l)))) = take 2 (drop k l)).
  { intros k x Hk. set (w := take 2 (drop k l)). assert (Hw : bytes w) by (by apply Forall_take, Forall_drop).
    assert (Hlw : length w = 2%nat) by (unfold w; rewrite length_take, length_drop; lia).
    pose proof (le_num_range w Hw) as Hr. rewrite Hlw in Hr. rewrite <- (le_bytes_num w Hw) at 2. rewrite Hlw.
    cbn [le_bytes]. unfold low_half. change (256 ^ Z.of_nat 2) with 65536 in Hr.
    f_equal; [wrap_lia |]. f_equal. wrap_lia. }
  pose proof (fun x => H2 0%nat x ltac:(lia)) as H0. change (drop 0 l) with l in H0. rewrite H0, !H2 by lia. clear H0 H2 Hb.
  do 18 (destruct l as [| ? l]; [done |]). by destruct l.
Qed.

(** The terminal with the bytes [l] for its modes. *)
Definition with_modes (l : list Z) (v : tstate) : tstate := set_t_tty (set_termios_bytes l (t_tty v)) v.

Lemma only_changed_store_bytes m a l :
  0 <= a -> a + Z.of_nat (length l) <= 2 ^ 32 -> only_changed m (store_bytes m a l) a (Z.of_nat (length l)).
Proof. intros H0 H1 x Hx Hout. rewrite load8_store_bytes by done. by rewrite decide_False. Qed.

(** C21: The modes of a terminal survive the trip through user memory: the 36
    bytes that [TCSETS] takes from [src] are the terminal's [struct termios],
    byte for byte, and [TCGETS] puts the same bytes at [dst] and changes no other
    byte; [TCSETSF] differs by the characters that wait in the read queue, which
    it throws away. *)
Theorem termios_roundtrip v src dst :
  0 <= dst -> dst + 36 <= 2 ^ 32 ->
  let l := load_bytes (umem (t_ps v)) src 36 in
  verify_area dst 36 (t_ps v) = Done tt (t_ps v) ->
  ioctl_request TCSETS src v = Done 0 (with_modes l v) /\
  ioctl_request TCSETSF src v =
    Done 0 (with_modes l (set_t_tty (set_read_q (flush (read_q (t_tty v))) (t_tty v)) v)) /\
  termios_bytes (t_tty (with_modes l v)) = l /\
  exists m, ioctl_request TCGETS dst (with_modes l v) = Done 0 (set_t_ps (set_umem m (t_ps v)) (with_modes l v)) /\
    load_bytes m dst 36 = l /\ only_changed (umem (t_ps v)) m dst 36.
Proof.
  intros H0 H1 l Hv. assert (Hl : length l = sizeof_termios) by apply length_load_bytes.
  assert (Hb : bytes l) by apply bytes_load.
  assert (Hset : forall w, t_ps w = t_ps v -> set_termios src w = Done 0 (with_modes l w)).
  { intros w E. unfold set_termios. rewrite (bind_Done _ _ w l w); [done |].
    unfold lift_ps. rewrite get_fs_bytes_run, E. by destruct w; cbn in *; subst. }
  split; [by apply Hset |]. split.
  { change (ioctl_request TCSETSF src) with (_ ← flush_read; _ ← wait_until_sent; set_termios src).
    rewrite (bind_Done flush_read _ v tt (set_t_tty (set_read_q (flush (read_q (t_tty v))) (t_tty v)) v)) by done.
    rewrite (bind_Done wait_until_sent _ _ tt (set_t_tty (set_read_q (flush (read_q (t_tty v))) (t_tty v)) v)) by done.
    by apply Hset. }
  split; [by apply termios_bytes_set |]. exists (store_bytes (umem (t_ps v)) dst l). split; [| split].
  - change (ioctl_request TCGETS dst) with (get_termios dst). unfold get_termios.
    rewrite (bind_Done _ _ (with_modes l v) tt (with_modes l v)).
    2: { unfold lift_ps. change (t_ps (with_modes l v)) with (t_ps v). change (Z.of_nat sizeof_termios) with 36.
         by rewrite Hv. }
    rewrite (bind_Done (gets t_tty) _ _ (t_tty (with_modes l v)) (with_modes l v)) by done.
    change (t_tty (with_modes l v)) with (set_termios_bytes l (t_tty v)). rewrite termios_bytes_set by done.
    rewrite (bind_Done _ _ (with_modes l v) tt (set_t_ps (set_umem (store_bytes (umem (t_ps v)) dst l) (t_ps v)) (with_modes l v)));
      [done |]. unfold lift_ps. by rewrite put_fs_bytes_run.
  - clearbody l. change 36%nat with sizeof_termios. rewrite <- Hl. apply load_bytes_store_bytes_eq; [done | rewrite Hl; change (Z.of_nat sizeof_termios) with 36; lia | done].
  - clearbody l. change 36 with (Z.of_nat sizeof_termios). rewrite <- Hl. apply only_changed_store_bytes; [done | rewrite Hl; change (Z.of_nat sizeof_termios) with 36; lia].
Qed.
End ioctl.

(** The console's modes, changed to raw, by a task with one page of data; the
    pages are there to be written. *)
Definition ioctl_svc : KernelSvc :=
  {| svc_write_verify := fun _ => mret tt; svc_get_free_page := mret 0; svc_free_page := fun _ => mret tt;
     svc_copy_page_tables := fun _ _ _ => mret 0; svc_free_page_tables := fun _ _ => mret 0;
     svc_get_limit := fun _ => mret 0; svc_sys_close := fun _ => mret 0; svc_iput := fun _ => mret tt;
     svc_file_ref := fun _ => mret tt; svc_inode_ref := fun _ => mret tt; svc_tty_clear_pgrp := fun _ => mret tt;
     svc_set_tss_desc := fun _ _ => mret tt; svc_set_ldt_desc := fun _ _ => mret tt; svc_fnsave := fun _ => mret 0 |}.

Definition raw_modes : list Z := [0; 1; 0; 0; 5; 0; 0; 0; 0; 0; 0; 0; 0; 0; 0; 0; 0] ++ INIT_C_CC ++ [7; 7].
Definition ioctl_demo : tstate :=
  set_t_ps (set_umem (store_bytes ∅ 100 raw_modes) (demo_table [2000] {[2000 := mk_task 2 9 15]} 2000)) (tty_demo []).

Lemma termios_roundtrip_witness :
  load_bytes (umem (t_ps ioctl_demo)) 100 36 = raw_modes /\
  exists v1 m, @ioctl_request ioctl_svc 0 TCSETS 100 ioctl_demo = Done 0 v1 /\
    @ioctl_request ioctl_svc 0 TCGETS 200 v1 = Done 0 (set_t_ps (set_umem m (t_ps ioctl_demo)) v1) /\
    load_bytes m 200 36 = raw_modes.
Proof.
  assert (E : load_bytes (umem (t_ps ioctl_demo)) 100 36 = raw_modes) by (vm_compute; reflexivity).
  split; [exact E |].
  destruct (@termios_roundtrip ioctl_svc 0 ioctl_demo 100 200) as (H1 & _ & _ & m & H2 & H3 & _);
    [lia | lia | reflexivity |].
  rewrite E in H3. by exists (with_modes (load_bytes (umem (t_ps ioctl_demo)) 100 36) ioctl_demo), m.
Defined.
