(* ===== verification/Traps.v ===== *)
(** * Traps: gates and exceptions

    The descriptor macros of src/linux-0.01/include/asm/system.h, the handlers of
    src/linux-0.01/kernel/traps.c and the parts of the boot that install gates:
    [trap_init] (traps.c), [sched_init] (sched.c), [rs_init] (serial.c) and
    [con_init] (console.c). Tables and stacks are kernel memory; entry points of
    the assembly and what the processor's registers hold are an interface. *)

From S2P Require Import Prelude Mem Proc Sched Exit FsState Console Tty TtyIo.

(** Addresses the linker gives: the tables, the task structure of task 0 and the
    entry points in asm.s, page.s, system_call.s, keyboard.s and rs_io.s; and the
    values of the processor's that the handlers print. *)
Class Processor : Type := {
  idt : Z; gdt : Z; init_task_tss : Z; init_task_ldt : Z;
  divide_error : Z; debug : Z; nmi : Z; int3 : Z; overflow : Z; bounds : Z; invalid_op : Z;
  device_not_available : Z; double_fault : Z; coprocessor_segment_overrun : Z; invalid_TSS : Z;
  segment_not_present : Z; stack_segment : Z; general_protection : Z; page_fault : Z; reserved : Z;
  coprocessor_error : Z; timer_interrupt : Z; system_call : Z; keyboard_interrupt : Z;
  rs1_interrupt : Z; rs2_interrupt : Z;
  fs_register : Z; task_register : Z;
  get_seg_long : Z -> Z -> fstate -> Z; get_seg_byte : Z -> Z -> fstate -> Z;
  port_value : list (Z * Z) -> Z -> Z     (** what a port reads after these writes *)
}.

(** ** Descriptors *)

(** [_set_gate]: two words, put together in %eax and %edx. *)
Definition gate_words (type dpl addr : Z) : Z * Z :=
  (0x00080000 + u16 addr, u32 addr - u16 addr + u16 (0x8000 + Z.shiftl dpl 13 + Z.shiftl type 8)).
Definition _set_gate (gate_addr type dpl addr : Z) (m : memory) : memory :=
  let '(a, d) := gate_words type dpl addr in store32 (store32 m gate_addr a) (4 + gate_addr) d.

(** [_set_tssldt_desc]: the bytes of a descriptor. *)
Definition _set_tssldt_desc (n addr type : Z) (m : memory) : memory :=
  let m := store16 m n 104 in
  let m := store16 m (n + 2) (u16 addr) in
  let m := store8 m (n + 4) (u32 addr / 65536 mod 256) in
  let m := store8 m (n + 5) type in
  let m := store8 m (n + 6) 0 in
  store8 m (n + 7) (u32 addr / 16777216).
Definition set_tss_desc (n addr : Z) : memory -> memory := _set_tssldt_desc n addr 0x89.
Definition set_ldt_desc (n addr : Z) : memory -> memory := _set_tssldt_desc n addr 0x82.

Definition FIRST_TSS_ENTRY : Z := 4.
Definition FIRST_LDT_ENTRY : Z := FIRST_TSS_ENTRY + 1.
Definition _TSS (n : Z) : Z := Z.shiftl n 4 + Z.shiftl FIRST_TSS_ENTRY 3.
Definition _LDT (n : Z) : Z := Z.shiftl n 4 + Z.shiftl FIRST_LDT_ENTRY 3.

(** ** The state of the boot *)

Record bstate : Type := {
  b_fs : fstate; b_con : console; b_tab : list tty_struct;
  b_out : list (Z * Z);        (** values written to ports, the last one first *)
  b_tr : Z; b_ldtr : Z
}.
Definition set_b_fs (f : fstate) (s : bstate) : bstate :=
  {| b_fs := f; b_con := b_con s; b_tab := b_tab s; b_out := b_out s; b_tr := b_tr s; b_ldtr := b_ldtr s |}.
Definition set_b_con (k : console) (s : bstate) : bstate :=
  {| b_fs := b_fs s; b_con := k; b_tab := b_tab s; b_out := b_out s; b_tr := b_tr s; b_ldtr := b_ldtr s |}.
Definition set_b_out (l : list (Z * Z)) (s : bstate) : bstate :=
  {| b_fs := b_fs s; b_con := b_con s; b_tab := b_tab s; b_out := l; b_tr := b_tr s; b_ldtr := b_ldtr s |}.
Definition set_b_regs (tr ldtr : Z) (s : bstate) : bstate :=
  {| b_fs := b_fs s; b_con := b_con s; b_tab := b_tab s; b_out := b_out s; b_tr := tr; b_ldtr := ldtr |}.

Definition on_ram (f : memory -> memory) : M bstate unit :=
  modify (fun s => set_b_fs (set_kmem (f (kmem (b_fs s))) (b_fs s)) s).
Definition boot_outb (value port : Z) : M bstate unit := modify (fun s => set_b_out ((u8 value, port) :: b_out s) s).

Section traps.
Context {CPU : Processor}.

Definition boot_inb (port : Z) : M bstate Z := gets (fun s => u8 (port_value (b_out s) port)).

Definition set_intr_gate (n addr : Z) : memory -> memory := _set_gate (idt + 8 * n) 14 0 addr.
Definition set_trap_gate (n addr : Z) : memory -> memory := _set_gate (idt + 8 * n) 15 0 addr.
Definition set_system_gate (n addr : Z) : memory -> memory := _set_gate (idt + 8 * n) 15 3 addr.

Definition trap_init : M bstate unit :=
  _ ← on_ram (set_trap_gate 0 divide_error);
  _ ← on_ram (set_trap_gate 1 debug);
  _ ← on_ram (set_trap_gate 2 nmi);
  _ ← on_ram (set_system_gate 3 int3);
  _ ← on_ram (set_system_gate 4 overflow);
  _ ← on_ram (set_system_gate 5 bounds);
  _ ← on_ram (set_trap_gate 6 invalid_op);
  _ ← on_ram (set_trap_gate 7 device_not_available);
  _ ← on_ram (set_trap_gate 8 double_fault);
  _ ← on_ram (set_trap_gate 9 coprocessor_segment_overrun);
  _ ← on_ram (set_trap_gate 10 invalid_TSS);
  _ ← on_ram (set_trap_gate 11 segment_not_present);
  _ ← on_ram (set_trap_gate 12 stack_segment);
  _ ← on_ram (set_trap_gate 13 general_protection);
  _ ← on_ram (set_trap_gate 14 page_fault);
  _ ← on_ram (set_trap_gate 15 reserved);
  _ ← on_ram (set_trap_gate 16 coprocessor_error);
  for_loop 15 17 (fun i => on_ram (set_trap_gate i reserved)).

(** LATCH: 1193180 / HZ. *)
Definition LATCH : Z := 1193180 / HZ.

Definition clear_task (i : Z) : M bstate unit :=
  _ ← modify (fun s => set_b_fs (set_fps (set_task (<[Z.to_nat i := 0]> (task (fps (b_fs s)))) (fps (b_fs s))) (b_fs s)) s);
  let p := gdt + 8 * (2 + FIRST_TSS_ENTRY) + 16 * (i - 1) in
  _ ← on_ram (fun m => store32 (store32 m (p + 4) 0) p 0);
  on_ram (fun m => store32 (store32 m (p + 12) 0) (p + 8) 0).

Definition sched_init : M bstate unit :=
  _ ← on_ram (set_tss_desc (gdt + 8 * FIRST_TSS_ENTRY) init_task_tss);
  _ ← on_ram (set_ldt_desc (gdt + 8 * FIRST_LDT_ENTRY) init_task_ldt);
  _ ← for_loop 63 1 clear_task;
  _ ← modify (set_b_regs (_TSS 0) (_LDT 0));
  _ ← boot_outb 0x36 0x43;
  _ ← boot_outb (Z.land LATCH 0xff) 0x40;
  _ ← boot_outb (Z.shiftr LATCH 8) 0x40;
  _ ← on_ram (set_intr_gate 0x20 timer_interrupt);
  v ← boot_inb 0x21;
  _ ← boot_outb (Z.land v (Z.lnot 0x01)) 0x21;
  on_ram (set_system_gate 0x80 system_call).

(** serial.c: [init(port)]. *)
Definition rs_port_init (port : Z) : M bstate unit :=
  _ ← boot_outb 0x80 (port + 3);
  _ ← boot_outb 0x30 port;
  _ ← boot_outb 0x00 (port + 1);
  _ ← boot_outb 0x03 (port + 3);
  _ ← boot_outb 0x0b (port + 4);
  _ ← boot_outb 0x0d (port + 1);
  _ ← boot_inb port;
  mret tt.

Definition rs_init : M bstate unit :=
  _ ← on_ram (set_intr_gate 0x24 rs1_interrupt);
  _ ← on_ram (set_intr_gate 0x23 rs2_interrupt);
  t1 ← get_opt "tty_table" (fun s => b_tab s !! 1%nat);
  _ ← rs_port_init (q_data (read_q t1));
  t2 ← get_opt "tty_table" (fun s => b_tab s !! 2%nat);
  _ ← rs_port_init (q_data (read_q t2));
  v ← boot_inb 0x21;
  boot_outb (Z.land v 0xE7) 0x21.

(** The position the loader found is at 0x90000 + 510. *)
Definition con_init : M bstate unit :=
  x ← gets (fun s => load8 (kmem (b_fs s)) (0x90000 + 510));
  y ← gets (fun s => load8 (kmem (b_fs s)) (0x90000 + 511));
  _ ← modify (fun s => set_b_con (gotoxy x y (b_con s)) s);
  _ ← on_ram (set_trap_gate 0x21 keyboard_interrupt);
  v ← boot_inb 0x21;
  _ ← boot_outb (Z.land v 0xfd) 0x21;
  a ← boot_inb 0x61;
  _ ← boot_outb (Z.lor a 0x80) 0x61;
  boot_outb a 0x61.

Definition tty_init : M bstate unit := _ ← rs_init; con_init.

(** ** serial.c: output *)

(** [rs_write]: the transmitter interrupts when there is something to send. *)
Definition rs_write_ports (t : tty_struct) (out : list (Z * Z)) : list (Z * Z) :=
  if EMPTY (write_q t) then out
  else
    let port := q_data (write_q t) + 1 in
    (Z.lor (u8 (port_value out port)) 0x02, port) :: out.

(** ** Exceptions *)

Context {KS : KernelSvc}.

(** [esp_ptr] points to what the processor pushed. The messages stand in the log
    with a blank for each tab or newline. *)
Definition die (str : string) (esp_ptr nr : Z) : M fstate unit :=
  _ ← fs_printk (str ++ ": %04x") [Z.land nr 0xffff];
  e0 ← kload32 esp_ptr;
  e1 ← kload32 (esp_ptr + 4);
  e2 ← kload32 (esp_ptr + 8);
  e3 ← kload32 (esp_ptr + 12);
  e4 ← kload32 (esp_ptr + 16);
  _ ← fs_printk "EIP: %04x:%p EFLAGS: %p ESP: %04x:%p" [e1; e0; e2; e4; e3];
  _ ← fs_printk "fs: %04x" [fs_register];
  b ← on_ps (cur_get (T_ldt_base 1));
  l ← on_ps (svc_get_limit 0x17);
  _ ← fs_printk "base: %p, limit: %p" [b; l];
  _ ← when (e4 =? 0x17)
        (_ ← fs_printk "Stack: " [];
         _ ← for_loop 4 0 (fun i => v ← gets (get_seg_long 0x17 (e3 + 4 * i)); fs_printk "%p " [v]);
         fs_printk "" []);
  pid ← on_ps (cur_get T_pid);
  _ ← fs_printk "Pid: %d, process nr: %d"
        [pid; Z.land 0xffff (Z.shiftr (u32 (task_register - Z.shiftl FIRST_TSS_ENTRY 3)) 4)];
  _ ← for_loop 10 0 (fun i => v ← gets (get_seg_byte e1 (e0 + i)); fs_printk "%02x " [Z.land 0xff v]);
  _ ← fs_printk "" [];
  on_ps (do_exit 11).

Definition do_double_fault (esp error_code : Z) : M fstate unit := die "double fault" esp error_code.
Definition do_general_protection (esp error_code : Z) : M fstate unit := die "general protection" esp error_code.
Definition do_divide_error (esp error_code : Z) : M fstate unit := die "divide error" esp error_code.
Definition do_int3 (esp fs es ds ebp esi edi edx ecx ebx eax : Z) : M fstate unit :=
  _ ← fs_printk "eax ebx ecx edx %8x %8x %8x %8x" [eax; ebx; ecx; edx];
  _ ← fs_printk "esi edi ebp esp %8x %8x %8x %8x" [esi; edi; ebp; esp];
  _ ← fs_printk "ds es fs tr %4x %4x %4x %4x" [ds; es; fs; task_register];
  e0 ← kload32 esp;
  e1 ← kload32 (esp + 4);
  e2 ← kload32 (esp + 8);
  fs_printk "EIP: %8x CS: %4x EFLAGS: %8x" [e0; e1; e2].
Definition do_nmi (esp error_code : Z) : M fstate unit := die "nmi" esp error_code.
Definition do_debug (esp error_code : Z) : M fstate unit := die "debug" esp error_code.
Definition do_overflow (esp error_code : Z) : M fstate unit := die "overflow" esp error_code.
Definition do_bounds (esp error_code : Z) : M fstate unit := die "bounds" esp error_code.
Definition do_invalid_op (esp error_code : Z) : M fstate unit := die "invalid operand" esp error_code.
Definition do_device_not_available (esp error_code : Z) : M fstate unit := die "device not available" esp error_code.
Definition do_coprocessor_segment_overrun (esp error_code : Z) : M fstate unit :=
  die "coprocessor segment overrun" esp error_code.
Definition do_invalid_TSS (esp error_code : Z) : M fstate unit := die "invalid TSS" esp error_code.
Definition do_segment_not_present (esp error_code : Z) : M fstate unit := die "segment not present" esp error_code.
Definition do_stack_segment (esp error_code : Z) : M fstate unit := die "stack segment" esp error_code.
Definition do_coprocessor_error (esp error_code : Z) : M fstate unit := die "coprocessor error" esp error_code.
Definition do_reserved (esp error_code : Z) : M fstate unit := die "reserved (15,17-31) error" esp error_code.
End traps.

(** ** The gates a table holds *)

Record gate : Type := { g_offset : Z; g_selector : Z; g_type : Z; g_dpl : Z; g_present : bool }.

(** What the processor makes of the two words of a gate. *)
Definition decode_gate (a d : Z) : gate :=
  {| g_offset := a mod 65536 + 65536 * (d / 65536); g_selector := a / 65536; g_type := d / 256 mod 32;
     g_dpl := d / 8192 mod 4; g_present := d / 32768 mod 2 =? 1 |}.
Definition gate_at (m : memory) (table n : Z) : gate :=
  decode_gate (load32 m (table + 8 * n)) (load32 m (table + 8 * n + 4)).

Lemma decode_gate_words type dpl addr :
  0 <= type < 16 -> 0 <= dpl < 4 -> in_u32 addr ->
  let '(a, d) := gate_words type dpl addr in
  in_u32 a /\ in_u32 d /\
  decode_gate a d = {| g_offset := addr; g_selector := 8; g_type := type; g_dpl := dpl; g_present := true |}.
Proof.
  intros Ht Hd Ha. unfold gate_words. rewrite (u32_small addr) by done.
  rewrite !Z.shiftl_mul_pow2 by lia. change (2 ^ 13) with 8192. change (2 ^ 8) with 256.
  rewrite (u16_small (0x8000 + dpl * 8192 + type * 256)) by lia.
  unfold u16, in_u32 in *. set (k := 0x8000 + dpl * 8192 + type * 256).
  assert (Hk : k = 32768 + dpl * 8192 + type * 256) by done. clearbody k.
  split; [Z.div_mod_to_equations; lia |]. split; [Z.div_mod_to_equations; lia |].
  unfold decode_gate. f_equal; [Z.div_mod_to_equations; lia .. | apply Z.eqb_eq; Z.div_mod_to_equations; lia].
Qed.

Lemma set_gate_at m table n type dpl addr :
  0 <= type < 16 -> 0 <= dpl < 4 -> in_u32 addr -> 0 <= table -> 0 <= n < 256 -> table + 2048 <= 2 ^ 32 ->
  gate_at (_set_gate (table + 8 * n) type dpl addr m) table n =
    {| g_offset := addr; g_selector := 8; g_type := type; g_dpl := dpl; g_present := true |}.
Proof.
  intros Ht Hd Ha H0 Hn H1. unfold _set_gate, gate_at. pose proof (decode_gate_words type dpl addr Ht Hd Ha) as H.
  destruct (gate_words type dpl addr) as [a d]. destruct H as (Hwa & Hwd & H).
  rewrite (Z.add_comm 4). rewrite load32_store32_ne by (unfold disjoint; lia). rewrite !load32_store32_eq.
  by rewrite !u32_small.
Qed.

Lemma set_gate_changes m table n type dpl addr :
  0 <= table -> 0 <= n < 256 -> table + 2048 <= 2 ^ 32 ->
  only_changed m (_set_gate (table + 8 * n) type dpl addr m) (table + 8 * n) 8.
Proof.
  intros H0 Hn H1. unfold _set_gate. destruct (gate_words type dpl addr) as [a d].
  apply (only_changed_trans _ (store32 m (table + 8 * n) a));
    (eapply only_changed_weaken; [apply only_changed_store32 | |]); lia.
Qed.

Lemma gate_at_other m m' table n k :
  only_changed m m' (table + 8 * k) 8 -> 0 <= table -> 0 <= n < 256 -> 0 <= k < 256 -> n <> k -> table + 2048 <= 2 ^ 32 ->
  gate_at m' table n = gate_at m table n.
Proof.
  intros Hm H0 Hn Hk Hne H1. unfold gate_at. by rewrite !(load32_only_changed m m' _ _ _ Hm) by (unfold disjoint; lia).
Qed.

(** Trap gates for the entries [l], a handler and a privilege each, from vector [k] on. *)
Fixpoint gates_from (table k : Z) (l : list (Z * Z)) (m : memory) : memory :=
  match l with
  | [] => m
  | (h, dpl) :: l' => gates_from table (k + 1) l' (_set_gate (table + 8 * k) 15 dpl h m)
  end.

Definition trap_gate (e : Z * Z) : gate :=
  {| g_offset := e.1; g_selector := 8; g_type := 15; g_dpl := e.2; g_present := true |}.

Lemma gates_from_at table l : forall k m,
  0 <= table -> table + 2048 <= 2 ^ 32 -> 0 <= k -> k + Z.of_nat (length l) <= 256 ->
  Forall (fun e => in_u32 e.1 /\ 0 <= e.2 < 4) l ->
  only_changed m (gates_from table k l m) (table + 8 * k) (8 * Z.of_nat (length l)) /\
  forall i e, l !! i = Some e -> gate_at (gates_from table k l m) table (k + Z.of_nat i) = trap_gate e.
Proof.
  induction l as [| [h dpl] l IH]; intros k m H0 H1 Hk Hl HF; [split; [apply only_changed_refl | done] |].
  cbn [length gates_from] in *. apply Forall_cons in HF as [[Hh Hd] HF]. cbn [fst snd] in *.
  destruct (IH (k + 1) (_set_gate (table + 8 * k) 15 dpl h m)) as [Hc Hg]; [done | done | lia | lia | done |].
  split.
  - apply (only_changed_trans _ (_set_gate (table + 8 * k) 15 dpl h m)).
    + eapply only_changed_weaken; [apply set_gate_changes | |]; lia.
    + eapply only_changed_weaken; [exact Hc | |]; lia.
  - intros [| i] e Hi; cbn in Hi.
    + injection Hi as <-. rewrite Z.add_0_r. unfold trap_gate. cbn [fst snd].
      rewrite <- (set_gate_at m table k 15 dpl h) by (done || lia). unfold gate_at.
      rewrite !(load32_only_changed _ _ _ _ _ Hc) by (unfold disjoint; lia). done.
    + rewrite <- (Hg i e Hi). f_equal. lia.
Qed.

Section boot.
Context {CPU : Processor}.

(** The processor's exceptions: handler and lowest privilege that may call it. *)
Definition exceptions : list (Z * Z) :=
  [(divide_error, 0); (debug, 0); (nmi, 0); (int3, 3); (overflow, 3); (bounds, 3); (invalid_op, 0);
   (device_not_available, 0); (double_fault, 0); (coprocessor_segment_overrun, 0); (invalid_TSS, 0);
   (segment_not_present, 0); (stack_segment, 0); (general_protection, 0); (page_fault, 0); (reserved, 0);
   (coprocessor_error, 0)] ++ replicate 15 (reserved, 0).

(** After [trap_init] each of the 32 exceptions of the processor has a gate
    that is present, in the kernel's code segment, with the address of its
    handler whole, and a privilege that lets user programs raise the breakpoint,
    overflow and bounds exceptions by an instruction, and no other. No byte
    outside these 32 gates changes. *)
Theorem trap_init_correct s :
  0 <= idt -> idt + 2048 <= 2 ^ 32 -> Forall (fun e => in_u32 e.1) exceptions ->
  exists m, trap_init s = Done tt (set_b_fs (set_kmem m (b_fs s)) s) /\
    only_changed (kmem (b_fs s)) m idt 256 /\
    forall n, 0 <= n < 32 -> exists e, exceptions !! Z.to_nat n = Some e /\ gate_at m idt n = trap_gate e.
Proof.
  intros H0 H1 Hh. exists (gates_from idt 0 exceptions (kmem (b_fs s))).
  destruct (gates_from_at idt exceptions 0 (kmem (b_fs s))) as [Hc Hg]; [done | done | lia | by vm_compute | |].
  { apply Forall_and. split; [exact Hh |]. unfold exceptions. cbn [app replicate].
    repeat (apply Forall_cons; split; [cbn; lia |]). apply Forall_nil. done. }
  split; [reflexivity |]. split.
  - eapply only_changed_weaken; [exact Hc | |]; change (Z.of_nat (length exceptions)) with 32; lia.
  - intros n Hn. destruct (lookup_lt_is_Some_2 exceptions (Z.to_nat n)) as [e He].
    { change (length exceptions) with 32%nat. lia. }
    exists e. split; [done |]. rewrite <- (Hg _ _ He). f_equal. lia.
Qed.
End boot.

(** Handlers of 16 bytes each from 0x6000 on, the table at 0x54B8. *)
#[local] Instance demo_processor : Processor := {|
  idt := 0x54B8; gdt := 0x5CB8; init_task_tss := 0x12000; init_task_ldt := 0x12080;
  divide_error := 0x6000; debug := 0x6010; nmi := 0x6020; int3 := 0x6030; overflow := 0x6040; bounds := 0x6050;
  invalid_op := 0x6060; device_not_available := 0x6070; double_fault := 0x6080; coprocessor_segment_overrun := 0x6090;
  invalid_TSS := 0x60A0; segment_not_present := 0x60B0; stack_segment := 0x60C0; general_protection := 0x60D0;
  page_fault := 0x60E0; reserved := 0x60F0; coprocessor_error := 0x6100; timer_interrupt := 0x6110;
  system_call := 0x6120; keyboard_interrupt := 0x6130; rs1_interrupt := 0x6140; rs2_interrupt := 0x6150;
  fs_register := 0x17; task_register := 0x20; get_seg_long := fun _ _ _ => 0; get_seg_byte := fun _ _ _ => 0;
  port_value := fun _ _ => 0xff |}.

Definition boot_demo : bstate :=
  {| b_fs := {| fps := demo_table [] ∅ 1000; cells := ∅; kmem := ∅; hash_table := []; free_list := 0; nr_buffers := 0;
                last_allocated_inode := 0; flog := []; fdisk := fun _ _ _ => 0; fpages := [] |};
     b_con := con_demo; b_tab := tty_table 0x20000; b_out := []; b_tr := 0; b_ldtr := 0 |}.

Lemma trap_init_witness :
  exists m, trap_init boot_demo = Done tt (set_b_fs (set_kmem m (b_fs boot_demo)) boot_demo) /\
    gate_at m 0x54B8 3 = {| g_offset := 0x6030; g_selector := 8; g_type := 15; g_dpl := 3; g_present := true |}.
Proof.
  destruct (trap_init_correct boot_demo) as (m & Hr & _ & Hg).
  - vm_bounds.
  - vm_bounds.
  - unfold exceptions. repeat (apply Forall_cons; split; [vm_bounds |]). apply Forall_nil. done.
  - exists m. split; [exact Hr |]. destruct (Hg 3) as (e & He & Hge); [lia |].
    injection He as <-. exact Hge.
Defined.
