(* ===== verification/Head.v ===== *)
(** * Head: the tables the kernel starts with

    The 32-bit start of src/linux-0.01/boot/head.s: the interrupt table with its
    default gates, the segment descriptors and the page tables, and the entry
    for page faults of src/linux-0.01/mm/page.s. *)

From S2P Require Import Prelude Mem Libc Vsprintf Mm Traps Cow.

(** ** Paging *)

Definition pg_dir : Z := 0.
Definition pg0 : Z := 0x1000.
Definition pg1 : Z := 0x2000.

(** [std; 1: stosl; subl $0x1000,%eax; jge 1b]. *)
Fixpoint fill_backwards (fuel : nat) (edi eax : Z) (m : memory) : memory :=
  match fuel with
  | O => m
  | S fuel' =>
      let m := store32 m edi eax in
      if 0x1000 <=? s32 eax then fill_backwards fuel' (edi - 4) (u32 (eax - 0x1000)) m else m
  end.

(** The memory, %cr3 and %cr0. *)
Definition setup_paging (cr0 : Z) (m : memory) : memory * Z * Z :=
  let m := memset m 0 0 (4 * (1024 * 3)) in
  let m := store32 m pg_dir (pg0 + 7) in
  let m := store32 m (pg_dir + 4) (pg1 + 7) in
  let m := fill_backwards 2048 (pg1 + 4092) 0x7ff007 m in
  (m, pg_dir, Z.lor cr0 0x80000000).

(** [_page_fault]. *)
Definition page_fault `{Exit} (error_code cr2 : Z) : M mstate unit :=
  if negb (Z.land error_code 1 =? 0) then do_wp_page error_code cr2 else do_no_page error_code cr2.

(** ** Segments and interrupts *)

(** [_gdt], as the two words of each descriptor. *)
Definition gdt_table : list (Z * Z) :=
  [(0, 0); (0x000007ff, 0x00c09a00); (0x000007ff, 0x00c09200); (0, 0)] ++ replicate 252 (0, 0).

(** [idt_descr] and [gdt_descr]. *)
Definition descr_limit : Z := 256 * 8 - 1.

(** [rp_sidt]: %edi and %ecx count up and down. *)
Fixpoint rp_sidt (ecx : nat) (edi eax edx : Z) (m : memory) : memory :=
  match ecx with
  | O => m
  | S ecx' => rp_sidt ecx' (edi + 8) eax edx (store32 (store32 m edi eax) (edi + 4) edx)
  end.

Definition setup_idt (idt ignore_int : Z) (m : memory) : memory :=
  let edx := u32 ignore_int in
  let eax := 0x00080000 in
  let eax := eax - u16 eax + u16 edx in
  let edx := edx - u16 edx + 0x8E00 in
  rp_sidt 256 idt eax edx m.

(** ** Lemmas *)

(** What the processor makes of a linear address, by the directory at 0. *)
Definition walk (m : memory) (a : Z) : option Z :=
  let d := load32 m (dir_entry_of a) in
  if present d then
    let e := load32 m (base d + 4 * Z.land (Z.shiftr a 12) 0x3ff) in
    if present e then Some (base e + a mod 4096) else None
  else None.

(** [fill_backwards] from entry [k] of the two tables, [n] rounds to go. *)
Lemma fill_backwards_run k : forall fuel m, (k < 2048)%nat -> (k < fuel)%nat ->
  let m' := fill_backwards fuel (pg0 + 4 * Z.of_nat k) (Z.of_nat k * 4096 + 7) m in
  (forall j, 0 <= j <= Z.of_nat k -> load32 m' (pg0 + 4 * j) = j * 4096 + 7) /\
  (forall x, in_u32 x -> ~ (pg0 <= x < pg0 + 4 * (Z.of_nat k + 1)) -> load8 m' x = load8 m x).
Proof.
  induction k as [| k IH]; intros [| fuel] m Hk Hf; try lia; cbn [fill_backwards].
  - rewrite s32_small by lia. rewrite (proj2 (Z.leb_gt 0x1000 _)) by lia. rewrite Z.mul_0_r, Z.add_0_r. split.
    { intros j Hj. assert (j = 0) as -> by lia. by rewrite Z.mul_0_r, Z.add_0_r, load32_store32_eq. }
    intros x Hx Hout. apply load8_store32_ne. unfold pg0, disjoint, in_u32 in *. lia.
  - rewrite s32_small by lia. rewrite (proj2 (Z.leb_le 0x1000 _)) by lia. rewrite u32_small by (unfold in_u32; lia).
    replace (pg0 + 4 * Z.of_nat (S k) - 4) with (pg0 + 4 * Z.of_nat k) by lia.
    replace (Z.of_nat (S k) * 4096 + 7 - 0x1000) with (Z.of_nat k * 4096 + 7) by lia.
    set (m1 := store32 _ _ _). destruct (IH fuel m1 ltac:(lia) ltac:(lia)) as [IH1 IH2]. unfold pg0 in *. split.
    + intros j Hj. destruct (decide (j = Z.of_nat (S k))) as [-> |]; [| apply IH1; lia].
      rewrite (load32_ext m1) by (try lia; intros x Hx; apply IH2; unfold in_u32; lia).
      unfold m1. rewrite load32_store32_eq. apply u32_small. unfold in_u32. lia.
    + intros x Hx Hout. rewrite IH2 by (done || lia). apply load8_store32_ne. unfold disjoint, in_u32 in *. lia.
Qed.

Lemma setup_paging_tables cr0 m :
  let m' := (setup_paging cr0 m).1.1 in
  (forall j, 0 <= j < 2048 -> load32 m' (pg0 + 4 * j) = j * 4096 + 7) /\
  load32 m' 0 = pg0 + 7 /\ load32 m' 4 = pg1 + 7 /\ (forall j, 2 <= j < 1024 -> load32 m' (4 * j) = 0) /\
  (forall x, 12288 <= x < 2 ^ 32 -> load8 m' x = load8 m x).
Proof.
  cbn [setup_paging fst]. set (m1 := memset m 0 0 (4 * (1024 * 3))). set (m2 := store32 m1 pg_dir (pg0 + 7)).
  set (m3 := store32 m2 (pg_dir + 4) (pg1 + 7)).
  replace (pg1 + 4092) with (pg0 + 4 * Z.of_nat 2047) by (unfold pg0, pg1; lia).
  replace 0x7ff007 with (Z.of_nat 2047 * 4096 + 7) by lia.
  destruct (fill_backwards_run 2047 2048 m3 ltac:(lia) ltac:(lia)) as [H1 H2]. set (m' := fill_backwards _ _ _ _) in *.
  assert (H0 : forall x, in_u32 x -> load8 m1 x = if decide (0 <= x < 12288) then 0 else load8 m x)
    by (intros x Hx; unfold m1; rewrite load8_memset by (done || lia); done).
  assert (Hw : forall a, 0 <= a -> a + 4 <= 4096 -> load32 m' a = load32 m3 a).
  { intros a Ha Hb. unfold pg0 in H2. apply load32_ext; [lia | lia |]. intros x Hx. apply H2; unfold in_u32; lia. }
  split; [intros j Hj; apply H1; lia |]. split; [| split; [| split]].
  - rewrite Hw by lia. unfold m3, m2, pg_dir. rewrite load32_store32_ne by (unfold disjoint; lia). by rewrite load32_store32_eq.
  - rewrite Hw by lia. unfold m3, pg_dir. by rewrite load32_store32_eq.
  - intros j Hj. rewrite Hw by lia. unfold m3, m2, pg_dir. rewrite !load32_store32_ne by (unfold disjoint; lia).
    unfold load32, load16. rewrite !H0 by (unfold in_u32; lia). by rewrite !decide_True by lia.
  - intros x Hx. unfold pg0 in H2. rewrite H2 by (unfold in_u32; lia). unfold m3, m2, pg_dir.
    rewrite !load8_store32_ne by (unfold disjoint; lia). rewrite H0 by (unfold in_u32; lia). by rewrite decide_False by lia.
Qed.

Lemma page_entry j f : 0 <= j < 2 ^ 20 -> 0 <= f < 4096 -> f mod 2 = 1 -> present (j * 4096 + f) = true /\ base (j * 4096 + f) = j * 4096.
Proof.
  intros Hj Hf Ho. unfold present, base. split.
  - rewrite Z.land_comm. change 1 with (Z.ones 1) at 1. rewrite Z.land_ones by lia. change (2 ^ 1) with 2.
    assert ((j * 4096 + f) mod 2 = 1) as -> by (Z.div_mod_to_equations; lia). done.
  - rewrite Z.land_comm, land_page_mask by (unfold in_u32; lia). Z.div_mod_to_equations; lia.
Qed.

Lemma dir_index a : 0 <= a < 2 ^ 32 -> dir_entry_of a = 4 * (a / 2 ^ 22).
Proof.
  intros Ha. unfold dir_entry_of. rewrite Z.shiftr_div_pow2 by lia.
  change 0xffc with (Z.shiftl (Z.ones (12 - 2)) 2). rewrite (land_high_mask _ 2 12) by (try lia; Z.div_mod_to_equations; lia).
  Z.div_mod_to_equations; lia.
Qed.

Lemma table_index a : 0 <= a < 2 ^ 32 -> Z.land (Z.shiftr a 12) 0x3ff = a / 4096 mod 1024.
Proof. intros Ha. rewrite Z.shiftr_div_pow2 by lia. change 0x3ff with (Z.ones 10). by rewrite Z.land_ones by lia. Qed.

(** C30: [setup_paging] turns paging on with the first 8 MB of memory where they
    are, each page there for the kernel and writable, and nothing else: a linear
    address below 0x800000 is the physical address with that number, one above
    it is no address. No byte of memory behind the three tables changes, so that
    the kernel goes on where it was. *)
Theorem setup_paging_correct cr0 m :
  let '(m', cr3, cr0') := setup_paging cr0 m in
  cr3 = 0 /\ Z.testbit cr0' 31 = true /\
  (forall a, 0 <= a < HIGH_MEMORY -> walk m' a = Some a) /\
  (forall a, HIGH_MEMORY <= a < 2 ^ 32 -> walk m' a = None) /\
  (forall k, 0 <= k < 2048 -> writable (load32 m' (pg0 + 4 * k)) = true) /\
  (forall x, 12288 <= x < 2 ^ 32 -> load8 m' x = load8 m x).
Proof.
  destruct (setup_paging_tables cr0 m) as (Ht & Hd0 & Hd1 & Hd & Hrest). set (m' := (setup_paging cr0 m).1.1) in *.
  assert (E : setup_paging cr0 m = (m', pg_dir, Z.lor cr0 0x80000000)) by reflexivity. rewrite E. clearbody m'. clear E.
  change HIGH_MEMORY with 0x800000.
  split; [done |]. split; [by rewrite Z.lor_spec, orb_true_r |]. split; [| split; [| split; [| done]]].
  - intros a Ha. unfold walk. rewrite dir_index, table_index by lia.
    assert (Hdir : load32 m' (4 * (a / 2 ^ 22)) = (1 + a / 2 ^ 22) * 4096 + 7).
    { assert (a / 2 ^ 22 = 0 \/ a / 2 ^ 22 = 1) as [-> | ->] by (Z.div_mod_to_equations; lia); [exact Hd0 | exact Hd1]. }
    assert (Hq : 0 <= a / 2 ^ 22 <= 1) by (Z.div_mod_to_equations; lia).
    rewrite Hdir. destruct (page_entry (1 + a / 2 ^ 22) 7) as [-> ->]; [lia | lia | done |].
    replace ((1 + a / 2 ^ 22) * 4096 + 4 * (a / 4096 mod 1024)) with (pg0 + 4 * (a / 4096)) by (unfold pg0; Z.div_mod_to_equations; lia).
    rewrite Ht by (Z.div_mod_to_equations; lia). destruct (page_entry (a / 4096) 7) as [-> ->]; [Z.div_mod_to_equations; lia | lia | done |].
    f_equal. Z.div_mod_to_equations; lia.
  - intros a Ha. unfold walk. rewrite dir_index by lia. by rewrite Hd by (Z.div_mod_to_equations; lia).
  - intros k Hk. rewrite Ht by done. unfold writable. change 1 with (0 + 1) at 1. rewrite <- Z.div_pow2_bits by lia.
    change (2 ^ 1) with 2. rewrite Z.bit0_odd. replace ((k * 4096 + 7) / 2) with (1 + 2 * (k * 1024 + 1)) by (Z.div_mod_to_equations; lia).
    by rewrite Z.odd_add_mul_2.
Qed.

Lemma rp_sidt_run n : forall edi eax edx m, 0 <= edi -> edi + 8 * Z.of_nat n <= 2 ^ 32 ->
  let m' := rp_sidt n edi eax edx m in
  (forall k, 0 <= k < Z.of_nat n -> load32 m' (edi + 8 * k) = u32 eax /\ load32 m' (edi + 8 * k + 4) = u32 edx) /\
  only_changed m m' edi (8 * Z.of_nat n).
Proof.
  induction n as [| n IH]; intros edi eax edx m H0 H1; cbn [rp_sidt]; [split; [lia | apply only_changed_refl] |].
  set (m1 := store32 (store32 m edi eax) (edi + 4) edx). destruct (IH (edi + 8) eax edx m1 ltac:(lia) ltac:(lia)) as [IH1 IH2]. split.
  - intros k Hk. destruct (decide (k = 0)) as [-> |].
    + rewrite Z.mul_0_r, Z.add_0_r. rewrite !(load32_only_changed _ _ _ _ _ IH2) by (unfold disjoint; lia). unfold m1.
      rewrite load32_store32_eq, load32_store32_ne by (unfold disjoint; lia). by rewrite load32_store32_eq.
    + specialize (IH1 (k - 1) ltac:(lia)). replace (edi + 8 + 8 * (k - 1)) with (edi + 8 * k) in IH1 by lia. exact IH1.
  - apply (only_changed_trans _ m1).
    + unfold m1. apply (only_changed_trans _ (store32 m edi eax)).
      * apply (only_changed_weaken _ _ edi 4); [apply only_changed_store32; lia | lia | lia].
      * apply (only_changed_weaken _ _ (edi + 4) 4); [apply only_changed_store32; lia | lia | lia].
    + apply (only_changed_weaken _ _ _ _ _ _ IH2); lia.
Qed.

(** Before [trap_init] all 256 gates are interrupt gates to [ignore_int], as
    [set_intr_gate] would make them; no other byte changes. *)
Theorem setup_idt_correct idt ignore_int m :
  0 <= idt -> idt + 2048 <= 2 ^ 32 ->
  let m' := setup_idt idt ignore_int m in
  (forall n, 0 <= n < 256 -> let g := idt + 8 * n in
     load32 m' g = load32 (_set_gate g 14 0 ignore_int m) g /\ load32 m' (g + 4) = load32 (_set_gate g 14 0 ignore_int m) (g + 4)) /\
  only_changed m m' idt 2048.
Proof.
  intros H0 H1 m'. unfold m', setup_idt.
  destruct (rp_sidt_run 256 idt (0x00080000 - u16 0x00080000 + u16 (u32 ignore_int)) (u32 ignore_int - u16 (u32 ignore_int) + 0x8E00) m H0 H1)
    as [Hg Hc]. split; [| exact Hc]. intros n Hn. destruct (Hg n Hn) as [G1 G2]. rewrite G1, G2. set (g := idt + 8 * n).
  unfold _set_gate, gate_words. assert (Hu : u16 (u32 ignore_int) = u16 ignore_int) by wrap_lia. rewrite Hu. rewrite (Z.add_comm 4 g).
  rewrite load32_store32_ne by (unfold disjoint, g; lia). rewrite !load32_store32_eq.
  change (u16 (0x8000 + Z.shiftl 0 13 + Z.shiftl 14 8)) with 0x8E00. change (0x00080000 - u16 0x00080000) with 0x00080000. done.
Qed.
