(* ===== verification/Descriptors.v ===== *)
(** * Descriptors: a file's count is the number of its descriptors

    A descriptor is an entry of some task's [filp] array
    (src/linux-0.01/include/linux/sched.h); [f_count] of an entry of
    [file_table] counts the descriptors that hold it. Opening, closing,
    duplicating and making pipes keep it so, and every other call of the file
    system leaves both alone: [Keeps] says so of a computation, its instances
    follow the code, so that the class finds them for each system call. While
    a call sleeps other tasks run; [steady] is what it relies on them for. *)

From S2P Require Import Prelude Mem Mm Proc Sched Fork WaitQ Exit Sys FsState Buffer BufferInit Bitmap Inode FileDev Files Pipe Super Namei Dirs Open.

(** ** The file system's entries of [sys_call_table] (include/linux/sys.h) *)

Section table.
Context {FW : FsWorld} {TO : TtyOps} {KS : KernelSvc} (junk : Z -> Z) (fuel : nat).

(** Of a register the handlers take what their parameters' types keep. *)
Definition fs_syscall (nr ebx ecx edx : Z) : option (M fstate Z) :=
  match nr with
  | 3 => Some (sys_read fuel (u32 ebx) ecx (s32 edx))
  | 4 => Some (sys_write fuel (u32 ebx) ecx (s32 edx))
  | 5 => Some (sys_open fuel ebx (s32 ecx) (s32 edx))
  | 6 => Some (sys_close fuel (u32 ebx))
  | 8 => Some (sys_creat fuel ebx (s32 ecx))
  | 9 => Some (sys_link fuel ebx ecx)
  | 10 => Some (sys_unlink fuel ebx)
  | 12 => Some (sys_chdir fuel ebx)
  | 15 => Some (sys_chmod fuel ebx (s32 ecx))
  | 16 => Some (sys_chown fuel ebx (s32 ecx) (s32 edx))
  | 18 => Some (sys_stat junk fuel ebx ecx)
  | 19 => Some (sys_lseek (u32 ebx) (s32 ecx) (s32 edx))
  | 28 => Some (sys_fstat junk (u32 ebx) ecx)
  | 30 => Some (sys_utime fuel ebx ecx)
  | 33 => Some (sys_access fuel ebx (s32 ecx))
  | 36 => Some (sys_sync fuel)
  | 39 => Some (sys_mkdir fuel ebx (s32 ecx))
  | 40 => Some (sys_rmdir fuel ebx)
  | 41 => Some (sys_dup (u32 ebx))
  | 42 => Some (sys_pipe fuel ebx)
  | 54 => Some (sys_ioctl (u32 ebx) (u32 ecx) (u32 edx))
  | 55 => Some (sys_fcntl (u32 ebx) (u32 ecx) (u32 edx))
  | 61 => Some (sys_chroot fuel ebx)
  | 63 => Some (sys_dup2 fuel (u32 ebx) (u32 ecx))
  | _ => None
  end.

(** A sequence of calls, each with its three registers; the answers. *)
Fixpoint run_calls (l : list (Z * Z * Z * Z)) : M fstate (list Z) :=
  match l with
  | [] => mret []
  | (nr, ebx, ecx, edx) :: l' =>
      match fs_syscall nr ebx ecx edx with
      | None => run_calls l'
      | Some m => r ← m; rs ← run_calls l'; mret (r :: rs)
      end
  end.
End table.

(** ** Counting descriptors *)

Definition filps (t : task_struct) : list Z :=
  map (fun i => t (T_filp (Z.of_nat i))) (seq 0 (Z.to_nat NR_OPEN)).
(** The descriptors of all tasks, by task. *)
Definition ftab (s : fstate) : gmap Z (list Z) := filps <$> tasks (fps s).

Fixpoint occ (q : Z) (l : list Z) : Z :=
  match l with
  | [] => 0
  | x :: l' => (if decide (x = q) then 1 else 0) + occ q l'
  end.
Definition holders (q : Z) (T : gmap Z (list Z)) : Z := map_fold (fun _ l n => occ q l + n) 0 T.

Lemma occ_bounds q l : 0 <= occ q l <= Z.of_nat (length l).
Proof. induction l as [| x l IH]; cbn [occ length]; [lia |]. case_decide; lia. Qed.
Lemma occ_none q l : ~ q ∈ l -> occ q l = 0.
Proof.
  induction l as [| x l IH]; intros H; [done |]. cbn [occ]. apply not_elem_of_cons in H as [Hx H].
  rewrite decide_False by congruence. rewrite IH by done. done.
Qed.
Lemma occ_insert q l : forall i old v,
  l !! i = Some old ->
  occ q (<[i := v]> l) = occ q l - (if decide (old = q) then 1 else 0) + (if decide (v = q) then 1 else 0).
Proof.
  induction l as [| x l IH]; intros [| i] old v; [done.. | |].
  - intros [= ->]. change (<[0%nat := v]> (old :: l)) with (v :: l). cbn [occ]. lia.
  - intros H. change (<[S i := v]> (x :: l)) with (x :: <[i := v]> l). cbn [occ]. rewrite (IH _ _ _ H). lia.
Qed.

Lemma holders_fresh q a l T : T !! a = None -> holders q (<[a := l]> T) = occ q l + holders q T.
Proof. intros H. unfold holders. rewrite map_fold_insert_L; [done | intros; lia | done]. Qed.
Lemma holders_split q a l T : T !! a = Some l -> holders q T = occ q l + holders q (delete a T).
Proof. intros H. rewrite <- (holders_fresh q a l) by apply lookup_delete_eq. by rewrite insert_delete_id. Qed.
Lemma holders_insert q a l l' T :
  T !! a = Some l -> holders q (<[a := l']> T) = holders q T - occ q l + occ q l'.
Proof.
  intros H. rewrite <- insert_delete_eq, holders_fresh by apply lookup_delete_eq.
  rewrite (holders_split q a l T H). lia.
Qed.
Lemma holders_none q T : (forall a l, T !! a = Some l -> ~ q ∈ l) -> holders q T = 0.
Proof.
  induction T as [| a l T Ha IH] using map_ind; intros H; [done |].
  rewrite holders_fresh by done. rewrite occ_none by (apply (H a); by rewrite lookup_insert_eq).
  apply IH. intros b k Hb. apply (H b). rewrite lookup_insert_ne; [done | congruence].
Qed.
Lemma holders_nonneg q T : 0 <= holders q T.
Proof.
  induction T as [| a l T Ha IH] using map_ind; [done |]. rewrite holders_fresh by done.
  pose proof (occ_bounds q l). lia.
Qed.
Lemma occ_some q l : q ∈ l -> 1 <= occ q l.
Proof.
  induction l as [| x l IH]; intros Hq; [by apply elem_of_nil in Hq |]. cbn [occ]. pose proof (occ_bounds q l).
  apply elem_of_cons in Hq as [-> | Hq]; [rewrite decide_True by done; lia |]. specialize (IH Hq). case_decide; lia.
Qed.
Lemma holders_zero q T a l : holders q T = 0 -> T !! a = Some l -> ~ q ∈ l.
Proof.
  intros H Hl Hq. rewrite (holders_split q a l T Hl) in H. apply occ_some in Hq.
  pose proof (holders_nonneg q (delete a T)). lia.
Qed.
Lemma holders_bounds q n T :
  (forall a l, T !! a = Some l -> (length l <= n)%nat) -> 0 <= holders q T <= Z.of_nat n * Z.of_nat (size T).
Proof.
  induction T as [| a l T Ha IH] using map_ind; intros H.
  { unfold holders. rewrite map_fold_empty. lia. }
  rewrite holders_fresh, map_size_insert_None by done. pose proof (occ_bounds q l).
  assert (length l <= n)%nat by (apply (H a); by rewrite lookup_insert_eq).
  assert (0 <= holders q T <= Z.of_nat n * Z.of_nat (size T)).
  { apply IH. intros b k Hb. apply (H b). rewrite lookup_insert_ne; [done | congruence]. }
  lia.
Qed.

Lemma filps_length t : length (filps t) = 20%nat.
Proof. unfold filps. by rewrite length_map, length_seq. Qed.
Lemma filps_lookup t i : 0 <= i < NR_OPEN -> filps t !! Z.to_nat i = Some (t (T_filp i)).
Proof.
  intros Hi. unfold filps. rewrite list_lookup_fmap, lookup_seq_lt by (unfold NR_OPEN in *; lia).
  cbn. by rewrite Z2Nat.id by lia.
Qed.
Lemma filps_tset_other f v t : (forall i, f <> T_filp i) -> filps (tset f v t) = filps t.
Proof. intros Hf. unfold filps. apply map_ext. intros i. apply tset_ne. intros E. by apply (Hf (Z.of_nat i)). Qed.
Lemma filps_tset i v t :
  0 <= i < NR_OPEN -> in_u32 v -> filps (tset (T_filp i) v t) = <[Z.to_nat i := v]> (filps t).
Proof.
  intros Hi Hv. apply list_eq. intros j. destruct (decide (j < 20)%nat) as [Hj | Hj].
  - rewrite <- (Nat2Z.id j), filps_lookup by (unfold NR_OPEN; lia).
    destruct (decide (Z.of_nat j = i)) as [<- | Hne].
    + rewrite tset_eq, list_lookup_insert_eq by (rewrite filps_length; lia).
      cbn [tnorm]. by rewrite u32_small.
    + rewrite tset_ne by congruence. rewrite list_lookup_insert_ne by lia. by rewrite filps_lookup by (unfold NR_OPEN; lia).
  - rewrite !lookup_ge_None_2; [done | rewrite ?length_insert, filps_length; lia..].
Qed.

(** ** The invariant, and what a call relies on *)

Section invariant.
Context {FW : FsWorld}.

Definition is_file (q : Z) : Prop := exists k, 0 <= k < NR_FILE /\ q = file_at k.

(** The count of each file is the number of its descriptors and [d] more, a
    descriptor is NULL or a file, and there are no more tasks than fit. *)
Record owed (d : Z -> Z) (s : fstate) : Prop := {
  ow_count : forall k, 0 <= k < NR_FILE ->
    cell s (file_at k) f_count = holders (file_at k) (ftab s) + d (file_at k);
  ow_ptr : forall a l q, ftab s !! a = Some l -> q ∈ l -> q = 0 \/ is_file q;
  ow_size : (size (ftab s) <= Z.to_nat NR_TASKS)%nat
}.
Definition counted : fstate -> Prop := owed (fun _ => 0).

(** The current task's descriptors; nobody else holds [q]. *)
Definition own (s : fstate) : option (list Z) := ftab s !! current (fps s).
Definition mine (q : Z) (s : fstate) : Prop :=
  forall a l, ftab s !! a = Some l -> q ∈ l -> a = current (fps s).

(** From one running of the current task to the next its descriptors are as it
    left them, the others keep the counts right, and nobody gets hold of a file
    that only the current task holds. *)
Record steady (s s' : fstate) : Prop := {
  st_cur : current (fps s') = current (fps s);
  st_own : own s' = own s;
  st_counted : counted s -> counted s';
  st_mine : forall l q, counted s -> own s = Some l -> q ∈ l -> q <> 0 -> mine q s -> mine q s'
}.

Lemma owed_same d s s' :
  ftab s' = ftab s -> (forall p, cell s' p f_count = cell s p f_count) -> owed d s -> owed d s'.
Proof. intros Ef Ec [H1 H2 H3]. constructor; rewrite Ef; [intros k Hk; rewrite Ec; auto | done | done]. Qed.

Lemma steady_same s s' :
  current (fps s') = current (fps s) -> ftab s' = ftab s ->
  (forall p, cell s' p f_count = cell s p f_count) -> steady s s'.
Proof.
  intros Ep Ef Ec. constructor.
  - done.
  - unfold own. by rewrite Ep, Ef.
  - by apply owed_same.
  - intros l q _ _ _ _ Hm a k. rewrite Ef, Ep. apply Hm.
Qed.

#[export] Instance steady_preorder : PreOrder steady.
Proof.
  split; [intros s; by apply steady_same |].
  intros s1 s2 s3 [C1 O1 I1 M1] [C2 O2 I2 M2]. constructor.
  - by rewrite C2.
  - by rewrite O2.
  - auto.
  - intros l q Hc Hl Hq Hq0 Hm. apply (M2 l); [auto | by rewrite O1 | done | done |]. by apply (M1 l).
Qed.

(** ** Computations that are steady *)

Class Keeps {A} (m : M fstate A) : Prop := keeps : forall s a s', m s = Done a s' -> steady s s'.
(** Process code that changes no descriptor. *)
Class PKeeps {A} (m : M pstate A) : Prop :=
  pkeeps : forall s a s', m s = Done a s' -> current s' = current s /\ filps <$> tasks s' = filps <$> tasks s.
Class NotCount (f : fld) : Prop := not_count : f <> f_count.
Class NotFilp (f : tfield) : Prop := not_filp : forall i, f <> T_filp i.

(** Reading. *)
Lemma keeps_pure {A} (m : M fstate A) : (forall s a s', m s = Done a s' -> s' = s) -> Keeps m.
Proof. intros H s a s' E. rewrite (H _ _ _ E). reflexivity. Qed.

#[export] Instance keeps_ret {A} (a : A) : Keeps (mret a).
Proof. apply keeps_pure. by intros s b s' [= <- <-]. Qed.
#[export] Instance keeps_halt {A} r : Keeps (halt r : M fstate A).
Proof. by intros s b s' H. Qed.
#[export] Instance keeps_panic {A} msg : Keeps (panic msg : M fstate A).
Proof. by intros s b s' H. Qed.
#[export] Instance keeps_bind {A B} (m : M fstate A) (k : A -> M fstate B) :
  Keeps m -> (forall a, Keeps (k a)) -> Keeps (m ≫= k).
Proof.
  intros Hm Hk s b s' H. apply bind_inv in H as (a & s1 & H1 & H2).
  transitivity s1; [exact (Hm _ _ _ H1) | exact (Hk _ _ _ _ H2)].
Qed.
#[export] Instance keeps_gets {A} (g : fstate -> A) : Keeps (gets g).
Proof. apply keeps_pure. by intros s b s' [= <- <-]. Qed.
#[export] Instance keeps_get_opt {A} msg (g : fstate -> option A) : Keeps (get_opt msg g).
Proof. apply keeps_pure. intros s b s' H. unfold get_opt in H. destruct (g s); [by injection H as <- <- | done]. Qed.
#[export] Instance keeps_on_ps {A} (m : M pstate A) : PKeeps m -> Keeps (on_ps m).
Proof.
  intros Hm s b s' H. unfold on_ps in H. destruct (m (fps s)) as [a p |] eqn:E; [| done].
  injection H as <- <-. destruct (Hm _ _ _ E) as [Hc Hf]. by apply steady_same.
Qed.
#[export] Instance keeps_on_mm {A} (m : M mstate A) : Keeps (on_mm m).
Proof.
  intros s b s' H. unfold on_mm in H. destruct (m _); [injection H as <- <- | done]. by apply steady_same.
Qed.
Lemma keeps_modify (g : fstate -> fstate) :
  (forall s, cells (g s) = cells s) -> (forall s, fps (g s) = fps s) -> Keeps (modify g).
Proof.
  intros Hg Hp s b s' [= <- <-]. apply steady_same; unfold ftab; rewrite ?Hp; [done | done |].
  intros p. by apply cell_ext.
Qed.
#[export] Instance keeps_fput p f v : NotCount f -> Keeps (fput p f v).
Proof.
  intros Hf s [] s' H. unfold fput in H. destruct (cells s !! (p, f)); [injection H as <- | done].
  apply steady_same; [done | done |]. intros q. apply (cell_upd_fld s p f v q f_count). by intros E; apply Hf.
Qed.
#[export] Instance keeps_when b m : Keeps m -> Keeps (when b m).
Proof. intros H. destruct b; [exact H | apply keeps_ret]. Qed.
#[export] Instance keeps_for_loop n i (f : Z -> M fstate unit) : (forall k, Keeps (f k)) -> Keeps (for_loop n i f).
Proof.
  intros Hf. revert i. induction n as [| n IH]; intros i; [apply keeps_ret |].
  apply keeps_bind; [apply Hf | intros; apply IH].
Qed.

(** ** Process code *)

Lemma pkeeps_umem {A} (m : M pstate A) :
  (forall s a s', m s = Done a s' -> current s' = current s /\ tasks s' = tasks s) -> PKeeps m.
Proof. intros H s a s' E. destruct (H _ _ _ E) as [-> ->]. done. Qed.
#[export] Instance pkeeps_ret {A} (a : A) : PKeeps (mret a).
Proof. by intros s b s' [= <- <-]. Qed.
#[export] Instance pkeeps_halt {A} r : PKeeps (halt r : M pstate A).
Proof. by intros s b s' H. Qed.
#[export] Instance pkeeps_bind {A B} (m : M pstate A) (k : A -> M pstate B) :
  PKeeps m -> (forall a, PKeeps (k a)) -> PKeeps (m ≫= k).
Proof.
  intros Hm Hk s b s' H. apply bind_inv in H as (a & s1 & H1 & H2).
  destruct (Hm _ _ _ H1) as [E1 E2], (Hk _ _ _ _ H2) as [E3 E4]. by rewrite E3, E4.
Qed.
#[export] Instance pkeeps_when b m : PKeeps m -> PKeeps (when b m).
Proof. intros H. destruct b; [exact H | apply pkeeps_ret]. Qed.
#[export] Instance pkeeps_gets {A} (g : pstate -> A) : PKeeps (gets g).
Proof. by intros s b s' [= <- <-]. Qed.
#[export] Instance pkeeps_get_opt {A} msg (g : pstate -> option A) : PKeeps (get_opt msg g).
Proof. intros s b s' H. unfold get_opt in H. destruct (g s); [by injection H as <- <- | done]. Qed.
#[export] Instance pkeeps_tput p f v : NotFilp f -> PKeeps (tput p f v).
Proof.
  intros Hf s [] s' H. unfold tput in H. destruct (tasks s !! p) as [t |] eqn:Et; [injection H as <- | done].
  split; [done |]. cbn [tasks set_tasks]. rewrite fmap_insert, filps_tset_other by done.
  apply insert_id. by rewrite lookup_fmap, Et.
Qed.
End invariant.

(** The instances are found by their names. *)
#[local] Hint Constants Opaque : typeclass_instances.
#[export] Hint Extern 0 (NotCount _) => discriminate : typeclass_instances.
#[export] Hint Extern 0 (NotFilp _) => (intros ?; discriminate) : typeclass_instances.

(** Walk through a computation. *)
Ltac keeps :=
  repeat lazymatch goal with
  | |- Keeps (_ ≫= _) => apply keeps_bind; [| intros ?]
  | |- PKeeps (_ ≫= _) => apply pkeeps_bind; [| intros ?]
  | |- Keeps (match ?x with _ => _ end) => destruct x
  | |- PKeeps (match ?x with _ => _ end) => destruct x
  | |- Keeps (when _ _) => apply keeps_when
  | |- PKeeps (when _ _) => apply pkeeps_when
  | |- Keeps (on_ps _) => apply keeps_on_ps
  | |- Keeps (for_loop _ _ _) => apply keeps_for_loop; intros ?
  | |- Keeps (for_buffers _) => unfold for_buffers
  | |- Keeps (free_entries _ _) => unfold free_entries
  | |- Keeps (modify _) => apply keeps_modify; reflexivity
  | |- PKeeps (modify _) => by intros ? ? ? [= <- <-]
  | |- PKeeps (put_fs_byte _ _) => unfold put_fs_byte
  | |- PKeeps (get_fs_byte _) => unfold get_fs_byte
  | |- PKeeps (put_fs_long _ _) => unfold put_fs_long
  | |- PKeeps (get_fs_long _) => unfold get_fs_long
  | |- Keeps _ => first [progress cbv beta zeta | solve [apply _]]
  | |- PKeeps _ => first [progress cbv beta zeta | solve [apply _]]
  end.

Section basics.
Context {FW : FsWorld}.
#[export] Instance pkeeps_wq_get q : PKeeps (wq_get q).
Proof. unfold wq_get. keeps. Qed.
#[export] Instance pkeeps_wq_put q t : PKeeps (wq_put q t).
Proof. unfold wq_put. keeps. Qed.
#[export] Instance pkeeps_wake_up q : PKeeps (wake_up q).
Proof. unfold wake_up. keeps. Qed.
#[export] Instance pkeeps_cur_get f : PKeeps (cur_get f).
Proof. unfold cur_get, tget. keeps. Qed.
#[export] Instance pkeeps_cur_put f v : NotFilp f -> PKeeps (cur_put f v).
Proof. intros Hf. unfold cur_put. keeps. Qed.
#[export] Instance keeps_fget p f : Keeps (fget p f).
Proof. apply keeps_get_opt. Qed.
#[export] Instance keeps_finc p f : NotCount f -> Keeps (finc p f).
Proof. intros Hf. unfold finc. keeps. Qed.
#[export] Instance keeps_fdec p f : NotCount f -> Keeps (fdec p f).
Proof. intros Hf. unfold fdec. keeps. Qed.
#[export] Instance keeps_fs_printk msg l : Keeps (fs_printk msg l).
Proof. unfold fs_printk. keeps. Qed.

#[export] Instance keeps_kload8 a : Keeps (kload8 a).
Proof. unfold kload8. keeps. Qed.
#[export] Instance keeps_kstore8 a v : Keeps (kstore8 a v).
Proof. unfold kstore8. keeps. Qed.
#[export] Instance keeps_kload16 a : Keeps (kload16 a).
Proof. unfold kload16. keeps. Qed.
#[export] Instance keeps_kstore16 a v : Keeps (kstore16 a v).
Proof. unfold kstore16. keeps. Qed.
#[export] Instance keeps_kload32 a : Keeps (kload32 a).
Proof. unfold kload32. keeps. Qed.
#[export] Instance keeps_kstore32 a v : Keeps (kstore32 a v).
Proof. unfold kstore32. keeps. Qed.

End basics.

(** The world outside and the terminals are steady, and making the user's pages
    writable opens and closes nothing. *)
Class SteadyWorld {FW : FsWorld} : Prop := {
  keeps_sleep q :: Keeps (fs_sleep_on q);
  keeps_rw rw bh :: Keeps (ll_rw_block rw bh);
  table_low : 0 < file_table;
  table_high : file_table + sizeof_file * NR_FILE <= 4294967296
}.
Class SteadySvc {FW : FsWorld} {TO : TtyOps} {KS : KernelSvc} : Prop := {
  keeps_tty_read a b n :: Keeps (tty_read a b n);
  keeps_tty_write a b n :: Keeps (tty_write a b n);
  keeps_tty_ioctl a b n :: Keeps (tty_ioctl a b n);
  keeps_tty_set_pgrp a b :: Keeps (tty_set_pgrp a b);
  pkeeps_write_verify a :: PKeeps (svc_write_verify a)
}.

(** A loop: by induction on its counter. *)
Ltac revert_others n :=
  repeat match goal with
  | x : ?T |- _ =>
      lazymatch x with n => fail | _ => lazymatch T with
      | FsWorld => fail | TtyOps => fail | KernelSvc => fail | SteadyWorld => fail | SteadySvc => fail | NotCount _ => fail | NotFilp _ => fail
      | _ => revert x end end
  end.
Tactic Notation "keeps_rec" constr(n) reference(f) := revert_others n; induction n; intros; cbn [f]; keeps.

Section calls.
Context {FW : FsWorld} {TO : TtyOps} {KS : KernelSvc} {SW : SteadyWorld} {SS : SteadySvc}.

(** ** FsState *)
#[export] Instance keeps_fs_time : Keeps (fs_time).
Proof. unfold fs_time. keeps. Qed.
#[export] Instance keeps_get_super_from (n : nat) (s dev : Z) : Keeps (get_super_from n s dev).
Proof. keeps_rec n get_super_from. Qed.
#[export] Instance keeps_get_super (dev : Z) : Keeps (get_super dev).
Proof. unfold get_super. keeps. Qed.

(** ** Buffer *)
#[export] Instance keeps_hash_get (dev block : Z) : Keeps (hash_get dev block).
Proof. unfold hash_get. keeps. Qed.
#[export] Instance keeps_hash_put (dev block v : Z) : Keeps (hash_put dev block v).
Proof.
  intros s [] s' H. unfold hash_put in H. destruct (hash_table s !! _); [injection H as <- | done].
  by apply steady_same.
Qed.
#[export] Instance keeps_remove_from_queues (bh : Z) : Keeps (remove_from_queues bh).
Proof. unfold remove_from_queues. keeps. Qed.
#[export] Instance keeps_insert_into_queues (bh : Z) : Keeps (insert_into_queues bh).
Proof. unfold insert_into_queues. keeps. Qed.
#[export] Instance keeps_find_from (n : nat) (tmp dev block : Z) : Keeps (find_from n tmp dev block).
Proof. keeps_rec n find_from. Qed.
#[export] Instance keeps_walk : Keeps (walk).
Proof. unfold walk. keeps. Qed.
#[export] Instance keeps_find_buffer (dev block : Z) : Keeps (find_buffer dev block).
Proof. unfold find_buffer. keeps. Qed.
#[export] Instance keeps_wait_on_buffer (fuel : nat) (bh : Z) : Keeps (wait_on_buffer fuel bh).
Proof. keeps_rec fuel wait_on_buffer. Qed.
#[export] Instance keeps_sync_dev (fuel : nat) (dev : Z) : Keeps (sync_dev fuel dev).
Proof. unfold sync_dev. keeps. Qed.
#[export] Instance keeps_brelse (fuel : nat) (buf : Z) : Keeps (brelse fuel buf).
Proof. unfold brelse. keeps. Qed.
#[export] Instance keeps_get_hash_table (fuel : nat) (dev block : Z) : Keeps (get_hash_table fuel dev block).
Proof. keeps_rec fuel get_hash_table. Qed.
#[export] Instance keeps_find_unused (fuel n : nat) (tmp : Z) : Keeps (find_unused fuel n tmp).
Proof. keeps_rec n find_unused. Qed.
#[export] Instance keeps_getblk (fuel : nat) (dev block : Z) : Keeps (getblk fuel dev block).
Proof. keeps_rec fuel getblk. Qed.
#[export] Instance keeps_bread (fuel : nat) (dev block : Z) : Keeps (bread fuel dev block).
Proof. unfold bread. keeps. Qed.

(** ** Bitmap *)
#[export] Instance keeps_clear_block (addr : Z) : Keeps (clear_block addr).
Proof. unfold clear_block. keeps. Qed.
#[export] Instance keeps_set_bit (nr addr : Z) : Keeps (set_bit nr addr).
Proof. unfold set_bit. keeps. Qed.
#[export] Instance keeps_clear_bit (nr addr : Z) : Keeps (clear_bit nr addr).
Proof. unfold clear_bit. keeps. Qed.
#[export] Instance keeps_scan_maps (n : nat) (map : Z -> fld) (sb i bh j : Z) : Keeps (scan_maps n map sb i bh j).
Proof. keeps_rec n scan_maps. Qed.
Lemma keeps_put_all (p : Z) (l : list fld) : Forall NotCount l -> Keeps (put_all p l).
Proof. induction 1; cbn [put_all]; keeps. Qed.
#[export] Instance keeps_clear_inode (inode : Z) : Keeps (clear_inode inode).
Proof.
  unfold clear_inode. apply keeps_bind; [| intros; keeps]. apply keeps_put_all. by repeat constructor.
Qed.
#[export] Instance keeps_free_block (fuel : nat) (dev block : Z) : Keeps (free_block fuel dev block).
Proof. unfold free_block. keeps. Qed.
#[export] Instance keeps_new_block (fuel : nat) (dev : Z) : Keeps (new_block fuel dev).
Proof. unfold new_block. keeps. Qed.
#[export] Instance keeps_free_inode (inode : Z) : Keeps (free_inode inode).
Proof. unfold free_inode. keeps. Qed.

(** ** Inode *)
Lemma keeps_copy_in (l : list (fld * Z * Z)) (inode a : Z) : Forall (fun x => NotCount x.1.1) l -> Keeps (copy_in l inode a).
Proof. induction 1 as [| [[f o] n] l Hf Hl IH]; [| change (NotCount f) in Hf]; cbn [copy_in]; keeps. Qed.
#[export] Instance keeps_copy_in_layout (inode a : Z) : Keeps (copy_in d_inode_layout inode a).
Proof. apply keeps_copy_in. by repeat constructor. Qed.
#[export] Instance keeps_copy_out (l : list (fld * Z * Z)) (inode a : Z) : Keeps (copy_out l inode a).
Proof. keeps_rec l copy_out. Qed.
#[export] Instance keeps_wait_on_inode (fuel : nat) (inode : Z) : Keeps (wait_on_inode fuel inode).
Proof. keeps_rec fuel wait_on_inode. Qed.
#[export] Instance keeps_lock_inode (fuel : nat) (inode : Z) : Keeps (lock_inode fuel inode).
Proof. unfold lock_inode. keeps. Qed.
#[export] Instance keeps_unlock_inode (inode : Z) : Keeps (unlock_inode inode).
Proof. unfold unlock_inode. keeps. Qed.
#[export] Instance keeps_inode_block (inode : Z) : Keeps (inode_block inode).
Proof. unfold inode_block. keeps. Qed.
#[export] Instance keeps_inode_offset (inode bh : Z) : Keeps (inode_offset inode bh).
Proof. unfold inode_offset. keeps. Qed.
#[export] Instance keeps_read_inode (fuel : nat) (inode : Z) : Keeps (read_inode fuel inode).
Proof. unfold read_inode. keeps. Qed.
#[export] Instance keeps_write_inode (fuel : nat) (inode : Z) : Keeps (write_inode fuel inode).
Proof. unfold write_inode. keeps. Qed.
#[export] Instance keeps_sync_inodes (fuel : nat) : Keeps (sync_inodes fuel).
Proof. unfold sync_inodes. keeps. Qed.
#[export] Instance keeps_sys_sync (fuel : nat) : Keeps (sys_sync fuel).
Proof. unfold sys_sync. keeps. Qed.
#[export] Instance keeps_make_zone (fuel : nat) (inode n : Z) (create : bool) : Keeps (make_zone fuel inode n create).
Proof. unfold make_zone. keeps. Qed.
#[export] Instance keeps_zone_entry (fuel : nat) (inode bh k : Z) (create : bool) : Keeps (zone_entry fuel inode bh k create).
Proof. unfold zone_entry. keeps. Qed.
#[export] Instance keeps_bmap_any (fuel : nat) (inode block : Z) (create : bool) : Keeps (_bmap fuel inode block create).
Proof. unfold _bmap. keeps. Qed.
#[export] Instance keeps_bmap (fuel : nat) (inode block : Z) : Keeps (bmap fuel inode block).
Proof. unfold bmap. keeps. Qed.
#[export] Instance keeps_create_block (fuel : nat) (inode block : Z) : Keeps (create_block fuel inode block).
Proof. unfold create_block. keeps. Qed.
#[export] Instance keeps_free_ind (fuel : nat) (dev block : Z) : Keeps (free_ind fuel dev block).
Proof. unfold free_ind. keeps. Qed.
#[export] Instance keeps_free_dind (fuel : nat) (dev block : Z) : Keeps (free_dind fuel dev block).
Proof. unfold free_dind. keeps. Qed.
#[export] Instance keeps_truncate (fuel : nat) (inode : Z) : Keeps (truncate fuel inode).
Proof. unfold truncate. keeps. Qed.
#[export] Instance keeps_iput_last (fuel : nat) (inode : Z) : Keeps (iput_last fuel inode).
Proof. keeps_rec fuel iput_last. Qed.
#[export] Instance keeps_iput (fuel : nat) (inode : Z) : Keeps (iput fuel inode).
Proof. unfold iput. keeps. Qed.
#[export] Instance keeps_find_free_inode (n : nat) (inr : Z) : Keeps (find_free_inode n inr).
Proof. keeps_rec n find_free_inode. Qed.
#[export] Instance keeps_clean_inode (fuel : nat) (inode : Z) : Keeps (clean_inode fuel inode).
Proof. keeps_rec fuel clean_inode. Qed.
#[export] Instance keeps_get_empty_inode (fuel : nat) : Keeps (get_empty_inode fuel).
Proof. keeps_rec fuel get_empty_inode. Qed.
#[export] Instance keeps_pipe_get (inode k : Z) : Keeps (pipe_get inode k).
Proof. unfold pipe_get. keeps. Qed.
#[export] Instance keeps_pipe_put (inode k v : Z) : Keeps (pipe_put inode k v).
Proof. unfold pipe_put. keeps. Qed.
#[export] Instance keeps_PIPE_HEAD (inode : Z) : Keeps (PIPE_HEAD inode).
Proof. unfold PIPE_HEAD. keeps. Qed.
#[export] Instance keeps_PIPE_TAIL (inode : Z) : Keeps (PIPE_TAIL inode).
Proof. unfold PIPE_TAIL. keeps. Qed.
#[export] Instance keeps_get_pipe_inode (fuel : nat) : Keeps (get_pipe_inode fuel).
Proof. unfold get_pipe_inode. keeps. Qed.
#[export] Instance keeps_iget_scan (fuel n : nat) (i dev nr empty : Z) : Keeps (iget_scan fuel n i dev nr empty).
Proof. keeps_rec n iget_scan. Qed.
#[export] Instance keeps_iget (fuel : nat) (dev nr : Z) : Keeps (iget fuel dev nr).
Proof. unfold iget. keeps. Qed.
#[export] Instance keeps_new_inode (fuel : nat) (dev : Z) : Keeps (new_inode fuel dev).
Proof. unfold new_inode. keeps. Qed.

(** ** FileDev *)
#[export] Instance keeps_copy_to_user (p buf chars : Z) : Keeps (copy_to_user p buf chars).
Proof. unfold copy_to_user. keeps. Qed.
#[export] Instance keeps_copy_from_user (p buf chars : Z) : Keeps (copy_from_user p buf chars).
Proof. unfold copy_from_user. keeps. Qed.
#[export] Instance keeps_clear_user (buf chars : Z) : Keeps (clear_user buf chars).
Proof. unfold clear_user. keeps. Qed.
#[export] Instance keeps_read_blocks (fuel n : nat) (inode filp buf left : Z) : Keeps (read_blocks fuel n inode filp buf left).
Proof. keeps_rec n read_blocks. Qed.
#[export] Instance keeps_file_read (fuel : nat) (inode filp buf count : Z) : Keeps (file_read fuel inode filp buf count).
Proof. unfold file_read. keeps. Qed.
#[export] Instance keeps_write_blocks (fuel n : nat) (inode pos buf i count : Z) : Keeps (write_blocks fuel n inode pos buf i count).
Proof. keeps_rec n write_blocks. Qed.
#[export] Instance keeps_file_write (fuel : nat) (inode filp buf count : Z) : Keeps (file_write fuel inode filp buf count).
Proof. unfold file_write. keeps. Qed.
#[export] Instance keeps_block_write_loop (fuel n : nat) (dev block offset filp buf count written : Z) : Keeps (block_write_loop fuel n dev block offset filp buf count written).
Proof. keeps_rec n block_write_loop. Qed.
#[export] Instance keeps_block_write (fuel : nat) (dev filp buf count : Z) : Keeps (block_write fuel dev filp buf count).
Proof. unfold block_write. keeps. Qed.
#[export] Instance keeps_block_read_loop (fuel n : nat) (dev block offset filp buf count read : Z) : Keeps (block_read_loop fuel n dev block offset filp buf count read).
Proof. keeps_rec n block_read_loop. Qed.
#[export] Instance keeps_block_read (fuel : nat) (dev filp buf count : Z) : Keeps (block_read fuel dev filp buf count).
Proof. unfold block_read. keeps. Qed.

(** ** Files *)
#[export] Instance pkeeps_verify_pages (fuel : nat) (start size : Z) : PKeeps (verify_pages fuel start size).
Proof. keeps_rec fuel verify_pages. Qed.
#[export] Instance pkeeps_verify_area (addr size : Z) : PKeeps (verify_area addr size).
Proof. unfold verify_area. keeps. Qed.
#[export] Instance keeps_fcur_get (f : tfield) : Keeps (fcur_get f).
Proof. unfold fcur_get. keeps. Qed.
#[export] Instance keeps_fcur_put (f : tfield) (v : Z) : NotFilp f -> Keeps (fcur_put f v).
Proof. intros Hf. unfold fcur_put. keeps. Qed.
#[export] Instance keeps_filp_get (fd : Z) : Keeps (filp_get fd).
Proof. unfold filp_get. keeps. Qed.
#[export] Instance keeps_rw_ttyx (rw minor buf count : Z) : Keeps (rw_ttyx rw minor buf count).
Proof. unfold rw_ttyx. keeps. Qed.
#[export] Instance keeps_rw_tty (rw minor buf count : Z) : Keeps (rw_tty rw minor buf count).
Proof. unfold rw_tty. keeps. Qed.
#[export] Instance keeps_rw_char (rw dev buf count : Z) : Keeps (rw_char rw dev buf count).
Proof. unfold rw_char. keeps. Qed.
#[export] Instance keeps_INC_PIPE (inode k : Z) : Keeps (INC_PIPE inode k).
Proof. unfold INC_PIPE. keeps. Qed.
#[export] Instance keeps_PIPE_EMPTY (inode : Z) : Keeps (PIPE_EMPTY inode).
Proof. unfold PIPE_EMPTY. keeps. Qed.
#[export] Instance keeps_PIPE_FULL (inode : Z) : Keeps (PIPE_FULL inode).
Proof. unfold PIPE_FULL. keeps. Qed.
#[export] Instance keeps_pipe_wait_data (fuel : nat) (inode : Z) : Keeps (pipe_wait_data fuel inode).
Proof. keeps_rec fuel pipe_wait_data. Qed.
#[export] Instance keeps_pipe_take (n : nat) (inode b : Z) : Keeps (pipe_take n inode b).
Proof. keeps_rec n pipe_take. Qed.
#[export] Instance keeps_read_pipe (fuel : nat) (inode buf count : Z) : Keeps (read_pipe fuel inode buf count).
Proof. unfold read_pipe. keeps. Qed.
#[export] Instance keeps_sigpipe : Keeps (sigpipe).
Proof. unfold sigpipe. keeps. Qed.
#[export] Instance keeps_pipe_wait_room (fuel : nat) (inode : Z) : Keeps (pipe_wait_room fuel inode).
Proof. keeps_rec fuel pipe_wait_room. Qed.
#[export] Instance keeps_pipe_give (fuel n : nat) (inode b : Z) : Keeps (pipe_give fuel n inode b).
Proof. keeps_rec n pipe_give. Qed.
#[export] Instance keeps_write_pipe (fuel : nat) (inode buf count : Z) : Keeps (write_pipe fuel inode buf count).
Proof. unfold write_pipe. keeps. Qed.
#[export] Instance keeps_sys_lseek (fd offset origin : Z) : Keeps (sys_lseek fd offset origin).
Proof. unfold sys_lseek. keeps. Qed.
#[export] Instance keeps_sys_read (fuel : nat) (fd buf count : Z) : Keeps (sys_read fuel fd buf count).
Proof. unfold sys_read. keeps. Qed.
#[export] Instance keeps_sys_write (fuel : nat) (fd buf count : Z) : Keeps (sys_write fuel fd buf count).
Proof. unfold sys_write. keeps. Qed.
#[export] Instance keeps_close_on_exec_clear (fd : Z) : Keeps (close_on_exec_clear fd).
Proof. unfold close_on_exec_clear. keeps. Qed.
#[export] Instance keeps_free_fd (n : nat) (arg : Z) : Keeps (free_fd n arg).
Proof. keeps_rec n free_fd. Qed.
#[export] Instance keeps_sys_ioctl (fd cmd arg : Z) : Keeps (sys_ioctl fd cmd arg).
Proof. unfold sys_ioctl. keeps. Qed.
#[export] Instance keeps_fill_stat (l : list (fld * Z * nat)) (inode : Z) : Keeps (fill_stat l inode).
Proof. keeps_rec l fill_stat. Qed.
#[export] Instance keeps_cp_stat (junk : Z -> Z) (inode statbuf : Z) : Keeps (cp_stat junk inode statbuf).
Proof. unfold cp_stat. keeps. Qed.
#[export] Instance keeps_sys_fstat (junk : Z -> Z) (fd statbuf : Z) : Keeps (sys_fstat junk fd statbuf).
Proof. unfold sys_fstat. keeps. Qed.

(** ** Super *)
#[export] Instance keeps_free_super (n : nat) (p : Z) : Keeps (free_super n p).
Proof. keeps_rec n free_super. Qed.
#[export] Instance keeps_read_maps (fuel n : nat) (blocks : fld) (map : Z -> fld) (p dev i block : Z) : (forall k, NotCount (map k)) -> Keeps (read_maps fuel n blocks map p dev i block).
Proof. keeps_rec n read_maps. Qed.
#[export] Instance keeps_reserve_first (p : Z) (f : fld) : Keeps (reserve_first p f).
Proof. unfold reserve_first. keeps. Qed.
#[export] Instance keeps_release_map (fuel : nat) (p : Z) (map : Z -> fld) : Keeps (release_map fuel p map).
Proof. unfold release_map. keeps. Qed.
#[export] Instance keeps_copy_in_super (inode a : Z) : Keeps (copy_in super_layout inode a).
Proof. apply keeps_copy_in. by repeat constructor. Qed.
#[export] Instance keeps_do_mount (fuel : nat) (dev : Z) : Keeps (do_mount fuel dev).
Proof. unfold do_mount. keeps. Qed.
#[export] Instance keeps_test_bit (nr addr : Z) : Keeps (test_bit nr addr).
Proof. unfold test_bit. keeps. Qed.
#[export] Instance keeps_count_free_bits (i : nat) (p : Z) (map : Z -> fld) (free : Z) : Keeps (count_free_bits i p map free).
Proof. keeps_rec i count_free_bits. Qed.

(** ** Namei *)
#[export] Instance keeps_ubyte (a : Z) : Keeps (ubyte a).
Proof. unfold ubyte. keeps. Qed.
#[export] Instance keeps_de_inode (de : Z) : Keeps (de_inode de).
Proof. unfold de_inode. keeps. Qed.
#[export] Instance keeps_de_set_inode (de v : Z) : Keeps (de_set_inode de v).
Proof. unfold de_set_inode. keeps. Qed.
#[export] Instance keeps_permission (inode mask : Z) : Keeps (permission inode mask).
Proof. unfold permission. keeps. Qed.
#[export] Instance keeps_match_name (len name de : Z) : Keeps (match_name len name de).
Proof. unfold match_name. keeps. Qed.
#[export] Instance keeps_dir_block (fuel : nat) (dir i : Z) : Keeps (dir_block fuel dir i).
Proof. unfold dir_block. keeps. Qed.
#[export] Instance keeps_find_loop (fuel n : nat) (dir name namelen entries bh de i : Z) : Keeps (find_loop fuel n dir name namelen entries bh de i).
Proof. keeps_rec n find_loop. Qed.
#[export] Instance keeps_find_entry (fuel : nat) (dir name namelen : Z) : Keeps (find_entry fuel dir name namelen).
Proof. unfold find_entry. keeps. Qed.
#[export] Instance keeps_set_name (de name namelen : Z) : Keeps (set_name de name namelen).
Proof. unfold set_name. keeps. Qed.
#[export] Instance keeps_add_loop (fuel n : nat) (dir name namelen bh de i : Z) : Keeps (add_loop fuel n dir name namelen bh de i).
Proof. keeps_rec n add_loop. Qed.
#[export] Instance keeps_add_entry (fuel : nat) (dir name namelen : Z) : Keeps (add_entry fuel dir name namelen).
Proof. unfold add_entry. keeps. Qed.
#[export] Instance keeps_walk_path (fuel n : nat) (inode pathname : Z) : Keeps (walk_path fuel n inode pathname).
Proof. keeps_rec n walk_path. Qed.
#[export] Instance keeps_get_dir (fuel : nat) (pathname : Z) : Keeps (get_dir fuel pathname).
Proof. unfold get_dir. keeps. Qed.
#[export] Instance keeps_dir_namei (fuel : nat) (pathname : Z) : Keeps (dir_namei fuel pathname).
Proof. unfold dir_namei. keeps. Qed.
#[export] Instance keeps_namei (fuel : nat) (pathname : Z) : Keeps (namei fuel pathname).
Proof. unfold namei. keeps. Qed.
#[export] Instance keeps_open_namei (fuel : nat) (pathname flag mode : Z) : Keeps (open_namei fuel pathname flag mode).
Proof. unfold open_namei. keeps. Qed.

(** ** Dirs *)
#[export] Instance keeps_not_super : Keeps (not_super).
Proof. unfold not_super. keeps. Qed.
#[export] Instance keeps_store_string (l : list Z) (a : Z) : Keeps (store_string l a).
Proof. keeps_rec l store_string. Qed.
#[export] Instance keeps_sys_mkdir (fuel : nat) (pathname mode : Z) : Keeps (sys_mkdir fuel pathname mode).
Proof. unfold sys_mkdir. keeps. Qed.
#[export] Instance keeps_empty_loop (fuel n : nat) (inode len bh de nr : Z) : Keeps (empty_loop fuel n inode len bh de nr).
Proof. keeps_rec n empty_loop. Qed.
#[export] Instance keeps_empty_dir (fuel : nat) (inode : Z) : Keeps (empty_dir fuel inode).
Proof. unfold empty_dir. keeps. Qed.
#[export] Instance keeps_sys_rmdir (fuel : nat) (name : Z) : Keeps (sys_rmdir fuel name).
Proof. unfold sys_rmdir. keeps. Qed.
#[export] Instance keeps_sys_unlink (fuel : nat) (name : Z) : Keeps (sys_unlink fuel name).
Proof. unfold sys_unlink. keeps. Qed.
#[export] Instance keeps_sys_link (fuel : nat) (oldname newname : Z) : Keeps (sys_link fuel oldname newname).
Proof. unfold sys_link. keeps. Qed.

(** ** Open *)
#[export] Instance keeps_sys_utime (fuel : nat) (filename times : Z) : Keeps (sys_utime fuel filename times).
Proof. unfold sys_utime. keeps. Qed.
#[export] Instance keeps_sys_access (fuel : nat) (filename mode : Z) : Keeps (sys_access fuel filename mode).
Proof. unfold sys_access. keeps. Qed.
#[export] Instance keeps_change_dir (fuel : nat) (f : tfield) (filename : Z) : NotFilp f -> Keeps (change_dir fuel f filename).
Proof. intros Hf. unfold change_dir. keeps. Qed.
#[export] Instance keeps_sys_chdir (fuel : nat) (filename : Z) : Keeps (sys_chdir fuel filename).
Proof. unfold sys_chdir. keeps. Qed.
#[export] Instance keeps_sys_chroot (fuel : nat) (filename : Z) : Keeps (sys_chroot fuel filename).
Proof. unfold sys_chroot. keeps. Qed.
#[export] Instance keeps_sys_chmod (fuel : nat) (filename mode : Z) : Keeps (sys_chmod fuel filename mode).
Proof. unfold sys_chmod. keeps. Qed.
#[export] Instance keeps_sys_chown (fuel : nat) (filename uid gid : Z) : Keeps (sys_chown fuel filename uid gid).
Proof. unfold sys_chown. keeps. Qed.
#[export] Instance keeps_free_file (n : nat) (i : Z) : Keeps (free_file n i).
Proof. keeps_rec n free_file. Qed.
#[export] Instance keeps_sys_stat (junk : Z -> Z) (fuel : nat) (filename statbuf : Z) : Keeps (sys_stat junk fuel filename statbuf).
Proof. unfold sys_stat. keeps. Qed.

(** ** Descriptors and counts, one at a time *)

Definition shift (v n : Z) (d : Z -> Z) : Z -> Z := fun q => if decide (q = v) then d q + n else d q.

Lemma file_u32 q : is_file q -> in_u32 q /\ q <> 0.
Proof.
  intros (k & Hk & ->). pose proof table_low. pose proof table_high.
  unfold file_at, in_u32, sizeof_file, NR_FILE in *. lia.
Qed.
Lemma owed_zero d s : owed d s -> (forall q, is_file q -> d q = 0) -> counted s.
Proof.
  intros [H1 H2 H3] H. constructor; [intros k Hk | done | done].
  rewrite H1, H by (done || by exists k). lia.
Qed.
Lemma owed_ext d d' s : owed d s -> (forall q, is_file q -> d q = d' q) -> owed d' s.
Proof. intros [H1 H2 H3] H. constructor; [intros k Hk | done | done]. rewrite H1, H; [done | by exists k | done]. Qed.
Lemma ftab_length s a l : ftab s !! a = Some l -> length l = 20%nat.
Proof.
  unfold ftab. rewrite lookup_fmap. intros (t & _ & ->)%fmap_Some. apply filps_length.
Qed.
Lemma owed_holders d s q : owed d s -> 0 <= holders q (ftab s) <= 1280.
Proof.
  intros [_ _ H]. pose proof (holders_bounds q 20 (ftab s)) as Hb.
  assert (0 <= holders q (ftab s) <= Z.of_nat 20 * Z.of_nat (size (ftab s))).
  { apply Hb. intros a l Hl. by rewrite (ftab_length _ _ _ Hl). }
  unfold NR_TASKS in H. lia.
Qed.

Lemma fcur_get_inv f s v s' :
  fcur_get f s = Done v s' -> s' = s /\ exists t : task_struct, tasks (fps s) !! current (fps s) = Some t /\ v = t f.
Proof.
  intros H. unfold fcur_get, on_ps in H. destruct (cur_get f (fps s)) as [a p |] eqn:E; [| done].
  injection H as -> <-. unfold cur_get in E. apply bind_inv in E as (c & p1 & E1 & E). injection E1 as <- <-.
  unfold tget, get_opt in E. destruct (tasks (fps s) !! current (fps s)) as [t |]; [| done].
  injection E as <- <-. split; [by destruct s | by exists t].
Qed.
Lemma own_lookup s (t : task_struct) i :
  tasks (fps s) !! current (fps s) = Some t -> 0 <= i < NR_OPEN ->
  own s = Some (filps t) /\ filps t !! Z.to_nat i = Some (t (T_filp i)).
Proof. intros Ht Hi. split; [| by apply filps_lookup]. unfold own, ftab. by rewrite lookup_fmap, Ht. Qed.
Lemma fcur_get_filp i s v s' :
  0 <= i < NR_OPEN -> fcur_get (T_filp i) s = Done v s' ->
  s' = s /\ exists l, own s = Some l /\ l !! Z.to_nat i = Some v.
Proof.
  intros Hi H. apply fcur_get_inv in H as (-> & t & Ht & ->). split; [done |].
  exists (filps t). by apply own_lookup.
Qed.
Lemma filp_get_inv fd s v s' :
  filp_get fd s = Done v s' ->
  s' = s /\ 0 <= fd < NR_OPEN /\ exists l, own s = Some l /\ l !! Z.to_nat fd = Some v.
Proof.
  unfold filp_get. intros H. destruct (Z.leb_spec 0 fd); [| done]. destruct (Z.ltb_spec fd NR_OPEN); [| done].
  apply fcur_get_filp in H as [-> H]; [done | lia].
Qed.
Lemma fget_inv p f s v s' : fget p f s = Done v s' -> s' = s /\ v = cell s p f.
Proof.
  unfold fget, get_opt, cell. intros H. destruct (cells s !! (p, f)); [by injection H as <- <- | done].
Qed.

(** The search for an unused descriptor. *)
Lemma free_fd_inv n : forall arg s r s',
  0 <= arg -> arg + Z.of_nat n = NR_OPEN -> free_fd n arg s = Done r s' ->
  s' = s /\ arg <= r /\ (r < NR_OPEN -> exists l, own s = Some l /\ l !! Z.to_nat r = Some 0).
Proof.
  induction n as [| n IH]; intros arg s r s' Ha Hn H; cbn [free_fd] in H.
  - injection H as <- <-. repeat split; lia.
  - apply bind_inv in H as (p & s1 & E & H). apply fcur_get_filp in E as (-> & l & Hl & Hp); [| lia].
    destruct (Z.eqb_spec p 0) as [-> | _].
    + injection H as <- <-. repeat split; [lia |]. intros _. by exists l.
    + apply IH in H as (-> & Hr & H); [| lia | lia]. repeat split; [lia | done].
Qed.
(** The search for an unused file. *)
Lemma free_file_inv n : forall i s r s',
  0 <= i -> i + Z.of_nat n = NR_FILE -> free_file n i s = Done r s' ->
  s' = s /\ i <= r /\ (r < NR_FILE -> cell s (file_at r) f_count = 0).
Proof.
  induction n as [| n IH]; intros i s r s' Hi Hn H; cbn [free_file] in H.
  - injection H as <- <-. repeat split; lia.
  - apply bind_inv in H as (c & s1 & E & H). apply fget_inv in E as [-> ->].
    destruct (Z.eqb_spec (cell s (file_at i) f_count) 0) as [E | _].
    + injection H as <- <-. repeat split; [lia | done].
    + apply IH in H as (-> & Hr & H); [| lia | lia]. repeat split; [lia | done].
Qed.

(** Filling a descriptor or clearing it. *)
Lemma put_filp_owed d i v s u s' :
  owed d s -> 0 <= i < NR_OPEN -> v = 0 \/ is_file v -> fcur_put (T_filp i) v s = Done u s' ->
  exists l old, own s = Some l /\ l !! Z.to_nat i = Some old /\ own s' = Some (<[Z.to_nat i := v]> l) /\
    current (fps s') = current (fps s) /\ cells s' = cells s /\
    (forall a, a <> current (fps s) -> ftab s' !! a = ftab s !! a) /\
    owed (shift old 1 (shift v (-1) d)) s'.
Proof.
  intros [Hc Hp Hs] Hi Hv H. unfold fcur_put, on_ps in H. destruct (cur_put (T_filp i) v (fps s)) as [[] p |] eqn:E; [| done].
  injection H as <- <-. unfold cur_put in E. apply bind_inv in E as (c & p1 & E1 & E). injection E1 as <- <-.
  unfold tput in E. destruct (tasks (fps s) !! current (fps s)) as [t |] eqn:Et; [injection E as <- | done].
  destruct (own_lookup s t i Et Hi) as [Ho Hl].
  assert (Hv32 : in_u32 v) by (destruct Hv as [-> | Hv]; [done | by apply file_u32]).
  assert (Ef : ftab (set_fps (set_tasks (<[current (fps s) := tset (T_filp i) v t]> (tasks (fps s))) (fps s)) s) =
    <[current (fps s) := <[Z.to_nat i := v]> (filps t)]> (ftab s)).
  { unfold ftab. cbn [fps set_fps tasks set_tasks]. by rewrite fmap_insert, filps_tset. }
  exists (filps t), (t (T_filp i)).
  split_and!; [done | done | | done | done | |].
  - unfold own. rewrite Ef. cbn [fps set_fps current set_tasks]. by rewrite lookup_insert_eq.
  - intros a Ha. rewrite Ef. by rewrite lookup_insert_ne.
  - constructor; rewrite Ef.
    + intros k Hk. rewrite (holders_insert _ _ (filps t)) by exact Ho. rewrite (occ_insert _ _ _ _ _ Hl).
      rewrite cell_set_fps, Hc by done. unfold shift. repeat case_decide; subst; try congruence; lia.
    + intros a l q Hal Hq. destruct (decide (a = current (fps s))) as [-> | Ha].
      * rewrite lookup_insert_eq in Hal. injection Hal as <-.
        apply list_elem_of_lookup in Hq as [j Hj]. apply list_lookup_insert_Some in Hj as [(_ & <- & _) | [_ Hj]]; [done |].
        apply (Hp _ _ _ Ho). by apply list_elem_of_lookup_2 in Hj.
      * rewrite lookup_insert_ne in Hal by done. by apply (Hp _ _ _ Hal).
    + rewrite map_size_insert_Some; [done | by exists (filps t)].
Qed.

(** Setting a count. *)
Lemma owed_cell d p s : is_file p -> owed d s -> cell s p f_count = holders p (ftab s) + d p.
Proof. intros (k & Hk & ->) [Hc _ _]. by apply Hc. Qed.
Lemma put_count_owed d p c s u s' :
  is_file p -> owed d s -> 0 <= c < 65536 -> fput p f_count c s = Done u s' ->
  fps s' = fps s /\ (forall q, cell s' q f_count = if decide (q = p) then c else cell s q f_count) /\
  owed (shift p (c - cell s p f_count) d) s'.
Proof.
  intros Hp Hs Hr H. pose proof (owed_cell d p s Hp Hs) as Ec. destruct Hs as [Hc Hq Hs].
  unfold fput in H. destruct (cells s !! (p, f_count)); [injection H as <- <- | done].
  change (set_cells _ s) with (upd p f_count c s).
  assert (E : forall q, cell (upd p f_count c s) q f_count = if decide (q = p) then c else cell s q f_count).
  { intros q. case_decide as Eq; [subst q; rewrite cell_upd_eq; by apply u16_small | by apply cell_upd_obj]. }
  split; [done |]. split; [done |]. constructor; [intros k Hk | exact Hq | exact Hs].
  rewrite E. change (ftab (upd p f_count c s)) with (ftab s). unfold shift. case_decide as Eq; [| by apply Hc].
  rewrite Eq, Ec. lia.
Qed.
Lemma finc_owed d p s u s' :
  is_file p -> owed d s -> d p <= 1 -> 0 <= cell s p f_count ->
  finc p f_count s = Done u s' ->
  fps s' = fps s /\ (forall q, cell s' q f_count = if decide (q = p) then cell s p f_count + 1 else cell s q f_count) /\
  owed (shift p 1 d) s'.
Proof.
  intros Hp Hs Hd Hn H. pose proof (owed_holders d s p Hs) as Hh. pose proof (owed_cell d p s Hp Hs) as Ec.
  unfold finc in H. apply bind_inv in H as (c & s1 & E & H). apply fget_inv in E as [-> ->].
  apply (put_count_owed d) in H as (Hf & Hc & Ho); [| done | done | lia]. split; [done |]. split; [done |].
  by replace 1 with (cell s p f_count + 1 - cell s p f_count) by lia.
Qed.
Lemma fdec_owed d p s u s' :
  is_file p -> owed d s -> cell s p f_count <> 0 -> 0 <= d p <= 1 ->
  fdec p f_count s = Done u s' -> owed (shift p (-1) d) s'.
Proof.
  intros Hp Hs Hne Hd H. pose proof (owed_holders d s p Hs) as Hh. pose proof (owed_cell d p s Hp Hs) as Ec.
  unfold fdec in H. apply bind_inv in H as (c & s1 & E & H). apply fget_inv in E as [-> ->].
  apply (put_count_owed d) in H as (_ & _ & Ho); [| done | done | lia].
  by replace (-1) with (cell s p f_count - 1 - cell s p f_count) by lia.
Qed.
Lemma own_file d s l i q : owed d s -> own s = Some l -> l !! i = Some q -> q <> 0 -> is_file q.
Proof.
  intros [_ Hp _] Hl Hi Hq. destruct (Hp _ _ q Hl) as [| Hf]; [by apply list_elem_of_lookup_2 in Hi | done | done].
Qed.

(** ** The calls that change descriptors *)

Class Counts {A} (m : M fstate A) : Prop := counts : forall s a s', m s = Done a s' -> counted s -> counted s'.
#[export] Instance keeps_counts {A} (m : M fstate A) : Keeps m -> Counts m | 10.
Proof. intros Hm s a s' H. exact (st_counted _ _ (Hm _ _ _ H)). Qed.
Lemma counts_bind {A B} (m : M fstate A) (k : A -> M fstate B) :
  Counts m -> (forall a, Counts (k a)) -> Counts (m ≫= k).
Proof. intros Hm Hk s b s' H Hc. apply bind_inv in H as (a & s1 & H1 & H2). eapply Hk, Hm; eauto. Qed.

#[export] Instance counts_dupfd fd arg : 0 <= arg -> Counts (dupfd fd arg).
Proof.
  intros Ha s r s' H Hc. unfold dupfd in H. destruct (Z.leb_spec NR_OPEN fd); [by injection H as <- <- |].
  apply bind_inv in H as (p & s1 & E & H). apply filp_get_inv in E as (-> & Hfd & l & Hl & Hp).
  destruct (Z.eqb_spec p 0) as [| Hp0]; [by injection H as <- <- |].
  destruct (Z.leb_spec NR_OPEN arg); [by injection H as <- <- |].
  apply bind_inv in H as (n & s1 & E & H). apply free_fd_inv in E as (-> & Hn & Hfree); [| lia | unfold NR_OPEN in *; lia].
  destruct (Z.leb_spec NR_OPEN n); [by injection H as <- <- |].
  apply bind_inv in H as ([] & s1 & E & H). pose proof (keeps _ _ _ E) as [_ Ho1 Hc1 _].
  apply bind_inv in H as (p' & s2 & E' & H). apply filp_get_inv in E' as (-> & _ & l' & Hl' & Hp').
  rewrite Ho1, Hl in Hl'. injection Hl' as <-. rewrite Hp in Hp'. injection Hp' as <-.
  destruct Hfree as (l' & Hl' & Hz); [done |]. rewrite Hl in Hl'. injection Hl' as <-.
  assert (Hpf : is_file p) by exact (own_file _ _ _ _ _ Hc Hl Hp Hp0).
  apply bind_inv in H as (u & s2 & E2 & H).
  apply (put_filp_owed (fun _ => 0)) in E2 as (l2 & old & Hl2 & Hold & _ & _ & Ece & _ & Ho2); [| by apply Hc1 | lia | by right].
  rewrite Ho1, Hl in Hl2. injection Hl2 as <-. rewrite Hz in Hold. injection Hold as <-.
  apply bind_inv in H as (u' & s3 & E3 & H). injection H as <- <-.
  apply (finc_owed (shift 0 1 (shift p (-1) (fun _ => 0)))) in E3 as (_ & _ & Ho3); [| done | done | |].
  - apply (owed_zero _ _ Ho3). intros q Hq. pose proof (proj2 (file_u32 _ Hq)). unfold shift. repeat case_decide; lia.
  - unfold shift. repeat case_decide; lia.
  - rewrite (cell_ext _ _ Ece), (owed_cell _ _ _ Hpf (Hc1 Hc)). pose proof (owed_holders _ _ p (Hc1 Hc)). lia.
Qed.

#[export] Instance counts_sys_close fuel fd : Counts (sys_close fuel fd).
Proof.
  intros s r s' H Hc. unfold sys_close in H. destruct (Z.leb_spec NR_OPEN fd); [by injection H as <- <- |].
  apply bind_inv in H as ([] & s1 & E & H). pose proof (st_counted _ _ (keeps _ _ _ E) Hc) as Hc1. clear E Hc s. rename Hc1 into Hc.
  apply bind_inv in H as (p & s2 & E & H). apply filp_get_inv in E as (-> & Hfd & l & Hl & Hp).
  destruct (Z.eqb_spec p 0) as [| Hp0]; [by injection H as <- <- |].
  pose proof (own_file _ _ _ _ _ Hc Hl Hp Hp0) as Hpf.
  apply bind_inv in H as (u & s2 & E & H).
  apply (put_filp_owed (fun _ => 0)) in E as (l2 & old & Hl2 & Hold & _ & _ & _ & _ & Ho); [| done | lia | by left].
  rewrite Hl in Hl2. injection Hl2 as <-. rewrite Hp in Hold. injection Hold as <-.
  apply bind_inv in H as (c & s3 & E & H). apply fget_inv in E as [-> ->].
  apply bind_inv in H as ([] & s3 & E & H). destruct (Z.eqb_spec (cell s2 p f_count) 0) as [| Hne]; [done |]. injection E as <-.
  apply bind_inv in H as (u' & s3 & E & H).
  apply (fdec_owed _ _ _ _ _ Hpf Ho Hne) in E as Ho3; [| unfold shift; repeat case_decide; lia].
  assert (Hc3 : counted s3).
  { apply (owed_zero _ _ Ho3). intros q Hq. pose proof (proj2 (file_u32 _ Hq)). unfold shift. repeat case_decide; lia. }
  revert Hc3. revert H. apply keeps_counts. keeps.
Qed.

#[export] Instance counts_sys_dup2 fuel oldfd newfd : 0 <= newfd -> Counts (sys_dup2 fuel oldfd newfd).
Proof. intros Hn. unfold sys_dup2. apply counts_bind; [apply _ | intros; by apply counts_dupfd]. Qed.
#[export] Instance counts_sys_dup fd : Counts (sys_dup fd).
Proof. by apply counts_dupfd. Qed.
#[export] Instance counts_sys_fcntl fd cmd arg : 0 <= arg -> Counts (sys_fcntl fd cmd arg).
Proof.
  intros Ha. unfold sys_fcntl. destruct (NR_OPEN <=? fd); [apply _ |]. apply counts_bind; [apply _ | intros p].
  destruct (p =? 0); [apply _ |]. destruct (cmd =? F_DUPFD); [by apply counts_dupfd |].
  apply keeps_counts. keeps.
Qed.

(** A file that only the current task holds, [l] being its descriptors: so it
    stays while the task waits, and its count is the task's own holding. *)
Record opened (l : list Z) (f : Z) (s : fstate) : Prop := {
  op_counted : counted s;
  op_file : is_file f;
  op_own : own s = Some l;
  op_in : f ∈ l;
  op_mine : mine f s
}.

Lemma opened_cell l f s : opened l f s -> cell s f f_count = occ f l.
Proof.
  intros [Hc Hf Ho Hin Hm]. rewrite (owed_cell _ _ _ Hf Hc), (holders_split f (current (fps s)) l) by exact Ho.
  rewrite holders_none; [lia |]. intros a k Hk Hq. destruct (decide (a = current (fps s))) as [-> | Hne].
  - by rewrite lookup_delete_eq in Hk.
  - rewrite lookup_delete_ne in Hk by done. apply Hne. by apply (Hm a k).
Qed.
Lemma opened_steady l f s s' : steady s s' -> opened l f s -> opened l f s'.
Proof.
  intros [_ Ho Hc Hm] [Hc1 Hf Ho1 Hin Hm1]. constructor; [auto | done | by rewrite Ho | done |].
  apply (Hm l); [done | done | done | by apply file_u32 | done].
Qed.
Lemma unheld d s f a l : owed d s -> is_file f -> cell s f f_count = 0 -> 0 <= d f -> ftab s !! a = Some l -> ~ f ∈ l.
Proof.
  intros Hs Hf Hz Hd. apply holders_zero. pose proof (owed_cell _ _ _ Hf Hs). pose proof (owed_holders _ _ f Hs). lia.
Qed.

(** Giving it back: the descriptor [fd] that holds it, then its count. *)
Lemma give_back fd f l s r a s' :
  opened l f s -> l !! Z.to_nat fd = Some f -> occ f l = 1 -> 0 <= fd < NR_OPEN ->
  (_ ← fcur_put (T_filp fd) 0; _ ← fput f f_count 0; mret (r : Z)) s = Done a s' -> counted s'.
Proof.
  intros Hop Hl H1 Hfd H. pose proof (opened_cell _ _ _ Hop) as Hcell. destruct Hop as [Hc Hf Ho _ _].
  apply bind_inv in H as (u & s1 & E & H).
  apply (put_filp_owed _ _ _ _ _ _ Hc Hfd (or_introl eq_refl)) in E as (l1 & old & Hl1 & Hold & _ & _ & Ece & _ & Ho1).
  rewrite Ho in Hl1. injection Hl1 as <-. rewrite Hl in Hold. injection Hold as <-.
  apply bind_inv in H as (u' & s2 & E & H). injection H as <- <-.
  apply (put_count_owed _ _ _ _ _ _ Hf Ho1) in E as (_ & _ & Ho2); [| lia]. rewrite (cell_ext _ _ Ece), Hcell, H1 in Ho2.
  apply (owed_zero _ _ Ho2). intros q Hq. pose proof (proj2 (file_u32 _ Hq)). unfold shift. repeat case_decide; lia.
Qed.

(** Taking an unused file under an unused descriptor. *)
Lemma take_slot fd f l s u s' :
  counted s -> is_file f -> cell s f f_count = 0 -> own s = Some l -> l !! Z.to_nat fd = Some 0 -> 0 <= fd < NR_OPEN ->
  (_ ← fcur_put (T_filp fd) f; finc f f_count) s = Done u s' ->
  exists l', opened l' f s' /\ l' !! Z.to_nat fd = Some f /\ occ f l' = 1.
Proof.
  intros Hc Hf Hun Hl Hz Hfd H. apply bind_inv in H as (u1 & s1 & E & H).
  apply (put_filp_owed _ _ _ _ _ _ Hc Hfd (or_intror Hf)) in E as (l2 & old & Hl2 & Hold & Hown & Hcur & Ece & Hoth & Ho).
  rewrite Hl in Hl2. injection Hl2 as <-. rewrite Hz in Hold. injection Hold as <-.
  pose proof (proj2 (file_u32 _ Hf)) as Hf0.
  apply (finc_owed _ _ _ _ _ Hf Ho) in H as (Ep & _ & Ho2);
    [| unfold shift; repeat case_decide; lia | rewrite (cell_ext _ _ Ece); lia].
  assert (Hin : <[Z.to_nat fd := f]> l !! Z.to_nat fd = Some f).
  { apply list_lookup_insert_eq. by apply lookup_lt_Some in Hz. }
  assert (Hno : ~ f ∈ l) by exact (unheld _ s _ _ _ Hc Hf Hun (Z.le_refl 0) Hl).
  exists (<[Z.to_nat fd := f]> l). split_and!; [constructor | done |].
  - apply (owed_zero _ _ Ho2). intros q Hq. pose proof (proj2 (file_u32 _ Hq)). unfold shift. repeat case_decide; lia.
  - done.
  - unfold own, ftab. rewrite Ep. exact Hown.
  - by apply list_elem_of_lookup_2 in Hin.
  - intros a k Hk Hq. unfold ftab in Hk. rewrite Ep in *. rewrite Hcur. destruct (decide (a = current (fps s))) as [| Hne]; [done |].
    change (ftab s1 !! a = Some k) in Hk. rewrite Hoth in Hk by done. by destruct (unheld _ s f a k Hc Hf Hun (Z.le_refl 0) Hk).
  - rewrite (occ_insert _ _ _ _ _ Hz), occ_none by done. repeat case_decide; lia.
Qed.

Lemma opened_step {A} (m : M fstate A) `{!Keeps m} l f s a s' : opened l f s -> m s = Done a s' -> opened l f s'.
Proof. intros Ho H. exact (opened_steady _ _ _ _ (keeps _ _ _ H) Ho). Qed.
Lemma opened_final {A} (m : M fstate A) `{!Keeps m} l f s a s' : opened l f s -> m s = Done a s' -> counted s'.
Proof. intros Ho H. exact (op_counted _ _ _ (opened_step m l f s a s' Ho H)). Qed.

#[export] Instance counts_sys_open fuel filename flag mode : Counts (sys_open fuel filename flag mode).
Proof.
  intros s r s' H Hc. unfold sys_open in H.
  apply bind_inv in H as (um & s1 & E & H). apply fcur_get_inv in E as [-> _]. cbv zeta in H.
  apply bind_inv in H as (fd & s1 & E & H). apply free_fd_inv in E as (-> & Hfd & Hfree); [| done | done].
  destruct (Z.leb_spec NR_OPEN fd); [by injection H as <- <- |].
  destruct Hfree as (l0 & Hl & Hz); [done |].
  apply bind_inv in H as ([] & s1 & E & H). destruct (keeps _ _ _ E) as [_ Ho1 Hc1 _].
  rewrite Hl in Ho1. specialize (Hc1 Hc). clear E Hc Hl s.
  apply bind_inv in H as (i & s2 & E & H). apply free_file_inv in E as (-> & Hi & Hunused); [| done | done].
  destruct (Z.leb_spec NR_FILE i); [by injection H as <- <- |].
  rewrite <- bind_assoc in H. apply bind_inv in H as (u & s2 & E & H).
  apply (take_slot fd (file_at i) l0) in E as (l & Hop & Hin & Hone); [| done | exists i; lia | by apply Hunused | done | done | lia].
  apply bind_inv in H as ([n inode] & s3 & E & H). apply (opened_step _ _ _ _ _ _ Hop) in E. clear Hop.
  destruct (n <? 0); [by apply (give_back _ _ _ _ _ _ _ E Hin Hone) in H; [| lia] |].
  apply bind_inv in H as (im & s4 & E4 & H). apply (opened_step _ _ _ _ _ _ E) in E4. clear E.
  apply bind_inv in H as (z & s5 & E5 & H). apply (opened_step _ _ _ _ _ _ E4) in E5. clear E4.
  apply bind_inv in H as (refuse & s6 & E6 & H).
  match type of E6 with ?m _ = _ => assert (Hk : Keeps m) by keeps end.
  apply (opened_step _ _ _ _ _ _ E5) in E6. clear E5 Hk.
  destruct refuse.
  - apply bind_inv in H as (u' & s7 & E7 & H). apply (opened_step _ _ _ _ _ _ E6) in E7.
    by apply (give_back _ _ _ _ _ _ _ E7 Hin Hone) in H; [| lia].
  - apply bind_inv in H as (im' & s7 & E7 & H). apply (opened_step _ _ _ _ _ _ E6) in E7. clear E6.
    apply bind_inv in H as (u1 & s8 & E8 & H). apply (opened_step _ _ _ _ _ _ E7) in E8. clear E7.
    apply bind_inv in H as (u2 & s9 & E9 & H). apply (opened_step _ _ _ _ _ _ E8) in E9. clear E8.
    apply bind_inv in H as (u3 & sa & Ea & H). pose proof (opened_cell _ _ _ E9) as Hcell. destruct E9 as [Hc Hf _ _ _].
    apply (put_count_owed _ _ _ _ _ _ Hf Hc) in Ea as (_ & _ & Ha); [| lia]. rewrite Hcell, Hone in Ha.
    assert (Hca : counted sa) by (apply (owed_zero _ _ Ha); intros q _; unfold shift; case_decide; lia).
    revert Hca. revert H. apply keeps_counts. keeps.
Qed.
#[export] Instance counts_sys_creat fuel pathname mode : Counts (sys_creat fuel pathname mode).
Proof. apply counts_sys_open. Qed.

(** *** Pipes *)

Lemma file_at_inj j k : file_at j = file_at k -> j = k.
Proof. unfold file_at, sizeof_file. lia. Qed.

Lemma take_files_owed m : forall n i d s l s',
  0 <= i -> i + Z.of_nat m = NR_FILE -> (forall k, i <= k < NR_FILE -> d (file_at k) = 0) ->
  owed d s -> take_files m n i s = Done l s' ->
  fps s' = fps s /\ owed (fun q => d q + occ q l) s' /\ (length l <= n)%nat /\ NoDup l /\
  (forall q, q ∈ l -> (exists k, i <= k < NR_FILE /\ q = file_at k) /\ cell s q f_count = 0 /\ cell s' q f_count = 1) /\
  (forall q, ~ q ∈ l -> cell s' q f_count = cell s q f_count).
Proof.
  induction m as [| m IH]; intros n i d s l s' Hi Hm Hd Ho H.
  { injection H as <- <-. split_and!; [done | | cbn; lia | constructor | | done].
    - apply (owed_ext _ _ _ Ho). intros q _. cbn. lia.
    - intros q Hq. by apply elem_of_nil in Hq. }
  destruct n as [| n]; cbn [take_files] in H.
  { injection H as <- <-. split_and!; [done | | done | constructor | | done].
    - apply (owed_ext _ _ _ Ho). intros q _. cbn. lia.
    - intros q Hq. by apply elem_of_nil in Hq. }
  apply bind_inv in H as (c & s1 & E & H). apply fget_inv in E as [-> ->].
  assert (Hf : is_file (file_at i)) by (exists i; lia).
  destruct (Z.eqb_spec (cell s (file_at i) f_count) 0) as [Hz | Hz].
  - apply bind_inv in H as (u & s1 & E & H). apply bind_inv in H as (l' & s2 & E2 & H). injection H as <- <-.
    apply (finc_owed _ _ _ _ _ Hf Ho) in E as (Ep & Hc & Ho1); [| rewrite Hd by lia; lia | lia].
    assert (Hd1 : forall k, i + 1 <= k < NR_FILE -> shift (file_at i) 1 d (file_at k) = 0).
    { intros k Hk. unfold shift. rewrite decide_False; [apply Hd; lia |]. intros E%file_at_inj. lia. }
    destruct (IH _ (i + 1) _ _ _ _ ltac:(lia) ltac:(lia) Hd1 Ho1 E2) as (Ep2 & Ho2 & Hlen & Hnd & Hin & Hout).
    assert (Hni : ~ file_at i ∈ l') by (intros ((k & Hk & E%file_at_inj) & _)%Hin; lia).
    split_and!.
    + by rewrite Ep2.
    + apply (owed_ext _ _ _ Ho2). intros q _. cbn [occ]. unfold shift. repeat case_decide; subst; try congruence; lia.
    + cbn [length]. lia.
    + by constructor.
    + intros q [-> | Hq]%elem_of_cons.
      * split; [by exists i; split; [lia |] |]. split; [done |]. rewrite Hout, Hc, decide_True by done. lia.
      * destruct (Hin q Hq) as ((k & Hk & ->) & E & E'). split; [exists k; split; [lia | done] |]. split; [| done].
        rewrite Hc, decide_False in E; [done |]. intros ?%file_at_inj. lia.
    + intros q Hq. apply not_elem_of_cons in Hq as [Hq1 Hq2]. rewrite Hout, Hc, decide_False by done. done.
  - destruct (IH _ (i + 1) _ _ _ _ ltac:(lia) ltac:(lia) ltac:(intros k Hk; apply Hd; lia) Ho H) as (Ep2 & Ho2 & Hlen & Hnd & Hin & Hout).
    split_and!; [done.. | | done]. intros q Hq. destruct (Hin q Hq) as ((k & Hk & ->) & E). split; [| done].
    exists k. split; [lia | done].
Qed.

Lemma take_fds_owed m : forall fs i d s ds s' l,
  0 <= i -> i + Z.of_nat m = NR_OPEN -> Forall is_file fs -> owed d s -> own s = Some l ->
  take_fds m fs i s = Done ds s' ->
  (length ds <= length fs)%nat /\ current (fps s') = current (fps s) /\ cells s' = cells s /\
  (forall a, a <> current (fps s) -> ftab s' !! a = ftab s !! a) /\
  owed (fun q => d q - occ q (take (length ds) fs)) s' /\
  exists l', own s' = Some l' /\ (forall j, (j < Z.to_nat i)%nat -> l' !! j = l !! j) /\
    forall j x f, ds !! j = Some x -> fs !! j = Some f -> i <= x < NR_OPEN /\ l' !! Z.to_nat x = Some f.
Proof.
  induction m as [| m IH]; intros fs i d s ds s' l Hi Hm Hfs Ho Hl H.
  { injection H as <- <-. split_and!; [cbn; lia | done.. | |].
    - apply (owed_ext _ _ _ Ho). intros q _. change (d q = d q - 0). lia.
    - exists l. by split_and!. }
  destruct fs as [| f fs]; cbn [take_fds] in H.
  { injection H as <- <-. split_and!; [cbn; lia | done.. | |].
    - apply (owed_ext _ _ _ Ho). intros q _. change (d q = d q - 0). lia.
    - exists l. by split_and!. }
  apply bind_inv in H as (p & s1 & E & H). apply fcur_get_filp in E as (-> & l2 & Hl2 & Hp); [| lia].
  rewrite Hl in Hl2. injection Hl2 as <-. apply Forall_cons in Hfs as [Hf Hfs].
  destruct (Z.eqb_spec p 0) as [-> | _].
  - apply bind_inv in H as (u & s1 & E & H). apply bind_inv in H as (ds' & s2 & E2 & H). injection H as <- <-.
    apply (put_filp_owed _ _ _ _ _ _ Ho) in E as (l2 & old & Hl2 & Hold & Hown & Hcur & Ece & Hoth & Ho1); [| lia | by right].
    rewrite Hl in Hl2. injection Hl2 as <-. rewrite Hp in Hold. injection Hold as <-.
    destruct (IH _ (i + 1) _ _ _ _ _ ltac:(lia) ltac:(lia) Hfs Ho1 Hown E2) as (Hlen & Hcur2 & Ece2 & Hoth2 & Ho2 & l' & Hown2 & Hlow & Hin).
    split_and!.
    + cbn [length]. lia.
    + by rewrite Hcur2.
    + by rewrite Ece2.
    + intros a Ha. rewrite Hoth2 by (by rewrite Hcur). by apply Hoth.
    + apply (owed_ext _ _ _ Ho2). intros q Hq. pose proof (proj2 (file_u32 _ Hq)).
      change (take (length (i :: ds')) (f :: fs)) with (f :: take (length ds') fs). cbn [occ]. unfold shift.
      repeat case_decide; subst; try congruence; lia.
    + exists l'. split; [done |]. split.
      * intros j Hj. rewrite Hlow by lia. apply list_lookup_insert_ne. lia.
      * intros [| j] x g Hx Hg.
        -- injection Hx as <-. injection Hg as <-. split; [lia |]. rewrite Hlow by lia.
           apply list_lookup_insert_eq. by apply lookup_lt_Some in Hp.
        -- destruct (Hin j x g Hx Hg) as [Hr Hg']. split; [lia | done].
  - destruct (IH (f :: fs) (i + 1) _ _ _ _ _ ltac:(lia) ltac:(lia) ltac:(by constructor) Ho Hl H) as (Hlen & Hcur2 & Ece2 & Hoth2 & Ho2 & l' & Hown2 & Hlow & Hin).
    split_and!; [done.. |]. exists l'. split; [done |]. split.
    + intros j Hj. apply Hlow. lia.
    + intros j x g Hx Hg. destruct (Hin j x g Hx Hg) as [Hr Hg']. split; [lia | done].
Qed.

(** Giving up the files [f1] and [f0]. *)
Lemma drop_counts d f1 f0 s r a s' :
  is_file f0 -> is_file f1 -> f0 <> f1 -> owed d s -> cell s f0 f_count = 1 -> cell s f1 f_count = 1 ->
  (_ ← fput f1 f_count 0; _ ← fput f0 f_count 0; mret (r : Z)) s = Done a s' ->
  owed (shift f0 (-1) (shift f1 (-1) d)) s'.
Proof.
  intros H0 H1 Hne Ho E0 E1 H. apply bind_inv in H as (u & s1 & E & H). apply bind_inv in H as (u' & s2 & E' & H).
  injection H as <- <-.
  apply (put_count_owed _ _ _ _ _ _ H1 Ho) in E as (_ & Hc & Ho1); [| lia].
  apply (put_count_owed _ _ _ _ _ _ H0 Ho1) in E' as (_ & _ & Ho2); [| lia].
  rewrite Hc, decide_False, E0, E1 in Ho2 by done. exact Ho2.
Qed.

(** The pipe's two files under their descriptors, until there is an inode. *)
Lemma pipe_slots f0 f1 ds s s1 s2 l0 :
  counted s -> fps s1 = fps s -> owed (fun q => 0 + occ q [f0; f1]) s1 -> f0 <> f1 -> own s1 = Some l0 ->
  (forall f, f ∈ [f0; f1] -> is_file f /\ cell s f f_count = 0 /\ cell s1 f f_count = 1) ->
  take_fds (Z.to_nat NR_OPEN) [f0; f1] 0 s1 = Done ds s2 ->
  (length ds <= 2)%nat /\ (forall f, f ∈ [f0; f1] -> cell s2 f f_count = 1) /\
  owed (fun q => occ q (drop (length ds) [f0; f1])) s2 /\
  exists l, own s2 = Some l /\
    (forall j x f, ds !! j = Some x -> [f0; f1] !! j = Some f -> 0 <= x < NR_OPEN /\ l !! Z.to_nat x = Some f) /\
    (length ds = 2%nat -> forall f, f ∈ [f0; f1] -> opened l f s2).
Proof.
  intros Hc Ep Ho Hne Hl Hf H.
  assert (Hfs : Forall is_file [f0; f1]) by (apply Forall_forall; intros f Hin; by apply Hf).
  destruct (take_fds_owed (Z.to_nat NR_OPEN) _ 0 _ _ _ _ _ ltac:(lia) eq_refl Hfs Ho Hl H)
    as (Hlen & Hcur & Ece & Hoth & Ho2 & l & Hown & _ & Hin).
  assert (Hone : forall f, f ∈ [f0; f1] -> cell s2 f f_count = 1).
  { intros f Hff. rewrite (cell_ext _ _ Ece). by apply Hf. }
  assert (Ho3 : owed (fun q => occ q (drop (length ds) [f0; f1])) s2).
  { apply (owed_ext _ _ _ Ho2). intros q _. destruct ds as [| x [| y [| z ds]]]; [.. | cbn in Hlen; lia];
      cbn [length take drop occ]; lia. }
  split; [done |]. split; [done |]. split; [done |]. exists l. split; [done |]. split.
  { intros j x f Hx Hfj. destruct (Hin j x f Hx Hfj). split; [lia | done]. }
  intros E f Hff. destruct (Hf f Hff) as (Hfile & Hz & _).
  assert (Hmem : f ∈ l).
  { apply list_elem_of_lookup in Hff as [j Hj]. destruct (lookup_lt_is_Some_2 ds j) as [x Hx].
    { rewrite E. by apply lookup_lt_Some in Hj. }
    apply list_elem_of_lookup. exists (Z.to_nat x). by apply (Hin j x f Hx Hj). }
  constructor; [| done | done | done |].
  - apply (owed_ext _ _ _ Ho3). intros q _. by rewrite E.
  - intros a k Hk Hq. rewrite Hcur, Ep. destruct (decide (a = current (fps s))) as [| Hna]; [done |].
    rewrite Hoth in Hk by (by rewrite Ep). unfold ftab in Hk. rewrite Ep in Hk.
    by destruct (unheld _ s f a k Hc Hfile Hz (Z.le_refl 0) Hk).
Qed.

(** Without an inode everything is given back. *)
Lemma pipe_undo f0 f1 fd0 fd1 l s a s' :
  f0 <> f1 -> (forall f, f ∈ [f0; f1] -> opened l f s /\ occ f l = 1) ->
  0 <= fd0 < NR_OPEN -> 0 <= fd1 < NR_OPEN -> l !! Z.to_nat fd0 = Some f0 -> l !! Z.to_nat fd1 = Some f1 ->
  (_ ← fcur_put (T_filp fd1) 0; _ ← fcur_put (T_filp fd0) 0; _ ← fput f1 f_count 0; _ ← fput f0 f_count 0; mret (-1)) s
    = Done a s' -> counted s'.
Proof.
  intros Hne Hop H0 H1 Hl0 Hl1 H.
  destruct (Hop f0 ltac:(apply elem_of_cons; by left)) as [Hop0 Ho0].
  destruct (Hop f1 ltac:(apply elem_of_cons; right; by apply list_elem_of_singleton)) as [Hop1 Ho1].
  pose proof (opened_cell _ _ _ Hop0) as E0. pose proof (opened_cell _ _ _ Hop1) as E1.
  destruct Hop0 as [Hc Hf0 Hown _ _]. destruct Hop1 as [_ Hf1 _ _ _].
  apply bind_inv in H as (u & s1 & E & H).
  apply (put_filp_owed _ _ _ _ _ _ Hc H1 (or_introl eq_refl)) in E as (l1 & old & Hl & Hold & Hown1 & _ & Ec1 & _ & Hs1).
  rewrite Hown in Hl. injection Hl as <-. rewrite Hl1 in Hold. injection Hold as <-.
  apply bind_inv in H as (u' & s2 & E & H).
  apply (put_filp_owed _ _ _ _ _ _ Hs1 H0 (or_introl eq_refl)) in E as (l1 & old & Hl & Hold & _ & _ & Ec2 & _ & Hs2).
  rewrite Hown1 in Hl. injection Hl as <-.
  rewrite list_lookup_insert_ne, Hl0 in Hold by (intros E; apply Hne; rewrite E, Hl0 in Hl1; by injection Hl1).
  injection Hold as <-.
  apply (drop_counts _ _ _ _ _ _ _ Hf0 Hf1 Hne Hs2) in H.
  - apply (owed_zero _ _ H). intros q Hq. pose proof (proj2 (file_u32 _ Hq)). unfold shift. repeat case_decide; subst; try congruence; lia.
  - by rewrite (cell_ext _ _ Ec2), (cell_ext _ _ Ec1), E0.
  - by rewrite (cell_ext _ _ Ec2), (cell_ext _ _ Ec1), E1.
Qed.

(** Nor without two descriptors. *)
Lemma pipe_no_fds f0 f1 ds l s r a s' :
  is_file f0 -> is_file f1 -> f0 <> f1 -> (forall f, f ∈ [f0; f1] -> cell s f f_count = 1) ->
  owed (fun q => occ q (drop (length ds) [f0; f1])) s -> own s = Some l ->
  (forall fd, ds = [fd] -> 0 <= fd < NR_OPEN /\ l !! Z.to_nat fd = Some f0) -> (length ds <= 1)%nat ->
  (_ ← match ds with [fd] => fcur_put (T_filp fd) 0 | _ => mret tt end;
   _ ← fput f1 f_count 0; _ ← fput f0 f_count 0; mret (r : Z)) s = Done a s' -> counted s'.
Proof.
  intros Hf0 Hf1 Hne Hone Ho Hown Hds Hlen H.
  assert (E0 : cell s f0 f_count = 1) by (apply Hone, elem_of_cons; by left).
  assert (E1 : cell s f1 f_count = 1) by (apply Hone, elem_of_cons; right; by apply list_elem_of_singleton).
  apply bind_inv in H as (u & s1 & E & H). destruct ds as [| fd [| x ds]]; [| | cbn in Hlen; lia].
  - injection E as <- <-. apply (drop_counts _ _ _ _ _ _ _ Hf0 Hf1 Hne Ho E0 E1) in H.
    apply (owed_zero _ _ H). intros q _. unfold shift. cbn [length drop occ]. repeat case_decide; subst; try congruence; lia.
  - destruct (Hds fd eq_refl) as [Hr Hl].
    apply (put_filp_owed _ _ _ _ _ _ Ho Hr (or_introl eq_refl)) in E as (l1 & old & Hl1 & Hold & _ & _ & Ec & _ & Ho1).
    rewrite Hown in Hl1. injection Hl1 as <-. rewrite Hl in Hold. injection Hold as <-.
    apply (drop_counts _ _ _ _ _ _ _ Hf0 Hf1 Hne Ho1) in H; [| by rewrite (cell_ext _ _ Ec) | by rewrite (cell_ext _ _ Ec)].
    apply (owed_zero _ _ H). intros q Hq. pose proof (proj2 (file_u32 _ Hq)). unfold shift. cbn [length drop occ].
    repeat case_decide; subst; try congruence; lia.
Qed.

Lemma take_fds_own m fs i s ds s' :
  0 <= i < NR_OPEN -> take_fds (S m) fs i s = Done ds s' -> fs <> [] -> exists l, own s = Some l.
Proof.
  intros Hi H Hfs. destruct fs as [| f fs]; [done |]. cbn [take_fds] in H. apply bind_inv in H as (p & s1 & E & _).
  apply fcur_get_filp in E as (_ & l & Hl & _); [by exists l | done].
Qed.

#[export] Instance counts_sys_pipe fuel fildes : Counts (sys_pipe fuel fildes).
Proof.
  intros s r s' H Hc. unfold sys_pipe in H. apply bind_inv in H as (fs & s1 & E & H).
  destruct (take_files_owed (Z.to_nat NR_FILE) 2 0 _ _ _ _ ltac:(lia) eq_refl (fun _ _ => eq_refl) Hc E) as (Ep & Ho & Hlen & Hnd & Hin & _). clear E.
  assert (Hfs : forall f, f ∈ fs -> is_file f /\ cell s f f_count = 0 /\ cell s1 f f_count = 1).
  { intros f Hf. destruct (Hin f Hf) as ((k & Hk & ->) & E). split; [by exists k | done]. }
  destruct fs as [| f0 [| f1 [| f2 fs]]].
  - injection H as <- <-. by apply (owed_zero _ _ Ho).
  - destruct (Hfs f0 ltac:(by apply list_elem_of_singleton)) as (Hf0 & _ & E0).
    apply bind_inv in H as (u & s2 & E & H). injection H as <- <-.
    apply (put_count_owed _ _ _ _ _ _ Hf0 Ho) in E as (_ & _ & Ho2); [| lia]. rewrite E0 in Ho2.
    apply (owed_zero _ _ Ho2). intros q _. unfold shift. cbn [occ]. repeat case_decide; subst; try congruence; lia.
  - assert (Hne : f0 <> f1) by (apply NoDup_cons in Hnd as [Hn _]; intros ->; apply Hn; by apply list_elem_of_singleton).
    apply bind_inv in H as (ds & s2 & E & H).
    destruct (take_fds_own 19 _ 0 _ _ _ ltac:(done) E ltac:(done)) as [l0 Hl0].
    destruct (pipe_slots _ _ _ _ _ _ _ Hc Ep Ho Hne Hl0 Hfs E) as (Hlen2 & Hone & Ho2 & l & Hown & Hds & Hop).
    destruct (Hfs f0 ltac:(apply elem_of_cons; by left)) as (Hf0 & _).
    destruct (Hfs f1 ltac:(apply elem_of_cons; right; by apply list_elem_of_singleton)) as (Hf1 & _).
    destruct ds as [| fd0 [| fd1 [| fd2 ds]]].
    + exact (pipe_no_fds f0 f1 [] l _ _ _ _ Hf0 Hf1 Hne Hone Ho2 Hown ltac:(done) ltac:(cbn; lia) H).
    + destruct (Hds 0%nat fd0 f0 eq_refl eq_refl) as [Hr Hl].
      exact (pipe_no_fds f0 f1 [fd0] l _ _ _ _ Hf0 Hf1 Hne Hone Ho2 Hown ltac:(by intros fd [= <-]) ltac:(cbn; lia) H).
    + apply bind_inv in H as (inode & s3 & E3 & H).
      assert (Hop3 : forall f, f ∈ [f0; f1] -> opened l f s3 /\ occ f l = 1).
      { intros f Hf. specialize (Hop eq_refl f Hf). split; [exact (opened_step _ _ _ _ _ _ Hop E3) |].
        by rewrite <- (opened_cell _ _ _ Hop), Hone. }
      destruct (inode =? 0).
      * destruct (Hds 0%nat fd0 f0 eq_refl eq_refl), (Hds 1%nat fd1 f1 eq_refl eq_refl).
        by apply (pipe_undo f0 f1 fd0 fd1 l) in H.
      * destruct (Hop3 f0 ltac:(apply elem_of_cons; by left)) as [[Hc3 _ _ _ _] _].
        revert Hc3. revert H. apply keeps_counts. keeps.
    + cbn in Hlen2. lia.
  - cbn in Hlen. lia.
Qed.

(** *** Sessions *)

Lemma counts_syscall junk fuel nr a b d :
  match fs_syscall junk fuel nr a b d with Some m => Counts m | None => True end.
Proof.
  pose proof (u32_range b) as Hb. pose proof (u32_range d) as Hd. unfold in_u32 in *.
  unfold fs_syscall. destruct nr as [| p | p]; [exact I | | exact I].
  repeat (lazymatch goal with |- match (match ?q with _ => _ end) with _ => _ end => destruct q; try exact I end);
    first [apply counts_sys_fcntl; lia | apply counts_sys_dup2; lia | apply _].
Qed.

(** Mounting the root empties the table of files: with no descriptor in any
    task the counts are right from then on. *)
Lemma mount_root_counted fuel s s' :
  (forall a l, ftab s !! a = Some l -> Forall (fun q => q = 0) l) -> (size (ftab s) <= Z.to_nat NR_TASKS)%nat ->
  mount_root fuel s = Done tt s' -> counted s'.
Proof.
  intros Hnull Hsize H. unfold mount_root in H. apply bind_inv in H as ([] & s1 & E & H). injection E as <-.
  apply bind_inv in H as ([] & s1 & E & H).
  assert (Hz : forall n i t t', 0 <= i -> for_loop n i (fun i => fput (file_at i) f_count 0) t = Done tt t' ->
    fps t' = fps t /\ (forall k, 0 <= k < i -> cell t (file_at k) f_count = 0 -> cell t' (file_at k) f_count = 0) /\
    forall k, i <= k < i + Z.of_nat n -> cell t' (file_at k) f_count = 0).
  { clear. induction n as [| n IH]; intros i t t' Hi H; cbn [for_loop] in H.
    - injection H as <-. split_and!; [done | done | lia].
    - apply bind_inv in H as ([] & t1 & E & H). unfold fput in E.
      destruct (cells t !! (file_at i, f_count)); [injection E as <- | done]. change (set_cells _ t) with (upd (file_at i) f_count 0 t) in H.
      apply IH in H as (Ep & Hlow & Hn); [| lia]. split_and!; [done | |].
      + intros k Hk E. apply Hlow; [lia |]. rewrite cell_upd_obj; [done |]. intros ?%file_at_inj. lia.
      + intros k Hk. destruct (decide (k = i)) as [-> |]; [| apply Hn; lia]. apply Hlow; [lia |]. by rewrite cell_upd_eq. }
  apply Hz in E as (Ep & _ & Hcell); [| done].
  assert (Hc : counted s1).
  { assert (Hn : forall a l q, ftab s1 !! a = Some l -> q ∈ l -> q = 0).
    { intros a l q Hl Hq. unfold ftab in Hl. rewrite Ep in Hl. specialize (Hnull a l Hl). rewrite Forall_forall in Hnull. by apply Hnull. }
    constructor.
    - intros k Hk. rewrite Hcell, holders_none; [done | | unfold NR_FILE in *; lia].
      intros a l Hl Hq. apply (proj2 (file_u32 (file_at k) ltac:(by exists k))). by apply (Hn a l).
    - intros a l q Hl Hq. left. by apply (Hn a l).
    - unfold ftab. by rewrite Ep. }
  revert Hc. revert H. apply keeps_counts. keeps.
Qed.

(** C16: [f_count] of every entry of [file_table] is the number of descriptors,
    over the [filp] arrays of all tasks, that hold it, and every descriptor is
    NULL or such an entry: if this is so before, it is so after any sequence of
    the file system's system calls by the current task, with whatever
    arguments, whether they succeed or fail. [open] and [creat] count the one
    descriptor they make and take it back when the name cannot be opened,
    [pipe] likewise with its two, [dup], [dup2] and [fcntl] count the copy, and
    [close] takes one off before it looks whether it was the last; a call that
    runs into a panic has no result. The condition is on what happens while
    such a call waits: other tasks and the terminals may do anything that
    leaves the counts right in this sense, the current task's descriptors as
    they are, and a file that only the current task holds to it. *)
Theorem descriptors_counted junk fuel calls s answers s' :
  counted s -> run_calls junk fuel calls s = Done answers s' -> counted s'.
Proof.
  revert answers s. induction calls as [| [[[nr a] b] d] l IH]; intros answers s Hc H; cbn [run_calls] in H.
  - by injection H as <- <-.
  - pose proof (counts_syscall junk fuel nr a b d) as Hm. destruct (fs_syscall junk fuel nr a b d) as [m |]; [| by eapply IH].
    apply bind_inv in H as (r & s1 & E & H). apply bind_inv in H as (rs & s2 & E2 & H). injection H as <- <-.
    exact (IH _ _ (Hm _ _ _ E Hc) E2).
Qed.
End calls.

(** ** A session: copying a descriptor of a pipe, making another pipe, closing *)

Definition no_tty : TtyOps := {|
  tty_read := fun _ _ _ => mret 0; tty_write := fun _ _ _ => mret 0;
  tty_ioctl := fun _ _ _ => mret 0; tty_set_pgrp := fun _ _ => mret tt |}.

Lemma small_world_steady : @SteadyWorld small_world.
Proof.
  constructor; [| | done | done].
  - intros q. apply keeps_ret.
  - intros rw bh. cbn [ll_rw_block small_world].
    apply keeps_bind; [| intros; keeps]. apply keeps_modify; [apply transfer_cells |].
    intros s. unfold transfer. cbv zeta. by destruct (_ && _), (rw =? READ).
Qed.
Lemma quiet_steady : @SteadySvc small_world no_tty Exit.quiet_svc.
Proof. constructor; intros; first [apply keeps_ret | apply pkeeps_ret]. Qed.

Definition session_demo : fstate :=
  set_fps (set_tasks (<[1000 := tset (T_filp 3) 0x11000 (mk_task 0 9 15)]> (tasks (fps pipe_demo))) (fps pipe_demo))
    (set_cells (list_to_map ([((0x10000, i_pipe), 1); ((0x11000, f_mode), 1); ((0x11000, f_count), 1);
      ((0x11000, f_inode), 0x10000)] ++ map (fun k => ((0x11000 + 16 * Z.of_nat k, f_count), 0)) (seq 1 63)) ∪ cells pipe_demo) pipe_demo).

Lemma session_demo_counted : @counted small_world session_demo.
Proof.
  assert (Hk : forallb (fun k => cell session_demo (0x11000 + 16 * Z.of_nat k) f_count =? holders (0x11000 + 16 * Z.of_nat k) (ftab session_demo))
    (seq 0 64) = true) by (vm_compute; reflexivity).
  assert (Ef : map_to_list (ftab session_demo) = [(1000, [0; 0; 0; 0x11000] ++ replicate 16 0); (2000, replicate 20 0)])
    by (vm_compute; reflexivity).
  constructor.
  - intros k Hr. rewrite forallb_forall in Hk. specialize (Hk (Z.to_nat k) ltac:(apply in_seq; unfold NR_FILE in Hr; lia)). apply Z.eqb_eq in Hk. rewrite Z2Nat.id in Hk by lia.
    unfold file_at. cbn [file_table small_world]. unfold sizeof_file. rewrite Hk. lia.
  - intros a l q Hl Hq. apply elem_of_map_to_list in Hl. rewrite Ef in Hl. clear Hk Ef.
    assert (Hall : Forall (fun kv => Forall (fun q => q = 0 \/ q = 0x11000) kv.2)
      ([(1000, [0; 0; 0; 0x11000] ++ replicate 16 0); (2000, replicate 20 0)] : list (Z * list Z))).
    { apply (bool_decide_unpack _). by vm_compute. }
    pose proof (proj1 (Forall_forall _ _) (proj1 (Forall_forall _ _) Hall (a, l) Hl) q Hq) as [E | E]; [by left | right].
    exists 0. split; [split; reflexivity || discriminate | exact E].
  - rewrite <- length_map_to_list, Ef. vm_compute. lia.
Qed.

Lemma descriptors_counted_witness :
  exists s', @run_calls small_world no_tty Exit.quiet_svc (fun _ => 0) 5
      [(3, 3, 0x800, 3); (41, 3, 0, 0); (63, 3, 7, 0); (55, 3, 0, 5); (6, 3, 0, 0)] session_demo = Done [3; 0; 7; 5; 0] s' /\
    cell s' 0x11000 f_count = 3 /\ @counted small_world s'.
Proof.
  assert (Hrun : match @run_calls small_world no_tty Exit.quiet_svc (fun _ => 0) 5
      [(3, 3, 0x800, 3); (41, 3, 0, 0); (63, 3, 7, 0); (55, 3, 0, 5); (6, 3, 0, 0)] session_demo with
    | Done a s' => a = [3; 0; 7; 5; 0] /\ cell s' 0x11000 f_count = 3 | Halt _ => False end) by (vm_compute; split; reflexivity).
  destruct (run_calls _ _ _ _) as [a s' |] eqn:E; [| destruct Hrun]. destruct Hrun as [-> Hc]. exists s'. split_and!; [reflexivity | done |].
  exact (@descriptors_counted small_world no_tty Exit.quiet_svc small_world_steady quiet_steady _ _ _ _ _ _ session_demo_counted E).
Defined.
