(* ===== verification/Hd.v ===== *)
(** * Hd: src/linux-0.01/kernel/hd.c

    The hard disk: the queue of requests, kept in the order of the arm, the
    interrupt routines, and the dialogue with the controller. The controller
    is a parameter: what it answers on its ports and what it does with what it
    is told. A pointer to a request is its index in [request]. *)

From S2P Require Import Prelude Mem Mm Proc Sched Fork FsState Buffer Bitmap Inode Files Super.

Definition MAX_ERRORS : Z := 5.
Definition NR_REQUEST : Z := 32.
Definition _CYL : Z := 977.
Definition _HEAD : Z := 5.
Definition _SECT : Z := 17.
Definition _CTL : Z := 0.
Definition _WPCOM : Z := Z.shiftr 300 2.
Definition HD_DATA : Z := 0x1f0.
Definition HD_ERROR : Z := 0x1f1.
Definition HD_STATUS : Z := 0x1f7.
Definition HD_CMD : Z := 0x3f6.
Definition ERR_STAT : Z := 0x01.
Definition DRQ_STAT : Z := 0x08.
Definition SEEK_STAT : Z := 0x10.
Definition WRERR_STAT : Z := 0x20.
Definition READY_STAT : Z := 0x40.
Definition BUSY_STAT : Z := 0x80.
Definition WIN_READ : Z := 0x20.
Definition WIN_WRITE : Z := 0x30.
Definition WIN_SPECIFY : Z := 0x91.

(** [struct hd_i_struct] and [HD_TYPE]: heads, sectors, cylinders. *)
Record hd_i_struct : Type := { hi_head : Z; hi_sect : Z; hi_cyl : Z }.
Definition hd_info : list hd_i_struct :=
  [{| hi_head := 5; hi_sect := 17; hi_cyl := 980 |}; {| hi_head := 5; hi_sect := 17; hi_cyl := 980 |}].
Definition NR_HD : Z := 2.

Record hd_request : Type := {
  r_hd : Z;                       (** -1 if no request *)
  r_nsector : Z; r_sector : Z; r_head : Z; r_cyl : Z; r_cmd : Z; r_errors : Z;
  r_bh : Z;
  r_next : option nat
}.
Definition set_r_hd (v : Z) (r : hd_request) : hd_request :=
  {| r_hd := v; r_nsector := r_nsector r; r_sector := r_sector r; r_head := r_head r;
     r_cyl := r_cyl r; r_cmd := r_cmd r; r_errors := r_errors r; r_bh := r_bh r; r_next := r_next r |}.
Definition set_r_nsector (v : Z) (r : hd_request) : hd_request :=
  {| r_hd := r_hd r; r_nsector := v; r_sector := r_sector r; r_head := r_head r;
     r_cyl := r_cyl r; r_cmd := r_cmd r; r_errors := r_errors r; r_bh := r_bh r; r_next := r_next r |}.
Definition set_r_errors (v : Z) (r : hd_request) : hd_request :=
  {| r_hd := r_hd r; r_nsector := r_nsector r; r_sector := r_sector r; r_head := r_head r;
     r_cyl := r_cyl r; r_cmd := r_cmd r; r_errors := v; r_bh := r_bh r; r_next := r_next r |}.
Definition set_r_next (v : option nat) (r : hd_request) : hd_request :=
  {| r_hd := r_hd r; r_nsector := r_nsector r; r_sector := r_sector r; r_head := r_head r;
     r_cyl := r_cyl r; r_cmd := r_cmd r; r_errors := r_errors r; r_bh := r_bh r; r_next := v |}.

(** [IN_ORDER]. *)
Definition in_order (s1 s2 : hd_request) : bool :=
  (r_hd s1 <? r_hd s2) || (r_hd s1 =? r_hd s2) &&
  ((r_cyl s1 <? r_cyl s2) || (r_cyl s1 =? r_cyl s2) &&
   ((r_head s1 <? r_head s2) || (r_head s1 =? r_head s2) &&
    (r_sector s1 <? r_sector s2))).

(** What [do_hd] may point to. *)
Inductive hd_intr : Type := do_read_intr | do_write_intr | do_do_request.

(** The controller: input and output on a port, and the 512 bytes of a sector
    through the data port. *)
Class Controller : Type := {
  ctl : Type;
  ctl_in : Z -> ctl -> Z * ctl;
  ctl_out : Z -> Z -> ctl -> ctl;
  ctl_insw : ctl -> list Z * ctl;
  ctl_outsw : list Z -> ctl -> ctl
}.

Section hd.
Context {FW : FsWorld} {KS : KernelSvc} {CT : Controller}.

Record hstate : Type := {
  hfs : fstate;
  hd_structs : list (Z * Z);      (** [hd]: start sector, number of sectors *)
  request : list hd_request;
  this_request : option nat;
  sorting : Z;
  do_hd : option hd_intr;
  callable : Z;
  hctl : ctl
}.
Definition set_hfs (v : fstate) (s : hstate) : hstate :=
  {| hfs := v; hd_structs := hd_structs s; request := request s; this_request := this_request s;
     sorting := sorting s; do_hd := do_hd s; callable := callable s; hctl := hctl s |}.
Definition set_hd_structs (v : list (Z * Z)) (s : hstate) : hstate :=
  {| hfs := hfs s; hd_structs := v; request := request s; this_request := this_request s;
     sorting := sorting s; do_hd := do_hd s; callable := callable s; hctl := hctl s |}.
Definition set_request (v : list hd_request) (s : hstate) : hstate :=
  {| hfs := hfs s; hd_structs := hd_structs s; request := v; this_request := this_request s;
     sorting := sorting s; do_hd := do_hd s; callable := callable s; hctl := hctl s |}.
Definition set_this_request (v : option nat) (s : hstate) : hstate :=
  {| hfs := hfs s; hd_structs := hd_structs s; request := request s; this_request := v;
     sorting := sorting s; do_hd := do_hd s; callable := callable s; hctl := hctl s |}.
Definition set_sorting (v : Z) (s : hstate) : hstate :=
  {| hfs := hfs s; hd_structs := hd_structs s; request := request s; this_request := this_request s;
     sorting := v; do_hd := do_hd s; callable := callable s; hctl := hctl s |}.
Definition set_do_hd (v : option hd_intr) (s : hstate) : hstate :=
  {| hfs := hfs s; hd_structs := hd_structs s; request := request s; this_request := this_request s;
     sorting := sorting s; do_hd := v; callable := callable s; hctl := hctl s |}.
Definition set_callable (v : Z) (s : hstate) : hstate :=
  {| hfs := hfs s; hd_structs := hd_structs s; request := request s; this_request := this_request s;
     sorting := sorting s; do_hd := do_hd s; callable := v; hctl := hctl s |}.
Definition set_hctl (v : ctl) (s : hstate) : hstate :=
  {| hfs := hfs s; hd_structs := hd_structs s; request := request s; this_request := this_request s;
     sorting := sorting s; do_hd := do_hd s; callable := callable s; hctl := v |}.

Definition on_fs {A} (m : M fstate A) : M hstate A := fun s =>
  match m (hfs s) with Done a t => Done a (set_hfs t s) | Halt r => Halt r end.

Definition hd_inb (port : Z) : M hstate Z := fun s =>
  let '(v, k) := ctl_in port (hctl s) in Done (u8 v) (set_hctl k s).
Definition hd_outb (value port : Z) : M hstate unit :=
  modify (fun s => set_hctl (ctl_out port (u8 value) (hctl s)) s).

(** [port_read(HD_DATA,buf,256)] and [port_write(HD_DATA,buf,256)]. *)
Definition port_read (buf : Z) : M hstate unit := fun s =>
  let '(l, k) := ctl_insw (hctl s) in
  Done tt (set_hfs (set_kmem (store_bytes (kmem (hfs s)) buf (take 512 l)) (hfs s)) (set_hctl k s)).
Definition port_write (buf : Z) : M hstate unit :=
  modify (fun s => set_hctl (ctl_outsw (load_bytes (kmem (hfs s)) buf 512) (hctl s)) s).

(** A request, through a pointer that must not be NULL. *)
Definition req_get (p : option nat) : M hstate hd_request :=
  get_opt "request" (fun s => i ← p; request s !! i).
Definition req_put (p : option nat) (f : hd_request -> hd_request) : M hstate unit :=
  r ← req_get p;
  modify (fun s => set_request (match p with Some i => <[i := f r]> (request s) | None => request s end) s).

Definition lock_buffer (bh : Z) : M fstate unit :=
  l ← fget bh b_lock;
  _ ← when (negb (l =? 0)) (fs_printk "hd.c: buffer multiply locked" []);
  fput bh b_lock 1.

Definition unlock_buffer (bh : Z) : M fstate unit :=
  l ← fget bh b_lock;
  _ ← when (l =? 0) (fs_printk "hd.c: free buffer being unlocked" []);
  _ ← fput bh b_lock 0;
  on_ps (wake_up (b_wait bh)).

(** [while (--retries && (inb(HD_STATUS)&0xc0)!=0x40)]: [retries]. *)
Fixpoint ready_loop (n : nat) : M hstate Z :=
  match n with
  | O | S O => mret 0
  | S n' =>
      st ← hd_inb HD_STATUS;
      if negb (Z.land st 0xc0 =? 0x40) then ready_loop n' else mret (Z.of_nat n')
  end.
Definition controller_ready : M hstate Z := ready_loop 1000.

Definition win_result : M hstate Z :=
  i ← hd_inb HD_STATUS;
  if Z.land i (Z.lor (Z.lor (Z.lor (Z.lor BUSY_STAT READY_STAT) WRERR_STAT) SEEK_STAT) ERR_STAT)
     =? Z.lor READY_STAT SEEK_STAT then mret 0
  else
    _ ← (if negb (Z.land i 1 =? 0) then _ ← hd_inb HD_ERROR; mret tt else mret tt);
    mret 1.

Definition hd_out (drive nsect sect head cyl cmd : Z) (intr_addr : hd_intr) : M hstate unit :=
  _ ← when ((1 <? u32 drive) || (15 <? u32 head)) (panic "Trying to write bad sector");
  ready ← controller_ready;
  _ ← when (ready =? 0) (panic "HD controller not ready");
  _ ← modify (set_do_hd (Some intr_addr));
  _ ← hd_outb _CTL HD_CMD;
  _ ← hd_outb _WPCOM (HD_DATA + 1);
  _ ← hd_outb nsect (HD_DATA + 2);
  _ ← hd_outb sect (HD_DATA + 3);
  _ ← hd_outb cyl (HD_DATA + 4);
  _ ← hd_outb (Z.shiftr cyl 8) (HD_DATA + 5);
  _ ← hd_outb (Z.lor (Z.lor 0xA0 (Z.shiftl drive 4)) head) (HD_DATA + 6);
  hd_outb cmd (HD_DATA + 7).

(** [for (i = 0; i < 100000; i++) if (READY_STAT == (...)) break;] *)
Fixpoint spin_ready (n : nat) : M hstate unit :=
  match n with
  | O => mret tt
  | S n' =>
      st ← hd_inb HD_STATUS;
      if READY_STAT =? Z.land st (Z.lor BUSY_STAT READY_STAT) then mret tt else spin_ready n'
  end.

(** [i == READY_STAT | SEEK_STAT] compares first. *)
Definition drive_busy : M hstate Z :=
  _ ← spin_ready (Z.to_nat 100000);
  i ← hd_inb HD_STATUS;
  let i := Z.land i (Z.lor (Z.lor BUSY_STAT READY_STAT) SEEK_STAT) in
  if negb (Z.lor (b2z (i =? READY_STAT)) SEEK_STAT =? 0) then mret 0
  else
    _ ← on_fs (fs_printk "HD controller times out" []);
    mret 1.

(** [for(i = 0; i < 10000 && drive_busy(); i++)]. *)
Fixpoint spin_busy (n : nat) : M hstate unit :=
  match n with
  | O => mret tt
  | S n' => b ← drive_busy; if negb (b =? 0) then spin_busy n' else mret tt
  end.

Definition reset_controller : M hstate unit :=
  _ ← hd_outb 4 HD_CMD;
  _ ← hd_outb 0 HD_CMD;
  _ ← spin_busy (Z.to_nat 10000);
  b ← drive_busy;
  _ ← when (negb (b =? 0)) (on_fs (fs_printk "HD-controller still busy" []));
  i ← hd_inb ERR_STAT;
  when (negb (i =? 1)) (on_fs (fs_printk "HD-controller reset failed: %02x" [i])).

Definition reset_hd (nr : Z) : M hstate unit :=
  _ ← reset_controller;
  hd_out nr _SECT _SECT (_HEAD - 1) _CYL WIN_SPECIFY do_do_request.

Definition unexpected_hd_interrupt : M hstate unit := panic "Unexpected HD interrupt".

(** [for(i=0 ; i<3000 && !(r=inb_p(HD_STATUS)&DRQ_STAT) ; i++)]: [r]. *)
Fixpoint wait_drq (n : nat) (r : Z) : M hstate Z :=
  match n with
  | O => mret r
  | S n' =>
      st ← hd_inb HD_STATUS;
      let r := Z.land st DRQ_STAT in
      if r =? 0 then wait_drq n' r else mret r
  end.

Definition do_request : M hstate unit :=
  so ← gets sorting;
  if negb (so =? 0) then mret tt
  else
    this ← gets this_request;
    match this with
    | None => modify (set_do_hd None)
    | Some _ =>
        r ← req_get this;
        if r_cmd r =? WIN_WRITE then
          _ ← hd_out (r_hd r) (r_nsector r) (r_sector r) (r_head r) (r_cyl r) (r_cmd r) do_write_intr;
          drq ← wait_drq 3000 0;
          if drq =? 0 then reset_hd (r_hd r)
          else
            d ← on_fs (fget (r_bh r) b_data);
            port_write (d + 512 * Z.land (r_nsector r) 1)
        else if r_cmd r =? WIN_READ then
          hd_out (r_hd r) (r_nsector r) (r_sector r) (r_head r) (r_cyl r) (r_cmd r) do_read_intr
        else panic "unknown hd-command"
    end.

(** [&wait_for_request]. *)
Context (wait_for_request : Z).

(** The request is done with: its slot is free and the next one's turn comes. *)
Definition finish_request : M hstate unit :=
  this ← gets this_request;
  _ ← req_put this (set_r_hd (-1));
  r ← req_get this;
  modify (set_this_request (r_next r)).

Definition bad_rw_intr : M hstate unit :=
  this ← gets this_request;
  r ← req_get this;
  _ ← req_put this (set_r_errors (r_errors r + 1));
  _ ← when (MAX_ERRORS <=? r_errors r)
        (_ ← on_fs (fput (r_bh r) b_uptodate 0);
         _ ← on_fs (unlock_buffer (r_bh r));
         _ ← on_fs (on_ps (wake_up wait_for_request));
         finish_request);
  reset_hd (r_hd r).

(** The end of both interrupt routines. *)
Definition complete_request : M hstate unit :=
  this ← gets this_request;
  r ← req_get this;
  _ ← on_fs (fput (r_bh r) b_uptodate 1);
  _ ← on_fs (fput (r_bh r) b_dirt 0);
  _ ← on_fs (on_ps (wake_up wait_for_request));
  _ ← on_fs (unlock_buffer (r_bh r));
  _ ← finish_request;
  do_request.

Definition read_intr : M hstate unit :=
  bad ← win_result;
  if negb (bad =? 0) then bad_rw_intr
  else
    this ← gets this_request;
    r ← req_get this;
    d ← on_fs (fget (r_bh r) b_data);
    _ ← port_read (d + 512 * Z.land (r_nsector r) 1);
    _ ← req_put this (set_r_errors 0);
    _ ← req_put this (set_r_nsector (r_nsector r - 1));
    if negb (r_nsector r - 1 =? 0) then mret tt else complete_request.

Definition write_intr : M hstate unit :=
  bad ← win_result;
  if negb (bad =? 0) then bad_rw_intr
  else
    this ← gets this_request;
    r ← req_get this;
    _ ← req_put this (set_r_nsector (r_nsector r - 1));
    if negb (r_nsector r - 1 =? 0) then
      d ← on_fs (fget (r_bh r) b_data);
      port_write (d + 512)
    else complete_request.

(** The interrupt, once acknowledged (kernel/system_call.s): [do_hd], or
    [unexpected_hd_interrupt]. *)
Definition hd_interrupt : M hstate unit :=
  h ← gets do_hd;
  match h with
  | None => unexpected_hd_interrupt
  | Some do_read_intr => read_intr
  | Some do_write_intr => write_intr
  | Some do_do_request => do_request
  end.

(** [for ( ; tmp->next ; tmp=tmp->next) if (...) break;]: [tmp]. *)
Fixpoint find_place (n : nat) (req : hd_request) (tmp : option nat) : M hstate (option nat) :=
  match n with
  | O => halt NoFuel
  | S n' =>
      t ← req_get tmp;
      match r_next t with
      | None => mret tmp
      | Some _ =>
          nx ← req_get (r_next t);
          if (in_order t req || negb (in_order t nx)) && in_order req nx then mret tmp
          else find_place n' req (r_next t)
      end
  end.

Definition add_request (req : nat) : M hstate unit :=
  r ← req_get (Some req);
  _ ← when (negb (r_nsector r =? 2)) (panic "nsector!=2 not implemented");
  _ ← modify (set_sorting 1);
  this ← gets this_request;
  _ ← (match this with
       | None => modify (set_this_request (Some req))
       | Some _ =>
           t ← req_get this;
           match r_next t with
           | None => req_put this (set_r_next (Some req))
           | Some _ =>
               tmp ← find_place (Z.to_nat NR_REQUEST) r (r_next t);
               t ← req_get tmp;
               _ ← req_put (Some req) (set_r_next (r_next t));
               req_put tmp (set_r_next (Some req))
           end
       end);
  _ ← modify (set_sorting 0);
  h ← gets do_hd;
  match h with None => do_request | Some _ => mret tt end.

(** Sleeping, here, lets the interrupts of the disk run. *)
Context (hd_sleep_on : Z -> M hstate unit).

Fixpoint hd_wait_on_buffer (fuel : nat) (bh : Z) : M hstate unit :=
  l ← on_fs (fget bh b_lock);
  if l =? 0 then mret tt
  else
    match fuel with
    | O => halt NoFuel
    | S fuel' => _ ← hd_sleep_on (b_wait bh); hd_wait_on_buffer fuel' bh
    end.

(** [for (req=0+request ; req<NR_REQUEST+request ; req++) if (req->hd<0) break;] *)
Definition free_request (l : list hd_request) : option nat := fst <$> list_find (fun r => r_hd r < 0) l.

Fixpoint get_request (fuel : nat) : M hstate nat :=
  l ← gets request;
  match free_request l with
  | Some i => mret i
  | None =>
      match fuel with
      | O => halt NoFuel
      | S fuel' => _ ← hd_sleep_on wait_for_request; get_request fuel'
      end
  end.

Definition rw_abs_hd (fuel : nat) (rw nr sec head cyl bh : Z) : M hstate unit :=
  _ ← when (negb (rw =? READ) && negb (rw =? WRITE)) (panic "Bad hd command, must be R/W");
  _ ← on_fs (lock_buffer bh);
  req ← get_request fuel;
  _ ← req_put (Some req) (fun _ =>
        {| r_hd := s32 nr; r_nsector := 2; r_sector := s32 sec; r_head := s32 head; r_cyl := s32 cyl;
           r_cmd := if rw =? READ then WIN_READ else WIN_WRITE;
           r_errors := 0; r_bh := bh; r_next := None |});
  _ ← add_request req;
  hd_wait_on_buffer fuel bh.

(** The two [divl] of [rw_hd]: cylinder, head and sector (counted from 0) of
    sector [block] of a drive. *)
Definition chs (i : hd_i_struct) (block : Z) : Z * Z * Z :=
  (block / hi_sect i / hi_head i, (block / hi_sect i) mod hi_head i, block mod hi_sect i).

Definition rw_hd (fuel : nat) (rw bh : Z) : M hstate unit :=
  b ← on_fs (fget bh b_blocknr);
  let block := u32 (Z.shiftl b 1) in
  d ← on_fs (fget bh b_dev);
  let dev := MINOR d in
  if 5 * NR_HD <=? dev then mret tt
  else
    h ← get_opt "hd" (fun s => hd_structs s !! Z.to_nat dev);
    if u32 (h.2) <? u32 (block + 2) then mret tt
    else
      let block := u32 (block + h.1) in
      let dev := dev / 5 in
      i ← get_opt "hd_info" (fun _ => hd_info !! Z.to_nat dev);
      let '(cyl, head, sec) := chs i block in
      rw_abs_hd fuel rw dev (sec + 1) head cyl bh.

(** The partition table of one drive: four entries of sixteen bytes at 0x1BE. *)
Definition read_partitions (drive : Z) : M hstate unit :=
  d ← on_fs (fget start_buffer b_data);
  for_loop 4 1 (fun i =>
    let p := d + 0x1BE + 16 * (i - 1) in
    st ← on_fs (kload32 (p + 8));
    nr ← on_fs (kload32 (p + 12));
    modify (fun s => set_hd_structs (<[Z.to_nat (i + 5 * drive) := (s32 st, s32 nr)]> (hd_structs s)) s)).

Definition sys_setup (fuel : nat) : M hstate Z :=
  c ← gets callable;
  if c =? 0 then mret (-1)
  else
    _ ← modify (set_callable 0);
    _ ← for_loop (Z.to_nat NR_HD) 0 (fun drive =>
          _ ← rw_abs_hd fuel READ drive 1 0 0 start_buffer;
          u ← on_fs (fget start_buffer b_uptodate);
          _ ← when (u =? 0)
                (_ ← on_fs (fs_printk "Unable to read partition table of drive %d" [drive]);
                 panic "");
          d ← on_fs (fget start_buffer b_data);
          b0 ← on_fs (kload8 (d + 510));
          b1 ← on_fs (kload8 (d + 511));
          _ ← when (negb (b0 =? 0x55) || negb (b1 =? 0xAA))
                (_ ← on_fs (fs_printk "Bad partition table on drive %d" [drive]);
                 panic "");
          read_partitions drive);
    _ ← on_fs (fs_printk "Partition tables ok." []);
    _ ← on_fs (mount_root fuel);
    mret 0.

(** [hd_init]; the trap gate is the caller's. *)
Definition hd_init (set_trap_gate : M hstate unit) : M hstate unit :=
  _ ← modify (fun s => set_request (map (fun r => set_r_next None (set_r_hd (-1) r)) (request s)) s);
  _ ← for_loop (Z.to_nat NR_HD) 0 (fun i =>
        k ← get_opt "hd_info" (fun _ => hd_info !! Z.to_nat i);
        modify (fun s => set_hd_structs
          (<[Z.to_nat (5 * i) := (0, hi_head k * hi_sect k * hi_cyl k)]> (hd_structs s)) s));
  _ ← set_trap_gate;
  v ← hd_inb 0x21;
  _ ← hd_outb (Z.land v 0xfb) 0x21;
  v ← hd_inb 0xA1;
  hd_outb (Z.land v 0xbf) 0xA1.
End hd.
