(* ===== verification/HdQueue.v ===== *)
(** * HdQueue: the order of the disk's requests

    [add_request] of src/linux-0.01/kernel/hd.c puts a request behind the two
    that may be in use and keeps the others in two sweeps of the arm. *)

From S2P Require Import Prelude Mem Mm Proc Sched Fork FsState Hd.
From Stdlib Require Import Sorted.

(** The request at an index; the places two requests are for. *)
Definition idle_request : hd_request :=
  {| r_hd := -1; r_nsector := 0; r_sector := 0; r_head := 0; r_cyl := 0; r_cmd := 0; r_errors := 0;
     r_bh := 0; r_next := None |}.
Definition req_at (l : list hd_request) (i : nat) : hd_request := default idle_request (l !! i).
Definition same_place (a b : hd_request) : Prop :=
  r_hd a = r_hd b /\ r_cyl a = r_cyl b /\ r_head a = r_head b /\ r_sector a = r_sector b.

(** [q]: the requests from [o] on, in the order of their [next]. *)
Inductive chain (l : list hd_request) : option nat -> list nat -> Prop :=
  | chain_nil : chain l None []
  | chain_cons i r q : l !! i = Some r -> chain l (r_next r) q -> chain l (Some i) (i :: q).

(** Two sweeps of the arm, each in ascending order. *)
Definition before (l : list hd_request) (i j : nat) : Prop := in_order (req_at l i) (req_at l j) = true.
Definition sweeps (l : list hd_request) (q : list nat) : Prop :=
  exists q1 q2, q = q1 ++ q2 /\ Sorted (before l) q1 /\ Sorted (before l) q2.

(** The requests of [q] are for different places. *)
Definition places_differ (l : list hd_request) (q : list nat) : Prop :=
  forall i j, i ∈ q -> j ∈ q -> same_place (req_at l i) (req_at l j) -> i = j.

Lemma in_order_spec a b :
  in_order a b = true <->
  r_hd a < r_hd b \/ r_hd a = r_hd b /\ (r_cyl a < r_cyl b \/ r_cyl a = r_cyl b /\
    (r_head a < r_head b \/ r_head a = r_head b /\ r_sector a < r_sector b)).
Proof. unfold in_order. by rewrite !orb_true_iff, !andb_true_iff, !orb_true_iff, !andb_true_iff, !orb_true_iff, !andb_true_iff, !Z.ltb_lt, !Z.eqb_eq. Qed.

Lemma in_order_total a b : in_order a b = false -> ~ same_place a b -> in_order b a = true.
Proof.
  intros H1 H2. apply in_order_spec. apply not_true_iff_false in H1. rewrite in_order_spec in H1.
  unfold same_place in H2. lia.
Qed.
Lemma in_order_asym a b : in_order a b = true -> in_order b a = false.
Proof. rewrite <- not_true_iff_false, !in_order_spec. lia. Qed.
Lemma in_order_trans a b c : in_order a b = true -> in_order b c = true -> in_order a c = true.
Proof. rewrite !in_order_spec. lia. Qed.

(** ** Where the request goes *)

Section place.
Context (l : list hd_request) (req : nat).

(** The condition of the loop, and the queue from [x] on with [req] in it. *)
Definition fits (x y : nat) : bool :=
  (in_order (req_at l x) (req_at l req) || negb (in_order (req_at l x) (req_at l y))) &&
  in_order (req_at l req) (req_at l y).
Fixpoint place (x : nat) (rest : list nat) : list nat :=
  match rest with
  | [] => [x; req]
  | y :: rest' => if fits x y then x :: req :: rest else x :: place y rest'
  end.

Lemma place_head x rest : exists q, place x rest = x :: q.
Proof. destruct rest; cbn [place]; [| case_match]; by eexists. Qed.

Lemma sweeps_sorted q : Sorted (before l) q -> sweeps l q.
Proof. intros H. exists q, []. by rewrite app_nil_r. Qed.

Lemma sweeps_cons x y q : before l x y -> sweeps l (y :: q) -> sweeps l (x :: y :: q).
Proof.
  intros Hxy ([| z q1] & q2 & E & H1 & H2).
  - apply sweeps_sorted. constructor; [by rewrite E | by constructor].
  - injection E as <- ->. exists (x :: y :: q1), q2. split; [done |]. split; [| done].
    constructor; [done | by constructor].
Qed.

Lemma sweeps_tail x y q : sweeps l (x :: y :: q) -> sweeps l (y :: q) /\ (~ before l x y -> Sorted (before l) (y :: q)).
Proof.
  intros ([| z [| z' q1]] & q2 & E & H1 & H2).
  - cbn in E. subst q2. apply Sorted_inv in H2 as [H2 Hx]. split; [by apply sweeps_sorted | done].
  - injection E as <- <-. split; [by apply sweeps_sorted | done].
  - injection E as <- <- ->. apply Sorted_inv in H1 as [H1 Hx]. split.
    + by exists (y :: q1), q2.
    + intros Hn. inversion Hx; subst. by destruct Hn.
Qed.

Lemma place_sorted rest : forall x,
  places_differ l (req :: x :: rest) -> req ∉ x :: rest -> before l x req ->
  Sorted (before l) (x :: rest) -> Sorted (before l) (place x rest).
Proof.
  induction rest as [| y rest IH]; intros x Hd Hn Hx Hs; cbn [place].
  { by repeat constructor. }
  apply Sorted_inv in Hs as [Hs Hxy]. inversion Hxy as [| ? ? Hxy']; subst.
  destruct (fits x y) eqn:E.
  - apply andb_true_iff in E as [_ E]. constructor; [by constructor; [| constructor] | by constructor].
  - unfold fits in E. rewrite Hx in E. cbn [orb andb] in E.
    assert (Hyr : before l y req).
    { apply in_order_total in E; [done |]. intros Hsp. apply Hn.
      rewrite (Hd req y); [set_solver .. | done]. }
    destruct (place_head y rest) as [q Eq]. constructor; [apply IH; [| set_solver | done | done] | rewrite Eq; by constructor].
    intros i j Hi Hj. apply Hd; set_solver.
Qed.

Lemma place_sweeps rest : forall x,
  places_differ l (req :: x :: rest) -> req ∉ x :: rest -> sweeps l (x :: rest) -> sweeps l (place x rest).
Proof.
  induction rest as [| y rest IH]; intros x Hd Hn Hs; cbn [place].
  { exists [x], [req]. split; [done |]. by repeat constructor. }
  apply sweeps_tail in Hs as [Hs Hso]. destruct (fits x y) eqn:E.
  - apply andb_true_iff in E as [E1 E2]. pose proof (sweeps_cons req y rest E2 Hs) as H.
    destruct (in_order (req_at l x) (req_at l y)) eqn:Exy; cbn [negb] in E1.
    + rewrite orb_false_r in E1. by apply sweeps_cons.
    + exists [x], (req :: y :: rest). split; [done |]. split; [by repeat constructor |].
      constructor; [apply Hso | by constructor]. unfold before. by rewrite Exy.
  - assert (Hd' : places_differ l (req :: y :: rest)) by (intros i j Hi Hj; apply Hd; set_solver).
    destruct (in_order (req_at l x) (req_at l y)) eqn:Exy.
    + destruct (place_head y rest) as [q Eq]. rewrite Eq. apply sweeps_cons; [done |]. rewrite <- Eq.
      apply IH; [done | set_solver | done].
    + exists [x], (place y rest). split; [done |]. split; [by repeat constructor |].
      apply place_sorted; [done | set_solver | | apply Hso; unfold before; by rewrite Exy].
      unfold fits in E. rewrite Exy in E. cbn [negb] in E. rewrite orb_true_r in E. cbn [andb] in E.
      apply in_order_total in E; [done |]. intros Hsp. apply Hn. rewrite (Hd req y); [set_solver .. | done].
Qed.
End place.

(** ** Chains *)

Lemma chain_ext l l' o q :
  chain l o q -> (forall i, i ∈ q -> r_next <$> l' !! i = r_next <$> l !! i) -> chain l' o q.
Proof.
  induction 1 as [| i r q Hi Hc IH]; intros H; [constructor |].
  pose proof (H i ltac:(set_solver)) as Hn. rewrite Hi in Hn. cbn in Hn.
  destruct (l' !! i) as [r' |] eqn:E; [| done]. injection Hn as Hn.
  apply (chain_cons l' i r' q E). rewrite Hn. apply IH. intros j Hj. apply H. set_solver.
Qed.

Lemma chain_link l l' o p1 j req p2 r rj :
  chain l o (p1 ++ j :: p2) -> NoDup (p1 ++ j :: p2) ->
  l' !! req = Some r -> r_next r = r_next (req_at l j) ->
  l' !! j = Some rj -> r_next rj = Some req ->
  (forall i, i ∈ p1 ++ p2 -> l' !! i = l !! i) ->
  chain l' o (p1 ++ j :: req :: p2).
Proof.
  intros Hc Hnd Hr Er Hj Ej Hrest. revert o Hc Hnd. induction p1 as [| i p1 IH]; intros o Hc Hnd; cbn [app] in *.
  - inversion Hc as [| ? r0 ? H0 Hc']; subst. apply (chain_cons _ _ _ _ Hj). rewrite Ej.
    apply (chain_cons _ _ _ _ Hr). rewrite Er. unfold req_at. rewrite H0. cbn [default from_option id].
    apply (chain_ext l); [done |]. intros i Hi. by rewrite Hrest.
  - inversion Hc as [| ? r0 ? H0 Hc']; subst. apply NoDup_cons in Hnd as [Hi Hnd].
    apply (chain_cons l' i r0); [rewrite Hrest by set_solver; done |]. apply IH; [intros k Hk; apply Hrest; set_solver | done | done].
Qed.

(** ** The code *)

Section add_request.
Context {FW : FsWorld} {KS : KernelSvc} {CT : Controller}.

Lemma req_get_run (s : hstate) i r : request s !! i = Some r -> req_get (Some i) s = Done r s.
Proof. intros H. unfold req_get, get_opt. cbn. by rewrite H. Qed.
Lemma req_put_run (s : hstate) i r f :
  request s !! i = Some r -> req_put (Some i) f s = Done tt (set_request (<[i := f r]> (request s)) s).
Proof. intros H. unfold req_put. by rewrite (bind_Done _ _ _ _ _ (req_get_run _ _ _ H)). Qed.

Lemma find_place_run n : forall x rest req r (s : hstate),
  chain (request s) (Some x) (x :: rest) -> request s !! req = Some r -> (length rest < n)%nat ->
  exists p1 j p2, find_place n r (Some x) s = Done (Some j) s /\ x :: rest = p1 ++ j :: p2 /\
    place (request s) req x rest = p1 ++ j :: req :: p2.
Proof.
  induction n as [| n IH]; intros x rest req r s Hc Hr Hn; [lia |]. cbn [find_place].
  inversion Hc as [| ? rx ? Hx Hc']; subst. rewrite (bind_Done _ _ _ _ _ (req_get_run _ _ _ Hx)).
  inversion Hc' as [Er Eq | y ry q Hy Hcy Er Eq]; subst; clear Hc'.
  { exists [], x, []. done. }
  rewrite (bind_Done _ _ _ _ _ (req_get_run _ _ _ Hy)). cbn [place].
  replace (fits (request s) req x y) with ((in_order rx r || negb (in_order rx ry)) && in_order r ry)
    by (unfold fits, req_at; by rewrite Hx, Hy, Hr).
  destruct ((in_order rx r || negb (in_order rx ry)) && in_order r ry).
  { by exists [], x, (y :: q). }
  destruct (IH y q req r s) as (p1 & j & p2 & H1 & H2 & H3);
    [by apply (chain_cons _ _ ry) | done | cbn [length] in Hn; lia |].
  exists (x :: p1), j, p2. split; [done |]. split; [by rewrite H2 | by rewrite H3].
Qed.

(** The same requests, linked in another way. *)
Definition relinked (l l' : list hd_request) : Prop := forall i, exists n, l' !! i = set_r_next n <$> l !! i.

Lemma relinked_refl l : relinked l l.
Proof. intros i. destruct (l !! i) as [[] |] eqn:E; [by eexists | by exists None]. Qed.
Lemma relinked_trans l1 l2 l3 : relinked l1 l2 -> relinked l2 l3 -> relinked l1 l3.
Proof.
  intros H1 H2 i. destruct (H1 i) as [n1 E1], (H2 i) as [n2 E2]. exists n2. rewrite E2, E1. by destruct (l1 !! i).
Qed.
Lemma relinked_insert l i x n : l !! i = Some x -> relinked l (<[i := set_r_next n x]> l).
Proof.
  intros H j. destruct (decide (j = i)) as [-> | Hne].
  - exists n. rewrite list_lookup_insert_eq by (by eapply lookup_lt_Some). by rewrite H.
  - rewrite list_lookup_insert_ne by done. apply relinked_refl.
Qed.
Lemma relinked_order l l' i j : relinked l l' -> in_order (req_at l' i) (req_at l' j) = in_order (req_at l i) (req_at l j).
Proof.
  intros H. unfold req_at. destruct (H i) as [n ->], (H j) as [m ->].
  destruct (l !! i) as [[] |], (l !! j) as [[] |]; reflexivity.
Qed.
Lemma relinked_sweeps l l' q : relinked l l' -> sweeps l q -> sweeps l' q.
Proof.
  intros H (q1 & q2 & -> & H1 & H2).
  assert (Hs : forall k, Sorted (before l) k -> Sorted (before l') k).
  { induction 1 as [| i k _ IH Hh]; constructor; [done |]. destruct Hh; constructor. unfold before. by rewrite (relinked_order l). }
  exists q1, q2. auto.
Qed.

(** Linking [req] behind [j]. *)
Lemma link_run (s : hstate) o p1 j req p2 r :
  chain (request s) o (p1 ++ j :: p2) -> NoDup (p1 ++ j :: p2) -> req ∉ p1 ++ j :: p2 ->
  request s !! req = Some r ->
  exists l', (t ← req_get (Some j); _ ← req_put (Some req) (set_r_next (r_next t)); req_put (Some j) (set_r_next (Some req))) s
      = Done tt (set_request l' s) /\
    chain l' o (p1 ++ j :: req :: p2) /\ relinked (request s) l'.
Proof.
  intros Hc Hnd Hn Hr. assert (Hne : req <> j) by set_solver.
  assert (exists rj, request s !! j = Some rj) as [rj Hj].
  { clear -Hc. revert o Hc. induction p1 as [| i p1 IH]; intros o Hc; inversion Hc; subst; [by eexists | by eapply IH]. }
  rewrite (bind_Done _ _ _ _ _ (req_get_run _ _ _ Hj)), (bind_Done _ _ _ _ _ (req_put_run _ _ _ _ Hr)).
  set (l1 := <[req := set_r_next (r_next rj) r]> (request s)).
  assert (Hj1 : l1 !! j = Some rj) by (unfold l1; by rewrite list_lookup_insert_ne).
  rewrite (req_put_run (set_request l1 s) j rj _ Hj1). set (l2 := <[j := _]> _).
  assert (Hl : forall i, i <> j -> i <> req -> l2 !! i = request s !! i).
  { intros i H1 H2. unfold l2, l1. cbn [request set_request]. by rewrite !list_lookup_insert_ne. }
  exists l2. split; [done |]. split.
  - apply (chain_link (request s) l2 o p1 j req p2 (set_r_next (r_next rj) r) (set_r_next (Some req) rj)); try done.
    + unfold l2. cbn [request set_request]. rewrite list_lookup_insert_ne by done. unfold l1.
      apply list_lookup_insert_eq. by eapply lookup_lt_Some.
    + unfold req_at. by rewrite Hj.
    + unfold l2. cbn [request set_request]. apply list_lookup_insert_eq. by eapply lookup_lt_Some.
    + intros i Hi. apply NoDup_app in Hnd as (_ & Hx & Hnd%NoDup_cons).
      apply Hl; [| set_solver]. intros ->. apply elem_of_app in Hi as [Hi | Hi]; [apply (Hx j Hi); left | by apply Hnd].
  - apply (relinked_trans _ l1); [by apply relinked_insert |]. by apply relinked_insert.
Qed.

(** The part of [add_request] that [sorting] protects. *)
Definition enqueue (req : nat) (r : hd_request) : M hstate unit :=
  this ← gets this_request;
  match this with
  | None => modify (set_this_request (Some req))
  | Some _ =>
      t ← req_get this;
      match r_next t with
      | None => req_put this (set_r_next (Some req))
      | Some _ =>
          tmp ← find_place (Z.to_nat NR_REQUEST) r (r_next t);
          t ← req_get tmp;
          _ ← req_put (Some req) (set_r_next (r_next t));
          req_put tmp (set_r_next (Some req))
      end
  end.

Lemma enqueue_run (s : hstate) req r q :
  chain (request s) (this_request s) q -> NoDup q -> req ∉ q -> (length q <= 32)%nat ->
  request s !! req = Some r -> r_next r = None ->
  exists q1 q2 l' o', q = q1 ++ q2 /\ (Nat.min 2 (length q) <= length q1)%nat /\
    enqueue req r s = Done tt (set_this_request o' (set_request l' s)) /\
    chain l' o' (q1 ++ req :: q2) /\ relinked (request s) l' /\
    (places_differ (request s) (req :: tail q) -> sweeps (request s) (tail q) ->
     sweeps (request s) (tail (q1 ++ req :: q2))).
Proof.
  intros Hc Hnd Hn Hl Hr Hnx. unfold enqueue. rewrite (bind_Done (gets _) _ s (this_request s) s) by done.
  inversion Hc as [Ho Eq | a ra q' Ha Hc' Ho Eq]; subst.
  { exists [], [], (request s), (Some req). split; [done |]. split; [done |].
    split; [by destruct s |]. split; [apply (chain_cons _ _ _ _ Hr); rewrite Hnx; constructor |].
    split; [apply relinked_refl |]. by intros. }
  rewrite (bind_Done _ _ _ _ _ (req_get_run _ _ _ Ha)).
  inversion Hc' as [En Eq | b rb q Hb Hcb En Eq]; subst.
  - destruct (link_run s (Some a) [] a req [] r) as (l' & Hrun & Hch & Hre); [by rewrite Ho | done | done | done |].
    rewrite (bind_Done _ _ _ _ _ (req_get_run _ _ _ Ha)), <- En in Hrun.
    exists [a], [], l', (Some a). split; [done |]. split; [done |].
    assert (Hsame : req_put (Some req) (set_r_next None) s = Done tt s).
    { rewrite (req_put_run _ _ _ _ Hr). do 2 f_equal. destruct s as [? ? l ? ? ? ? ?]. unfold set_request. cbn in *. f_equal.
      apply list_insert_id. rewrite Hr. f_equal. destruct r; cbn in *. by subst. }
    rewrite (bind_Done _ _ _ _ _ Hsame) in Hrun. 
    split; [rewrite Hrun; destruct s; cbn in *; by subst |]. split; [done |]. split; [done |].
    intros _ _. cbn. apply sweeps_sorted. by repeat constructor.
  - assert (Hcb' : chain (request s) (Some b) (b :: q)) by (by apply (chain_cons _ _ rb)).
    destruct (find_place_run (Z.to_nat NR_REQUEST) b q req r s Hcb' Hr) as (p1 & j & p2 & Hf & E1 & E2).
    { cbn [length] in Hl. unfold NR_REQUEST. lia. }
    rewrite (bind_Done _ _ _ _ _ Hf).
    destruct (link_run s (Some a) (a :: p1) j req p2 r) as (l' & Hrun & Hch & Hre);
      [cbn [app]; rewrite <- E1, Ho; done | cbn [app]; by rewrite <- E1 | cbn [app]; by rewrite <- E1 | done |].
    rewrite Hrun. exists (a :: p1 ++ [j]), p2, l', (Some a). rewrite E1. cbn [app length tail].
    rewrite <- !app_assoc. cbn [app].
    split; [done |]. split; [rewrite !length_app; cbn [length]; lia |].
    split; [destruct s; cbn in *; by subst |]. split; [done |]. split; [done |].
    rewrite <- E2, <- E1. intros Hd. apply place_sweeps; [done | set_solver].
Qed.

(** C17: [add_request] puts the request [req] into the queue [q] of the disk:
    behind the two requests at its front, which the interrupts may be using
    (behind the one there is, or at the front of an empty queue), and so that,
    if the requests behind the one in service were two ascending sweeps of the
    arm and [req] and they are all for different places on the disk, they still
    are two sweeps. (A request for a place that is in the queue already may make
    a third.) The requests keep their contents but for their [next]; [sorting]
    is off again, and the controller is started if it was not at work. *)
Theorem add_request_correct s req r q :
  chain (request s) (this_request s) q -> NoDup q -> req ∉ q -> (length q <= 32)%nat ->
  request s !! req = Some r -> r_nsector r = 2 -> r_next r = None ->
  exists q1 q2 s', q = q1 ++ q2 /\ (Nat.min 2 (length q) <= length q1)%nat /\
    add_request req s = (match do_hd s with None => do_request | Some _ => mret tt end) s' /\
    chain (request s') (this_request s') (q1 ++ req :: q2) /\ relinked (request s) (request s') /\
    (places_differ (request s) (req :: tail q) -> sweeps (request s) (tail q) ->
     sweeps (request s') (tail (q1 ++ req :: q2))) /\
    sorting s' = 0 /\ do_hd s' = do_hd s /\ hfs s' = hfs s /\ hctl s' = hctl s.
Proof.
  intros Hc Hnd Hn Hl Hr H2 Hnx.
  destruct (enqueue_run (set_sorting 1 s) req r q) as (q1 & q2 & l' & o' & Eq & Hlen & Hrun & Hch & Hre & Hsw); try done.
  exists q1, q2, (set_sorting 0 (set_this_request o' (set_request l' (set_sorting 1 s)))).
  split; [done |]. split; [done |]. split.
  - unfold add_request. rewrite (bind_Done _ _ _ _ _ (req_get_run _ _ _ Hr)), H2. cbn [negb Z.eqb Pos.eqb when].
    rewrite (bind_Done (mret tt) _ s tt s eq_refl), (bind_Done (modify _) _ s tt (set_sorting 1 s) eq_refl).
    unfold enqueue in Hrun. set (s1 := set_sorting 1 s) in *.
    rewrite (bind_Done (gets _) _ s1 (this_request s1) s1 eq_refl) in Hrun.
    rewrite (bind_Done (gets _) _ s1 (this_request s1) s1 eq_refl).
    rewrite (bind_Done _ _ _ _ _ Hrun). reflexivity.
  - split; [done |]. split; [done |]. split; [| done]. intros Hd Hs. eapply relinked_sweeps; [done | by apply Hsw].
Qed.
End add_request.

(** ** A queue of four *)

(** A controller that is always ready and reads zeroes. *)
#[local] Instance calm_controller : Controller := {|
  ctl := unit; ctl_in := fun _ k => (0x50, k); ctl_out := fun _ _ k => k;
  ctl_insw := fun k => (replicate 512 0, k); ctl_outsw := fun _ k => k |}.

Definition demo_request (cyl : Z) (next : option nat) : hd_request :=
  {| r_hd := 0; r_nsector := 2; r_sector := 1; r_head := 0; r_cyl := cyl; r_cmd := WIN_READ; r_errors := 0;
     r_bh := 0x1000; r_next := next |}.

(** The arm is at cylinder 60 and goes on to 20 and 40, then back to 5; a
    request for cylinder 30 comes in. *)
Definition queue_demo : hstate := {|
  hfs := {| fps := demo_table [] ∅ 1000; cells := ∅; kmem := ∅; hash_table := []; free_list := 0; nr_buffers := 0;
    last_allocated_inode := 0; flog := []; fdisk := fun _ _ _ => 0; fpages := [] |};
  hd_structs := []; 
  request := [demo_request 60 (Some 1%nat); demo_request 20 (Some 2%nat); demo_request 40 (Some 3%nat);
              demo_request 5 None; demo_request 30 None];
  this_request := Some 0%nat; sorting := 0; do_hd := Some do_read_intr; callable := 0; hctl := tt |}.

Lemma queue_demo_chain : chain (request queue_demo) (this_request queue_demo) [0; 1; 2; 3]%nat.
Proof. repeat (eapply chain_cons; [reflexivity |]). constructor. Qed.

Lemma queue_demo_sweeps : sweeps (request queue_demo) [1; 2; 3]%nat.
Proof.
  exists [1; 2]%nat, [3%nat]. split; [done |]. split; repeat constructor.
Qed.

Lemma queue_demo_differ : places_differ (request queue_demo) [4; 1; 2; 3]%nat.
Proof.
  intros i j Hi Hj (_ & Hc & _). apply list_elem_of_In in Hi, Hj. cbn in Hi, Hj.
  destruct Hi as [<- | [<- | [<- | [<- | []]]]], Hj as [<- | [<- | [<- | [<- | []]]]];
    (reflexivity || discriminate Hc).
Qed.

Lemma add_request_witness :
  exists q1 q2 s', [0; 1; 2; 3]%nat = q1 ++ q2 /\ (2 <= length q1)%nat /\
    add_request 4 queue_demo = Done tt s' /\
    chain (request s') (this_request s') (q1 ++ 4%nat :: q2) /\
    sweeps (request s') (tail (q1 ++ 4%nat :: q2)).
Proof.
  destruct (add_request_correct queue_demo 4 (demo_request 30 None) [0; 1; 2; 3]%nat)
    as (q1 & q2 & s' & H1 & H2 & H3 & H4 & _ & H5 & _).
  - exact queue_demo_chain.
  - repeat constructor; not_in_list.
  - not_in_list.
  - cbn. lia.
  - reflexivity.
  - reflexivity.
  - reflexivity.
  - exists q1, q2, s'. split; [done |]. split; [exact H2 |]. split; [exact H3 |]. split; [exact H4 |].
    apply H5; [exact queue_demo_differ | exact queue_demo_sweeps].
Defined.
