(* ===== verification/HdIntr.v ===== *)
(** * HdIntr: requests to the disk, from the block to the interrupt

    Where on the drive [rw_hd] of src/linux-0.01/kernel/hd.c looks for a
    block, and what the interrupts of a request for reading do. *)

From S2P Require Import Prelude Mem Mm Proc Sched Fork FsState Buffer Getblk BufferInit Contents Hd HdQueue.

Section intr.
Context {FW : FsWorld} {KS : KernelSvc} {CT : Controller}.

(** ** From blocks to sectors *)

Lemma chs_place i block :
  0 < hi_sect i -> 0 < hi_head i -> 0 <= block ->
  let '(cyl, head, sec) := chs i block in
  (cyl * hi_head i + head) * hi_sect i + sec = block /\ 0 <= sec < hi_sect i /\ 0 <= head < hi_head i /\ 0 <= cyl.
Proof.
  intros Hs Hh Hb. unfold chs. 
  pose proof (Z.div_mod block (hi_sect i)). pose proof (Z.div_mod (block / hi_sect i) (hi_head i)).
  pose proof (Z.mod_pos_bound block (hi_sect i)). pose proof (Z.mod_pos_bound (block / hi_sect i) (hi_head i)).
  split; [nia |]. split; [lia |]. split; [lia |]. apply Z.div_pos; [apply Z.div_pos |]; lia.
Qed.

(** The number of a sector of a drive of five heads, counted along a track and
    along a cylinder from 0; on the track they are counted from 1. *)
Definition sector_number (cyl head sec : Z) : Z := (cyl * 5 + head) * 17 + (sec - 1).

(** [rw_hd] asks for the two sectors of the buffer's block at the place of
    the drive that holds them: sectors are counted along a track, tracks along
    a cylinder, from the start of the partition, and the place exists on the
    drive. A block that is not wholly inside the partition is silently not
    transferred: the call returns and nothing has changed. *)
Theorem rw_hd_correct wait_for_request hd_sleep_on fuel rw bh s start nr :
  has (hfs s) bh b_blocknr -> has (hfs s) bh b_dev -> 0 <= cell (hfs s) bh b_blocknr < 65536 ->
  let dev := MINOR (cell (hfs s) bh b_dev) in
  let block := 2 * cell (hfs s) bh b_blocknr in
  dev < 10 -> hd_structs s !! Z.to_nat dev = Some (start, nr) ->
  0 <= start -> 0 <= nr -> start + nr <= 5 * 17 * 980 ->
  (block + 2 <= nr ->
   exists cyl head sec,
     rw_hd wait_for_request hd_sleep_on fuel rw bh s =
       rw_abs_hd wait_for_request hd_sleep_on fuel rw (dev / 5) sec head cyl bh s /\
     sector_number cyl head sec = start + block /\
     1 <= sec <= 17 /\ 0 <= head < 5 /\ 0 <= cyl < 980) /\
  (nr < block + 2 -> rw_hd wait_for_request hd_sleep_on fuel rw bh s = Done tt s).
Proof.
  intros Hb Hd Hr dev block Hdev Hst Hs0 Hn0 Hdisk.
  assert (Hdev0 : 0 <= dev) by (unfold dev, MINOR; rewrite land_0xFF; apply Z.mod_pos_bound; lia).
  unfold rw_hd.
  assert (Hon : forall f, has (hfs s) bh f -> on_fs (fget bh f) s = Done (cell (hfs s) bh f) s).
  { intros f Hf. unfold on_fs. rewrite (fget_cell _ _ _ Hf). by destruct s. }
  rewrite (bind_Done _ _ _ _ _ (Hon _ Hb)), (bind_Done _ _ _ _ _ (Hon _ Hd)). fold dev.
  replace (Z.shiftl (cell (hfs s) bh b_blocknr) 1) with block by (rewrite Z.shiftl_mul_pow2; unfold block; lia).
  assert (Hblk : 0 <= block <= 131070) by (unfold block; lia).
  rewrite (u32_small block) by (unfold in_u32; lia).
  change (5 * NR_HD) with 10. rewrite (proj2 (Z.leb_gt 10 dev)) by lia.
  rewrite (bind_Done (get_opt "hd" _) _ s (start, nr) s) by (unfold get_opt; by rewrite Hst). cbn [fst snd].
  rewrite (u32_small nr), (u32_small (block + 2)) by (unfold in_u32; lia). split.
  - intros Hin. rewrite (proj2 (Z.ltb_ge nr (block + 2))) by lia.
    rewrite (u32_small (block + start)) by (unfold in_u32; lia).
    assert (Hi : hd_info !! Z.to_nat (dev / 5) = Some {| hi_head := 5; hi_sect := 17; hi_cyl := 980 |}).
    { assert (dev / 5 = 0 \/ dev / 5 = 1) as [-> | ->] by wrap_lia; done. }
    rewrite (bind_Done (get_opt "hd_info" _) _ s {| hi_head := 5; hi_sect := 17; hi_cyl := 980 |} s)
      by (unfold get_opt; by rewrite Hi).
    pose proof (chs_place {| hi_head := 5; hi_sect := 17; hi_cyl := 980 |} (block + start)) as Hc.
    destruct (chs _ (block + start)) as [[cyl head] sec]. cbn [hi_head hi_sect] in Hc.
    destruct Hc as (Hc & ? & ? & ?); [lia | lia | lia |].
    exists cyl, head, (sec + 1). split; [done |]. unfold sector_number. lia.
  - intros Hout. by rewrite (proj2 (Z.ltb_lt nr (block + 2))) by lia.
Qed.

(** ** The interrupts of a request for reading *)

(** The status of a controller that has done what it was told. *)
Definition status_ok (v : Z) : Prop := Z.land (u8 v) 0xF1 = 0x50.

Lemma on_fs_run {A} (m : M fstate A) (s : hstate) a t :
  m (hfs s) = Done a t -> on_fs m s = Done a (set_hfs t s).
Proof. intros H. unfold on_fs. by rewrite H. Qed.
Lemma set_hfs_id (s : hstate) : set_hfs (hfs s) s = s.
Proof. by destruct s. Qed.

Lemma win_result_ok (s : hstate) v k :
  ctl_in HD_STATUS (hctl s) = (v, k) -> status_ok v -> win_result s = Done 0 (set_hctl k s).
Proof.
  intros H Hok. unfold win_result, hd_inb. rewrite (bind_Done _ _ s (u8 v) (set_hctl k s)) by (by rewrite H).
  change (Z.lor (Z.lor (Z.lor (Z.lor BUSY_STAT READY_STAT) WRERR_STAT) SEEK_STAT) ERR_STAT) with 0xF1.
  by rewrite Hok.
Qed.
Lemma win_result_bad (s : hstate) v k :
  ctl_in HD_STATUS (hctl s) = (v, k) -> ~ status_ok v -> exists k', win_result s = Done 1 (set_hctl k' s).
Proof.
  intros H Hok. unfold win_result, hd_inb. rewrite (bind_Done _ _ s (u8 v) (set_hctl k s)) by (by rewrite H).
  change (Z.lor (Z.lor (Z.lor (Z.lor BUSY_STAT READY_STAT) WRERR_STAT) SEEK_STAT) ERR_STAT) with 0xF1.
  change (Z.lor READY_STAT SEEK_STAT) with 0x50. unfold status_ok in Hok. rewrite (proj2 (Z.eqb_neq _ _) Hok).
  destruct (negb _); [| by exists k].
  destruct (ctl_in HD_ERROR k) as [e k'] eqn:E. exists k'.
  rewrite (bind_Done _ _ (set_hctl k s) tt (set_hctl k' (set_hctl k s))); [by destruct s |].
  rewrite (bind_Done _ _ (set_hctl k s) (u8 e) (set_hctl k' (set_hctl k s))); [done |]. cbn [hctl set_hctl]. by rewrite E.
Qed.

Section request.
Context (wait_for_request : Z) (i : nat) (r : hd_request).

(** The first sector: into the first half of the buffer. *)
Definition one_read (d : list Z) (k : ctl) (s : hstate) : hstate :=
  let a := cell (hfs s) (r_bh r) b_data + 512 * Z.land (r_nsector r) 1 in
  set_request (<[i := set_r_nsector (r_nsector r - 1) (set_r_errors 0 r)]> (request s))
    (set_hfs (set_kmem (store_bytes (kmem (hfs s)) a (take 512 d)) (hfs s)) (set_hctl k s)).

Lemma read_intr_run (s : hstate) v k1 d k2 :
  this_request s = Some i -> request s !! i = Some r -> has (hfs s) (r_bh r) b_data ->
  ctl_in HD_STATUS (hctl s) = (v, k1) -> status_ok v -> ctl_insw k1 = (d, k2) ->
  read_intr wait_for_request s =
    (if negb (r_nsector r - 1 =? 0) then mret tt else complete_request wait_for_request) (one_read d k2 s).
Proof.
  intros Ht Hi Hd Hst Hok Hin. unfold read_intr.
  rewrite (bind_Done _ _ _ _ _ (win_result_ok _ _ _ Hst Hok)). cbn [negb Z.eqb].
  set (s1 := set_hctl k1 s).
  rewrite (bind_Done (gets _) _ s1 (Some i) s1) by (unfold gets; cbn [this_request set_hctl s1]; by rewrite Ht).
  rewrite (bind_Done _ _ _ _ _ (req_get_run s1 i r Hi)).
  rewrite (bind_Done _ _ s1 (cell (hfs s) (r_bh r) b_data) s1)
    by (rewrite (on_fs_run _ s1 _ _ (fget_cell _ _ _ Hd)); apply f_equal, (set_hfs_id s1)).
  set (a := cell (hfs s) (r_bh r) b_data + 512 * Z.land (r_nsector r) 1).
  set (s2 := set_hfs (set_kmem (store_bytes (kmem (hfs s)) a (take 512 d)) (hfs s)) (set_hctl k2 s)).
  rewrite (bind_Done (port_read a) _ s1 tt s2) by (unfold port_read; cbn [hctl set_hctl s1]; by rewrite Hin).
  rewrite (bind_Done _ _ _ _ _ (req_put_run s2 i r _ Hi)). set (s3 := set_request _ s2).
  assert (H3 : request s3 !! i = Some (set_r_errors 0 r)).
  { unfold s3. cbn [request set_request]. apply list_lookup_insert_eq. by eapply lookup_lt_Some. }
  rewrite (bind_Done _ _ _ _ _ (req_put_run s3 i _ _ H3)). unfold s3, one_read. cbn [request set_request].
  rewrite list_insert_insert_eq. reflexivity.
Qed.

(** What [complete_request] leaves to [do_request]. *)
Record completed (s s' : hstate) : Prop := {
  cp_cell q g : cell (hfs s') q g =
    if decide (q = r_bh r)
    then (match g with b_uptodate => 1 | b_dirt => 0 | b_lock => 0 | _ => cell (hfs s) q g end)
    else cell (hfs s) q g;
  cp_kmem : kmem (hfs s') = kmem (hfs s);
  cp_this : this_request s' = r_next r;
  cp_free : request s' = <[i := set_r_hd (-1) r]> (request s);
  cp_rest : sorting s' = sorting s /\ do_hd s' = do_hd s /\ hctl s' = hctl s /\ hd_structs s' = hd_structs s
}.

Definition wakes_both (p : pstate) : Prop :=
  exists p1 p2, wake_up wait_for_request p = Done tt p1 /\ wake_up (b_wait (r_bh r)) p1 = Done tt p2.

Lemma complete_run (s : hstate) :
  this_request s = Some i -> request s !! i = Some r ->
  (forall f, f ∈ [b_uptodate; b_dirt; b_lock] -> has (hfs s) (r_bh r) f) ->
  cell (hfs s) (r_bh r) b_lock <> 0 -> wakes_both (fps (hfs s)) ->
  exists s', complete_request wait_for_request s = do_request s' /\ completed s s'.
Proof.
  intros Ht Hi Hf Hl (p1 & p2 & Hw1 & Hw2). unfold complete_request.
  rewrite (bind_Done (gets _) _ s (Some i) s) by (unfold gets; by rewrite Ht).
  rewrite (bind_Done _ _ _ _ _ (req_get_run s i r Hi)).
  set (bh := r_bh r) in *. set (t1 := upd bh b_uptodate 1 (hfs s)). set (t2 := upd bh b_dirt 0 t1).
  rewrite (bind_Done _ _ _ _ _ (on_fs_run _ s tt t1 (fput_upd _ _ _ _ (Hf b_uptodate ltac:(in_list))))).
  assert (H2 : has t1 bh b_dirt) by (apply has_upd, Hf; in_list).
  rewrite (bind_Done _ _ _ _ _ (on_fs_run _ (set_hfs t1 s) tt t2 (fput_upd _ _ _ _ H2))).
  set (t3 := set_fps p1 t2).
  rewrite (bind_Done _ _ _ _ _ (on_fs_run (on_ps (wake_up wait_for_request)) (set_hfs t2 s) tt t3
    ltac:(unfold on_ps; cbn [hfs set_hfs]; change (fps t2) with (fps (hfs s)); by rewrite Hw1))).
  assert (H3 : has t3 bh b_lock) by (do 2 apply has_upd; apply Hf; in_list).
  set (t4 := set_fps p2 (upd bh b_lock 0 t3)).
  assert (Hun : unlock_buffer bh t3 = Done tt t4).
  { unfold unlock_buffer. fstep. replace (cell t3 bh b_lock =? 0) with false.
    2: { symmetry. apply Z.eqb_neq. unfold t3. rewrite cell_set_fps. unfold t2, t1. by rewrite !cell_upd_fld. }
    cbn [when]. fstep. fstep. unfold on_ps. change (fps (upd bh b_lock 0 t3)) with p1. by rewrite Hw2. }
  rewrite (bind_Done _ _ _ _ _ (on_fs_run _ (set_hfs t3 s) tt t4 Hun)).
  unfold finish_request. rewrite bind_assoc.
  set (s4 := set_hfs t4 s). 
  rewrite (bind_Done (gets _) _ s4 (Some i) s4) by (unfold gets; cbn [this_request set_hfs s4]; by rewrite Ht).
  rewrite bind_assoc, (bind_Done _ _ _ _ _ (req_put_run s4 i r _ Hi)).
  set (s5 := set_request (<[i := set_r_hd (-1) r]> (request s)) s4).
  assert (H5 : request s5 !! i = Some (set_r_hd (-1) r)).
  { cbn [request set_request s5]. apply list_lookup_insert_eq. by eapply lookup_lt_Some. }
  rewrite bind_assoc. change (set_request _ s4) with s5. rewrite (bind_Done _ _ _ _ _ (req_get_run s5 i _ H5)).
  exists (set_this_request (r_next r) s5). split; [reflexivity |]. constructor; try done.
  intros q g. cbn [hfs set_hfs set_request set_this_request s5 s4]. unfold t4. rewrite cell_set_fps.
  fold bh. destruct (decide (q = bh)) as [-> | Hne].
  - destruct (decide (g = b_lock)) as [-> | H4]; [by rewrite cell_upd_eq |]. rewrite cell_upd_fld by done.
    unfold t3. rewrite cell_set_fps. unfold t2. destruct (decide (g = b_dirt)) as [-> | H6]; [by rewrite cell_upd_eq |].
    rewrite cell_upd_fld by done. unfold t1. destruct (decide (g = b_uptodate)) as [-> | H7]; [by rewrite cell_upd_eq |].
    rewrite cell_upd_fld by done. by destruct g.
  - rewrite cell_upd_obj by done. unfold t3. rewrite cell_set_fps. unfold t2, t1. by rewrite !cell_upd_obj.
Qed.
End request.

Lemma hd_interrupt_read wait_for_request (s : hstate) :
  do_hd s = Some do_read_intr -> hd_interrupt wait_for_request s = read_intr wait_for_request s.
Proof. intros H. unfold hd_interrupt. rewrite (bind_Done (gets _) _ s (Some do_read_intr) s); [done |]. unfold gets. by rewrite H. Qed.

(** Two interrupts after which the controller has delivered a sector each. *)
Record two_sectors (s : hstate) (d1 d2 : list Z) (k : ctl) : Prop := {
  ts_len : length d1 = 512%nat /\ length d2 = 512%nat;
  ts_dialogue : exists v1 k1 k2 v2 k3, ctl_in HD_STATUS (hctl s) = (v1, k1) /\ status_ok v1 /\ ctl_insw k1 = (d1, k2) /\
    ctl_in HD_STATUS k2 = (v2, k3) /\ status_ok v2 /\ ctl_insw k3 = (d2, k)
}.

(** C18: A request for reading that the controller serves without an error is
    complete after two interrupts: the buffer holds the 1024 bytes of the two
    sectors, in their order, and is marked up to date, clean and unlocked; no
    other memory and no other field has changed. The request's slot is free,
    the next request of the queue is the current one, and [do_request] is what
    the second interrupt goes on with. *)
Theorem read_request_correct wait_for_request (s : hstate) i r d1 d2 k :
  this_request s = Some i -> request s !! i = Some r -> r_nsector r = 2 -> do_hd s = Some do_read_intr ->
  (forall f, f ∈ [b_data; b_uptodate; b_dirt; b_lock] -> has (hfs s) (r_bh r) f) ->
  cell (hfs s) (r_bh r) b_lock <> 0 -> wakes_both wait_for_request r (fps (hfs s)) ->
  let a := cell (hfs s) (r_bh r) b_data in
  0 <= a -> a + 1024 <= 2 ^ 32 -> two_sectors s d1 d2 k ->
  exists s', (_ ← hd_interrupt wait_for_request; hd_interrupt wait_for_request) s = do_request s' /\
    (forall x, in_u32 x -> load8 (kmem (hfs s')) x =
       if decide (a <= x < a + 1024) then u8 ((d1 ++ d2) !!! Z.to_nat (x - a)) else load8 (kmem (hfs s)) x) /\
    (forall q g, cell (hfs s') q g =
       if decide (q = r_bh r)
       then (match g with b_uptodate => 1 | b_dirt => 0 | b_lock => 0 | _ => cell (hfs s) q g end)
       else cell (hfs s) q g) /\
    this_request s' = r_next r /\ hctl s' = k /\
    (exists r', request s' = <[i := r']> (request s) /\ r_hd r' = -1 /\ r_next r' = r_next r).
Proof.
  intros Ht Hi H2 Hdo Hf Hl Hw a Ha Ha2 [[Hl1 Hl2] (v1 & k1 & k2 & v2 & k3 & D1 & O1 & D2 & D3 & O2 & D4)].
  assert (Hd : has (hfs s) (r_bh r) b_data) by (apply Hf; in_list).
  set (s1 := one_read i r d1 k2 s). set (r1 := set_r_nsector 1 (set_r_errors 0 r)).
  assert (E1 : read_intr wait_for_request s = Done tt s1).
  { rewrite (read_intr_run _ i r s v1 k1 d1 k2) by done. by rewrite H2. }
  rewrite (bind_Done _ _ s tt s1) by (by rewrite hd_interrupt_read).
  rewrite hd_interrupt_read by done.
  assert (Hi1 : request s1 !! i = Some r1).
  { unfold s1, one_read. cbn [request set_request]. rewrite H2. apply list_lookup_insert_eq. by eapply lookup_lt_Some. }
  rewrite (read_intr_run _ i r1 s1 v2 k3 d2 k) by done. cbn [r_nsector r1 set_r_nsector negb Z.eqb Z.sub Z.add Z.opp Z.pos_sub].
  set (s2 := one_read i r1 d2 k s1).
  assert (Hi2 : request s2 !! i = Some (set_r_nsector 0 r1)).
  { unfold s2, one_read. cbn [request set_request]. apply list_lookup_insert_eq. by eapply lookup_lt_Some. }
  destruct (complete_run wait_for_request i (set_r_nsector 0 r1) s2) as (s3 & Hc & [C1 C2 C3 C4 C5]); try done.
  { intros f Hf'. apply Hf. by right. }
  exists s3. split; [exact Hc |]. split.
  - intros x Hx. rewrite C2. unfold s2, one_read. cbn [kmem hfs set_request set_hfs set_kmem r_nsector r1 set_r_nsector].
    change (cell (hfs s1) (r_bh r1) b_data) with a. change (512 * Z.land 1 1) with 512.
    rewrite !take_ge by lia. rewrite load8_store_bytes by (done || lia). unfold s1, one_read.
    cbn [kmem hfs set_request set_hfs set_kmem]. fold a. rewrite H2. change (512 * Z.land 2 1) with 0.
    rewrite take_ge by lia. rewrite Z.add_0_r, load8_store_bytes by (done || lia). rewrite Hl1, Hl2.
    repeat case_decide; try lia.
    + rewrite lookup_total_app_r by lia. do 2 f_equal. lia.
    + rewrite lookup_total_app_l by lia. done.
  - split; [exact C1 |]. split; [exact C3 |]. destruct C5 as (_ & _ & -> & _). split; [done |].
    exists (set_r_hd (-1) (set_r_nsector 0 r1)). split; [| done]. rewrite C4. unfold s2, s1, one_read.
    cbn [request set_request]. by rewrite !list_insert_insert_eq.
Qed.

(** After an error in the second sector the command that is issued again is
    for one sector, and for the one the request began with. *)
Theorem retry_starts_over wait_for_request (s : hstate) i r d1 v1 k1 k2 v2 k3 :
  this_request s = Some i -> request s !! i = Some r -> r_nsector r = 2 -> do_hd s = Some do_read_intr ->
  r_cmd r = WIN_READ -> has (hfs s) (r_bh r) b_data ->
  ctl_in HD_STATUS (hctl s) = (v1, k1) -> status_ok v1 -> ctl_insw k1 = (d1, k2) ->
  ctl_in HD_STATUS k2 = (v2, k3) -> ~ status_ok v2 ->
  exists s' r', (_ ← hd_interrupt wait_for_request; hd_interrupt wait_for_request) s = reset_hd (r_hd r) s' /\
    this_request s' = Some i /\ request s' !! i = Some r' /\
    (forall s'', sorting s'' = 0 -> this_request s'' = Some i -> request s'' !! i = Some r' ->
       do_request s'' = hd_out (r_hd r) 1 (r_sector r) (r_head r) (r_cyl r) WIN_READ do_read_intr s'').
Proof.
  intros Ht Hi H2 Hdo Hcmd Hd D1 O1 D2 D3 O2.
  set (s1 := one_read i r d1 k2 s). set (r1 := set_r_nsector 1 (set_r_errors 0 r)).
  assert (E1 : read_intr wait_for_request s = Done tt s1).
  { rewrite (read_intr_run _ i r s v1 k1 d1 k2) by done. by rewrite H2. }
  rewrite (bind_Done _ _ s tt s1) by (by rewrite hd_interrupt_read).
  rewrite hd_interrupt_read by done.
  assert (Hi1 : request s1 !! i = Some r1).
  { unfold s1, one_read. cbn [request set_request]. rewrite H2. apply list_lookup_insert_eq. by eapply lookup_lt_Some. }
  destruct (win_result_bad s1 v2 k3 D3 O2) as (k' & Hbad).
  unfold read_intr. rewrite (bind_Done _ _ _ _ _ Hbad). cbn [negb Z.eqb].
  set (s2 := set_hctl k' s1). unfold bad_rw_intr.
  rewrite (bind_Done (gets _) _ s2 (Some i) s2) by (unfold gets; change (this_request s2) with (this_request s); by rewrite Ht).
  rewrite (bind_Done _ _ _ _ _ (req_get_run s2 i r1 Hi1)), (bind_Done _ _ _ _ _ (req_put_run s2 i r1 _ Hi1)).
  change (MAX_ERRORS <=? r_errors r1) with false. cbn [when]. rewrite (bind_Done (mret tt) _ _ _ _ eq_refl).
  exists (set_request (<[i := set_r_errors 1 r1]> (request s2)) s2), (set_r_errors 1 r1). split; [reflexivity |].
  split; [done |]. split.
  { cbn [request set_request]. apply list_lookup_insert_eq. by eapply lookup_lt_Some. }
  intros s'' Hso Ht'' Hi''. unfold do_request. rewrite (bind_Done (gets _) _ s'' 0 s'') by (unfold gets; by rewrite Hso).
  cbn [negb Z.eqb]. rewrite (bind_Done (gets _) _ s'' (Some i) s'') by (unfold gets; by rewrite Ht'').
  rewrite (bind_Done _ _ _ _ _ (req_get_run s'' i _ Hi'')). cbn [r_cmd r1 set_r_errors set_r_nsector].
  rewrite Hcmd. reflexivity.
Qed.
End intr.

(** ** One buffer, one request *)

(** Sectors of 42s. *)
#[local] Instance answering_controller : Controller := {|
  ctl := unit; ctl_in := fun _ k => (0x50, k); ctl_out := fun _ _ k => k;
  ctl_insw := fun k => (replicate 512 42, k); ctl_outsw := fun _ k => k |}.

Definition request_demo : hd_request :=
  {| r_hd := 0; r_nsector := 2; r_sector := 8; r_head := 1; r_cyl := 2; r_cmd := WIN_READ; r_errors := 0;
     r_bh := 0x1000; r_next := None |}.

(** Task 2000 sleeps on the buffer. *)
Definition intr_demo : hstate := {|
  hfs := {| fps := set_wq {[0x100C := 2000]} (demo_table [2000] {[2000 := mk_task 2 9 15]} 1000);
    cells := list_to_map [((0x1000, b_data), 0x8000); ((0x1000, b_uptodate), 0); ((0x1000, b_dirt), 0);
      ((0x1000, b_lock), 1); ((0x1000, b_blocknr), 50); ((0x1000, b_dev), 0x306)];
    kmem := ∅; hash_table := []; free_list := 0; nr_buffers := 0;
    last_allocated_inode := 0; flog := []; fdisk := fun _ _ _ => 0; fpages := [] |};
  hd_structs := [(0, 83300); (85, 10000); (0, 0); (0, 0); (0, 0); (0, 83300); (100, 80000)];
  request := [request_demo];
  this_request := Some 0%nat; sorting := 0; do_hd := Some do_read_intr; callable := 0; hctl := tt |}.

Lemma rw_hd_witness :
  exists cyl head sec,
    @rw_hd answering_controller 0 (fun _ => mret tt) 1 READ 0x1000 intr_demo =
      @rw_abs_hd answering_controller 0 (fun _ => mret tt) 1 READ 1 sec head cyl 0x1000 intr_demo /\
    sector_number cyl head sec = 200.
Proof.
  destruct (@rw_hd_correct answering_controller 0 (fun _ => mret tt) 1 READ 0x1000 intr_demo 100 80000)
    as (H & _); [vm_compute; by eexists | vm_compute; by eexists | vm_compute; done | vm_compute; done
                 | vm_compute; reflexivity | lia | lia | lia |].
  destruct H as (cyl & head & sec & H1 & H2 & _); [vm_compute; discriminate |].
  exists cyl, head, sec. split; [exact H1 | exact H2].
Defined.

Lemma read_request_witness :
  exists s', (_ ← @hd_interrupt answering_controller 0; @hd_interrupt answering_controller 0) intr_demo = @do_request answering_controller s' /\
    cell (hfs s') 0x1000 b_uptodate = 1 /\ load8 (kmem (hfs s')) 0x8005 = 42 /\ this_request s' = None.
Proof.
  destruct (@read_request_correct answering_controller 0 intr_demo 0 request_demo (replicate 512 42) (replicate 512 42) tt)
    as (s' & H1 & H2 & H3 & H4 & _); try reflexivity.
  - intros f Hf. repeat (apply elem_of_cons in Hf as [-> | Hf]); [by vm_compute; eexists .. |]. by apply elem_of_nil in Hf.
  - vm_compute. discriminate.
  - do 2 eexists. split; [reflexivity | vm_compute; reflexivity].
  - vm_compute. discriminate.
  - vm_compute. discriminate.
  - constructor; [done |]. do 5 eexists. split; [reflexivity |]. split; [reflexivity |]. split; [reflexivity |].
    split; [reflexivity |]. split; reflexivity.
  - exists s'. split; [exact H1 |]. split; [rewrite H3; reflexivity |]. split; [| exact H4].
    rewrite H2 by (vm_compute; split; [discriminate | reflexivity]). vm_compute. reflexivity.
Defined.
