(* ===== verification/SmallVolume.v ===== *)
(** * SmallVolume: a volume of two buffers

    A concrete mounted volume, at which the theorems of [Bitmap] are applied. *)

From S2P Require Import Prelude Mem Libc Proc Sched FsState Buffer BufferInv Getblk BufferInit Contents Bitmap Inode Zones FileDev FileWrite Namei Lookup.

(** ** A small volume

    The two buffers of [boot_state]: the zone map of device 0x306 in one, the
    other free. The super block says the data zones are 10 to 99, the first
    taken. *)
#[local] Existing Instance small_world.
#[local] Existing Instance small_good_disk.


Definition mount : M fstate unit :=
  _ ← buffer_init;
  zb ← getblk 1 0x306 3;
  _ ← fnew super_block s_dev 0x306;
  _ ← fnew super_block s_firstdatazone 10;
  _ ← fnew super_block s_nzones 100;
  _ ← for_loop 8 0 (fun i => fnew super_block (s_zmap i) (if i =? 0 then zb else 0));
  _ ← for_loop 26 0 (fun i =>
        f ← get_opt "inode_fields" (fun _ => inode_fields !! Z.to_nat i);
        fnew inode_table f 0);
  _ ← fnew inode_table i_mode 0x81A4;
  _ ← fnew inode_table i_size 20000;
  _ ← fnew inode_table i_dev 0x306;
  _ ← for_loop 9 0 (fun i => fnew inode_table (i_zone i) (20 + i));
  _ ← fnew file_table f_pos 1000;
  _ ← fnew file_table f_flags 0;
  d ← fget zb b_data;
  _ ← set_bit 0 d;
  _ ← set_bit 1 d;
  mret tt.
Definition small_volume : fstate :=
  match mount boot_state with Done _ s => s | Halt _ => boot_state end.
#[local] Opaque small_volume.
Definition small_list : list Z := [0x1FF7C0; 0x1FF7A0].


Lemma volume_facts :
  Forall (fun p => cell small_volume p b_lock = 0 /\ (cell small_volume p b_dirt <> 0 -> cell small_volume p b_dev <> 0) /\ 20 <= cell small_volume p b_data <= 2 ^ 32 - 1024 /\
    Forall (has small_volume p) buf_fields /\
    Forall (fun q => p <> q -> disjoint (cell small_volume p b_data) 1024 (cell small_volume q b_data) 1024) small_list)
    small_list /\
  Forall (fun i => has small_volume super_block (s_zmap i) /\
    (i <> 0 -> cell small_volume super_block (s_zmap i) = 0)) [0; 1; 2; 3; 4; 5; 6; 7] /\
  nr_buffers small_volume = 2.
Proof. unfold disjoint. apply (bool_decide_unpack _). by vm_compute. Qed.

Lemma below_8 i : 0 <= i < 8 -> i ∈ [0; 1; 2; 3; 4; 5; 6; 7].
Proof. intros. apply list_elem_of_In. cbn. lia. Qed.

(** Whoever sleeps is a task. *)
Lemma small_sleepers : all_wakeable small_volume.
Proof.
  assert (H : map_Forall (fun _ h => h = 0 \/ is_Some (tasks (fps small_volume) !! h)) (wq (fps small_volume)))
    by (apply (bool_decide_unpack _); by vm_compute).
  intros q. apply wake_up_ok. right. destruct (wq (fps small_volume) !! q) as [h |] eqn:E; [exact (H q h E) | by left].
Qed.

Lemma small_volume_ok : volume small_list (chains small_volume small_list) 0x306 super_block small_volume.
Proof.
  destruct volume_facts as (Hp & Hz & Hnr). rewrite Forall_forall in Hp, Hz.
  assert (Hz0 : forall i, 0 <= i < 8 -> cell small_volume super_block (s_zmap i) <> 0 -> i = 0).
  { intros i Hi H. destruct (decide (i = 0)) as [| Hn]; [done |]. destruct (Hz i (below_8 i Hi)) as [_ E]. elim H. exact (E Hn). }
  constructor.
  - apply cache_check_ok. apply (bool_decide_unpack _). by vm_compute.
  - intros p H. exact (proj1 (Hp p H)).
  - intros i Hi. rewrite Hnr in Hi.
    assert (Hin : start_buffer + sizeof_buffer_head * i ∈ small_list).
    { apply list_elem_of_In. cbn [small_list In start_buffer small_world]. unfold sizeof_buffer_head. lia. }
    destruct (Hp _ Hin) as (H1 & _ & _ & H2 & _). rewrite Forall_forall in H2. split; [exact H2 | exact H1].
  - intros p H. exact (proj1 (proj2 (Hp p H))).
  - cbn; lia.
  - intros p H. exact (proj1 (proj2 (proj2 (Hp p H)))).
  - intros p q H1 H2. destruct (Hp p H1) as (_ & _ & _ & _ & H). rewrite Forall_forall in H. exact (H q H2).
  - exact small_sleepers.
  - lia.
  - unfold get_super. change (Z.to_nat NR_SUPER) with 8%nat. cbn [get_super_from].
    assert (H : has small_volume super_block s_dev) by (vm_compute; eexists; reflexivity). fstep.
    assert (E : cell small_volume super_block s_dev = 0x306) by (vm_compute; reflexivity).
    rewrite E. reflexivity.
  - discriminate.
  - split; vm_compute; eexists; reflexivity.
  - vm_compute. discriminate.
  - vm_compute. discriminate.
  - intros i Hi. exact (proj1 (Hz i (below_8 i Hi))).
  - intros i Hi H. rewrite (Hz0 i Hi H). split; [apply list_elem_of_In; vm_compute; tauto |].
    split; [vm_compute; reflexivity | vm_compute; discriminate].
  - intros i j Hi Hj H E. rewrite (Hz0 i Hi H). symmetry. apply Hz0; [exact Hj |]. rewrite <- E. exact H.
Qed.

(** Zone 2, block 11, is given out. *)
Lemma new_block_witness :
  exists s', new_block 1 0x306 small_volume = Done 11 s' /\ zone_free s' super_block 2 = false.
Proof.
  destruct (new_block_correct _ _ _ _ _ 1 small_volume_ok) as [_ H].
  - lia.
  - destruct (H 2) as (_ & _ & H2).
    + lia.
    + by vm_compute.
    + intros k' Hk. assert (Ek : k' = 0 \/ k' = 1) by lia. destruct Ek as [-> | ->]; by vm_compute.
    + destruct H2 as (bh & L' & C' & s' & H2 & _ & _ & _ & _ & _ & _ & _ & _ & H3).
      * by vm_compute.
      * intros q Hq [H1 H2]. exfalso. 
        apply list_elem_of_In in Hq. destruct Hq as [<- | [<- | []]]; revert H1 H2; vm_compute; congruence.
      * exists 0x1FF7C0. split; [in_list | by vm_compute].
      * exists s'. split; [exact H2 | apply (H3 2); lia].
Defined.

(** Block 10, whose bit is set and which no buffer holds, is freed. *)
Lemma free_block_witness :
  exists s', free_block 1 0x306 10 small_volume = Done tt s' /\ zone_free s' super_block 1 = true.
Proof.
  destruct (free_block_correct _ _ _ _ _ 1 10 small_volume_ok) as [_ H].
  - lia.
  - destruct H as [_ H].
    + by vm_compute.
    + vm_compute. discriminate.
    + assert (E : zone_free small_volume super_block 1 = false) by (vm_compute; reflexivity).
      change (10 - _) with 1 in H. rewrite E in H. destruct H as (s' & H1 & H2).
      * intros q Hq [H1 H2]. exfalso. 
        apply list_elem_of_In in Hq. destruct Hq as [<- | [<- | []]]; revert H1 H2; vm_compute; congruence.
      * exists s'. split; [exact H1 | apply (H2 1); lia].
Defined.

(** The bytes of the device tell where they are; the cache stands for them. *)
Definition numbered (d b x : Z) : Z := u8 (b + x).

Lemma small_ready : ready small_list small_volume.
Proof.
  destruct volume_facts as (_ & _ & Hnr). constructor.
  - exists small_list, (chains small_volume small_list). split; [reflexivity | exact (vo_cache _ _ _ _ _ small_volume_ok)].
  - exact (vo_lock _ _ _ _ _ small_volume_ok).
  - exact (vo_array _ _ _ _ _ small_volume_ok).
  - exact (vo_dirty _ _ _ _ _ small_volume_ok).
  - exact (vo_two _ _ _ _ _ small_volume_ok).
  - intros p. rewrite Hnr. split.
    + intros Hp. apply list_elem_of_In in Hp.
      destruct Hp as [<- | [<- | []]]; [exists 1 | exists 0]; (split; [lia | reflexivity]).
    + intros (i & Hi & ->). apply list_elem_of_In.
      cbn [small_list In start_buffer small_world]. unfold sizeof_buffer_head. lia.
  - exact (vo_data _ _ _ _ _ small_volume_ok).
  - exact (vo_apart _ _ _ _ _ small_volume_ok).
  - exact (vo_wake _ _ _ _ _ small_volume_ok).
Qed.

Lemma small_flags :
  Forall (fun p => cell small_volume p b_uptodate = 0 /\ cell small_volume p b_dirt = 0 /\
    0 <= cell small_volume p b_count < 255) small_list.
Proof. apply (bool_decide_unpack _). by vm_compute. Qed.

Lemma small_disk_bytes d b x : disk_byte small_volume d b x = numbered d b x.
Proof. reflexivity. Qed.

Lemma small_holds : holds small_list numbered small_volume.
Proof.
  pose proof small_flags as Hf. rewrite Forall_forall in Hf. constructor.
  - intros p x Hp _ _ H. elim H. exact (proj1 (Hf p Hp)).
  - intros p Hp _ H. elim H. exact (proj1 (proj2 (Hf p Hp))).
  - intros. apply small_disk_bytes.
  - intros. apply small_disk_bytes.
Qed.

Lemma small_spare : spare small_list small_volume.
Proof.
  pose proof small_flags as Hf. rewrite Forall_forall in Hf. split.
  - intros p Hp. exact (proj2 (proj2 (Hf p Hp))).
  - exists 0x1FF7C0. split; [in_list | vm_compute; reflexivity].
Qed.

(** Block 50 of the device: its byte 3 is 53. *)
Lemma bread_witness :
  exists bh s', bread 1 0x306 50 small_volume = Done bh s' /\
    load8 (kmem s') (cell s' bh b_data + 3) = 53.
Proof.
  destruct (bread_correct small_list numbered small_volume 1 0x306 50 small_ready small_spare small_holds)
    as (bh & s' & Hrun & _ & _ & Hb); [lia | lia | lia |].
  exists bh, s'. split; [exact Hrun |]. rewrite (hb_bytes _ _ _ _ _ _ _ Hb) by lia. reflexivity.
Defined.

Lemma small_serves : serves small_list numbered small_volume.
Proof. split; [exact small_ready | split; [exact small_spare | exact small_holds]]. Qed.

Lemma small_inode_facts :
  Forall (has small_volume inode_table) inode_fields /\
  Forall (fun i => 0 <= cell small_volume inode_table (i_zone i) < 65536) [0; 1; 2; 3; 4; 5; 6; 7; 8].
Proof. apply (bool_decide_unpack _). by vm_compute. Qed.

Lemma small_in_core : in_core 0x306 inode_table small_volume.
Proof.
  destruct small_inode_facts as [Hf Hz]. rewrite Forall_forall in Hf. rewrite Forall_forall in Hz. constructor.
  - vm_compute. reflexivity.
  - lia.
  - exact Hf.
  - intros i Hi. apply Hz. apply list_elem_of_In. cbn. lia.
Qed.

(** Block 8 of the file is behind zone 7: entry 1 of block 27, bytes 29 and 30. *)
Lemma bmap_witness :
  exists s', bmap 1 inode_table 8 small_volume = Done (29 + 256 * 30) s'.
Proof.
  destruct (bmap_correct small_list numbered 0x306 inode_table small_volume 1 8 small_serves small_in_core)
    as [H _]; [lia |].
  destruct H as (s' & H & _); [lia |]. exists s'. rewrite H.
  assert (E : file_zone numbered 0x306 (fun i => cell small_volume inode_table (i_zone i)) 8 = 29 + 256 * 30)
    by (vm_compute; reflexivity).
  rewrite E. reflexivity.
Defined.


(** The inode read as a directory: the user looks for "GHIJKLMNOPQRST". *)
Definition name_memory : memory := store_bytes ∅ 0x6000 (seqZ 71 14).
Definition lookup_volume : fstate := with_umem name_memory small_volume.

Lemma lookup_zones i : 0 <= i < 9 -> cell lookup_volume inode_table (i_zone i) = 20 + i.
Proof.
  assert (H : Forall (fun i => cell small_volume inode_table (i_zone i) = 20 + i) [0; 1; 2; 3; 4; 5; 6; 7; 8])
    by (apply (bool_decide_unpack _); by vm_compute).
  rewrite Forall_forall in H. intros Hi. unfold lookup_volume, with_umem. rewrite cell_set_fps. apply H.
  apply list_elem_of_In. cbn. lia.
Qed.

Lemma kmem_with_umem m s : kmem (with_umem m s) = kmem s.
Proof. reflexivity. Qed.

Lemma lookup_serves : serves small_list numbered lookup_volume.
Proof.
  pose proof (same_cache_umem name_memory small_volume) as Hsc. destruct small_serves as (Hr & Hsp & Hh).
  unfold lookup_volume. set (s := with_umem name_memory small_volume) in *.
  assert (Hm : kmem s = kmem small_volume) by apply kmem_with_umem.
  split; [exact (same_cache_ready _ _ _ Hsc Hr) |].
  split; [| exact (same_cache_holds _ _ _ _ Hsc Hm Hh)].
  apply (spare_counts small_list small_volume s); [| exact Hsp].
  intros q _. apply (sc_cell _ _ Hsc). in_list.
Qed.

Lemma lookup_core : in_core 0x306 inode_table lookup_volume.
Proof.
  apply (in_core_rest numbered 0x306 inode_table small_volume);
    [intros q g _; apply cell_set_fps | intros q g H; by apply has_set_fps | exact small_in_core].
Qed.

(** Blocks 0 and 1 of the file are zones 20 and 21. *)
Lemma lookup_first k : 0 <= k <= 1 -> file_zone numbered 0x306 (zones_of inode_table lookup_volume) k = 20 + k.
Proof.
  intros Hk. rewrite (file_zone_ext numbered 0x306 _ (fun i => 20 + i)); [| exact lookup_zones | lia].
  unfold file_zone. by rewrite (proj2 (Z.ltb_lt k 7)) by lia.
Qed.

Lemma lookup_own : own_zones numbered 0x306 (zones_of inode_table lookup_volume) 0 1.
Proof.
  constructor; intros k k' Hk Hk'; rewrite ?lookup_first by lia; [lia |].
  intros _. unfold tables. rewrite (proj2 (Z.ltb_lt k' 7)) by lia. set_solver.
Qed.

Lemma lookup_file :
  has lookup_volume file_table f_pos /\ has lookup_volume file_table f_flags /\
  cell lookup_volume file_table f_pos = 1000 /\ cell lookup_volume file_table f_flags = 0.
Proof. vm_compute. repeat split; by eexists. Qed.

Lemma lookup_allocated : allocated 0x306 inode_table 0 1 numbered lookup_volume 1000 30.
Proof.
  intros k Hk. change (1000 / 1024) with 0 in Hk. change ((1000 + 30 - 1) / 1024) with 1 in Hk.
  split; [lia |]. rewrite lookup_first; lia.
Qed.

(** Thirty bytes, across the end of a block. *)
Lemma file_write_witness :
  exists c' s', file_write 1 inode_table file_table 0x6000 30 lookup_volume = Done 30 s' /\
    file_byte c' 0x306 (zones_of inode_table s') 1005 = 76 /\
    file_byte c' 0x306 (zones_of inode_table s') 999 = numbered 0x306 20 999 /\
    cell s' inode_table i_size = 20000 /\ cell s' file_table f_pos = 1030.
Proof.
  destruct lookup_file as (H1 & H2 & H3 & H4).
  assert (Hpos : write_pos inode_table lookup_volume file_table = 1000).
  { unfold write_pos. rewrite H4. exact H3. }
  destruct (file_write_correct small_list 0x306 inode_table 0 1 numbered 1 lookup_volume file_table 0x6000 30)
    as (c' & s' & Hrun & _ & Hb & _ & Hsz & Hp & _).
  all: try exact lookup_serves; try exact lookup_core; try exact lookup_own; try exact H1; try exact H2; rewrite ?Hpos; try lia.
  - exact lookup_allocated.
  - exists c', s'. rewrite Hpos in Hb, Hsz, Hp. rewrite H4 in Hp. split; [exact Hrun |].
    assert (Hl : lookup_volume = with_umem name_memory small_volume) by reflexivity.
    split; [| split; [| split]].
    + rewrite Hb by (change (1005 / 1024) with 0; lia). rewrite decide_True by lia. rewrite Hl. vm_compute. reflexivity.
    + rewrite Hb by (change (999 / 1024) with 0; lia). rewrite decide_False by lia.
      unfold file_byte. change (999 / 1024) with 0. rewrite lookup_first by lia. reflexivity.
    + rewrite Hsz. vm_compute. reflexivity.
    + exact Hp.
Defined.

Lemma write_read_witness :
  exists s',
    (w ← file_write 1 inode_table file_table 0x6000 30;
     _ ← fput file_table f_pos 1000;
     r ← file_read 1 inode_table file_table 0x8000 30;
     mret (w, r)) lookup_volume = Done (30, 30) s' /\
    load8 (umem (fps s')) (0x8000 + 13) = 84.
Proof.
  destruct lookup_file as (H1 & H2 & H3 & H4).
  destruct (write_read_roundtrip small_list 0x306 inode_table 0 1 numbered 1 lookup_volume file_table 0x6000 0x8000 30)
    as (s' & Hrun & Hm).
  all: try exact lookup_serves; try exact lookup_core; try exact lookup_own; try exact H1; try exact H2; rewrite ?H3, ?H4; try lia; try reflexivity.
  - exact lookup_allocated.
  - exists s'. rewrite H3 in Hrun. split; [exact Hrun |]. rewrite Hm by lia. vm_compute. reflexivity.
Defined.

(** The zones the theorem speaks of are 20, 21, and so on. *)
Lemma lookup_byte i k :
  0 <= 16 * i + k ->
  entry_byte numbered 0x306 (fun i => cell lookup_volume inode_table (i_zone i)) i k =
    entry_byte numbered 0x306 (fun i => 20 + i) i k.
Proof. intros H. unfold entry_byte. apply file_byte_ext; [exact lookup_zones | exact H]. Qed.

Lemma find_entry_witness :
  exists bh s', find_entry 1 inode_table 0x6000 14 lookup_volume = Done (bh, cell s' bh b_data + 16 * 3) s' /\
    load16 (kmem s') (cell s' bh b_data + 16 * 3) = 69 + 256 * 70.
Proof.
  assert (Hsz : cell lookup_volume inode_table i_size = 20000) by (vm_compute; reflexivity).
  assert (Hfile : forall b, 0 <= b < 20 -> file_zone numbered 0x306 (fun i => 20 + i) b <> 0).
  { assert (H : Forall (fun b => file_zone numbered 0x306 (fun i => 20 + i) b <> 0) (seqZ 0 20))
      by (apply (bool_decide_unpack _); by vm_compute).
    rewrite Forall_forall in H. intros b Hb. apply H, elem_of_seqZ. lia. }
  assert (Hno : no_holes numbered 0x306 inode_table lookup_volume).
  { unfold no_holes. rewrite Hsz. split; [vm_compute; discriminate |]. intros b Hb Hlt.
    change (Z.max (20000 / 16) 1) with 1250 in Hlt.
    rewrite (file_zone_ext numbered 0x306 _ (fun i => 20 + i)); [apply Hfile; lia | exact lookup_zones | lia]. }
  destruct (find_entry_correct small_list numbered 0x306 inode_table lookup_volume 1 0x6000 14 lookup_serves lookup_core)
    as [H _]; [vm_compute; eexists; reflexivity | lia | lia | exact Hno |].
  change (Z.min 14 14) with 14 in H. rewrite Hsz in H.
  destruct (H 67) as (bh & s' & Hrun & Hg).
  - vm_compute. split; [discriminate | reflexivity].
  - split; [unfold entry_ino; rewrite !lookup_byte by lia; vm_compute; discriminate |]. split; [| lia].
    assert (Hk : Forall (fun k => load8 name_memory (0x6000 + k) = entry_byte numbered 0x306 (fun i => 20 + i) 67 (2 + k)) (seqZ 0 14))
      by (apply (bool_decide_unpack _); by vm_compute).
    rewrite Forall_forall in Hk. intros k Hk'. rewrite lookup_byte by lia. apply Hk, elem_of_seqZ. lia.
  - intros j Hj (_ & Hk & _). specialize (Hk 0 ltac:(lia)). rewrite lookup_byte in Hk by lia.
    assert (Hn : Forall (fun j => entry_byte numbered 0x306 (fun i => 20 + i) j 2 <> 71) (seqZ 0 67))
      by (apply (bool_decide_unpack _); by vm_compute).
    rewrite Forall_forall in Hn. apply (Hn j); [apply elem_of_seqZ; lia |]. change (2 + 0) with 2 in Hk. rewrite <- Hk.
    vm_compute. reflexivity.
  - exists bh, s'. split; [exact Hrun |]. change (67 / 64) with 1 in Hg.
    assert (E : file_zone numbered 0x306 (fun i => cell lookup_volume inode_table (i_zone i)) 1 = 21)
      by (apply (lookup_zones 1); lia).
    rewrite E in Hg. unfold load16. rewrite <- Z.add_assoc.
    rewrite !(holding_byte _ _ _ _ _ _ _ Hg) by lia. reflexivity.
Defined.
