(* ===== verification/SmallInodes.v ===== *)
(** * SmallInodes: an inode table over the small volume

    The volume of [SmallVolume] with an inode table nobody uses yet, at which
    the theorem about [iget] is applied. *)

From S2P Require Import Prelude Mem Proc Sched FsState Buffer BufferInv Getblk BufferInit Contents Bitmap Inode Zones InodeDisk Iget SmallVolume.

#[local] Existing Instance small_world.
#[local] Existing Instance small_good_disk.

Definition blank_table : M fstate unit :=
  _ ← fnew super_block s_imap_blocks 1;
  _ ← fnew super_block s_zmap_blocks 1;
  for_loop 32 0 (fun i =>
    for_loop 26 0 (fun k => fnew (inode_at i) (nth (Z.to_nat k) inode_fields i_mode) 0)).
Definition inode_volume : fstate :=
  match blank_table small_volume with Done _ s => s | Halt _ => small_volume end.

(** The inodes as the volume has them: super block, boot block and two blocks of maps come first. *)
Definition volume_inode (d nr : Z) (f : fld) : Z :=
  foldr (fun e r => if decide (e.1.1 = f) then disk_field numbered d 4 nr e.1.2 e.2 else r) 0 d_inode_layout.

Lemma volume_inode_field d nr f o n :
  (f, o, n) ∈ d_inode_layout -> volume_inode d nr f = disk_field numbered d 4 nr o n.
Proof. intros H%list_elem_of_In. cbn in H. repeat (destruct H as [[= <- <- <-] | H]; [reflexivity |]). destruct H. Qed.

Lemma fnew_same s q f v : (f ∉ buf_fields) -> post (fnew q f v) s (fun _ s' => same_cache s s' /\ kmem s' = kmem s).
Proof.
  intros Hf. eapply post_Done; [reflexivity |]. split; [| done]. constructor; try done.
  - intros p g H. unfold has in *. cbn [cells set_cells]. apply lookup_insert_is_Some. destruct (decide ((q, f) = (p, g))); auto.
  - intros p g Hg. unfold cell. cbn [cells set_cells]. rewrite lookup_insert_ne; [done | congruence].
Qed.

Lemma inode_volume_same : same_cache small_volume inode_volume /\ kmem inode_volume = kmem small_volume.
Proof.
  assert (Hk : forall s s1, same_cache small_volume s /\ kmem s = kmem small_volume ->
    same_cache s s1 /\ kmem s1 = kmem s -> same_cache small_volume s1 /\ kmem s1 = kmem small_volume).
  { intros s s1 [H1 E1] [H2 E2]. split; [by eapply same_cache_trans | congruence]. }
  assert (Hnew : forall q f v s, (f ∉ buf_fields) -> same_cache small_volume s /\ kmem s = kmem small_volume ->
    post (fnew q f v) s (fun _ s' => same_cache small_volume s' /\ kmem s' = kmem small_volume)).
  { intros q f v s Hf Hs. eapply post_mono; [by apply fnew_same | intros [] s1; by apply Hk]. }
  assert (H : post blank_table small_volume (fun _ s' => same_cache small_volume s' /\ kmem s' = kmem small_volume)).
  { unfold blank_table. apply post_bind. eapply post_mono; [apply Hnew; [not_in_list | split; [apply same_cache_refl | done]] |].
    intros [] s1 H1. apply post_bind. eapply post_mono; [apply Hnew; [not_in_list | exact H1] |].
    intros [] s2 H2. apply (post_for_loop _ _ _ (fun _ s => same_cache small_volume s /\ kmem s = kmem small_volume)); [exact H2 |].
    intros i s3 _ H3. apply (post_for_loop _ _ _ (fun _ s => same_cache small_volume s /\ kmem s = kmem small_volume)); [exact H3 |].
    intros k s4 _ H4. apply Hnew; [| exact H4]. apply inode_field_rest.
    destruct (nth_in_or_default (Z.to_nat k) inode_fields i_mode) as [Hn | ->]; [by apply list_elem_of_In | in_list]. }
  apply post_inv in H as ([] & s' & Hrun & H). unfold inode_volume. by rewrite Hrun.
Qed.

Lemma inode_volume_facts :
  Forall (fun i => Forall (has inode_volume (inode_at i)) inode_fields /\
    Forall (fun f => cell inode_volume (inode_at i) f = 0) inode_fields) (seqZ 0 32) /\
  last_allocated_inode inode_volume = 0 /\ has inode_volume super_block s_dev /\
  cell inode_volume super_block s_dev = 0x306 /\
  has inode_volume super_block s_imap_blocks /\ cell inode_volume super_block s_imap_blocks = 1 /\
  has inode_volume super_block s_zmap_blocks /\ cell inode_volume super_block s_zmap_blocks = 1.
Proof. apply (bool_decide_unpack _). by vm_compute. Qed.
#[local] Opaque inode_volume.

Lemma slot_zero i f : slot i -> f ∈ inode_fields -> has inode_volume (inode_at i) f /\ cell inode_volume (inode_at i) f = 0.
Proof.
  intros Hi Hf. destruct inode_volume_facts as [H _]. rewrite Forall_forall in H.
  destruct (H i) as [H1 H2]; [apply elem_of_seqZ; unfold slot, NR_INODE in Hi; lia |].
  rewrite Forall_forall in H1. rewrite Forall_forall in H2. split; auto.
Qed.

Lemma inode_volume_ok : inodes small_list [0x306] (fun _ => 4) volume_inode numbered inode_volume.
Proof.
  destruct inode_volume_same as [Hsc Hm]. destruct inode_volume_facts as (_ & Hl & H1 & H2 & H3 & H4 & H5 & H6).
  constructor.
  - exact (serves_same_cache _ _ _ _ Hsc Hm small_serves).
  - intros i Hi. unfold slot, NR_INODE in Hi. unfold inode_at, sizeof_m_inode. cbn [inode_table small_world]. lia.
  - intros d Hd. apply list_elem_of_singleton in Hd as ->. constructor; [lia | lia |].
    exists super_block. split; [| split; [exact H3 | split; [exact H5 | rewrite H4, H6; reflexivity]]]. unfold get_super. change (Z.to_nat NR_SUPER) with 8%nat.
    cbn [get_super_from]. fstep. rewrite H2. reflexivity.
  - intros i Hi. assert (Hz : forall f, f ∈ inode_fields -> cell inode_volume (inode_at i) f = 0) by (intros; by apply slot_zero).
    constructor; rewrite ?Hz by in_list; first [intros f Hf; apply slot_zero; [exact Hi | exact Hf] | reflexivity | lia | (intros H; elim H; reflexivity) | (intros f o n H; elim H; reflexivity)].
  - intros i j Hi _ H. elim H. apply slot_zero; [exact Hi | in_list].
  - intros d nr f o n _ _ Hf. symmetry. by apply volume_inode_field.
  - rewrite Hl. unfold slot, NR_INODE. lia.
Qed.

(** Inode 5 of the device, not in memory yet: bytes 128 and 129 of block 4 are its mode. *)
Lemma iget_witness :
  exists k s', iget 1 0x306 5 inode_volume = Done (inode_at k) s' /\
    cell s' (inode_at k) i_mode = 132 + 256 * 133 /\ cell s' (inode_at k) i_count = 1.
Proof.
  destruct (iget_correct small_list [0x306] (fun _ => 4) volume_inode numbered 1 inode_volume 0x306 5 0)
    as (k & c' & s' & Hrun & Hk & _ & _ & Hfields & _ & Hcnt & _).
  - exact inode_volume_ok.
  - split; [by left |]. split; [lia | by vm_compute].
  - unfold slot, NR_INODE. lia.
  - apply slot_zero; [unfold slot, NR_INODE; lia | in_list].
  - intros j Hj _. rewrite (proj2 (slot_zero j i_count Hj ltac:(in_list))). lia.
  - lia.
  - exists k, s'. split; [exact Hrun |]. split.
    + rewrite Hfields by in_list. reflexivity.
    + apply Hcnt. intros j Hj _. apply slot_zero; [exact Hj | in_list].
Defined.
